(* ===== verification/_CoqProject ===== *)
-Q . S2P
Prelude.v
Json.v
Decimal.v
DecimalText.v
Datetime.v
IsoFormat.v
Api.v
Lifecycle.v
PolicyGraph.v
Tarjan.v
Validator.v
Simulation.v
SimulationStore.v
PolicyStore.v
PolicyRules.v
PolicyApi.v
OfficialSources.v
Query.v
Jobs.v
Outbox.v
Worker.v
ExceptionQueue.v
BoqImport.v
PyFloat.v
PyStr.v
Random.v
Regex.v
SchemaDrift.v
BoqLine.v
Matching.v
BidReadiness.v
Signals.v
TenderDb.v
Ingestion.v
BoqPages.v
SignalPages.v
TenderChanges.v
Idempotency.v
Decisions.v
Schedule.v
WorkerLoop.v
DecisionApi.v
Accounts.v
AdminApi.v
AdminHistory.v
Seeds.v
Ocr.v
ExecutionLedger.v
ExecutionApi.v
Calibration.v
Egress.v
LiveFetch.v
Platform.v
Vendor.v
VendorApi.v
VendorRules.v
Fixtures.v
Shadow.v
Migrations.v
Operations.v
OperationsRules.v
Feedback.v
Backups.v
V1Guard.v
SmokeTest.v
Deployment.v
CollectSignals.v
Responses.v
