(* ===== verification/Prelude.v ===== *)
(** * UNIWatch-v2: a verification development

    UNIWatch watches public tenders. A worker fetches tenders, bills of
    quantities (BOQ) and signals from official sources; an API lets a small team
    decide whether to bid, record how the project went and how the tender ended,
    and edit the policy graphs that describe how decisions are made. The rules
    of the repository ask that no fact be invented and none be lost: what cannot
    be read goes to a queue for a human, evidence is kept, and histories are
    append-only. This library translates the Python of [src/] into Rocq
    functions and proves what those rules come to.

    ** How the program is modelled

    - Python that may raise is a [result E A] (this file): [let! x := m in k] is
      a statement followed by the rest, [raise_if b with e ;; k] an [if b:
      raise e]. [exn] has the exceptions of Python and of the database driver.
    - A database table is a [table R]: rows in insertion order with their ids
      and the next id of the sequence (this file), read by the queries of
      [Query]. Keys, foreign keys, CHECKs and partial unique indexes of
      [migrations/] are checks of the operations that write. A JSONB column
      holds the value itself.
    - A store function returns the new tables or raises; a route ([Api]) is the
      permission check, then the body, and an exception rolls the transaction of
      the request back. Where the code commits in transactions of its own (the
      worker, the capture of evidence, sign-in failures) the model has one
      function per transaction, or gives back what is committed next to the
      response.
    - Time, random tokens and salts are arguments. The present time of a
      transaction is a number of microseconds.
    - Text is a list of UTF-8 bytes. [str.lower], [upper], [strip], [repr] and
      the like are the class [PyText]; [ascii_text] is the instance that the
      witnesses evaluate. SHA-256 and the JSON of stored bytes are the class
      [Bytes], regular expressions the class [PyRegex], the reading of URLs
      [PyUrl], digests of requests [Fingerprints], cursors [CursorText] and
      password hashes [Argon2]; each has a concrete instance for the witnesses.

    ** The files

    Python and the web layer: [Json] (values of [json.loads], their [==] and
    truth value), [PyStr] ([str], [repr]), [Decimal] (28 digits, half even),
    [DecimalText] (the text of a decimal reads back), [PyFloat] (binary64,
    shortest text), [Datetime] ([fromisoformat], naive and aware), [IsoFormat]
    ([isoformat] and its round trip), [Random] (the Mersenne Twister of
    [random.Random]), [Regex], [Query], [Api] (error envelope, permissions,
    transaction), [Platform] (settings, correlation ids, the peer of a request,
    log records).

    Policies ([packages/algorithm], [routers/algoritm.py]): [Lifecycle] (data,
    status transitions), [PolicyGraph] (the structural validator), [Tarjan] and
    [Validator] (what it decides), [Simulation] (replay of a case through a
    graph), [SimulationStore], [PolicyStore] with [PolicyRules] (the store, and
    what every history of its calls keeps), [OfficialSources], [PolicyApi].

    Background work ([packages/platform], [apps/worker]): [Jobs] (durable jobs
    with leases), [Outbox], [Worker], [ExceptionQueue]; [Schedule] (the checks
    of tenders: enqueued by rounds, run as jobs), [WorkerLoop] (the main loop:
    rounds and claimed jobs).

    Tenders ([packages/tender]): [BoqImport] (completeness of an import),
    [SchemaDrift] (frozen shapes of sources), [BoqLine], [Signals] (signals and
    forecast cards), [TenderDb] (evidence, versions, lines), [Ingestion],
    [LiveFetch] (the URLs and the fetches of the connectors over [Egress]),
    [BoqPages] and [SignalPages] (resumable pages), [TenderChanges] (changes
    after submission), [Shadow] (comparison with the records of the first
    version of the program).

    Decisions ([packages/decision], [routers/decision.py]): [Matching] (lines
    against vendor offers), [BidReadiness], [Idempotency], [Decisions],
    [DecisionApi]; [ExecutionLedger] and [ExecutionApi] (plan against fact);
    [Calibration] (outcomes, loss reasons, forecast snapshots); [Ocr] (the OCR
    engine that reads a capture); [Responses] (the bodies the routes of
    policies, outcomes and facts answer).

    Accounts ([packages/platform/auth], [rbac], [routers/auth.py],
    [routers/admin_users.py]): [Accounts], [AdminApi], and [AdminHistory] for
    what holds after any sequence of requests; [Seeds] (the roles and accounts
    of the pilot).

    Vendors ([packages/vendor], [apps/api_vendor], [packages/contracts]):
    [Vendor] (offers from CSV, reputation, the store), [VendorApi] (the routes
    and the client that reads them), [VendorRules] (what holds of them),
    [Fixtures] (the generated vendors, offers and reputation).

    Operations ([packages/platform], [scripts]): [Egress] (the guard of every
    outgoing request and its registry of hosts), [Migrations] (the runner),
    [Operations] and [OperationsRules] (authorization of deployments, restore
    drills, invariant checks, alerts and the readiness probe), [Backups] (their
    names and age), [Feedback] (of the pilot users), [V1Guard] (the check that
    the first version is untouched), [SmokeTest] and [Deployment] (the smoke
    test, and the modelled routes as the deployment it is run against),
    [CollectSignals] (the observability signals).

    The components meet as in the code. [Worker] runs job bodies given as
    arguments. [Ingestion], [BoqPages] and [TenderChanges] act on the one state
    [TenderDb.tdb]; [Decisions.ddb] is that state with the tables of decisions,
    [ExecutionLedger.ldb] adds the ledger and [Calibration.cdb] the outcomes.
    [Matching] feeds [BidReadiness], [DecisionApi] and [Calibration]. The
    routes of policies refine the calls of the store. [Schedule] reads the
    decisions and the tenders, writes the jobs and runs [TenderChanges] in
    their transactions; [WorkerLoop] alternates its rounds with claimed jobs. A
    fetch of [LiveFetch] is a request of [Egress], and its body is what
    [Ingestion] reads. [Deployment] puts the routes and the accounts of [Seeds]
    behind the server of [SmokeTest]. A report of the ledger is what [VendorApi] receives. An
    authorization of [Operations] reads the ledger of [Migrations]; its alerts
    read the tables of policies, accounts, jobs and exceptions, and [Deployment]
    answers the readiness probe from the ledger. A route with an
    idempotency key ([DecisionApi], [Feedback]) runs under
    [Idempotency.guarded].

    ** What the theorems show

    - Policies: the validator accepts exactly the well-formed graphs and returns
      on every hashable input; its component search is correct; a replay ends
      and each step of it is explained by the graph; along every history one
      version of a graph is active, the calls the program makes leave approved
      content as it is (of all calls only a batch for several versions can change
      it), and approval and activation pass their gates. Two lemmas show where the
      code stops short: the transition route bypasses the gates, and suspended
      content is mutable.
    - Background work: a lease is exclusive under every interleaving, as long as
      no failure report was under way when it began (a failure report is two
      statements, between which others commit; a lemma shows the lease lost
      otherwise); the job table keeps its invariant; a failing body never ends the loop of the worker;
      the outbox drains; the pages of an import are processed exactly once;
      a tender with a bid is checked every six hours and no more often, as long
      as rounds do not overlap each other; other work may commit within one.
    - Tenders: an ingested response leaves its evidence and either a version or
      a record of its drift; a version is written only on a change; a page of
      signals adds those of its items or records its drift; a check flags what
      changed and loses nothing; a comparison lists exactly the differences;
      evidence is what a trusted host served, over a connection the guard let
      through.
    - Decisions: a stored decision refers to what its tender has, replays of a
      request give back the first response; the traffic light and the list of
      critical lines follow their rules; a capture survives whatever fails after
      it, and each way it can fail says what is open for a human and what the
      vendor service was told; a project contributes the exact counts once; outcomes, reasons and
      links keep their invariant; a price comparison never stands on a missing
      number; the OCR engine returns exactly the texts its server answered; the
      bodies of the responses lose nothing of their rows.
    - Vendors: a vendor reads the own offers, all of them, and no others; a
      client that follows the cursors gets every offer once, or an error exactly
      when some offer cannot be served (a number that is not finite, a fact that
      runs out beyond the range of the database); a bad report lowers the tier of the vendor it is about; the store accepts the
      generated offers, and their labels say what is adverse about them.
    - Operations: an address is refused exactly as the ranges say and every
      connection of a fetch goes to one that is not; each migration runs once,
      if no two files have one version, and a run that stops says where; every
      authorization of a deployment was written by a run of the command for
      another approver than the author and for the commit that GitHub and the
      manifest named; the alerts fire exactly when an invariant is broken; the name of a backup
      gives back its time; feedback is kept; a forwarding header counts only
      from a trusted network; a seeded deployment passes the smoke test exactly
      when its schema is at the expected version; the signals report exactly the
      tables.
    - Accounts: a session stands for exactly one sign-in of an active user and
      for twelve hours at most; of requests handled one after another, guesses
      of a password are bounded and no update overwrites one it did not see
      (lemmas show what overlapping ones do); a disabled user is shut out; the
      seeding of the pilot adds its roles and accounts and touches no other.

    ** Fuel and bounds

    [strongconnect] and the worklist of reachability have the number of nodes as
    fuel, and [Validator.validate_graph_total] shows they never run out of it.
    The replay of [Simulation] runs the number of steps the code itself allows.
    The page walk of [TenderChanges] has fuel for the pages of a tender, and a
    theorem gives the amount that is enough; so does the theorem on the cursors
    of the vendor service for its client. The loops of rejected draws of
    [Random] have fuel, and the run of [Fixtures] on the seed of the
    repository's tests does not use it up. Ids and counters are integers
    without width, as in Python; the database's 64 bits are not modelled.

    ** Not modelled, and why

    - The decisions of external services: PostgreSQL beyond the constraints
      above, argon2, the model behind the OCR engine, the HTTP client, FastAPI
      and pydantic's reading of a request (the routes take the typed request).
      The responses of the decision and vendor routes are the records the
      routes return, not their JSON.
    - How a NUMERIC column rounds and prints a number. What the driver and the
      columns refuse is a parameter where facts of execution are stored
      ([ExecutionLedger.Columns]: the digits of NUMERIC, null characters) and left
      out elsewhere; sums of times are kept in the range of TIMESTAMPTZ where a
      query adds them ([Vendor]). Also not modelled are the limits of Python's
      recursion and of [decimal]'s exponents; basic and week ISO formats.
    - Concurrent transactions are modelled where the code depends on them
      (claims and failure reports of jobs, rounds of checks); elsewhere a request
      is one step, and lemmas show what overlaps do to [If-Match], sign-in
      attempts and the enqueueing of exceptions, which read before they write
      and lock nothing.
    - What a script of a migration does, [pg_dump], [pg_restore], the catalog of
      PostgreSQL and what GitHub and the network answer are parameters.
    - Two workers that schedule checks at a time: a lemma of [Schedule] shows
      what an overlap does.
    - The wiring of FastAPI, SQLAlchemy and the log handlers
      ([apps/*/main.py], [build_app], [db.py]), printing and the reading of
      command lines, the web client, migrations as SQL text: input/output and
      configuration. *)

From Stdlib Require Import ZArith Ascii.
From stdpp Require Import base gmap strings list sorting relations pretty.


#[export] Set Default Proof Using "Type".

(** ** Fallible code: values or raised exceptions *)

Inductive result (E A : Type) : Type :=
| Ok (a : A)
| Err (e : E).
Arguments Ok {E A} a.
Arguments Err {E A} e.

Declare Scope uw_scope.
Delimit Scope uw_scope with uw.

Definition rbind {E A B : Type} (m : result E A) (k : A → result E B) : result E B :=
  match m with
  | Ok a => k a
  | Err e => Err e
  end.

(** A Python statement that may raise, followed by the rest of the block. *)
Notation "'let!' x ':=' m 'in' k" := (rbind m (λ x, k))
  (at level 10, x name, m at level 100, k at level 200) : uw_scope.
Notation "'let!' ' p ':=' m 'in' k" := (rbind m (λ x, match x with p => k end))
  (at level 10, p pattern, m at level 100, k at level 200) : uw_scope.
(** An early [raise] guarded by a condition. *)
Notation "'raise_if' b 'with' e ';;' k" := (if b then Err e else k)
  (at level 10, b at level 99, e at level 99, k at level 200) : uw_scope.
Open Scope uw_scope.

(** The exception classes the components share, with their rendered message. *)
Inductive exn :=
| ValueError (msg : string)
| KeyError (key : string)
| TypeError (msg : string)
| IntegrityError (constraint : string)
| InvalidOperation (msg : string)
| StopIteration
| MultipleResultsFound
| AttributeError (msg : string)
| AssertionFailed (msg : string)
| NoResultFound
| IndexError (msg : string)
| DataError (msg : string)
| OverflowError (msg : string).
#[export] Instance exn_eq_dec : EqDecision exn.
Proof. solve_decision. Defined.

Definition is_ok {E A} (m : result E A) : bool :=
  match m with Ok _ => true | Err _ => false end.

Definition map_err {E F A} (f : E → F) (m : result E A) : result F A :=
  match m with Ok a => Ok a | Err e => Err (f e) end.

(** A [for] loop whose body may raise, threading the loop's state. *)
Fixpoint foldM {E A S : Type} (f : S → A → result E S) (s : S) (l : list A) : result E S :=
  match l with
  | [] => Ok s
  | a :: l' => let! s' := f s a in foldM f s' l'
  end.

(** A comprehension whose body may raise. *)
Fixpoint mapM {E A B : Type} (f : A → result E B) (l : list A) : result E (list B) :=
  match l with
  | [] => Ok []
  | a :: l' => let! b := f a in let! bs := mapM f l' in Ok (b :: bs)
  end.

Lemma rbind_ok {E A B} (m : result E A) (k : A → result E B) b :
  rbind m k = Ok b ↔ ∃ a, m = Ok a ∧ k a = Ok b.
Proof. destruct m; simpl; naive_solver. Qed.

Lemma rbind_err {E A B} (m : result E A) (k : A → result E B) e :
  rbind m k = Err e ↔ m = Err e ∨ ∃ a, m = Ok a ∧ k a = Err e.
Proof. destruct m; simpl; naive_solver. Qed.

Lemma map_err_ok {E F A} (f : E → F) (m : result E A) a : map_err f m = Ok a ↔ m = Ok a.
Proof. destruct m; simpl; naive_solver. Qed.

Lemma foldM_app {E A S} (f : S → A → result E S) s l1 l2 :
  foldM f s (l1 ++ l2) = rbind (foldM f s l1) (λ s', foldM f s' l2).
Proof. revert s; induction l1 as [|a l1 IH]; intros s; simpl; [done|]. destruct (f s a); simpl; auto. Qed.

Lemma rev_case {A} (l : list A) : l = [] ∨ ∃ x l', l = l' ++ [x].
Proof. destruct l using rev_ind; eauto. Qed.

Lemma mbind_nil {A B} (f : A → list B) l : l ≫= f = [] ↔ ∀ x, x ∈ l → f x = [].
Proof.
  induction l as [|a l IH]; simpl; [set_solver|].
  split.
  - intros [Ha Hl]%app_nil. intros x [->|Hx]%elem_of_cons; [done|by apply IH].
  - intros Hx. rewrite (Hx a) by set_solver. apply IH. set_solver.
Qed.

Lemma nil_no_elem {A} (l : list A) : l = [] ↔ ∀ x, x ∉ l.
Proof. split; [intros ->; set_solver|]. destruct l as [|x l]; [done|]. intros Hx. by destruct (Hx x); left. Qed.

Lemma map_nil {A B} (f : A → B) l : map f l = [] ↔ l = [].
Proof. by destruct l. Qed.

(** A loop that only appends to its accumulator. *)
Lemma foldM_append {E A B} (g : A → result E (list B)) l acc :
  foldM (λ s a, let! bs := g a in Ok (s ++ bs)) acc l =
  (let! bss := mapM g l in Ok (acc ++ concat bss)).
Proof.
  revert acc; induction l as [|a l IH]; intros acc; simpl; [by rewrite app_nil_r|].
  destruct (g a) as [bs|e]; simpl; [|done]. rewrite IH.
  destruct (mapM g l); simpl; [by rewrite <-app_assoc|done].
Qed.

(** The loops of the program append under conditions; up to extensionality they
    are of that form. *)
Lemma foldM_ext {E A S} (f g : S → A → result E S) l s :
  (∀ s a, a ∈ l → f s a = g s a) → foldM f s l = foldM g s l.
Proof.
  revert s; induction l as [|a l IH]; intros s Hfg; simpl; [done|].
  rewrite Hfg by set_solver. destruct (g s a); simpl; [|done]. apply IH. set_solver.
Qed.

(** Such a loop returns when every body does, and adds nothing when every body
    adds nothing. *)
Lemma foldM_append_ok {E A B} (g : A → result E (list B)) l acc :
  (∀ a, a ∈ l → ∃ bs, g a = Ok bs) →
  ∃ bs, foldM (λ s a, let! bs := g a in Ok (s ++ bs)) acc l = Ok (acc ++ bs) ∧
    (bs = [] ↔ ∀ a, a ∈ l → g a = Ok []).
Proof.
  intros Hg. rewrite foldM_append.
  assert (∃ bss, mapM g l = Ok bss ∧ (concat bss = [] ↔ ∀ a, a ∈ l → g a = Ok [])) as (bss & -> & Hb).
  { induction l as [|a l IH]; simpl; [exists []; set_solver|].
    destruct (Hg a) as [bs Hbs]; [set_solver|]. rewrite Hbs; simpl.
    destruct IH as (bss & -> & IH); [set_solver|]. simpl. exists (bs :: bss). split; [done|]. simpl. split.
    - intros [-> Hc]%app_nil. intros x [->|Hx]%elem_of_cons; [done|by apply IH].
    - intros Hx. rewrite Hx in Hbs by set_solver. injection Hbs as <-. apply IH. set_solver. }
  simpl. eauto.
Qed.

Lemma NoDup_concat_elem {A} (ls : list (list A)) l : NoDup (concat ls) → l ∈ ls → NoDup l.
Proof.
  induction ls as [|l' ls IH]; simpl; [set_solver|].
  intros (Hl & _ & Hls)%NoDup_app [->|Hin]%elem_of_cons; auto.
Qed.

Lemma ex_snoc {A} (P : A → Prop) l x :
  (∃ y, y ∈ l ++ [x] ∧ P y) ↔ (∃ y, y ∈ l ∧ P y) ∨ P x.
Proof.
  setoid_rewrite elem_of_app. setoid_rewrite list_elem_of_singleton. split.
  - intros (y & [?| ->] & ?); eauto.
  - intros [(y & ? & ?)|?]; eauto.
Qed.

(** Rule of a [for] loop: an invariant kept by every body that returns. *)
Lemma foldM_inv {E A S} (P : S → Prop) (f : S → A → result E S) l s s' :
  (∀ s a s', a ∈ l → P s → f s a = Ok s' → P s') →
  P s → foldM f s l = Ok s' → P s'.
Proof.
  revert s; induction l as [|a l IH]; intros s Hstep Hs; simpl; [naive_solver|].
  rewrite rbind_ok; intros (s1 & H1 & H2).
  eapply (IH s1); [|eapply (Hstep s a s1)|done]; [set_solver|set_solver|done|done].
Qed.

(** The invariant may mention the elements already done. *)
Lemma foldM_inv_prefix {E A S} (P : list A → S → Prop) (f : S → A → result E S) l s s' :
  (∀ dn a rest s s', l = dn ++ a :: rest → P dn s → f s a = Ok s' → P (dn ++ [a]) s') →
  P [] s → foldM f s l = Ok s' → P l s'.
Proof.
  intros Hstep. enough (∀ rest dn s, l = dn ++ rest → P dn s → foldM f s rest = Ok s' → P l s') as Hgen
    by (intros; by apply (Hgen l [] s)).
  induction rest as [|a rest IH]; intros dn s0 Hl Hs; simpl.
  - rewrite app_nil_r in Hl; subst. by intros [= <-].
  - rewrite rbind_ok. intros (s1 & H1 & H2). apply (IH (dn ++ [a]) s1); [by rewrite <-app_assoc| |done].
    by eapply Hstep.
Qed.

(** The same loop never raises when the invariant lets every body return; the
    invariant may mention the elements already done. *)
Lemma foldM_total {E A S} (P : list A → S → Prop) (f : S → A → result E S) l s :
  (∀ done a rest s, l = done ++ a :: rest → P done s → ∃ s', f s a = Ok s' ∧ P (done ++ [a]) s') →
  P [] s → ∃ s', foldM f s l = Ok s' ∧ P l s'.
Proof.
  intros Hstep. enough (∀ rest done s, l = done ++ rest → P done s →
    ∃ s', foldM f s rest = Ok s' ∧ P l s') as Hgen by (intros; by apply (Hgen l [])).
  induction rest as [|a rest IH]; intros dn s0 Hl Hs; simpl.
  - rewrite app_nil_r in Hl; subst. by exists s0.
  - destruct (Hstep dn a rest s0 Hl Hs) as (s1 & -> & Hs1). simpl.
    apply (IH (dn ++ [a])); [by rewrite <-app_assoc|done].
Qed.

Lemma mapM_Forall2 {E A B} (f : A → result E B) l k :
  mapM f l = Ok k ↔ Forall2 (λ a b, f a = Ok b) l k.
Proof.
  revert k; induction l as [|a l IH]; intros k; simpl.
  - split; [intros [= <-]; constructor|by inversion 1].
  - rewrite rbind_ok. setoid_rewrite rbind_ok. split.
    + intros (b & Hb & bs & Hbs & [= <-]). constructor; [done|]. by apply IH.
    + inversion 1 as [|? b ? bs Hb Hbs]; simplify_eq. exists b; split; [done|].
      exists bs; split; [by apply IH|done].
Qed.

(** [inv_ok] opens every hypothesis that says a block returned. *)
Ltac inv_ok_step :=
  match goal with
  | H : Ok _ = Ok _ |- _ => injection H as H
  | H : Err _ = Err _ |- _ => injection H as H
  | H : Ok _ = Err _ |- _ => discriminate H
  | H : Err _ = Ok _ |- _ => discriminate H
  | H : rbind _ _ = Ok _ |- _ =>
      apply rbind_ok in H; let a := fresh "r" in let Ha := fresh "Hr" in destruct H as (a & Ha & H)
  | p : (_ * _)%type |- _ => destruct p
  | H : (_, _) = (_, _) |- _ => injection H as H
  | H : (if ?b then Err _ else _) = Ok _ |- _ =>
      let Hb := fresh "Hb" in destruct b eqn:Hb; [discriminate H|]
  end.
Ltac inv_ok := repeat (inv_ok_step; simpl in *); simplify_eq/=.

(** Membership of a concrete value in a concrete list. *)
Ltac concrete_mem := refine (bool_decide_eq_true_1 _ _); vm_compute; reflexivity.

(** ** Tables with a [BIGSERIAL] primary key

    A table is the list of its rows in insertion order, each under the id the
    sequence gave it. [ORDER BY id] is the list order when the table is
    well-formed. *)

Record table (R : Type) := Table { rows : list (Z * R); next_id : Z }.
Arguments Table {R} rows next_id.
Arguments rows {R} t.
Arguments next_id {R} t.

Section Tables.
Context {R : Type}.
Implicit Types (t : table R) (r : R).

Definition tbl_empty : table R := Table [] 1.

(** [INSERT ... RETURNING id] *)
Definition tbl_insert t r : Z * table R :=
  (next_id t, Table (rows t ++ [(next_id t, r)]) (next_id t + 1)).

(** [SELECT ... WHERE p ORDER BY id] *)
Definition tbl_select (p : Z → R → bool) t : list (Z * R) :=
  filter (λ ir, p ir.1 ir.2 = true) (rows t).

(** [SELECT ... WHERE id = i] *)
Definition tbl_get t (i : Z) : option R :=
  match tbl_select (λ j _, bool_decide (j = i)) t with
  | [] => None
  | (_, r) :: _ => Some r
  end.

(** [UPDATE ... SET f WHERE p] *)
Definition tbl_update (p : Z → R → bool) (f : R → R) t : table R :=
  Table (map (λ ir, if p ir.1 ir.2 then (ir.1, f ir.2) else ir) (rows t)) (next_id t).

Definition tbl_set (i : Z) (f : R → R) t : table R :=
  tbl_update (λ j _, bool_decide (j = i)) f t.

Definition tbl_wf t : Prop :=
  StronglySorted Z.lt (rows t).*1 ∧ Forall (λ i, i < next_id t)%Z (rows t).*1.

Lemma tbl_empty_wf : tbl_wf tbl_empty.
Proof. split; constructor. Qed.
Lemma tbl_get_spec t i r : tbl_wf t → tbl_get t i = Some r ↔ (i, r) ∈ rows t.
Proof.
  intros [Hs _]. unfold tbl_get, tbl_select.
  induction (rows t) as [|[j r'] l IH]; simpl; [set_solver|].
  apply StronglySorted_inv in Hs as [Hs Hall]. rewrite filter_cons; simpl.
  case_decide as Hj; simpl.
  - apply bool_decide_eq_true in Hj as ->. rewrite elem_of_cons. split; [naive_solver|].
    intros [?|Hin]; [naive_solver|]. exfalso.
    rewrite Forall_forall in Hall.
    assert (i < i)%Z; [apply Hall; apply list_elem_of_fmap; by exists (i, r)|lia].
  - rewrite IH by done. rewrite elem_of_cons. split; [by right|].
    intros [[= -> ->]|?]; [|done]. by rewrite bool_decide_true in Hj.
Qed.

Lemma tbl_insert_wf t r : tbl_wf t → tbl_wf (tbl_insert t r).2.
Proof.
  intros [Hs Hb]; split; simpl; rewrite fmap_app; simpl.
  - induction (rows t) as [|[j r'] l IH]; simpl in *; [repeat constructor|].
    apply StronglySorted_inv in Hs as [Hs Hall]; inversion Hb; simplify_eq.
    constructor; [by apply IH|]. apply Forall_app; split; [done|by repeat constructor].
  - apply Forall_app; split; [eapply Forall_impl; [done|simpl; lia]|].
    repeat constructor; simpl; lia.
Qed.

Lemma tbl_update_ids p f t : (rows (tbl_update p f t)).*1 = (rows t).*1.
Proof.
  unfold tbl_update; simpl. induction (rows t) as [|[j r] l IH]; [done|].
  cbn. rewrite <-IH. by destruct (p j r).
Qed.

Lemma tbl_update_wf p f t : tbl_wf t → tbl_wf (tbl_update p f t).
Proof. unfold tbl_wf. by rewrite tbl_update_ids. Qed.

Lemma tbl_get_insert_new t r : tbl_wf t → tbl_get (tbl_insert t r).2 (next_id t) = Some r.
Proof.
  intros Hw. apply tbl_get_spec; [by apply tbl_insert_wf|]. simpl. set_solver.
Qed.

Lemma tbl_get_insert_old t r i :
  i ≠ next_id t → tbl_get (tbl_insert t r).2 i = tbl_get t i.
Proof.
  intros Hi. unfold tbl_get, tbl_select; simpl. rewrite filter_app, filter_cons, filter_nil.
  rewrite decide_False; [by rewrite app_nil_r|]. simpl. by rewrite bool_decide_eq_true.
Qed.

Lemma tbl_get_lt t i r : tbl_wf t → tbl_get t i = Some r → (i < next_id t)%Z.
Proof.
  intros Hw Hg. pose proof Hw as [_ Hb]. apply tbl_get_spec in Hg; [|done].
  rewrite Forall_forall in Hb. apply Hb. apply list_elem_of_fmap. by exists (i, r).
Qed.

Lemma tbl_get_set_eq t i f : tbl_get (tbl_set i f t) i = f <$> tbl_get t i.
Proof.
  unfold tbl_get, tbl_select, tbl_set; simpl.
  induction (rows t) as [|[j r] l IH]; simpl; [done|].
  destruct (bool_decide (j = i)) eqn:Hj; simpl; rewrite ?filter_cons; simpl; rewrite Hj; simpl.
  - done.
  - done.
Qed.

Lemma tbl_get_set_ne t i j f : i ≠ j → tbl_get (tbl_set i f t) j = tbl_get t j.
Proof.
  intros Hij. unfold tbl_get, tbl_select, tbl_set; simpl.
  induction (rows t) as [|[k r] l IH]; simpl; [done|].
  destruct (bool_decide (k = i)) eqn:Hk; simpl; rewrite ?filter_cons; simpl.
  - apply bool_decide_eq_true in Hk as ->. by rewrite bool_decide_false.
  - by destruct (bool_decide (k = j)).
Qed.

Lemma elem_of_tbl_select p t i r : (i, r) ∈ tbl_select p t ↔ p i r = true ∧ (i, r) ∈ rows t.
Proof. unfold tbl_select. by rewrite list_elem_of_filter. Qed.

Lemma tbl_ids_NoDup t : tbl_wf t → NoDup (rows t).*1.
Proof.
  intros [Hs _]. induction Hs as [|i l _ IH Hall]; [constructor|].
  constructor; [|done]. intros Hi. rewrite Forall_forall in Hall. specialize (Hall i Hi). lia.
Qed.

Lemma tbl_select_ids_NoDup p t : tbl_wf t → NoDup (tbl_select p t).*1.
Proof.
  intros Hw. eapply sublist_NoDup; [by apply tbl_ids_NoDup|].
  unfold tbl_select. f_equiv. apply sublist_filter.
Qed.

Lemma elem_of_select_ids p t i :
  tbl_wf t → i ∈ (tbl_select p t).*1 ↔ ∃ r, tbl_get t i = Some r ∧ p i r = true.
Proof.
  intros Hw. rewrite list_elem_of_fmap. split.
  - intros ([j r] & -> & [Hp Hin]%elem_of_tbl_select). exists r. by rewrite tbl_get_spec.
  - intros (r & Hr & Hp). exists (i, r). rewrite elem_of_tbl_select, <-tbl_get_spec by done. done.
Qed.

(** A selection is no longer when every id it has is in another. *)
Lemma tbl_select_ids_le p t q t' :
  tbl_wf t → (∀ i, i ∈ (tbl_select p t).*1 → i ∈ (tbl_select q t').*1) →
  (length (tbl_select p t).*1 <= length (tbl_select q t').*1)%nat.
Proof.
  intros Hw Hin. apply submseteq_length, NoDup_submseteq; [by apply tbl_select_ids_NoDup|done].
Qed.

Lemma tbl_get_None_select t i : tbl_get t i = None ↔ ∀ r, (i, r) ∉ rows t.
Proof.
  unfold tbl_get, tbl_select. induction (rows t) as [|[j r] l IH]; simpl; [set_solver|].
  rewrite filter_cons. simpl. destruct (bool_decide (j = i)) eqn:Hj; simpl.
  - apply bool_decide_eq_true in Hj as ->. split; [done|]. intros Hr. destruct (Hr r). by left.
  - apply bool_decide_eq_false in Hj. rewrite IH. split; intros Hr r'.
    + rewrite elem_of_cons. intros [?|?]; [congruence|by apply (Hr r')].
    + intros Hin. apply (Hr r'). by right.
Qed.

Lemma tbl_get_next t : tbl_wf t → tbl_get t (next_id t) = None.
Proof.
  intros [_ Hb]. apply tbl_get_None_select. intros r Hin. rewrite Forall_forall in Hb.
  specialize (Hb (next_id t) ltac:(apply list_elem_of_fmap; by exists (next_id t, r))). lia.
Qed.

Lemma tbl_select_insert p t r :
  tbl_select p (tbl_insert t r).2 = tbl_select p t ++ (if p (next_id t) r then [(next_id t, r)] else []).
Proof.
  unfold tbl_select; simpl. rewrite filter_app, filter_cons, filter_nil. simpl.
  by destruct (p (next_id t) r).
Qed.

(** The same on the record a reduction may have exposed. *)
Lemma tbl_select_snoc p (l : list (Z * R)) i n r :
  tbl_select p (Table (l ++ [(i, r)]) n) = tbl_select p (Table l n) ++ (if p i r then [(i, r)] else []).
Proof.
  unfold tbl_select; simpl. rewrite filter_app, filter_cons, filter_nil. simpl. by destruct (p i r).
Qed.

Lemma tbl_select_next p (l : list (Z * R)) n n' : tbl_select p (Table l n) = tbl_select p (Table l n').
Proof. done. Qed.

Lemma tbl_select_update p q f t :
  (∀ i r, q i (f r) = q i r) →
  (tbl_select q (tbl_update p f t)).*1 = (tbl_select q t).*1.
Proof.
  intros Hq. unfold tbl_select; simpl. induction (rows t) as [|[i r] l IH]; simpl; [done|].
  destruct (p i r); simpl; rewrite !filter_cons; simpl; rewrite ?Hq; destruct (q i r) eqn:Hr; simpl;
    rewrite ?Hr; simpl; try (f_equal; apply IH); apply IH.
Qed.
End Tables.

Arguments tbl_insert : simpl never.
Arguments tbl_select : simpl never.
Arguments tbl_get : simpl never.
Arguments tbl_set : simpl never.

Create HintDb uw.
Create Rewrite HintDb uw.
#[export] Hint Resolve tbl_insert_wf tbl_update_wf tbl_get_insert_new : uw.
#[export] Hint Rewrite @tbl_get_set_eq : uw.

(** ** Sorted sets of strings: Python's [sorted] on a set of strings *)

Definition sort_strings (l : list string) : list string := merge_sort String.le l.
Definition sorted_set (X : gset string) : list string := sort_strings (elements X).

Lemma elem_of_sort_strings x l : x ∈ sort_strings l ↔ x ∈ l.
Proof. unfold sort_strings. by rewrite merge_sort_Permutation. Qed.

Lemma elem_of_sorted_set x X : x ∈ sorted_set X ↔ x ∈ X.
Proof. unfold sorted_set. by rewrite elem_of_sort_strings, elem_of_elements. Qed.

Lemma NoDup_sorted_set X : NoDup (sorted_set X).
Proof. unfold sorted_set, sort_strings. rewrite merge_sort_Permutation. apply NoDup_elements. Qed.

Lemma sorted_set_sorted X : StronglySorted String.le (sorted_set X).
Proof. apply StronglySorted_merge_sort; apply _. Qed.

Lemma sorted_set_nil X : sorted_set X = [] ↔ X = ∅.
Proof.
  split; intros H; [|by subst].
  apply set_eq; intros x. rewrite <-elem_of_sorted_set, H. set_solver.
Qed.

Lemma set_difference_empty (X Y : gset string) : X ∖ Y = ∅ ↔ X ⊆ Y.
Proof.
  rewrite elem_of_equiv_empty_L. split.
  - intros Hx x Hin. destruct (decide (x ∈ Y)); [done|]. destruct (Hx x). set_solver.
  - intros Hs x. set_solver.
Qed.

#[export] Hint Rewrite elem_of_sorted_set : uw.

Lemma size_list_to_set_le (l : list string) : (size (list_to_set l : gset string) <= length l)%nat.
Proof.
  induction l as [|x l IH]; [apply Nat.le_refl|].
  cbn [list_to_set length foldr]. rewrite size_union_alt.
  pose proof (subseteq_size (list_to_set l ∖ {[x]} : gset string) (list_to_set l) ltac:(set_solver)).
  rewrite size_singleton. lia.
Qed.

Lemma length_removelast {A} (l : list A) : length (removelast l) = pred (length l).
Proof.
  destruct (rev_case l) as [->|(x & l' & ->)]; [done|].
  rewrite List.removelast_last, length_app. simpl. lia.
Qed.

(** ** Python's text operations

    The case, blank and printing tables of [str] cover all of Unicode; the
    development is generic in them. [ascii_text] is their restriction to
    ASCII, used to evaluate concrete inputs. *)

Class PyText := {
  py_lower : string → string;
  py_upper : string → string;
  py_strip : string → string;
  py_repr : string → string;
  py_strip_empty : py_strip "" = "";
  py_strip_idem : ∀ s, py_strip (py_strip s) = py_strip s;
}.

(** [not s.strip()] *)
Definition is_blank `{PyText} (s : string) : bool := bool_decide (py_strip s = "").

(** [sep.join(l)] *)
Fixpoint str_join (sep : string) (l : list string) : string :=
  match l with
  | [] => ""
  | [s] => s
  | s :: l' => s +:+ sep +:+ str_join sep l'
  end.

(** [repr] of a list of strings *)
Definition py_repr_list `{PyText} (l : list string) : string :=
  "[" +:+ str_join ", " (map py_repr l) +:+ "]".

(** [str(n)] of an integer *)
Definition py_str_Z (n : Z) : string := pretty n.

(** [needle in haystack] on strings *)
Fixpoint str_contains (needle haystack : string) : bool :=
  String.prefix needle haystack ||
  match haystack with
  | EmptyString => false
  | String _ rest => str_contains needle rest
  end.

Section Ascii.
Local Open Scope char_scope.

Definition ascii_code (c : ascii) : nat := Ascii.nat_of_ascii c.
Definition is_ascii_space (c : ascii) : bool :=
  let n := ascii_code c in ((9 <=? n) && (n <=? 13) || (28 <=? n) && (n <=? 32))%nat.
Definition ascii_lower (c : ascii) : ascii :=
  let n := ascii_code c in
  if ((65 <=? n) && (n <=? 90))%nat then Ascii.ascii_of_nat (n + 32) else c.
Definition ascii_upper (c : ascii) : ascii :=
  let n := ascii_code c in
  if ((97 <=? n) && (n <=? 122))%nat then Ascii.ascii_of_nat (n - 32) else c.

Definition str_map (f : ascii → ascii) (s : string) : string :=
  String.string_of_list_ascii (map f (String.list_ascii_of_string s)).

Fixpoint drop_spaces (l : list ascii) : list ascii :=
  match l with
  | [] => []
  | c :: l' => if is_ascii_space c then drop_spaces l' else l
  end.

Definition strip_chars (l : list ascii) : list ascii :=
  reverse (drop_spaces (reverse (drop_spaces l))).

Definition ascii_strip (s : string) : string :=
  String.string_of_list_ascii (strip_chars (String.list_ascii_of_string s)).

Definition hex_digit (n : nat) : ascii :=
  Ascii.ascii_of_nat (if (n <? 10)%nat then 48 + n else 87 + n).

Definition repr_char (quote c : ascii) : list ascii :=
  let n := ascii_code c in
  if bool_decide (c = quote) || bool_decide (n = 92) then ["\"; c]
  else if bool_decide (n = 9) then ["\"; "t"]
  else if bool_decide (n = 10) then ["\"; "n"]
  else if bool_decide (n = 13) then ["\"; "r"]
  else if ((n <? 32) || (n =? 127))%nat then
    ["\"; "x"; hex_digit (n `div` 16); hex_digit (n `mod` 16)]
  else [c].

Definition ascii_repr (s : string) : string :=
  let l := String.list_ascii_of_string s in
  let single := Ascii.ascii_of_nat 39 in
  let double := Ascii.ascii_of_nat 34 in
  let quote := if bool_decide (single ∈ l) && negb (bool_decide (double ∈ l)) then double else single in
  String.string_of_list_ascii (quote :: (l ≫= repr_char quote) ++ [quote]).

Lemma drop_spaces_idem l : drop_spaces (drop_spaces l) = drop_spaces l.
Proof. induction l as [|c l IH]; simpl; [done|]. destruct (is_ascii_space c) eqn:Hc; simpl; by rewrite ?Hc. Qed.

Lemma drop_spaces_suffix l : ∃ k, l = k ++ drop_spaces l.
Proof.
  induction l as [|c l [k IH]]; simpl; [by exists []|].
  destruct (is_ascii_space c); [exists (c :: k); simpl; by f_equal|by exists []].
Qed.

(** Dropping the blanks at one end keeps the other end without blanks. *)
Lemma drop_spaces_reverse l :
  drop_spaces l = l → drop_spaces (reverse (drop_spaces (reverse l))) = reverse (drop_spaces (reverse l)).
Proof.
  intros Hl. destruct (drop_spaces_suffix (reverse l)) as [k Hk].
  destruct l as [|c l]; [done|]. simpl in Hl.
  destruct (is_ascii_space c) eqn:Hc.
  { exfalso. destruct (drop_spaces_suffix l) as [k' Hk'].
    apply (f_equal length) in Hl, Hk'. rewrite length_app in Hk'. simpl in *; lia. }
  destruct (reverse (drop_spaces (reverse (c :: l)))) as [|c' l'] eqn:He; [done|].
  apply (f_equal reverse) in Hk. rewrite reverse_involutive, reverse_app, He in Hk.
  simplify_eq/=. by rewrite Hc.
Qed.

Lemma strip_chars_idem l : strip_chars (strip_chars l) = strip_chars l.
Proof.
  unfold strip_chars. rewrite (drop_spaces_reverse (drop_spaces l)) by apply drop_spaces_idem.
  by rewrite reverse_involutive, drop_spaces_idem.
Qed.

Definition ascii_text : PyText.
Proof.
  refine {| py_lower := str_map ascii_lower; py_upper := str_map ascii_upper;
            py_strip := ascii_strip; py_repr := ascii_repr |}; [done|].
  intros s. unfold ascii_strip. by rewrite String.list_ascii_of_string_of_list_ascii, strip_chars_idem.
Defined.
End Ascii.
