(* ===== verification/Json.v ===== *)
(** * JSON values as Python sees them

    The JSONB columns, the request bodies and the responses of the program
    hold values of [json.loads]. This file has that data type, Python's [==]
    and truth value on it, [isinstance(v, int)] and [dict.get]. *)

From stdpp Require Import base gmap strings list.
From Stdlib Require Import ZArith SpecFloat.
From S2P Require Import Prelude.

(** [JFloat] carries a binary64 of the Standard Library. *)
#[warnings="-register-all"] Inductive json :=
| JNull
| JBool (b : bool)
| JInt (z : Z)
| JFloat (f : spec_float)
| JStr (s : string)
| JArr (l : list json)
| JObj (l : list (string * json)).

(** Exact comparison of an integer with a float. *)
Definition Z_eq_float (z : Z) (f : spec_float) : bool :=
  match f with
  | S754_zero _ => Z.eqb z 0
  | S754_finite s m e =>
      let sm := if s then Z.neg m else Z.pos m in
      if Z.leb 0 e then Z.eqb z (sm * 2 ^ e) else Z.eqb (z * 2 ^ (- e)) sm
  | _ => false
  end.

Definition bool_Z (b : bool) : Z := if b then 1%Z else 0%Z.

(** [d.get(k)] on an association list with distinct keys *)
Fixpoint assoc {A} (k : string) (l : list (string * A)) : option A :=
  match l with
  | [] => None
  | (k', v) :: l' => if String.eqb k k' then Some v else assoc k l'
  end.

(** Python's [==] on decoded JSON: [True == 1], [1 == 1.0], lists by
    position, dicts without regard to order. *)
Fixpoint py_eq (a b : json) {struct a} : bool :=
  match a, b with
  | JNull, JNull => true
  | JStr s, JStr t => String.eqb s t
  | JArr l, JArr k =>
      (fix go (l k : list json) {struct l} : bool :=
         match l, k with
         | [], [] => true
         | x :: l', y :: k' => py_eq x y && go l' k'
         | _, _ => false
         end) l k
  | JObj l, JObj k =>
      Nat.eqb (length l) (length k) &&
      forallb (λ xv : string * json,
        match assoc xv.1 k with Some w => py_eq xv.2 w | None => false end) l
  | JBool x, JBool y => Bool.eqb x y
  | JBool x, JInt y => Z.eqb (bool_Z x) y
  | JInt x, JBool y => Z.eqb x (bool_Z y)
  | JBool x, JFloat y => Z_eq_float (bool_Z x) y
  | JFloat x, JBool y => Z_eq_float (bool_Z y) x
  | JInt x, JInt y => Z.eqb x y
  | JInt x, JFloat y => Z_eq_float x y
  | JFloat x, JInt y => Z_eq_float y x
  | JFloat x, JFloat y => SFeqb x y
  | _, _ => false
  end.

(** [bool(v)] *)
Definition py_truthy (a : json) : bool :=
  match a with
  | JNull => false
  | JBool b => b
  | JInt z => negb (Z.eqb z 0)
  | JFloat f => match f with S754_zero _ => false | _ => true end
  | JStr s => negb (String.eqb s "")
  | JArr l => match l with [] => false | _ => true end
  | JObj l => match l with [] => false | _ => true end
  end.

(** [isinstance(v, int)] with its integer value: a [bool] is an [int]. *)
Definition as_int (a : json) : option Z :=
  match a with
  | JInt z => Some z
  | JBool b => Some (bool_Z b)
  | _ => None
  end.

(** [isinstance(v, dict)] and [v.get(k)]; [None] is [JNull]. *)
Definition as_dict (a : json) : option (list (string * json)) :=
  match a with JObj l => Some l | _ => None end.
Definition dict_get (k : string) (l : list (string * json)) : json :=
  default JNull (assoc k l).

Lemma assoc_elem {A} k (l : list (string * A)) v : assoc k l = Some v → (k, v) ∈ l.
Proof.
  induction l as [|[k' v'] l IH]; simpl; [done|].
  destruct (String.eqb_spec k k') as [->|]; intros H; simplify_eq; set_solver.
Qed.

Lemma assoc_None {A} k (l : list (string * A)) : assoc k l = None ↔ k ∉ l.*1.
Proof.
  induction l as [|[k' v'] l IH]; simpl; [set_solver|].
  destruct (String.eqb_spec k k') as [->|]; set_solver.
Qed.

Lemma assoc_NoDup {A} k (l : list (string * A)) v :
  NoDup l.*1 → (k, v) ∈ l → assoc k l = Some v.
Proof.
  induction l as [|[k' v'] l IH]; simpl; [set_solver|].
  rewrite NoDup_cons. intros [Hk Hl] Hin.
  destruct (String.eqb_spec k k') as [->|Hne].
  - apply elem_of_cons in Hin as [?|Hin]; [naive_solver|].
    exfalso. apply Hk. apply list_elem_of_fmap. by exists (k', v).
  - apply IH; [done|]. apply elem_of_cons in Hin as [?|?]; naive_solver.
Qed.

(** Induction over the nested type. *)
Section JsonInd.
Variable P : json → Prop.
Hypothesis Hnull : P JNull.
Hypothesis Hbool : ∀ b, P (JBool b).
Hypothesis Hint : ∀ z, P (JInt z).
Hypothesis Hfloat : ∀ f, P (JFloat f).
Hypothesis Hstr : ∀ s, P (JStr s).
Hypothesis Harr : ∀ l, Forall P l → P (JArr l).
Hypothesis Hobj : ∀ l, Forall (λ kv, P kv.2) l → P (JObj l).

Fixpoint json_ind' (a : json) : P a :=
  match a with
  | JNull => Hnull
  | JBool b => Hbool b
  | JInt z => Hint z
  | JFloat f => Hfloat f
  | JStr s => Hstr s
  | JArr l =>
      Harr l ((fix go l : Forall P l :=
                 match l with
                 | [] => List.Forall_nil P
                 | x :: l' => List.Forall_cons P x l' (json_ind' x) (go l')
                 end) l)
  | JObj l =>
      Hobj l ((fix go l : Forall (λ kv, P kv.2) l :=
                 match l with
                 | [] => List.Forall_nil _
                 | kv :: l' => List.Forall_cons _ kv l' (json_ind' kv.2) (go l')
                 end) l)
  end.
End JsonInd.

(** Keys are distinct at every level, as in every decoded document, and no
    float is a NaN (PostgreSQL's JSONB has none). *)
Fixpoint json_wf (a : json) : Prop :=
  match a with
  | JArr l => (fix go l := match l with [] => True | x :: l' => json_wf x ∧ go l' end) l
  | JObj l =>
      NoDup l.*1 ∧
      (fix go l := match l with [] => True | kv :: l' => json_wf kv.2 ∧ go l' end) l
  | JFloat S754_nan => False
  | _ => True
  end.

Lemma SFeqb_refl f : f ≠ S754_nan → SFeqb f f = true.
Proof.
  destruct f as [[]|[]| |s m e]; try done. intros _. unfold SFeqb, SFcompare.
  rewrite Z.compare_refl, Pos.compare_cont_refl. by destruct s.
Qed.

Lemma py_eq_refl a : json_wf a → py_eq a a = true.
Proof.
  induction a as [| | | | |l IH|l IH] using json_ind'; simpl; intros Hwf; try done.
  - by destruct b.
  - apply Z.eqb_refl.
  - apply SFeqb_refl. by destruct f.
  - apply String.eqb_refl.
  - induction IH as [|x l Hx Hl IH]; [done|]. destruct Hwf as [Hx' Hl'].
    by rewrite Hx, IH.
  - destruct Hwf as [Hd Hwf]. rewrite Nat.eqb_refl. simpl.
    apply List.forallb_forall. intros [k v] Hin%list_elem_of_In; simpl.
    rewrite (assoc_NoDup _ _ v) by done.
    rewrite Forall_forall in IH. apply (IH (k, v)); [done|].
    clear -Hwf Hin. induction l as [|kv l IH]; [set_solver|].
    destruct Hwf as [Hx Hl]. apply elem_of_cons in Hin as [<-|Hin]; auto.
Qed.
