(* ===== verification/Decimal.v ===== *)
(** * Python's [decimal.Decimal]

    Decimals as [decimal] computes them in its default context: 28 significant
    digits, rounding half to even. The exponent limits of the context
    (999999) are not modelled. *)

From Stdlib Require Import ZArith Lia Ascii.
From stdpp Require Import base strings list sorting.
From S2P Require Import Prelude.
Local Open Scope Z_scope.

(** [DFin neg coef exp] is [± coef * 10 ^ exp], [coef] not negative. *)
Inductive decimal :=
| DFin (neg : bool) (coef : Z) (exp : Z)
| DInf (neg : bool)
| DNaN.
#[export] Instance decimal_eq_dec : EqDecision decimal.
Proof. solve_decision. Defined.

Definition dec_prec : Z := 28.
Definition dec_of_Z (n : Z) : decimal := DFin (n <? 0) (Z.abs n) 0.
Definition signed (neg : bool) (coef : Z) : Z := if neg then - coef else coef.

(** The number of decimal digits of a coefficient; [0] has one. *)
Fixpoint ndigits_fuel (fuel : nat) (n : Z) : Z :=
  match fuel with
  | O => 1
  | S fuel' => if n <? 10 then 1 else 1 + ndigits_fuel fuel' (n / 10)
  end.
Definition ndigits (n : Z) : Z := ndigits_fuel (Z.to_nat (Z.log2 n)) n.

(** [k] digits dropped, half to even. *)
Definition drop_half_even (k n : Z) : Z :=
  let q := n / 10 ^ k in
  let r := n mod 10 ^ k in
  if (10 ^ k <? 2 * r) || ((2 * r =? 10 ^ k) && Z.odd q) then q + 1 else q.

(** The context's rounding of an exact result. *)
Definition dec_round (neg : bool) (coef exp : Z) : decimal :=
  let d := ndigits coef in
  if d <=? dec_prec then DFin neg coef exp
  else
    let k := d - dec_prec in
    let c := drop_half_even k coef in
    if c =? 10 ^ dec_prec then DFin neg (c / 10) (exp + k + 1) else DFin neg c (exp + k).

(** Signed coefficients at a common exponent. *)
Definition aligned (s1 e1 s2 e2 : Z) : Z * Z * Z :=
  let e := Z.min e1 e2 in (s1 * 10 ^ (e1 - e), s2 * 10 ^ (e2 - e), e).

Definition fin_compare (n1 : bool) (c1 e1 : Z) (n2 : bool) (c2 e2 : Z) : comparison :=
  let '(a, b, _) := aligned (signed n1 c1) e1 (signed n2 c2) e2 in Z.compare a b.

(** The order of two numbers; [None] with a NaN. *)
Definition dec_compare (x y : decimal) : option comparison :=
  match x, y with
  | DNaN, _ | _, DNaN => None
  | DInf n1, DInf n2 => Some (if Bool.eqb n1 n2 then Eq else if n1 then Lt else Gt)
  | DInf n1, DFin _ _ _ => Some (if n1 then Lt else Gt)
  | DFin _ _ _, DInf n2 => Some (if n2 then Gt else Lt)
  | DFin n1 c1 e1, DFin n2 c2 e2 => Some (fin_compare n1 c1 e1 n2 c2 e2)
  end.

(** [x < y], [x <= y], [x > y], [x >= y]: an ordering comparison with a NaN raises. *)
Definition dec_rel (p : comparison → bool) (x y : decimal) : result exn bool :=
  match dec_compare x y with
  | Some c => Ok (p c)
  | None => Err (InvalidOperation "comparison involving NaN")
  end.
Definition dec_lt : decimal → decimal → result exn bool :=
  dec_rel (λ c, match c with Lt => true | _ => false end).
Definition dec_ge : decimal → decimal → result exn bool :=
  dec_rel (λ c, match c with Lt => false | _ => true end).
Definition dec_gt : decimal → decimal → result exn bool :=
  dec_rel (λ c, match c with Gt => true | _ => false end).
(** [x == y]; a NaN differs from everything. *)
Definition dec_eqb (x y : decimal) : bool :=
  match dec_compare x y with Some Eq => true | _ => false end.

Definition dec_add (x y : decimal) : result exn decimal :=
  match x, y with
  | DNaN, _ | _, DNaN => Ok DNaN
  | DInf n1, DInf n2 => if Bool.eqb n1 n2 then Ok x else Err (InvalidOperation "-INF + INF")
  | DInf _, _ => Ok x
  | _, DInf _ => Ok y
  | DFin n1 c1 e1, DFin n2 c2 e2 =>
      let '(a, b, e) := aligned (signed n1 c1) e1 (signed n2 c2) e2 in
      let s := a + b in
      Ok (dec_round (if s =? 0 then n1 && n2 else s <? 0) (Z.abs s) e)
  end.

Definition dec_neg (x : decimal) : decimal :=
  match x with DFin n c e => DFin (negb n) c e | DInf n => DInf (negb n) | DNaN => DNaN end.
Definition dec_sub (x y : decimal) : result exn decimal := dec_add x (dec_neg y).

Definition dec_is_zero (x : decimal) : bool := match x with DFin _ c _ => c =? 0 | _ => false end.

Definition dec_mul (x y : decimal) : result exn decimal :=
  match x, y with
  | DNaN, _ | _, DNaN => Ok DNaN
  | DFin n1 c1 e1, DFin n2 c2 e2 => Ok (dec_round (xorb n1 n2) (c1 * c2) (e1 + e2))
  | DInf n1, DInf n2 => Ok (DInf (xorb n1 n2))
  | DInf n1, DFin n2 c _ | DFin n2 c _, DInf n1 =>
      if c =? 0 then Err (InvalidOperation "0 * INF") else Ok (DInf (xorb n1 n2))
  end.

(** Trailing zeros removed while the exponent is below the ideal one. *)
Fixpoint strip_zeros (fuel : nat) (coef exp ideal : Z) : Z * Z :=
  match fuel with
  | O => (coef, exp)
  | S fuel' =>
      if (exp <? ideal) && (coef mod 10 =? 0) then strip_zeros fuel' (coef / 10) (exp + 1) ideal
      else (coef, exp)
  end.

Definition fin_div (neg : bool) (c1 e1 c2 e2 : Z) : decimal :=
  if c1 =? 0 then DFin neg 0 (e1 - e2)
  else
    let shift := ndigits c2 - ndigits c1 + dec_prec + 1 in
    let exp := e1 - e2 - shift in
    let num := if 0 <=? shift then c1 * 10 ^ shift else c1 in
    let den := if 0 <=? shift then c2 else c2 * 10 ^ (- shift) in
    let q := num / den in
    let r := num mod den in
    if r =? 0 then
      let '(q', exp') := strip_zeros (Z.to_nat (e1 - e2 - exp)) q exp (e1 - e2) in dec_round neg q' exp'
    else dec_round neg (if q mod 5 =? 0 then q + 1 else q) exp.

Definition dec_div (x y : decimal) : result exn decimal :=
  match x, y with
  | DNaN, _ | _, DNaN => Ok DNaN
  | DInf _, DInf _ => Err (InvalidOperation "INF/INF")
  | DInf n1, DFin n2 _ _ => Ok (DInf (xorb n1 n2))
  | DFin n1 _ _, DInf n2 => Ok (DFin (xorb n1 n2) 0 0)
  | DFin n1 c1 e1, DFin n2 c2 e2 =>
      if c2 =? 0 then Err (InvalidOperation (if c1 =? 0 then "0 / 0" else "x / 0"))
      else Ok (fin_div (xorb n1 n2) c1 e1 c2 e2)
  end.

(** [str(d)] *)
Definition zeros (n : Z) : string := String.string_of_list_ascii (replicate (Z.to_nat n) (Ascii.ascii_of_nat 48)).
Definition dec_str (x : decimal) : string :=
  match x with
  | DNaN => "NaN"
  | DInf n => (if n then "-" else "") +:+ "Infinity"
  | DFin n c e =>
      let digits := pretty.pretty c in
      let len := Z.of_nat (String.length digits) in
      let leftdigits := e + len in
      let dotplace := if (e <=? 0) && (-6 <? leftdigits) then leftdigits else 1 in
      let intpart :=
        if dotplace <=? 0 then "0"
        else if len <=? dotplace then digits +:+ zeros (dotplace - len)
        else String.substring 0 (Z.to_nat dotplace) digits in
      let fracpart :=
        if dotplace <=? 0 then "." +:+ zeros (- dotplace) +:+ digits
        else if len <=? dotplace then ""
        else "." +:+ String.substring (Z.to_nat dotplace) (String.length digits) digits in
      let exponent :=
        if leftdigits =? dotplace then ""
        else "E" +:+ (if 0 <=? leftdigits - dotplace then "+" else "") +:+ pretty.pretty (leftdigits - dotplace) in
      (if n then "-" else "") +:+ intpart +:+ fracpart +:+ exponent
  end.

(** ** [Decimal(s)]

    Blanks around and underscores are dropped, as in the constructor; the digits
    are ASCII. A signalling NaN is not told from a quiet one. *)

Section Parse.
Local Open Scope char_scope.
Local Open Scope Z_scope.
Definition dec_digit (c : ascii) : option Z :=
  let n := Z.of_nat (Ascii.nat_of_ascii c) in
  if (48 <=? n) && (n <=? 57) then Some (n - 48) else None.

(** The value and the number of the leading digits, and what follows. *)
Fixpoint span_digits (acc count : Z) (l : list ascii) : Z * Z * list ascii :=
  match l with
  | c :: l' => match dec_digit c with
               | Some d => span_digits (10 * acc + d) (count + 1) l'
               | None => (acc, count, l)
               end
  | [] => (acc, count, [])
  end.

Definition parse_sign (l : list ascii) : bool * list ascii :=
  match l with
  | c :: l' => if Ascii.eqb c "-" then (true, l') else if Ascii.eqb c "+" then (false, l') else (false, l)
  | [] => (false, [])
  end.

Definition parse_exponent (l : list ascii) : option Z :=
  match l with
  | [] => Some 0
  | c :: l' =>
      if Ascii.eqb c "e" || Ascii.eqb c "E" then
        let '(neg, l'') := parse_sign l' in
        match span_digits 0 0 l'' with
        | (v, n, []) => if n =? 0 then None else Some (if neg : bool then - v else v)
        | _ => None
        end
      else None
  end.

Definition parse_finite (neg : bool) (l : list ascii) : option decimal :=
  let '(ip, ni, l1) := span_digits 0 0 l in
  let '(coef, nf, l2) := match l1 with
    | c :: l1' => if Ascii.eqb c "." then
        let '(v, n, r) := span_digits ip 0 l1' in (v, n, r) else (ip, 0, l1)
    | [] => (ip, 0, l1) end in
  if ni + nf =? 0 then None
  else match parse_exponent l2 with Some e => Some (DFin neg coef (e - nf)) | None => None end.

Definition dec_of_chars (l : list ascii) : option decimal :=
  let '(neg, l') := parse_sign l in
  let low := String.string_of_list_ascii (map ascii_lower l') in
  if String.eqb low "inf"%string || String.eqb low "infinity"%string then Some (DInf neg)
  else if String.eqb low "nan"%string || String.eqb low "snan"%string then Some DNaN
  else parse_finite neg l'.

Definition dec_of_string `{PyText} (s : string) : result exn decimal :=
  match dec_of_chars (List.filter (λ c, negb (Ascii.eqb c "_"))
                        (String.list_ascii_of_string (py_strip s))) with
  | Some d => Ok d
  | None => Err (InvalidOperation "ConversionSyntax"%string)
  end.
End Parse.

(** [min(l)] and [max(l)]: the first extremal element, by [<] and [>]. *)
Definition dec_extremum (better : decimal → decimal → result exn bool) (l : list decimal) : result exn decimal :=
  match l with
  | [] => Err (ValueError "iterable argument is empty")
  | x :: l' => foldM (λ best y, let! b := better y best in Ok (if b : bool then y else best)) x l'
  end.
Definition dec_min := dec_extremum dec_lt.
Definition dec_max := dec_extremum dec_gt.

(** [sorted(l)]: stable; with two or more elements every one is compared. *)
Definition dec_leb (x y : decimal) : bool :=
  match dec_compare x y with Some Gt | None => false | _ => true end.
Fixpoint dec_insert (x : decimal) (l : list decimal) : list decimal :=
  match l with
  | [] => [x]
  | y :: l' => if dec_leb x y then x :: l else y :: dec_insert x l'
  end.
Definition is_nan (x : decimal) : bool := match x with DNaN => true | _ => false end.
Definition dec_sorted (l : list decimal) : result exn (list decimal) :=
  raise_if Nat.leb 2 (length l) && existsb is_nan l with InvalidOperation "comparison involving NaN" ;;
  Ok (fold_right dec_insert [] l).

(** [statistics.median] *)
Definition dec_median (l : list decimal) : result exn decimal :=
  let! data := dec_sorted l in
  let n := length data in
  let i := Nat.div2 n in
  match data !! i with
  | None => Err (ValueError "no median for empty data")
  | Some hi =>
      if Nat.odd n then Ok hi
      else
        let! s := dec_add (default hi (data !! pred i)) hi in
        dec_div s (dec_of_Z 2)
  end.

(** ** Digits and rounding *)

Lemma log2_div10 n : 10 <= n → Z.log2 (n / 10) < Z.log2 n.
Proof.
  intros Hn. assert (0 < n / 10) by (apply Z.div_str_pos; lia).
  apply Z.log2_lt_pow2; [done|]. pose proof (Z.log2_spec n ltac:(lia)) as [_ Hu].
  rewrite Z.pow_succ_r in Hu by apply Z.log2_nonneg.
  pose proof (Z.mul_div_le n 10 ltac:(lia)). lia.
Qed.

Lemma ndigits_fuel_spec fuel n :
  0 < n → (Z.to_nat (Z.log2 n) <= fuel)%nat →
  1 <= ndigits_fuel fuel n ∧ 10 ^ (ndigits_fuel fuel n - 1) <= n < 10 ^ ndigits_fuel fuel n.
Proof.
  revert n; induction fuel as [|fuel IH]; intros n Hn Hf; simpl.
  - assert (Z.log2 n = 0) as Hl by (pose proof (Z.log2_nonneg n); lia).
    apply Z.log2_null in Hl. split; [lia|]. change (10 ^ (1 - 1)) with 1. change (10 ^ 1) with 10. lia.
  - destruct (n <? 10) eqn:H10; [apply Z.ltb_lt in H10; change (10 ^ (1 - 1)) with 1; change (10 ^ 1) with 10; lia|].
    apply Z.ltb_ge in H10. pose proof (log2_div10 n H10).
    destruct (IH (n / 10)) as (Hd & Hlo & Hhi); [apply Z.div_str_pos; lia|pose proof (Z.log2_nonneg (n / 10)); lia|].
    set (d := ndigits_fuel fuel (n / 10)) in *.
    pose proof (Z.div_mod n 10 ltac:(lia)). pose proof (Z.mod_pos_bound n 10 ltac:(lia)).
    replace (1 + d - 1) with (Z.succ (d - 1)) by lia. replace (1 + d) with (Z.succ d) by lia.
    rewrite !Z.pow_succ_r by lia. lia.
Qed.

Lemma ndigits_spec n : 0 < n → 1 <= ndigits n ∧ 10 ^ (ndigits n - 1) <= n < 10 ^ ndigits n.
Proof. intros Hn. by apply ndigits_fuel_spec. Qed.

Lemma ndigits_le n : 0 <= n → (ndigits n <=? dec_prec) = (n <? 10 ^ dec_prec).
Proof.
  intros Hn. destruct (Z.eq_dec n 0) as [->|Hn0]; [done|].
  destruct (ndigits_spec n ltac:(lia)) as (Hd & Hlo & Hhi).
  destruct (n <? 10 ^ dec_prec) eqn:Hc.
  - apply Z.ltb_lt in Hc. apply Z.leb_le.
    assert (10 ^ (ndigits n - 1) < 10 ^ dec_prec) as Hp by lia.
    apply Z.pow_lt_mono_r_iff in Hp; unfold dec_prec in *; lia.
  - apply Z.ltb_ge in Hc. apply Z.leb_gt.
    assert (10 ^ dec_prec < 10 ^ ndigits n) as Hp by lia.
    apply Z.pow_lt_mono_r_iff in Hp; unfold dec_prec in *; lia.
Qed.

(** Dropping [k] digits is off by at most half a unit of the last digit kept. *)
Lemma drop_half_even_spec k n :
  0 <= k → 0 <= n →
  2 * Z.abs (drop_half_even k n * 10 ^ k - n) <= 10 ^ k ∧
  n / 10 ^ k <= drop_half_even k n <= n / 10 ^ k + 1.
Proof.
  intros Hk Hn. unfold drop_half_even.
  pose proof (Z.pow_pos_nonneg 10 k ltac:(lia) Hk).
  pose proof (Z.div_mod n (10 ^ k) ltac:(lia)). pose proof (Z.mod_pos_bound n (10 ^ k) ltac:(lia)).
  destruct ((10 ^ k <? 2 * (n mod 10 ^ k)) || _) eqn:Hc; (split; [|lia]).
  - apply orb_true_iff in Hc as [Hc|[Hc _]%andb_true_iff];
      [apply Z.ltb_lt in Hc|apply Z.eqb_eq in Hc]; nia.
  - apply orb_false_iff in Hc as [Hc _]. apply Z.ltb_ge in Hc. nia.
Qed.

(** A rounded result has at most 28 digits, keeps exact results, and is within
    half a unit of its last digit of the exact value. *)
Lemma dec_round_spec n c e :
  0 <= c → ∃ c' e', dec_round n c e = DFin n c' e' ∧ e <= e' ∧ 0 <= c' < 10 ^ dec_prec ∧
    2 * Z.abs (c' * 10 ^ (e' - e) - c) <= 10 ^ (e' - e) ∧
    (c < 10 ^ dec_prec → c' = c ∧ e' = e).
Proof.
  intros Hc. unfold dec_round. rewrite ndigits_le by done. destruct (c <? 10 ^ dec_prec) eqn:Hs.
  { apply Z.ltb_lt in Hs. exists c, e. rewrite Z.sub_diag. change (10 ^ 0) with 1. repeat split; lia. }
  apply Z.ltb_ge in Hs. assert (0 < 10 ^ dec_prec) by by vm_compute.
  destruct (ndigits_spec c ltac:(lia)) as (Hd & Hlo & Hhi).
  assert (dec_prec < ndigits c) as Hdp.
  { apply (Z.pow_lt_mono_r_iff 10); lia. }
  set (k := ndigits c - dec_prec) in *. assert (0 < k) by lia.
  destruct (drop_half_even_spec k c ltac:(lia) Hc) as [Herr Hq].
  assert (c / 10 ^ k < 10 ^ dec_prec) as Hqlt.
  { apply Z.div_lt_upper_bound; [lia|]. rewrite <-Z.pow_add_r by (unfold dec_prec; lia). replace (k + dec_prec) with (ndigits c) by (unfold k; lia). lia. }
  assert (0 <= c / 10 ^ k) by (apply Z.div_pos; lia).
  destruct (drop_half_even k c =? 10 ^ dec_prec) eqn:H28.
  - apply Z.eqb_eq in H28. rewrite H28 in Herr |- *. exists (10 ^ dec_prec / 10), (e + k + 1).
    split; [done|]. split; [lia|]. split; [split; [by vm_compute|by vm_compute]|].
    replace (e + k + 1 - e) with (Z.succ k) by lia. rewrite Z.pow_succ_r by lia.
    replace (10 ^ dec_prec / 10 * (10 * 10 ^ k)) with (10 ^ dec_prec * 10 ^ k).
    2:{ rewrite Z.mul_assoc. f_equal. }
    split; lia.
  - apply Z.eqb_neq in H28. exists (drop_half_even k c), (e + k). split; [done|].
    replace (e + k - e) with k by lia. repeat split; lia.
Qed.

(** ** Order *)

Lemma dec_leb_total x y : is_nan x = false → is_nan y = false → dec_leb x y = true ∨ dec_leb y x = true.
Proof.
  destruct x as [n1 c1 e1|[]|], y as [n2 c2 e2|[]|]; try done; intros _ _; auto.
  unfold dec_leb, dec_compare, fin_compare, aligned. rewrite (Z.min_comm e2 e1).
  rewrite (Z.compare_antisym (signed n1 c1 * _)). destruct (Z.compare _ _); auto.
Qed.

Lemma dec_insert_perm x l : dec_insert x l ≡ₚ x :: l.
Proof.
  induction l as [|y l IH]; simpl; [done|]. destruct (dec_leb x y); [done|].
  rewrite IH. constructor.
Qed.

Lemma dec_sorted_perm l k : dec_sorted l = Ok k → k ≡ₚ l.
Proof.
  unfold dec_sorted. destruct (_ && _); [done|]. intros [= <-].
  induction l as [|x l IH]; simpl; [done|]. by rewrite dec_insert_perm, IH.
Qed.

(** The order with the NaNs above every number: total and transitive. *)
Definition dec_tle (x y : decimal) : bool :=
  match dec_compare x y with Some Gt => false | Some _ => true | None => is_nan y end.

Lemma fin_compare_scale n1 c1 e1 n2 c2 e2 e :
  e <= e1 → e <= e2 →
  fin_compare n1 c1 e1 n2 c2 e2 = Z.compare (signed n1 c1 * 10 ^ (e1 - e)) (signed n2 c2 * 10 ^ (e2 - e)).
Proof.
  intros H1 H2. unfold fin_compare, aligned. set (m := Z.min e1 e2).
  replace (e1 - e) with ((e1 - m) + (m - e)) by lia. replace (e2 - e) with ((e2 - m) + (m - e)) by lia.
  rewrite !Z.pow_add_r, !Z.mul_assoc by (unfold m; lia).
  assert (0 < 10 ^ (m - e)) as Hk by (apply Z.pow_pos_nonneg; unfold m; lia).
  revert Hk. generalize (signed n1 c1 * 10 ^ (e1 - m)), (signed n2 c2 * 10 ^ (e2 - m)), (10 ^ (m - e)).
  intros a b k Hk. destruct (Z.compare_spec a b), (Z.compare_spec (a * k) (b * k)); nia || done.
Qed.

Lemma dec_tle_total x y : dec_tle x y = true ∨ dec_tle y x = true.
Proof.
  destruct x as [n1 c1 e1|[]|], y as [n2 c2 e2|[]|]; try (by left); try (by right).
  unfold dec_tle, dec_compare.
  rewrite (fin_compare_scale n1 c1 e1 n2 c2 e2 (Z.min e1 e2)), (fin_compare_scale n2 c2 e2 n1 c1 e1 (Z.min e1 e2)) by lia.
  rewrite (Z.compare_antisym (signed n1 c1 * _)). destruct (Z.compare _ _); auto.
Qed.

Lemma dec_tle_trans x y z : dec_tle x y = true → dec_tle y z = true → dec_tle x z = true.
Proof.
  destruct x as [n1 c1 e1|[]|], y as [n2 c2 e2|[]|], z as [n3 c3 e3|[]|]; try done.
  unfold dec_tle, dec_compare. set (e := Z.min (Z.min e1 e2) e3).
  rewrite (fin_compare_scale n1 c1 e1 n2 c2 e2 e), (fin_compare_scale n2 c2 e2 n3 c3 e3 e),
    (fin_compare_scale n1 c1 e1 n3 c3 e3 e) by (unfold e; lia).
  repeat match goal with |- context [Z.compare ?a ?b] => destruct (Z.compare_spec a b) end; try done; lia.
Qed.
