(* ===== verification/DecimalText.v ===== *)
(** * The text of a decimal reads back

    [Decimal(str(d)) == d], sign, digits and exponent included: the routes that
    answer amounts as texts lose nothing. *)

From stdpp Require Import base sets strings list pretty.
From Stdlib Require Import ZArith Ascii Lia.
From S2P Require Import Prelude Decimal.

Module DecimalText.
#[local] Close Scope char_scope.
#[local] Open Scope Z_scope.

Definition chars (s : string) : list ascii := String.list_ascii_of_string s.
Lemma text_app a b : chars (a +:+ b) = chars a ++ chars b.
Proof. induction a as [|c a IH]; simpl; [done|]. by rewrite <-IH. Qed.
Lemma chars_length s : length (chars s) = String.length s.
Proof. induction s as [|c s IH]; simpl; [done|]. by rewrite IH. Qed.
Lemma chars_take k s : chars (String.substring 0 k s) = take k (chars s).
Proof. revert k. induction s as [|c s IH]; intros [|k]; simpl; try done. by rewrite <-IH. Qed.
Lemma chars_drop k m s : (String.length s <= m)%nat → chars (String.substring k m s) = drop k (chars s).
Proof.
  revert k m. induction s as [|c s IH]; intros [|k] m Hm; simpl; [by destruct m..| |].
  - destruct m as [|m]; [simpl in Hm; lia|]. simpl. f_equal. rewrite IH by (simpl in Hm; lia). done.
  - apply IH. simpl in Hm. lia.
Qed.
Lemma chars_zeros n : chars (zeros n) = replicate (Z.to_nat n) (Ascii.ascii_of_nat 48).
Proof. unfold chars, zeros. by rewrite String.list_ascii_of_string_of_list_ascii. Qed.

(** ** Digits *)

Definition is_dec (c : ascii) : Prop := is_Some (dec_digit c).
Definition digit_of (c : ascii) : Z := default 0 (dec_digit c).
Definition dval (acc : Z) (ds : list ascii) : Z := foldl (λ a c, 10 * a + digit_of c) acc ds.
Definition ends (r : list ascii) : Prop := match r with c :: _ => dec_digit c = None | [] => True end.

Lemma span_app ds acc n r : Forall is_dec ds → ends r → span_digits acc n (ds ++ r) = (dval acc ds, n + Z.of_nat (length ds), r).
Proof.
  intros Hd Hr. revert acc n. induction Hd as [|c ds [d Hc] Hd IH]; intros acc n.
  - simpl. rewrite Z.add_0_r. destruct r as [|c r]; [done|]. simpl in *. by rewrite Hr.
  - cbn [app span_digits length]. rewrite Hc, IH. change (dval acc (c :: ds)) with (dval (10 * acc + digit_of c) ds).
    assert (digit_of c = d) as -> by (unfold digit_of; by rewrite Hc). do 2 f_equal. lia.
Qed.
Lemma dval_zeros n : dval 0 (replicate n (Ascii.ascii_of_nat 48)) = 0.
Proof. induction n as [|n IH]; [done|]. exact IH. Qed.
Lemma dval_app acc a b : dval acc (a ++ b) = dval (dval acc a) b.
Proof. unfold dval. by rewrite foldl_app. Qed.

Lemma char_digit x : (x < 10)%N → dec_digit (pretty_N_char x) = Some (Z.of_N x).
Proof.
  intros Hx. assert (x = 0 ∨ x = 1 ∨ x = 2 ∨ x = 3 ∨ x = 4 ∨ x = 5 ∨ x = 6 ∨ x = 7 ∨ x = 8 ∨ x = 9)%N as Hc by lia.
  repeat destruct Hc as [->|Hc]; subst; reflexivity.
Qed.
Lemma go_digits x s : ∃ ds, chars (pretty_N_go x s) = ds ++ chars s ∧ Forall is_dec ds ∧ dval 0 ds = Z.of_N x ∧ (x ≠ 0%N → ds ≠ []).
Proof.
  revert s. induction (N.lt_wf_0 x) as [x _ IH]; intros s. assert (x = 0 ∨ 0 < x)%N as [->|Hx] by lia.
  - exists []. by rewrite pretty_N_go_0.
  - rewrite pretty_N_go_step by done. destruct (IH (x `div` 10)%N ltac:(by apply N.div_lt) (String (pretty_N_char (x `mod` 10)) s)) as (ds & -> & Hd & Hv & _).
    pose proof (char_digit (x `mod` 10) ltac:(by apply N.mod_lt)) as Hc. exists (ds ++ [pretty_N_char (x `mod` 10)]).
    split_and!; [by rewrite <-app_assoc|apply Forall_app_2; [done|constructor; [by eexists|done]]| |by destruct ds].
    rewrite dval_app, Hv. unfold dval, digit_of. cbn [foldl]. rewrite Hc. simpl.
    pose proof (N.div_mod x 10). lia.
Qed.
Lemma pretty_digits c : 0 <= c → ∃ ds, chars (pretty c) = ds ∧ Forall is_dec ds ∧ dval 0 ds = c ∧ ds ≠ [].
Proof.
  intros Hc. destruct c as [|p|p]; [| |lia].
  - eexists. split; [reflexivity|]. split_and!; [repeat constructor; by eexists|done..].
  - destruct (go_digits (N.pos p) "") as (ds & Hds & Hd & Hv & Hne). exists ds. split; [|split_and!; [done|done|by apply Hne]].
    change (pretty (Z.pos p)) with (pretty (N.pos p)). unfold pretty, pretty_N. rewrite decide_False by done. by rewrite Hds, app_nil_r.
Qed.

(** ** Reading the text *)

Lemma not_a_name c r : is_dec c → ∀ name, name ∈ ["inf"; "infinity"; "nan"; "snan"] →
  String.eqb (String.string_of_list_ascii (map ascii_lower (c :: r))) name = false.
Proof.
  intros [d Hd] name Hn. apply String.eqb_neq. intros E.
  assert (∃ x s, name = String x s ∧ (x = "i" ∨ x = "n" ∨ x = "s")%char) as (x & s & -> & Hx).
  { repeat (apply elem_of_cons in Hn as [->|Hn]; [by eexists _, _; split; [reflexivity|auto]|]). by apply elem_of_nil in Hn. }
  simpl in E. injection E as E _. revert E Hd. clear - Hx. destruct c as [[] [] [] [] [] [] [] []], Hx as [->|[->| ->]]; done.
Qed.
Lemma no_sign c r : is_dec c → parse_sign (c :: r) = (false, c :: r).
Proof. intros [d Hd]. revert Hd. destruct c as [[] [] [] [] [] [] [] []]; done. Qed.

(** A sign and then digits, perhaps a point and digits, and an exponent *)
Lemma read_text neg ip fp ex e : Forall is_dec ip → Forall is_dec fp → ip ≠ [] → ends ex → match ex with c :: _ => c ≠ "."%char | [] => True end →
  parse_exponent ex = Some e →
  dec_of_chars ((if neg : bool then ["-"%char] else []) ++ ip ++ (match fp with [] => [] | _ => "."%char :: fp end) ++ ex) =
    Some (DFin neg (dval 0 (ip ++ fp)) (e - Z.of_nat (length fp))).
Proof.
  intros Hip Hfp Hne Hex Hp He. set (body := ip ++ (match fp with [] => [] | _ => "."%char :: fp end) ++ ex).
  assert (parse_sign ((if neg then ["-"%char] else []) ++ body) = (neg, body)) as Hs.
  { destruct neg; [done|]. unfold body. destruct ip as [|c ip]; [done|]. apply no_sign. by inversion Hip. }
  unfold dec_of_chars. rewrite Hs. assert (∃ c r, body = c :: r ∧ is_dec c) as (c & r & Eb & Hc).
  { unfold body. destruct ip as [|c ip]; [done|]. exists c. eexists. split; [reflexivity|]. by inversion Hip. }
  rewrite Eb, !(not_a_name c r Hc) by set_solver. cbn [orb]. rewrite <-Eb. unfold parse_finite, body.
  assert (ends ((match fp with [] => [] | _ => "."%char :: fp end) ++ ex)) as Hends by (by destruct fp).
  rewrite span_app by done. destruct fp as [|f fp].
  - cbn [app]. destruct ex as [|x ex]; cbn [app].
    + rewrite !app_nil_r. simpl in He. injection He as <-. destruct ip; [done|]. simpl length. rewrite (proj2 (Z.eqb_neq _ _)) by lia. simpl. done.
    + destruct (Ascii.eqb_spec x "."%char) as [->|Hx]; [done|]. rewrite He, !app_nil_r. destruct ip; [done|]. simpl length.
      rewrite (proj2 (Z.eqb_neq _ _)) by lia. simpl. do 3 f_equal; lia.
  - change (("."%char :: f :: fp) ++ ex) with ("."%char :: (f :: fp) ++ ex). cbn [Ascii.eqb Bool.eqb]. rewrite (span_app (f :: fp)) by done. rewrite He, dval_app. simpl length.
    rewrite (proj2 (Z.eqb_neq _ _)) by lia. done.
Qed.

Lemma read_exponent v : parse_exponent ("E"%char :: (if 0 <=? v then ["+"%char] else []) ++ chars (pretty v)) = Some v.
Proof.
  unfold parse_exponent. cbn [Ascii.eqb Bool.eqb orb].
  assert (∀ w, 0 <= w → span_digits 0 0 (chars (pretty w)) = (w, Z.of_nat (length (chars (pretty w))), []) ∧ chars (pretty w) ≠ []) as Hw.
  { intros w Hw. destruct (pretty_digits w Hw) as (ds & -> & Hd & Hv & Hne). split; [|done].
    rewrite <-(app_nil_r ds) at 1. rewrite span_app by done. by rewrite Hv. }
  destruct (Z.leb_spec 0 v) as [Hv|Hv]; cbn [app].
  - unfold parse_sign. cbn [Ascii.eqb Bool.eqb]. destruct (Hw v Hv) as [-> Hne]. destruct (chars (pretty v)); [done|]. simpl length.
    by rewrite (proj2 (Z.eqb_neq _ _)) by lia.
  - destruct v as [|q|q]; [lia..|]. change (chars (pretty (Z.neg q))) with ("-"%char :: chars (pretty (Z.pos q))).
    unfold parse_sign. cbn [Ascii.eqb Bool.eqb]. destruct (Hw (Z.pos q)) as [-> Hne]; [lia|]. destruct (chars (pretty (Z.pos q))); [done|]. simpl length.
    by rewrite (proj2 (Z.eqb_neq _ _)) by lia.
Qed.

Lemma with_point (fp : list ascii) : fp ≠ [] → match fp with [] => [] | _ => "."%char :: fp end = "."%char :: fp.
Proof. by destruct fp. Qed.
Theorem dec_text_reads n c e : 0 <= c → dec_of_chars (chars (dec_str (DFin n c e))) = Some (DFin n c e).
Proof.
  intros Hc. unfold dec_str. cbv zeta. set (digits := pretty c). destruct (pretty_digits c Hc) as (ds & Eds & Hd & Hv & Hne).
  fold digits in Eds. rewrite <-(chars_length digits), Eds. set (len := Z.of_nat (length ds)).
  assert (0 < len) as Hlen by (unfold len; destruct ds; [done|simpl; lia]).
  rewrite !text_app. assert (chars (if n then "-" else "") = if n then ["-"%char] else []) as -> by (by destruct n).
  assert (∀ k, Forall is_dec (take k ds) ∧ Forall is_dec (drop k ds)) as Hsplit by (intros k; split; [by apply Forall_take|by apply Forall_drop]).
  destruct ((e <=? 0) && (-6 <? e + len)) eqn:Hfixed.
  - apply andb_prop in Hfixed as [He%Z.leb_le Hl%Z.ltb_lt]. rewrite Z.eqb_refl. change (chars "") with (@nil ascii).
    rewrite app_nil_r. destruct (Z.leb_spec (e + len) 0) as [Hz|Hz].
    + rewrite !text_app, chars_zeros, Eds. set (zs := replicate (Z.to_nat (- (e + len))) _).
      assert (Forall is_dec (zs ++ ds)) as Hf by (apply Forall_app_2; [|done]; apply Forall_replicate; by eexists).
      pose proof (read_text n ["0"%char] (zs ++ ds) [] 0 ltac:(repeat constructor; by eexists) Hf ltac:(done) I I eq_refl) as Hr.
      rewrite (with_point (zs ++ ds)), app_nil_r in Hr by (intros [_ ?]%app_nil; done). etrans; [exact Hr|].
      rewrite length_app, dval_app. change (dval 0 ["0"%char]) with 0. rewrite dval_app. unfold zs. rewrite dval_zeros, Hv, length_replicate.
      do 2 f_equal. unfold len in *. lia.
    + destruct (Z.leb_spec len (e + len)) as [Hle|Hlt].
      * assert (e = 0) as -> by lia. rewrite !text_app, chars_zeros, Eds. replace (Z.to_nat (0 + len - len)) with 0%nat by lia. cbn [replicate].
        pose proof (read_text n ds [] [] 0 Hd (Forall_nil_2 _) Hne I I eq_refl) as Hr. rewrite !app_nil_r in *. etrans; [exact Hr|]. rewrite Hv. done.
      * rewrite text_app, chars_take, chars_drop, Eds by (by rewrite <-chars_length, Eds). set (k := Z.to_nat (e + len)).
        assert (take k ds ≠ []) as Ht by (intros Hx; apply (f_equal length) in Hx; rewrite length_take in Hx; simpl in Hx; lia).
        assert (length (drop k ds) = Z.to_nat (- e)) as Hk by (rewrite length_drop; lia).
        assert (drop k ds ≠ []) as Hn by (intros Hx; rewrite Hx in Hk; simpl in Hk; lia).
        pose proof (read_text n (take k ds) (drop k ds) [] 0 (proj1 (Hsplit k)) (proj2 (Hsplit k)) Ht I I eq_refl) as Hr.
        rewrite (with_point _ Hn), app_nil_r in Hr. etrans; [exact Hr|]. rewrite take_drop, Hv, Hk. do 2 f_equal. lia.
  - assert (e + len ≠ 1 ∧ (0 < e ∨ e + len <= -6)) as [Hne1 _].
    { apply andb_false_iff in Hfixed as [He%Z.leb_gt|Hl%Z.ltb_ge]; lia. }
    rewrite (proj2 (Z.eqb_neq _ _) Hne1). change (1 <=? 0) with false. cbv iota.
    assert (chars ("E" +:+ (if 0 <=? e + len - 1 then "+" else "") +:+ pretty (e + len - 1)) =
      "E"%char :: (if 0 <=? e + len - 1 then ["+"%char] else []) ++ chars (pretty (e + len - 1))) as ->
      by (rewrite !text_app; by destruct (0 <=? e + len - 1)).
    set (ex := "E"%char :: _). assert (parse_exponent ex = Some (e + len - 1)) as Hx by apply read_exponent.
    destruct (Z.leb_spec len 1) as [Hle|Hlt].
    + rewrite !text_app, chars_zeros, Eds. replace (Z.to_nat (1 - len)) with 0%nat by lia. cbn [replicate].
      pose proof (read_text n ds [] ex _ Hd (Forall_nil_2 _) Hne eq_refl ltac:(done) Hx) as Hr. change (chars "") with (@nil ascii). rewrite !app_nil_r. cbn [app] in *.
      etrans; [exact Hr|]. rewrite !app_nil_r, Hv. do 2 f_equal. simpl. lia.
    + rewrite text_app, chars_take, chars_drop, Eds by (by rewrite <-chars_length, Eds). change (Z.to_nat 1) with 1%nat.
      assert (take 1 ds ≠ [] ∧ drop 1 ds ≠ []) as [Ht Hn] by (destruct ds as [|? [|? ?]]; simpl in *; try done; unfold len in Hlt; simpl in Hlt; lia).
      pose proof (read_text n (take 1 ds) (drop 1 ds) ex _ (proj1 (Hsplit 1%nat)) (proj2 (Hsplit 1%nat)) Ht eq_refl ltac:(done) Hx) as Hr.
      rewrite (with_point _ Hn) in Hr. rewrite <-!app_assoc in *. etrans; [exact Hr|]. rewrite take_drop, Hv, length_drop. do 2 f_equal. unfold len. lia.
Qed.

(** Different decimals have different texts. *)
Definition dec_wf (d : decimal) : Prop := match d with DFin _ c _ => 0 <= c | _ => True end.
Lemma dec_str_reads d : dec_wf d → dec_of_chars (chars (dec_str d)) = Some d.
Proof. destruct d as [n c e|[]|]; [apply dec_text_reads|reflexivity..]. Qed.
Lemma dec_str_inj d d' : dec_wf d → dec_wf d' → dec_str d = dec_str d' → d = d'.
Proof. intros Hd Hd' E. pose proof (dec_str_reads d Hd) as H. rewrite E, (dec_str_reads d' Hd') in H. by injection H. Qed.
End DecimalText.
