(* ===== verification/Datetime.v ===== *)
(** * Python's [datetime]

    [datetime.fromisoformat] on the extended format ([YYYY-MM-DD], optionally a
    separator and [HH:MM[:SS[.fff[fff]]]], optionally [Z] or [+HH:MM]), and the
    comparison of datetimes, which raises between an aware and a naive one.
    The basic and the week formats of ISO 8601 are not modelled. *)

From Stdlib Require Import ZArith Lia Ascii.
From stdpp Require Import base strings list.
From S2P Require Import Prelude.
Local Open Scope Z_scope.

(** The wall clock in microseconds since 1970-01-01T00:00 and the offset from
    UTC in microseconds; without offset the datetime is naive. *)
Record datetime := Datetime { dt_wall : Z; dt_offset : option Z }.
#[export] Instance datetime_eq_dec : EqDecision datetime.
Proof. solve_decision. Defined.

Definition dt_utc (d : datetime) : Z := dt_wall d - default 0 (dt_offset d).

(** [a < b], [a <= b], ...; mixed operands raise. *)
Definition dt_compare (a b : datetime) : result exn comparison :=
  match dt_offset a, dt_offset b with
  | None, None => Ok (Z.compare (dt_wall a) (dt_wall b))
  | Some _, Some _ => Ok (Z.compare (dt_utc a) (dt_utc b))
  | _, _ => Err (TypeError "can't compare offset-naive and offset-aware datetimes")
  end.
Definition dt_lt (a b : datetime) : result exn bool :=
  let! c := dt_compare a b in Ok (match c with Lt => true | _ => false end).
Definition dt_le (a b : datetime) : result exn bool :=
  let! c := dt_compare a b in Ok (match c with Gt => false | _ => true end).

(** [TIMESTAMPTZ] holds the instant; a naive value is taken as UTC. *)
Definition to_timestamptz (d : datetime) : Z := dt_utc d.

Definition leap (y : Z) : bool := ((y mod 4 =? 0) && negb (y mod 100 =? 0)) || (y mod 400 =? 0).
Definition month_days (y m : Z) : Z :=
  if m =? 2 then if leap y then 29 else 28
  else if (m =? 4) || (m =? 6) || (m =? 9) || (m =? 11) then 30 else 31.

(** Days since 1970-01-01 in the proleptic Gregorian calendar. *)
Definition days_of_civil (y m d : Z) : Z :=
  let y' := if m <=? 2 then y - 1 else y in
  let era := y' / 400 in
  let yoe := y' mod 400 in
  let mp := (m + 9) mod 12 in
  let doy := (153 * mp + 2) / 5 + d - 1 in
  let doe := yoe * 365 + yoe / 4 - yoe / 100 + doy in
  era * 146097 + doe - 719468.

Definition digit (c : ascii) : option Z :=
  let n := Z.of_nat (Ascii.nat_of_ascii c) in
  if (48 <=? n) && (n <=? 57) then Some (n - 48) else None.

(** The value of exactly [n] digits, and what follows them. *)
Fixpoint take_digits (n : nat) (acc : Z) (l : list ascii) : option (Z * list ascii) :=
  match n, l with
  | O, _ => Some (acc, l)
  | S n', c :: l' => match digit c with Some d => take_digits n' (10 * acc + d) l' | None => None end
  | S _, [] => None
  end.
Definition take_char (c : ascii) (l : list ascii) : option (list ascii) :=
  match l with c' :: l' => if Ascii.eqb c c' then Some l' else None | [] => None end.

Local Notation "'let?' p ':=' m 'in' k" := (match m with Some p => k | None => None end)
  (at level 10, p pattern, m at level 100, k at level 200).

Local Open Scope char_scope.

Definition parse_date (l : list ascii) : option (Z * list ascii) :=
  let? (y, l) := take_digits 4 0 l in
  let? l := take_char "-" l in
  let? (m, l) := take_digits 2 0 l in
  let? l := take_char "-" l in
  let? (d, l) := take_digits 2 0 l in
  if ((1 <=? y) && (1 <=? m) && (m <=? 12) && (1 <=? d) && (d <=? month_days y m))%Z
  then Some (days_of_civil y m d, l) else None.

Definition usec (h m s us : Z) : Z := (((h * 60 + m) * 60 + s) * 1000000 + us)%Z.

(** The fraction has three or six digits, longer ones are cut at six. *)
Fixpoint drop_digits (l : list ascii) : list ascii :=
  match l with c :: l' => match digit c with Some _ => drop_digits l' | None => l end | [] => [] end.
Definition parse_fraction (l : list ascii) : option (Z * list ascii) :=
  match take_digits 6 0 l with
  | Some (us, l') => Some (us, drop_digits l')
  | None =>
      let? (ms, l') := take_digits 3 0 l in
      match l' with c :: _ => match digit c with Some _ => None | None => Some ((ms * 1000)%Z, l') end
                  | [] => Some ((ms * 1000)%Z, l') end
  end.

Definition parse_hhmmss (l : list ascii) : option (Z * list ascii) :=
  let? (h, l) := take_digits 2 0 l in
  match take_char ":" l with
  | None => if (h <=? 23)%Z then Some (usec h 0 0 0, l) else None
  | Some l =>
      let? (m, l) := take_digits 2 0 l in
      match take_char ":" l with
      | None => if ((h <=? 23) && (m <=? 59))%Z then Some (usec h m 0 0, l) else None
      | Some l =>
          let? (s, l) := take_digits 2 0 l in
          let? (us, l) := match (match take_char "." l with Some l' => Some l' | None => take_char "," l end) with
                          | Some l' => parse_fraction l' | None => Some (0%Z, l) end in
          if ((h <=? 23) && (m <=? 59) && (s <=? 59))%Z then Some (usec h m s us, l) else None
      end
  end.

Definition parse_offset (l : list ascii) : option (option Z) :=
  match l with
  | [] => Some None
  | c :: l' =>
      if Ascii.eqb c "Z" then (match l' with [] => Some (Some 0%Z) | _ => None end)
      else if Ascii.eqb c "+" || Ascii.eqb c "-" then
        let? (o, rest) := parse_hhmmss l' in
        match rest with [] => Some (Some (if Ascii.eqb c "-" then (- o)%Z else o)) | _ => None end
      else None
  end.

Definition parse_iso (l : list ascii) : option datetime :=
  let? (days, l) := parse_date l in
  let midnight := (days * 86400000000)%Z in
  match l with
  | [] => Some (Datetime midnight None)
  | _ :: l' =>
      let? (t, l'') := parse_hhmmss l' in
      let? off := parse_offset l'' in
      Some (Datetime (midnight + t)%Z off)
  end.

Definition fromisoformat `{PyText} (s : string) : result exn datetime :=
  match parse_iso (String.list_ascii_of_string s) with
  | Some d => Ok d
  | None => Err (ValueError ("Invalid isoformat string: " +:+ py_repr s))
  end.

(** Ordering datetimes of one kind is ordering numbers. *)
Lemma dt_lt_aware a b : is_Some (dt_offset a) → is_Some (dt_offset b) → dt_lt a b = Ok (dt_utc a <? dt_utc b)%Z.
Proof.
  intros [oa Ha] [ob Hb]. unfold dt_lt, dt_compare. rewrite Ha, Hb. simpl. unfold Z.ltb.
  by destruct (_ ?= _)%Z.
Qed.

Lemma dt_compare_mixed a b :
  dt_offset a = None ↔ is_Some (dt_offset b) →
  dt_compare a b = Err (TypeError "can't compare offset-naive and offset-aware datetimes").
Proof.
  unfold dt_compare. destruct (dt_offset a), (dt_offset b); intros [H1 H2]; try done.
  - by specialize (H2 ltac:(eauto)).
  - by destruct (H1 eq_refl).
Qed.
