(* ===== verification/IsoFormat.v ===== *)
(** * Writing datetimes

    [datetime.isoformat], and the sum of a datetime and a [timedelta] with its
    [OverflowError]. What [isoformat] writes [fromisoformat] reads back. *)

From Stdlib Require Import ZArith Lia Ascii.
From stdpp Require Import base strings list.
From S2P Require Import Prelude Datetime.
#[local] Open Scope Z_scope.

Module IsoFormat.
#[local] Close Scope char_scope.
#[local] Ltac Zify.zify_post_hook ::= Z.to_euclidean_division_equations.

(** ** Digits *)

Definition digit_char (n : Z) : ascii := ascii_of_nat (Z.to_nat (48 + n)).
Definition two (n : Z) : list ascii := [digit_char (n / 10); digit_char (n mod 10)].
Definition four (n : Z) : list ascii := two (n / 100) ++ two (n mod 100).

Lemma digit_of_char d : 0 <= d < 10 → digit (digit_char d) = Some d.
Proof.
  intros Hd. unfold digit, digit_char. rewrite nat_ascii_embedding by lia. rewrite Z2Nat.id by lia.
  rewrite (proj2 (Z.leb_le _ _)), (proj2 (Z.leb_le _ _)) by lia. simpl. f_equal. lia.
Qed.
Lemma two_digits n : 0 <= n < 100 → digit (digit_char (n / 10)) = Some (n / 10) ∧ digit (digit_char (n mod 10)) = Some (n mod 10).
Proof.
  intros Hn. split; apply digit_of_char; [|by apply Z.mod_pos_bound]. split; [by apply Z.div_pos; lia|apply Z.div_lt_upper_bound; lia].
Qed.
(** [%02d] is read as two digits, whatever was read before. *)
Lemma take_two k acc n r : 0 <= n < 100 → take_digits (S (S k)) acc (two n ++ r) = take_digits k (100 * acc + n) r.
Proof.
  intros Hn. destruct (two_digits n Hn) as [H1 H2]. unfold two. cbn [app take_digits]. rewrite H1, H2.
  f_equal. pose proof (Z.div_mod n 10). lia.
Qed.
Lemma take_four k acc n r : 0 <= n < 10000 → take_digits (S (S (S (S k)))) acc (four n ++ r) = take_digits k (10000 * acc + n) r.
Proof.
  intros Hn. unfold four. rewrite <-app_assoc, !take_two by (try apply Z.mod_pos_bound; try split; try apply Z.div_pos; try apply Z.div_lt_upper_bound; lia).
  f_equal. pose proof (Z.div_mod n 100). lia.
Qed.

(** ** The calendar *)

(** The days before the first of January of a year *)
Definition new_year (y : Z) : Z := days_of_civil y 1 1.
Definition year_of (n : Z) : Z :=
  let y := 400 * (n + 719162) / 146097 + 1 in
  if new_year (y + 1) <=? n then y + 1 else if new_year y <=? n then y else y - 1.
Fixpoint month_of (fuel : nat) (y m d : Z) : Z * Z :=
  match fuel with
  | O => (m, d + 1)
  | S fuel' => if d <? month_days y m then (m, d + 1) else month_of fuel' y (m + 1) (d - month_days y m)
  end.
(** The year, the month and the day of a number of days since 1970 *)
Definition civil_of_days (n : Z) : Z * Z * Z := 
  let y := year_of n in let ' (m, d) := month_of 11 y 1 (n - new_year y) in (y, m, d).

Lemma new_year_eq y : new_year y = 365 * (y - 1) + (y - 1) / 4 - (y - 1) / 100 + (y - 1) / 400 - 719162.
Proof.
  unfold new_year, days_of_civil. change (1 <=? 2) with true. change ((153 * ((1 + 9) mod 12) + 2) / 5) with 306. cbv zeta iota.
  set (q := (y - 1) / 400). set (r := (y - 1) mod 400). assert (y - 1 = 400 * q + r ∧ 0 <= r < 400) as [E Hr] by (subst q r; lia).
  clearbody q r. rewrite E. assert ((400 * q + r) / 4 = 100 * q + r / 4 ∧ (400 * q + r) / 100 = 4 * q + r / 100) as [-> ->] by lia. lia.
Qed.

Lemma year_of_spec n : new_year (year_of n) <= n < new_year (year_of n + 1).
Proof.
  unfold year_of. set (k := 400 * (n + 719162) / 146097). assert (146097 * k <= 400 * (n + 719162) < 146097 * k + 146097) as Hk by lia.
  clearbody k. repeat case_match; rewrite ?Z.leb_le, ?Z.leb_gt in *; rewrite !new_year_eq in *; lia.
Qed.
Lemma new_year_mono y y' : y <= y' → new_year y <= new_year y'.
Proof. rewrite !new_year_eq. lia. Qed.

Lemma civil_day y m d : days_of_civil y m d = days_of_civil y m 1 + d - 1.
Proof. unfold days_of_civil. lia. Qed.
Lemma leap_spec y : leap y = true ↔ (y mod 4 = 0 ∧ y mod 100 ≠ 0) ∨ y mod 400 = 0.
Proof. unfold leap. rewrite orb_true_iff, andb_true_iff, negb_true_iff, !Z.eqb_eq, Z.eqb_neq. done. Qed.
Lemma next_month y m : 1 <= m < 12 → days_of_civil y (m + 1) 1 = days_of_civil y m 1 + month_days y m.
Proof.
  intros Hm. assert (m = 1 ∨ m = 2 ∨ m = 3 ∨ m = 4 ∨ m = 5 ∨ m = 6 ∨ m = 7 ∨ m = 8 ∨ m = 9 ∨ m = 10 ∨ m = 11) as Hc by lia.
  destruct (decide (m = 2)) as [->|Hm2]; [|clear - Hc Hm2; unfold days_of_civil, month_days; naive_solver lia].
  (* the first of March counts from this year, the first of February from the last one *)
  unfold month_days. change (2 =? 2) with true. cbv iota. unfold days_of_civil. change (2 + 1 <=? 2) with false. change (2 <=? 2) with true.
  change ((153 * ((2 + 1 + 9) mod 12) + 2) / 5) with 0. change ((153 * ((2 + 9) mod 12) + 2) / 5) with 337. cbv zeta iota.
  destruct (leap y) eqn:E; [apply leap_spec in E|apply not_true_iff_false in E; rewrite leap_spec in E]; lia.
Qed.
Lemma december y : new_year (y + 1) = days_of_civil y 12 1 + 31.
Proof. unfold new_year, days_of_civil. simpl. lia. Qed.

Lemma month_of_spec fuel y m d : 1 <= m → Z.of_nat fuel = 12 - m → 0 <= d → days_of_civil y m 1 + d < new_year (y + 1) →
  let ' (m', d') := month_of fuel y m d in
  1 <= m' <= 12 ∧ 1 <= d' <= month_days y m' ∧ days_of_civil y m' d' = days_of_civil y m 1 + d.
Proof.
  revert m d. induction fuel as [|fuel IH]; intros m d Hm Hf Hd Hlt; cbn [month_of].
  - assert (m = 12) as -> by lia. rewrite december in Hlt. rewrite civil_day. change (month_days y 12) with 31. lia.
  - destruct (Z.ltb_spec d (month_days y m)) as [Hl|Hl]; [rewrite civil_day; lia|].
    assert (days_of_civil y (m + 1) 1 = days_of_civil y m 1 + month_days y m) as E by (apply next_month; lia).
    specialize (IH (m + 1) (d - month_days y m)). rewrite E in IH. destruct (month_of _ _ _ _) as [m' d']. destruct IH as (? & ? & ?); lia.
Qed.

(** The calendar date of a day names that day, and is one of the calendar. *)
Lemma civil_of_days_spec n : let ' (y, m, d) := civil_of_days n in
  days_of_civil y m d = n ∧ 1 <= m <= 12 ∧ 1 <= d <= month_days y m ∧ new_year y <= n < new_year (y + 1).
Proof.
  unfold civil_of_days. pose proof (year_of_spec n) as Hy. cbv zeta. set (y := year_of n) in *. clearbody y.
  pose proof (month_of_spec 11 y 1 (n - new_year y)) as Hm. destruct (month_of 11 y 1 (n - new_year y)) as [m d].
  fold (new_year y) in Hm. destruct Hm as (? & ? & ?); lia.
Qed.

(** ** [isoformat] *)

Definition DAY : Z := 86400000000.
Definition hours_of (t : Z) : Z := t / 3600000000.
Definition minutes_of (t : Z) : Z := t / 60000000 mod 60.
Definition seconds_of (t : Z) : Z := t / 1000000 mod 60.
Definition micros_of (t : Z) : Z := t mod 1000000.
Definition six (n : Z) : list ascii := two (n / 10000) ++ two (n / 100 mod 100) ++ two (n mod 100).
Definition fraction_text (us : Z) : list ascii := if us =? 0 then [] else "."%char :: six us.
Definition time_text (t : Z) : list ascii :=
  two (hours_of t) ++ ":"%char :: two (minutes_of t) ++ ":"%char :: two (seconds_of t) ++ fraction_text (micros_of t).
(** The offset has no seconds if they are zero. *)
Definition offset_text (o : Z) : list ascii :=
  (if o <? 0 then "-"%char else "+"%char) ::
  (if (seconds_of (Z.abs o) =? 0) && (micros_of (Z.abs o) =? 0) then two (hours_of (Z.abs o)) ++ ":"%char :: two (minutes_of (Z.abs o))
   else time_text (Z.abs o)).
Definition iso_chars (d : datetime) : list ascii :=
  let ' (y, m, day) := civil_of_days (dt_wall d / DAY) in
  four y ++ "-"%char :: two m ++ "-"%char :: two day ++ "T"%char :: time_text (dt_wall d mod DAY) ++
  match dt_offset d with None => [] | Some o => offset_text o end.
Definition isoformat (d : datetime) : string := String.string_of_list_ascii (iso_chars d).

(** The datetimes there are: the years 1 to 9999, an offset of less than a day *)
Definition in_calendar (w : Z) : bool := (new_year 1 * DAY <=? w) && (w <? new_year 10000 * DAY).
Definition representable (d : datetime) : Prop :=
  in_calendar (dt_wall d) = true ∧ ∀ o, dt_offset d = Some o → Z.abs o < DAY.
(** [d + timedelta(days=k)] *)
Definition add_days (k : Z) (d : datetime) : result exn datetime :=
  let w := dt_wall d + k * DAY in
  if in_calendar w then Ok (Datetime w (dt_offset d)) else Err (OverflowError "date value out of range").

(** ** What is written is read *)

Definition no_digit (r : list ascii) : Prop := match r with [] => True | c :: _ => digit c = None end.
Definition no_point (r : list ascii) : Prop := take_char "."%char r = None ∧ take_char ","%char r = None.

Lemma read_two n r : 0 <= n < 100 → take_digits 2 0 (two n ++ r) = Some (n, r).
Proof. intros Hn. by rewrite take_two. Qed.
Lemma read_four n r : 0 <= n < 10000 → take_digits 4 0 (four n ++ r) = Some (n, r).
Proof. intros Hn. by rewrite take_four. Qed.
Lemma read_six n r : 0 <= n < 1000000 → take_digits 6 0 (six n ++ r) = Some (n, r).
Proof.
  intros Hn. unfold six. rewrite <-!app_assoc, !take_two by lia. cbn [take_digits]. do 2 f_equal. lia.
Qed.
Lemma read_fraction us r : 0 <= us < 1000000 → no_digit r → no_point r →
  match (match take_char "."%char (fraction_text us ++ r) with Some l' => Some l' | None => take_char ","%char (fraction_text us ++ r) end) with
  | Some l' => parse_fraction l' | None => Some (0, fraction_text us ++ r) end = Some (us, r).
Proof.
  intros Hu Hd [Hp Hc]. unfold fraction_text. destruct (Z.eqb_spec us 0) as [->|Hne]; [simpl; by rewrite Hp, Hc|].
  cbn [app take_char Ascii.eqb Bool.eqb].
  unfold parse_fraction. rewrite read_six by done. destruct r as [|c r]; [done|]. simpl in *. by rewrite Hd.
Qed.
Lemma usec_of t : 0 <= t < DAY → usec (hours_of t) (minutes_of t) (seconds_of t) (micros_of t) = t.
Proof. unfold DAY, usec, hours_of, minutes_of, seconds_of, micros_of. lia. Qed.
Lemma time_bounds t : 0 <= t < DAY → 0 <= hours_of t < 24 ∧ 0 <= minutes_of t < 60 ∧ 0 <= seconds_of t < 60 ∧ 0 <= micros_of t < 1000000.
Proof. unfold DAY, hours_of, minutes_of, seconds_of, micros_of. lia. Qed.
Lemma read_time t r : 0 <= t < DAY → no_digit r → no_point r → parse_hhmmss (time_text t ++ r) = Some (t, r).
Proof.
  intros Ht Hd Hp. destruct (time_bounds t Ht) as (Hh & Hm & Hs & Hu). unfold parse_hhmmss, time_text.
  rewrite <-app_assoc, read_two by lia. cbn [app take_char Ascii.eqb Bool.eqb]. rewrite <-app_assoc, read_two by lia.
  cbn [app take_char Ascii.eqb Bool.eqb]. rewrite <-app_assoc, read_two by lia. rewrite read_fraction by done.
  rewrite !(proj2 (Z.leb_le _ _)) by lia. simpl. by rewrite usec_of.
Qed.
Lemma read_offset o : Z.abs o < DAY → parse_offset (offset_text o) = Some (Some o).
Proof.
  intros Ho. unfold offset_text. set (t := Z.abs o). assert (0 <= t < DAY) as Ht by lia.
  assert ((if o <? 0 then - t else t) = o) as Eo by (destruct (Z.ltb_spec o 0); lia).
  assert (parse_hhmmss (if (seconds_of t =? 0) && (micros_of t =? 0) then two (hours_of t) ++ ":"%char :: two (minutes_of t) else time_text t) = Some (t, [])) as E.
  { destruct (_ && _) eqn:Hz; [|rewrite <-(app_nil_r (time_text t)); by apply read_time].
    apply andb_prop in Hz as [Hs%Z.eqb_eq Hu%Z.eqb_eq]. destruct (time_bounds t Ht) as (Hh & Hm & _). unfold parse_hhmmss.
    rewrite read_two by lia. cbn [take_char Ascii.eqb Bool.eqb]. rewrite <-(app_nil_r (two (minutes_of t))), read_two by lia. simpl.
    rewrite !(proj2 (Z.leb_le _ _)) by lia. simpl. pose proof (usec_of t Ht) as Hus. rewrite Hs, Hu in Hus. by rewrite Hus. }
  unfold parse_offset. destruct (o <? 0); cbn [Ascii.eqb Bool.eqb orb]; rewrite E; cbn [Ascii.eqb Bool.eqb]; by rewrite Eo.
Qed.
Lemma year_in_calendar w : in_calendar w = true → let ' (y, m, d) := civil_of_days (w / DAY) in 1 <= y < 10000.
Proof.
  unfold in_calendar. rewrite andb_true_iff, Z.leb_le, Z.ltb_lt. intros Hw. pose proof (civil_of_days_spec (w / DAY)) as Hc.
  destruct (civil_of_days (w / DAY)) as [[y m] d]. destruct Hc as (_ & _ & _ & Hy).
  assert (new_year 1 <= w / DAY < new_year 10000) as Hb by (unfold DAY in *; lia).
  split; apply Znot_gt_le || apply Z.nle_gt; intros Hgt; [pose proof (new_year_mono (y + 1) 1)|pose proof (new_year_mono 10000 y)]; lia.
Qed.

Lemma iso_read d : representable d → parse_iso (iso_chars d) = Some d.
Proof.
  intros [Hw Ho]. pose proof (civil_of_days_spec (dt_wall d / DAY)) as Hc. pose proof (year_in_calendar _ Hw) as Hy.
  unfold iso_chars. destruct (civil_of_days (dt_wall d / DAY)) as [[y m] day]. destruct Hc as (Ed & Hm & Hd & _).
  assert (month_days y m <= 31) as Hmd by (unfold month_days; repeat case_match; lia).
  unfold parse_iso, parse_date. rewrite read_four by lia. cbn [take_char Ascii.eqb Bool.eqb].
  rewrite read_two by lia. cbn [take_char Ascii.eqb Bool.eqb]. rewrite read_two by lia.
  rewrite !(proj2 (Z.leb_le _ _)) by lia. cbn [andb]. rewrite Ed.
  assert (dt_wall d / DAY * 86400000000 + dt_wall d mod DAY = dt_wall d) as Ew by (unfold DAY; lia).
  assert (0 <= dt_wall d mod DAY < DAY) as Ht by (by apply Z.mod_pos_bound). destruct d as [w [o|]]; cbn [dt_wall dt_offset] in *; cbv zeta.
  - rewrite read_time; [|done|unfold offset_text; by destruct (o <? 0)..]. rewrite read_offset by auto. by rewrite Ew.
  - rewrite read_time by done. cbn [parse_offset]. by rewrite Ew.
Qed.
Theorem iso_round_trip `{PyText} d : representable d → fromisoformat (isoformat d) = Ok d.
Proof. intros Hd. unfold fromisoformat, isoformat. by rewrite String.list_ascii_of_string_of_list_ascii, iso_read. Qed.

(** ** What is read is a datetime there is *)

Lemma digit_bound c d : digit c = Some d → 0 <= d < 10.
Proof. unfold digit. destruct (_ && _) eqn:E; [|done]. intros [= <-]. rewrite andb_true_iff, !Z.leb_le in E. lia. Qed.
Lemma take_digits_bound n acc l v r : take_digits n acc l = Some (v, r) → 0 <= acc → acc * 10 ^ Z.of_nat n <= v < (acc + 1) * 10 ^ Z.of_nat n.
Proof.
  revert acc l. induction n as [|n IH]; intros acc l; [simpl; intros [= <- <-]; lia|].
  cbn [take_digits]. destruct l as [|c l]; [done|]. destruct (digit c) as [d|] eqn:Hd; [|done]. apply digit_bound in Hd.
  intros Hv Ha. rewrite Nat2Z.inj_succ, Z.pow_succ_r by lia. specialize (IH _ _ Hv). nia.
Qed.
Lemma parse_hhmmss_bound l t r : parse_hhmmss l = Some (t, r) → 0 <= t < DAY.
Proof.
  unfold parse_hhmmss, DAY. destruct (take_digits 2 0 l) as [[h l1]|] eqn:Eh; [|done]. apply take_digits_bound in Eh; [|done]. change (10 ^ Z.of_nat 2) with 100 in *.
  destruct (take_char _ l1) as [l2|]; [|case_match; [|done]; intros [= <- _]; unfold usec; lia].
  destruct (take_digits 2 0 l2) as [[m l3]|] eqn:Em; [|done]. apply take_digits_bound in Em; [|done]. change (10 ^ Z.of_nat 2) with 100 in *.
  destruct (take_char _ l3) as [l4|]; [|destruct (_ && _) eqn:E; [|done]; intros [= <- _]; rewrite andb_true_iff, !Z.leb_le in E; unfold usec; lia].
  destruct (take_digits 2 0 l4) as [[s l5]|] eqn:Es; [|done]. apply take_digits_bound in Es; [|done]. change (10 ^ Z.of_nat 2) with 100 in *.
  assert (∀ us l6, match (match take_char "."%char l5 with Some l' => Some l' | None => take_char ","%char l5 end) with
    | Some l' => parse_fraction l' | None => Some (0, l5) end = Some (us, l6) → 0 <= us < 1000000) as Hus.
  { intros us l6. destruct (match take_char "."%char l5 with Some l' => Some l' | None => take_char ","%char l5 end) as [l'|]; [|intros [= <- _]; lia].
    unfold parse_fraction. destruct (take_digits 6 0 l') as [[u l7]|] eqn:Eu; [apply take_digits_bound in Eu; [|done]; intros [= <- _]; simpl in Eu; lia|].
    destruct (take_digits 3 0 l') as [[u l7]|] eqn:Eu3; [|done]. apply take_digits_bound in Eu3; [|done]. simpl in Eu3.
    destruct l7 as [|c l7]; [|destruct (digit c); [done|]]; intros [= <- _]; lia. }
  match goal with |- match ?x with _ => _ end = _ → _ => destruct x as [[us l6]|] eqn:Eus; [|done] end. specialize (Hus _ _ eq_refl).
  destruct (_ && _) eqn:E; [|done]. intros [= <- _]. rewrite !andb_true_iff, !Z.leb_le in E. unfold usec. lia.
Qed.
Lemma month_le y m k : 1 <= m → 0 <= k → m + k <= 12 → days_of_civil y m 1 <= days_of_civil y (m + k) 1.
Proof.
  intros Hm Hk. pattern k. apply natlike_ind; [by rewrite Z.add_0_r| |done]. intros j Hj IH Hle.
  rewrite <-Z.add_1_r, Z.add_assoc, next_month by lia. assert (0 <= month_days y (m + j)) by (unfold month_days; repeat case_match; lia). lia.
Qed.
Lemma month_within y m : 1 <= m <= 12 → new_year y <= days_of_civil y m 1 ∧ days_of_civil y m 1 + month_days y m <= new_year (y + 1).
Proof.
  intros Hm. split.
  - pose proof (month_le y 1 (m - 1)) as H. replace (1 + (m - 1)) with m in H by lia. apply H; lia.
  - rewrite december. destruct (decide (m = 12)) as [->|Hne]; [done|]. rewrite <-next_month by lia.
    pose proof (month_le y (m + 1) (11 - m)) as H. replace (m + 1 + (11 - m)) with 12 in H by lia. specialize (H ltac:(lia) ltac:(lia) ltac:(lia)). lia.
Qed.
Lemma parse_date_bound l n r : parse_date l = Some (n, r) → new_year 1 <= n < new_year 10000.
Proof.
  unfold parse_date. destruct (take_digits 4 0 l) as [[y l1]|] eqn:Ey; [|done]. apply take_digits_bound in Ey; [|done]. simpl in Ey.
  destruct (take_char _ l1) as [l2|]; [|done]. destruct (take_digits 2 0 l2) as [[m l3]|]; [|done].
  destruct (take_char _ l3) as [l4|]; [|done]. destruct (take_digits 2 0 l4) as [[d l5]|]; [|done].
  destruct (_ && _) eqn:E; [|done]. intros [= <- _]. rewrite !andb_true_iff, !Z.leb_le in E.
  destruct (month_within y m) as [Hs He]; [lia|]. rewrite (civil_day y m d).
  pose proof (new_year_mono 1 y). pose proof (new_year_mono (y + 1) 10000). lia.
Qed.
Lemma parse_iso_representable l d : parse_iso l = Some d → representable d.
Proof.
  unfold parse_iso. destruct (parse_date l) as [[n r]|] eqn:Ed; [|done]. apply parse_date_bound in Ed. destruct r as [|c r].
  - intros [= <-]. split; [|done]. unfold in_calendar, DAY. simpl. rewrite andb_true_iff, Z.leb_le, Z.ltb_lt. lia.
  - destruct (parse_hhmmss r) as [[t r']|] eqn:Et; [|done]. apply parse_hhmmss_bound in Et.
    destruct (parse_offset r') as [off|] eqn:Eo; [|done]. intros [= <-]. split.
    + unfold in_calendar, DAY in *. simpl. rewrite andb_true_iff, Z.leb_le, Z.ltb_lt. lia.
    + simpl. intros o ->. unfold parse_offset in Eo. destruct r' as [|c' r']; [done|]. destruct (Ascii.eqb c' "Z"%char).
      { destruct r'; [|done]. injection Eo as <-. unfold DAY. lia. }
      destruct (_ || _); [|done]. destruct (parse_hhmmss r') as [[u [|? ?]]|] eqn:Eu; [|done..]. apply parse_hhmmss_bound in Eu.
      injection Eo as <-. destruct (Ascii.eqb c' "-"%char); lia.
Qed.
Lemma fromisoformat_representable `{PyText} s d : fromisoformat s = Ok d → representable d.
Proof. unfold fromisoformat. destruct (parse_iso _) as [x|] eqn:E; [|done]. intros [= <-]. by eapply parse_iso_representable. Qed.
Lemma add_days_representable k d d' : representable d → add_days k d = Ok d' → representable d'.
Proof. intros [_ Ho]. unfold add_days. destruct (in_calendar _) eqn:E; [|done]. intros [= <-]. by split. Qed.
End IsoFormat.
