(* ===== verification/Api.v ===== *)
(** * The HTTP layer the routers share

    [packages/platform/errors.py] (the one error envelope),
    [packages/platform/rbac/models.py] and [rbac/dependency.py] (the permission
    check in front of every route). A route is a function of the database to a
    response with the new database, or to an exception, after which the
    transaction of the request is rolled back: the database is the old one. *)

From stdpp Require Import base gmap strings list.
From Stdlib Require Import ZArith.
From S2P Require Import Prelude Json.

Record Identity := { subject : string; role : string; permissions : gset string }.
Definition has_permission (i : Identity) (permission : string) : bool := bool_decide (permission ∈ permissions i).

Record ApiError := {
  status_code : Z;
  error_code : string;
  error_message : string;
  details : option (list json);
}.

(** What a route can raise: an [ApiError] of its own, or any other exception,
    which only the handler of last resort sees. [X] is the type of the domain's
    exceptions. *)
Inductive http_error (X : Type) :=
| Api (e : ApiError)
| Uncaught (x : X).
Arguments Api {X} e.
Arguments Uncaught {X} x.

Definition api_error {X} (status : Z) (code msg : string) : http_error X :=
  Api {| status_code := status; error_code := code; error_message := msg; details := None |}.

(** The status, code, message and details of the response: [handle_api_error]
    and [handle_unexpected_error]. *)
Definition envelope_response {X} (e : http_error X) : Z * string * string * option (list json) :=
  match e with
  | Api a => (status_code a, error_code a, error_message a, details a)
  | Uncaught _ => (500%Z, "internal_error", "unexpected server error", None)
  end.

Definition require_permission {X} (permission : string) (i : Identity) : result (http_error X) Identity :=
  raise_if negb (has_permission i permission)
    with api_error 403 "forbidden" ("missing permission: " +:+ permission) ;;
  Ok i.

(** The request's transaction: commit on a response, roll back on an exception. *)
Definition commit {X A D : Type} (db : D) (r : result X (A * D)) : D :=
  match r with Ok (_, db') => db' | Err _ => db end.

Lemma require_permission_ok {X} p i (j : Identity) :
  require_permission (X := X) p i = Ok j ↔ j = i ∧ p ∈ permissions i.
Proof.
  unfold require_permission, has_permission. case_bool_decide; simpl; naive_solver.
Qed.
#[export] Hint Rewrite @require_permission_ok : uw.
