(* ===== verification/Lifecycle.v ===== *)
(** * The policy-version data model and its lifecycle graph

    [packages/algorithm/policy_model.py] (Module [Model]) and
    [packages/algorithm/policy_lifecycle.py] (Module [Transitions]): the frozen
    dataclasses with the checks of their [__post_init__], the status tuples, and
    the allowed status transitions. A status is a string in the code, because
    the API passes whatever the client sent; it is a string here. *)

From stdpp Require Import base gmap strings list relations.
From Stdlib Require Import ZArith.
From S2P Require Import Prelude Json.

Module Model.
Section WithText.
Context `{PyText}.

Definition node_types : list string := ["human"; "rule"; "gate"; "data_quality"; "ml"; "hybrid"].
Definition activatable_node_types : list string := ["human"; "rule"; "gate"; "data_quality"].
Definition lifecycle_statuses : list string :=
  ["draft"; "simulation"; "business_review"; "risk_review"; "approved"; "active"; "retired";
   "rejected"; "suspended"].
Definition immutable_statuses : list string := ["approved"; "active"].

Record PolicyGraph := { pg_name : string; pg_owner : string; pg_description : option string }.

Record PolicyVersion := {
  pv_policy_graph_id : Z;
  pv_version_number : Z;
  pv_status : string;
  pv_created_by : string;
  pv_research_dossier_id : option Z;
}.

Definition PolicyVersion_post_init (v : PolicyVersion) : result exn PolicyVersion :=
  raise_if bool_decide (pv_status v ∉ lifecycle_statuses)
    with ValueError ("unknown lifecycle status: " +:+ py_repr (pv_status v)) ;;
  raise_if bool_decide (pv_version_number v < 1)%Z with ValueError "version_number must be >= 1" ;;
  Ok v.

Record PolicyNode := {
  policy_version_id : Z;
  node_key : string;
  node_type : string;
  title : string;
  purpose : string;
  owner : string;
  execution_mode : string;
  input_contract : gmap string string;
  output_contract : gmap string string;
  preconditions : list string;
  evidence_requirements : list string;
  reason_codes : list string;
  test_cases : list json;
  monitoring_metrics : list string;
  timeout_seconds : option Z;
  retry_policy : option json;
  fallback_node_key : option string;
  required_role : option string;
  financial_impact : bool;
  legal_impact : bool;
  model_or_policy_dependency : option string;
}.

Definition PolicyNode_post_init (n : PolicyNode) : result exn PolicyNode :=
  raise_if bool_decide (node_type n ∉ node_types)
    with ValueError ("unknown node_type: " +:+ py_repr (node_type n)) ;;
  raise_if bool_decide (node_type n ∉ activatable_node_types)
    with ValueError ("node_type " +:+ py_repr (node_type n) +:+
      " is not activatable until Phase 8 (FR-ALG-08); the type exists in NODE_TYPES for future schema stability, not for use here") ;;
  raise_if is_blank (node_key n) with ValueError "node_key must be non-empty" ;;
  raise_if is_blank (title n) with ValueError "title must be non-empty" ;;
  raise_if is_blank (owner n) with ValueError "owner must be non-empty" ;;
  Ok n.

Record PolicyEdge := {
  edge_version_id : Z;
  from_node_key : string;
  to_node_key : string;
  condition_label : option string;
}.

Definition PolicyEdge_post_init (e : PolicyEdge) : result exn PolicyEdge :=
  raise_if is_blank (from_node_key e) || is_blank (to_node_key e)
    with ValueError "from_node_key/to_node_key must be non-empty" ;;
  Ok e.

Record PolicyVersionTransition := {
  tr_version_id : Z;
  tr_from_status : string;
  tr_to_status : string;
  tr_changed_by : string;
  tr_reason : option string;
}.

(** What a node that went through [__post_init__] satisfies. *)
Definition node_ok (n : PolicyNode) : Prop :=
  node_type n ∈ activatable_node_types ∧ is_blank (node_key n) = false ∧
  is_blank (title n) = false ∧ is_blank (owner n) = false.

Lemma PolicyNode_post_init_ok n n' : PolicyNode_post_init n = Ok n' ↔ n' = n ∧ node_ok n.
Proof.
  unfold PolicyNode_post_init, node_ok. split.
  - intros Hn. inv_ok. repeat match goal with H : bool_decide _ = false |- _ =>
      apply bool_decide_eq_false, dec_stable in H end. done.
  - intros (-> & Ht & Hk & Hti & Ho). rewrite Hk, Hti, Ho.
    rewrite !bool_decide_false; [done|tauto|].
    intros Hn; apply Hn. unfold node_types, activatable_node_types in *. set_solver.
Qed.

Definition edge_ok (e : PolicyEdge) : Prop :=
  is_blank (from_node_key e) = false ∧ is_blank (to_node_key e) = false.

Lemma PolicyEdge_post_init_ok e e' : PolicyEdge_post_init e = Ok e' ↔ e' = e ∧ edge_ok e.
Proof.
  unfold PolicyEdge_post_init, edge_ok.
  destruct (is_blank (from_node_key e)), (is_blank (to_node_key e)); simpl; naive_solver.
Qed.
End WithText.

(** A node with the mandatory fields only, for concrete graphs. *)
Definition plain_node (key type : string) (fallback : option string) (cases : list json) : PolicyNode := {|
  policy_version_id := 1; node_key := key; node_type := type; title := key; purpose := "";
  owner := "owner"; execution_mode := "manual"; input_contract := ∅; output_contract := ∅;
  preconditions := []; evidence_requirements := []; reason_codes := []; test_cases := cases;
  monitoring_metrics := []; timeout_seconds := None; retry_policy := None;
  fallback_node_key := fallback; required_role := None; financial_impact := false;
  legal_impact := false; model_or_policy_dependency := None |}.
Definition plain_edge (from to : string) (label : option string) : PolicyEdge :=
  {| edge_version_id := 1; from_node_key := from; to_node_key := to; condition_label := label |}.
#[export] Hint Resolve -> PolicyNode_post_init_ok PolicyEdge_post_init_ok : uw.
End Model.

Module Transitions.
Import Model.

Definition allowed_transitions (from_status : string) : option (list string) :=
  assoc from_status
    [("draft", ["simulation"]);
     ("simulation", ["business_review"; "rejected"]);
     ("business_review", ["risk_review"; "rejected"]);
     ("risk_review", ["approved"; "rejected"]);
     ("approved", ["active"]);
     ("active", ["retired"; "suspended"]);
     ("suspended", ["active"; "retired"]);
     ("retired", []);
     ("rejected", [])].

(** [to_status in ALLOWED_TRANSITIONS.get(from_status, ())] *)
Definition can_transition (from_status to_status : string) : bool :=
  bool_decide (to_status ∈ default [] (allowed_transitions from_status)).

(** The statuses a version goes through: [path s p t] says that the version
    was in [s], then in each status of [p] in turn, and is now in [t]. *)
Inductive path (s : string) : list string → string → Prop :=
| path_refl : path s [s] s
| path_step p t u : path s p t → can_transition t u = true → path s (p ++ [u]) u.

Definition transition_pairs : list (string * string) :=
  [("draft", "simulation");
   ("simulation", "business_review"); ("simulation", "rejected");
   ("business_review", "risk_review"); ("business_review", "rejected");
   ("risk_review", "approved"); ("risk_review", "rejected");
   ("approved", "active"); ("active", "retired"); ("active", "suspended");
   ("suspended", "active"); ("suspended", "retired")].

Lemma can_transition_pairs s t : can_transition s t = true ↔ (s, t) ∈ transition_pairs.
Proof.
  unfold can_transition, allowed_transitions, transition_pairs. rewrite bool_decide_eq_true.
  split.
  - simpl.
    repeat (match goal with |- context [String.eqb s ?k] => destruct (String.eqb_spec s k) as [->|?] end;
      [simpl; intros Ht; repeat (apply elem_of_cons in Ht as [->|Ht]; [concrete_mem|]);
       by apply elem_of_nil in Ht|]).
    by intros ?%elem_of_nil.
  - intros Hin. repeat (apply elem_of_cons in Hin as [[= -> ->]|Hin]; [concrete_mem|]).
    by apply elem_of_nil in Hin.
Qed.

(** Case analysis on an allowed transition. *)
Ltac transition_cases H :=
  apply can_transition_pairs in H; unfold transition_pairs in H;
  repeat (apply elem_of_cons in H as [[= -> ->]|H]); [..|by apply elem_of_nil in H].

Lemma can_transition_lifecycle s t :
  can_transition s t = true → s ∈ lifecycle_statuses ∧ t ∈ lifecycle_statuses.
Proof. intros Hst. transition_cases Hst; split; concrete_mem. Qed.

Lemma path_last s p t : path s p t → ∃ q, p = q ++ [t].
Proof. destruct 1 as [|p t u _ _]; [by exists []|by exists p]. Qed.

(** The reviews a version in each status has behind it. *)
Definition reviews_behind (t : string) : list string :=
  if bool_decide (t ∈ ["approved"; "active"; "suspended"; "retired"]) then
    ["draft"; "simulation"; "business_review"; "risk_review"; "approved"]
  else if bool_decide (t = "risk_review") then
    ["draft"; "simulation"; "business_review"; "risk_review"]
  else if bool_decide (t = "business_review") then ["draft"; "simulation"; "business_review"]
  else if bool_decide (t = "simulation") then ["draft"; "simulation"]
  else ["draft"].

Ltac solve_sublist :=
  solve [ apply sublist_nil | apply sublist_skip; solve_sublist | apply sublist_cons; solve_sublist ].

Lemma reviews_behind_step t u :
  can_transition t u = true → reviews_behind u `sublist_of` (reviews_behind t ++ [u]).
Proof.
  intros Htu. transition_cases Htu; vm_compute; solve_sublist.
Qed.

Lemma path_reviews_behind p t : path "draft" p t → reviews_behind t `sublist_of` p.
Proof.
  induction 1 as [|p t u _ IH Htu]; [vm_compute; by repeat constructor|].
  etrans; [by apply reviews_behind_step|]. by apply sublist_app.
Qed.

(** A version that started as a draft is approved, active, suspended or
    retired only after having been, in this order, in draft, simulation,
    business review, risk review and approved: no sequence of allowed
    transitions skips a review. *)
Theorem no_review_skipped p t :
  path "draft" p t → t ∈ ["approved"; "active"; "suspended"; "retired"] →
  ["draft"; "simulation"; "business_review"; "risk_review"; "approved"] `sublist_of` p.
Proof.
  intros Hp%path_reviews_behind Ht. unfold reviews_behind in Hp.
  by rewrite bool_decide_true in Hp.
Qed.

Definition sample_path : list string :=
  ["draft"; "simulation"; "business_review"; "risk_review"; "approved"; "active"; "suspended"; "active"].

Lemma sample_path_ok : path "draft" sample_path "active".
Proof.
  change sample_path with ((((((((["draft"] ++ ["simulation"]) ++ ["business_review"]) ++
    ["risk_review"]) ++ ["approved"]) ++ ["active"]) ++ ["suspended"]) ++ ["active"])).
  repeat (eapply path_step); [apply path_refl|reflexivity..].
Qed.

Lemma no_review_skipped_witness :
  ["draft"; "simulation"; "business_review"; "risk_review"; "approved"] `sublist_of` sample_path.
Proof. apply (no_review_skipped sample_path "active"); [apply sample_path_ok|set_solver]. Defined.

(** C40: the status graph: only pairs of the nine lifecycle statuses are
    allowed, retired and rejected are exactly the ones with no way out, and an
    approved or active version never goes back to a status before approval. *)
Theorem transition_graph s :
  (∀ t, can_transition s t = true → s ∈ lifecycle_statuses ∧ t ∈ lifecycle_statuses) ∧
  (s ∈ lifecycle_statuses → (∀ t, can_transition s t = false) ↔ s ∈ ["retired"; "rejected"]) ∧
  (s ∈ immutable_statuses → ∀ t p, path s p t → t ∈ ["approved"; "active"; "suspended"; "retired"]).
Proof.
  split; [apply can_transition_lifecycle|]. split; [split|].
  - intros Hno. unfold lifecycle_statuses in *.
    repeat match goal with H : s ∈ _ :: _ |- _ => apply elem_of_cons in H as [->|H] end;
      try set_solver.
    + by specialize (Hno "simulation").
    + by specialize (Hno "business_review").
    + by specialize (Hno "risk_review").
    + by specialize (Hno "approved").
    + by specialize (Hno "active").
    + by specialize (Hno "retired").
    + by specialize (Hno "active").
  - intros Hs t. destruct (can_transition s t) eqn:Ht; [|done].
    by transition_cases Ht; set_solver.
  - intros Hs t p Hp. induction Hp as [|p t u _ IH Htu].
    + unfold immutable_statuses in *. set_solver.
    + transition_cases Htu; set_solver.
Qed.
End Transitions.
