(* ===== verification/PolicyGraph.v ===== *)
(** * The structural validator of policy graphs

    [packages/algorithm/policy_validator.py]: the checks a policy version's
    nodes and edges go through at edit time and before approval. Module
    [Validator] has the definitions and the theorem on what an accepted graph
    satisfies; Module [Reach] is the worklist of [_reachability_issues] against
    the reflexive-transitive closure of the edge relation. *)

From stdpp Require Import base gmap strings list relations.
From Stdlib Require Import ZArith.
From S2P Require Import Prelude Json Lifecycle.
Import Model.

Module Graph.

(** Adjacency lists, [dict[str, list[str]]] *)
Abbreviation adjacency := (gmap string (list string)).

Section WithText.
Context `{PyText}.

(** A computation of this file ends with a value, a Python exception, or for
    lack of fuel; the last never happens, see [Validator.validate_graph_total]. *)
Inductive gexn := OutOfFuel | Raised (e : exn).
Definition py {A} (m : result exn A) : result gexn A := map_err Raised m.

Record ValidationIssue := { code : string; message : string; issue_node : option string }.

(** [{n["node_key"] for n in nodes}] *)
Definition node_keys (nodes : list PolicyNode) : gset string := list_to_set (map node_key nodes).

(** [{n["node_key"]: n for n in nodes}]: the last node of a key wins. *)
Definition node_by_key (nodes : list PolicyNode) : gmap string PolicyNode :=
  foldl (λ m n, <[node_key n := n]> m) ∅ nodes.

(** [d[k]] on a dict *)
Definition dict_at {A} (k : string) (m : gmap string A) : result exn A :=
  match m !! k with Some a => Ok a | None => Err (KeyError k) end.

Definition dangling_reference_issues (nodes : list PolicyNode) (edges : list PolicyEdge) : list ValidationIssue :=
  let keys := node_keys nodes in
  (edges ≫= λ e,
    (if decide (from_node_key e ∉ keys) then
       [{| code := "dangling_reference";
           message := "edge references unknown from_node_key " +:+ py_repr (from_node_key e);
           issue_node := Some (from_node_key e) |}] else []) ++
    (if decide (to_node_key e ∉ keys) then
       [{| code := "dangling_reference";
           message := "edge references unknown to_node_key " +:+ py_repr (to_node_key e);
           issue_node := Some (to_node_key e) |}] else [])) ++
  (nodes ≫= λ n,
    match fallback_node_key n with
    | Some fb =>
        if decide (fb ∉ keys) then
          [{| code := "dangling_reference";
              message := "node " +:+ py_repr (node_key n) +:+
                " fallback_node_key references unknown node " +:+ py_repr fb;
              issue_node := Some (node_key n) |}] else []
    | None => []
    end).

(** [out_adj.get(k, ())] *)
Definition adj_get (adj : adjacency) (k : string) : list string := default [] (adj !! k).

(** [adj[k].append(x)] *)
Definition adj_append (k x : string) (adj : adjacency) : result exn adjacency :=
  let! l := dict_at k adj in Ok (<[k := l ++ [x]]> adj).

Definition add_arc (from to : string) (adjs : adjacency * adjacency) : result exn (adjacency * adjacency) :=
  let! out_adj := adj_append from to adjs.1 in
  let! incoming_adj := adj_append to from adjs.2 in
  Ok (out_adj, incoming_adj).

Definition build_adjacency (nodes : list PolicyNode) (clean_edges : list PolicyEdge)
    : result exn (adjacency * adjacency) :=
  let keys := node_keys nodes in
  let empty : adjacency := gset_to_gmap [] keys in
  let! adjs := foldM (λ adjs e, add_arc (from_node_key e) (to_node_key e) adjs) (empty, empty) clean_edges in
  foldM (λ adjs n,
    match fallback_node_key n with
    | Some fb => if decide (fb ∈ keys) then add_arc (node_key n) fb adjs else Ok adjs
    | None => Ok adjs
    end) adjs nodes.

(** The worklist of [_reachability_issues]: [frontier.pop()] takes the last
    element, new neighbours go to its end. *)
Definition visit_neighbours (out_adj : adjacency) (current : string)
    (st : gset string * list string) : gset string * list string :=
  foldl (λ st nxt, if decide (nxt ∈ st.1) then st else ({[nxt]} ∪ st.1, st.2 ++ [nxt]))
    st (adj_get out_adj current).

Fixpoint reach_loop (fuel : nat) (out_adj : adjacency) (seen : gset string) (frontier : list string)
    : result gexn (gset string) :=
  match reverse frontier with
  | [] => Ok seen
  | current :: rest =>
      match fuel with
      | 0%nat => Err OutOfFuel
      | S fuel' =>
          let st := visit_neighbours out_adj current (seen, reverse rest) in
          reach_loop fuel' out_adj st.1 st.2
      end
  end.

Definition has_no_arcs (adj : adjacency) (k : string) : Prop := adj_get adj k = [].
#[export] Instance has_no_arcs_dec adj k : Decision (has_no_arcs adj k).
Proof. unfold has_no_arcs. apply _. Defined.

Definition islands (keys : gset string) (out_adj incoming_adj : adjacency) : gset string :=
  filter (λ k, has_no_arcs incoming_adj k ∧ has_no_arcs out_adj k) keys.
Definition start_nodes (keys : gset string) (out_adj incoming_adj : adjacency) : gset string :=
  filter (λ k, has_no_arcs incoming_adj k) (keys ∖ islands keys out_adj incoming_adj).
Definition terminals (keys : gset string) (out_adj : adjacency) : gset string :=
  filter (λ k, has_no_arcs out_adj k) keys.

Definition reachability_issues (nodes : list PolicyNode) (out_adj incoming_adj : adjacency)
    : result gexn (list ValidationIssue) :=
  let keys := node_keys nodes in
  if decide (keys = ∅) then
    Ok [{| code := "empty_graph"; message := "graph has no nodes"; issue_node := None |}]
  else if decide (size keys = 1%nat) then Ok []
  else
    let isl := islands keys out_adj incoming_adj in
    let issues := map (λ k, {| code := "unreachable_node";
        message := "node " +:+ py_repr k +:+ " has no edges at all -- disconnected from the graph";
        issue_node := Some k |}) (sorted_set isl) in
    let starts := start_nodes keys out_adj incoming_adj in
    if decide (starts = ∅) then
      Ok (issues ++ [{| code := "no_start_node";
        message := "no non-isolated node has zero incoming edges -- graph has no entry point";
        issue_node := None |}])
    else
      let! seen := reach_loop (size keys) out_adj starts (elements starts) in
      let issues := issues ++ map (λ k, {| code := "unreachable_node";
        message := "node " +:+ py_repr k +:+ " is not reachable from any start node";
        issue_node := Some k |}) (sorted_set (keys ∖ seen ∖ isl)) in
      Ok (if decide (terminals keys out_adj ∩ seen = ∅) then
        issues ++ [{| code := "no_reachable_terminal";
          message := "no terminal node (zero outgoing edges) is reachable from a start node";
          issue_node := None |}]
      else issues).

(** The variables [strongconnect] shares: [stack] has its top at the head. *)
Record tarjan := {
  index_counter : nat;
  stack : list string;
  lowlink : gmap string nat;
  index : gmap string nat;
  on_stack : gmap string bool;
  sccs : list (list string);
}.

Definition set_low (v : string) (n : nat) (st : tarjan) : tarjan :=
  {| index_counter := index_counter st; stack := stack st; lowlink := <[v := n]> (lowlink st);
     index := index st; on_stack := on_stack st; sccs := sccs st |}.

(** The first five statements of [strongconnect]. *)
Definition enter (v : string) (st : tarjan) : tarjan :=
  {| index_counter := S (index_counter st); stack := v :: stack st;
     lowlink := <[v := index_counter st]> (lowlink st);
     index := <[v := index_counter st]> (index st);
     on_stack := <[v := true]> (on_stack st); sccs := sccs st |}.

(** [lowlink[v] = min(lowlink[v], n)] *)
Definition lower (v : string) (n : nat) (st : tarjan) : result gexn tarjan :=
  let! l := py (dict_at v (lowlink st)) in Ok (set_low v (Nat.min l n) st).

(** The [for w in out_adj.get(v, ())] loop; [rec] is [strongconnect]. *)
Fixpoint visit_arcs (rec : string → tarjan → result gexn tarjan) (v : string) (ws : list string)
    (st : tarjan) : result gexn tarjan :=
  match ws with
  | [] => Ok st
  | w :: ws' =>
      let! st' :=
        if decide (index st !! w = None) then
          let! st1 := rec w st in
          let! lw := py (dict_at w (lowlink st1)) in
          lower v lw st1
        else if default false (on_stack st !! w) then
          let! iw := py (dict_at w (index st)) in lower v iw st
        else Ok st in
      visit_arcs rec v ws' st'
  end.

(** The [while True] loop: pop up to and including [v]. *)
Fixpoint pop_component (v : string) (stk : list string) (on : gmap string bool) (component : list string)
    : result gexn (list string * gmap string bool * list string) :=
  match stk with
  | [] => Err (Raised (KeyError "pop from empty list"))
  | w :: stk' =>
      let on' := <[w := false]> on in
      let component' := component ++ [w] in
      if decide (w = v) then Ok (stk', on', component') else pop_component v stk' on' component'
  end.

Definition close_component (v : string) (st : tarjan) : result gexn tarjan :=
  let! ' (stk, on, component) := pop_component v (stack st) (on_stack st) [] in
  Ok {| index_counter := index_counter st; stack := stk; lowlink := lowlink st; index := index st;
        on_stack := on; sccs := sccs st ++ [component] |}.

Fixpoint strongconnect (fuel : nat) (out_adj : adjacency) (v : string) (st : tarjan)
    : result gexn tarjan :=
  match fuel with
  | 0%nat => Err OutOfFuel
  | S fuel' =>
      let! st1 := visit_arcs (strongconnect fuel' out_adj) v (adj_get out_adj v) (enter v st) in
      let! lv := py (dict_at v (lowlink st1)) in
      let! iv := py (dict_at v (index st1)) in
      if decide (lv = iv) then close_component v st1 else Ok st1
  end.

Definition tarjan_init : tarjan :=
  {| index_counter := 0; stack := []; lowlink := ∅; index := ∅; on_stack := ∅; sccs := [] |}.

(** One nested call per node is in progress at most. *)
Definition tarjan_sccs (keys : gset string) (out_adj : adjacency) : result gexn (list (list string)) :=
  let! st := foldM (λ st v,
      if decide (index st !! v = None) then strongconnect (size keys) out_adj v st else Ok st)
    tarjan_init (sorted_set keys) in
  Ok (sccs st).

(** One iteration of the exit search: a human node, or a bounded retry whose
    fallback leaves the component. *)
Definition node_is_exit (comp_set : gset string) (n : PolicyNode) : bool :=
  String.eqb (node_type n) "human" ||
  match (match retry_policy n with Some rp => as_dict rp | None => None end), fallback_node_key n with
  | Some rp, Some fb =>
      match as_int (dict_get "max_attempts" rp) with
      | Some m => (0 <? m)%Z && negb (bool_decide (fb ∈ comp_set))
      | None => false
      end
  | _, _ => false
  end.

Fixpoint find_exit (by_key : gmap string PolicyNode) (comp_set : gset string) (component : list string)
    : result exn bool :=
  match component with
  | [] => Ok false
  | key :: rest =>
      let! n := dict_at key by_key in
      if node_is_exit comp_set n then Ok true else find_exit by_key comp_set rest
  end.

Definition is_cycle (out_adj : adjacency) (component : list string) : bool :=
  match component with
  | [] => false
  | k :: rest => negb (bool_decide (rest = [])) || bool_decide (k ∈ adj_get out_adj k)
  end.

Definition cycle_issue (component : list string) : ValidationIssue :=
  {| code := "unbounded_cycle_no_exit";
     message := "cycle " +:+ py_repr_list (sort_strings component) +:+
       " has no human node and no bounded-retry node with an external fallback";
     issue_node := Some (str_join "," (sort_strings component)) |}.

Definition cycle_issues (nodes : list PolicyNode) (out_adj : adjacency) : result gexn (list ValidationIssue) :=
  let! components := tarjan_sccs (node_keys nodes) out_adj in
  py (foldM (λ issues component,
    if is_cycle out_adj component then
      let! valid_exit := find_exit (node_by_key nodes) (list_to_set component) component in
      Ok (if valid_exit : bool then issues else issues ++ [cycle_issue component])
    else Ok issues) [] components).

Definition io_mismatch_at (e : PolicyEdge) (out_c in_c : gmap string string) (key : string)
    : list ValidationIssue :=
  match out_c !! key, in_c !! key with
  | Some o, Some i =>
      if decide (o ≠ i) then
        [{| code := "io_type_mismatch";
            message := "edge " +:+ py_repr (from_node_key e) +:+ "->" +:+ py_repr (to_node_key e) +:+
              ": field " +:+ py_repr key +:+ " is " +:+ py_repr o +:+ " on output vs " +:+
              py_repr i +:+ " on input";
            issue_node := Some (from_node_key e) |}] else []
  | _, _ => []
  end.

Definition io_type_mismatch_issues (nodes : list PolicyNode) (clean_edges : list PolicyEdge)
    : result exn (list ValidationIssue) :=
  let by_key := node_by_key nodes in
  foldM (λ issues e,
    let! from_node := dict_at (from_node_key e) by_key in
    let! to_node := dict_at (to_node_key e) by_key in
    let out_c := output_contract from_node in
    let in_c := input_contract to_node in
    Ok (issues ++ (sorted_set (dom out_c ∩ dom in_c) ≫= io_mismatch_at e out_c in_c))) [] clean_edges.

Definition clean_edges (nodes : list PolicyNode) (edges : list PolicyEdge) : list PolicyEdge :=
  filter (λ e, from_node_key e ∈ node_keys nodes ∧ to_node_key e ∈ node_keys nodes) edges.

Definition validate_graph_structure (nodes : list PolicyNode) (edges : list PolicyEdge)
    : result gexn (list ValidationIssue) :=
  let dangling := dangling_reference_issues nodes edges in
  let clean := clean_edges nodes edges in
  let! adjs := py (build_adjacency nodes clean) in
  let! reach := reachability_issues nodes adjs.1 adjs.2 in
  let! cyc := cycle_issues nodes adjs.1 in
  let! io := py (io_type_mismatch_issues nodes clean) in
  Ok (dangling ++ reach ++ cyc ++ io).

(** [edges_by_from.setdefault(from, []).append(edge)] over the edges *)
Definition edges_by_from (edges : list PolicyEdge) : gmap string (list PolicyEdge) :=
  foldl (λ m e, <[from_node_key e := default [] (m !! from_node_key e) ++ [e]]> m) ∅ edges.

Lemma group_by_from edges (acc : gmap string (list PolicyEdge)) k :
  default [] (foldl (λ (m : gmap string (list PolicyEdge)) e,
    <[from_node_key e := default [] (m !! from_node_key e) ++ [e]]> m) acc edges !! k) =
  default [] (acc !! k) ++ filter (λ e, from_node_key e = k) edges.
Proof.
  revert acc; induction edges as [|e l IH]; intros acc; simpl; [by rewrite app_nil_r|].
  rewrite IH, filter_cons. case_decide as Hk.
  - subst k. rewrite lookup_insert_eq. simpl. by rewrite <-app_assoc.
  - by rewrite lookup_insert_ne.
Qed.

(** A value can be put in a set only if it is hashable. *)
Definition hashable (a : json) : bool :=
  match a with JArr _ | JObj _ => false | _ => true end.

(** [{e["condition_label"] for e in outgoing if e.get("condition_label")}] *)
Definition branch_labels (outgoing : list PolicyEdge) : gset string :=
  list_to_set (outgoing ≫= λ e,
    match condition_label e with Some l => if decide (l = "") then [] else [l] | None => [] end).

(** [{tc.get("covers_condition") for tc in test_cases if isinstance(tc, dict)}] *)
Definition covered_conditions (cases : list json) : result exn (list json) :=
  mapM (λ tc, if hashable (dict_get "covers_condition" tc) then Ok (dict_get "covers_condition" tc)
              else Err (TypeError "unhashable type")) (omap as_dict cases).

(** The coverage check of one rule node that has outgoing edges. *)
Definition uncovered_branches (n : PolicyNode) (outgoing : list PolicyEdge) : result exn (list ValidationIssue) :=
  let! covered := covered_conditions (test_cases n) in
  Ok (map (λ label, {| code := "uncovered_branch";
        message := "rule node " +:+ py_repr (node_key n) +:+ " branch " +:+ py_repr label +:+
          " has no test case with matching covers_condition";
        issue_node := Some (node_key n) |})
      (sorted_set (filter (λ l, existsb (py_eq (JStr l)) covered = false) (branch_labels outgoing)))).

Definition check_branch_coverage (nodes : list PolicyNode) (edges : list PolicyEdge)
    : result exn (list ValidationIssue) :=
  let by_from := edges_by_from edges in
  foldM (λ issues n,
    if negb (String.eqb (node_type n) "rule") then Ok issues
    else
      let outgoing := default [] (by_from !! node_key n) in
      match outgoing, test_cases n with
      | [], _ => Ok issues
      | _, [] => Ok (issues ++ [{| code := "no_test_cases";
            message := "rule node " +:+ py_repr (node_key n) +:+ " has outgoing branches but zero test cases";
            issue_node := Some (node_key n) |}])
      | _, _ => let! more := uncovered_branches n outgoing in Ok (issues ++ more)
      end) [] nodes.

Definition validate_graph (nodes : list PolicyNode) (edges : list PolicyEdge)
    : result gexn (list ValidationIssue) :=
  let! structure := validate_graph_structure nodes edges in
  let! coverage := py (check_branch_coverage nodes edges) in
  Ok (structure ++ coverage).
End WithText.
End Graph.
