(* ===== verification/Tarjan.v ===== *)
(** * Tarjan's algorithm finds the strongly connected components

    [_tarjan_sccs] of [packages/algorithm/policy_validator.py], as defined in
    [PolicyGraph], on an adjacency closed in its node set: it returns (no
    [KeyError], no pop from an empty stack, no lack of fuel) and its result
    partitions the nodes into the classes of mutual reachability. The proof
    follows the call tree: [inv] is kept by every call, and [post] is what a
    call of [strongconnect] adds, with the set of nodes whose calls are in
    progress ([gray]) as a ghost argument. *)

From stdpp Require Import base gmap strings list relations.
From Stdlib Require Import ZArith Lia.
From S2P Require Import Prelude Json Lifecycle PolicyGraph.
Import Graph.

Section Tarjan.
Context (keys : gset string) (adj : adjacency).

Definition arc (x y : string) : Prop := y ∈ adj_get adj x.
Definition reach : string → string → Prop := rtc arc.

(** A class of mutual reachability. *)
Definition is_scc (c : list string) : Prop :=
  c ≠ [] ∧ ∀ x, x ∈ c → ∀ y, y ∈ c ↔ reach x y ∧ reach y x.

Definition visited (st : tarjan) (x : string) : Prop := is_Some (index st !! x).
Definition num (st : tarjan) (x : string) : nat := default 0%nat (index st !! x).
Definition finished (st : tarjan) : list string := concat (sccs st).

Record inv (gray : gset string) (st : tarjan) : Prop := {
  inv_keys x : visited st x → x ∈ keys;
  inv_low x : visited st x → is_Some (lowlink st !! x);
  inv_on x : default false (on_stack st !! x) = true ↔ x ∈ stack st;
  inv_nodup : NoDup (stack st ++ finished st);
  inv_split x : visited st x ↔ x ∈ stack st ∨ x ∈ finished st;
  inv_num x : visited st x → (num st x < index_counter st)%nat;
  inv_gray x : x ∈ gray → x ∈ stack st;
  inv_black x y : visited st x → x ∉ gray → arc x y → visited st y;
  inv_done x y : x ∈ finished st → arc x y → y ∈ finished st;
  inv_up x y : x ∈ stack st → y ∈ stack st → (num st x ≤ num st y)%nat → reach x y;
  inv_down y : y ∈ stack st → ∃ x, x ∈ gray ∧ (num st x ≤ num st y)%nat ∧ reach y x;
  inv_scc : Forall is_scc (sccs st);
}.

(** What holds between the states before and after a part of the run: numbers
    and low links of visited nodes are kept, new nodes are numbered above. *)
Record grows (st st' : tarjan) : Prop := {
  grows_index x n : index st !! x = Some n → index st' !! x = Some n;
  grows_new x : visited st' x → ¬ visited st x → (index_counter st ≤ num st' x)%nat;
  grows_counter : (index_counter st ≤ index_counter st')%nat;
}.

(** The low link of [v]: the number of a node that [v] reaches, on the stack
    unless it is [v]'s own, and at most the number of every node of the older
    stack [old] that an arc from [new] enters. *)
Record low_ok (st : tarjan) (v : string) (l : nat) : Prop := {
  low_le : (l ≤ num st v)%nat;
  low_reach : (l < num st v)%nat → ∃ y, y ∈ stack st ∧ num st y = l ∧ reach v y;
}.

Record post (gray : gset string) (v : string) (st st' : tarjan) : Prop := {
  post_inv : inv gray st';
  post_grows : grows st st';
  post_low_old x : visited st x → lowlink st' !! x = lowlink st !! x;
  post_v : visited st' v;
  post_result : ∃ new l, stack st' = new ++ stack st ∧ lowlink st' !! v = Some l ∧
    low_ok st' v l ∧ (∀ x, x ∈ new → ¬ visited st x) ∧
    ∀ x y, x ∈ new → y ∈ stack st → arc x y → (l ≤ num st' y)%nat;
}.

Lemma grows_refl st : grows st st.
Proof. split; [done|tauto|lia]. Qed.

Lemma grows_visited st st' x : grows st st' → visited st x → visited st' x.
Proof. intros Hg [n Hn]. exists n. by apply (grows_index _ _ Hg). Qed.

Lemma grows_num st st' x : grows st st' → visited st x → num st' x = num st x.
Proof. intros Hg [n Hn]. unfold num. by rewrite (grows_index _ _ Hg x n Hn), Hn. Qed.

Lemma visited_dec st x : visited st x ∨ ¬ visited st x.
Proof. unfold visited. destruct (index st !! x); [left; eauto|right; by intros [? ?]]. Qed.

Lemma grows_trans st1 st2 st3 : grows st1 st2 → grows st2 st3 → grows st1 st3.
Proof.
  intros H12 H23. split.
  - intros x n Hx. by apply H23, H12.
  - intros x H3 H1. destruct (visited_dec st2 x) as [H2|H2].
    + rewrite (grows_num st2 st3) by done. by apply H12.
    + pose proof (grows_new _ _ H23 x H3 H2). pose proof (grows_counter _ _ H12). lia.
  - pose proof (grows_counter _ _ H12). pose proof (grows_counter _ _ H23). lia.
Qed.

Lemma on_stack_visited gray st x : inv gray st → x ∈ stack st → visited st x.
Proof. intros Hi Hx. apply (inv_split _ _ Hi). by left. Qed.

Lemma unvisited gray st x : inv gray st → index st !! x = None → x ∉ stack st ∧ x ∉ finished st.
Proof.
  intros Hi Hx. assert (¬ visited st x) as Hn by (unfold visited; rewrite Hx; by intros [? ?]).
  rewrite (inv_split _ _ Hi) in Hn. tauto.
Qed.

(** A set of finished nodes is never left. *)
Lemma done_reach gray st x y : inv gray st → x ∈ finished st → reach x y → y ∈ finished st.
Proof. intros Hi Hx Hr. revert Hx. induction Hr; [done|]. eauto using inv_done. Qed.

(** [inv] does not look at the values of [lowlink]. *)
Lemma inv_set_low gray st v n : inv gray st → inv gray (set_low v n st).
Proof.
  intros [H1 H2 H3 H4 H5 H6 H7 H8 H9 H10 H11 H12]. split; try done.
  intros x Hx. simpl. destruct (decide (x = v)) as [->|].
  - rewrite lookup_insert_eq. eauto.
  - rewrite lookup_insert_ne by done. by apply H2.
Qed.

(** Entering [v]: every node in progress reaches it. *)
Lemma num_enter_ne v st x : x ≠ v → num (enter v st) x = num st x.
Proof. intros Hne. unfold num, enter; simpl. by rewrite lookup_insert_ne. Qed.
Lemma num_enter_eq v st : num (enter v st) v = index_counter st.
Proof. unfold num, enter; simpl. by rewrite lookup_insert_eq. Qed.
Lemma visited_enter v st x : visited (enter v st) x ↔ x = v ∨ visited st x.
Proof.
  unfold visited, enter; simpl. destruct (decide (x = v)) as [->|].
  - rewrite lookup_insert_eq. naive_solver.
  - rewrite lookup_insert_ne by done. naive_solver.
Qed.

Lemma enter_inv gray v st :
  inv gray st → index st !! v = None → v ∈ keys → (∀ g, g ∈ gray → reach g v) →
  inv ({[v]} ∪ gray) (enter v st).
Proof.
  intros Hi Hv Hk Hg. destruct (unvisited _ _ _ Hi Hv) as [Hvs Hvd].
  assert (∀ x, x ∈ stack st → x ≠ v) as Hne by (intros x Hx ->; done).
  assert (∀ x, x ∈ stack st → (num st x < index_counter st)%nat) as Hlt.
  { intros x Hx. by apply (inv_num _ _ Hi), (on_stack_visited gray). }
  split; simpl.
  - intros x [->|Hx]%visited_enter; [done|]. by apply (inv_keys _ _ Hi).
  - intros x Hx%visited_enter. destruct (decide (x = v)) as [->|].
    + rewrite lookup_insert_eq. eauto.
    + rewrite lookup_insert_ne by done. apply (inv_low _ _ Hi). naive_solver.
  - intros x. destruct (decide (x = v)) as [->|].
    + rewrite lookup_insert_eq. set_solver.
    + rewrite lookup_insert_ne by done. rewrite (inv_on _ _ Hi). set_solver.
  - unfold finished; simpl. apply NoDup_cons. split; [rewrite elem_of_app; tauto|apply (inv_nodup _ _ Hi)].
  - intros x. rewrite visited_enter, (inv_split _ _ Hi), elem_of_cons. tauto.
  - intros x [->|Hx]%visited_enter; [rewrite num_enter_eq; lia|].
    destruct (decide (x = v)) as [->|]; [rewrite num_enter_eq; lia|].
    rewrite num_enter_ne by done. pose proof (inv_num _ _ Hi x Hx). lia.
  - pose proof (inv_gray _ _ Hi). set_solver.
  - intros x y [->|Hx]%visited_enter Hxg Hxy; [set_solver|].
    apply visited_enter. right. apply (inv_black _ _ Hi x); [done|set_solver|done].
  - apply (inv_done _ _ Hi).
  - intros x y [->|Hx]%elem_of_cons [->|Hy]%elem_of_cons; rewrite ?num_enter_eq.
    + intros _. apply rtc_refl.
    + rewrite num_enter_ne by auto. specialize (Hlt y Hy). lia.
    + intros _. destruct (inv_down _ _ Hi x Hx) as (g & Hgg & _ & Hr).
      etrans; [exact Hr|]. by apply Hg.
    + rewrite !num_enter_ne by auto. by apply (inv_up _ _ Hi).
  - intros y [->|Hy]%elem_of_cons; [exists v; split; [set_solver|]; split; [lia|apply rtc_refl]|].
    destruct (inv_down _ _ Hi y Hy) as (g & Hgg & Hn & Hr). exists g.
    assert (g ≠ v) by (apply Hne; by apply (inv_gray _ _ Hi)).
    rewrite !num_enter_ne by auto. split; [set_solver|done].
  - apply (inv_scc _ _ Hi).
Qed.

(** ** Closing a component *)

Lemma pop_component_spec v new rest on comp :
  v ∉ new →
  ∃ on', pop_component v (new ++ v :: rest) on comp = Ok (rest, on', comp ++ new ++ [v]) ∧
    ∀ x, on' !! x = if decide (x ∈ new ++ [v]) then Some false else on !! x.
Proof.
  revert on comp. induction new as [|w new IH]; intros on comp Hv; simpl.
  - rewrite decide_True by done. exists (<[v:=false]> on). split; [done|]. intros x.
    case_decide as Hx; [apply list_elem_of_singleton in Hx as ->; by rewrite lookup_insert_eq|].
    rewrite lookup_insert_ne; [done|set_solver].
  - rewrite decide_False by set_solver.
    destruct (IH (<[w:=false]> on) (comp ++ [w])) as (on' & -> & Hon'); [set_solver|].
    exists on'. split; [by rewrite <-app_assoc|]. intros x. rewrite Hon'.
    destruct (decide (x ∈ new ++ [v])) as [Hx|Hx].
    + rewrite decide_True; [done|set_solver].
    + destruct (decide (x = w)) as [->|].
      * rewrite lookup_insert_eq, decide_True; [done|set_solver].
      * rewrite lookup_insert_ne, decide_False; [done|set_solver|done].
Qed.

(** The state in which the arcs of [v] have all been looked at: [new] is what
    was pushed above [v]. *)
Record arcs_done (gray : gset string) (v : string) (old new : list string) (st : tarjan) (l : nat) : Prop := {
  ad_inv : inv ({[v]} ∪ gray) st;
  ad_stack : stack st = new ++ v :: old;
  ad_gray g : g ∈ gray → g ∈ old;
  ad_above x y : x ∈ v :: new → y ∈ old → (num st y < num st x)%nat;
  ad_min x : x ∈ new → (num st v ≤ num st x)%nat;
  ad_arcs y : arc v y → visited st y;
  ad_low : low_ok st v l;
  ad_cross x y : x ∈ v :: new → y ∈ old → arc x y → (l ≤ num st y)%nat;
}.

Lemma ad_notin gray v old new st l :
  arcs_done gray v old new st l → v ∉ new ∧ v ∉ old ∧ ∀ x, x ∈ new → x ∉ old.
Proof.
  intros Hd. pose proof (inv_nodup _ _ (ad_inv _ _ _ _ _ _ Hd)) as Hn.
  rewrite (ad_stack _ _ _ _ _ _ Hd) in Hn.
  rewrite !NoDup_app, NoDup_cons in Hn. set_solver.
Qed.

(** When the low link is [v]'s own number, arcs out of the new part of the
    stack stay in it or go to finished components. *)
Lemma component_closed gray v old new st x y :
  arcs_done gray v old new st (num st v) →
  x ∈ v :: new → arc x y → y ∈ v :: new ∨ y ∈ finished st.
Proof.
  intros Hd Hx Hxy. pose proof (ad_notin _ _ _ _ _ _ Hd) as (Hvn & Hvo & Hno).
  destruct Hd as [Hi Hst Hg Habove Hmin Harcs _ Hcross].
  assert (visited st y) as Hy.
  { apply elem_of_cons in Hx as [->|Hx]; [by apply Harcs|].
    apply (inv_black _ _ Hi x); [eapply on_stack_visited; [done|]; rewrite Hst; set_solver| |done].
    assert (x ≠ v) by set_solver. assert (x ∉ gray) by (intros ?%Hg; naive_solver). set_solver. }
  apply (inv_split _ _ Hi) in Hy as [Hy|Hy]; [|by right]. left.
  rewrite Hst in Hy. apply elem_of_app in Hy as [Hy|Hy]; [set_solver|].
  apply elem_of_cons in Hy as [->|Hy]; [set_solver|]. exfalso.
  specialize (Hcross x y Hx Hy Hxy). specialize (Habove v y ltac:(set_solver) Hy). lia.
Qed.

Lemma component_reach gray v old new st x y :
  arcs_done gray v old new st (num st v) →
  x ∈ v :: new → reach x y → y ∈ v :: new ∨ y ∈ finished st.
Proof.
  intros Hd Hx Hr. assert (x ∈ v :: new ∨ x ∈ finished st) as Hx' by auto. clear Hx.
  induction Hr as [|x y z Hxy _ IH]; [done|]. apply IH.
  destruct Hx' as [Hx|Hx]; [by eapply component_closed|].
  right. eapply inv_done; [apply (ad_inv _ _ _ _ _ _ Hd)|done..].
Qed.

Lemma component_scc gray v old new st :
  arcs_done gray v old new st (num st v) → is_scc (new ++ [v]).
Proof.
  intros Hd. pose proof (ad_notin _ _ _ _ _ _ Hd) as (Hvn & Hvo & Hno).
  pose proof Hd as [Hi Hst Hg _ Hmin _ _ _].
  assert (∀ x, x ∈ v :: new → reach v x ∧ reach x v) as Hboth.
  { intros x Hx. assert (x ∈ stack st) by (rewrite Hst; set_solver). split.
    - apply (inv_up _ _ Hi); [rewrite Hst; set_solver|done|].
      apply elem_of_cons in Hx as [->|Hx]; [lia|by apply Hmin].
    - destruct (inv_down _ _ Hi x) as (g & Hgg & _ & Hr); [done|].
      assert (g ∈ stack st) as Hgs by by apply (inv_gray _ _ Hi).
      enough (g = v) by by subst.
      apply elem_of_union in Hgg as [Hgg|Hgg]; [set_solver|]. exfalso.
      destruct (component_reach _ _ _ _ _ x g Hd Hx Hr) as [Hin|Hin].
      + specialize (Hg g Hgg). apply elem_of_cons in Hin as [->|Hin]; naive_solver.
      + pose proof (inv_nodup _ _ Hi) as Hn. apply NoDup_app in Hn. naive_solver. }
  split; [by destruct new|]. intros x Hx y. split.
  - intros Hy. destruct (Hboth x) as [? ?], (Hboth y) as [? ?]; [set_solver..|].
    split; by etrans.
  - intros [Hxy Hyx]. destruct (component_reach _ _ _ _ _ x y Hd) as [Hy|Hy]; [set_solver|done|set_solver|].
    exfalso. assert (x ∈ finished st) as Hxf by by eapply done_reach.
    pose proof (inv_nodup _ _ Hi) as Hn. apply NoDup_app in Hn as (_ & Hn & _).
    apply (Hn x); [rewrite Hst; set_solver|done].
Qed.

(** [v] was not in progress before its call. *)
Lemma close_inv gray v old new st :
  arcs_done gray v old new st (num st v) →
  ∃ st', close_component v st = Ok st' ∧ inv gray st' ∧ stack st' = old ∧
    index st' = index st ∧ lowlink st' = lowlink st ∧ index_counter st' = index_counter st.
Proof.
  intros Hd. pose proof (ad_notin _ _ _ _ _ _ Hd) as (Hvn & Hvo & Hno).
  pose proof (component_scc _ _ _ _ _ Hd) as Hscc.
  pose proof (λ x y, component_closed _ _ _ _ _ x y Hd) as Hclosed.
  destruct Hd as [Hi Hst Hg Habove Hmin Harcs _ _].
  unfold close_component. rewrite Hst.
  destruct (pop_component_spec v new old (on_stack st) [] Hvn) as (on' & Hpop & Hon').
  rewrite Hpop; simpl. eexists; split; [done|]. split; [|done].
  assert (∀ x, x ∈ old → x ∈ stack st) as Hold by (intros x Hx; rewrite Hst; set_solver).
  assert (∀ x, x ∈ concat (sccs st ++ [new ++ [v]]) ↔ x ∈ finished st ∨ x ∈ v :: new) as Hfin.
  { intros x. rewrite concat_app. simpl. rewrite app_nil_r. unfold finished. set_solver. }
  split; simpl; unfold visited, num, finished in *; simpl.
  - apply (inv_keys _ _ Hi).
  - apply (inv_low _ _ Hi).
  - intros x. rewrite Hon'. destruct (decide (x ∈ new ++ [v])) as [Hx|Hx]; simpl.
    + set_solver.
    + rewrite (inv_on _ _ Hi), Hst. set_solver.
  - rewrite concat_app. simpl. rewrite app_nil_r.
    pose proof (inv_nodup _ _ Hi) as Hn. rewrite Hst in Hn. unfold finished in Hn.
    eapply (NoDup_Permutation_proper _ ((new ++ v :: old) ++ concat (sccs st))); [|done].
    solve_Permutation.
  - intros x. rewrite (inv_split _ _ Hi x), Hfin, Hst. set_solver.
  - apply (inv_num _ _ Hi).
  - apply Hg.
  - intros x y Hx Hxg Hxy. destruct (decide (x = v)) as [->|]; [by apply Harcs|].
    apply (inv_black _ _ Hi x); [done|set_solver|done].
  - intros x y. rewrite !Hfin. intros [Hx|Hx] Hxy; [left; by eapply inv_done|].
    destruct (Hclosed x y Hx Hxy); tauto.
  - intros x y Hx Hy. apply (inv_up _ _ Hi); auto.
  - intros y Hy. destruct (inv_down _ _ Hi y) as (g & Hgg & Hn & Hr); [auto|].
    exists g; split; [|done]. apply elem_of_union in Hgg as [Hgv|]; [|done].
    apply elem_of_singleton in Hgv as ->. exfalso.
    specialize (Habove v y ltac:(set_solver) Hy). unfold num in *. lia.
  - apply Forall_app; split; [apply (inv_scc _ _ Hi)|]. by apply Forall_singleton.
Qed.

(** Otherwise [v] stays on the stack, and an older node in progress is still
    reached from it. *)
Lemma keep_inv gray v old new st l :
  arcs_done gray v old new st l → (l < num st v)%nat → inv gray st.
Proof.
  intros Hd Hlt. pose proof (ad_notin _ _ _ _ _ _ Hd) as (Hvn & Hvo & Hno).
  destruct Hd as [Hi Hst Hg Habove Hmin Harcs Hlow _].
  assert (∃ g, g ∈ gray ∧ (num st g ≤ num st v)%nat ∧ reach v g) as (g & Hgg & Hgn & Hvg).
  { destruct (low_reach _ _ _ Hlow Hlt) as (y & Hy & <- & Hr).
    destruct (inv_down _ _ Hi y Hy) as (g & Hgg & Hn & Hyg). exists g.
    split; [|split; [lia|by etrans]].
    apply elem_of_union in Hgg as [->%elem_of_singleton|]; [lia|done]. }
  destruct Hi as [H1 H2 H3 H4 H5 H6 H7 H8 H9 H10 H11 H12]. split; try done.
  - intros x Hx. apply H7. set_solver.
  - intros x y Hx Hxg Hxy. destruct (decide (x = v)) as [->|]; [by apply Harcs|].
    apply (H8 x); [done|set_solver|done].
  - intros y Hy. destruct (H11 y Hy) as (x & Hx & Hn & Hr).
    apply elem_of_union in Hx as [->%elem_of_singleton|Hx]; [|by exists x].
    exists g. split; [done|]. split; [lia|by etrans].
Qed.

(** ** The loop over the arcs of [v]

    [st0] is the state before the call of [v], [seen] the arcs done so far. *)
Record arcs_loop (gray : gset string) (v : string) (st0 : tarjan) (new : list string) (st : tarjan)
    (l : nat) (seen : list string) : Prop := {
  lp_inv : inv ({[v]} ∪ gray) st;
  lp_grows : grows (enter v st0) st;
  lp_stack : stack st = new ++ v :: stack st0;
  lp_fresh x : x ∈ new → ¬ visited (enter v st0) x;
  lp_low_old x : visited st0 x → lowlink st !! x = lowlink st0 !! x;
  lp_lowlink : lowlink st !! v = Some l;
  lp_low : low_ok st v l;
  lp_arcs y : y ∈ seen → visited st y;
  lp_cross x y : x ∈ new → y ∈ stack st0 → arc x y → (l ≤ num st y)%nat;
  lp_cross_v y : y ∈ seen → y ∈ stack st0 → (l ≤ num st y)%nat;
}.

Lemma grows_set_low st st' v n : grows st st' → grows st (set_low v n st').
Proof. intros [H1 H2 H3]. by split. Qed.

Lemma lower_spec v n l st : lowlink st !! v = Some l → lower v n st = Ok (set_low v (Nat.min l n) st).
Proof. intros Hl. unfold lower, dict_at. by rewrite Hl. Qed.

(** Lowering the low link of [v] to the number of a node on the stack that [v]
    reaches. *)
Lemma low_ok_lower st v l n :
  low_ok st v l → ((n < num st v)%nat → ∃ y, y ∈ stack st ∧ num st y = n ∧ reach v y) →
  low_ok (set_low v (Nat.min l n) st) v (Nat.min l n).
Proof.
  intros [Hle Hr] Hn. split.
  - change (num (set_low v (Nat.min l n) st) v) with (num st v). lia.
  - intros Hlt. change (num (set_low v (Nat.min l n) st) v) with (num st v) in Hlt.
    destruct (Nat.min_spec l n) as [[? Hm]|[? Hm]]; rewrite Hm in *; [by apply Hr|by apply Hn].
Qed.

Lemma low_ok_grows st st' v l :
  low_ok st v l → grows st st' → visited st v → (∀ y, y ∈ stack st → visited st y ∧ y ∈ stack st') →
  low_ok st' v l.
Proof.
  intros [Hle Hr] Hg Hv Hs. split; rewrite (grows_num st st') by done; [done|].
  intros Hlt. destruct (Hr Hlt) as (y & Hy & Hn & Hry). exists y.
  destruct (Hs y Hy). by rewrite (grows_num st st').
Qed.

Section Loop.
Context (gray : gset string) (v : string) (st0 : tarjan).
Context (Hv0 : index st0 !! v = None).

Lemma lp_visited_v new st l seen : arcs_loop gray v st0 new st l seen → visited st v.
Proof using Hv0. intros Hl. eapply grows_visited; [apply (lp_grows _ _ _ _ _ _ _ Hl)|]. apply visited_enter; auto. Qed.

Lemma lp_old new st l seen x : arcs_loop gray v st0 new st l seen → x ∈ stack st0 → x ∈ stack st ∧ visited st x.
Proof using Hv0.
  intros Hl Hx. assert (x ∈ stack st) as Hs by (rewrite (lp_stack _ _ _ _ _ _ _ Hl); set_solver).
  split; [done|]. eapply on_stack_visited; [apply (lp_inv _ _ _ _ _ _ _ Hl)|done].
Qed.

(** An arc to a node not yet numbered: its call has run. *)
Lemma loop_new new st l seen w st1 lw :
  arcs_loop gray v st0 new st l seen → arc v w → index st !! w = None →
  post ({[v]} ∪ gray) w st st1 → lowlink st1 !! w = Some lw →
  ∃ new', arcs_loop gray v st0 new' (set_low v (Nat.min l lw) st1) (Nat.min l lw) (seen ++ [w]).
Proof using Hv0.
  intros Hl Hvw Hw Hpost Hlw. pose proof (lp_visited_v _ _ _ _ Hl) as Hvv.
  pose proof (λ x, lp_old _ _ _ _ x Hl) as Hold.
  destruct Hl as [Hi Hg Hst Hfresh Hlo Hlv Hlow Harcs Hcross Hcv].
  destruct Hpost as [Hi1 Hg1 Hlo1 Hw1 (new2 & l2 & Hst1 & Hl2 & Hlow2 & Hfresh2 & Hcross2)].
  rewrite Hlw in Hl2. injection Hl2 as <-.
  assert (∀ x, visited st x → num st1 x = num st x) as Hnum by (intros; by apply grows_num).
  exists (new2 ++ new). split.
  - by apply inv_set_low.
  - apply grows_set_low. by eapply grows_trans.
  - simpl. by rewrite Hst1, Hst, <-app_assoc.
  - intros x [Hx|Hx]%elem_of_app; [|by apply Hfresh].
    intros Hv. by apply (Hfresh2 x Hx), (grows_visited _ _ _ Hg).
  - intros x Hx. simpl. assert (x ≠ v) by (intros ->; destruct Hx; congruence).
    rewrite lookup_insert_ne by done. rewrite Hlo1; [by apply Hlo|].
    eapply grows_visited; [exact Hg|]. apply visited_enter; by right.
  - simpl. by rewrite lookup_insert_eq.
  - apply low_ok_lower.
    + eapply low_ok_grows; [exact Hlow|done..|]. intros y Hy.
      split; [by eapply on_stack_visited|]. rewrite Hst1. set_solver.
    + rewrite Hnum by done. intros Hlt.
      assert (¬ visited st w) as Hnw by (unfold visited; rewrite Hw; by intros [? ?]).
      pose proof (grows_new _ _ Hg1 w Hw1 Hnw). pose proof (inv_num _ _ Hi v Hvv).
      destruct (low_reach _ _ _ Hlow2) as (y & Hy & Hn & Hr); [lia|].
      exists y. split; [done|]. split; [done|]. by eapply rtc_l.
  - intros y [Hy|Hy]%elem_of_app.
    + change (visited st1 y). eapply grows_visited; eauto.
    + apply list_elem_of_singleton in Hy as ->. done.
  - change (num (set_low v (Nat.min l lw) st1)) with (num st1).
    intros x y [Hx|Hx]%elem_of_app Hy Hxy; destruct (Hold y Hy) as [Hys Hyv].
    + specialize (Hcross2 x y Hx Hys Hxy). lia.
    + specialize (Hcross x y Hx Hy Hxy). rewrite Hnum by done. lia.
  - change (num (set_low v (Nat.min l lw) st1)) with (num st1).
    intros y [Hyw|Hyw]%elem_of_app Hy; destruct (Hold y Hy) as [Hys Hyv]; rewrite Hnum by done.
    + specialize (Hcv y Hyw Hy). lia.
    + apply list_elem_of_singleton in Hyw as ->. destruct Hyv; congruence.
Qed.

(** An arc to a node on the stack. *)
Lemma loop_stack new st l seen w iw :
  arcs_loop gray v st0 new st l seen → arc v w → index st !! w = Some iw → w ∈ stack st →
  arcs_loop gray v st0 new (set_low v (Nat.min l iw) st) (Nat.min l iw) (seen ++ [w]).
Proof using Hv0.
  intros [Hi Hg Hst Hfresh Hlo Hlv Hlow Harcs Hcross Hcv] Hvw Hw Hws. split; try done.
  - by apply inv_set_low.
  - by apply grows_set_low.
  - intros x Hx. simpl. rewrite lookup_insert_ne; [by apply Hlo|]. intros ->. destruct Hx; congruence.
  - simpl. by rewrite lookup_insert_eq.
  - apply low_ok_lower; [done|]. intros _. exists w. split; [done|].
    split; [unfold num; by rewrite Hw|by apply rtc_once].
  - intros y [Hy|Hy]%elem_of_app; [by apply Harcs|].
    apply list_elem_of_singleton in Hy as ->. by exists iw.
  - intros x y Hx Hy Hxy. specialize (Hcross x y Hx Hy Hxy).
    change (num (set_low v (Nat.min l iw) st) y) with (num st y). lia.
  - change (num (set_low v (Nat.min l iw) st)) with (num st). intros y [Hyw|Hyw]%elem_of_app Hy.
    + specialize (Hcv y Hyw Hy). lia.
    + apply list_elem_of_singleton in Hyw as ->. unfold num. rewrite Hw. simpl. lia.
Qed.

(** An arc to a finished node. *)
Lemma loop_finished new st l seen w iw :
  arcs_loop gray v st0 new st l seen → index st !! w = Some iw → w ∉ stack st →
  arcs_loop gray v st0 new st l (seen ++ [w]).
Proof using Hv0.
  intros Hl Hw Hws. pose proof (λ x, lp_old _ _ _ _ x Hl) as Hold.
  destruct Hl as [Hi Hg Hst Hfresh Hlo Hlv Hlow Harcs Hcross Hcv]. split; try done.
  - intros y [Hy|Hy]%elem_of_app; [by apply Harcs|].
    apply list_elem_of_singleton in Hy as ->. by exists iw.
  - intros y [Hyw|Hyw]%elem_of_app Hy; [by apply Hcv|].
    apply list_elem_of_singleton in Hyw as ->. by destruct (Hold w Hy).
Qed.
End Loop.

(** ** A call of [strongconnect] *)

Lemma grows_enter v st : index st !! v = None → grows st (enter v st).
Proof.
  intros Hv. split; simpl; [| |lia].
  - intros x n Hx. rewrite lookup_insert_ne; [done|congruence].
  - intros x [->|Hx]%visited_enter Hn; [|done]. rewrite num_enter_eq. lia.
Qed.

Lemma arcs_loop_init gray v st :
  inv gray st → index st !! v = None → v ∈ keys → (∀ g, g ∈ gray → reach g v) →
  arcs_loop gray v st [] (enter v st) (index_counter st) [].
Proof.
  intros Hi Hv Hk Hg.
  split; [by apply enter_inv|apply grows_refl|done|set_solver| | | |set_solver..].
  - intros x [n Hx]. simpl. rewrite lookup_insert_ne; [done|congruence].
  - simpl. by rewrite lookup_insert_eq.
  - split; rewrite num_enter_eq; lia.
Qed.

Lemma arcs_loop_done gray v st0 new st l :
  inv gray st0 → index st0 !! v = None → arcs_loop gray v st0 new st l (adj_get adj v) →
  arcs_done gray v (stack st0) new st l.
Proof.
  intros Hi0 Hv0 [Hi Hg Hst Hfresh Hlo Hlv Hlow Harcs Hcross Hcv].
  assert (num st v = index_counter st0) as Hnv.
  { rewrite (grows_num _ _ _ Hg); [apply num_enter_eq|]. apply visited_enter; by left. }
  assert (∀ x, x ∈ new → (index_counter st0 < num st x)%nat) as Hnew.
  { intros x Hx. pose proof (grows_new _ _ Hg x) as Hn. simpl in Hn. apply Hn; [|by apply Hfresh].
    eapply on_stack_visited; [done|]. rewrite Hst; set_solver. }
  split; try done.
  - intros g Hg'. by apply (inv_gray _ _ Hi0).
  - intros x y Hx Hy. pose proof (on_stack_visited _ _ _ Hi0 Hy) as Hyv.
    assert (num st y = num st0 y) as ->.
    { eapply grows_num; [|done]. eapply grows_trans; [by apply grows_enter|done]. }
    pose proof (inv_num _ _ Hi0 y Hyv). apply elem_of_cons in Hx as [->|Hx]; [lia|].
    specialize (Hnew x Hx). lia.
  - intros x Hx. specialize (Hnew x Hx). lia.
  - intros x y [->|Hx]%elem_of_cons Hy Hxy; [by apply Hcv|by apply (Hcross x)].
Qed.

Lemma finish_call gray v st0 new st l :
  inv gray st0 → index st0 !! v = None → arcs_loop gray v st0 new st l (adj_get adj v) →
  ∃ st', (if decide (l = num st v) then close_component v st else Ok st) = Ok st' ∧ post gray v st0 st'.
Proof.
  intros Hi0 Hv0 Hl. pose proof (arcs_loop_done _ _ _ _ _ _ Hi0 Hv0 Hl) as Hd.
  pose proof (lp_visited_v _ _ _ Hv0 _ _ _ _ Hl) as Hvv.
  destruct Hl as [Hi Hg Hst Hfresh Hlo Hlv Hlow Harcs Hcross Hcv].
  pose proof (grows_trans _ _ _ (grows_enter _ _ Hv0) Hg) as Hg0.
  destruct (decide (l = num st v)) as [->|Hne].
  - destruct (close_inv _ _ _ _ _ Hd) as (st' & -> & Hi' & Hst' & Hix & Hlw & Hct).
    exists st'. split; [done|]. assert (∀ x, num st' x = num st x) as Hnum by (unfold num; by rewrite Hix).
    split; [done| |by rewrite Hlw|unfold visited; by rewrite Hix|].
    + destruct Hg0 as [G1 G2 G3]. split; [by rewrite Hix| |by rewrite Hct].
      intros x. unfold visited. rewrite Hix, Hnum. apply G2.
    + exists [], (num st v). split; [done|]. rewrite Hlw. split; [done|].
      split; [split; rewrite Hnum; lia|]. split; intros; set_solver.
  - exists st. split; [done|]. pose proof (low_le _ _ _ Hlow).
    split; [eapply keep_inv; [done|lia]|done..|].
    exists (new ++ [v]), l. split; [by rewrite Hst, <-app_assoc|]. split; [done|]. split; [done|]. split.
    + intros x [Hx|Hx]%elem_of_app Hx0.
      * apply (Hfresh x Hx), visited_enter. by right.
      * apply list_elem_of_singleton in Hx as ->. destruct Hx0; congruence.
    + intros x y [Hx|Hx]%elem_of_app Hy Hxy; [by apply (Hcross x)|].
      apply list_elem_of_singleton in Hx as ->. by apply Hcv.
Qed.

(** ** The state before and between the outer calls *)

Lemma inv_init : inv ∅ tarjan_init.
Proof.
  assert (∀ x, ¬ visited tarjan_init x) as Hno by (intros x [n Hn]; simpl in Hn; by rewrite lookup_empty in Hn).
  split; try (intros; by destruct (Hno x)); try set_solver; try by constructor.
Qed.

(** Between two outer calls no call is in progress, so the stack is empty. *)
Lemma idle_stack st : inv ∅ st → stack st = [].
Proof.
  intros Hi. destruct (stack st) as [|x s] eqn:Hs; [done|].
  destruct (inv_down _ _ Hi x) as (g & Hg & _); [rewrite Hs; set_solver|]. set_solver.
Qed.

Context (Hclosed : ∀ x y, x ∈ keys → arc x y → y ∈ keys).

(** ** Termination and the whole run *)

Definition todo (st : tarjan) : nat := size (keys ∖ dom (index st)).

Lemma todo_enter gray v st0 new st l seen fuel :
  arcs_loop gray v st0 new st l seen → index st0 !! v = None → v ∈ keys →
  (todo st0 ≤ S fuel)%nat → (todo st ≤ fuel)%nat.
Proof.
  intros Hl Hv Hk Hf. unfold todo in *.
  assert (keys ∖ dom (index st) ⊆ (keys ∖ dom (index st0)) ∖ {[v]}) as Hsub.
  { intros x. rewrite !elem_of_difference, !elem_of_dom, elem_of_singleton. intros [Hx Hn].
    split; [split; [done|]|].
    - intros Hx0. apply Hn, (grows_visited _ _ _ (lp_grows _ _ _ _ _ _ _ Hl)), visited_enter. by right.
    - intros ->. apply Hn. eapply lp_visited_v; [done|exact Hl]. }
  apply subseteq_size in Hsub. rewrite (size_difference (keys ∖ dom (index st0)) {[v]}) in Hsub.
  - rewrite size_singleton in Hsub. lia.
  - apply singleton_subseteq_l. rewrite elem_of_difference, not_elem_of_dom. done.
Qed.

Definition call_ok (fuel : nat) : Prop := ∀ gray v st,
  inv gray st → index st !! v = None → v ∈ keys → (∀ g, g ∈ gray → reach g v) →
  (todo st ≤ fuel)%nat → ∃ st', strongconnect fuel adj v st = Ok st' ∧ post gray v st st'.

Lemma visit_arcs_ok fuel gray v st0 :
  call_ok fuel → index st0 !! v = None → v ∈ keys → (∀ g, g ∈ gray → reach g v) →
  (todo st0 ≤ S fuel)%nat →
  ∀ ws seen new st l, adj_get adj v = seen ++ ws → arcs_loop gray v st0 new st l seen →
  ∃ new' st' l', visit_arcs (strongconnect fuel adj) v ws st = Ok st' ∧
    arcs_loop gray v st0 new' st' l' (adj_get adj v).
Proof using Hclosed.
  intros Hcall Hv0 Hk Hg Hf. induction ws as [|w ws IH]; intros seen new st l Hadj Hl; simpl.
  { rewrite app_nil_r in Hadj. rewrite Hadj. eauto. }
  assert (arc v w) as Hvw by (unfold arc; rewrite Hadj; set_solver).
  assert (adj_get adj v = (seen ++ [w]) ++ ws) as Hadj' by by rewrite <-app_assoc.
  pose proof (lp_inv _ _ _ _ _ _ _ Hl) as Hi. pose proof (lp_lowlink _ _ _ _ _ _ _ Hl) as Hlv.
  destruct (decide (index st !! w = None)) as [Hw|Hw].
  - destruct (Hcall ({[v]} ∪ gray) w st) as (st1 & -> & Hpost); [done|done|by eapply Hclosed| | |].
    { intros g [->%elem_of_singleton|Hg']%elem_of_union; [by apply rtc_once|].
      eapply rtc_r; [by apply Hg|done]. }
    { by eapply todo_enter. }
    simpl. pose proof Hpost as [_ _ Hlo1 _ (_ & lw & _ & Hlw & _)].
    unfold dict_at at 1. rewrite Hlw. simpl.
    rewrite (lower_spec v lw l); [|by rewrite Hlo1 by by eapply lp_visited_v]. simpl.
    destruct (loop_new _ _ _ Hv0 _ _ _ _ _ _ _ Hl Hvw Hw Hpost Hlw) as (new' & Hl').
    by eapply IH.
  - destruct (index st !! w) as [iw|] eqn:Hiw; [|done].
    destruct (default false (on_stack st !! w)) eqn:Hon.
    + unfold dict_at at 1. rewrite Hiw; simpl. rewrite (lower_spec v iw l) by done. simpl.
      eapply IH; [done|]. eapply loop_stack; [done..|]. by apply (inv_on _ _ Hi).
    + simpl. eapply IH; [done|]. eapply loop_finished; [done..|].
      rewrite <-(inv_on _ _ Hi), Hon. done.
Qed.

Lemma strongconnect_ok fuel : call_ok fuel.
Proof using Hclosed.
  induction fuel as [|fuel IH]; intros gray v st Hi Hv Hk Hg Hf.
  { exfalso. unfold todo in Hf. apply Nat.le_0_r, size_empty_inv in Hf.
    assert (v ∈ keys ∖ dom (index st)); [|set_solver].
    by rewrite elem_of_difference, not_elem_of_dom. }
  simpl. destruct (visit_arcs_ok fuel gray v st IH Hv Hk Hg Hf (adj_get adj v) [] [] (enter v st)
    (index_counter st)) as (new & st1 & l & -> & Hl); [done|by apply arcs_loop_init|].
  simpl. unfold dict_at. rewrite (lp_lowlink _ _ _ _ _ _ _ Hl). simpl.
  destruct (lp_visited_v _ _ _ Hv _ _ _ _ Hl) as [n Hn].
  destruct (finish_call _ _ _ _ _ _ Hi Hv Hl) as (st' & Hst' & Hp).
  unfold num in Hst'. rewrite Hn in *. simpl in *. eauto.
Qed.

Lemma tarjan_sccs_spec :
  ∃ cs, tarjan_sccs keys adj = Ok cs ∧ NoDup (concat cs) ∧ (∀ x, x ∈ concat cs ↔ x ∈ keys) ∧
    Forall is_scc cs.
Proof using Hclosed.
  unfold tarjan_sccs.
  match goal with |- context [foldM ?f tarjan_init ?l] =>
    destruct (foldM_total (λ dn st, inv ∅ st ∧ ∀ x, x ∈ dn → visited st x) f l tarjan_init)
      as (st & Hrun & Hi & Hall) end.
  - intros dn v rest st Hl [Hi Hdn].
    assert (v ∈ keys) as Hk by (rewrite <-elem_of_sorted_set, Hl; set_solver).
    case_decide as Hv.
    + destruct (strongconnect_ok (size keys) ∅ v st Hi Hv Hk) as (st' & -> & Hp); [set_solver| |].
      { unfold todo. apply subseteq_size. set_solver. }
      exists st'. split; [done|]. split; [apply (post_inv _ _ _ _ Hp)|].
      intros x [Hx|Hx]%elem_of_app.
      * eapply grows_visited; [apply (post_grows _ _ _ _ Hp)|by apply Hdn].
      * apply list_elem_of_singleton in Hx as ->. apply (post_v _ _ _ _ Hp).
    + exists st. split; [done|]. split; [done|].
      intros x [Hx|Hx]%elem_of_app; [by apply Hdn|]. apply list_elem_of_singleton in Hx as ->.
      unfold visited. by apply not_eq_None_Some.
  - split; [apply inv_init|set_solver].
  - rewrite Hrun; simpl. exists (sccs st). split; [done|].
    pose proof (idle_stack _ Hi) as Hs.
    pose proof (inv_nodup _ _ Hi) as Hn. rewrite Hs in Hn.
    split; [done|]. split; [|apply (inv_scc _ _ Hi)].
    intros x. change (concat (sccs st)) with (finished st). split.
    + intros Hx. apply (inv_keys _ _ Hi), (inv_split _ _ Hi). by right.
    + intros Hx. assert (visited st x) as Hv by (apply Hall; by rewrite elem_of_sorted_set).
      apply (inv_split _ _ Hi) in Hv as [Hv|Hv]; [|done]. rewrite Hs in Hv. set_solver.
Qed.
End Tarjan.
