(* ===== verification/Validator.v ===== *)
(** * What the validator of policy graphs decides

    The theorems on [packages/algorithm/policy_validator.py] (definitions in
    [PolicyGraph], the strongly connected components in [Tarjan]): the worklist
    of [_reachability_issues] computes the nodes reachable from the start
    nodes, [validate_graph] returns on every input but one kind (an unhashable
    [covers_condition]), and it returns no issue exactly when the graph meets
    the declarative specification [wf_graph]. *)

From stdpp Require Import base gmap strings list relations.
From Stdlib Require Import ZArith Lia.
From S2P Require Import Prelude Json Lifecycle PolicyGraph Tarjan.
Import Model Graph.

(** ** The shape of the graph *)

Section Shape.
Context (nodes : list PolicyNode) (edges : list PolicyEdge).
Abbreviation keys := (node_keys nodes).

(** An edge whose ends exist, or a fallback that exists. *)
Definition graph_arc (a b : string) : Prop :=
  (∃ e, e ∈ edges ∧ from_node_key e = a ∧ to_node_key e = b ∧ a ∈ keys ∧ b ∈ keys) ∨
  (∃ n, n ∈ nodes ∧ node_key n = a ∧ fallback_node_key n = Some b ∧ b ∈ keys).

Lemma elem_of_node_keys k : k ∈ keys ↔ ∃ n, n ∈ nodes ∧ node_key n = k.
Proof. unfold node_keys. rewrite elem_of_list_to_set, list_elem_of_fmap. naive_solver. Qed.

Lemma node_keys_in n : n ∈ nodes → node_key n ∈ keys.
Proof. intros Hn. apply elem_of_node_keys. eauto. Qed.

Lemma elem_of_clean_edges e :
  e ∈ clean_edges nodes edges ↔ e ∈ edges ∧ from_node_key e ∈ keys ∧ to_node_key e ∈ keys.
Proof. unfold clean_edges. rewrite list_elem_of_filter. tauto. Qed.

(** Adjacency lists for a relation, in both directions. *)
Definition adjs_for (R : string → string → Prop) (adjs : adjacency * adjacency) : Prop :=
  dom adjs.1 = keys ∧ dom adjs.2 = keys ∧
  (∀ a b, b ∈ adj_get adjs.1 a ↔ R a b) ∧ (∀ a b, a ∈ adj_get adjs.2 b ↔ R a b).

Lemma adjs_for_ext R R' adjs : (∀ a b, R a b ↔ R' a b) → adjs_for R adjs → adjs_for R' adjs.
Proof. intros HR (H1 & H2 & H3 & H4). repeat split; try done; intros; naive_solver. Qed.

Lemma adj_append_spec k x adj :
  k ∈ dom adj → ∃ adj', adj_append k x adj = Ok adj' ∧ dom adj' = dom adj ∧
    ∀ a b, b ∈ adj_get adj' a ↔ b ∈ adj_get adj a ∨ (a = k ∧ b = x).
Proof.
  intros [l Hl]%elem_of_dom. unfold adj_append, dict_at. rewrite Hl; simpl.
  eexists; split; [done|]. split; [apply dom_insert_lookup_L; eauto|].
  intros a b. unfold adj_get. destruct (decide (a = k)) as [->|].
  - rewrite lookup_insert_eq, Hl. simpl. set_solver.
  - rewrite lookup_insert_ne by done. naive_solver.
Qed.

Lemma add_arc_spec R from to adjs :
  adjs_for R adjs → from ∈ keys → to ∈ keys →
  ∃ adjs', add_arc from to adjs = Ok adjs' ∧ adjs_for (λ a b, R a b ∨ (a = from ∧ b = to)) adjs'.
Proof.
  intros (H1 & H2 & H3 & H4) Hf Ht. unfold add_arc.
  destruct (adj_append_spec from to adjs.1) as (o & -> & Ho & Ho'); [by rewrite H1|]. simpl.
  destruct (adj_append_spec to from adjs.2) as (i & -> & Hi & Hi'); [by rewrite H2|]. simpl.
  eexists; split; [done|]. split; [by rewrite <-H1|]. split; [by rewrite <-H2|].
  simpl. split; intros a b; rewrite ?Ho', ?Hi', ?H3, ?H4; naive_solver.
Qed.

Lemma adj_get_empty_dict a : adj_get (gset_to_gmap [] keys) a = [].
Proof.
  unfold adj_get. rewrite lookup_gset_to_gmap. by destruct (decide (a ∈ keys)); simplify_option_eq.
Qed.

Lemma build_adjacency_spec :
  ∃ adjs, build_adjacency nodes (clean_edges nodes edges) = Ok adjs ∧ adjs_for graph_arc adjs.
Proof.
  unfold build_adjacency.
  match goal with |- context [foldM ?f (?e1, ?e2) (clean_edges _ _)] =>
    destruct (foldM_total (λ dn, adjs_for (λ a b, ∃ e, e ∈ dn ∧ from_node_key e = a ∧ to_node_key e = b))
      f (clean_edges nodes edges) (e1, e2)) as (adjs & -> & Hadjs) end.
  - intros dn e rest adjs Hl Hadjs.
    assert (e ∈ clean_edges nodes edges) as (_ & Hf & Ht)%elem_of_clean_edges by (rewrite Hl; set_solver).
    destruct (add_arc_spec _ _ _ _ Hadjs Hf Ht) as (adjs' & -> & Hadjs').
    exists adjs'; split; [done|]. eapply adjs_for_ext; [|exact Hadjs'].
    intros a b. rewrite ex_snoc. naive_solver.
  - split; [apply dom_gset_to_gmap|]. split; [apply dom_gset_to_gmap|].
    simpl. setoid_rewrite adj_get_empty_dict.
    split; intros a b; split; [intros []%not_elem_of_nil|intros (e & []%not_elem_of_nil & _)|..];
      [intros []%not_elem_of_nil|intros (e & []%not_elem_of_nil & _)].
  - simpl.
    match goal with |- context [foldM ?f adjs nodes] =>
      destruct (foldM_total (λ dn, adjs_for (λ a b,
        (∃ e, e ∈ clean_edges nodes edges ∧ from_node_key e = a ∧ to_node_key e = b) ∨
        (∃ n, n ∈ dn ∧ node_key n = a ∧ fallback_node_key n = Some b ∧ b ∈ keys)))
        f nodes adjs) as (adjs' & -> & Hadjs') end.
    + intros dn n rest adjs1 Hl Hadjs1.
      assert (node_key n ∈ keys) as Hn by (apply node_keys_in; rewrite Hl; set_solver).
      destruct (fallback_node_key n) as [fb|] eqn:Hfb; [case_decide as Hk|].
      * destruct (add_arc_spec _ _ _ _ Hadjs1 Hn Hk) as (adjs2 & -> & Hadjs2).
        exists adjs2; split; [done|]. eapply adjs_for_ext; [|exact Hadjs2].
        intros a b. rewrite ex_snoc. naive_solver.
      * exists adjs1; split; [done|]. eapply adjs_for_ext; [|exact Hadjs1].
        intros a b. rewrite ex_snoc. naive_solver.
      * exists adjs1; split; [done|]. eapply adjs_for_ext; [|exact Hadjs1].
        intros a b. rewrite ex_snoc. naive_solver.
    + eapply adjs_for_ext; [|exact Hadjs]. intros a b. split; [by left|].
      intros [?|(n & []%not_elem_of_nil & _)]; done.
    + exists adjs'; split; [done|]. eapply adjs_for_ext; [|exact Hadjs'].
      intros a b. unfold graph_arc. setoid_rewrite elem_of_clean_edges. naive_solver.
Qed.

Lemma graph_arc_keys a b : graph_arc a b → a ∈ keys ∧ b ∈ keys.
Proof. intros [(e & ? & <- & <- & ? & ?)|(n & ? & <- & ? & ?)]; auto using node_keys_in. Qed.
End Shape.

(** ** The worklist *)

Section Reach.
Context (adj : adjacency).
Abbreviation arc := (Tarjan.arc adj).

(** New neighbours enter the set and the worklist together. *)
Lemma visit_neighbours_spec c seen rest :
  ∃ new, visit_neighbours adj c (seen, rest) = (list_to_set new ∪ seen, rest ++ new) ∧
    NoDup new ∧ (∀ x, x ∈ new → x ∉ seen ∧ arc c x) ∧ ∀ x, arc c x → x ∈ seen ∨ x ∈ new.
Proof.
  unfold visit_neighbours, Tarjan.arc. revert seen rest. induction (adj_get adj c) as [|w ws IH]; intros seen rest; simpl.
  { exists []. rewrite app_nil_r. split; [f_equal; set_solver|]. split; [constructor|]. set_solver. }
  case_decide as Hw.
  - destruct (IH seen rest) as (new & -> & Hn & H1 & H2). exists new. 
    split; [done|]. split; [done|]. split; [set_solver|].
    intros x [->|Hx]%elem_of_cons; [by left|by apply H2].
  - destruct (IH ({[w]} ∪ seen) (rest ++ [w])) as (new & -> & Hn & H1 & H2).
    exists (w :: new). split; [|split; [constructor; [set_solver|done]|set_solver]].
    rewrite <-app_assoc. simpl. f_equal. set_solver.
Qed.

Lemma closed_reach (seen : gset string) :
  (∀ x y, x ∈ seen → arc x y → y ∈ seen) → ∀ x, x ∈ seen ↔ ∃ s, s ∈ seen ∧ rtc arc s x.
Proof.
  intros Hd x. split; [exists x; split; [done|apply rtc_refl]|].
  intros (s & Hs & Hr). induction Hr as [|a b c Hab _ IH]; eauto.
Qed.

Context (keys : gset string) (Hclosed : ∀ x y, x ∈ keys → arc x y → y ∈ keys).

(** The worklist is a subset of the nodes seen; the others have all their
    neighbours seen. Each round takes one node off. *)
Lemma reach_loop_spec fuel (seen : gset string) frontier :
  seen ⊆ keys → (∀ x, x ∈ frontier → x ∈ seen) →
  (∀ x y, x ∈ seen → x ∉ frontier → arc x y → y ∈ seen) →
  (size (keys ∖ seen) + length frontier ≤ fuel)%nat →
  ∃ seen', reach_loop fuel adj seen frontier = Ok seen' ∧
    ∀ x, x ∈ seen' ↔ ∃ s, s ∈ seen ∧ rtc arc s x.
Proof using Hclosed.
  revert seen frontier. induction fuel as [|fuel IH]; intros seen frontier Hk Hsub Hdone Hf.
  - destruct frontier as [|c rest]; simpl in *; [|lia].
    exists seen. split; [done|]. apply closed_reach. intros x y Hx. apply Hdone; [done|set_solver].
  - destruct (rev_case frontier) as [->|(c & rest & ->)]; simpl.
    { exists seen. split; [done|]. apply closed_reach. intros x y Hx. apply Hdone; [done|set_solver]. }
    rewrite reverse_snoc, reverse_involutive.
    destruct (visit_neighbours_spec c seen rest) as (new & -> & Hnd & Hnew & Hall). simpl.
    assert (∀ x, x ∈ new → x ∈ keys) as Hnk.
    { intros x Hx. eapply Hclosed; [|by apply Hnew]. apply Hk, Hsub. set_solver. }
    destruct (IH (list_to_set new ∪ seen) (rest ++ new)) as (seen' & -> & Hs').
    + set_solver.
    + set_solver.
    + intros x y Hx Hxf Hxy. apply elem_of_union in Hx as [Hx|Hx]; [set_solver|].
      destruct (decide (x = c)) as [->|]; [destruct (Hall y Hxy); set_solver|].
      apply elem_of_union_r. apply (Hdone x); [done|set_solver|done].
    + rewrite length_app in *. simpl in Hf.
      assert (size (keys ∖ (list_to_set new ∪ seen)) + length new = size (keys ∖ seen))%nat; [|lia].
      rewrite <-(size_list_to_set (C:=gset string) new) by done. rewrite <-size_union by set_solver.
      f_equal. apply set_eq. intros x. rewrite elem_of_union, !elem_of_difference, elem_of_union.
      destruct (decide (x ∈ new)); set_solver.
    + exists seen'. split; [done|]. intros x. rewrite Hs'. split.
      * intros (s & Hs & Hr). apply elem_of_union in Hs as [Hs|Hs]; [|by exists s].
        exists c. split; [apply Hsub; set_solver|]. eapply rtc_l; [|exact Hr].
        apply Hnew. set_solver.
      * intros (s & Hs & Hr). exists s. set_solver.
Qed.
End Reach.

(** ** What an accepted graph satisfies *)

Section Spec.
Context `{PyText} (nodes : list PolicyNode) (edges : list PolicyEdge).
Abbreviation keys := (node_keys nodes).
Abbreviation ga := (graph_arc nodes edges).

Definition mutual (a b : string) : Prop := rtc ga a b ∧ rtc ga b a.

(** An entry point of a graph with several nodes. *)
Definition entry (s : string) : Prop := s ∈ keys ∧ (∀ a, ¬ ga a s) ∧ ∃ b, ga s b.

(** The node that lets a cycle end: a human, or retries bounded by an integer
    with a fallback outside the cycle. *)
Definition bounded_exit (k : string) : Prop :=
  ∃ n, node_by_key nodes !! k = Some n ∧
    (node_type n = "human" ∨
     ∃ rp m fb, retry_policy n = Some (JObj rp) ∧ as_int (dict_get "max_attempts" rp) = Some m ∧
       (0 < m)%Z ∧ fallback_node_key n = Some fb ∧ ¬ mutual k fb).

Definition covered_branches (n : PolicyNode) : Prop :=
  let outgoing := filter (λ e, from_node_key e = node_key n) edges in
  node_type n = "rule" → outgoing ≠ [] →
  test_cases n ≠ [] ∧
  ∀ e l, e ∈ outgoing → condition_label e = Some l → l ≠ "" →
    ∃ tc, JObj tc ∈ test_cases n ∧ dict_get "covers_condition" tc = JStr l.

Record wf_graph : Prop := {
  wf_edges e : e ∈ edges → from_node_key e ∈ keys ∧ to_node_key e ∈ keys;
  wf_fallbacks n fb : n ∈ nodes → fallback_node_key n = Some fb → fb ∈ keys;
  wf_nonempty : nodes ≠ [];
  wf_reachable k : k ∈ keys → size keys ≠ 1%nat → ∃ s, entry s ∧ rtc ga s k;
  wf_terminal : size keys ≠ 1%nat → ∃ s t, entry s ∧ rtc ga s t ∧ t ∈ keys ∧ ∀ b, ¬ ga t b;
  wf_cycles k : tc ga k k → ∃ x, mutual k x ∧ bounded_exit x;
  wf_contracts e n1 n2 f o i : e ∈ edges →
    node_by_key nodes !! from_node_key e = Some n1 → node_by_key nodes !! to_node_key e = Some n2 →
    output_contract n1 !! f = Some o → input_contract n2 !! f = Some i → o = i;
  wf_branches n : n ∈ nodes → covered_branches n;
}.

(** *** Dangling references *)

Lemma dangling_nil :
  dangling_reference_issues nodes edges = [] ↔
  (∀ e, e ∈ edges → from_node_key e ∈ keys ∧ to_node_key e ∈ keys) ∧
  (∀ n fb, n ∈ nodes → fallback_node_key n = Some fb → fb ∈ keys).
Proof.
  unfold dangling_reference_issues. rewrite app_nil, !mbind_nil. split.
  - intros [He Hn]. split.
    + intros e Hin. specialize (He e Hin). repeat case_decide; try done; tauto.
    + intros n fb Hin Hfb. specialize (Hn n Hin). rewrite Hfb in Hn. case_decide; [done|tauto].
  - intros [He Hn]. split.
    + intros e Hin. destruct (He e Hin). rewrite !decide_False; [done|tauto..].
    + intros n Hin. destruct (fallback_node_key n) as [fb|] eqn:Hfb; [|done].
      rewrite decide_False; [done|]. intros Hk. apply Hk. by apply (Hn n).
Qed.

(** *** Exits of a cycle *)

Lemma elem_of_node_by_key k : is_Some (node_by_key nodes !! k) ↔ k ∈ keys.
Proof.
  unfold node_by_key, node_keys. rewrite <-(app_nil_l nodes) at 2.
  assert (∀ l acc, is_Some (foldl (λ m n, <[node_key n := n]> m) acc l !! k) ↔
    is_Some ((acc : gmap string PolicyNode) !! k) ∨ k ∈ (list_to_set (map node_key l) : gset string)) as Hgen.
  { induction l as [|n l IH]; intros acc; simpl; [set_solver|]. rewrite IH.
    destruct (decide (k = node_key n)) as [->|Hne].
    - rewrite lookup_insert_eq. split; [intros _; right; set_solver|left; eauto].
    - rewrite lookup_insert_ne by done. set_solver. }
  rewrite Hgen, lookup_empty. simpl. split; [intros [[? ?]|?]; done|by right].
Qed.

Lemma find_exit_ok comp_set comp :
  (∀ k, k ∈ comp → k ∈ keys) →
  ∃ b, find_exit (node_by_key nodes) comp_set comp = Ok b ∧
    (b = true ↔ ∃ k n, k ∈ comp ∧ node_by_key nodes !! k = Some n ∧ node_is_exit comp_set n = true).
Proof.
  induction comp as [|k comp IH]; intros Hk; simpl; [exists false; set_solver|].
  destruct (proj2 (elem_of_node_by_key k)) as [n Hn]; [set_solver|].
  unfold dict_at. rewrite Hn; simpl. destruct (node_is_exit comp_set n) eqn:He.
  - exists true. split; [done|]. split; [|done]. intros _. exists k, n. set_solver.
  - destruct IH as (b & -> & Hb); [set_solver|]. exists b; split; [done|]. rewrite Hb. split.
    + intros (k' & n' & ? & ? & ?). exists k', n'. set_solver.
    + intros (k' & n' & Hk' & ? & ?). exists k', n'. split; [|done].
      apply elem_of_cons in Hk' as [->|]; [congruence|done].
Qed.

Lemma node_is_exit_spec comp_set n :
  node_is_exit comp_set n = true ↔
  node_type n = "human" ∨
  ∃ rp m fb, retry_policy n = Some (JObj rp) ∧ as_int (dict_get "max_attempts" rp) = Some m ∧
    (0 < m)%Z ∧ fallback_node_key n = Some fb ∧ fb ∉ comp_set.
Proof.
  unfold node_is_exit. rewrite orb_true_iff, String.eqb_eq. f_equiv. split.
  - destruct (retry_policy n) as [[]|]; simpl; try done.
    destruct (fallback_node_key n) as [fb|]; [|done].
    destruct (as_int (dict_get "max_attempts" l)) as [m|] eqn:Hm; [|done].
    rewrite andb_true_iff, negb_true_iff, Z.ltb_lt, bool_decide_eq_false. intros [? ?].
    exists l, m, fb. done.
  - intros (rp & m & fb & -> & Hm & Hlt & -> & Hfb). simpl. rewrite Hm.
    rewrite andb_true_iff, negb_true_iff, Z.ltb_lt, bool_decide_eq_false. done.
Qed.

(** *** Reachability *)

Section WithAdj.
Context (adjs : adjacency * adjacency) (Hadjs : adjs_for nodes ga adjs).

Lemma arc_ga a b : Tarjan.arc adjs.1 a b ↔ ga a b.
Proof using Hadjs. apply Hadjs. Qed.

Lemma no_out k : has_no_arcs adjs.1 k ↔ ∀ b, ¬ ga k b.
Proof using Hadjs.
  unfold has_no_arcs. rewrite nil_no_elem. destruct Hadjs as (_ & _ & H1 & _). by setoid_rewrite H1.
Qed.

Lemma no_in k : has_no_arcs adjs.2 k ↔ ∀ a, ¬ ga a k.
Proof using Hadjs.
  unfold has_no_arcs. rewrite nil_no_elem. destruct Hadjs as (_ & _ & _ & H1). by setoid_rewrite H1.
Qed.

Lemma some_out k : ¬ has_no_arcs adjs.1 k → ∃ b, ga k b.
Proof using Hadjs.
  unfold has_no_arcs. destruct (adj_get adjs.1 k) as [|b l] eqn:Hk; [done|]. intros _. exists b.
  destruct Hadjs as (_ & _ & H1 & _). apply H1. rewrite Hk. set_solver.
Qed.

Lemma elem_of_starts s : s ∈ start_nodes keys adjs.1 adjs.2 ↔ entry s.
Proof using Hadjs.
  unfold start_nodes, islands, entry.
  rewrite elem_of_filter, elem_of_difference, elem_of_filter, no_in. split.
  - intros (Hin & Hk & Hni). split; [done|]. split; [done|].
    apply some_out. intros Hno. by apply Hni.
  - intros (Hk & Hin & b & Hb). split; [done|]. split; [done|].
    intros ([_ Hno] & _). rewrite no_out in Hno. by apply (Hno b).
Qed.

Lemma reach_ok :
  ∃ seen, reach_loop (size keys) adjs.1 (start_nodes keys adjs.1 adjs.2)
      (elements (start_nodes keys adjs.1 adjs.2)) = Ok seen ∧
    ∀ x, x ∈ seen ↔ ∃ s, entry s ∧ rtc ga s x.
Proof using Hadjs.
  assert (start_nodes keys adjs.1 adjs.2 ⊆ keys) as Hsub.
  { intros s Hs. unfold start_nodes in Hs. set_solver. }
  destruct (reach_loop_spec adjs.1 keys) with (fuel := size keys)
    (seen := start_nodes keys adjs.1 adjs.2) (frontier := elements (start_nodes keys adjs.1 adjs.2))
    as (seen & Hrun & Hseen).
  - intros x y _ Hxy%arc_ga. apply graph_arc_keys in Hxy; tauto.
  - done.
  - intros x. by rewrite elem_of_elements.
  - intros x y Hx Hx'. by rewrite elem_of_elements in Hx'.
  - change (length (elements (start_nodes keys adjs.1 adjs.2))) with (size (start_nodes keys adjs.1 adjs.2)).
    rewrite size_difference by done. apply subseteq_size in Hsub. lia.
  - exists seen. split; [done|]. intros x. rewrite Hseen. setoid_rewrite elem_of_starts.
    split; intros (s & Hs & Hr); exists s; (split; [done|]);
      (eapply rtc_subrel; [|exact Hr]); intros a b; by rewrite arc_ga.
Qed.

(** The issues of [_reachability_issues] are absent exactly when the graph is
    a single node, or every node is reachable from an entry and some terminal is. *)
Lemma reachability_nil :
  ∃ issues, reachability_issues nodes adjs.1 adjs.2 = Ok issues ∧
    (issues = [] ↔ nodes ≠ [] ∧
      (∀ k, k ∈ keys → size keys ≠ 1%nat → ∃ s, entry s ∧ rtc ga s k) ∧
      (size keys ≠ 1%nat → ∃ s t, entry s ∧ rtc ga s t ∧ t ∈ keys ∧ ∀ b, ¬ ga t b)).
Proof using Hadjs.
  assert (keys = ∅ ↔ nodes = []) as Hempty.
  { split; [|by intros ->]. destruct nodes as [|n l]; [done|]. unfold node_keys. set_solver. }
  unfold reachability_issues. case_decide as He.
  { eexists; split; [done|]. split; [done|]. intros (Hne & _). tauto. }
  case_decide as H1; [eexists; split; [done|]; naive_solver|].
  destruct reach_ok as (seen & Hrun & Hseen). case_decide as Hs.
  { eexists; split; [done|]. split; [intros [_ Hnil]%app_nil; done|]. intros (_ & Hall & _). exfalso.
    apply set_choose_L in He as [k Hk]. destruct (Hall k Hk H1) as (s & Hs' & _).
    apply elem_of_starts in Hs'. set_solver. }
  rewrite Hrun; simpl. eexists; split; [done|].
  assert (islands keys adjs.1 adjs.2 ∩ seen = ∅) as Hisl.
  { apply elem_of_equiv_empty_L. intros k. unfold islands.
    rewrite elem_of_intersection, elem_of_filter, no_in, no_out, Hseen.
    intros ([[Hin Hout] Hk] & s & (_ & _ & b & Hb) & Hr).
    apply rtc_inv_r in Hr as [->|(c & _ & Hc)]; [by apply (Hout b)|by apply (Hin c)]. }
  assert ((map (λ k, {| code := "unreachable_node";
      message := "node " +:+ py_repr k +:+ " has no edges at all -- disconnected from the graph";
      issue_node := Some k |}) (sorted_set (islands keys adjs.1 adjs.2)) ++
    map (λ k, {| code := "unreachable_node";
      message := "node " +:+ py_repr k +:+ " is not reachable from any start node";
      issue_node := Some k |}) (sorted_set (keys ∖ seen ∖ islands keys adjs.1 adjs.2)) = []) ↔
    keys ⊆ seen) as Hun.
  { rewrite app_nil, !map_nil, !sorted_set_nil. split.
    - intros [Hi Hk] k Hkk. destruct (decide (k ∈ seen)); set_solver.
    - intros Hk. assert (islands keys adjs.1 adjs.2 ⊆ keys) by (unfold islands; set_solver). set_solver. }
  assert (∀ t, t ∈ terminals keys adjs.1 ∩ seen ↔
    ∃ s, entry s ∧ rtc ga s t ∧ t ∈ keys ∧ ∀ b, ¬ ga t b) as Hterm.
  { intros t. unfold terminals. rewrite elem_of_intersection, elem_of_filter, no_out, Hseen. naive_solver. }
  case_decide as Ht.
  - rewrite app_nil. split; [intros [_ ?]; done|]. intros (_ & _ & Hex). exfalso.
    destruct (Hex H1) as (s & t & Hst). assert (t ∈ terminals keys adjs.1 ∩ seen) as Hin by (apply Hterm; eauto).
    rewrite Ht in Hin. set_solver.
  - rewrite Hun. split.
    + intros Hk. split; [naive_solver|]. split.
      * intros k Hkk _. by apply Hseen, Hk.
      * intros _. apply set_choose_L in Ht as [t (s & Hst)%Hterm]. eauto.
    + intros (_ & Hall & _) k Hk. apply Hseen. by apply Hall.
Qed.

(** *** Cycles *)

Lemma reach_ga a b : Tarjan.reach adjs.1 a b ↔ rtc ga a b.
Proof using Hadjs.
  split; intros Hr; (eapply rtc_subrel; [|exact Hr]); intros x y; by rewrite arc_ga.
Qed.

Lemma is_cycle_spec c k :
  NoDup c → Tarjan.is_scc adjs.1 c → k ∈ c → is_cycle adjs.1 c = true ↔ tc ga k k.
Proof using Hadjs.
  intros Hnd [Hne Hscc] Hk. destruct c as [|x c]; [done|]. simpl.
  setoid_rewrite reach_ga in Hscc.
  rewrite orb_true_iff, negb_true_iff, bool_decide_eq_false, bool_decide_eq_true.
  change (x ∈ adj_get adjs.1 x) with (Tarjan.arc adjs.1 x x). rewrite arc_ga. split.
  - intros [Hc|Hxx].
    + destruct c as [|y c]; [done|]. assert (x ≠ y) by (apply NoDup_cons in Hnd; set_solver).
      assert (∃ z, z ∈ x :: y :: c ∧ z ≠ k) as (z & Hz & Hzk).
      { destruct (decide (x = k)); [exists y; set_solver|exists x; set_solver]. }
      apply (Hscc k Hk) in Hz as [Hkz Hzk'].
      eapply tc_rtc_r; [|exact Hzk']. apply rtc_tc in Hkz as [->|]; done.
    + assert (rtc ga k x ∧ rtc ga x k) as [Hkx Hxk] by (apply (Hscc k Hk); set_solver).
      eapply tc_rtc_l; [exact Hkx|]. eapply tc_rtc_r; [by apply tc_once|done].
  - intros Hkk. destruct c as [|y c]; [right|by left].
    assert (k = x) as -> by set_solver.
    assert (∃ y, ga x y ∧ rtc ga y x) as (y & Hxy & Hyx).
    { inversion Hkk as [? ? Hg|? y ? Hg Hr]; subst; eauto using tc_rtc, rtc_refl. }
    assert (y ∈ [x]) as ->%list_elem_of_singleton; [|done].
    apply (Hscc x Hk). split; [by apply rtc_once|done].
Qed.

Lemma scc_mutual c k x : Tarjan.is_scc adjs.1 c → k ∈ c → x ∈ c ↔ mutual k x.
Proof using Hadjs. intros [_ Hscc] Hk. rewrite (Hscc k Hk x), !reach_ga. done. Qed.

(** The exit a component has does not depend on the node it is looked from. *)
Lemma component_exit c k :
  Tarjan.is_scc adjs.1 c → k ∈ c →
  (∃ x n, x ∈ c ∧ node_by_key nodes !! x = Some n ∧ node_is_exit (list_to_set c) n = true) ↔
  ∃ x, mutual k x ∧ bounded_exit x.
Proof using Hadjs.
  intros Hc Hk. unfold bounded_exit. setoid_rewrite node_is_exit_spec.
  setoid_rewrite elem_of_list_to_set. split.
  - intros (x & n & Hx & Hn & He). exists x. split; [by apply (scc_mutual c)|].
    exists n. split; [done|]. destruct He as [?|(rp & m & fb & ? & ? & ? & ? & Hfb)]; [by left|right].
    exists rp, m, fb. rewrite <-(scc_mutual c x fb) by done. done.
  - intros (x & Hx & n & Hn & He). apply (scc_mutual c) in Hx; [|done..].
    exists x, n. split; [done|]. split; [done|].
    destruct He as [?|(rp & m & fb & ? & ? & ? & ? & Hfb)]; [by left|right].
    exists rp, m, fb. rewrite (scc_mutual c x fb) by done. done.
Qed.

Lemma cycles_nil :
  ∃ issues, cycle_issues nodes adjs.1 = Ok issues ∧
    (issues = [] ↔ ∀ k, tc ga k k → ∃ x, mutual k x ∧ bounded_exit x).
Proof using Hadjs.
  destruct (tarjan_sccs_spec keys adjs.1) as (cs & Hrun & Hnd & Hall & Hscc).
  { intros x y _ Hxy%arc_ga. apply graph_arc_keys in Hxy. tauto. }
  assert (∀ c, c ∈ cs → NoDup c ∧ Tarjan.is_scc adjs.1 c ∧ ∀ k, k ∈ c → k ∈ keys) as Hcs.
  { intros c Hc. rewrite Forall_forall in Hscc. split; [by eapply NoDup_concat_elem|].
    split; [by apply Hscc|]. intros k Hk. apply Hall, list_elem_of_In, List.in_concat.
    exists c. by rewrite <-!list_elem_of_In. }
  unfold cycle_issues. rewrite Hrun; simpl.
  rewrite (foldM_ext _ (λ s c, let! bs := (if is_cycle adjs.1 c then
      let! v := find_exit (node_by_key nodes) (list_to_set c) c in
      Ok (if v : bool then [] else [cycle_issue c]) else Ok []) in Ok (s ++ bs))).
  2:{ intros s c Hc. destruct (is_cycle adjs.1 c); simpl; [|by rewrite app_nil_r].
      destruct (find_exit _ _ _) as [[]|]; simpl; by rewrite ?app_nil_r. }
  match goal with |- context [foldM (λ s a, let! bs := @?g a in _) _ _] =>
    destruct (foldM_append_ok g cs []) as (bs & -> & Hbs) end.
  { intros c Hc. destruct (Hcs c Hc) as (_ & _ & Hk).
    destruct (find_exit_ok (list_to_set c) c Hk) as (b & -> & _). destruct (is_cycle _ _); simpl; eauto. }
  simpl. exists bs. split; [done|]. rewrite Hbs. split.
  - intros Hnil k Hkk. assert (k ∈ keys) as Hk.
    { inversion Hkk as [? ? Hg|? ? ? Hg]; subst; apply graph_arc_keys in Hg; tauto. }
    apply Hall, list_elem_of_In, List.in_concat in Hk as (c & Hc & Hkc).
    rewrite <-!list_elem_of_In in *. destruct (Hcs c Hc) as (Hcn & Hcscc & Hck).
    specialize (Hnil c Hc). rewrite (proj2 (is_cycle_spec c k Hcn Hcscc Hkc)) in Hnil by done.
    destruct (find_exit_ok (list_to_set c) c Hck) as (b & Hfe & Hb). rewrite Hfe in Hnil. simpl in Hnil.
    apply (component_exit c); [done..|]. apply Hb. by destruct b.
  - intros Hex c Hc. destruct (Hcs c Hc) as (Hcn & Hcscc & Hck).
    destruct (is_cycle adjs.1 c) eqn:Hcy; [|done].
    destruct (find_exit_ok (list_to_set c) c Hck) as (b & -> & Hb). simpl.
    assert (∃ k, k ∈ c) as [k Hk] by (destruct Hcscc as [? _]; destruct c; [done|eexists; by left]).
    apply (is_cycle_spec c k) in Hcy; [|done..].
    rewrite (proj2 Hb); [done|]. apply (component_exit c k); auto.
Qed.
End WithAdj.

(** *** Contracts along the edges *)

Lemma io_nil :
  ∃ issues, io_type_mismatch_issues nodes (clean_edges nodes edges) = Ok issues ∧
    (issues = [] ↔ ∀ e n1 n2 f o i, e ∈ clean_edges nodes edges →
      node_by_key nodes !! from_node_key e = Some n1 → node_by_key nodes !! to_node_key e = Some n2 →
      output_contract n1 !! f = Some o → input_contract n2 !! f = Some i → o = i).
Proof.
  unfold io_type_mismatch_issues.
  rewrite (foldM_ext _ (λ s e, let! bs := (
      let! from_node := dict_at (from_node_key e) (node_by_key nodes) in
      let! to_node := dict_at (to_node_key e) (node_by_key nodes) in
      Ok (sorted_set (dom (output_contract from_node) ∩ dom (input_contract to_node)) ≫=
        io_mismatch_at e (output_contract from_node) (input_contract to_node))) in Ok (s ++ bs))).
  2:{ intros s e _. repeat (destruct (dict_at _ _); simpl; try done). }
  assert (∀ e, e ∈ clean_edges nodes edges → ∃ n1 n2,
    node_by_key nodes !! from_node_key e = Some n1 ∧ node_by_key nodes !! to_node_key e = Some n2) as Hends.
  { intros e (_ & [n1 ?]%elem_of_node_by_key & [n2 ?]%elem_of_node_by_key)%elem_of_clean_edges. eauto. }
  match goal with |- context [foldM (λ s a, let! bs := @?g a in _) _ _] =>
    destruct (foldM_append_ok g (clean_edges nodes edges) []) as (bs & -> & Hbs) end.
  { intros e He. destruct (Hends e He) as (n1 & n2 & H1 & H2). unfold dict_at. rewrite H1, H2. simpl. eauto. }
  simpl. exists bs. split; [done|]. rewrite Hbs. clear Hbs. split.
  - intros Hnil e n1 n2 f o i He H1 H2 Ho Hi. specialize (Hnil e He).
    unfold dict_at in Hnil. rewrite H1, H2 in Hnil. simpl in Hnil. injection Hnil as Hnil.
    rewrite mbind_nil in Hnil. specialize (Hnil f). unfold io_mismatch_at in Hnil.
    rewrite Ho, Hi in Hnil. destruct (decide (o ≠ i)) as [Hne|Hne]; [|destruct (decide (o = i)); tauto].
    discriminate Hnil. apply elem_of_sorted_set, elem_of_intersection. rewrite !elem_of_dom. eauto.
  - intros Hall e He. destruct (Hends e He) as (n1 & n2 & H1 & H2). unfold dict_at. rewrite H1, H2. simpl.
    f_equal. apply mbind_nil. intros f _. unfold io_mismatch_at.
    destruct (output_contract n1 !! f) as [o|] eqn:Ho, (input_contract n2 !! f) as [i|] eqn:Hi; try done.
    rewrite decide_False; [done|]. intros Hne. apply Hne. by eapply Hall.
Qed.

(** *** Branch coverage *)

Lemma edges_by_from_spec k :
  default [] (edges_by_from edges !! k) = filter (λ e, from_node_key e = k) edges.
Proof.
  unfold edges_by_from. by rewrite group_by_from, lookup_empty.
Qed.

(** The [covers_condition] of every test case can be put in a set. *)
Definition hashable_cases (n : PolicyNode) : Prop :=
  Forall (λ tc, hashable (dict_get "covers_condition" tc) = true) (omap as_dict (test_cases n)).

Lemma elem_of_dicts (cases : list json) tc : tc ∈ omap as_dict cases ↔ JObj tc ∈ cases.
Proof.
  rewrite list_elem_of_omap. split; [|intros Hc; by exists (JObj tc)].
  intros (j & Hj & Hd). destruct j; simplify_eq/=. done.
Qed.

Lemma covered_conditions_ok n :
  hashable_cases n →
  covered_conditions (test_cases n) = Ok (map (dict_get "covers_condition") (omap as_dict (test_cases n))).
Proof.
  unfold covered_conditions, hashable_cases.
  induction 1 as [|tc l Htc _ IH]; simpl; [done|]. rewrite Htc. simpl. by rewrite IH.
Qed.

Lemma covered_conditions_err n :
  ¬ hashable_cases n → covered_conditions (test_cases n) = Err (TypeError "unhashable type").
Proof.
  unfold covered_conditions, hashable_cases.
  induction (omap as_dict (test_cases n)) as [|tc l IH]; simpl; intros Hall; [by destruct Hall|].
  destruct (hashable _) eqn:Htc; simpl; [|done]. rewrite IH; [done|].
  intros Hl. apply Hall. by constructor.
Qed.

Lemma elem_of_branch_labels out l :
  l ∈ branch_labels out ↔ ∃ e, e ∈ out ∧ condition_label e = Some l ∧ l ≠ "".
Proof.
  unfold branch_labels. rewrite elem_of_list_to_set, list_elem_of_bind.
  split; intros (e & H1 & H2); exists e.
  - destruct (condition_label e) as [l'|]; [|set_solver]. case_decide; [set_solver|].
    apply list_elem_of_singleton in H1 as ->. done.
  - destruct H2 as [-> Hne]. rewrite decide_False by done. set_solver.
Qed.

Lemma covered_label (cases : list json) l :
  existsb (py_eq (JStr l)) (map (dict_get "covers_condition") (omap as_dict cases)) = true ↔
  ∃ tc, JObj tc ∈ cases ∧ dict_get "covers_condition" tc = JStr l.
Proof.
  rewrite existsb_exists. split.
  - intros (v & (tc & -> & Htc)%list_elem_of_In%list_elem_of_fmap & Hv). exists tc.
    split; [by apply elem_of_dicts|]. destruct (dict_get _ tc); try done.
    simpl in Hv. by apply String.eqb_eq in Hv as ->.
  - intros (tc & Htc & Hl). exists (JStr l). split; [|simpl; by rewrite String.eqb_refl].
    apply list_elem_of_In, list_elem_of_fmap. exists tc. by rewrite elem_of_dicts.
Qed.

(** What one rule node adds. *)
Definition branch_issues (n : PolicyNode) : result exn (list ValidationIssue) :=
  if negb (String.eqb (node_type n) "rule") then Ok []
  else
    let outgoing := filter (λ e, from_node_key e = node_key n) edges in
    match outgoing, test_cases n with
    | [], _ => Ok []
    | _, [] => Ok [{| code := "no_test_cases";
          message := "rule node " +:+ py_repr (node_key n) +:+ " has outgoing branches but zero test cases";
          issue_node := Some (node_key n) |}]
    | _, _ => uncovered_branches n outgoing
    end.

Lemma check_branch_coverage_eq :
  check_branch_coverage nodes edges =
  foldM (λ s n, let! bs := branch_issues n in Ok (s ++ bs)) [] nodes.
Proof.
  unfold check_branch_coverage. apply foldM_ext. intros s n _. unfold branch_issues.
  rewrite edges_by_from_spec. destruct (negb _); simpl; [by rewrite app_nil_r|].
  destruct (filter _ edges), (test_cases n); simpl; by rewrite ?app_nil_r.
Qed.

(** The nodes the coverage check looks into. *)
Definition checked_rule (n : PolicyNode) : Prop :=
  node_type n = "rule" ∧ filter (λ e, from_node_key e = node_key n) edges ≠ [].

Lemma branch_issues_ok n :
  (checked_rule n → hashable_cases n) →
  ∃ bs, branch_issues n = Ok bs ∧ (bs = [] ↔ covered_branches n).
Proof.
  intros Hh. unfold branch_issues, covered_branches, checked_rule in *.
  destruct (String.eqb_spec (node_type n) "rule") as [Ht|Ht]; simpl; [|exists []; naive_solver].
  destruct (filter _ edges) as [|e0 out0] eqn:Hout; [exists []; naive_solver|].
  assert (hashable_cases n) as Hh' by (apply Hh; done). clear Hh.
  destruct (test_cases n) as [|tc tcs] eqn:Htcs; [eexists; split; [done|naive_solver]|].
  rewrite <-Hout, <-Htcs. clear Hout. unfold uncovered_branches.
  rewrite covered_conditions_ok by done. simpl. eexists; split; [done|].
  rewrite map_nil, sorted_set_nil, elem_of_equiv_empty_L.
  setoid_rewrite elem_of_filter. setoid_rewrite elem_of_branch_labels. split.
  - intros Hnone _ _. split; [by rewrite Htcs|]. intros e l He Hl Hne.
    apply covered_label. apply not_false_iff_true. intros Hf. apply (Hnone l). eauto.
  - intros Hcov l (Hf & e & He & Hl & Hne).
    destruct Hcov as [_ Hcov]; [done|intros Hnil; rewrite Hnil in He; by apply elem_of_nil in He|].
    destruct (Hcov e l He Hl Hne) as (tc' & Htc' & Hd).
    apply not_true_iff_false in Hf. apply Hf, covered_label. eauto.
Qed.

Lemma branch_issues_err n :
  checked_rule n → ¬ hashable_cases n → branch_issues n = Err (TypeError "unhashable type").
Proof.
  intros [Ht Hout] Hh. unfold branch_issues. rewrite Ht; simpl.
  destruct (filter _ edges) as [|e0 out0]; [done|].
  destruct (test_cases n) as [|tc tcs] eqn:Htcs.
  - exfalso. apply Hh. unfold hashable_cases. rewrite Htcs. constructor.
  - unfold uncovered_branches. by rewrite covered_conditions_err.
Qed.

Definition checks_hashable (n : PolicyNode) : Prop := checked_rule n → hashable_cases n.
#[export] Instance checks_hashable_dec n : Decision (checks_hashable n).
Proof. unfold checks_hashable, checked_rule, hashable_cases. apply _. Defined.

Lemma check_branch_coverage_ok :
  (∀ n, n ∈ nodes → checks_hashable n) →
  ∃ issues, check_branch_coverage nodes edges = Ok issues ∧
    (issues = [] ↔ ∀ n, n ∈ nodes → covered_branches n).
Proof.
  intros Hh. rewrite check_branch_coverage_eq.
  destruct (foldM_append_ok branch_issues nodes []) as (bs & -> & Hbs).
  - intros n Hn. destruct (branch_issues_ok n (Hh n Hn)) as (bs & Hb & _). eauto.
  - exists bs. split; [done|]. rewrite Hbs.
    split; intros Hall n Hn; destruct (branch_issues_ok n (Hh n Hn)) as (b & Hb & Hc).
    + apply Hc. specialize (Hall n Hn). congruence.
    + rewrite Hb. f_equal. by apply Hc, Hall.
Qed.

Lemma check_branch_coverage_err :
  (∃ n, n ∈ nodes ∧ ¬ checks_hashable n) →
  check_branch_coverage nodes edges = Err (TypeError "unhashable type").
Proof.
  rewrite check_branch_coverage_eq, foldM_append. intros (n & Hn & Hh).
  assert (mapM branch_issues nodes = Err (TypeError "unhashable type")) as ->; [|done].
  induction nodes as [|n' l IH]; simpl; [set_solver|].
  destruct (decide (checks_hashable n')) as [Hd|Hd].
  - destruct (branch_issues_ok n' Hd) as (b & -> & _). simpl.
    apply elem_of_cons in Hn as [->|Hn]; [done|]. by rewrite IH.
  - rewrite branch_issues_err; [done|..]; unfold checks_hashable in Hd.
    + destruct (decide (hashable_cases n')) as [?|?]; [tauto|].
      unfold checked_rule in *. split; [by destruct (decide (node_type n' = "rule")); tauto|]. intros Ho; tauto.
    + tauto.
Qed.

(** *** The whole validator *)

Lemma structure_ok :
  ∃ issues, validate_graph_structure nodes edges = Ok issues ∧
    (issues = [] ↔
      (∀ e, e ∈ edges → from_node_key e ∈ keys ∧ to_node_key e ∈ keys) ∧
      (∀ n fb, n ∈ nodes → fallback_node_key n = Some fb → fb ∈ keys) ∧
      (nodes ≠ [] ∧
       (∀ k, k ∈ keys → size keys ≠ 1%nat → ∃ s, entry s ∧ rtc ga s k) ∧
       (size keys ≠ 1%nat → ∃ s t, entry s ∧ rtc ga s t ∧ t ∈ keys ∧ ∀ b, ¬ ga t b)) ∧
      (∀ k, tc ga k k → ∃ x, mutual k x ∧ bounded_exit x) ∧
      (∀ e n1 n2 f o i, e ∈ clean_edges nodes edges →
        node_by_key nodes !! from_node_key e = Some n1 → node_by_key nodes !! to_node_key e = Some n2 →
        output_contract n1 !! f = Some o → input_contract n2 !! f = Some i → o = i)).
Proof.
  unfold validate_graph_structure.
  destruct (build_adjacency_spec nodes edges) as (adjs & -> & Hadjs). simpl.
  destruct (reachability_nil adjs Hadjs) as (r & -> & Hr). simpl.
  destruct (cycles_nil adjs Hadjs) as (c & -> & Hc). simpl.
  destruct io_nil as (io & -> & Hio). simpl.
  eexists; split; [done|]. rewrite !app_nil, dangling_nil, Hr, Hc, Hio. tauto.
Qed.

(** C1: The validator decides well-formedness: when the coverage conditions of
    the rule nodes with branches are hashable, [validate_graph] returns, and it
    returns no issue exactly when every edge and fallback refers to a node,
    every node is reachable from an entry and so is some terminal, every cycle
    has a human node or a bounded retry whose fallback leaves the cycle, the
    contracts agree along every edge, and every labelled branch of a rule node
    is covered by a test case. *)
Theorem validate_graph_decides :
  (∀ n, n ∈ nodes → checks_hashable n) →
  ∃ issues, validate_graph nodes edges = Ok issues ∧ (issues = [] ↔ wf_graph).
Proof.
  intros Hh. unfold validate_graph.
  destruct structure_ok as (s & -> & Hs). simpl.
  destruct (check_branch_coverage_ok Hh) as (b & -> & Hb). simpl.
  eexists; split; [done|]. rewrite app_nil, Hs, Hb. split.
  - intros ((He & Hf & (Hne & Hr & Ht) & Hc & Hio) & Hbr). split; try done.
    intros e n1 n2 f o i Hin. apply Hio, elem_of_clean_edges. split; [done|by apply He].
  - intros [He Hf Hne Hr Ht Hc Hio Hbr]. split; [|done].
    split; [done|]. split; [done|]. split; [done|]. split; [done|].
    intros e n1 n2 f o i (Hin & _)%elem_of_clean_edges. by apply Hio.
Qed.

(** The validator never runs out of fuel and raises nothing but one
    [TypeError]: it returns exactly when no rule node with branches has a test
    case whose [covers_condition] is a list or a dict. *)
Theorem validate_graph_total :
  if decide (Forall checks_hashable nodes) then is_ok (validate_graph nodes edges) = true
  else validate_graph nodes edges = Err (Raised (TypeError "unhashable type")).
Proof.
  unfold validate_graph. destruct structure_ok as (s & -> & _). simpl. case_decide as Hh.
  - rewrite Forall_forall in Hh. by destruct (check_branch_coverage_ok Hh) as (b & -> & _).
  - rewrite check_branch_coverage_err; [done|].
    apply not_Forall_Exists, Exists_exists in Hh; [done|apply _].
Qed.
End Spec.

(** A rule node with two covered branches, and a cycle with a human node. *)
Definition sample_nodes : list PolicyNode :=
  [plain_node "intake" "rule" None [JObj [("covers_condition", JStr "ok")]; JObj [("covers_condition", JStr "bad")]];
   plain_node "review" "human" None []; plain_node "rework" "gate" (Some "review") [];
   plain_node "done" "gate" None []].
Definition sample_edges : list PolicyEdge :=
  [plain_edge "intake" "done" (Some "ok"); plain_edge "intake" "review" (Some "bad");
   plain_edge "review" "rework" None; plain_edge "review" "done" None].

Lemma validate_graph_decides_witness :
  validate_graph (H := ascii_text) sample_nodes sample_edges = Ok [] ∧ wf_graph sample_nodes sample_edges.
Proof.
  destruct (validate_graph_decides (H := ascii_text) sample_nodes sample_edges) as (issues & Hv & Hwf).
  - apply Forall_forall. refine (bool_decide_eq_true_1 _ _). vm_compute. reflexivity.
  - assert (validate_graph (H := ascii_text) sample_nodes sample_edges = Ok []) as Hok by (vm_compute; reflexivity).
    split; [exact Hok|]. apply Hwf. rewrite Hok in Hv. injection Hv as <-. reflexivity.
Defined.

(** Tarjan's algorithm, as run on the graph of a policy version, returns
    the strongly connected components: every node is in exactly one of them,
    and two nodes are in the same one exactly when each reaches the other. *)
Theorem tarjan_finds_components nodes edges :
  ∃ adjs cs, build_adjacency nodes (clean_edges nodes edges) = Ok adjs ∧
    tarjan_sccs (node_keys nodes) adjs.1 = Ok cs ∧
    NoDup (concat cs) ∧ (∀ k, k ∈ concat cs ↔ k ∈ node_keys nodes) ∧
    ∀ c a b, c ∈ cs → a ∈ c → b ∈ c ↔ mutual nodes edges a b.
Proof.
  destruct (build_adjacency_spec nodes edges) as (adjs & Hb & Hadjs).
  destruct (tarjan_sccs_spec (node_keys nodes) adjs.1) as (cs & Hrun & Hnd & Hall & Hscc).
  { intros x y _ Hxy%(arc_ga _ _ _ Hadjs). apply graph_arc_keys in Hxy. tauto. }
  exists adjs, cs. repeat (split; [done|]). intros c a b Hc Ha.
  rewrite Forall_forall in Hscc. eapply scc_mutual; eauto.
Qed.
