(* ===== verification/Simulation.v ===== *)
(** * The simulation engine of policy versions

    [packages/algorithm/simulation_engine.py]: the replay of a case through a
    policy graph. Module [Engine] has [run_case] and what it is made of, as in
    the code; the theorems say that a case always ends, that every step of a
    walk follows an edge the engine was entitled to take, and what each of the
    stopping statuses means. *)

From stdpp Require Import base gmap strings list.
From Stdlib Require Import ZArith Lia.
From S2P Require Import Prelude Json Lifecycle Decimal PolicyGraph.
Import Model Graph.

Module Engine.

(** The running [state] dict. *)
Abbreviation env := (gmap string json).

Record SimulationCase := {
  case_id : string;
  inputs : env;
  human_overrides : gmap string string;
  monetary_amount : option decimal;
  monetary_currency : option string;
  actual_outcome_label : option string;
}.

Record CaseTrace := {
  tr_case_id : string;
  tr_status : string;
  tr_path : list string;
  tr_terminal : option string;
  tr_reason_codes : list string;
  tr_undetermined : option string;
  tr_final_state : env;
  tr_amount : option decimal;
  tr_currency : option string;
  tr_outcome : option string;
}.

Record VersionComparison := {
  vc_case_id : string;
  terminal_a : option string;
  terminal_b : option string;
  reason_codes_a : list string;
  reason_codes_b : list string;
  agrees : bool;
}.

Definition build_out_adjacency (nodes : list PolicyNode) (edges : list PolicyEdge) : gmap string (list PolicyEdge) :=
  foldl (λ m e, <[from_node_key e := default [] (m !! from_node_key e) ++ [e]]> m)
    (gset_to_gmap [] (node_keys nodes)) edges.

(** [if k in incoming: incoming[k] += 1] *)
Definition count_in (k : string) (incoming : gmap string Z) : gmap string Z :=
  match incoming !! k with Some n => <[k := (n + 1)%Z]> incoming | None => incoming end.

Definition incoming_counts (nodes : list PolicyNode) (edges : list PolicyEdge) : gmap string Z :=
  let zero := gset_to_gmap 0%Z (node_keys nodes) in
  let after_edges := foldl (λ m e, count_in (to_node_key e) m) zero edges in
  foldl (λ m n, match fallback_node_key n with Some fb => count_in fb m | None => m end) after_edges nodes.

Definition find_start_node (nodes : list PolicyNode) (edges : list PolicyEdge) : result exn string :=
  let starts := elements (dom (filter (λ kc, kc.2 = 0%Z) (incoming_counts nodes edges))) in
  match starts with
  | [k] => Ok k
  | _ => Err (ValueError ("simulation requires exactly one start node (found " +:+
      py_str_Z (Z.of_nat (length starts)) +:+ "); run policy_validator.validate_graph first"))
  end.

Definition input_matches (tc_input : list (string * json)) (state : env) : bool :=
  forallb (λ kv, match state !! kv.1 with Some v => py_eq v kv.2 | None => false end) tc_input.

(** The test cases that are dicts with a dict as input that the state matches. *)
Definition case_matches (state : env) (tc : list (string * json)) : bool :=
  match as_dict (dict_get "input" tc) with
  | Some inp => input_matches inp state
  | None => false
  end.
Definition matching_test_cases (n : PolicyNode) (state : env) : list (list (string * json)) :=
  filter (λ tc, case_matches state tc = true) (omap as_dict (test_cases n)).

(** [label is None] and [label == "..."] on an optional column *)
Definition opt_json (o : option string) : json := match o with Some s => JStr s | None => JNull end.

(** The set [{tc.get("covers_condition") for tc in matches}], in insertion order. *)
Definition distinct_labels (matches : list (list (string * json))) : result exn (list json) :=
  foldM (λ acc tc,
    let v := dict_get "covers_condition" tc in
    raise_if negb (hashable v) with TypeError "unhashable type" ;;
    Ok (if existsb (py_eq v) acc then acc else acc ++ [v])) [] matches.

(** What [_select_next_edge] returns: an edge with the output to merge, or the
    reason to stop. *)
Inductive selection :=
| Follow (e : PolicyEdge) (expected_output : json)
| Stop (reason : string).

Definition undetermined : string := "undetermined".
Definition awaiting_human : string := "awaiting_human".
Definition completed : string := "completed".

Definition select_by_test_cases (n : PolicyNode) (outgoing : list PolicyEdge) (state : env)
    : result exn selection :=
  let matches := matching_test_cases n state in
  let! labels := distinct_labels matches in
  match labels with
  | [] => Ok (Stop (if String.eqb (node_type n) "human" then awaiting_human else "no_matching_test_case"))
  | _ :: _ :: _ => Ok (Stop "ambiguous_test_cases")
  | [label] =>
      match filter (λ e, py_eq (opt_json (condition_label e)) label = true) outgoing with
      | [] => Ok (Stop "test_case_covers_unknown_edge")
      | e :: _ =>
          match filter (λ tc, py_eq (dict_get "covers_condition" tc) label = true) matches with
          | [] => Err StopIteration
          | tc :: _ => Ok (Follow e (dict_get "expected_output" tc))
          end
      end
  end.

Definition select_next_edge (n : PolicyNode) (outgoing : list PolicyEdge) (state : env)
    (overrides : gmap string string) : result exn selection :=
  match outgoing with
  | [{| condition_label := None |} as e] =>
      Ok (Follow e (match matching_test_cases n state with
                    | [tc] => dict_get "expected_output" tc
                    | _ => JNull
                    end))
  | _ =>
      match (if String.eqb (node_type n) "human" then overrides !! node_key n else None) with
      | Some chosen =>
          match filter (λ e, condition_label e = Some chosen) outgoing with
          | [] => Ok (Stop "human_override_no_matching_edge")
          | e :: _ => Ok (Follow e JNull)
          end
      | None => select_by_test_cases n outgoing state
      end
  end.

(** [{**state, **expected_output}] when it is a dict *)
Definition merge_output (state : env) (expected : json) : env :=
  match as_dict expected with
  | Some d => foldl (λ m kv, <[kv.1 := kv.2]> m) state d
  | None => state
  end.

Definition mk_trace (c : SimulationCase) (status : string) (path : list string) (terminal : option string)
    (codes : list string) (reason : option string) (state : env) : CaseTrace :=
  {| tr_case_id := case_id c; tr_status := status; tr_path := path; tr_terminal := terminal;
     tr_reason_codes := codes; tr_undetermined := reason; tr_final_state := state;
     tr_amount := monetary_amount c; tr_currency := monetary_currency c; tr_outcome := actual_outcome_label c |}.

(** The [for _ in range(step_cap)] loop. *)
Fixpoint walk (steps : nat) (by_key : gmap string PolicyNode) (out_adj : gmap string (list PolicyEdge))
    (c : SimulationCase) (current : string) (state : env) (path : list string) : result exn CaseTrace :=
  match steps with
  | 0%nat => Ok (mk_trace c undetermined path None [] (Some "step_limit_exceeded") state)
  | S steps' =>
      let! n := dict_at current by_key in
      match default [] (out_adj !! current) with
      | [] => Ok (mk_trace c completed path (Some current) (reason_codes n) None state)
      | outgoing =>
          let! sel := select_next_edge n outgoing state (human_overrides c) in
          match sel with
          | Stop reason =>
              Ok (mk_trace c (if String.eqb reason awaiting_human then awaiting_human else undetermined)
                    path None [] (Some reason) state)
          | Follow e expected =>
              walk steps' by_key out_adj c (to_node_key e) (merge_output state expected) (path ++ [to_node_key e])
          end
      end
  end.

Definition step_cap (nodes : list PolicyNode) : nat := Nat.max (length nodes * 2) 1.

Definition run_case (nodes : list PolicyNode) (edges : list PolicyEdge) (c : SimulationCase) : result exn CaseTrace :=
  let by_key := node_by_key nodes in
  let out_adj := build_out_adjacency nodes edges in
  let! start := find_start_node nodes edges in
  walk (step_cap nodes) by_key out_adj c start (inputs c) [start].

Definition run_simulation (nodes : list PolicyNode) (edges : list PolicyEdge) (cases : list SimulationCase)
    : result exn (list CaseTrace) := mapM (run_case nodes edges) cases.

(** [{t.case_id: t for t in traces}] *)
Definition traces_by_id (traces : list CaseTrace) : gmap string CaseTrace :=
  foldl (λ m t, <[tr_case_id t := t]> m) ∅ traces.

Definition compare_case (by_a by_b : gmap string CaseTrace) (c : SimulationCase) : result exn VersionComparison :=
  let! a := dict_at (case_id c) by_a in
  let! b := dict_at (case_id c) by_b in
  Ok {| vc_case_id := case_id c; terminal_a := tr_terminal a; terminal_b := tr_terminal b;
        reason_codes_a := tr_reason_codes a; reason_codes_b := tr_reason_codes b;
        agrees := bool_decide (tr_terminal a = tr_terminal b) && bool_decide (tr_reason_codes a = tr_reason_codes b) |}.

Definition compare_versions (nodes_a : list PolicyNode) (edges_a : list PolicyEdge)
    (nodes_b : list PolicyNode) (edges_b : list PolicyEdge) (cases : list SimulationCase)
    : result exn (list VersionComparison) :=
  let! traces_a := run_simulation nodes_a edges_a cases in
  let! traces_b := run_simulation nodes_b edges_b cases in
  mapM (compare_case (traces_by_id traces_a) (traces_by_id traces_b)) cases.

(** ** The walk as a relation

    [justified] is what entitles the engine to take an edge: it is the only way
    out and carries no condition, or the case brings a human decision for it, or
    every matching test case of the node covers its condition. *)
Inductive justified (n : PolicyNode) (outgoing : list PolicyEdge) (state : env)
    (overrides : gmap string string) : PolicyEdge → json → Prop :=
| by_single e out :
    outgoing = [e] → condition_label e = None → justified n outgoing state overrides e out
| by_human e label :
    node_type n = "human" → overrides !! node_key n = Some label →
    e ∈ outgoing → condition_label e = Some label → justified n outgoing state overrides e JNull
| by_replay e tc :
    e ∈ outgoing → tc ∈ matching_test_cases n state →
    (∃ label, py_eq (dict_get "covers_condition" tc) label = true ∧
       py_eq (opt_json (condition_label e)) label = true ∧
       ∀ tc', tc' ∈ matching_test_cases n state →
         py_eq (dict_get "covers_condition" tc') label = true ∨ dict_get "covers_condition" tc' = label) →
    justified n outgoing state overrides e (dict_get "expected_output" tc).

(** Why the engine stops at a node that has ways out. *)
Inductive stops (n : PolicyNode) (outgoing : list PolicyEdge) (state : env)
    (overrides : gmap string string) : string → Prop :=
| stop_awaiting :
    node_type n = "human" → overrides !! node_key n = None → matching_test_cases n state = [] →
    stops n outgoing state overrides awaiting_human
| stop_no_case :
    node_type n ≠ "human" → matching_test_cases n state = [] →
    stops n outgoing state overrides "no_matching_test_case"
| stop_override label :
    node_type n = "human" → overrides !! node_key n = Some label →
    (∀ e, e ∈ outgoing → condition_label e ≠ Some label) →
    stops n outgoing state overrides "human_override_no_matching_edge"
| stop_ambiguous tc1 tc2 :
    tc1 ∈ matching_test_cases n state → tc2 ∈ matching_test_cases n state →
    py_eq (dict_get "covers_condition" tc2) (dict_get "covers_condition" tc1) = false →
    stops n outgoing state overrides "ambiguous_test_cases"
| stop_unknown_edge tc :
    tc ∈ matching_test_cases n state →
    (∀ e, e ∈ outgoing → py_eq (opt_json (condition_label e)) (dict_get "covers_condition" tc) = false) →
    stops n outgoing state overrides "test_case_covers_unknown_edge".

Lemma distinct_labels_spec matches labels :
  distinct_labels matches = Ok labels →
  (∀ v, v ∈ labels → ∃ tc, tc ∈ matches ∧ v = dict_get "covers_condition" tc) ∧
  (∀ tc, tc ∈ matches → ∃ v, v ∈ labels ∧
    (py_eq (dict_get "covers_condition" tc) v = true ∨ dict_get "covers_condition" tc = v)) ∧
  (∀ a b r, labels = a :: b :: r → py_eq b a = false).
Proof.
  unfold distinct_labels. apply (foldM_inv_prefix (λ dn labels,
    (∀ v, v ∈ labels → ∃ tc, tc ∈ dn ∧ v = dict_get "covers_condition" tc) ∧
    (∀ tc, tc ∈ dn → ∃ v, v ∈ labels ∧
      (py_eq (dict_get "covers_condition" tc) v = true ∨ dict_get "covers_condition" tc = v)) ∧
    (∀ a b r, labels = a :: b :: r → py_eq b a = false))); [|set_solver].
  intros dn tc rest acc acc' _ (H1 & H2 & H3).
  destruct (negb _); [done|]. intros [= <-]. destruct (existsb _ acc) eqn:He.
  - split; [|split; [|done]].
    + intros v Hv. rewrite ex_snoc. left. by apply H1.
    + intros tc' [Htc|Htc]%elem_of_app; [by apply H2|]. apply list_elem_of_singleton in Htc as ->.
      apply existsb_exists in He as (v & Hv%list_elem_of_In & Heq). eauto.
  - split; [|split].
    + intros v [Hv|Hv]%elem_of_app; rewrite ex_snoc; [left; by apply H1|right; set_solver].
    + intros tc' [Htc|Htc]%elem_of_app.
      * destruct (H2 tc' Htc) as (v & Hv & Heq). exists v. rewrite elem_of_app. eauto.
      * apply list_elem_of_singleton in Htc as ->. eexists. rewrite elem_of_app, list_elem_of_singleton. eauto.
    + intros a b r Hab. destruct acc as [|a' [|b' acc]]; simplify_eq/=.
      * by rewrite orb_false_r in He.
      * by eapply H3.
Qed.

Lemma Forall2_impl_in {A B} (P Q : A → B → Prop) l k :
  Forall2 P l k → (∀ a b, a ∈ l → P a b → Q a b) → Forall2 Q l k.
Proof. induction 1; intros HPQ; constructor; [apply HPQ; [by left|done]|]. apply IHForall2. intros; apply HPQ; [by right|done]. Qed.

Lemma select_by_test_cases_spec n outgoing state overrides sel :
  outgoing ≠ [] → select_by_test_cases n outgoing state = Ok sel →
  (node_type n = "human" → overrides !! node_key n = None) →
  match sel with
  | Follow e out => justified n outgoing state overrides e out
  | Stop reason => stops n outgoing state overrides reason
  end.
Proof.
  intros Hout Hsel Hov. unfold select_by_test_cases in Hsel.
  apply rbind_ok in Hsel as (labels & Hl & Hsel).
  destruct (distinct_labels_spec _ _ Hl) as (H1 & H2 & H3).
  destruct labels as [|label [|label2 labels]].
  - injection Hsel as <-.
    assert (matching_test_cases n state = []) as Hnil.
    { apply nil_no_elem. intros tc Htc. destruct (H2 tc Htc) as (v & Hv & _). set_solver. }
    destruct (String.eqb_spec (node_type n) "human"); [by constructor; auto|by constructor].
  - destruct (filter _ outgoing) as [|e es] eqn:He.
    + injection Hsel as <-. destruct (H1 label) as (tc & Htc & ->); [set_solver|].
      apply (stop_unknown_edge _ _ _ _ tc); [done|]. intros e Hin. apply not_true_iff_false. intros Heq.
      assert (e ∈ filter (λ e, py_eq (opt_json (condition_label e)) (dict_get "covers_condition" tc) = true) outgoing)
        by by apply list_elem_of_filter.
      rewrite He in *. set_solver.
    + destruct (filter _ (matching_test_cases _ _)) as [|tc tcs] eqn:Htc; [done|]. injection Hsel as <-.
      assert (e ∈ filter (λ e, py_eq (opt_json (condition_label e)) label = true) outgoing) as Hin
        by (rewrite He; by left).
      assert (tc ∈ filter (λ tc, py_eq (dict_get "covers_condition" tc) label = true)
        (matching_test_cases n state)) as Hin' by (rewrite Htc; by left).
      apply list_elem_of_filter in Hin as [Hce Hin], Hin' as [Hcc Hin'].
      apply by_replay; [done..|]. exists label. split; [done|]. split; [done|].
      intros tc' Htc'. destruct (H2 tc' Htc') as (v & ->%list_elem_of_singleton & Hv). done.
  - injection Hsel as <-. destruct (H1 label) as (tc1 & Htc1 & ->); [set_solver|].
    destruct (H1 label2) as (tc2 & Htc2 & ->); [set_solver|].
    eapply (stop_ambiguous _ _ _ _ tc1 tc2); [done..|]. by eapply H3.
Qed.

Lemma select_next_edge_spec n outgoing state overrides sel :
  outgoing ≠ [] → select_next_edge n outgoing state overrides = Ok sel →
  match sel with
  | Follow e out => justified n outgoing state overrides e out
  | Stop reason => stops n outgoing state overrides reason
  end.
Proof.
  intros Hout Hsel. unfold select_next_edge in Hsel.
  assert ((∃ e, outgoing = [e] ∧ condition_label e = None ∧ sel = Follow e (match matching_test_cases n state with
      | [tc] => dict_get "expected_output" tc | _ => JNull end)) ∨
    match (if String.eqb (node_type n) "human" then overrides !! node_key n else None) with
      | Some chosen =>
          match filter (λ e, condition_label e = Some chosen) outgoing with
          | [] => Ok (Stop "human_override_no_matching_edge")
          | e :: _ => Ok (Follow e JNull)
          end
      | None => select_by_test_cases n outgoing state
      end = Ok sel) as [(e & -> & Hc & ->)|Hsel'].
  { destruct outgoing as [|[v f t [l|]] [|e2 es]]; try done; try by right.
    left. injection Hsel as <-. eauto. }
  { by apply by_single. }
  clear Hsel. destruct (String.eqb_spec (node_type n) "human") as [Hh|Hh].
  2:{ by eapply select_by_test_cases_spec. }
  destruct (overrides !! node_key n) as [chosen|] eqn:Hov.
  2:{ by eapply select_by_test_cases_spec. }
  destruct (filter _ outgoing) as [|e es] eqn:He; injection Hsel' as <-.
  - eapply stop_override; [done..|]. intros e Hin Hc.
    assert (e ∈ filter (λ e, condition_label e = Some chosen) outgoing) as Hx by by apply list_elem_of_filter.
    rewrite He in Hx. set_solver.
  - assert (e ∈ filter (λ e, condition_label e = Some chosen) outgoing) as Hin by (rewrite He; by left).
    apply list_elem_of_filter in Hin as [Hc Hin]. by eapply by_human.
Qed.

(** ** Whole walks *)

Arguments select_next_edge : simpl never.

Section Walks.
Context (nodes : list PolicyNode) (edges : list PolicyEdge) (overrides : gmap string string).

Definition outgoing_of (k : string) : list PolicyEdge := filter (λ e, from_node_key e = k) edges.

(** [sim_steps a s p b t]: from node [a] in state [s] the engine can go through
    the nodes [p], ending at [b] in state [t]. *)
Inductive sim_steps : string → env → list string → string → env → Prop :=
| steps_nil a s : sim_steps a s [] a s
| steps_cons a s n e out p b t :
    node_by_key nodes !! a = Some n → justified n (outgoing_of a) s overrides e out →
    sim_steps (to_node_key e) (merge_output s out) p b t →
    sim_steps a s (to_node_key e :: p) b t.

(** How a walk that took [p] and is at [b] in state [t] is reported, when it may
    take [steps] steps. *)
Inductive reported (steps : nat) (p : list string) (b : string) (t : env) (tr : CaseTrace) : Prop :=
| reported_completed n :
    node_by_key nodes !! b = Some n → outgoing_of b = [] →
    tr_status tr = completed → tr_terminal tr = Some b → tr_reason_codes tr = reason_codes n →
    tr_undetermined tr = None → (length p < steps)%nat → reported steps p b t tr
| reported_stop n reason :
    node_by_key nodes !! b = Some n → outgoing_of b ≠ [] → stops n (outgoing_of b) t overrides reason →
    tr_status tr = (if String.eqb reason awaiting_human then awaiting_human else undetermined) →
    tr_terminal tr = None → tr_reason_codes tr = [] → tr_undetermined tr = Some reason →
    (length p < steps)%nat → reported steps p b t tr
| reported_limit :
    length p = steps → tr_status tr = undetermined → tr_terminal tr = None → tr_reason_codes tr = [] →
    tr_undetermined tr = Some "step_limit_exceeded" → reported steps p b t tr.

Lemma build_out_adjacency_spec k : default [] (build_out_adjacency nodes edges !! k) = outgoing_of k.
Proof.
  unfold build_out_adjacency. rewrite group_by_from, lookup_gset_to_gmap. unfold outgoing_of.
  by destruct (decide (k ∈ node_keys nodes)); simplify_option_eq.
Qed.

Lemma walk_sound steps c cur st path tr :
  human_overrides c = overrides →
  walk steps (node_by_key nodes) (build_out_adjacency nodes edges) c cur st path = Ok tr →
  ∃ p b, sim_steps cur st p b (tr_final_state tr) ∧ tr_path tr = path ++ p ∧
    reported steps p b (tr_final_state tr) tr.
Proof.
  intros Hov. revert cur st path; induction steps as [|steps IH]; intros cur st path; simpl.
  { intros [= <-]. exists [], cur. split; [apply steps_nil|]. rewrite app_nil_r.
    split; [done|]. by apply reported_limit. }
  rewrite rbind_ok. intros (n & Hn & Hw). unfold dict_at in Hn.
  destruct (node_by_key nodes !! cur) as [n'|] eqn:Hk; [|done]. injection Hn as ->.
  rewrite build_out_adjacency_spec in Hw.
  destruct (outgoing_of cur) as [|e0 es0] eqn:Hout.
  { injection Hw as <-. exists [], cur. split; [apply steps_nil|]. rewrite app_nil_r.
    split; [done|]. eapply reported_completed; simpl; try done; lia. }
  rewrite <-Hout in Hw. apply rbind_ok in Hw as (sel & Hsel & Hw).
  rewrite Hov in Hsel. apply select_next_edge_spec in Hsel; [|by rewrite Hout].
  destruct sel as [e out|reason].
  - apply IH in Hw as (p & b & Hs & Hp & Hr). exists (to_node_key e :: p), b.
    split; [by eapply steps_cons|]. split; [by rewrite Hp, <-app_assoc|].
    destruct Hr as [n1 ? ? ? ? ? ? ?|n1 r1 ? ? ? ? ? ? ? ?|].
    + eapply reported_completed; simpl; try done; lia.
    + eapply reported_stop; simpl; try done; lia.
    + eapply reported_limit; simpl; try done; lia.
  - injection Hw as <-. exists [], cur. split; [apply steps_nil|]. rewrite app_nil_r.
    split; [done|]. eapply reported_stop; simpl; try done; [by rewrite Hout|lia].
Qed.

Lemma sim_steps_edges a s p b t x :
  sim_steps a s p b t → x ∈ p → ∃ e, e ∈ edges ∧ to_node_key e = x.
Proof.
  induction 1 as [|a s n e out p b t Hn Hj _ IH]; [set_solver|].
  intros [->|Hx]%elem_of_cons; [|by apply IH]. exists e. split; [|done].
  assert (e ∈ outgoing_of a) as Hin.
  { destruct Hj as [e out -> _|e label _ _ Hin _|e tc Hin _ _]; [by left|done..]. }
  unfold outgoing_of in Hin. by apply list_elem_of_filter in Hin as [_ ?].
Qed.

(** A walk that was cut off visited some node twice. *)
Lemma long_walk_repeats a s p b t :
  sim_steps a s p b t → length p = step_cap nodes → ¬ NoDup (a :: p).
Proof.
  intros Hs Hl Hnd.
  assert (∀ x, x ∈ removelast (a :: p) → x ∈ node_keys nodes) as Hkeys.
  { clear Hl Hnd. induction Hs as [|a s n e out p b t Hn Hj Hs IH]; [set_solver|].
    intros x. change (removelast (a :: to_node_key e :: p)) with (a :: removelast (to_node_key e :: p)).
    intros [->|Hx]%elem_of_cons; [|by apply IH].
    unfold node_keys. rewrite elem_of_list_to_set. unfold node_by_key in Hn.
    revert Hn. assert (∀ l (acc : gmap string PolicyNode), foldl (λ m n, <[node_key n:=n]> m) acc l !! a = Some n →
      acc !! a = Some n ∨ a ∈ map node_key l) as Hgen.
    { induction l as [|n' l IHl]; intros acc; simpl; [by left|]. intros Hf.
      destruct (IHl _ Hf) as [Ha|Ha]; [|right; by right].
      destruct (decide (a = node_key n')) as [->|]; [right; by left|].
      rewrite lookup_insert_ne in Ha by done. by left. }
    intros Hn. by destruct (Hgen nodes ∅ Hn) as [Ha|Ha]. }
  assert (length (removelast (a :: p)) <= length nodes)%nat as Hle.
  { assert (NoDup (removelast (a :: p))) as Hnd'.
    { destruct (rev_case (a :: p)) as [?|(x & l & Hx)]; [done|]. rewrite Hx, List.removelast_last.
      rewrite Hx in Hnd. by apply NoDup_app in Hnd as (? & _). }
    rewrite <-(size_list_to_set (C := gset string)) by done.
    assert (size (node_keys nodes) <= length nodes)%nat as Hsz.
    { unfold node_keys. rewrite <-(length_map node_key nodes). apply size_list_to_set_le. }
    etrans; [|exact Hsz]. apply subseteq_size. intros x Hx%elem_of_list_to_set. by apply Hkeys. }
  rewrite length_removelast in Hle. simpl in Hle.
  unfold step_cap in Hl. lia.
Qed.
End Walks.

(** C2: Every result of the engine is explained by the policy graph: its path is
    a walk from the only start node whose every step was entitled by a single
    unconditional edge, a human decision of the case, or the node's matching
    test cases; a completed case ended at a node with no way out, whose reason
    codes it reports; an interrupted case names a reason that holds where it
    stopped; and a case cut off by the step limit has visited some node twice. *)
Theorem run_case_explained nodes edges c tr :
  run_case nodes edges c = Ok tr →
  ∃ start p b, find_start_node nodes edges = Ok start ∧ tr_path tr = start :: p ∧
    sim_steps nodes edges (human_overrides c) start (inputs c) p b (tr_final_state tr) ∧
    reported nodes edges (human_overrides c) (step_cap nodes) p b (tr_final_state tr) tr ∧
    (tr_undetermined tr = Some "step_limit_exceeded" → ¬ NoDup (tr_path tr)).
Proof.
  unfold run_case. rewrite rbind_ok. intros (start & Hst & Hw).
  destruct (walk_sound nodes edges _ _ _ _ _ _ _ eq_refl Hw) as (p & b & Hs & Hp & Hr).
  exists start, p, b. split; [done|]. split; [done|]. split; [done|]. split; [done|].
  intros Hlim. rewrite Hp. simpl. eapply long_walk_repeats; [exact Hs|].
  destruct Hr as [? ? ? ? ? ? Hn|? reason ? ? Hstop ? ? ? Hn|]; [congruence| |done].
  exfalso. rewrite Hlim in Hn. injection Hn as <-. inversion Hstop.
Qed.

(** ** No exception on clean content *)

(** Labels that can be put in a set and that equal themselves: no list, no
    dict, no NaN. *)
Definition clean_labels (n : PolicyNode) : Prop :=
  Forall (λ tc, hashable (dict_get "covers_condition" tc) = true ∧
    py_eq (dict_get "covers_condition" tc) (dict_get "covers_condition" tc) = true) (omap as_dict (test_cases n)).

Lemma distinct_labels_ok n state :
  clean_labels n → ∃ labels, distinct_labels (matching_test_cases n state) = Ok labels.
Proof.
  intros Hc. unfold distinct_labels.
  match goal with |- context [foldM ?f ?s ?l] =>
    destruct (foldM_total (λ _ _, True) f l s) as (ls & Hls & _) end; [|done|by exists ls].
  intros dn tc rest acc Hl _.
  assert (tc ∈ matching_test_cases n state) as Htc by (rewrite Hl; set_solver).
  unfold matching_test_cases in Htc. apply list_elem_of_filter in Htc as [_ Htc].
  unfold clean_labels in Hc. rewrite Forall_forall in Hc. destruct (Hc tc Htc) as [-> _]. simpl. eauto.
Qed.

Lemma select_next_edge_ok n outgoing state overrides :
  clean_labels n → ∃ sel, select_next_edge n outgoing state overrides = Ok sel.
Proof.
  intros Hc. assert (∃ sel, select_by_test_cases n outgoing state = Ok sel) as [sel Hsel].
  { unfold select_by_test_cases. destruct (distinct_labels_ok n state Hc) as [labels Hl]. rewrite Hl. simpl.
    destruct labels as [|label [|]]; eauto. destruct (filter _ outgoing); eauto.
    destruct (distinct_labels_spec _ _ Hl) as (H1 & _). destruct (H1 label) as (tc & Htc & ->); [by left|].
    destruct (filter _ (matching_test_cases _ _)) eqn:Hf; eauto. exfalso.
    assert (tc ∈ filter (λ tc', py_eq (dict_get "covers_condition" tc') (dict_get "covers_condition" tc) = true)
      (matching_test_cases n state)) as Hin.
    { apply list_elem_of_filter. split; [|done]. unfold matching_test_cases in Htc.
      apply list_elem_of_filter in Htc as [_ Htc]. unfold clean_labels in Hc. rewrite Forall_forall in Hc. by apply Hc. }
    rewrite Hf in Hin. set_solver. }
  unfold select_next_edge.
  destruct outgoing as [|[v f t [l|]] [|e2 es]]; eauto;
    (destruct (String.eqb _ _); [destruct (overrides !! node_key n) as [chosen|]; eauto;
      destruct (filter _ _); eauto|eauto]).
Qed.

Lemma find_start_node_in nodes edges start :
  find_start_node nodes edges = Ok start → start ∈ node_keys nodes.
Proof.
  unfold find_start_node. intros Hf.
  assert (start ∈ elements (dom (filter (λ kc, kc.2 = 0%Z) (incoming_counts nodes edges)))) as Hin.
  { destruct (elements _) as [|k [|]]; [done| |done]. injection Hf as ->. by left. }
  apply elem_of_elements in Hin. apply elem_of_dom in Hin as [n Hn].
  apply map_lookup_filter_Some in Hn as [Hn _].
  assert (∀ k (m : gmap string Z), dom (count_in k m) = dom m) as Hdom.
  { intros k m. unfold count_in. destruct (m !! k) eqn:Hk; [|done]. apply dom_insert_lookup_L; eauto. }
  assert (dom (incoming_counts nodes edges) = node_keys nodes) as <-; [|by eapply elem_of_dom_2].
  unfold incoming_counts. set (zero := gset_to_gmap 0%Z (node_keys nodes)).
  assert (∀ l m, dom (foldl (λ m n, match fallback_node_key n with Some fb => count_in fb m | None => m end) m l)
    = dom (m : gmap string Z)) as H1.
  { induction l as [|n' l IH]; intros m; simpl; [done|]. rewrite IH. destruct (fallback_node_key n'); [apply Hdom|done]. }
  assert (∀ l m, dom (foldl (λ m e, count_in (to_node_key e) m) m l) = dom (m : gmap string Z)) as H2.
  { induction l as [|e l IH]; intros m; simpl; [done|]. by rewrite IH, Hdom. }
  rewrite H1, H2. apply dom_gset_to_gmap.
Qed.

(** C28: On content with exactly one start node, whose edges lead to existing nodes
    and whose test cases carry usable labels, the engine returns a trace for every
    case: no such graph, cyclic or not, makes it raise or run on. *)
Theorem run_case_returns nodes edges c start :
  find_start_node nodes edges = Ok start →
  (∀ e, e ∈ edges → to_node_key e ∈ node_keys nodes) →
  (∀ n, n ∈ nodes → clean_labels n) →
  ∃ tr, run_case nodes edges c = Ok tr.
Proof.
  intros Hst Hto Hcl. unfold run_case. rewrite Hst. simpl. apply find_start_node_in in Hst.
  assert (∀ k, k ∈ node_keys nodes → ∃ n, node_by_key nodes !! k = Some n ∧ n ∈ nodes) as Hby.
  { intros k Hk. unfold node_keys in Hk. rewrite elem_of_list_to_set in Hk. unfold node_by_key.
    assert (∀ l (acc : gmap string PolicyNode), (∃ n, acc !! k = Some n ∧ n ∈ nodes) ∨ k ∈ map node_key l →
      (∀ n, n ∈ l → n ∈ nodes) →
      ∃ n, foldl (λ m n, <[node_key n:=n]> m) acc l !! k = Some n ∧ n ∈ nodes) as Hgen; [|apply Hgen; auto].
    induction l as [|n l IH]; intros acc Hor Hl; simpl; [destruct Hor; [done|set_solver]|].
    apply IH; [|set_solver]. destruct (decide (k = node_key n)) as [->|Hne].
    - left. exists n. rewrite lookup_insert_eq. set_solver.
    - rewrite lookup_insert_ne by done. set_solver. }
  generalize (step_cap nodes) (inputs c) [start]. intros steps.
  revert start Hst. induction steps as [|steps IH]; intros cur Hcur st path; simpl; [eauto|].
  destruct (Hby cur Hcur) as (n & Hn & Hin). unfold dict_at. rewrite Hn. simpl.
  rewrite build_out_adjacency_spec. destruct (outgoing_of edges cur) as [|e0 es] eqn:Hout; [eauto|].
  rewrite <-Hout. destruct (select_next_edge_ok n (outgoing_of edges cur) st (human_overrides c) (Hcl n Hin))
    as [sel Hsel]. rewrite Hsel. simpl. destruct sel as [e out|]; [|eauto].
  apply IH, Hto. apply select_next_edge_spec in Hsel; [|by rewrite Hout].
  assert (e ∈ outgoing_of edges cur) as Hine.
  { destruct Hsel as [e out -> _|e label _ _ Hine _|e tc Hine _ _]; [by left|done..]. }
  unfold outgoing_of in Hine. by apply list_elem_of_filter in Hine as [_ ?].
Qed.

(** ** Comparing two versions *)

Lemma walk_case_id steps by_key adj c cur st path tr :
  walk steps by_key adj c cur st path = Ok tr → tr_case_id tr = case_id c.
Proof.
  revert cur st path; induction steps as [|steps IH]; intros cur st path; simpl; [by intros [= <-]|].
  rewrite rbind_ok. intros (n & _ & Hw). destruct (default [] _) as [|e0 es]; [by injection Hw as <-|].
  apply rbind_ok in Hw as ([e out|reason] & _ & Hw); [by eapply IH|by injection Hw as <-].
Qed.

Lemma run_case_id nodes edges c tr : run_case nodes edges c = Ok tr → tr_case_id tr = case_id c.
Proof. unfold run_case. rewrite rbind_ok. intros (start & _ & Hw). by eapply walk_case_id. Qed.

Lemma traces_by_id_spec nodes edges cases traces c :
  run_simulation nodes edges cases = Ok traces → NoDup (map case_id cases) → c ∈ cases →
  ∃ tr, run_case nodes edges c = Ok tr ∧ traces_by_id traces !! case_id c = Some tr.
Proof.
  unfold run_simulation. rewrite mapM_Forall2. unfold traces_by_id. intros Hf Hnd Hc.
  assert (∀ (acc : gmap string CaseTrace), ∃ tr, run_case nodes edges c = Ok tr ∧
    foldl (λ m t, <[tr_case_id t := t]> m) acc traces !! case_id c = Some tr) as Hgen; [|apply Hgen].
  induction Hf as [|c0 t0 cases traces H0 Hf IH]; [set_solver|]. simpl in *.
  apply NoDup_cons in Hnd as [Hn Hnd]. intros acc. apply elem_of_cons in Hc as [->|Hc]; [|by apply IH].
  exists t0. split; [done|]. pose proof (run_case_id _ _ _ _ H0) as Hid.
  assert (∀ l (acc : gmap string CaseTrace), case_id c0 ∉ map tr_case_id l →
    foldl (λ m t, <[tr_case_id t:=t]> m) acc l !! case_id c0 = acc !! case_id c0) as Hskip.
  { induction l as [|t l IHl]; intros acc' Hni; simpl; [done|]. simpl in Hni.
    rewrite IHl by set_solver. apply lookup_insert_ne. set_solver. }
  rewrite Hskip; [rewrite <-Hid; apply lookup_insert_eq|].
  assert (map tr_case_id traces = map case_id cases) as ->; [|done].
  clear -Hf. induction Hf as [|c t cases traces H0 _ IH]; simpl; [done|].
  by rewrite (run_case_id _ _ _ _ H0), IH.
Qed.

(** A comparison of two versions on cases with distinct ids reports, case by
    case and in order, the terminals and reason codes the two replays of that
    case reach, and says they agree exactly when both are equal. *)
Theorem compare_versions_spec nodes_a edges_a nodes_b edges_b cases cs :
  NoDup (map case_id cases) →
  compare_versions nodes_a edges_a nodes_b edges_b cases = Ok cs →
  Forall2 (λ c v, ∃ ta tb, run_case nodes_a edges_a c = Ok ta ∧ run_case nodes_b edges_b c = Ok tb ∧
    vc_case_id v = case_id c ∧ terminal_a v = tr_terminal ta ∧ terminal_b v = tr_terminal tb ∧
    reason_codes_a v = tr_reason_codes ta ∧ reason_codes_b v = tr_reason_codes tb ∧
    (agrees v = true ↔ tr_terminal ta = tr_terminal tb ∧ tr_reason_codes ta = tr_reason_codes tb)) cases cs.
Proof.
  intros Hnd. unfold compare_versions. rewrite rbind_ok. intros (ta & Hta & Hc).
  apply rbind_ok in Hc as (tb & Htb & Hc). apply mapM_Forall2 in Hc.
  eapply Forall2_impl_in; [exact Hc|]. intros c v Hin Hv.
  destruct (traces_by_id_spec _ _ _ _ c Hta Hnd Hin) as (a & Ha & Hla).
  destruct (traces_by_id_spec _ _ _ _ c Htb Hnd Hin) as (b & Hb & Hlb).
  unfold compare_case, dict_at in Hv. rewrite Hla, Hlb in Hv. injection Hv as <-.
  exists a, b. simpl. repeat (split; [done|]). by rewrite andb_true_iff, !bool_decide_eq_true.
Qed.

(** ** Sample content *)

Definition triage_nodes : list PolicyNode :=
  [plain_node "intake" "rule" None
     [JObj [("input", JObj [("size", JInt 1)]); ("covers_condition", JStr "small");
            ("expected_output", JObj [("route", JStr "fast")])];
      JObj [("input", JObj [("size", JInt 2)]); ("covers_condition", JStr "large")]];
   plain_node "review" "human" None []; plain_node "archive" "gate" None []].
Definition triage_edges : list PolicyEdge :=
  [plain_edge "intake" "archive" (Some "small"); plain_edge "intake" "review" (Some "large");
   plain_edge "review" "archive" (Some "accept")].
Definition triage_case (id : string) (size : Z) : SimulationCase :=
  {| case_id := id; inputs := {["size" := JInt size]}; human_overrides := ∅; monetary_amount := None;
     monetary_currency := None; actual_outcome_label := None |}.

Lemma run_case_explained_witness :
  ∃ tr start p b, run_case triage_nodes triage_edges (triage_case "c1" 1) = Ok tr ∧
    tr_status tr = completed ∧ find_start_node triage_nodes triage_edges = Ok start ∧
    tr_path tr = start :: p ∧
    sim_steps triage_nodes triage_edges ∅ start (inputs (triage_case "c1" 1)) p b (tr_final_state tr).
Proof.
  destruct (run_case triage_nodes triage_edges (triage_case "c1" 1)) as [tr|e] eqn:Hrun;
    [|exfalso; vm_compute in Hrun; discriminate].
  destruct (run_case_explained _ _ _ _ Hrun) as (start & p & b & Hst & Hp & Hs & _).
  exists tr, start, p, b. split; [reflexivity|].
  split; [vm_compute in Hrun; injection Hrun as <-; reflexivity|]. auto.
Defined.

Lemma run_case_returns_witness :
  ∃ tr, run_case triage_nodes triage_edges (triage_case "c2" 2) = Ok tr.
Proof.
  apply (run_case_returns _ _ _ "intake"); [vm_compute; reflexivity| |].
  - apply Forall_forall. refine (bool_decide_eq_true_1 _ _). vm_compute. reflexivity.
  - intros n Hn. unfold clean_labels. revert n Hn. apply Forall_forall.
    refine (bool_decide_eq_true_1 _ _). vm_compute. reflexivity.
Defined.

Lemma compare_versions_spec_witness :
  ∃ cs, compare_versions triage_nodes triage_edges triage_nodes (take 2 triage_edges)
      [triage_case "c1" 1; triage_case "c2" 2] = Ok cs ∧ length cs = 2%nat ∧ map agrees cs = [true; false].
Proof.
  destruct (compare_versions triage_nodes triage_edges triage_nodes (take 2 triage_edges)
    [triage_case "c1" 1; triage_case "c2" 2]) as [cs|e] eqn:Hrun; [|exfalso; vm_compute in Hrun; discriminate].
  exists cs. split; [reflexivity|].
  assert (NoDup (map case_id [triage_case "c1" 1; triage_case "c2" 2])) as Hnd
    by (refine (bool_decide_eq_true_1 _ _); vm_compute; reflexivity).
  pose proof (compare_versions_spec _ _ _ _ _ _ Hnd Hrun) as Hspec.
  split; [symmetry; exact (Forall2_length _ _ _ Hspec)|].
  vm_compute in Hrun. injection Hrun as <-. reflexivity.
Defined.

(** A clean result of [validate_graph] does not give the engine the single
    start node it asks for: a graph with two entries is accepted and every case
    on it raises. *)
Lemma validated_graph_without_single_start c :
  let nodes := [plain_node "a" "gate" None []; plain_node "b" "gate" None []; plain_node "end" "gate" None []] in
  let edges := [plain_edge "a" "end" None; plain_edge "b" "end" None] in
  validate_graph (H := ascii_text) nodes edges = Ok [] ∧
  run_case nodes edges c = Err (ValueError
    "simulation requires exactly one start node (found 2); run policy_validator.validate_graph first").
Proof. split; vm_compute; reflexivity. Qed.
End Engine.
