(* ===== verification/SimulationStore.v ===== *)
(** * Persistence of simulation runs

    [packages/algorithm/simulation_store.py] on the table of [migrations/0020]:
    the per-run counts, distributions and monetary ranges, and the two kinds of
    run. [str] of a JSON value, which only the unused [subgroup_by] needs, is an
    argument. *)

From stdpp Require Import base gmap strings list.
From Stdlib Require Import ZArith Lia.
From S2P Require Import Prelude Json Lifecycle Decimal PolicyGraph Simulation.
Import Engine.

Module SimStore.

Definition opt_str (o : option string) : json := match o with Some s => JStr s | None => JNull end.
Definition strs (l : list string) : json := JArr (map JStr l).
Definition env_json (e : env) : json := JObj (map_to_list e).

Definition trace_to_dict (t : CaseTrace) : json :=
  JObj [("kind", JStr "trace"); ("case_id", JStr (tr_case_id t)); ("status", JStr (tr_status t));
        ("path", strs (tr_path t)); ("terminal_node_key", opt_str (tr_terminal t));
        ("reason_codes", strs (tr_reason_codes t)); ("undetermined_reason", opt_str (tr_undetermined t));
        ("final_state", env_json (tr_final_state t));
        ("monetary_amount", opt_str (dec_str <$> tr_amount t));
        ("monetary_currency", opt_str (tr_currency t)); ("actual_outcome_label", opt_str (tr_outcome t))].

Definition comparison_to_dict (c : VersionComparison) : json :=
  JObj [("kind", JStr "comparison"); ("case_id", JStr (vc_case_id c)); ("terminal_a", opt_str (terminal_a c));
        ("terminal_b", opt_str (terminal_b c)); ("reason_codes_a", strs (reason_codes_a c));
        ("reason_codes_b", strs (reason_codes_b c)); ("agrees", JBool (agrees c))].

(** [collections.Counter]: keys in the order of their first occurrence. *)
Fixpoint counter_add (k : string) (l : list (string * Z)) : list (string * Z) :=
  match l with
  | [] => [(k, 1%Z)]
  | (k', n) :: l' => if String.eqb k k' then (k', (n + 1)%Z) :: l' else (k', n) :: counter_add k l'
  end.
Definition counter (ks : list string) : list (string * Z) := foldl (λ l k, counter_add k l) [] ks.
Definition counts_json (l : list (string * Z)) : json := JObj (map (λ kn, (kn.1, JInt kn.2)) l).

Definition terminal_distribution (traces : list CaseTrace) : list (string * Z) := counter (omap tr_terminal traces).
Definition reason_code_distribution (traces : list CaseTrace) : list (string * Z) :=
  counter (traces ≫= tr_reason_codes).

(** [t.terminal_node_key or "__no_terminal__"]: the empty key is falsy. *)
Definition or_default (o : option string) (d : string) : string :=
  match o with Some s => if String.eqb s "" then d else s | None => d end.

(** [groups.setdefault(key, []).append(amount)] *)
Fixpoint group_add {K A} (eqb : K → K → bool) (k : K) (a : A) (l : list (K * list A)) : list (K * list A) :=
  match l with
  | [] => [(k, [a])]
  | (k', x) :: l' => if eqb k k' then (k', x ++ [a]) :: l' else (k', x) :: group_add eqb k a l'
  end.
Definition pair_eqb (a b : string * string) : bool := String.eqb a.1 b.1 && String.eqb a.2 b.2.

Definition monetary_step (st : list ((string * string) * list decimal) * Z) (t : CaseTrace)
    : list ((string * string) * list decimal) * Z :=
  match tr_amount t, tr_currency t with
  | None, _ => st
  | Some _, None => (st.1, (st.2 + 1)%Z)
  | Some a, Some cur => (group_add pair_eqb (or_default (tr_terminal t) "__no_terminal__", cur) a st.1, st.2)
  end.
Definition monetary_groups (traces : list CaseTrace) : list ((string * string) * list decimal) * Z :=
  foldl monetary_step ([], 0%Z) traces.

(** [d[k] = v] on an association list in insertion order *)
Fixpoint assoc_set {A} (k : string) (v : A) (l : list (string * A)) : list (string * A) :=
  match l with
  | [] => [(k, v)]
  | (k', w) :: l' => if String.eqb k k' then (k', v) :: l' else (k', w) :: assoc_set k v l'
  end.

Definition range_of (amounts : list decimal) : result exn json :=
  let! lo := dec_min amounts in
  let! hi := dec_max amounts in
  let! med := dec_median amounts in
  Ok (JObj [("min", JStr (dec_str lo)); ("max", JStr (dec_str hi)); ("median", JStr (dec_str med));
            ("count", JInt (Z.of_nat (length amounts)))]).

Definition monetary_range (traces : list CaseTrace) : result exn (option (list (string * json)) * Z) :=
  let '(groups, uncurrencied) := monetary_groups traces in
  match groups with
  | [] => Ok (None, uncurrencied)
  | _ =>
      let! res := foldM (λ acc g,
        let! r := range_of g.2 in Ok (assoc_set (g.1.1 +:+ "::" +:+ g.1.2) r acc)) [] groups in
      Ok (Some res, uncurrencied)
  end.

Definition subgroup_distribution (py_str : json → string) (traces : list CaseTrace)
    (cases_by_id : gmap string SimulationCase) (subgroup_by : string) : list (string * list (string * Z)) :=
  let key t := match cases_by_id !! tr_case_id t with
               | Some c => py_str (default JNull (inputs c !! subgroup_by))
               | None => "__unknown_case__"
               end in
  map (λ g, (g.1, counter g.2))
    (foldl (λ l t, group_add String.eqb (key t) (or_default (tr_terminal t) "__none__") l) [] traces).

Record run_row := {
  rr_policy_version_id : Z;
  rr_compared_against : option Z;
  rr_case_set_label : string;
  rr_case_source : string;
  rr_case_count : Z;
  rr_completed : Z;
  rr_awaiting : Z;
  rr_undetermined : Z;
  rr_terminal_distribution : json;
  rr_reason_code_distribution : json;
  rr_subgroup : option json;
  rr_monetary_range : option json;
  rr_uncurrencied : Z;
  rr_case_traces : json;
  rr_run_by : string;
  rr_run_at : Z;
  rr_notes : option string;
}.

Definition count_status (s : string) (traces : list CaseTrace) : Z :=
  Z.of_nat (length (filter (λ t, tr_status t = s) traces)).

Definition case_sources : list string := ["synthetic_vendor"; "frozen_real_tender"; "historical_outcome"; "mixed"].

(** The table's CHECK and foreign keys; [known] says which versions exist. *)
Definition insert_run (known : Z → bool) (r : run_row) (t : table run_row) : result exn (Z * table run_row) :=
  raise_if negb (known (rr_policy_version_id r))
    with IntegrityError "algorithm_simulation_runs_policy_version_id_fkey" ;;
  raise_if match rr_compared_against r with Some v => negb (known v) | None => false end
    with IntegrityError "algorithm_simulation_runs_compared_against_version_id_fkey" ;;
  raise_if bool_decide (rr_case_source r ∉ case_sources)
    with IntegrityError "algorithm_simulation_runs_case_source_check" ;;
  Ok (tbl_insert t r).

Definition record_simulation_run (py_str : json → string) (known : Z → bool) (now version_id : Z)
    (label source : string) (traces : list CaseTrace) (run_by : string) (cases : option (list SimulationCase))
    (subgroup_by : option string) (notes : option string) (t : table run_row) : result exn (Z * table run_row) :=
  let subgroup := match subgroup_by, cases with
    | Some by_, Some cs =>
        Some (JObj (map (λ g, (g.1, counts_json g.2))
          (subgroup_distribution py_str traces (foldl (λ m c, <[case_id c := c]> m) ∅ cs) by_)))
    | _, _ => None
    end in
  let! ' (range, uncurrencied) := monetary_range traces in
  insert_run known {|
    rr_policy_version_id := version_id; rr_compared_against := None; rr_case_set_label := label;
    rr_case_source := source; rr_case_count := Z.of_nat (length traces);
    rr_completed := count_status completed traces; rr_awaiting := count_status awaiting_human traces;
    rr_undetermined := count_status undetermined traces;
    rr_terminal_distribution := counts_json (terminal_distribution traces);
    rr_reason_code_distribution := counts_json (reason_code_distribution traces);
    rr_subgroup := subgroup; rr_monetary_range := JObj <$> range; rr_uncurrencied := uncurrencied;
    rr_case_traces := JArr (map trace_to_dict traces); rr_run_by := run_by; rr_run_at := now; rr_notes := notes |} t.

Definition record_comparison_run (known : Z → bool) (now version_id against : Z) (label : string)
    (comparisons : list VersionComparison) (run_by : string) (notes : option string) (t : table run_row)
    : result exn (Z * table run_row) :=
  let agree := Z.of_nat (length (filter (λ c, agrees c = true) comparisons)) in
  let total := Z.of_nat (length comparisons) in
  insert_run known {|
    rr_policy_version_id := version_id; rr_compared_against := Some against; rr_case_set_label := label;
    rr_case_source := "mixed"; rr_case_count := total; rr_completed := 0; rr_awaiting := 0; rr_undetermined := 0;
    rr_terminal_distribution := counts_json [("agree", agree); ("disagree", (total - agree)%Z)];
    rr_reason_code_distribution := JObj []; rr_subgroup := None; rr_monetary_range := None; rr_uncurrencied := 0;
    rr_case_traces := JArr (map comparison_to_dict comparisons); rr_run_by := run_by; rr_run_at := now;
    rr_notes := notes |} t.

Definition get_simulation_run (run_id : Z) (t : table run_row) : option run_row := tbl_get t run_id.

(** [ORDER BY run_at] *)
Fixpoint insert_by_run_at (r : Z * run_row) (l : list (Z * run_row)) : list (Z * run_row) :=
  match l with
  | [] => [r]
  | r' :: l' => if (rr_run_at r.2 <=? rr_run_at r'.2)%Z then r :: l else r' :: insert_by_run_at r l'
  end.
Definition list_simulation_runs_by_version (version_id : Z) (t : table run_row) : list (Z * run_row) :=
  foldr insert_by_run_at [] (tbl_select (λ _ r, bool_decide (rr_policy_version_id r = version_id)) t).

Definition list_case_traces (run_id : Z) (t : table run_row) : list json :=
  match get_simulation_run run_id t with
  | Some r => match rr_case_traces r with JArr l => l | _ => [] end
  | None => []
  end.

(** ** Counting *)

Definition total (l : list (string * Z)) : Z := foldr (λ kn s, (kn.2 + s)%Z) 0%Z l.

Lemma total_counter_add k l : total (counter_add k l) = (total l + 1)%Z.
Proof.
  induction l as [|[k' n] l IH]; simpl; [done|].
  destruct (String.eqb k k'); simpl; unfold total in *; simpl in *; [lia|rewrite IH; lia].
Qed.

Lemma total_counter ks : total (counter ks) = Z.of_nat (length ks).
Proof.
  unfold counter. enough (∀ l, total (foldl (λ l k, counter_add k l) l ks) = (total l + Z.of_nat (length ks))%Z) as Hg
    by (rewrite Hg; done).
  induction ks as [|k ks IH]; intros l; simpl; [lia|]. rewrite IH, total_counter_add. lia.
Qed.

Lemma run_case_statuses nodes edges c tr :
  run_case nodes edges c = Ok tr →
  (tr_status tr = completed ∧ is_Some (tr_terminal tr)) ∨
  (tr_status tr = awaiting_human ∧ tr_terminal tr = None) ∨
  (tr_status tr = undetermined ∧ tr_terminal tr = None).
Proof.
  unfold run_case. rewrite rbind_ok. intros (start & _ & Hw).
  destruct (walk_sound nodes edges _ _ _ _ _ _ _ eq_refl Hw) as (p & b & _ & _ & Hr).
  destruct Hr as [n _ _ Hs Ht _ _ _|n reason _ _ _ Hs Ht _ _ _|_ Hs Ht _ _].
  - left. rewrite Ht. eauto.
  - right. rewrite Hs. destruct (String.eqb _ _); auto.
  - right; right; auto.
Qed.

(** The terminal of every trace is set exactly when the case completed. *)
Lemma traces_partition traces :
  Forall (λ tr, (tr_status tr = completed ∧ is_Some (tr_terminal tr)) ∨
    (tr_status tr = awaiting_human ∧ tr_terminal tr = None) ∨
    (tr_status tr = undetermined ∧ tr_terminal tr = None)) traces →
  (count_status completed traces + count_status awaiting_human traces + count_status undetermined traces =
    Z.of_nat (length traces))%Z ∧
  Z.of_nat (length (omap tr_terminal traces)) = count_status completed traces.
Proof.
  unfold count_status. induction 1 as [|t traces Ht _ [IH1 IH2]]; [done|].
  rewrite !filter_cons. cbn [length omap list_omap].
  destruct Ht as [[Hs [x Hx]]|[[Hs Hx]|[Hs Hx]]]; rewrite Hx;
    repeat case_decide; try (rewrite Hs in *; discriminate); try contradiction; simpl; split; lia.
Qed.

(** The row of a simulation run accounts for every case: its completed,
    awaiting and undetermined counts add up to the number of cases replayed, and
    its terminal distribution adds up to the completed ones. *)
Theorem run_counts_add_up py_str known now v label source run_by cases subs by_ notes nodes edges traces i t t' :
  run_simulation nodes edges cases = Ok traces →
  record_simulation_run py_str known now v label source traces run_by subs by_ notes t = Ok (i, t') →
  ∃ r, rows t' = rows t ++ [(i, r)] ∧ rr_case_count r = Z.of_nat (length cases) ∧
    (rr_completed r + rr_awaiting r + rr_undetermined r = rr_case_count r)%Z ∧
    rr_terminal_distribution r = counts_json (terminal_distribution traces) ∧
    total (terminal_distribution traces) = rr_completed r.
Proof.
  intros Hrun Hrec. unfold run_simulation in Hrun. apply mapM_Forall2 in Hrun.
  assert (length cases = length traces) as Hlen by by eapply Forall2_length.
  assert (Forall (λ tr, (tr_status tr = completed ∧ is_Some (tr_terminal tr)) ∨
    (tr_status tr = awaiting_human ∧ tr_terminal tr = None) ∨
    (tr_status tr = undetermined ∧ tr_terminal tr = None)) traces) as Hall.
  { clear Hrec Hlen. induction Hrun as [|c tr cs trs Hc _ IH]; constructor; [by eapply run_case_statuses|done]. }
  destruct (traces_partition _ Hall) as [Hsum Hterm].
  unfold record_simulation_run in Hrec. apply rbind_ok in Hrec as ([range unc] & _ & Hrec).
  unfold insert_run in Hrec. repeat match type of Hrec with (if ?b then _ else _) = _ => destruct b; [done|] end.
  injection Hrec as <- <-. eexists. split; [done|]. simpl. rewrite Hlen.
  split; [done|]. split; [done|]. split; [done|]. unfold terminal_distribution. by rewrite total_counter.
Qed.

(** ** Monetary groups *)

Lemma pair_eqb_spec a b : pair_eqb a b = true ↔ a = b.
Proof.
  unfold pair_eqb. rewrite andb_true_iff, !String.eqb_eq. destruct a, b; simpl. naive_solver.
Qed.

Lemma group_add_keys {A} k (a : A) l :
  (group_add pair_eqb k a l).*1 = if decide (k ∈ l.*1) then l.*1 else l.*1 ++ [k].
Proof.
  induction l as [|[k' x] l IH]; csimpl; [done|].
  destruct (pair_eqb k k') eqn:Hk; csimpl.
  - apply pair_eqb_spec in Hk as ->. rewrite decide_True; [done|by left].
  - rewrite IH. assert (k ≠ k') by (intros Hkk; apply pair_eqb_spec in Hkk; congruence).
    destruct (decide (k ∈ l.*1)) as [Hin|Hin]; [rewrite decide_True by by right|rewrite decide_False by set_solver]; done.
Qed.

(** The amounts of the traces that end at one terminal in one currency. *)
Definition amounts_of (key : string * string) (traces : list CaseTrace) : list decimal :=
  omap (λ t, match tr_amount t, tr_currency t with
    | Some a, Some cur => if pair_eqb key (or_default (tr_terminal t) "__no_terminal__", cur) then Some a else None
    | _, _ => None end) traces.

Definition group_lookup {A} (key : string * string) (l : list ((string * string) * list A)) : list A :=
  match List.find (λ g, pair_eqb key g.1) l with Some g => g.2 | None => [] end.

Lemma group_lookup_add {A} key k (a : A) l :
  group_lookup key (group_add pair_eqb k a l) = group_lookup key l ++ (if pair_eqb key k then [a] else []).
Proof.
  unfold group_lookup. induction l as [|[k' x] l IH]; simpl; [by destruct (pair_eqb key k)|].
  destruct (pair_eqb k k') eqn:Hkk; simpl.
  - apply pair_eqb_spec in Hkk as ->. destruct (pair_eqb key k') eqn:Hk; simpl; [done|by rewrite app_nil_r].
  - destruct (pair_eqb key k') eqn:Hk; simpl; [|done].
    destruct (pair_eqb key k) eqn:Hk2; [|by rewrite app_nil_r].
    apply pair_eqb_spec in Hk, Hk2. assert (pair_eqb k k' = true) by (apply pair_eqb_spec; congruence). congruence.
Qed.

(** The monetary ranges are taken per terminal and currency: each group holds
    exactly the amounts of the traces with that terminal and that currency, in
    order; no currency is mixed with another, no group is listed twice, and the
    amounts without a currency are counted apart and in no group. *)
Theorem monetary_groups_separate traces :
  NoDup (monetary_groups traces).1.*1 ∧
  (∀ key, group_lookup key (monetary_groups traces).1 = amounts_of key traces) ∧
  (monetary_groups traces).2 =
    Z.of_nat (length (filter (λ t, is_Some (tr_amount t) ∧ tr_currency t = None) traces)).
Proof.
  unfold monetary_groups. induction traces as [|t traces IH] using rev_ind; [repeat split; constructor|].
  rewrite foldl_app. simpl. destruct (foldl monetary_step ([], 0%Z) traces) as [groups unc] eqn:Hf.
  simpl in IH. destruct IH as (Hnd & Hl & Hu).
  unfold monetary_step. unfold amounts_of. setoid_rewrite omap_app. fold (amounts_of).
  rewrite filter_app, length_app, filter_cons, filter_nil. simpl.
  destruct (tr_amount t) as [a|], (tr_currency t) as [cur|]; simpl.
  - split; [|split].
    + rewrite group_add_keys. case_decide; [done|]. apply NoDup_app. split; [done|]. set_solver by apply NoDup_singleton.
    + intros key. rewrite group_lookup_add, Hl. by destruct (pair_eqb key _).
    + simpl. lia.
  - split; [done|]. split; [intros key; by rewrite Hl, app_nil_r|].
    simpl. lia.
  - split; [done|]. split; [intros key; by rewrite Hl, app_nil_r|].
    simpl. lia.
  - split; [done|]. split; [intros key; by rewrite Hl, app_nil_r|].
    simpl. lia.
Qed.

Lemma run_counts_add_up_witness :
  ∃ traces i t' r, run_simulation triage_nodes triage_edges [triage_case "c1" 1; triage_case "c2" 2] = Ok traces ∧
    record_simulation_run (λ _, "") (λ _, true) 0 1 "label" "mixed" traces "ann" None None None tbl_empty = Ok (i, t') ∧
    rows t' = [(i, r)] ∧ rr_case_count r = 2%Z ∧ total (terminal_distribution traces) = rr_completed r.
Proof.
  destruct (run_simulation triage_nodes triage_edges [triage_case "c1" 1; triage_case "c2" 2]) as [traces|] eqn:Hrun;
    [|exfalso; vm_compute in Hrun; discriminate].
  destruct (record_simulation_run (λ _, "") (λ _, true) 0 1 "label" "mixed" traces "ann" None None None tbl_empty)
    as [[i t']|] eqn:Hrec.
  - destruct (run_counts_add_up _ _ _ _ _ _ _ _ _ _ _ _ _ _ _ _ _ Hrun Hrec) as (r & Hr & Hc & _ & _ & Ht).
    exists traces, i, t', r. repeat (split; [done|]). exact Ht.
  - exfalso. vm_compute in Hrun. injection Hrun as <-. vm_compute in Hrec. discriminate.
Defined.

(** The groups are separate but the names they are stored under need not be:
    [f"{terminal}::{currency}"] is not injective, and of two groups whose names
    coincide only the later one is kept in the stored range. *)
Lemma range_names_collide :
  let tr terminal cur := mk_trace
    {| case_id := "c"; inputs := ∅; human_overrides := ∅; monetary_amount := Some (dec_of_Z 5);
       monetary_currency := Some cur; actual_outcome_label := None |} completed [] (Some terminal) [] None ∅ in
  let traces := [tr "a" "b::AZN"; tr "a::b" "AZN"] in
  length (monetary_groups traces).1 = 2%nat ∧
  ∃ range, monetary_range traces = Ok (Some range, 0%Z) ∧ map fst range = ["a::b::AZN"].
Proof. split; [vm_compute; reflexivity|]. eexists. split; vm_compute; reflexivity. Qed.
End SimStore.
