(* ===== verification/PolicyStore.v ===== *)
(** * Persistence of policy graphs

    [packages/algorithm/policy_store.py], [research_dossier_model.py] and
    [research_dossier_store.py] on the tables of [migrations/0018] and [0019]:
    their keys, foreign keys, CHECKs and the partial unique index are checks of
    the operations that write. Columns holding JSON hold the value itself: the
    round trip through JSONB is the database's. [now] is the transaction's
    timestamp. *)

From stdpp Require Import base gmap strings list.
From Stdlib Require Import ZArith Lia.
From S2P Require Import Prelude Json Lifecycle PolicyGraph Datetime.
Import Model Transitions Graph.

Module Store.

Record ResearchDossier := {
  decision_statement : string;
  owners : list string;
  approvers : list string;
  source_register : list json;
  assumptions : list string;
  data_dictionary : json;
  formula_or_decision_table : json;
  coefficients_and_rationale : json;
  validation_design : json;
  test_dataset_manifest : json;
  results_and_limitations : json;
  security_privacy_analysis : json;
  monitoring_criteria : json;
  retirement_criteria : json;
  rd_created_by : string;
  fairness_analysis : option json;
  approved_at : option string;
  effective_from : option string;
}.

(** A row of [policy_versions]; its graph, number, status, dossier and author
    are the model's [PolicyVersion]. *)
Record version_row := { vr_version : PolicyVersion; vr_created_at : Z }.
Definition vr_graph (r : version_row) : Z := pv_policy_graph_id (vr_version r).
Definition vr_status (r : version_row) : string := pv_status (vr_version r).
Definition vr_number (r : version_row) : Z := pv_version_number (vr_version r).

Record transition_row := { tw_transition : PolicyVersionTransition; tw_changed_at : Z }.
Record dossier_row := { dr_dossier : ResearchDossier; dr_approved_at : option Z; dr_effective_from : option Z; dr_created_at : Z }.

Record db := Db {
  policy_graphs : table PolicyGraph;
  policy_versions : table version_row;
  policy_nodes : table PolicyNode;
  policy_edges : table PolicyEdge;
  policy_version_transitions : table transition_row;
  research_dossiers : table dossier_row;
  roles : gset string;
}.

Definition set_versions (t : table version_row) (d : db) : db :=
  Db (policy_graphs d) t (policy_nodes d) (policy_edges d) (policy_version_transitions d) (research_dossiers d) (roles d).
Definition set_nodes (t : table PolicyNode) (d : db) : db :=
  Db (policy_graphs d) (policy_versions d) t (policy_edges d) (policy_version_transitions d) (research_dossiers d) (roles d).
Definition set_edges (t : table PolicyEdge) (d : db) : db :=
  Db (policy_graphs d) (policy_versions d) (policy_nodes d) t (policy_version_transitions d) (research_dossiers d) (roles d).
Definition set_transitions (t : table transition_row) (d : db) : db :=
  Db (policy_graphs d) (policy_versions d) (policy_nodes d) (policy_edges d) t (research_dossiers d) (roles d).

(** The exceptions of the store; [Failure] carries any other one. *)
Inductive store_error :=
| ImmutableVersionError (msg : string)
| InvalidTransitionError (msg : string)
| GraphInvalidError (issues : list ValidationIssue)
| MakerCheckerViolation (msg : string)
| Failure (e : exn)
| GraphFuel.
Definition py_fail {A} (m : result exn A) : result store_error A := map_err Failure m.
Definition graph_fail {A} (m : result gexn A) : result store_error A :=
  map_err (λ e, match e with Raised x => Failure x | OutOfFuel => GraphFuel end) m.
Definition integrity (constraint : string) : store_error := Failure (IntegrityError constraint).
Definition value_error (msg : string) : store_error := Failure (ValueError msg).

Section WithText.
Context `{PyText}.

Definition ResearchDossier_post_init (d : ResearchDossier) : result exn ResearchDossier :=
  raise_if is_blank (decision_statement d) with ValueError "decision_statement must be non-empty" ;;
  raise_if bool_decide (owners d = []) with ValueError "owners must be non-empty" ;;
  raise_if bool_decide (approvers d = []) with ValueError "approvers must be non-empty" ;;
  raise_if match source_register d with [] => true | _ => false end
    with ValueError "source_register must be non-empty" ;;
  Ok d.

Definition create_policy_graph (g : PolicyGraph) (d : db) : Z * db :=
  let '(i, t) := tbl_insert (policy_graphs d) g in
  (i, Db t (policy_versions d) (policy_nodes d) (policy_edges d) (policy_version_transitions d)
        (research_dossiers d) (roles d)).

(** Whether another row has the same [(policy_graph_id, version_number)]. *)
Definition number_taken (graph_id number : Z) (d : db) : bool :=
  negb (bool_decide (tbl_select (λ _ r, bool_decide (vr_graph r = graph_id ∧ vr_number r = number))
    (policy_versions d) = [])).

Definition create_draft_version (now policy_graph_id version_number : Z) (created_by : string) (d : db)
    : result store_error (Z * db) :=
  let! version := py_fail (PolicyVersion_post_init
    {| pv_policy_graph_id := policy_graph_id; pv_version_number := version_number; pv_status := "draft";
       pv_created_by := created_by; pv_research_dossier_id := None |}) in
  raise_if bool_decide (tbl_get (policy_graphs d) policy_graph_id = None)
    with integrity "policy_versions_policy_graph_id_fkey" ;;
  raise_if number_taken policy_graph_id version_number d
    with integrity "policy_versions_policy_graph_id_version_number_key" ;;
  let '(i, t) := tbl_insert (policy_versions d) {| vr_version := version; vr_created_at := now |} in
  Ok (i, set_versions t d).

Definition get_version_status (i : Z) (d : db) : result store_error string :=
  match tbl_get (policy_versions d) i with
  | None => Err (value_error ("no such policy_version: " +:+ py_str_Z i))
  | Some r => Ok (vr_status r)
  end.

Definition assert_content_mutable (i : Z) (d : db) : result store_error unit :=
  let! status := get_version_status i d in
  raise_if bool_decide (status ∈ immutable_statuses)
    with ImmutableVersionError ("policy_version " +:+ py_str_Z i +:+ " is " +:+ py_repr status +:+
      " -- content is immutable; use fork_new_draft_version() to change it") ;;
  Ok tt.

(** [INSERT INTO policy_nodes]: the version exists, the type is known, the key
    is new in the version. *)
Definition insert_node (d : db) (n : PolicyNode) : result store_error db :=
  raise_if bool_decide (tbl_get (policy_versions d) (policy_version_id n) = None)
    with integrity "policy_nodes_policy_version_id_fkey" ;;
  raise_if bool_decide (node_type n ∉ node_types) with integrity "policy_nodes_node_type_check" ;;
  raise_if negb (bool_decide (tbl_select (λ _ m, bool_decide
      (policy_version_id m = policy_version_id n ∧ node_key m = node_key n)) (policy_nodes d) = []))
    with integrity "policy_nodes_policy_version_id_node_key_key" ;;
  Ok (set_nodes (tbl_insert (policy_nodes d) n).2 d).

Definition add_nodes (nodes : list PolicyNode) (d : db) : result store_error db :=
  match nodes with
  | [] => Ok d
  | n0 :: _ =>
      let! _ := assert_content_mutable (policy_version_id n0) d in
      foldM insert_node d nodes
  end.

Definition insert_edge (d : db) (e : PolicyEdge) : result store_error db :=
  raise_if bool_decide (tbl_get (policy_versions d) (edge_version_id e) = None)
    with integrity "policy_edges_policy_version_id_fkey" ;;
  Ok (set_edges (tbl_insert (policy_edges d) e).2 d).

Definition add_edges (edges : list PolicyEdge) (d : db) : result store_error db :=
  match edges with
  | [] => Ok d
  | e0 :: _ =>
      let! _ := assert_content_mutable (edge_version_id e0) d in
      foldM insert_edge d edges
  end.

Definition list_nodes (version_id : Z) (d : db) : list PolicyNode :=
  map snd (tbl_select (λ _ n, bool_decide (policy_version_id n = version_id)) (policy_nodes d)).
Definition list_edges (version_id : Z) (d : db) : list PolicyEdge :=
  map snd (tbl_select (λ _ e, bool_decide (edge_version_id e = version_id)) (policy_edges d)).

(** [PolicyNode( **{ **n, "policy_version_id": new_version_id })] *)
Definition node_in_version (version_id : Z) (n : PolicyNode) : PolicyNode := {|
  policy_version_id := version_id; node_key := node_key n; node_type := node_type n; title := title n;
  purpose := purpose n; owner := owner n; execution_mode := execution_mode n;
  input_contract := input_contract n; output_contract := output_contract n;
  preconditions := preconditions n; evidence_requirements := evidence_requirements n;
  reason_codes := reason_codes n; test_cases := test_cases n; monitoring_metrics := monitoring_metrics n;
  timeout_seconds := timeout_seconds n; retry_policy := retry_policy n;
  fallback_node_key := fallback_node_key n; required_role := required_role n;
  financial_impact := financial_impact n; legal_impact := legal_impact n;
  model_or_policy_dependency := model_or_policy_dependency n |}.
Definition edge_in_version (version_id : Z) (e : PolicyEdge) : PolicyEdge := {|
  edge_version_id := version_id; from_node_key := from_node_key e; to_node_key := to_node_key e;
  condition_label := condition_label e |}.

Definition fork_new_draft_version (now from_id : Z) (created_by : string) (d : db)
    : result store_error (Z * db) :=
  match tbl_get (policy_versions d) from_id with
  | None => Err (value_error ("no such policy_version: " +:+ py_str_Z from_id))
  | Some row =>
      let! ' (new_id, d1) := create_draft_version now (vr_graph row) (vr_number row + 1) created_by d in
      let! nodes := py_fail (mapM (λ n, PolicyNode_post_init (node_in_version new_id n)) (list_nodes from_id d1)) in
      let! d2 := add_nodes nodes d1 in
      let! edges := py_fail (mapM (λ e, PolicyEdge_post_init (edge_in_version new_id e)) (list_edges from_id d2)) in
      let! d3 := add_edges edges d2 in
      Ok (new_id, d3)
  end.

Definition with_status (to_status : string) (r : version_row) : version_row :=
  let v := vr_version r in
  {| vr_version := {| pv_policy_graph_id := pv_policy_graph_id v; pv_version_number := pv_version_number v;
       pv_status := to_status; pv_created_by := pv_created_by v;
       pv_research_dossier_id := pv_research_dossier_id v |};
     vr_created_at := vr_created_at r |}.

(** The ids of the active versions of a graph. *)
Definition active_of (graph_id : Z) (d : db) : list Z :=
  (tbl_select (λ _ r, bool_decide (vr_graph r = graph_id ∧ vr_status r = "active")) (policy_versions d)).*1.

(** The partial unique index of [migrations/0019] ([WHERE status = 'active'])
    on the updated row: if it is active, no other version of its graph is. *)
Definition one_active_index (i : Z) (d : db) : bool :=
  match tbl_get (policy_versions d) i with
  | Some r => negb (String.eqb (vr_status r) "active") || Nat.leb (length (active_of (vr_graph r) d)) 1
  | None => true
  end.

Definition transition_version_status (now i : Z) (to_status changed_by : string) (reason : option string) (d : db)
    : result store_error db :=
  let! from_status := get_version_status i d in
  raise_if negb (can_transition from_status to_status)
    with InvalidTransitionError ("cannot transition " +:+ py_repr from_status +:+ " -> " +:+ py_repr to_status) ;;
  let d1 := set_versions (tbl_set i (with_status to_status) (policy_versions d)) d in
  raise_if negb (one_active_index i d1) with integrity "policy_versions_one_active_per_graph" ;;
  Ok (set_transitions (tbl_insert (policy_version_transitions d1)
    {| tw_transition := {| tr_version_id := i; tr_from_status := from_status; tr_to_status := to_status;
         tr_changed_by := changed_by; tr_reason := reason |}; tw_changed_at := now |}).2 d1).

(** [{n["required_role"] for n in nodes if n.get("required_role")}] *)
Definition required_roles (nodes : list PolicyNode) : gset string :=
  list_to_set (omap (λ n, match required_role n with
    | Some r => if decide (r = "") then None else Some r | None => None end) nodes).

Definition unknown_role_issues (nodes : list PolicyNode) (d : db) : list ValidationIssue :=
  map (λ r, {| code := "unknown_role";
               message := "required_role " +:+ py_repr r +:+ " does not exist in roles"; issue_node := None |})
    (sorted_set (required_roles nodes ∖ roles d)).

(** The row of [policy_versions LEFT JOIN research_dossiers]: linked and approved. *)
Definition dossier_approved (version_id : Z) (d : db) : bool :=
  match tbl_get (policy_versions d) version_id with
  | None => false
  | Some r =>
      match pv_research_dossier_id (vr_version r) with
      | None => false
      | Some di =>
          match tbl_get (research_dossiers d) di with
          | Some dr => match dr_approved_at dr with Some _ => true | None => false end
          | None => false
          end
      end
  end.

Definition missing_dossier_issues (version_id : Z) (nodes : list PolicyNode) (d : db) : list ValidationIssue :=
  if negb (existsb financial_impact nodes) then []
  else if dossier_approved version_id d then []
  else [{| code := "missing_approved_dossier";
           message := "version has a financial_impact node but no linked, approved research dossier";
           issue_node := None |}].

Definition submit_for_approval (now version_id : Z) (changed_by : string) (reason : option string) (d : db)
    : result store_error db :=
  let nodes := list_nodes version_id d in
  let edges := list_edges version_id d in
  let! graph_issues := graph_fail (validate_graph nodes edges) in
  match graph_issues ++ unknown_role_issues nodes d ++ missing_dossier_issues version_id nodes d with
  | [] => transition_version_status now version_id "approved" changed_by reason d
  | issues => Err (GraphInvalidError issues)
  end.

Definition activate_version (now version_id : Z) (changed_by : string) (reason : option string) (d : db)
    : result store_error db :=
  match tbl_get (policy_versions d) version_id with
  | None => Err (value_error ("no such policy_version: " +:+ py_str_Z version_id))
  | Some row =>
      let nodes := list_nodes version_id d in
      raise_if existsb financial_impact nodes && String.eqb changed_by (pv_created_by (vr_version row))
        with MakerCheckerViolation ("activator " +:+ py_repr changed_by +:+
          " is the same identity that designed this financial-impact version (FR-ALG-12/ADR-0005 requires two distinct identities)") ;;
      let! current_active := match active_of (vr_graph row) d with
                             | [] => Ok None
                             | [i] => Ok (Some i)
                             | _ => Err (Failure MultipleResultsFound)
                             end in
      let! d1 := match current_active with
                 | Some i =>
                     if bool_decide (i ≠ version_id) then
                       transition_version_status now i "suspended" changed_by
                         (Some ("superseded by activation of policy_version " +:+ py_str_Z version_id)) d
                     else Ok d
                 | None => Ok d
                 end in
      transition_version_status now version_id "active" changed_by reason d1
  end.

Definition kill_switch (now version_id : Z) (changed_by reason : string) (d : db) : result store_error db :=
  raise_if is_blank reason with value_error "kill_switch requires a non-empty reason" ;;
  let! status := get_version_status version_id d in
  raise_if negb (String.eqb status "active")
    with value_error ("kill_switch requires an active version; policy_version " +:+ py_str_Z version_id +:+
      " is " +:+ py_repr status) ;;
  transition_version_status now version_id "suspended" changed_by (Some reason) d.

Definition get_version (version_id : Z) (d : db) : option version_row := tbl_get (policy_versions d) version_id.

(** [ORDER BY version_number] *)
Fixpoint insert_by_number (r : Z * version_row) (l : list (Z * version_row)) : list (Z * version_row) :=
  match l with
  | [] => [r]
  | r' :: l' => if (vr_number r.2 <=? vr_number r'.2)%Z then r :: l else r' :: insert_by_number r l'
  end.
Definition list_versions_by_graph (graph_id : Z) (d : db) : list (Z * version_row) :=
  foldr insert_by_number [] (tbl_select (λ _ r, bool_decide (vr_graph r = graph_id)) (policy_versions d)).

(** [ORDER BY pg.name] of the join with [policy_graphs] *)
Fixpoint insert_by_name (r : string * (Z * version_row)) (l : list (string * (Z * version_row)))
    : list (string * (Z * version_row)) :=
  match l with
  | [] => [r]
  | r' :: l' => if bool_decide (String.le r.1 r'.1) then r :: l else r' :: insert_by_name r l'
  end.
Definition list_all_active_versions (d : db) : list (string * (Z * version_row)) :=
  foldr insert_by_name [] (omap (λ ir, match tbl_get (policy_graphs d) (vr_graph ir.2) with
      | Some g => Some (pg_name g, ir) | None => None end)
    (tbl_select (λ _ r, bool_decide (vr_status r = "active")) (policy_versions d))).

Definition list_transitions_by_version (version_id : Z) (d : db) : list (Z * transition_row) :=
  tbl_select (λ _ t, bool_decide (tr_version_id (tw_transition t) = version_id)) (policy_version_transitions d).

(** *** Research dossiers *)

Definition opt_ts (s : option string) : result exn (option Z) :=
  match s with
  | None => Ok None
  | Some s => let! t := fromisoformat s in Ok (Some (to_timestamptz t))
  end.

Definition store_research_dossier (now : Z) (r : ResearchDossier) (d : db) : result store_error (Z * db) :=
  let! a := py_fail (opt_ts (approved_at r)) in
  let! e := py_fail (opt_ts (effective_from r)) in
  let '(i, t) := tbl_insert (research_dossiers d)
    {| dr_dossier := r; dr_approved_at := a; dr_effective_from := e; dr_created_at := now |} in
  Ok (i, Db (policy_graphs d) (policy_versions d) (policy_nodes d) (policy_edges d)
           (policy_version_transitions d) t (roles d)).

Definition with_dossier (di : Z) (r : version_row) : version_row :=
  let v := vr_version r in
  {| vr_version := {| pv_policy_graph_id := pv_policy_graph_id v; pv_version_number := pv_version_number v;
       pv_status := pv_status v; pv_created_by := pv_created_by v; pv_research_dossier_id := Some di |};
     vr_created_at := vr_created_at r |}.

Definition link_dossier_to_version (version_id dossier_id : Z) (d : db) : result store_error db :=
  match tbl_get (policy_versions d) version_id with
  | None => Ok d
  | Some _ =>
      raise_if bool_decide (tbl_get (research_dossiers d) dossier_id = None)
        with integrity "policy_versions_research_dossier_fk" ;;
      Ok (set_versions (tbl_set version_id (with_dossier dossier_id) (policy_versions d)) d)
  end.

Definition get_research_dossier (dossier_id : Z) (d : db) : option dossier_row :=
  tbl_get (research_dossiers d) dossier_id.

(** ** The invariant of the tables *)

(** The transitions logged for a version, oldest first. *)
Definition log (i : Z) (d : db) : list (string * string) :=
  map (λ t, (tr_from_status (tw_transition t.2), tr_to_status (tw_transition t.2))) (list_transitions_by_version i d).

(** The log leads from one status to another by allowed transitions. *)
Fixpoint chain (s : string) (l : list (string * string)) (t : string) : Prop :=
  match l with
  | [] => s = t
  | (a, b) :: l' => a = s ∧ can_transition a b = true ∧ chain b l' t
  end.

Record db_ok (d : db) : Prop := {
  ok_versions : tbl_wf (policy_versions d);
  ok_active g : (length (active_of g d) <= 1)%nat;
  ok_log i r : tbl_get (policy_versions d) i = Some r → chain "draft" (log i d) (vr_status r);
  ok_log_version j t : (j, t) ∈ rows (policy_version_transitions d) →
    is_Some (tbl_get (policy_versions d) (tr_version_id (tw_transition t)));
  ok_content v : tbl_get (policy_versions d) v = None → list_nodes v d = [] ∧ list_edges v d = [];
}.

Lemma db_ok_ext d d' :
  policy_versions d' = policy_versions d → policy_version_transitions d' = policy_version_transitions d →
  (∀ v, tbl_get (policy_versions d) v = None → list_nodes v d' = list_nodes v d ∧ list_edges v d' = list_edges v d) →
  db_ok d → db_ok d'.
Proof.
  intros Hv Ht Hc [H1 H2 H3 H4 H5].
  assert (∀ i, log i d' = log i d) as Hl by (intros i; unfold log, list_transitions_by_version; by rewrite Ht).
  assert (∀ g, active_of g d' = active_of g d) as Ha by (intros g; unfold active_of; by rewrite Hv).
  split; intros; rewrite ?Hl, ?Ha, ?Hv, ?Ht in *; eauto.
  destruct (Hc v) as [-> ->]; [done|]. by apply H5.
Qed.

Lemma chain_snoc s l t u : chain s l t → can_transition t u = true → chain s (l ++ [(t, u)]) u.
Proof. revert s; induction l as [|[a b] l IH]; intros s; simpl; [by intros ->|]. intros (? & ? & ?) ?. auto. Qed.

Lemma chain_path s l t : chain s l t → path s (s :: l.*2) t.
Proof.
  revert t. induction l as [|[a b] l IH] using rev_ind; intros t; simpl; [intros ->; apply path_refl|].
  intros Hc. assert (chain s l a ∧ can_transition a b = true ∧ t = b) as (Hl & Hab & ->).
  { clear IH. revert s Hc. induction l as [|[a' b'] l IHl]; intros s; simpl; [naive_solver|].
    intros (-> & ? & Hc). destruct (IHl _ Hc) as (? & ? & ?). auto. }
  rewrite fmap_app. simpl. change (s :: l.*2 ++ [b]) with ((s :: l.*2) ++ [b]).
  eapply path_step; [by apply IH|done].
Qed.

(** *** Selections of a table after the writes of the store *)

Lemma elem_of_active g d i :
  tbl_wf (policy_versions d) →
  i ∈ active_of g d ↔ ∃ r, tbl_get (policy_versions d) i = Some r ∧ vr_graph r = g ∧ vr_status r = "active".
Proof. intros Hw. unfold active_of. rewrite elem_of_select_ids by done. by setoid_rewrite bool_decide_eq_true. Qed.

(** *** One transition *)

Record transition_effect (i : Z) (to_status : string) (d d' : db) (r : version_row) : Prop := {
  te_row : tbl_get (policy_versions d) i = Some r;
  te_allowed : can_transition (vr_status r) to_status = true;
  te_versions : policy_versions d' = tbl_set i (with_status to_status) (policy_versions d);
  te_log j : log j d' = log j d ++ (if bool_decide (i = j) then [(vr_status r, to_status)] else []);
  te_log_version j t : (j, t) ∈ rows (policy_version_transitions d') →
    (j, t) ∈ rows (policy_version_transitions d) ∨ tr_version_id (tw_transition t) = i;
  te_nodes : policy_nodes d' = policy_nodes d;
  te_edges : policy_edges d' = policy_edges d;
  te_graphs : policy_graphs d' = policy_graphs d;
  te_dossiers : research_dossiers d' = research_dossiers d;
  te_roles : roles d' = roles d;
  te_active : to_status = "active" → (length (active_of (vr_graph r) d') <= 1)%nat;
}.

Lemma transition_effect_ok now i to_status by_ reason d d' :
  transition_version_status now i to_status by_ reason d = Ok d' → ∃ r, transition_effect i to_status d d' r.
Proof.
  unfold transition_version_status, get_version_status.
  destruct (tbl_get (policy_versions d) i) as [r|] eqn:Hr; simpl; [|done].
  destruct (can_transition (vr_status r) to_status) eqn:Hc; simpl; [|done].
  unfold one_active_index. simpl. rewrite tbl_get_set_eq, Hr. simpl.
  destruct (negb _ || _) eqn:Hlen; simpl; [|done]. intros [= <-]. exists r. split; try done.
  - intros j. unfold log, list_transitions_by_version. simpl. rewrite tbl_select_snoc, map_app. simpl.
    f_equal. by destruct (bool_decide _).
  - intros j t. simpl. unfold tbl_insert; simpl. rewrite elem_of_app, list_elem_of_singleton. intros [?|[= -> ->]]; [by left|by right].
  - intros ->. by apply Nat.leb_le in Hlen.
Qed.

Lemma te_get i to_status d d' r j :
  transition_effect i to_status d d' r →
  tbl_get (policy_versions d') j =
    if bool_decide (i = j) then Some (with_status to_status r) else tbl_get (policy_versions d) j.
Proof.
  intros Ht. rewrite (te_versions _ _ _ _ _ Ht). case_bool_decide as Hij.
  - subst j. by rewrite tbl_get_set_eq, (te_row _ _ _ _ _ Ht).
  - by rewrite tbl_get_set_ne.
Qed.

Lemma transition_db_ok i to_status d d' r : transition_effect i to_status d d' r → db_ok d → db_ok d'.
Proof.
  intros Ht Hok. pose proof Hok as [H1 H2 H3 H4 H5].
  assert (tbl_wf (policy_versions d')) as Hw by (rewrite (te_versions _ _ _ _ _ Ht); by apply tbl_update_wf).
  split; [done|..].
  - intros g. destruct (decide (g = vr_graph r ∧ to_status = "active")) as [[-> Ha]|Hg]; [by apply (te_active _ _ _ _ _ Ht)|].
    etrans; [|apply (H2 g)]. apply tbl_select_ids_le; [done|]. intros j Hj.
    change (j ∈ active_of g d) . apply elem_of_active; [done|].
    apply elem_of_active in Hj as (r' & Hr' & Hgr & Hs); [|done].
    rewrite (te_get _ _ _ _ _ _ Ht) in Hr'. case_bool_decide as Hij; [|eauto].
    exfalso. injection Hr' as <-. by apply Hg.
  - intros j r' Hr'. rewrite (te_log _ _ _ _ _ Ht). rewrite (te_get _ _ _ _ _ _ Ht) in Hr'.
    case_bool_decide as Hij.
    + subst j. injection Hr' as <-. eapply chain_snoc; [apply H3, Ht|apply Ht].
    + rewrite app_nil_r. by apply H3.
  - intros j t Hj. rewrite (te_get _ _ _ _ _ _ Ht). case_bool_decide as Hij; [eauto|].
    apply (te_log_version _ _ _ _ _ Ht) in Hj as [Hj|Hj]; [by eapply H4|done].
  - intros v Hv. rewrite (te_get _ _ _ _ _ _ Ht) in Hv. case_bool_decide; [done|].
    unfold list_nodes, list_edges. rewrite (te_nodes _ _ _ _ _ Ht), (te_edges _ _ _ _ _ Ht). by apply H5.
Qed.

(** *** Content *)

(** Only nodes or edges differ. *)
Record frame (d d' : db) : Prop := {
  fr_versions : policy_versions d' = policy_versions d;
  fr_transitions : policy_version_transitions d' = policy_version_transitions d;
  fr_graphs : policy_graphs d' = policy_graphs d;
  fr_dossiers : research_dossiers d' = research_dossiers d;
  fr_roles : roles d' = roles d;
}.
#[export] Instance frame_preorder : PreOrder frame.
Proof. split; [by split|]. intros d1 d2 d3 [] []. split; congruence. Qed.

Lemma insert_nodes_effect nodes d d' :
  foldM insert_node d nodes = Ok d' →
  frame d d' ∧ policy_edges d' = policy_edges d ∧
  Forall (λ n, tbl_get (policy_versions d) (policy_version_id n) ≠ None) nodes ∧
  ∀ v, list_nodes v d' = list_nodes v d ++ filter (λ n, policy_version_id n = v) nodes.
Proof.
  apply (foldM_inv_prefix (λ dn d', frame d d' ∧ policy_edges d' = policy_edges d ∧
    Forall (λ n, tbl_get (policy_versions d) (policy_version_id n) ≠ None) dn ∧
    ∀ v, list_nodes v d' = list_nodes v d ++ filter (λ n, policy_version_id n = v) dn)).
  - intros dn n rest d1 d2 _ (Hf & He & Hx & Hl) Hi. unfold insert_node in Hi. inv_ok.
    split; [etrans; [exact Hf|by split]|]. split; [done|].
    split; [apply Forall_app; split; [done|]; apply Forall_singleton; rewrite <-(fr_versions _ _ Hf);
      by eapply bool_decide_eq_false|]. intros v.
    rewrite filter_app, filter_cons, filter_nil, app_assoc, <-Hl.
    unfold list_nodes. simpl. rewrite tbl_select_snoc, map_app, (tbl_select_next _ _ _ (next_id (policy_nodes d1))).
    destruct (policy_nodes d1); simpl. f_equal. destruct (decide (policy_version_id n = v)) as [Hv|Hv];
      [rewrite (bool_decide_true (policy_version_id n = v)) by done|rewrite (bool_decide_false (policy_version_id n = v)) by done]; done.
  - split; [done|]. split; [done|]. split; [constructor|]. intros v. by rewrite filter_nil, app_nil_r.
Qed.

Lemma insert_edges_effect edges d d' :
  foldM insert_edge d edges = Ok d' →
  frame d d' ∧ policy_nodes d' = policy_nodes d ∧
  Forall (λ e, tbl_get (policy_versions d) (edge_version_id e) ≠ None) edges ∧
  ∀ v, list_edges v d' = list_edges v d ++ filter (λ e, edge_version_id e = v) edges.
Proof.
  apply (foldM_inv_prefix (λ dn d', frame d d' ∧ policy_nodes d' = policy_nodes d ∧
    Forall (λ e, tbl_get (policy_versions d) (edge_version_id e) ≠ None) dn ∧
    ∀ v, list_edges v d' = list_edges v d ++ filter (λ e, edge_version_id e = v) dn)).
  - intros dn e rest d1 d2 _ (Hf & He & Hx & Hl) Hi. unfold insert_edge in Hi. inv_ok.
    split; [etrans; [exact Hf|by split]|]. split; [done|].
    split; [apply Forall_app; split; [done|]; apply Forall_singleton; rewrite <-(fr_versions _ _ Hf);
      by eapply bool_decide_eq_false|]. intros v.
    rewrite filter_app, filter_cons, filter_nil, app_assoc, <-Hl.
    unfold list_edges. simpl. rewrite tbl_select_snoc, map_app, (tbl_select_next _ _ _ (next_id (policy_edges d1))).
    destruct (policy_edges d1); simpl. f_equal. destruct (decide (edge_version_id e = v)) as [Hv|Hv];
      [rewrite (bool_decide_true (edge_version_id e = v)) by done|rewrite (bool_decide_false (edge_version_id e = v)) by done]; done.
  - split; [done|]. split; [done|]. split; [constructor|]. intros v. by rewrite filter_nil, app_nil_r.
Qed.

Definition mutable_at (v : Z) (d : db) : Prop :=
  ∃ r, tbl_get (policy_versions d) v = Some r ∧ vr_status r ∉ immutable_statuses.

Lemma assert_content_mutable_ok v d u : assert_content_mutable v d = Ok u → mutable_at v d.
Proof.
  unfold assert_content_mutable, get_version_status. destruct (tbl_get _ v) as [r|] eqn:Hr; simpl; [|done].
  case_bool_decide as Hb; [done|]. intros _. by exists r.
Qed.

Lemma add_nodes_effect nodes d d' :
  add_nodes nodes d = Ok d' →
  (nodes = [] ∧ d' = d ∨ ∃ n0, head nodes = Some n0 ∧ mutable_at (policy_version_id n0) d) ∧
  frame d d' ∧ policy_edges d' = policy_edges d ∧
  Forall (λ n, tbl_get (policy_versions d) (policy_version_id n) ≠ None) nodes ∧
  ∀ v, list_nodes v d' = list_nodes v d ++ filter (λ n, policy_version_id n = v) nodes.
Proof.
  unfold add_nodes. destruct nodes as [|n0 nodes].
  { intros [= <-]. split; [by left|]. split; [done|]. split; [done|]. split; [constructor|]. intros. by rewrite filter_nil, app_nil_r. }
  rewrite rbind_ok. intros (u & Hu & Hf). split; [|by apply insert_nodes_effect].
  right. exists n0. split; [done|]. by eapply assert_content_mutable_ok.
Qed.

Lemma add_edges_effect edges d d' :
  add_edges edges d = Ok d' →
  (edges = [] ∧ d' = d ∨ ∃ e0, head edges = Some e0 ∧ mutable_at (edge_version_id e0) d) ∧
  frame d d' ∧ policy_nodes d' = policy_nodes d ∧
  Forall (λ e, tbl_get (policy_versions d) (edge_version_id e) ≠ None) edges ∧
  ∀ v, list_edges v d' = list_edges v d ++ filter (λ e, edge_version_id e = v) edges.
Proof.
  unfold add_edges. destruct edges as [|e0 edges].
  { intros [= <-]. split; [by left|]. split; [done|]. split; [done|]. split; [constructor|]. intros. by rewrite filter_nil, app_nil_r. }
  rewrite rbind_ok. intros (u & Hu & Hf). split; [|by apply insert_edges_effect].
  right. exists e0. split; [done|]. by eapply assert_content_mutable_ok.
Qed.

Lemma filter_none {A} (P : A → Prop) `{!∀ x, Decision (P x)} l : Forall (λ x, ¬ P x) l → filter P l = [].
Proof. induction 1 as [|x l Hx _ IH]; [done|]. by rewrite filter_cons, decide_False. Qed.

Lemma add_nodes_db_ok nodes d d' : add_nodes nodes d = Ok d' → db_ok d → db_ok d'.
Proof.
  intros (_ & Hf & He & Hx & Hl)%add_nodes_effect Hok.
  apply (db_ok_ext d d'); [apply Hf|apply Hf| |done]. intros v Hv. unfold list_edges. rewrite He.
  split; [|done]. rewrite Hl, filter_none, app_nil_r; [done|].
  eapply Forall_impl; [exact Hx|]. intros n Hn Heq. apply Hn. by rewrite Heq.
Qed.

Lemma add_edges_db_ok edges d d' : add_edges edges d = Ok d' → db_ok d → db_ok d'.
Proof.
  intros (_ & Hf & He & Hx & Hl)%add_edges_effect Hok.
  apply (db_ok_ext d d'); [apply Hf|apply Hf| |done]. intros v Hv. unfold list_nodes. rewrite He.
  split; [done|]. rewrite Hl, filter_none, app_nil_r; [done|].
  eapply Forall_impl; [exact Hx|]. intros n Hn Heq. apply Hn. by rewrite Heq.
Qed.

(** *** New versions *)

Record draft_effect (now g n : Z) (by_ : string) (d : db) (i : Z) (d' : db) : Prop := {
  de_id : i = next_id (policy_versions d);
  de_number : (1 <= n)%Z;
  de_versions : policy_versions d' = (tbl_insert (policy_versions d) {| vr_version :=
    {| pv_policy_graph_id := g; pv_version_number := n; pv_status := "draft"; pv_created_by := by_;
       pv_research_dossier_id := None |}; vr_created_at := now |}).2;
  de_transitions : policy_version_transitions d' = policy_version_transitions d;
  de_nodes : policy_nodes d' = policy_nodes d;
  de_edges : policy_edges d' = policy_edges d;
}.

Lemma create_draft_effect now g n by_ d i d' :
  create_draft_version now g n by_ d = Ok (i, d') → draft_effect now g n by_ d i d'.
Proof.
  unfold create_draft_version, PolicyVersion_post_init. simpl.
  destruct (decide (n < 1)%Z) as [Hn|Hn]; [by rewrite (bool_decide_true (n < 1)%Z)|].
  rewrite (bool_decide_false (n < 1)%Z) by done. simpl.
  destruct (bool_decide _); simpl; [done|]. destruct (number_taken _ _ _); simpl; [done|].
  intros [= <- <-]. split; try done. lia.
Qed.

Lemma draft_db_ok now g n by_ d i d' : draft_effect now g n by_ d i d' → db_ok d → db_ok d'.
Proof.
  intros [-> Hn Hv Ht Hns Hes] [H1 H2 H3 H4 H5].
  assert (∀ j, log j d' = log j d) as Hl by (intros j; unfold log, list_transitions_by_version; by rewrite Ht).
  pose proof (tbl_get_next _ H1) as Hnext.
  assert (log (next_id (policy_versions d)) d = []) as Hlnext.
  { unfold log. apply map_nil, nil_no_elem. intros [j t] Hj. unfold list_transitions_by_version in Hj.
    apply elem_of_tbl_select in Hj as [Hb Hj]. apply bool_decide_eq_true in Hb.
    destruct (H4 j t Hj) as [r Hr]. rewrite Hb in Hr. congruence. }
  split; rewrite ?Hv.
  - by apply tbl_insert_wf.
  - intros g'. unfold active_of. rewrite Hv, tbl_select_insert, fmap_app, length_app.
    unfold vr_status at 2; simpl. rewrite bool_decide_false by naive_solver. simpl.
    rewrite Nat.add_0_r. exact (H2 g').
  - intros j r Hr. rewrite Hl. destruct (decide (j = next_id (policy_versions d))) as [->|Hj].
    + rewrite tbl_get_insert_new in Hr by done. injection Hr as <-. by rewrite Hlnext.
    + rewrite tbl_get_insert_old in Hr by done. by apply H3.
  - intros j t. rewrite Ht. intros Hj. destruct (H4 j t Hj) as [r Hr].
    rewrite tbl_get_insert_old; [eauto|]. intros Heq. rewrite Heq in Hr. congruence.
  - intros v Hv'. unfold list_nodes, list_edges. rewrite Hns, Hes. apply H5.
    destruct (decide (v = next_id (policy_versions d))) as [->|]; [by apply tbl_get_next|].
    by rewrite tbl_get_insert_old in Hv'.
Qed.

(** ** Composite operations *)

Lemma active_at_most_one_list g d :
  db_ok d → active_of g d = [] ∨ ∃ i, active_of g d = [i].
Proof.
  intros Hok. pose proof (ok_active _ Hok g). destruct (active_of g d) as [|i [|j l]]; simpl in *; [by left|eauto|lia].
Qed.

Record activate_effect (v : Z) (by_ : string) (d d' : db) (row : version_row) : Prop := {
  ae_row : tbl_get (policy_versions d) v = Some row;
  ae_maker_checker : existsb financial_impact (list_nodes v d) = true → by_ ≠ pv_created_by (vr_version row);
  ae_allowed : vr_status row = "approved" ∨ vr_status row = "suspended";
  ae_ok : db_ok d';
  ae_rows j r : tbl_get (policy_versions d) j = Some r →
    tbl_get (policy_versions d') j = Some (
      if bool_decide (j = v) then with_status "active" r
      else if bool_decide (vr_graph r = vr_graph row ∧ vr_status r = "active") then with_status "suspended" r
      else r);
  ae_nodes : policy_nodes d' = policy_nodes d;
  ae_edges : policy_edges d' = policy_edges d;
}.

Lemma to_active s : can_transition s "active" = true → s = "approved" ∨ s = "suspended".
Proof. intros Ht. apply can_transition_pairs in Ht. unfold transition_pairs in Ht. set_solver. Qed.

Lemma activate_effect_ok now v by_ reason d d' :
  db_ok d → activate_version now v by_ reason d = Ok d' → ∃ row, activate_effect v by_ d d' row.
Proof.
  intros Hok. unfold activate_version. destruct (tbl_get (policy_versions d) v) as [row|] eqn:Hrow; [|done].
  destruct (_ && _) eqn:Hmc; [done|]. intros Ha. exists row.
  assert (existsb financial_impact (list_nodes v d) = true → by_ ≠ pv_created_by (vr_version row)) as Hmk.
  { intros Hf ->. rewrite Hf, String.eqb_refl in Hmc. done. }
  destruct (active_at_most_one_list (vr_graph row) d Hok) as [Hnil|[a Hone]].
  - rewrite Hnil in Ha. simpl in Ha. apply transition_effect_ok in Ha as [r Ht].
    pose proof (te_row _ _ _ _ _ Ht) as Hr. rewrite Hrow in Hr. injection Hr as <-.
    split; [done|done|apply to_active, Ht|by eapply transition_db_ok| |apply Ht|apply Ht].
    intros j r Hj. rewrite (te_get _ _ _ _ _ _ Ht). case_bool_decide as Hvj.
    + subst j. rewrite bool_decide_true by done. congruence.
    + rewrite bool_decide_false by done. rewrite bool_decide_false; [done|]. intros Hact.
      assert (j ∈ active_of (vr_graph row) d) as Hin by (apply elem_of_active; [apply Hok|eauto]).
      rewrite Hnil in Hin. set_solver.
  - rewrite Hone in Ha. simpl in Ha.
    assert (a ∈ active_of (vr_graph row) d) as Hin by (rewrite Hone; by left).
    apply elem_of_active in Hin as (ra & Hra & Hga & Hsa); [|apply Hok].
    assert (v ≠ a) as Hva.
    { intros ->. rewrite bool_decide_false in Ha by tauto. simpl in Ha.
      apply transition_effect_ok in Ha as [r Ht]. pose proof (te_row _ _ _ _ _ Ht) as Hr.
      rewrite Hra in Hr. injection Hr as <-. pose proof (to_active _ (te_allowed _ _ _ _ _ Ht)) as [|]; congruence. }
    rewrite bool_decide_true in Ha by done. simpl in Ha. apply rbind_ok in Ha as (d1 & H1 & H2).
    apply transition_effect_ok in H1 as [r1 Ht1], H2 as [r2 Ht2].
    pose proof (te_get _ _ _ _ _ v Ht1) as Hv1. rewrite bool_decide_false in Hv1 by done.
    pose proof (te_row _ _ _ _ _ Ht2) as Hr2. rewrite Hv1, Hrow in Hr2. injection Hr2 as <-.
    split; [done|done|apply to_active, Ht2|eapply transition_db_ok; [exact Ht2|by eapply transition_db_ok]| |
      rewrite (te_nodes _ _ _ _ _ Ht2); apply Ht1|rewrite (te_edges _ _ _ _ _ Ht2); apply Ht1].
    intros j r Hj. rewrite (te_get _ _ _ _ _ _ Ht2), (te_get _ _ _ _ _ _ Ht1).
    destruct (decide (j = v)) as [->|Hjv].
    + rewrite !(bool_decide_true (v = v)) by done. congruence.
    + rewrite (bool_decide_false (v = j)), (bool_decide_false (j = v)) by done.
      destruct (decide (j = a)) as [->|Hja].
      * rewrite (bool_decide_true (a = a)) by done. rewrite bool_decide_true by (split; congruence).
        pose proof (te_row _ _ _ _ _ Ht1). congruence.
      * rewrite (bool_decide_false (a = j)) by done. rewrite bool_decide_false; [done|]. intros Hact.
        assert (j ∈ active_of (vr_graph row) d) as Hin by (apply elem_of_active; [apply Hok|eauto]).
        rewrite Hone in Hin. set_solver.
Qed.

Lemma link_db_ok v di d d' : link_dossier_to_version v di d = Ok d' → db_ok d → db_ok d'.
Proof.
  unfold link_dossier_to_version. intros Hl [H1 H2 H3 H4 H5].
  destruct (tbl_get (policy_versions d) v) as [r|] eqn:Hr; [|by injection Hl as <-].
  destruct (bool_decide _); [done|]. injection Hl as <-.
  assert (∀ j, tbl_get (tbl_set v (with_dossier di) (policy_versions d)) j =
    (if bool_decide (v = j) then with_dossier di else id) <$> tbl_get (policy_versions d) j) as Hget.
  { intros j. case_bool_decide as Hj; [subst; by rewrite tbl_get_set_eq|].
    rewrite tbl_get_set_ne by done. by destruct (tbl_get _ j). }
  assert (∀ (f : bool) r, vr_status ((if f then with_dossier di else id) r) = vr_status r ∧
    vr_graph ((if f then with_dossier di else id) r) = vr_graph r) as Hsame by (by intros [] ?).
  split; simpl.
  - by apply tbl_update_wf.
  - intros g. etrans; [|apply (H2 g)]. apply tbl_select_ids_le; [by apply tbl_update_wf|].
    intros j Hj. change (j ∈ active_of g d). apply elem_of_active; [done|].
    apply elem_of_select_ids in Hj as (r' & Hr' & Hb); [|by apply tbl_update_wf].
    apply bool_decide_eq_true in Hb as [Hg Hs]. simpl in Hr'. rewrite Hget in Hr'.
    apply fmap_Some in Hr' as (r0 & Hr0 & ->). destruct (Hsame (bool_decide (v = j)) r0). exists r0. split; [done|]. split; congruence.
  - intros j r' Hr'. rewrite Hget in Hr'. apply fmap_Some in Hr' as (r0 & Hr0 & ->).
    destruct (Hsame (bool_decide (v = j)) r0) as [-> _]. by apply H3.
  - intros j t Hj. rewrite Hget. destruct (H4 j t Hj) as [r0 ->]. eauto.
  - intros j Hj. rewrite Hget in Hj. apply fmap_None in Hj. by apply H5.
Qed.

Record fork_effect (now from : Z) (by_ : string) (d : db) (i : Z) (d' : db) : Prop := {
  fe_source : ∃ row, tbl_get (policy_versions d) from = Some row ∧
    tbl_get (policy_versions d') i = Some {| vr_version := {| pv_policy_graph_id := vr_graph row;
      pv_version_number := vr_number row + 1; pv_status := "draft"; pv_created_by := by_;
      pv_research_dossier_id := None |}; vr_created_at := now |};
  fe_new : tbl_get (policy_versions d) i = None;
  fe_others j : j ≠ i → tbl_get (policy_versions d') j = tbl_get (policy_versions d) j;
  fe_nodes : list_nodes i d' = map (node_in_version i) (list_nodes from d);
  fe_edges : list_edges i d' = map (edge_in_version i) (list_edges from d);
  fe_other_nodes j : j ≠ i → list_nodes j d' = list_nodes j d;
  fe_other_edges j : j ≠ i → list_edges j d' = list_edges j d;
  fe_ok : db_ok d';
}.

Lemma mapM_node_post_init v l k :
  mapM (λ n, PolicyNode_post_init (node_in_version v n)) l = Ok k → k = map (node_in_version v) l.
Proof.
  rewrite mapM_Forall2. induction 1 as [|n n' l k Hn _ IH]; simpl; [done|].
  apply PolicyNode_post_init_ok in Hn as [-> _]. by rewrite IH.
Qed.

Lemma mapM_edge_post_init v l k :
  mapM (λ e, PolicyEdge_post_init (edge_in_version v e)) l = Ok k → k = map (edge_in_version v) l.
Proof.
  rewrite mapM_Forall2. induction 1 as [|n n' l k Hn _ IH]; simpl; [done|].
  apply PolicyEdge_post_init_ok in Hn as [-> _]. by rewrite IH.
Qed.

Lemma py_fail_ok {A} (m : result exn A) a : py_fail m = Ok a ↔ m = Ok a.
Proof. destruct m; simpl; naive_solver. Qed.

Lemma fork_effect_ok now from by_ d i d' :
  db_ok d → fork_new_draft_version now from by_ d = Ok (i, d') → fork_effect now from by_ d i d'.
Proof.
  intros Hok. unfold fork_new_draft_version. destruct (tbl_get (policy_versions d) from) as [row|] eqn:Hrow; [|done].
  rewrite rbind_ok. intros ([new d1] & Hd & Hf). apply create_draft_effect in Hd.
  apply rbind_ok in Hf as (nodes & Hn%py_fail_ok%mapM_node_post_init & Hf).
  apply rbind_ok in Hf as (d2 & H2 & Hf).
  apply rbind_ok in Hf as (edges & He%py_fail_ok%mapM_edge_post_init & Hf).
  apply rbind_ok in Hf as (d3 & H3 & [= <- <-]).
  pose proof (draft_db_ok _ _ _ _ _ _ _ Hd Hok) as Hok1.
  assert (db_ok d3) as Hok3 by (eapply add_edges_db_ok; [exact H3|]; by eapply add_nodes_db_ok).
  apply add_nodes_effect in H2 as (_ & Hf2 & He2 & _ & Hl2).
  apply add_edges_effect in H3 as (_ & Hf3 & Hn3 & _ & Hl3).
  destruct Hd as [-> _ Hv1 Ht1 Hn1 He1].
  assert (policy_versions d3 = policy_versions d1) as Hv3 by (rewrite (fr_versions _ _ Hf3); apply Hf2).
  assert (∀ v, list_nodes v d1 = list_nodes v d) as Hln by (intros v; unfold list_nodes; by rewrite Hn1).
  assert (∀ v, list_edges v d2 = list_edges v d) as Hle by (intros v; unfold list_edges; by rewrite He2, He1).
  assert (∀ v, list_nodes v d3 = list_nodes v d2) as Hln3 by (intros v; unfold list_nodes; by rewrite Hn3).
  set (new := next_id (policy_versions d)) in *.
  assert (∀ v (l : list PolicyNode), filter (λ n, policy_version_id n = v) (map (node_in_version new) l) =
    if decide (v = new) then map (node_in_version new) l else []) as Hfn.
  { intros v l. induction l as [|n l IH]; [by destruct (decide _)|].
    cbn [map]. rewrite filter_cons, IH. simpl. destruct (decide (v = new)) as [->|].
    - by rewrite decide_True. - by rewrite decide_False. }
  assert (∀ v (l : list PolicyEdge), filter (λ n, edge_version_id n = v) (map (edge_in_version new) l) =
    if decide (v = new) then map (edge_in_version new) l else []) as Hfe.
  { intros v l. induction l as [|n l IH]; [by destruct (decide _)|].
    cbn [map]. rewrite filter_cons, IH. simpl. destruct (decide (v = new)) as [->|].
    - by rewrite decide_True. - by rewrite decide_False. }
  split.
  - exists row. split; [done|]. rewrite Hv3, Hv1. unfold new. by rewrite tbl_get_insert_new by apply Hok.
  - by apply tbl_get_next, Hok.
  - intros j Hj. rewrite Hv3, Hv1. by apply tbl_get_insert_old.
  - rewrite Hln3, Hl2, Hn, Hfn, decide_True, !Hln by done.
    by destruct (ok_content _ Hok new (tbl_get_next _ (ok_versions _ Hok))) as [-> _].
  - rewrite Hl3, He, Hfe, decide_True, !Hle by done.
    by destruct (ok_content _ Hok new (tbl_get_next _ (ok_versions _ Hok))) as [_ ->].
  - intros j Hj. rewrite Hln3, Hl2, Hn, Hfn, decide_False, Hln by done. by rewrite app_nil_r.
  - intros j Hj. rewrite Hl3, He, Hfe, decide_False, Hle by done. by rewrite app_nil_r.
  - done.
Qed.
End WithText.
End Store.
