(* ===== verification/PolicyRules.v ===== *)
(** * The rules the policy store keeps

    [packages/algorithm/policy_store.py] as a transition system: [store_step]
    has one constructor per writing call the program makes (definitions in
    [PolicyStore]), and [reachable] is what any sequence of them leads to from
    empty tables. The theorems are the promises of the module: one active
    version per graph and a complete log, frozen content of approved and active
    versions, the approval and activation gates, and forking as a copy; and
    where the code stops short of them. *)

From stdpp Require Import base gmap strings list relations.
From Stdlib Require Import ZArith Lia.
From S2P Require Import Prelude Json Lifecycle PolicyGraph PolicyStore.
Import Model Transitions Graph Store.

Section Rules.
Context `{PyText}.

(** The writing calls of the store. [add_nodes] and [add_edges] take any batch
    whose versions satisfy [batch]: the store itself asks nothing of them. *)
Inductive call_with (batch : list Z → Prop) (d d' : db) : Prop :=
| step_create_graph g i : create_policy_graph g d = (i, d') → call_with batch d d'
| step_create_draft now g n by_ i : create_draft_version now g n by_ d = Ok (i, d') → call_with batch d d'
| step_add_nodes nodes : batch (map policy_version_id nodes) → add_nodes nodes d = Ok d' → call_with batch d d'
| step_add_edges edges : batch (map edge_version_id edges) → add_edges edges d = Ok d' → call_with batch d d'
| step_fork now from by_ i : fork_new_draft_version now from by_ d = Ok (i, d') → call_with batch d d'
| step_transition now v to_status by_ reason :
    transition_version_status now v to_status by_ reason d = Ok d' → call_with batch d d'
| step_submit now v by_ reason : submit_for_approval now v by_ reason d = Ok d' → call_with batch d d'
| step_activate now v by_ reason : activate_version now v by_ reason d = Ok d' → call_with batch d d'
| step_kill now v by_ reason : kill_switch now v by_ reason d = Ok d' → call_with batch d d'
| step_dossier now r i : store_research_dossier now r d = Ok (i, d') → call_with batch d d'
| step_link v di : link_dossier_to_version v di d = Ok d' → call_with batch d d'.
(** Any call of the store *)
Definition store_call : db → db → Prop := call_with (λ _, True).
(** A call as the program makes them: the routes and [fork_new_draft_version]
    build the nodes or edges of one call for one version. *)
Definition one_version (vs : list Z) : Prop := ∃ v, Forall (λ w, w = v) vs.
Definition store_step : db → db → Prop := call_with one_version.
Lemma step_call d d' : store_step d d' → store_call d d'.
Proof. intros []; [eapply step_create_graph|eapply step_create_draft|eapply step_add_nodes|eapply step_add_edges|eapply step_fork|eapply step_transition|eapply step_submit|eapply step_activate|eapply step_kill|eapply step_dossier|eapply step_link]; done. Qed.

Definition empty_db (rs : gset string) : db :=
  Db tbl_empty tbl_empty tbl_empty tbl_empty tbl_empty tbl_empty rs.
Definition reachable (d : db) : Prop := ∃ rs, rtc store_call (empty_db rs) d.

(** What the gate passed before the transition it guards. *)
Lemma submit_inv now v by_ reason d d' :
  submit_for_approval now v by_ reason d = Ok d' →
  validate_graph (list_nodes v d) (list_edges v d) = Ok [] ∧
  unknown_role_issues (list_nodes v d) d = [] ∧
  missing_dossier_issues v (list_nodes v d) d = [] ∧
  transition_version_status now v "approved" by_ reason d = Ok d'.
Proof.
  unfold submit_for_approval, graph_fail. destruct (validate_graph _ _) as [issues|[]]; simpl; try done.
  destruct issues as [|i issues]; simpl; [|done].
  destruct (unknown_role_issues _ _) as [|i issues]; simpl; [|done].
  destruct (missing_dossier_issues _ _ _) as [|i issues]; simpl; done.
Qed.

Lemma kill_inv now v by_ reason d d' :
  kill_switch now v by_ reason d = Ok d' →
  is_blank reason = false ∧ get_version_status v d = Ok "active" ∧
  transition_version_status now v "suspended" by_ (Some reason) d = Ok d'.
Proof.
  unfold kill_switch. destruct (is_blank reason); [done|].
  destruct (get_version_status v d) as [s|]; simpl; [|done].
  destruct (String.eqb_spec s "active") as [->|]; simpl; done.
Qed.

Lemma store_step_ok d d' : db_ok d → store_call d d' → db_ok d'.
Proof.
  intros Hok [g i Hc|now g n by_ i Hc|nodes _ Ha|edges _ Ha|now from by_ i Hf|now v to_status by_ reason Ht|
    now v by_ reason Hs|now v by_ reason Ha|now v by_ reason Hk|now r i Hd|v di Hl].
  - injection Hc as _ <-. by apply (db_ok_ext d).
  - apply create_draft_effect in Hc. by eapply draft_db_ok.
  - by eapply add_nodes_db_ok.
  - by eapply add_edges_db_ok.
  - apply fork_effect_ok in Hf; [by apply Hf|done].
  - apply transition_effect_ok in Ht as [r Ht]. by eapply transition_db_ok.
  - apply submit_inv in Hs as (_ & _ & _ & Ht). apply transition_effect_ok in Ht as [r Ht]. by eapply transition_db_ok.
  - apply activate_effect_ok in Ha as [row Ha]; [by apply Ha|done].
  - apply kill_inv in Hk as (_ & _ & Ht). apply transition_effect_ok in Ht as [r Ht]. by eapply transition_db_ok.
  - unfold store_research_dossier in Hd. inv_ok. by apply (db_ok_ext d).
  - by eapply link_db_ok.
Qed.

Lemma empty_db_ok rs : db_ok (empty_db rs).
Proof.
  split.
  - split; constructor.
  - intros g. apply Nat.le_0_l.
  - intros i r Hr. vm_compute in Hr. done.
  - intros j t Hj. simpl in Hj. set_solver.
  - done.
Qed.

Lemma reachable_ok d : reachable d → db_ok d.
Proof.
  intros [rs Hr]. pose proof (empty_db_ok rs) as Hok. revert Hok.
  induction Hr as [|d1 d2 d3 Hs _ IH]; [done|]. intros Hok. by eapply IH, store_step_ok.
Qed.

(** C3: In every reachable database a graph has at most one active version, and
    the status of every version is the end of an allowed path from draft that
    the transition log records in full: so whatever is approved, active,
    suspended or retired is logged as having been in simulation, business
    review, risk review and approved, in this order. *)
Theorem reachable_versions d :
  reachable d →
  (∀ g, (length (active_of g d) <= 1)%nat) ∧
  ∀ i r, tbl_get (policy_versions d) i = Some r →
    path "draft" ("draft" :: (log i d).*2) (vr_status r) ∧
    (vr_status r ∈ ["approved"; "active"; "suspended"; "retired"] →
     ["draft"; "simulation"; "business_review"; "risk_review"; "approved"] `sublist_of` "draft" :: (log i d).*2).
Proof.
  intros Hok%reachable_ok. split; [apply Hok|]. intros i r Hr.
  pose proof (chain_path _ _ _ (ok_log _ Hok i r Hr)) as Hp. split; [done|]. intros Hs.
  apply path_reviews_behind in Hp. unfold reviews_behind in Hp. by rewrite bool_decide_true in Hp.
Qed.

(** Content of one version after a step. *)
Definition content (v : Z) (d : db) : list PolicyNode * list PolicyEdge := (list_nodes v d, list_edges v d).

Lemma content_ext v d d' : policy_nodes d' = policy_nodes d → policy_edges d' = policy_edges d → content v d' = content v d.
Proof. intros Hn He. unfold content, list_nodes, list_edges. by rewrite Hn, He. Qed.

(** The elements for [v] come after a first element of another version, which is
    the one whose status is looked at. *)
Definition headed_elsewhere {A} (version_of : A → Z) (v : Z) (l : list A) : Prop :=
  ∃ x, head l = Some x ∧ version_of x ≠ v ∧ v ∈ map version_of l.
Definition mixed_batch (v : Z) (d d' : db) : Prop :=
  (∃ nodes, add_nodes nodes d = Ok d' ∧ headed_elsewhere policy_version_id v nodes) ∨
  (∃ edges, add_edges edges d = Ok d' ∧ headed_elsewhere edge_version_id v edges).
Lemma one_version_headed {A} (f : A → Z) v l : one_version (map f l) → headed_elsewhere f v l → False.
Proof.
  intros [w Hw] (x & Hx & Hne & Hv). rewrite Forall_forall in Hw. apply Hne. rewrite (Hw v Hv). apply Hw. by apply list_elem_of_fmap_2, head_Some_elem_of.
Qed.
Lemma frozen_nodes d d' v r nodes : tbl_get (policy_versions d) v = Some r → vr_status r ∈ immutable_statuses → add_nodes nodes d = Ok d' →
  content v d' = content v d ∨ headed_elsewhere policy_version_id v nodes.
Proof.
  intros Hr Him (Hor & _ & He & _ & Hl)%add_nodes_effect. destruct (decide (v ∈ map policy_version_id nodes)) as [Hv|Hv].
  - right. destruct Hor as [[-> _]|(x & Hh & rm & Hrm & Hmut)]; [by apply elem_of_nil in Hv|].
    exists x. split_and!; [done| |done]. intros Hn. rewrite Hn in Hrm. congruence.
  - left. unfold content. rewrite Hl. unfold list_edges. rewrite He. f_equal. rewrite filter_none, app_nil_r; [done|].
    apply Forall_forall. intros x Hx Heq. apply Hv. rewrite <-Heq. by apply list_elem_of_fmap_2.
Qed.
Lemma frozen_edges d d' v r edges : tbl_get (policy_versions d) v = Some r → vr_status r ∈ immutable_statuses → add_edges edges d = Ok d' →
  content v d' = content v d ∨ headed_elsewhere edge_version_id v edges.
Proof.
  intros Hr Him (Hor & _ & He & _ & Hl)%add_edges_effect. destruct (decide (v ∈ map edge_version_id edges)) as [Hv|Hv].
  - right. destruct Hor as [[-> _]|(x & Hh & rm & Hrm & Hmut)]; [by apply elem_of_nil in Hv|].
    exists x. split_and!; [done| |done]. intros Hn. rewrite Hn in Hrm. congruence.
  - left. unfold content. rewrite Hl. unfold list_nodes. rewrite He. f_equal. rewrite filter_none, app_nil_r; [done|].
    apply Forall_forall. intros x Hx Heq. apply Hv. rewrite <-Heq. by apply list_elem_of_fmap_2.
Qed.
(** The calls that write no given nodes or edges *)
Lemma other_calls_frozen batch d d' v r : db_ok d → tbl_get (policy_versions d) v = Some r → call_with batch d d' →
  content v d' = content v d ∨ (∃ nodes, batch (map policy_version_id nodes) ∧ add_nodes nodes d = Ok d') ∨
  (∃ edges, batch (map edge_version_id edges) ∧ add_edges edges d = Ok d').
Proof.
  intros Hok Hr Hs.
  destruct Hs as [g i Hc|now g n by_ i Hc|nodes Hb Ha|edges Hb Ha|now from by_ i Hf|
    now w to_status by_ reason Ht|now w by_ reason Hs|now w by_ reason Ha|now w by_ reason Hk|now rd i Hd|w di Hl];
    [left|left|right; left; by eauto|right; right; by eauto|left..].
  - injection Hc as _ <-. by apply content_ext.
  - apply create_draft_effect in Hc. apply content_ext; apply Hc.
  - apply fork_effect_ok in Hf; [|done].
    assert (v ≠ i) by (intros ->; pose proof (fe_new _ _ _ _ _ _ Hf); congruence).
    unfold content. by rewrite (fe_other_nodes _ _ _ _ _ _ Hf), (fe_other_edges _ _ _ _ _ _ Hf).
  - apply transition_effect_ok in Ht as [r' Ht]. apply content_ext; apply Ht.
  - apply submit_inv in Hs as (_ & _ & _ & Ht). apply transition_effect_ok in Ht as [r' Ht]. apply content_ext; apply Ht.
  - apply activate_effect_ok in Ha as [row Ha]; [|done]. apply content_ext; apply Ha.
  - apply kill_inv in Hk as (_ & _ & Ht). apply transition_effect_ok in Ht as [r' Ht]. apply content_ext; apply Ht.
  - unfold store_research_dossier in Hd. inv_ok. by apply content_ext.
  - unfold link_dossier_to_version in Hl. destruct (tbl_get (policy_versions d) w); [|by injection Hl as <-].
    destruct (bool_decide _); [done|]. injection Hl as <-. by apply content_ext.
Qed.
(** C4: No call the program makes changes the nodes or edges of a version that
    is approved or active: the only writes to content go to versions in another
    status, and a fork writes to the version it creates. Of all calls of the
    store, whatever their arguments, only one can: a batch of nodes or edges of
    several versions whose first element belongs to another version than the
    frozen one, since the store looks at the status of that version alone. *)
Theorem approved_content_frozen d d' v r :
  reachable d → tbl_get (policy_versions d) v = Some r → vr_status r ∈ immutable_statuses →
  (store_step d d' → content v d' = content v d) ∧
  (store_call d d' → content v d' = content v d ∨ mixed_batch v d d').
Proof.
  intros Hok%reachable_ok Hr Him. split; intros Hs; destruct (other_calls_frozen _ d d' v r Hok Hr Hs) as [|[(l & Hb & Ha)|(l & Hb & Ha)]]; try by left.
  - done.
  - destruct (frozen_nodes d d' v r l Hr Him Ha) as [|Hh]; [done|]. by destruct (one_version_headed _ _ _ Hb Hh).
  - destruct (frozen_edges d d' v r l Hr Him Ha) as [|Hh]; [done|]. by destruct (one_version_headed _ _ _ Hb Hh).
  - destruct (frozen_nodes d d' v r l Hr Him Ha) as [|Hh]; [by left|]. right. left. by exists l.
  - destruct (frozen_edges d d' v r l Hr Him Ha) as [|Hh]; [by left|]. right. right. by exists l.
Qed.

(** Approving a version cannot violate the index, which is on active ones. *)
Lemma approved_passes_index v d : one_active_index v (set_versions (tbl_set v (with_status "approved") (policy_versions d)) d) = true.
Proof. unfold one_active_index. simpl. rewrite tbl_get_set_eq. by destruct (tbl_get _ v). Qed.

(** What a version needs to be approved *)
Definition approvable (v : Z) (d : db) : Prop :=
  validate_graph (list_nodes v d) (list_edges v d) = Ok [] ∧ required_roles (list_nodes v d) ⊆ roles d ∧
  (existsb financial_impact (list_nodes v d) = true → dossier_approved v d = true) ∧ get_version_status v d = Ok "risk_review".
Lemma no_role_issues v d : unknown_role_issues (list_nodes v d) d = [] ↔ required_roles (list_nodes v d) ⊆ roles d.
Proof. unfold unknown_role_issues. rewrite map_nil, sorted_set_nil. apply set_difference_empty. Qed.
Lemma no_dossier_issues v d : missing_dossier_issues v (list_nodes v d) d = [] ↔
  (existsb financial_impact (list_nodes v d) = true → dossier_approved v d = true).
Proof. unfold missing_dossier_issues. destruct (existsb _ _); simpl; [|done]. destruct (dossier_approved v d); naive_solver. Qed.
Lemma approve_total now v by_ reason d : get_version_status v d = Ok "risk_review" →
  ∃ d', transition_version_status now v "approved" by_ reason d = Ok d'.
Proof. intros Hst. unfold transition_version_status. rewrite Hst. simpl. rewrite approved_passes_index. by eexists. Qed.

(** C5: The approval gate: [submit_for_approval] succeeds exactly when the graph
    of the version has no issue, the roles its nodes require exist, a version with
    a financial node has an approved dossier, and the version is in risk review;
    it then only changes that version's status and logs it. Otherwise nothing is
    written, and when there are issues the error carries all of them. *)
Theorem approval_gate now v by_ reason d :
  match submit_for_approval now v by_ reason d with
  | Ok d' =>
      approvable v d ∧
      (∀ j, tbl_get (policy_versions d') j =
        (if bool_decide (v = j) then with_status "approved" else id) <$> tbl_get (policy_versions d) j) ∧
      (∀ j, log j d' = log j d ++ (if bool_decide (v = j) then [("risk_review", "approved")] else [])) ∧
      (∀ j, content j d' = content j d)
  | Err e =>
      ¬ approvable v d ∧
      ∀ gi, validate_graph (list_nodes v d) (list_edges v d) = Ok gi →
        let issues := gi ++ unknown_role_issues (list_nodes v d) d ++ missing_dossier_issues v (list_nodes v d) d in
        issues ≠ [] → e = GraphInvalidError issues
  end.
Proof.
  destruct (submit_for_approval now v by_ reason d) as [d'|e] eqn:Hs.
  - apply submit_inv in Hs as (Hg & Hr & Hm & Ht). apply transition_effect_ok in Ht as [r Ht].
    pose proof (te_row _ _ _ _ _ Ht) as Hrow.
    assert (vr_status r = "risk_review") as Hst.
    { pose proof (te_allowed _ _ _ _ _ Ht) as Ha. apply can_transition_pairs in Ha. unfold transition_pairs in Ha. set_solver. }
    split; [|split; [|split]].
    + split; [done|]. split; [by apply no_role_issues|]. split; [by apply no_dossier_issues|]. unfold get_version_status. by rewrite Hrow, Hst.
    + intros j. rewrite (te_get _ _ _ _ _ _ Ht). case_bool_decide as Hj; [subst; by rewrite Hrow|by destruct (tbl_get _ j)].
    + intros j. by rewrite (te_log _ _ _ _ _ Ht), Hst.
    + intros j. apply content_ext; apply Ht.
  - unfold submit_for_approval, graph_fail in Hs. split.
    + intros (Hg & Hr%no_role_issues & Hd%no_dossier_issues & Hst). rewrite Hg in Hs. simpl in Hs. rewrite Hr, Hd in Hs. simpl in Hs.
      destruct (approve_total now v by_ reason d Hst) as [d' Ht]. congruence.
    + intros gi Hg. cbv zeta. rewrite Hg in Hs. simpl in Hs. destruct (gi ++ _) as [|i issues]; [done|]. intros _. by injection Hs as <-.
Qed.

(** C9: The activation gate: [activate_version] succeeds only on an approved or
    suspended version, and, when the version has a financial node, only for
    somebody other than its author. Afterwards the version is the graph's one
    active version, the version it replaces is suspended, every other row and
    all content is as before. *)
Theorem activation_gate now v by_ reason d d' :
  reachable d → activate_version now v by_ reason d = Ok d' →
  ∃ row, tbl_get (policy_versions d) v = Some row ∧
    (vr_status row = "approved" ∨ vr_status row = "suspended") ∧
    (existsb financial_impact (list_nodes v d) = true → by_ ≠ pv_created_by (vr_version row)) ∧
    active_of (vr_graph row) d' = [v] ∧
    (∀ j r, tbl_get (policy_versions d) j = Some r → j ≠ v →
      tbl_get (policy_versions d') j =
        Some (if bool_decide (vr_graph r = vr_graph row ∧ vr_status r = "active") then with_status "suspended" r else r)) ∧
    (∀ j, content j d' = content j d).
Proof.
  intros Hok%reachable_ok Ha. apply activate_effect_ok in Ha as [row Ha]; [|done].
  exists row. pose proof (ae_rows _ _ _ _ _ Ha v row (ae_row _ _ _ _ _ Ha)) as Hv.
  rewrite bool_decide_true in Hv by done.
  split; [apply Ha|]. split; [apply Ha|]. split; [apply Ha|]. split; [|split].
  - assert (v ∈ active_of (vr_graph row) d') as Hin.
    { apply elem_of_active; [apply Ha|]. exists (with_status "active" row). done. }
    pose proof (ok_active _ (ae_ok _ _ _ _ _ Ha) (vr_graph row)).
    destruct (active_of (vr_graph row) d') as [|i [|]]; simpl in *; [set_solver| |lia].
    apply list_elem_of_singleton in Hin as ->. done.
  - intros j r Hj Hjv. rewrite (ae_rows _ _ _ _ _ Ha j r Hj). by rewrite (bool_decide_false (j = v)).
  - intros j. apply content_ext; apply Ha.
Qed.

(** C10: Forking copies: the new version is a draft of the same graph with the
    next number, its nodes and edges are those of the source under the new
    version's id, and no other version changes. *)
Theorem fork_copies now from by_ d i d' :
  reachable d → fork_new_draft_version now from by_ d = Ok (i, d') →
  ∃ row row', tbl_get (policy_versions d) from = Some row ∧ tbl_get (policy_versions d') i = Some row' ∧
    tbl_get (policy_versions d) i = None ∧
    vr_status row' = "draft" ∧ vr_graph row' = vr_graph row ∧ vr_number row' = (vr_number row + 1)%Z ∧
    list_nodes i d' = map (node_in_version i) (list_nodes from d) ∧
    list_edges i d' = map (edge_in_version i) (list_edges from d) ∧
    ∀ j, j ≠ i → tbl_get (policy_versions d') j = tbl_get (policy_versions d) j ∧ content j d' = content j d.
Proof.
  intros Hok%reachable_ok Hf. apply fork_effect_ok in Hf; [|done].
  destruct (fe_source _ _ _ _ _ _ Hf) as (row & Hrow & Hnew). exists row. eexists.
  split; [done|]. split; [exact Hnew|]. split; [apply Hf|]. do 3 (split; [done|]).
  split; [apply Hf|]. split; [apply Hf|]. intros j Hj. split; [by apply Hf|].
  unfold content. f_equal; by apply Hf.
Qed.
End Rules.

(** ** Scripts: the calls as data, to run concrete histories *)

Section Scripts.
Context `{PyText}.

Inductive call :=
| CGraph (g : PolicyGraph)
| CDraft (graph number : Z) (by_ : string)
| CNodes (v : Z) (nodes : list PolicyNode)
| CEdges (v : Z) (edges : list PolicyEdge)
| CFork (from : Z) (by_ : string)
| CTransition (v : Z) (to_status by_ : string)
| CSubmit (v : Z) (by_ : string)
| CActivate (v : Z) (by_ : string)
| CKill (v : Z) (by_ reason : string).

Definition exec (d : db) (c : call) : result store_error db :=
  match c with
  | CGraph g => Ok (create_policy_graph g d).2
  | CDraft g n by_ => let! r := create_draft_version 0 g n by_ d in Ok r.2
  | CNodes v nodes => add_nodes (map (node_in_version v) nodes) d
  | CEdges v edges => add_edges (map (edge_in_version v) edges) d
  | CFork from by_ => let! r := fork_new_draft_version 0 from by_ d in Ok r.2
  | CTransition v to_status by_ => transition_version_status 0 v to_status by_ None d
  | CSubmit v by_ => submit_for_approval 0 v by_ None d
  | CActivate v by_ => activate_version 0 v by_ None d
  | CKill v by_ reason => kill_switch 0 v by_ reason d
  end.

Lemma exec_step d c d' : exec d c = Ok d' → store_step d d'.
Proof.
  destruct c; simpl; intros He.
  - injection He as <-. by eapply (step_create_graph _ _ _ g).
  - apply rbind_ok in He as ([i d1] & He & [= <-]). by eapply step_create_draft.
  - eapply step_add_nodes; [|done]. exists v. apply Forall_map, Forall_map, Forall_true. done.
  - eapply step_add_edges; [|done]. exists v. apply Forall_map, Forall_map, Forall_true. done.
  - apply rbind_ok in He as ([i d1] & He & [= <-]). by eapply step_fork.
  - by eapply step_transition.
  - by eapply step_submit.
  - by eapply step_activate.
  - by eapply step_kill.
Qed.

Lemma script_reachable rs script d : foldM exec (empty_db rs) script = Ok d → reachable d.
Proof.
  intros Hf. exists rs. revert Hf. generalize (empty_db rs).
  induction script as [|c script IH]; intros d0; simpl; [by intros [= <-]|].
  rewrite rbind_ok. intros (d1 & H1 & H2). eapply rtc_l; [by eapply step_call, exec_step|by apply IH].
Qed.
End Scripts.

(** A policy brought to approval and activated, step by step. *)
Definition reviewed (v : Z) : list call :=
  [CTransition v "simulation" "ann"; CTransition v "business_review" "ann"; CTransition v "risk_review" "bob"].
Definition two_nodes : list PolicyNode := [plain_node "check" "gate" None []; plain_node "end" "gate" None []].
Definition approved_script : list call :=
  [CGraph {| pg_name := "bid"; pg_owner := "ann"; pg_description := None |}; CDraft 1 1 "ann";
   CNodes 1 two_nodes; CEdges 1 [plain_edge "check" "end" None]] ++ reviewed 1 ++ [CSubmit 1 "bob"].
Definition active_script : list call := approved_script ++ [CActivate 1 "bob"].

Definition run_script (script : list call) : result store_error db :=
  foldM (exec (H := ascii_text)) (empty_db ∅) script.
Definition script_db (script : list call) : db :=
  match run_script script with Ok d => d | Err _ => empty_db ∅ end.

Lemma script_db_reachable script : is_ok (run_script script) = true → reachable (H := ascii_text) (script_db script).
Proof.
  unfold script_db. destruct (run_script script) as [d|] eqn:Hr; [|done]. intros _.
  by apply (script_reachable (H := ascii_text) ∅ script).
Qed.

Definition active_db : db := script_db active_script.

Lemma reachable_versions_witness :
  ∃ r, tbl_get (policy_versions active_db) 1 = Some r ∧ vr_status r = "active" ∧
    ["draft"; "simulation"; "business_review"; "risk_review"; "approved"] `sublist_of` "draft" :: (log 1 active_db).*2.
Proof.
  assert (reachable (H := ascii_text) active_db) as Hr by (apply script_db_reachable; vm_compute; reflexivity).
  destruct (tbl_get (policy_versions active_db) 1) as [r|] eqn:Hrow; [|exfalso; vm_compute in Hrow; discriminate].
  exists r. assert (vr_status r = "active") as Hs by (vm_compute in Hrow; injection Hrow as <-; reflexivity).
  split; [reflexivity|]. split; [exact Hs|].
  destruct (reachable_versions (H := ascii_text) active_db Hr) as [_ Hv].
  destruct (Hv 1%Z r Hrow) as [_ Hb]. apply Hb. rewrite Hs. concrete_mem.
Defined.

Lemma approved_content_frozen_witness :
  ∃ d', fork_new_draft_version (H := ascii_text) 0 1 "eve" active_db = Ok (2%Z, d') ∧
    content 1 d' = content 1 active_db.
Proof.
  assert (reachable (H := ascii_text) active_db) as Hr by (apply script_db_reachable; vm_compute; reflexivity).
  destruct (fork_new_draft_version (H := ascii_text) 0 1 "eve" active_db) as [[i d']|] eqn:Hf;
    [|exfalso; vm_compute in Hf; discriminate].
  assert (i = 2%Z) as -> by (vm_compute in Hf; injection Hf; intros; congruence).
  exists d'. split; [reflexivity|].
  destruct (tbl_get (policy_versions active_db) 1) as [r|] eqn:Hrow; [|exfalso; vm_compute in Hrow; discriminate].
  refine (proj1 (approved_content_frozen (H := ascii_text) active_db d' 1 r Hr Hrow _) _); [|by eapply step_fork].
  vm_compute in Hrow. injection Hrow as <-. refine (bool_decide_eq_true_1 _ _). vm_compute. reflexivity.
Defined.

(** A version with a financial node, approved; its author is [ann]. *)
Definition pay_node : PolicyNode := {|
  policy_version_id := 1; node_key := "pay"; node_type := "gate"; title := "pay"; purpose := "p"; owner := "o"; execution_mode := "automatic";
  input_contract := ∅; output_contract := ∅; preconditions := []; evidence_requirements := []; timeout_seconds := None; retry_policy := None;
  fallback_node_key := None; reason_codes := []; required_role := None; financial_impact := true; legal_impact := false;
  model_or_policy_dependency := None; test_cases := []; monitoring_metrics := [] |}.
Definition financial_script : list call :=
  [CGraph {| pg_name := "bid"; pg_owner := "ann"; pg_description := None |}; CDraft 1 1 "ann"; CNodes 1 [pay_node]] ++ reviewed 1 ++
  [CTransition 1 "approved" "bob"].
Lemma activation_gate_witness :
  ∃ d', activate_version (H := ascii_text) 0 1 "bob" None (script_db financial_script) = Ok d' ∧
    active_of 1 d' = [1%Z] ∧ ("bob" ≠ "ann" ∧ is_ok (activate_version (H := ascii_text) 0 1 "ann" None (script_db financial_script)) = false).
Proof.
  assert (reachable (H := ascii_text) (script_db financial_script)) as Hr
    by (apply script_db_reachable; vm_compute; reflexivity).
  destruct (activate_version (H := ascii_text) 0 1 "bob" None (script_db financial_script)) as [d'|] eqn:Ha;
    [|exfalso; vm_compute in Ha; discriminate].
  exists d'. split; [reflexivity|].
  destruct (activation_gate (H := ascii_text) _ _ _ _ _ _ Hr Ha) as (row & Hrow & _ & Hne & Hact & _).
  assert (vr_graph row = 1%Z ∧ pv_created_by (vr_version row) = "ann") as [Hg Hby] by (vm_compute in Hrow; injection Hrow as <-; split; reflexivity).
  rewrite Hg in Hact. split; [exact Hact|]. split; [|vm_compute; reflexivity].
  rewrite <-Hby. apply Hne. vm_compute. reflexivity.
Defined.

Lemma fork_copies_witness :
  ∃ i d', fork_new_draft_version (H := ascii_text) 0 1 "eve" active_db = Ok (i, d') ∧
    list_nodes i d' = map (node_in_version i) (list_nodes 1 active_db) ∧ length (list_nodes i d') = 2%nat.
Proof.
  assert (reachable (H := ascii_text) active_db) as Hr by (apply script_db_reachable; vm_compute; reflexivity).
  destruct (fork_new_draft_version (H := ascii_text) 0 1 "eve" active_db) as [[i d']|] eqn:Hf;
    [|exfalso; vm_compute in Hf; discriminate].
  exists i, d'. split; [reflexivity|].
  destruct (fork_copies (H := ascii_text) _ _ _ _ _ _ Hr Hf) as (row & row' & _ & _ & _ & _ & _ & _ & Hn & _).
  split; [exact Hn|]. rewrite Hn. vm_compute. reflexivity.
Defined.

(** ** Where the code stops short *)

(** Content of an active version can be other than what was approved: after
    the kill switch the suspended version takes new nodes, and activating it
    again needs no new approval, so an active version can have a graph that
    [validate_graph] rejects. *)
Theorem active_content_need_not_be_validated :
  let edited := script_db (active_script ++
    [CKill 1 "bob" "incident"; CNodes 1 [plain_node "stray" "gate" None []]; CActivate 1 "bob"]) in
  reachable (H := ascii_text) edited ∧ active_of 1 edited = [1%Z] ∧
  ∃ issue, validate_graph (H := ascii_text) (list_nodes 1 edited) (list_edges 1 edited) = Ok [issue] ∧
    code issue = "unreachable_node".
Proof.
  split; [apply script_db_reachable; vm_compute; reflexivity|].
  split; [vm_compute; reflexivity|]. eexists. split; vm_compute; reflexivity.
Qed.

(** The immutability check of [add_nodes] looks at the first node only: a
    list that starts with a node of a draft can put a node into an active
    version. *)
Lemma add_nodes_checks_first_only :
  let d := script_db (active_script ++ [CDraft 1 2 "eve"]) in
  let nodes := [node_in_version 2 (plain_node "mine" "gate" None []);
                node_in_version 1 (plain_node "smuggled" "gate" None [])] in
  get_version_status 1 d = Ok "active" ∧
  ∃ d', add_nodes (H := ascii_text) nodes d = Ok d' ∧
    map node_key (list_nodes 1 d') = ["check"; "end"; "smuggled"].
Proof.
  split; [vm_compute; reflexivity|]. eexists. split; vm_compute; reflexivity.
Qed.
