(* ===== verification/PolicyApi.v ===== *)
(** * The HTTP routes of the policy-graph page

    [apps/api_tender/routers/algoritm.py]: every route as a function of the
    caller's identity, the request and the database. The permission check comes
    first; a domain error the route catches becomes an [ApiError], any other
    exception stays uncaught (a 500); either way nothing is written. A response
    is what its pydantic model is built from. The state is the policy tables of
    [PolicyStore] and the runs of [SimulationStore]. *)

From stdpp Require Import base gmap strings list relations.
From Stdlib Require Import ZArith Lia.
From S2P Require Import Prelude Json Lifecycle Decimal PolicyGraph Simulation Api PolicyStore PolicyRules SimulationStore.
Import Model Transitions Graph Engine Store SimStore.

Module Routes.

Definition READ : string := "algorithm.policy.read".
Definition WRITE : string := "algorithm.policy.write".
Definition APPROVE : string := "algorithm.policy.approve".
Definition ACTIVATE : string := "algorithm.policy.activate".
Definition SIM_READ : string := "algorithm.simulation.read".
Definition SIM_WRITE : string := "algorithm.simulation.write".

Record api_db := ApiDb { policies : db; runs : table run_row }.
Definition with_policies (d : db) (s : api_db) : api_db := ApiDb d (runs s).

(** The result of a route that leaves a response [A]. *)
Definition route (A : Type) : Type := result (http_error store_error) (A * api_db).

Section WithText.
Context `{PyText}.

(** [str(exc)] of a [GraphInvalidError] *)
Definition graph_invalid_message (issues : list ValidationIssue) : string :=
  "policy version failed validation: " +:+
  str_join "; " (map (λ i, code i +:+ ": " +:+ message i) issues).
Definition issue_json (i : ValidationIssue) : json :=
  JObj [("code", JStr (code i)); ("message", JStr (message i)); ("node_key", opt_str (issue_node i))].

(** The text of the exceptions that are not [ValueError]s is never shown. *)
Definition exn_text (e : exn) : string :=
  match e with ValueError m => m | KeyError k => py_repr k | TypeError m => m | _ => "" end.

Definition domain_error (e : store_error) : ApiError :=
  match e with
  | GraphInvalidError issues =>
      {| status_code := 422; error_code := "graph_invalid"; error_message := graph_invalid_message issues;
         details := Some (map issue_json issues) |}
  | MakerCheckerViolation m =>
      {| status_code := 409; error_code := "maker_checker_violation"; error_message := m; details := None |}
  | ImmutableVersionError m =>
      {| status_code := 409; error_code := "version_immutable"; error_message := m; details := None |}
  | InvalidTransitionError m =>
      {| status_code := 409; error_code := "invalid_transition"; error_message := m; details := None |}
  | Failure x => {| status_code := 422; error_code := "invalid_request"; error_message := exn_text x; details := None |}
  | GraphFuel => {| status_code := 422; error_code := "invalid_request"; error_message := ""; details := None |}
  end.

(** [except (...) as exc: raise _domain_error(exc)] *)
Definition catching {A} (caught : store_error → bool) (m : result store_error A) : result (http_error store_error) A :=
  map_err (λ e, if caught e then Api (domain_error e) else Uncaught e) m.
Definition uncaught {A} (m : result store_error A) : result (http_error store_error) A := map_err Uncaught m.

(** Subclasses of [ValueError] *)
Definition is_value_error (e : store_error) : bool :=
  match e with
  | Failure (ValueError _) => true
  | Failure _ | GraphFuel => false
  | _ => true
  end.
Definition is_immutable (e : store_error) : bool := match e with ImmutableVersionError _ => true | _ => false end.
Definition is_invalid_transition (e : store_error) : bool := match e with InvalidTransitionError _ => true | _ => false end.
Definition is_submit_error (e : store_error) : bool :=
  match e with GraphInvalidError _ | InvalidTransitionError _ => true | _ => false end.
Definition is_activate_error (e : store_error) : bool :=
  match e with MakerCheckerViolation _ | InvalidTransitionError _ => true | _ => false end.

Definition get_version_or_404 (version_id : Z) (d : db) : result (http_error store_error) version_row :=
  match get_version version_id d with
  | Some r => Ok r
  | None => Err (api_error 404 "policy_version_not_found"
              ("policy_version " +:+ py_str_Z version_id +:+ " not found"))
  end.

Definition post_policy_graph (i : Identity) (name owner : string) (description : option string) (s : api_db)
    : route (Z * PolicyGraph) :=
  let! _ := require_permission WRITE i in
  let graph := {| pg_name := name; pg_owner := owner; pg_description := description |} in
  let '(graph_id, d') := create_policy_graph graph (policies s) in
  Ok ((graph_id, graph), with_policies d' s).

Definition post_draft_version (now : Z) (i : Identity) (graph_id version_number : Z) (s : api_db)
    : route (Z * version_row) :=
  let! _ := require_permission WRITE i in
  let! ' (version_id, d') := uncaught (create_draft_version now graph_id version_number (subject i) (policies s)) in
  let! row := get_version_or_404 version_id d' in
  Ok ((version_id, row), with_policies d' s).

Definition get_versions (i : Identity) (graph_id : Z) (s : api_db) : route (list (Z * version_row)) :=
  let! _ := require_permission READ i in
  Ok (list_versions_by_graph graph_id (policies s), s).

Definition post_fork (now : Z) (i : Identity) (version_id : Z) (s : api_db) : route (Z * version_row) :=
  let! _ := require_permission WRITE i in
  let! ' (new_id, d') := uncaught (fork_new_draft_version now version_id (subject i) (policies s)) in
  let! row := get_version_or_404 new_id d' in
  Ok ((new_id, row), with_policies d' s).

Definition get_version_content (i : Identity) (version_id : Z) (s : api_db)
    : route (version_row * (list PolicyNode * list PolicyEdge)) :=
  let! _ := require_permission READ i in
  let! version := get_version_or_404 version_id (policies s) in
  Ok ((version, (list_nodes version_id (policies s), list_edges version_id (policies s))), s).

(** The nodes of a request, already typed by pydantic, become nodes of the
    version in the path. The handler calls [get_version_content] directly,
    without its permission check. *)
Definition post_nodes (i : Identity) (version_id : Z) (payload : list PolicyNode) (s : api_db)
    : route (version_row * (list PolicyNode * list PolicyEdge)) :=
  let! _ := require_permission WRITE i in
  let! _ := get_version_or_404 version_id (policies s) in
  let! nodes := catching is_value_error
    (py_fail (mapM (λ p, PolicyNode_post_init (node_in_version version_id p)) payload)) in
  let! d' := catching is_immutable (add_nodes nodes (policies s)) in
  let! version := get_version_or_404 version_id d' in
  Ok ((version, (list_nodes version_id d', list_edges version_id d')), with_policies d' s).

Definition post_edges (i : Identity) (version_id : Z) (payload : list PolicyEdge) (s : api_db)
    : route (version_row * (list PolicyNode * list PolicyEdge)) :=
  let! _ := require_permission WRITE i in
  let! _ := get_version_or_404 version_id (policies s) in
  let! edges := catching is_value_error
    (py_fail (mapM (λ p, PolicyEdge_post_init (edge_in_version version_id p)) payload)) in
  let! d' := catching is_immutable (add_edges edges (policies s)) in
  let! version := get_version_or_404 version_id d' in
  Ok ((version, (list_nodes version_id d', list_edges version_id d')), with_policies d' s).

Definition post_validate (i : Identity) (version_id : Z) (s : api_db) : route (list ValidationIssue) :=
  let! _ := require_permission READ i in
  let! _ := get_version_or_404 version_id (policies s) in
  let! issues := uncaught (graph_fail
    (validate_graph (list_nodes version_id (policies s)) (list_edges version_id (policies s)))) in
  Ok (issues, s).

Definition post_transition (now : Z) (i : Identity) (version_id : Z) (to_status : string) (reason : option string)
    (s : api_db) : route version_row :=
  let! _ := require_permission WRITE i in
  let! d' := catching is_invalid_transition
    (transition_version_status now version_id to_status (subject i) reason (policies s)) in
  let! row := get_version_or_404 version_id d' in
  Ok (row, with_policies d' s).

Definition post_submit_for_approval (now : Z) (i : Identity) (version_id : Z) (reason : option string) (s : api_db)
    : route version_row :=
  let! _ := require_permission APPROVE i in
  let! d' := catching is_submit_error (submit_for_approval now version_id (subject i) reason (policies s)) in
  let! row := get_version_or_404 version_id d' in
  Ok (row, with_policies d' s).

Definition post_activate (now : Z) (i : Identity) (version_id : Z) (reason : option string) (s : api_db)
    : route version_row :=
  let! _ := require_permission ACTIVATE i in
  let! d' := catching is_activate_error (activate_version now version_id (subject i) reason (policies s)) in
  let! row := get_version_or_404 version_id d' in
  Ok (row, with_policies d' s).

Definition post_kill_switch (now : Z) (i : Identity) (version_id : Z) (reason : string) (s : api_db)
    : route version_row :=
  let! _ := require_permission ACTIVATE i in
  let! d' := catching is_value_error (kill_switch now version_id (subject i) reason (policies s)) in
  let! row := get_version_or_404 version_id d' in
  Ok (row, with_policies d' s).

Definition get_transitions (i : Identity) (version_id : Z) (s : api_db) : route (list (Z * transition_row)) :=
  let! _ := require_permission READ i in
  Ok (list_transitions_by_version version_id (policies s), s).

(** *** Simulation *)

Record SimulationCaseRequest := {
  cr_case_id : string;
  cr_inputs : env;
  cr_human_overrides : gmap string string;
  cr_monetary_amount : option string;
  cr_monetary_currency : option string;
  cr_actual_outcome_label : option string;
}.

Definition parse_amount (value : option string) : result (http_error store_error) (option decimal) :=
  match value with
  | None => Ok None
  | Some v =>
      match dec_of_string v with
      | Ok d => Ok (Some d)
      | Err _ => Err (api_error 422 "invalid_monetary_amount" ("not a valid decimal: " +:+ py_repr v))
      end
  end.

Definition case_of_request (c : SimulationCaseRequest) : result (http_error store_error) SimulationCase :=
  let! amount := parse_amount (cr_monetary_amount c) in
  Ok {| case_id := cr_case_id c; inputs := cr_inputs c; human_overrides := cr_human_overrides c;
        monetary_amount := amount; monetary_currency := cr_monetary_currency c;
        actual_outcome_label := cr_actual_outcome_label c |}.

Definition known_version (d : db) (v : Z) : bool :=
  match tbl_get (policy_versions d) v with Some _ => true | None => false end.

(** [assert run is not None] after the insert *)
Definition read_back (run_id : Z) (t : table run_row) : result (http_error store_error) run_row :=
  match get_simulation_run run_id t with
  | Some r => Ok r
  | None => Err (Uncaught (Failure (ValueError "AssertionError")))
  end.

Definition post_simulate (py_str : json → string) (now : Z) (i : Identity) (version_id : Z)
    (case_set_label case_source : string) (payload : list SimulationCaseRequest) (s : api_db) : route (Z * run_row) :=
  let! _ := require_permission SIM_WRITE i in
  let! _ := get_version_or_404 version_id (policies s) in
  let nodes := list_nodes version_id (policies s) in
  let edges := list_edges version_id (policies s) in
  let! cases := mapM case_of_request payload in
  let! traces := catching is_value_error (py_fail (run_simulation nodes edges cases)) in
  let! ' (run_id, t') := uncaught (py_fail (record_simulation_run py_str (known_version (policies s)) now version_id
    case_set_label case_source traces (subject i) (Some cases) None None (runs s))) in
  let! row := read_back run_id t' in
  Ok ((run_id, row), ApiDb (policies s) t').

Definition get_run (i : Identity) (run_id : Z) (s : api_db) : route run_row :=
  let! _ := require_permission SIM_READ i in
  match get_simulation_run run_id (runs s) with
  | Some r => Ok (r, s)
  | None => Err (api_error 404 "simulation_run_not_found" ("simulation run " +:+ py_str_Z run_id +:+ " not found"))
  end.

Definition get_case_traces (i : Identity) (run_id : Z) (s : api_db) : route (list json) :=
  let! _ := require_permission SIM_READ i in
  Ok (list_case_traces run_id (runs s), s).

Definition get_runs_for_version (i : Identity) (version_id : Z) (s : api_db) : route (list (Z * run_row)) :=
  let! _ := require_permission SIM_READ i in
  Ok (list_simulation_runs_by_version version_id (runs s), s).

Definition post_compare (now : Z) (i : Identity) (version_id other_id : Z) (case_set_label : string)
    (payload : list SimulationCaseRequest) (s : api_db) : route (Z * run_row) :=
  let! _ := require_permission SIM_WRITE i in
  let! _ := get_version_or_404 version_id (policies s) in
  let! _ := get_version_or_404 other_id (policies s) in
  let cases := map (λ c, {| case_id := cr_case_id c; inputs := cr_inputs c; human_overrides := cr_human_overrides c;
    monetary_amount := None; monetary_currency := None; actual_outcome_label := None |}) payload in
  let! comparisons := catching is_value_error (py_fail (compare_versions
    (list_nodes version_id (policies s)) (list_edges version_id (policies s))
    (list_nodes other_id (policies s)) (list_edges other_id (policies s)) cases)) in
  let! ' (run_id, t') := uncaught (py_fail (record_comparison_run (known_version (policies s)) now version_id other_id
    case_set_label comparisons (subject i) None (runs s))) in
  let! row := read_back run_id t' in
  Ok ((run_id, row), ApiDb (policies s) t').

(** *** Research dossiers *)

(** The request has every field but the author, who is the caller. *)
Definition dossier_by (author : string) (r : ResearchDossier) : ResearchDossier := {|
  decision_statement := decision_statement r; owners := owners r; approvers := approvers r;
  source_register := source_register r; assumptions := assumptions r; data_dictionary := data_dictionary r;
  formula_or_decision_table := formula_or_decision_table r;
  coefficients_and_rationale := coefficients_and_rationale r; validation_design := validation_design r;
  test_dataset_manifest := test_dataset_manifest r; results_and_limitations := results_and_limitations r;
  security_privacy_analysis := security_privacy_analysis r; monitoring_criteria := monitoring_criteria r;
  retirement_criteria := retirement_criteria r; rd_created_by := author;
  fairness_analysis := fairness_analysis r; approved_at := approved_at r; effective_from := effective_from r |}.

Definition post_research_dossier (now : Z) (i : Identity) (payload : ResearchDossier) (s : api_db)
    : route (Z * ResearchDossier) :=
  let! _ := require_permission WRITE i in
  let! dossier := catching is_value_error (py_fail (ResearchDossier_post_init (dossier_by (subject i) payload))) in
  let! ' (dossier_id, d') := uncaught (store_research_dossier now dossier (policies s)) in
  Ok ((dossier_id, dossier), with_policies d' s).

Definition get_research_dossier_route (i : Identity) (dossier_id : Z) (s : api_db) : route dossier_row :=
  let! _ := require_permission READ i in
  match get_research_dossier dossier_id (policies s) with
  | Some r => Ok (r, s)
  | None => Err (api_error 404 "research_dossier_not_found"
              ("research dossier " +:+ py_str_Z dossier_id +:+ " not found"))
  end.

Definition post_link_dossier (i : Identity) (version_id dossier_id : Z) (s : api_db) : route version_row :=
  let! _ := require_permission WRITE i in
  let! _ := get_version_or_404 version_id (policies s) in
  let! d' := uncaught (link_dossier_to_version version_id dossier_id (policies s)) in
  let! row := get_version_or_404 version_id d' in
  Ok (row, with_policies d' s).

(** ** All routes as one server *)

Inductive request :=
| RPostGraph (name owner : string) (description : option string)
| RPostDraft (graph_id version_number : Z)
| RGetVersions (graph_id : Z)
| RFork (version_id : Z)
| RGetContent (version_id : Z)
| RPostNodes (version_id : Z) (payload : list PolicyNode)
| RPostEdges (version_id : Z) (payload : list PolicyEdge)
| RValidate (version_id : Z)
| RTransition (version_id : Z) (to_status : string) (reason : option string)
| RSubmit (version_id : Z) (reason : option string)
| RActivate (version_id : Z) (reason : option string)
| RKill (version_id : Z) (reason : string)
| RGetTransitions (version_id : Z)
| RSimulate (version_id : Z) (label source : string) (payload : list SimulationCaseRequest)
| RGetRun (run_id : Z)
| RGetCaseTraces (run_id : Z)
| RGetRuns (version_id : Z)
| RCompare (version_id other_id : Z) (label : string) (payload : list SimulationCaseRequest)
| RPostDossier (payload : ResearchDossier)
| RGetDossier (dossier_id : Z)
| RLinkDossier (version_id dossier_id : Z).

(** The permission each route declares. *)
Definition permission_of (r : request) : string :=
  match r with
  | RGetVersions _ | RGetContent _ | RValidate _ | RGetTransitions _ | RGetDossier _ => READ
  | RPostGraph _ _ _ | RPostDraft _ _ | RFork _ | RPostNodes _ _ | RPostEdges _ _ | RTransition _ _ _
  | RPostDossier _ | RLinkDossier _ _ => WRITE
  | RSubmit _ _ => APPROVE
  | RActivate _ _ | RKill _ _ => ACTIVATE
  | RGetRun _ | RGetCaseTraces _ | RGetRuns _ => SIM_READ
  | RSimulate _ _ _ _ | RCompare _ _ _ _ => SIM_WRITE
  end.

(** The state a route leaves, or how it fails. *)
Definition serve (py_str : json → string) (now : Z) (i : Identity) (r : request) (s : api_db)
    : result (http_error store_error) api_db :=
  let leave {A} (m : route A) : result (http_error store_error) api_db := let! x := m in Ok x.2 in
  match r with
  | RPostGraph n o d => leave (post_policy_graph i n o d s)
  | RPostDraft g n => leave (post_draft_version now i g n s)
  | RGetVersions g => leave (get_versions i g s)
  | RFork v => leave (post_fork now i v s)
  | RGetContent v => leave (get_version_content i v s)
  | RPostNodes v p => leave (post_nodes i v p s)
  | RPostEdges v p => leave (post_edges i v p s)
  | RValidate v => leave (post_validate i v s)
  | RTransition v t x => leave (post_transition now i v t x s)
  | RSubmit v x => leave (post_submit_for_approval now i v x s)
  | RActivate v x => leave (post_activate now i v x s)
  | RKill v x => leave (post_kill_switch now i v x s)
  | RGetTransitions v => leave (get_transitions i v s)
  | RSimulate v l src p => leave (post_simulate py_str now i v l src p s)
  | RGetRun v => leave (get_run i v s)
  | RGetCaseTraces v => leave (get_case_traces i v s)
  | RGetRuns v => leave (get_runs_for_version i v s)
  | RCompare v w l p => leave (post_compare now i v w l p s)
  | RPostDossier p => leave (post_research_dossier now i p s)
  | RGetDossier v => leave (get_research_dossier_route i v s)
  | RLinkDossier v w => leave (post_link_dossier i v w s)
  end.

(** C12: Every route is denied without the permission it declares: whatever the
    request and the state, the caller gets a 403 and nothing is written. *)
Theorem routes_deny_by_default py_str now i r s :
  permission_of r ∉ permissions i →
  serve py_str now i r s = Err (api_error 403 "forbidden" ("missing permission: " +:+ permission_of r)) ∧
  match serve py_str now i r s with Ok s' => s' | Err _ => s end = s.
Proof.
  intros Hp. assert (∀ X, require_permission (X := X) (permission_of r) i =
    Err (api_error 403 "forbidden" ("missing permission: " +:+ permission_of r))) as Hd.
  { intros X. unfold require_permission, has_permission. by rewrite bool_decide_false. }
  assert (serve py_str now i r s = Err (api_error 403 "forbidden" ("missing permission: " +:+ permission_of r))) as ->;
    [|done].
  destruct r; specialize (Hd store_error); simpl in Hd |- *;
    unfold post_policy_graph, post_draft_version, get_versions, post_fork, get_version_content, post_nodes,
      post_edges, post_validate, post_transition, post_submit_for_approval, post_activate, post_kill_switch,
      get_transitions, post_simulate, get_run, get_case_traces, get_runs_for_version, post_compare,
      post_research_dossier, get_research_dossier_route, post_link_dossier; by rewrite Hd.
Qed.

Lemma catching_ok {A} p (m : result store_error A) a : catching p m = Ok a ↔ m = Ok a.
Proof. unfold catching. destruct m; simpl; [naive_solver|destruct (p e); naive_solver]. Qed.
Lemma uncaught_ok {A} (m : result store_error A) a : uncaught m = Ok a ↔ m = Ok a.
Proof. unfold uncaught. destruct m; simpl; naive_solver. Qed.

Ltac open_route H :=
  repeat match type of H with
  | rbind _ _ = Ok _ => let x := fresh "x" in let Hx := fresh "Hx" in
      apply rbind_ok in H as (x & Hx & H)
  | match ?p with (_, _) => _ end = Ok _ => let E := fresh "E" in destruct p eqn:E
  end.

Lemma mapM_nodes_in_version v payload nodes :
  mapM (λ p, PolicyNode_post_init (node_in_version v p)) payload = Ok nodes →
  Forall (λ n, policy_version_id n = v) nodes.
Proof.
  intros ->%mapM_node_post_init. apply Forall_forall. intros n (n' & -> & _)%list_elem_of_fmap. done.
Qed.
Lemma mapM_edges_in_version v payload edges :
  mapM (λ p, PolicyEdge_post_init (edge_in_version v p)) payload = Ok edges →
  Forall (λ e, edge_version_id e = v) edges.
Proof.
  intros ->%mapM_edge_post_init. apply Forall_forall. intros n (n' & -> & _)%list_elem_of_fmap. done.
Qed.

(** C17: The routes refine the store: a request that gets a response changes the
    policy tables by at most one call of the store, made as the rules of the
    store suppose; so everything proved of reachable policy tables holds at all
    times behind the HTTP interface. *)
Theorem routes_refine_store py_str now i r s s' :
  serve py_str now i r s = Ok s' → policies s' = policies s ∨ store_step (policies s) (policies s').
Proof.
  destruct r; simpl; intros Hs; apply rbind_ok in Hs as ([a s1] & Hs & [= <-]).
  - unfold post_policy_graph in Hs. open_route Hs. simplify_eq/=. right. by eapply step_create_graph.
  - unfold post_draft_version in Hs. open_route Hs. simplify_eq/=. apply uncaught_ok in Hx0. right. by eapply step_create_draft.
  - unfold get_versions in Hs. open_route Hs. simplify_eq/=. by left.
  - unfold post_fork in Hs. open_route Hs. simplify_eq/=. apply uncaught_ok in Hx0. right. by eapply step_fork.
  - unfold get_version_content in Hs. open_route Hs. simplify_eq/=. by left.
  - unfold post_nodes in Hs. open_route Hs. simplify_eq/=. right.
    apply catching_ok, py_fail_ok, mapM_nodes_in_version in Hx1. apply catching_ok in Hx2. eapply step_add_nodes; [eexists; apply Forall_map; exact Hx1|done].
  - unfold post_edges in Hs. open_route Hs. simplify_eq/=. right.
    apply catching_ok, py_fail_ok, mapM_edges_in_version in Hx1. apply catching_ok in Hx2. eapply step_add_edges; [eexists; apply Forall_map; exact Hx1|done].
  - unfold post_validate in Hs. open_route Hs. simplify_eq/=. by left.
  - unfold post_transition in Hs. open_route Hs. simplify_eq/=. apply catching_ok in Hx0. right. by eapply step_transition.
  - unfold post_submit_for_approval in Hs. open_route Hs. simplify_eq/=. apply catching_ok in Hx0. right. by eapply step_submit.
  - unfold post_activate in Hs. open_route Hs. simplify_eq/=. apply catching_ok in Hx0. right. by eapply step_activate.
  - unfold post_kill_switch in Hs. open_route Hs. simplify_eq/=. apply catching_ok in Hx0. right. by eapply step_kill.
  - unfold get_transitions in Hs. open_route Hs. simplify_eq/=. by left.
  - unfold post_simulate in Hs. open_route Hs. simplify_eq/=. by left.
  - unfold get_run in Hs. open_route Hs. destruct (get_simulation_run _ _); simplify_eq/=. by left.
  - unfold get_case_traces in Hs. open_route Hs. simplify_eq/=. by left.
  - unfold get_runs_for_version in Hs. open_route Hs. simplify_eq/=. by left.
  - unfold post_compare in Hs. open_route Hs. simplify_eq/=. by left.
  - unfold post_research_dossier in Hs. open_route Hs. simplify_eq/=. apply uncaught_ok in Hx1. right. by eapply step_dossier.
  - unfold get_research_dossier_route in Hs. open_route Hs. destruct (get_research_dossier _ _); simplify_eq/=. by left.
  - unfold post_link_dossier in Hs. open_route Hs. simplify_eq/=. apply uncaught_ok in Hx1. right. by eapply step_link.
Qed.
End WithText.

Definition editor : Identity := {| subject := "eve"; role := "editor"; permissions := {[WRITE]} |}.
Definition fresh : api_db := ApiDb (empty_db ∅) tbl_empty.

Lemma routes_deny_by_default_witness :
  serve (H := ascii_text) (λ _, "") 0 editor (RActivate 1 None) fresh =
    Err (api_error 403 "forbidden" "missing permission: algorithm.policy.activate").
Proof.
  destruct (routes_deny_by_default (H := ascii_text) (λ _, "") 0 editor (RActivate 1 None) fresh) as [Hd _].
  - refine (bool_decide_eq_false_1 _ _). vm_compute. reflexivity.
  - exact Hd.
Defined.

Lemma routes_refine_store_witness :
  ∃ s', serve (H := ascii_text) (λ _, "") 0 editor (RPostGraph "bid" "ann" None) fresh = Ok s' ∧
    (policies s' = policies fresh ∨ store_step (H := ascii_text) (policies fresh) (policies s')).
Proof.
  eexists. split; [reflexivity|].
  exact (routes_refine_store (H := ascii_text) (λ _, "") 0 editor (RPostGraph "bid" "ann" None) fresh _ eq_refl).
Defined.

(** ** Where the routes stop short *)

(** A sequence of requests of one caller. *)
Definition session (i : Identity) (rs : list request) (s : api_db) : result (http_error store_error) api_db :=
  foldM (λ s r, serve (H := ascii_text) (λ _, "") 0 i r s) s rs.

(** The generic transition route does not exclude the gated transitions: a
    caller who may only write takes an empty graph, which [validate_graph]
    rejects, from draft through approved to active, alone and without either
    gate. *)
Theorem transition_route_bypasses_gates :
  let requests := [RPostGraph "bid" "eve" None; RPostDraft 1 1] ++
    map (λ t, RTransition 1 t None) ["simulation"; "business_review"; "risk_review"; "approved"; "active"] in
  permissions editor = {[WRITE]} ∧
  ∃ s, session editor requests fresh = Ok s ∧ active_of 1 (policies s) = [1%Z] ∧
    validate_graph (H := ascii_text) (list_nodes 1 (policies s)) (list_edges 1 (policies s)) =
      Ok [{| code := "empty_graph"; message := "graph has no nodes"; issue_node := None |}].
Proof. split; [reflexivity|]. eexists. split; [vm_compute; reflexivity|]. split; vm_compute; reflexivity. Qed.

(** Domain errors do reach the handler of last resort: a draft with version
    number 0 and an activation of a version that does not exist raise a
    [ValueError] no route catches, and the response is a 500. *)
Lemma domain_errors_uncaught `{PyText} now i s :
  (WRITE ∈ permissions i → ∀ g,
    envelope_response (match post_draft_version now i g 0 s with Err e => e | Ok _ => Api
      {| status_code := 200; error_code := ""; error_message := ""; details := None |} end) =
      (500%Z, "internal_error", "unexpected server error", None)) ∧
  (ACTIVATE ∈ permissions i → ∀ v reason, tbl_get (policy_versions (policies s)) v = None →
    envelope_response (match post_activate now i v reason s with Err e => e | Ok _ => Api
      {| status_code := 200; error_code := ""; error_message := ""; details := None |} end) =
      (500%Z, "internal_error", "unexpected server error", None)).
Proof.
  split.
  - intros Hw g. unfold post_draft_version. rewrite (proj2 (require_permission_ok WRITE i i)) by done. done.
  - intros Ha v reason Hv. unfold post_activate. rewrite (proj2 (require_permission_ok ACTIVATE i i)) by done.
    simpl. unfold activate_version. by rewrite Hv.
Qed.
End Routes.
