(* ===== verification/OfficialSources.v ===== *)
(** * The registry of official sources

    [packages/algorithm/official_source_registry_model.py] and
    [official_source_registry_store.py]: append-only rows with a validity window,
    looked up by the instant they are asked for. *)

From stdpp Require Import base strings list gmap.
From Stdlib Require Import ZArith Lia.
From S2P Require Import Prelude Datetime.

Module Sources.

Definition source_types : list string := ["law"; "fx_rate"; "vat_rate"; "price_index"].

Record OfficialSource := {
  os_source_type : string;
  os_name : string;
  os_citation : string;
  os_value : string;
  os_effective_from : string;
  os_entered_by : string;
  os_entered_at : string;
  os_effective_to : option string;
}.

(** A stored row has the instants. *)
Record source_row := {
  so_type : string;
  so_name : string;
  so_citation : string;
  so_value : string;
  so_from : Z;
  so_to : option Z;
  so_entered_by : string;
  so_entered_at : Z;
}.

Section WithText.
Context `{PyText}.

Definition OfficialSource_post_init (s : OfficialSource) : result exn OfficialSource :=
  raise_if bool_decide (os_source_type s ∉ source_types)
    with ValueError ("unknown source_type: " +:+ py_repr (os_source_type s)) ;;
  raise_if is_blank (os_citation s) with ValueError "citation must be non-empty (INV-15: a sourced fact needs its source)" ;;
  raise_if is_blank (os_value s) with ValueError "value must be non-empty" ;;
  Ok s.

Definition instant (s : string) : result exn Z := let! d := fromisoformat s in Ok (to_timestamptz d).

(** [effective_to] empty is stored as NULL. *)
Definition store_official_source (s : OfficialSource) (t : table source_row) : result exn (Z * table source_row) :=
  let! from := instant (os_effective_from s) in
  let! to := match os_effective_to s with
             | Some e => if String.eqb e "" then Ok None else let! x := instant e in Ok (Some x)
             | None => Ok None
             end in
  let! entered := instant (os_entered_at s) in
  Ok (tbl_insert t {| so_type := os_source_type s; so_name := os_name s; so_citation := os_citation s;
    so_value := os_value s; so_from := from; so_to := to; so_entered_by := os_entered_by s; so_entered_at := entered |}).

(** [effective_from <= as_of AND (effective_to IS NULL OR effective_to > as_of)] *)
Definition covers (as_of : Z) (r : source_row) : bool :=
  (so_from r <=? as_of)%Z && match so_to r with None => true | Some e => (as_of <? e)%Z end.

(** [ORDER BY effective_from DESC LIMIT 1]; among equal starts the database may
    give any row, here the first inserted. *)
Definition latest (l : list (Z * source_row)) : option (Z * source_row) :=
  foldl (λ best r, match best with
    | None => Some r
    | Some b => if (so_from b.2 <? so_from r.2)%Z then Some r else best
    end) None l.

Definition get_effective_source (source_type name as_of : string) (t : table source_row)
    : result exn (option (Z * source_row)) :=
  let! at_ := instant as_of in
  Ok (latest (tbl_select (λ _ r, String.eqb (so_type r) source_type && String.eqb (so_name r) name && covers at_ r) t)).

(** [ORDER BY name, effective_from] *)
Definition before (a b : Z * source_row) : bool :=
  bool_decide (so_name a.2 ≠ so_name b.2 ∧ String.le (so_name a.2) (so_name b.2)) ||
  (String.eqb (so_name a.2) (so_name b.2) && (so_from a.2 <=? so_from b.2)%Z).
Fixpoint insert_source (r : Z * source_row) (l : list (Z * source_row)) : list (Z * source_row) :=
  match l with [] => [r] | r' :: l' => if before r r' then r :: l else r' :: insert_source r l' end.
Definition list_sources_by_type (source_type : string) (t : table source_row) : list (Z * source_row) :=
  foldr insert_source [] (tbl_select (λ _ r, String.eqb (so_type r) source_type) t).

Lemma latest_spec l best :
  latest l = best →
  match best with
  | None => l = []
  | Some r => r ∈ l ∧ ∀ x, x ∈ l → (so_from x.2 <= so_from r.2)%Z
  end.
Proof.
  intros <-. unfold latest. induction l as [|x l IH] using rev_ind; [done|].
  rewrite foldl_app. simpl. destruct (foldl _ None l) as [b|].
  - destruct IH as [Hin Hmax]. destruct (so_from b.2 <? so_from x.2)%Z eqn:Hlt.
    + apply Z.ltb_lt in Hlt. split; [set_solver|]. intros y [Hy|Hy]%elem_of_app.
      * specialize (Hmax y Hy). lia.
      * apply list_elem_of_singleton in Hy as ->. lia.
    + apply Z.ltb_ge in Hlt. split; [set_solver|]. intros y [Hy|Hy]%elem_of_app; [by apply Hmax|].
      apply list_elem_of_singleton in Hy as ->. lia.
  - subst l. split; [set_solver|]. intros y Hy. apply list_elem_of_singleton in Hy as ->. lia.
Qed.

(** A lookup by type, name and instant answers with a row of that type and
    name whose window covers the instant and whose start is the latest among
    all such rows, and answers with nothing only when there is no such row. *)
Theorem effective_source_latest source_type name as_of t at_ :
  instant as_of = Ok at_ →
  ∃ best, get_effective_source source_type name as_of t = Ok best ∧
    let valid := λ ir, ir ∈ rows t ∧ so_type ir.2 = source_type ∧ so_name ir.2 = name ∧
      (so_from ir.2 <= at_)%Z ∧ (∀ e, so_to ir.2 = Some e → (at_ < e)%Z) in
    match best with
    | Some r => valid r ∧ ∀ r', valid r' → (so_from r'.2 <= so_from r.2)%Z
    | None => ∀ r', ¬ valid r'
    end.
Proof.
  intros Hat. unfold get_effective_source. rewrite Hat. simpl.
  assert (∀ ir, ir ∈ tbl_select (λ _ r, String.eqb (so_type r) source_type && String.eqb (so_name r) name && covers at_ r) t ↔
    ir ∈ rows t ∧ so_type ir.2 = source_type ∧ so_name ir.2 = name ∧
      (so_from ir.2 <= at_)%Z ∧ (∀ e, so_to ir.2 = Some e → (at_ < e)%Z)) as Hsel.
  { intros [i r]. rewrite elem_of_tbl_select, !andb_true_iff, !String.eqb_eq. unfold covers.
    rewrite andb_true_iff, Z.leb_le. simpl. destruct (so_to r) as [e|]; [rewrite Z.ltb_lt|]; naive_solver. }
  eexists. split; [done|]. simpl.
  match goal with |- context [latest ?l] => generalize (latest_spec l _ eq_refl); destruct (latest l) as [r|] end.
  - intros [Hin Hmax]. split; [by apply Hsel|]. intros r' Hr'. by apply Hmax, Hsel.
  - intros Hnil r' Hr'. apply Hsel in Hr'. rewrite Hnil in Hr'. by apply elem_of_nil in Hr'.
Qed.
End WithText.

Lemma effective_source_latest_witness :
  ∃ best, get_effective_source (H := ascii_text) "vat_rate" "VAT" "2026-01-01" tbl_empty = Ok best ∧ best = None.
Proof.
  destruct (effective_source_latest (H := ascii_text) "vat_rate" "VAT" "2026-01-01" tbl_empty 1767225600000000)
    as (best & Hb & _); [vm_compute; reflexivity|].
  exists best. split; [exact Hb|]. vm_compute in Hb. injection Hb as <-. reflexivity.
Defined.
End Sources.
