(* ===== verification/Query.v ===== *)
(** * Queries the stores share

    [ORDER BY], row counts and [UPDATE ... WHERE] over the tables of [Prelude].
    Where the order of a query leaves ties the database may return any of the
    tied rows first; [order_by] keeps the order of insertion. *)

From stdpp Require Import base sets strings list sorting.
From Stdlib Require Import ZArith Lia.
From S2P Require Import Prelude.

(** [ORDER BY]: a stable sort by a boolean order. *)
Section OrderBy.
Context {A : Type} (le : A → A → bool).

Fixpoint insert_by (x : A) (l : list A) : list A :=
  match l with
  | [] => [x]
  | y :: l' => if le x y then x :: l else y :: insert_by x l'
  end.

Definition order_by (l : list A) : list A := foldr insert_by [] l.

Lemma insert_by_perm x l : insert_by x l ≡ₚ x :: l.
Proof.
  induction l as [|y l IH]; simpl; [done|]. destruct (le x y); [done|].
  rewrite IH. by rewrite Permutation_swap.
Qed.

Lemma order_by_perm l : order_by l ≡ₚ l.
Proof. induction l as [|x l IH]; simpl; [done|]. by rewrite insert_by_perm, IH. Qed.

Lemma elem_of_order_by x l : x ∈ order_by l ↔ x ∈ l.
Proof. by rewrite order_by_perm. Qed.

Lemma order_by_nil l : order_by l = [] ↔ l = [].
Proof.
  split; [|by intros ->]. intros Hl. apply Permutation_nil_r. rewrite <-(order_by_perm l). by rewrite Hl.
Qed.

Context (le_total : ∀ x y, le x y = true ∨ le y x = true).
Context (le_trans : ∀ x y z, le x y = true → le y z = true → le x z = true).

Lemma insert_by_sorted x l :
  StronglySorted (λ a b, le a b = true) l → StronglySorted (λ a b, le a b = true) (insert_by x l).
Proof using le_total le_trans.
  induction 1 as [|y l Hl IH Hy]; simpl; [repeat constructor|]. destruct (le x y) eqn:Hxy.
  - constructor; [by constructor|]. constructor; [done|]. eapply Forall_impl; [exact Hy|]. simpl. eauto.
  - constructor; [done|]. rewrite insert_by_perm. constructor; [|done].
    destruct (le_total x y); congruence.
Qed.

Lemma order_by_sorted l : StronglySorted (λ a b, le a b = true) (order_by l).
Proof using le_total le_trans. induction l; simpl; [constructor|by apply insert_by_sorted]. Qed.

(** [ORDER BY ... LIMIT 1] is a minimal row. *)
Lemma order_by_head l x rest :
  order_by l = x :: rest → x ∈ l ∧ ∀ y, y ∈ l → le x y = true ∨ y = x.
Proof using le_total le_trans.
  intros Hl. pose proof (order_by_sorted l) as Hs. rewrite Hl in Hs.
  apply StronglySorted_inv in Hs as [_ Hx]. rewrite Forall_forall in Hx.
  split; [apply elem_of_order_by; rewrite Hl; by left|].
  intros y Hy%elem_of_order_by. rewrite Hl in Hy. apply elem_of_cons in Hy as [->|Hy]; [by right|left; auto].
Qed.
(** [min(l)] with a key: the first best element of a loop that replaces it by a
    strictly better one. *)
Lemma foldl_best x l :
  let r := foldl (λ best y, if le best y then best else y) x l in
  r ∈ x :: l ∧ ∀ y, y ∈ x :: l → le r y = true.
Proof using le_total le_trans.
  simpl. revert x; induction l as [|z l IH]; intros x; simpl.
  - split; [by left|]. intros y Hy%list_elem_of_singleton. subst. by destruct (le_total x x).
  - destruct (IH (if le x z then x else z)) as [Hin Hbest]. split.
    + destruct (le x z); [|by right]. apply elem_of_cons in Hin as [->|Hin]; [by left|by do 2 right].
    + assert (∀ w, w = x ∨ w = z → le (if le x z then x else z) w = true) as Hw.
      { intros w [->| ->]; destruct (le x z) eqn:Hz; try done; [by destruct (le_total x x)| |by destruct (le_total z z)].
        destruct (le_total x z); congruence. }
      intros y [->|[->|Hy]%elem_of_cons]%elem_of_cons.
      * eapply le_trans; [apply Hbest; by left|apply Hw; by left].
      * eapply le_trans; [apply Hbest; by left|apply Hw; by right].
      * apply Hbest. by right.
Qed.
End OrderBy.

Lemma sorted_take {A} (R : A → A → Prop) n l : StronglySorted R l → StronglySorted R (take n l).
Proof.
  intros Hl. revert n; induction Hl as [|x l Hl IH Hx]; intros [|n]; simpl; try constructor; [done|].
  by apply Forall_take.
Qed.

Lemma sorted_impl {A} (R R' : A → A → Prop) l :
  (∀ x y, R x y → R' x y) → StronglySorted R l → StronglySorted R' l.
Proof. intros HR. induction 1; constructor; [done|]. eapply Forall_impl; eauto. Qed.

Lemma sorted_filter {A} (R : A → A → Prop) (P : A → Prop) `{∀ x, Decision (P x)} l :
  StronglySorted R l → StronglySorted R (filter P l).
Proof.
  induction 1 as [|x l Hl IH Hx]; [constructor|]. rewrite filter_cons. case_decide; [|done].
  constructor; [done|]. rewrite Forall_forall in *. intros y [_ Hy]%list_elem_of_filter. by apply Hx.
Qed.

Lemma seqZ_sorted m n : StronglySorted Z.lt (seqZ m n).
Proof.
  destruct (decide (n <= 0)%Z) as [Hn|Hn]; [rewrite seqZ_nil by lia; constructor|].
  replace n with (Z.of_nat (Z.to_nat n)) by lia. generalize (Z.to_nat n) as k. clear n Hn.
  intros k. revert m. induction k as [|k IH]; intros m; [constructor|].
  rewrite seqZ_cons by lia. replace (Z.pred (Z.of_nat (S k))) with (Z.of_nat k) by lia.
  constructor; [done|]. apply Forall_forall. intros z Hz%elem_of_seqZ. lia.
Qed.

(** A sort by an integer column, ascending or descending. *)
Definition asc {A} (key : A → Z) (x y : A) : bool := (key x <=? key y)%Z.
Definition desc {A} (key : A → Z) (x y : A) : bool := (key y <=? key x)%Z.

Lemma asc_total {A} (key : A → Z) x y : asc key x y = true ∨ asc key y x = true.
Proof. unfold asc. rewrite !Z.leb_le. lia. Qed.
Lemma asc_trans {A} (key : A → Z) x y z : asc key x y = true → asc key y z = true → asc key x z = true.
Proof. unfold asc. rewrite !Z.leb_le. lia. Qed.
Lemma desc_total {A} (key : A → Z) x y : desc key x y = true ∨ desc key y x = true.
Proof. unfold desc. rewrite !Z.leb_le. lia. Qed.
Lemma desc_trans {A} (key : A → Z) x y z : desc key x y = true → desc key y z = true → desc key x z = true.
Proof. unfold desc. rewrite !Z.leb_le. lia. Qed.

Lemma order_by_asc_head {A} (key : A → Z) l x rest :
  order_by (asc key) l = x :: rest → x ∈ l ∧ ∀ y, y ∈ l → (key x <= key y)%Z.
Proof.
  intros [Hx Hmin]%order_by_head; [|apply asc_total|apply asc_trans].
  split; [done|]. intros y Hy. destruct (Hmin y Hy) as [Hle| ->]; [|lia]. unfold asc in Hle. lia.
Qed.

Lemma order_by_desc_head {A} (key : A → Z) l x rest :
  order_by (desc key) l = x :: rest → x ∈ l ∧ ∀ y, y ∈ l → (key y <= key x)%Z.
Proof.
  intros [Hx Hmin]%order_by_head; [|apply desc_total|apply desc_trans].
  split; [done|]. intros y Hy. destruct (Hmin y Hy) as [Hle| ->]; [|lia]. unfold desc in Hle. lia.
Qed.

(** [interval] arithmetic: instants are microseconds. *)
Definition seconds (n : Z) : Z := (n * 1000000)%Z.
Definition hours (n : Z) : Z := seconds (n * 3600).

Section Updates.
Context {R : Type}.
Implicit Types (t : table R) (r : R).

(** The number of rows a statement's [WHERE] selects ([result.rowcount]). *)
Definition rowcount (p : Z → R → bool) t : nat := length (tbl_select p t).

(** [WHERE id = i AND p] *)
Definition at_id (i : Z) (p : R → bool) : Z → R → bool := λ j r, bool_decide (j = i) && p r.

(** [SELECT key, count( * ) ... GROUP BY key] *)
Fixpoint count_key (k : string) (l : list (string * Z)) : list (string * Z) :=
  match l with
  | [] => [(k, 1%Z)]
  | (k', n) :: l' => if String.eqb k k' then (k', (n + 1)%Z) :: l' else (k', n) :: count_key k l'
  end.
Definition group_count (key : R → string) t : list (string * Z) :=
  foldl (λ acc ir, count_key (key ir.2) acc) [] (rows t).

Lemma elem_of_tbl_update p f t i r' :
  (i, r') ∈ rows (tbl_update p f t) ↔ ∃ r, (i, r) ∈ rows t ∧ r' = if p i r then f r else r.
Proof.
  unfold tbl_update; simpl. rewrite list_elem_of_fmap. split.
  - intros ([j r] & Heq & Hin). simpl in Heq. destruct (p j r) eqn:Hp; simplify_eq; exists r; by rewrite Hp.
  - intros (r & Hin & ->). exists (i, r). simpl. by destruct (p i r).
Qed.

Lemma tbl_get_update p f t i :
  tbl_wf t → tbl_get (tbl_update p f t) i = (λ r, if p i r then f r else r) <$> tbl_get t i.
Proof.
  intros Hw. destruct (tbl_get t i) as [r|] eqn:Hg; simpl.
  - apply tbl_get_spec; [by apply tbl_update_wf|]. apply elem_of_tbl_update.
    exists r. by rewrite <-tbl_get_spec.
  - apply tbl_get_None_select. intros r (r0 & Hin & _)%elem_of_tbl_update.
    by apply (proj1 (tbl_get_None_select t i) Hg r0).
Qed.

Lemma rowcount_at_id i p t :
  tbl_wf t → (rowcount (at_id i p) t = 0)%nat ↔ ¬ ∃ r, tbl_get t i = Some r ∧ p r = true.
Proof.
  intros Hw. unfold rowcount. rewrite length_zero_iff_nil, nil_no_elem. split.
  - intros Hn (r & Hr & Hp). apply (Hn (i, r)). rewrite elem_of_tbl_select, <-tbl_get_spec by done.
    unfold at_id. by rewrite bool_decide_true.
  - intros Hn [j r] [Hp Hin]%elem_of_tbl_select. unfold at_id in Hp.
    apply andb_true_iff in Hp as [Hj%bool_decide_eq_true Hp]. subst j. apply Hn. exists r. by rewrite tbl_get_spec.
Qed.

Lemma tbl_get_update_at_eq i p f t :
  tbl_wf t → tbl_get (tbl_update (at_id i p) f t) i = (λ r, if p r then f r else r) <$> tbl_get t i.
Proof. intros Hw. rewrite tbl_get_update by done. unfold at_id. by rewrite bool_decide_true. Qed.

Lemma tbl_get_update_at_ne i j p f t :
  tbl_wf t → j ≠ i → tbl_get (tbl_update (at_id i p) f t) j = tbl_get t j.
Proof.
  intros Hw Hne. rewrite tbl_get_update by done. unfold at_id. rewrite bool_decide_false by done.
  simpl. by destruct (tbl_get t j).
Qed.
(** A selection whose condition the update does not touch is updated row by row. *)
Lemma tbl_select_update_map (q p : Z → R → bool) (f : R → R) t :
  (∀ i r, q i (f r) = q i r) →
  tbl_select q (tbl_update p f t) = map (λ ir, if p ir.1 ir.2 then (ir.1, f ir.2) else ir) (tbl_select q t).
Proof.
  intros Hq. unfold tbl_select, tbl_update. simpl. induction (rows t) as [|[i r] l IH]; simpl; [done|].
  rewrite !filter_cons. destruct (p i r) eqn:Hp; simpl; rewrite ?Hq; destruct (q i r); simpl; rewrite ?Hp, IH; done.
Qed.
End Updates.

#[export] Hint Rewrite @tbl_get_update_at_eq using done : uw.

(** A condition on all rows, and a condition that rows with the same key are the
    same row, are kept by a new row that satisfies them. *)
Lemma insert_get {R} (t : table R) r (P : R → Prop) : tbl_wf t → (∀ i x, tbl_get t i = Some x → P x) → P r →
  ∀ i x, tbl_get (tbl_insert t r).2 i = Some x → P x.
Proof.
  intros Hw Ht Hr i x. destruct (decide (i = next_id t)) as [->|Hi]; [rewrite tbl_get_insert_new by done; by intros [= <-]|].
  rewrite tbl_get_insert_old by done. apply Ht.
Qed.
Lemma insert_once {R} (t : table R) r (same : R → R → Prop) : tbl_wf t → Symmetric same →
  (∀ i x j y, tbl_get t i = Some x → tbl_get t j = Some y → same x y → i = j) →
  (∀ i x, tbl_get t i = Some x → ¬ same x r) →
  ∀ i x j y, tbl_get (tbl_insert t r).2 i = Some x → tbl_get (tbl_insert t r).2 j = Some y → same x y → i = j.
Proof.
  intros Hw Hsym Ht Hr i x j y. destruct (decide (i = next_id t)) as [->|Hi], (decide (j = next_id t)) as [->|Hj]; [done|..];
    rewrite ?tbl_get_insert_new, ?tbl_get_insert_old by done.
  - intros [= <-] Hy Hs. by destruct (Hr j y Hy).
  - intros Hx [= <-] Hs. by destruct (Hr i x Hx).
  - eauto.
Qed.

(** [GROUP BY] counts: one entry for each key that occurs, with its number. *)
Fixpoint occurrences {A} (key : A → string) (k : string) (l : list A) : Z :=
  match l with
  | [] => 0
  | a :: l' => (if String.eqb k (key a) then 1 else 0) + occurrences key k l'
  end%Z.

Lemma occurrences_app {A} (key : A → string) k l1 l2 :
  occurrences key k (l1 ++ l2) = (occurrences key k l1 + occurrences key k l2)%Z.
Proof. induction l1; simpl; lia. Qed.
Lemma occurrences_nonneg {A} (key : A → string) k l : (0 <= occurrences key k l)%Z.
Proof. induction l; simpl; [lia|]. destruct (String.eqb _ _); lia. Qed.
Lemma occurrences_pos {A} (key : A → string) k l : (0 < occurrences key k l)%Z ↔ ∃ a, a ∈ l ∧ key a = k.
Proof.
  induction l as [|a l IH]; simpl.
  - split; [lia|]. by intros (a & Ha%elem_of_nil & _).
  - pose proof (occurrences_nonneg key k l). destruct (String.eqb_spec k (key a)) as [->|Hne].
    + split; [|lia]. intros _. exists a. by split; [left|].
    + rewrite Z.add_0_l, IH. setoid_rewrite elem_of_cons. split; [naive_solver|]. intros (a' & [->|?] & ?); [congruence|eauto].
Qed.

(** The counts of a list: distinct keys, each with its positive number. *)
Definition counts_of {A} (key : A → string) (l : list A) (cs : list (string * Z)) : Prop :=
  NoDup cs.*1 ∧ ∀ k n, (k, n) ∈ cs ↔ n = occurrences key k l ∧ (0 < n)%Z.

Lemma count_key_keys k l : (count_key k l).*1 = if bool_decide (k ∈ l.*1) then l.*1 else l.*1 ++ [k].
Proof.
  induction l as [|[k' n] l IH]; csimpl; [done|]. destruct (String.eqb_spec k k') as [->|Hne]; csimpl.
  - by rewrite bool_decide_true by (by left).
  - rewrite IH. destruct (decide (k ∈ l.*1)) as [Hin|Hin].
    + by rewrite (bool_decide_true (k ∈ l.*1)), bool_decide_true by (by try right).
    + by rewrite (bool_decide_false (k ∈ l.*1)), bool_decide_false by (try done; by intros [?|?]%elem_of_cons).
Qed.

Lemma count_key_elem k l k' n :
  NoDup l.*1 →
  (k', n) ∈ count_key k l ↔ (k' ≠ k ∧ (k', n) ∈ l) ∨ (k' = k ∧ ((k, n - 1)%Z ∈ l ∨ ((k ∉ l.*1) ∧ n = 1%Z))).
Proof.
  induction l as [|[k0 m] l IH]; csimpl; intros Hnd.
  - rewrite list_elem_of_singleton. split; [intros [= -> ->]; right; split; [done|right; split; [apply not_elem_of_nil|done]]|].
    intros [[_ []%elem_of_nil]|[-> [[]%elem_of_nil|[_ ->]]]]. done.
  - apply NoDup_cons in Hnd as [Hk0 Hnd]. destruct (String.eqb_spec k k0) as [->|Hne].
    + rewrite !elem_of_cons. split.
      * intros [[= -> ->]|Hin]; [right; split; [done|]; left; left; f_equal; lia|].
        left. split; [|by right]. intros ->. apply Hk0. apply list_elem_of_fmap. by exists (k0, n).
      * intros [[Hn [[= -> ->]|Hin]]|[-> [[Heq|Hin]|[Hn _]]]]; [done|by right| | |by destruct Hn; left].
        -- left. injection Heq as Heq. f_equal. lia.
        -- destruct Hk0. apply list_elem_of_fmap. by exists (k0, (n - 1)%Z).
    + rewrite !elem_of_cons, IH by done. split.
      * intros [[= -> ->]|[[Hn Hin]|[-> Hin]]]; [left; split; [done|by left]|left; split; [done|by right]|].
        right. split; [done|]. destruct Hin as [Hin|[Hn ->]]; [by left; right|right]. split; [|done].
        intros [?|?]; done.
      * intros [[Hn [Heq|Hin]]|[-> [[Heq|Hin]|[Hn ->]]]]; [by left|right; by left| |right; right; by auto|].
        -- injection Heq as Heq _. done.
        -- right; right. split; [done|]. right. split; [|done]. intros ?. apply Hn. by right.
Qed.

Lemma counts_spec {A} (key : A → string) (l : list A) : counts_of key l (foldl (λ acc a, count_key (key a) acc) [] l).
Proof.
  induction l as [|a l [Hnd IH]] using rev_ind.
  - split; [constructor|]. intros k n. simpl. split; [by intros []%elem_of_nil|lia].
  - rewrite foldl_app. simpl. split.
    + rewrite count_key_keys. case_bool_decide as Hk; [done|]. apply NoDup_app. split_and!; [done| |apply NoDup_singleton].
      intros x Hx Hx'%list_elem_of_singleton. by subst.
    + intros k n. rewrite count_key_elem by done. rewrite IH, occurrences_app. simpl.
      pose proof (occurrences_nonneg key k l) as Hge.
      assert (key a ∉ (foldl (λ acc a, count_key (key a) acc) [] l).*1 ↔ occurrences key (key a) l = 0%Z) as Hnone.
      { rewrite list_elem_of_fmap. pose proof (occurrences_nonneg key (key a) l). split.
        - intros Hn. destruct (decide (0 < occurrences key (key a) l)%Z); [|lia]. destruct Hn.
          exists (key a, occurrences key (key a) l). split; [done|]. apply IH. done.
        - intros H0 ([k' n'] & Hk & Hin%IH). simpl in Hk. subst. lia. }
      rewrite Hnone, IH. destruct (String.eqb_spec k (key a)) as [->|Hne]; split; try lia; naive_solver lia.
Qed.

(** ** Pages of a listing ordered by a key *)

Section Pages.
Context {A : Type} (key : A → Z).
#[local] Open Scope Z_scope.
Implicit Types (L : list A) (x : A).

(** What comes after a key *)
Definition beyond (a : Z) L : list A := filter (λ x, a < key x) L.
Definition key_sorted L : Prop := StronglySorted (λ x y, key x < key y) L.

Lemma beyond_split x p q : key_sorted (p ++ x :: q) → beyond (key x) (p ++ x :: q) = q.
Proof.
  unfold beyond. intros Hs. rewrite filter_app, filter_cons, decide_False by lia. apply StronglySorted_app in Hs as (Hpq & _ & Hq).
  inversion_clear Hq as [|? ? _ Hx]. replace (filter _ p) with (@nil A).
  - simpl. induction Hx as [|y q Hy _ IH]; [done|]. rewrite filter_cons, decide_True by done. f_equal. apply IH.
    intros z w Hz Hw. apply Hpq; set_solver.
  - induction p as [|y p IH]; [done|]. rewrite filter_cons, decide_False; [apply IH; intros; apply Hpq; set_solver|].
    intros Hy. assert (key y < key x) by (apply Hpq; set_solver). lia.
Qed.

Lemma beyond_all a L : (∀ x, x ∈ L → a < key x) → beyond a L = L.
Proof.
  unfold beyond. induction L as [|x L IH]; intros Hall; [done|]. rewrite filter_cons, decide_True by (apply Hall; by left).
  f_equal. apply IH. intros; apply Hall; by right.
Qed.

(** The listing after the last entry of a page is the rest of the listing. *)
Lemma beyond_page a L n x : key_sorted L → last (take n (beyond a L)) = Some x → beyond (key x) L = drop n (beyond a L).
Proof.
  intros Hs Hlast. apply last_Some in Hlast as [p Hp].
  assert (beyond a L = p ++ x :: drop n (beyond a L)) as Hl by (rewrite <-(take_drop n (beyond a L)) at 1; by rewrite Hp, <-app_assoc).
  assert (a < key x) as Hax.
  { assert (x ∈ beyond a L) as Hx by (rewrite Hl; set_solver). unfold beyond in Hx. by apply list_elem_of_filter in Hx as [? _]. }
  transitivity (beyond (key x) (beyond a L)).
  - unfold beyond. rewrite list_filter_filter. apply list_filter_iff. intros r. lia.
  - assert (key_sorted (beyond a L)) as Hb by by apply sorted_filter. rewrite Hl in Hb |- * at 1. by apply beyond_split.
Qed.
End Pages.
