(* ===== verification/Jobs.v ===== *)
(** * Durable jobs

    [packages/platform/jobs.py]: the [jobs] table ([migrations/0002]) and the
    operations workers run against it, each one transaction; the two statements
    of [fail_retry] are apart, since others commit between them. [now] is the
    transaction's time in microseconds. [claim] skips rows another transaction
    has locked ([FOR UPDATE SKIP LOCKED]): the set of them is its argument
    [locked], so the theorems hold for every interleaving of claims. *)

From stdpp Require Import base strings list sorting gmap.
From Stdlib Require Import ZArith Lia.
From S2P Require Import Prelude Json Query.

Module Jobs.
#[local] Open Scope Z_scope.

Record JobIdentity := {
  job_type : string;
  params : list (string * json);
  source : string;
  range_start : option string;
  range_end : option string;
  contract_version : string;
  correlation_id : string;
}.

(** A row of [jobs]; its primary key is the table's. *)
Record job_row := {
  identity : JobIdentity;
  status : string;
  lease_owner : option string;
  lease_expires_at : option Z;
  attempt : Z;
  max_attempts : Z;
  next_retry_at : option Z;
  checkpoint : list (string * json);
  last_error : option string;
  created_at : Z;
  updated_at : Z;
}.

(** The [Job] a worker gets. *)
Record Job := { job_id : Z; job : job_row }.

Inductive job_error := JobNotOwned (job_id : Z) (worker_id : string).

Definition compute_backoff_seconds (attempt base_seconds cap_seconds : Z) : Z :=
  Z.min cap_seconds (base_seconds ^ Z.max attempt 1).

(** The defaults of the columns: pending, no lease, attempt 0 of 5, empty
    checkpoint. *)
Definition enqueue (now : Z) (i : JobIdentity) (t : table job_row) : Z * table job_row :=
  tbl_insert t {| identity := i; status := "pending"; lease_owner := None; lease_expires_at := None;
    attempt := 0; max_attempts := 5; next_retry_at := None; checkpoint := []; last_error := None;
    created_at := now; updated_at := now |}.

(** [status = 'pending' AND (next_retry_at IS NULL OR next_retry_at <= now())
    OR status = 'leased' AND lease_expires_at < now()] *)
Definition claimable (now : Z) (r : job_row) : bool :=
  (String.eqb (status r) "pending" && match next_retry_at r with None => true | Some at_ => at_ <=? now end) ||
  (String.eqb (status r) "leased" && match lease_expires_at r with None => false | Some e => e <? now end).

(** The columns an [UPDATE] of this module sets, the others kept. *)
Definition with_lease (now : Z) (s : string) (owner : option string) (expires : option Z) (r : job_row) : job_row :=
  {| identity := identity r; status := s; lease_owner := owner; lease_expires_at := expires;
     attempt := attempt r; max_attempts := max_attempts r; next_retry_at := next_retry_at r;
     checkpoint := checkpoint r; last_error := last_error r; created_at := created_at r; updated_at := now |}.
Definition with_checkpoint (now : Z) (c : list (string * json)) (r : job_row) : job_row :=
  {| identity := identity r; status := status r; lease_owner := lease_owner r; lease_expires_at := lease_expires_at r;
     attempt := attempt r; max_attempts := max_attempts r; next_retry_at := next_retry_at r;
     checkpoint := c; last_error := last_error r; created_at := created_at r; updated_at := now |}.
Definition with_failure (now : Z) (s error : string) (a : Z) (retry_at : option Z) (r : job_row) : job_row :=
  {| identity := identity r; status := s; lease_owner := None; lease_expires_at := None;
     attempt := a; max_attempts := max_attempts r; next_retry_at := retry_at;
     checkpoint := checkpoint r; last_error := Some error; created_at := created_at r; updated_at := now |}.

Definition lease (now : Z) (worker_id : string) (lease_seconds : Z) : job_row → job_row :=
  with_lease now "leased" (Some worker_id) (Some (now + seconds lease_seconds)).

(** The rows a claim may take, oldest first. *)
Definition candidates (now : Z) (locked : gset Z) (t : table job_row) : list (Z * job_row) :=
  order_by (asc (λ ir, created_at ir.2)) (tbl_select (λ i r, claimable now r && negb (bool_decide (i ∈ locked))) t).

Definition claim (now : Z) (locked : gset Z) (worker_id : string) (lease_seconds : Z) (t : table job_row)
    : option Job * table job_row :=
  match candidates now locked t with
  | [] => (None, t)
  | (i, r) :: _ =>
      let t' := tbl_set i (lease now worker_id lease_seconds) t in
      (Some {| job_id := i; job := lease now worker_id lease_seconds r |}, t')
  end.

Definition owned_by (worker_id : string) (r : job_row) : bool := bool_decide (lease_owner r = Some worker_id).
Definition leased_by (worker_id : string) (r : job_row) : bool := owned_by worker_id r && String.eqb (status r) "leased".

(** [UPDATE ... WHERE id = :id AND p]; no row is [JobNotOwned]. *)
Definition update_owned (job_id : Z) (worker_id : string) (p : job_row → bool) (f : job_row → job_row)
    (t : table job_row) : result job_error (table job_row) :=
  raise_if Nat.eqb (rowcount (at_id job_id p) t) 0 with JobNotOwned job_id worker_id ;;
  Ok (tbl_update (at_id job_id p) f t).

Definition heartbeat (now job_id : Z) (worker_id : string) (lease_seconds : Z) (t : table job_row) :=
  update_owned job_id worker_id (leased_by worker_id)
    (λ r, with_lease now (status r) (lease_owner r) (Some (now + seconds lease_seconds)) r) t.

Definition store_checkpoint (now job_id : Z) (worker_id : string) (c : list (string * json)) (t : table job_row) :=
  update_owned job_id worker_id (leased_by worker_id) (with_checkpoint now c) t.

(** [complete] and [fail_retry] look at the owner only, not at the status. *)
Definition complete (now job_id : Z) (worker_id : string) (t : table job_row) :=
  update_owned job_id worker_id (owned_by worker_id) (with_lease now "completed" None None) t.

(** [fail_retry] is two statements: a [SELECT] with the owner in its condition,
    which locks nothing, and an [UPDATE ... WHERE id = :id] without it. The
    attempts and their bound that the first read go into the second. *)
Definition fail_select (job_id : Z) (worker_id : string) (t : table job_row) : result job_error (Z * Z) :=
  match tbl_get t job_id with
  | Some r => raise_if negb (owned_by worker_id r) with JobNotOwned job_id worker_id ;; Ok (attempt r, max_attempts r)
  | None => Err (JobNotOwned job_id worker_id)
  end.
Definition fail_update (now job_id : Z) (error : string) (backoff_seconds : Z) (seen : Z * Z) (t : table job_row) : string * table job_row :=
  let new_attempt := seen.1 + 1 in
  if new_attempt <? seen.2 then
    ("pending", tbl_set job_id (with_failure now "pending" error new_attempt (Some (now + seconds backoff_seconds))) t)
  else
    ("failed", tbl_set job_id (λ r, with_failure now "failed" error new_attempt (next_retry_at r) r) t).
(** [between]: what other transactions commit between the two *)
Definition fail_retry (now job_id : Z) (worker_id error : string) (backoff_seconds : Z) (between : table job_row → table job_row) (t : table job_row)
    : result job_error (string * table job_row) :=
  let! seen := fail_select job_id worker_id t in
  Ok (fail_update now job_id error backoff_seconds seen (between t)).

Definition cancel (now job_id : Z) (t : table job_row) : table job_row :=
  tbl_set job_id (λ r, with_lease now "cancelled" (lease_owner r) (lease_expires_at r) r) t.

Definition get (job_id : Z) (t : table job_row) : option Job :=
  (λ r, {| job_id := job_id; job := r |}) <$> tbl_get t job_id.

Definition count_by_status (t : table job_row) : list (string * Z) := group_count status t.

Definition list_dead_lettered (t : table job_row) : list (Z * job_row) :=
  order_by (desc (λ ir, updated_at ir.2)) (tbl_select (λ _ r, String.eqb (status r) "failed") t).

(** ** Executions: one committed transaction after the other

    [EFail] is a failure report that no other transaction overlaps, [EFailLate]
    the second statement of one whose first has read [seen] some time before. *)

Inductive event :=
| EEnqueue (i : JobIdentity)
| EClaim (locked : gset Z) (worker_id : string) (lease_seconds : Z)
| EHeartbeat (job_id : Z) (worker_id : string) (lease_seconds : Z)
| ECheckpoint (job_id : Z) (worker_id : string) (c : list (string * json))
| EComplete (job_id : Z) (worker_id : string)
| EFail (job_id : Z) (worker_id error : string) (backoff_seconds : Z)
| EFailLate (job_id : Z) (error : string) (backoff_seconds : Z) (seen : Z * Z)
| ECancel (job_id : Z).

Definition perform (now : Z) (e : event) (t : table job_row) : result job_error (table job_row) :=
  match e with
  | EEnqueue i => Ok (enqueue now i t).2
  | EClaim locked w s => Ok (claim now locked w s t).2
  | EHeartbeat j w s => heartbeat now j w s t
  | ECheckpoint j w c => store_checkpoint now j w c t
  | EComplete j w => complete now j w t
  | EFail j w err b => let! ' (_, t') := fail_retry now j w err b id t in Ok t'
  | EFailLate j err b seen => Ok (fail_update now j err b seen t).2
  | ECancel j => Ok (cancel now j t)
  end.

(** A transaction that raises is rolled back. *)
Definition step (t : table job_row) (ne : Z * event) : table job_row :=
  match perform ne.1 ne.2 t with Ok t' => t' | Err _ => t end.
Definition run (es : list (Z * event)) (t : table job_row) : table job_row := foldl step t es.

Arguments enqueue : simpl never.

(** No failure report overlaps another transaction. *)
Definition timely (es : list (Z * event)) : Prop := Forall (λ ne, ∀ j err b seen, ne.2 ≠ EFailLate j err b seen) es.
Definition reachable (t : table job_row) : Prop := ∃ es, timely es ∧ t = run es tbl_empty.

(** ** What one transaction does to one row *)

Inductive row_step (now : Z) (e : event) (j : Z) (r : job_row) : job_row → Prop :=
| RSame : row_step now e j r r
| RClaim locked w s : e = EClaim locked w s → claimable now r = true → j ∉ locked →
    row_step now e j r (lease now w s r)
| RHeartbeat w s : e = EHeartbeat j w s → leased_by w r = true →
    row_step now e j r (with_lease now (status r) (lease_owner r) (Some (now + seconds s)) r)
| RCheckpoint w c : e = ECheckpoint j w c → leased_by w r = true → row_step now e j r (with_checkpoint now c r)
| RComplete w : e = EComplete j w → owned_by w r = true → row_step now e j r (with_lease now "completed" None None r)
| RRetry w err b : e = EFail j w err b → owned_by w r = true → attempt r + 1 < max_attempts r →
    row_step now e j r (with_failure now "pending" err (attempt r + 1) (Some (now + seconds b)) r)
| RFailed w err b : e = EFail j w err b → owned_by w r = true → max_attempts r <= attempt r + 1 →
    row_step now e j r (with_failure now "failed" err (attempt r + 1) (next_retry_at r) r)
| RLateRetry err b seen : e = EFailLate j err b seen → seen.1 + 1 < seen.2 →
    row_step now e j r (with_failure now "pending" err (seen.1 + 1) (Some (now + seconds b)) r)
| RLateFailed err b seen : e = EFailLate j err b seen → seen.2 <= seen.1 + 1 →
    row_step now e j r (with_failure now "failed" err (seen.1 + 1) (next_retry_at r) r)
| RCancel : e = ECancel j →
    row_step now e j r (with_lease now "cancelled" (lease_owner r) (lease_expires_at r) r).


Lemma update_owned_inv j w p f t t' :
  tbl_wf t → update_owned j w p f t = Ok t' →
  t' = tbl_update (at_id j p) f t ∧ ∃ r, tbl_get t j = Some r ∧ p r = true.
Proof.
  intros Hw. unfold update_owned. destruct (Nat.eqb _ 0) eqn:Hc; [done|]. intros [= <-]. split; [done|].
  apply Nat.eqb_neq in Hc. rewrite rowcount_at_id in Hc by done.
  destruct (tbl_get t j) as [r|] eqn:Hr; [|by destruct Hc; intros (? & ? & ?)]. exists r. split; [done|].
  destruct (p r) eqn:Hp; [done|]. destruct Hc. intros (r' & Hr' & Hp'). congruence.
Qed.

Lemma update_owned_refused j w p f t r :
  tbl_wf t → tbl_get t j = Some r → p r = false → update_owned j w p f t = Err (JobNotOwned j w).
Proof.
  intros Hw Hr Hp. unfold update_owned. replace (Nat.eqb _ 0) with true; [done|]. symmetry.
  apply Nat.eqb_eq, rowcount_at_id; [done|]. intros (r' & Hr' & Hp'). congruence.
Qed.

Lemma update_owned_row now e j w p f t t' k r :
  tbl_wf t → update_owned j w p f t = Ok t' → tbl_get t k = Some r →
  (∀ r0, p r0 = true → row_step now e j r0 (f r0)) →
  ∃ r', tbl_get t' k = Some r' ∧ row_step now e k r r'.
Proof.
  intros Hw [-> (r0 & Hr0 & Hp)]%update_owned_inv Hr Hstep; [|done].
  destruct (decide (k = j)) as [->|Hne].
  - rewrite tbl_get_update_at_eq, Hr by done. simplify_eq. simpl. rewrite Hp. eauto.
  - rewrite tbl_get_update_at_ne, Hr by done. eauto using RSame.
Qed.

Lemma set_row now e j f t k r :
  tbl_get t k = Some r → (∀ r0, tbl_get t j = Some r0 → row_step now e j r0 (f r0)) →
  ∃ r', tbl_get (tbl_set j f t) k = Some r' ∧ row_step now e k r r'.
Proof.
  intros Hr Hstep. destruct (decide (k = j)) as [->|Hne].
  - rewrite tbl_get_set_eq, Hr. simpl. eauto.
  - rewrite tbl_get_set_ne, Hr by done. eauto using RSame.
Qed.

(** A claim takes a claimable row nobody has locked, and the oldest of them. *)
Lemma candidates_cons now locked t i r rest :
  tbl_wf t → candidates now locked t = (i, r) :: rest →
  tbl_get t i = Some r ∧ claimable now r = true ∧ (i ∉ locked) ∧
  (∀ k r', tbl_get t k = Some r' → claimable now r' = true → k ∉ locked → (created_at r <= created_at r')%Z).
Proof.
  intros Hw [Hin Hmin]%order_by_asc_head.
  apply elem_of_tbl_select in Hin as [[Hc Hl]%andb_true_iff Hin]. rewrite tbl_get_spec by done.
  rewrite negb_true_iff, bool_decide_eq_false in Hl. split_and!; [done..|].
  intros k r' Hk Hc' Hk'. apply (Hmin (k, r')). apply elem_of_tbl_select.
  rewrite <-tbl_get_spec, Hc', bool_decide_false by done. done.
Qed.

Lemma candidates_nil now locked t :
  tbl_wf t → candidates now locked t = [] ↔ (∀ k r, tbl_get t k = Some r → claimable now r = true → k ∈ locked).
Proof.
  intros Hw. unfold candidates. rewrite order_by_nil, nil_no_elem. split.
  - intros Hn k r Hk Hc. destruct (decide (k ∈ locked)) as [|Hl]; [done|]. destruct (Hn (k, r)).
    apply elem_of_tbl_select. rewrite <-tbl_get_spec, Hc, bool_decide_false by done. done.
  - intros Ha [k r] [[Hc Hl]%andb_true_iff Hin]%elem_of_tbl_select.
    rewrite negb_true_iff, bool_decide_eq_false in Hl. apply Hl. eapply Ha; [by apply tbl_get_spec|done].
Qed.

Lemma fail_update_wf now j err b seen t : tbl_wf t → tbl_wf (fail_update now j err b seen t).2.
Proof. intros Hw. unfold fail_update. destruct (_ <? _); by apply tbl_update_wf. Qed.
Lemma fail_select_ok j w t seen : fail_select j w t = Ok seen →
  ∃ r, tbl_get t j = Some r ∧ owned_by w r = true ∧ seen = (attempt r, max_attempts r).
Proof.
  unfold fail_select. destruct (tbl_get t j) as [r|]; [|done]. destruct (owned_by w r) eqn:Ho; [|done]. intros [= <-]. by exists r.
Qed.
Lemma fail_retry_wf now j w err b t s t' : tbl_wf t → fail_retry now j w err b id t = Ok (s, t') → tbl_wf t'.
Proof.
  intros Hw (seen & _ & Hu)%rbind_ok. assert (t' = (fail_update now j err b seen t).2) as -> by (injection Hu; intros E; by rewrite E).
  by apply fail_update_wf.
Qed.
Lemma perform_wf now e t t' : tbl_wf t → perform now e t = Ok t' → tbl_wf t'.
Proof.
  intros Hw. destruct e; simpl; try (intros [-> _]%update_owned_inv; [by apply tbl_update_wf|done]).
  - intros [= <-]. by apply tbl_insert_wf.
  - intros [= <-]. unfold claim. destruct (candidates _ _ _) as [|[i r] l]; [done|]. by apply tbl_update_wf.
  - intros ([s t2] & Hr & [= <-])%rbind_ok. by eapply fail_retry_wf.
  - intros [= <-]. by apply fail_update_wf.
  - intros [= <-]. by apply tbl_update_wf.
Qed.

Lemma perform_row now e t t' k r :
  tbl_wf t → perform now e t = Ok t' → tbl_get t k = Some r →
  ∃ r', tbl_get t' k = Some r' ∧ row_step now e k r r'.
Proof.
  intros Hw Hp Hr. destruct e as [i|locked w s|j w s|j w c|j w|j w err b|j err b seen|j]; cbn [perform] in Hp.
  - assert (t' = (enqueue now i t).2) as -> by congruence. unfold enqueue. rewrite tbl_get_insert_old; [eauto using RSame|].
    intros ->. rewrite tbl_get_next in Hr by done. done.
  - injection Hp as <-. unfold claim. destruct (candidates now locked t) as [|[i r0] l] eqn:Hc; simpl; [eauto using RSame|].
    apply candidates_cons in Hc as (Hi & Hcl & Hlk & _); [|done].
    eapply set_row; [done|]. intros r1 Hr1. simplify_eq. by eapply RClaim.
  - eapply update_owned_row; [done..|]. intros r0 Hr0. by eapply RHeartbeat.
  - eapply update_owned_row; [done..|]. intros r0 Hr0. by eapply RCheckpoint.
  - eapply update_owned_row; [done..|]. intros r0 Hr0. by eapply RComplete.
  - apply rbind_ok in Hp as ([s t2] & Hp & [= <-]). apply rbind_ok in Hp as (seen & (r0 & Hj & Ho & ->)%fail_select_ok & Hp).
    unfold fail_update in Hp. cbn [fst snd id] in Hp. destruct (_ <? _) eqn:Hlt; injection Hp as _ <-;
      (eapply set_row; [done|]; intros r1 Hr1; simplify_eq).
    + eapply RRetry; [done|done|lia].
    + eapply RFailed; [done|done|lia].
  - injection Hp as <-. unfold fail_update. destruct (_ <? _) eqn:Hlt; (eapply set_row; [done|]; intros r1 Hr1).
    + eapply RLateRetry; [done|lia].
    + eapply RLateFailed; [done|lia].
  - injection Hp as <-. eapply set_row; [done|]. intros r0 _. by apply RCancel.
Qed.

(** The only rows a transaction adds are those of [enqueue]. *)
Lemma perform_new now e t t' k r' :
  tbl_wf t → perform now e t = Ok t' → tbl_get t k = None → tbl_get t' k = Some r' →
  ∃ i, e = EEnqueue i ∧ enqueue now i t = (k, t') ∧ tbl_get (enqueue now i t).2 k = Some r'.
Proof.
  intros Hw Hp Hk Hk'.
  assert (∀ p (f : job_row → job_row), tbl_get (tbl_update p f t) k = None) as Hnone
    by (intros p f; by rewrite tbl_get_update, Hk).
  destruct e as [i|locked w s|j w s|j w c|j w|j w err b|j err b seen|j]; cbn [perform] in Hp.
  - assert (t' = (enqueue now i t).2) as -> by congruence. exists i. split; [done|].
    destruct (decide (k = next_id t)) as [->|Hne]; [done|]. unfold enqueue in Hk'. rewrite tbl_get_insert_old in Hk' by done. congruence.
  - injection Hp as <-. unfold claim, tbl_set in Hk'. destruct (candidates now locked t) as [|[? ?] ?]; simpl in Hk';
      rewrite ?Hnone in Hk'; congruence.
  - apply update_owned_inv in Hp as [-> _]; [|done]. rewrite Hnone in Hk'. done.
  - apply update_owned_inv in Hp as [-> _]; [|done]. rewrite Hnone in Hk'. done.
  - apply update_owned_inv in Hp as [-> _]; [|done]. rewrite Hnone in Hk'. done.
  - apply rbind_ok in Hp as ([s t2] & Hp & [= <-]). apply rbind_ok in Hp as (seen & _ & Hp).
    unfold fail_update, tbl_set in Hp. cbn [id] in Hp. destruct (_ <? _); injection Hp as _ <-; by rewrite Hnone in Hk'.
  - injection Hp as <-. unfold fail_update, tbl_set in Hk'. destruct (_ <? _); cbn [snd] in Hk'; by rewrite Hnone in Hk'.
  - injection Hp as <-. unfold cancel, tbl_set in Hk'. rewrite Hnone in Hk'. done.
Qed.

Lemma step_wf t ne : tbl_wf t → tbl_wf (step t ne).
Proof. intros Hw. unfold step. destruct (perform _ _ _) eqn:Hp; [by eapply perform_wf|done]. Qed.

Lemma run_wf es t : tbl_wf t → tbl_wf (run es t).
Proof. revert t; induction es as [|ne es IH]; intros t Hw; simpl; [done|]. by apply IH, step_wf. Qed.

Lemma step_row t ne k r :
  tbl_wf t → tbl_get t k = Some r → ∃ r', tbl_get (step t ne) k = Some r' ∧ row_step ne.1 ne.2 k r r'.
Proof.
  intros Hw Hr. unfold step. destruct (perform _ _ _) eqn:Hp; [by eapply perform_row|eauto using RSame].
Qed.

(** Rule of a run for one row: a relation each transaction of the run keeps. *)
Lemma run_row (P : job_row → Prop) es t k r :
  tbl_wf t → tbl_get t k = Some r → P r →
  (∀ ne r r', ne ∈ es → P r → row_step ne.1 ne.2 k r r' → P r') →
  ∃ r', tbl_get (run es t) k = Some r' ∧ P r'.
Proof.
  revert t r; induction es as [|ne es IH]; intros t r Hw Hr HP Hstep; simpl; [eauto|].
  destruct (step_row t ne k r Hw Hr) as (r' & Hr' & Hs).
  apply (IH (step t ne) r'); [by apply step_wf|done| |].
  - eapply Hstep; [by left|done|done].
  - intros ne' r1 r2 Hin. apply Hstep. by right.
Qed.

(** ** What a lease guarantees *)

(** An event another worker than [w] causes, and not a cancellation of [j]. *)
Definition foreign (w : string) (j : Z) (e : event) : Prop :=
  match e with
  | EEnqueue _ => True
  | EClaim _ w' _ | EHeartbeat _ w' _ | ECheckpoint _ w' _ | EComplete _ w' | EFail _ w' _ _ => w' ≠ w
  | EFailLate _ _ _ _ => True
  | ECancel j' => j' ≠ j
  end.

(** A failure report under way: what its [SELECT] read, for its [UPDATE] *)
Record underway := { fu_job : Z; fu_error : string; fu_backoff : Z; fu_seen : Z * Z }.
(** Workers that overlap: every transaction runs as a whole, but the two
    statements of a failure report, with others between them. *)
Inductive ostep : Z * event → table job_row * list underway → table job_row * list underway → Prop :=
| OWhole now e t fl : (∀ j err b seen, e ≠ EFailLate j err b seen) → ostep (now, e) (t, fl) (step t (now, e), fl)
| OSelect now j w err b seen t fl : fail_select j w t = Ok seen →
    ostep (now, EFail j w err b) (t, fl) (t, {| fu_job := j; fu_error := err; fu_backoff := b; fu_seen := seen |} :: fl)
| OUpdate now x t fl1 fl2 :
    ostep (now, EFailLate (fu_job x) (fu_error x) (fu_backoff x) (fu_seen x)) (t, fl1 ++ x :: fl2)
      ((fail_update now (fu_job x) (fu_error x) (fu_backoff x) (fu_seen x) t).2, fl1 ++ fl2).
Inductive overlapped : list (Z * event) → table job_row * list underway → table job_row * list underway → Prop :=
| ONil s : overlapped [] s s
| OCons ne es s s1 s' : ostep ne s s1 → overlapped es s1 s' → overlapped (ne :: es) s s'.

Lemma fail_update_other now j err b seen t k : k ≠ j → tbl_get (fail_update now j err b seen t).2 k = tbl_get t k.
Proof. intros Hk. unfold fail_update. destruct (_ <? _); cbn [snd]; by rewrite tbl_get_set_ne. Qed.

Section Lease.
Variables (j : Z) (r : job_row) (w : string) (until : Z).
Hypotheses (Hs : status r = "leased") (Ho : lease_owner r = Some w) (Hu : lease_expires_at r = Some until).

Lemma not_owner w' : w' ≠ w → owned_by w' r = false.
Proof using Ho. intros Hne. unfold owned_by. apply bool_decide_false. congruence. Qed.
Lemma lease_row now e r' : now <= until → foreign w j e → (∀ k err b seen, e ≠ EFailLate k err b seen) → row_step now e j r r' → r' = r.
Proof using Hs Ho Hu.
  intros Hle Hf Hl Hstep. inversion Hstep; subst; simpl in Hf; try done; unfold leased_by in *; try (by rewrite not_owner in *);
    try (exfalso; by eapply Hl).
  match goal with H : claimable _ _ = true |- _ => unfold claimable in H; rewrite Hs, Hu in H; simpl in H end. lia.
Qed.
(** What stays true of the job while other workers go on *)
Definition held (x : table job_row * list underway) : Prop :=
  tbl_wf x.1 ∧ tbl_get x.1 j = Some r ∧ Forall (λ y, fu_job y ≠ j) x.2.
Lemma held_step ne x y : held x → ne.1 <= until → foreign w j ne.2 → ostep ne x y → held y.
Proof using Hs Ho Hu.
  intros (Hw & Hr & Hfl) Hle Hf Hstep. destruct Hstep as [now e t fl He|now k w' err b seen t fl Hsel|now z t fl1 fl2]; cbn [fst snd] in *.
  - split; [by apply step_wf|]. split; [|done]. destruct (step_row t (now, e) j r Hw Hr) as (r' & Hr' & Hrow). cbn [fst snd] in *. etrans; [exact Hr'|]. f_equal. by eapply lease_row.
  - split; [done|]. split; [done|]. constructor; [|done]. cbn. intros ->. apply fail_select_ok in Hsel as (r0 & Hr0 & Ho' & _).
    rewrite Hr in Hr0. injection Hr0 as <-. by rewrite not_owner in Ho'.
  - apply Forall_app in Hfl as [H1 H2]. inversion H2; subst. split; [by apply fail_update_wf|].
    split; [|by apply Forall_app]. etrans; [by apply fail_update_other|done].
Qed.
Lemma held_run es x y : held x → Forall (λ ne, ne.1 <= until ∧ foreign w j ne.2) es → overlapped es x y → held y.
Proof using Hs Ho Hu.
  intros Hx Hes Hr. revert Hx Hes. induction Hr as [|ne es s s1 s' Hst _ IH]; intros Hx Hes; [done|].
  inversion Hes as [|? ? [Hle Hf] Hes']; subst. apply IH; [|done]. by eapply held_step.
Qed.
Lemma held_refused t fl now w' s c err b e : held (t, fl) → w' ≠ w →
  e ∈ [EHeartbeat j w' s; ECheckpoint j w' c; EComplete j w'; EFail j w' err b] → perform now e t = Err (JobNotOwned j w').
Proof using Ho.
  intros (Hw & Hr & _) Hne He. pose proof (not_owner w' Hne) as Hno. assert (leased_by w' r = false) as Hnl by (unfold leased_by; by rewrite Hno).
  cbn [fst] in *. rewrite !elem_of_cons in He. destruct He as [->|[->|[->|[->|[]%elem_of_nil]]]]; simpl; try by eapply update_owned_refused.
  unfold fail_retry, fail_select. by rewrite Hr, Hno.
Qed.
End Lease.

(** C20: While the lease of a worker on a job has not expired, nothing that the
    other workers do changes the row of the job, enqueues, cancellations of other
    jobs and overlapping transactions included, and every heartbeat, checkpoint,
    completion or failure another worker reports for it raises [JobNotOwned];
    provided that no failure report on the job was under way when the lease
    began, that is, had read the row for an earlier lease and not yet written. *)
Theorem lease_exclusive t fl j r w until es t' fl' :
  tbl_wf t → tbl_get t j = Some r →
  status r = "leased" → lease_owner r = Some w → lease_expires_at r = Some until →
  Forall (λ x, fu_job x ≠ j) fl → overlapped es (t, fl) (t', fl') →
  Forall (λ ne, ne.1 <= until ∧ foreign w j ne.2) es →
  tbl_get t' j = Some r ∧
  ∀ now w' s c err b, w' ≠ w → ∀ e,
    e ∈ [EHeartbeat j w' s; ECheckpoint j w' c; EComplete j w'; EFail j w' err b] →
    perform now e t' = Err (JobNotOwned j w').
Proof.
  intros Hw Hr Hs Ho Hu Hfl Hov Hes. assert (held j r (t', fl')) as Hh by (refine (held_run j r w until Hs Ho Hu es (t, fl) (t', fl') _ Hes Hov); by split).
  split; [apply Hh|]. intros now w' s c err b Hne e He. by apply (held_refused j r w Ho t' fl' now w' s c err b).
Qed.

(** A claim takes the oldest claimable row that is not locked, leases it to the
    worker and keeps its checkpoint, its attempts and its identity; with nothing
    to claim the table stays as it is. *)
Lemma claim_found now locked w s t x t' :
  tbl_wf t → claim now locked w s t = (Some x, t') →
  ∃ r, tbl_get t (job_id x) = Some r ∧ claimable now r = true ∧ (job_id x ∉ locked) ∧
    job x = lease now w s r ∧ t' = tbl_set (job_id x) (lease now w s) t ∧
    (∀ k r', tbl_get t k = Some r' → claimable now r' = true → k ∉ locked → created_at r <= created_at r').
Proof.
  intros Hw. unfold claim. destruct (candidates now locked t) as [|[i r] rest] eqn:Hc; [done|].
  intros [= <- <-]. apply candidates_cons in Hc as (Hr & Hcl & Hl & Hmin); [|done]. simpl. eauto 10.
Qed.

Lemma lease_not_claimable now w s r : 0 <= s → claimable now (lease now w s r) = false.
Proof. intros Hs. unfold claimable, lease, with_lease, seconds. simpl. apply Z.ltb_ge. nia. Qed.

(** [claim] returns no job exactly when every claimable row is locked by
    another transaction. The job it returns is an unlocked claimable one, no
    other such row being older, now leased to the worker with its identity,
    attempts and checkpoint as they were; and a second claim at the same time,
    by any worker, never returns the same job. *)
Theorem claim_takes_oldest now locked w s t :
  tbl_wf t → 0 <= s →
  match claim now locked w s t with
  | (None, t') => t' = t ∧ ∀ k r, tbl_get t k = Some r → claimable now r = true → k ∈ locked
  | (Some x, t') => ∃ r, tbl_get t (job_id x) = Some r ∧ claimable now r = true ∧ (job_id x ∉ locked) ∧
      (∀ k r', tbl_get t k = Some r' → claimable now r' = true → k ∉ locked → created_at r <= created_at r') ∧
      get (job_id x) t' = Some x ∧ leased_by w (job x) = true ∧
      identity (job x) = identity r ∧ checkpoint (job x) = checkpoint r ∧ attempt (job x) = attempt r ∧
      ∀ locked' w' s' y, (claim now locked' w' s' t').1 = Some y → job_id y ≠ job_id x
  end.
Proof.
  intros Hw Hs. destruct (claim now locked w s t) as [[x|] t'] eqn:Hc.
  - apply claim_found in Hc as (r & Hr & Hcl & Hl & Hx & -> & Hmin); [|done].
    exists r. split_and!; [done..| | | | | | ]; rewrite ?Hx; try done.
    + unfold get. rewrite tbl_get_set_eq, Hr. simpl. rewrite <-Hx. by destruct x.
    + unfold leased_by, owned_by. simpl. by rewrite bool_decide_true.
    + intros locked' w' s' y Hy. destruct (claim now locked' w' s' _) as [y' t2] eqn:Hc2. simpl in Hy. subst y'.
      apply claim_found in Hc2 as (r2 & Hr2 & Hcl2 & _); [|by apply tbl_update_wf]. intros Heq.
      rewrite Heq, tbl_get_set_eq, Hr in Hr2. simpl in Hr2. injection Hr2 as <-.
      rewrite lease_not_claimable in Hcl2; done.
  - unfold claim in Hc. destruct (candidates now locked t) as [|[i r] l] eqn:Hcand; [|done].
    injection Hc as <-. split; [done|]. by apply candidates_nil.
Qed.

(** ** Invariants of reachable tables *)

Record job_ok (r : job_row) : Prop := {
  ok_status : status r ∈ ["pending"; "leased"; "completed"; "failed"; "cancelled"];
  ok_attempt : 0 <= attempt r <= max_attempts r;
  ok_pending : status r = "pending" → lease_owner r = None ∧ attempt r < max_attempts r;
  ok_leased : status r = "leased" → is_Some (lease_owner r) ∧ is_Some (lease_expires_at r);
  ok_owner : is_Some (lease_owner r) → status r ∈ ["leased"; "cancelled"] ∧ attempt r < max_attempts r;
  ok_failed : status r = "failed" → attempt r = max_attempts r;
}.

Lemma leased_by_spec w r : leased_by w r = true → lease_owner r = Some w ∧ status r = "leased".
Proof. unfold leased_by, owned_by. rewrite andb_true_iff, bool_decide_eq_true, String.eqb_eq. done. Qed.

Lemma claimable_status now r : claimable now r = true → status r = "pending" ∨ status r = "leased".
Proof.
  unfold claimable. rewrite orb_true_iff, !andb_true_iff, !String.eqb_eq. naive_solver.
Qed.

Ltac job_ok_tac :=
  constructor; simpl; try concrete_mem; try done; try (split; [concrete_mem|]); try (split; by eexists);
  try (intros; split; [done|]); try lia; intros; try congruence; try lia.

(** Not the second half of an overlapped failure report *)
Definition whole (e : event) : Prop := ∀ j err b seen, e ≠ EFailLate j err b seen.
Lemma timely_whole es ne : timely es → ne ∈ es → whole ne.2.
Proof. unfold timely. rewrite Forall_forall. intros Hes Hin. exact (Hes ne Hin). Qed.
Lemma row_step_ok now e j r r' : whole e → job_ok r → row_step now e j r r' → job_ok r'.
Proof.
  intros He [Hst Hat Hpe Hle How Hfa] Hstep. destruct Hstep as
    [|locked w s _ Hc _|w s _ Hl|w c _ Hl|w _ Ho|w err b _ Ho Hlt|w err b _ Ho Hge|err b seen Hx _|err b seen Hx _|_];
    [by constructor| | | | | | |by destruct (He _ _ _ _ Hx)..|].
  - assert (attempt r < max_attempts r).
    { apply claimable_status in Hc as [Hc|Hc]; [by apply Hpe|]. by apply How, Hle. }
    job_ok_tac.
  - apply leased_by_spec in Hl as [Hl Hs]. constructor; simpl; try done; by rewrite Hl.
  - by constructor.
  - job_ok_tac.
  - job_ok_tac.
  - unfold owned_by in Ho. apply bool_decide_eq_true in Ho. destruct (How ltac:(by eexists)).
    job_ok_tac.
  - job_ok_tac. by apply How.
Qed.

Lemma enqueue_ok now i t : tbl_wf t → tbl_get (enqueue now i t).2 (next_id t) = Some (
  {| identity := i; status := "pending"; lease_owner := None; lease_expires_at := None;
     attempt := 0; max_attempts := 5; next_retry_at := None; checkpoint := []; last_error := None;
     created_at := now; updated_at := now |}).
Proof. intros Hw. unfold enqueue. by apply tbl_get_insert_new. Qed.

Lemma step_ok t ne :
  whole ne.2 → tbl_wf t → (∀ k r, tbl_get t k = Some r → job_ok r) → ∀ k r, tbl_get (step t ne) k = Some r → job_ok r.
Proof.
  intros He Hw Hok k r' Hr'. destruct (tbl_get t k) as [r|] eqn:Hr.
  - destruct (step_row t ne k r Hw Hr) as (r1 & Hr1 & Hs). rewrite Hr' in Hr1. injection Hr1 as <-.
    eapply row_step_ok; [done|by eapply Hok|done].
  - unfold step in Hr'. destruct (perform ne.1 ne.2 t) as [t'|] eqn:Hp; [|congruence].
    destruct (perform_new _ _ _ _ _ _ Hw Hp Hr Hr') as (i & _ & Heq & Hnew).
    assert (k = next_id t) as -> by (unfold enqueue in Heq; by injection Heq).
    rewrite enqueue_ok in Hnew by done. injection Hnew as <-. job_ok_tac.
Qed.

Lemma run_ok es t :
  timely es → tbl_wf t → (∀ k r, tbl_get t k = Some r → job_ok r) → ∀ k r, tbl_get (run es t) k = Some r → job_ok r.
Proof.
  intros Hes. revert t; induction Hes as [|ne es He _ IH]; intros t Hw Hok; simpl; [done|].
  apply IH; [by apply step_wf|by apply step_ok].
Qed.

(** However workers take turns, every job of a reachable table has one of
    the five statuses and between 0 and [max_attempts] failures; it is failed
    only after [max_attempts] of them; a pending job has no lease and attempts
    left; a leased one has an owner and an expiry; and a
    completed or failed job is changed by a cancellation only. *)
Theorem reachable_jobs t j r :
  reachable t → tbl_get t j = Some r →
  job_ok r ∧
  (status r = "completed" ∨ status r = "failed" →
   ∀ es, timely es → (∀ ne, ne ∈ es → ne.2 ≠ ECancel j) → tbl_get (run es t) j = Some r).
Proof.
  intros (es0 & Hes0 & ->) Hr. pose proof (run_wf es0 tbl_empty tbl_empty_wf) as Hw.
  assert (job_ok r) as Hok by (eapply run_ok; [exact Hes0|apply tbl_empty_wf| |exact Hr]; done).
  split; [done|]. intros Hst es Hti Hes.
  assert (lease_owner r = None) as Ho.
  { destruct (lease_owner r) as [w|] eqn:Ho; [|done]. destruct (ok_owner r Hok ltac:(rewrite Ho; by eexists)) as [Hin _].
    destruct Hst as [Hst|Hst]; rewrite Hst, !elem_of_cons in Hin; by destruct Hin as [?|[?|[]%elem_of_nil]]. }
  destruct (run_row (λ r', r' = r) es _ j r Hw Hr eq_refl) as (r' & Hr' & ->); [|done].
  intros ne r1 r2 Hin -> Hstep. destruct Hstep as
    [|locked w s He Hc _|w s He Hl|w c He Hl|w He Hl|w err b He Hl|w err b He Hl|err b seen He _|err b seen He _|He]; try done;
    try (by destruct (timely_whole _ _ Hti Hin _ _ _ _ He)).
  - apply claimable_status in Hc as [Hc|Hc]; destruct Hst; congruence.
  - apply leased_by_spec in Hl as [? _]. congruence.
  - apply leased_by_spec in Hl as [? _]. congruence.
  - unfold owned_by in Hl. apply bool_decide_eq_true in Hl. congruence.
  - unfold owned_by in Hl. apply bool_decide_eq_true in Hl. congruence.
  - unfold owned_by in Hl. apply bool_decide_eq_true in Hl. congruence.
  - by destruct (Hes ne Hin).
Qed.

(** A job is never deleted and its identity never changes; its attempts
    never decrease while failure reports do not overlap other transactions; and its checkpoint changes only by [checkpoint] for that
    job, so claims, retries, lost leases and reclaims all resume where the last
    checkpoint left off. *)
Theorem checkpoint_survives t j r es :
  tbl_wf t → tbl_get t j = Some r → timely es →
  (∀ ne w c, ne ∈ es → ne.2 ≠ ECheckpoint j w c) →
  ∃ r', tbl_get (run es t) j = Some r' ∧
    identity r' = identity r ∧ checkpoint r' = checkpoint r ∧ attempt r <= attempt r'.
Proof.
  intros Hw Hr Hti Hes.
  apply (run_row (λ r', identity r' = identity r ∧ checkpoint r' = checkpoint r ∧ attempt r <= attempt r') es t j r);
    [done..|].
  intros ne r1 r2 Hin (Hi & Hc & Ha) Hstep. destruct Hstep as
    [|locked w s He Hcl _|w s He Hl|w c He Hl|w He Hl|w err b He Hl|w err b He Hl|err b seen He _|err b seen He _|He]; simpl; try done;
    try (by destruct (timely_whole _ _ Hti Hin _ _ _ _ He)).
  - by destruct (Hes ne w c Hin).
  - split_and!; [done..|lia].
  - split_and!; [done..|lia].
Qed.

(** ** Witnesses and a defect *)

Definition echo : JobIdentity := {| job_type := "paged_echo"; params := [("total_pages", JInt 2)]; source := "test";
  range_start := None; range_end := None; contract_version := "v1"; correlation_id := "c" |}.

Definition claimed : list (Z * event) := [(0, EEnqueue echo); (0, EClaim ∅ "w1" 30)].
Definition claimed_job : job_row := {| identity := echo; status := "leased"; lease_owner := Some "w1";
  lease_expires_at := Some 30000000; attempt := 0; max_attempts := 5; next_retry_at := None; checkpoint := [];
  last_error := None; created_at := 0; updated_at := 0 |}.

Lemma claimed_wf : tbl_wf (run claimed tbl_empty).
Proof. apply run_wf, tbl_empty_wf. Qed.

(** Another worker tries to claim and to complete the job, and reports the
    failure of a second job, with a claim between the two statements. *)
Definition second : list (Z * event) := claimed ++ [(0, EEnqueue echo); (0, EClaim ∅ "w2" 30)].
Definition second_report : underway := {| fu_job := 2; fu_error := "boom"; fu_backoff := 2; fu_seen := (0, 5) |}.
Lemma lease_exclusive_witness : let t := run second tbl_empty in let t' := (fail_update 3 2 "boom" 2 (0, 5) t).2 in
  tbl_get t' 1 = Some claimed_job ∧ perform 4 (EComplete 1 "w2") t' = Err (JobNotOwned 1 "w2").
Proof.
  cbv zeta. assert (tbl_wf (run second tbl_empty)) as Hw by (apply run_wf, tbl_empty_wf).
  refine ((λ H, conj (proj1 H) (proj2 H 4 "w2" 0 [] "" 0 _ (EComplete 1 "w2") _))
    (lease_exclusive (run second tbl_empty) [] 1 claimed_job "w1" 30000000
      [(1, EFail 2 "w2" "boom" 2); (2, EClaim ∅ "w2" 30); (3, EFailLate 2 "boom" 2 (0, 5))]
      (fail_update 3 2 "boom" 2 (0, 5) (run second tbl_empty)).2 [] Hw _ eq_refl eq_refl eq_refl (Forall_nil_2 _) _ _)).
  - discriminate.
  - right. right. left.
  - vm_compute. reflexivity.
  - apply (OCons _ _ _ (run second tbl_empty, [second_report])).
    { apply (OSelect 1 2 "w2" "boom" 2 (0, 5)). vm_compute. reflexivity. }
    apply (OCons _ _ _ (run second tbl_empty, [second_report])).
    { replace (run second tbl_empty) with (step (run second tbl_empty) (2, EClaim ∅ "w2" 30)) at 2 by (vm_compute; reflexivity).
      apply OWhole. discriminate. }
    apply (OCons _ _ _ ((fail_update 3 2 "boom" 2 (0, 5) (run second tbl_empty)).2, [])); [|apply ONil].
    apply (OUpdate 3 second_report _ [] []).
  - repeat constructor; discriminate.
Defined.

Lemma claim_takes_oldest_witness :
  tbl_wf (run claimed tbl_empty) ∧ fst (claim 30000001 ∅ "w2" 30 (run claimed tbl_empty)) ≠ None ∧
  match claim 30000001 ∅ "w2" 30 (run claimed tbl_empty) with
  | (None, _) => False
  | (Some x, t') => get (job_id x) t' = Some x
  end.
Proof.
  split; [apply claimed_wf|]. split; [vm_compute; congruence|].
  pose proof (claim_takes_oldest 30000001 ∅ "w2" 30 (run claimed tbl_empty) claimed_wf ltac:(lia)) as Hc.
  destruct (claim 30000001 ∅ "w2" 30 (run claimed tbl_empty)) as [[x|] t'] eqn:Hx.
  - by destruct Hc as (r & _ & _ & _ & _ & Hg & _).
  - vm_compute in Hx. discriminate Hx.
Defined.

Definition finished : list (Z * event) := claimed ++ [(1, EComplete 1 "w1")].
Lemma reachable_jobs_witness :
  match tbl_get (run finished tbl_empty) 1 with
  | Some r => status r = "completed" ∧ tbl_get (run [(2, EFail 1 "w1" "late" 2)] (run finished tbl_empty)) 1 = Some r
  | None => False
  end.
Proof.
  destruct (tbl_get (run finished tbl_empty) 1) as [r|] eqn:Hr; [|vm_compute in Hr; discriminate Hr].
  assert (status r = "completed") as Hs by (vm_compute in Hr; injection Hr as <-; reflexivity).
  split; [exact Hs|].
  assert (timely finished) as Hti by (repeat constructor; discriminate).
  apply (reachable_jobs (run finished tbl_empty) 1 r (ex_intro _ finished (conj Hti eq_refl)) Hr); [by left|repeat constructor; discriminate|].
  intros ne Hin. apply list_elem_of_singleton in Hin. subst ne. discriminate.
Defined.

Lemma checkpoint_survives_witness :
  ∃ r', tbl_get (run [(30000001, EClaim ∅ "w2" 30); (30000002, EFail 1 "w2" "boom" 2)] (run claimed tbl_empty)) 1 = Some r' ∧
    checkpoint r' = [] ∧ status r' = "pending".
Proof.
  destruct (checkpoint_survives (run claimed tbl_empty) 1 claimed_job
    [(30000001, EClaim ∅ "w2" 30); (30000002, EFail 1 "w2" "boom" 2)] claimed_wf) as (r' & Hr' & Hi & Hc & Ha);
    [vm_compute; reflexivity|repeat constructor; discriminate| |].
  - intros ne w c Hin. rewrite !elem_of_cons in Hin. destruct Hin as [->|[->|[]%elem_of_nil]]; discriminate.
  - exists r'. split; [exact Hr'|]. split; [exact Hc|]. vm_compute in Hr'. injection Hr' as <-. reflexivity.
Defined.

(** [cancel] leaves the lease owner in place and [complete] and [fail_retry]
    look at the owner only, so a cancelled job comes back: its worker completes
    it, or reports a failure after which it is pending and claimed again. *)
Lemma cancelled_job_revived :
  ∃ cancelled_, reachable cancelled_ ∧ (status <$> tbl_get cancelled_ 1) = Some "cancelled" ∧
    (status <$> tbl_get (step cancelled_ (2, EComplete 1 "w1")) 1) = Some "completed" ∧
    (status <$> tbl_get (run [(2, EFail 1 "w1" "boom" 0); (3, EClaim ∅ "w2" 30)] cancelled_) 1) = Some "leased".
Proof.
  exists (run (claimed ++ [(1, ECancel 1)]) tbl_empty). split; [eexists; split; [|reflexivity]; repeat constructor; discriminate|].
  split_and!; vm_compute; reflexivity.
Qed.

(** The update of [fail_retry] does not look at the owner: a report whose worker
    still owned the job when it read the row takes the lease from the worker that
    claimed the job before it wrote, and no [JobNotOwned] is raised. *)
Lemma late_failure_frees_lease : ∃ es t', overlapped es (run claimed tbl_empty, []) (t', []) ∧
  es.*2 = [EFail 1 "w1" "boom" 0; EClaim ∅ "w2" 30; EFailLate 1 "boom" 0 (0, 5)] ∧
  (status <$> tbl_get t' 1) = Some "pending" ∧ perform 30000003 (EComplete 1 "w2") t' = Err (JobNotOwned 1 "w2").
Proof.
  set (x := {| fu_job := 1; fu_error := "boom"; fu_backoff := 0; fu_seen := (0, 5) |}).
  exists [(30000000, EFail 1 "w1" "boom" 0); (30000001, EClaim ∅ "w2" 30); (30000002, EFailLate 1 "boom" 0 (0, 5))]. eexists. split.
  - eapply (OCons _ _ _ (_, [x])); [apply OSelect; vm_compute; reflexivity|].
    eapply (OCons _ _ _ (_, [x])); [apply OWhole; discriminate|].
    eapply OCons; [apply (OUpdate 30000002 x _ [] [])|apply ONil].
  - split; [reflexivity|]. split; vm_compute; reflexivity.
Qed.
End Jobs.
