(* ===== verification/Outbox.v ===== *)
(** * The transactional outbox

    [packages/platform/outbox.py]: events are inserted in the transaction of the
    effect they describe ([enqueue]) and a publisher delivers the pending ones,
    oldest first, marking each as published. The delivery is the caller's: here
    a function of the events attempted so far that says whether the attempt
    succeeds, so a run may fail anywhere; the log of attempts is part of the
    world and is not rolled back with the transaction. *)

From stdpp Require Import base strings list sorting gmap.
From Stdlib Require Import ZArith Lia.
From S2P Require Import Prelude Json Query.

Module Outbox.

Record outbox_row := {
  aggregate_type : string;
  aggregate_id : string;
  event_type : string;
  payload : list (string * json);
  correlation_id : string;
  created_at : Z;
  published_at : option Z;
  status : string;
}.

(** The [OutboxEvent] the callback gets: the id and the columns it reads. *)
Record OutboxEvent := {
  ev_id : Z;
  ev_aggregate_type : string;
  ev_aggregate_id : string;
  ev_event_type : string;
  ev_payload : list (string * json);
  ev_correlation_id : string;
}.

Definition enqueue (now : Z) (aggregate_type aggregate_id event_type : string) (payload : list (string * json))
    (correlation_id : string) (t : table outbox_row) : Z * table outbox_row :=
  tbl_insert t {| aggregate_type := aggregate_type; aggregate_id := aggregate_id; event_type := event_type;
    payload := payload; correlation_id := correlation_id; created_at := now; published_at := None;
    status := "pending" |}.

Definition event_of (ir : Z * outbox_row) : OutboxEvent := {|
  ev_id := ir.1; ev_aggregate_type := aggregate_type ir.2; ev_aggregate_id := aggregate_id ir.2;
  ev_event_type := event_type ir.2; ev_payload := payload ir.2; ev_correlation_id := correlation_id ir.2 |}.

Definition mark_published (now : Z) (r : outbox_row) : outbox_row := {|
  aggregate_type := aggregate_type r; aggregate_id := aggregate_id r; event_type := event_type r;
  payload := payload r; correlation_id := correlation_id r; created_at := created_at r;
  published_at := Some now; status := "published" |}.

Definition is_pending (r : outbox_row) : bool := String.eqb (status r) "pending".

(** [WHERE status = 'pending' ORDER BY created_at LIMIT :limit FOR UPDATE SKIP LOCKED] *)
Definition selectable (locked : gset Z) (t : table outbox_row) : list (Z * outbox_row) :=
  tbl_select (λ i r, is_pending r && negb (bool_decide (i ∈ locked))) t.
Definition batch (limit : nat) (locked : gset Z) (t : table outbox_row) : list (Z * outbox_row) :=
  take limit (order_by (asc (λ ir, created_at ir.2)) (selectable locked t)).

Section Publisher.
(** Whether the delivery of an event succeeds after these attempts. *)
Variable deliver : list OutboxEvent → OutboxEvent → bool.

(** The loop over the selected rows: the log of attempts and, unless a delivery
    raised, the table. *)
Fixpoint publish_loop (now : Z) (selected : list (Z * outbox_row)) (log : list OutboxEvent) (t : table outbox_row)
    : list OutboxEvent * option (table outbox_row) :=
  match selected with
  | [] => (log, Some t)
  | ir :: rest =>
      let log' := log ++ [event_of ir] in
      if deliver log (event_of ir) then publish_loop now rest log' (tbl_set ir.1 (mark_published now) t)
      else (log', None)
  end.

(** The events published and the table, or [None] when a delivery raised and
    the transaction is rolled back. *)
Definition publish_pending (now : Z) (limit : nat) (locked : gset Z) (log : list OutboxEvent) (t : table outbox_row)
    : list OutboxEvent * option (list OutboxEvent * table outbox_row) :=
  let selected := batch limit locked t in
  let ' (log', t') := publish_loop now selected log t in
  (log', (λ t1, (map event_of selected, t1)) <$> t').

(** One run of the publisher in its transaction. *)
Definition publish_run (limit : nat) (st : list OutboxEvent * table outbox_row) (nl : Z * gset Z)
    : list OutboxEvent * table outbox_row :=
  match publish_pending nl.1 limit nl.2 st.1 st.2 with
  | (log', Some (_, t')) => (log', t')
  | (log', None) => (log', st.2)
  end.

Definition pending_ids (t : table outbox_row) : list Z := (tbl_select (λ _ r, is_pending r) t).*1.

Definition marked (now : Z) (ids : list Z) (i : Z) (r : outbox_row) : outbox_row :=
  if bool_decide (i ∈ ids) then mark_published now r else r.

Lemma mark_published_idem now r : mark_published now (mark_published now r) = mark_published now r.
Proof. done. Qed.

Lemma publish_loop_spec now sel log t :
  tbl_wf t →
  match publish_loop now sel log t with
  | (log', Some t') => log' = log ++ map event_of sel ∧ tbl_wf t' ∧
      ∀ i, tbl_get t' i = marked now sel.*1 i <$> tbl_get t i
  | (log', None) => ∃ dn x rest, sel = dn ++ x :: rest ∧ log' = log ++ map event_of (dn ++ [x])
  end.
Proof.
  revert log t; induction sel as [|ir sel IH]; intros log t Hw; simpl.
  - split_and!; [by rewrite app_nil_r|done|]. intros i. by destruct (tbl_get t i).
  - destruct (deliver log (event_of ir)); [|exists [], ir, sel; done].
    specialize (IH (log ++ [event_of ir]) (tbl_set ir.1 (mark_published now) t) ltac:(by apply tbl_update_wf)).
    destruct (publish_loop _ _ _ _) as [log' [t'|]].
    + destruct IH as (-> & Hw' & Hget). split_and!; [by rewrite <-app_assoc|done|]. intros i. rewrite Hget.
      unfold marked. destruct (decide (i = ir.1)) as [->|Hne].
      * rewrite tbl_get_set_eq. destruct (tbl_get t ir.1) as [r|]; csimpl; [|done].
        rewrite (bool_decide_true (ir.1 ∈ ir.1 :: _)) by (by left). by case_bool_decide.
      * rewrite tbl_get_set_ne by done. destruct (tbl_get t i); csimpl; [|done]. f_equal.
        erewrite bool_decide_ext; [done|]. rewrite elem_of_cons. naive_solver.
    + destruct IH as (dn & x & rest & -> & ->). exists (ir :: dn), x, rest.
      split; [done|]. simpl. by rewrite <-app_assoc.
Qed.

Lemma batch_elem limit locked t i r :
  tbl_wf t → (i, r) ∈ batch limit locked t → tbl_get t i = Some r ∧ is_pending r = true ∧ (i ∉ locked).
Proof.
  intros Hw Hin. unfold batch in Hin.
  apply elem_of_take in Hin as (k & Hk & _). apply list_elem_of_lookup_2, elem_of_order_by, elem_of_tbl_select in Hk
    as [[Hp Hl]%andb_true_iff Hin]. rewrite tbl_get_spec by done. split_and!; [done..|].
  by rewrite negb_true_iff, bool_decide_eq_false in Hl.
Qed.

(** A run of the publisher attempts the deliveries of a batch of pending,
    unlocked events, oldest first and at most [limit] of them. When all succeed
    exactly these events are marked published and no other row changes; when
    one raises, the attempts stop there and the whole batch stays pending to be
    delivered again. *)
Theorem publish_pending_spec now limit locked log t :
  tbl_wf t →
  (length (batch limit locked t) <= limit)%nat ∧
  StronglySorted (λ a b, created_at a.2 <= created_at b.2)%Z (batch limit locked t) ∧
  (∀ ir, ir ∈ batch limit locked t → tbl_get t ir.1 = Some ir.2 ∧ status ir.2 = "pending") ∧
  match publish_pending now limit locked log t with
  | (log', Some (published, t')) =>
      published = map event_of (batch limit locked t) ∧ log' = log ++ published ∧
      (∀ i, tbl_get t' i = marked now (map ev_id published) i <$> tbl_get t i)
  | (log', None) => ∃ dn x rest, batch limit locked t = dn ++ x :: rest ∧
      log' = log ++ map event_of (dn ++ [x]) ∧
      publish_run limit (log, t) (now, locked) = (log', t)
  end.
Proof.
  intros Hw. split_and!.
  - unfold batch. rewrite length_take. lia.
  - apply sorted_take. eapply sorted_impl; [|apply order_by_sorted; [apply asc_total|apply asc_trans]].
    intros x y Hxy. unfold asc in Hxy. lia.
  - intros [i r] Hin. apply batch_elem in Hin as (Hg & Hp & _); [|done]. by apply String.eqb_eq in Hp.
  - unfold publish_run, publish_pending. simpl. pose proof (publish_loop_spec now (batch limit locked t) log t Hw) as Hs.
    destruct (publish_loop _ _ _ _) as [log' [t'|]]; simpl.
    + destruct Hs as (-> & _ & Hget). split_and!; [done..|]. intros i. rewrite Hget, map_map. done.
    + destruct Hs as (dn & x & rest & Hb & Hlog). exists dn, x, rest. done.
Qed.

(** A successful run splits the pending events into its batch and the rest. *)
Lemma publish_run_pending limit now log t :
  tbl_wf t → (∀ l e, deliver l e = true) →
  ∃ t', publish_run limit (log, t) (now, ∅) = (log ++ map event_of (batch limit ∅ t), t') ∧ tbl_wf t' ∧
    pending_ids t ≡ₚ (batch limit ∅ t).*1 ++ pending_ids t'.
Proof.
  intros Hw Hok. unfold publish_run, publish_pending. simpl.
  pose proof (publish_loop_spec now (batch limit ∅ t) log t Hw) as Hs.
  assert (∀ sel lg t0, (publish_loop now sel lg t0).2 ≠ None) as Hall.
  { induction sel as [|ir sel IH]; intros lg t0; simpl; [done|]. by rewrite Hok. }
  specialize (Hall (batch limit ∅ t) log t).
  destruct (publish_loop _ _ _ _) as [log' [t'|]]; [simpl|done]. destruct Hs as (-> & Hw' & Hget).
  exists t'. split_and!; [done..|].
  assert (∀ i, i ∈ (batch limit ∅ t).*1 → i ∈ pending_ids t) as Hsub.
  { intros i ([j r] & -> & Hin)%list_elem_of_fmap. apply batch_elem in Hin as (Hg & Hp & _); [|done].
    apply elem_of_select_ids; [done|]. by exists r. }
  assert (NoDup (batch limit ∅ t).*1) as Hnd.
  { eapply (sublist_NoDup _ (order_by (asc (λ ir : Z * outbox_row, created_at ir.2)) (selectable ∅ t)).*1);
      [|unfold batch; f_equiv; apply sublist_take].
    rewrite order_by_perm. by apply tbl_select_ids_NoDup. }
  assert (∀ i, i ∈ pending_ids t' ↔ i ∈ pending_ids t ∧ i ∉ (batch limit ∅ t).*1) as Hrest.
  { intros i. unfold pending_ids. rewrite !elem_of_select_ids by done. rewrite Hget. unfold marked. split.
    - intros (r' & Hr' & Hp). destruct (tbl_get t i) as [r|]; [|done]. simpl in Hr'.
      case_bool_decide as Hin; injection Hr' as <-; [done|]. split; [by exists r|done].
    - intros [(r & Hr & Hp) Hn]. exists r. rewrite Hr, bool_decide_false by done. done. }
  apply NoDup_Permutation.
  - by apply tbl_select_ids_NoDup.
  - apply NoDup_app. split_and!; [done| |by apply tbl_select_ids_NoDup]. intros i Hi Hi'. by apply Hrest in Hi' as [_ ?].
  - intros i. rewrite elem_of_app, Hrest. destruct (decide (i ∈ (batch limit ∅ t).*1)); naive_solver.
Qed.

Lemma batch_empty limit t : (1 <= limit)%nat → batch limit ∅ t = [] → pending_ids t = [].
Proof.
  intros Hl Hb. unfold batch in Hb. unfold pending_ids.
  assert (selectable ∅ t = tbl_select (λ _ r, is_pending r) t) as Heq.
  { unfold selectable, tbl_select. apply list_filter_iff. intros [i r]. rewrite andb_true_iff, negb_true_iff, bool_decide_eq_false.
    set_solver. }
  rewrite Heq in Hb. destruct (order_by _ _) eqn:Ho.
  - apply order_by_nil in Ho. by rewrite Ho.
  - destruct limit; [lia|done].
Qed.

(** C33: while deliveries succeed, every run with a positive limit makes progress
    until nothing is pending: as many runs as there are pending events publish
    them all, and each of them has been delivered exactly once. *)
Theorem outbox_drains limit times log t :
  tbl_wf t → (∀ l e, deliver l e = true) → (1 <= limit)%nat → (length (pending_ids t) <= length times)%nat →
  ∃ es t', foldl (publish_run limit) (log, t) (map (λ now, (now, ∅)) times) = (log ++ es, t') ∧
    pending_ids t' = [] ∧ map ev_id es ≡ₚ pending_ids t.
Proof.
  intros Hw Hok Hl. revert log t Hw; induction times as [|now times IH]; intros log t Hw Hlen; simpl in *.
  - exists [], t. rewrite app_nil_r. assert (pending_ids t = []) as -> by (destruct (pending_ids t); [done|simpl in *; lia]). done.
  - destruct (publish_run_pending limit now log t Hw Hok) as (t1 & -> & Hw1 & Hperm).
    destruct (IH (log ++ map event_of (batch limit ∅ t)) t1 Hw1) as (es & t' & -> & Hnone & Hes).
    { apply Permutation_length in Hperm. rewrite length_app, length_fmap in Hperm.
      destruct (batch limit ∅ t) eqn:Hb; [|simpl in *; lia]. apply batch_empty in Hb; [|done].
      rewrite Hb in *. simpl in *. lia. }
    exists (map event_of (batch limit ∅ t) ++ es), t'. split_and!; [by rewrite app_assoc|done|].
    rewrite map_app, Hes, Hperm, map_map. done.
Qed.
End Publisher.

Definition two_events : table outbox_row :=
  (enqueue 5 "a" "1" "created" [] "c" (enqueue 3 "a" "2" "created" [] "c" tbl_empty).2).2.

Lemma two_events_wf : tbl_wf two_events.
Proof. apply tbl_insert_wf, tbl_insert_wf. split; constructor. Qed.

Lemma publish_pending_spec_witness :
  tbl_wf two_events ∧
  map (λ ir, created_at ir.2) (batch 5 ∅ two_events) = [3%Z; 5%Z] ∧
  (length (batch 5 ∅ two_events) <= 5)%nat.
Proof.
  split; [apply two_events_wf|]. split; [vm_compute; reflexivity|].
  apply (publish_pending_spec (λ _ _, true) 10 5 ∅ [] two_events two_events_wf).
Defined.

Lemma outbox_drains_witness :
  ∃ es t', foldl (publish_run (λ _ _, true) 1) ([], two_events) [(10%Z, ∅); (11%Z, ∅)] = (es, t') ∧ pending_ids t' = [].
Proof.
  destruct (outbox_drains (λ _ _, true) 1 [10%Z; 11%Z] [] two_events two_events_wf) as (es & t' & Hrun & Hp & _);
    [done|lia|vm_compute; lia|]. by exists es, t'.
Defined.
End Outbox.
