(* ===== verification/Worker.v ===== *)
(** * The worker process

    [apps/worker/main.py] and [apps/worker/example_job.py]: claim one job, run
    its body in transactions, complete it, or record the failure. Every
    [engine.begin()] block is one transaction; between two of them the other
    processes may change the database, which [others] does here, and between the
    two statements of a failure report, which [meanwhile] does. The body of a
    tender check is a parameter: [packages/tender/post_submission_tracking_job.py]
    is not part of this file. *)

From stdpp Require Import base strings list sorting gmap pretty.
From Stdlib Require Import ZArith Lia SpecFloat Ascii.
From S2P Require Import Prelude Json Query Jobs Outbox.

Module Worker.
Import Jobs.
#[local] Arguments Outbox.enqueue : simpl never.
#[local] Open Scope Z_scope.

(** ** Python arithmetic on decoded JSON numbers *)

Definition py_type_name (j : json) : string :=
  match j with
  | JNull => "NoneType" | JBool _ => "bool" | JInt _ => "int" | JFloat _ => "float"
  | JStr _ => "str" | JArr _ => "list" | JObj _ => "dict"
  end.

Definition dquote : string := String "034"%char "".

(** [v + 1] *)
Definition py_add_one (v : json) : result exn json :=
  match v with
  | JInt z => Ok (JInt (z + 1))
  | JBool b => Ok (JInt (bool_Z b + 1))
  | JFloat f => Ok (JFloat (SFadd 53 1024 f (S754_finite false 4503599627370496 (-52))))
  | JStr _ | JArr _ => Err (TypeError ("can only concatenate " +:+ py_type_name v +:+ " (not " +:+ dquote +:+ "int"
      +:+ dquote +:+ ") to " +:+ py_type_name v))
  | _ => Err (TypeError ("unsupported operand type(s) for +: '" +:+ py_type_name v +:+ "' and 'int'"))
  end.

(** Exact comparison of an integer with a float. *)
Definition Z_cmp_float (z : Z) (f : spec_float) : option comparison :=
  match f with
  | S754_zero _ => Some (Z.compare z 0)
  | S754_infinity s => Some (if s then Gt else Lt)
  | S754_nan => None
  | S754_finite s m e =>
      let sm := if s then Z.neg m else Z.pos m in
      Some (if Z.leb 0 e then Z.compare z (sm * 2 ^ e) else Z.compare (z * 2 ^ (- e)) sm)
  end.
Definition num_cmp (a b : json) : option (option comparison) :=
  match a, b with
  | JFloat x, JFloat y => Some (SFcompare x y)
  | JFloat x, _ => match as_int b with Some z => Some (CompOpp <$> Z_cmp_float z x) | None => None end
  | _, JFloat y => match as_int a with Some z => Some (Z_cmp_float z y) | None => None end
  | _, _ => match as_int a, as_int b with Some x, Some y => Some (Some (Z.compare x y)) | _, _ => None end
  end.
(** [a >= b] for a number [a] *)
Definition py_ge (a b : json) : result exn bool :=
  match num_cmp a b with
  | Some (Some Lt) | Some None => Ok false
  | Some (Some _) => Ok true
  | None => Err (TypeError ("'>=' not supported between instances of '" +:+ py_type_name a +:+ "' and '" +:+ py_type_name b +:+ "'"))
  end.

(** ** The example job *)

Definition JOB_TYPE : string := "paged_echo".

(** One page: the outbox event and the new checkpoint. *)
Definition process_page (now : Z) (x : Job) (ob : table Outbox.outbox_row)
    : result exn (list (string * json) * table Outbox.outbox_row) :=
  let! next_page := py_add_one (default (JInt 0) (assoc "page" (checkpoint (job x)))) in
  let! total_pages := match assoc "total_pages" (params (identity (job x))) with
                      | Some v => Ok v
                      | None => Err (KeyError "total_pages")
                      end in
  let ob' := (Outbox.enqueue now "paged_echo_job" (py_str_Z (job_id x)) "page.processed"
    [("page", next_page); ("total_pages", total_pages)] (correlation_id (identity (job x))) ob).2 in
  let! last := py_ge next_page total_pages in
  Ok ([("page", next_page); ("done", JBool last)], ob').

(** ** Transactions of one worker among others *)

Record wdb := Wdb { jobs : table job_row; outbox : table Outbox.outbox_row }.

Inductive werror :=
| NotOwned (e : job_error)
| AssertionError (msg : string)
| PyExn (e : exn).

Section Process.
Context `{PyText}.
(** What the other processes do before the [n]-th transaction of this one, and
    the time of that transaction. *)
Variable others : nat → wdb → wdb.
Variable clock : nat → Z.

Definition world : Type := nat * wdb.
(** [None]: the fuel of a loop ran out. *)
Definition action (A : Type) : Type := world → option (result werror A * world).

Definition ret {A} (r : result werror A) : action A := λ w, Some (r, w).
Definition bind {A B} (m : action A) (k : A → action B) : action B := λ w,
  match m w with
  | Some (Ok a, w') => k a w'
  | Some (Err e, w') => Some (Err e, w')
  | None => None
  end.

(** [async with engine.begin() as conn: ...] *)
Definition txn {A} (body : Z → wdb → result werror (A * wdb)) : action A := λ w,
  let d := others w.1 w.2 in
  Some match body (clock w.1) d with
       | Ok (a, d') => (Ok a, (S w.1, d'))
       | Err e => (Err e, (S w.1, d))
       end.

Definition vanished (i : Z) : werror :=
  AssertionError ("job " +:+ py_str_Z i +:+ " vanished mid-processing (jobs are never deleted)").

(** [str(exc)] *)
Definition exc_str (e : werror) : string :=
  match e with
  | NotOwned (JobNotOwned i w) => "job " +:+ py_str_Z i +:+ " is not currently leased by " +:+ py_repr w
  | AssertionError msg => msg
  | PyExn (KeyError k) => py_repr k
  | PyExn (ValueError m) | PyExn (TypeError m) | PyExn (IntegrityError m) | PyExn (InvalidOperation m)
  | PyExn (AttributeError m) | PyExn (AssertionFailed m) | PyExn (IndexError m) | PyExn (DataError m) | PyExn (OverflowError m) => m
  | PyExn StopIteration => ""
  | PyExn NoResultFound => "No row was found when one was required"
  | PyExn MultipleResultsFound => "Multiple rows were found when one or none was required"
  end.

Definition page_txn (i : Z) (worker_id : string) (now : Z) (d : wdb) : result werror (list (string * json) * wdb) :=
  match get i (jobs d) with
  | None => Err (vanished i)
  | Some current =>
      let! ' (cp, ob') := map_err PyExn (process_page now current (outbox d)) in
      let! js' := map_err NotOwned (store_checkpoint now i worker_id cp (jobs d)) in
      Ok (cp, Wdb js' ob')
  end.

(** [while not done] *)
Fixpoint echo_loop (fuel : nat) (i : Z) (worker_id : string) (done_ : bool) : action unit :=
  if done_ then ret (Ok tt) else
  match fuel with
  | O => λ _, None
  | S fuel' => bind (txn (page_txn i worker_id)) (λ cp,
      echo_loop fuel' i worker_id (py_truthy (dict_get "done" cp)))
  end.

Definition complete_txn (i : Z) (worker_id : string) (now : Z) (d : wdb) : result werror (unit * wdb) :=
  let! js' := map_err NotOwned (complete now i worker_id (jobs d)) in Ok (tt, Wdb js' (outbox d)).

(** What the other processes commit between the two statements of [fail_retry] *)
Variable meanwhile : nat → wdb → wdb.
Definition fail_txn (n : nat) (i : Z) (worker_id : string) (e : werror) (now : Z) (d : wdb) : result werror (unit * wdb) :=
  match get i (jobs d) with
  | None => Err (vanished i)
  | Some current =>
      let backoff := compute_backoff_seconds (attempt (job current) + 1) 2 300 in
      let d' := meanwhile n d in
      let! ' (_, js') := map_err NotOwned (fail_retry now i worker_id (exc_str e) backoff (λ _, jobs d') (jobs d)) in
      Ok (tt, Wdb js' (outbox d'))
  end.

(** The body of a tender check, its own transactions included. *)
Variable tender_check : Job → string → action unit.

Definition job_body (fuel : nat) (x : Job) (worker_id : string) : action unit :=
  let jt := job_type (identity (job x)) in
  if String.eqb jt JOB_TYPE then
    echo_loop fuel (job_id x) worker_id (py_truthy (default (JBool false) (assoc "done" (checkpoint (job x)))))
  else if String.eqb jt "tender_change_check" then tender_check x worker_id
  else ret (Err (PyExn (ValueError ("unknown job_type: " +:+ jt)))).

Definition process_claimed_job (fuel : nat) (x : Job) (worker_id : string) : action unit := λ w,
  match bind (job_body fuel x worker_id) (λ _, txn (complete_txn (job_id x) worker_id)) w with
  | Some (Err e, w') =>
      match txn (fail_txn w'.1 (job_id x) worker_id e) w' with
      | Some (Err (NotOwned _), w'') => Some (Ok tt, w'')
      | r => r
      end
  | r => r
  end.

Definition LEASE_SECONDS : Z := 30.

(** The rows other transactions have locked when this one claims. *)
Variable locked : nat → gset Z.

Definition run_once (fuel : nat) (worker_id : string) : action bool := λ w,
  match txn (λ now d, let c := claim now (locked w.1) worker_id LEASE_SECONDS (jobs d) in
               Ok (c.1, Wdb c.2 (outbox d))) w with
  | Some (Ok None, w') => Some (Ok false, w')
  | Some (Ok (Some x), w') => bind (process_claimed_job fuel x worker_id) (λ _, ret (Ok true)) w'
  | Some (Err e, w') => Some (Err e, w')
  | None => None
  end.

(** ** The worker only moves jobs by the store's transactions *)

Definition evolves (d d' : wdb) : Prop := ∃ es, jobs d' = run es (jobs d).

#[local] Instance evolves_preorder : PreOrder evolves.
Proof.
  split; [by exists []|]. intros d1 d2 d3 [es1 H1] [es2 H2]. exists (es1 ++ es2).
  unfold run in *. by rewrite foldl_app, <-H1.
Qed.

Lemma evolves_step now e d t' : perform now e (jobs d) = Ok t' → ∀ ob, evolves d (Wdb t' ob).
Proof. intros Hp ob. exists [(now, e)]. unfold run, step. simpl. by rewrite Hp. Qed.

Lemma evolves_job d d' i :
  evolves d d' → tbl_wf (jobs d) → is_Some (tbl_get (jobs d) i) →
  tbl_wf (jobs d') ∧ is_Some (tbl_get (jobs d') i).
Proof.
  intros [es Hes] Hw [r Hr]. rewrite Hes. split; [by apply run_wf|].
  destruct (run_row (λ _, True) es (jobs d) i r Hw Hr I) as (r' & -> & _); [done|]. by eexists.
Qed.

Definition keeps_jobs {A} (m : action A) : Prop :=
  ∀ w r w', m w = Some (r, w') → evolves w.2 w'.2.

Hypothesis others_evolve : ∀ n d, evolves d (others n d).
Hypothesis meanwhile_evolves : ∀ n d, evolves d (meanwhile n d).
Hypothesis tender_check_evolves : ∀ x worker_id, keeps_jobs (tender_check x worker_id).

Lemma txn_keeps {A} (body : Z → wdb → result werror (A * wdb)) :
  (∀ now d a d', body now d = Ok (a, d') → evolves d d') → keeps_jobs (txn body).
Proof using others_evolve.
  intros Hb w r w' Ht. unfold txn in Ht. injection Ht as Ht.
  destruct (body _ _) as [[a d']|e] eqn:Hr; simplify_eq; simpl.
  - etrans; [apply others_evolve|]. by eapply Hb.
  - apply others_evolve.
Qed.

Lemma bind_keeps {A B} (m : action A) (k : A → action B) :
  keeps_jobs m → (∀ a, keeps_jobs (k a)) → keeps_jobs (bind m k).
Proof.
  intros Hm Hk w r w' Hr. unfold bind in Hr. destruct (m w) as [[[a|e] w1]|] eqn:Hw; simplify_eq.
  - etrans; [by eapply Hm|by eapply Hk].
  - by eapply Hm.
Qed.

Lemma ret_keeps {A} (r : result werror A) : keeps_jobs (ret r).
Proof. intros w r' w' [= <- <-]. done. Qed.

Lemma page_txn_evolves i wid now d cp d' : page_txn i wid now d = Ok (cp, d') → evolves d d'.
Proof.
  unfold page_txn. destruct (get i (jobs d)) as [x|]; [|done]. intros Hp.
  destruct (process_page now x (outbox d)) as [[cp' ob']|]; [|done]. simpl in Hp.
  destruct (store_checkpoint now i wid cp' (jobs d)) as [js'|] eqn:Hs; [|done]. simpl in Hp.
  injection Hp as <- <-. by apply (evolves_step now (ECheckpoint i wid cp')).
Qed.

Lemma complete_txn_evolves i wid now d a d' : complete_txn i wid now d = Ok (a, d') → evolves d d'.
Proof.
  unfold complete_txn. destruct (complete now i wid (jobs d)) as [js'|] eqn:Hs; [|done].
  intros [= <- <-]. by apply (evolves_step now (EComplete i wid)).
Qed.

Lemma fail_txn_evolves n i wid e now d a d' : fail_txn n i wid e now d = Ok (a, d') → evolves d d'.
Proof using meanwhile_evolves.
  unfold fail_txn. destruct (get i (jobs d)) as [x|]; [|done].
  destruct (fail_retry _ _ _ _ _ _ _) as [[s js']|] eqn:Hs; [|done]. intros [= <- <-].
  apply rbind_ok in Hs as (seen & _ & Hs). etrans; [apply (meanwhile_evolves n)|].
  eapply (evolves_step now (EFailLate i (exc_str e) _ seen)). simpl. f_equal. by injection Hs as ->.
Qed.

Lemma echo_loop_keeps fuel i wid b : keeps_jobs (echo_loop fuel i wid b).
Proof using others_evolve.
  revert b; induction fuel as [|fuel IH]; intros [|]; simpl; try apply ret_keeps; [by intros w r w'|].
  apply bind_keeps; [apply txn_keeps; intros; by eapply page_txn_evolves|]. intros cp. apply IH.
Qed.

Lemma job_body_keeps fuel x wid : keeps_jobs (job_body fuel x wid).
Proof using others_evolve tender_check_evolves.
  unfold job_body. destruct (String.eqb _ JOB_TYPE); [apply echo_loop_keeps|].
  destruct (String.eqb _ _); [apply tender_check_evolves|apply ret_keeps].
Qed.

(** The failure report raises [JobNotOwned] only, once the job exists. *)
Lemma fail_txn_error n i wid e now d x :
  fail_txn n i wid e now d = Err x → is_Some (tbl_get (jobs d) i) → ∃ o, x = NotOwned o.
Proof.
  unfold fail_txn, get, fail_retry, fail_select. intros Hf [r Hr]. rewrite Hr in Hf. simpl in Hf.
  destruct (negb _); simpl in Hf; [simplify_eq; eauto|]. by destruct (fail_update _ _ _ _ _ _).
Qed.

(** Whatever the body of a claimed job raises, and whatever the other
    processes commit between the worker's transactions (lost leases, reclaims
    and cancellations included), processing the job lets no exception escape
    to the worker's main loop, and changes the jobs only through the
    transactions of the job store. *)
Theorem worker_survives fuel x wid w r w' :
  tbl_wf (jobs w.2) → is_Some (tbl_get (jobs w.2) (job_id x)) →
  process_claimed_job fuel x wid w = Some (r, w') →
  r = Ok tt ∧ evolves w.2 w'.2.
Proof using others_evolve meanwhile_evolves tender_check_evolves.
  intros Hw Hex. unfold process_claimed_job.
  assert (keeps_jobs (bind (job_body fuel x wid) (λ _, txn (complete_txn (job_id x) wid)))) as Hk.
  { apply bind_keeps; [apply job_body_keeps|]. intros _. apply txn_keeps. intros. by eapply complete_txn_evolves. }
  destruct (bind _ _ w) as [[[[]|e] w1]|] eqn:Hb; [| |done].
  - intros [= <- <-]. split; [done|]. by eapply Hk.
  - apply Hk in Hb.
    assert (keeps_jobs (txn (fail_txn w1.1 (job_id x) wid e))) as Hkf by (apply txn_keeps; intros; by eapply fail_txn_evolves).
    destruct (txn _ w1) as [[r2 w2]|] eqn:Ht; [|done]. pose proof (Hkf _ _ _ Ht) as He. intros Hr.
    assert (evolves w.2 w2.2) as Hev by (by etrans).
    unfold txn in Ht. destruct (fail_txn _ _ _ _ _ _) as [[[] d']|er] eqn:Hf.
    + injection Ht as <- <-. injection Hr as <- <-. done.
    + injection Ht as <- <-. apply fail_txn_error in Hf as [n ->].
      * injection Hr as <- <-. done.
      * eapply evolves_job; [|exact Hw|exact Hex]. etrans; [exact Hb|apply others_evolve].
Qed.
End Process.

(** ** Pages and their events under interleaving *)

Definition page_of (r : job_row) : json := default (JInt 0) (assoc "page" (checkpoint r)).

(** The page numbers of a job's events, in the order they were inserted. *)
Definition is_page_event (i : Z) (r : Outbox.outbox_row) : bool :=
  String.eqb (Outbox.aggregate_type r) "paged_echo_job" && String.eqb (Outbox.aggregate_id r) (py_str_Z i).
Definition pages_of (i : Z) (ob : table Outbox.outbox_row) : list (option json) :=
  map (λ ir, assoc "page" (Outbox.payload ir.2)) (tbl_select (λ _ r, is_page_event i r) ob).
Definition page_numbers (from n : Z) : list (option json) := map (λ z, Some (JInt z)) (seqZ from n).

Lemma py_str_Z_inj i j : py_str_Z i = py_str_Z j → i = j.
Proof. unfold py_str_Z. apply (inj pretty). Qed.

Lemma page_numbers_snoc p : 0 <= p → page_numbers 1 (p + 1) = page_numbers 1 p ++ [Some (JInt (p + 1))].
Proof.
  intros Hp. unfold page_numbers. rewrite seqZ_app by lia. rewrite map_app, (Z.add_comm 1 p).
  by rewrite (seqZ_cons (p + 1) 1) by lia.
Qed.

Lemma pages_of_enqueue now j at_ ai et pl c ob :
  pages_of j (Outbox.enqueue now at_ ai et pl c ob).2 =
  pages_of j ob ++ (if String.eqb at_ "paged_echo_job" && String.eqb ai (py_str_Z j) then [assoc "page" pl] else []).
Proof.
  unfold pages_of, Outbox.enqueue. rewrite tbl_select_insert, map_app. f_equal. unfold is_page_event. simpl.
  by destruct (_ && _).
Qed.

(** A page transaction that commits: one event more, and the checkpoint with it. *)
Lemma page_txn_spec i wid now d cp d' :
  tbl_wf (jobs d) → page_txn i wid now d = Ok (cp, d') →
  ∃ r next total last, tbl_get (jobs d) i = Some r ∧ leased_by wid r = true ∧
    py_add_one (page_of r) = Ok next ∧ assoc "total_pages" (params (identity r)) = Some total ∧
    py_ge next total = Ok last ∧ cp = [("page", next); ("done", JBool last)] ∧
    jobs d' = tbl_update (at_id i (leased_by wid)) (with_checkpoint now cp) (jobs d) ∧
    (∀ j, pages_of j (outbox d') = pages_of j (outbox d) ++ (if bool_decide (i = j) then [Some next] else [])).
Proof.
  intros Hw. unfold page_txn, get. destruct (tbl_get (jobs d) i) as [r|] eqn:Hr; [|done]. simpl.
  unfold process_page. simpl. fold (page_of r).
  destruct (py_add_one (page_of r)) as [next|] eqn:Hn; [|done]. simpl.
  destruct (assoc "total_pages" _) as [total|] eqn:Ht; [|done]. simpl.
  destruct (py_ge next total) as [last|] eqn:Hl; [|done]. simpl.
  destruct (store_checkpoint _ _ _ _ _) as [js'|] eqn:Hs; [|done]. simpl.
  intros [= <- <-].
  apply update_owned_inv in Hs as (-> & r' & Hr' & Hp); [|done]. rewrite Hr in Hr'. injection Hr' as <-.
  exists r, next, total, last. split_and!; try done. intros j. simpl.
  etrans; [apply (pages_of_enqueue now j "paged_echo_job" (py_str_Z i) "page.processed"
    [("page", next); ("total_pages", total)] (correlation_id (identity r)) (outbox d))|]. simpl. f_equal.
  destruct (decide (i = j)) as [->|Hne].
  - by rewrite bool_decide_true, String.eqb_refl.
  - rewrite bool_decide_false by done. destruct (String.eqb_spec (py_str_Z i) (py_str_Z j)) as [He|]; [|done].
    by apply py_str_Z_inj in He.
Qed.

(** Committed transactions of any number of workers, publishers and clients:
    pages, the other operations of the store, and publications. *)
Inductive wstep (d : wdb) : wdb → Prop :=
| WPage now i wid cp d' : page_txn i wid now d = Ok (cp, d') → wstep d d'
| WJob now e t' : (∀ j w c, e ≠ ECheckpoint j w c) → perform now e (jobs d) = Ok t' → wstep d (Wdb t' (outbox d))
| WPublish now i : wstep d (Wdb (jobs d) (tbl_set i (Outbox.mark_published now) (outbox d))).

Definition pages_ok (d : wdb) : Prop :=
  tbl_wf (jobs d) ∧
  ∀ j, match tbl_get (jobs d) j with
       | Some r => ∃ p, 0 <= p ∧ page_of r = JInt p ∧ pages_of j (outbox d) = page_numbers 1 p
       | None => pages_of j (outbox d) = []
       end.

Lemma row_step_page now e j r r' :
  (∀ j w c, e ≠ ECheckpoint j w c) → row_step now e j r r' → page_of r' = page_of r.
Proof. intros He Hs. destruct Hs; try done. by destruct (He j w c). Qed.

Lemma pages_of_publish i j now ob :
  pages_of j (tbl_set i (Outbox.mark_published now) ob) = pages_of j ob.
Proof.
  unfold pages_of, tbl_set, tbl_update, tbl_select. simpl. induction (rows ob) as [|[k r] l IH]; simpl; [done|].
  destruct (bool_decide (k = i)); rewrite !filter_cons; simpl;
    change (is_page_event j (Outbox.mark_published now r)) with (is_page_event j r);
    destruct (is_page_event j r); simpl; by rewrite IH.
Qed.

Lemma wstep_pages d d' : pages_ok d → wstep d d' → pages_ok d'.
Proof.
  intros [Hw Hp] Hs. destruct Hs as [now i wid cp d' Ht|now e t' He Ht|now i].
  - apply page_txn_spec in Ht as (r & next & total & last & Hr & Hl & Hn & _ & _ & -> & Hj & Ho); [|done].
    split; [rewrite Hj; by apply tbl_update_wf|]. intros j. rewrite Ho, Hj. pose proof (Hp j) as Hpj.
    destruct (decide (i = j)) as [<-|Hne].
    + rewrite bool_decide_true, tbl_get_update_at_eq, Hr by done. rewrite Hr in Hpj. destruct Hpj as (p & Hp0 & Hpg & Hev).
      simpl. rewrite Hl. rewrite Hpg in Hn. simpl in Hn. injection Hn as <-. exists (p + 1).
      split_and!; [lia|done|]. by rewrite Hev, page_numbers_snoc.
    + rewrite bool_decide_false, app_nil_r, tbl_get_update_at_ne by done. done.
  - split; [by eapply perform_wf|]. intros j. specialize (Hp j). simpl. destruct (tbl_get (jobs d) j) as [r|] eqn:Hr.
    + destruct (perform_row _ _ _ _ _ _ Hw Ht Hr) as (r' & -> & Hs). apply row_step_page in Hs; [|done]. by rewrite Hs.
    + destruct (tbl_get t' j) as [r'|] eqn:Hr'; [|done]. exists 0.
      destruct (perform_new _ _ _ _ _ _ Hw Ht Hr Hr') as (i & _ & Heq & Hnew).
      assert (j = next_id (jobs d)) as -> by (unfold enqueue in Heq; by injection Heq).
      rewrite enqueue_ok in Hnew by done. injection Hnew as <-. done.
  - split; [done|]. intros j. simpl. rewrite pages_of_publish. apply Hp.
Qed.

(** Each page of the example job is published exactly once. However workers
    interleave, fail, lose leases and retry, the events a job has put into the
    outbox are those of pages 1, 2, ... up to the page its checkpoint names, each
    once and in order. *)
Theorem pages_exactly_once d j r :
  rtc wstep (Wdb tbl_empty tbl_empty) d → tbl_get (jobs d) j = Some r →
  ∃ p, 0 <= p ∧ page_of r = JInt p ∧ pages_of j (outbox d) = page_numbers 1 p.
Proof.
  intros Hrtc Hr. assert (pages_ok d) as [_ Hp]; [|specialize (Hp j); by rewrite Hr in Hp].
  remember (Wdb tbl_empty tbl_empty) as d0 eqn:Hd. assert (pages_ok d0) as H0 by (subst; by split; [apply tbl_empty_wf|]).
  clear Hd Hr. induction Hrtc as [|d1 d2 d3 Hs _ IH]; [done|]. by apply IH, (wstep_pages d1).
Qed.

(** ** The example job runs to its end *)

Section Alone.
Context `{PyText}.
Variable clock : nat → Z.
Variable tender_check : Job → string → action unit.

Abbreviation alone := (λ (_ : nat) (d : wdb), d).

Lemma page_txn_runs i wid now d r p n :
  tbl_wf (jobs d) → tbl_get (jobs d) i = Some r → leased_by wid r = true →
  page_of r = JInt p → assoc "total_pages" (params (identity r)) = Some (JInt n) →
  ∃ d', page_txn i wid now d = Ok ([("page", JInt (p + 1)); ("done", JBool (n <=? p + 1))], d').
Proof.
  intros Hw Hr Hl Hp Hn. unfold page_txn, get. rewrite Hr. simpl. unfold process_page. simpl. fold (page_of r).
  rewrite Hp. simpl. rewrite Hn. simpl.
  assert (py_ge (JInt (p + 1)) (JInt n) = Ok (n <=? p + 1)) as ->.
  { unfold py_ge, num_cmp. simpl. destruct (Z.compare_spec (p + 1) n) as [He|He|He].
    all: f_equal; symmetry; rewrite ?Z.leb_le, ?Z.leb_gt; lia. }
  simpl. unfold store_checkpoint, update_owned. replace (Nat.eqb _ 0) with false; [by eexists|]. symmetry.
  apply Nat.eqb_neq. rewrite rowcount_at_id by done. intros Hn'. apply Hn'. by exists r.
Qed.

Lemma with_checkpoint_lease now cp wid r : leased_by wid (with_checkpoint now cp r) = leased_by wid r.
Proof. done. Qed.

Lemma echo_loop_runs fuel i wid tick d r p n :
  tbl_wf (jobs d) → tbl_get (jobs d) i = Some r → leased_by wid r = true →
  page_of r = JInt p → assoc "total_pages" (params (identity r)) = Some (JInt n) →
  (Z.to_nat (n - p - 1) < fuel)%nat →
  ∃ tick' d' r' k, echo_loop alone clock fuel i wid false (tick, d) = Some (Ok tt, (tick', d')) ∧
    tbl_wf (jobs d') ∧ tbl_get (jobs d') i = Some r' ∧ leased_by wid r' = true ∧ identity r' = identity r ∧
    k = Z.max n (p + 1) ∧ page_of r' = JInt k ∧
    pages_of i (outbox d') = pages_of i (outbox d) ++ page_numbers (p + 1) (k - p).
Proof.
  revert tick d r p; induction fuel as [|fuel IH]; intros tick d r p Hw Hr Hl Hp Hn Hf; [lia|].
  destruct (page_txn_runs i wid (clock tick) d r p n Hw Hr Hl Hp Hn) as [d1 Ht].
  simpl. unfold bind, txn. simpl. rewrite Ht.
  pose proof Ht as Ht2. apply page_txn_spec in Ht2 as (r0 & next & total & last & Hr0 & _ & Hnx & _ & _ & Hcp & Hj & Ho); [|done].
  rewrite Hr in Hr0. injection Hr0 as <-. rewrite Hp in Hnx. injection Hnx as <-.
  set (cp := [("page", JInt (p + 1)); ("done", JBool (n <=? p + 1))]) in *.
  assert (tbl_get (jobs d1) i = Some (with_checkpoint (clock tick) cp r)) as Hr1.
  { rewrite Hj, tbl_get_update_at_eq, Hr by done. simpl. by rewrite Hl. }
  assert (tbl_wf (jobs d1)) as Hw1 by (rewrite Hj; by apply tbl_update_wf).
  specialize (Ho i). rewrite bool_decide_true in Ho by done. simpl.
  destruct (n <=? p + 1) eqn:Hle.
  - exists (S tick), d1, (with_checkpoint (clock tick) cp r), (Z.max n (p + 1)).
    split_and!; [by destruct fuel|done|done|done|done|done| |].
    + unfold page_of. simpl. f_equal. lia.
    + rewrite Ho. f_equal. replace (Z.max n (p + 1) - p) with 1 by lia. unfold page_numbers. simpl. by rewrite Z.add_0_l.
  - destruct (IH (S tick) d1 (with_checkpoint (clock tick) cp r) (p + 1)) as (tick' & d' & r' & k & He & Hw' & Hr' & Hl' & Hi' & Hk & Hpg & Hev);
      [done|done|done|done|done|lia|].
    exists tick', d', r', k. split_and!; try done; [lia|]. rewrite Hev, Ho, <-app_assoc. f_equal.
    unfold page_numbers. rewrite (seqZ_cons (p + 1) (k - p)) by lia.
      replace (k - (p + 1)) with (Z.pred (k - p)) by lia. by rewrite <-Z.add_1_r.
Qed.

(** A leased example job whose remaining pages are finite always ends: with
    one round of the loop for each page left, processing it returns, the job is
    completed with its last page in the checkpoint, and exactly its remaining
    pages, in order, are in the outbox. *)
Theorem echo_job_completes fuel i wid tick d r p n :
  tbl_wf (jobs d) → tbl_get (jobs d) i = Some r → leased_by wid r = true →
  job_type (identity r) = JOB_TYPE → page_of r = JInt p →
  assoc "total_pages" (params (identity r)) = Some (JInt n) →
  py_truthy (default (JBool false) (assoc "done" (checkpoint r))) = false →
  (Z.to_nat (n - p - 1) < fuel)%nat →
  ∃ w' r', process_claimed_job alone clock alone tender_check fuel {| job_id := i; job := r |} wid (tick, d)
      = Some (Ok tt, w') ∧
    tbl_get (jobs w'.2) i = Some r' ∧ status r' = "completed" ∧ page_of r' = JInt (Z.max n (p + 1)) ∧
    pages_of i (outbox w'.2) = pages_of i (outbox d) ++ page_numbers (p + 1) (Z.max n (p + 1) - p).
Proof.
  intros Hw Hr Hl Ht Hp Hn Hd Hf.
  destruct (echo_loop_runs fuel i wid tick d r p n Hw Hr Hl Hp Hn Hf) as (tick' & d' & r' & k & He & Hw' & Hr' & Hl' & _ & Hk & Hpg & Hev).
  pose proof Hl' as [Ho _]%leased_by_spec.
  assert (rowcount (at_id i (owned_by wid)) (jobs d') ≠ 0%nat) as Hc.
  { rewrite rowcount_at_id by done. intros Hn'. apply Hn'. exists r'. unfold owned_by. by rewrite bool_decide_true. }
  unfold process_claimed_job, job_body, bind. simpl. rewrite Ht. simpl. rewrite Hd, He. simpl.
  unfold txn, complete_txn, complete, update_owned. simpl. apply Nat.eqb_neq in Hc. rewrite Hc. simpl.
  eexists _, (with_lease (clock tick') "completed" None None r'). split; [done|]. simpl.
  rewrite tbl_get_update_at_eq, Hr' by done. simpl. unfold owned_by. rewrite bool_decide_true by done.
  subst k. done.
Qed.
End Alone.

(** ** Witnesses *)

Definition start : wdb := Wdb (run claimed tbl_empty) tbl_empty.

Lemma worker_survives_witness :
  ∃ r w', process_claimed_job (H := ascii_text) (λ n d, if Nat.eqb n 1 then Wdb (cancel 5 1 (jobs d)) (outbox d) else d)
      (λ _, 5) (λ _ d, d) (λ _ _, ret (Ok tt)) 3 {| job_id := 1; job := claimed_job |} "w1" (0%nat, start) = Some (r, w') ∧ r = Ok tt.
Proof.
  destruct (process_claimed_job (H := ascii_text) _ _ _ _ 3 _ "w1" (0%nat, start)) as [[r w']|] eqn:Hp;
    [|vm_compute in Hp; discriminate Hp].
  exists r, w'. split; [reflexivity|].
  eapply (worker_survives (H := ascii_text)); [| | | | |exact Hp].
  - intros n d. simpl. destruct (Nat.eqb n 1); [exists [(5, ECancel 1)]; reflexivity|exists []; reflexivity].
  - intros n d. by exists [].
  - intros x wid w r0 w0 [= <- <-]. by exists [].
  - apply claimed_wf.
  - exists claimed_job. vm_compute. reflexivity.
Defined.

Definition after_page : wdb :=
  match page_txn 1 "w1" 7 start with Ok (_, d) => d | Err _ => start end.

Lemma pages_exactly_once_witness :
  ∃ r p, tbl_get (jobs after_page) 1 = Some r ∧ page_of r = JInt p ∧
    pages_of 1 (outbox after_page) = page_numbers 1 p ∧ p = 1.
Proof.
  destruct (tbl_get (jobs after_page) 1) as [r|] eqn:Hr; [|vm_compute in Hr; discriminate Hr].
  destruct (pages_exactly_once after_page 1 r) as (p & _ & Hp & Hev).
  - eapply rtc_l; [by apply (WJob _ 0 (EEnqueue echo))|].
    eapply rtc_l; [by apply (WJob _ 0 (EClaim ∅ "w1" 30))|].
    eapply rtc_l; [|apply rtc_refl].
    apply (WPage _ 7 1 "w1" [("page", JInt 1); ("done", JBool false)]). vm_compute. reflexivity.
  - exact Hr.
  - exists r, p. split_and!; [reflexivity|exact Hp|exact Hev|].
    vm_compute in Hr. injection Hr as <-. vm_compute in Hp. by injection Hp as <-.
Defined.

Lemma echo_job_completes_witness :
  ∃ w' r', process_claimed_job (H := ascii_text) (λ _ d, d) (λ _, 9) (λ _ d, d) (λ _ _ _, None) 2
      {| job_id := 1; job := claimed_job |} "w1" (0%nat, start) = Some (Ok tt, w') ∧
    tbl_get (jobs w'.2) 1 = Some r' ∧ status r' = "completed".
Proof.
  destruct (echo_job_completes (H := ascii_text) (λ _, 9) (λ _ _ _, None) 2 1 "w1" 0 start claimed_job 0 2) as (w' & r' & Hp & Hr & Hs & _);
    [apply claimed_wf|vm_compute; reflexivity..|vm_compute; lia|].
  by exists w', r'.
Defined.
End Worker.
