(* ===== verification/ExceptionQueue.v ===== *)
(** * The exception queue

    [packages/platform/exception_queue.py] over the table of
    [migrations/0006]: get-or-create by source, type and correlation id,
    retries with backoff, closing one record or all of a contract. *)

From stdpp Require Import base strings list sorting gmap.
From Stdlib Require Import ZArith Lia.
From S2P Require Import Prelude Query.

Module Exceptions.
#[local] Open Scope Z_scope.

Record exception_row := {
  source : string;
  exception_type : string;
  category : string;
  raw_ref : option Z;
  contract_name : option string;
  reason : string;
  correlation_id : string;
  first_seen_at : Z;
  attempts : Z;
  next_retry_at : option Z;
  status : string;
  closed_at : option Z;
  closed_reason : option string;
  closed_by : option string;
  updated_at : Z;
}.

(** An [ExceptionRecord]: the id and the columns of the row. *)
Definition ExceptionRecord : Type := Z * exception_row.

Inductive queue_error :=
| NoResultFound
| ConstraintViolated (constraint : string).

(** Whether a raw snapshot of this id exists: the target of the foreign key. *)
Section Queue.
Variable snapshot_exists : Z → bool.

Definition is_open (r : exception_row) : bool := String.eqb (status r) "open".
Definition same_key (s ty c : string) (r : exception_row) : bool :=
  String.eqb (source r) s && String.eqb (exception_type r) ty && String.eqb (correlation_id r) c && is_open r.

(** [enqueue_exception] is a [SELECT] and, if that gave no row, an [INSERT]; no
    lock and no unique index keeps two overlapping calls from inserting both
    ([overlapping_enqueues] below). Here and wherever it is called the two run as
    one. *)
Definition open_records (s ty corr : string) (t : table exception_row) : list ExceptionRecord :=
  tbl_select (λ _ r, same_key s ty corr r) t.
Definition insert_exception (now : Z) (s ty cat why corr : string) (ref : option Z) (contract : option string)
    (t : table exception_row) : result queue_error (ExceptionRecord * table exception_row) :=
  raise_if bool_decide (cat ∉ ["retryable"; "needs_human"]) with ConstraintViolated "exception_queue_category_check" ;;
  raise_if match ref with Some i => negb (snapshot_exists i) | None => false end
    with ConstraintViolated "exception_queue_raw_ref_fkey" ;;
  let r := {| source := s; exception_type := ty; category := cat; raw_ref := ref; contract_name := contract;
    reason := why; correlation_id := corr; first_seen_at := now; attempts := 0; next_retry_at := None;
    status := "open"; closed_at := None; closed_reason := None; closed_by := None; updated_at := now |} in
  let ' (i, t') := tbl_insert t r in Ok ((i, r), t').
Definition enqueue_exception (now : Z) (s ty cat why corr : string) (ref : option Z) (contract : option string)
    (t : table exception_row) : result queue_error (ExceptionRecord * table exception_row) :=
  match open_records s ty corr t with
  | existing :: _ => Ok (existing, t)
  | [] => insert_exception now s ty cat why corr ref contract t
  end.

Definition list_open (cat : option string) (t : table exception_row) : list ExceptionRecord :=
  order_by (asc (λ ir, first_seen_at ir.2))
    (tbl_select (λ _ r, is_open r && match cat with Some c => String.eqb (category r) c | None => true end) t).

(** [SELECT source, max(first_seen_at) ... GROUP BY source] *)
Definition last_seen_by_source (ty : option string) (t : table exception_row) : gmap string Z :=
  foldl (λ m ir, <[source ir.2 := match m !! source ir.2 with
                                  | Some x => Z.max x (first_seen_at ir.2)
                                  | None => first_seen_at ir.2
                                  end]> m) ∅
    (tbl_select (λ _ r, match ty with Some y => String.eqb (exception_type r) y | None => true end) t).

Definition with_retry (now backoff_seconds : Z) (r : exception_row) : exception_row := {|
  source := source r; exception_type := exception_type r; category := category r; raw_ref := raw_ref r;
  contract_name := contract_name r; reason := reason r; correlation_id := correlation_id r;
  first_seen_at := first_seen_at r; attempts := attempts r + 1; next_retry_at := Some (now + seconds backoff_seconds);
  status := status r; closed_at := closed_at r; closed_reason := closed_reason r; closed_by := closed_by r;
  updated_at := now |}.

Definition with_close (now : Z) (why by_ : string) (r : exception_row) : exception_row := {|
  source := source r; exception_type := exception_type r; category := category r; raw_ref := raw_ref r;
  contract_name := contract_name r; reason := reason r; correlation_id := correlation_id r;
  first_seen_at := first_seen_at r; attempts := attempts r; next_retry_at := next_retry_at r;
  status := "closed"; closed_at := Some now; closed_reason := Some why; closed_by := Some by_; updated_at := now |}.

(** [.one()] after [UPDATE ... RETURNING] or [SELECT]: no row raises. *)
Definition one (i : Z) (t : table exception_row) : result queue_error ExceptionRecord :=
  match tbl_get t i with Some r => Ok (i, r) | None => Err NoResultFound end.

Definition schedule_retry (now i backoff_seconds : Z) (t : table exception_row)
    : result queue_error (ExceptionRecord * table exception_row) :=
  let p r := is_open r && String.eqb (category r) "retryable" in
  raise_if Nat.eqb (rowcount (at_id i p) t) 0 with NoResultFound ;;
  let t' := tbl_update (at_id i p) (with_retry now backoff_seconds) t in
  let! x := one i t' in Ok (x, t').

Definition close_exception (now i : Z) (why by_ : string) (t : table exception_row)
    : result queue_error (ExceptionRecord * table exception_row) :=
  let t' := tbl_update (at_id i is_open) (with_close now why by_) t in
  let! x := one i t' in Ok (x, t').

Definition names_contract (c : string) (r : exception_row) : bool :=
  bool_decide (contract_name r = Some c) && String.eqb (category r) "needs_human" && is_open r.

Definition close_matching_needs_human (now : Z) (c why by_ : string) (t : table exception_row)
    : list ExceptionRecord * table exception_row :=
  (map (λ ir, (ir.1, with_close now why by_ ir.2)) (tbl_select (λ _ r, names_contract c r) t),
   tbl_update (λ _ r, names_contract c r) (with_close now why by_) t).

(** ** Sequences of committed operations *)

Inductive op :=
| OEnqueue (s ty cat why corr : string) (ref : option Z) (contract : option string)
| ORetry (i backoff_seconds : Z)
| OClose (i : Z) (why by_ : string)
| OCloseMatching (c why by_ : string).

Definition apply (now : Z) (o : op) (t : table exception_row) : result queue_error (table exception_row) :=
  match o with
  | OEnqueue s ty cat why corr ref contract =>
      let! ' (_, t') := enqueue_exception now s ty cat why corr ref contract t in Ok t'
  | ORetry i b => let! ' (_, t') := schedule_retry now i b t in Ok t'
  | OClose i why by_ => let! ' (_, t') := close_exception now i why by_ t in Ok t'
  | OCloseMatching c why by_ => Ok (close_matching_needs_human now c why by_ t).2
  end.
Definition step (t : table exception_row) (no : Z * op) : table exception_row :=
  match apply no.1 no.2 t with Ok t' => t' | Err _ => t end.
Definition run (os : list (Z * op)) (t : table exception_row) : table exception_row := foldl step t os.

(** ** What one operation does to one row *)

Inductive row_step (now : Z) (o : op) (i : Z) (r : exception_row) : exception_row → Prop :=
| RSame : row_step now o i r r
| RRetry b : o = ORetry i b → is_open r = true → category r = "retryable" → row_step now o i r (with_retry now b r)
| RClose why by_ : o = OClose i why by_ → is_open r = true → row_step now o i r (with_close now why by_ r)
| RCloseMatching c why by_ : o = OCloseMatching c why by_ → names_contract c r = true →
    row_step now o i r (with_close now why by_ r).

Lemma is_open_spec r : is_open r = true ↔ status r = "open".
Proof. apply String.eqb_eq. Qed.

Lemma update_at_row now o i p f t k r :
  tbl_wf t → tbl_get t k = Some r → (∀ r0, p r0 = true → row_step now o i r0 (f r0)) →
  ∃ r', tbl_get (tbl_update (at_id i p) f t) k = Some r' ∧ row_step now o k r r'.
Proof.
  intros Hw Hr Hs. destruct (decide (k = i)) as [->|Hne].
  - rewrite tbl_get_update_at_eq, Hr by done. simpl. eexists. split; [done|].
    destruct (p r) eqn:Hp; [by apply Hs|apply RSame].
  - rewrite tbl_get_update_at_ne by done. eauto using RSame.
Qed.

(** The table after an operation that returned: an inserted row, or an update. *)
Lemma apply_cases now o t t' :
  apply now o t = Ok t' →
  t' = t ∨
  (∃ s ty cat why corr ref contract r, o = OEnqueue s ty cat why corr ref contract ∧
    tbl_select (λ _ r, same_key s ty corr r) t = [] ∧ t' = (tbl_insert t r).2 ∧
    same_key s ty corr r = true ∧ category r = cat ∧ cat ∈ ["retryable"; "needs_human"] ∧
    attempts r = 0 ∧ next_retry_at r = None ∧ closed_at r = None ∧ closed_reason r = None ∧ closed_by r = None) ∨
  (∃ i b, o = ORetry i b ∧
    t' = tbl_update (at_id i (λ r, is_open r && String.eqb (category r) "retryable")) (with_retry now b) t) ∨
  (∃ i why by_, o = OClose i why by_ ∧ t' = tbl_update (at_id i is_open) (with_close now why by_) t) ∨
  (∃ c why by_, o = OCloseMatching c why by_ ∧ t' = tbl_update (λ _ r, names_contract c r) (with_close now why by_) t).
Proof.
  destruct o as [s ty cat why corr ref contract|i b|i why by_|c why by_]; simpl.
  - unfold enqueue_exception, open_records, insert_exception. destruct (tbl_select _ t) eqn:Hs; [|intros [= <-]; by left].
    case_bool_decide as Hc; [done|]. destruct (match ref with Some _ => _ | None => _ end); [done|]. simpl.
    intros Ht. right; left. eexists s, ty, cat, why, corr, ref, contract, _. split; [done|]. split; [done|].
    split; [by injection Ht as <-|]. unfold same_key, is_open. simpl. rewrite !String.eqb_refl.
    split_and!; try done.
  - unfold schedule_retry. destruct (Nat.eqb _ 0); [done|]. destruct (one _ _); simpl; [|done]. intros [= <-]. naive_solver.
  - unfold close_exception. destruct (one _ _); simpl; [|done]. intros [= <-]. naive_solver.
  - intros [= <-]. do 4 right. by exists c, why, by_.
Qed.

Lemma apply_wf now o t t' : tbl_wf t → apply now o t = Ok t' → tbl_wf t'.
Proof.
  intros Hw [->|[(?&?&?&?&?&?&?&r&_&_&->&_)|[(?&?&_&->)|[(?&?&?&_&->)|(?&?&?&_&->)]]]]%apply_cases; auto with uw.
Qed.

Lemma apply_row now o t t' k r :
  tbl_wf t → apply now o t = Ok t' → tbl_get t k = Some r →
  ∃ r', tbl_get t' k = Some r' ∧ row_step now o k r r'.
Proof.
  intros Hw Ha Hr.
  destruct (apply_cases _ _ _ _ Ha) as [->|[(?&?&?&?&?&?&?&r0&->&_&->&_)|[(i&b&->&->)|[(i&why&by_&->&->)|(c&why&by_&->&->)]]]].
  - eauto using RSame.
  - rewrite tbl_get_insert_old; [eauto using RSame|]. intros ->. by rewrite tbl_get_next in Hr.
  - eapply update_at_row; [done..|]. intros r0 [Ho Hc]%andb_true_iff. apply String.eqb_eq in Hc. by eapply RRetry.
  - eapply update_at_row; [done..|]. intros r0 Ho. by eapply RClose.
  - rewrite tbl_get_update, Hr by done. simpl. eexists. split; [done|].
    destruct (names_contract c r) eqn:Hn; [by eapply RCloseMatching|apply RSame].
Qed.

Lemma queue_step_row t no k r :
  tbl_wf t → tbl_get t k = Some r → ∃ r', tbl_get (step t no) k = Some r' ∧ row_step no.1 no.2 k r r'.
Proof. intros Hw Hr. unfold step. destruct (apply _ _ _) eqn:Ha; [by eapply apply_row|eauto using RSame]. Qed.
Lemma queue_step_wf t no : tbl_wf t → tbl_wf (step t no).
Proof. intros Hw. unfold step. destruct (apply _ _ _) eqn:Ha; [by eapply apply_wf|done]. Qed.
Lemma queue_run_wf os t : tbl_wf t → tbl_wf (run os t).
Proof. revert t; induction os as [|no os IH]; intros t Hw; simpl; [done|]. by apply IH, queue_step_wf. Qed.

(** ** Invariants *)

Record row_ok (r : exception_row) : Prop := {
  ro_category : category r ∈ ["retryable"; "needs_human"];
  ro_status : status r = "open" ∨ status r = "closed";
  ro_open : status r = "open" → closed_at r = None ∧ closed_reason r = None ∧ closed_by r = None;
  ro_closed : status r = "closed" → is_Some (closed_at r) ∧ is_Some (closed_reason r) ∧ is_Some (closed_by r);
  ro_human : category r = "needs_human" → attempts r = 0 ∧ next_retry_at r = None;
}.

Record queue_ok (t : table exception_row) : Prop := {
  qo_wf : tbl_wf t;
  qo_rows : ∀ i r, tbl_get t i = Some r → row_ok r;
  qo_unique : ∀ i j r r', tbl_get t i = Some r → tbl_get t j = Some r' → is_open r = true → is_open r' = true →
    source r = source r' → exception_type r = exception_type r' → correlation_id r = correlation_id r' → i = j;
}.

Lemma queue_row_step_ok now o i r r' : row_ok r → row_step now o i r r' → row_ok r'.
Proof.
  intros [Hc Hs Ho Hcl Hh] Hstep. destruct Hstep as [|b _ Hop Hcat|why by_ _ Hop|c why by_ _ Hop]; [done|..].
  - constructor; simpl; try done. congruence.
  - constructor; simpl; try done; by right.
  - constructor; simpl; try done; by right.
Qed.

(** An operation keeps the key of a record and never opens a closed one. *)
Lemma row_step_key now o i r r' :
  row_step now o i r r' →
  source r' = source r ∧ exception_type r' = exception_type r ∧ correlation_id r' = correlation_id r ∧
  category r' = category r ∧ raw_ref r' = raw_ref r ∧ contract_name r' = contract_name r ∧ reason r' = reason r ∧
  first_seen_at r' = first_seen_at r ∧ attempts r <= attempts r' ∧
  (is_open r' = true → is_open r = true) ∧ (is_open r = false → r' = r).
Proof.
  intros [|b _ Ho _|why by_ _ Ho|c why by_ _ Ho]; simpl; split_and!; try done; try lia; try congruence.
  unfold names_contract in Ho. apply andb_true_iff in Ho as [_ Ho]. congruence.
Qed.

Lemma queue_step_ok t no : queue_ok t → queue_ok (step t no).
Proof.
  intros [Hw Hrows Huniq]. unfold step. destruct (apply no.1 no.2 t) as [t'|] eqn:Ha; [|done].
  assert (∀ k r', tbl_get t' k = Some r' →
    (∃ r, tbl_get t k = Some r ∧ row_step no.1 no.2 k r r') ∨
    (tbl_get t k = None ∧ k = next_id t ∧ row_ok r' ∧
      ∀ j r, tbl_get t j = Some r → is_open r = true → ¬ (source r = source r' ∧ exception_type r = exception_type r' ∧
        correlation_id r = correlation_id r'))) as Hcase.
  { intros k r' Hr'. destruct (tbl_get t k) as [r|] eqn:Hr.
    - left. destruct (apply_row _ _ _ _ _ _ Hw Ha Hr) as (r1 & Hr1 & Hs). exists r. split; [done|]. congruence.
    - right. split; [done|].
      destruct (apply_cases _ _ _ _ Ha) as [->|[(s&ty&cat&why&corr&ref&ct&r0&_&Hnone&->&Hk&Hcat&Hin&Hat&Hnr&Hca&Hcr&Hcb)|
        [(i&b&_&->)|[(i&why&by_&_&->)|(c&why&by_&_&->)]]]]; try (rewrite tbl_get_update, Hr in Hr' by done; done); [congruence|].
      destruct (decide (k = next_id t)) as [->|Hne]; [|rewrite tbl_get_insert_old in Hr' by done; congruence].
      rewrite tbl_get_insert_new in Hr' by done. injection Hr' as <-. split; [done|].
      unfold same_key in Hk. rewrite !andb_true_iff, !String.eqb_eq in Hk. destruct Hk as (((<- & <-) & <-) & Ho).
      apply is_open_spec in Ho. split.
      + constructor; rewrite ?Hcat, ?Ho; try done. by left.
      + intros j r Hj Hjo (Hs & Hty & Hco). apply (proj1 (nil_no_elem _) Hnone (j, r)).
        apply elem_of_tbl_select. rewrite <-tbl_get_spec by done. unfold same_key.
        by rewrite Hs, Hty, Hco, !String.eqb_refl, Hjo. }
  constructor; [by eapply apply_wf| |].
  - intros i r' [(r & Hr & Hs)|(_ & _ & Hok & _)]%Hcase; [|done]. eapply queue_row_step_ok; [by eapply Hrows|done].
  - intros i j r r' Hi Hj Ho Ho' Hs Ht Hc.
    destruct (Hcase _ _ Hi) as [(r1 & Hr1 & Hst1)|(Hn1 & -> & _ & Hu1)], (Hcase _ _ Hj) as [(r2 & Hr2 & Hst2)|(Hn2 & -> & _ & Hu2)];
      try (apply row_step_key in Hst1 as (? & ? & ? & _ & _ & _ & _ & _ & _ & Hop1 & _));
      try (apply row_step_key in Hst2 as (? & ? & ? & _ & _ & _ & _ & _ & _ & Hop2 & _)).
    + eapply Huniq; [done|done|by apply Hop1|by apply Hop2|congruence..].
    + destruct (Hu2 _ _ Hr1 (Hop1 Ho)). split_and!; congruence.
    + destruct (Hu1 _ _ Hr2 (Hop2 Ho')). split_and!; congruence.
    + done.
Qed.

Lemma queue_run_ok os t : queue_ok t → queue_ok (run os t).
Proof. revert t; induction os as [|no os IH]; intros t Hok; simpl; [done|]. by apply IH, queue_step_ok. Qed.

Lemma empty_ok : queue_ok tbl_empty.
Proof. constructor; [split; constructor|done..]. Qed.

(** The operations that close record [i] when it has the columns of [r]. *)
Definition closes (i : Z) (r : exception_row) (o : op) : Prop :=
  match o with
  | OClose j _ _ => j = i
  | OCloseMatching c _ _ => contract_name r = Some c ∧ category r = "needs_human"
  | _ => False
  end.

(** C31: Nothing put into the queue is lost or reported twice. After any sequence
    of operations there is at most one open record for a source, type and
    correlation id; a [needs_human] record has never been retried; a closed one
    says when, why and by whom. From there on a record keeps its facts, its
    attempts do not decrease, once closed it never changes again, and an open
    one is still open unless an operation that closes it was run. *)
Theorem queue_lifecycle os os' i r :
  tbl_get (run os tbl_empty) i = Some r →
  queue_ok (run os tbl_empty) ∧ row_ok r ∧
  ∃ r', tbl_get (run os' (run os tbl_empty)) i = Some r' ∧
    source r' = source r ∧ exception_type r' = exception_type r ∧ correlation_id r' = correlation_id r ∧
    category r' = category r ∧ raw_ref r' = raw_ref r ∧ contract_name r' = contract_name r ∧ reason r' = reason r ∧
    first_seen_at r' = first_seen_at r ∧ attempts r <= attempts r' ∧
    (is_open r = false → r' = r) ∧
    (is_open r = true → is_open r' = false → ∃ no, no ∈ os' ∧ closes i r no.2).
Proof.
  intros Hr. pose proof (queue_run_ok os tbl_empty empty_ok) as Hok. split; [done|].
  split; [by eapply qo_rows|]. revert Hok Hr. generalize (run os tbl_empty) as t. intros t [Hw _ _] Hr.
  revert t r Hw Hr. induction os' as [|no os' IH]; intros t r Hw Hr; simpl.
  - exists r. split_and!; try done. congruence.
  - destruct (queue_step_row t no i r Hw Hr) as (r1 & Hr1 & Hs).
    destruct (IH (step t no) r1 (queue_step_wf _ _ Hw) Hr1) as
      (r' & Hr' & H1 & H2 & H3 & H4 & H5 & H6 & H7 & H8 & H9 & H10 & H11).
    pose proof (row_step_key _ _ _ _ _ Hs) as (K1 & K2 & K3 & K4 & K5 & K6 & K7 & K8 & K9 & _ & K11).
    exists r'. split_and!; try congruence; [lia| |].
    + intros Ho. pose proof (K11 Ho) as ->. by apply H10.
    + intros Ho Ho'. destruct (is_open r1) eqn:Ho1.
      * destruct (H11 eq_refl Ho') as (no' & Hin & Hc). exists no'. split; [by right|].
        unfold closes in *. destruct no'.2; rewrite ?K6, ?K4 in Hc; done.
      * exists no. split; [by left|]. destruct Hs as [|b He Hop _|why by_ He Hop|c why by_ He Hop].
        -- congruence.
        -- unfold is_open in *; simpl in *; congruence.
        -- rewrite He. simpl. done.
        -- rewrite He. simpl. unfold names_contract in Hop.
           rewrite !andb_true_iff, bool_decide_eq_true, String.eqb_eq in Hop. tauto.
Qed.
End Queue.

Definition drift_script : list (Z * op) :=
  [(1, OEnqueue "etender" "schema_drift" "needs_human" "added field" "c1" None (Some "etender.event_details"));
   (2, OEnqueue "etender" "schema_drift" "needs_human" "again" "c1" None (Some "etender.event_details"))].

Lemma queue_lifecycle_witness :
  ∃ r r', tbl_get (run (λ _, true) drift_script tbl_empty) 1 = Some r ∧
    tbl_get (run (λ _, true) [(5, OCloseMatching "etender.event_details" "fixed" "ops")]
      (run (λ _, true) drift_script tbl_empty)) 1 = Some r' ∧ reason r' = "added field" ∧ is_open r' = false.
Proof.
  destruct (tbl_get (run (λ _, true) drift_script tbl_empty) 1) as [r|] eqn:Hr; [|vm_compute in Hr; discriminate Hr].
  destruct (queue_lifecycle (λ _, true) drift_script [(5, OCloseMatching "etender.event_details" "fixed" "ops")] 1 r Hr)
    as (_ & _ & r' & Hr' & _ & _ & _ & _ & _ & _ & Hreason & _).
  exists r, r'. split; [reflexivity|]. split; [exact Hr'|].
  vm_compute in Hr. injection Hr as <-. split; [exact Hreason|]. vm_compute in Hr'. injection Hr' as <-. reflexivity.
Defined.

(** The docstring of [enqueue_exception] says a retry of the same problem bumps
    the open row; the row is returned as it is. *)
Lemma enqueue_does_not_bump :
  ∃ t x, is_ok (enqueue_exception (λ _, true) 1 "s" "t" "retryable" "a" "c" None None tbl_empty) = true ∧
    enqueue_exception (λ _, true) 2 "s" "t" "retryable" "b" "c" None None t = Ok (x, t) ∧
    attempts x.2 = 0 ∧ reason x.2 = "a" ∧ updated_at x.2 = 1.
Proof.
  exists (run (λ _, true) [(1, OEnqueue "s" "t" "retryable" "a" "c" None None)] tbl_empty).
  eexists. split; [reflexivity|]. split; [vm_compute; reflexivity|]. split_and!; reflexivity.
Qed.
(** Two calls for one key that overlap, both reading before either writes, leave
    two open records of it. *)
Lemma overlapping_enqueues now now' s ty why why' c t : open_records s ty c t = [] → ∃ x y t1 t2,
  insert_exception (λ _, true) now s ty "needs_human" why c None None t = Ok (x, t1) ∧
  insert_exception (λ _, true) now' s ty "needs_human" why' c None None t1 = Ok (y, t2) ∧ open_records s ty c t2 = [x; y].
Proof.
  intros Hn. unfold insert_exception. rewrite (bool_decide_false ("needs_human" ∉ _)) by (intros Hx; apply Hx; concrete_mem). cbn [tbl_insert].
  do 4 eexists. do 2 (split; [reflexivity|]). unfold open_records in *.
  assert (∀ r : exception_row, source r = s → exception_type r = ty → correlation_id r = c → status r = "open" → same_key s ty c r = true) as Hk.
  { intros r <- <- <- Ho. unfold same_key, is_open. by rewrite Ho, !String.eqb_refl. }
  destruct t as [l n]. cbn [rows next_id] in *. rewrite !tbl_select_snoc. unfold tbl_select in *. cbn [rows] in *. rewrite Hn, !Hk by done. done.
Qed.
End Exceptions.
