(* ===== verification/BoqImport.v ===== *)
(** * Completeness of a BOQ import

    [packages/tender/boq_completeness.py] over the table of [migrations/0004]:
    one row per source and event that counts pages and lines, and keeps a
    checksum under each page number. *)

From stdpp Require Import base strings list sorting gmap pretty.
From Stdlib Require Import ZArith Lia Ascii.
From S2P Require Import Prelude Query.

Module BoqImport.
#[local] Open Scope char_scope.
#[local] Open Scope Z_scope.

(** ** [int(str)] on the keys [str(page_number)] *)

Definition digit (c : ascii) : option N :=
  let n := N_of_ascii c in if (48 <=? n)%N && (n <=? 57)%N then Some (n - 48)%N else None.
Fixpoint digits (acc : N) (s : string) : option N :=
  match s with
  | EmptyString => Some acc
  | String c s' => match digit c with Some d => digits (10 * acc + d)%N s' | None => None end
  end.
(** A decimal integer with an optional minus sign. The keys are texts that [str]
    gave; the spaces, underscores and plus signs [int] also accepts are not. *)
Definition py_int (s : string) : result exn Z :=
  match s with
  | String "-" (String _ _ as t) => match digits 0 t with Some n => Ok (- Z.of_N n) | None => Err (ValueError s) end
  | String _ _ => match digits 0 s with Some n => Ok (Z.of_N n) | None => Err (ValueError s) end
  | EmptyString => Err (ValueError s)
  end.

Lemma digit_pretty x : (x < 10)%N → digit (pretty_N_char x) = Some x.
Proof.
  intros Hx. destruct (decide (x ∈ [0;1;2;3;4;5;6;7;8;9]%N)) as [Hin|Hn].
  - rewrite !elem_of_cons, elem_of_nil in Hin. naive_solver.
  - exfalso. apply Hn. rewrite !elem_of_cons, elem_of_nil. lia.
Qed.

Lemma digits_pretty_go x s : digits 0 (pretty_N_go x s) = digits x s.
Proof.
  revert s. induction (N.lt_wf_0 x) as [x _ IH]; intros s. destruct (decide (0 < x)%N) as [Hx|Hx].
  - rewrite pretty_N_go_step, IH by first [done | by apply N.div_lt]. simpl.
    rewrite digit_pretty by (by apply N.mod_lt). f_equal. rewrite (N.div_mod x 10) at 3 by done. done.
  - assert (x = 0%N) as -> by lia. by rewrite pretty_N_go_0.
Qed.

Lemma digits_pretty (n : N) : digits 0 (pretty n) = Some n.
Proof.
  unfold pretty, pretty_N. case_decide as Hn; [by subst|]. by rewrite digits_pretty_go.
Qed.

Lemma pretty_N_first (n : N) : ∃ c s, pretty n = String c s ∧ c ≠ "-".
Proof.
  pose proof (digits_pretty n) as Hd. destruct (pretty n) as [|c s] eqn:Hp.
  - simpl in Hd. injection Hd as <-. discriminate Hp.
  - exists c, s. split; [done|]. intros ->. discriminate Hd.
Qed.

(** Reading back the text of an integer gives the integer. *)
Lemma py_int_str z : py_int (py_str_Z z) = Ok z.
Proof.
  unfold py_str_Z. destruct z as [|p|p].
  - done.
  - change (pretty (Zpos p)) with (pretty (Npos p)). destruct (pretty_N_first (Npos p)) as (c & s & Hp & Hc).
    pose proof (digits_pretty (Npos p)) as Hd. rewrite Hp in *.
    assert (py_int (String c s) = match digits 0 (String c s) with Some n => Ok (Z.of_N n) | None => Err (ValueError (String c s)) end)
      as -> by (unfold py_int; destruct c as [[] [] [] [] [] [] [] []]; try done; by destruct Hc).
    by rewrite Hd.
  - change (pretty (Zneg p)) with (String "-" (pretty (Npos p))). destruct (pretty_N_first (Npos p)) as (c & s & Hp & Hc).
    pose proof (digits_pretty (Npos p)) as Hd. rewrite Hp in *. unfold py_int. by rewrite Hd.
Qed.

#[local] Close Scope char_scope.

(** ** The import row *)

(** [status] is one of the four of the table's check; [missing_pages] and
    [page_checksums] are its JSON columns, the latter keyed by the text of the
    page number. A [BoqImportStatus] is the row with its id. *)
Record BoqImportStatus := {
  source : string;
  event_id : Z;
  expected_total : option Z;
  expected_pages : option Z;
  fetched_pages : Z;
  stored_lines : Z;
  status : string;
  missing_pages : list Z;
  page_checksums : gmap string string;
}.

Definition fresh (s : string) (e : Z) : BoqImportStatus := {|
  source := s; event_id := e; expected_total := None; expected_pages := None; fetched_pages := 0;
  stored_lines := 0; status := "in_progress"; missing_pages := []; page_checksums := ∅ |}.

Definition is_import (s : string) (e : Z) (r : BoqImportStatus) : bool := String.eqb (source r) s && (event_id r =? e).

Definition get_or_create_boq_import (s : string) (e : Z) (t : table BoqImportStatus)
    : (Z * BoqImportStatus) * table BoqImportStatus :=
  match tbl_select (λ _ r, is_import s e r) t with
  | ir :: _ => (ir, t)
  | [] => let ' (i, t') := tbl_insert t (fresh s e) in ((i, fresh s e), t')
  end.

Definition page_status (fetched stored : Z) (total pages : option Z) : string :=
  match total, pages with
  | Some n, Some p => if (fetched =? p) && (stored =? n) then "complete" else "in_progress"
  | _, _ => "source_exhausted_unverified"
  end.

Definition with_page (page lines : Z) (total pages : option Z) (checksum : string) (r : BoqImportStatus)
    : BoqImportStatus :=
  let fetched := fetched_pages r + 1 in
  let stored := stored_lines r + lines in
  {| source := source r; event_id := event_id r; expected_total := total; expected_pages := pages;
     fetched_pages := fetched; stored_lines := stored; status := page_status fetched stored total pages;
     missing_pages := missing_pages r; page_checksums := <[py_str_Z page := checksum]> (page_checksums r) |}.

Definition record_page_fetched (s : string) (e page lines : Z) (total pages : option Z) (checksum : string)
    (t : table BoqImportStatus) : (Z * BoqImportStatus) * table BoqImportStatus :=
  let ' ((i, current), t1) := get_or_create_boq_import s e t in
  let f := with_page page lines total pages checksum in
  ((i, f current), tbl_set i f t1).

Definition count_by_status (t : table BoqImportStatus) : list (string * Z) := group_count status t.

(** [sorted(set(range(1, expected_pages + 1)) - fetched_page_numbers)] *)
Definition missing (pages : Z) (fetched : list Z) : list Z :=
  filter (λ p, p ∉ fetched) (seqZ 1 pages).

Definition with_missing (m : list Z) (r : BoqImportStatus) : BoqImportStatus := {|
  source := source r; event_id := event_id r; expected_total := expected_total r; expected_pages := expected_pages r;
  fetched_pages := fetched_pages r; stored_lines := stored_lines r; status := "incomplete"; missing_pages := m;
  page_checksums := page_checksums r |}.

Definition mark_import_stalled (s : string) (e : Z) (t : table BoqImportStatus)
    : result exn ((Z * BoqImportStatus) * table BoqImportStatus) :=
  let ' ((i, current), t1) := get_or_create_boq_import s e t in
  if bool_decide (status current ∈ ["complete"; "source_exhausted_unverified"]) then Ok ((i, current), t1) else
  match expected_pages current with
  | None => Ok ((i, current), t1)
  | Some pages =>
      let! fetched := mapM py_int (map_to_list (page_checksums current)).*1 in
      let f := with_missing (missing pages fetched) in
      Ok ((i, f current), tbl_set i f t1)
  end.

(** ** The pages of one event *)

Record page_call := {
  pc_page : Z;
  pc_lines : Z;
  pc_total : option Z;
  pc_pages : option Z;
  pc_checksum : string;
}.

Definition record_call (s : string) (e : Z) (t : table BoqImportStatus) (c : page_call) : table BoqImportStatus :=
  (record_page_fetched s e (pc_page c) (pc_lines c) (pc_total c) (pc_pages c) (pc_checksum c) t).2.
Definition apply_call (r : BoqImportStatus) (c : page_call) : BoqImportStatus :=
  with_page (pc_page c) (pc_lines c) (pc_total c) (pc_pages c) (pc_checksum c) r.

Lemma is_import_with_page s e page lines total pages ck r :
  is_import s e (with_page page lines total pages ck r) = is_import s e r.
Proof. done. Qed.

Lemma record_call_spec s e t c i r :
  tbl_select (λ _ r, is_import s e r) t = [(i, r)] →
  tbl_select (λ _ r, is_import s e r) (record_call s e t c) = [(i, apply_call r c)].
Proof.
  intros Hs. unfold record_call, record_page_fetched, get_or_create_boq_import. rewrite Hs. simpl.
  unfold tbl_set. rewrite tbl_select_update_map by done. rewrite Hs. simpl. by rewrite bool_decide_true.
Qed.

Lemma record_calls_spec s e calls t i r :
  tbl_select (λ _ r, is_import s e r) t = [(i, r)] →
  tbl_select (λ _ r, is_import s e r) (foldl (record_call s e) t calls) = [(i, foldl apply_call r calls)].
Proof.
  revert t r; induction calls as [|c calls IH]; intros t r Hs; simpl; [done|].
  by apply IH, record_call_spec.
Qed.

Lemma is_import_fresh s e : is_import s e (fresh s e) = true.
Proof. unfold is_import. simpl. by rewrite String.eqb_refl, Z.eqb_refl. Qed.

Lemma first_calls_spec s e c calls t :
  tbl_select (λ _ r, is_import s e r) t = [] → tbl_wf t →
  tbl_select (λ _ r, is_import s e r) (foldl (record_call s e) t (c :: calls)) =
    [(next_id t, foldl apply_call (fresh s e) (c :: calls))].
Proof.
  intros Hs Hw. simpl. apply (record_calls_spec s e calls _ _ (apply_call (fresh s e) c)).
  unfold record_call, record_page_fetched, get_or_create_boq_import. rewrite Hs. simpl.
  unfold tbl_set. rewrite tbl_select_update_map by done.
  change (tbl_select (λ _ r, is_import s e r) (tbl_insert t (fresh s e)).2) with
    (tbl_select (λ _ r, is_import s e r) (tbl_insert t (fresh s e)).2).
  match goal with |- map _ (tbl_select ?q ?x) = _ => change x with (tbl_insert t (fresh s e)).2 end.
  rewrite tbl_select_insert, Hs, is_import_fresh. simpl. by rewrite bool_decide_true.
Qed.

(** What the row holds after a sequence of calls. *)
Lemma apply_calls_spec s e calls last :
  let r := foldl apply_call (fresh s e) (calls ++ [last]) in
  let all := calls ++ [last] in
  fetched_pages r = Z.of_nat (length all) ∧ stored_lines r = foldr Z.add 0 (map pc_lines all) ∧
  expected_pages r = pc_pages last ∧ expected_total r = pc_total last ∧ missing_pages r = [] ∧
  status r = page_status (fetched_pages r) (stored_lines r) (pc_total last) (pc_pages last) ∧
  (∀ k, k ∈ (map_to_list (page_checksums r)).*1 ↔ ∃ c, c ∈ all ∧ k = py_str_Z (pc_page c)).
Proof.
  simpl. rewrite foldl_app. simpl.
  assert (∀ l, let r := foldl apply_call (fresh s e) l in
    fetched_pages r = Z.of_nat (length l) ∧ stored_lines r = foldr Z.add 0 (map pc_lines l) ∧ missing_pages r = [] ∧
    (∀ k, is_Some (page_checksums r !! k) ↔ ∃ c, c ∈ l ∧ k = py_str_Z (pc_page c))) as Hgen.
  { intros l. simpl. induction l as [|c l IH] using rev_ind; simpl.
    - split_and!; [done..|]. intros k. split; [intros [? Hk]; by rewrite lookup_empty in Hk|].
      by intros (c & Hc%elem_of_nil & _).
    - rewrite foldl_app. simpl. destruct IH as (H1 & H2 & H3 & H4). split_and!; simpl.
      + rewrite H1, length_app. simpl. lia.
      + rewrite H2, map_app, foldr_app. simpl. clear. induction (map pc_lines l); simpl; lia.
      + done.
      + intros k. rewrite lookup_insert_is_Some, H4, ex_snoc. destruct (decide (py_str_Z (pc_page c) = k)); naive_solver. }
  destruct (Hgen calls) as (H1 & H2 & H3 & _). destruct (Hgen (calls ++ [last])) as (G1 & G2 & _ & G4).
  rewrite foldl_app in G1, G2, G4. simpl in G1, G2, G4. split_and!; try done; simpl.
  intros k. rewrite <-G4. rewrite list_elem_of_fmap. split.
  - intros ([k' v] & -> & Hin%elem_of_map_to_list). simpl. rewrite Hin. by eexists.
  - intros [v Hv]. exists (k, v). split; [done|]. by apply elem_of_map_to_list.
Qed.

Lemma seqZ_pages (n p : Z) : p ∈ seqZ 1 n ↔ 1 <= p <= n.
Proof. rewrite elem_of_seqZ. lia. Qed.

(** Distinct page numbers between 1 and [n]: as many as [n] only when all of them. *)
Lemma all_pages_counted (n : Z) (ps : list Z) :
  0 <= n → NoDup ps → (∀ p, p ∈ ps → 1 <= p <= n) →
  Z.of_nat (length ps) = n ↔ ∀ p, 1 <= p <= n → p ∈ ps.
Proof.
  intros Hn Hnd Hin.
  assert (ps ⊆+ seqZ 1 n) as Hsub by (apply NoDup_submseteq; [done|]; intros p Hp; apply seqZ_pages; by apply Hin).
  split.
  - intros Hlen p Hp. rewrite (submseteq_length_Permutation _ _ Hsub); [by apply seqZ_pages|]. rewrite length_seqZ. lia.
  - intros Hall. apply submseteq_length in Hsub.
    assert (seqZ 1 n ⊆+ ps) as Hsup%submseteq_length.
    { apply NoDup_submseteq; [apply NoDup_seqZ|]. intros p Hp%seqZ_pages. by apply Hall. }
    rewrite length_seqZ in *. lia.
Qed.

(** When every page of an event is reported once and the last report gives
    the source's totals, the import is [complete] exactly when all its pages
    have been recorded and their lines add up to the claimed total. *)
Theorem complete_iff_all_pages s e t calls last n total :
  tbl_wf t → tbl_select (λ _ r, is_import s e r) t = [] →
  pc_pages last = Some n → pc_total last = Some total → 0 <= n →
  NoDup (map pc_page (calls ++ [last])) → (∀ c, c ∈ calls ++ [last] → 1 <= pc_page c <= n) →
  ∃ i r, tbl_select (λ _ r, is_import s e r) (foldl (record_call s e) t (calls ++ [last])) = [(i, r)] ∧
    (status r = "complete" ↔
      (∀ p, 1 <= p <= n → p ∈ map pc_page (calls ++ [last])) ∧
      foldr Z.add 0 (map pc_lines (calls ++ [last])) = total).
Proof.
  intros Hw Hnone Hp Ht Hn Hnd Hin. exists (next_id t), (foldl apply_call (fresh s e) (calls ++ [last])). split.
  - destruct (calls ++ [last]) as [|c l] eqn:Hl; [by destruct calls|]. by apply first_calls_spec.
  - destruct (apply_calls_spec s e calls last) as (H1 & H2 & _ & _ & _ & H6 & _). simpl in *. rewrite H6, H1, H2.
    unfold page_status. rewrite Ht, Hp.
    rewrite <-(all_pages_counted n (map pc_page (calls ++ [last]))); [|done|done|].
    + rewrite length_map. destruct (_ && _) eqn:Hb; rewrite ?andb_true_iff, ?andb_false_iff in Hb.
      * rewrite !Z.eqb_eq in Hb. naive_solver.
      * rewrite !Z.eqb_neq in Hb. split; [done|]. intros [? ?]. destruct Hb; done.
    + intros p (c & -> & Hc)%list_elem_of_fmap. by apply Hin.
Qed.

(** When the fetching stops, an import whose totals are known and that is not
    complete becomes [incomplete] with exactly the page numbers never recorded,
    in order; a complete import, or one without a claimed total, stays as it is. *)
Theorem stalled_names_missing s e t calls last :
  tbl_wf t → tbl_select (λ _ r, is_import s e r) t = [] →
  ∃ i r t', mark_import_stalled s e (foldl (record_call s e) t (calls ++ [last])) = Ok ((i, r), t') ∧
    tbl_select (λ _ r, is_import s e r) t' = [(i, r)] ∧
    let before := foldl apply_call (fresh s e) (calls ++ [last]) in
    match status before, pc_pages last with
    | "in_progress", Some n => status r = "incomplete" ∧ StronglySorted Z.lt (missing_pages r) ∧
        ∀ p, p ∈ missing_pages r ↔ 1 <= p <= n ∧ p ∉ map pc_page (calls ++ [last])
    | _, _ => r = before
    end.
Proof.
  intros Hw Hnone.
  assert (tbl_select (λ _ r, is_import s e r) (foldl (record_call s e) t (calls ++ [last])) =
    [(next_id t, foldl apply_call (fresh s e) (calls ++ [last]))]) as Hs.
  { destruct (calls ++ [last]) as [|c l] eqn:Hl; [by destruct calls|]. by apply first_calls_spec. }
  destruct (apply_calls_spec s e calls last) as (_ & _ & H3 & _ & _ & H6 & H7). simpl in *.
  set (before := foldl apply_call (fresh s e) (calls ++ [last])) in *.
  unfold mark_import_stalled, get_or_create_boq_import. rewrite Hs.
  assert (status before = "complete" ∨ status before = "source_exhausted_unverified" ∨
    (status before = "in_progress" ∧ ∃ n, pc_pages last = Some n)) as Hst.
  { rewrite H6. unfold page_status. destruct (pc_total last), (pc_pages last); try (by right; left).
    destruct (_ && _); [by left|right; right; eauto]. }
  destruct Hst as [Hst|[Hst|[Hst [n Hn]]]]; rewrite Hst.
  - rewrite bool_decide_true by concrete_mem. by eexists _, _, _.
  - rewrite bool_decide_true by concrete_mem. by eexists _, _, _.
  - rewrite bool_decide_false by (rewrite !elem_of_cons, elem_of_nil; naive_solver). rewrite H3, Hn.
    set (keys := (map_to_list (page_checksums before)).*1) in *.
    assert (∃ ps, mapM py_int keys = Ok ps ∧ ∀ p, p ∈ ps ↔ p ∈ map pc_page (calls ++ [last])) as (ps & -> & Hps).
    { assert (∃ ps, keys = map py_str_Z ps) as [ps Hk].
      { clearbody keys. clear -H7. assert (∀ k, k ∈ keys → ∃ z, k = py_str_Z z) as Hz by (intros k (c & _ & ->)%H7; by eexists).
        clear H7. induction keys as [|k keys IH]; [by exists []|]. destruct (Hz k) as [z ->]; [by left|].
        destruct IH as [ps ->]; [intros; apply Hz; by right|]. by exists (z :: ps). }
      exists ps. split.
      - rewrite Hk. clear. induction ps as [|z ps IH]; simpl; [done|]. by rewrite py_int_str, IH.
      - intros p. assert (p ∈ ps ↔ py_str_Z p ∈ keys) as ->.
        { rewrite Hk, list_elem_of_fmap. split; [naive_solver|]. intros (z & Hz & Hin).
          unfold py_str_Z in Hz. by apply (inj pretty) in Hz as ->. }
        rewrite H7, list_elem_of_fmap. split.
        + intros (c & Hc & Hz). exists c. split; [|done]. unfold py_str_Z in Hz. by apply (inj pretty) in Hz.
        + intros (c & -> & Hc). by exists c. }
    simpl. eexists _, _, _. split; [done|]. unfold tbl_set. split.
    + rewrite tbl_select_update_map by done. rewrite Hs. simpl. by rewrite bool_decide_true.
    + split; [done|]. simpl. unfold missing. split.
      * apply sorted_filter, seqZ_sorted.
      * intros p. rewrite list_elem_of_filter, seqZ_pages, Hps. naive_solver.
Qed.

(** ** Witnesses and a defect *)

Definition page_one : page_call := {| pc_page := 1; pc_lines := 20; pc_total := Some 35; pc_pages := Some 2; pc_checksum := "a" |}.
Definition page_one_again : page_call := {| pc_page := 1; pc_lines := 15; pc_total := Some 35; pc_pages := Some 2; pc_checksum := "a" |}.
Definition page_two : page_call := {| pc_page := 2; pc_lines := 15; pc_total := Some 35; pc_pages := Some 2; pc_checksum := "b" |}.

Lemma complete_iff_all_pages_witness :
  ∃ i r, tbl_select (λ _ r, is_import "etender" 7 r) (foldl (record_call "etender" 7) tbl_empty ([page_one] ++ [page_two])) = [(i, r)] ∧
    status r = "complete".
Proof.
  destruct (complete_iff_all_pages "etender" 7 tbl_empty [page_one] page_two 2 35) as (i & r & Hs & Hc).
  - split; constructor.
  - reflexivity.
  - reflexivity.
  - reflexivity.
  - lia.
  - refine (bool_decide_eq_true_1 _ _); vm_compute; reflexivity.
  - intros c Hc. simpl in Hc. apply elem_of_cons in Hc as [->|Hc]; [simpl; lia|].
    apply list_elem_of_singleton in Hc as ->. simpl; lia.
  - exists i, r. split; [exact Hs|]. apply Hc. split; [|reflexivity].
    intros p Hp. simpl. rewrite !elem_of_cons. lia.
Defined.

Lemma stalled_names_missing_witness :
  ∃ i r t', mark_import_stalled "etender" 7 (foldl (record_call "etender" 7) tbl_empty ([] ++ [page_two])) = Ok ((i, r), t') ∧
    status r = "incomplete" ∧ 1 ∈ missing_pages r.
Proof.
  destruct (stalled_names_missing "etender" 7 tbl_empty [] page_two) as (i & r & t' & Hm & _ & Hs & _ & Hp).
  - split; constructor.
  - reflexivity.
  - exists i, r, t'. split; [exact Hm|]. split; [exact Hs|]. apply Hp. split; [lia|]. simpl. set_solver.
Defined.

(** The module says an import is complete only after every expected page has
    been fetched; [record_page_fetched] counts reports, so a page reported twice
    stands in for one that never arrived. *)
Lemma complete_with_page_missing :
  ∃ i r, tbl_select (λ _ r, is_import "etender" 7 r)
      (foldl (record_call "etender" 7) tbl_empty [page_one; page_one_again]) = [(i, r)] ∧
    status r = "complete" ∧ page_checksums r !! "2" = None.
Proof. eexists _, _. split; [vm_compute; reflexivity|]. split; reflexivity. Qed.
End BoqImport.
