(* ===== verification/PyFloat.v ===== *)
(** * Floats and decimals

    Python's [float(d)] for a decimal, [str(x)] for a float (the shortest
    decimal that reads back as the float), and [Decimal(str(x))]. A float is a
    binary64 of the Standard Library's [SpecFloat]. *)

From Stdlib Require Import ZArith Lia SpecFloat.
From stdpp Require Import base list.
From S2P Require Import Prelude Decimal.
#[local] Open Scope Z_scope.

#[export] Instance spec_float_eq_dec : EqDecision spec_float.
Proof. solve_decision. Defined.

Definition fadd : spec_float → spec_float → spec_float := SFadd 53 1024.

(** The binary64 closest to [num / den]. *)
Definition float_of_ratio (neg : bool) (num den : Z) : spec_float :=
  match num, den with
  | Zpos n, Zpos d => SFdiv 53 1024 (S754_finite neg n 0) (S754_finite false d 0)
  | _, _ => S754_zero neg
  end.

(** [float(d)] *)
Definition float_of_decimal (d : decimal) : spec_float :=
  match d with
  | DFin n c e => if 0 <=? e then float_of_ratio n (c * 10 ^ e) 1 else float_of_ratio n c (10 ^ (- e))
  | DInf n => S754_infinity n
  | DNaN => S754_nan
  end.

(** The [k] with [10 ^ (k - 1) <= num / den < 10 ^ k]. *)
Definition decimal_point (num den : Z) : Z :=
  if den <=? num then ndigits (num / den)
  else
    let d := ndigits (den / num) in
    if (den / num =? 10 ^ (d - 1)) && (den mod num =? 0) then 2 - d else 1 - d.

(** The decimals with [n] digits next to [num / den] that read back as [f], the
    closer one first. *)
Definition reading_back (f : spec_float) (neg : bool) (num den k n : Z) : option (Z * Z) :=
  let s := n - k in
  let num' := if 0 <=? s then num * 10 ^ s else num in
  let den' := if 0 <=? s then den else den * 10 ^ (- s) in
  let lo := num' / den' in
  let r := num' mod den' in
  let up_closer := (den' <? 2 * r) || ((2 * r =? den') && Z.odd lo) in
  let back c := bool_decide (float_of_decimal (DFin neg c (k - n)) = f) in
  let '(a, b) := if up_closer then (lo + 1, lo) else (lo, lo + 1) in
  if back a then Some (a, k - n) else if back b then Some (b, k - n) else None.

Fixpoint shortest (fuel : nat) (f : spec_float) (neg : bool) (num den k n : Z) : Z * Z :=
  match fuel with
  | O => (0, 0)
  | S fuel' =>
      match reading_back f neg num den k n with
      | Some (c, e) => strip_zeros 20 c e 400
      | None => shortest fuel' f neg num den k (n + 1)
      end
  end.

(** The digits and the exponent of [repr(x)]: at most 17 digits read back. *)
Definition repr_digits (neg : bool) (m : positive) (e : Z) : Z * Z :=
  let num := if 0 <=? e then Zpos m * 2 ^ e else Zpos m in
  let den := if 0 <=? e then 1 else 2 ^ (- e) in
  shortest 17 (S754_finite neg m e) neg num den (decimal_point num den) 1.

(** [Decimal(str(x))]: [repr] writes an integral value below 1e16 with a final
    [.0], which the decimal keeps. *)
Definition decimal_of_float (f : spec_float) : decimal :=
  match f with
  | S754_zero n => DFin n 0 (-1)
  | S754_infinity n => DInf n
  | S754_nan => DNaN
  | S754_finite n m e =>
      let '(c, x) := repr_digits n m e in
      let point := x + ndigits c in
      if (0 <=? x) && (point <=? 16) then DFin n (c * 10 ^ (x + 1)) (-1) else DFin n c x
  end.

#[local] Arguments strip_zeros : simpl never.
#[local] Arguments reading_back : simpl never.

(** The shortest digits do read back as the float, or there are none. *)
Lemma shortest_reads_back fuel f neg num den k n c e :
  shortest fuel f neg num den k n = (c, e) →
  (c = 0 ∧ e = 0) ∨ ∃ c' e', (c, e) = strip_zeros 20 c' e' 400 ∧ float_of_decimal (DFin neg c' e') = f.
Proof.
  revert n; induction fuel as [|fuel IH]; intros n; simpl; [intros [= <- <-]; by left|].
  destruct (reading_back f neg num den k n) as [[c' e']|] eqn:Hr; [|by apply IH].
  intros Hs. right. exists c', e'. split; [done|]. unfold reading_back in Hr.
  match type of Hr with (let '(a, b) := ?x in _) = _ => destruct x as [a b] end.
  case_bool_decide as Ha; [by injection Hr as <- <-|]. case_bool_decide as Hb; [by injection Hr as <- <-|done].
Qed.

Example decimal_of_18 : decimal_of_float (float_of_decimal (DFin false 18 0)) = DFin false 180 (-1).
Proof. vm_compute. reflexivity. Qed.
Example decimal_of_tenth : decimal_of_float (float_of_decimal (DFin false 1 (-1))) = DFin false 1 (-1).
Proof. vm_compute. reflexivity. Qed.
Example decimal_of_third : decimal_of_float (float_of_ratio false 1 3) = DFin false 3333333333333333 (-16).
Proof. vm_compute. reflexivity. Qed.
Example decimal_of_big : decimal_of_float (float_of_decimal (DFin false 1 22)) = DFin false 1 22.
Proof. vm_compute. reflexivity. Qed.
Example decimal_of_small : decimal_of_float (float_of_decimal (DFin true 5 (-324))) = DFin true 5 (-324).
Proof. vm_compute. reflexivity. Qed.
Example decimal_of_power : decimal_of_float (float_of_decimal (DFin false 9007199254740993 0)) = DFin false 90071992547409920 (-1).
Proof. vm_compute. reflexivity. Qed.
