(* ===== verification/PyStr.v ===== *)
(** * [str] and [repr] of decoded JSON values

    The identity keys of the ingested responses and the decimals of BOQ lines
    are built with [str] from the values of a payload; messages show tuples of
    names. This models the standard library, on the values of [Json]. *)

From stdpp Require Import base strings list pretty.
From Stdlib Require Import ZArith Ascii SpecFloat.
From S2P Require Import Prelude Json Decimal BoqImport PyFloat.
#[local] Close Scope char_scope.
#[local] Open Scope Z_scope.

(** [repr(x)] of a binary64: the shortest digits, with an exponent when the
    decimal point would be at -4 or before, or after the sixteenth digit. *)
Definition pad2 (n : Z) : string := (if n <? 10 then "0" else "") +:+ py_str_Z n.
Definition place_point (digits : string) (point : Z) : string :=
  let n := Z.of_nat (String.length digits) in
  if (point <=? -4) || (16 <? point) then
    String.substring 0 1 digits +:+
    (if n =? 1 then "" else "." +:+ String.substring 1 (String.length digits) digits) +:+
    "e" +:+ (if point - 1 <? 0 then "-" else "+") +:+ pad2 (Z.abs (point - 1))
  else if point <=? 0 then "0." +:+ zeros (- point) +:+ digits
  else if n <=? point then digits +:+ zeros (point - n) +:+ ".0"
  else String.substring 0 (Z.to_nat point) digits +:+ "." +:+
       String.substring (Z.to_nat point) (String.length digits) digits.
Definition float_repr (f : spec_float) : string :=
  match f with
  | S754_zero n => (if n then "-" else "") +:+ "0.0"
  | S754_infinity n => (if n then "-" else "") +:+ "inf"
  | S754_nan => "nan"
  | S754_finite n m e =>
      let '(c, x) := repr_digits n m e in
      (if n then "-" else "") +:+ place_point (py_str_Z c) (x + ndigits c)
  end.

Section WithText.
Context `{PyText}.

Fixpoint json_repr (j : json) : string :=
  match j with
  | JNull => "None"
  | JBool b => if b then "True" else "False"
  | JInt z => py_str_Z z
  | JFloat f => float_repr f
  | JStr s => py_repr s
  | JArr l => "[" +:+ str_join ", " (map json_repr l) +:+ "]"
  | JObj l => "{" +:+ str_join ", " (map (λ kv, py_repr kv.1 +:+ ": " +:+ json_repr kv.2) l) +:+ "}"
  end.

(** [str(v)], which is also what an f-string shows *)
Definition json_str (j : json) : string := match j with JStr s => s | _ => json_repr j end.

(** [repr] of a tuple of strings: one element keeps a comma. *)
Definition py_repr_tuple (l : list string) : string :=
  match l with
  | [s] => "(" +:+ py_repr s +:+ ",)"
  | _ => "(" +:+ str_join ", " (map py_repr l) +:+ ")"
  end.

(** ** Access to decoded JSON *)

Definition py_type_of (j : json) : string :=
  match j with
  | JNull => "NoneType" | JBool _ => "bool" | JInt _ => "int" | JFloat _ => "float"
  | JStr _ => "str" | JArr _ => "list" | JObj _ => "dict"
  end.

(** [v[k]] with a string key *)
Definition py_index (v : json) (k : string) : result exn json :=
  match v with
  | JObj p => match assoc k p with Some x => Ok x | None => Err (KeyError k) end
  | JStr _ | JArr _ => Err (TypeError (py_type_of v +:+ " indices must be integers, not 'str'"))
  | _ => Err (TypeError ("'" +:+ py_type_of v +:+ "' object is not subscriptable"))
  end.
Definition no_attribute (v : json) (a : string) : exn :=
  AttributeError ("'" +:+ py_type_of v +:+ "' object has no attribute '" +:+ a +:+ "'").
(** [v.get(k)] *)
Definition py_get (v : json) (k : string) : result exn json :=
  match v with JObj p => Ok (dict_get k p) | _ => Err (no_attribute v "get") end.
(** The text of [v] for a method of [str] called on it *)
Definition py_text (v : json) (method : string) : result exn string :=
  match v with JStr s => Ok s | _ => Err (no_attribute v method) end.
(** [for x in v]: a dict gives its keys, a string its characters (here bytes). *)
Definition py_iter (v : json) : result exn (list json) :=
  match v with
  | JArr l => Ok l
  | JObj p => Ok (map JStr p.*1)
  | JStr s => Ok (map (λ c, JStr (String c EmptyString)) (String.list_ascii_of_string s))
  | _ => Err (TypeError ("'" +:+ py_type_of v +:+ "' object is not iterable"))
  end.
(** [v[0]] of a list *)
Definition py_first (v : json) : result exn json :=
  match v with
  | JArr (x :: _) => Ok x
  | JArr [] => Err (IndexError "list index out of range")
  | JObj _ => Err (KeyError "0")
  | _ => Err (TypeError ("'" +:+ py_type_of v +:+ "' object is not subscriptable"))
  end.
(** [a or b] *)
Definition py_or (a b : json) : json := if py_truthy a then a else b.

(** [Decimal(str(v))] *)
Definition decimal_of_json (j : json) : result exn decimal :=
  match j with
  | JInt z => Ok (dec_of_Z z)
  | JFloat f => Ok (decimal_of_float f)
  | JStr s => dec_of_string s
  | _ => Err (InvalidOperation (json_str j))
  end.
End WithText.

Definition float_text (neg : bool) (c e : Z) : string := float_repr (float_of_decimal (DFin neg c e)).
Example float_repr_examples :
  [float_text false 1 16; float_text false 1 (-4); float_text false 1 (-5); float_text true 15 (-1);
   float_text false 355920 0; float_text false 123456789012345678 0; float_text false 5 (-324)] =
  ["1e+16"; "0.0001"; "1e-05"; "-1.5"; "355920.0"; "1.2345678901234568e+17"; "5e-324"].
Proof. vm_compute. reflexivity. Qed.

(** ** [int] of a text *)

(** The digits of [int]: a single underscore may stand between two of them.
    [after_digit] says that the last character was a digit. *)
Fixpoint int_digits (acc : N) (after_digit : bool) (s : string) : option N :=
  match s with
  | EmptyString => if after_digit then Some acc else None
  | String c t =>
      if Ascii.eqb c "_"%char then if after_digit then int_digits acc false t else None
      else match BoqImport.digit c with Some n => int_digits (10 * acc + n) true t | None => None end
  end.
Definition int_value (sign : Z) (s : string) : option Z := (λ n, sign * Z.of_N n) <$> int_digits 0 false s.
(** [int(s)] *)
Definition int_of_text `{PyText} (s : string) : option Z :=
  match py_strip s with
  | String "-" t => int_value (-1) t
  | String "+" t => int_value 1 t
  | t => int_value 1 t
  end.

(** ** Splitting a text *)

(** [s.split(c)] and the parts of [s] around the first [c] *)
Fixpoint split_on (c : ascii) (s : string) : list string :=
  match s with
  | EmptyString => [""]
  | String d t =>
      if Ascii.eqb c d then "" :: split_on c t
      else match split_on c t with x :: l => String d x :: l | [] => [String d ""] end
  end.
Fixpoint around (c : ascii) (s : string) : string * option string :=
  match s with
  | EmptyString => ("", None)
  | String d t => if Ascii.eqb c d then ("", Some t) else let ' (a, b) := around c t in (String d a, b)
  end.
Lemma sapp_cons d (a b : string) : String d a +:+ b = String d (a +:+ b).
Proof. done. Qed.
Lemma sapp_assoc (a b c : string) : (a +:+ b) +:+ c = a +:+ (b +:+ c).
Proof. induction a as [|d a IH]; [done|]. by rewrite !sapp_cons, IH. Qed.

(** A text without a character *)
Fixpoint lacks (c : ascii) (s : string) : bool :=
  match s with EmptyString => true | String d t => negb (Ascii.eqb c d) && lacks c t end.
Lemma lacks_app c a b : lacks c (a +:+ b) = lacks c a && lacks c b.
Proof. induction a as [|d a IH]; [done|]. rewrite sapp_cons. cbn [lacks]. by rewrite IH, andb_assoc. Qed.

Lemma split_lacks c s : lacks c s = true → split_on c s = [s].
Proof. induction s as [|d s IH]; simpl; [done|]. intros [Hd%negb_true_iff Hs]%andb_prop. by rewrite Hd, IH. Qed.
Lemma split_app c s t : lacks c s = true → split_on c (s +:+ String c t) = s :: split_on c t.
Proof.
  induction s as [|d s IH]; [intros _; simpl; by rewrite Ascii.eqb_refl|]. rewrite sapp_cons. simpl. intros [Hd%negb_true_iff Hs]%andb_prop. by rewrite Hd, IH.
Qed.
Lemma split_join c l : l ≠ [] → Forall (λ s, lacks c s = true) l → split_on c (str_join (String c "") l) = l.
Proof.
  intros Hl Hf. induction Hf as [|s l Hs Hf IH]; [done|]. destruct l as [|s' l]; [by apply split_lacks|].
  change (str_join (String c "") (s :: s' :: l)) with (s +:+ String c (str_join (String c "") (s' :: l))).
  by rewrite split_app, IH.
Qed.
Lemma around_app c s t : lacks c s = true → around c (s +:+ String c t) = (s, Some t).
Proof.
  induction s as [|d s IH]; [intros _; simpl; by rewrite Ascii.eqb_refl|]. rewrite sapp_cons. simpl. intros [Hd%negb_true_iff Hs]%andb_prop. by rewrite Hd, IH.
Qed.
(** What stands before a separator does not change the last part. *)
Lemma split_nonempty c s : split_on c s ≠ [].
Proof. destruct s as [|d s]; simpl; [done|]. destruct (Ascii.eqb c d); [done|]. by destruct (split_on c s). Qed.
Lemma split_last c p q : last (split_on c (p +:+ String c q)) = last (split_on c q).
Proof.
  assert (∀ x (l : list string), l ≠ [] → last (x :: l) = last l) as Hl by (by intros x [|y l]).
  induction p as [|d p IH].
  - change ("" +:+ String c q) with (String c q). cbn [split_on]. rewrite Ascii.eqb_refl. apply Hl, split_nonempty.
  - rewrite sapp_cons. cbn [split_on]. destruct (Ascii.eqb c d); [rewrite Hl by apply split_nonempty; exact IH|].
    destruct (split_on c (p +:+ String c q)) as [|x [|y l]] eqn:Hs; [by apply split_nonempty in Hs| |exact IH].
    exfalso. revert Hs. clear. revert x. induction p as [|e p IH]; intros x.
    + change ("" +:+ String c q) with (String c q). cbn [split_on]. rewrite Ascii.eqb_refl. intros [= _ Hq]. by apply split_nonempty in Hq.
    + rewrite sapp_cons. cbn [split_on]. destruct (Ascii.eqb c e); [intros [= _ Hq]; by apply split_nonempty in Hq|].
      destruct (split_on c (p +:+ String c q)) as [|z [|w l]] eqn:Hs; [by apply split_nonempty in Hs|by destruct (IH z)|done].
Qed.
