(* ===== verification/Random.v ===== *)
(** * Python's [random.Random]

    The generator of [random.Random(seed)] for a seed that is an integer: the
    Mersenne Twister, seeded by [init_by_array] with the 32-bit digits of the
    seed, and the draws the fixtures use: [random], [uniform], [randint] and
    [choice]. The clients draw through [Rng], whose instance is the twister. *)

From stdpp Require Import base list.
From Stdlib Require Import ZArith Lia SpecFloat.
From S2P Require Import Prelude PyFloat.

Module Random.
#[local] Open Scope Z_scope.

Definition word (n : Z) : Z := n mod 2 ^ 32.

(** ** The Mersenne Twister *)

(** The 624 words of the state, the next one first *)
Definition state : Type := list Z.
Definition nth_word (k : nat) (s : state) : Z := nth k s 0.
(** [x_(k+624) = x_(k+397) ^ (upper bit of x_k, lower bits of x_(k+1)) A] *)
Definition twist (s : state) : Z :=
  let y := Z.lor (Z.land (nth_word 0 s) 0x80000000) (Z.land (nth_word 1 s) 0x7fffffff) in
  Z.lxor (Z.lxor (nth_word 397 s) (Z.shiftr y 1)) (if Z.odd y then 0x9908b0df else 0).
Definition temper (y : Z) : Z :=
  let y := Z.lxor y (Z.shiftr y 11) in
  let y := Z.lxor y (Z.land (Z.shiftl y 7) 0x9d2c5680) in
  let y := Z.lxor y (Z.land (Z.shiftl y 15) 0xefc60000) in
  Z.lxor y (Z.shiftr y 18).
Definition genrand_uint32 (s : state) : Z * state := let x := twist s in (temper x, drop 1 s ++ [x]).

(** *** Seeding *)

Definition scramble (prev : Z) : Z := Z.lxor prev (Z.shiftr prev 30).
Fixpoint init_words (n : nat) (i prev : Z) : list Z :=
  match n with O => [] | S n' => let x := word (1812433253 * scramble prev + i) in x :: init_words n' (i + 1) x end.
(** [init_genrand], all but the first word, which is the seed *)
Definition init_genrand (s : Z) : list Z := init_words 623 1 s.
(** The two loops of [init_by_array] go round the words 1 to 623; [ring] holds
    them with the next one first, [prev] is the word before it. *)
Record ring := { prev : Z; words : list Z }.
Definition turn (f : Z → Z → Z) (r : ring) : ring :=
  match words r with [] => r | x :: l => let y := f (prev r) x in {| prev := y; words := l ++ [y] |} end.
Fixpoint mix_key (n : nat) (key rest : list Z) (j : Z) (r : ring) : ring :=
  match n with
  | O => r
  | S n' =>
      match rest with
      | k :: rest' => mix_key n' key (match rest' with [] => key | _ => rest' end) (match rest' with [] => 0 | _ => j + 1 end)
                        (turn (λ p x, word (Z.lxor x (scramble p * 1664525) + k + j)) r)
      | [] => r
      end
  end.
Fixpoint mix_index (n : nat) (i : Z) (r : ring) : ring :=
  match n with
  | O => r
  | S n' => mix_index n' (if i =? 623 then 1 else i + 1) (turn (λ p x, word (Z.lxor x (scramble p * 1566083941) - i)) r)
  end.
Definition init_by_array (key : list Z) : state :=
  let k := Nat.max 624 (length key) in
  let r := mix_key k key key 0 {| prev := 19650218; words := init_genrand 19650218 |} in
  let i := (k mod 623)%nat in
  let r' := mix_index 623 (Z.of_nat i + 1) r in
  0x80000000 :: drop (623 - i) (words r') ++ take (623 - i) (words r').
(** The 32-bit digits of a number, the lowest one first *)
Fixpoint digits32 (fuel : nat) (n : Z) : list Z :=
  match fuel with O => [] | S f => if n =? 0 then [] else word n :: digits32 f (n / 2 ^ 32) end.
Definition seed_key (seed : Z) : list Z :=
  let n := Z.abs seed in if n =? 0 then [0] else digits32 (Z.to_nat (Z.log2 n / 32 + 1)) n.
Definition Random_ (seed : Z) : state := init_by_array (seed_key seed).

(** ** The draws *)

Class Rng (S : Type) := { next32 : S → Z * S }.
#[global] Instance mersenne : Rng state := {| next32 := genrand_uint32 |}.

Section Draws.
Context {S : Type} `{Rng S}.

(** [(a * 67108864.0 + b) * (1.0 / 9007199254740992.0)] is the exact fraction. *)
Definition random (s : S) : spec_float * S :=
  let ' (a, s1) := next32 s in
  let ' (b, s2) := next32 s1 in
  (float_of_ratio false (Z.shiftr a 5 * 67108864 + Z.shiftr b 6) 9007199254740992, s2).
(** [a + (b - a) * self.random()] *)
Definition uniform (a b : spec_float) (s : S) : spec_float * S :=
  let ' (r, s') := random s in (fadd a (SFmul 53 1024 (SFsub 53 1024 b a) r), s').
(** [getrandbits], for one to 32 bits *)
Definition getrandbits (k : Z) (s : S) : Z * S := let ' (w, s') := next32 s in (Z.shiftr w (32 - k), s').
(** The loop of [_randbelow]; [None] is a loop that has not ended *)
Fixpoint draw_below (fuel : nat) (n : Z) (s : S) : option (Z * S) :=
  match fuel with
  | O => None
  | Datatypes.S f => let ' (r, s') := getrandbits (Z.log2 n + 1) s in if n <=? r then draw_below f n s' else Some (r, s')
  end.
Definition randint (fuel : nat) (a b : Z) (s : S) : option (Z * S) :=
  match draw_below fuel (b + 1 - a) s with Some (r, s') => Some (a + r, s') | None => None end.
(** [choice] of a sequence that is not empty *)
Definition choice {A} (fuel : nat) (x : A) (l : list A) (s : S) : option (A * S) :=
  match draw_below fuel (Z.of_nat (length (x :: l))) s with Some (r, s') => Some (nth (Z.to_nat r) (x :: l) x, s') | None => None end.
(** More fuel draws the same. *)
Lemma draw_below_more fuel more n s x : draw_below fuel n s = Some x → draw_below (fuel + more) n s = Some x.
Proof.
  revert s. induction fuel as [|fuel IH]; intros s; [done|]. cbn [draw_below Nat.add]. destruct (getrandbits _ s) as [r s'].
  destruct (_ <=? _); auto.
Qed.
End Draws.

(** The numbers CPython draws *)
Definition two_draws (seed : Z) : Z * Z :=
  let ' (a, s) := genrand_uint32 (Random_ seed) in let ' (b, _) := genrand_uint32 s in (a, b).
Example draws_of_42 : two_draws 42 = (2746317213, 478163327).
Proof. vm_compute. reflexivity. Qed.

(** ** The draws are words of 32 bits *)

Definition MASK : Z := 2 ^ 32 - 1.
Definition is_word (x : Z) : Prop := Z.land x MASK = x.

Lemma is_word_spec x : is_word x ↔ 0 <= x < 2 ^ 32.
Proof.
  unfold is_word. change MASK with (Z.ones 32). rewrite Z.land_ones by lia. split; [intros <-; by apply Z.mod_pos_bound|by intros; apply Z.mod_small].
Qed.
Lemma word_is_word n : is_word (word n).
Proof. apply is_word_spec. by apply Z.mod_pos_bound. Qed.
Lemma lxor_word a b : is_word a → is_word b → is_word (Z.lxor a b).
Proof.
  unfold is_word. intros Ha Hb. apply Z.bits_inj'. intros n Hn. rewrite <-Ha, <-Hb, !Z.land_spec, !Z.lxor_spec, !Z.land_spec.
  by destruct (Z.testbit a n), (Z.testbit b n), (Z.testbit MASK n).
Qed.
Lemma lor_word a b : is_word a → is_word b → is_word (Z.lor a b).
Proof. unfold is_word. intros Ha Hb. by rewrite Z.land_lor_distr_l, Ha, Hb. Qed.
Lemma land_word a b : is_word b → is_word (Z.land a b).
Proof. unfold is_word. intros Hb. by rewrite <-Z.land_assoc, Hb. Qed.
Lemma shiftr_word a k : 0 <= k → is_word a → is_word (Z.shiftr a k).
Proof.
  rewrite !is_word_spec. intros Hk [H0 H1]. split; [by apply Z.shiftr_nonneg|]. rewrite Z.shiftr_div_pow2 by done.
  assert (0 < 2 ^ k) by (by apply Z.pow_pos_nonneg). apply Z.le_lt_trans with a; [|done]. apply Z.div_le_upper_bound; nia.
Qed.

Lemma temper_word y : is_word y → is_word (temper y).
Proof. intros Hy. unfold temper. cbv zeta. repeat first [apply lxor_word | apply land_word | apply shiftr_word | done]. Qed.

(** A state of a generator of words *)
Class RngLaws (S : Type) `{Rng S} (ok : S → Prop) := {
  next_ok s : ok s → ok (next32 s).2;
  next_word s : ok s → is_word (next32 s).1 }.

Definition twister_ok (s : state) : Prop := length s = 624%nat ∧ Forall is_word s.
Lemma nth_word_ok k s : Forall is_word s → is_word (nth_word k s).
Proof.
  intros Hs. unfold nth_word. destruct (nth_in_or_default k s 0) as [Hin| ->]; [|done].
  rewrite Forall_forall in Hs. apply Hs. by apply list_elem_of_In.
Qed.
Lemma twist_word s : Forall is_word s → is_word (twist s).
Proof.
  intros Hs. unfold twist. cbv zeta. apply lxor_word; [apply lxor_word; [by apply nth_word_ok|apply shiftr_word; [done|]]|by case_match].
  apply lor_word; by apply land_word.
Qed.
#[global] Instance mersenne_laws : RngLaws state twister_ok.
Proof.
  split; intros s [Hl Hs]; simpl.
  - split; [rewrite length_app, length_drop; simpl; lia|]. apply Forall_app_2; [by apply Forall_drop|]. constructor; [by apply twist_word|done].
  - by apply temper_word, twist_word.
Qed.

Lemma turn_words f r : (∀ p x, is_word (f p x)) → Forall is_word (words r) → length (words (turn f r)) = length (words r) ∧ Forall is_word (words (turn f r)).
Proof.
  intros Hf Hr. unfold turn. destruct (words r) as [|x l] eqn:E; [by rewrite E|]. simpl. inversion Hr; subst.
  split; [rewrite length_app; simpl; lia|]. apply Forall_app_2; [done|]. by constructor.
Qed.
Lemma mix_key_words n key rest j r : Forall is_word (words r) →
  length (words (mix_key n key rest j r)) = length (words r) ∧ Forall is_word (words (mix_key n key rest j r)).
Proof.
  revert rest j r. induction n as [|n IH]; intros rest j r Hr; [done|]. cbn [mix_key]. destruct rest as [|k rest]; [done|].
  destruct (turn_words (λ p x, word (Z.lxor x (scramble p * 1664525) + k + j)) r (λ p x, word_is_word _) Hr) as [<- Hw]. by apply IH.
Qed.
Lemma mix_index_words n i r : Forall is_word (words r) →
  length (words (mix_index n i r)) = length (words r) ∧ Forall is_word (words (mix_index n i r)).
Proof.
  revert i r. induction n as [|n IH]; intros i r Hr; [done|]. cbn [mix_index].
  destruct (turn_words (λ p x, word (Z.lxor x (scramble p * 1566083941) - i)) r (λ p x, word_is_word _) Hr) as [<- Hw]. by apply IH.
Qed.
Lemma init_words_ok n i p : length (init_words n i p) = n ∧ Forall is_word (init_words n i p).
Proof.
  revert i p. induction n as [|n IH]; intros i p; [done|]. cbn [init_words length]. cbv zeta. split; [f_equal; apply IH|].
  constructor; [apply word_is_word|apply IH].
Qed.
Lemma rotated_ok n l : length l = 623%nat → Forall is_word l → twister_ok (0x80000000 :: drop n l ++ take n l).
Proof.
  intros Hl Hw. split; [cbn [length]; rewrite length_app, length_drop, length_take, Hl; lia|].
  constructor; [done|]. apply Forall_app_2; [by apply Forall_drop|by apply Forall_take].
Qed.
Lemma mixed_ok n i k key r : length (words r) = 623%nat → Forall is_word (words r) →
  length (words (mix_index n i (mix_key k key key 0 r))) = 623%nat ∧ Forall is_word (words (mix_index n i (mix_key k key key 0 r))).
Proof.
  intros Hl Hw. destruct (mix_key_words k key key 0 r Hw) as [L1 W1]. destruct (mix_index_words n i _ W1) as [L2 W2].
  split; [congruence|done].
Qed.
Lemma Random_ok seed : twister_ok (Random_ seed).
Proof.
  destruct (init_words_ok 623 1 19650218) as [L0 W0]. unfold Random_, init_by_array.
  refine (rotated_ok _ _ (proj1 (mixed_ok _ _ _ _ _ _ _)) (proj2 (mixed_ok _ _ _ _ _ _ _))); first [exact L0 | exact W0].
Qed.

(** ** Draws in a range *)

Section Range.
Context {S : Type} `{RngLaws S ok}.
Lemma draw_below_bound fuel n s r s' : ok s → draw_below fuel n s = Some (r, s') → 0 <= r < n ∧ ok s'.
Proof using H0.
  revert s. induction fuel as [|fuel IH]; intros s Hs; [done|]. cbn [draw_below]. unfold getrandbits.
  pose proof (next_word s Hs) as [Hw _]%is_word_spec. pose proof (next_ok s Hs) as Hok. destruct (next32 s) as [w s1]. simpl in *.
  destruct (Z.leb_spec n (Z.shiftr w (32 - (Z.log2 n + 1)))) as [Hle|Hlt]; [by apply IH|].
  intros [= <- <-]. split; [split; [by apply Z.shiftr_nonneg|done]|done].
Qed.
Lemma choice_bound {A} fuel (x : A) l s y s' : ok s → choice fuel x l s = Some (y, s') → y ∈ x :: l ∧ ok s'.
Proof using H0.
  intros Hs. unfold choice. destruct (draw_below _ _ s) as [[r s1]|] eqn:E; [|done]. intros [= <- <-].
  apply draw_below_bound in E as [Hr Hok]; [|done]. split; [|done]. apply list_elem_of_In. apply (nth_In (x :: l)). lia.
Qed.
Lemma randint_bound fuel a b s n s' : ok s → randint fuel a b s = Some (n, s') → a <= n <= b ∧ ok s'.
Proof using H0.
  intros Hs. unfold randint. destruct (draw_below _ _ s) as [[r s1]|] eqn:E; [|done]. intros [= <- <-].
  apply draw_below_bound in E as [Hr Hok]; [|done]. split; [lia|done].
Qed.
End Range.
End Random.
