(* ===== verification/Regex.v ===== *)
(** * Regular expressions of [re]

    The constructs the patterns of [packages/tender/boq_line_model.py] use, as a
    data type, and a class for the two functions called on them, [search] and
    [finditer]. [ascii_regex] is a backtracking matcher on bytes, used to
    evaluate concrete inputs: a byte of a character outside ASCII counts as a
    letter and has no case. *)

From Stdlib Require Import Ascii ZArith.
From stdpp Require Import base strings list.
From S2P Require Import Prelude.

#[warnings="-register-all"] Inductive regex :=
| RLit (s : string)
| RSpace
| RDigit
| RBoundary
| ROneOf (cs : string)
| RSeq (l : list regex)
| RAlt (l : list regex)
| ROpt (r : regex)
| RStar (r : regex)
| RPlus (r : regex).

(** A compiled pattern: the expression and [re.IGNORECASE]. *)
Record pattern := { re_expr : regex; re_ignorecase : bool }.

Class PyRegex := {
  re_search : pattern → string → bool;
  re_finditer : pattern → string → list string;
}.

Section Matcher.
Local Open Scope char_scope.

Definition is_word (c : ascii) : bool :=
  let n := ascii_code c in
  ((48 <=? n) && (n <=? 57) || (65 <=? n) && (n <=? 90) || (97 <=? n) && (n <=? 122) || (n =? 95) || (128 <=? n))%nat.
Definition is_digit (c : ascii) : bool := let n := ascii_code c in ((48 <=? n) && (n <=? 57))%nat.
Definition word_at (c : option ascii) : bool := match c with Some c => is_word c | None => false end.
Definition same_char (ci : bool) (a b : ascii) : bool :=
  if ci then Ascii.eqb (ascii_lower a) (ascii_lower b) else Ascii.eqb a b.

(** A matcher takes the character before, the rest, and what must follow; it
    gives the rest after the whole match. *)
Definition matcher : Type := option ascii → list ascii → (option ascii → list ascii → option (list ascii)) → option (list ascii).

Fixpoint match_lit (ci : bool) (s : list ascii) : matcher := λ prev l k,
  match s, l with
  | [], _ => k prev l
  | c :: s', x :: l' => if same_char ci c x then match_lit ci s' (Some x) l' k else None
  | _ :: _, [] => None
  end.
Definition match_one (p : ascii → bool) : matcher := λ _ l k,
  match l with x :: l' => if p x then k (Some x) l' else None | [] => None end.
Fixpoint match_star (fuel : nat) (m : matcher) : matcher := λ prev l k,
  match fuel with
  | O => k prev l
  | S fuel' =>
      match m prev l (λ p' l', if (length l' <? length l)%nat then match_star fuel' m p' l' k else None) with
      | Some rest => Some rest
      | None => k prev l
      end
  end.

Fixpoint rmatch (ci : bool) (r : regex) : matcher :=
  match r with
  | RLit s => match_lit ci (String.list_ascii_of_string s)
  | RSpace => match_one is_ascii_space
  | RDigit => match_one is_digit
  | ROneOf cs => match_one (λ c, existsb (same_char ci c) (String.list_ascii_of_string cs))
  | RBoundary => λ prev l k, if xorb (word_at prev) (word_at (head l)) then k prev l else None
  | RSeq rs => (fix go (rs : list regex) : matcher :=
                  match rs with [] => λ prev l k, k prev l | r :: rs' => λ prev l k, rmatch ci r prev l (λ p' l', go rs' p' l' k) end) rs
  | RAlt rs => (fix go (rs : list regex) : matcher :=
                  match rs with
                  | [] => λ _ _ _, None
                  | r :: rs' => λ prev l k, match rmatch ci r prev l k with Some x => Some x | None => go rs' prev l k end
                  end) rs
  | ROpt r => λ prev l k, match rmatch ci r prev l k with Some x => Some x | None => k prev l end
  | RStar r => λ prev l k, match_star (length l) (rmatch ci r) prev l k
  | RPlus r => λ prev l k, rmatch ci r prev l (λ p' l', match_star (length l') (rmatch ci r) p' l' k)
  end.

Definition match_at (p : pattern) (prev : option ascii) (l : list ascii) : option (list ascii) :=
  rmatch (re_ignorecase p) (re_expr p) prev l (λ _ rest, Some rest).

(** The matches from left to right, none overlapping; the fuel is the length. *)
Fixpoint find_all (fuel : nat) (p : pattern) (prev : option ascii) (l : list ascii) : list string :=
  match fuel, l with
  | S fuel', x :: l' =>
      match match_at p prev l with
      | Some rest =>
          if (length rest <? length l)%nat then
            let found := take (length l - length rest) l in
            String.string_of_list_ascii found :: find_all fuel' p (last found) rest
          else EmptyString :: find_all fuel' p (Some x) l'
      | None => find_all fuel' p (Some x) l'
      end
  | _, _ => []
  end.

Definition ascii_regex : PyRegex := {|
  re_finditer := λ p s, find_all (String.length s) p None (String.list_ascii_of_string s);
  re_search := λ p s, match find_all (String.length s) p None (String.list_ascii_of_string s) with [] => false | _ => true end |}.
End Matcher.
