(* ===== verification/SchemaDrift.v ===== *)
(** * Source contracts and schema drift

    [packages/tender/source_contract.py], the contracts of
    [packages/tender/etender_contract.py] and
    [packages/tender/worldbank_contract.py], and [packages/tender/schema_drift.py]:
    the comparison of a response with the frozen shape of its source. *)

From stdpp Require Import base gmap sets strings list sorting.
From Stdlib Require Import ZArith.
From S2P Require Import Prelude Json PyFloat PyStr Query.

Module Drift.

Record FieldSpec := { field_name : string; field_type : string; field_optional : bool }.
Record SourceContract := { contract_name : string; identity_query_keys : list string; fields : list FieldSpec }.

Definition field (n t : string) : FieldSpec := {| field_name := n; field_type := t; field_optional := false |}.
Definition optional_field (n t : string) : FieldSpec := {| field_name := n; field_type := t; field_optional := true |}.

Definition EVENT_DETAILS_CONTRACT : SourceContract := {|
  contract_name := "etender.event_details";
  identity_query_keys := ["id"];
  fields := [
    field "id" "number";
    field "rfxId" "number";
    field "eventId" "number";
    field "tenderName" "string";
    field "organizationName" "string";
    field "organizationVoen" "string";
    field "envelopeDate" "number";
    field "endDate" "number";
    field "publishDate" "number";
    field "startDate" "number";
    field "budgetCategoryCode" "null";
    field "address" "string";
    field "cpvCode" "null";
    field "eventType" "number";
    field "isRedirectionAvailable" "boolean";
    field "minNumberOfSuppliers" "number";
    field "estimatedAmount" "number";
    field "recreatedFromRfxId" "null";
    field "recreatedFromEventId" "null";
    field "documentNumber" "string";
    field "recreatedFromDocumentNumber" "null";
    field "evaluatedFinalScore" "number";
    field "categoryCodes" "array"] |}.

Definition BOM_LINES_PAGE_CONTRACT : SourceContract := {|
  contract_name := "etender.bom_lines_page";
  identity_query_keys := ["event_id"; "PageNumber"];
  fields := [
    field "currentPage" "number";
    field "totalPages" "number";
    field "pageSize" "number";
    field "itemsInPage" "number";
    field "totalItems" "number";
    field "items" "array";
    field "hasPreviousPage" "boolean";
    field "hasNextPage" "boolean";
    field "firstItem" "number";
    field "lastItem" "number"] |}.

Definition EVENTS_LIST_PAGE_CONTRACT : SourceContract := {|
  contract_name := "etender.events_list_page";
  identity_query_keys := ["EventType"; "PageSize"; "PageNumber"; "EventStatus"; "Keyword"; "buyerOrganizationName"; "documentNumber"; "publishDateFrom"; "publishDateTo"; "AwardedparticipantName"; "AwardedparticipantVoen"; "DocumentViewType"; "IsArchived"];
  fields := [
    field "currentPage" "number";
    field "totalPages" "number";
    field "pageSize" "number";
    field "itemsInPage" "number";
    field "totalItems" "number";
    field "items" "array";
    field "hasPreviousPage" "boolean";
    field "hasNextPage" "boolean";
    field "firstItem" "number";
    field "lastItem" "number"] |}.

Definition BOM_LINE_ITEM_CONTRACT : SourceContract := {|
  contract_name := "etender.bom_lines_page.item";
  identity_query_keys := ["id"];
  fields := [
    field "id" "number";
    field "name" "string";
    field "description" "string";
    field "unitOfMeasure" "string";
    field "quantity" "number";
    field "categoryCode" "string"] |}.

Definition APP_LIST_PAGE_CONTRACT : SourceContract := {|
  contract_name := "etender.app_list_page";
  identity_query_keys := ["Year"; "PageNumber"; "BuyerOrganizationName"];
  fields := [
    field "currentPage" "number";
    field "totalPages" "number";
    field "pageSize" "number";
    field "itemsInPage" "number";
    field "totalItems" "number";
    field "items" "array";
    field "hasPreviousPage" "boolean";
    field "hasNextPage" "boolean";
    field "firstItem" "number";
    field "lastItem" "number"] |}.

Definition APP_ITEM_CONTRACT : SourceContract := {|
  contract_name := "etender.app_list_page.item";
  identity_query_keys := ["id"];
  fields := [
    field "id" "number";
    field "organizationName" "string";
    field "year" "number";
    field "createDate" "string"] |}.

Definition DONOR_PIPELINE_PAGE_CONTRACT : SourceContract := {|
  contract_name := "worldbank.donor_pipeline_page";
  identity_query_keys := ["countrycode_exact"; "os"];
  fields := [
    field "rows" "number";
    field "os" "string";
    field "page" "string";
    field "total" "string";
    field "projects" "object";
    field "facets" "object"] |}.

Definition DONOR_PIPELINE_PROJECT_CONTRACT : SourceContract := {|
  contract_name := "worldbank.donor_pipeline_page.project";
  identity_query_keys := ["id"];
  fields := [
    field "id" "string";
    field "project_name" "string";
    field "status" "string";
    field "projectstatusdisplay" "string";
    field "totalamt" "string";
    field "totalcommamt" "string";
    field "country_namecode" "string";
    field "countryname" "array";
    field "countrycode" "array";
    field "countryshortname" "string";
    field "regionname" "string";
    field "source" "array";
    field "mjthemecode" "string";
    field "mjtheme_namecode" "array";
    field "theme1" "string";
    field "sector1" "object";
    field "url" "string";
    field "teamleadname" "string";
    field "lendinginstr" "string";
    field "lendinginstrtype" "string";
    field "lendprojectcost" "string";
    field "prodline" "string";
    field "prodlinetext" "string";
    field "productlinetype" "string";
    field "proj_and_ln_country" "array";
    field "projectdocs" "array";
    field "curr_ibrd_commitment" "string";
    field "curr_ida_commitment" "string";
    field "curr_total_commitment" "string";
    field "ibrdcommamt" "string";
    field "idacommamt" "string";
    optional_field "borrower" "string";
    optional_field "impagency" "string";
    optional_field "boardapprovaldate" "string";
    optional_field "board_approval_month" "string";
    optional_field "closingdate" "string";
    optional_field "approvalfy" "string";
    optional_field "p2a_flag" "string";
    optional_field "p2a_updated_date" "string";
    optional_field "supplementprojectflg" "string";
    optional_field "envassesmentcategorycode" "string";
    optional_field "grantamt" "string";
    optional_field "sector" "array";
    optional_field "sector2" "object";
    optional_field "sector3" "object";
    optional_field "sector_namecode" "array";
    optional_field "sectorcode" "array";
    optional_field "mjsector_namecode" "array";
    optional_field "theme2" "string";
    optional_field "theme3" "string";
    optional_field "theme4" "string";
    optional_field "theme_list" "array";
    optional_field "theme_namecode" "array";
    optional_field "themecode" "string";
    optional_field "ln_country_id" "array";
    optional_field "ln_country_id_desc" "array"] |}.

(** The drift of a response: the three tuples of field names. *)
Record SchemaDrift := { added_fields : list string; removed_fields : list string; type_changed_fields : list string }.

Definition has_drift (d : SchemaDrift) : bool :=
  match added_fields d, removed_fields d, type_changed_fields d with [], [], [] => false | _, _, _ => true end.

Definition json_type (v : json) : string :=
  match v with
  | JNull => "null" | JBool _ => "boolean" | JInt _ | JFloat _ => "number"
  | JStr _ => "string" | JArr _ => "array" | JObj _ => "object"
  end.

Definition payload : Type := list (string * json).

(** [{field.name: field for field in contract.fields}]: the last spec of a name. *)
Definition declared (c : SourceContract) (k : string) : option FieldSpec :=
  assoc k (reverse (map (λ f, (field_name f, f)) (fields c))).
Definition declared_keys (c : SourceContract) : gset string := list_to_set (map field_name (fields c)).
Definition actual_keys (p : payload) : gset string := list_to_set p.*1.

Definition is_required (c : SourceContract) (k : string) : bool :=
  match declared c k with Some f => negb (field_optional f) | None => false end.
Definition type_changed (c : SourceContract) (p : payload) (k : string) : bool :=
  match assoc k p, declared c k with
  | Some JNull, _ => false
  | Some v, Some f => negb (String.eqb (json_type v) (field_type f))
  | _, _ => false
  end.

Definition detect_schema_drift (c : SourceContract) (p : payload) : SchemaDrift :=
  let missing := declared_keys c ∖ actual_keys p in
  {| added_fields := sorted_set (actual_keys p ∖ declared_keys c);
     removed_fields := sorted_set (filter (λ k, is_required c k = true) missing);
     type_changed_fields := filter (λ k, type_changed c p k = true) (sorted_set (declared_keys c ∩ actual_keys p)) |}.

Definition union_of (get : SchemaDrift → list string) (ds : list SchemaDrift) : list string :=
  sorted_set (foldl (λ s d, s ∪ list_to_set (get d)) ∅ ds).
Definition detect_schema_drift_over_items (c : SourceContract) (items : list payload) : SchemaDrift :=
  let ds := map (detect_schema_drift c) items in
  {| added_fields := union_of added_fields ds; removed_fields := union_of removed_fields ds;
     type_changed_fields := union_of type_changed_fields ds |}.

Section WithText.
Context `{PyText}.

(** [contract.name + "|" + "&".join(f"{key}={params[key]}" ...)] *)
Definition canonical_identity (c : SourceContract) (params : payload) : result exn string :=
  let! parts := mapM (λ k, match assoc k params with
                           | Some v => Ok (k +:+ "=" +:+ json_str v)
                           | None => Err (KeyError k)
                           end) (identity_query_keys c) in
  Ok (contract_name c +:+ "|" +:+ str_join "&" parts).

(** [str(exc)] of a [SchemaDriftDetected] *)
Definition drift_text (d : SchemaDrift) : string :=
  "schema drift detected: SchemaDrift(added_fields=" +:+ py_repr_tuple (added_fields d) +:+
  ", removed_fields=" +:+ py_repr_tuple (removed_fields d) +:+
  ", type_changed_fields=" +:+ py_repr_tuple (type_changed_fields d) +:+ ")".
End WithText.

(** ** What no drift means *)

(** A response of the declared shape: required fields present, no undeclared
    field, and a declared field [null] or of its type. *)
Record conforms (c : SourceContract) (p : payload) : Prop := {
  cf_required : ∀ f, f ∈ fields c → field_optional f = false → field_name f ∈ p.*1;
  cf_declared : ∀ k, k ∈ p.*1 → k ∈ map field_name (fields c);
  cf_types : ∀ f v, f ∈ fields c → assoc (field_name f) p = Some v → v = JNull ∨ json_type v = field_type f;
}.

Lemma declared_spec c k f : NoDup (map field_name (fields c)) →
  declared c k = Some f ↔ f ∈ fields c ∧ field_name f = k.
Proof.
  intros Hnd. unfold declared.
  assert (NoDup (reverse (map (λ f, (field_name f, f)) (fields c))).*1) as Hnd'.
  { rewrite fmap_reverse. apply (NoDup_Permutation_proper _ _ (reverse_Permutation _)).
    by rewrite <-list_fmap_compose. }
  split.
  - intros Ha%assoc_elem. rewrite elem_of_reverse in Ha. apply list_elem_of_fmap in Ha as (g & [= -> ->] & Hg). done.
  - intros [Hf <-]. apply assoc_NoDup; [done|]. rewrite elem_of_reverse. apply list_elem_of_fmap. by exists f.
Qed.

Lemma elem_of_actual p k : k ∈ actual_keys p ↔ k ∈ p.*1.
Proof. unfold actual_keys. by rewrite elem_of_list_to_set. Qed.
Lemma elem_of_declared c k : k ∈ declared_keys c ↔ k ∈ map field_name (fields c).
Proof. unfold declared_keys. by rewrite elem_of_list_to_set. Qed.

Lemma elem_of_keys_assoc {A} (p : list (string * A)) k : k ∈ p.*1 ↔ is_Some (assoc k p).
Proof.
  rewrite <-not_eq_None_Some, assoc_None. split; [by intros ? ?|]. intros Hn.
  destruct (decide (k ∈ p.*1)); [done|]. by destruct Hn.
Qed.

(** The three lists of one response *)
Lemma detect_spec c p : NoDup (map field_name (fields c)) →
  let d := detect_schema_drift c p in
  (∀ k, k ∈ added_fields d ↔ k ∈ p.*1 ∧ k ∉ map field_name (fields c)) ∧
  (∀ k, k ∈ removed_fields d ↔ ∃ f, f ∈ fields c ∧ field_name f = k ∧ field_optional f = false ∧ k ∉ p.*1) ∧
  (∀ k, k ∈ type_changed_fields d ↔ ∃ f v, f ∈ fields c ∧ field_name f = k ∧ assoc k p = Some v ∧
     v ≠ JNull ∧ json_type v ≠ field_type f).
Proof.
  intros Hnd. simpl. split_and!; intros k.
  - rewrite elem_of_sorted_set, elem_of_difference, elem_of_actual, elem_of_declared. done.
  - rewrite elem_of_sorted_set, elem_of_filter, elem_of_difference, elem_of_actual, elem_of_declared.
    unfold is_required. split.
    + intros [Hr [Hd Ha]]. destruct (declared c k) as [f|] eqn:Hf; [|done].
      apply declared_spec in Hf as [Hf Hk]; [|done]. exists f. split_and!; [done|done|by apply negb_true_iff|done].
    + intros (f & Hf & Hk & Ho & Ha). rewrite (proj2 (declared_spec c k f Hnd)) by done. rewrite Ho.
      split; [done|]. split; [|done]. rewrite <-Hk. apply list_elem_of_fmap. by exists f.
  - rewrite list_elem_of_filter, elem_of_sorted_set, elem_of_intersection, elem_of_actual, elem_of_declared.
    unfold type_changed. split.
    + intros [Ht [_ Ha]]. destruct (assoc k p) as [v|] eqn:Hv; [|done].
      destruct (declared c k) as [f|] eqn:Hf; [|by destruct v].
      apply declared_spec in Hf as [Hf Hk]; [|done]. exists f, v. split_and!; try done; destruct v; try done;
        apply negb_true_iff, String.eqb_neq in Ht; done.
    + intros (f & v & Hf & Hk & Hv & Hn & Ht). rewrite Hv, (proj2 (declared_spec c k f Hnd)) by done.
      split; [destruct v; try done; by apply negb_true_iff, String.eqb_neq|]. split.
      * rewrite <-Hk. apply list_elem_of_fmap. by exists f.
      * apply elem_of_keys_assoc. eauto.
Qed.

Lemma has_drift_false d : has_drift d = false ↔ added_fields d = [] ∧ removed_fields d = [] ∧ type_changed_fields d = [].
Proof. unfold has_drift. destruct (added_fields d), (removed_fields d), (type_changed_fields d); naive_solver. Qed.

Lemma no_drift_conforms c p : NoDup (map field_name (fields c)) →
  has_drift (detect_schema_drift c p) = false ↔ conforms c p.
Proof.
  intros Hnd. pose proof (detect_spec c p Hnd) as (Ha & Hr & Ht). rewrite has_drift_false, !nil_no_elem. split.
  - intros (Hna & Hnr & Hnt). split.
    + intros f Hf Ho. destruct (decide (field_name f ∈ p.*1)) as [|Hk]; [done|].
      destruct (Hnr (field_name f)). apply Hr. by exists f.
    + intros k Hk. destruct (decide (k ∈ map field_name (fields c))) as [|Hn]; [done|]. destruct (Hna k). by apply Ha.
    + intros f v Hf Hv. assert (v = JNull ∨ v ≠ JNull) as [|Hn] by (destruct v; auto); [by left|]. right.
      destruct (decide (json_type v = field_type f)) as [|Hj]; [done|].
      destruct (Hnt (field_name f)). apply Ht. by exists f, v.
  - intros [Hq Hd Hty]. split_and!; intros k.
    + intros [Hk Hn]%Ha. by destruct Hn; apply Hd.
    + intros (f & Hf & <- & Ho & Hk)%Hr. by destruct Hk; apply Hq.
    + intros (f & v & Hf & <- & Hv & Hn & Hj)%Ht. by destruct (Hty f v Hf Hv).
Qed.

Lemma elem_of_union_of get ds k : k ∈ union_of get ds ↔ ∃ d, d ∈ ds ∧ k ∈ get d.
Proof.
  unfold union_of. rewrite elem_of_sorted_set. destruct ds as [|d0 ds0] using rev_ind; [set_solver|].
  enough (∀ X, k ∈ foldl (λ s d, s ∪ list_to_set (get d)) X (ds0 ++ [d0]) ↔
    k ∈ (X : gset string) ∨ ∃ d, d ∈ ds0 ++ [d0] ∧ k ∈ get d) as Hx by (rewrite Hx; set_solver).
  clear IHds0. induction (ds0 ++ [d0]) as [|d ds IH]; intros X; simpl; [set_solver|].
  rewrite IH, elem_of_union, elem_of_list_to_set. set_solver.
Qed.

(** A response has no drift exactly when it has the declared shape (every
    required field, no undeclared one, each value null or of its type), and a
    list of items exactly when every item has; the reports name, in order and
    once each, exactly the undeclared, the missing required and the mistyped
    fields, those of any item for a list. *)
Theorem drift_reported c p items :
  NoDup (map field_name (fields c)) →
  (has_drift (detect_schema_drift c p) = false ↔ conforms c p) ∧
  (has_drift (detect_schema_drift_over_items c items) = false ↔ ∀ x, x ∈ items → conforms c x) ∧
  (∀ k, k ∈ added_fields (detect_schema_drift_over_items c items) ↔
     ∃ x, x ∈ items ∧ k ∈ x.*1 ∧ k ∉ map field_name (fields c)) ∧
  (∀ k, k ∈ removed_fields (detect_schema_drift_over_items c items) ↔
     ∃ x f, x ∈ items ∧ f ∈ fields c ∧ field_name f = k ∧ field_optional f = false ∧ k ∉ x.*1) ∧
  (∀ k, k ∈ type_changed_fields (detect_schema_drift_over_items c items) ↔
     ∃ x f v, x ∈ items ∧ f ∈ fields c ∧ field_name f = k ∧ assoc k x = Some v ∧ v ≠ JNull ∧ json_type v ≠ field_type f) ∧
  Forall (λ l, StronglySorted String.le l ∧ NoDup l)
    [added_fields (detect_schema_drift c p); removed_fields (detect_schema_drift c p);
     type_changed_fields (detect_schema_drift c p)].
Proof.
  intros Hnd. split; [by apply no_drift_conforms|].
  assert (∀ get k, k ∈ union_of get (map (detect_schema_drift c) items) ↔
    ∃ x, x ∈ items ∧ k ∈ get (detect_schema_drift c x)) as Hu.
  { intros get k. rewrite elem_of_union_of. setoid_rewrite list_elem_of_fmap. naive_solver. }
  split_and!.
  - rewrite has_drift_false. simpl. rewrite !nil_no_elem. setoid_rewrite Hu. split.
    + intros (Ha & Hr & Ht) x Hx. apply no_drift_conforms; [done|]. rewrite has_drift_false, !nil_no_elem.
      split_and!; intros k Hk; [eapply Ha|eapply Hr|eapply Ht]; by exists x.
    + intros Hc. split_and!; intros k (x & Hx & Hk); specialize (Hc x Hx);
        apply no_drift_conforms, has_drift_false in Hc as (Ha & Hr & Ht); try done;
        [rewrite Ha in Hk|rewrite Hr in Hk|rewrite Ht in Hk]; by apply elem_of_nil in Hk.
  - intros k. simpl. rewrite Hu. by setoid_rewrite (proj1 (detect_spec c _ Hnd)).
  - intros k. simpl. rewrite Hu. setoid_rewrite (proj1 (proj2 (detect_spec c _ Hnd))). naive_solver.
  - intros k. simpl. rewrite Hu. setoid_rewrite (proj2 (proj2 (detect_spec c _ Hnd))). naive_solver.
  - repeat (constructor; [split; [|try apply NoDup_filter; apply NoDup_sorted_set]|]); [..|done];
      try apply sorted_set_sorted. apply sorted_filter, sorted_set_sorted.
Qed.

(** A response with an undeclared field, a missing one and a mistyped one *)
Definition drifted_item : payload :=
  [("id", JStr "7"); ("organizationName", JNull); ("year", JInt 2026); ("budget", JInt 1)].

Lemma drift_reported_witness :
  detect_schema_drift APP_ITEM_CONTRACT drifted_item =
    {| added_fields := ["budget"]; removed_fields := ["createDate"]; type_changed_fields := ["id"] |} ∧
  "id" ∈ type_changed_fields (detect_schema_drift_over_items APP_ITEM_CONTRACT [drifted_item]) ∧
  ¬ conforms APP_ITEM_CONTRACT drifted_item.
Proof.
  destruct (drift_reported APP_ITEM_CONTRACT drifted_item [drifted_item]) as (Hc & _ & _ & _ & Ht & _);
    [refine (bool_decide_eq_true_1 _ _); vm_compute; reflexivity|].
  split; [vm_compute; reflexivity|]. split.
  - apply Ht. exists drifted_item, (field "id" "number"), (JStr "7").
    split_and!; try reflexivity; [by left|by left|discriminate|discriminate].
  - intros Hx%Hc. vm_compute in Hx. discriminate Hx.
Defined.
End Drift.
