(* ===== verification/BoqLine.v ===== *)
(** * Lines of a bill of quantities

    [packages/tender/boq_line_model.py]: the table of units, the classification
    of lines and the extraction of requirements by regular expressions, and the
    lines built from the items of a page. The text columns of an item are taken
    as text: where an item has [null] for a unit the code goes on until the
    database refuses the line, here the line is refused at once. *)

From stdpp Require Import base strings list.
From Stdlib Require Import ZArith.
From S2P Require Import Prelude Json Decimal PyFloat PyStr Regex SchemaDrift.

(** [_UNIT_CANONICAL_MAP] *)
Definition unit_canonical_map : list (string * string) :=
  [("ədəd", "pcs"); ("dəst", "set"); ("m", "m"); ("m2", "m2"); ("m²", "m2"); ("m3", "m3"); ("m³", "m3");
   ("kg", "kg"); ("t", "t"); ("ton", "t"); ("l", "l")].

Record CanonicalUnit := { raw : string; canonical : option string; cu_status : string }.

Definition canonicalize_unit (raw_unit : string) : CanonicalUnit :=
  let c := assoc raw_unit unit_canonical_map in
  {| raw := raw_unit; canonical := c; cu_status := match c with Some _ => "mapped" | None => "unmapped" end |}.

Record SpecRequirement := { kind : string; raw_text : string }.

Record BoqLine := {
  source_line_id : Z;
  page_number : Z;
  section : option string;
  category_code : option string;
  description : string;
  unit_raw : string;
  unit_canonical : option string;
  unit_status : string;
  qty : decimal;
  line_type : string;
  spec_requirements : list SpecRequirement;
  rate : option decimal;
  amount : option decimal;
}.

(** ** Classification *)

Definition word (r : regex) : regex := RSeq [RBoundary; r; RBoundary].
Definition PRELIMINARIES_RE : pattern :=
  {| re_expr := word (RSeq [RLit "preliminar"; RAlt [RLit "y"; RLit "ies"]]); re_ignorecase := true |}.
Definition PROVISIONAL_SUM_RE : pattern :=
  {| re_expr := word (RSeq [RLit "provisional"; RPlus RSpace; RLit "sum"; ROpt (RLit "s")]); re_ignorecase := true |}.
Definition PRIME_COST_RE : pattern :=
  {| re_expr := RAlt [word (RSeq [RLit "prime"; RPlus RSpace; RLit "cost"]); word (RSeq [RLit "PC"; RPlus RSpace; RLit "sum"])];
     re_ignorecase := true |}.
Definition CONCRETE_GRADE_RE : pattern :=
  {| re_expr := RAlt
       [word (RSeq [RLit "B"; ROpt RSpace;
          RAlt (map RLit ["15"; "20"; "25"; "30"; "35"; "40"; "45"; "50"; "55"; "60"])]);
        word (RSeq [RLit "M"; ROpt RSpace; RAlt (map RLit ["100"; "150"; "200"; "250"; "300"; "350"; "400"])])];
     re_ignorecase := false |}.
Definition REBAR_CLASS_RE : pattern :=
  {| re_expr := word (RSeq [RLit "A"; ROpt (ROneOf "- ");
       RAlt [RSeq [RLit "I"; ROpt (RSeq [RLit "I"; ROpt (RLit "I")])]; RLit "IV"; RLit "400"; RLit "500"; RLit "600"]]);
     re_ignorecase := false |}.
Definition STANDARD_REFERENCE_RE : pattern :=
  {| re_expr := word (RSeq [RAlt (map RLit ["AZS"; "ГОСТ"; "GOST"; "EN"]); ROpt RSpace; RPlus RDigit;
       RStar (RSeq [ROneOf "-."; RPlus RDigit])]); re_ignorecase := false |}.
Definition OR_EQUIVALENT_RE : pattern :=
  {| re_expr := RAlt
       [RSeq [RLit "или"; RPlus RSpace; RLit "эквивалент"];
        RSeq [RAlt [RSeq [RLit "və"; RPlus RSpace; RLit "ya"]; RSeq [RLit "ya"; RPlus RSpace; RLit "da"]]; RPlus RSpace; RLit "ekvivalent"];
        word (RSeq [RLit "or"; RPlus RSpace; RLit "equivalent"])];
     re_ignorecase := true |}.

Section WithRegex.
Context `{PyText} `{PyRegex}.

Definition classify_line_type (name description : string) : string :=
  let text := name +:+ " " +:+ description in
  if re_search PRELIMINARIES_RE text then "preliminaries"
  else if re_search PROVISIONAL_SUM_RE text then "provisional_sum"
  else if re_search PRIME_COST_RE text then "prime_cost"
  else "normal".

Definition requirements_of (k : string) (p : pattern) (description : string) : list SpecRequirement :=
  map (λ t, {| kind := k; raw_text := t |}) (re_finditer p description).
Definition extract_spec_requirements (description : string) : list SpecRequirement :=
  requirements_of "concrete_grade" CONCRETE_GRADE_RE description ++
  requirements_of "rebar_class" REBAR_CLASS_RE description ++
  requirements_of "standard_reference" STANDARD_REFERENCE_RE description ++
  requirements_of "or_equivalent" OR_EQUIVALENT_RE description.

(** ** Lines of a page *)

Definition to_decimal_or_none (v : json) : result exn (option decimal) :=
  match v with JNull => Ok None | _ => let! d := decimal_of_json v in Ok (Some d) end.

(** The columns take integers and text. *)
Definition as_line_id (v : json) : result exn Z :=
  match v with JInt z => Ok z | _ => Err (TypeError "source_line_id") end.
Definition as_text (column : string) (v : json) : result exn string :=
  match v with JStr s => Ok s | _ => Err (TypeError column) end.
Definition as_opt_text (column : string) (v : json) : result exn (option string) :=
  match v with JNull => Ok None | JStr s => Ok (Some s) | _ => Err (TypeError column) end.

Definition build_boq_line (page : Z) (item : json) : result exn BoqLine :=
  let! unit_value := py_index item "unitOfMeasure" in
  let! unit_text := as_text "unit_raw" unit_value in
  let unit := canonicalize_unit unit_text in
  let! id_value := py_index item "id" in
  let! line_id := as_line_id id_value in
  let! name := py_get item "name" in
  let! sec := as_opt_text "section" name in
  let! category := py_get item "categoryCode" in
  let! code := as_opt_text "category_code" category in
  let! description_value := py_index item "description" in
  let! text := as_text "description" description_value in
  let! quantity := py_index item "quantity" in
  let! q := decimal_of_json quantity in
  let name_text := match item with
                   | JObj p => match assoc "name" p with Some v => json_str v | None => "" end
                   | _ => ""
                   end in
  let! rate_value := py_get item "rate" in
  let! r := to_decimal_or_none rate_value in
  let! amount_value := py_get item "amount" in
  let! a := to_decimal_or_none amount_value in
  Ok {| source_line_id := line_id; page_number := page; section := sec; category_code := code; description := text;
        unit_raw := raw unit; unit_canonical := canonical unit; unit_status := cu_status unit; qty := q;
        line_type := classify_line_type name_text text; spec_requirements := extract_spec_requirements text;
        rate := r; amount := a |}.

Definition build_boq_lines (page : Z) (items : list json) : result exn (list BoqLine) := mapM (build_boq_line page) items.

Lemma line_type_known name text :
  classify_line_type name text ∈ ["normal"; "preliminaries"; "provisional_sum"; "prime_cost"].
Proof. unfold classify_line_type. repeat case_match; repeat first [by left|right]. Qed.
End WithRegex.

(** A mapped unit has a canonical name and no other has. *)
Lemma canonicalize_unit_status u :
  cu_status (canonicalize_unit u) = "mapped" ↔ is_Some (canonical (canonicalize_unit u)).
Proof.
  unfold canonicalize_unit, cu_status, canonical. destruct (assoc u unit_canonical_map) as [c|].
  - split; intros _; [by exists c|done].
  - split; [intros Hx; discriminate Hx|intros [? Hx]; discriminate Hx].
Qed.

(** ** Evaluated *)

Lemma requirements_example :
  @extract_spec_requirements ascii_regex "Beton B25, armatur A-III, GOST 10884-94 or  Equivalent; AB25" =
  [{| kind := "concrete_grade"; raw_text := "B25" |}; {| kind := "rebar_class"; raw_text := "A-III" |};
   {| kind := "standard_reference"; raw_text := "GOST 10884-94" |}; {| kind := "or_equivalent"; raw_text := "or  Equivalent" |}].
Proof. vm_compute. reflexivity. Qed.
Lemma line_type_example :
  map (λ d, @classify_line_type ascii_regex "x" d) ["Provisional  Sums"; "preliminary works"; "PC sum"; "cost"] =
  ["provisional_sum"; "preliminaries"; "prime_cost"; "normal"].
Proof. vm_compute. reflexivity. Qed.
