(* ===== verification/Matching.v ===== *)
(** * Matching BOQ lines with vendor offers

    [packages/decision/matching.py]: executability first, then price. The offers
    are the [VendorOfferDTO]s of [packages/contracts/vendor_api.py]; their floats
    become decimals through their text. *)

From stdpp Require Import base strings list sorting gmap.
From Stdlib Require Import ZArith Lia SpecFloat.
From S2P Require Import Prelude Query Decimal PyFloat Datetime BoqLine.

Module Matching.
#[local] Open Scope Z_scope.

Record VendorOfferDTO := {
  id : Z;
  vendor_id : Z;
  vendor_name : string;
  data_realm : string;
  watermark : string;
  material : string;
  price : spec_float;
  currency : string;
  vat_rate : spec_float;
  uom : string;
  uom_canonical_qty : spec_float;
  moq : spec_float;
  capacity : spec_float;
  inventory : spec_float;
  valid_from : datetime;
  valid_until : datetime;
  evidence_source : string;
  observed_at : datetime;
  adverse_case : option string;
  executable_status : string;
  effective_executable_status : string;
  has_positive_reputation : bool;
  has_negative_reputation : bool;
}.

Record MatchCandidate := {
  mc_line : Z;
  mc_offer_id : Z;
  mc_vendor_id : Z;
  mc_vendor_name : string;
  mc_material : string;
  mc_data_realm : string;
  mc_watermark : string;
  mc_currency : string;
  freshness : string;
  volume_status : string;
  mc_adverse_case : option string;
  moq_exceeds_qty : bool;
  mc_executable_status : string;
  mc_effective_status : string;
  mc_positive : bool;
  mc_negative : bool;
  price_with_vat : decimal;
}.

Record TcoEstimate := { base_price_with_vat : decimal; tco_status : string }.

Record BoqLineMatch := {
  bm_line : Z;
  traffic_light : string;
  candidates : list MatchCandidate;
  ranked_executable : list (MatchCandidate * TcoEstimate);
}.

Section WithText.
Context `{PyText}.

Definition material_matches (l : BoqLine) (offer_material : string) : bool :=
  let m := py_lower (py_strip offer_material) in
  if String.eqb m "" then false else str_contains m (py_lower (description l)).

Definition freshness_of (o : VendorOfferDTO) (as_of : datetime) : result exn string :=
  let! fresh := dt_le as_of (valid_until o) in Ok (if fresh : bool then "fresh" else "stale").

Definition volume_status_of (l : BoqLine) (o : VendorOfferDTO) : result exn string :=
  match adverse_case o with
  | Some _ => Ok "adverse_case"
  | None =>
      if negb (String.eqb (unit_status l) "mapped") then Ok "unit_unmapped" else
      let offer_unit := canonicalize_unit (uom o) in
      if negb (String.eqb (cu_status offer_unit) "mapped") then Ok "unit_unmapped" else
      if bool_decide (canonical offer_unit ≠ unit_canonical l) then Ok "unit_mismatch" else
      let! enough := dec_ge (decimal_of_float (inventory o)) (qty l) in
      Ok (if enough : bool then "sufficient" else "insufficient")
  end.

Definition moq_exceeds_qty_of (l : BoqLine) (o : VendorOfferDTO) : result exn bool :=
  if negb (String.eqb (unit_status l) "mapped") then Ok false else
  let offer_unit := canonicalize_unit (uom o) in
  if negb (String.eqb (cu_status offer_unit) "mapped") || bool_decide (canonical offer_unit ≠ unit_canonical l)
  then Ok false else dec_gt (decimal_of_float (moq o)) (qty l).

Definition price_with_vat_of (o : VendorOfferDTO) : result exn decimal :=
  let! rate := dec_div (decimal_of_float (vat_rate o)) (dec_of_Z 100) in
  let! factor := dec_add (dec_of_Z 1) rate in
  dec_mul (decimal_of_float (price o)) factor.

Definition classify_candidate (l : BoqLine) (o : VendorOfferDTO) (as_of : datetime) : result exn MatchCandidate :=
  let! fresh := freshness_of o as_of in
  let! volume := volume_status_of l o in
  let! moq_big := moq_exceeds_qty_of l o in
  let! pr := price_with_vat_of o in
  Ok {| mc_line := source_line_id l; mc_offer_id := id o; mc_vendor_id := vendor_id o;
    mc_vendor_name := vendor_name o; mc_material := material o; mc_data_realm := data_realm o;
    mc_watermark := watermark o; mc_currency := currency o; freshness := fresh; volume_status := volume;
    mc_adverse_case := adverse_case o; moq_exceeds_qty := moq_big; mc_executable_status := executable_status o;
    mc_effective_status := effective_executable_status o; mc_positive := has_positive_reputation o;
    mc_negative := has_negative_reputation o; price_with_vat := pr |}.

Definition is_strong_source (c : MatchCandidate) : bool :=
  String.eqb (volume_status c) "sufficient" && String.eqb (freshness c) "fresh" &&
  bool_decide (mc_effective_status c ∈ ["reserved"; "confirmed"]).

Definition strong (cs : list MatchCandidate) : list MatchCandidate := filter (λ c, is_strong_source c = true) cs.

(** [{c.vendor_id: c for c in sources if is_strong_source(c)}]: the last
    candidate of a vendor stays. *)
Definition by_vendor (cs : list MatchCandidate) : gmap Z MatchCandidate :=
  foldl (λ m c, <[mc_vendor_id c := c]> m) ∅ (strong cs).

Definition traffic_light_of (cs : list MatchCandidate) : string :=
  let sources := filter (λ c, volume_status c ≠ "insufficient") cs in
  match sources with
  | [] => "red"
  | _ =>
      let confirmed := by_vendor sources in
      if Nat.leb 2 (size confirmed) && existsb (λ vc, mc_positive vc.2) (map_to_list confirmed) then "green"
      else "yellow"
  end.

(** [min(currency_counts, key=lambda cur: (-currency_counts[cur], cur))] *)
Definition better_currency (a b : string * Z) : bool :=
  (b.2 <? a.2) || ((a.2 =? b.2) && bool_decide (String.le a.1 b.1)).
Definition reference_currency (counts : list (string * Z)) : string :=
  match counts with
  | [] => ""
  | x :: l => (foldl (λ best y, if better_currency best y then best else y) x l).1
  end.

(** [sorted(l, key=price_with_vat)]: stable; comparing with a NaN raises. *)
Definition sort_by_price (l : list MatchCandidate) : result exn (list MatchCandidate) :=
  raise_if Nat.leb 2 (length l) && existsb (λ c, is_nan (price_with_vat c)) l
    with InvalidOperation "comparison involving NaN" ;;
  Ok (order_by (λ a b, dec_tle (price_with_vat a) (price_with_vat b)) l).

Definition currency_counts (l : list MatchCandidate) : list (string * Z) :=
  foldl (λ acc c, count_key (mc_currency c) acc) [] l.

Definition rank_executable_candidates_by_tco (cs : list MatchCandidate)
    : result exn (list (MatchCandidate * TcoEstimate)) :=
  match strong cs with
  | [] => Ok []
  | executable =>
      let cur := reference_currency (currency_counts executable) in
      let! ranked := sort_by_price (filter (λ c, mc_currency c = cur) executable) in
      Ok (map (λ c, (c, {| base_price_with_vat := price_with_vat c; tco_status := "partial_price_only" |})) ranked)
  end.

Definition match_boq_line (l : BoqLine) (offers : list VendorOfferDTO) (as_of : datetime) : result exn BoqLineMatch :=
  let! cs := mapM (λ o, classify_candidate l o as_of) (filter (λ o, material_matches l (material o) = true) offers) in
  let! ranked := rank_executable_candidates_by_tco cs in
  Ok {| bm_line := source_line_id l; traffic_light := traffic_light_of cs; candidates := cs;
        ranked_executable := ranked |}.
End WithText.

(** ** The traffic light *)

Lemma strong_sufficient c : is_strong_source c = true → volume_status c = "sufficient".
Proof. unfold is_strong_source. rewrite !andb_true_iff, String.eqb_eq. tauto. Qed.

Lemma elem_of_strong c cs : c ∈ strong cs ↔ c ∈ cs ∧ is_strong_source c = true.
Proof. unfold strong. rewrite list_elem_of_filter. tauto. Qed.

Lemma strong_sources cs : strong (filter (λ c, volume_status c ≠ "insufficient") cs) = strong cs.
Proof.
  unfold strong. rewrite list_filter_filter. apply list_filter_iff. intros c. split; [tauto|].
  intros Hc. split; [done|]. apply strong_sufficient in Hc. congruence.
Qed.

(** The last strong candidate of its vendor. *)
Definition last_strong (cs : list MatchCandidate) (c : MatchCandidate) : Prop :=
  ∃ l1 l2, cs = l1 ++ c :: l2 ∧ is_strong_source c = true ∧
    (∀ c', c' ∈ l2 → is_strong_source c' = true → mc_vendor_id c' ≠ mc_vendor_id c).

Lemma by_vendor_snoc cs c :
  by_vendor (cs ++ [c]) = if is_strong_source c then <[mc_vendor_id c := c]> (by_vendor cs) else by_vendor cs.
Proof.
  unfold by_vendor, strong. rewrite filter_app, filter_cons, filter_nil, foldl_app.
  destruct (is_strong_source c); done.
Qed.

Lemma by_vendor_spec cs v c : by_vendor cs !! v = Some c ↔ mc_vendor_id c = v ∧ last_strong cs c.
Proof.
  induction cs as [|x cs IH] using rev_ind.
  - split; [change (by_vendor []) with (∅ : gmap Z MatchCandidate); by rewrite lookup_empty|].
    intros (_ & l1 & l2 & Heq & _). by destruct l1.
  - rewrite by_vendor_snoc. unfold last_strong.
    assert (∀ y, (∃ l1 l2, cs ++ [x] = l1 ++ y :: l2 ∧ is_strong_source y = true ∧
        (∀ c', c' ∈ l2 → is_strong_source c' = true → mc_vendor_id c' ≠ mc_vendor_id y)) ↔
      (y = x ∧ is_strong_source x = true) ∨
      (last_strong cs y ∧ (is_strong_source x = true → mc_vendor_id x ≠ mc_vendor_id y))) as Hlast.
    { intros y. split.
      - intros (l1 & l2 & Heq & Hy & Hl). destruct (rev_case l2) as [->|(z & l' & ->)].
        + apply app_inj_tail in Heq as [-> ->]. by left.
        + rewrite app_comm_cons, app_assoc in Heq. apply app_inj_tail in Heq as [-> ->]. right. split.
          * exists l1, l'. split_and!; [done..|]. intros c' Hc'. apply Hl. set_solver.
          * apply Hl. set_solver.
      - intros [[-> Hx]|[(l1 & l2 & -> & Hy & Hl) Hx]].
        + exists cs, []. split_and!; [done..|]. by intros c' Hc'%elem_of_nil.
        + exists l1, (l2 ++ [x]). split_and!; [by rewrite <-app_assoc|done|].
          intros c' [Hc'|Hc'%list_elem_of_singleton]%elem_of_app; [by apply Hl|by subst]. }
    rewrite Hlast. destruct (is_strong_source x) eqn:Hx.
    + rewrite lookup_insert_Some, IH. naive_solver.
    + rewrite IH. naive_solver.
Qed.

Lemma size_at_least_two {A} (m : gmap Z A) :
  (2 <= size m)%nat ↔ ∃ i j x y, m !! i = Some x ∧ m !! j = Some y ∧ i ≠ j.
Proof.
  split.
  - intros Hs. destruct (map_choose m) as (i & x & Hi).
    { intros ->. rewrite map_size_empty in Hs. lia. }
    destruct (map_choose (delete i m)) as (j & y & Hj).
    { intros He. assert (size (delete i m) = pred (size m)) as Hd by (apply map_size_delete_Some; by exists x). rewrite He, map_size_empty in Hd. lia. }
    apply lookup_delete_Some in Hj as [Hne Hj]. eauto 10.
  - intros (i & j & x & y & Hi & Hj & Hne).
    assert (size (<[i:=x]> (<[j:=y]> (delete i (delete j m)))) = size m) as <-.
    { rewrite insert_delete_ne by done. rewrite (insert_delete_id m j y Hj). by rewrite insert_delete_id. }
    rewrite map_size_insert_None, map_size_insert_None; [lia| |].
    + rewrite lookup_delete_ne by done. apply lookup_delete_eq.
    + rewrite lookup_insert_ne by done. apply lookup_delete_eq.
Qed.

(** A vendor has a strong candidate exactly when one of them is the last. *)
Lemma last_strong_exists cs c :
  c ∈ cs → is_strong_source c = true → ∃ c', last_strong cs c' ∧ mc_vendor_id c' = mc_vendor_id c.
Proof.
  intros Hin Hs. destruct (by_vendor cs !! mc_vendor_id c) as [c'|] eqn:Hb.
  - apply by_vendor_spec in Hb as [Hv Hl]. eauto.
  - exfalso. revert Hb. induction cs as [|x cs IH] using rev_ind; [by apply elem_of_nil in Hin|].
    rewrite by_vendor_snoc. apply elem_of_app in Hin as [Hin|Hin%list_elem_of_singleton].
    + destruct (is_strong_source x); [|by apply IH]. rewrite lookup_insert_None. intros [? _]. by apply IH.
    + subst x. rewrite Hs, lookup_insert_eq. done.
Qed.

Lemma last_strong_elem cs c : last_strong cs c → c ∈ cs ∧ is_strong_source c = true.
Proof. intros (l1 & l2 & -> & Hs & _). split; [set_solver|done]. Qed.

(** C32: a line is red exactly when every matching offer has too little stock (or
    there is none), and green exactly when at least two different vendors are
    strong sources and some vendor's last strong offer has a positive
    reputation; otherwise it is yellow. *)
Theorem traffic_light_spec cs :
  (traffic_light_of cs = "red" ↔ ∀ c, c ∈ cs → volume_status c = "insufficient") ∧
  (traffic_light_of cs = "green" ↔
    (∃ c c', c ∈ cs ∧ c' ∈ cs ∧ is_strong_source c = true ∧ is_strong_source c' = true ∧
      mc_vendor_id c ≠ mc_vendor_id c') ∧
    ∃ c, last_strong cs c ∧ mc_positive c = true) ∧
  traffic_light_of cs ∈ ["red"; "yellow"; "green"].
Proof.
  unfold traffic_light_of.
  assert (by_vendor (filter (λ c, volume_status c ≠ "insufficient") cs) = by_vendor cs) as Hbv
    by (unfold by_vendor; by rewrite strong_sources).
  destruct (filter (λ c, volume_status c ≠ "insufficient") cs) as [|c0 l0] eqn:Hf.
  - assert (∀ c, c ∈ cs → volume_status c = "insufficient") as Hall.
    { intros c Hc. destruct (decide (volume_status c = "insufficient")) as [|Hn]; [done|].
      assert (c ∈ filter (λ c, volume_status c ≠ "insufficient") cs) as Hin by (by apply list_elem_of_filter).
      rewrite Hf in Hin. by apply elem_of_nil in Hin. }
    split_and!; [done| |by left]. split; [done|]. intros [(c & _ & Hc & _ & Hs & _) _].
    apply strong_sufficient in Hs. by rewrite (Hall c Hc) in Hs.
  - rewrite Hbv.
    assert (¬ ∀ c, c ∈ cs → volume_status c = "insufficient") as Hnot.
    { intros Hall. assert (c0 ∈ filter (λ c, volume_status c ≠ "insufficient") cs) as [Hn Hin]%list_elem_of_filter
        by (rewrite Hf; by left). by apply Hn, Hall. }
    assert ((2 <= size (by_vendor cs))%nat ↔ ∃ c c', c ∈ cs ∧ c' ∈ cs ∧ is_strong_source c = true ∧
      is_strong_source c' = true ∧ mc_vendor_id c ≠ mc_vendor_id c') as Hsize.
    { rewrite size_at_least_two. split.
      - intros (i & j & x & y & [Hi Hx]%by_vendor_spec & [Hj Hy]%by_vendor_spec & Hne).
        apply last_strong_elem in Hx as [? ?], Hy as [? ?]. exists x, y. split_and!; [done..|congruence].
      - intros (c & c' & Hc & Hc' & Hs & Hs' & Hne).
        destruct (last_strong_exists cs c Hc Hs) as (x & Hx & Hvx), (last_strong_exists cs c' Hc' Hs') as (y & Hy & Hvy).
        exists (mc_vendor_id x), (mc_vendor_id y), x, y. rewrite !by_vendor_spec. split_and!; [done..|congruence]. }
    assert (existsb (λ vc, mc_positive vc.2) (map_to_list (by_vendor cs)) = true ↔ ∃ c, last_strong cs c ∧ mc_positive c = true) as Hpos.
    { rewrite existsb_exists. split.
      - intros ([v c] & Hin & Hp). apply list_elem_of_In, elem_of_map_to_list, by_vendor_spec in Hin as [_ Hl]. eauto.
      - intros (c & Hl & Hp). exists (mc_vendor_id c, c). split; [|done].
        apply list_elem_of_In, elem_of_map_to_list, by_vendor_spec. done. }
    rewrite <-Hsize, <-Hpos. clear Hsize Hpos Hf Hbv.
    assert (∀ b : bool, ((if b then "green" else "yellow") = "red" ↔ ∀ c, c ∈ cs → volume_status c = "insufficient") ∧
      ((if b then "green" else "yellow") = "green" ↔ b = true) ∧ (if b then "green" else "yellow") ∈ ["red"; "yellow"; "green"]) as Hb.
    { intros b. split; [split; [by destruct b|done]|]. split; [by destruct b|]. destruct b; concrete_mem. }
    destruct (Hb (Nat.leb 2 (size (by_vendor cs)) && existsb (λ vc, mc_positive vc.2) (map_to_list (by_vendor cs)))) as (H1 & H2 & H3).
    split; [done|]. split; [|done]. rewrite H2, andb_true_iff, Nat.leb_le. done.
Qed.

(** ** The ranking *)

Lemma currency_counts_snoc l c : currency_counts (l ++ [c]) = count_key (mc_currency c) (currency_counts l).
Proof. unfold currency_counts. by rewrite foldl_app. Qed.

#[local] Instance string_le_preorder : PreOrder String.le := _.

Lemma better_total x y : better_currency x y = true ∨ better_currency y x = true.
Proof.
  unfold better_currency. destruct (Z.lt_trichotomy x.2 y.2) as [Hl|[He|Hl]].
  - right. by rewrite (proj2 (Z.ltb_lt _ _) Hl).
  - rewrite He, !Z.eqb_refl, Z.ltb_irrefl. simpl. rewrite !bool_decide_eq_true. apply (total String.le).
  - left. by rewrite (proj2 (Z.ltb_lt _ _) Hl).
Qed.

Lemma better_spec x y :
  better_currency x y = true ↔ y.2 < x.2 ∨ (x.2 = y.2 ∧ String.le x.1 y.1).
Proof. unfold better_currency. by rewrite orb_true_iff, andb_true_iff, Z.ltb_lt, Z.eqb_eq, bool_decide_eq_true. Qed.

Lemma better_trans x y z : better_currency x y = true → better_currency y z = true → better_currency x z = true.
Proof.
  rewrite !better_spec. intros [Hxy|[Hxy Hs]] [Hyz|[Hyz Hs']]; [left; lia..|right; split; [lia|by etrans]].
Qed.

(** The plurality currency of the strong candidates, the alphabetically first
    among equals. *)
Definition plurality (l : list MatchCandidate) (cur : string) : Prop :=
  0 < occurrences mc_currency cur l ∧
  ∀ cur', occurrences mc_currency cur' l < occurrences mc_currency cur l ∨
    (occurrences mc_currency cur' l = occurrences mc_currency cur l ∧ String.le cur cur').

Lemma reference_currency_spec l : l ≠ [] → plurality l (reference_currency (currency_counts l)).
Proof.
  intros Hl. pose proof (counts_spec mc_currency l) as [Hnd Hc]. fold (currency_counts l) in *.
  unfold reference_currency. destruct (currency_counts l) as [|x cs] eqn:Hcs.
  - destruct l as [|c l]; [done|]. exfalso.
    assert (0 < occurrences mc_currency (mc_currency c) (c :: l)) as Hpos by (apply occurrences_pos; exists c; split; [by left|done]).
    pose proof (proj2 (Hc (mc_currency c) _) (conj eq_refl Hpos)) as Hin. by apply elem_of_nil in Hin.
  - destruct (foldl_best better_currency better_total better_trans x cs) as [Hin Hbest].
    set (r := foldl _ x cs) in *. destruct r as [cur n]. apply Hc in Hin as [-> Hpos]. split; [done|]. intros cur'.
    destruct (decide (0 < occurrences mc_currency cur' l)) as [Hp'|Hn].
    + pose proof (Hbest (cur', _) (proj2 (Hc _ _) (conj eq_refl Hp'))) as Hb. apply better_spec in Hb. simpl in *.
      destruct Hb as [|[? ?]]; [by left|right]. split; [by symmetry|done].
    + pose proof (occurrences_nonneg mc_currency cur' l). simpl. left. lia.
Qed.

(** The ranking has exactly the strong candidates in one currency, ordered
    by price with VAT, each with its price as the partial estimate; the currency
    is the one most strong candidates have, the alphabetically first among
    equals, so prices of different currencies are never compared. It fails only
    when prices to be compared include one that is not a number. *)
Theorem ranking_spec cs :
  match rank_executable_candidates_by_tco cs with
  | Ok ranked =>
      (strong cs = [] ∧ ranked = []) ∨
      ∃ cur, plurality (strong cs) cur ∧
        ranked.*1 ≡ₚ filter (λ c, mc_currency c = cur) (strong cs) ∧
        StronglySorted (λ a b, dec_tle (price_with_vat a) (price_with_vat b) = true) ranked.*1 ∧
        ∀ c t, (c, t) ∈ ranked → t = {| base_price_with_vat := price_with_vat c; tco_status := "partial_price_only" |}
  | Err e => e = InvalidOperation "comparison involving NaN" ∧ ∃ c, c ∈ strong cs ∧ price_with_vat c = DNaN
  end.
Proof.
  unfold rank_executable_candidates_by_tco. destruct (strong cs) as [|c0 l0] eqn:Hs; [by left|]. rewrite <-Hs.
  pose proof (reference_currency_spec (strong cs) ltac:(by rewrite Hs)) as Hp.
  set (cur := reference_currency (currency_counts (strong cs))) in *.
  unfold sort_by_price. destruct (_ && _) eqn:Hb; simpl.
  - split; [done|]. apply andb_true_iff in Hb as [_ Hb]. apply existsb_exists in Hb as (c & Hin & Hn).
    apply list_elem_of_In, list_elem_of_filter in Hin as [_ Hin]. exists c. split; [done|]. by destruct (price_with_vat c).
  - right. exists cur. rewrite <-list_fmap_compose. unfold compose. simpl. rewrite list_fmap_id. split_and!.
    + exact Hp.
    + by rewrite order_by_perm.
    + apply order_by_sorted; intros; [apply dec_tle_total|by eapply dec_tle_trans].
    + intros c t (c' & Heq & _)%list_elem_of_fmap. by simplify_eq.
Qed.

(** A match lists the candidates of exactly the offers whose material occurs
    in the description of the line, in the order of the offers, and its light
    and ranking are those of the candidates. *)
Theorem match_boq_line_spec `{PyText} l offers as_of m :
  match_boq_line l offers as_of = Ok m →
  Forall2 (λ o c, classify_candidate l o as_of = Ok c ∧ mc_offer_id c = id o ∧ mc_currency c = currency o ∧
      (is_strong_source c = true → adverse_case o = None ∧ unit_status l = "mapped" ∧
        canonical (canonicalize_unit (uom o)) = unit_canonical l ∧
        dec_ge (decimal_of_float (inventory o)) (qty l) = Ok true ∧ dt_le as_of (valid_until o) = Ok true ∧
        effective_executable_status o ∈ ["reserved"; "confirmed"]))
    (filter (λ o, material_matches l (material o) = true) offers) (candidates m) ∧
  traffic_light m = traffic_light_of (candidates m) ∧
  rank_executable_candidates_by_tco (candidates m) = Ok (ranked_executable m).
Proof.
  unfold match_boq_line. rewrite rbind_ok. intros (cs & Hcs & Hm). rewrite rbind_ok in Hm.
  destruct Hm as (ranked & Hr & [= <-]). simpl. split; [|done].
  apply mapM_Forall2 in Hcs. eapply Forall2_impl; [exact Hcs|]. intros o c Hc. split; [done|].
  unfold classify_candidate in Hc. rewrite rbind_ok in Hc. destruct Hc as (fr & Hfr & Hc).
  rewrite rbind_ok in Hc. destruct Hc as (vol & Hvol & Hc). rewrite rbind_ok in Hc. destruct Hc as (mb & _ & Hc).
  rewrite rbind_ok in Hc. destruct Hc as (pr & _ & [= <-]). split; [done|]. split; [done|].
  unfold is_strong_source. simpl. rewrite !andb_true_iff, !String.eqb_eq, bool_decide_eq_true.
  intros [[-> ->] He]. unfold volume_status_of in Hvol. destruct (adverse_case o); [done|]. split; [done|].
  destruct (String.eqb_spec (unit_status l) "mapped") as [Hu|]; [|done]. split; [done|]. cbn [negb] in Hvol.
  destruct (String.eqb (cu_status _) "mapped"); [|done]. cbn [negb] in Hvol.
  case_bool_decide as Hcan; [done|]. split; [destruct (decide (canonical (canonicalize_unit (uom o)) = unit_canonical l)); done|].
  rewrite rbind_ok in Hvol. destruct Hvol as ([] & Hge & Hv); [|done]. split; [done|].
  unfold freshness_of in Hfr. rewrite rbind_ok in Hfr. destruct Hfr as ([] & Hle & Hf); [|done]. done.
Qed.

(** ** Witness *)

Definition fl (n e : Z) : spec_float := float_of_decimal (DFin false n e).
Definition day (n : Z) : datetime := Datetime (n * 86400000000) (Some 0).
Definition cement : BoqLine := {| source_line_id := 7; page_number := 1; section := None; category_code := None;
  description := "portland cement m400"; unit_raw := "ton"; unit_canonical := Some "t"; unit_status := "mapped";
  qty := DFin false 10 0; line_type := "normal"; spec_requirements := []; rate := None; amount := None |}.
Definition offer (i v : Z) (pr : spec_float) : VendorOfferDTO := {| id := i; vendor_id := v; vendor_name := "v";
  data_realm := "synthetic"; watermark := "w"; material := " Cement "; price := pr; currency := "AZN"; vat_rate := fl 18 0;
  uom := "t"; uom_canonical_qty := fl 1 0; moq := fl 1 0; capacity := fl 1 0; inventory := fl 50 0; valid_from := day 0;
  valid_until := day 9; evidence_source := "e"; observed_at := day 0; adverse_case := None; executable_status := "confirmed";
  effective_executable_status := "confirmed"; has_positive_reputation := true; has_negative_reputation := false |}.
Definition two_offers : list VendorOfferDTO := [offer 1 1 (fl 1205 (-1)); offer 2 2 (fl 110 0)].

Lemma match_boq_line_spec_witness :
  ∃ m, match_boq_line (H := ascii_text) cement two_offers (day 3) = Ok m ∧ traffic_light m = "green" ∧
    length (candidates m) = 2%nat ∧ map (λ ct, mc_offer_id ct.1) (ranked_executable m) = [2; 1].
Proof.
  destruct (match_boq_line (H := ascii_text) cement two_offers (day 3)) as [m|e] eqn:Hm; [|vm_compute in Hm; discriminate Hm].
  destruct (match_boq_line_spec (H := ascii_text) cement two_offers (day 3) m Hm) as (Hf & _ & _).
  exists m. split; [reflexivity|]. apply Forall2_length in Hf.
  split; [vm_compute in Hm; injection Hm as <-; reflexivity|].
  split; [rewrite <-Hf; vm_compute; reflexivity|].
  vm_compute in Hm. injection Hm as <-. reflexivity.
Defined.
End Matching.
