(* ===== verification/BidReadiness.v ===== *)
(** * Bid readiness

    [packages/decision/boq_summary.py] (money by traffic light),
    [packages/decision/bid_readiness.py] (coverage and critical lines) and
    [packages/decision/simulation_case_builder.py] (their facts as simulation
    cases). *)

From stdpp Require Import base strings list gmap.
From Stdlib Require Import ZArith Lia SpecFloat.
From S2P Require Import Prelude Json Query Decimal PyFloat Datetime BoqLine Matching Simulation.

Module BidReadiness.
Import Matching.
#[local] Open Scope Z_scope.

(** ** Summary *)

Record BoqMatchSummary := {
  green_amount : decimal;
  yellow_amount : decimal;
  red_amount : decimal;
  unpriced_line_count : Z;
  non_matchable_line_count : Z;
  non_matchable_amount : decimal;
  total_priced_amount : decimal;
  green_pct : spec_float;
  yellow_pct : spec_float;
  red_pct : spec_float;
}.

(** The variables of the loop. *)
Record tally := { t_green : decimal; t_yellow : decimal; t_red : decimal; t_unpriced : Z; t_other : Z; t_other_amount : decimal }.

(** [amounts_by_light[light] += a] *)
Definition add_to_light (light : string) (a : decimal) (t : tally) : result exn tally :=
  if String.eqb light "green" then
    let! x := dec_add (t_green t) a in
    Ok {| t_green := x; t_yellow := t_yellow t; t_red := t_red t; t_unpriced := t_unpriced t; t_other := t_other t; t_other_amount := t_other_amount t |}
  else if String.eqb light "yellow" then
    let! x := dec_add (t_yellow t) a in
    Ok {| t_green := t_green t; t_yellow := x; t_red := t_red t; t_unpriced := t_unpriced t; t_other := t_other t; t_other_amount := t_other_amount t |}
  else if String.eqb light "red" then
    let! x := dec_add (t_red t) a in
    Ok {| t_green := t_green t; t_yellow := t_yellow t; t_red := x; t_unpriced := t_unpriced t; t_other := t_other t; t_other_amount := t_other_amount t |}
  else Err (KeyError light).

(** [d[k]] on a dict with integer keys, in insertion order. *)
Definition zdict (A : Type) : Type := list (Z * A).
Fixpoint zget {A} (k : Z) (d : zdict A) : option A :=
  match d with [] => None | (k', v) :: d' => if k =? k' then Some v else zget k d' end.
Fixpoint zset {A} (k : Z) (v : A) (d : zdict A) : zdict A :=
  match d with [] => [(k, v)] | (k', v') :: d' => if k =? k' then (k, v) :: d' else (k', v') :: zset k v d' end.

Definition tally_line (matches : zdict BoqLineMatch) (t : tally) (l : BoqLine) : result exn tally :=
  if negb (String.eqb (line_type l) "normal") then
    let! other := match amount l with Some a => dec_add (t_other_amount t) a | None => Ok (t_other_amount t) end in
    Ok {| t_green := t_green t; t_yellow := t_yellow t; t_red := t_red t; t_unpriced := t_unpriced t;
          t_other := t_other t + 1; t_other_amount := other |}
  else
    match zget (source_line_id l) matches with
    | None => Err (KeyError (py_str_Z (source_line_id l)))
    | Some m =>
        match amount l with
        | None => Ok {| t_green := t_green t; t_yellow := t_yellow t; t_red := t_red t; t_unpriced := t_unpriced t + 1;
                        t_other := t_other t; t_other_amount := t_other_amount t |}
        | Some a => add_to_light (traffic_light m) a t
        end
    end.

Definition zero_tally : tally :=
  {| t_green := dec_of_Z 0; t_yellow := dec_of_Z 0; t_red := dec_of_Z 0; t_unpriced := 0; t_other := 0; t_other_amount := dec_of_Z 0 |}.

Definition pct (total a : decimal) : result exn spec_float :=
  if dec_eqb total (dec_of_Z 0) then Ok (S754_zero false) else
  let! q := dec_div a total in
  let! p := dec_mul q (dec_of_Z 100) in
  Ok (float_of_decimal p).

Definition summarize_boq_matches (lines : list BoqLine) (matches : zdict BoqLineMatch) : result exn BoqMatchSummary :=
  let! t := foldM (tally_line matches) zero_tally lines in
  let! gy := dec_add (t_green t) (t_yellow t) in
  let! total := dec_add gy (t_red t) in
  let! gp := pct total (t_green t) in
  let! yp := pct total (t_yellow t) in
  let! rp := pct total (t_red t) in
  Ok {| green_amount := t_green t; yellow_amount := t_yellow t; red_amount := t_red t;
    unpriced_line_count := t_unpriced t; non_matchable_line_count := t_other t; non_matchable_amount := t_other_amount t;
    total_priced_amount := total; green_pct := gp; yellow_pct := yp; red_pct := rp |}.

(** ** Readiness *)

Definition LOTTERY_COVERAGE_THRESHOLD_PCT : spec_float := float_of_decimal (DFin false 85 0).

Record CriticalLine := { cl_line : Z; cl_vendor_id : Z; cl_vendor_name : string }.

Record BidReadinessCandidate := {
  br_tender_id : Z;
  summary : BoqMatchSummary;
  is_lottery : bool;
  critical_lines : list CriticalLine;
  computed_at : string;
}.

Definition critical_line (m : BoqLineMatch) : option CriticalLine :=
  match strong (candidates m) with
  | [] => None
  | sole :: _ =>
      if bool_decide (size (list_to_set (map mc_vendor_id (strong (candidates m))) : gset Z) = 1%nat) then
        Some {| cl_line := bm_line m; cl_vendor_id := mc_vendor_id sole; cl_vendor_name := mc_vendor_name sole |}
      else None
  end.
Definition critical_lines_of (matches : zdict BoqLineMatch) : list CriticalLine := omap critical_line matches.*2.

Definition is_normal (l : BoqLine) : Prop := line_type l = "normal".
#[export] Instance is_normal_dec l : Decision (is_normal l) .
Proof. unfold is_normal. apply _. Defined.

Section WithText.
Context `{PyText}.

(** [{line.source_line_id: match_boq_line(...) for line in boq_lines if ...}] *)
Definition matches_of (lines : list BoqLine) (offers : list VendorOfferDTO) (as_of : datetime)
    : result exn (zdict BoqLineMatch) :=
  foldM (λ d l, let! m := match_boq_line l offers as_of in Ok (zset (source_line_id l) m d)) [] (filter is_normal lines).

Definition build_bid_readiness_candidate (tender_id : Z) (lines : list BoqLine) (offers : list VendorOfferDTO)
    (as_of : datetime) (computed : string) : result exn BidReadinessCandidate :=
  let! matches := matches_of lines offers as_of in
  let! s := summarize_boq_matches lines matches in
  let coverage_pct := fadd (green_pct s) (yellow_pct s) in
  Ok {| br_tender_id := tender_id; summary := s; is_lottery := SFltb coverage_pct LOTTERY_COVERAGE_THRESHOLD_PCT;
        critical_lines := critical_lines_of matches; computed_at := computed |}.

(** ** Simulation cases *)

(** [_parse_decimal] *)
Definition parse_decimal (value : option string) : option decimal :=
  match value with
  | None => None
  | Some s => match dec_of_string s with Ok d => Some d | Err _ => None end
  end.

Definition build_case_from_bid_readiness (c : BidReadinessCandidate) (case_id : string)
    (monetary_currency actual_outcome_label : option string) (human_overrides : option (gmap string string))
    : Engine.SimulationCase :=
  let s := summary c in
  {| Engine.case_id := case_id;
     Engine.inputs := list_to_map [
       ("coverage_pct", JFloat (fadd (green_pct s) (yellow_pct s))); ("green_pct", JFloat (green_pct s));
       ("yellow_pct", JFloat (yellow_pct s)); ("red_pct", JFloat (red_pct s)); ("is_lottery", JBool (is_lottery c));
       ("critical_line_count", JInt (Z.of_nat (length (critical_lines c))));
       ("unpriced_line_count", JInt (unpriced_line_count s));
       ("non_matchable_line_count", JInt (non_matchable_line_count s))];
     Engine.human_overrides := default ∅ human_overrides;
     Engine.monetary_amount := Some (total_priced_amount s);
     Engine.monetary_currency := monetary_currency;
     Engine.actual_outcome_label := actual_outcome_label |}.

(** The keys the function reads of the dict [load_tender_outcome] returns. *)
Record outcome_facts := { of_outcome : string; of_our_submitted_amount : option string; of_currency : option string }.

Definition build_case_from_tender_outcome (o : outcome_facts) (case_id : string)
    (human_overrides : option (gmap string string)) : Engine.SimulationCase :=
  let amount := parse_decimal (of_our_submitted_amount o) in
  {| Engine.case_id := case_id; Engine.inputs := {["outcome" := JStr (of_outcome o)]};
     Engine.human_overrides := default ∅ human_overrides; Engine.monetary_amount := amount;
     Engine.monetary_currency := match amount with Some _ => of_currency o | None => None end;
     Engine.actual_outcome_label := Some (of_outcome o) |}.
End WithText.

(** ** Every line is accounted for *)

(** The amount of a line when it is priced, matchable and of a light. *)
Definition money (matches : zdict BoqLineMatch) (light : string) (l : BoqLine) : option decimal :=
  if String.eqb (line_type l) "normal" then
    match zget (source_line_id l) matches with
    | Some m => if String.eqb (traffic_light m) light then amount l else None
    | None => None
    end
  else None.
Definition other_money (l : BoqLine) : option decimal :=
  if String.eqb (line_type l) "normal" then None else amount l.
Definition is_unpriced (l : BoqLine) : bool :=
  String.eqb (line_type l) "normal" && match amount l with None => true | Some _ => false end.
Definition dec_sum (l : list decimal) : result exn decimal := foldM dec_add (dec_of_Z 0) l.
Definition count (p : BoqLine → bool) (l : list BoqLine) : Z := Z.of_nat (length (filter (λ x, p x = true) l)).

Record accounted (matches : zdict BoqLineMatch) (lines : list BoqLine) (t : tally) : Prop := {
  ac_green : dec_sum (omap (money matches "green") lines) = Ok (t_green t);
  ac_yellow : dec_sum (omap (money matches "yellow") lines) = Ok (t_yellow t);
  ac_red : dec_sum (omap (money matches "red") lines) = Ok (t_red t);
  ac_other : dec_sum (omap other_money lines) = Ok (t_other_amount t);
  ac_unpriced : t_unpriced t = count is_unpriced lines;
  ac_others : t_other t = count (λ l, negb (String.eqb (line_type l) "normal")) lines;
}.

Lemma dec_sum_snoc f (l : list BoqLine) x s r :
  dec_sum (omap f l) = Ok s → f x = r →
  dec_sum (omap f (l ++ [x])) = match r with Some a => dec_add s a | None => Ok s end.
Proof.
  intros Hs <-. rewrite omap_app. unfold dec_sum in *. rewrite foldM_app, Hs. simpl.
  destruct (f x); simpl; [|done]. by destruct (dec_add s d).
Qed.

Lemma count_snoc p l x : count p (l ++ [x]) = count p l + (if p x then 1 else 0).
Proof.
  unfold count. rewrite filter_app, length_app, filter_cons, filter_nil. destruct (p x); simpl; lia.
Qed.

Lemma tally_line_accounted matches lines t x t' :
  accounted matches lines t → tally_line matches t x = Ok t' → accounted matches (lines ++ [x]) t'.
Proof.
  intros [Hg Hy Hr Ho Hu Hn] Ht. unfold tally_line in Ht.
  let r := eval unfold money in (money matches "green" x) in pose proof (dec_sum_snoc _ lines x _ r Hg eq_refl) as Hg'.
  let r := eval unfold money in (money matches "yellow" x) in pose proof (dec_sum_snoc _ lines x _ r Hy eq_refl) as Hy'.
  let r := eval unfold money in (money matches "red" x) in pose proof (dec_sum_snoc _ lines x _ r Hr eq_refl) as Hr'.
  let r := eval unfold other_money in (other_money x) in pose proof (dec_sum_snoc _ lines x _ r Ho eq_refl) as Ho'.
  pose proof (count_snoc is_unpriced lines x) as Hcu.
  pose proof (count_snoc (λ l, negb (String.eqb (line_type l) "normal")) lines x) as Hcn. cbn beta in Hcn.
  assert (is_unpriced x = String.eqb (line_type x) "normal" && match amount x with None => true | Some _ => false end) as Hux by done.
  rewrite Hux in Hcu. clear Hux.
  destruct (String.eqb (line_type x) "normal") eqn:Hty; cbn [negb andb] in *.
  - destruct (zget (source_line_id x) matches) as [m|]; [|done].
    destruct (amount x) as [a|]; cbn [negb andb] in *.
    + unfold add_to_light in Ht. destruct (String.eqb_spec (traffic_light m) "green") as [Hl|_].
      { rewrite Hl in *. simpl in *. rewrite rbind_ok in Ht. destruct Ht as (s & Hs & [= <-]).
        constructor; simpl; try lia; rewrite ?Hg', ?Hy', ?Hr', ?Ho'; done. }
      destruct (String.eqb_spec (traffic_light m) "yellow") as [Hl|_].
      { rewrite Hl in *. simpl in *. rewrite rbind_ok in Ht. destruct Ht as (s & Hs & [= <-]).
        constructor; simpl; try lia; rewrite ?Hg', ?Hy', ?Hr', ?Ho'; done. }
      destruct (String.eqb_spec (traffic_light m) "red") as [Hl|_]; [|done].
      simpl in *. rewrite rbind_ok in Ht. destruct Ht as (s & Hs & [= <-]).
      constructor; simpl; try lia; rewrite ?Hg', ?Hy', ?Hr', ?Ho'; done.
    + assert (∀ b : bool, (if b then None else None) = None :> option decimal) as Hif by by intros [].
      rewrite Hif in Hg', Hy', Hr'. injection Ht as <-.
      constructor; simpl; try lia; done.
  - rewrite rbind_ok in Ht. destruct Ht as (s & Hs & [= <-]).
    constructor; simpl; try lia; try done. rewrite Ho'. by destruct (amount x).
Qed.

(** Every line of a BOQ is in the summary exactly once: a line that is not
    matchable is counted apart, a matchable line without an amount is counted
    as unpriced, and every other amount is in the sum of its own light, in the
    order of the lines; the total is the sum of the three. *)
Theorem summary_accounts lines matches s :
  summarize_boq_matches lines matches = Ok s →
  dec_sum (omap (money matches "green") lines) = Ok (green_amount s) ∧
  dec_sum (omap (money matches "yellow") lines) = Ok (yellow_amount s) ∧
  dec_sum (omap (money matches "red") lines) = Ok (red_amount s) ∧
  dec_sum (omap other_money lines) = Ok (non_matchable_amount s) ∧
  (let! gy := dec_add (green_amount s) (yellow_amount s) in dec_add gy (red_amount s)) = Ok (total_priced_amount s) ∧
  unpriced_line_count s = count is_unpriced lines ∧
  non_matchable_line_count s = count (λ l, negb (String.eqb (line_type l) "normal")) lines ∧
  (∀ l, l ∈ lines → line_type l = "normal" → is_Some (zget (source_line_id l) matches)).
Proof.
  unfold summarize_boq_matches. rewrite rbind_ok. intros (t & Ht & Hs).
  assert (accounted matches lines t) as [Hg Hy Hr Ho Hu Hn].
  { revert Ht. apply (foldM_inv_prefix (λ dn t, accounted matches dn t)); [|by constructor].
    intros dn a rest t0 t1 _ Hacc Hstep. by eapply tally_line_accounted. }
  assert (∀ l, l ∈ lines → line_type l = "normal" → is_Some (zget (source_line_id l) matches)) as Hall.
  { intros l Hl Hty. revert Ht. generalize zero_tally. induction lines as [|x lines' IH]; intros t0; [by apply elem_of_nil in Hl|].
    simpl. rewrite rbind_ok. intros (t1 & Hx & Hrest). apply elem_of_cons in Hl as [<-|Hl].
    - unfold tally_line in Hx. rewrite Hty in Hx. simpl in Hx. destruct (zget _ _); [by eexists|done].
    - clear Hg Hy Hr Ho Hu Hn. revert t1 Hrest Hx. intros t1 Hrest Hx.
      clear -Hl Hty Hrest. revert t1 Hrest. induction lines' as [|y ys IHy]; intros t1; [by apply elem_of_nil in Hl|].
      simpl. rewrite rbind_ok. intros (t2 & Hy & Hrest). apply elem_of_cons in Hl as [<-|Hl]; [|by eapply IHy].
      unfold tally_line in Hy. rewrite Hty in Hy. simpl in Hy. destruct (zget _ _); [by eexists|done]. }
  rewrite rbind_ok in Hs. destruct Hs as (gy & Hgy & Hs). rewrite rbind_ok in Hs. destruct Hs as (total & Htot & Hs).
  rewrite rbind_ok in Hs. destruct Hs as (gp & _ & Hs). rewrite rbind_ok in Hs. destruct Hs as (yp & _ & Hs).
  rewrite rbind_ok in Hs. destruct Hs as (rp & _ & [= <-]). simpl. rewrite Hgy. simpl. done.
Qed.

(** ** Critical lines *)

Section Critical.
Context `{PyText}.

Lemma zset_new {A} k (v : A) d : k ∉ d.*1 → zset k v d = d ++ [(k, v)].
Proof.
  induction d as [|[k' v'] d IH]; csimpl; [done|]. rewrite not_elem_of_cons. intros [Hne Hk].
  destruct (Z.eqb_spec k k'); [done|]. by rewrite IH.
Qed.

(** With distinct line ids the dict has one match for each matchable line. *)
Lemma matches_of_spec lines offers as_of ms :
  NoDup (map source_line_id (filter is_normal lines)) → matches_of lines offers as_of = Ok ms →
  Forall2 (λ l km, km.1 = source_line_id l ∧ match_boq_line l offers as_of = Ok km.2) (filter is_normal lines) ms.
Proof.
  unfold matches_of. intros Hnd. generalize dependent (filter is_normal lines). intros ls Hnd Hm.
  revert Hm. eapply (foldM_inv_prefix (λ dn d, Forall2 (λ l km, km.1 = source_line_id l ∧ match_boq_line l offers as_of = Ok km.2) dn d));
    [|constructor].
  intros dn l rest d d' -> Hd. rewrite rbind_ok. intros (m & Hm & [= <-]).
  assert (d.*1 = map source_line_id dn) as Hkeys.
  { clear -Hd. induction Hd as [|x y dn d [Hk _] _ IH]; csimpl; [done|]. by rewrite Hk, IH. }
  rewrite zset_new; [apply Forall2_app; [done|]; by repeat constructor|]. rewrite Hkeys.
  rewrite map_app in Hnd. apply NoDup_app in Hnd as (_ & Hdis & _). intros Hin. apply (Hdis _ Hin). by left.
Qed.

Lemma match_boq_line_id l offers as_of m : match_boq_line l offers as_of = Ok m → bm_line m = source_line_id l.
Proof.
  unfold match_boq_line. rewrite rbind_ok. intros (cs & _ & Hm). rewrite rbind_ok in Hm. by destruct Hm as (r & _ & [= <-]).
Qed.

Lemma sole_vendor (v : Z) vs : size (list_to_set (v :: vs) : gset Z) = 1%nat ↔ ∀ y, y ∈ vs → y = v.
Proof.
  split.
  - intros Hs y Hy. apply size_1_elem_of in Hs as [z Hz].
    assert (v ∈ ({[z]} : gset Z) ∧ y ∈ ({[z]} : gset Z)) as [Hv Hyz].
    { rewrite <-Hz, !elem_of_list_to_set. split; [by left|by right]. }
    rewrite elem_of_singleton in Hv, Hyz. congruence.
  - intros Hall. assert ((list_to_set (v :: vs) : gset Z) = {[v]}) as ->; [|apply size_singleton].
    apply set_eq. intros y. rewrite elem_of_list_to_set, elem_of_singleton, elem_of_cons. naive_solver.
Qed.

(** A bid's critical lines are exactly the matchable lines with a strong
    source all of whose strong sources are one vendor's, each with that vendor;
    the bid is a lottery when the green and yellow shares, as floats, add up to
    less than 85. *)
Theorem critical_lines_spec tender_id lines offers as_of computed c :
  NoDup (map source_line_id (filter is_normal lines)) →
  build_bid_readiness_candidate tender_id lines offers as_of computed = Ok c →
  (∀ x, x ∈ critical_lines c ↔ ∃ l m first rest, l ∈ lines ∧ line_type l = "normal" ∧
    match_boq_line l offers as_of = Ok m ∧ strong (candidates m) = first :: rest ∧
    (∀ y, y ∈ rest → mc_vendor_id y = mc_vendor_id first) ∧
    x = {| cl_line := source_line_id l; cl_vendor_id := mc_vendor_id first; cl_vendor_name := mc_vendor_name first |}) ∧
  is_lottery c = SFltb (fadd (green_pct (summary c)) (yellow_pct (summary c))) (float_of_decimal (DFin false 85 0)).
Proof.
  intros Hnd. unfold build_bid_readiness_candidate. rewrite rbind_ok. intros (ms & Hms & Hc).
  rewrite rbind_ok in Hc. destruct Hc as (s & _ & [= <-]). simpl. split; [|done].
  apply matches_of_spec in Hms; [|done]. intros x. unfold critical_lines_of. rewrite list_elem_of_omap.
  setoid_rewrite list_elem_of_fmap. unfold critical_line. split.
  - intros (m & (km & -> & Hkm) & Hx).
    apply list_elem_of_lookup_1 in Hkm as [i Hi]. destruct (Forall2_lookup_r _ _ _ _ _ Hms Hi) as (l & Hl & _ & Hm).
    apply list_elem_of_lookup_2, list_elem_of_filter in Hl as [Hty Hl].
    destruct (strong (candidates km.2)) as [|first rest] eqn:Hs; [done|]. case_bool_decide as Hsz; [|done].
    injection Hx as <-. rewrite (match_boq_line_id _ _ _ _ Hm). exists l, km.2, first, rest. split_and!; try done.
    intros y Hy. apply (proj1 (sole_vendor _ _) Hsz). apply list_elem_of_fmap. by exists y.
  - intros (l & m & first & rest & Hl & Hty & Hm & Hs & Hv & ->).
    assert (l ∈ filter is_normal lines) as Hin by (by apply list_elem_of_filter).
    apply list_elem_of_lookup_1 in Hin as [i Hi]. destruct (Forall2_lookup_l _ _ _ _ _ Hms Hi) as (km & Hkm & _ & Hm').
    rewrite Hm in Hm'. injection Hm' as ->. exists km.2. split; [exists km; split; [done|by eapply list_elem_of_lookup_2]|].
    rewrite Hs, bool_decide_true, (match_boq_line_id _ _ _ _ Hm); [done|]. apply sole_vendor.
    intros y (z & -> & Hz)%list_elem_of_fmap. by apply Hv.
Qed.
End Critical.

(** ** Witnesses *)

Definition priced (l : BoqLine) : BoqLine := {| source_line_id := source_line_id l; page_number := page_number l;
  section := section l; category_code := category_code l; description := description l; unit_raw := unit_raw l;
  unit_canonical := unit_canonical l; unit_status := unit_status l; qty := qty l; line_type := line_type l;
  spec_requirements := spec_requirements l; rate := rate l; amount := Some (DFin false 1000 0) |}.

Lemma critical_singleton xs l v n : map cl_line xs = [l] → map cl_vendor_id xs = [v] → map cl_vendor_name xs = [n] →
  xs = [{| cl_line := l; cl_vendor_id := v; cl_vendor_name := n |}].
Proof. destruct xs as [|[? ? ?] [|]]; simpl; congruence. Qed.

Lemma critical_lines_spec_witness :
  ∃ c, build_bid_readiness_candidate (H := ascii_text) 1 [priced cement] [offer 1 1 (fl 1205 (-1))] (day 3) "t" = Ok c ∧
    critical_lines c = [{| cl_line := 7; cl_vendor_id := 1; cl_vendor_name := "v" |}] ∧ is_lottery c = false ∧
    ∀ x, x ∈ critical_lines c → ∃ l, l ∈ [priced cement] ∧ cl_line x = source_line_id l.
Proof.
  pose (r := build_bid_readiness_candidate (H := ascii_text) 1 [priced cement] [offer 1 1 (fl 1205 (-1))] (day 3) "t").
  assert (match r with
          | Ok c => bool_decide (map cl_line (critical_lines c) = [7]) && bool_decide (map cl_vendor_id (critical_lines c) = [1]) &&
              bool_decide (map cl_vendor_name (critical_lines c) = ["v"]) && negb (is_lottery c)
          | Err _ => false
          end = true) as Hv by (vm_compute; reflexivity).
  destruct r as [c|e] eqn:Hc; [|discriminate Hv]. subst r.
  destruct (critical_lines_spec (H := ascii_text) 1 [priced cement] [offer 1 1 (fl 1205 (-1))] (day 3) "t" c) as [Hx _];
    [refine (bool_decide_eq_true_1 _ _); vm_compute; reflexivity|exact Hc|].
  apply andb_prop in Hv as [Hv Hlot%negb_true_iff]. apply andb_prop in Hv as [Hv Hn%bool_decide_eq_true_1].
  apply andb_prop in Hv as [Hl%bool_decide_eq_true_1 Hw%bool_decide_eq_true_1].
  exists c. split; [exact Hc|]. split; [|split; [exact Hlot|]].
  - exact (critical_singleton _ _ _ _ Hl Hw Hn).
  - intros x (l & m & first & rest & Hin & _ & _ & _ & _ & ->)%Hx. exists l. split; [exact Hin|reflexivity].
Defined.

Definition one_match : zdict BoqLineMatch :=
  [(7, {| bm_line := 7; traffic_light := "yellow"; candidates := []; ranked_executable := [] |})].
Lemma summary_accounts_witness :
  ∃ s, summarize_boq_matches [priced cement; cement] one_match = Ok s ∧ unpriced_line_count s = 1 ∧
    yellow_amount s = DFin false 1000 0.
Proof.
  pose (r := summarize_boq_matches [priced cement; cement] one_match).
  assert (match r with Ok s => bool_decide (yellow_amount s = DFin false 1000 0) | Err _ => false end = true) as Hv
    by (vm_compute; reflexivity).
  destruct r as [s|e] eqn:Hs; [|discriminate Hv]. subst r. apply bool_decide_eq_true_1 in Hv.
  destruct (summary_accounts _ _ _ Hs) as (_ & _ & _ & _ & _ & Hu & _). exists s. split; [exact Hs|].
  split; [rewrite Hu; vm_compute; reflexivity|exact Hv].
Defined.
End BidReadiness.
