(* ===== verification/Signals.v ===== *)
(** * Signals

    The pure part of the signal sources: [packages/tender/signal_model.py],
    [design_tender_signal.py], [procurement_plan_signal.py],
    [az_region_identity.py], [object_intersection.py] and [forecast_card.py]. A
    signal's columns that are copied from a payload stay JSON values; the
    database takes them when they are text. *)

From stdpp Require Import base gmap sets strings list.
From Stdlib Require Import ZArith.
From S2P Require Import Prelude Json PyStr SchemaDrift.

Module Signals.
Import Drift.

Record Signal := {
  signal_type : string;
  source : string;
  raw_snapshot_id : Z;
  value : payload;
  observed_at : string;
  ttl_class : string;
  confidence : string;
  object_customer : json;
  object_region : option string;
  object_project_type : json;
  correlation_id : string;
}.

Section WithText.
Context `{PyText}.

(** [_KNOWN_REGIONS] *)
Definition known_regions : list (string * list string) :=
  [("Zaqatala", ["ZAQATALA"]); ("Siyəzən", ["SİYƏZƏN"]); ("Lerik", ["LERİK"]); ("Naxçıvan", ["NAXÇIVAN"])].

Definition canonicalize_region (text : string) : option string :=
  let upper := py_upper text in
  match filter (λ r, existsb (λ token, str_contains token upper) r.2 = true) known_regions with
  | (canonical, _) :: _ => Some canonical
  | [] => None
  end.
(** [canonicalize_region(v)] of a payload value *)
Definition region_of (v : json) : result exn (option string) :=
  let! t := py_text v "upper" in Ok (canonicalize_region t).

Definition design_tender_stems : list string :=
  ["layihə-smeta"; "layihə smeta"; "layihəsmeta"; "layihələn"; "layihələm"].
Definition classify_design_tender (event_name : string) : bool :=
  existsb (λ stem, str_contains stem (py_lower event_name)) design_tender_stems.

Definition is_not_null (v : json) : bool := match v with JNull => false | _ => true end.

Definition build_design_tender_signal (item : json) (snapshot : Z) (observed corr : string) : result exn Signal :=
  let! event_id := py_index item "eventId" in
  let! event_name := py_index item "eventName" in
  let! publish_date := py_get item "publishDate" in
  let! awarded := py_get item "awardedParticipantName" in
  let! customer := py_get item "buyerOrganizationName" in
  let! region := region_of (match item with
                            | JObj p => match assoc "buyerOrganizationName" p with Some v => v | None => JStr "" end
                            | _ => JNull
                            end) in
  Ok {| signal_type := "design_tender"; source := "etender"; raw_snapshot_id := snapshot;
        value := [("event_id", event_id); ("event_name", event_name); ("publish_date", publish_date);
                  ("is_awarded", JBool (is_not_null awarded)); ("awarded_participant_name", awarded)];
        observed_at := observed; ttl_class := "design_phase_tender"; confidence := "official_source";
        object_customer := customer; object_region := region; object_project_type := JNull;
        correlation_id := corr |}.

Definition build_procurement_plan_signal (item : json) (snapshot : Z) (observed corr : string) : result exn Signal :=
  let! app_id := py_index item "id" in
  let! organization := py_index item "organizationName" in
  let! year := py_index item "year" in
  let! created := py_index item "createDate" in
  let! region := region_of organization in
  Ok {| signal_type := "procurement_plan"; source := "etender"; raw_snapshot_id := snapshot;
        value := [("app_id", app_id); ("organization_name", organization); ("year", year); ("create_date", created)];
        observed_at := observed; ttl_class := "procurement_plan"; confidence := "official_source";
        object_customer := organization; object_region := region; object_project_type := JNull;
        correlation_id := corr |}.

Definition theme_name_of (namecode : json) : result exn json :=
  if py_truthy namecode then
    let! first := py_first namecode in
    let! name := py_get first "name" in
    Ok (if py_truthy name then name else JNull)
  else Ok JNull.

(** The text of [countryname[0]], of a list of names. *)
Definition first_text (v : json) : result exn (option string) :=
  if py_truthy v then
    let! x := py_first v in
    match x with JStr s => Ok (Some s) | _ => Err (TypeError "object_region") end
  else Ok None.

Definition build_donor_pipeline_signal (project : json) (snapshot : Z) (observed corr : string) : result exn Signal :=
  let! namecode := py_get project "mjtheme_namecode" in
  let! theme_name := theme_name_of namecode in
  let! project_id := py_index project "id" in
  let! project_name := py_index project "project_name" in
  let! st := py_index project "status" in
  let! total := py_index project "totalamt" in
  let! approved := py_get project "boardapprovaldate" in
  let! closing := py_get project "closingdate" in
  let! instrument := py_index project "lendinginstr" in
  let! url := py_index project "url" in
  let! agency := py_get project "impagency" in
  let! borrower := py_get project "borrower" in
  let! countries := py_get project "countryname" in
  let! region := first_text countries in
  let! project_type := if py_truthy theme_name then Ok theme_name else py_index project "mjthemecode" in
  Ok {| signal_type := "donor_pipeline_project"; source := "worldbank_projects_api"; raw_snapshot_id := snapshot;
        value := [("project_id", project_id); ("project_name", project_name); ("status", st);
                  ("total_amount_usd_text", total); ("board_approval_date", approved); ("closing_date", closing);
                  ("lending_instrument", instrument); ("url", url)];
        observed_at := observed; ttl_class := "funding_decision"; confidence := "official_source";
        object_customer := py_or agency borrower; object_region := region;
        object_project_type := project_type; correlation_id := corr |}.
End WithText.

(** ** Composite objects and forecast cards *)

(** A stored signal, with the instant its [observed_at] names. *)
Record signal_row := { sg_signal : Signal; sg_observed_at : Z }.

Record ObjectIntersection := { oi_region : string; oi_types : gset string; oi_composite : bool }.

Definition detect_intersection (region : string) (rows : list (Z * signal_row)) : ObjectIntersection :=
  let types := list_to_set (map (λ ir, signal_type (sg_signal ir.2)) rows) in
  {| oi_region := region; oi_types := types; oi_composite := Nat.leb 2 (size types) |}.

Record Evidence := {
  ev_signal_type : string; ev_source : string; ev_observed_at : Z; ev_snapshot : Z; ev_value : payload }.
Record ForecastCard := {
  fc_region : string; fc_composite : bool; fc_types : gset string;
  budget_estimate : option payload; evidence_chain : list Evidence }.

Definition evidence_of (ir : Z * signal_row) : Evidence :=
  let s := sg_signal ir.2 in
  {| ev_signal_type := signal_type s; ev_source := source s; ev_observed_at := sg_observed_at ir.2;
     ev_snapshot := raw_snapshot_id s; ev_value := value s |}.
Definition is_donor (ir : Z * signal_row) : Prop := signal_type (sg_signal ir.2) = "donor_pipeline_project".
#[export] Instance is_donor_dec ir : Decision (is_donor ir).
Proof. unfold is_donor. apply _. Defined.

(** The values of the columns have no key [source] of their own. *)
Definition build_forecast_card (region : string) (rows : list (Z * signal_row)) : option ForecastCard :=
  let i := detect_intersection region rows in
  if oi_composite i then
    Some {| fc_region := region; fc_composite := true; fc_types := oi_types i;
            budget_estimate := match filter is_donor rows with
                               | r :: _ => Some (("source", JStr "donor_pipeline_project") :: value (sg_signal r.2))
                               | [] => None
                               end;
            evidence_chain := map evidence_of rows |}
  else None.
End Signals.
