(* ===== verification/TenderDb.v ===== *)
(** * The tables of the tender component

    The state the ingestion, the tracking of changes and the decisions share,
    with the store modules over it: [packages/tender/raw_snapshot.py],
    [normalized.py], [signals_store.py], [boq_lines_store.py],
    [change_tracking_store.py] and [freshness_alerts.py]. A store function is an
    action: it returns or raises, and the writes it made stay in the
    transaction either way. *)

From stdpp Require Import base gmap sets strings list sorting.
From Stdlib Require Import ZArith Lia.
From S2P Require Import Prelude Json Decimal Datetime PyFloat PyStr Query Outbox ExceptionQueue BoqImport BoqLine SchemaDrift Signals.

Module TenderDb.
Import Drift.
#[local] Open Scope Z_scope.

(** ** Rows *)

Record snapshot_row := {
  sn_source : string; sn_resource_type : string; sn_identity_key : string; sn_checksum : string; sn_body : json;
  sn_contract_version : string; sn_correlation_id : string; sn_fetched_at : Z }.
Record tender_row := {
  tn_source : string; tn_identity_key : string; current_version_id : option Z; tn_created_at : Z }.
Record version_row := {
  tv_tender_id : Z; version_number : Z; tv_snapshot_id : Z; parser_version : string; normalized_fields : payload }.
Record boq_row := {
  bq_source : string; bq_event_id : Z; bq_version_id : Z; bq_snapshot_id : Z; bq_line : BoqLine }.
Record TenderFieldChange := { fc_field : string; old_value : json; new_value : json }.
Record change_event_row := {
  ce_tender_id : Z; change_type : string; changed_fields : list TenderFieldChange; ce_detected_at : Z; ce_snapshot_id : Z }.
Record flag_row := {
  fl_tender_id : Z; fl_line_id : Z; fl_event_id : Z; flagged_at : Z; resolved_at : option Z }.

Record tdb := Tdb {
  snapshots : table snapshot_row;
  tenders : table tender_row;
  versions : table version_row;
  outbox : table Outbox.outbox_row;
  exceptions : table Exceptions.exception_row;
  boq_imports : table BoqImport.BoqImportStatus;
  boq_lines : table boq_row;
  signals : table Signals.signal_row;
  change_events : table change_event_row;
  recalc_flags : table flag_row;
  watch_state : gmap Z Z;
}.
Definition empty_tdb : tdb :=
  Tdb tbl_empty tbl_empty tbl_empty tbl_empty tbl_empty tbl_empty tbl_empty tbl_empty tbl_empty tbl_empty ∅.

Definition set_snapshots x (s : tdb) := Tdb x (tenders s) (versions s) (outbox s) (exceptions s) (boq_imports s)
  (boq_lines s) (signals s) (change_events s) (recalc_flags s) (watch_state s).
Definition set_tenders x (s : tdb) := Tdb (snapshots s) x (versions s) (outbox s) (exceptions s) (boq_imports s)
  (boq_lines s) (signals s) (change_events s) (recalc_flags s) (watch_state s).
Definition set_versions x (s : tdb) := Tdb (snapshots s) (tenders s) x (outbox s) (exceptions s) (boq_imports s)
  (boq_lines s) (signals s) (change_events s) (recalc_flags s) (watch_state s).
Definition set_outbox x (s : tdb) := Tdb (snapshots s) (tenders s) (versions s) x (exceptions s) (boq_imports s)
  (boq_lines s) (signals s) (change_events s) (recalc_flags s) (watch_state s).
Definition set_exceptions x (s : tdb) := Tdb (snapshots s) (tenders s) (versions s) (outbox s) x (boq_imports s)
  (boq_lines s) (signals s) (change_events s) (recalc_flags s) (watch_state s).
Definition set_boq_imports x (s : tdb) := Tdb (snapshots s) (tenders s) (versions s) (outbox s) (exceptions s) x
  (boq_lines s) (signals s) (change_events s) (recalc_flags s) (watch_state s).
Definition set_boq_lines x (s : tdb) := Tdb (snapshots s) (tenders s) (versions s) (outbox s) (exceptions s)
  (boq_imports s) x (signals s) (change_events s) (recalc_flags s) (watch_state s).
Definition set_signals x (s : tdb) := Tdb (snapshots s) (tenders s) (versions s) (outbox s) (exceptions s)
  (boq_imports s) (boq_lines s) x (change_events s) (recalc_flags s) (watch_state s).
Definition set_change_events x (s : tdb) := Tdb (snapshots s) (tenders s) (versions s) (outbox s) (exceptions s)
  (boq_imports s) (boq_lines s) (signals s) x (recalc_flags s) (watch_state s).
Definition set_recalc_flags x (s : tdb) := Tdb (snapshots s) (tenders s) (versions s) (outbox s) (exceptions s)
  (boq_imports s) (boq_lines s) (signals s) (change_events s) x (watch_state s).
Definition set_watch_state x (s : tdb) := Tdb (snapshots s) (tenders s) (versions s) (outbox s) (exceptions s)
  (boq_imports s) (boq_lines s) (signals s) (change_events s) (recalc_flags s) x.

(** ** Actions *)

(** A [SchemaDriftDetected] is caught by the jobs; the rest reaches the end of
    the transaction, which is rolled back. *)
Inductive terror :=
| DriftDetected (d : SchemaDrift) (contract : string) (snapshot : Z)
| Raised (e : exn)
| QueueError (e : Exceptions.queue_error).

Definition act (A : Type) : Type := tdb → result terror A * tdb.
Definition ret {A} (a : A) : act A := λ s, (Ok a, s).
Definition raise {A} (e : terror) : act A := λ s, (Err e, s).
Definition bind {A B} (m : act A) (k : A → act B) : act B := λ s,
  match m s with (Ok a, s') => k a s' | (Err e, s') => (Err e, s') end.
(** Code without effects that may raise *)
Definition pure {A} (r : result exn A) : act A := λ s, (map_err Raised r, s).
Definition gets {A} (f : tdb → A) : act A := λ s, (Ok (f s), s).
Definition require (b : bool) (constraint : string) : act unit := λ s,
  (if b then Ok () else Err (Raised (IntegrityError constraint)), s).
(** [INSERT INTO t ... RETURNING id] *)
Definition insert_in {R} (get : tdb → table R) (set : table R → tdb → tdb) (r : R) : act Z := λ s,
  (Ok (next_id (get s)), set (tbl_insert (get s) r).2 s).

Notation "'do!' x ':=' m 'in' k" := (bind m (λ x, k))
  (at level 10, x name, m at level 100, k at level 200) : uw_scope.

Definition exists_in {R} (t : table R) (i : Z) : bool := match tbl_get t i with Some _ => true | None => false end.

(** The digest and the reading of a response's bytes: [hashlib.sha256] in
    hexadecimal, and [CAST(body.decode("utf-8") AS jsonb)], which raises on
    bytes that are not UTF-8 or not JSON. *)
Class Bytes := {
  sha256_hex : string → string;
  jsonb_of_bytes : string → result exn json;
}.

Section Stores.
Context `{PyText} `{Bytes}.

(** ** Raw evidence *)

Definition checksum_of (raw_body : string) : string := sha256_hex raw_body.

Definition save_raw_snapshot (now : Z) (src resource identity raw_body contract corr : string) : act Z :=
  do! body := pure (jsonb_of_bytes raw_body) in
  insert_in snapshots set_snapshots
    {| sn_source := src; sn_resource_type := resource; sn_identity_key := identity; sn_checksum := checksum_of raw_body;
       sn_body := body; sn_contract_version := contract; sn_correlation_id := corr; sn_fetched_at := now |}.

Definition get_raw_snapshot (i : Z) : act (Z * snapshot_row) := λ s,
  (match tbl_get (snapshots s) i with Some r => Ok (i, r) | None => Err (Raised NoResultFound) end, s).

(** [SELECT source, max(fetched_at) ... GROUP BY source] *)
Definition last_fetched_at_by_source (t : table snapshot_row) : gmap string Z :=
  foldl (λ m ir, <[sn_source ir.2 := match m !! sn_source ir.2 with
                                     | Some x => Z.max x (sn_fetched_at ir.2)
                                     | None => sn_fetched_at ir.2 end]> m) ∅ (rows t).

Record AlertResult := { al_name : string; firing : bool; detail : string }.
Definition KNOWN_SOURCES : list string := ["etender"; "worldbank_projects_api"].
Definition source_never_succeeded (t : table snapshot_row) : AlertResult :=
  let seen := last_fetched_at_by_source t in
  let never_seen := filter (λ s, seen !! s = None) KNOWN_SOURCES in
  match never_seen with
  | [] => {| al_name := "source_never_succeeded"; firing := false;
             detail := "every known source has at least one recorded fetch" |}
  | _ => {| al_name := "source_never_succeeded"; firing := true;
            detail := "source(s) with zero recorded fetches: " +:+ str_join ", " never_seen |}
  end.

(** ** Normalized versions *)

Definition is_tender (src identity : string) (r : tender_row) : bool :=
  String.eqb (tn_source r) src && String.eqb (tn_identity_key r) identity.

Definition get_or_create_tender (now : Z) (src identity : string) : act Z :=
  do! found := gets (λ s, tbl_select (λ _ r, is_tender src identity r) (tenders s)) in
  match found with
  | (i, _) :: _ => ret i
  | [] => insert_in tenders set_tenders
      {| tn_source := src; tn_identity_key := identity; current_version_id := None; tn_created_at := now |}
  end.

(** The text of a JSON value of the column ([->>]); [None] for SQL's NULL. *)
Definition numeric_text (d : decimal) : string :=
  match d with
  | DFin n c e =>
      let digits := py_str_Z c in
      let len := Z.of_nat (String.length digits) in
      (if n && negb (c =? 0) then "-" else "") +:+
      (if 0 <=? e then (if c =? 0 then "0" else digits +:+ zeros e)
       else if len + e <=? 0 then "0." +:+ zeros (- (len + e)) +:+ digits
       else String.substring 0 (Z.to_nat (len + e)) digits +:+ "." +:+
            String.substring (Z.to_nat (len + e)) (String.length digits) digits)
  | _ => dec_str d
  end.
Definition jsonb_text (v : json) : option string :=
  match v with
  | JNull => None
  | JStr s => Some s
  | JBool b => Some (if b then "true" else "false")
  | JInt z => Some (py_str_Z z)
  | JFloat f => Some (numeric_text (decimal_of_float f))
  | _ => Some (json_repr v)
  end.

Definition current_version (s : tdb) (tender_id : Z) : option version_row :=
  match tbl_get (tenders s) tender_id with
  | Some t => match current_version_id t with Some v => tbl_get (versions s) v | None => None end
  | None => None
  end.

Definition get_event_id_for_tender (s : tdb) (tender_id : Z) : result exn (option Z) :=
  match current_version s tender_id with
  | None => Ok None
  | Some v =>
      match jsonb_text (dict_get "id" (normalized_fields v)) with
      | None => Ok None
      | Some t => let! z := BoqImport.py_int t in Ok (Some z)
      end
  end.

Definition get_current_tender_version_id (s : tdb) (tender_id : Z) : option Z :=
  match tbl_get (tenders s) tender_id with Some t => current_version_id t | None => None end.

Definition versions_of (tender_id : Z) (t : table version_row) : list (Z * version_row) :=
  tbl_select (λ _ r, bool_decide (tv_tender_id r = tender_id)) t.
(** [COALESCE(MAX(version_number), 0) + 1] *)
Definition next_version_number (tender_id : Z) (t : table version_row) : Z :=
  foldl Z.max 0 (map (λ ir, version_number ir.2) (versions_of tender_id t)) + 1.

Definition point_to (v : Z) (r : tender_row) : tender_row := {|
  tn_source := tn_source r; tn_identity_key := tn_identity_key r; current_version_id := Some v;
  tn_created_at := tn_created_at r |}.

Definition create_normalized_version (tender_id snapshot_id : Z) (parser : string) (fields : payload)
    : act (Z * version_row) :=
  do! next := gets (λ s, next_version_number tender_id (versions s)) in
  do! tenders_now := gets tenders in
  do! snapshots_now := gets snapshots in
  do! _ := require (exists_in tenders_now tender_id) "tender_versions_tender_id_fkey" in
  do! _ := require (exists_in snapshots_now snapshot_id) "tender_versions_raw_snapshot_id_fkey" in
  let r := {| tv_tender_id := tender_id; version_number := next; tv_snapshot_id := snapshot_id;
              parser_version := parser; normalized_fields := fields |} in
  do! version_id := insert_in versions set_versions r in
  λ s, (Ok (version_id, r), set_tenders (tbl_set tender_id (point_to version_id) (tenders s)) s).

(** ** Signals *)

Definition json_to_text (column : string) (v : json) : result exn unit :=
  match v with JNull | JStr _ => Ok () | _ => Err (TypeError column) end.

Definition store_signal (g : Signals.Signal) : act Z :=
  do! at_ := pure (fromisoformat (Signals.observed_at g)) in
  do! _ := pure (json_to_text "object_customer" (Signals.object_customer g)) in
  do! _ := pure (json_to_text "object_project_type" (Signals.object_project_type g)) in
  do! snapshots_now := gets snapshots in
  do! _ := require (exists_in snapshots_now (Signals.raw_snapshot_id g)) "signals_raw_snapshot_id_fkey" in
  insert_in signals set_signals {| Signals.sg_signal := g; Signals.sg_observed_at := to_timestamptz at_ |}.

Definition list_signals (ty : string) (s : tdb) : list (Z * Signals.signal_row) :=
  tbl_select (λ _ r, String.eqb (Signals.signal_type (Signals.sg_signal r)) ty) (signals s).
Definition list_signals_by_object_region (region : string) (s : tdb) : list (Z * Signals.signal_row) :=
  order_by (asc (λ ir, Signals.sg_observed_at ir.2))
    (tbl_select (λ _ r, bool_decide (Signals.object_region (Signals.sg_signal r) = Some region)) (signals s)).
Definition detect_object_region_intersection (region : string) (s : tdb) : Signals.ObjectIntersection :=
  Signals.detect_intersection region (list_signals_by_object_region region s).
Definition build_object_region_forecast_card (region : string) (s : tdb) : option Signals.ForecastCard :=
  Signals.build_forecast_card region (list_signals_by_object_region region s).

(** ** BOQ lines *)

Definition is_line (src : string) (event line : Z) (r : boq_row) : bool :=
  String.eqb (bq_source r) src && (bq_event_id r =? event) && (source_line_id (bq_line r) =? line).

(** One [INSERT]: the unique key, the checked columns and the references. *)
Definition store_boq_line (src : string) (event version snapshot : Z) (line : BoqLine) : act unit :=
  do! lines_now := gets boq_lines in
  do! versions_now := gets versions in
  do! snapshots_now := gets snapshots in
  do! _ := require (bool_decide (tbl_select (λ _ r, is_line src event (source_line_id line) r) lines_now = []))
    "boq_lines_source_event_id_source_line_id_key" in
  do! _ := require (bool_decide (line_type line ∈ ["normal"; "preliminaries"; "provisional_sum"; "prime_cost"]))
    "boq_lines_line_type_check" in
  do! _ := require (bool_decide (unit_status line ∈ ["mapped"; "unmapped"])) "boq_lines_unit_status_check" in
  do! _ := require (exists_in versions_now version) "boq_lines_tender_version_id_fkey" in
  do! _ := require (exists_in snapshots_now snapshot) "boq_lines_raw_snapshot_id_fkey" in
  do! _ := insert_in boq_lines set_boq_lines
    {| bq_source := src; bq_event_id := event; bq_version_id := version; bq_snapshot_id := snapshot; bq_line := line |} in
  ret ().

Fixpoint each {A} (f : A → act unit) (l : list A) : act unit :=
  match l with [] => ret () | a :: l' => do! _ := f a in each f l' end.

Definition store_boq_lines (src : string) (event version snapshot : Z) (lines : list BoqLine) : act Z :=
  do! _ := each (store_boq_line src event version snapshot) lines in
  ret (Z.of_nat (length lines)).

(** [ORDER BY page_number, source_line_id] *)
Definition line_order (a b : BoqLine) : bool :=
  (page_number a <? page_number b) || ((page_number a =? page_number b) && (source_line_id a <=? source_line_id b)).
Definition list_boq_lines_by_event (src : string) (event : Z) (s : tdb) : list BoqLine :=
  order_by line_order
    (map (λ ir, bq_line ir.2) (tbl_select (λ _ r, String.eqb (bq_source r) src && (bq_event_id r =? event)) (boq_lines s))).

(** ** Changes *)

Definition store_tender_change_event (tender_id : Z) (ty : string) (changes : list TenderFieldChange)
    (detected : string) (snapshot_id : Z) : act Z :=
  do! at_ := pure (fromisoformat detected) in
  do! tenders_now := gets tenders in
  do! snapshots_now := gets snapshots in
  do! _ := require (bool_decide (ty ∈ ["deadline_shift"; "document_changed"])) "tender_change_events_change_type_check" in
  do! _ := require (exists_in tenders_now tender_id) "tender_change_events_tender_id_fkey" in
  do! _ := require (exists_in snapshots_now snapshot_id) "tender_change_events_raw_snapshot_id_fkey" in
  insert_in change_events set_change_events
    {| ce_tender_id := tender_id; change_type := ty; changed_fields := changes; ce_detected_at := to_timestamptz at_;
       ce_snapshot_id := snapshot_id |}.

Definition store_boq_line_recalc_flag (tender_id line event_id : Z) (flagged : string) : act Z :=
  do! at_ := pure (fromisoformat flagged) in
  do! tenders_now := gets tenders in
  do! events_now := gets change_events in
  do! _ := require (exists_in tenders_now tender_id) "boq_line_recalc_flags_tender_id_fkey" in
  do! _ := require (exists_in events_now event_id) "boq_line_recalc_flags_change_event_id_fkey" in
  insert_in recalc_flags set_recalc_flags
    {| fl_tender_id := tender_id; fl_line_id := line; fl_event_id := event_id; flagged_at := to_timestamptz at_;
       resolved_at := None |}.

(** [ORDER BY flagged_at, id] of a selection in id order *)
Definition list_unresolved_recalc_flags (tender_id : Z) (s : tdb) : list (Z * flag_row) :=
  order_by (asc (λ ir, flagged_at ir.2))
    (tbl_select (λ _ r, bool_decide (fl_tender_id r = tender_id) && bool_decide (resolved_at r = None)) (recalc_flags s)).

Definition get_watch_state (tender_id : Z) (s : tdb) : option Z := watch_state s !! tender_id.

Definition upsert_watch_state (tender_id : Z) (checked : string) : act unit :=
  do! at_ := pure (fromisoformat checked) in
  do! tenders_now := gets tenders in
  do! _ := require (exists_in tenders_now tender_id) "tender_watch_state_tender_id_fkey" in
  λ s, (Ok (), set_watch_state (<[tender_id := to_timestamptz at_]> (watch_state s)) s).

(** [unnest(tender_ids)] keeps repeated ids. *)
Definition is_due (now interval_hours : Z) (w : gmap Z Z) (i : Z) : bool :=
  match w !! i with None => true | Some checked => checked <=? now - hours interval_hours end.
Definition list_tenders_due_for_check (tender_ids : list Z) (now : string) (interval_hours : Z) (s : tdb)
    : result exn (list Z) :=
  match tender_ids with
  | [] => Ok []
  | _ => let! at_ := fromisoformat now in
         Ok (order_by (asc (λ i, i)) (filter (λ i, is_due (to_timestamptz at_) interval_hours (watch_state s) i = true) tender_ids))
  end.
End Stores.

(** ** Actions that return *)

Lemma bind_ok {A B} (m : act A) (k : A → act B) s b s' :
  bind m k s = (Ok b, s') ↔ ∃ a s1, m s = (Ok a, s1) ∧ k a s1 = (Ok b, s').
Proof. unfold bind. destruct (m s) as [[a|e] s1]; split; naive_solver. Qed.
Lemma pure_ok {A} (x : result exn A) s a s' : pure x s = (Ok a, s') ↔ x = Ok a ∧ s' = s.
Proof. unfold pure. destruct x; simpl; split; naive_solver. Qed.
Lemma ret_ok {A} (a b : A) s s' : ret a s = (Ok b, s') ↔ b = a ∧ s' = s.
Proof. unfold ret. naive_solver. Qed.
Lemma gets_ok {A} (f : tdb → A) s b s' : gets f s = (Ok b, s') ↔ b = f s ∧ s' = s.
Proof. unfold gets. naive_solver. Qed.
Lemma require_ok b c s u s' : require b c s = (Ok u, s') ↔ b = true ∧ s' = s.
Proof. unfold require. destruct b, u; naive_solver. Qed.

(** Decomposes the run of an action that returned. *)
Ltac act_inv H :=
  lazymatch type of H with
  | bind _ _ _ = (Ok _, _) =>
      let a := fresh "a" in let s1 := fresh "s1" in let Ha := fresh "Ha" in
      apply bind_ok in H; destruct H as (a & s1 & Ha & H); act_inv Ha; act_inv H
  | pure _ _ = (Ok _, _) => apply pure_ok in H; destruct H as [H ->]
  | ret _ _ = (Ok _, _) => apply ret_ok in H; first [destruct H as [-> ->] | destruct H as [H ->]]
  | gets _ _ = (Ok _, _) => apply gets_ok in H; first [destruct H as [-> ->] | destruct H as [H ->]]
  | require _ _ _ = (Ok _, _) => apply require_ok in H; destruct H as [H ->]
  | _ => idtac
  end.

Section StoreLines.
Context `{PyText} `{Bytes}.

Definition line_row (src : string) (event version snapshot : Z) (line : BoqLine) : boq_row :=
  {| bq_source := src; bq_event_id := event; bq_version_id := version; bq_snapshot_id := snapshot; bq_line := line |}.

Lemma store_boq_line_ok src event version snap line s u s' : store_boq_line src event version snap line s = (Ok u, s') →
  s' = set_boq_lines (tbl_insert (boq_lines s) (line_row src event version snap line)).2 s ∧
  tbl_select (λ _ r, is_line src event (source_line_id line) r) (boq_lines s) = [].
Proof.
  unfold store_boq_line. intros Hs. act_inv Hs.
  match goal with Hi : insert_in _ _ _ _ = _ |- _ => injection Hi as <- <- end. split; [done|].
  match goal with Hb : bool_decide (tbl_select _ _ = []) = true |- _ => by apply bool_decide_eq_true in Hb end.
Qed.

Lemma store_boq_lines_ok src event version snap lines s n s' : store_boq_lines src event version snap lines s = (Ok n, s') →
  n = Z.of_nat (length lines) ∧ ∃ t, s' = set_boq_lines t s ∧
  (rows t).*2 = (rows (boq_lines s)).*2 ++ map (line_row src event version snap) lines.
Proof.
  unfold store_boq_lines. intros Hs. act_inv Hs. split; [done|]. revert s Ha.
  induction lines as [|line lines IH]; intros s Ha; cbn [each] in Ha; act_inv Ha.
  - exists (boq_lines s). split; [by destruct s|by rewrite app_nil_r].
  - apply store_boq_line_ok in Ha0 as [-> _]. apply IH in Ha as (t & -> & Hr). exists t. split; [done|].
    cbn -[tbl_insert] in *. rewrite Hr. simpl. rewrite fmap_app. simpl. by rewrite <-app_assoc.
Qed.
End StoreLines.

(** ** The tables are append-only and the versions are numbered *)

Definition same_tender (r r' : tender_row) : Prop :=
  tn_source r' = tn_source r ∧ tn_identity_key r' = tn_identity_key r ∧ tn_created_at r' = tn_created_at r.

(** What a transaction may do to a table of facts: add rows at the end. Of a
    tender only the pointer to its current version may change. *)
Record extends (s s' : tdb) : Prop := {
  ex_snapshots : rows (snapshots s) `prefix_of` rows (snapshots s');
  ex_versions : rows (versions s) `prefix_of` rows (versions s');
  ex_outbox : rows (outbox s) `prefix_of` rows (outbox s');
  ex_boq_lines : rows (boq_lines s) `prefix_of` rows (boq_lines s');
  ex_signals : rows (signals s) `prefix_of` rows (signals s');
  ex_change_events : rows (change_events s) `prefix_of` rows (change_events s');
  ex_recalc_flags : rows (recalc_flags s) `prefix_of` rows (recalc_flags s');
  ex_tenders : ∀ i r, tbl_get (tenders s) i = Some r → ∃ r', tbl_get (tenders s') i = Some r' ∧ same_tender r r';
}.

(** A tender's versions are numbered 1, 2, ... in the order they were made, the
    pointer names the last one, and a version refers to evidence that exists. *)
Record history_ok (s : tdb) : Prop := {
  h_snapshots : tbl_wf (snapshots s);
  h_tenders : tbl_wf (tenders s);
  h_versions : tbl_wf (versions s);
  h_unique : ∀ i j r r', (i, r) ∈ rows (tenders s) → (j, r') ∈ rows (tenders s) →
    tn_source r = tn_source r' → tn_identity_key r = tn_identity_key r' → i = j;
  h_numbers : ∀ t, map (λ ir, version_number ir.2) (versions_of t (versions s)) =
    seqZ 1 (Z.of_nat (length (versions_of t (versions s))));
  h_current : ∀ t r, tbl_get (tenders s) t = Some r → current_version_id r = last (versions_of t (versions s)).*1;
  h_refs : ∀ v r, tbl_get (versions s) v = Some r →
    is_Some (tbl_get (tenders s) (tv_tender_id r)) ∧ is_Some (tbl_get (snapshots s) (tv_snapshot_id r));
}.

#[export] Instance extends_preorder : PreOrder extends.
Proof.
  split.
  - intros s. split; try done. intros i r Hr. by exists r.
  - intros s1 s2 s3 [] []. split; try (by etrans). intros i r Hr.
    destruct (ex_tenders0 i r Hr) as (r' & Hr' & ? & ? & ?).
    destruct (ex_tenders1 i r' Hr') as (r'' & Hr'' & ? & ? & ?). exists r''. unfold same_tender. split_and!; congruence.
Qed.

Lemma extends_get {R} (t t' : table R) i r : tbl_wf t → tbl_wf t' → rows t `prefix_of` rows t' →
  tbl_get t i = Some r → tbl_get t' i = Some r.
Proof. intros Hw Hw' [k Hk] Hr. apply tbl_get_spec in Hr; [|done]. apply tbl_get_spec; [done|]. rewrite Hk. set_solver. Qed.

(** An action keeps the history whether it returns or raises. *)
Definition keeps {A} (m : act A) : Prop := ∀ s, history_ok s → history_ok (m s).2 ∧ extends s (m s).2.

Create HintDb keeps.

Section Keeps.
Context `{PyText} `{Bytes}.

Lemma keeps_ret {A} (a : A) : keeps (ret a).
Proof. by intros s Hs. Qed.
Lemma keeps_raise {A} e : keeps (raise (A := A) e).
Proof. by intros s Hs. Qed.
Lemma keeps_pure {A} (r : result exn A) : keeps (pure r).
Proof. by intros s Hs. Qed.
Lemma keeps_gets {A} (f : tdb → A) : keeps (gets f).
Proof. by intros s Hs. Qed.
Lemma keeps_require b c : keeps (require b c).
Proof. by intros s Hs. Qed.
Lemma keeps_bind {A B} (m : act A) (k : A → act B) : keeps m → (∀ a, keeps (k a)) → keeps (bind m k).
Proof.
  intros Hm Hk s Hs. unfold bind. destruct (Hm s Hs) as [Hs' He]. destruct (m s) as [[a|e] s']; simpl in *; [|done].
  destruct (Hk a s' Hs') as [? ?]. split; [done|by etrans].
Qed.
Lemma keeps_each {A} (f : A → act unit) l : (∀ a, keeps (f a)) → keeps (each f l).
Proof. intros Hf. induction l as [|a l IH]; simpl; [apply keeps_ret|]. apply keeps_bind; auto. Qed.

Lemma prefix_insert {R} (t : table R) r : rows t `prefix_of` rows (tbl_insert t r).2.
Proof. by exists [(next_id t, r)]. Qed.

(** Inserting in a table that is not part of the history *)
Ltac keeps_other := intros s [] ; simpl; split; split; simpl; try done; try apply prefix_insert;
  intros i row Hrow; exists row; by repeat split.
Lemma keeps_boq_lines r : keeps (insert_in boq_lines set_boq_lines r).
Proof. keeps_other. Qed.
Lemma keeps_signals r : keeps (insert_in signals set_signals r).
Proof. keeps_other. Qed.
Lemma keeps_change_events r : keeps (insert_in change_events set_change_events r).
Proof. keeps_other. Qed.
Lemma keeps_recalc_flags r : keeps (insert_in recalc_flags set_recalc_flags r).
Proof. keeps_other. Qed.
Lemma keeps_outbox r : keeps (insert_in outbox set_outbox r).
Proof. keeps_other. Qed.
Lemma keeps_exceptions (f : tdb → table Exceptions.exception_row) {A} (g : tdb → result terror A) :
  keeps (λ s, (g s, set_exceptions (f s) s)).
Proof. keeps_other. Qed.
Lemma keeps_boq_imports (f : tdb → table BoqImport.BoqImportStatus) {A} (g : tdb → result terror A) :
  keeps (λ s, (g s, set_boq_imports (f s) s)).
Proof. keeps_other. Qed.
Lemma keeps_watch_state (f : tdb → gmap Z Z) {A} (g : tdb → result terror A) :
  keeps (λ s, (g s, set_watch_state (f s) s)).
Proof. keeps_other. Qed.

Lemma keeps_snapshots r : keeps (insert_in snapshots set_snapshots r).
Proof.
  intros s []. simpl. split; split; simpl; try done; try apply prefix_insert.
  - by apply tbl_insert_wf.
  - intros v r' Hr. destruct (h_refs0 v r' Hr) as [? [x Hx]]. split; [done|]. exists x.
    etrans; [apply (tbl_get_insert_old (snapshots s))|done]. apply tbl_get_lt in Hx; [lia|done].
  - intros i r' Hr. by exists r'.
Qed.

Lemma keeps_save_raw_snapshot now src resource identity body contract corr :
  keeps (save_raw_snapshot now src resource identity body contract corr).
Proof. apply keeps_bind; [apply keeps_pure|]. intros a. apply keeps_snapshots. Qed.

Lemma versions_of_missing s i : history_ok s → tbl_get (tenders s) i = None → versions_of i (versions s) = [].
Proof.
  intros Hs Hi. apply nil_no_elem. intros [v r] [Hp Hin]%elem_of_tbl_select. apply bool_decide_eq_true in Hp.
  apply tbl_get_spec in Hin; [|by apply h_versions]. destruct (h_refs s Hs v r Hin) as [[x Hx] _]. congruence.
Qed.

Lemma keeps_get_or_create_tender now src identity : keeps (get_or_create_tender now src identity).
Proof.
  intros s Hs. unfold get_or_create_tender, bind, gets. destruct (tbl_select _ _) as [|[i r] l] eqn:Hf; [|done].
  pose proof (tbl_get_next (tenders s) ltac:(by apply h_tenders)) as Hnew. pose proof (versions_of_missing s _ Hs Hnew) as Hnone.
  destruct Hs. split; split; cbn -[tbl_insert]; try done; try apply prefix_insert.
  - by apply tbl_insert_wf.
  - intros i j r r' [Hi|Hi%list_elem_of_singleton]%elem_of_app [Hj|Hj%list_elem_of_singleton]%elem_of_app Hsrc Hid; simplify_eq; try done.
    + by eapply h_unique0.
    + exfalso. eapply (proj1 (nil_no_elem _) Hf (i, r)), elem_of_tbl_select. simpl in *. split; [|done].
      unfold is_tender. by rewrite Hsrc, Hid, !String.eqb_refl.
    + exfalso. eapply (proj1 (nil_no_elem _) Hf (j, r')), elem_of_tbl_select. simpl in *. split; [|done].
      unfold is_tender. by rewrite <-Hsrc, <-Hid, !String.eqb_refl.
  - intros t r. destruct (decide (t = next_id (tenders s))) as [->|Ht].
    + rewrite tbl_get_insert_new by done. intros [= <-]. by rewrite Hnone.
    + rewrite tbl_get_insert_old by done. apply h_current0.
  - intros v r Hr. destruct (h_refs0 v r Hr) as [[x Hx] ?]. split; [|done]. exists x.
    rewrite tbl_get_insert_old; [done|]. apply tbl_get_lt in Hx; [lia|done].
  - intros i r Hr. exists r. split; [|by repeat split].
    rewrite tbl_get_insert_old; [done|]. apply tbl_get_lt in Hr; [lia|done].
Qed.

Lemma next_number_spec s t : history_ok s → next_version_number t (versions s) = Z.of_nat (length (versions_of t (versions s))) + 1.
Proof.
  intros Hs. unfold next_version_number. rewrite (h_numbers s Hs). f_equal.
  generalize (length (versions_of t (versions s))) as n. intros n. induction n as [|n IH]; [done|].
  rewrite seqZ_S, foldl_app, IH. cbn [foldl]. lia.
Qed.

Lemma versions_of_insert t v r : versions_of t (tbl_insert v r).2 =
  versions_of t v ++ (if bool_decide (tv_tender_id r = t) then [(next_id v, r)] else []).
Proof. apply tbl_select_insert. Qed.

(** The action as one step, when the references exist *)
Definition new_version (s : tdb) (tender snap : Z) (parser : string) (fields : payload) : version_row := {|
  tv_tender_id := tender; version_number := next_version_number tender (versions s); tv_snapshot_id := snap;
  parser_version := parser; normalized_fields := fields |}.
Definition with_version (s : tdb) (r : version_row) : tdb :=
  set_tenders (tbl_set (tv_tender_id r) (point_to (next_id (versions s))) (tenders s))
    (set_versions (tbl_insert (versions s) r).2 s).

Lemma create_normalized_version_eq tender snap parser fields s :
  create_normalized_version tender snap parser fields s =
  if exists_in (tenders s) tender then
    if exists_in (snapshots s) snap then
      (Ok (next_id (versions s), new_version s tender snap parser fields), with_version s (new_version s tender snap parser fields))
    else (Err (Raised (IntegrityError "tender_versions_raw_snapshot_id_fkey")), s)
  else (Err (Raised (IntegrityError "tender_versions_tender_id_fkey")), s).
Proof.
  unfold create_normalized_version, bind, gets, require. destruct (exists_in (tenders s) tender); [|done].
  by destruct (exists_in (snapshots s) snap).
Qed.

Lemma exists_in_spec {R} (t : table R) i : exists_in t i = true ↔ is_Some (tbl_get t i).
Proof. unfold exists_in. destruct (tbl_get t i); split; naive_solver. Qed.

Lemma tbl_set_get {R} (t : table R) i j f : tbl_get (tbl_set i f t) j = if decide (i = j) then f <$> tbl_get t j else tbl_get t j.
Proof. case_decide as Hij; [subst; apply tbl_get_set_eq|by apply tbl_get_set_ne]. Qed.

Lemma elem_of_tbl_set {R} (t : table R) i j f r' : (j, r') ∈ rows (tbl_set i f t) →
  ∃ r, (j, r) ∈ rows t ∧ r' = if bool_decide (j = i) then f r else r.
Proof.
  unfold tbl_set, tbl_update. simpl. intros ([k r] & Hkr & Hin)%list_elem_of_fmap. simpl in Hkr.
  exists r. case_bool_decide; simplify_eq; by case_bool_decide.
Qed.

Lemma with_version_ok s tender snap parser fields :
  history_ok s → is_Some (tbl_get (tenders s) tender) → is_Some (tbl_get (snapshots s) snap) →
  let s' := with_version s (new_version s tender snap parser fields) in history_ok s' ∧ extends s s'.
Proof.
  intros Hs [tr Htr] [sr Hsr] s'. pose proof (next_number_spec s tender Hs) as Hn. destruct Hs.
  split; split; subst s'; unfold with_version; cbn -[tbl_insert tbl_set]; try done; try apply prefix_insert.
  - by apply tbl_update_wf.
  - by apply tbl_insert_wf.
  - intros i j r r' (x & Hx & ->)%elem_of_tbl_set (y & Hy & ->)%elem_of_tbl_set Hsrc Hid. eapply h_unique0; [done|done| |];
      by repeat case_bool_decide.
  - intros t. rewrite versions_of_insert. simpl. case_bool_decide as Ht; [|rewrite app_nil_r; apply h_numbers0]. subst t.
    rewrite map_app, h_numbers0, length_app. simpl. rewrite Hn, Nat.add_1_r, seqZ_S. do 2 f_equal. lia.
  - intros t r. rewrite tbl_set_get, versions_of_insert. cbn [tv_tender_id new_version]. case_decide as Ht.
    + subst t. rewrite Htr. intros [= <-]. rewrite bool_decide_true, fmap_app by done. symmetry. apply last_snoc.
    + rewrite bool_decide_false, app_nil_r by congruence. apply h_current0.
  - intros v r Hr. rewrite tbl_set_get. destruct (decide (v = next_id (versions s))) as [->|Hv].
    + rewrite tbl_get_insert_new in Hr by done. injection Hr as <-. simpl. split; [|by exists sr].
      case_decide; rewrite Htr; by eexists.
    + rewrite tbl_get_insert_old in Hr by done. destruct (h_refs0 v r Hr) as [[x Hx] ?]. split; [|done].
      case_decide; rewrite Hx; by eexists.
  - intros i r Hr. rewrite tbl_set_get. case_decide; rewrite Hr; eexists; split; try done; by repeat split.
Qed.

Lemma keeps_create_normalized_version tender snap parser fields :
  keeps (create_normalized_version tender snap parser fields).
Proof.
  intros s Hs. rewrite create_normalized_version_eq. destruct (exists_in (tenders s) tender) eqn:Ht; [|done].
  destruct (exists_in (snapshots s) snap) eqn:Hn; [|done]. apply exists_in_spec in Ht, Hn. by apply with_version_ok.
Qed.

(** The other store functions are made of these. *)
Ltac keeps_tac := repeat (first [solve [eauto 2 with keeps nocore] | apply keeps_bind; [|intros ?] | apply keeps_each; intros ?
  | match goal with |- keeps (match ?x with _ => _ end) => destruct x end]).
#[local] Hint Resolve keeps_ret keeps_raise keeps_pure keeps_gets keeps_require keeps_boq_lines keeps_signals
  keeps_change_events keeps_recalc_flags keeps_snapshots : keeps.

Lemma keeps_store_signal g : keeps (store_signal g).
Proof. unfold store_signal. keeps_tac. Qed.
Lemma keeps_store_boq_lines src event version snap lines : keeps (store_boq_lines src event version snap lines).
Proof. unfold store_boq_lines, store_boq_line. keeps_tac. Qed.
Lemma keeps_store_tender_change_event tender ty changes detected snap :
  keeps (store_tender_change_event tender ty changes detected snap).
Proof. unfold store_tender_change_event. keeps_tac. Qed.
Lemma keeps_store_boq_line_recalc_flag tender line event flagged : keeps (store_boq_line_recalc_flag tender line event flagged).
Proof. unfold store_boq_line_recalc_flag. keeps_tac. Qed.
Lemma keeps_upsert_watch_state tender checked : keeps (upsert_watch_state tender checked).
Proof.
  unfold upsert_watch_state. keeps_tac.
  apply (keeps_watch_state (λ s, <[tender := _]> (watch_state s)) (λ _, Ok ())).
Qed.
End Keeps.
#[export] Hint Resolve keeps_ret keeps_raise keeps_pure keeps_gets keeps_require keeps_boq_lines
  keeps_signals keeps_change_events keeps_recalc_flags keeps_outbox keeps_exceptions keeps_boq_imports
  keeps_watch_state keeps_snapshots keeps_save_raw_snapshot keeps_get_or_create_tender keeps_create_normalized_version
  keeps_store_signal keeps_store_boq_lines keeps_store_tender_change_event keeps_store_boq_line_recalc_flag
  keeps_upsert_watch_state : keeps.
Ltac keeps_tac := repeat (first [solve [eauto 2 with keeps nocore] | apply keeps_bind; [|intros ?] | apply keeps_each; intros ?
  | match goal with |- keeps (match ?x with _ => _ end) => destruct x end]).

Lemma empty_history_ok : history_ok empty_tdb.
Proof. split; simpl; try done; try (intros; set_solver); split; constructor. Qed.
End TenderDb.
