(* ===== verification/Ingestion.v ===== *)
(** * Ingestion of source responses

    [packages/tender/etender_connector.py] and
    [packages/tender/worldbank_connector.py]: the evidence of a response is
    stored, its shape is compared with the contract, and a response without
    drift becomes a normalized version or signals. The live fetches, which
    build a URL and check the status, are in [LiveFetch]. *)

From stdpp Require Import base gmap sets strings list sorting.
From Stdlib Require Import ZArith Lia.
From S2P Require Import Prelude Json Query Outbox PyFloat PyStr SchemaDrift Signals TenderDb.

Module Ingestion.
Import Drift TenderDb.
#[local] Open Scope Z_scope.
#[local] Arguments Outbox.enqueue : simpl never.

Definition PARSER_VERSION : string := "etender-v3".

Definition enqueue_event (now : Z) (ty ident ev : string) (p : payload) (corr : string) : act Z := λ s,
  let ' (i, t) := Outbox.enqueue now ty ident ev p corr (outbox s) in (Ok i, set_outbox t s).

(** The items of a page: a list of dicts. *)
Definition dict_of (v : json) : result exn payload :=
  match as_dict v with Some p => Ok p | None => Err (no_attribute v "keys") end.
Definition items_of (v : json) : result exn (list payload) := let! l := py_iter v in mapM dict_of l.

Section Ingest.
Context `{PyText} `{Bytes}.

(** The drift of a page, checked field by field and then item by item, with the
    contract it breaks. *)
Definition page_drift (c : SourceContract) (items : option (SourceContract * result exn (list payload))) (p : payload)
    : result exn (SchemaDrift * string) :=
  let drift := detect_schema_drift c p in
  match items with
  | Some (ic, its) =>
      if has_drift drift then Ok (drift, contract_name c)
      else let! l := its in Ok (detect_schema_drift_over_items ic l, contract_name ic)
  | None => Ok (drift, contract_name c)
  end.

Definition drift_payload (name identity : string) (d : SchemaDrift) : payload :=
  [("contract", JStr name); ("identity_key", JStr identity); ("added_fields", JArr (map JStr (added_fields d)));
   ("removed_fields", JArr (map JStr (removed_fields d))); ("type_changed_fields", JArr (map JStr (type_changed_fields d)))].

(** [if drift.has_drift: ... raise SchemaDriftDetected(...)] *)
Definition report_drift (now : Z) (aggregate identity corr : string) (snapshot : Z) (dn : SchemaDrift * string) : act unit :=
  if has_drift dn.1 then
    do! _ := enqueue_event now aggregate dn.2 "schema_drift_event" (drift_payload dn.2 identity dn.1) corr in
    raise (DriftDetected dn.1 dn.2 snapshot)
  else ret ().

Definition ingest (now : Z) (c : SourceContract) (identity_params : payload) (raw_body : string) (p : payload)
    (normalize_fields : payload → result exn payload) (corr : string)
    (items : option (SourceContract * result exn (list payload))) : act (Z * version_row) :=
  do! identity := pure (canonical_identity c identity_params) in
  do! snapshot := save_raw_snapshot now "etender" (contract_name c) identity raw_body (contract_name c) corr in
  do! dn := pure (page_drift c items p) in
  do! _ := report_drift now "tender_source_contract" identity corr snapshot dn in
  do! tender := get_or_create_tender now "etender" identity in
  do! fields := pure (normalize_fields p) in
  create_normalized_version tender snapshot PARSER_VERSION fields.

Definition event_details_fields (p : payload) : result exn payload :=
  let v := JObj p in
  let! i := py_index v "id" in
  let! name := py_index v "tenderName" in
  let! organization := py_index v "organizationName" in
  let! ty := py_index v "eventType" in
  let! number := py_index v "documentNumber" in
  Ok [("id", i); ("end_date", dict_get "endDate" p); ("envelope_date", dict_get "envelopeDate" p);
      ("start_date", dict_get "startDate" p); ("tender_name", name); ("organization_name", organization);
      ("organization_voen", dict_get "organizationVoen" p); ("event_type_actual", ty);
      ("estimated_amount", dict_get "estimatedAmount" p); ("document_number", number)].

Definition ingest_event_details (now : Z) (raw_body : string) (p : payload) (corr : string) : act (Z * version_row) :=
  do! i := pure (py_index (JObj p) "id") in
  ingest now EVENT_DETAILS_CONTRACT [("id", i)] raw_body p event_details_fields corr None.

(** [[item[k] for item in p["items"]]] *)
Definition item_fields (p : payload) (k : string) : result exn json :=
  let! items := py_index (JObj p) "items" in
  let! l := py_iter items in
  let! vs := mapM (λ item, py_index item k) l in
  Ok (JArr vs).

Definition bom_page_fields (event_id : Z) (p : payload) : result exn payload :=
  let v := JObj p in
  let! current := py_index v "currentPage" in
  let! pages := py_index v "totalPages" in
  let! total := py_index v "totalItems" in
  let! in_page := py_index v "itemsInPage" in
  let! ids := item_fields p "id" in
  Ok [("event_id", JInt event_id); ("current_page", current); ("total_pages", pages); ("total_items", total);
      ("items_in_page", in_page); ("line_ids", ids)].

Definition ingest_bom_lines_page (now event_id : Z) (raw_body : string) (p : payload) (corr : string)
    : act (Z * version_row) :=
  do! page := pure (py_index (JObj p) "currentPage") in
  ingest now BOM_LINES_PAGE_CONTRACT [("event_id", JInt event_id); ("PageNumber", page)] raw_body p
    (bom_page_fields event_id) corr
    (Some (BOM_LINE_ITEM_CONTRACT, let! items := py_index (JObj p) "items" in items_of items)).

Definition events_list_fields (p : payload) : result exn payload :=
  let v := JObj p in
  let! current := py_index v "currentPage" in
  let! pages := py_index v "totalPages" in
  let! total := py_index v "totalItems" in
  let! ids := item_fields p "eventId" in
  Ok [("current_page", current); ("total_pages", pages); ("total_items", total); ("event_ids_in_page", ids)].

(** [{**query_params, "PageNumber": ...}] *)
Definition with_param (k : string) (v : json) (params : payload) : payload := (k, v) :: params.

Definition ingest_events_list_page (now : Z) (raw_body : string) (p query_params : payload) (corr : string)
    : act (Z * version_row) :=
  do! page := pure (py_index (JObj p) "currentPage") in
  ingest now EVENTS_LIST_PAGE_CONTRACT (with_param "PageNumber" page query_params) raw_body p events_list_fields corr None.

(** [for item in items: ... signal_ids.append(await store_signal(conn, signal))] *)
Fixpoint store_signals (build : json → result exn (option Signals.Signal)) (items : list json) : act (list Z) :=
  match items with
  | [] => ret []
  | item :: rest =>
      do! g := pure (build item) in
      match g with
      | None => store_signals build rest
      | Some g =>
          do! i := store_signal g in
          do! is_ := store_signals build rest in
          ret (i :: is_)
      end
  end.

Definition design_tender_item (snapshot : Z) (observed corr : string) (item : json) : result exn (option Signals.Signal) :=
  let! event_name := py_index item "eventName" in
  let! t := py_text event_name "lower" in
  if Signals.classify_design_tender t then
    let! g := Signals.build_design_tender_signal item snapshot observed corr in Ok (Some g)
  else Ok None.

Definition ingest_design_tender_signals_page (now : Z) (raw_body : string) (p query_params : payload)
    (corr observed : string) : act (list Z) :=
  do! v := ingest_events_list_page now raw_body p query_params corr in
  do! items := pure (let! items := py_index (JObj p) "items" in py_iter items) in
  store_signals (design_tender_item (tv_snapshot_id v.2) observed corr) items.

(** A page of signals: evidence, drift, one signal per item. *)
Definition ingest_signal_page (now : Z) (src : string) (c ic : SourceContract) (identity_params : payload) (raw_body : string)
    (p : payload) (its : result exn (list json)) (build : Z → json → result exn Signals.Signal) (corr : string) : act (list Z) :=
  do! identity := pure (canonical_identity c identity_params) in
  do! snapshot := save_raw_snapshot now src (contract_name c) identity raw_body (contract_name c) corr in
  do! dn := pure (page_drift c (Some (ic, let! l := its in mapM dict_of l)) p) in
  do! _ := report_drift now "signal_source_contract" identity corr snapshot dn in
  do! items := pure its in
  store_signals (λ item, let! g := build snapshot item in Ok (Some g)) items.

Definition ingest_procurement_plan_page (now : Z) (raw_body : string) (p : payload) (year page_number : Z)
    (buyer_organization_name corr observed : string) : act (list Z) :=
  ingest_signal_page now "etender" APP_LIST_PAGE_CONTRACT APP_ITEM_CONTRACT
    [("Year", JStr (py_str_Z year)); ("PageNumber", JStr (py_str_Z page_number));
     ("BuyerOrganizationName", JStr buyer_organization_name)]
    raw_body p (let! items := py_index (JObj p) "items" in py_iter items)
    (λ snapshot item, Signals.build_procurement_plan_signal item snapshot observed corr) corr.

(** [list(payload["projects"].values())] is read before the drift check. *)
Definition projects_of (p : payload) : result exn (list json) :=
  let! v := py_index (JObj p) "projects" in
  match as_dict v with Some d => Ok d.*2 | None => Err (no_attribute v "values") end.

Definition ingest_donor_pipeline_page (now : Z) (raw_body : string) (p : payload) (os : Z) (corr observed : string)
    : act (list Z) :=
  let c := DONOR_PIPELINE_PAGE_CONTRACT in
  do! identity := pure (canonical_identity c [("countrycode_exact", JStr "AZ"); ("os", JStr (py_str_Z os))]) in
  do! snapshot := save_raw_snapshot now "worldbank_projects_api" (contract_name c) identity raw_body (contract_name c) corr in
  do! projects := pure (projects_of p) in
  do! dn := pure (page_drift c (Some (DONOR_PIPELINE_PROJECT_CONTRACT, mapM dict_of projects)) p) in
  do! _ := report_drift now "signal_source_contract" identity corr snapshot dn in
  store_signals (λ item, let! g := Signals.build_donor_pipeline_signal item snapshot observed corr in Ok (Some g)) projects.

(** ** What an ingestion leaves *)

Lemma bind_inv {A B} (m : act A) (k : A → act B) s r s' :
  bind m k s = (r, s') →
  (∃ a s1, m s = (Ok a, s1) ∧ k a s1 = (r, s')) ∨ (∃ e, m s = (Err e, s') ∧ r = Err e).
Proof. unfold bind. destruct (m s) as [[a|e] s1]; [eauto|]. intros [= <- <-]. eauto. Qed.
Lemma pure_inv {A} (x : result exn A) s r s' : pure x s = (r, s') → s' = s ∧ r = map_err Raised x.
Proof. by intros [= <- <-]. Qed.

Definition evidence (now : Z) (src resource identity raw_body : string) (body : json) (corr : string) : snapshot_row := {|
  sn_source := src; sn_resource_type := resource; sn_identity_key := identity; sn_checksum := checksum_of raw_body;
  sn_body := body; sn_contract_version := resource; sn_correlation_id := corr; sn_fetched_at := now |}.

Lemma save_raw_snapshot_inv now src resource identity raw corr s i s' :
  save_raw_snapshot now src resource identity raw resource corr s = (Ok i, s') →
  ∃ body, jsonb_of_bytes raw = Ok body ∧ i = next_id (snapshots s) ∧
    s' = set_snapshots (tbl_insert (snapshots s) (evidence now src resource identity raw body corr)).2 s.
Proof.
  intros [(b & s1 & [-> Hb]%pure_inv & Hi)|(e & _ & ?)]%bind_inv; [|done].
  destruct (jsonb_of_bytes raw) as [b'|]; [|done]. injection Hb as ->. injection Hi as <- <-. by exists b'.
Qed.

Lemma keeps_enqueue_event now ty ident ev p corr : keeps (enqueue_event now ty ident ev p corr).
Proof. intros s Hs. apply (keeps_outbox _ s Hs). Qed.
#[local] Hint Resolve keeps_enqueue_event : keeps.
Lemma keeps_report_drift now aggregate identity corr snapshot dn : keeps (report_drift now aggregate identity corr snapshot dn).
Proof. unfold report_drift. keeps_tac. Qed.
#[local] Hint Resolve keeps_report_drift : keeps.
Lemma keeps_ingest now c params raw p norm corr items : keeps (ingest now c params raw p norm corr items).
Proof. unfold ingest. keeps_tac. Qed.
#[local] Hint Resolve keeps_ingest : keeps.
Lemma keeps_store_signals build items : keeps (store_signals build items).
Proof. induction items as [|item rest IH]; simpl; keeps_tac. Qed.
#[local] Hint Resolve keeps_store_signals : keeps.

Lemma keeps_ingest_event_details now raw p corr : keeps (ingest_event_details now raw p corr).
Proof. unfold ingest_event_details. keeps_tac. Qed.
Lemma keeps_ingest_bom_lines_page now event raw p corr : keeps (ingest_bom_lines_page now event raw p corr).
Proof. unfold ingest_bom_lines_page. keeps_tac. Qed.
Lemma keeps_ingest_events_list_page now raw p q corr : keeps (ingest_events_list_page now raw p q corr).
Proof. unfold ingest_events_list_page. keeps_tac. Qed.
#[local] Hint Resolve keeps_ingest_events_list_page : keeps.
Lemma keeps_ingest_design_tender_signals_page now raw p q corr observed :
  keeps (ingest_design_tender_signals_page now raw p q corr observed).
Proof. unfold ingest_design_tender_signals_page. keeps_tac. Qed.
Lemma keeps_ingest_procurement_plan_page now raw p year page buyer corr observed :
  keeps (ingest_procurement_plan_page now raw p year page buyer corr observed).
Proof. unfold ingest_procurement_plan_page, ingest_signal_page. keeps_tac. Qed.
Lemma keeps_ingest_donor_pipeline_page now raw p os corr observed :
  keeps (ingest_donor_pipeline_page now raw p os corr observed).
Proof. unfold ingest_donor_pipeline_page. keeps_tac. Qed.

Lemma page_drift_ok c items p d n : page_drift c items p = Ok (d, n) → has_drift d = false →
  has_drift (detect_schema_drift c p) = false ∧
  ∀ ic its, items = Some (ic, its) → ∃ l, its = Ok l ∧ has_drift (detect_schema_drift_over_items ic l) = false.
Proof.
  unfold page_drift. destruct items as [[ic its]|]; [|by intros [= <- _]].
  destruct (has_drift (detect_schema_drift c p)) eqn:Hd; [intros [= <- _]; congruence|].
  rewrite rbind_ok. intros (l & -> & [= <- _]) Hn. split; [done|]. intros ? ? [= <- <-]. eauto.
Qed.

Lemma get_or_create_inv now src identity s t s' : history_ok s → get_or_create_tender now src identity s = (Ok t, s') →
  snapshots s' = snapshots s ∧ versions s' = versions s ∧ outbox s' = outbox s ∧
  ∃ r, tbl_get (tenders s') t = Some r ∧ tn_source r = src ∧ tn_identity_key r = identity.
Proof.
  intros Hs. unfold get_or_create_tender, bind, gets. destruct (tbl_select _ _) as [|[i r] l] eqn:Hf.
  - intros [= <- <-]. cbn -[tbl_insert]. split_and!; try done.
    eexists; split; [apply (tbl_get_insert_new (tenders s)), Hs|by split].
  - intros [= <- <-]. split_and!; try done.
    assert ((i, r) ∈ (i, r) :: l) as Hin by left. rewrite <-Hf in Hin. apply elem_of_tbl_select in Hin as [Hp Hin].
    exists r. rewrite (tbl_get_spec (tenders s)) by apply Hs. unfold is_tender in Hp.
    by apply andb_prop in Hp as [->%String.eqb_eq ->%String.eqb_eq].
Qed.

Lemma create_version_inv t snap parser fields s v row s' : history_ok s →
  create_normalized_version t snap parser fields s = (Ok (v, row), s') →
  row = new_version s t snap parser fields ∧ v = next_id (versions s) ∧ s' = with_version s row ∧
  tbl_get (versions s') v = Some row ∧ version_number row = Z.of_nat (length (versions_of t (versions s))) + 1.
Proof.
  intros Hs. rewrite create_normalized_version_eq. destruct (exists_in (tenders s) t); [|done].
  destruct (exists_in (snapshots s) snap); [|done]. intros [= <- <- <-]. split_and!; try done.
  - unfold with_version. cbn -[tbl_insert]. apply tbl_get_insert_new, Hs.
  - by apply next_number_spec.
Qed.

(** What an ingestion leaves alone, and the evidence of a drift *)
Definition ingest_frame (raw_body : string) (s s' : tdb) (r : result terror (Z * version_row)) : Prop :=
  match r with
  | Err (Raised _) | Err (QueueError _) => True
  | _ => boq_lines s' = boq_lines s ∧ boq_imports s' = boq_imports s ∧ exceptions s' = exceptions s ∧
         change_events s' = change_events s ∧ recalc_flags s' = recalc_flags s ∧ watch_state s' = watch_state s ∧
         match r with
         | Err (DriftDetected d n i) => tenders s' = tenders s ∧ versions s' = versions s ∧
             ∃ e, tbl_get (snapshots s') i = Some e ∧ sn_checksum e = checksum_of raw_body
         | _ => True
         end
  end.

Lemma ingest_frames now c params raw p norm corr items s r s' : history_ok s →
  ingest now c params raw p norm corr items s = (r, s') → ingest_frame raw s s' r.
Proof.
  intros Hs. unfold ingest, save_raw_snapshot, report_drift, get_or_create_tender, bind, pure, gets, raise, ret.
  destruct (canonical_identity c params); [|by intros [= <- <-]]. simpl.
  destruct (jsonb_of_bytes raw) as [body|]; [|by intros [= <- <-]]. simpl.
  destruct (page_drift c items p) as [[d n]|]; [|by intros [= <- <-]]. simpl.
  destruct (has_drift d); simpl.
  { intros [= <- <-]. simpl. split_and!; try done. eexists.
    split; [apply (tbl_get_insert_new (snapshots s)), Hs|by split]. }
  destruct (tbl_select _ _) as [|[i t] l]; simpl; (destruct (norm p); [|by intros [= <- <-]]); simpl;
    rewrite create_normalized_version_eq; repeat case_match; by intros [= <- <-].
Qed.

Lemma ingest_ok_version now c params raw p norm corr items s v row s' : history_ok s →
  ingest now c params raw p norm corr items s = (Ok (v, row), s') → tbl_get (versions s') v = Some row.
Proof.
  intros Hs Hr. unfold ingest in Hr.
  apply bind_ok in Hr as (identity & s1 & Hid & Hr). apply pure_ok in Hid as [_ ->].
  apply bind_ok in Hr as (snap & s2 & Hsn & Hr).
  pose proof (keeps_save_raw_snapshot now "etender" (contract_name c) identity raw (contract_name c) corr s Hs) as [Hs2 _].
  rewrite Hsn in Hs2. simpl in Hs2. apply bind_ok in Hr as (dn & s3 & Hd & Hr). apply pure_ok in Hd as [_ ->].
  apply bind_ok in Hr as (u & s4 & Hrep & Hr).
  pose proof (keeps_report_drift now "tender_source_contract" identity corr snap dn s2 Hs2) as [Hs4 _].
  rewrite Hrep in Hs4. simpl in Hs4. apply bind_ok in Hr as (t & s5 & Ht & Hr).
  pose proof (keeps_get_or_create_tender now "etender" identity s4 Hs4) as [Hs5 _]. rewrite Ht in Hs5. simpl in Hs5.
  apply bind_ok in Hr as (fs & s6 & Hf & Hr). apply pure_ok in Hf as [_ ->].
  by apply create_version_inv in Hr as (_ & _ & _ & Hg & _).
Qed.

(** C13: whatever its outcome an ingestion only adds to the tables of facts and
    keeps the numbering of the versions. If it returns, the evidence is stored
    under the digest of the bytes, the response and its items had no drift, and
    the new version, numbered one more than the versions before it, is the
    current one of the tender with the contract's identity. If it reports a
    drift, the drift is real, the evidence is stored all the same, no tender and
    no version changes, and exactly one [schema_drift_event] is in the outbox. *)
Theorem ingest_effect now c params raw p norm corr items s r s' :
  history_ok s →
  ingest now c params raw p norm corr items s = (r, s') →
  history_ok s' ∧ extends s s' ∧
  match r with
  | Ok (v, row) =>
      (∃ identity body, canonical_identity c params = Ok identity ∧ jsonb_of_bytes raw = Ok body ∧
         tbl_get (snapshots s') (tv_snapshot_id row) =
           Some (evidence now "etender" (contract_name c) identity raw body corr) ∧
         ∃ t, tbl_get (tenders s') (tv_tender_id row) = Some t ∧ tn_source t = "etender" ∧ tn_identity_key t = identity ∧
           current_version_id t = Some v) ∧
      has_drift (detect_schema_drift c p) = false ∧
      (∀ ic its, items = Some (ic, its) → ∃ l, its = Ok l ∧ has_drift (detect_schema_drift_over_items ic l) = false) ∧
      tbl_get (versions s') v = Some row ∧ norm p = Ok (normalized_fields row) ∧
      version_number row = Z.of_nat (length (versions_of (tv_tender_id row) (versions s))) + 1 ∧ outbox s' = outbox s
  | Err (DriftDetected d n i) =>
      has_drift d = true ∧ page_drift c items p = Ok (d, n) ∧ tenders s' = tenders s ∧ versions s' = versions s ∧
      ∃ identity body, canonical_identity c params = Ok identity ∧ jsonb_of_bytes raw = Ok body ∧
        tbl_get (snapshots s') i = Some (evidence now "etender" (contract_name c) identity raw body corr) ∧
        outbox s' = (Outbox.enqueue now "tender_source_contract" n "schema_drift_event" (drift_payload n identity d) corr (outbox s)).2
  | Err _ => True
  end.
Proof.
  intros Hs Hr. pose proof (keeps_ingest now c params raw p norm corr items s Hs) as Hk. rewrite Hr in Hk.
  destruct Hk as [Hk He]. do 2 (split; [done|]). clear Hk He.
  apply bind_inv in Hr as [(identity & s1 & [-> Hid]%pure_inv & Hr)|(e & [_ He]%pure_inv & ->)];
    [|destruct (canonical_identity c params); [done|]; by injection He as ->].
  destruct (canonical_identity c params) as [ident|] eqn:Hci; [|done]. injection Hid as ->.
  apply bind_inv in Hr as [(snap & s1 & (body & Hb & -> & ->)%save_raw_snapshot_inv & Hr)|(e & Hsv & ->)].
  2: { apply bind_inv in Hsv as [(? & ? & _ & Hins)|(e' & [_ He]%pure_inv & [= <-])]; [done|].
       destruct (jsonb_of_bytes raw); [done|]. by injection He as ->. }
  set (s1 := set_snapshots _ s) in *.
  assert (tbl_get (snapshots s1) (next_id (snapshots s)) = Some (evidence now "etender" (contract_name c) ident raw body corr)) as Hev
    by (apply (tbl_get_insert_new (snapshots s)); apply Hs).
  assert (history_ok s1) as Hs1 by apply (keeps_snapshots _ s Hs).
  apply bind_inv in Hr as [([d n] & s2 & [-> Hd]%pure_inv & Hr)|(e & [_ He]%pure_inv & ->)];
    [|destruct (page_drift c items p); [done|]; by injection He as ->].
  destruct (page_drift c items p) as [dn|] eqn:Hpd; [|done]. injection Hd as <-.
  apply bind_inv in Hr as [([] & s2 & Hrep & Hr)|(e & Hrep & ->)].
  2: { unfold report_drift in Hrep. cbn [fst snd] in Hrep. destruct (has_drift d) eqn:Hdr; [|done].
       apply bind_inv in Hrep as [(k & s2 & Hq & Hra)|(e' & Hq & _)]; [|done]. injection Hra as <- <-.
       injection Hq as _ <-. split_and!; try done. by exists ident, body. }
  unfold report_drift in Hrep. cbn [fst snd] in Hrep. destruct (has_drift d) eqn:Hdr.
  { apply bind_inv in Hrep as [(k & s3 & _ & Hra)|(e' & _ & ?)]; done. }
  injection Hrep as <-. destruct (page_drift_ok _ _ _ _ _ Hpd Hdr) as [Hd1 Hd2].
  apply bind_inv in Hr as [(t & s2 & Ht & Hr)|(e & Ht & ->)].
  2: { unfold get_or_create_tender, bind, gets in Ht. by destruct (tbl_select _ _) as [|[]]. }
  pose proof (keeps_get_or_create_tender now "etender" ident s1 Hs1) as [Hs2 _]. rewrite Ht in Hs2. simpl in Hs2.
  apply get_or_create_inv in Ht as (Hsn & Hve & Hob & tr & Htr & Hsrc & Hik); [|done].
  apply bind_inv in Hr as [(fields & s3 & [-> Hf]%pure_inv & Hr)|(e & [_ He]%pure_inv & ->)];
    [|destruct (norm p); [done|]; by injection He as ->].
  destruct (norm p) as [fs|] eqn:Hnp; [|done]. injection Hf as ->.
  destruct r as [[v row]|e].
  2: { rewrite create_normalized_version_eq in Hr. repeat case_match; simplify_eq; done. }
  apply create_version_inv in Hr as (-> & -> & -> & Hg & Hn); [|done]. split_and!; try done.
  - exists ident, body. split_and!; try done.
    + unfold with_version. simpl. by rewrite Hsn.
    + exists (point_to (next_id (versions s2)) tr). unfold with_version. cbn -[tbl_set tbl_get].
      rewrite tbl_get_set_eq, Htr. by split_and!.
  - by rewrite Hn, Hve.
Qed.
End Ingest.

(** The identity is read from the response before its evidence is stored: a
    response without the identity's field is neither stored nor reported. *)
Lemma identity_field_missing `{PyText} `{Bytes} now raw p corr s : assoc "id" p = None →
  ingest_event_details now raw p corr s = (Err (Raised (KeyError "id")), s).
Proof. intros Hp. unfold ingest_event_details, bind, pure, py_index. by rewrite Hp. Qed.

Lemma projects_field_missing `{PyText} `{Bytes} now raw p os corr observed body s :
  assoc "projects" p = None → jsonb_of_bytes raw = Ok body →
  (ingest_donor_pipeline_page now raw p os corr observed s).1 = Err (Raised (KeyError "projects")).
Proof.
  intros Hp Hb. unfold ingest_donor_pipeline_page, save_raw_snapshot, projects_of, bind, pure, py_index. rewrite Hb, Hp. done.
Qed.

(** ** Witness *)

(** A digest and a reader of bytes for evaluation: any functions do. *)
Definition demo_bytes : Bytes := {| sha256_hex := λ s, s; jsonb_of_bytes := λ s, Ok (JStr s) |}.

Definition event_details_payload (i : Z) (end_date : Z) : payload :=
  map (λ f, (field_name f,
    if String.eqb (field_name f) "id" then JInt i
    else if String.eqb (field_name f) "endDate" then JInt end_date
    else if String.eqb (field_type f) "number" then JInt 1
    else if String.eqb (field_type f) "string" then JStr "x"
    else if String.eqb (field_type f) "boolean" then JBool true
    else if String.eqb (field_type f) "array" then JArr []
    else JNull)) (fields EVENT_DETAILS_CONTRACT).

Lemma ingest_effect_witness :
  let H := ascii_text in let B := demo_bytes in
  let p := event_details_payload 355920 7 in
  ∃ v row s', ingest 0 EVENT_DETAILS_CONTRACT [("id", JInt 355920)] "raw" p event_details_fields "c" None empty_tdb
      = (Ok (v, row), s') ∧ history_ok s' ∧ version_number row = 1 ∧
    (∃ body, option_map sn_checksum (tbl_get (snapshots s') (tv_snapshot_id row)) = Some "raw" ∧ jsonb_of_bytes "raw" = Ok body).
Proof.
  intros H B p. pose (x := ingest 0 EVENT_DETAILS_CONTRACT [("id", JInt 355920)] "raw" p event_details_fields "c" None empty_tdb).
  assert (is_ok x.1 = true) as Hv by (vm_compute; reflexivity).
  destruct x as [r s'] eqn:Hx. subst x.
  destruct (ingest_effect 0 EVENT_DETAILS_CONTRACT _ "raw" p event_details_fields "c" None empty_tdb r s' empty_history_ok Hx)
    as (Hh & _ & Hr).
  destruct r as [[v row]|e]; [|discriminate Hv]. destruct Hr as ((identity & body & _ & Hb & Hsn & _) & _ & _ & _ & _ & Hn & _).
  exists v, row, s'. split; [exact Hx|]. split; [exact Hh|]. split; [exact Hn|]. exists body. rewrite Hsn. split; [reflexivity|exact Hb].
Defined.
End Ingestion.
