(* ===== verification/BoqPages.v ===== *)
(** * Resumable pages of a bill of quantities

    [packages/tender/bom_lines_job.py]: one page of an import, resumed from the
    checkpoint of the job. The page is fetched by a parameter. A page whose
    shape drifted is recorded for a human and skipped. *)

From stdpp Require Import base gmap sets strings list sorting.
From Stdlib Require Import ZArith Lia.
From S2P Require Import Prelude Json Query Jobs Outbox Worker ExceptionQueue BoqImport PyStr Regex SchemaDrift BoqLine TenderDb Ingestion.

Module BoqPages.
Import Drift TenderDb Ingestion.
#[local] Open Scope Z_scope.

(** [except SchemaDriftDetected as drift_exc: ...] *)
Definition catching_drift {A} (m : act A) (handler : SchemaDrift → string → Z → act A) : act A := λ s,
  match m s with
  | (Err (DriftDetected d n i), s') => handler d n i s'
  | r => r
  end.

Section Pages.
Context `{PyText} `{Bytes} `{PyRegex}.

(** The record of a drift for a human; the evidence it names was stored. *)
Definition queue_drift (now : Z) (src corr : string) (d : SchemaDrift) (contract : string) (snapshot : Z) : act Z := λ s,
  match Exceptions.enqueue_exception (exists_in (snapshots s)) now src "schema_drift" "needs_human" (drift_text d) corr
          (Some snapshot) (Some contract) (exceptions s) with
  | Ok (x, t) => (Ok x.1, set_exceptions t s)
  | Err e => (Err (QueueError e), s)
  end.

(** Columns of integers, [None] for NULL *)
Definition as_int_column (column : string) (v : json) : result exn Z :=
  match v with JInt z => Ok z | _ => Err (TypeError column) end.
Definition as_opt_int_column (column : string) (v : json) : result exn (option Z) :=
  match v with JNull => Ok None | JInt z => Ok (Some z) | _ => Err (TypeError column) end.

(** [total_pages is not None and next_page >= total_pages] *)
Definition past_last (page : Z) (total_pages : json) : result exn bool :=
  match total_pages with JNull => Ok false | _ => Worker.py_ge (JInt page) total_pages end.

Definition record_page (event page lines : Z) (total pages : option Z) (checksum : string)
    : act (Z * BoqImport.BoqImportStatus) := λ s,
  let ' (x, t) := BoqImport.record_page_fetched "etender" event page lines total pages checksum (boq_imports s) in
  (Ok x, set_boq_imports t s).

Record PageResult := {
  next_page : Z;
  page_done : bool;
  tender_version_id : option Z;
  boq_status : option string;
  exception_queue_id : option Z;
  boq_lines_stored : Z;
}.

(** Either the new version or the record of the drift. *)
Definition ingest_or_queue (now event_id : Z) (raw_body : string) (p : payload) (corr : string)
    : act (Z * version_row + Z) :=
  catching_drift (do! v := ingest_bom_lines_page now event_id raw_body p corr in ret (inl v))
    (λ d n i, do! q := queue_drift now "etender" corr d n i in ret (inr q)).

(** The rest of the page once it is a version *)
Definition store_page (event_id page : Z) (raw_body : string) (p : payload) (v : Z * version_row) : act PageResult :=
  do! in_page := pure (py_index (JObj p) "itemsInPage") in
  do! lines_on_page := pure (as_int_column "stored_lines" in_page) in
  do! total := pure (as_opt_int_column "expected_total" (dict_get "totalItems" p)) in
  do! pages := pure (as_opt_int_column "expected_pages" (dict_get "totalPages" p)) in
  do! st := record_page event_id page lines_on_page total pages (checksum_of raw_body) in
  do! items := pure (let! items := py_index (JObj p) "items" in py_iter items) in
  do! lines := pure (build_boq_lines page items) in
  do! stored := store_boq_lines "etender" event_id v.1 (tv_snapshot_id v.2) lines in
  do! last := pure (past_last page (dict_get "totalPages" p)) in
  ret {| next_page := page + 1; page_done := last; tender_version_id := Some v.1;
         boq_status := Some (BoqImport.status st.2); exception_queue_id := None; boq_lines_stored := stored |}.

Definition job_int (column : string) (v : option json) : result exn Z :=
  match v with Some v => as_int_column column v | None => Err (KeyError column) end.

Definition process_bom_lines_page (now : Z) (x : Jobs.Job) (fetch_page : Z → Z → result exn (string * payload))
    : act PageResult :=
  let j := Jobs.job x in
  do! event_id := pure (job_int "event_id" (assoc "event_id" (Jobs.params (Jobs.identity j)))) in
  do! page := pure (job_int "next_page" (Some (default (JInt 1) (assoc "next_page" (Jobs.checkpoint j))))) in
  do! got := pure (fetch_page event_id page) in
  let ' (raw_body, p) := got in
  do! r := ingest_or_queue now event_id raw_body p (Jobs.correlation_id (Jobs.identity j)) in
  match r with
  | inr q =>
      do! last := pure (past_last page (dict_get "totalPages" p)) in
      ret {| next_page := page + 1; page_done := last; tender_version_id := None; boq_status := None;
             exception_queue_id := Some q; boq_lines_stored := 0 |}
  | inl v => store_page event_id page raw_body p v
  end.
End Pages.

(** ** What a page leaves *)

Section PageSpec.
Context `{PyText} `{Bytes} `{PyRegex}.

Lemma queue_drift_ok now src corr d n i s q s' : queue_drift now src corr d n i s = (Ok q, s') →
  ∃ t r, s' = set_exceptions t s ∧ (q, r) ∈ rows t ∧ Exceptions.same_key src "schema_drift" corr r = true.
Proof.
  unfold queue_drift, Exceptions.enqueue_exception, Exceptions.open_records, Exceptions.insert_exception.
  destruct (tbl_select _ _) as [|[j r] l] eqn:Hf.
  - destruct (exists_in (snapshots s) i); simpl; [|done]. intros [= <- <-]. eexists _, _. split; [done|]. simpl. split; [apply elem_of_app; right; by left|]. unfold Exceptions.same_key. simpl. by rewrite !String.eqb_refl.
  - intros [= <- <-]. exists (exceptions s), r. split; [by destruct s|].
    assert ((j, r) ∈ (j, r) :: l) as Hin by left. rewrite <-Hf in Hin. by apply elem_of_tbl_select in Hin as [? ?].
Qed.

Lemma keeps_queue_drift now src corr d n i : keeps (queue_drift now src corr d n i).
Proof.
  intros s Hs. unfold queue_drift.
  destruct (Exceptions.enqueue_exception _ _ _ _ _ _ _ _ _ _) as [[x t]|e]; [|done].
  apply (keeps_exceptions (λ _, t) (λ _, Ok x.1) s Hs).
Qed.

Lemma keeps_catching_drift {A} (m : act A) h : keeps m → (∀ d n i, keeps (h d n i)) → keeps (catching_drift m h).
Proof.
  intros Hm Hh s Hs. unfold catching_drift. destruct (Hm s Hs) as [Hs1 He1].
  destruct (m s) as [[a|[d n i|e|e]] s1]; try done. destruct (Hh d n i s1 Hs1) as [? ?]. split; [done|by etrans].
Qed.

Lemma keeps_record_page event page lines total pages ck : keeps (record_page event page lines total pages ck).
Proof.
  intros s Hs. unfold record_page. destruct (BoqImport.record_page_fetched _ _ _ _ _ _ _ _) as [x t].
  apply (keeps_boq_imports (λ _, t) (λ _, Ok x) s Hs).
Qed.
#[local] Hint Resolve keeps_queue_drift keeps_catching_drift keeps_record_page keeps_ingest_bom_lines_page : keeps.

Lemma keeps_ingest_or_queue now event raw p corr : keeps (ingest_or_queue now event raw p corr).
Proof. unfold ingest_or_queue. apply keeps_catching_drift; [|intros d n i]; keeps_tac. Qed.
#[local] Hint Resolve keeps_ingest_or_queue : keeps.
Lemma keeps_process_bom_lines_page now x fetch : keeps (process_bom_lines_page now x fetch).
Proof.
  unfold process_bom_lines_page, store_page. keeps_tac.
Qed.

Lemma record_page_ok event page lines total pages ck s x s' : record_page event page lines total pages ck s = (Ok x, s') →
  s' = set_boq_imports (BoqImport.record_page_fetched "etender" event page lines total pages ck (boq_imports s)).2 s.
Proof. unfold record_page. destruct (BoqImport.record_page_fetched _ _ _ _ _ _ _ _) as [y t]. by intros [= <- <-]. Qed.

Lemma ingest_or_queue_ok now event raw p corr s r s' : ingest_or_queue now event raw p corr s = (Ok r, s') →
  match r with
  | inl v => ingest_bom_lines_page now event raw p corr s = (Ok v, s')
  | inr q => ∃ d n i s1, ingest_bom_lines_page now event raw p corr s = (Err (DriftDetected d n i), s1) ∧
      queue_drift now "etender" corr d n i s1 = (Ok q, s')
  end.
Proof.
  unfold ingest_or_queue, catching_drift, bind.
  destruct (ingest_bom_lines_page now event raw p corr s) as [[v|[d n i|e|e]] s1]; try done.
  - by intros [= <- <-].
  - destruct (queue_drift now "etender" corr d n i s1) as [[q|e] s2] eqn:Hq; [|done]. intros [= <- <-]. by exists d, n, i, s1.
Qed.

Lemma ingest_bom_lines_page_inv now event raw p corr s r s' : history_ok s →
  ingest_bom_lines_page now event raw p corr s = (r, s') → ingest_frame raw s s' r.
Proof.
  intros Hs Hr. unfold ingest_bom_lines_page in Hr.
  apply bind_inv in Hr as [(page & s1 & [-> _]%pure_inv & Hr)|(e & [-> He]%pure_inv & ->)]; [by eapply ingest_frames|].
  destruct (py_index (JObj p) "currentPage"); [done|]. by injection He as ->.
Qed.

(** A processed page advances to the next one, and is the last exactly when
    the response gives a last page and this is it or a later one. A page of the
    declared shape adds its lines, in order, to the lines of the event and is
    counted once in the import; a drifted page changes no line, no version and
    no import, leaves an open record of the drift for a human, and its evidence
    is stored. Nothing stored before is changed either way. *)
Theorem bom_page_processed now x fetch s res s' :
  history_ok s →
  process_bom_lines_page now x fetch s = (Ok res, s') →
  history_ok s' ∧ extends s s' ∧
  ∃ event page raw p, fetch event page = Ok (raw, p) ∧
    next_page res = page + 1 ∧ past_last page (dict_get "totalPages" p) = Ok (page_done res) ∧
    match exception_queue_id res with
    | None =>
        (∃ v lines count total pages, tender_version_id res = Some v ∧
           (let! items := py_index (JObj p) "items" in let! l := py_iter items in build_boq_lines page l) = Ok lines ∧
           boq_lines_stored res = Z.of_nat (length lines) ∧
           map (λ r, (bq_source r, bq_event_id r, bq_line r)) (rows (boq_lines s')).*2 =
             map (λ r, (bq_source r, bq_event_id r, bq_line r)) (rows (boq_lines s)).*2 ++
             map (λ l, ("etender", event, l)) lines ∧
           assoc "itemsInPage" p = Some (JInt count) ∧
           boq_imports s' =
             (BoqImport.record_page_fetched "etender" event page count total pages (checksum_of raw) (boq_imports s)).2) ∧
        exceptions s' = exceptions s
    | Some q =>
        tender_version_id res = None ∧ boq_lines_stored res = 0 ∧
        boq_lines s' = boq_lines s ∧ boq_imports s' = boq_imports s ∧ versions s' = versions s ∧ tenders s' = tenders s ∧
        (∃ r, (q, r) ∈ rows (exceptions s') ∧
           Exceptions.same_key "etender" "schema_drift" (Jobs.correlation_id (Jobs.identity (Jobs.job x))) r = true) ∧
        ∃ i e, tbl_get (snapshots s') i = Some e ∧ sn_checksum e = checksum_of raw
    end.
Proof.
  intros Hs Hr. pose proof (keeps_process_bom_lines_page now x fetch s Hs) as Hk. rewrite Hr in Hk.
  destruct Hk as [Hk He]. do 2 (split; [done|]). unfold process_bom_lines_page in Hr. act_inv Hr.
  rename a into event, a0 into page. destruct a1 as [raw p]. exists event, page, raw, p. split; [done|].
  act_inv Hr. apply ingest_or_queue_ok in Ha2. destruct a as [[v row]|q].
  - apply ingest_bom_lines_page_inv in Ha2 as (Hbl & Hbi & Hex); [|done].
    unfold store_page in Hr. act_inv Hr.
    match goal with Hl : store_boq_lines _ _ _ _ _ _ = _ |- _ => apply store_boq_lines_ok in Hl as (-> & t & -> & Hrows) end.
    match goal with Hc : record_page _ _ _ _ _ _ _ = _ |- _ => apply record_page_ok in Hc as -> end.
    cbn [exception_queue_id next_page page_done]. destruct Hex as [Hex _]. split_and!; try done.
    eexists _, _, _, _, _. split_and!; try done.
    + rewrite rbind_ok in Ha7. destruct Ha7 as (items & -> & Hit). cbn [rbind]. rewrite Hit. exact Ha8.
    + cbn [boq_lines set_boq_lines]. rewrite Hrows, map_app. cbn. rewrite Hbl. f_equal. rewrite map_map. by apply map_ext.
    + unfold py_index in Ha2. destruct (assoc "itemsInPage" p) as [v'|]; [|done]. injection Ha2 as ->.
      destruct a; try discriminate. by injection Ha3 as ->.
    + cbn [boq_imports set_boq_lines set_boq_imports]. by rewrite Hbi.
  - destruct Ha2 as (d & n & i & s2 & Hing & Hq). apply ingest_bom_lines_page_inv in Hing; [|done].
    destruct Hing as (Hbl & Hbi & _ & _ & _ & _ & Ht & Hv & ev & Hev & Hck).
    act_inv Hr. apply queue_drift_ok in Hq as (t & r & -> & Hin & Hkey). cbn. split_and!; try done; eauto.
Qed.

(** While the record of a first drift is open, a later drift of the same job
    leaves no record of its own: neither its contract nor its evidence. *)
Lemma second_drift_unrecorded now src corr d n i s q r rest :
  tbl_select (λ _ r, Exceptions.same_key src "schema_drift" corr r) (exceptions s) = (q, r) :: rest →
  ∃ s', queue_drift now src corr d n i s = (Ok q, s') ∧ exceptions s' = exceptions s.
Proof. intros Hf. unfold queue_drift, Exceptions.enqueue_exception, Exceptions.open_records, Exceptions.insert_exception. rewrite Hf. by eexists. Qed.
End PageSpec.

(** ** Witness *)

Definition bom_item (i : Z) : json :=
  JObj [("id", JInt i); ("name", JStr "Sement"); ("description", JStr "Beton B25"); ("unitOfMeasure", JStr "m3");
        ("quantity", JFloat (PyFloat.float_of_decimal (Decimal.DFin false 15 (-1)))); ("categoryCode", JStr "45")].
Definition bom_page (page : Z) (items : list json) : payload :=
  [("currentPage", JInt page); ("totalPages", JInt 2); ("pageSize", JInt 20); ("itemsInPage", JInt (Z.of_nat (length items)));
   ("totalItems", JInt 2); ("items", JArr items); ("hasPreviousPage", JBool false); ("hasNextPage", JBool true);
   ("firstItem", JInt 1); ("lastItem", JInt 1)].
Definition bom_job (checkpoint : list (string * json)) : Jobs.Job := {| Jobs.job_id := 1; Jobs.job := {|
  Jobs.identity := {| Jobs.job_type := "etender_bom_lines_page_fetch"; Jobs.params := [("event_id", JInt 5)];
    Jobs.source := "etender"; Jobs.range_start := None; Jobs.range_end := None; Jobs.contract_version := "v";
    Jobs.correlation_id := "c" |};
  Jobs.status := "leased"; Jobs.lease_owner := Some "w"; Jobs.lease_expires_at := Some 9; Jobs.attempt := 0;
  Jobs.max_attempts := 5; Jobs.next_retry_at := None; Jobs.checkpoint := checkpoint; Jobs.last_error := None;
  Jobs.created_at := 0; Jobs.updated_at := 0 |} |}.

Lemma bom_page_processed_witness :
  let H := ascii_text in let B := demo_bytes in let R := ascii_regex in
  ∃ res s', process_bom_lines_page 0 (bom_job [("next_page", JInt 2)]) (λ _ n, Ok ("raw", bom_page n [bom_item 7])) empty_tdb
      = (Ok res, s') ∧ page_done res = true ∧ next_page res = 3 ∧ boq_lines_stored res = 1 ∧
    boq_status res = Some "in_progress" ∧ history_ok s' ∧ extends empty_tdb s'.
Proof.
  intros H B R.
  pose (x := process_bom_lines_page 0 (bom_job [("next_page", JInt 2)]) (λ _ n, Ok ("raw", bom_page n [bom_item 7])) empty_tdb).
  assert (match x.1 with
          | Ok res => page_done res && (next_page res =? 3) && (boq_lines_stored res =? 1) && bool_decide (boq_status res = Some "in_progress")
          | Err _ => false
          end = true) as Hv by (vm_compute; reflexivity).
  destruct x as [r s'] eqn:Hx. subst x. destruct r as [res|e]; [|discriminate Hv].
  destruct (bom_page_processed _ _ _ _ _ _ empty_history_ok Hx) as (Hh & He & _).
  apply andb_prop in Hv as [Hv Hst%bool_decide_eq_true_1]. apply andb_prop in Hv as [Hv Hl%Z.eqb_eq].
  apply andb_prop in Hv as [Hd Hn%Z.eqb_eq]. exists res, s'.
  split_and!; [exact Hx|exact Hd|exact Hn|exact Hl|exact Hst|exact Hh|exact He].
Defined.
End BoqPages.
