(* ===== verification/SignalPages.v ===== *)
(** * Resumable pages of signals

    [packages/tender/design_tender_job.py], [procurement_plan_job.py] and
    [worldbank_pipeline_job.py]: one page of a source of signals, resumed from
    the checkpoint of the job, in the shape of the pages of a bill of quantities
    ([BoqPages]). The page is fetched by a parameter. A parameter of a job of
    another type than the code declares for it is refused with a [TypeError]. *)

From stdpp Require Import base gmap sets strings list sorting.
From Stdlib Require Import ZArith Ascii Lia.
From Stdlib Require Import Floats.SpecFloat.
From S2P Require Import Prelude Json Query Jobs Outbox Worker ExceptionQueue BoqImport PyStr Regex SchemaDrift BoqLine Signals TenderDb Ingestion BoqPages.

Module SignalPages.
Import Drift TenderDb Ingestion BoqPages.
#[local] Open Scope Z_scope.

(** ** [int(v)] of a JSON value *)

Definition py_truncate (f : spec_float) : result exn Z :=
  match f with
  | S754_zero _ => Ok 0
  | S754_finite s m e =>
      let n := if 0 <=? e then Zpos m * 2 ^ e else Zpos m / 2 ^ (- e) in Ok (if s then - n else n)
  | S754_infinity _ => Err (OverflowError "cannot convert float infinity to integer")
  | S754_nan => Err (ValueError "cannot convert float NaN to integer")
  end.
Definition int_of_json `{PyText} (v : json) : result exn Z :=
  match v with
  | JInt z => Ok z
  | JBool b => Ok (if b then 1 else 0)
  | JFloat f => py_truncate f
  | JStr s => match int_of_text s with
              | Some z => Ok z
              | None => Err (ValueError ("invalid literal for int() with base 10: " +:+ py_repr s))
              end
  | _ => Err (TypeError ("int() argument must be a string, a bytes-like object or a real number, not '" +:+ Worker.py_type_name v +:+ "'"))
  end.

(** ** The jobs *)

Definition JOB_TYPES : list string :=
  ["etender_design_tender_page_fetch"; "etender_procurement_plan_page_fetch"; "worldbank_donor_pipeline_page_fetch"].

Record SignalPage := { sp_next : Z; sp_done : bool; signal_ids : list Z; sp_exception : option Z }.

Section Pages.
Context `{PyText} `{Bytes}.

Definition job_params (x : Jobs.Job) : payload := Jobs.params (Jobs.identity (Jobs.job x)).
Definition job_corr (x : Jobs.Job) : string := Jobs.correlation_id (Jobs.identity (Jobs.job x)).
(** [job.checkpoint.get(key, first)] *)
Definition resume_at (key : string) (first : Z) (x : Jobs.Job) : result exn Z :=
  job_int key (Some (default (JInt first) (assoc key (Jobs.checkpoint (Jobs.job x))))).

(** [try: signal_ids = await ingest(...) except SchemaDriftDetected as drift_exc: ...] *)
Definition signals_or_queue (now : Z) (src corr : string) (m : act (list Z)) : act (list Z * option Z) :=
  catching_drift (do! ids := m in ret (ids, None)) (λ d n i, do! q := queue_drift now src corr d n i in ret ([], Some q)).

(** [{**query_params, ...}] *)
Definition mapping_of (v : json) : result exn payload :=
  match as_dict v with Some p => Ok p | None => Err (TypeError ("'" +:+ Worker.py_type_name v +:+ "' object is not a mapping")) end.
Definition process_design_tender_page (now : Z) (x : Jobs.Job) (fetch_page : json → Z → result exn (string * payload))
    (observed : string) : act SignalPage :=
  do! query := pure (py_index (JObj (job_params x)) "query_params") in
  do! page := pure (resume_at "next_page" 1 x) in
  do! got := pure (fetch_page query page) in
  do! params := pure (mapping_of query) in
  do! r := signals_or_queue now "etender" (job_corr x)
             (ingest_design_tender_signals_page now got.1 got.2 params (job_corr x) observed) in
  do! last := pure (past_last page (dict_get "totalPages" got.2)) in
  ret {| sp_next := page + 1; sp_done := last; signal_ids := r.1; sp_exception := r.2 |}.

Definition job_text (key : string) (v : json) : result exn string :=
  match v with JStr s => Ok s | _ => Err (TypeError key) end.
Definition process_procurement_plan_page (now : Z) (x : Jobs.Job) (fetch_page : Z → Z → string → result exn (string * payload))
    (observed : string) : act SignalPage :=
  do! year := pure (job_int "year" (assoc "year" (job_params x))) in
  do! buyer := pure (job_text "buyer_organization_name" (default (JStr "") (assoc "buyer_organization_name" (job_params x)))) in
  do! page := pure (resume_at "next_page" 1 x) in
  do! got := pure (fetch_page year page buyer) in
  do! r := signals_or_queue now "etender" (job_corr x)
             (ingest_procurement_plan_page now got.1 got.2 year page buyer (job_corr x) observed) in
  do! last := pure (past_last page (dict_get "totalPages" got.2)) in
  ret {| sp_next := page + 1; sp_done := last; signal_ids := r.1; sp_exception := r.2 |}.

(** [int(payload["total"])] *)
Definition total_of (p : payload) : result exn Z := let! v := py_index (JObj p) "total" in int_of_json v.
Definition process_worldbank_pipeline_page (now : Z) (x : Jobs.Job) (fetch_page : json → Z → Z → result exn (string * payload))
    (observed : string) : act SignalPage :=
  do! country := pure (py_index (JObj (job_params x)) "countrycode_exact") in
  do! n := pure (job_int "rows" (assoc "rows" (job_params x))) in
  do! os := pure (resume_at "next_os" 0 x) in
  do! got := pure (fetch_page country n os) in
  do! r := signals_or_queue now "worldbank_projects_api" (job_corr x)
             (ingest_donor_pipeline_page now got.1 got.2 os (job_corr x) observed) in
  do! total := pure (total_of got.2) in
  ret {| sp_next := os + n; sp_done := total <=? os + n; signal_ids := r.1; sp_exception := r.2 |}.
End Pages.

(** ** What a page leaves *)

(** An action that leaves a part of the database alone, whatever its outcome *)
Definition leaves {A B} (f : tdb → B) (m : act A) : Prop := ∀ s, f (m s).2 = f s.
Lemma leaves_bind {A A' B} (f : tdb → B) (m : act A) (k : A → act A') :
  leaves f m → (∀ a, leaves f (k a)) → leaves f (bind m k).
Proof. intros Hm Hk s. unfold bind. pose proof (Hm s) as Hs. destruct (m s) as [[a|e] s1]; [|done]. simpl in Hs. rewrite <-Hs. apply Hk. Qed.
Ltac leaves_tac := repeat first [apply leaves_bind; [|intros ?] | match goal with |- leaves _ (match ?x with _ => _ end) => destruct x end];
  try by intros ?.

(** An action that reports no drift *)
Definition undrifted {A} (m : act A) : Prop := ∀ s d n i s', m s ≠ (Err (DriftDetected d n i), s').
Lemma undrifted_bind {A B} (m : act A) (k : A → act B) : undrifted m → (∀ a, undrifted (k a)) → undrifted (bind m k).
Proof. intros Hm Hk s d n i s'. unfold bind. destruct (m s) as [[a|e] s1] eqn:Hms; [apply Hk|]. intros [= -> ->]. by eapply Hm. Qed.
Lemma undrifted_pure {A} (r : result exn A) : undrifted (pure r).
Proof. intros s d n i s'. unfold pure. by destruct r. Qed.
Lemma undrifted_require b c : undrifted (require b c).
Proof. intros s d n i s'. unfold require. by destruct b. Qed.
Ltac undrifted_tac := repeat first [apply undrifted_bind; [|intros ?] | apply undrifted_pure | apply undrifted_require
  | match goal with |- undrifted (match ?x with _ => _ end) => destruct x end]; try by intros ? ? ? ? ?.

Section PageSpec.
Context `{PyText} `{Bytes}.

Definition stored_evidence (raw : string) (snap : Z) (s : tdb) : Prop :=
  ∃ e, tbl_get (snapshots s) snap = Some e ∧ sn_checksum e = checksum_of raw.
(** The signals [gs] are added under the ids [ids], after those stored before. *)
Definition added (s s' : tdb) (ids : list Z) (gs : list Signals.Signal) : Prop :=
  ∃ rs, rows (signals s') = rows (signals s) ++ zip ids rs ∧ length rs = length ids ∧ map Signals.sg_signal rs = gs.
(** An ingestion of the bytes [raw], with the signals of its page given its evidence *)
Record ingests (raw : string) (built : Z → result exn (list Signals.Signal)) (m : act (list Z)) : Prop := {
  in_keeps : keeps m;
  in_exceptions : leaves exceptions m;
  in_signals s ids s' : history_ok s → m s = (Ok ids, s') →
    ∃ snap gs, stored_evidence raw snap s' ∧ built snap = Ok gs ∧ added s s' ids gs;
  in_drift s d n i s' : history_ok s → m s = (Err (DriftDetected d n i), s') → signals s' = signals s ∧ stored_evidence raw i s' }.

Lemma store_signals_ok build items s ids s' : store_signals build items s = (Ok ids, s') →
  ∃ gs, mapM build items = Ok gs ∧ snapshots s' = snapshots s ∧ added s s' ids (omap id gs).
Proof.
  revert s ids. induction items as [|item items IH]; intros s ids Hs; cbn [store_signals] in Hs.
  - act_inv Hs. exists []. split_and!; [done..|]. exists []. by rewrite app_nil_r.
  - apply bind_ok in Hs as (g & s1 & [Hg ->]%pure_ok & Hs). cbn. rewrite Hg. simpl. destruct g as [g|].
    + apply bind_ok in Hs as (i & s1 & Hi & Hs). apply bind_ok in Hs as (is_ & s2 & His & [-> ->]%ret_ok).
      unfold store_signal in Hi. act_inv Hi. injection Hi as <- <-.
      destruct (IH _ _ His) as (gs & -> & Hsn & rs & Hr & Hl & Hm). eexists. split; [done|]. split; [done|].
      eexists (_ :: rs). cbn -[tbl_insert] in Hr |- *. split; [rewrite Hr; cbn; by rewrite <-app_assoc|]. split; [by rewrite Hl|]. simpl. by rewrite Hm.
    + destruct (IH _ _ Hs) as (gs & -> & Hsn & Ha). by eexists.
Qed.
Lemma undrifted_store_signals build items : undrifted (store_signals build items).
Proof.
  induction items as [|item items IH]; cbn [store_signals]; unfold store_signal; undrifted_tac; exact IH.
Qed.

Lemma leaves_store_signals build items : leaves exceptions (store_signals build items).
Proof. induction items as [|item items IH]; cbn [store_signals]; unfold store_signal; leaves_tac; exact IH. Qed.
Lemma leaves_report_drift {B} (f : tdb → B) now aggregate identity corr snapshot dn :
  (∀ t s, f (set_outbox t s) = f s) → leaves f (report_drift now aggregate identity corr snapshot dn).
Proof.
  intros Hf. unfold report_drift, enqueue_event. leaves_tac. intros s. cbn -[Outbox.enqueue]. destruct (Outbox.enqueue _ _ _ _ _ _ _). apply Hf.
Qed.
Lemma leaves_get_or_create {B} (f : tdb → B) now src identity : (∀ t s, f (set_tenders t s) = f s) → leaves f (get_or_create_tender now src identity).
Proof.
  intros Hf. unfold get_or_create_tender, insert_in. leaves_tac. intros s. apply Hf.
Qed.
Lemma leaves_ingest {B} (f : tdb → B) now c params raw p norm corr items :
  (∀ t s, f (set_outbox t s) = f s) → (∀ t s, f (set_snapshots t s) = f s) → (∀ t s, f (set_tenders t s) = f s) →
  (∀ t s, f (set_versions t s) = f s) → leaves f (ingest now c params raw p norm corr items).
Proof.
  intros Ho Hs Ht Hv. unfold ingest, save_raw_snapshot, create_normalized_version, insert_in.
  leaves_tac; try (by apply leaves_report_drift); try by apply leaves_get_or_create.
  all: intros s; cbn -[tbl_insert]; auto.
Qed.

Lemma ingest_snapshot now c params raw p norm corr items s v row s' : history_ok s →
  ingest now c params raw p norm corr items s = (Ok (v, row), s') → stored_evidence raw (tv_snapshot_id row) s'.
Proof.
  intros Hs Hr. unfold ingest, save_raw_snapshot in Hr. act_inv Hr.
  match goal with Hd : report_drift _ _ _ _ _ _ _ = (_, ?x) |- _ => rename Hd into Hrep; rename x into sr end.
  match goal with Hg : get_or_create_tender _ _ _ _ = (_, ?x) |- _ => rename Hg into Ht; rename x into st end.
  assert (snapshots st = snapshots sr) as Hs2 by (pose proof (leaves_get_or_create snapshots now "etender" a (λ _ _, eq_refl) sr) as Hl; by rewrite Ht in Hl).
  assert (tbl_get (snapshots s1) a0 = Some (evidence now "etender" (contract_name c) a raw a1 corr)) as Hev
    by (injection Ha0 as <- <-; apply (tbl_get_insert_new (snapshots s)), Hs).
  assert (snapshots sr = snapshots s1) as Hsr
    by (pose proof (leaves_report_drift snapshots now "tender_source_contract" a corr a0 a2 (λ _ _, eq_refl) s1) as Hl; by rewrite Hrep in Hl).
  rewrite create_normalized_version_eq in Hr. destruct (exists_in (tenders st) _); [|done]. destruct (exists_in (snapshots st) _); [|done].
  injection Hr as _ <- <-. eexists. cbn. rewrite Hs2, Hsr. by split; [exact Hev|].
Qed.

(** *** The three ingestions *)

Definition design_signals (p : payload) (corr observed : string) (snap : Z) : result exn (list Signals.Signal) :=
  let! items := (let! l := py_index (JObj p) "items" in py_iter l) in
  let! gs := mapM (design_tender_item snap observed corr) items in Ok (omap id gs).
Lemma design_ingests now raw p q corr observed :
  ingests raw (design_signals p corr observed) (ingest_design_tender_signals_page now raw p q corr observed).
Proof.
  assert (∀ B (f : tdb → B), (∀ t s, f (set_outbox t s) = f s) → (∀ t s, f (set_snapshots t s) = f s) →
    (∀ t s, f (set_tenders t s) = f s) → (∀ t s, f (set_versions t s) = f s) → leaves f (ingest_events_list_page now raw p q corr)) as Hleave.
  { intros B f Ho Hs Ht Hv. unfold ingest_events_list_page. apply leaves_bind; [by intros ?|intros page]. by apply leaves_ingest. }
  split.
  - apply keeps_ingest_design_tender_signals_page.
  - unfold ingest_design_tender_signals_page. apply leaves_bind; [by apply Hleave|intros v]. apply leaves_bind; [by intros ?|intros items].
    apply leaves_store_signals.
  - intros s ids s' Hs Hr. unfold ingest_design_tender_signals_page in Hr. apply bind_ok in Hr as ([v row] & s1 & Hi & Hr).
    apply bind_ok in Hr as (items & s2 & [Hit ->]%pure_ok & Hr). apply store_signals_ok in Hr as (gs & Hgs & Hsn & Hadd).
    pose proof (Hleave _ signals (λ _ _, eq_refl) (λ _ _, eq_refl) (λ _ _, eq_refl) (λ _ _, eq_refl) s) as Hl. rewrite Hi in Hl. simpl in Hl.
    exists (tv_snapshot_id row), (omap id gs). split_and!.
    + apply bind_ok in Hi as (page & s3 & [_ ->]%pure_ok & Hi). apply ingest_snapshot in Hi as (e & He & Hc); [|done].
      exists e. by rewrite Hsn.
    + unfold design_signals. rewrite Hit. simpl. simpl in Hgs. by rewrite Hgs.
    + unfold added in *. by rewrite <-Hl.
  - intros s d n i s' Hs Hr. unfold ingest_design_tender_signals_page in Hr. unfold bind at 1 in Hr.
    pose proof (Hleave _ signals (λ _ _, eq_refl) (λ _ _, eq_refl) (λ _ _, eq_refl) (λ _ _, eq_refl) s) as Hl.
    destruct (ingest_events_list_page now raw p q corr s) as [[v|e] s1] eqn:Hi.
    + exfalso. revert Hr. refine (_ s1 d n i s'). apply undrifted_bind; [apply undrifted_pure|intros items; apply undrifted_store_signals].
    + injection Hr as -> ->. split; [done|]. unfold ingest_events_list_page in Hi.
      apply bind_inv in Hi as [(page & s1 & [-> _]%pure_inv & Hi)|(e & [_ He]%pure_inv & [= <-])]; [|by destruct (py_index _ _)].
      apply ingest_frames in Hi; [|done]. apply Hi.
Qed.

Lemma ingests_ext raw built m m' : (∀ s, m s = m' s) → ingests raw built m' → ingests raw built m.
Proof.
  intros Hm [K E S D]. split; [intros s|intros s|intros s ids s'|intros s d n i s']; rewrite Hm; [apply K|apply E|apply S|apply D].
Qed.
Lemma mapM_some {A B} (build : A → result exn B) l gs :
  mapM (λ a, let! g := build a in Ok (Some g)) l = Ok gs → mapM build l = Ok (omap id gs).
Proof.
  revert gs. induction l as [|a l IH]; intros gs; cbn; [by intros [= <-]|]. destruct (build a); simpl; [|done].
  destruct (mapM _ l) as [gs'|] eqn:Hgs; simpl; [|done]. intros [= <-]. by rewrite (IH gs').
Qed.
(** Evidence, drift, and one signal per item *)
Lemma page_ingests now src resource contract corr raw aggregate (ident : result exn string) (dn : result exn (SchemaDrift * string))
    (its : result exn (list json)) (build : Z → json → result exn Signals.Signal) :
  ingests raw (λ snap, let! l := its in mapM (build snap) l)
    (do! identity := pure ident in
     do! snap := save_raw_snapshot now src resource identity raw contract corr in
     do! dn := pure dn in
     do! _ := report_drift now aggregate identity corr snap dn in
     do! items := pure its in
     store_signals (λ item, let! g := build snap item in Ok (Some g)) items).
Proof.
  split.
  - pose proof keeps_store_signals. pose proof keeps_report_drift. keeps_tac; eauto.
  - unfold save_raw_snapshot, insert_in. leaves_tac; [by apply leaves_report_drift|apply leaves_store_signals].
  - intros s ids s' Hs Hr. apply bind_ok in Hr as (a & s1 & [_ ->]%pure_ok & Hr). apply bind_ok in Hr as (snap & s1 & Hsave & Hr).
    unfold save_raw_snapshot in Hsave. act_inv Hsave. injection Hsave as <- <-.
    apply bind_ok in Hr as (d & s1 & [_ ->]%pure_ok & Hr). apply bind_ok in Hr as ([] & s2 & Hrep & Hr).
    unfold report_drift in Hrep. destruct (has_drift d.1); [by act_inv Hrep|]. injection Hrep as <-.
    apply bind_ok in Hr as (items & s1 & [-> ->]%pure_ok & Hr). apply store_signals_ok in Hr as (gs & Hgs & Hsn & Hadd).
    eexists _, (omap id gs). split_and!; [|exact (mapM_some _ _ _ Hgs)|exact Hadd].
    eexists. rewrite Hsn. split; [apply (tbl_get_insert_new (snapshots s)), Hs|done].
  - intros s d n i s' Hs Hr. apply bind_inv in Hr as [(a & s1 & [-> _]%pure_inv & Hr)|(e & [_ He]%pure_inv & [= <-])]; [|by destruct ident].
    apply bind_inv in Hr as [(snap & s1 & Hsave & Hr)|(e & He & [= <-])].
    + unfold save_raw_snapshot in Hsave. act_inv Hsave. injection Hsave as <- <-.
      apply bind_inv in Hr as [(dd & s1 & [-> _]%pure_inv & Hr)|(e & [_ He]%pure_inv & [= <-])]; [|by destruct dn].
      apply bind_inv in Hr as [([] & s1 & _ & Hr)|(e & He & [= <-])].
      * exfalso. revert Hr. refine (_ s1 d n i s'). apply undrifted_bind; [apply undrifted_pure|intros items; apply undrifted_store_signals].
      * unfold report_drift in He. destruct (has_drift dd.1); [|done].
        apply bind_inv in He as [(k & s1 & Hk & He)|(e & He & [= <-])].
        -- injection He as <- <- <- <-. unfold enqueue_event in Hk. destruct (Outbox.enqueue _ _ _ _ _ _ _) as [q ob]. injection Hk as _ <-.
           split; [done|]. eexists. split; [apply (tbl_get_insert_new (snapshots s)), Hs|done].
        -- unfold enqueue_event in He. by destruct (Outbox.enqueue _ _ _ _ _ _ _).
    + unfold save_raw_snapshot, bind in He. destruct (jsonb_of_bytes raw); [done|]. by injection He.
Qed.

Definition plan_signals (p : payload) (corr observed : string) (snap : Z) : result exn (list Signals.Signal) :=
  let! items := (let! l := py_index (JObj p) "items" in py_iter l) in
  mapM (λ item, Signals.build_procurement_plan_signal item snap observed corr) items.
Lemma plan_ingests now raw p year page buyer corr observed :
  ingests raw (plan_signals p corr observed) (ingest_procurement_plan_page now raw p year page buyer corr observed).
Proof. exact (page_ingests _ _ _ _ _ _ _ _ _ _ (λ snap item, Signals.build_procurement_plan_signal item snap observed corr)). Qed.
Definition donor_signals (p : payload) (corr observed : string) (snap : Z) : result exn (list Signals.Signal) :=
  let! projects := projects_of p in
  mapM (λ item, Signals.build_donor_pipeline_signal item snap observed corr) projects.
Lemma donor_ingests now raw p os corr observed :
  ingests raw (donor_signals p corr observed) (ingest_donor_pipeline_page now raw p os corr observed).
Proof.
  eapply ingests_ext; [|exact (page_ingests now "worldbank_projects_api" (contract_name DONOR_PIPELINE_PAGE_CONTRACT) (contract_name DONOR_PIPELINE_PAGE_CONTRACT)
    corr raw "signal_source_contract" (canonical_identity DONOR_PIPELINE_PAGE_CONTRACT [("countrycode_exact", JStr "AZ"); ("os", JStr (py_str_Z os))])
    (let! projects := projects_of p in page_drift DONOR_PIPELINE_PAGE_CONTRACT (Some (DONOR_PIPELINE_PROJECT_CONTRACT, mapM dict_of projects)) p)
    (projects_of p) (λ snap item, Signals.build_donor_pipeline_signal item snap observed corr))].
  intros s. unfold ingest_donor_pipeline_page, bind. destruct (pure _ s) as [[?|?] ?]; [|done].
  destruct (save_raw_snapshot _ _ _ _ _ _ _ _) as [[?|?] s1]; [|done]. destruct (projects_of p) as [l|e]; [|done].
  unfold pure. cbn [rbind map_err]. destruct (page_drift _ (Some (_, mapM dict_of l)) _); [|done]. cbn [map_err].
  by destruct (report_drift _ _ _ _ _ _ _) as [[?|?] ?].
Qed.

(** *** The pages *)

(** A page either adds the signals of its items, in order, each with the
    evidence of the page, or it drifted: then no signal is added, a record of
    the drift is open for a human and the evidence is stored all the same. *)
Definition page_effect (src corr raw : string) (built : Z → result exn (list Signals.Signal)) (s s' : tdb)
    (r : list Z * option Z) : Prop :=
  match r.2 with
  | None => exceptions s' = exceptions s ∧
      ∃ snap gs, stored_evidence raw snap s' ∧ built snap = Ok gs ∧ added s s' r.1 gs
  | Some q => r.1 = [] ∧ signals s' = signals s ∧
      (∃ x, (q, x) ∈ rows (exceptions s') ∧ Exceptions.same_key src "schema_drift" corr x = true) ∧
      ∃ i, stored_evidence raw i s'
  end.
Lemma page_effect_of now src corr raw built m s r s' : ingests raw built m → history_ok s →
  signals_or_queue now src corr m s = (Ok r, s') → page_effect src corr raw built s s' r.
Proof.
  intros [K E S D] Hs Hr. unfold signals_or_queue, catching_drift, bind in Hr.
  specialize (E s). destruct (m s) as [[ids|[d n i|e|e]] s1] eqn:Hm; simpl in E, Hr; try done.
  - injection Hr as <- <-. split; [done|]. by apply S in Hm.
  - destruct (queue_drift now src corr d n i s1) as [[q|e] s2] eqn:Hq; [|done]. injection Hr as <- <-.
    apply D in Hm as [Hsg Hev]; [|done]. apply queue_drift_ok in Hq as (t & x & -> & Hin & Hkey). simpl. split_and!; eauto.
Qed.
Lemma keeps_signals_or_queue now src corr m : keeps m → keeps (signals_or_queue now src corr m).
Proof.
  intros Hm. unfold signals_or_queue. apply keeps_catching_drift; [|intros d n i].
  - apply keeps_bind; [done|intros ids; apply keeps_ret].
  - apply keeps_bind; [apply keeps_queue_drift|intros q; apply keeps_ret].
Qed.

(** What the end of the transaction is: the page number [next] to resume at,
    whether it was the last, and the effect of the page. *)
Record page_done (src : string) (x : Jobs.Job) (raw : string) (built : Z → result exn (list Signals.Signal)) (s s' : tdb)
    (res : SignalPage) : Prop := {
  pd_history : history_ok s';
  pd_extends : extends s s';
  pd_effect : page_effect src (job_corr x) raw built s s' (signal_ids res, sp_exception res) }.
Lemma page_is_done now src x raw built m s r s' next last : ingests raw built m → history_ok s →
  signals_or_queue now src (job_corr x) m s = (Ok r, s') →
  page_done src x raw built s s' {| sp_next := next; sp_done := last; signal_ids := r.1; sp_exception := r.2 |}.
Proof.
  intros Hm Hs Hr. pose proof (keeps_signals_or_queue now src (job_corr x) m (in_keeps _ _ _ Hm) s Hs) as Hk. rewrite Hr in Hk.
  destruct Hk as [Hk He]. split; [done..|]. destruct r. by eapply page_effect_of.
Qed.

Lemma index_found k v (p : payload) : py_index (JObj p) k = Ok v → assoc k p = Some v.
Proof. simpl. destruct (assoc k p); [by intros [= ->]|done]. Qed.
Lemma job_int_found k v z : job_int k v = Ok z → v = Some (JInt z).
Proof. unfold job_int, as_int_column. destruct v as [[]|]; try done. by intros [= ->]. Qed.

(** A page of any of the three sources that was processed leads to the next
    one and is the last exactly when the response says so; what was stored stays;
    and either the signals of its items are added in order, each with the
    evidence of the page, or the page drifted, and then no signal is added, a
    record of the drift is open for a human and the evidence is stored. *)
Theorem signal_page_processed now x observed s res s' : history_ok s →
  (∀ fetch, process_design_tender_page now x fetch observed s = (Ok res, s') →
     ∃ query page raw p, assoc "query_params" (job_params x) = Some query ∧ resume_at "next_page" 1 x = Ok page ∧
       fetch query page = Ok (raw, p) ∧ sp_next res = page + 1 ∧ past_last page (dict_get "totalPages" p) = Ok (sp_done res) ∧
       page_done "etender" x raw (design_signals p (job_corr x) observed) s s' res) ∧
  (∀ fetch, process_procurement_plan_page now x fetch observed s = (Ok res, s') →
     ∃ year page buyer raw p, assoc "year" (job_params x) = Some (JInt year) ∧ resume_at "next_page" 1 x = Ok page ∧
       fetch year page buyer = Ok (raw, p) ∧ sp_next res = page + 1 ∧ past_last page (dict_get "totalPages" p) = Ok (sp_done res) ∧
       page_done "etender" x raw (plan_signals p (job_corr x) observed) s s' res) ∧
  (∀ fetch, process_worldbank_pipeline_page now x fetch observed s = (Ok res, s') →
     ∃ country n os raw p total, assoc "rows" (job_params x) = Some (JInt n) ∧ resume_at "next_os" 0 x = Ok os ∧
       fetch country n os = Ok (raw, p) ∧ total_of p = Ok total ∧ sp_next res = os + n ∧ sp_done res = (total <=? os + n) ∧
       page_done "worldbank_projects_api" x raw (donor_signals p (job_corr x) observed) s s' res).
Proof.
  intros Hs. split_and!; intros fetch Hr.
  - unfold process_design_tender_page in Hr. act_inv Hr. destruct a1 as [raw p]. exists a, a0, raw, p.
    split_and!; try done; [by apply index_found|]. by eapply page_is_done, Ha3; [apply design_ingests|].
  - unfold process_procurement_plan_page in Hr. act_inv Hr. destruct a2 as [raw p]. exists a, a1, a0, raw, p.
    split_and!; try done; [by eapply job_int_found|]. by eapply page_is_done, Ha3; [apply plan_ingests|].
  - unfold process_worldbank_pipeline_page in Hr. act_inv Hr. destruct a2 as [raw p]. exists a, a0, a1, raw, p, a4.
    split_and!; try done; [by eapply job_int_found|]. by eapply page_is_done, Ha3; [apply donor_ingests|].
Qed.

(** A page of the donor pipeline that lost its [total] is a drift, but the number
    is read after the drift was recorded: the job always ends in an error, and
    with the transaction the evidence and the record are undone. *)
Lemma total_lost now x observed s res s' fetch raw p :
  (∀ country n os, fetch country n os = Ok (raw, p)) → assoc "total" p = None →
  process_worldbank_pipeline_page now x fetch observed s ≠ (Ok res, s') ∧ has_drift (detect_schema_drift DONOR_PIPELINE_PAGE_CONTRACT p) = true.
Proof.
  intros Hf Ht. split.
  - unfold process_worldbank_pipeline_page. intros Hr. act_inv Hr. rewrite Hf in *. simplify_eq. unfold total_of in *.
    match goal with H : rbind (py_index _ _) _ = Ok _ |- _ => cbn in H; by rewrite Ht in H end.
  - destruct (has_drift _) eqn:Hd; [done|]. apply no_drift_conforms in Hd; [|by apply (bool_decide_eq_true_1 _); vm_compute].
    destruct Hd as [Hreq _]. specialize (Hreq (field "total" "string")). change (field_name (field "total" "string")) with "total" in Hreq. rewrite elem_of_keys_assoc, Ht in Hreq.
    exfalso. destruct Hreq as [v Hv]; [|done..]. simpl. set_solver.
Qed.
End PageSpec.

(** The worker does not know these jobs: it ends each with an error. *)
Lemma page_jobs_unknown `{PyText} others clock check fuel x w : Jobs.job_type (Jobs.identity (Jobs.job x)) ∈ JOB_TYPES →
  Worker.job_body others clock check fuel x w =
  Worker.ret (Err (Worker.PyExn (ValueError ("unknown job_type: " +:+ Jobs.job_type (Jobs.identity (Jobs.job x)))))).
Proof. intros Hx. unfold Worker.job_body. by repeat (apply elem_of_cons in Hx as [->|Hx]; [done|]); apply elem_of_nil in Hx. Qed.

(** ** Examples *)

Definition demo_job (ps cp : payload) : Jobs.Job := {| Jobs.job_id := 1; Jobs.job := {|
  Jobs.identity := {| Jobs.job_type := "page"; Jobs.params := ps; Jobs.source := "s"; Jobs.range_start := None; Jobs.range_end := None;
    Jobs.contract_version := "v"; Jobs.correlation_id := "c" |};
  Jobs.status := "leased"; Jobs.lease_owner := Some "w"; Jobs.lease_expires_at := Some 9; Jobs.attempt := 0;
  Jobs.max_attempts := 5; Jobs.next_retry_at := None; Jobs.checkpoint := cp; Jobs.last_error := None;
  Jobs.created_at := 0; Jobs.updated_at := 0 |} |}.
Definition demo_plan (i : Z) : json :=
  JObj [("id", JInt i); ("organizationName", JStr "Road agency"); ("year", JInt 2026); ("createDate", JStr "2026-01-01")].
Definition donor_page (country : string) : payload :=
  [("rows", JInt 20); ("os", JStr "40"); ("page", JStr "3"); ("total", JStr " 41 "); ("projects", JObj []); ("facets", JObj [])].
Definition process_plans `{PyText} `{Bytes} (items : list json) :=
  process_procurement_plan_page 0 (demo_job [("year", JInt 2026)] [("next_page", JInt 2)]) (λ _ n _, Ok ("raw", bom_page n items)) "2026-02-01" empty_tdb.
Definition process_donors `{PyText} `{Bytes} (country : string) :=
  process_worldbank_pipeline_page 0 (demo_job [("countrycode_exact", JStr country); ("rows", JInt 20)] [("next_os", JInt 40)])
    (λ _ _ _, Ok ("raw", donor_page country)) "2026-02-01" empty_tdb.

Lemma signal_page_processed_witness :
  let H := ascii_text in let B := demo_bytes in
  (∃ res s', process_plans [demo_plan 7; demo_plan 8] = (Ok res, s') ∧ sp_next res = 3 ∧ sp_done res = true ∧ signal_ids res = [1; 2] ∧
    history_ok s' ∧ length (rows (signals s')) = 2%nat) ∧
  (∃ res s', process_plans [JObj []] = (Ok res, s') ∧ sp_exception res = Some 1 ∧ rows (signals s') = []) ∧
  ∃ res s', process_donors "AZ" = (Ok res, s') ∧ sp_next res = 60 ∧ sp_done res = true.
Proof.
  intros H B. split_and!.
  - pose (x := process_plans [demo_plan 7; demo_plan 8]). assert (match x.1 with Ok r => signal_ids r = [1; 2] | _ => False end) as Hv by (vm_compute; reflexivity).
    destruct x as [[res|e] s'] eqn:Hx; subst x; [|destruct Hv]. simpl in Hv.
    destruct (signal_page_processed 0 (demo_job [("year", JInt 2026)] [("next_page", JInt 2)]) "2026-02-01" empty_tdb res s' empty_history_ok) as (_ & Hp & _). unfold process_plans in Hx.
    destruct (Hp _ Hx) as (year & page & buyer & raw & p & Hy & Hpage & Hf & Hn & Hl & [Hh He Heff]).
    cbn in Hpage. injection Hpage as <-. injection Hf as <- <-. exists res, s'.
    split_and!; [exact Hx|rewrite Hn; reflexivity|cbn in Hl; congruence|exact Hv|exact Hh|].
    unfold page_effect in Heff. cbn [fst snd] in Heff. destruct (sp_exception res) as [q|].
    + destruct Heff as [Hnil _]. rewrite Hnil in Hv. discriminate Hv.
    + destruct Heff as (_ & snap & gs & _ & _ & rs & Hr & Hlen & _). rewrite Hr, Hv. rewrite Hv in Hlen.
      destruct rs as [|? [|? [|? ?]]]; try discriminate Hlen; reflexivity.
  - pose (x := process_plans [JObj []]). assert (match x.1 with Ok r => sp_exception r = Some 1 | _ => False end) as Hv by (vm_compute; reflexivity).
    destruct x as [[res|e] s'] eqn:Hx; subst x; [|destruct Hv]. simpl in Hv.
    destruct (signal_page_processed 0 (demo_job [("year", JInt 2026)] [("next_page", JInt 2)]) "2026-02-01" empty_tdb res s' empty_history_ok) as (_ & Hp & _). unfold process_plans in Hx.
    destruct (Hp _ Hx) as (year & page & buyer & raw & p & _ & _ & _ & _ & _ & [_ _ Heff]).
    exists res, s'. unfold page_effect in Heff. cbn [fst snd] in Heff. rewrite Hv in Heff. destruct Heff as (_ & Hs & _).
    split_and!; [exact Hx|exact Hv|rewrite Hs; reflexivity].
  - pose (x := process_donors "AZ"). assert (match x.1 with Ok r => True | _ => False end) as Hv by (vm_compute; exact I).
    destruct x as [[res|e] s'] eqn:Hx; subst x; [|destruct Hv].
    destruct (signal_page_processed 0 (demo_job [("countrycode_exact", JStr "AZ"); ("rows", JInt 20)] [("next_os", JInt 40)]) "2026-02-01" empty_tdb res s' empty_history_ok) as (_ & _ & Hp). unfold process_donors in Hx.
    destruct (Hp _ Hx) as (c & n & os & raw & p & total & Hn & Hos & Hf & Ht & Hnext & Hd & _).
    cbn in Hn, Hos. injection Hn as <-. injection Hos as <-. injection Hf as <- <-. cbn in Ht. injection Ht as <-.
    exists res, s'. split_and!; [exact Hx|exact Hnext|rewrite Hd; reflexivity].
Defined.
(** The evidence of a page of another country is stored as that of Azerbaijan. *)
Lemma country_ignored : let H := ascii_text in let B := demo_bytes in
  (λ x, sn_identity_key x.2) <$> rows (snapshots (process_donors "GE").2) =
    [match canonical_identity DONOR_PIPELINE_PAGE_CONTRACT [("countrycode_exact", JStr "AZ"); ("os", JStr "40")] with Ok k => k | Err _ => "" end].
Proof. vm_compute. reflexivity. Qed.
End SignalPages.
