(* ===== verification/TenderChanges.v ===== *)
(** * Tracking of changes after the submission

    [packages/tender/tender_change_detection.py], [boq_line_diff.py] and
    [post_submission_tracking_job.py]: a decided tender is read again; when its
    fields changed, its BOQ pages are walked again and compared in memory with
    the stored lines, and the lines that differ are flagged. The fetches and the
    heartbeat are parameters; the walk has fuel. *)

From stdpp Require Import base gmap sets strings list sorting.
From Stdlib Require Import ZArith Lia.
From S2P Require Import Prelude Json Decimal Query Jobs Worker ExceptionQueue PyStr Regex SchemaDrift BoqLine TenderDb Ingestion BoqPages.

Module TenderChanges.
Import Drift TenderDb Ingestion BoqPages.
#[local] Open Scope Z_scope.

(** ** Fields *)

Definition DEADLINE_FIELDS : list string := ["end_date"; "envelope_date"; "start_date"].
Definition IGNORED_FIELDS : list string := ["id"].

Definition field_differs (old new : payload) (k : string) : bool := negb (py_eq (dict_get k old) (dict_get k new)).
Definition diff_normalized_fields (old new : payload) : list TenderFieldChange :=
  let keys : gset string := (list_to_set old.*1 ∪ list_to_set new.*1) ∖ list_to_set IGNORED_FIELDS in
  map (λ k, {| fc_field := k; old_value := dict_get k old; new_value := dict_get k new |})
    (filter (λ k, field_differs old new k = true) (sorted_set keys)).

Definition classify_change_type (changes : list TenderFieldChange) : string :=
  if existsb (λ c, bool_decide (fc_field c ∈ DEADLINE_FIELDS)) changes then "deadline_shift" else "document_changed".

(** ** Lines *)

Definition opt_dec_eqb (a b : option decimal) : bool :=
  match a, b with Some x, Some y => dec_eqb x y | None, None => true | _, _ => false end.
(** [_fingerprint(a) == _fingerprint(b)] *)
Definition same_fingerprint (a b : BoqLine) : bool :=
  String.eqb (description a) (description b) && String.eqb (unit_raw a) (unit_raw b) && dec_eqb (qty a) (qty b) &&
  opt_dec_eqb (rate a) (rate b) && opt_dec_eqb (amount a) (amount b).

(** [{line.source_line_id: line for line in lines}.get(i)] *)
Definition by_line_id (lines : list BoqLine) (i : Z) : option BoqLine :=
  last (filter (λ l, source_line_id l = i) lines).
Definition line_changed (old new : list BoqLine) (i : Z) : bool :=
  match by_line_id old i, by_line_id new i with
  | Some a, Some b => negb (same_fingerprint a b)
  | _, _ => true
  end.
Definition diff_boq_lines (old new : list BoqLine) : list Z :=
  let ids : gset Z := list_to_set (map source_line_id old) ∪ list_to_set (map source_line_id new) in
  filter (λ i, line_changed old new i = true) (merge_sort Z.le (elements ids)).

(** ** The check of one tender *)

Record CheckResult := { change_detected : bool; cr_change_type : option string; flagged_line_count : Z }.

Section Check.
Context `{PyText} `{Bytes} `{PyRegex}.
Variable fetch_event_details : Z → result exn (string * payload).
Variable fetch_bom_page : Z → Z → result exn (string * payload).
(** The heartbeat before a page: it raises when the job was lost. *)
Variable heartbeat : Z → result exn unit.

Definition previous_fields (s : tdb) (tender_id : Z) : payload :=
  match current_version s tender_id with Some v => normalized_fields v | None => [] end.

(** [if total_pages is None or page_number >= total_pages: break] *)
Definition is_last_page (page : Z) (total_pages : json) : result exn bool :=
  match total_pages with JNull => Ok true | _ => Worker.py_ge (JInt page) total_pages end.

(** The pages from [page] on: their lines, [None] when the fuel ran out. *)
Fixpoint walk_pages (fuel : nat) (now event_id page : Z) (corr : string) : act (option (list BoqLine)) :=
  match fuel with
  | O => ret None
  | S fuel' =>
      do! _ := pure (heartbeat page) in
      do! got := pure (fetch_bom_page event_id page) in
      do! r := ingest_or_queue now event_id got.1 got.2 corr in
      do! lines := pure (match r with
                         | inl _ => let! items := py_index (JObj got.2) "items" in
                                    let! l := py_iter items in build_boq_lines page l
                         | inr _ => Ok []
                         end) in
      do! stop := pure (is_last_page page (dict_get "totalPages" got.2)) in
      if stop then ret (Some lines)
      else do! rest := walk_pages fuel' now event_id (page + 1) corr in
           ret (match rest with Some l => Some (lines ++ l) | None => None end)
  end.

Definition store_flags (tender_id event : Z) (observed : string) (ids : list Z) : act unit :=
  each (λ i, do! _ := store_boq_line_recalc_flag tender_id i event observed in ret ()) ids.

Definition flag_changes (fuel : nat) (now tender_id event_id snapshot : Z) (changes : list TenderFieldChange)
    (corr observed : string) : act (option Z) :=
  do! change_event := store_tender_change_event tender_id (classify_change_type changes) changes observed snapshot in
  do! old_lines := gets (list_boq_lines_by_event "etender" event_id) in
  do! walked := walk_pages fuel now event_id 1 corr in
  match walked with
  | None => ret None
  | Some new_lines =>
      let ids := diff_boq_lines old_lines new_lines in
      do! _ := store_flags tender_id change_event observed ids in
      ret (Some (Z.of_nat (length ids)))
  end.

Definition ingest_check (now tender_id : Z) (raw_body : string) (p : payload) (corr : string) : act (Z * version_row) :=
  do! v := ingest_event_details now raw_body p corr in
  do! _ := pure (if tv_tender_id v.2 =? tender_id then Ok ()
                 else Err (AssertionFailed ("ingest_event_details resolved a different tender (" +:+ py_str_Z (tv_tender_id v.2) +:+
                   ") than requested (" +:+ py_str_Z tender_id +:+ ")"))) in
  ret v.

Definition check_tender_for_changes (fuel : nat) (now tender_id : Z) (corr observed : string) : act (option CheckResult) :=
  do! before := gets (λ s, s) in
  do! found := pure (get_event_id_for_tender before tender_id) in
  match found with
  | None => raise (Raised (ValueError ("tender " +:+ py_str_Z tender_id +:+ " has no resolvable event id -- cannot track for changes")))
  | Some event_id =>
      let previous := previous_fields before tender_id in
      do! got := pure (fetch_event_details event_id) in
      do! r := catching_drift (do! v := ingest_check now tender_id got.1 got.2 corr in ret (inl v))
                 (λ d n i, do! q := queue_drift now "etender" corr d n i in ret (inr q)) in
      match r with
      | inr _ =>
          do! _ := upsert_watch_state tender_id observed in
          ret (Some {| change_detected := false; cr_change_type := None; flagged_line_count := 0 |})
      | inl v =>
          let changes := diff_normalized_fields previous (normalized_fields v.2) in
          do! flagged := match changes with
                         | [] => ret (Some 0)
                         | _ => flag_changes fuel now tender_id event_id (tv_snapshot_id v.2) changes corr observed
                         end in
          match flagged with
          | None => ret None
          | Some n =>
              do! _ := upsert_watch_state tender_id observed in
              ret (Some {| change_detected := match changes with [] => false | _ => true end;
                           cr_change_type := match changes with [] => None | _ => Some (classify_change_type changes) end;
                           flagged_line_count := n |})
          end
      end
  end.
End Check.

(** ** The differences are exact *)

Lemma dict_get_missing k (p : payload) : k ∉ p.*1 → dict_get k p = JNull.
Proof. intros Hk. unfold dict_get. by rewrite (proj2 (assoc_None k p)). Qed.

Lemma elem_of_diff_fields old new k : k ∈ map fc_field (diff_normalized_fields old new) ↔
  (k ∈ old.*1 ∨ k ∈ new.*1) ∧ k ≠ "id" ∧ field_differs old new k = true.
Proof.
  unfold diff_normalized_fields. rewrite map_map. simpl. rewrite map_id, list_elem_of_filter, elem_of_sorted_set,
    elem_of_difference, elem_of_union, !elem_of_list_to_set. set_solver.
Qed.

(** The changes of a tender are exactly its fields, the event id excepted,
    whose values are not equal, each once, in order and with the value on both
    sides, so there is none exactly when every field is equal; they are a
    deadline shift exactly when one of the three dates is among them. *)
Theorem diff_fields_spec old new :
  (∀ k, k ∈ map fc_field (diff_normalized_fields old new) ↔
     k ≠ "id" ∧ py_eq (dict_get k old) (dict_get k new) = false) ∧
  (∀ c, c ∈ diff_normalized_fields old new → old_value c = dict_get (fc_field c) old ∧ new_value c = dict_get (fc_field c) new) ∧
  StronglySorted String.le (map fc_field (diff_normalized_fields old new)) ∧
  NoDup (map fc_field (diff_normalized_fields old new)) ∧
  (diff_normalized_fields old new = [] ↔ ∀ k, k ≠ "id" → py_eq (dict_get k old) (dict_get k new) = true) ∧
  (classify_change_type (diff_normalized_fields old new) = "deadline_shift" ↔
     ∃ k, k ∈ ["end_date"; "envelope_date"; "start_date"] ∧ py_eq (dict_get k old) (dict_get k new) = false).
Proof.
  assert (∀ k, k ∈ map fc_field (diff_normalized_fields old new) ↔
    k ≠ "id" ∧ py_eq (dict_get k old) (dict_get k new) = false) as Hk.
  { intros k. rewrite elem_of_diff_fields. unfold field_differs. rewrite negb_true_iff. split; [naive_solver|].
    intros [Hid Hne]. split; [|done]. destruct (decide (k ∈ old.*1)) as [|Ho]; [by left|].
    destruct (decide (k ∈ new.*1)) as [|Hn]; [by right|]. rewrite !dict_get_missing in Hne by done. done. }
  split; [exact Hk|]. split_and!.
  - unfold diff_normalized_fields. intros c (k & -> & _)%list_elem_of_fmap. done.
  - unfold diff_normalized_fields. rewrite map_map. simpl. rewrite map_id. apply sorted_filter, sorted_set_sorted.
  - unfold diff_normalized_fields. rewrite map_map. simpl. rewrite map_id. apply NoDup_filter, NoDup_sorted_set.
  - rewrite <-(map_nil fc_field), nil_no_elem. split.
    + intros Hn k Hid. destruct (py_eq (dict_get k old) (dict_get k new)) eqn:He; [done|].
      destruct (Hn k). by apply Hk.
    + intros Ha k [Hid He]%Hk. by rewrite Ha in He.
  - unfold classify_change_type. destruct (existsb _ _) eqn:He.
    + split; [intros _|done]. apply existsb_exists in He as (c & Hc & Hd%bool_decide_eq_true).
      exists (fc_field c). split; [done|]. apply Hk. apply list_elem_of_fmap. exists c. by rewrite list_elem_of_In.
    + split; [done|]. intros (k & Hin & Hne). exfalso. assert (k ≠ "id") as Hid by (set_solver +Hin).
      assert (k ∈ map fc_field (diff_normalized_fields old new)) as (c & -> & Hc)%list_elem_of_fmap by (by apply Hk).
      enough (existsb (λ c, bool_decide (fc_field c ∈ DEADLINE_FIELDS)) (diff_normalized_fields old new) = true) by congruence.
      apply existsb_exists. exists c. rewrite <-list_elem_of_In. split; [done|]. by apply bool_decide_eq_true.
Qed.

Lemma filter_line_id lines i l : NoDup (map source_line_id lines) → l ∈ lines → source_line_id l = i →
  filter (λ l, source_line_id l = i) lines = [l].
Proof.
  intros Hnd Hl <-. induction lines as [|x lines IH]; [by apply elem_of_nil in Hl|]. simpl in Hnd.
  apply NoDup_cons in Hnd as [Hx Hnd]. rewrite filter_cons. apply elem_of_cons in Hl as [<-|Hl].
  - rewrite decide_True by done. f_equal. apply nil_no_elem. intros y [Hy Hin]%list_elem_of_filter. destruct Hx.
    apply list_elem_of_fmap. by exists y.
  - rewrite decide_False; [by apply IH|]. intros He. destruct Hx. apply list_elem_of_fmap. by exists l.
Qed.
Lemma by_line_id_spec lines i l : NoDup (map source_line_id lines) →
  by_line_id lines i = Some l ↔ l ∈ lines ∧ source_line_id l = i.
Proof.
  intros Hnd. unfold by_line_id. split.
  - intros Hl. assert (l ∈ filter (λ l, source_line_id l = i) lines) as [? ?]%list_elem_of_filter; [|done].
    apply last_Some in Hl as [k ->]. set_solver.
  - intros [Hl Hi]. by rewrite (filter_line_id lines i l).
Qed.
Lemma by_line_id_None lines i : by_line_id lines i = None ↔ i ∉ map source_line_id lines.
Proof.
  unfold by_line_id. rewrite last_None, nil_no_elem. split.
  - intros Hn (l & -> & Hl)%list_elem_of_fmap. apply (Hn l). by apply list_elem_of_filter.
  - intros Hi l [<- Hl]%list_elem_of_filter. apply Hi. apply list_elem_of_fmap. by exists l.
Qed.

Lemma elem_of_diff_lines old new i : i ∈ diff_boq_lines old new ↔
  (i ∈ map source_line_id old ∨ i ∈ map source_line_id new) ∧ line_changed old new i = true.
Proof.
  unfold diff_boq_lines. rewrite list_elem_of_filter, merge_sort_Permutation, elem_of_elements, elem_of_union, !elem_of_list_to_set.
  naive_solver.
Qed.

(** When no line id repeats, the lines flagged by a re-check are exactly the
    ids of lines that were added, were removed, or differ in text, unit,
    quantity, rate or amount, each once and in increasing order. *)
Theorem diff_lines_spec old new :
  NoDup (map source_line_id old) → NoDup (map source_line_id new) →
  (∀ i, i ∈ diff_boq_lines old new ↔
     (∃ a, a ∈ old ∧ source_line_id a = i ∧ i ∉ map source_line_id new) ∨
     (∃ b, b ∈ new ∧ source_line_id b = i ∧ i ∉ map source_line_id old) ∨
     (∃ a b, a ∈ old ∧ b ∈ new ∧ source_line_id a = i ∧ source_line_id b = i ∧ same_fingerprint a b = false)) ∧
  StronglySorted Z.le (diff_boq_lines old new) ∧ NoDup (diff_boq_lines old new).
Proof.
  intros Ho Hn. split; [intros i|split].
  - rewrite elem_of_diff_lines. unfold line_changed. split.
    + intros [Hin Hc]. destruct (by_line_id old i) as [a|] eqn:Ha, (by_line_id new i) as [b|] eqn:Hb.
      * apply by_line_id_spec in Ha as [? ?], Hb as [? ?]; [|done|done]. right; right. exists a, b.
        split_and!; try done. by apply negb_true_iff.
      * apply by_line_id_spec in Ha as [? ?]; [|done]. apply by_line_id_None in Hb. left. by exists a.
      * apply by_line_id_spec in Hb as [? ?]; [|done]. apply by_line_id_None in Ha. right; left. by exists b.
      * apply by_line_id_None in Ha, Hb. tauto.
    + intros [(a & Ha & <- & Hb)|[(b & Hb & <- & Ha)|(a & b & Ha & Hb & <- & Hid & Hf)]].
      * split; [left; apply list_elem_of_fmap; by exists a|]. rewrite (proj2 (by_line_id_None new _) Hb).
        by destruct (by_line_id old _).
      * split; [right; apply list_elem_of_fmap; by exists b|]. by rewrite (proj2 (by_line_id_None old _) Ha).
      * split; [left; apply list_elem_of_fmap; by exists a|].
        rewrite (proj2 (by_line_id_spec old _ a Ho)), (proj2 (by_line_id_spec new _ b Hn)) by done. by rewrite Hf.
  - apply sorted_filter, StronglySorted_merge_sort; apply _.
  - apply NoDup_filter. rewrite merge_sort_Permutation. apply NoDup_elements.
Qed.

(** ** What a check leaves *)

Section CheckSpec.
Context `{PyText} `{Bytes} `{PyRegex}.
Variable fetch_event_details : Z → result exn (string * payload).
Variable fetch_bom_page : Z → Z → result exn (string * payload).
Variable heartbeat : Z → result exn unit.
Abbreviation walk := (walk_pages fetch_bom_page heartbeat).
Abbreviation check := (check_tender_for_changes fetch_event_details fetch_bom_page heartbeat).

#[local] Hint Resolve keeps_ingest_or_queue keeps_catching_drift keeps_queue_drift keeps_ingest_event_details : keeps.

Lemma keeps_walk fuel now event page corr : keeps (walk fuel now event page corr).
Proof.
  revert page; induction fuel as [|fuel IH]; intros page; cbn [walk_pages]; [keeps_tac|].
  keeps_tac.
Qed.
#[local] Hint Resolve keeps_walk : keeps.

Lemma keeps_flag_changes fuel now tender event snap changes corr observed :
  keeps (flag_changes fetch_bom_page heartbeat fuel now tender event snap changes corr observed).
Proof. unfold flag_changes, store_flags. keeps_tac. Qed.
#[local] Hint Resolve keeps_flag_changes : keeps.

Lemma keeps_check fuel now tender corr observed : keeps (check fuel now tender corr observed).
Proof.
  unfold check_tender_for_changes. keeps_tac.
  apply keeps_catching_drift; [|intros d n i]; unfold ingest_check; keeps_tac.
Qed.

(** The tables a walk leaves alone *)
Record walk_frame (s s' : tdb) : Prop := {
  wf_boq_lines : boq_lines s' = boq_lines s;
  wf_boq_imports : boq_imports s' = boq_imports s;
  wf_change_events : change_events s' = change_events s;
  wf_recalc_flags : recalc_flags s' = recalc_flags s;
  wf_watch_state : watch_state s' = watch_state s }.
#[local] Instance walk_frame_preorder : PreOrder walk_frame.
Proof. split; [by intros s|]. intros s1 s2 s3 [] []. split; congruence. Qed.

Lemma frame_of_ingest raw s s' v : ingest_frame raw s s' (Ok v) → walk_frame s s'.
Proof. intros (? & ? & _ & ? & ? & ? & _). by split. Qed.
Lemma frame_of_drift raw s s' d n i : ingest_frame raw s s' (Err (DriftDetected d n i)) → walk_frame s s'.
Proof. intros (? & ? & _ & ? & ? & ? & _). by split. Qed.
Lemma frame_of_queue now src corr d n i s q s' : queue_drift now src corr d n i s = (Ok q, s') → walk_frame s s'.
Proof. intros (t & r & -> & _)%queue_drift_ok. by split. Qed.

Lemma ingest_or_queue_frame now event raw p corr s r s' : history_ok s →
  ingest_or_queue now event raw p corr s = (Ok r, s') → walk_frame s s'.
Proof.
  intros Hs Hr%ingest_or_queue_ok. destruct r as [v|q].
  - by apply ingest_bom_lines_page_inv, frame_of_ingest in Hr.
  - destruct Hr as (d & n & i & s1 & Hi & Hq). apply ingest_bom_lines_page_inv, frame_of_drift in Hi; [|done].
    etrans; [exact Hi|by eapply frame_of_queue].
Qed.

Lemma walk_frames fuel now event page corr s r s' : history_ok s →
  walk fuel now event page corr s = (Ok r, s') → walk_frame s s'.
Proof.
  revert page s r; induction fuel as [|fuel IH]; intros page s r Hs Hr; cbn [walk_pages] in Hr; act_inv Hr; [done|].
  match goal with Hq : ingest_or_queue ?n ?e ?r ?p ?c s = (_, ?s1) |- _ =>
    pose proof (ingest_or_queue_frame _ _ _ _ _ _ _ _ Hs Hq) as Hf;
    pose proof (keeps_ingest_or_queue n e r p c s Hs) as [Hs1 _]; rewrite Hq in Hs1; simpl in Hs1 end.
  match type of Hr with (if ?b then _ else _) _ = _ => destruct b end; act_inv Hr; [done|].
  match goal with Hw : walk _ _ _ _ _ _ = _ |- _ => apply IH in Hw; [by etrans|done] end.
Qed.

Definition flag_of (tender event at_ i : Z) : flag_row :=
  {| fl_tender_id := tender; fl_line_id := i; fl_event_id := event; flagged_at := at_; resolved_at := None |}.

Lemma store_flags_ok tender event observed at_ ids s u s' :
  Datetime.fromisoformat observed = Ok at_ → store_flags tender event observed ids s = (Ok u, s') →
  ∃ t, s' = set_recalc_flags t s ∧
    (rows t).*2 = (rows (recalc_flags s)).*2 ++ map (flag_of tender event (Datetime.to_timestamptz at_)) ids.
Proof.
  intros Hat. revert s; induction ids as [|i ids IH]; intros s Hs; unfold store_flags in Hs; cbn [each] in Hs; act_inv Hs.
  - exists (recalc_flags s). split; [by destruct s|simpl; by rewrite app_nil_r].
  - match goal with Hf : store_boq_line_recalc_flag _ _ _ _ _ = _ |- _ => unfold store_boq_line_recalc_flag in Hf; act_inv Hf end.
    match goal with Hi : insert_in _ _ _ _ = _ |- _ => injection Hi as _ <- end.
    match goal with Hx : Datetime.fromisoformat observed = Ok ?b |- _ => assert (b = at_) as -> by congruence end.
    apply IH in Hs as (t & -> & Hr). exists t. split; [done|]. cbn -[tbl_insert] in *. rewrite Hr. simpl.
    rewrite fmap_app. simpl. by rewrite <-app_assoc.
Qed.

Lemma upsert_watch_state_ok tender observed s u s' : upsert_watch_state tender observed s = (Ok u, s') →
  ∃ at_, Datetime.fromisoformat observed = Ok at_ ∧ s' = set_watch_state (<[tender := Datetime.to_timestamptz at_]> (watch_state s)) s.
Proof. unfold upsert_watch_state. intros Hu. act_inv Hu. injection Hu as _ <-. by eexists. Qed.

Definition change_row (tender at_ snap : Z) (changes : list TenderFieldChange) : change_event_row :=
  {| ce_tender_id := tender; change_type := classify_change_type changes; changed_fields := changes;
     ce_detected_at := at_; ce_snapshot_id := snap |}.

Lemma flag_changes_ok fuel now tender event snap changes corr observed s n s' :
  history_ok s →
  flag_changes fetch_bom_page heartbeat fuel now tender event snap changes corr observed s = (Ok (Some n), s') →
  ∃ at_ e ids new_lines, Datetime.fromisoformat observed = Ok at_ ∧
    let now_ := Datetime.to_timestamptz at_ in
    rows (change_events s') = rows (change_events s) ++ [(e, change_row tender now_ snap changes)] ∧
    ids = diff_boq_lines (list_boq_lines_by_event "etender" event s) new_lines ∧ n = Z.of_nat (length ids) ∧
    (rows (recalc_flags s')).*2 = (rows (recalc_flags s)).*2 ++ map (flag_of tender e now_) ids ∧
    boq_lines s' = boq_lines s ∧ boq_imports s' = boq_imports s ∧ watch_state s' = watch_state s.
Proof.
  intros Hs Hf. unfold flag_changes in Hf.
  apply bind_ok in Hf as (e & s1 & Hst & Hf).
  pose proof (keeps_store_tender_change_event tender (classify_change_type changes) changes observed snap s Hs) as [Hs1 _].
  rewrite Hst in Hs1. simpl in Hs1. unfold store_tender_change_event in Hst. act_inv Hst. injection Hst as <- <-.
  act_inv Hf. match goal with Hw : walk _ _ _ _ _ _ = (Ok ?w, ?s2) |- _ => apply walk_frames in Hw as [Hbl Hbi Hce Hrf Hws]; [|done]; destruct w as [new_lines|] end;
    act_inv Hf; [|discriminate].
  match goal with Hx : Datetime.fromisoformat observed = Ok ?b |- _ => rename b into at_; rename Hx into Hat end.
  match goal with Hs2 : store_flags _ _ _ _ _ = _ |- _ => apply (store_flags_ok _ _ _ at_) in Hs2 as (t & -> & Hrows); [|done] end.
  injection Hf as ->. cbn -[tbl_insert] in *.
  exists at_, (next_id (change_events s)), (diff_boq_lines (list_boq_lines_by_event "etender" event s) new_lines), new_lines.
  split_and!; try done; [by rewrite Hce|by rewrite Hrows, Hrf].
Qed.

Lemma ingest_check_ok now tender raw p corr s v s' : history_ok s → ingest_check now tender raw p corr s = (Ok v, s') →
  history_ok s' ∧ walk_frame s s' ∧ tbl_get (versions s') v.1 = Some v.2 ∧ tv_tender_id v.2 = tender.
Proof.
  intros Hs Hi. unfold ingest_check in Hi. apply bind_ok in Hi as ([i row] & s1 & Hev & Hi).
  pose proof (keeps_ingest_event_details now raw p corr s Hs) as [Hs1 _]. rewrite Hev in Hs1. simpl in Hs1.
  act_inv Hi. cbn [fst snd] in *.
  match goal with Hb : (if ?b then _ else _) = Ok _ |- _ => destruct b eqn:Ht; [apply Z.eqb_eq in Ht|discriminate Hb] end.
  unfold ingest_event_details in Hev. apply bind_ok in Hev as (j & s2 & Hj & Hev). apply pure_ok in Hj as [_ ->].
  split_and!; [done| |exact (ingest_ok_version _ _ _ _ _ _ _ _ _ _ _ _ Hs Hev)|done]. by apply ingest_frames, frame_of_ingest in Hev.
Qed.

Lemma catching_drift_ok {A} (m : act A) h s a s' : catching_drift m h s = (Ok a, s') →
  m s = (Ok a, s') ∨ ∃ d n i s1, m s = (Err (DriftDetected d n i), s1) ∧ h d n i s1 = (Ok a, s').
Proof. unfold catching_drift. destruct (m s) as [[b|[d n i|e|e]] s1]; intros Hx; simplify_eq; eauto 8. Qed.

Lemma ingest_check_drift now tender raw p corr s d n i s' : history_ok s →
  (do! v := ingest_check now tender raw p corr in ret (inl (B := Z) v)) s = (Err (DriftDetected d n i), s') → walk_frame s s'.
Proof.
  intros Hs. unfold ingest_check, ingest_event_details, bind, pure.
  destruct (py_index (JObj p) "id"); [|done]. cbn [map_err].
  match goal with |- context [ingest ?a ?b ?c ?d ?e ?f ?g ?h s] => destruct (ingest a b c d e f g h s) as [r s1] eqn:Hi end.
  apply ingest_frames in Hi; [|done]. destruct r as [[v row]|e]; cbn [fst snd].
  - by destruct (tv_tender_id row =? tender).
  - intros [= -> <-]. by eapply frame_of_drift.
Qed.

(** A completed check of a tender never changes a stored line or an import,
    only adds facts, and sets the watch state to the time of the check. When it
    reports no change it adds no event and no flag. When it reports a change,
    the fields of the tender's new version do differ from the current ones
    before, exactly one event records the differences under the reported type,
    and every line that differs from the pages read has exactly one flag,
    naming that event. *)
Theorem check_effect fuel now tender corr observed s res s' :
  history_ok s →
  check fuel now tender corr observed s = (Ok (Some res), s') →
  history_ok s' ∧ extends s s' ∧ boq_lines s' = boq_lines s ∧ boq_imports s' = boq_imports s ∧
  ∃ at_, Datetime.fromisoformat observed = Ok at_ ∧ let now_ := Datetime.to_timestamptz at_ in
    watch_state s' = <[tender := now_]> (watch_state s) ∧
    match cr_change_type res with
    | None => change_detected res = false ∧ flagged_line_count res = 0 ∧
        change_events s' = change_events s ∧ recalc_flags s' = recalc_flags s
    | Some ty => change_detected res = true ∧
        ∃ event v row e new_lines,
          let changes := diff_normalized_fields (previous_fields s tender) (normalized_fields row) in
          let ids := diff_boq_lines (list_boq_lines_by_event "etender" event s) new_lines in
          get_event_id_for_tender s tender = Ok (Some event) ∧
          tbl_get (versions s') v = Some row ∧ tv_tender_id row = tender ∧ changes ≠ [] ∧ ty = classify_change_type changes ∧
          rows (change_events s') = rows (change_events s) ++ [(e, change_row tender now_ (tv_snapshot_id row) changes)] ∧
          (rows (recalc_flags s')).*2 = (rows (recalc_flags s)).*2 ++ map (flag_of tender e now_) ids ∧
          flagged_line_count res = Z.of_nat (length ids)
    end.
Proof.
  intros Hs Hr. pose proof (keeps_check fuel now tender corr observed s Hs) as Hk. rewrite Hr in Hk.
  destruct Hk as [Hk He]. do 2 (split; [done|]). unfold check_tender_for_changes in Hr. act_inv Hr.
  destruct a as [event|]; [|done]. act_inv Hr.
  match goal with Hc : catching_drift _ _ _ = (Ok ?r, ?s1) |- _ => rename r into r0; rename s1 into sc; rename Hc into Hcatch end.
  apply catching_drift_ok in Hcatch as [Hv|(d & n & i & s1 & Hd & Hq)].
  - act_inv Hv. match goal with Hi : ingest_check _ _ _ _ _ _ = _ |- _ =>
      apply ingest_check_ok in Hi as (Hsc & Hf & Hg & Ht); [|done] end. destruct Hf as [Hbl Hbi Hce Hrf Hws].
    match goal with Hg : tbl_get (versions s1) ?v.1 = _ |- _ => destruct v as [vid row] end. cbn [fst snd] in *.
    remember (diff_normalized_fields (previous_fields s tender) (normalized_fields row)) as changes eqn:Hch.
    apply bind_ok in Hr as (fl & s2 & Hfl & Hr). destruct changes as [|c rest].
    + act_inv Hfl. act_inv Hr. injection Hr as ->.
      match goal with Hu : upsert_watch_state _ _ _ = _ |- _ => apply upsert_watch_state_ok in Hu as (at_ & Hat & ->) end.
      split_and!; [done|done|]. exists at_. split; [done|]. cbn. by rewrite Hws.
    + destruct fl as [n|]; [|by act_inv Hr].
      pose proof (keeps_flag_changes fuel now tender event (tv_snapshot_id row) (c :: rest) corr observed s1 Hsc) as [_ He2].
      rewrite Hfl in He2. cbn [snd] in He2. apply flag_changes_ok in Hfl as
        (at_ & e & ids & new_lines & Hat & Hev & Hids & Hn & Hrows & Hbl2 & Hbi2 & Hws2); [|done].
      act_inv Hr. injection Hr as ->.
      match goal with Hu : upsert_watch_state _ _ _ = _ |- _ => apply upsert_watch_state_ok in Hu as (at' & Hat' & ->) end.
      assert (at' = at_) as -> by congruence. split_and!; [by rewrite <-Hbl|by rewrite <-Hbi|].
      exists at_. split; [done|]. cbn -[diff_normalized_fields diff_boq_lines]. split; [by rewrite Hws2, Hws|]. split; [done|].
      exists event, vid, row, e, new_lines. rewrite <-Hch.
      assert (list_boq_lines_by_event "etender" event s1 = list_boq_lines_by_event "etender" event s) as Hl
        by (unfold list_boq_lines_by_event; by rewrite Hbl).
      rewrite Hl in Hids. subst ids n. split_and!; try done; [|by rewrite Hev, Hce|by rewrite Hrows, Hrf].
      apply (extends_get (versions s1)); [apply Hsc|apply Hk|apply He2|done].
  - act_inv Hq. apply ingest_check_drift in Hd as [Hbl Hbi Hce Hrf Hws]; [|done].
    match goal with Hq : queue_drift _ _ _ _ _ _ _ = _ |- _ => apply frame_of_queue in Hq as [] end.
    act_inv Hr. injection Hr as ->.
    match goal with Hu : upsert_watch_state _ _ _ = _ |- _ => apply upsert_watch_state_ok in Hu as (at_ & Hat & ->) end.
    cbn. split_and!; [congruence|congruence|]. exists at_. split; [done|]. split; [|split_and!; congruence].
    congruence.
Qed.
End CheckSpec.

(** ** Termination *)

Section Termination.
Context `{PyText} `{Bytes} `{PyRegex}.
Variable fetch_event_details : Z → result exn (string * payload).
Variable fetch_bom_page : Z → Z → result exn (string * payload).
Variable heartbeat : Z → result exn unit.
Variable last_page : Z.
(** From this page on, a page the source serves says that it is the last. *)
Hypothesis pages_end : ∀ event page raw p stop, last_page <= page → fetch_bom_page event page = Ok (raw, p) →
  is_last_page page (dict_get "totalPages" p) = Ok stop → stop = true.

Lemma walk_ends fuel now event page corr s s' :
  last_page < page + Z.of_nat fuel → (0 < fuel)%nat →
  walk_pages fetch_bom_page heartbeat fuel now event page corr s ≠ (Ok None, s').
Proof using Type pages_end.
  revert page s; induction fuel as [|fuel IH]; intros page s Hf Hpos Hw; [lia|]. cbn [walk_pages] in Hw.
  act_inv Hw. match goal with Hl : is_last_page _ _ = Ok ?b |- _ => destruct b eqn:Hb end; act_inv Hw; [done|].
  match goal with Hn : walk_pages _ _ _ _ _ _ _ _ = (Ok ?o, _) |- _ => destruct o; [done|]; eapply (IH (page + 1) _); [..|exact Hn] end.
  - lia.
  - destruct fuel; [|lia]. exfalso. assert (last_page <= page) as Hle by lia.
    match goal with Hp : fetch_bom_page event page = Ok ?a, Hl : is_last_page _ _ = Ok _ |- _ =>
      destruct a as [raw p]; by apply (pages_end _ _ _ _ _ Hle Hp) in Hl end.
Qed.

(** When the source ends its pages at some page, a check with as much fuel
    as pages does not run out of it: the check returns its result or raises. *)
Theorem check_terminates fuel now tender corr observed s :
  (0 < fuel)%nat → last_page <= Z.of_nat fuel →
  (check_tender_for_changes fetch_event_details fetch_bom_page heartbeat fuel now tender corr observed s).1 ≠ Ok None.
Proof using Type pages_end.
  intros Hpos Hf Hc. destruct (check_tender_for_changes _ _ _ _ _ _ _ _ s) as [r s'] eqn:Hr. simpl in Hc. subst r.
  unfold check_tender_for_changes in Hr. act_inv Hr. destruct a as [event|]; [|done]. act_inv Hr.
  match type of Hr with (match ?x with _ => _ end) _ = _ => destruct x as [v|q] end; [|act_inv Hr; discriminate].
  apply bind_ok in Hr as (fl & s2 & Hfl & Hr).
  destruct fl; [act_inv Hr; discriminate|]. destruct (diff_normalized_fields _ _); [act_inv Hfl; discriminate|].
  unfold flag_changes in Hfl. apply bind_ok in Hfl as (e & s3 & _ & Hfl).
  apply bind_ok in Hfl as (old & s4 & _ & Hfl). apply bind_ok in Hfl as (w & s5 & Hw & Hfl).
  destruct w; [act_inv Hfl; discriminate|]. revert Hw. apply walk_ends; [lia|done].
Qed.
End Termination.

(** ** The history of the tables under every sequence of transactions *)

Section History.
Context `{PyText} `{Bytes} `{PyRegex}.

(** The transactions that write the tables, with what the network answers. A
    job that ingests a page of signals records a drift as the other jobs do. *)
Inductive tender_op :=
| OEventDetails (raw : string) (p : payload) (corr : string)
| OBomPage (x : Jobs.Job) (fetch : Z → Z → result exn (string * payload))
| ODesignPage (raw : string) (p query : payload) (corr observed : string)
| OPlanPage (raw : string) (p : payload) (year page : Z) (buyer corr observed : string)
| ODonorPage (raw : string) (p : payload) (os : Z) (corr observed : string)
| OCheck (fuel : nat) (tender : Z) (corr observed : string) (details : Z → result exn (string * payload))
    (pages : Z → Z → result exn (string * payload)) (heartbeat : Z → result exn unit).

Definition recording_drift {A} (now : Z) (src corr : string) (m : act A) : act unit :=
  catching_drift (do! _ := m in ret ()) (λ d n i, do! _ := queue_drift now src corr d n i in ret ()).

Definition perform (now : Z) (o : tender_op) : act unit :=
  match o with
  | OEventDetails raw p corr => recording_drift now "etender" corr (ingest_event_details now raw p corr)
  | OBomPage x fetch => do! _ := process_bom_lines_page now x fetch in ret ()
  | ODesignPage raw p q corr observed =>
      recording_drift now "etender" corr (ingest_design_tender_signals_page now raw p q corr observed)
  | OPlanPage raw p year page buyer corr observed =>
      recording_drift now "etender" corr (ingest_procurement_plan_page now raw p year page buyer corr observed)
  | ODonorPage raw p os corr observed =>
      recording_drift now "worldbank_projects_api" corr (ingest_donor_pipeline_page now raw p os corr observed)
  | OCheck fuel tender corr observed details pages heartbeat =>
      do! _ := check_tender_for_changes details pages heartbeat fuel now tender corr observed in ret ()
  end.

(** Commit, or roll back on an exception. *)
Definition transact (s : tdb) (no : Z * tender_op) : tdb :=
  match perform no.1 no.2 s with (Ok _, s') => s' | (Err _, _) => s end.
Definition run_ops (os : list (Z * tender_op)) (s : tdb) : tdb := foldl transact s os.

Lemma keeps_recording_drift {A} now src corr (m : act A) : keeps m → keeps (recording_drift now src corr m).
Proof. intros Hm. apply keeps_catching_drift; [|intros d n i]; keeps_tac. apply keeps_queue_drift. Qed.

#[local] Hint Resolve keeps_ingest_event_details keeps_process_bom_lines_page keeps_ingest_design_tender_signals_page
  keeps_ingest_procurement_plan_page keeps_ingest_donor_pipeline_page keeps_check : keeps.

Lemma keeps_perform now o : keeps (perform now o).
Proof. destruct o; simpl; try apply keeps_recording_drift; keeps_tac. Qed.

Lemma run_ops_keeps os s : history_ok s → history_ok (run_ops os s) ∧ extends s (run_ops os s).
Proof.
  revert s; induction os as [|no os IH]; intros s Hs; simpl; [done|].
  assert (history_ok (transact s no) ∧ extends s (transact s no)) as [Hs1 He1].
  { unfold transact. destruct (keeps_perform no.1 no.2 s Hs) as [? ?]. by destruct (perform _ _ s) as [[|] s1]. }
  destruct (IH _ Hs1) as [? ?]. split; [done|by etrans].
Qed.

(** C15: whatever the sources answer, after any sequence of ingestions, BOQ
    pages and checks: evidence, versions, outbox events, lines, signals, change
    events and flags stored at some point are still there, unchanged, later; a
    tender keeps its identity, which no other tender has; its versions are
    numbered 1, 2, ... in order, the current one is the last, and each refers to
    evidence that exists. *)
Theorem tender_history os os' :
  let s := run_ops os empty_tdb in
  let s' := run_ops os' s in
  history_ok s' ∧ extends s s' ∧
  (∀ i e, tbl_get (snapshots s) i = Some e → tbl_get (snapshots s') i = Some e) ∧
  (∀ i v, tbl_get (versions s) i = Some v → tbl_get (versions s') i = Some v).
Proof.
  destruct (run_ops_keeps os empty_tdb empty_history_ok) as [Hs _].
  destruct (run_ops_keeps os' _ Hs) as [Hs' He]. split_and!; [done|done| |].
  - intros i e. apply extends_get; [apply Hs|apply Hs'|apply He].
  - intros i v. apply extends_get; [apply Hs|apply Hs'|apply He].
Qed.
End History.

(** ** Witnesses *)

Definition boq_line (i : Z) (text : string) (q : decimal) : BoqLine := {|
  source_line_id := i; page_number := 1; section := None; category_code := None; description := text; unit_raw := "m3";
  unit_canonical := Some "m3"; unit_status := "mapped"; qty := q; line_type := "normal"; spec_requirements := [];
  rate := None; amount := None |}.

Lemma diff_lines_spec_witness :
  let old := [boq_line 1 "a" (DFin false 1 0); boq_line 2 "b" (DFin false 1 0); boq_line 3 "c" (DFin false 5 0)] in
  let new := [boq_line 4 "d" (DFin false 1 0); boq_line 1 "a" (DFin false 10 (-1)); boq_line 3 "c" (DFin false 6 0)] in
  diff_boq_lines old new = [2; 3; 4] ∧ StronglySorted Z.le (diff_boq_lines old new) ∧ 1 ∉ diff_boq_lines old new.
Proof.
  intros old new.
  destruct (diff_lines_spec old new) as (Hi & Hs & _);
    [refine (bool_decide_eq_true_1 _ _); vm_compute; reflexivity|refine (bool_decide_eq_true_1 _ _); vm_compute; reflexivity|].
  split; [vm_compute; reflexivity|]. split; [exact Hs|].
  refine (bool_decide_eq_true_1 _ _). vm_compute. reflexivity.
Defined.

Section Demo.
#[local] Existing Instance ascii_text.
#[local] Existing Instance demo_bytes.
#[local] Existing Instance ascii_regex.

Definition demo_time : string := "2026-08-01T00:00:00+00:00".
Definition demo_details (end_date : Z) (event : Z) : result exn (string * payload) :=
  Ok ("raw", event_details_payload event end_date).
Definition demo_pages (event page : Z) : result exn (string * payload) := Ok ("raw", bom_page page [bom_item page]).
Definition demo_alive (page : Z) : result exn unit := Ok ().
Definition demo_before : tdb := run_ops [(0, OEventDetails "raw" (event_details_payload 355920 7) "c")] empty_tdb.
Definition demo_check (fuel : nat) : result terror (option CheckResult) * tdb :=
  check_tender_for_changes (demo_details 8) demo_pages demo_alive fuel 1 1 "c" demo_time demo_before.
End Demo.

Lemma demo_before_ok : history_ok demo_before.
Proof. apply (run_ops_keeps (H := ascii_text) (H0 := demo_bytes) (H1 := ascii_regex)), empty_history_ok. Qed.

Lemma check_effect_witness :
  ∃ res s', demo_check 5 = (Ok (Some res), s') ∧ cr_change_type res = Some "deadline_shift" ∧ flagged_line_count res = 2 ∧
    boq_lines s' = boq_lines demo_before ∧ history_ok s'.
Proof.
  pose (x := demo_check 5).
  assert (match x.1 with
          | Ok (Some res) => bool_decide (cr_change_type res = Some "deadline_shift") && (flagged_line_count res =? 2)
          | _ => false
          end = true) as Hv by (vm_compute; reflexivity).
  destruct x as [r s'] eqn:Hx. subst x. destruct r as [[res|]|]; [|discriminate Hv|discriminate Hv].
  apply andb_prop in Hv as [Hty%bool_decide_eq_true_1 Hn%Z.eqb_eq].
  destruct (check_effect (H := ascii_text) (H0 := demo_bytes) (H1 := ascii_regex) (demo_details 8) demo_pages demo_alive 5 1 1 "c" demo_time
    demo_before res s' demo_before_ok Hx) as (Hh & _ & Hb & _).
  exists res, s'. split; [exact Hx|]. split; [exact Hty|]. split; [exact Hn|]. split; [exact Hb|exact Hh].
Defined.

Lemma check_terminates_witness : (demo_check 2).1 ≠ Ok None.
Proof.
  refine (check_terminates (H := ascii_text) (H0 := demo_bytes) (H1 := ascii_regex) (demo_details 8) demo_pages demo_alive 2 _
    2 1 1 "c" demo_time demo_before _ _); [|lia|discriminate].
  intros event page raw p stop Hp [= <- <-] Hs. unfold is_last_page in Hs. cbn in Hs.
  unfold Worker.py_ge in Hs. cbn in Hs. destruct (Z.compare_spec page 2); try lia; injection Hs as <-; reflexivity.
Defined.
End TenderChanges.
