(* ===== verification/Idempotency.v ===== *)
(** * Idempotency keys and the audit log

    [packages/platform/idempotency.py] and the writer of
    [packages/platform/audit.py]. A mutating route reserves its key first and
    stores its response last, in the transaction of the request. *)

From stdpp Require Import base gmap strings list.
From Stdlib Require Import ZArith Lia.
From S2P Require Import Prelude Json Api SchemaDrift.

Module Idempotency.
Import Drift.
#[local] Open Scope Z_scope.

Record idem_row := {
  request_fingerprint : string;
  response_status : option Z;
  response_body : option json;
}.
(** [PRIMARY KEY (idempotency_key, route)] *)
Abbreviation idem_table := (gmap (string * string) idem_row).

Record IdempotencyRecord := { rec_status : Z; rec_body : json }.
Inductive reserve_error := IdempotencyKeyReused (key route : string).

(** The digest of the canonical text of a payload: [hashlib.sha256] of
    [json.dumps(payload, sort_keys=True, separators=(",", ":"))]. *)
Class Fingerprints := { sha256_of_canonical : payload → string }.
Definition fingerprint `{Fingerprints} (p : payload) : string := sha256_of_canonical p.

(** [None]: a new reservation. The table keeps the reservation. *)
Definition reserve (key route fp : string) (t : idem_table) : result reserve_error (option IdempotencyRecord * idem_table) :=
  match t !! (key, route) with
  | None => Ok (None, <[(key, route) := {| request_fingerprint := fp; response_status := None; response_body := None |}]> t)
  | Some r =>
      raise_if negb (String.eqb (request_fingerprint r) fp) with IdempotencyKeyReused key route ;;
      match response_status r with
      | None => Ok (None, t)
      | Some st => Ok (Some {| rec_status := st; rec_body := default JNull (response_body r) |}, t)
      end
  end.

Definition store_response (key route : string) (status : Z) (body : json) (t : idem_table) : idem_table :=
  alter (λ r, {| request_fingerprint := request_fingerprint r; response_status := Some status; response_body := Some body |})
    (key, route) t.

Section WithText.
Context `{PyText}.
Definition reused_message (e : reserve_error) : string :=
  match e with IdempotencyKeyReused key route =>
    "idempotency key " +:+ py_repr key +:+ " reused on " +:+ py_repr route +:+ " for a materially different request" end.
(** The answer of the routes to it *)
Definition key_reused {X} (e : reserve_error) : http_error X := api_error 409 "idempotency_key_reused" (reused_message e).
End WithText.

(** ** What a key remembers *)

(** Between transactions every reservation has its response. *)
Definition all_stored (t : idem_table) : Prop :=
  map_Forall (λ _ r, is_Some (response_status r) ∧ is_Some (response_body r)) t.
(** A later table answers the keys of an earlier one as that did. *)
Definition remembers (t t' : idem_table) : Prop := ∀ k r, t !! k = Some r → t' !! k = Some r.

#[export] Instance remembers_preorder : PreOrder remembers.
Proof. split; [by intros t k r|]. intros t1 t2 t3 H1 H2 k r Hr. by apply H2, H1. Qed.

(** A request that reserved a new key and stored its response adds one answer. *)
Lemma reserve_new key route fp t t1 status body :
  all_stored t → reserve key route fp t = Ok (None, t1) →
  let t' := store_response key route status body t1 in
  all_stored t' ∧ remembers t t' ∧ t !! (key, route) = None ∧
  t' !! (key, route) = Some {| request_fingerprint := fp; response_status := Some status; response_body := Some body |}.
Proof.
  intros Ha. unfold reserve. destruct (t !! (key, route)) as [r|] eqn:Hr.
  - destruct (Ha _ _ Hr) as [[st Hst] _]. rewrite Hst. by destruct (negb _).
  - intros [= <-]. simpl. unfold store_response. rewrite alter_insert. rewrite decide_True by done.
    split_and!; [|by intros k r Hk; rewrite lookup_insert_ne by congruence|done|by rewrite lookup_insert, decide_True].
    intros k r. rewrite lookup_insert. case_decide; [intros [= <-]; simpl; eauto|apply Ha].
Qed.

(** A known key with the same request gives the stored answer back, with
    another request it is refused; the table is the same. *)
Lemma reserve_known key route fp t r : t !! (key, route) = Some r → is_Some (response_status r) →
  reserve key route fp t =
  if bool_decide (request_fingerprint r = fp) then
    Ok (Some {| rec_status := default 0 (response_status r); rec_body := default JNull (response_body r) |}, t)
  else Err (IdempotencyKeyReused key route).
Proof.
  intros Hr [st Hst]. unfold reserve. rewrite Hr, Hst.
  destruct (String.eqb_spec (request_fingerprint r) fp); [by rewrite bool_decide_true|by rewrite bool_decide_false].
Qed.

(** ** The frame of the mutating routes *)

Section Guarded.
Context {D X : Type} (get : D → idem_table) (set : idem_table → D → D) (reject : reserve_error → X).

(** Reserve the key; replay its response, or do the work and store the response. *)
Definition guarded (key route fp : string) (status : Z) (work : D → result X (json * D)) (d : D) : result X (json * D) :=
  match reserve key route fp (get d) with
  | Err e => Err (reject e)
  | Ok (Some r, t) => Ok (rec_body r, set t d)
  | Ok (None, t) =>
      let! ' (body, d') := work (set t d) in
      Ok (body, set (store_response key route status body (get d')) d')
  end.

Hypothesis get_set : ∀ t d, get (set t d) = t.
Hypothesis set_get : ∀ d, set (get d) d = d.

(** What a key holds once its request was answered *)
Definition answered (key route fp : string) (body : json) (t : idem_table) : Prop :=
  ∃ r, t !! (key, route) = Some r ∧ request_fingerprint r = fp ∧ is_Some (response_status r) ∧ response_body r = Some body.

Lemma answered_remembers key route fp body t t' : remembers t t' → answered key route fp body t → answered key route fp body t'.
Proof. intros Hr (r & Hg & Hx). exists r. split; [by apply Hr|done]. Qed.

(** An answer is a replay that changes nothing, or new work whose response is
    then remembered, when the work leaves the keys alone. *)
Lemma guarded_cases key route fp status work d body d' : all_stored (get d) → guarded key route fp status work d = Ok (body, d') →
  (d' = d ∧ answered key route fp body (get d)) ∨
  ∃ t d1, get d !! (key, route) = None ∧ work (set t d) = Ok (body, d1) ∧
    d' = set (store_response key route status body (get d1)) d1 ∧
    (get d1 = t → all_stored (get d') ∧ remembers (get d) (get d') ∧ answered key route fp body (get d')).
Proof using Type get_set set_get.
  intros Ha. unfold guarded. destruct (reserve key route fp (get d)) as [[[r|] t]|] eqn:Hres; [| |done].
  - destruct (get d !! (key, route)) as [r'|] eqn:Hr; [|unfold reserve in Hres; by rewrite Hr in Hres].
    destruct (Ha _ _ Hr) as [Hst [b Hb]]. rewrite (reserve_known _ _ _ _ _ Hr Hst) in Hres.
    case_bool_decide as Hfp; [|done]. injection Hres as Hres Ht. intros [= Hbody <-]. left. subst.
    split; [apply set_get|]. exists r'. simpl. rewrite Hb. by split_and!.
  - intros ([b d1] & Hw & [= -> <-])%rbind_ok. right. exists t, d1. rewrite get_set.
    pose proof (reserve_new _ _ _ _ _ status body Ha Hres) as (Ha' & Hrem & Hnone & Hget).
    split_and!; [done|done|done|]. intros ->. split_and!; [done|done|]. eexists. split; [exact Hget|]. by split_and!.
Qed.

(** Once answered, a key answers the same request alike and refuses another. *)
Lemma guarded_answered key route fp fp' status work d body : answered key route fp body (get d) →
  guarded key route fp' status work d = if bool_decide (fp = fp') then Ok (body, d) else Err (reject (IdempotencyKeyReused key route)).
Proof using Type set_get.
  intros (r & Hr & Hfp & Hst & Hb). unfold guarded. rewrite (reserve_known _ _ _ _ _ Hr Hst), Hfp, Hb.
  case_bool_decide; [|done]. simpl. by rewrite set_get.
Qed.
End Guarded.
End Idempotency.

Module Audit.
#[local] Open Scope Z_scope.

Record audit_row := {
  au_actor : string; au_action : string; au_object_type : string; au_object_id : string;
  au_object_version : option Z; au_reason : option string; au_correlation_id : string }.

(** [correlation_id or get_correlation_id_or_none() or "unknown"] *)
Definition or_text (a : option string) (b : string) : string :=
  match a with Some s => if String.eqb s "" then b else s | None => b end.

(** [context] is the correlation id of the request. *)
Definition write_audit_log (context : option string) (actor action object_type object_id : string)
    (object_version : option Z) (reason correlation_id : option string) (t : table audit_row) : table audit_row :=
  (tbl_insert t {| au_actor := actor; au_action := action; au_object_type := object_type; au_object_id := object_id;
     au_object_version := object_version; au_reason := reason;
     au_correlation_id := or_text correlation_id (or_text context "unknown") |}).2.
End Audit.
