(* ===== verification/Decisions.v ===== *)
(** * The decision core: data and store

    [packages/decision/decision_model.py] and
    [packages/decision/decision_store.py] over explicit tables. Times that the
    code passes as the text of [isoformat] are the datetimes they denote. *)

From stdpp Require Import base gmap sets strings list sorting.
From Stdlib Require Import ZArith Lia SpecFloat.
From S2P Require Import Prelude Json Decimal Datetime Query PyFloat Matching BidReadiness TenderDb Idempotency.

Module Decisions.
Import TenderDb.
#[local] Open Scope Z_scope.

Definition DECISION_TYPES : list string := ["go"; "no_go"; "bid"; "no_bid"; "conditional_bid"].

Record GoNoGoInputs := {
  gi_tender_id : Z; company_profile_notes : string; qualification_notes : string; financing_notes : string;
  customer_reputation_notes : string; pre_designated_winner_suspected : bool; entered_by : string; entered_at : datetime }.

Record Decision := {
  d_tender_id : Z; decision_type : string; conditions : list string; deadline : option datetime;
  justification : string; actor : string; decided_at : datetime;
  go_no_go_inputs_id : option Z; bid_readiness_candidate_id : option Z }.

Section WithText.
Context `{PyText}.
(** [Decision.__post_init__] *)
Definition make_decision (d : Decision) : result exn Decision :=
  raise_if bool_decide (decision_type d ∉ DECISION_TYPES)
    with ValueError ("unknown decision_type: " +:+ py_repr (decision_type d)) ;;
  Ok d.
End WithText.

(** A lock-in row: the requirement and the status it starts with. *)
Record LockInRequirement := {
  li_tender_id : Z; li_decision_id : Z; li_line : Z; li_vendor_id : Z; li_vendor_name : string; li_status : string }.

Record candidate_row := { ca_candidate : BidReadiness.BidReadinessCandidate; ca_computed_at : datetime }.
Definition ca_tender_id (r : candidate_row) : Z := BidReadiness.br_tender_id (ca_candidate r).

(** The database of the API: the tender tables and those of the decisions. *)
Record ddb := Ddb {
  tender_db : tdb;
  idem : gmap (string * string) Idempotency.idem_row;
  audit : table Audit.audit_row;
  inputs : table GoNoGoInputs;
  candidates : table candidate_row;
  decisions : table Decision;
  lock_ins : table LockInRequirement;
}.
Definition with_idem x (d : ddb) := Ddb (tender_db d) x (audit d) (inputs d) (candidates d) (decisions d) (lock_ins d).
Definition with_audit x (d : ddb) := Ddb (tender_db d) (idem d) x (inputs d) (candidates d) (decisions d) (lock_ins d).
Definition with_inputs x (d : ddb) := Ddb (tender_db d) (idem d) (audit d) x (candidates d) (decisions d) (lock_ins d).
Definition with_candidates x (d : ddb) := Ddb (tender_db d) (idem d) (audit d) (inputs d) x (decisions d) (lock_ins d).
Definition with_decisions x (d : ddb) := Ddb (tender_db d) (idem d) (audit d) (inputs d) (candidates d) x (lock_ins d).
Definition with_lock_ins x (d : ddb) := Ddb (tender_db d) (idem d) (audit d) (inputs d) (candidates d) (decisions d) x.

Definition tender_exists (d : ddb) (i : Z) : bool := exists_in (tenders (tender_db d)) i.
(** A reference to a table that may be NULL *)
Definition opt_exists {R} (t : table R) (i : option Z) : bool := match i with Some i => exists_in t i | None => true end.

Definition store_go_no_go_inputs (x : GoNoGoInputs) (d : ddb) : result exn (Z * ddb) :=
  raise_if negb (tender_exists d (gi_tender_id x)) with IntegrityError "go_no_go_inputs_tender_id_fkey" ;;
  let ' (i, t) := tbl_insert (inputs d) x in Ok (i, with_inputs t d).

(** The row's [id] and [tender_id] *)
Definition load_go_no_go_inputs (i : Z) (d : ddb) : option (Z * Z) :=
  (λ r, (i, gi_tender_id r)) <$> tbl_get (inputs d) i.

Definition store_bid_readiness_candidate (c : BidReadiness.BidReadinessCandidate) (computed_at : datetime) (d : ddb)
    : result exn (Z * ddb) :=
  raise_if negb (tender_exists d (BidReadiness.br_tender_id c)) with IntegrityError "bid_readiness_candidates_tender_id_fkey" ;;
  let ' (i, t) := tbl_insert (candidates d) {| ca_candidate := c; ca_computed_at := computed_at |} in
  Ok (i, with_candidates t d).

Definition load_bid_readiness_candidate (i : Z) (d : ddb) : result exn (Z * list BidReadiness.CriticalLine) :=
  match tbl_get (candidates d) i with
  | None => Err (ValueError ("bid readiness candidate " +:+ py_str_Z i +:+ " not found"))
  | Some r => Ok (ca_tender_id r, BidReadiness.critical_lines (ca_candidate r))
  end.

Definition store_decision (x : Decision) (d : ddb) : result exn (Z * ddb) :=
  raise_if negb (tender_exists d (d_tender_id x)) with IntegrityError "decisions_tender_id_fkey" ;;
  raise_if bool_decide (decision_type x ∉ DECISION_TYPES) with IntegrityError "decisions_decision_type_check" ;;
  raise_if negb (opt_exists (inputs d) (go_no_go_inputs_id x)) with IntegrityError "decisions_go_no_go_inputs_id_fkey" ;;
  raise_if negb (opt_exists (candidates d) (bid_readiness_candidate_id x))
    with IntegrityError "decisions_bid_readiness_candidate_id_fkey" ;;
  let ' (i, t) := tbl_insert (decisions d) x in Ok (i, with_decisions t d).

Definition lock_in_of (tender_id decision_id : Z) (l : BidReadiness.CriticalLine) : LockInRequirement := {|
  li_tender_id := tender_id; li_decision_id := decision_id; li_line := BidReadiness.cl_line l;
  li_vendor_id := BidReadiness.cl_vendor_id l; li_vendor_name := BidReadiness.cl_vendor_name l; li_status := "pending" |}.

Definition store_lock_in_requirement (tender_id decision_id : Z) (l : BidReadiness.CriticalLine) (d : ddb)
    : result exn (Z * ddb) :=
  raise_if negb (tender_exists d tender_id) with IntegrityError "lock_in_requirements_tender_id_fkey" ;;
  raise_if negb (exists_in (decisions d) decision_id) with IntegrityError "lock_in_requirements_decision_id_fkey" ;;
  let ' (i, t) := tbl_insert (lock_ins d) (lock_in_of tender_id decision_id l) in Ok (i, with_lock_ins t d).

Definition list_lock_in_requirements_by_tender (tender_id : Z) (d : ddb) : list (Z * LockInRequirement) :=
  tbl_select (λ _ r, li_tender_id r =? tender_id) (lock_ins d).

(** [ORDER BY decided_at DESC, id DESC] *)
Definition later_decision (a b : Z * Decision) : bool :=
  (to_timestamptz (decided_at b.2) <? to_timestamptz (decided_at a.2)) ||
  ((to_timestamptz (decided_at a.2) =? to_timestamptz (decided_at b.2)) && (b.1 <=? a.1)).
Definition decisions_of (tender_id : Z) (d : ddb) : list (Z * Decision) :=
  order_by later_decision (tbl_select (λ _ r, d_tender_id r =? tender_id) (decisions d)).

Definition get_latest_decision_type (tender_id : Z) (d : ddb) : option string :=
  (λ x, decision_type x.2) <$> head (decisions_of tender_id d).

(** [SELECT DISTINCT ON (tender_id) ... ORDER BY tender_id, decided_at DESC, id DESC]:
    the first row of each tender, in the order of the tenders. *)
Definition decided_tenders (d : ddb) : list Z :=
  merge_sort Z.le (elements (list_to_set (map (λ ir, d_tender_id ir.2) (rows (decisions d))) : gset Z)).
Definition is_bid (ty : string) : bool := bool_decide (ty ∈ ["bid"; "conditional_bid"]).
Definition has_active_bid (d : ddb) (t : Z) : bool :=
  match get_latest_decision_type t d with Some ty => is_bid ty | None => false end.
Definition list_tenders_with_active_bid_decision (d : ddb) : list Z :=
  filter (λ t, has_active_bid d t = true) (decided_tenders d).

(** Decision id, tender, type and the microseconds from the candidate to it *)
Definition cycle_of (d : ddb) (ir : Z * Decision) : option (Z * Z * string * datetime * Z) :=
  match bid_readiness_candidate_id ir.2 with
  | None => None
  | Some c =>
      match tbl_get (candidates d) c with
      | None => None
      | Some r => Some (ir.1, d_tender_id ir.2, decision_type ir.2, decided_at ir.2,
                        to_timestamptz (decided_at ir.2) - to_timestamptz (ca_computed_at r))
      end
  end.
Definition list_decision_cycle_seconds (d : ddb) : list (Z * Z * string * datetime * Z) :=
  omap (cycle_of d) (order_by (asc (λ ir, to_timestamptz (decided_at ir.2))) (rows (decisions d))).

(** ** The latest decision *)

Lemma later_total x y : later_decision x y = true ∨ later_decision y x = true.
Proof. unfold later_decision. rewrite !orb_true_iff, !andb_true_iff, !Z.ltb_lt, !Z.eqb_eq, !Z.leb_le. lia. Qed.
Lemma later_trans x y z : later_decision x y = true → later_decision y z = true → later_decision x z = true.
Proof. unfold later_decision. rewrite !orb_true_iff, !andb_true_iff, !Z.ltb_lt, !Z.eqb_eq, !Z.leb_le. lia. Qed.

Lemma elem_of_decisions_of t d x : x ∈ decisions_of t d ↔ x ∈ rows (decisions d) ∧ d_tender_id x.2 = t.
Proof. unfold decisions_of. rewrite elem_of_order_by. destruct x as [i r]. rewrite elem_of_tbl_select, Z.eqb_eq. naive_solver. Qed.

Lemma decided_tenders_spec d t : t ∈ decided_tenders d ↔ ∃ x, x ∈ rows (decisions d) ∧ d_tender_id x.2 = t.
Proof.
  unfold decided_tenders. rewrite merge_sort_Permutation, elem_of_elements, elem_of_list_to_set, list_elem_of_fmap. naive_solver.
Qed.

(** The latest decision of a tender is the one decided last, the one stored
    last among those of one instant, and there is none only when the tender has
    no decision; the tenders listed with an active bid are exactly those whose
    latest decision is a bid or a conditional bid, once each in order. *)
Theorem latest_decision_spec d :
  (∀ t, get_latest_decision_type t d = None ↔ ∀ x, x ∈ rows (decisions d) → d_tender_id x.2 ≠ t) ∧
  (∀ t ty, get_latest_decision_type t d = Some ty →
     ∃ i r, (i, r) ∈ rows (decisions d) ∧ d_tender_id r = t ∧ decision_type r = ty ∧
       ∀ j r', (j, r') ∈ rows (decisions d) → d_tender_id r' = t →
         to_timestamptz (decided_at r') < to_timestamptz (decided_at r) ∨
         to_timestamptz (decided_at r') = to_timestamptz (decided_at r) ∧ j <= i) ∧
  (∀ t, t ∈ list_tenders_with_active_bid_decision d ↔
     get_latest_decision_type t d = Some "bid" ∨ get_latest_decision_type t d = Some "conditional_bid") ∧
  StronglySorted Z.le (list_tenders_with_active_bid_decision d) ∧ NoDup (list_tenders_with_active_bid_decision d).
Proof.
  assert (∀ t, get_latest_decision_type t d = None ↔ ∀ x, x ∈ rows (decisions d) → d_tender_id x.2 ≠ t) as Hnone.
  { intros t. unfold get_latest_decision_type. destruct (decisions_of t d) as [|x l] eqn:Hl; simpl.
    - split; [|done]. intros _ x Hx Ht. assert (x ∈ decisions_of t d) as Hin by (by apply elem_of_decisions_of).
      rewrite Hl in Hin. by apply elem_of_nil in Hin.
    - split; [done|]. intros Hx. assert (x ∈ decisions_of t d) as [Hin Ht]%elem_of_decisions_of by (rewrite Hl; by left).
      by destruct (Hx x Hin). }
  split_and!; [done| | | |].
  - intros t ty. unfold get_latest_decision_type. destruct (decisions_of t d) as [|[i r] l] eqn:Hl; [done|]. intros [= <-].
    assert ((i, r) ∈ decisions_of t d) as [Hin Ht]%elem_of_decisions_of by (rewrite Hl; by left).
    exists i, r. split_and!; [done|done|done|]. intros j r' Hj Ht'.
    unfold decisions_of in Hl. apply (order_by_head _ later_total later_trans) in Hl as [_ Hbest].
    destruct (Hbest (j, r')) as [Hle|[= -> ->]]; [by apply elem_of_tbl_select; rewrite Z.eqb_eq| |lia].
    unfold later_decision in Hle. simpl in Hle.
    rewrite orb_true_iff, andb_true_iff, Z.ltb_lt, Z.eqb_eq, Z.leb_le in Hle. lia.
  - intros t. unfold list_tenders_with_active_bid_decision, has_active_bid. rewrite list_elem_of_filter, decided_tenders_spec.
    destruct (get_latest_decision_type t d) as [ty|] eqn:Hty.
    + unfold is_bid. rewrite bool_decide_eq_true. split; [set_solver|]. intros Hb. split; [set_solver|].
      unfold get_latest_decision_type in Hty. destruct (decisions_of t d) as [|x l] eqn:Hl; [done|].
      exists x. apply elem_of_decisions_of. rewrite Hl. by left.
    + naive_solver.
  - apply sorted_filter, StronglySorted_merge_sort; apply _.
  - apply NoDup_filter. unfold decided_tenders. rewrite merge_sort_Permutation. apply NoDup_elements.
Qed.
End Decisions.
