(* ===== verification/Schedule.v ===== *)
(** * The scheduling of tender checks

    [enqueue_due_tender_checks] of [apps/worker/main.py]: once a minute the
    worker enqueues a check for each tender whose latest decision is a bid and
    whose last check is six hours old. The branch of [_process_claimed_job] that
    runs a check is the other half: it marks the tender again. [now_iso] gives
    the readings of the clock in one round, [now] is the time of a transaction. *)

From stdpp Require Import base gmap sets strings list sorting relations.
From Stdlib Require Import ZArith Lia.
From S2P Require Import Prelude Json Datetime Query Jobs PyStr Regex SchemaDrift TenderDb Ingestion BoqPages SignalPages TenderChanges Decisions.

Module Schedule.
Import Drift TenderDb BoqPages SignalPages Decisions.
#[local] Open Scope Z_scope.

Definition CHECK_JOB_TYPE : string := "tender_change_check".
Definition TENDER_WATCH_POLL_INTERVAL_HOURS : Z := 6.

(** The database of the worker and of the API, with the queue of jobs *)
Record sdb := Sdb { core : ddb; queue : table Jobs.job_row }.
Definition tender_tables (d : sdb) : tdb := tender_db (core d).
Definition with_tenders (x : tdb) (d : ddb) : ddb := Ddb x (idem d) (audit d) (inputs d) (candidates d) (decisions d) (lock_ins d).

Definition check_identity (tender_id : Z) : Jobs.JobIdentity := {|
  Jobs.job_type := CHECK_JOB_TYPE; Jobs.params := [("tender_id", JInt tender_id)]; Jobs.source := "etender";
  Jobs.range_start := None; Jobs.range_end := None; Jobs.contract_version := "etender.event_details";
  Jobs.correlation_id := "tender-watch-" +:+ py_str_Z tender_id |}.

Section Rounds.
Context `{PyText}.

(** [for tender_id in due: ...]; the clock is read once per tender. *)
Fixpoint enqueue_checks (now : Z) (now_iso : nat → string) (k : nat) (due : list Z) (s : tdb) (q : table Jobs.job_row)
    : result terror (tdb * table Jobs.job_row) :=
  match due with
  | [] => Ok (s, q)
  | t :: rest =>
      let q' := (Jobs.enqueue now (check_identity t) q).2 in
      match upsert_watch_state t (now_iso k) s with
      | (Ok _, s') => enqueue_checks now now_iso (S k) rest s' q'
      | (Err e, _) => Err e
      end
  end.
(** What the round reads, before it writes *)
Definition due_tenders (now_iso : nat → string) (d : sdb) : result terror (list Z) :=
  map_err Raised (list_tenders_due_for_check (list_tenders_with_active_bid_decision (core d)) (now_iso 0%nat)
    TENDER_WATCH_POLL_INTERVAL_HOURS (tender_tables d)).
Definition enqueue_all (now : Z) (now_iso : nat → string) (due : list Z) (d : sdb) : result terror (Z * sdb) :=
  let! ' (s, q) := enqueue_checks now now_iso 1 due (tender_tables d) (queue d) in
  Ok (Z.of_nat (length due), Sdb (with_tenders s (core d)) q).
Definition enqueue_due_tender_checks (now : Z) (now_iso : nat → string) (d : sdb) : result terror (Z * sdb) :=
  let! due := due_tenders now_iso d in enqueue_all now now_iso due d.

End Rounds.

(** ** The transaction of one check job

    The branch of [_process_claimed_job]: the check and its checkpoint commit
    together. [during] is what other transactions, the heartbeats of this job
    among them, commit to the queue meanwhile. *)

Inductive check_error :=
| Vanished (job_id : Z)
| NotOwned (e : Jobs.job_error)
| CheckRaised (e : terror).

Section CheckJob.
Context `{PyText} `{Bytes} `{PyRegex}.
Variable fetch_event_details : Z → result exn (string * payload).
Variable fetch_bom_page : Z → Z → result exn (string * payload).
Variable heartbeat : Z → result exn unit.

Definition check_done : list (string * json) := [("done", JBool true)].
(** [None]: the fuel of the walk over the pages ran out. *)
Definition check_job (fuel : nat) (now : Z) (observed worker_id : string) (i : Z) (during : table Jobs.job_row → table Jobs.job_row) (d : sdb)
    : option (result check_error sdb) :=
  match Jobs.get i (queue d) with
  | None => Some (Err (Vanished i))
  | Some current =>
      match job_int "tender_id" (assoc "tender_id" (Jobs.params (Jobs.identity (Jobs.job current)))) with
      | Err e => Some (Err (CheckRaised (Raised e)))
      | Ok t =>
          match TenderChanges.check_tender_for_changes fetch_event_details fetch_bom_page heartbeat fuel now t
                  (Jobs.correlation_id (Jobs.identity (Jobs.job current))) observed (tender_tables d) with
          | (Err e, _) => Some (Err (CheckRaised e))
          | (Ok None, _) => None
          | (Ok (Some _), s) => Some (
              let! q := map_err NotOwned (Jobs.store_checkpoint now i worker_id check_done (during (queue d))) in
              Ok (Sdb (with_tenders s (core d)) q))
          end
      end
  end.
End CheckJob.

Section OneRound.
Context `{PyText}.

(** ** One round *)

(** The clock of a round: its texts can be read, and it does not go back. *)
Record clock_ok (now_iso : nat → string) (at_ : nat → Z) : Prop := {
  ck_reads k : ∃ d, fromisoformat (now_iso k) = Ok d ∧ to_timestamptz d = at_ k;
  ck_forward k : at_ k <= at_ (S k) }.
Definition tenders_known (d : sdb) : Prop := ∀ x, x ∈ rows (decisions (core d)) → tender_exists (core d) (d_tender_id x.2) = true.
Definition watch (d : sdb) : gmap Z Z := watch_state (tender_tables d).
(** The tenders to check: the latest decision is a bid, and the last check is
    six hours old or there was none. *)
Definition due_now (now : Z) (d : sdb) (t : Z) : Prop :=
  t ∈ list_tenders_with_active_bid_decision (core d) ∧ ∀ c, watch d !! t = Some c → c + hours 6 <= now.
End OneRound.

Lemma active_bids_nodup d : NoDup (list_tenders_with_active_bid_decision d).
Proof. apply NoDup_filter. unfold decided_tenders. rewrite merge_sort_Permutation. apply NoDup_elements. Qed.
Lemma active_bid_decided d t : t ∈ list_tenders_with_active_bid_decision d → ∃ x, x ∈ rows (decisions d) ∧ d_tender_id x.2 = t.
Proof. unfold list_tenders_with_active_bid_decision. rewrite list_elem_of_filter. intros [_ Ht]. by apply decided_tenders_spec. Qed.

(** The tenders of the checks in the queue, in the order they were enqueued:
    what the worker reads of a job ([current.params["tender_id"]]). *)
Definition checked_tender (r : Jobs.job_row) : option Z :=
  if String.eqb (Jobs.job_type (Jobs.identity r)) CHECK_JOB_TYPE then
    match assoc "tender_id" (Jobs.params (Jobs.identity r)) with Some (JInt t) => Some t | _ => None end
  else None.
Definition queued_checks (q : table Jobs.job_row) : list Z := omap (λ ir, checked_tender ir.2) (rows q).

Lemma queued_enqueue now i q : queued_checks (Jobs.enqueue now i q).2 =
  queued_checks q ++ from_option (λ t, [t]) [] (checked_tender {| Jobs.identity := i; Jobs.status := "pending"; Jobs.lease_owner := None;
    Jobs.lease_expires_at := None; Jobs.attempt := 0; Jobs.max_attempts := 5; Jobs.next_retry_at := None; Jobs.checkpoint := [];
    Jobs.last_error := None; Jobs.created_at := now; Jobs.updated_at := now |}).
Proof.
  unfold queued_checks, Jobs.enqueue, tbl_insert. cbn [snd rows]. by rewrite omap_app.
Qed.
Lemma queued_check now t q : queued_checks (Jobs.enqueue now (check_identity t) q).2 = queued_checks q ++ [t].
Proof. by rewrite queued_enqueue. Qed.
Lemma queued_update p f q : (∀ r, Jobs.identity (f r) = Jobs.identity r) → queued_checks (tbl_update p f q) = queued_checks q.
Proof.
  intros Hf. unfold queued_checks. cbn [rows tbl_update]. induction (rows q) as [|[j r] l IH]; cbn; [done|].
  destruct (p j r); cbn; [|by rewrite IH]. unfold checked_tender at 1. rewrite Hf. fold (checked_tender r). by rewrite IH.
Qed.
(** What moves the jobs of the queue, and what enqueues other ones, leaves the
    checks as they are. *)
Lemma queued_perform now e q q' : Jobs.perform now e q = Ok q' →
  (∀ i, e = Jobs.EEnqueue i → Jobs.job_type i ≠ CHECK_JOB_TYPE) → queued_checks q' = queued_checks q.
Proof.
  intros Hp He. destruct e as [i|locked w s|j w s|j w c|j w|j w err b|j err b seen|j]; cbn [Jobs.perform] in Hp.
  - assert (q' = (Jobs.enqueue now i q).2) as -> by (by injection Hp). rewrite queued_enqueue. unfold checked_tender. cbn. rewrite (proj2 (String.eqb_neq _ _)) by (by apply He). by rewrite app_nil_r.
  - assert (q' = (Jobs.claim now locked w s q).2) as -> by (by injection Hp). unfold Jobs.claim. destruct (Jobs.candidates _ _ _) as [|[i r] l]; [done|]. by apply queued_update.
  - unfold Jobs.heartbeat, Jobs.update_owned in Hp. destruct (Nat.eqb _ _); [done|]. injection Hp as <-. by apply queued_update.
  - unfold Jobs.store_checkpoint, Jobs.update_owned in Hp. destruct (Nat.eqb _ _); [done|]. injection Hp as <-. by apply queued_update.
  - unfold Jobs.complete, Jobs.update_owned in Hp. destruct (Nat.eqb _ _); [done|]. injection Hp as <-. by apply queued_update.
  - apply rbind_ok in Hp as ([s q1] & (seen & _ & Hp)%rbind_ok & [= <-]). unfold Jobs.fail_update in Hp.
    destruct (_ <? _); injection Hp as _ <-; by apply queued_update.
  - injection Hp as <-. unfold Jobs.fail_update. destruct (_ <? _); by apply queued_update.
  - injection Hp as <-. unfold Jobs.cancel. by apply queued_update.
Qed.

(** ** What a round does *)

Section RoundSpec.
Context `{PyText}.
Variable now_iso : nat → string.
Variable at_ : nat → Z.
Hypothesis clock : clock_ok now_iso at_.

Lemma clock_mono i j : (i <= j)%nat → at_ i <= at_ j.
Proof using Type clock. intros Hij. induction Hij as [|j _ IH]; [lia|]. pose proof (ck_forward _ _ clock j). lia. Qed.

Lemma due_spec d : ∃ due, due_tenders now_iso d = Ok due ∧ NoDup due ∧ ∀ t, t ∈ due ↔ due_now (at_ 0%nat) d t.
Proof using Type clock.
  destruct (ck_reads _ _ clock 0%nat) as (d0 & Hread & Hat). unfold due_tenders, list_tenders_due_for_check, due_now.
  pose proof (active_bids_nodup (core d)) as Hnd. destruct (list_tenders_with_active_bid_decision (core d)) as [|x l] eqn:Hl.
  - exists []. split_and!; [done|constructor|]. intros t. set_solver.
  - rewrite Hread. simpl. eexists. split; [done|]. split.
    + rewrite (order_by_perm _ _). by apply NoDup_filter.
    + intros t. rewrite elem_of_order_by, list_elem_of_filter, Hat. unfold is_due, watch, tender_tables.
      destruct (watch_state (tender_db (core d)) !! t) as [c|]; [rewrite Z.leb_le|]; [|naive_solver].
      unfold TENDER_WATCH_POLL_INTERVAL_HOURS. split; [intros [Hc Ht]; split; [done|]; intros ? [= <-]; lia|intros [Ht Hc]; split; [|done]].
      specialize (Hc c eq_refl). lia.
Qed.
(** What the checks of [due] leave: their tenders are marked, the rest is as it was. *)
Record marked (due : list Z) (from to : Z) (w w' : gmap Z Z) : Prop := {
  mk_due t : t ∈ due → ∃ c, w' !! t = Some c ∧ from <= c <= to;
  mk_rest t : t ∉ due → w' !! t = w !! t }.
Lemma enqueue_checks_spec now due k s q : (∀ t, t ∈ due → exists_in (tenders s) t = true) →
  ∃ w' q', enqueue_checks now now_iso k due s q = Ok (set_watch_state w' s, q') ∧
    queued_checks q' = queued_checks q ++ due ∧ marked due (at_ k) (at_ (k + length due)) (watch_state s) w'.
Proof using Type clock.
  revert k s q. induction due as [|t due IH]; intros k s q Hk; cbn [enqueue_checks].
  - exists (watch_state s), q. split_and!; [by destruct s|by rewrite app_nil_r|]. split; [set_solver|done].
  - destruct (ck_reads _ _ clock k) as (d0 & Hread & Hat).
    assert (upsert_watch_state t (now_iso k) s = (Ok (), set_watch_state (<[t := at_ k]> (watch_state s)) s)) as ->.
    { unfold upsert_watch_state, TenderDb.bind, pure, gets, require. rewrite Hread. cbn [map_err]. by rewrite Hk, Hat by by left. }
    destruct (IH (S k) (set_watch_state (<[t := at_ k]> (watch_state s)) s) (Jobs.enqueue now (check_identity t) q).2) as (w' & q' & -> & Hq & [Hd Hr]);
      [intros t' Ht'; apply (Hk t'); by right|].
    exists w', q'. split_and!; [done|by rewrite Hq, queued_check, <-app_assoc|].
    assert (at_ k <= at_ (S k) <= at_ (S k + length due)%nat) as [? ?] by (split; apply clock_mono; lia).
    replace (k + length (t :: due))%nat with (S k + length due)%nat by (simpl; lia). split.
    + intros t' Ht'. destruct (decide (t' ∈ due)) as [Hin|Hn]; [destruct (Hd t' Hin) as (c & ? & ?); exists c; split; [done|lia]|].
      assert (t' = t) as -> by set_solver. exists (at_ k). rewrite (Hr t Hn). cbn [watch_state set_watch_state]. rewrite lookup_insert_eq. split; [done|lia].
    + intros t' Ht'. rewrite Hr by set_solver. cbn [watch_state set_watch_state]. apply lookup_insert_ne. set_solver.
Qed.

(** A round on a database whose decisions are about known tenders enqueues one
    check per tender that is due and marks it; nothing else changes. *)
Lemma round_spec now d : tenders_known d → ∃ due w' q',
  due_tenders now_iso d = Ok due ∧
  enqueue_due_tender_checks now now_iso d = Ok (Z.of_nat (length due), Sdb (with_tenders (set_watch_state w' (tender_tables d)) (core d)) q') ∧
  NoDup due ∧ (∀ t, t ∈ due ↔ due_now (at_ 0%nat) d t) ∧ queued_checks q' = queued_checks (queue d) ++ due ∧
  marked due (at_ 0%nat) (at_ (S (length due))) (watch d) w'.
Proof using Type clock.
  intros Hk. destruct (due_spec d) as (due & Hdue & Hnd & Hin). unfold enqueue_due_tender_checks, enqueue_all. rewrite Hdue. simpl.
  destruct (enqueue_checks_spec now due 1 (tender_tables d) (queue d)) as (w' & q' & -> & Hq & [Hd Hr]).
  { intros t [Ht _]%Hin. apply active_bid_decided in Ht as (x & Hx & <-). by apply Hk. }
  exists due, w', q'. split_and!; try done. split; [|done]. intros t Ht. destruct (Hd t Ht) as (c & Hc & ?). exists c. split; [done|].
  pose proof (ck_forward _ _ clock 0%nat). simpl in *. lia.
Qed.
End RoundSpec.

(** ** Every history of rounds, checks, decisions and work *)

Section History.
Context `{PyText} `{Bytes} `{PyRegex}.

(** Transactions of the job store that enqueue no check *)
Definition other_work (es : list (Z * Jobs.event)) : Prop :=
  Forall (λ ne, ∀ i, ne.2 = Jobs.EEnqueue i → Jobs.job_type i ≠ CHECK_JOB_TYPE) es.
(** One transaction of the workers or of the API that is no round, between two
    readings of the clock *)
Inductive quiet (c : Z) (d : sdb) : Z → sdb → Prop :=
| QCheck event_details bom_page heartbeat fuel now observed worker i es at_ d' :
    check_job event_details bom_page heartbeat fuel now observed worker i (Jobs.run es) d = Some (Ok d') → other_work es →
    fromisoformat observed = Ok at_ → c <= to_timestamptz at_ → quiet c d (to_timestamptz at_) d'
| QDecide x i core' : store_decision x (core d) = Ok (i, core') → quiet c d c (Sdb core' (queue d))
| QStore A (m : act A) : keeps m → leaves watch_state m → quiet c d c (Sdb (with_tenders (m (tender_tables d)).2 (core d)) (queue d))
| QWork es : other_work es → quiet c d c (Sdb (core d) (Jobs.run es (queue d))).
Inductive quiets (c : Z) (d : sdb) : Z → sdb → Prop :=
| QNone : quiets c d c d
| QMore c1 d1 c2 d2 : quiets c d c1 d1 → quiet c1 d1 c2 d2 → quiets c d c2 d2.
(** Such a transaction, or a round: it reads the tenders that are due, other
    transactions may commit, and it enqueues and marks. Rounds do not overlap.
    The list has the checks enqueued, with the time the round began. *)
Inductive sstep (c : Z) (d : sdb) : list (Z * Z) → Z → sdb → Prop :=
| SQuiet c' d' : quiet c d c' d' → sstep c d [] c' d'
| SRound now now_iso at_ due c1 d1 n d' : clock_ok now_iso at_ → c <= at_ 0%nat → due_tenders now_iso d = Ok due →
    quiets c d c1 d1 → enqueue_all now now_iso due d1 = Ok (n, d') →
    sstep c d (map (λ t, (t, at_ 0%nat)) due) (Z.max c1 (at_ (S (length due)))) d'.
Inductive shistory (c0 : Z) (d0 : sdb) : list (Z * Z) → Z → sdb → Prop :=
| HStart : shistory c0 d0 [] c0 d0
| HStep log c d l c' d' : shistory c0 d0 log c d → sstep c d l c' d' → shistory c0 d0 (log ++ l) c' d'.

Record sched_ok (c : Z) (d : sdb) : Prop := {
  so_history : history_ok (tender_tables d);
  so_known : tenders_known d;
  so_past t w : watch d !! t = Some w → w <= c }.
Definition later (w w' : gmap Z Z) : Prop := ∀ t a, w !! t = Some a → ∃ b, w' !! t = Some b ∧ a <= b.
Record sched_step (c : Z) (d : sdb) (l : list (Z * Z)) (c' : Z) (d' : sdb) : Prop := {
  ss_ok : sched_ok c' d';
  ss_clock : c <= c';
  ss_tenders t : exists_in (tenders (tender_tables d)) t = true → exists_in (tenders (tender_tables d')) t = true;
  ss_queue : queued_checks (queue d') = queued_checks (queue d) ++ l.*1;
  ss_watch : later (watch d) (watch d');
  ss_log t a : (t, a) ∈ l → due_now a d t ∧ ∃ w, watch d' !! t = Some w ∧ a <= w;
  ss_once : NoDup l.*1 }.

Lemma check_job_ok ed bp hb fuel now observed worker i during d d' : check_job ed bp hb fuel now observed worker i during d = Some (Ok d') →
  ∃ tender corr res s q, TenderChanges.check_tender_for_changes ed bp hb fuel now tender corr observed (tender_tables d) = (Ok (Some res), s) ∧
    Jobs.store_checkpoint now i worker check_done (during (queue d)) = Ok q ∧ d' = Sdb (with_tenders s (core d)) q.
Proof.
  unfold check_job. destruct (Jobs.get _ _) as [x|]; [|done]. destruct (job_int _ _) as [t|]; [|done].
  match goal with |- context [TenderChanges.check_tender_for_changes ?a ?b ?c ?f ?n ?t ?k ?o ?s] =>
    destruct (TenderChanges.check_tender_for_changes a b c f n t k o s) as [[[res|]|e] s'] eqn:Hc end; try done.
  destruct (Jobs.store_checkpoint _ _ _ _ _) as [q|] eqn:Hq; [|done]. intros [= <-]. by exists t, (Jobs.correlation_id (Jobs.identity (Jobs.job x))), res, s', q.
Qed.
Lemma known_extends s d : tenders_known d → (∀ t, exists_in (tenders (tender_tables d)) t = true → exists_in (tenders s) t = true) →
  ∀ q, tenders_known (Sdb (with_tenders s (core d)) q).
Proof. intros Hk Hs q x Hx. apply Hs, (Hk x Hx). Qed.
Lemma extends_exists s s' t : extends s s' → exists_in (tenders s) t = true → exists_in (tenders s') t = true.
Proof.
  intros He. rewrite !exists_in_spec. intros [r Hr]. destruct (ex_tenders _ _ He t r Hr) as (r' & Hr' & _). by exists r'.
Qed.
Lemma queued_run es q : other_work es → queued_checks (Jobs.run es q) = queued_checks q.
Proof.
  intros Hes. revert q. induction Hes as [|[now e] es He _ IH]; intros q; [done|]. simpl. rewrite IH. unfold Jobs.step.
  destruct (Jobs.perform now e q) as [q'|] eqn:Hp; [|simpl; by rewrite Hp]. simpl. rewrite Hp. by eapply queued_perform.
Qed.
Lemma later_refl w : later w w.
Proof. intros t a Ht. exists a. split; [done|lia]. Qed.

Lemma watch_later_trans w1 w2 w3 : later w1 w2 → later w2 w3 → later w1 w3.
Proof. intros Ha Hc t a Ht. destruct (Ha t a Ht) as (b & Hb & ?). destruct (Hc t b Hb) as (b' & ? & ?). exists b'. split; [done|lia]. Qed.
Lemma quiet_step c d d' : sched_ok c d' → queued_checks (queue d') = queued_checks (queue d) → watch d' = watch d →
  (∀ t, exists_in (tenders (tender_tables d)) t = true → exists_in (tenders (tender_tables d')) t = true) → sched_step c d [] c d'.
Proof.
  intros Ho Hq Hw Ht. split; [done|lia|done|by rewrite app_nil_r|rewrite Hw; apply later_refl|set_solver|constructor].
Qed.
Lemma quiet_ok c d c' d' : sched_ok c d → quiet c d c' d' → sched_step c d [] c' d'.
Proof.
  intros Hok Hs. pose proof Hok as [Hh Hk Hp]. destruct Hs as
    [ed bp hb fuel now observed worker i es at_ d' Hr Hes Hat Hle|x i core' Hr|A m Hm Hw|es Hes].
  - apply check_job_ok in Hr as (tender & corr & res & s' & q & Hr & Hq & ->).
    destruct (TenderChanges.check_effect _ _ _ _ _ _ _ _ _ _ _ Hh Hr) as (Hh' & He & _ & _ & at' & Hat' & Hw & _).
    rewrite Hat in Hat'. injection Hat' as <-. split.
    + split; [done|apply known_extends; [done|intros t; by apply extends_exists]|]. intros t w. change (watch _) with (watch_state s'). rewrite Hw.
      intros [[-> <-]|[_ Hl]]%lookup_insert_Some; [lia|]. specialize (Hp t w Hl). lia.
    + done.
    + intros t. by apply extends_exists.
    + rewrite app_nil_r. simpl. by rewrite (queued_perform now (Jobs.ECheckpoint i worker check_done) _ _ Hq), queued_run.
    + intros t a Ht. change (watch (Sdb _ _)) with (watch_state s'). rewrite Hw. destruct (decide (t = tender)) as [->|Hne].
      * rewrite lookup_insert_eq. eexists. split; [done|]. specialize (Hp _ _ Ht). lia.
      * rewrite lookup_insert_ne by done. exists a. split; [exact Ht|lia].
    + set_solver.
    + constructor.
  - unfold store_decision in Hr. repeat (case_match; simplify_eq/=); try done. apply quiet_step; try done. split; try done.
    intros y Hy. cbn in Hy. apply elem_of_app in Hy as [Hy|Hy]; [by apply Hk|]. apply list_elem_of_singleton in Hy as ->. cbn. by apply negb_false_iff.
  - destruct (Hm _ Hh) as [Hh' He]. apply quiet_step; [|done|apply Hw|intros t; by apply extends_exists].
    split; [done|apply known_extends; [done|intros t; by apply extends_exists]|].
    intros t w. change (watch _) with (watch_state (m (tender_tables d)).2). rewrite Hw. apply Hp.
  - apply quiet_step; try done. by apply queued_run.
Qed.
Lemma quiets_ok c d c' d' : sched_ok c d → quiets c d c' d' → sched_step c d [] c' d'.
Proof.
  intros Hok Hs. induction Hs as [|c1 d1 c2 d2 _ [Ho1 Hc1 Ht1 Hq1 Hw1 _ _] Hs]; [by apply quiet_step|].
  destruct (quiet_ok _ _ _ _ Ho1 Hs) as [Ho2 Hc2 Ht2 Hq2 Hw2 _ _]. rewrite app_nil_r in *.
  split; [done|lia|by auto|rewrite app_nil_r; congruence|by eapply watch_later_trans|set_solver|constructor].
Qed.

(** A round, with what commits between its reading and its writing *)
Lemma round_step c d now now_iso at_ due c1 d1 n d' : sched_ok c d → clock_ok now_iso at_ → c <= at_ 0%nat → due_tenders now_iso d = Ok due →
  quiets c d c1 d1 → enqueue_all now now_iso due d1 = Ok (n, d') →
  sched_step c d (map (λ t, (t, at_ 0%nat)) due) (Z.max c1 (at_ (S (length due)))) d'.
Proof.
  intros Hok Hc Hle Hdue Hqs Hr. pose proof Hok as [_ Hk Hp]. destruct (quiets_ok _ _ _ _ Hok Hqs) as [[Hh1 Hk1 Hp1] Hc1 Ht1 Hq1 Hw1 _ _].
  destruct (due_spec now_iso at_ Hc d) as (due' & Hdue' & Hnd & Hin). rewrite Hdue in Hdue'. injection Hdue' as <-.
  destruct (enqueue_checks_spec now_iso at_ Hc now due 1 (tender_tables d1) (queue d1)) as (w' & q' & He & Hq & [Hd Hrest]).
  { intros t [Ht _]%Hin. apply Ht1. apply active_bid_decided in Ht as (x & Hx & <-). by apply Hk. }
  unfold enqueue_all in Hr. rewrite He in Hr. simpl in Hr. injection Hr as <- <-.
  pose proof (clock_mono now_iso at_ Hc 0 1 ltac:(lia)) as Hto. change (1 + length due)%nat with (S (length due)) in Hd.
  assert ((map (λ t, (t, at_ 0%nat)) due).*1 = due) as Hfst by (rewrite <-list_fmap_compose; by apply list_fmap_id).
  rewrite app_nil_r in Hq1. split; rewrite ?Hfst; [|lia|by apply Ht1|simpl; by rewrite Hq, Hq1| | |done].
  - split; [by destruct Hh1|by apply known_extends|]. intros t w. change (watch _) with w'. intros Hw.
    destruct (decide (t ∈ due)) as [Ht|Ht]; [destruct (Hd t Ht) as (x & Hx & ?); simplify_eq; lia|]. rewrite Hrest in Hw by done.
    specialize (Hp1 t w Hw). lia.
  - intros t a Ht. change (watch _) with w'. destruct (decide (t ∈ due)) as [Hi|Hi].
    + destruct (Hd t Hi) as (x & Hx & ?). exists x. split; [done|]. specialize (Hp t a Ht). lia.
    + rewrite Hrest by done. by apply Hw1.
  - intros t a Ha. apply list_elem_of_fmap in Ha as (t' & [= -> ->] & Ht'). split; [by apply Hin|].
    change (watch _) with w'. destruct (Hd t' Ht') as (x & Hx & ?). exists x. split; [done|lia].
Qed.
Lemma sstep_ok c d l c' d' : sched_ok c d → sstep c d l c' d' → sched_step c d l c' d'.
Proof. intros Hok []; [by apply quiet_ok|by eapply round_step]. Qed.
Definition spaced (log : list (Z * Z)) : Prop := ∀ i j t a b, (i < j)%nat → log !! i = Some (t, a) → log !! j = Some (t, b) →
  a + hours TENDER_WATCH_POLL_INTERVAL_HOURS <= b.
Lemma shistory_ok c0 d0 log c d : sched_ok c0 d0 → shistory c0 d0 log c d →
  sched_ok c d ∧ queued_checks (queue d) = queued_checks (queue d0) ++ log.*1 ∧ spaced log ∧
  ∀ t a, (t, a) ∈ log → ∃ w, watch d !! t = Some w ∧ a <= w.
Proof.
  intros Hok Hh. induction Hh as [|log c d l c' d' Hh (Hok1 & Hq & Hs & Hl) Hstep].
  - split_and!; [done|by rewrite app_nil_r|intros i j t a b _ Hi; by rewrite lookup_nil in Hi|set_solver].
  - destruct (sstep_ok _ _ _ _ _ Hok1 Hstep) as [Hok' _ _ Hq' Hw Hlog Honce]. split_and!; [done|by rewrite Hq', Hq, fmap_app, app_assoc| |].
    + intros i j t a b Hij Hi Hj. apply lookup_app_Some in Hi as [Hi|[Hle Hi]], Hj as [Hj|[Hle' Hj]].
      * by eapply Hs.
      * destruct (Hl t a) as (w & Hw1 & Haw); [by eapply list_elem_of_lookup_2|].
        destruct (Hlog t b) as [[_ Hb] _]; [by eapply list_elem_of_lookup_2|]. specialize (Hb w Hw1). unfold TENDER_WATCH_POLL_INTERVAL_HOURS. lia.
      * apply lookup_lt_Some in Hj. lia.
      * exfalso. assert (i - length log = j - length log)%nat; [|lia].
        eapply (NoDup_lookup l.*1 _ _ t Honce); rewrite list_lookup_fmap; [by rewrite Hi|by rewrite Hj].
    + intros t a [Hin|Hin]%elem_of_app; [|by apply Hlog]. destruct (Hl t a Hin) as (w & Hw1 & ?). destruct (Hw t w Hw1) as (w' & Hw2 & ?).
      exists w'. split; [done|lia].
Qed.


(** Two workers whose rounds overlap, both reading before either writes, each
    enqueue the check of a tender that is due. *)
Lemma overlap_twice now now' iso1 at1 iso2 at2 d due1 due2 : tenders_known d → clock_ok iso1 at1 → clock_ok iso2 at2 →
  due_tenders iso1 d = Ok due1 → due_tenders iso2 d = Ok due2 →
  ∃ d1 d2, enqueue_all now iso1 due1 d = Ok (Z.of_nat (length due1), d1) ∧ enqueue_all now' iso2 due2 d1 = Ok (Z.of_nat (length due2), d2) ∧
    queued_checks (queue d2) = queued_checks (queue d) ++ due1 ++ due2.
Proof.
  intros Hk Hc1 Hc2 Hd1 Hd2.
  assert (∀ t iso at_ due, clock_ok iso at_ → due_tenders iso d = Ok due → t ∈ due → exists_in (tenders (tender_tables d)) t = true) as Hex.
  { intros t iso at_ due Hc Hd Ht. destruct (due_spec iso at_ Hc d) as (due' & Hd' & _ & Hin). rewrite Hd in Hd'. simplify_eq.
    apply Hin in Ht as [Ht _]. apply active_bid_decided in Ht as (x & Hx & <-). by apply Hk. }
  destruct (enqueue_checks_spec iso1 at1 Hc1 now due1 1 (tender_tables d) (queue d)) as (w1 & q1 & E1 & Q1 & _); [intros t; by apply (Hex t iso1 at1)|].
  destruct (enqueue_checks_spec iso2 at2 Hc2 now' due2 1 (set_watch_state w1 (tender_tables d)) q1) as (w2 & q2 & E2 & Q2 & _);
    [intros t; by apply (Hex t iso2 at2)|].
  exists (Sdb (with_tenders (set_watch_state w1 (tender_tables d)) (core d)) q1).
  exists (Sdb (with_tenders (set_watch_state w2 (set_watch_state w1 (tender_tables d))) (core d)) q2). unfold enqueue_all. rewrite E1. split; [done|].
  cbn [tender_tables core queue with_tenders tender_db]. rewrite E2. split; [done|]. by rewrite Q2, Q1, app_assoc.
Qed.
End History.

(** ** Example *)

Section Demo.
#[local] Existing Instance ascii_text.
#[local] Existing Instance Ingestion.Ingestion.demo_bytes.
#[local] Existing Instance ascii_regex.
Definition demo_time (h : string) : string := "2026-01-01T" +:+ h +:+ ":00:00+00:00".
Definition demo_at (h : string) : Z := match fromisoformat (demo_time h) with Ok d => to_timestamptz d | Err _ => 0 end.
Lemma demo_clock h : is_ok (fromisoformat (demo_time h)) = true → clock_ok (λ _, demo_time h) (λ _, demo_at h).
Proof.
  intros Hh. unfold demo_at. destruct (fromisoformat (demo_time h)) as [d|] eqn:Hd; [|done].
  split; [intros _; by exists d|reflexivity].
Qed.
(** One tender with a bid *)
Definition demo_tenders : tdb := (get_or_create_tender 0 "etender" "event_id=5" empty_tdb).2.
Definition demo_bid : Decisions.Decision := {| d_tender_id := 1; decision_type := "bid"; conditions := []; deadline := None; justification := "j"; actor := "a";
  decided_at := {| dt_wall := 0; dt_offset := Some 0 |}; go_no_go_inputs_id := None; bid_readiness_candidate_id := None |}.
Definition demo_start : sdb := Sdb (Ddb demo_tenders ∅ tbl_empty tbl_empty tbl_empty (tbl_insert tbl_empty demo_bid).2 tbl_empty) tbl_empty.
Lemma demo_start_ok : sched_ok (demo_at "08") demo_start.
Proof.
  split.
  - exact (proj1 (keeps_get_or_create_tender 0 "etender" "event_id=5" empty_tdb empty_history_ok)).
  - intros x Hx. vm_compute in Hx. apply list_elem_of_singleton in Hx as ->. reflexivity.
  - intros t w Hw. vm_compute in Hw. destruct t as [|[|[]|]|]; discriminate Hw.
Qed.
Definition round_at (h : string) (d : sdb) : sdb :=
  match enqueue_due_tender_checks 0 (λ _, demo_time h) d with Ok (_, d') => d' | Err _ => d end.
Lemma demo_step h c d due n : is_ok (fromisoformat (demo_time h)) = true → c <= demo_at h → due_tenders (λ _, demo_time h) d = Ok due →
  enqueue_due_tender_checks 0 (λ _, demo_time h) d = Ok (n, round_at h d) →
  sstep c d (map (λ t, (t, demo_at h)) due) (demo_at h) (round_at h d).
Proof.
  intros Hh Hc Hd Hr. unfold enqueue_due_tender_checks in Hr. rewrite Hd in Hr. simpl in Hr.
  pose proof (SRound c d 0 _ (λ _, demo_at h) due c d n _ (demo_clock h Hh) Hc Hd (QNone c d) Hr) as Hs. by rewrite Z.max_r in Hs.
Qed.
End Demo.
End Schedule.
