(* ===== verification/WorkerLoop.v ===== *)
(** * The main loop of the worker

    [run_forever] of [apps/worker/main.py]: rounds of [Schedule], at most one a
    minute, between claimed jobs of [Worker]. The two share the queue of jobs;
    [others] and [meanwhile] are the other processes of [Worker], and [env] is what the other processes, and the checks this worker runs, commit
    to the other tables before a transaction of the loop. *)

From stdpp Require Import base gmap sets strings list.
From Stdlib Require Import ZArith Lia.
From S2P Require Import Prelude Json Datetime Query Jobs Outbox Worker TenderDb TenderChanges Decisions Schedule.

Module WorkerLoop.
Import TenderDb Worker Decisions Schedule.
#[local] Open Scope Z_scope.

(** Microseconds *)
Definition SCHEDULE_CHECK_INTERVAL : Z := 60 * 1000000.

Section Loop.
Context `{PyText}.
Variable others : nat → wdb → wdb.
Variable clock : nat → Z.
Variable meanwhile : nat → wdb → wdb.
Variable tender_check : Jobs.Job → string → action unit.
Variable locked : nat → gset Z.
Variable env : nat → ddb → ddb.
(** The texts and the instants of the readings of the clock in the round that
    is the [n]-th transaction *)
Variable now_iso : nat → nat → string.
Variable at_ : nat → nat → Z.
(** [time.monotonic()] *)
Variable mono : nat → Z.

Record loop := { lp_world : world; lp_core : ddb; lp_next : Z; lp_readings : nat }.
(** One iteration: when it read the clock, the end of its round and how many
    checks that enqueued, and whether a job was claimed; if none was, it sleeps *)
Record tick := { tk_time : Z; tk_round : option (Z * Z); tk_claimed : bool }.
Inductive loop_error := RoundError (e : terror) | JobError (e : werror).

Definition round (s : loop) : result loop_error (Z * loop) :=
  let ' (n, d) := lp_world s in
  let d' := others n d in
  let! ' (count, d2) := map_err RoundError (enqueue_due_tender_checks (clock n) (now_iso n) (Sdb (env n (lp_core s)) (jobs d'))) in
  Ok (count, {| lp_world := (S n, Wdb (queue d2) (outbox d')); lp_core := core d2;
                lp_next := mono (S (lp_readings s)) + SCHEDULE_CHECK_INTERVAL; lp_readings := S (S (lp_readings s)) |}).
(** [None]: the fuel of a claimed job ran out. *)
Definition claim_next (fuel : nat) (worker_id : string) (t : Z) (ended : option (Z * Z)) (s : loop) : option (result loop_error (tick * loop)) :=
  match run_once others clock meanwhile tender_check locked fuel worker_id (lp_world s) with
  | Some (Ok claimed, w) => Some (Ok ({| tk_time := t; tk_round := ended; tk_claimed := claimed |},
      {| lp_world := w; lp_core := lp_core s; lp_next := lp_next s; lp_readings := lp_readings s |}))
  | Some (Err e, _) => Some (Err (JobError e))
  | None => None
  end.
Definition iteration (fuel : nat) (worker_id : string) (s : loop) : option (result loop_error (tick * loop)) :=
  let t := mono (lp_readings s) in
  if lp_next s <=? t then
    match round s with
    | Err e => Some (Err e)
    | Ok (count, s') => claim_next fuel worker_id t (Some (mono (S (lp_readings s)), count)) s'
    end
  else claim_next fuel worker_id t None
         {| lp_world := lp_world s; lp_core := lp_core s; lp_next := lp_next s; lp_readings := S (lp_readings s) |}.
(** The first [n] iterations; [Err] is an exception that ends the loop. *)
Fixpoint run_forever (n fuel : nat) (worker_id : string) (s : loop) : option (result loop_error (list tick * loop)) :=
  match n with
  | O => Some (Ok ([], s))
  | S n' =>
      match iteration fuel worker_id s with
      | Some (Ok (k, s')) =>
          match run_forever n' fuel worker_id s' with
          | Some (Ok (ks, s2)) => Some (Ok (k :: ks, s2))
          | r => r
          end
      | Some (Err e) => Some (Err e)
      | None => None
      end
  end.
Definition loop_start (d : wdb) (c : ddb) : loop := {| lp_world := (0%nat, d); lp_core := c; lp_next := 0; lp_readings := 0 |}.

(** ** No exception ends the loop *)

Definition known (c : ddb) : Prop := tenders_known (Sdb c tbl_empty).
Hypothesis others_evolve : ∀ n d, evolves d (others n d).
Hypothesis meanwhile_evolves : ∀ n d, evolves d (meanwhile n d).
Hypothesis tender_check_evolves : ∀ x worker_id, keeps_jobs (tender_check x worker_id).
Hypothesis env_known : ∀ n c, known c → known (env n c).
Hypothesis clocks : ∀ n, clock_ok (now_iso n) (at_ n).
Hypothesis mono_forward : ∀ i, mono i <= mono (S i).

Lemma evolves_trans d1 d2 d3 : evolves d1 d2 → evolves d2 d3 → evolves d1 d3.
Proof using Type. intros [es1 E1] [es2 E2]. exists (es1 ++ es2). unfold Jobs.run in *. by rewrite foldl_app, <-E1. Qed.
Lemma evolves_wf d d' : evolves d d' → tbl_wf (jobs d) → tbl_wf (jobs d').
Proof using Type. intros [es ->]. apply Jobs.run_wf. Qed.

Lemma enqueue_checks_run now iso k due s q s' q' : enqueue_checks now iso k due s q = Ok (s', q') → ∃ es, q' = Jobs.run es q.
Proof using Type.
  revert k s q. induction due as [|t due IH]; intros k s q; cbn [enqueue_checks]; [intros [= <- <-]; by exists []|].
  destruct (upsert_watch_state t (iso k) s) as [[u|e] s1]; [|done]. intros [es ->]%IH. by exists ((now, Jobs.EEnqueue (check_identity t)) :: es).
Qed.
Lemma round_ok s : tbl_wf (jobs (lp_world s).2) → known (lp_core s) → ∃ count s', round s = Ok (count, s') ∧ 0 <= count ∧
  evolves (lp_world s).2 (lp_world s').2 ∧ known (lp_core s') ∧
  lp_next s' = mono (S (lp_readings s)) + SCHEDULE_CHECK_INTERVAL ∧ lp_readings s' = S (S (lp_readings s)).
Proof using others_evolve env_known clocks.
  intros Hw Hk. unfold round. destruct (lp_world s) as [n d] eqn:Ew. cbn [snd] in *. set (d1 := others n d).
  assert (tenders_known (Sdb (env n (lp_core s)) (jobs d1))) as Hk1 by (exact (env_known n _ Hk)).
  destruct (round_spec (now_iso n) (at_ n) (clocks n) (clock n) _ Hk1) as (due & w' & q' & Hdue & Hr & _). rewrite Hr. simpl.
  eexists _, _. split; [done|]. cbn [lp_world lp_core lp_next lp_readings snd queue core]. split_and!; [lia| |exact Hk1|done..].
  - apply (evolves_trans _ d1); [apply others_evolve|]. unfold enqueue_due_tender_checks in Hr. rewrite Hdue in Hr. simpl in Hr.
    unfold enqueue_all in Hr. apply rbind_ok in Hr as ([s2 q2] & He & Hr). injection Hr as _ <-.
    destruct (enqueue_checks_run _ _ _ _ _ _ _ _ He) as [es ->]. by exists es.
Qed.

Lemma run_once_ok fuel wid w : tbl_wf (jobs w.2) →
  match run_once others clock meanwhile tender_check locked fuel wid w with
  | Some (r, w') => is_ok r = true ∧ evolves w.2 w'.2
  | None => ∃ x w', job_body others clock tender_check fuel x wid w' = None
  end.
Proof using others_evolve meanwhile_evolves tender_check_evolves.
  intros Hw. unfold run_once. set (m := txn _ _ _). assert (keeps_jobs m) as Hm.
  { apply (txn_keeps others clock others_evolve). intros now d a d' [= <- <-].
    exists [(now, Jobs.EClaim (locked w.1) wid LEASE_SECONDS)]. done. }
  destruct (m w) as [[[[x|]|e] w1]|] eqn:E; [| |unfold m, txn in E; by simplify_eq|unfold m, txn in E; by simplify_eq].
  - pose proof (Hm _ _ _ E) as He. assert (is_Some (tbl_get (jobs w1.2) (Jobs.job_id x))) as Hx.
    { unfold m, txn in E. injection E as Hc <-. simpl. set (d1 := others w.1 w.2) in *.
      assert (tbl_wf (jobs d1)) as Hw1 by (eapply evolves_wf; [apply others_evolve|done]).
      destruct (Jobs.claim (clock w.1) (locked w.1) wid LEASE_SECONDS (jobs d1)) as [y t'] eqn:Hcl. simpl in Hc. subst y.
      apply Jobs.claim_found in Hcl as (r & Hr & _ & _ & Hx & -> & _); [|done]. cbn [snd fst jobs]. rewrite tbl_get_set_eq, Hr by done. by eexists. }
    unfold bind, ret. destruct (process_claimed_job others clock meanwhile tender_check fuel x wid w1) as [[r w2]|] eqn:Ep.
    + destruct (worker_survives others clock meanwhile tender_check others_evolve meanwhile_evolves tender_check_evolves fuel x wid w1 r w2) as [-> He2]; [|done..|].
      { by eapply evolves_wf. }
      split; [done|]. by eapply evolves_trans.
    + exists x, w1. unfold process_claimed_job, bind in Ep.
      destruct (job_body others clock tender_check fuel x wid w1) as [[[u|e] w2]|] eqn:Eb; [| |done]; exfalso.
      * unfold txn in Ep. destruct (complete_txn _ _ _ _) as [[? ?]|]; [done|]. destruct (fail_txn _ _ _ _ _ _) as [[? ?]|[]]; done.
      * unfold txn in Ep. destruct (fail_txn _ _ _ _ _ _) as [[? ?]|[]]; done.
  - split; [done|]. by eapply Hm.
Qed.

(** The times of the rounds, with the ends of the rounds before *)
Fixpoint paced (next : Z) (log : list tick) : Prop :=
  match log with
  | [] => True
  | k :: rest =>
      match tk_round k with
      | Some (ended, _) => next <= tk_time k ∧ tk_time k <= ended ∧ paced (ended + SCHEDULE_CHECK_INTERVAL) rest
      | None => tk_time k < next ∧ paced next rest
      end
  end.

Lemma iteration_ok fuel wid s : tbl_wf (jobs (lp_world s).2) → known (lp_core s) →
  match iteration fuel wid s with
  | Some (Ok (k, s')) => evolves (lp_world s).2 (lp_world s').2 ∧ known (lp_core s') ∧ ∀ rest, paced (lp_next s') rest → paced (lp_next s) (k :: rest)
  | Some (Err _) => False
  | None => ∃ x w', job_body others clock tender_check fuel x wid w' = None
  end.
Proof using others_evolve meanwhile_evolves tender_check_evolves env_known clocks mono_forward.
  intros Hw Hk. unfold iteration. destruct (Z.leb_spec (lp_next s) (mono (lp_readings s))) as [Hle|Hlt].
  - destruct (round_ok s Hw Hk) as (count & s1 & -> & _ & He & Hk1 & Hn & _). unfold claim_next.
    pose proof (run_once_ok fuel wid (lp_world s1) (evolves_wf _ _ He Hw)) as Ho.
    destruct (run_once _ _ _ _ _ fuel wid (lp_world s1)) as [[[c|e] w]|]; [|by destruct Ho|done]. destruct Ho as [_ He2].
    cbn [lp_world lp_core lp_next]. split_and!; [by eapply evolves_trans|done|]. intros rest Hp. cbn [paced tk_round tk_time]. rewrite Hn in Hp. auto.
  - unfold claim_next. cbn [lp_world lp_core lp_next]. pose proof (run_once_ok fuel wid (lp_world s) Hw) as Ho.
    destruct (run_once _ _ _ _ _ fuel wid (lp_world s)) as [[[c|e] w]|]; [|by destruct Ho|done]. destruct Ho as [_ He2].
    split_and!; [done|done|]. intros rest Hp. by split.
Qed.

(** C27: whatever the jobs raise and the other processes commit, no exception
    ends the main loop: after any number of iterations it runs on, unless a
    claimed job is still running; the jobs were changed by the transactions of
    the job store only; and an iteration holds a round of tender checks exactly
    if a minute has passed since the end of the round before. *)
Theorem loop_survives n fuel wid d c : tbl_wf (jobs d) → known c →
  match run_forever n fuel wid (loop_start d c) with
  | Some (Ok (log, s')) => length log = n ∧ evolves d (lp_world s').2 ∧ paced 0 log
  | Some (Err _) => False
  | None => ∃ x w', job_body others clock tender_check fuel x wid w' = None
  end.
Proof using others_evolve meanwhile_evolves tender_check_evolves env_known clocks mono_forward.
  intros Hw Hk. change d with (lp_world (loop_start d c)).2 at 2. change 0 with (lp_next (loop_start d c)).
  assert (tbl_wf (jobs (lp_world (loop_start d c)).2)) as Hw' by done. assert (known (lp_core (loop_start d c))) as Hk' by done.
  clear Hw Hk. revert Hw' Hk'. generalize (loop_start d c). clear d c. induction n as [|n IH]; intros s Hw Hk; cbn [run_forever].
  - split_and!; [done|by exists []|done].
  - pose proof (iteration_ok fuel wid s Hw Hk) as Hi. destruct (iteration fuel wid s) as [[[k s1]|e]|]; [|done..].
    destruct Hi as (He & Hk1 & Hp). specialize (IH s1 (evolves_wf _ _ He Hw) Hk1).
    destruct (run_forever n fuel wid s1) as [[[ks s2]|e]|]; [|done..]. destruct IH as (Hl & He2 & Hp2).
    split_and!; [simpl; by rewrite Hl|by eapply evolves_trans|by apply Hp].
Qed.
End Loop.

(** Three iterations, forty seconds apart, with a job to echo in the queue and
    the check of one tender due *)
Definition idle_others (_ : nat) (d : wdb) : wdb := d.
Definition forty_seconds (i : nat) : Z := Z.of_nat i * 40000000.
Definition eight (_ _ : nat) : string := demo_time "08".
Definition no_check (_ : Jobs.Job) (_ : string) : action unit := Worker.ret (Ok tt).
Definition demo_run : option (result loop_error (list tick * loop)) :=
  run_forever (H := ascii_text) idle_others (λ _, 5) idle_others no_check (λ _, ∅) (λ _ c, c) eight forty_seconds 3 5 "w1" (loop_start Worker.start (core demo_start)).
Lemma loop_survives_witness : ∃ log s', demo_run = Some (Ok (log, s')) ∧ length log = 3%nat ∧ paced 0 log ∧
  map (λ k, (match tk_round k with Some _ => true | None => false end, tk_claimed k)) log = [(true, true); (false, false); (true, false)].
Proof.
  assert (match demo_run with Some (Ok (log, _)) => map (λ k, (match tk_round k with Some _ => true | None => false end, tk_claimed k)) log | _ => [] end =
    [(true, true); (false, false); (true, false)]) as Hmap by (vm_compute; reflexivity).
  assert (match demo_run with
    | Some (Ok (log, s')) => length log = 3%nat ∧ evolves Worker.start (lp_world s').2 ∧ paced 0 log
    | Some (Err _) => False | None => ∃ x w', job_body idle_others (λ _, 5) no_check 5 x "w1" w' = None end) as Hs.
  { apply (loop_survives (H := ascii_text) idle_others (λ _, 5) idle_others no_check (λ _, ∅) (λ _ c, c) eight (λ _ _, demo_at "08") forty_seconds).
    - intros n d. by exists [].
    - intros n d. by exists [].
    - intros x wid w r w' [= <- <-]. by exists [].
    - done.
    - intros n. exact (demo_clock "08" eq_refl).
    - intros i. unfold forty_seconds. lia.
    - apply Jobs.claimed_wf.
    - exact (so_known _ _ demo_start_ok). }
  destruct demo_run as [[[log s']|e]|]; [|done..]. exists log, s'. destruct Hs as (Hl & _ & Hp). by split_and!.
Defined.
End WorkerLoop.
