(* ===== verification/DecisionApi.v ===== *)
(** * The routes of the decision core

    [apps/api_tender/routers/decision.py]. A mutating route reserves the
    idempotency key, does its work and stores its response in the transaction
    of the request. The body of a response is the JSON its pydantic model dumps,
    which a replay gives back as it was stored. The offers of the vendor service
    and pydantic's text of a datetime are parameters. *)

From stdpp Require Import base gmap sets strings list sorting.
From Stdlib Require Import ZArith Lia SpecFloat.
From S2P Require Import Prelude Json Decimal Datetime Query PyFloat Api BoqLine Matching BidReadiness SchemaDrift PyStr TenderDb Idempotency Decisions.

Module DecisionApi.
Import Drift TenderDb Decisions.
#[local] Open Scope Z_scope.

(** The bodies of the requests, already typed by pydantic. *)
Record GoNoGoInputsRequest := {
  gq_company_profile_notes : string; gq_qualification_notes : string; gq_financing_notes : string;
  gq_customer_reputation_notes : string; gq_pre_designated_winner_suspected : bool }.
Record DecisionRequest := {
  dq_decision_type : string; dq_conditions : list string; dq_deadline : option datetime; dq_justification : string;
  dq_go_no_go_inputs_id : option Z; dq_bid_readiness_candidate_id : option Z }.

Definition http (A : Type) : Type := result (http_error exn) A.
(** An exception the route does not catch *)
Definition uncaught {A} (m : result exn A) : http A := map_err Uncaught m.
(** [except IntegrityError as exc: raise ApiError(422, ...)] *)
Definition catching_integrity {A} (message : string) (m : result exn A) : http A :=
  map_err (λ e, match e with IntegrityError _ => api_error 422 "invalid_reference" message | _ => Uncaught e end) m.
Definition no_such_tender (tender_id : Z) : string := "tender " +:+ py_str_Z tender_id +:+ " does not exist".

Section Routes.
Context `{PyText} `{Idempotency.Fingerprints}.
Variable dump_datetime : datetime → json.
(** The correlation id bound to the request *)
Variable context : option string.

(** [datetime.now(UTC)] at an instant *)
Definition utc (now : Z) : datetime := Datetime now (Some 0).
Definition opt_json {A} (f : A → json) (v : option A) : json := match v with Some x => f x | None => JNull end.

Definition dump_inputs_request (b : GoNoGoInputsRequest) : payload :=
  [("company_profile_notes", JStr (gq_company_profile_notes b)); ("qualification_notes", JStr (gq_qualification_notes b));
   ("financing_notes", JStr (gq_financing_notes b)); ("customer_reputation_notes", JStr (gq_customer_reputation_notes b));
   ("pre_designated_winner_suspected", JBool (gq_pre_designated_winner_suspected b))].
Definition dump_decision_request (b : DecisionRequest) : payload :=
  [("decision_type", JStr (dq_decision_type b)); ("conditions", JArr (map JStr (dq_conditions b)));
   ("deadline", opt_json dump_datetime (dq_deadline b)); ("justification", JStr (dq_justification b));
   ("go_no_go_inputs_id", opt_json JInt (dq_go_no_go_inputs_id b));
   ("bid_readiness_candidate_id", opt_json JInt (dq_bid_readiness_candidate_id b))].

(** The frame of the mutating routes: a created resource answers 201. *)
Definition idempotent (key route fp : string) (work : ddb → http (json * ddb)) (d : ddb) : http (json * ddb) :=
  Idempotency.guarded idem with_idem Idempotency.key_reused key route fp 201 work d.

Definition log (actor action object_type object_id : string) (reason : option string) (d : ddb) : ddb :=
  with_audit (Audit.write_audit_log context actor action object_type object_id None reason None (audit d)) d.

(** ** POST /tenders/{tender_id}/go-no-go-inputs *)

Definition inputs_response (i : Z) (x : GoNoGoInputs) : json :=
  JObj [("id", JInt i); ("tender_id", JInt (gi_tender_id x)); ("company_profile_notes", JStr (company_profile_notes x));
        ("qualification_notes", JStr (qualification_notes x)); ("financing_notes", JStr (financing_notes x));
        ("customer_reputation_notes", JStr (customer_reputation_notes x));
        ("pre_designated_winner_suspected", JBool (pre_designated_winner_suspected x));
        ("entered_by", JStr (entered_by x)); ("entered_at", dump_datetime (entered_at x))].

Definition inputs_work (now : Z) (i : Identity) (tender_id : Z) (b : GoNoGoInputsRequest) (d : ddb) : http (json * ddb) :=
  let x := {| gi_tender_id := tender_id; company_profile_notes := gq_company_profile_notes b;
              qualification_notes := gq_qualification_notes b; financing_notes := gq_financing_notes b;
              customer_reputation_notes := gq_customer_reputation_notes b;
              pre_designated_winner_suspected := gq_pre_designated_winner_suspected b;
              entered_by := subject i; entered_at := utc now |} in
  let! ' (inputs_id, d1) := catching_integrity (no_such_tender tender_id) (store_go_no_go_inputs x d) in
  Ok (inputs_response inputs_id x, log (subject i) "go_no_go_inputs.create" "go_no_go_inputs" (py_str_Z inputs_id) None d1).

Definition INPUTS_ROUTE : string := "POST /tenders/{tender_id}/go-no-go-inputs".
Definition create_go_no_go_inputs (now : Z) (i : Identity) (tender_id : Z) (b : GoNoGoInputsRequest) (key : string) (d : ddb)
    : http (json * ddb) :=
  let! _ := require_permission "decision.go_no_go.create" i in
  idempotent key INPUTS_ROUTE (Idempotency.fingerprint (("tender_id", JInt tender_id) :: dump_inputs_request b))
    (inputs_work now i tender_id b) d.

(** ** GET /tenders/{tender_id}/bid-readiness-candidate *)

Definition critical_line_json (l : BidReadiness.CriticalLine) : json :=
  JObj [("boqline_source_line_id", JInt (BidReadiness.cl_line l)); ("vendor_id", JInt (BidReadiness.cl_vendor_id l));
        ("vendor_name", JStr (BidReadiness.cl_vendor_name l))].
Definition candidate_response (i : Z) (c : BidReadiness.BidReadinessCandidate) (computed_at : datetime) : json :=
  let s := BidReadiness.summary c in
  JObj [("id", JInt i); ("tender_id", JInt (BidReadiness.br_tender_id c));
        ("green_amount", JStr (dec_str (BidReadiness.green_amount s)));
        ("yellow_amount", JStr (dec_str (BidReadiness.yellow_amount s)));
        ("red_amount", JStr (dec_str (BidReadiness.red_amount s)));
        ("unpriced_line_count", JInt (BidReadiness.unpriced_line_count s));
        ("non_matchable_line_count", JInt (BidReadiness.non_matchable_line_count s));
        ("non_matchable_amount", JStr (dec_str (BidReadiness.non_matchable_amount s)));
        ("total_priced_amount", JStr (dec_str (BidReadiness.total_priced_amount s)));
        ("green_pct", JFloat (BidReadiness.green_pct s)); ("yellow_pct", JFloat (BidReadiness.yellow_pct s));
        ("red_pct", JFloat (BidReadiness.red_pct s)); ("is_lottery", JBool (BidReadiness.is_lottery c));
        ("critical_lines", JArr (map critical_line_json (BidReadiness.critical_lines c)));
        ("computed_at", dump_datetime computed_at)].

Definition not_found (message : string) : http_error exn := api_error 404 "not_found" message.

(** [fetch_offers] is [list_vendor_offers] at the instant: the offers, or the
    text of a [VendorApiError]. *)
Definition get_bid_readiness_candidate (now : Z) (i : Identity) (tender_id : Z) (as_of : datetime)
    (fetch_offers : datetime → result string (list Matching.VendorOfferDTO)) (d : ddb) : http (json * ddb) :=
  let! _ := require_permission "decision.bid_readiness.read" i in
  raise_if match dt_offset as_of with None => true | Some _ => false end
    with api_error 422 "naive_datetime" "as_of must include a timezone offset" ;;
  let! event := uncaught (get_event_id_for_tender (tender_db d) tender_id) in
  match event with
  | None => Err (not_found ("tender " +:+ py_str_Z tender_id +:+ " not found or has no resolvable event id"))
  | Some event_id =>
      let lines := list_boq_lines_by_event "etender" event_id (tender_db d) in
      match lines with
      | [] => Err (not_found ("tender " +:+ py_str_Z tender_id +:+ " has no BOQ lines"))
      | _ =>
          let! offers := map_err (api_error 502 "vendor_service_unavailable") (fetch_offers as_of) in
          let! c := uncaught (BidReadiness.build_bid_readiness_candidate tender_id lines offers as_of "") in
          let! ' (candidate_id, d') := uncaught (store_bid_readiness_candidate c (utc now) d) in
          Ok (candidate_response candidate_id c (utc now), d')
      end
  end.

(** ** POST /tenders/{tender_id}/decisions *)

Definition lock_in_json (x : Z * BidReadiness.CriticalLine) : json :=
  JObj [("id", JInt x.1); ("boqline_source_line_id", JInt (BidReadiness.cl_line x.2));
        ("vendor_id", JInt (BidReadiness.cl_vendor_id x.2)); ("vendor_name", JStr (BidReadiness.cl_vendor_name x.2));
        ("status", JStr "pending")].
Definition decision_response (i : Z) (x : Decision) (locks : list (Z * BidReadiness.CriticalLine)) : json :=
  JObj [("id", JInt i); ("tender_id", JInt (d_tender_id x)); ("decision_type", JStr (decision_type x));
        ("conditions", JArr (map JStr (conditions x))); ("deadline", opt_json dump_datetime (deadline x));
        ("justification", JStr (justification x)); ("actor", JStr (actor x)); ("decided_at", dump_datetime (decided_at x));
        ("lock_in_requirements", JArr (map lock_in_json locks))].

(** The inputs named by the request belong to the tender. *)
Definition check_inputs (tender_id : Z) (inputs_id : option Z) (d : ddb) : http unit :=
  match inputs_id with
  | None => Ok ()
  | Some i =>
      raise_if match load_go_no_go_inputs i d with Some r => negb (r.2 =? tender_id) | None => true end
        with api_error 422 "invalid_reference"
          ("go_no_go_inputs_id " +:+ py_str_Z i +:+ " does not belong to tender " +:+ py_str_Z tender_id) ;;
      Ok ()
  end.
(** So does the candidate, whose critical lines are wanted later. *)
Definition check_candidate (tender_id : Z) (candidate_id : option Z) (d : ddb) : http (option (list BidReadiness.CriticalLine)) :=
  match candidate_id with
  | None => Ok None
  | Some i =>
      let! r := map_err (λ e, match e with ValueError m => api_error 422 "invalid_reference" m | _ => Uncaught e end)
                  (load_bid_readiness_candidate i d) in
      raise_if negb (r.1 =? tender_id)
        with api_error 422 "invalid_reference"
          ("bid_readiness_candidate_id " +:+ py_str_Z i +:+ " does not belong to tender " +:+ py_str_Z tender_id) ;;
      Ok (Some r.2)
  end.

Definition store_lock_ins (tender_id decision_id : Z) (lines : list BidReadiness.CriticalLine) (d : ddb)
    : result exn (list (Z * BidReadiness.CriticalLine) * ddb) :=
  foldM (λ s l, let! ' (i, d') := store_lock_in_requirement tender_id decision_id l s.2 in Ok (s.1 ++ [(i, l)], d')) ([], d) lines.

Definition decision_work (now : Z) (i : Identity) (tender_id : Z) (b : DecisionRequest) (d : ddb) : http (json * ddb) :=
  let! _ := check_inputs tender_id (dq_go_no_go_inputs_id b) d in
  let! candidate := check_candidate tender_id (dq_bid_readiness_candidate_id b) d in
  let! x := uncaught (make_decision
    {| d_tender_id := tender_id; decision_type := dq_decision_type b; conditions := dq_conditions b;
       deadline := dq_deadline b; justification := dq_justification b; actor := subject i; decided_at := utc now;
       go_no_go_inputs_id := dq_go_no_go_inputs_id b; bid_readiness_candidate_id := dq_bid_readiness_candidate_id b |}) in
  let! ' (decision_id, d1) := catching_integrity (no_such_tender tender_id) (store_decision x d) in
  let d2 := log (subject i) "decision.create" "decision" (py_str_Z decision_id) (Some (justification x)) d1 in
  let! ' (locks, d3) :=
    match candidate with
    | Some lines => if is_bid (dq_decision_type b) then uncaught (store_lock_ins tender_id decision_id lines d2) else Ok ([], d2)
    | None => Ok ([], d2)
    end in
  Ok (decision_response decision_id x locks, d3).

Definition DECISIONS_ROUTE : string := "POST /tenders/{tender_id}/decisions".
Definition decision_fingerprint (tender_id : Z) (b : DecisionRequest) : string :=
  Idempotency.fingerprint (("tender_id", JInt tender_id) :: dump_decision_request b).
Definition create_decision (now : Z) (i : Identity) (tender_id : Z) (b : DecisionRequest) (key : string) (d : ddb)
    : http (json * ddb) :=
  let! _ := require_permission "decision.decisions.create" i in
  raise_if bool_decide (dq_decision_type b ∉ DECISION_TYPES)
    with api_error 422 "unknown_decision_type" ("unknown decision_type: " +:+ dq_decision_type b) ;;
  idempotent key DECISIONS_ROUTE (decision_fingerprint tender_id b) (decision_work now i tender_id b) d.

(** ** GET /tenders/{tender_id}/recalc-flags *)

(** The flags with the instants they were raised at *)
Definition get_recalc_flags (i : Identity) (tender_id : Z) (d : ddb) : http (list (Z * Z * Z * Z) * ddb) :=
  let! _ := require_permission "decision.recalc_flags.read" i in
  Ok (map (λ ir, (ir.1, fl_line_id ir.2, fl_event_id ir.2, flagged_at ir.2)) (list_unresolved_recalc_flags tender_id (tender_db d)), d).
End Routes.

(** ** What the tables record *)

(** The critical lines a decision locks: those of its candidate, when it bids. *)
Definition locked_lines (cs : table candidate_row) (x : Decision) : list BidReadiness.CriticalLine :=
  if is_bid (decision_type x) then
    match c ← bid_readiness_candidate_id x; tbl_get cs c with
    | Some r => BidReadiness.critical_lines (ca_candidate r)
    | None => []
    end
  else [].
Definition locks_of (cs : table candidate_row) (ix : Z * Decision) : list LockInRequirement :=
  map (lock_in_of (d_tender_id ix.2) ix.1) (locked_lines cs ix.2).

(** A decision is of a known type, what it refers to is of its tender, and it is
    in the audit log. *)
Record decision_ok (ins : table GoNoGoInputs) (cs : table candidate_row) (au : table Audit.audit_row) (i : Z) (x : Decision) : Prop := {
  do_type : decision_type x ∈ DECISION_TYPES;
  do_inputs : ∀ g, go_no_go_inputs_id x = Some g → ∃ r, tbl_get ins g = Some r ∧ gi_tender_id r = d_tender_id x;
  do_candidate : ∀ c, bid_readiness_candidate_id x = Some c → ∃ r, tbl_get cs c = Some r ∧ ca_tender_id r = d_tender_id x;
  do_audit : ∃ a, a ∈ (rows au).*2 ∧ Audit.au_action a = "decision.create" ∧ Audit.au_object_id a = py_str_Z i ∧
    Audit.au_actor a = actor x ∧ Audit.au_reason a = Some (justification x) }.

Record consistent (ins : table GoNoGoInputs) (cs : table candidate_row) (ds : table Decision) (ls : table LockInRequirement)
    (au : table Audit.audit_row) : Prop := {
  co_ins : tbl_wf ins;
  co_cs : tbl_wf cs;
  co_ds : tbl_wf ds;
  co_decisions : ∀ i x, (i, x) ∈ rows ds → decision_ok ins cs au i x;
  co_locks : (rows ls).*2 = rows ds ≫= locks_of cs }.
Definition sound (d : ddb) : Prop :=
  consistent (inputs d) (candidates d) (decisions d) (lock_ins d) (audit d) ∧ Idempotency.all_stored (idem d).

Record grows (d d' : ddb) : Prop := {
  gr_inputs : rows (inputs d) `prefix_of` rows (inputs d');
  gr_candidates : rows (candidates d) `prefix_of` rows (candidates d');
  gr_decisions : rows (decisions d) `prefix_of` rows (decisions d');
  gr_locks : rows (lock_ins d) `prefix_of` rows (lock_ins d');
  gr_audit : rows (audit d) `prefix_of` rows (audit d');
  gr_idem : Idempotency.remembers (idem d) (idem d') }.
#[local] Existing Instance Idempotency.remembers_preorder.
#[export] Instance grows_preorder : PreOrder grows.
Proof.
  split; [intros d; constructor; reflexivity|]. intros d1 d2 d3 [] []. constructor; by etrans.
Qed.

Lemma decision_ok_grow ins ins' cs cs' au au' i x : tbl_wf ins → tbl_wf ins' → rows ins `prefix_of` rows ins' →
  tbl_wf cs → tbl_wf cs' → rows cs `prefix_of` rows cs' → rows au `prefix_of` rows au' →
  decision_ok ins cs au i x → decision_ok ins' cs' au' i x.
Proof.
  intros Hi Hi' Hii Hc Hc' Hcc [k Hau'] [Ht Hg Hk (a & Ha & Hau)]. split; [done| | |].
  - intros g (r & Hr & Hx)%Hg. exists r. split; [exact (extends_get ins ins' g r Hi Hi' Hii Hr)|exact Hx].
  - intros c (r & Hr & Hx)%Hk. exists r. split; [exact (extends_get cs cs' c r Hc Hc' Hcc Hr)|exact Hx].
  - exists a. split; [|done]. rewrite Hau', map_app. apply elem_of_app. by left.
Qed.

Lemma consistent_grow ins ins' cs cs' ds ls au au' : tbl_wf ins' → rows ins `prefix_of` rows ins' →
  tbl_wf cs' → rows cs `prefix_of` rows cs' → rows au `prefix_of` rows au' →
  consistent ins cs ds ls au → consistent ins' cs' ds ls au'.
Proof.
  intros Hi' Hii Hc' Hcc Hau [Hi Hc Hd Hds Hl]. split; [done|done|done| |].
  - intros i x Hx. apply (decision_ok_grow ins ins' cs cs' au au'); auto.
  - rewrite Hl. apply Forall_bind_ext, Forall_forall. intros [i x] Hx. unfold locks_of, locked_lines. simpl.
    destruct (bid_readiness_candidate_id x) as [c|] eqn:Hb; simpl; [|done].
    destruct (do_candidate _ _ _ _ _ (Hds i x Hx) c Hb) as (r & Hr & _).
    by rewrite (extends_get cs cs' c r), Hr.
Qed.

(** One more decision, with its audit row and its lock-ins *)
Lemma consistent_decide ins cs ds ls au au' x ls' :
  consistent ins cs ds ls au → rows au `prefix_of` rows au' → decision_ok ins cs au' (next_id ds) x →
  (rows ls').*2 = (rows ls).*2 ++ locks_of cs (next_id ds, x) →
  consistent ins cs (tbl_insert ds x).2 ls' au'.
Proof.
  intros [Hi Hc Hd Hds Hl] Hau Hx Hls. split; [done|done|by apply tbl_insert_wf| |].
  - intros i y. unfold tbl_insert. cbn [rows snd]. intros [Hy|[= -> ->]%list_elem_of_singleton]%elem_of_app; [|done].
    apply (decision_ok_grow ins ins cs cs au au'); auto.
  - unfold tbl_insert. cbn [rows snd]. by rewrite Hls, Hl, bind_app, bind_singleton.
Qed.

(** ** The requests *)

Definition core (d : ddb) : Prop := consistent (inputs d) (candidates d) (decisions d) (lock_ins d) (audit d).
(** What the work of a request does to the tables *)
Definition good_work (work : ddb → http (json * ddb)) : Prop := ∀ d b d',
  core d → work d = Ok (b, d') → core d' ∧ grows d d' ∧ idem d' = idem d.

Lemma inserted_prefix {R} (t : table R) r : rows t `prefix_of` rows (tbl_insert t r).2.
Proof. by exists [(next_id t, r)]. Qed.
#[local] Hint Resolve inserted_prefix tbl_insert_wf : core.
#[local] Hint Extern 0 (?l `prefix_of` ?l) => reflexivity : core.
#[local] Hint Extern 0 (?l `prefix_of` ?l ++ ?k) => by exists k : core.
#[local] Hint Extern 0 (_ `prefix_of` rows (audit (log _ _ _ _ _ _ _))) => eexists; reflexivity : core.
#[local] Hint Extern 0 (Idempotency.remembers ?t ?t) => reflexivity : core.

Section Requests.
Context `{PyText} `{Idempotency.Fingerprints}.
Variable dump_datetime : datetime → json.
Variable context : option string.

Lemma with_idem_idem d : with_idem (idem d) d = d.
Proof. by destruct d. Qed.

(** The requests proper: permission, key, work, stored response *)
Lemma idempotent_good key route fp work d b d' : good_work work → sound d → idempotent key route fp work d = Ok (b, d') →
  sound d' ∧ grows d d' ∧ Idempotency.answered key route fp b (idem d').
Proof.
  intros Hw [Hc Ha] Hr. apply Idempotency.guarded_cases in Hr as [[-> Hans]|(t & d1 & _ & Hx & -> & Hst)];
    [by split_and!| |done|by intros []|done].
  destruct (Hw (with_idem t d) b d1 Hc Hx) as (Hc1 & [] & Hi1). destruct (Hst Hi1) as (Ha' & Hrem & Hans).
  split; [by split|]. split; [|exact Hans]. constructor; try done.
Qed.

Lemma inputs_work_good now i t b : good_work (inputs_work dump_datetime context now i t b).
Proof.
  intros d body d' Hc. unfold inputs_work. set (x := Build_GoNoGoInputs _ _ _ _ _ _ _ _). clearbody x.
  intros ([j d1] & Hs & [= _ <-])%rbind_ok. apply map_err_ok in Hs. unfold store_go_no_go_inputs in Hs. destruct (negb _); [done|].
  injection Hs as <- <-. simpl. split; [|split; [by constructor; simpl|done]].
  refine (consistent_grow _ (tbl_insert (inputs d) x).2 _ _ _ _ _ _ _ _ _ _ _ Hc); destruct Hc; auto using tbl_insert_wf, inserted_prefix.
Qed.

Lemma candidate_good now i t as_of fetch d b d' :
  sound d → get_bid_readiness_candidate dump_datetime now i t as_of fetch d = Ok (b, d') → sound d' ∧ grows d d'.
Proof.
  intros [Hc Ha] Hr. unfold get_bid_readiness_candidate in Hr. apply rbind_ok in Hr as (_ & _ & Hr).
  destruct (match dt_offset as_of with None => true | Some _ => false end); [done|]. apply rbind_ok in Hr as ([e|] & _ & Hr); [|done].
  destruct (list_boq_lines_by_event _ _ _); [done|]. apply rbind_ok in Hr as (offers & _ & Hr). apply rbind_ok in Hr as (c & _ & Hr).
  apply rbind_ok in Hr as ([j d1] & Hs & [= _ <-]). apply map_err_ok in Hs. unfold store_bid_readiness_candidate in Hs.
  destruct (negb _); [done|]. injection Hs as <- <-. split; [split; [|done]|by constructor; simpl].
  refine (consistent_grow _ _ _ (tbl_insert (candidates d) _).2 _ _ _ _ _ _ _ _ _ Hc); destruct Hc; auto using tbl_insert_wf, inserted_prefix.
Qed.

Lemma store_lock_ins_rows t i lines d locks d' : store_lock_ins t i lines d = Ok (locks, d') →
  (∃ ls, d' = with_lock_ins ls d) ∧ rows (lock_ins d) `prefix_of` rows (lock_ins d') ∧
  (rows (lock_ins d')).*2 = (rows (lock_ins d)).*2 ++ map (lock_in_of t i) lines.
Proof.
  intros Hr. unfold store_lock_ins in Hr.
  refine (foldM_inv_prefix (λ dn s, (∃ ls, s.2 = with_lock_ins ls d) ∧ rows (lock_ins d) `prefix_of` rows (lock_ins s.2) ∧
    (rows (lock_ins s.2)).*2 = (rows (lock_ins d)).*2 ++ map (lock_in_of t i) dn) _ lines ([], d) (locks, d') _ _ Hr); clear.
  - intros dn l rest [acc s] [acc' s'] _ ((ls & ->) & Hp & Hm) Hs. simpl in *. apply rbind_ok in Hs as ([j s1] & Hs & [= _ <-]).
    unfold store_lock_in_requirement in Hs. destruct (negb _); [done|]. destruct (negb _); [done|]. injection Hs as <- <-.
    simpl. split; [by eexists|]. split; [etrans; [exact Hp|apply inserted_prefix]|].
    rewrite !fmap_app, Hm, <-app_assoc. done.
  - simpl. split; [by exists (lock_ins d); destruct d|]. split; [done|]. by rewrite app_nil_r.
Qed.

Lemma check_inputs_ok t g d u : check_inputs t g d = Ok u →
  ∀ i, g = Some i → ∃ r, tbl_get (inputs d) i = Some r ∧ gi_tender_id r = t.
Proof.
  intros Hc i ->. unfold check_inputs, load_go_no_go_inputs in Hc. destruct (tbl_get (inputs d) i) as [r|]; simpl in Hc; [|done].
  destruct (Z.eqb_spec (gi_tender_id r) t); [|done]. by exists r.
Qed.

Lemma check_candidate_ok t c d cand : check_candidate t c d = Ok cand →
  match c with
  | None => cand = None
  | Some i => ∃ r, tbl_get (candidates d) i = Some r ∧ ca_tender_id r = t ∧ cand = Some (BidReadiness.critical_lines (ca_candidate r))
  end.
Proof.
  destruct c as [i|]; simpl; [|by intros [= <-]]. unfold load_bid_readiness_candidate.
  destruct (tbl_get (candidates d) i) as [r|]; simpl; [|done]. destruct (Z.eqb_spec (ca_tender_id r) t); simpl; [|done].
  intros [= <-]. by exists r.
Qed.

Lemma decision_work_good now i t b : good_work (decision_work dump_datetime context now i t b).
Proof.
  intros d body d' Hc Hr. unfold decision_work in Hr. apply rbind_ok in Hr as (u & Hg & Hr).
  apply rbind_ok in Hr as (cand & Hk & Hr). pose proof (check_inputs_ok _ _ _ _ Hg) as Hin. apply check_candidate_ok in Hk.
  remember (Build_Decision t (dq_decision_type b) _ _ _ _ _ _ _) as x eqn:Hx. apply rbind_ok in Hr as (x' & Hmk & Hr).
  apply map_err_ok in Hmk. unfold make_decision in Hmk. case_bool_decide as Hty; [done|]. injection Hmk as <-.
  apply rbind_ok in Hr as ([j d1] & Hs & Hr). apply map_err_ok in Hs. unfold store_decision in Hs.
  do 4 (destruct (_ : bool) in Hs; [done|]). injection Hs as <- <-.
  apply rbind_ok in Hr as ([locks d3] & Hl & [= _ <-]).
  assert ((∃ ls, d3 = with_lock_ins ls (log context (subject i) "decision.create" "decision" (py_str_Z (next_id (decisions d)))
             (Some (justification x)) (with_decisions (tbl_insert (decisions d) x).2 d))) ∧
          rows (lock_ins d) `prefix_of` rows (lock_ins d3) ∧
          (rows (lock_ins d3)).*2 = (rows (lock_ins d)).*2 ++ locks_of (candidates d) (next_id (decisions d), x))
    as ((ls & ->) & Hp & Hrows).
  { unfold locks_of, locked_lines. simpl in Hl |- *. replace (d_tender_id x) with t by (by subst).
    replace (decision_type x) with (dq_decision_type b) by (by subst).
    replace (bid_readiness_candidate_id x) with (dq_bid_readiness_candidate_id b) by (by subst).
    destruct (dq_bid_readiness_candidate_id b) as [c|]; [destruct Hk as (r & Hr & _ & ->)|subst cand]; simpl.
    - rewrite Hr. destruct (is_bid (dq_decision_type b)).
      + apply map_err_ok in Hl. by apply store_lock_ins_rows in Hl.
      + injection Hl as _ <-. rewrite app_nil_r. split; [by exists (lock_ins d)|done].
    - injection Hl as _ <-. destruct (is_bid _); rewrite app_nil_r; (split; [by exists (lock_ins d)|done]). }
  split; [|simpl in Hp; split; [by constructor; simpl|done]].
  refine (consistent_decide _ _ _ _ _ _ _ _ Hc _ _ Hrows); [by eexists|]. split.
  - exact Hty.
  - subst x. exact Hin.
  - subst x. simpl. intros c Hcc. rewrite Hcc in Hk. destruct Hk as (r & Hr & Ht & _). by exists r.
  - eexists. split; [unfold log, Audit.write_audit_log; simpl; rewrite map_app; apply elem_of_app; right; by left|].
    subst x. done.
Qed.
End Requests.

(** ** Histories of requests *)

Section Histories.
Context `{PyText} `{Idempotency.Fingerprints}.
Variable dump_datetime : datetime → json.

(** A committed request of this router, or one of the other components: they
    own the tender tables, write audit rows and answer their own keys. *)
Inductive step : ddb → ddb → Prop :=
| SInputs context now i t b key body d d' :
    create_go_no_go_inputs dump_datetime context now i t b key d = Ok (body, d') → step d d'
| SCandidate now i t as_of fetch body d d' :
    get_bid_readiness_candidate dump_datetime now i t as_of fetch d = Ok (body, d') → step d d'
| SDecision context now i t b key body d d' :
    create_decision dump_datetime context now i t b key d = Ok (body, d') → step d d'
| SOther tdb' idem' audit' d :
    rows (audit d) `prefix_of` rows audit' → Idempotency.remembers (idem d) idem' → Idempotency.all_stored idem' →
    step d (Ddb tdb' idem' audit' (inputs d) (candidates d) (decisions d) (lock_ins d)).

Definition empty_ddb : ddb := Ddb empty_tdb ∅ tbl_empty tbl_empty tbl_empty tbl_empty tbl_empty.

Lemma create_decision_good context now i t b key d body d' : sound d →
  create_decision dump_datetime context now i t b key d = Ok (body, d') →
  sound d' ∧ grows d d' ∧ Idempotency.answered key DECISIONS_ROUTE (decision_fingerprint dump_datetime t b) body (idem d').
Proof.
  intros Hs Hr. unfold create_decision in Hr. apply rbind_ok in Hr as (_ & _ & Hr). case_bool_decide; [done|].
  eapply idempotent_good; [apply decision_work_good|done|exact Hr].
Qed.

Lemma step_sound d d' : sound d → step d d' → sound d' ∧ grows d d'.
Proof.
  intros Hs Hst. revert Hs.
  destruct Hst as [context now i t b key body d d' Hr|now i t as_of fetch body d d' Hr|context now i t b key body d d' Hr|tdb' idem' au d Ha Hi Hst]; intros Hs.
  - unfold create_go_no_go_inputs in Hr. apply rbind_ok in Hr as (_ & _ & Hr).
    destruct (idempotent_good _ _ _ _ _ _ _ (inputs_work_good _ _ _ _ _ _) Hs Hr) as (? & ? & _). done.
  - by eapply candidate_good.
  - destruct (create_decision_good _ _ _ _ _ _ _ _ _ Hs Hr) as (? & ? & _). done.
  - destruct Hs as [Hc _]. split; [|by constructor]. split; [|done].
    refine (consistent_grow _ _ _ _ _ _ _ _ _ _ _ _ Ha Hc); destruct Hc; auto.
Qed.

Lemma steps_sound d d' : sound d → rtc step d d' → sound d' ∧ grows d d'.
Proof.
  intros Hs Hr. induction Hr as [d|d d1 d2 H1 _ IH]; [done|]. destruct (step_sound d d1 Hs H1) as [Hs1 Hg1].
  destruct (IH Hs1) as [Hs2 Hg2]. split; [done|by etrans].
Qed.

Lemma empty_sound : sound empty_ddb.
Proof. split; [|done]. split; [by split; simpl; constructor..|by intros ? ? ?%elem_of_nil|done]. Qed.

(** C11: whatever requests were committed, in any order and mixed with those of
    the other components, every stored decision is of a known type, refers to
    inputs and to a candidate of its own tender only, and has its audit row; the
    lock-in rows are exactly the critical lines of the candidates of the bids, in
    the order of the decisions; and no request removes or changes what an earlier
    one stored. *)
Theorem decision_integrity d d' : rtc step empty_ddb d → rtc step d d' →
  (∀ i x, (i, x) ∈ rows (decisions d) →
     decision_type x ∈ DECISION_TYPES ∧
     (∀ g, go_no_go_inputs_id x = Some g → ∃ r, tbl_get (inputs d) g = Some r ∧ gi_tender_id r = d_tender_id x) ∧
     (∀ c, bid_readiness_candidate_id x = Some c → ∃ r, tbl_get (candidates d) c = Some r ∧ ca_tender_id r = d_tender_id x) ∧
     (∃ a, a ∈ (rows (audit d)).*2 ∧ Audit.au_action a = "decision.create" ∧ Audit.au_object_id a = py_str_Z i ∧
        Audit.au_actor a = actor x ∧ Audit.au_reason a = Some (justification x))) ∧
  (rows (lock_ins d)).*2 = rows (decisions d) ≫= locks_of (candidates d) ∧
  Idempotency.all_stored (idem d) ∧ grows d d'.
Proof.
  intros H1 H2. destruct (steps_sound _ _ empty_sound H1) as [[[] Ha] _].
  destruct (steps_sound d d') as [_ Hg]; [by split|done|].
  split_and!; [|done|done|done]. intros i x Hx. destruct (co_decisions0 i x Hx). by split_and!.
Qed.

(** C18: once a decision request has answered, the same request under the same
    key is answered by the stored response, by any permitted caller, at any later
    moment and whatever happened in between, and changes nothing; a request with
    another fingerprint under that key is refused. *)
Theorem idempotent_replay context context2 now now2 i i2 t b key d body d' d'' :
  rtc step empty_ddb d → create_decision dump_datetime context now i t b key d = Ok (body, d') → rtc step d' d'' →
  "decision.decisions.create" ∈ permissions i2 →
  create_decision dump_datetime context2 now2 i2 t b key d'' = Ok (body, d'') ∧
  ∀ t2 b2, dq_decision_type b2 ∈ DECISION_TYPES → decision_fingerprint dump_datetime t2 b2 ≠ decision_fingerprint dump_datetime t b →
    create_decision dump_datetime context2 now2 i2 t2 b2 key d'' =
    Err (api_error 409 "idempotency_key_reused" (Idempotency.reused_message (Idempotency.IdempotencyKeyReused key DECISIONS_ROUTE))).
Proof.
  intros H0' Hr H2 Hp. apply steps_sound in H0' as [Hs _]; [|apply empty_sound]. pose proof Hr as Hr'.
  apply (create_decision_good _ _ _ _ _ _ _ _ _ Hs) in Hr' as (Hs' & _ & Hans).
  apply (steps_sound _ _ Hs') in H2 as [_ Hg]. apply (Idempotency.answered_remembers _ _ _ _ _ _ (gr_idem _ _ Hg)) in Hans.
  assert (∀ t2 b2, dq_decision_type b2 ∈ DECISION_TYPES → create_decision dump_datetime context2 now2 i2 t2 b2 key d'' =
    idempotent key DECISIONS_ROUTE (decision_fingerprint dump_datetime t2 b2) (decision_work dump_datetime context2 now2 i2 t2 b2) d'') as Hrun.
  { intros t2 b2 Hty. unfold create_decision. rewrite (proj2 (require_permission_ok _ i2 i2)) by done. simpl.
    rewrite bool_decide_false; [done|]. intros Hn. by apply Hn. }
  split.
  - rewrite Hrun; [|unfold create_decision in Hr; apply rbind_ok in Hr as (_ & _ & Hr); by case_bool_decide].
    unfold idempotent. rewrite (Idempotency.guarded_answered _ _ _ with_idem_idem _ _ _ _ _ _ _ _ Hans), bool_decide_true by done. done.
  - intros t2 b2 Hty Hne. rewrite Hrun by done. unfold idempotent.
    rewrite (Idempotency.guarded_answered _ _ _ with_idem_idem _ _ _ _ _ _ _ _ Hans), bool_decide_false by congruence. done.
Qed.
End Histories.

(** ** Witnesses *)

Definition demo_fingerprints : Idempotency.Fingerprints := {| Idempotency.sha256_of_canonical := @json_repr ascii_text ∘ JObj |}.
#[local] Existing Instance ascii_text.
#[local] Existing Instance demo_fingerprints.

Definition demo_tdb : tdb := Tdb tbl_empty
  (Table [(1, {| tn_source := "etender"; tn_identity_key := "355920"; current_version_id := Some 1; tn_created_at := 0 |})] 2)
  (Table [(1, {| tv_tender_id := 1; version_number := 1; tv_snapshot_id := 1; parser_version := "p"; normalized_fields := [("id", JInt 55)] |})] 2)
  tbl_empty tbl_empty tbl_empty
  (Table [(1, {| bq_source := "etender"; bq_event_id := 55; bq_version_id := 1; bq_snapshot_id := 1; bq_line := BidReadiness.priced Matching.cement |})] 2)
  tbl_empty tbl_empty tbl_empty ∅.
Definition demo_db : ddb := Ddb demo_tdb ∅ tbl_empty tbl_empty tbl_empty tbl_empty tbl_empty.
Definition demo_dump (t : datetime) : json := JInt (to_timestamptz t).
Definition demo_identity : Identity := {| subject := "dana"; role := "bidder";
  permissions := list_to_set ["decision.decisions.create"; "decision.bid_readiness.read"] |}.
Definition demo_request : DecisionRequest := {| dq_decision_type := "bid"; dq_conditions := []; dq_deadline := None;
  dq_justification := "margin"; dq_go_no_go_inputs_id := None; dq_bid_readiness_candidate_id := Some 1 |}.
Definition demo_offers (as_of : datetime) : result string (list Matching.VendorOfferDTO) := Ok [Matching.offer 1 1 (Matching.fl 1205 (-1))].

Definition demo_candidate : http (json * ddb) :=
  get_bid_readiness_candidate demo_dump 100 demo_identity 1 (Matching.day 3) demo_offers demo_db.
Definition demo_decide (key : string) (r : http (json * ddb)) : http (json * ddb) :=
  let! ' (_, d) := r in create_decision demo_dump (Some "c") 200 demo_identity 1 demo_request key d.

Lemma demo_start : rtc (step demo_dump) empty_ddb demo_db.
Proof. apply rtc_once. exact (SOther demo_dump demo_tdb ∅ tbl_empty empty_ddb ltac:(reflexivity) ltac:(by intros ??) ltac:(done)). Qed.

Lemma decision_integrity_witness : ∃ d1 d2, rtc (step demo_dump) d1 d2 ∧ length (rows (decisions d1)) = 1%nat ∧
  length (rows (lock_ins d1)) = 1%nat ∧ length (rows (decisions d2)) = 2%nat ∧ grows d1 d2.
Proof.
  pose (c := demo_candidate). pose (x := demo_decide "k" demo_candidate). pose (y := demo_decide "l" x).
  assert (match c, x, y with
          | Ok _, Ok (_, d1), Ok (_, d2) => (length (rows (decisions d1)) =? 1)%nat && (length (rows (lock_ins d1)) =? 1)%nat &&
              (length (rows (decisions d2)) =? 2)%nat
          | _, _, _ => false end = true) as Hv by (vm_compute; reflexivity).
  destruct c as [[bc dc]|] eqn:Hc; [|discriminate Hv]. destruct x as [[bx d1]|] eqn:Hx; [|discriminate Hv].
  destruct y as [[b2 d2]|] eqn:Hy; [|discriminate Hv]. subst c x y. unfold demo_decide in Hx, Hy. rewrite Hc in Hx. simpl rbind in Hx, Hy.
  apply andb_prop in Hv as [Hv H2%Nat.eqb_eq]. apply andb_prop in Hv as [H1%Nat.eqb_eq Hl%Nat.eqb_eq].
  exists d1, d2. assert (rtc (step demo_dump) d1 d2) as H12 by (apply rtc_once; exact (SDecision demo_dump (Some "c") 200 demo_identity 1 demo_request "l" b2 d1 d2 Hy)).
  split; [exact H12|]. split; [exact H1|]. split; [exact Hl|]. split; [exact H2|].
  refine (proj2 (proj2 (proj2 (decision_integrity demo_dump d1 d2 _ H12)))).
  etrans; [exact demo_start|]. eapply rtc_l; [exact (SCandidate demo_dump 100 demo_identity 1 (Matching.day 3) demo_offers bc demo_db dc Hc)|]. apply rtc_once.
  exact (SDecision demo_dump (Some "c") 200 demo_identity 1 demo_request "k" bx dc d1 Hx).
Defined.

Lemma idempotent_replay_witness : ∃ d' body, length (rows (decisions d')) = 1%nat ∧
  create_decision demo_dump None 300 demo_identity 1 demo_request "k" d' = Ok (body, d').
Proof.
  pose (c := demo_candidate). pose (x := demo_decide "k" demo_candidate).
  assert (match c, x with Ok _, Ok (_, d1) => (length (rows (decisions d1)) =? 1)%nat | _, _ => false end = true) as Hv
    by (vm_compute; reflexivity).
  destruct c as [[bc dc]|] eqn:Hc; [|discriminate Hv]. destruct x as [[bx d1]|] eqn:Hx; [|discriminate Hv].
  subst c x. unfold demo_decide in Hx. rewrite Hc in Hx. simpl rbind in Hx. apply Nat.eqb_eq in Hv.
  exists d1, bx. split; [exact Hv|].
  refine (proj1 (idempotent_replay demo_dump (Some "c") None 200 300 demo_identity demo_identity 1 demo_request "k" dc bx d1 d1 _ Hx _ _)).
  - etrans; [exact demo_start|]. apply rtc_once. exact (SCandidate demo_dump 100 demo_identity 1 (Matching.day 3) demo_offers bc demo_db dc Hc).
  - reflexivity.
  - concrete_mem.
Defined.
End DecisionApi.
