(* ===== verification/Accounts.v ===== *)
(** * Users, sessions and identities

    [packages/platform/auth/session_store.py], [auth/password_hashing.py],
    [rbac/store.py] and [disable_user] of [audit.py]. Times are instants in
    microseconds. The token of a session and the salt of a hash, which the code
    draws at random, are arguments; argon2 is a parameter. *)

From stdpp Require Import base gmap sets strings list.
From Stdlib Require Import ZArith Lia.
From S2P Require Import Prelude Json Api SchemaDrift Idempotency.

Module Accounts.
#[local] Open Scope Z_scope.

Record user_row := {
  username : string; display_name : string; role_id : Z; user_status : string; user_version : Z;
  password_hash : option string; failed_login_count : Z; locked_until : option Z }.
Record session_row := { s_user_id : Z; expires_at : Z; revoked_at : option Z }.

Record adb := Adb {
  users : table user_row;
  roles : table string;
  permission_names : table string;
  role_permissions : list (Z * Z);
  sessions : gmap string session_row;
  audit_log : table Audit.audit_row;
  idem_keys : gmap (string * string) Idempotency.idem_row;
}.
Definition set_users x (d : adb) := Adb x (roles d) (permission_names d) (role_permissions d) (sessions d) (audit_log d) (idem_keys d).
Definition set_sessions x (d : adb) := Adb (users d) (roles d) (permission_names d) (role_permissions d) x (audit_log d) (idem_keys d).
Definition set_audit x (d : adb) := Adb (users d) (roles d) (permission_names d) (role_permissions d) (sessions d) x (idem_keys d).
Definition set_idem x (d : adb) := Adb (users d) (roles d) (permission_names d) (role_permissions d) (sessions d) (audit_log d) x.

(** ** Passwords *)

(** [PasswordHasher]: the hash of a password under a salt, and the check of a
    password against a hash, which raises one of the exceptions the code turns
    into [False] or returns [True]. *)
Class Argon2 := {
  argon2_hash : string → string → string;
  argon2_verify : string → string → bool;
  argon2_verify_hash : ∀ salt p, argon2_verify (argon2_hash salt p) p = true }.

(** A minute in microseconds *)
Definition minutes (n : Z) : Z := n * 60 * 1000000.
Definition SESSION_LIFETIME : Z := minutes (12 * 60).
Definition FAILED_LOGIN_LOCKOUT_THRESHOLD : Z := 5.
Definition LOCKOUT_DURATION : Z := minutes 15.

Section WithHasher.
Context `{Argon2}.
Definition hash_password (salt password : string) : string := argon2_hash salt password.
Definition verify_password (password : string) (h : option string) : bool :=
  match h with None => false | Some h => argon2_verify h password end.
End WithHasher.

(** ** Identities *)

(** The row of a username joined with the name of its role *)
Definition find_user (name : string) (d : adb) : option (Z * user_row * string) :=
  head (omap (λ ir, (λ r, (ir.1, ir.2, r)) <$> tbl_get (roles d) (role_id ir.2))
          (tbl_select (λ _ u, String.eqb (username u) name) (users d))).
(** The names of the permissions of the roles of a name *)
Definition permissions_of (role_name : string) (d : adb) : gset string :=
  list_to_set (omap (λ rp, if bool_decide (tbl_get (roles d) rp.1 = Some role_name) then tbl_get (permission_names d) rp.2 else None)
                 (role_permissions d)).
Definition identity_of (u : user_row) (role_name : string) (d : adb) : Identity :=
  {| subject := username u; role := role_name; permissions := permissions_of role_name d |}.
Definition is_active (u : user_row) : bool := String.eqb (user_status u) "active".

Definition resolve_identity (name : string) (d : adb) : option Identity :=
  match find_user name d with
  | Some (_, u, r) => if is_active u then Some {| subject := name; role := r; permissions := permissions_of r d |} else None
  | None => None
  end.

(** ** Sessions *)

Definition create_session (now : Z) (token : string) (user_id : Z) (d : adb) : result exn (string * adb) :=
  match sessions d !! token with
  | Some _ => Err (IntegrityError "user_sessions_pkey")
  | None => Ok (token, set_sessions (<[token := {| s_user_id := user_id; expires_at := now + SESSION_LIFETIME; revoked_at := None |}]> (sessions d)) d)
  end.

Definition is_live (now : Z) (s : session_row) : bool :=
  match revoked_at s with None => now <? expires_at s | Some _ => false end.
Definition resolve_session (now : Z) (token : string) (d : adb) : option Identity :=
  match sessions d !! token with
  | None => None
  | Some s =>
      if is_live now s then
        match tbl_get (users d) (s_user_id s) with
        | None => None
        | Some u =>
            match tbl_get (roles d) (role_id u) with
            | None => None
            | Some r => if is_active u then Some (identity_of u r d) else None
            end
        end
      else None
  end.

Definition revoke (now : Z) (s : session_row) : session_row :=
  match revoked_at s with
  | None => {| s_user_id := s_user_id s; expires_at := expires_at s; revoked_at := Some now |}
  | Some _ => s
  end.
Definition revoke_session (now : Z) (token : string) (d : adb) : adb := set_sessions (alter (revoke now) token (sessions d)) d.

(** ** Logins *)

Definition with_failures (n : Z) (locked : option Z) (u : user_row) : user_row := {|
  username := username u; display_name := display_name u; role_id := role_id u; user_status := user_status u;
  user_version := user_version u; password_hash := password_hash u; failed_login_count := n; locked_until := locked |}.
(** The increment, and the lock when the new count reaches the threshold *)
Definition fail_login (now : Z) (u : user_row) : user_row :=
  let n := failed_login_count u + 1 in
  with_failures n (if FAILED_LOGIN_LOCKOUT_THRESHOLD <=? n then Some (now + LOCKOUT_DURATION) else locked_until u) u.
Definition record_login_failure (now user_id : Z) (d : adb) : adb := set_users (tbl_set user_id (fail_login now) (users d)) d.
Definition reset_login_failures (user_id : Z) (d : adb) : adb := set_users (tbl_set user_id (with_failures 0 None) (users d)) d.

Inductive LoginStatus := success | invalid_credentials | account_locked.
Record LoginOutcome := { outcome_status : LoginStatus; outcome_identity : option Identity; session_token : option string }.
Definition failed (s : LoginStatus) : LoginOutcome := {| outcome_status := s; outcome_identity := None; session_token := None |}.

Definition locked_at (now : Z) (u : user_row) : bool :=
  match locked_until u with Some t => now <? t | None => false end.

Section Logins.
Context `{Argon2}.

(** What follows the read of the user's row *)
Definition login_row (now : Z) (token password : string) (row : option (Z * user_row * string)) (d : adb)
    : result exn (LoginOutcome * adb) :=
  match row with
  | None => Ok (failed invalid_credentials, d)
  | Some (i, u, r) =>
      if negb (is_active u) then Ok (failed invalid_credentials, d)
      else if locked_at now u then Ok (failed account_locked, d)
      else if negb (verify_password password (password_hash u)) then Ok (failed invalid_credentials, record_login_failure now i d)
      else
        let d1 := reset_login_failures i d in
        let! ' (tok, d2) := create_session now token i d1 in
        Ok ({| outcome_status := success; outcome_identity := Some (identity_of u r d1); session_token := Some tok |}, d2)
  end.
(** Its transaction is its own: committed with the outcome. *)
Definition authenticate_user (now : Z) (token name password : string) (d : adb) : result exn (LoginOutcome * adb) :=
  login_row now token password (find_user name d) d.
End Logins.

(** ** Disabling a user *)

Inductive UserNotFound := user_not_found (user_id : Z).
Definition with_user_status (st : string) (v : Z) (u : user_row) : user_row := {|
  username := username u; display_name := display_name u; role_id := role_id u; user_status := st;
  user_version := v; password_hash := password_hash u; failed_login_count := failed_login_count u; locked_until := locked_until u |}.
Definition user_audit (context : option string) (actor action : string) (user_id : Z) (version : option Z) (reason : option string) (d : adb) : adb :=
  set_audit (Audit.write_audit_log context actor action "user" (py_str_Z user_id) version reason None (audit_log d)) d.
Definition disable_user (context : option string) (user_id : Z) (actor reason : string) (d : adb) : result UserNotFound (Z * adb) :=
  match tbl_get (users d) user_id with
  | None => Err (user_not_found user_id)
  | Some u =>
      let v := user_version u + 1 in
      Ok (v, user_audit context actor "user.disable" user_id (Some v) (Some reason)
               (set_users (tbl_set user_id (with_user_status "disabled" v) (users d)) d))
  end.
End Accounts.
