(* ===== verification/AdminApi.v ===== *)
(** * Users and sign-in over HTTP

    [apps/api_tender/routers/admin_users.py], [routers/auth.py], the session
    dependency of [apps/api_tender/deps.py], and the two helpers they use:
    [packages/platform/concurrency.py] and [packages/platform/pagination.py]. *)

From Stdlib Require Import ZArith Lia Ascii String.
From stdpp Require Import base gmap sets strings list.
From S2P Require Import Prelude Json PyStr Api BoqImport SchemaDrift Idempotency Accounts.

Module AdminApi.
Import Drift Accounts.
#[local] Open Scope Z_scope.

Definition http (A : Type) : Type := result (http_error exn) A.

(** ** Preconditions *)

Definition PreconditionFailed (current : Z) : http_error exn :=
  Api {| status_code := 409; error_code := "precondition_failed"; error_message := "resource was modified concurrently";
         details := Some [JObj [("current_version", JInt current)]] |}.

(** [s.strip(c)] *)
Fixpoint drop_char (c : ascii) (l : list ascii) : list ascii :=
  match l with x :: l' => if Ascii.eqb x c then drop_char c l' else l | [] => [] end.
Definition strip_char (c : ascii) (s : string) : string :=
  String.string_of_list_ascii (reverse (drop_char c (reverse (drop_char c (String.list_ascii_of_string s))))).
Definition quote : ascii := Ascii.ascii_of_nat 34.

Section Text.
Context `{PyText}.
Definition check_precondition (if_match : string) (current : Z) : http unit :=
  match int_of_text (strip_char quote if_match) with
  | None => Err (PreconditionFailed current)
  | Some v => raise_if negb (v =? current) with PreconditionFailed current ;; Ok ()
  end.
End Text.

(** ** Cursors *)

(** The base64 of the JSON text of a list, and its reading, which gives back the
    cursors of one id *)
Class CursorText := {
  cursor_text : list json → string;
  cursor_json : string → result exn json;
  cursor_json_text : ∀ n, cursor_json (cursor_text [JInt n]) = Ok (JArr [JInt n]);
  cursor_text_some : ∀ l, cursor_text l ≠ EmptyString }.
Section Cursors.
Context `{CursorText}.
Definition encode_cursor (key : list json) : string := cursor_text key.
Definition decode_cursor (cursor : string) : result exn (list json) := let! j := cursor_json cursor in py_iter j.
End Cursors.

(** ** The session cookie *)

Section Routes.
Context `{PyText} `{Idempotency.Fingerprints} `{Argon2} `{CursorText}.
Variable context : option string.

Definition unauthenticated {A} (message : string) : http A := Err (api_error 401 "unauthenticated" message).
Definition get_current_identity (now : Z) (cookie : option string) (d : adb) : http Identity :=
  match cookie with
  | None => unauthenticated "session cookie required"
  | Some token =>
      match resolve_session now token d with
      | None => unauthenticated "invalid or expired session"
      | Some i => Ok i
      end
  end.

Record LoginResponse := { lr_username : string; lr_role : string; lr_cookie : string }.
(** The response, and the database its own transaction left *)
Definition login (now : Z) (token name password : string) (d : adb) : http LoginResponse * adb :=
  match authenticate_user now token name password d with
  | Err e => (Err (Uncaught e), d)
  | Ok (o, d') =>
      (match outcome_status o with
       | account_locked => Err (api_error 401 "account_locked" "account is temporarily locked")
       | invalid_credentials => unauthenticated "invalid username or password"
       | success =>
           match outcome_identity o, session_token o with
           | Some i, Some t => Ok {| lr_username := subject i; lr_role := role i; lr_cookie := t |}
           | _, _ => Err (Uncaught (AssertionFailed ""))
           end
       end, d')
  end.
Definition logout (now : Z) (cookie : option string) (d : adb) : http (unit * adb) :=
  Ok ((), match cookie with Some token => revoke_session now token d | None => d end).

(** ** Users *)

Record CreateUserRequest := { cu_username : string; cu_display_name : string; cu_role_name : string }.
Record UpdateUserRequest := { uu_display_name : option string; uu_role_name : option string }.
Record UserResponse := {
  ur_id : Z; ur_username : string; ur_display_name : string; ur_role_name : string; ur_status : string; ur_version : Z }.
Record UserListResponse := { items : list UserResponse; next_cursor : option string }.

Definition load_role_id (name : string) (d : adb) : http Z :=
  match tbl_select (λ _ r, String.eqb r name) (roles d) with
  | [] => Err (api_error 422 "unknown_role" ("unknown role: " +:+ name))
  | (i, _) :: _ => Ok i
  end.
(** The user's row joined with its role *)
Definition user_of (d : adb) (ir : Z * user_row) : option UserResponse :=
  (λ r, {| ur_id := ir.1; ur_username := username ir.2; ur_display_name := display_name ir.2; ur_role_name := r;
           ur_status := user_status ir.2; ur_version := user_version ir.2 |}) <$> tbl_get (roles d) (role_id ir.2).
Definition load_user_row (i : Z) (d : adb) : http UserResponse :=
  match u ← tbl_get (users d) i; user_of d (i, u) with
  | None => Err (api_error 404 "not_found" ("user " +:+ py_str_Z i +:+ " not found"))
  | Some r => Ok r
  end.

(** [model_dump()] of the request and of the response *)
Definition dump_create (b : CreateUserRequest) : payload :=
  [("username", JStr (cu_username b)); ("display_name", JStr (cu_display_name b)); ("role_name", JStr (cu_role_name b))].
Definition dump_user (r : UserResponse) : json :=
  JObj [("id", JInt (ur_id r)); ("username", JStr (ur_username r)); ("display_name", JStr (ur_display_name r));
        ("role_name", JStr (ur_role_name r)); ("status", JStr (ur_status r)); ("version", JInt (ur_version r))].

Definition new_user (name display : string) (role : Z) : user_row := {|
  username := name; display_name := display; role_id := role; user_status := "active"; user_version := 1;
  password_hash := None; failed_login_count := 0; locked_until := None |}.
Definition insert_user (u : user_row) (d : adb) : result exn (Z * adb) :=
  match tbl_select (λ _ v, String.eqb (username v) (username u)) (users d) with
  | [] => let ' (i, t) := tbl_insert (users d) u in Ok (i, set_users t d)
  | _ => Err (IntegrityError "users_username_key")
  end.

Definition create_work (i : Identity) (b : CreateUserRequest) (d : adb) : http (json * adb) :=
  let! role := load_role_id (cu_role_name b) d in
  let u := new_user (cu_username b) (cu_display_name b) role in
  let! ' (user_id, d1) := map_err Uncaught (insert_user u d) in
  let d2 := user_audit context (subject i) "user.create" user_id (Some (user_version u)) None d1 in
  Ok (dump_user {| ur_id := user_id; ur_username := cu_username b; ur_display_name := cu_display_name b;
                   ur_role_name := cu_role_name b; ur_status := user_status u; ur_version := user_version u |}, d2).
Definition CREATE_ROUTE : string := "POST /admin/users".
Definition create_user (i : Identity) (key : string) (b : CreateUserRequest) (d : adb) : http (json * adb) :=
  let! _ := require_permission "admin.users.create" i in
  Idempotency.guarded idem_keys set_idem Idempotency.key_reused key CREATE_ROUTE (Idempotency.fingerprint (dump_create b)) 201 (create_work i b) d.

(** [decode_cursor(cursor)[0] if cursor else 0], as the BIGINT it is bound to *)
Definition after_id (cursor : option string) : result exn Z :=
  match cursor with
  | None | Some EmptyString => Ok 0
  | Some c =>
      let! l := decode_cursor c in
      match l with
      | [] => Err (IndexError "tuple index out of range")
      | JInt n :: _ => Ok n
      | JBool b :: _ => Ok (Z.b2z b)
      | _ => Err (DataError "an integer is required")
      end
  end.
Lemma after_id_encode k : after_id (Some (encode_cursor [JInt k])) = Ok k.
Proof.
  unfold after_id, encode_cursor. destruct (cursor_text _) eqn:Hc; [by destruct (cursor_text_some [JInt k])|].
  rewrite <-Hc. unfold decode_cursor. by rewrite cursor_json_text.
Qed.
(** [rows[:limit]] *)
Definition py_prefix {A} (l : list A) (n : Z) : list A :=
  if 0 <=? n then take (Z.to_nat n) l else take (length l - Z.to_nat (- n)) l.
Definition list_users (i : Identity) (cursor : option string) (limit : Z) (d : adb) : http UserListResponse :=
  let! _ := require_permission "admin.users.read" i in
  let! after := map_err Uncaught (after_id cursor) in
  raise_if limit + 1 <? 0 with Uncaught (DataError "LIMIT must not be negative") ;;
  let rows := take (Z.to_nat (limit + 1)) (omap (user_of d) (tbl_select (λ j _, after <? j) (users d))) in
  let page := py_prefix rows limit in
  if limit <? Z.of_nat (length rows) then
    match last page with
    | None => Err (Uncaught (IndexError "list index out of range"))
    | Some r => Ok {| items := page; next_cursor := Some (encode_cursor [JInt (ur_id r)]) |}
    end
  else Ok {| items := page; next_cursor := None |}.

Definition with_profile (display : string) (role : Z) (u : user_row) : user_row := {|
  username := username u; display_name := display; role_id := role; user_status := user_status u;
  user_version := user_version u + 1; password_hash := password_hash u;
  failed_login_count := failed_login_count u; locked_until := locked_until u |}.
(** The read and the check of a PATCH, and its write *)
Definition update_read (user_id : Z) (b : UpdateUserRequest) (if_match : string) (d : adb) : http (UserResponse * string * string * Z) :=
  let! current := load_user_row user_id d in
  let! _ := check_precondition if_match (ur_version current) in
  let display := default (ur_display_name current) (uu_display_name b) in
  let role_name := default (ur_role_name current) (uu_role_name b) in
  let! role := load_role_id role_name d in
  Ok (current, display, role_name, role).
Definition update_write (i : Identity) (user_id : Z) (x : UserResponse * string * string * Z) (d : adb) : http (UserResponse * adb) :=
  let ' (current, display, role_name, role) := x in
  match tbl_get (users d) user_id with
  | None => Err (Uncaught NoResultFound)
  | Some u =>
      let u' := with_profile display role u in
      let d1 := set_users (tbl_set user_id (with_profile display role) (users d)) d in
      Ok ({| ur_id := user_id; ur_username := ur_username current; ur_display_name := display; ur_role_name := role_name;
             ur_status := user_status u'; ur_version := user_version u' |},
          user_audit context (subject i) "user.update" user_id (Some (user_version u')) None d1)
  end.
Definition update_user (i : Identity) (user_id : Z) (b : UpdateUserRequest) (if_match : string) (d : adb) : http (UserResponse * adb) :=
  let! _ := require_permission "admin.users.update" i in
  let! x := update_read user_id b if_match d in
  update_write i user_id x d.

Definition disable_user_route (i : Identity) (user_id : Z) (reason : string) (d : adb) : http (UserResponse * adb) :=
  let! _ := require_permission "admin.users.disable" i in
  let! ' (_, d1) := map_err (λ e, match e with user_not_found u => api_error 404 "not_found" ("user " +:+ py_str_Z u +:+ " not found") end)
                     (disable_user context user_id (subject i) reason d) in
  let! r := load_user_row user_id d1 in
  Ok (r, d1).

Definition with_password (h : string) (u : user_row) : user_row := {|
  username := username u; display_name := display_name u; role_id := role_id u; user_status := user_status u;
  user_version := user_version u + 1; password_hash := Some h; failed_login_count := 0; locked_until := None |}.
Definition set_password_route (i : Identity) (salt : string) (user_id : Z) (password : string) (d : adb) : http (unit * adb) :=
  let! _ := require_permission "admin.users.set_password" i in
  let! _ := load_user_row user_id d in
  let d1 := set_users (tbl_set user_id (with_password (hash_password salt password)) (users d)) d in
  Ok ((), user_audit context (subject i) "user.set_password" user_id None None d1).
End Routes.
End AdminApi.
