(* ===== verification/AdminHistory.v ===== *)
(** * Histories of sign-ins and user administration

    What holds of the users and the sessions after any sequence of requests:
    who a session stands for and for how long, that a disabled user is shut out,
    how many passwords can be tried, and that no update is lost. *)

From Stdlib Require Import ZArith Lia Sorting.Sorted.
From stdpp Require Import base gmap sets strings list sorting.
From S2P Require Import Prelude Json Query PyStr Api BoqImport SchemaDrift Idempotency Accounts AdminApi.

Module AdminHistory.
Import Accounts AdminApi.
#[local] Open Scope Z_scope.

Section Histories.
Context `{PyText} `{Idempotency.Fingerprints} `{Argon2}.
Variable context : option string.

(** The requests that change something, with the cookie each carries *)
Inductive op :=
| OLogin (token name password : string)
| OLogout (cookie : option string)
| OCreate (cookie : option string) (key : string) (b : CreateUserRequest)
| OUpdate (cookie : option string) (user_id : Z) (b : UpdateUserRequest) (if_match : string)
| ODisable (cookie : option string) (user_id : Z) (reason : string)
| OSetPassword (cookie : option string) (salt : string) (user_id : Z) (password : string).

(** One request at an instant, committed or rolled back *)
Definition run_op (now : Z) (o : op) (d : adb) : adb :=
  match o with
  | OLogin token name password => (login now token name password d).2
  | OLogout cookie => commit d (logout now cookie d)
  | OCreate cookie key b => commit d (let! i := get_current_identity now cookie d in create_user context i key b d)
  | OUpdate cookie u b if_match => commit d (let! i := get_current_identity now cookie d in update_user context i u b if_match d)
  | ODisable cookie u reason => commit d (let! i := get_current_identity now cookie d in disable_user_route context i u reason d)
  | OSetPassword cookie salt u p => commit d (let! i := get_current_identity now cookie d in set_password_route context i salt u p d)
  end.
Definition run (h : list (Z * op)) (d : adb) : adb := fold_left (λ d o, run_op o.1 o.2 d) h d.

Lemma run_app h1 h2 d : run (h1 ++ h2) d = run h2 (run h1 d).
Proof. apply fold_left_app. Qed.
Lemma run_snoc h o d : run (h ++ [o]) d = run_op o.1 o.2 (run h d).
Proof. apply run_app. Qed.

(** ** The users of a history *)

Definition user_ok (rs : table string) (u : user_row) : Prop :=
  is_Some (tbl_get rs (role_id u)) ∧ 0 <= failed_login_count u ∧
  (FAILED_LOGIN_LOCKOUT_THRESHOLD <= failed_login_count u → is_Some (locked_until u)).
Record wf (d : adb) : Prop := {
  wf_users : tbl_wf (users d);
  wf_roles : tbl_wf (roles d);
  wf_unique : ∀ i u j v, tbl_get (users d) i = Some u → tbl_get (users d) j = Some v → username u = username v → i = j;
  wf_user : ∀ i u, tbl_get (users d) i = Some u → user_ok (roles d) u;
  wf_keys : Idempotency.all_stored (idem_keys d) }.

(** What an update of a user's row may do *)
Definition tame (rs : table string) (u u' : user_row) : Prop :=
  (user_ok rs u → user_ok rs u') ∧ username u' = username u ∧ user_version u <= user_version u' ∧
  (is_active u' = true → is_active u = true).
Inductive users_step (rs : table string) (us : table user_row) : table user_row → Prop :=
| US_same : users_step rs us us
| US_set i f : (∀ u, tbl_get us i = Some u → tame rs u (f u)) → users_step rs us (tbl_set i f us)
| US_new u : user_ok rs u → tbl_select (λ _ v, String.eqb (username v) (username u)) us = [] → users_step rs us (tbl_insert us u).2.

Record same_config (d d' : adb) : Prop := {
  sc_roles : roles d' = roles d;
  sc_names : permission_names d' = permission_names d;
  sc_grants : role_permissions d' = role_permissions d }.
#[local] Hint Constructors same_config users_step : core.

Lemma tame_fail rs now u : tame rs u (fail_login now u).
Proof.
  unfold tame, user_ok, fail_login. simpl. split_and!; [|done|lia|done].
  intros (? & ? & ?). split_and!; [done|lia|]. case_match; [done|lia].
Qed.
Lemma tame_reset rs u : tame rs u (with_failures 0 None u).
Proof. unfold tame, user_ok. simpl. split_and!; [|done|lia|done]. intros (? & ? & ?). split_and!; [done|lia|done]. Qed.
Lemma tame_disable rs u : tame rs u (with_user_status "disabled" (user_version u + 1) u).
Proof. unfold tame, user_ok. simpl. split_and!; [|done|lia|done]. done. Qed.
Lemma tame_password rs h u : tame rs u (with_password h u).
Proof. unfold tame, user_ok. simpl. split_and!; [|done|lia|done]. intros (? & ? & ?). split_and!; [done|lia|done]. Qed.
Lemma tame_profile rs display r u : is_Some (tbl_get rs r) → tame rs u (with_profile display r u).
Proof. intros Hr. unfold tame, user_ok. simpl. split_and!; [|done|lia|done]. intros (? & ? & ?). by split_and!. Qed.

Lemma load_role_id_ok name d r : tbl_wf (roles d) → load_role_id name d = Ok r → tbl_get (roles d) r = Some name.
Proof.
  intros Hw. unfold load_role_id. destruct (tbl_select _ (roles d)) as [|[i n] l] eqn:Hs; [done|]. intros [= <-].
  assert ((i, n) ∈ tbl_select (λ _ r, String.eqb r name) (roles d)) as [Hn Hin]%elem_of_tbl_select by (rewrite Hs; by left).
  apply String.eqb_eq in Hn as ->. by apply tbl_get_spec.
Qed.

(** The failures and the lock of a user; an update that leaves those of all
    users but one alone *)
Definition counters (u : option user_row) : Z * option Z :=
  match u with Some u => (failed_login_count u, locked_until u) | None => (0, None) end.
Definition calm (but : option Z) (us us' : table user_row) : Prop :=
  ∀ j u', but ≠ Some j → tbl_get us' j = Some u' → counters (Some u') = counters (tbl_get us j).
Lemma calm_same but us : calm but us us.
Proof. by intros j u' _ ->. Qed.
Lemma calm_set us i f : (∀ u, counters (Some (f u)) = counters (Some u)) → calm None us (tbl_set i f us).
Proof.
  intros Hf j u' _. destruct (decide (j = i)) as [->|Hj]; [|rewrite tbl_get_set_ne by done; by intros ->].
  rewrite tbl_get_set_eq. destruct (tbl_get us i); [|done]. intros [= <-]. apply Hf.
Qed.
Lemma calm_set_but us i f : calm (Some i) us (tbl_set i f us).
Proof. intros j u' Hj. rewrite tbl_get_set_ne by congruence. by intros ->. Qed.
Lemma calm_insert us u : tbl_wf us → counters (Some u) = (0, None) → calm None us (tbl_insert us u).2.
Proof.
  intros Hw Hu j u' _. destruct (decide (j = next_id us)) as [->|Hj]; [|rewrite tbl_get_insert_old by done; by intros ->].
  rewrite tbl_get_insert_new, tbl_get_next by done. intros [= <-]. done.
Qed.

Lemma login_users now token name pw d : users_step (roles d) (users d) (users (login now token name pw d).2) ∧
  same_config d (login now token name pw d).2 ∧ idem_keys (login now token name pw d).2 = idem_keys d.
Proof.
  unfold login, authenticate_user, login_row. destruct (find_user name d) as [[[i u] r]|]; simpl; [|auto].
  destruct (negb (is_active u)); simpl; [auto|]. destruct (locked_at now u); simpl; [auto|].
  destruct (negb (verify_password pw (password_hash u))); simpl.
  { split; [|auto]. apply US_set. intros. apply tame_fail. }
  unfold create_session. destruct (sessions _ !! token); simpl; [auto|]. split; [|auto]. apply US_set. intros. apply tame_reset.
Qed.

Lemma create_users i key b d body d' : tbl_wf (roles d) → tbl_wf (users d) → Idempotency.all_stored (idem_keys d) →
  create_user context i key b d = Ok (body, d') →
  users_step (roles d) (users d) (users d') ∧ same_config d d' ∧ sessions d' = sessions d ∧ Idempotency.all_stored (idem_keys d') ∧
  calm None (users d) (users d').
Proof.
  intros Hw Hwu Ha Hr. unfold create_user in Hr. apply rbind_ok in Hr as (_ & _ & Hr).
  apply Idempotency.guarded_cases in Hr as [[-> _]|(t & d1 & _ & Hx & -> & Hst)]; [auto using calm_same| |done|by intros []|done].
  unfold create_work in Hx. apply rbind_ok in Hx as (r & Hrole & Hx). apply load_role_id_ok in Hrole; [|done].
  apply rbind_ok in Hx as ([j d2] & Hi & [= _ <-]). apply map_err_ok in Hi. unfold insert_user in Hi.
  destruct (tbl_select _ _) eqn:Hsel in Hi; [|done]. injection Hi as <- <-. simpl in *.
  split_and!; [|by split|done|by apply Hst|by apply calm_insert]. refine (US_new _ _ (new_user _ _ r) _ Hsel).
  unfold user_ok. simpl. split; [by rewrite Hrole|]. split; [done|]. unfold FAILED_LOGIN_LOCKOUT_THRESHOLD. lia.
Qed.

Lemma identified_commit {A} now cookie (route : Identity → adb → http (A * adb)) (P : adb → Prop) d :
  P d → (∀ i a d', get_current_identity now cookie d = Ok i → route i d = Ok (a, d') → P d') →
  P (commit d (let! i := get_current_identity now cookie d in route i d)).
Proof.
  intros Hd Hr. destruct (get_current_identity now cookie d) as [i|] eqn:Hi; simpl; [|done].
  destruct (route i d) as [[a d']|] eqn:Hx; simpl; [by eapply Hr|done].
Qed.

Lemma load_user_row_ok i d r : load_user_row i d = Ok r → is_Some (tbl_get (users d) i).
Proof. unfold load_user_row. destruct (tbl_get (users d) i); [by eexists|done]. Qed.

Lemma update_read_ok i b if_match d x : tbl_wf (roles d) → update_read i b if_match d = Ok x →
  ∃ u rn, tbl_get (users d) i = Some u ∧ tbl_get (roles d) (role_id u) = Some rn ∧
    int_of_text (strip_char quote if_match) = Some (user_version u) ∧
    x.1.1.2 = default (display_name u) (uu_display_name b) ∧ x.1.2 = default rn (uu_role_name b) ∧
    tbl_get (roles d) x.2 = Some x.1.2 ∧ ur_username x.1.1.1 = username u.
Proof.
  intros Hw Hr. unfold update_read in Hr. apply rbind_ok in Hr as (cur & Hc & Hr). apply rbind_ok in Hr as ([] & Hp & Hr).
  apply rbind_ok in Hr as (r & Hrole & [= <-]). apply load_role_id_ok in Hrole; [|done].
  unfold load_user_row in Hc. destruct (tbl_get (users d) i) as [u|]; [|done]. simpl in Hc. unfold user_of in Hc. simpl in Hc.
  destruct (tbl_get (roles d) (role_id u)) as [rn|] eqn:Hrn; [|done]. simpl in Hc. injection Hc as <-. simpl in *.
  unfold check_precondition in Hp. destruct (int_of_text _) as [v|]; [|done]. destruct (Z.eqb_spec v (user_version u)) as [Hv|]; [|done]. subst v.
  exists u, rn. split_and!; done.
Qed.

Lemma update_users i uid b if_match d r d' : tbl_wf (roles d) → update_user context i uid b if_match d = Ok (r, d') →
  users_step (roles d) (users d) (users d') ∧ same_config d d' ∧ sessions d' = sessions d ∧ idem_keys d' = idem_keys d ∧
  calm None (users d) (users d').
Proof.
  intros Hw Hr. unfold update_user in Hr. apply rbind_ok in Hr as (_ & _ & Hr). apply rbind_ok in Hr as ([[[cur disp] rn] role] & Hx & Hr).
  apply update_read_ok in Hx as (u & rn' & Hu & _ & _ & _ & _ & Hrole & _); [|done]. simpl in Hrole.
  unfold update_write in Hr. rewrite Hu in Hr. injection Hr as _ <-. simpl. split; [|by auto using calm_set]. apply US_set. intros v _.
  apply tame_profile. by rewrite Hrole.
Qed.

Lemma disable_users i uid reason d r d' : disable_user_route context i uid reason d = Ok (r, d') →
  users_step (roles d) (users d) (users d') ∧ same_config d d' ∧ sessions d' = sessions d ∧ idem_keys d' = idem_keys d ∧
  calm None (users d) (users d').
Proof.
  intros Hr. unfold disable_user_route in Hr. apply rbind_ok in Hr as (_ & _ & Hr). apply rbind_ok in Hr as ([v d1] & Hd & Hr).
  apply rbind_ok in Hr as (x & _ & [= _ <-]). apply map_err_ok in Hd. unfold disable_user in Hd.
  destruct (tbl_get (users d) uid) as [u|] eqn:Hu; [|done]. injection Hd as _ <-. simpl. split; [|by auto using calm_set]. apply US_set.
  intros u' Hu'. simplify_eq. apply tame_disable.
Qed.

Lemma set_password_users i salt uid pw d r d' : set_password_route context i salt uid pw d = Ok (r, d') →
  users_step (roles d) (users d) (users d') ∧ same_config d d' ∧ sessions d' = sessions d ∧ idem_keys d' = idem_keys d ∧
  calm (Some uid) (users d) (users d').
Proof.
  intros Hr. unfold set_password_route in Hr. apply rbind_ok in Hr as (_ & _ & Hr). apply rbind_ok in Hr as (x & _ & [= _ <-]).
  simpl. split; [|by auto using calm_set_but]. apply US_set. intros u' _. apply tame_password.
Qed.

(** Every request changes at most one row of the users, tamely. *)
Lemma run_op_users now o d : wf d →
  users_step (roles d) (users d) (users (run_op now o d)) ∧ same_config d (run_op now o d) ∧
  Idempotency.all_stored (idem_keys (run_op now o d)).
Proof.
  intros Hw. pose proof (wf_keys _ Hw) as Ha. destruct o as [tok n p|c|c k b|c u b m|c u r|c s u p]; simpl.
  - destruct (login_users now tok n p d) as (? & ? & ->). auto.
  - destruct c; simpl; auto.
  - apply (identified_commit now c (λ i, create_user context i k b)); [auto|]. intros i a d' _ Hr.
    apply create_users in Hr; [naive_solver|apply Hw|apply Hw|done].
  - apply (identified_commit now c (λ i, update_user context i u b m)); [auto|]. intros i a d' _ Hr.
    apply update_users in Hr as (? & ? & _ & -> & _); [auto|apply Hw].
  - apply (identified_commit now c (λ i, disable_user_route context i u r)); [auto|]. intros i a d' _ Hr.
    apply disable_users in Hr as (? & ? & _ & -> & _). auto.
  - apply (identified_commit now c (λ i, set_password_route context i s u p)); [auto|]. intros i a d' _ Hr.
    apply set_password_users in Hr as (? & ? & _ & -> & _). auto.
Qed.

Lemma tbl_get_set_Some {R} (t : table R) j f i u : tbl_get (tbl_set j f t) i = Some u →
  ∃ v, tbl_get t i = Some v ∧ (i = j ∧ u = f v ∨ i ≠ j ∧ u = v).
Proof.
  destruct (decide (i = j)) as [->|Hij].
  - rewrite tbl_get_set_eq. destruct (tbl_get t j) as [v|]; simpl; [|done]. intros [= <-]. eauto.
  - rewrite tbl_get_set_ne by done. eauto.
Qed.
Lemma tbl_get_insert_Some {R} (t : table R) r i u : tbl_wf t → tbl_get (tbl_insert t r).2 i = Some u →
  i = next_id t ∧ u = r ∨ i ≠ next_id t ∧ tbl_get t i = Some u.
Proof.
  intros Hw. destruct (decide (i = next_id t)) as [->|Hi]; [rewrite tbl_get_insert_new by done; naive_solver|].
  rewrite tbl_get_insert_old by done. auto.
Qed.
Lemma no_select {R} (t : table R) p i u : tbl_wf t → tbl_select p t = [] → tbl_get t i = Some u → p i u = false.
Proof.
  intros Hw Hs Hg. apply tbl_get_spec in Hg; [|done]. destruct (p i u) eqn:Hp; [|done].
  assert ((i, u) ∈ tbl_select p t) as Hin by (by apply elem_of_tbl_select). rewrite Hs in Hin. by apply elem_of_nil in Hin.
Qed.

Lemma users_step_wf d us : users_step (roles d) (users d) us → wf d →
  tbl_wf us ∧ (∀ i u, tbl_get us i = Some u → user_ok (roles d) u) ∧
  (∀ i u j v, tbl_get us i = Some u → tbl_get us j = Some v → username u = username v → i = j).
Proof.
  intros Hs [Hw Hr Hun Hok Ha]. destruct Hs as [|i f Hf|u Hu Hn]; [by split_and!| |].
  - split_and!; [by apply tbl_update_wf| |].
    + intros j u (v & Hv & [[-> ->]|[_ ->]])%tbl_get_set_Some; [|by eapply Hok]. apply (Hf v Hv). by eapply Hok.
    + intros j u k v (u' & Hu & Hju)%tbl_get_set_Some (v' & Hv & Hkv)%tbl_get_set_Some Hname. apply (Hun j u' k v' Hu Hv).
      assert (username u' = username u) as -> by (destruct Hju as [[-> ->]|[_ ->]]; [symmetry; by apply Hf|done]).
      rewrite Hname. destruct Hkv as [[-> ->]|[_ ->]]; [by apply Hf|done].
  - split_and!; [by apply tbl_insert_wf| |].
    + intros j v [[-> ->]|[_ Hv]]%tbl_get_insert_Some; [done|by eapply Hok|done].
    + assert (∀ j v, tbl_get (users d) j = Some v → username v ≠ username u) as Hfresh.
      { intros j v Hv Hname. pose proof (no_select _ _ j v Hw Hn Hv) as Hp. simpl in Hp. by apply String.eqb_neq in Hp. }
      intros j v k x [[-> ->]|[_ Hv]]%tbl_get_insert_Some [[-> ->]|[_ Hx]]%tbl_get_insert_Some Hname; try done.
      * by destruct (Hfresh k x Hx).
      * by destruct (Hfresh j v Hv).
      * by eapply Hun.
Qed.

Lemma run_op_wf now o d : wf d → wf (run_op now o d).
Proof.
  intros Hw. destruct (run_op_users now o d Hw) as (Hs & Hc & Ha). destruct (users_step_wf _ _ Hs Hw) as (Hw' & Hok & Hun).
  split; [done|rewrite (sc_roles _ _ Hc); apply Hw|exact Hun|rewrite (sc_roles _ _ Hc); exact Hok|done].
Qed.
Lemma run_users_wf h d : wf d → wf (run h d).
Proof. induction h as [|o h IH] using rev_ind; [done|]. intros Hw. rewrite run_snoc. by apply run_op_wf, IH. Qed.

(** Users stay, with their names; their versions grow; a disabled one stays so. *)
Definition user_kept (u u' : user_row) : Prop :=
  username u' = username u ∧ user_version u <= user_version u' ∧ (is_active u' = true → is_active u = true).
Definition kept (d d' : adb) : Prop :=
  same_config d d' ∧ ∀ i u, tbl_get (users d) i = Some u → ∃ u', tbl_get (users d') i = Some u' ∧ user_kept u u'.
#[export] Instance user_kept_preorder : PreOrder user_kept.
Proof. split; [by intros u|]. intros u1 u2 u3 (? & ? & ?) (? & ? & ?). split_and!; [congruence|lia|auto]. Qed.
#[export] Instance kept_preorder : PreOrder kept.
Proof.
  split; [split; [done|]; intros i u Hu; exists u; by split|]. intros d1 d2 d3 [[] H12] [[] H23]. split; [split; congruence|].
  intros i u (u2 & Hu2 & Hk2)%H12. apply H23 in Hu2 as (u3 & Hu3 & Hk3). exists u3. split; [done|by etrans].
Qed.

Lemma run_op_kept now o d : wf d → kept d (run_op now o d).
Proof.
  intros Hw. destruct (run_op_users now o d Hw) as (Hs & Hc & _). split; [done|]. intros i u Hu.
  destruct Hs as [|j f Hf|v Hv Hn].
  - exists u. by split.
  - destruct (decide (i = j)) as [->|Hij]; [|rewrite tbl_get_set_ne by done; by exists u].
    exists (f u). rewrite tbl_get_set_eq, Hu. split; [done|]. apply (Hf u Hu).
  - exists u. rewrite tbl_get_insert_old; [by split|]. intros ->. apply tbl_get_lt in Hu; [lia|apply Hw].
Qed.
Lemma run_kept h d : wf d → kept d (run h d).
Proof.
  induction h as [|o h IH] using rev_ind; [done|]. intros Hw. rewrite run_snoc. etrans; [by apply IH|]. by apply run_op_kept, run_users_wf.
Qed.

(** ** Sessions *)

Lemma find_user_spec d name i u r : wf d →
  find_user name d = Some (i, u, r) ↔ tbl_get (users d) i = Some u ∧ username u = name ∧ tbl_get (roles d) (role_id u) = Some r.
Proof.
  intros Hw. assert (∀ j v, (j, v) ∈ tbl_select (λ _ u, String.eqb (username u) name) (users d) ↔ tbl_get (users d) j = Some v ∧ username v = name) as Hin.
  { intros j v. rewrite elem_of_tbl_select, String.eqb_eq, tbl_get_spec by apply Hw. naive_solver. }
  unfold find_user. destruct (tbl_select _ (users d)) as [|[j v] l]; simpl.
  - split; [done|]. intros (Hu & Hn & _). assert ((i, u) ∈ ([] : list (Z * user_row))) as Hx by (by apply Hin). by apply elem_of_nil in Hx.
  - destruct (proj1 (Hin j v)) as [Hv Hvn]; [by left|]. destruct (wf_user _ Hw _ _ Hv) as [[rn Hrn] _]. rewrite Hrn. simpl.
    split; [intros [= <- <- <-]; by split_and!|]. intros (Hu & Hn & Hr).
    assert (i = j) as -> by (eapply wf_unique; [exact Hw|done|done|congruence]). congruence.
Qed.

Definition signs_in (now : Z) (token name password : string) (d : adb) : Prop :=
  is_Some (match (login now token name password d).1 with Ok r => Some r | Err _ => None end).

(** A login answers with a session exactly for an active user that is not
    locked, with its password and a token not in use. *)
Lemma login_signs_in now token name pw d : wf d →
  (signs_in now token name pw d ∧
   ∃ i u, tbl_get (users d) i = Some u ∧ username u = name ∧ is_active u = true ∧ locked_at now u = false ∧
     verify_password pw (password_hash u) = true ∧ sessions d !! token = None ∧
     sessions (login now token name pw d).2 = <[token := {| s_user_id := i; expires_at := now + SESSION_LIFETIME; revoked_at := None |}]> (sessions d)) ∨
  (¬ signs_in now token name pw d ∧ sessions (login now token name pw d).2 = sessions d).
Proof.
  intros Hw. unfold signs_in, login, authenticate_user, login_row.
  destruct (find_user name d) as [[[i u] r]|] eqn:Hf; simpl; [|right; by split; [intros [? ?]|]].
  apply find_user_spec in Hf as (Hu & Hn & Hr); [|done].
  destruct (is_active u) eqn:Hact; simpl; [|right; by split; [intros [? ?]|]].
  destruct (locked_at now u) eqn:Hl; simpl; [right; by split; [intros [? ?]|]|].
  destruct (verify_password pw (password_hash u)) eqn:Hv; simpl; [|right; by split; [intros [? ?]|]].
  unfold create_session. simpl. destruct (sessions d !! token) eqn:Ht; simpl; [right; by split; [intros [? ?]|]|].
  left. split; [by eexists|]. exists i, u. by split_and!.
Qed.

Lemma run_op_sessions now o d : wf d →
  sessions (run_op now o d) =
  match o with
  | OLogin token name pw => sessions (login now token name pw d).2
  | OLogout (Some token) => alter (revoke now) token (sessions d)
  | _ => sessions d
  end.
Proof.
  intros Hw. destruct o as [tok n p|[tok|]|c k b|c u b m|c u r|c s u p]; simpl; try done.
  - apply (identified_commit now c (λ i, create_user context i k b)); [auto|]. intros i a d' _ Hr.
    apply create_users in Hr as (_ & _ & Hx & _); [exact Hx|apply Hw..].
  - apply (identified_commit now c (λ i, update_user context i u b m)); [auto|]. intros i a d' _ Hr.
    apply update_users in Hr; [naive_solver|apply Hw].
  - apply (identified_commit now c (λ i, disable_user_route context i u r)); [auto|]. intros i a d' _ Hr.
    apply disable_users in Hr. naive_solver.
  - apply (identified_commit now c (λ i, set_password_route context i s u p)); [auto|]. intros i a d' _ Hr.
    apply set_password_users in Hr. naive_solver.
Qed.

Definition is_logout (token : string) (o : Z * op) : bool :=
  match o.2 with OLogout (Some t) => String.eqb t token | _ => false end.
Definition signed_out (token : string) (post : list (Z * op)) : bool := existsb (is_logout token) post.

(** The session of a token: whose, until when, and whether signed out since *)
Definition describes (s : session_row) (i expires : Z) (out : bool) : Prop :=
  s_user_id s = i ∧ expires_at s = expires ∧ (revoked_at s = None ↔ out = false).
(** The history issued the token to user [i], before [post]. *)
Definition issued (h : list (Z * op)) (d : adb) (token : string) (i t : Z) (name pw : string) (pre post : list (Z * op)) : Prop :=
  h = pre ++ (t, OLogin token name pw) :: post ∧ signs_in t token name pw (run pre d) ∧
  ∃ u, tbl_get (users (run pre d)) i = Some u ∧ username u = name.

Lemma session_kept now o d token s i e out : wf d → sessions d !! token = Some s → describes s i e out →
  ∃ s', sessions (run_op now o d) !! token = Some s' ∧ describes s' i e (out || is_logout token (now, o)).
Proof.
  intros Hw Hs Hd. rewrite run_op_sessions by done. unfold is_logout. simpl.
  destruct o as [tok n p|[tok|]|c k b|c u b m|c u r|c x u p]; rewrite ?orb_false_r; try (by exists s).
  - exists s. split; [|done]. destruct (login_signs_in now tok n p d Hw) as [(_ & j & u & _ & _ & _ & _ & _ & Hnone & ->)|[_ ->]]; [|done].
    rewrite lookup_insert_ne; [done|congruence].
  - destruct (String.eqb_spec tok token) as [->|Hne].
    + exists (revoke now s). rewrite lookup_alter_eq, Hs. split; [done|]. destruct Hd as (? & ? & Hr). unfold revoke, describes.
      rewrite orb_true_r. destruct (revoked_at s) eqn:Hx; simpl; [|by split_and!]. rewrite Hx. by split_and!.
    + exists s. rewrite lookup_alter_ne by done. by rewrite orb_false_r.
Qed.

Lemma issued_session h d token i t name pw pre post : wf d → issued h d token i t name pw pre post →
  ∃ s, sessions (run h d) !! token = Some s ∧ describes s i (t + SESSION_LIFETIME) (signed_out token post).
Proof.
  intros Hw (-> & Hin & u & Hu & Hn). induction post as [|o post IH] using rev_ind.
  - rewrite run_snoc. simpl. destruct (login_signs_in t token name pw (run pre d)) as [(_ & j & v & Hv & Hvn & _ & _ & _ & _ & ->)|[Hno _]];
      [by apply run_users_wf| |done]. rewrite lookup_insert_eq. eexists. split; [done|]. split_and!; [|done|done]. simpl.
    eapply wf_unique; [by apply run_users_wf|exact Hv|exact Hu|congruence].
  - rewrite app_comm_cons, app_assoc, run_snoc. destruct IH as (s & Hs & Hd). destruct o as [now o]. unfold signed_out. rewrite existsb_app. simpl.
    rewrite orb_false_r. eapply session_kept; [by apply run_users_wf|exact Hs|exact Hd].
Qed.

Lemma session_issued h d token s : wf d → sessions d = ∅ → sessions (run h d) !! token = Some s →
  ∃ i t name pw pre post, issued h d token i t name pw pre post.
Proof.
  intros Hw H0'. revert s. induction h as [|[now o] h IH] using rev_ind; intros s; [simpl; by rewrite H0'|].
  rewrite run_snoc. simpl. rewrite run_op_sessions by (by apply run_users_wf).
  assert (∀ s', sessions (run h d) !! token = Some s' → ∃ i t name pw pre post, issued (h ++ [(now, o)]) d token i t name pw pre post) as Hold.
  { intros s' (i & t & name & pw & pre & post & -> & Hx)%IH. exists i, t, name, pw, pre, (post ++ [(now, o)]).
    split; [by rewrite <-app_assoc|done]. }
  destruct o as [tok n p|[tok|]|c k b|c u b m|c u r|c x u p]; try (by eauto).
  - destruct (login_signs_in now tok n p (run h d)) as [(Hin & j & u & Hu & Hn & _ & _ & _ & _ & ->)|[_ ->]]; [by apply run_users_wf| |by eauto].
    destruct (decide (tok = token)) as [->|Hne]; [|rewrite lookup_insert_ne by done; by eauto].
    intros _. exists j, now, n, p, h, []. split_and!; [done|done|by exists u].
  - destruct (decide (tok = token)) as [->|Hne]; [|rewrite lookup_alter_ne by done; by eauto].
    rewrite lookup_alter_eq. destruct (sessions (run h d) !! token); [by eauto|done].
Qed.

(** C6: a session cookie stands, at an instant, for exactly the user whose
    sign-in with the password issued its token less than twelve hours before, as
    long as no sign-out named it since and the user is active; the permissions are
    those of the user's present role. *)
Theorem session_identity h d now token id : wf d → sessions d = ∅ →
  resolve_session now token (run h d) = Some id ↔
  ∃ i t name pw pre post u r, h = pre ++ (t, OLogin token name pw) :: post ∧ signs_in t token name pw (run pre d) ∧
    now < t + SESSION_LIFETIME ∧ signed_out token post = false ∧
    tbl_get (users (run h d)) i = Some u ∧ username u = name ∧ is_active u = true ∧
    tbl_get (roles d) (role_id u) = Some r ∧ id = identity_of u r (run h d).
Proof.
  intros Hw H0'. pose proof (run_users_wf h d Hw) as Hw'. destruct (run_kept h d Hw) as [Hc _]. split.
  - unfold resolve_session. destruct (sessions (run h d) !! token) as [s|] eqn:Hs; [|done].
    destruct (is_live now s) eqn:Hl; [|done]. destruct (tbl_get (users (run h d)) (s_user_id s)) as [u|] eqn:Hu; [|done].
    destruct (tbl_get (roles (run h d)) (role_id u)) as [r|] eqn:Hr; [|done]. destruct (is_active u) eqn:Ha; [|done]. intros [= <-].
    destruct (session_issued h d token s Hw H0' Hs) as (i & t & name & pw & pre & post & Hiss).
    destruct (issued_session _ _ _ _ _ _ _ _ _ Hw Hiss) as (s' & Hs' & <- & He & Hout). simplify_eq.
    destruct Hiss as (-> & Hin & v & Hv & Hvn). rewrite (sc_roles _ _ Hc) in Hr.
    exists (s_user_id s), t, name, pw, pre, post, u, r. unfold is_live in Hl. destruct (revoked_at s); [done|].
    split_and!; [done|done|apply Z.ltb_lt in Hl; lia|by apply Hout|done| |done|done|done].
    destruct (run_kept ((t, OLogin token name pw) :: post) (run pre d)) as [_ Hk]; [by apply run_users_wf|].
    apply Hk in Hv as (v' & Hv' & Hkv & _). rewrite <-run_app in Hv'. congruence.
  - intros (i & t & name & pw & pre & post & u & r & Hh & Hin & Ht & Hout & Hu & Hn & Ha & Hr & ->).
    assert (issued h d token i t name pw pre post) as Hiss.
    { split; [done|]. split; [done|]. destruct (login_signs_in t token name pw (run pre d)) as [(_ & j & v & Hv & Hvn & _)|[? _]];
        [by apply run_users_wf| |done]. destruct (run_kept ((t, OLogin token name pw) :: post) (run pre d)) as [_ Hk]; [by apply run_users_wf|].
      pose proof Hv as Hv0. apply Hk in Hv as (v' & Hv' & Hkv & _). rewrite <-run_app, <-Hh in Hv'.
      assert (j = i) as -> by (eapply wf_unique; [exact Hw'|exact Hv'|exact Hu|congruence]). by exists v. }
    destruct (issued_session _ _ _ _ _ _ _ _ _ Hw Hiss) as (s & Hs & Hi & He & Hrev). unfold resolve_session. rewrite Hs.
    unfold is_live. rewrite (proj2 Hrev Hout), He, (proj2 (Z.ltb_lt _ _) Ht), Hi, Hu, (sc_roles _ _ Hc), Hr, Ha. done.
Qed.


(** Once an administrator disabled a user, then ever after no sign-in under
    the name succeeds, no session stands for the user, and the row says disabled
    with its audit entry. *)
Theorem disabled_shut_out h d i uid reason r d' : wf d → disable_user_route context i uid reason d = Ok (r, d') →
  "admin.users.disable" ∈ permissions i ∧ ur_status r = "disabled" ∧
  (∃ a, rows (audit_log d') = rows (audit_log d) ++ [(next_id (audit_log d), a)] ∧ Audit.au_action a = "user.disable" ∧
     Audit.au_object_id a = py_str_Z uid ∧ Audit.au_object_version a = Some (ur_version r) ∧ Audit.au_reason a = Some reason) ∧
  ∀ now token pw,
    (login now token (ur_username r) pw (run h d')).1 = unauthenticated "invalid username or password" ∧
    ∀ id, resolve_session now token (run h d') = Some id → subject id ≠ ur_username r.
Proof.
  intros Hw Hr. pose proof Hr as Hstep. apply disable_users in Hstep as (Hs & Hc & _ & Hk & _). unfold disable_user_route in Hr.
  apply rbind_ok in Hr as (j & Hp & Hr). apply require_permission_ok in Hp as [-> Hp].
  apply rbind_ok in Hr as ([v d1] & Hd & Hr). apply rbind_ok in Hr as (x & Hx & [= <- <-]). apply map_err_ok in Hd.
  unfold disable_user in Hd. destruct (tbl_get (users d) uid) as [u|] eqn:Hu; [|done]. injection Hd as _ <-.
  assert (wf (user_audit context (subject i) "user.disable" uid (Some (user_version u + 1)) (Some reason)
    (set_users (tbl_set uid (with_user_status "disabled" (user_version u + 1)) (users d)) d))) as Hw1.
  { destruct (users_step_wf _ _ Hs Hw) as (? & ? & ?). split; [done|apply Hw|done|done|apply Hw]. }
  match type of Hw1 with wf ?x => set (d1 := x) in * end.
  assert (tbl_get (users d1) uid = Some (with_user_status "disabled" (user_version u + 1) u)) as Hu1.
  { subst d1. simpl. by rewrite tbl_get_set_eq, Hu. }
  unfold load_user_row in Hx. rewrite Hu1 in Hx. simpl in Hx. unfold user_of in Hx. simpl in Hx.
  destruct (tbl_get (roles d) (role_id u)) as [rn|]; [|done]. injection Hx as <-. simpl.
  split_and!; [done|done|by eexists|]. intros now token pw. pose proof (run_users_wf h d1 Hw1) as Hw2.
  destruct (run_kept h d1 Hw1) as [Hc2 Hkept]. destruct (Hkept _ _ Hu1) as (u2 & Hu2 & Hn2 & _ & Ha2). simpl in Hn2, Ha2.
  assert (is_active u2 = false) as Hoff by (destruct (is_active u2); [by specialize (Ha2 eq_refl)|done]).
  split.
  - unfold login, authenticate_user, login_row. destruct (find_user (username u) (run h d1)) as [[[j w] rn']|] eqn:Hf; [|done].
    apply find_user_spec in Hf as (Hv & Hvn & _); [|done].
    assert (j = uid) as -> by (eapply wf_unique; [exact Hw2|done|done|congruence]). assert (w = u2) as -> by congruence. by rewrite Hoff.
  - intros id. unfold resolve_session. destruct (sessions _ !! token) as [s|]; [|done]. destruct (is_live now s); [|done].
    destruct (tbl_get (users _) (s_user_id s)) as [w|] eqn:Hv; [|done]. destruct (tbl_get (roles _) _); [|done].
    destruct (is_active w) eqn:Hva; [|done]. intros [= <-]. simpl. intros Heq.
    assert (s_user_id s = uid) as Hsu by (eapply wf_unique; [exact Hw2|done|done|congruence]). congruence.
Qed.

(** After an administrator set the password of an active user, signing in
    with it succeeds, also for a user that was locked out, and the cookie stands
    for the user with the permissions of the role for twelve hours; a password
    the hasher refuses does not sign in. *)
Theorem password_reset i salt uid pw d d' now token u r : wf d → set_password_route context i salt uid pw d = Ok ((), d') →
  tbl_get (users d) uid = Some u → is_active u = true → tbl_get (roles d) (role_id u) = Some r → sessions d !! token = None →
  let x := login now token (username u) pw d' in
  x.1 = Ok {| lr_username := username u; lr_role := r; lr_cookie := token |} ∧
  (∀ later, now <= later < now + SESSION_LIFETIME →
     resolve_session later token x.2 = Some {| subject := username u; role := r; permissions := permissions_of r d |}) ∧
  ∀ wrong, argon2_verify (hash_password salt pw) wrong = false →
    (login now token (username u) wrong d').1 = unauthenticated "invalid username or password" ∧
    sessions (login now token (username u) wrong d').2 = sessions d.
Proof.
  intros Hw Hr Hu Ha Hrn Ht x. pose proof Hr as Hstep. apply set_password_users in Hstep as (Hs & Hc & _ & Hk & _). unfold set_password_route in Hr.
  apply rbind_ok in Hr as (j & _ & Hr). apply rbind_ok in Hr as (y & _ & [= <-]).
  match type of Hs with context [users ?x] => match x with d => fail 1 | _ => set (d1 := x) in * end end.
  assert (wf d1) as Hw1.
  { destruct (users_step_wf _ _ Hs Hw) as (? & ? & ?). split; [done|apply Hw|done|done|apply Hw]. }
  assert (find_user (username u) d1 = Some (uid, with_password (hash_password salt pw) u, r)) as Hf.
  { apply find_user_spec; [done|]. subst d1. simpl. by rewrite tbl_get_set_eq, Hu. }
  subst x. unfold login, authenticate_user. rewrite Hf. unfold login_row.
  replace (is_active (with_password (hash_password salt pw) u)) with true by (symmetry; exact Ha). simpl.
  split_and!.
  - unfold hash_password. rewrite argon2_verify_hash. simpl. unfold create_session. simpl. by rewrite Ht.
  - intros later Hl. unfold hash_password. rewrite argon2_verify_hash. simpl. unfold create_session. simpl. rewrite Ht. simpl.
    unfold resolve_session. simpl. rewrite lookup_insert_eq. unfold is_live. simpl. rewrite (proj2 (Z.ltb_lt _ _)) by lia.
    rewrite tbl_get_set_eq, tbl_get_set_eq, Hu. simpl. rewrite Hrn.
    replace (is_active _) with true by (symmetry; exact Ha). done.
  - intros wrong Hwr. rewrite Hwr. simpl. done.
Qed.

(** ** Guessing passwords *)

(** A sign-in under the name whose password was checked and found wrong *)
Definition wrong_guess (now : Z) (o : op) (name : string) (d : adb) : bool :=
  match o with
  | OLogin _ n pw =>
      String.eqb n name &&
      match find_user name d with
      | Some (_, u, _) => is_active u && negb (locked_at now u) && negb (verify_password pw (password_hash u))
      | None => false
      end
  | _ => false
  end.
(** A successful sign-in under the name, or a new password for its user *)
Definition resets (now : Z) (o : op) (name : string) (d : adb) : bool :=
  match o with
  | OLogin token n pw => String.eqb n name && is_ok (login now token n pw d).1
  | OSetPassword _ _ uid _ => match find_user name d with Some (i, _, _) => i =? uid | None => false end
  | _ => false
  end.
Fixpoint guesses (name : string) (h : list (Z * op)) (d : adb) : Z :=
  match h with [] => 0 | (t, o) :: h' => Z.b2z (wrong_guess t o name d) + guesses name h' (run_op t o d) end.
Fixpoint no_reset (name : string) (h : list (Z * op)) (d : adb) : bool :=
  match h with [] => true | (t, o) :: h' => negb (resets t o name d) && no_reset name h' (run_op t o d) end.

Definition counters_of (name : string) (d : adb) : Z * option Z := counters (option_map (λ x, x.1.2) (find_user name d)).

Lemma counters_of_user name d i u : wf d → tbl_get (users d) i = Some u → username u = name → counters_of name d = counters (Some u).
Proof.
  intros Hw Hu Hn. unfold counters_of. destruct (wf_user _ Hw i u Hu) as [[r Hr] _].
  by rewrite (proj2 (find_user_spec d name i u r Hw)).
Qed.

(** Requests that leave the counters of the other users alone leave those of a
    name alone. *)
Lemma counters_calm name d d' but : wf d → wf d' → kept d d' → calm but (users d) (users d') →
  (∀ i u r, find_user name d = Some (i, u, r) → but ≠ Some i) →
  (∀ i u', tbl_get (users d') i = Some u' → username u' = name → but ≠ Some i) →
  counters_of name d' = counters_of name d.
Proof.
  intros Hw Hw' [_ Hk] Hcalm Hbut Hbut'. unfold counters_of at 2. destruct (find_user name d) as [[[i u] r]|] eqn:Hf; simpl.
  - pose proof (Hbut i u r eq_refl) as Hi. apply find_user_spec in Hf as (Hu & Hn & _); [|done].
    destruct (Hk i u Hu) as (u' & Hu' & Hn' & _). rewrite (counters_of_user name d' i u') by (done || congruence).
    rewrite (Hcalm i u' Hi Hu'), Hu. done.
  - unfold counters_of. destruct (find_user name d') as [[[i u'] r]|] eqn:Hf'; [|done]. simpl option_map.
    apply find_user_spec in Hf' as (Hu' & Hn' & _); [|done]. rewrite (Hcalm i u' (Hbut' i u' Hu' Hn') Hu').
    destruct (tbl_get (users d) i) as [u|] eqn:Hu; [|done]. exfalso. destruct (wf_user _ Hw i u Hu) as [[r' Hr'] _].
    destruct (Hk i u Hu) as (v & Hv & Hvn & _). assert (find_user name d = Some (i, u, r')) as Hx; [|congruence].
    apply find_user_spec; [done|]. split_and!; [done|congruence|done].
Qed.

Definition bump (now : Z) (c : Z * option Z) : Z * option Z :=
  (c.1 + 1, if FAILED_LOGIN_LOCKOUT_THRESHOLD <=? c.1 + 1 then Some (now + LOCKOUT_DURATION) else c.2).

Lemma login_counters now token n pw name d : wf d → resets now (OLogin token n pw) name d = false →
  counters_of name (login now token n pw d).2 =
  if wrong_guess now (OLogin token n pw) name d then bump now (counters_of name d) else counters_of name d.
Proof using All.
  intros Hw Hres. pose proof (run_op_wf now (OLogin token n pw) d Hw) as Hw'. pose proof (run_op_kept now (OLogin token n pw) d Hw) as Hk.
  simpl run_op in Hw', Hk. unfold wrong_guess. simpl in Hres. destruct (String.eqb_spec n name) as [->|Hne]; simpl in Hres |- *.
  - unfold login, authenticate_user, login_row in *. destruct (find_user name d) as [[[i u] r]|] eqn:Hf; [|done].
    destruct (is_active u); simpl in *; [|done]. destruct (locked_at now u); simpl in *; [done|].
    destruct (verify_password pw (password_hash u)); simpl in *.
    + unfold create_session in *. simpl in *. by destruct (sessions d !! token).
    + apply find_user_spec in Hf as (Hu & Hn & _); [|done]. rewrite (counters_of_user name d i u) by done.
      rewrite (counters_of_user name _ i (fail_login now u)); [done|done| |done]. simpl. by rewrite tbl_get_set_eq, Hu.
  - destruct (find_user n d) as [[[i u] r]|] eqn:Hf.
    + apply find_user_spec in Hf as (Hu & Hn & _); [|done]. apply (counters_calm name d _ (Some i)); [done|done|done| | |].
      * unfold login, authenticate_user, login_row. destruct (find_user n d) as [[[j v] r']|] eqn:Hf; [|apply calm_same].
        apply find_user_spec in Hf as (Hv & Hvn & _); [|done]. assert (j = i) as -> by (eapply wf_unique; [exact Hw|done|done|congruence]).
        destruct (negb _); [apply calm_same|]. destruct (locked_at now v); [apply calm_same|]. destruct (negb _); [apply calm_set_but|].
        unfold create_session. simpl. destruct (sessions d !! token); simpl; [apply calm_same|apply calm_set_but].
      * intros j v r' (Hv & Hvn & _)%find_user_spec [= <-]; [|done]. congruence.
      * intros j v Hv Hvn [= <-]. destruct Hk as [_ Hk]. destruct (Hk i u Hu) as (u' & Hu' & Hn' & _). congruence.
    + unfold login, authenticate_user. by rewrite Hf.
Qed.

Lemma run_op_counters now o name d : wf d → resets now o name d = false →
  counters_of name (run_op now o d) = if wrong_guess now o name d then bump now (counters_of name d) else counters_of name d.
Proof.
  intros Hw Hres. pose proof (run_op_wf now o d Hw) as Hw'. pose proof (run_op_kept now o d Hw) as Hk.
  assert (∀ but, calm but (users d) (users (run_op now o d)) → (∀ i u r, find_user name d = Some (i, u, r) → but ≠ Some i) →
    (but = None ∨ users (run_op now o d) = users d ∨ ∃ i u, but = Some i ∧ tbl_get (users d) i = Some u ∧ username u ≠ name) →
    counters_of name (run_op now o d) = counters_of name d) as Hcalm.
  { intros but Hc Hb1 Hb2. apply (counters_calm name d _ but); try done. intros i u' Hu' Hn ->.
    destruct Hb2 as [?|[Heq|(j & u & [= <-] & Hu & Hun)]]; [done| |].
    - rewrite Heq in Hu'. destruct (wf_user _ Hw i u' Hu') as [[r Hr] _]. by destruct (Hb1 i u' r); [apply find_user_spec|].
    - destruct Hk as [_ Hk]. destruct (Hk i u Hu) as (v & Hv & Hvn & _). congruence. }
  destruct o as [tok n p|c|c k b|c u b m|c u r|c s u p]; simpl wrong_guess; cbv iota; [by apply login_counters|..].
  - by destruct c.
  - apply (Hcalm None); [|done|by left]. apply (identified_commit now c (λ i, create_user context i k b) (λ d', calm None (users d) (users d'))); [apply calm_same|].
    intros i a d' _ Hr. apply create_users in Hr; [naive_solver|apply Hw..].
  - apply (Hcalm None); [|done|by left]. apply (identified_commit now c (λ i, update_user context i u b m) (λ d', calm None (users d) (users d'))); [apply calm_same|].
    intros i a d' _ Hr. apply update_users in Hr; [naive_solver|apply Hw].
  - apply (Hcalm None); [|done|by left]. apply (identified_commit now c (λ i, disable_user_route context i u r) (λ d', calm None (users d) (users d'))); [apply calm_same|].
    intros i a d' _ Hr. apply disable_users in Hr. naive_solver.
  - assert (users (run_op now (OSetPassword c s u p) d) = users d ∨ is_Some (tbl_get (users d) u) ∧
            calm (Some u) (users d) (users (run_op now (OSetPassword c s u p) d))) as [Heq|[[v Hv] Hc]].
    { apply (identified_commit now c (λ i, set_password_route context i s u p)
        (λ d', users d' = users d ∨ is_Some (tbl_get (users d) u) ∧ calm (Some u) (users d) (users d'))); [by left|].
      intros i a d' _ Hr. pose proof Hr as Hr'. apply set_password_users in Hr. unfold set_password_route in Hr'.
      apply rbind_ok in Hr' as (? & _ & Hr'). apply rbind_ok in Hr' as (? & Hl%load_user_row_ok & _). naive_solver. }
    + apply (Hcalm None); [rewrite Heq; apply calm_same|done|by left].
    + simpl in Hres. destruct (wf_user _ Hw u v Hv) as [[r Hr] _]. apply (Hcalm (Some u)); [done| |].
      * intros i w r' Hf [= <-]. by rewrite Hf, Z.eqb_refl in Hres.
      * right. right. exists u, v. split_and!; [done|done|]. intros Hn.
        assert (find_user name d = Some (u, v, r)) as Hf by (by apply find_user_spec). by rewrite Hf, Z.eqb_refl in Hres.
Qed.

(** A lock outlasts the count: five failures or more come with a lock. *)
Lemma counters_lock name d : wf d → 0 <= (counters_of name d).1 ∧
  (FAILED_LOGIN_LOCKOUT_THRESHOLD <= (counters_of name d).1 → is_Some (counters_of name d).2).
Proof.
  intros Hw. unfold counters_of. destruct (find_user name d) as [[[i u] r]|] eqn:Hf; simpl; [|unfold FAILED_LOGIN_LOCKOUT_THRESHOLD; lia].
  apply find_user_spec in Hf as (Hu & _ & _); [|done]. apply (wf_user _ Hw i u Hu).
Qed.
Lemma wrong_guess_unlocked now o name d : wrong_guess now o name d = true →
  match (counters_of name d).2 with Some t => t <= now | None => True end.
Proof.
  destruct o as [tok n p|c|c k b|c u b m|c u r|c s u p]; simpl; try done. unfold counters_of.
  destruct (find_user name d) as [[[i u] r]|]; simpl; [|by rewrite andb_false_r].
  intros (_ & Hx)%andb_prop. apply andb_prop in Hx as (Hx & _). apply andb_prop in Hx as (_ & Hl). unfold locked_at in Hl.
  destruct (locked_until u); [|done]. apply negb_true_iff, Z.ltb_ge in Hl. done.
Qed.

(** How many guesses the counters leave until [t1]: those up to the fifth, and
    then one for each lock that ends. *)
Definition budget (t0 t1 : Z) (c : Z * option Z) : Z :=
  if c.1 <? FAILED_LOGIN_LOCKOUT_THRESHOLD then FAILED_LOGIN_LOCKOUT_THRESHOLD - c.1 + (t1 - t0) / LOCKOUT_DURATION
  else match c.2 with Some l => if t1 <? l then 0 else 1 + (t1 - Z.max l t0) / LOCKOUT_DURATION | None => 0 end.

Lemma lockout_periods a : (a - LOCKOUT_DURATION) / LOCKOUT_DURATION = a / LOCKOUT_DURATION - 1.
Proof. replace (a - LOCKOUT_DURATION) with (a + (-1) * LOCKOUT_DURATION) by lia. by rewrite Z.div_add by done. Qed.
Lemma budget_later t0 t t1 c : t0 <= t <= t1 → budget t t1 c <= budget t0 t1 c.
Proof.
  intros Ht. unfold budget. destruct (_ <? _).
  - apply Z.add_le_mono_l, Z.div_le_mono; [done|lia].
  - destruct c.2 as [l|]; [|lia]. destruct (Z.ltb_spec t1 l); [lia|]. apply Z.add_le_mono_l, Z.div_le_mono; [done|lia].
Qed.
Lemma budget_bump t0 t1 c : t0 <= t1 → 0 <= c.1 → (FAILED_LOGIN_LOCKOUT_THRESHOLD <= c.1 → is_Some c.2) →
  match c.2 with Some l => l <= t0 | None => True end → 1 + budget t0 t1 (bump t0 c) <= budget t0 t1 c.
Proof.
  intros Ht Hc Hl Hun. pose proof (Z.div_pos (t1 - t0) LOCKOUT_DURATION ltac:(lia) ltac:(done)) as Hp.
  unfold budget, bump. simpl. destruct c as [n l]. simpl in *. unfold FAILED_LOGIN_LOCKOUT_THRESHOLD in *.
  assert ((if t1 <? t0 + LOCKOUT_DURATION then 0 else 1 + (t1 - Z.max (t0 + LOCKOUT_DURATION) t0) / LOCKOUT_DURATION) <= (t1 - t0) / LOCKOUT_DURATION) as Hq.
  { destruct (Z.ltb_spec t1 (t0 + LOCKOUT_DURATION)); [lia|]. rewrite Z.max_l by (unfold LOCKOUT_DURATION, minutes; lia).
    rewrite Z.sub_add_distr, lockout_periods. lia. }
  destruct (Z.ltb_spec n 5), (Z.ltb_spec (n + 1) 5), (Z.leb_spec 5 (n + 1)); try lia.
  destruct l as [l|]; [|by destruct (Hl ltac:(lia))]. destruct (Z.ltb_spec t1 l); [lia|]. rewrite (Z.max_r l t0) by lia. lia.
Qed.

Lemma budget_nonneg t0 t1 c : t0 <= t1 → 0 <= budget t0 t1 c.
Proof.
  intros Ht. unfold budget. destruct (Z.ltb_spec c.1 FAILED_LOGIN_LOCKOUT_THRESHOLD).
  - pose proof (Z.div_pos (t1 - t0) LOCKOUT_DURATION ltac:(lia) ltac:(done)). lia.
  - destruct c.2 as [l|]; [|lia]. destruct (Z.ltb_spec t1 l); [lia|].
    pose proof (Z.div_pos (t1 - Z.max l t0) LOCKOUT_DURATION ltac:(lia) ltac:(done)). lia.
Qed.

Lemma guesses_budget name h d t0 t1 : wf d → StronglySorted Z.le (h.*1) → Forall (λ t, t0 <= t <= t1) (h.*1) → no_reset name h d = true →
  t0 <= t1 → guesses name h d <= budget t0 t1 (counters_of name d).
Proof.
  revert d t0. induction h as [|[t o] h IH]; intros d t0 Hw Hs Hin Hno Ht; simpl; [by apply budget_nonneg|].
  simpl in *. apply andb_prop in Hno as [Hres%negb_true_iff Hno]. inversion_clear Hs as [|? ? Hs' Hle]. inversion_clear Hin as [|? ? Ht0 Hin'].
  assert (Forall (λ t', t <= t' <= t1) h.*1) as Hin2.
  { apply Forall_forall. intros x Hx. rewrite Forall_forall in Hle, Hin'. specialize (Hle x Hx). specialize (Hin' x Hx). simpl in *. lia. }
  specialize (IH (run_op t o d) t (run_op_wf t o d Hw) Hs' Hin2 Hno ltac:(lia)). rewrite (run_op_counters t o name d Hw Hres) in IH.
  pose proof (budget_later t0 t t1 (counters_of name d) Ht0) as Hlater. destruct (counters_lock name d Hw) as [Hc Hl].
  destruct (wrong_guess t o name d) eqn:Hg; simpl Z.b2z; [|lia].
  pose proof (budget_bump t t1 (counters_of name d) ltac:(lia) Hc Hl (wrong_guess_unlocked _ _ _ _ Hg)) as Hb. lia.
Qed.

(** C21: of requests handled one after another (see [parallel_guess] for others),
    between two instants, with no successful sign-in under a name and no new
    password for it, at most five wrong passwords are checked for the name, and
    one more for each full fifteen minutes. *)
Theorem guess_bound name h d t0 t1 : wf d → StronglySorted Z.le (h.*1) → Forall (λ t, t0 <= t <= t1) (h.*1) → t0 <= t1 →
  no_reset name h d = true → guesses name h d <= 5 + (t1 - t0) / minutes 15.
Proof.
  intros Hw Hs Hin Ht Hno. etrans; [by apply (guesses_budget name h d t0 t1)|]. destruct (counters_lock name d Hw) as [Hc _].
  pose proof (Z.div_pos (t1 - t0) LOCKOUT_DURATION ltac:(lia) ltac:(done)). change (minutes 15) with LOCKOUT_DURATION.
  unfold budget, FAILED_LOGIN_LOCKOUT_THRESHOLD. destruct (Z.ltb_spec (counters_of name d).1 5); [lia|].
  destruct (counters_of name d).2 as [l|]; [|lia]. destruct (Z.ltb_spec t1 l); [lia|].
  pose proof (Z.div_le_mono (t1 - Z.max l t0) (t1 - t0) LOCKOUT_DURATION ltac:(done) ltac:(lia)). lia.
Qed.

(** Sign-ins that overlap are not bounded so: one that read the row before the
    lock checks its password, whatever [d'] the others have written since. *)
Lemma parallel_guess now token name pw d d' i u r : find_user name d = Some (i, u, r) → is_active u = true → locked_at now u = false →
  verify_password pw (password_hash u) = false →
  login_row now token pw (find_user name d) d' = Ok (failed invalid_credentials, record_login_failure now i d').
Proof. intros -> Ha Hl Hp. simpl. by rewrite Ha, Hl, Hp. Qed.

(** ** Updates under a precondition *)

(** C25: of updates handled one after another (see [concurrent_updates_lost] for
    others), an update goes through only when its If-Match reads as the version the
    user has, sets exactly the requested fields, keeps the others and moves the
    version by one with an audit row that says so; once it went through, every
    later update under the same If-Match is refused as a conflict with the
    current version and changes nothing. *)
Theorem no_lost_update i uid b if_match d r d' : wf d → update_user context i uid b if_match d = Ok (r, d') →
  (∃ u rn, tbl_get (users d) uid = Some u ∧ tbl_get (roles d) (role_id u) = Some rn ∧
     int_of_text (strip_char quote if_match) = Some (user_version u) ∧
     user_of d' (uid, default u (tbl_get (users d') uid)) = Some r ∧
     r = {| ur_id := uid; ur_username := username u; ur_display_name := default (display_name u) (uu_display_name b);
            ur_role_name := default rn (uu_role_name b); ur_status := user_status u; ur_version := user_version u + 1 |} ∧
     (∃ a, rows (audit_log d') = rows (audit_log d) ++ [(next_id (audit_log d), a)] ∧
        Audit.au_action a = "user.update" ∧ Audit.au_object_version a = Some (user_version u + 1))) ∧
  ∀ h i2 b2, "admin.users.update" ∈ permissions i2 →
    ∃ v, ur_version r <= v ∧ update_user context i2 uid b2 if_match (run h d') = Err (PreconditionFailed v).
Proof.
  intros Hw Hr. pose proof Hr as Hstep. apply update_users in Hstep as (Hs & Hc & _ & Hk & _); [|apply Hw].
  unfold update_user in Hr. apply rbind_ok in Hr as (_ & _ & Hr). apply rbind_ok in Hr as ([[[cur disp] rn2] role] & Hx & Hr).
  apply update_read_ok in Hx as (u & rn & Hu & Hrn & Hv & Hd & Hn2 & Hrole & Hun); [|apply Hw]. simpl in *.
  unfold update_write in Hr. rewrite Hu in Hr. injection Hr as <- Hd'.
  assert (wf d') as Hw1.
  { destruct (users_step_wf _ _ Hs Hw) as (? & ? & ?). split; [done|rewrite (sc_roles _ _ Hc); apply Hw|done|rewrite (sc_roles _ _ Hc); done|rewrite Hk; apply Hw]. }
  assert (tbl_get (users d') uid = Some (with_profile disp role u)) as Hu1 by (subst d'; simpl; by rewrite tbl_get_set_eq, Hu).
  split.
  - exists u, rn. split_and!; [done|done|done| |by rewrite Hun, <-Hd, <-Hn2|subst d'; simpl; by eexists].
    rewrite Hu1. simpl. unfold user_of. simpl. rewrite (sc_roles _ _ Hc), Hrole. simpl. by rewrite Hun.
  - intros h i2 b2 Hp. destruct (run_kept h d' Hw1) as [Hc2 Hkept]. destruct (Hkept _ _ Hu1) as (u2 & Hu2 & _ & Hver & _). simpl in Hver.
    exists (user_version u2). split; [done|]. unfold update_user. rewrite (proj2 (require_permission_ok _ i2 i2)) by done. simpl.
    unfold update_read, load_user_row. rewrite Hu2. simpl. unfold user_of. simpl.
    destruct (wf_user _ (run_users_wf h d' Hw1) _ _ Hu2) as [[rn' Hrn'] _]. rewrite Hrn'. simpl. unfold check_precondition. rewrite Hv.
    destruct (Z.eqb_spec (user_version u) (user_version u2)); [lia|done].
Qed.

(** Two updates whose reads come before both of their writes go through under one
    If-Match, and the second overwrites what the first set. *)
Lemma concurrent_updates_lost uid u i1 i2 b1 b2 if_match d x1 x2 : tbl_wf (roles d) → tbl_get (users d) uid = Some u →
  update_read uid b1 if_match d = Ok x1 → update_read uid b2 if_match d = Ok x2 →
  ∃ r1 d1 r2 d2 u2, update_write context i1 uid x1 d = Ok (r1, d1) ∧ update_write context i2 uid x2 d1 = Ok (r2, d2) ∧
    tbl_get (users d2) uid = Some u2 ∧ user_version u2 = user_version u + 2 ∧
    display_name u2 = default (display_name u) (uu_display_name b2).
Proof.
  intros Hw Hu H1' H2'. apply update_read_ok in H2' as (v & rn & Hv & _ & _ & Hd & _); [|done]. simplify_eq.
  destruct x1 as [[[c1 p1] n1] o1], x2 as [[[c2 p2] n2] o2]. simpl in Hd. unfold update_write. rewrite Hu.
  eexists _, _, _, _, (with_profile p2 o2 (with_profile p1 o1 u)). split; [done|]. simpl. rewrite tbl_get_set_eq, Hu. simpl.
  split; [done|]. simpl. rewrite tbl_get_set_eq, tbl_get_set_eq, Hu. simpl. split_and!; [done|lia|done].
Qed.
End Histories.

(** ** Listing the users *)

Section Listing.
Context `{CursorText}.

(** A client that follows the cursors; [None] when a request fails or the fuel
    runs out *)
Fixpoint pages (fuel : nat) (i : Identity) (cursor : option string) (limit : Z) (d : adb) : option (list (list UserResponse)) :=
  match fuel with
  | O => None
  | S fuel =>
      match list_users i cursor limit d with
      | Err _ => None
      | Ok p =>
          match next_cursor p with
          | None => Some [items p]
          | Some c => cons (items p) <$> pages fuel i (Some c) limit d
          end
      end
  end.

(** The users after an id *)
Definition users_after (a : Z) (d : adb) : list UserResponse := omap (user_of d) (tbl_select (λ j _, a <? j) (users d)).

Lemma users_after_beyond a d : users_after a d = beyond ur_id a (omap (user_of d) (rows (users d))).
Proof.
  unfold users_after, tbl_select, beyond. induction (rows (users d)) as [|[j u] l IH]; [done|]. rewrite filter_cons.
  assert (∀ r, user_of d (j, u) = Some r → ur_id r = j) as Hid.
  { unfold user_of. intros r. simpl. destruct (tbl_get _ _); [by intros [= <-]|done]. }
  case_decide as Hd; simpl in *; destruct (user_of d (j, u)) as [r|]; try done; rewrite ?filter_cons, ?(Hid r eq_refl).
  - apply Z.ltb_lt in Hd. rewrite decide_True by done. by f_equal.
  - rewrite decide_False; [done|]. intros Hx%Z.ltb_lt. congruence.
Qed.
Lemma listed_sorted d : tbl_wf (users d) → key_sorted ur_id (omap (user_of d) (rows (users d))).
Proof.
  intros [Hs _]. induction (rows (users d)) as [|[j u] l IH]; [constructor|]. simpl in *. inversion_clear Hs as [|? ? Hl Hj].
  unfold user_of at 1. simpl. destruct (tbl_get (roles d) (role_id u)); simpl; [|by apply IH]. constructor; [by apply IH|].
  apply Forall_forall. intros r ([k v] & Hk & Hr)%list_elem_of_omap. simpl.
  rewrite Forall_forall in Hj. specialize (Hj k). unfold user_of in Hr. simpl in Hr. destruct (tbl_get _ _); [|done].
  injection Hr as <-. simpl. apply Hj, list_elem_of_fmap. by exists (k, v).
Qed.

(** The page after [a], and the users after the page *)
Lemma list_users_page i cursor limit a d : "admin.users.read" ∈ permissions i → 1 <= limit → after_id cursor = Ok a → tbl_wf (users d) →
  ∃ p, list_users i cursor limit d = Ok p ∧ items p = take (Z.to_nat limit) (users_after a d) ∧
    match next_cursor p with
    | None => drop (Z.to_nat limit) (users_after a d) = []
    | Some c => users_after a d ≠ [] ∧ ∃ k, after_id (Some c) = Ok k ∧ users_after k d = drop (Z.to_nat limit) (users_after a d)
    end.
Proof.
  intros Hp Hl Ha Hw. unfold list_users. rewrite (proj2 (require_permission_ok _ i i)) by done. simpl. rewrite Ha. simpl.
  destruct (Z.ltb_spec (limit + 1) 0); [lia|]. fold (users_after a d). set (L := users_after a d).
  replace (Z.to_nat (limit + 1)) with (S (Z.to_nat limit)) by lia. unfold py_prefix. rewrite (proj2 (Z.leb_le 0 limit)) by lia.
  rewrite length_take, take_take. replace (Z.to_nat limit `min` S (Z.to_nat limit))%nat with (Z.to_nat limit) by lia.
  destruct (Z.ltb_spec limit (Z.of_nat (S (Z.to_nat limit) `min` length L))) as [Hm|Hm].
  - destruct (last (take (Z.to_nat limit) L)) as [x|] eqn:Hlast.
    + eexists. split; [done|]. simpl. split; [done|]. fold L. split; [intros HL0; by rewrite HL0, take_nil in Hlast|].
      exists (ur_id x). split; [apply after_id_encode|]. subst L. rewrite !users_after_beyond in *. apply beyond_page; [|done].
      by apply listed_sorted.
    + exfalso. apply last_None in Hlast. apply (f_equal length) in Hlast. rewrite length_take in Hlast. simpl in Hlast. lia.
  - eexists. split; [done|]. simpl. split; [done|]. apply drop_ge. lia.
Qed.

(** Following the cursors from the first page with a positive limit
    terminates, no page is longer than the limit, and the pages together are all
    users with their roles, once each in the order of their ids. *)
Theorem list_users_pages i limit d fuel : "admin.users.read" ∈ permissions i → 1 <= limit → wf d →
  Forall (λ j, 0 < j) (rows (users d)).*1 → (length (rows (users d)) < fuel)%nat →
  ∃ ps, pages fuel i None limit d = Some ps ∧ concat ps = omap (user_of d) (rows (users d)) ∧
    Forall (λ p, Z.of_nat (length p) <= limit) ps ∧
    map ur_id (concat ps) = (rows (users d)).*1.
Proof.
  intros Hp Hl Hw Hpos Hf.
  assert (∀ cursor a, after_id cursor = Ok a → (length (users_after a d) < fuel)%nat →
    ∃ ps, pages fuel i cursor limit d = Some ps ∧ concat ps = users_after a d ∧ Forall (λ p, Z.of_nat (length p) <= limit) ps) as Hgen.
  { clear Hf. induction fuel as [|fuel IH]; intros cursor a Ha Hlen; [lia|]. simpl.
    destruct (list_users_page i cursor limit a d Hp Hl Ha (wf_users _ Hw)) as (p & -> & Hi & Hn).
    assert (Z.of_nat (length (items p)) <= limit) as Hlp by (rewrite Hi, length_take; lia).
    destruct (next_cursor p) as [c|].
    - destruct Hn as (Hne & k & Hk & Hdrop). destruct (IH (Some c) k Hk) as (ps & -> & Hc & Hall).
      { rewrite Hdrop, length_drop. destruct (users_after a d); [done|]. simpl in *. lia. }
      exists (items p :: ps). split; [done|]. split; [|by constructor]. simpl. by rewrite Hc, Hdrop, Hi, take_drop.
    - exists [items p]. split; [done|]. split; [|by repeat constructor]. simpl. rewrite app_nil_r, Hi.
      rewrite <-(take_drop (Z.to_nat limit) (users_after a d)) at 2. by rewrite Hn, app_nil_r. }
  assert (users_after 0 d = omap (user_of d) (rows (users d))) as H0.
  { unfold users_after, tbl_select. f_equal. clear Hf. induction (rows (users d)) as [|[j u] l IH]; [done|].
    inversion_clear Hpos. rewrite filter_cons, decide_True by (by apply Z.ltb_lt). f_equal. by apply IH. }
  assert (map ur_id (omap (user_of d) (rows (users d))) = (rows (users d)).*1) as Hids.
  { assert (∀ j u, (j, u) ∈ rows (users d) → is_Some (tbl_get (roles d) (role_id u))) as Hr.
    { intros j u Hin. apply tbl_get_spec in Hin; [|apply Hw]. by destruct (wf_user _ Hw j u Hin). }
    clear -Hr. induction (rows (users d)) as [|[j u] l IH]; [done|]. simpl. unfold user_of at 1. simpl.
    destruct (Hr j u) as [r ->]; [by left|]. simpl. f_equal. apply IH. intros k v Hk. apply (Hr k). by right. }
  destruct (Hgen None 0 eq_refl) as (ps & Hps & Hc & Hall).
  { rewrite H0. apply (f_equal length) in Hids. rewrite length_map, length_fmap in Hids. lia. }
  exists ps. rewrite Hc, H0. by split_and!.
Qed.
End Listing.

(** A limit of zero asks for the last of no rows. *)
Lemma limit_zero_crashes `{CursorText} i d : "admin.users.read" ∈ permissions i → users_after 0 d ≠ [] →
  list_users i None 0 d = Err (Uncaught (IndexError "list index out of range")).
Proof.
  intros Hp Hne. unfold list_users. rewrite (proj2 (require_permission_ok _ i i)) by done. simpl.
  fold (users_after 0 d). change (Z.to_nat 1) with 1%nat. by destruct (users_after 0 d).
Qed.
(** A name already taken is not reported as an error of the request. *)
Lemma taken_name_uncaught context i b d r : load_role_id (cu_role_name b) d = Ok r →
  tbl_select (λ _ v, String.eqb (username v) (cu_username b)) (users d) ≠ [] →
  create_work context i b d = Err (Uncaught (IntegrityError "users_username_key")).
Proof.
  intros Hr Hn. unfold create_work. rewrite Hr. simpl. unfold insert_user. simpl. by destruct (tbl_select _ (users d)).
Qed.

(** ** Witnesses *)

Definition demo_argon2 : Argon2.
Proof. refine {| argon2_hash := λ _ p, p; argon2_verify := String.eqb |}. intros _ p. apply String.eqb_refl. Defined.
Definition demo_cursors : CursorText.
Proof.
  refine {| cursor_text := λ l, match l with [JInt n] => "c" +:+ py_str_Z n | _ => "c" end;
            cursor_json := λ s, match s with String _ t => let! n := BoqImport.py_int t in Ok (JArr [JInt n]) | _ => Err (ValueError s) end |}.
  - intros n. change (rbind (BoqImport.py_int (py_str_Z n)) (λ k, Ok (JArr [JInt k])) = Ok (JArr [JInt n]) :> result exn json).
    by rewrite BoqImport.py_int_str.
  - intros l. by repeat case_match.
Defined.
Definition demo_hash : Idempotency.Fingerprints := {| Idempotency.sha256_of_canonical := λ _, "" |}.

Definition demo_user (name : string) (role : Z) : user_row := {|
  username := name; display_name := name; role_id := role; user_status := "active"; user_version := 1;
  password_hash := Some "pw"; failed_login_count := 0; locked_until := None |}.
Definition demo_names : list string :=
  ["admin.users.read"; "admin.users.create"; "admin.users.update"; "admin.users.disable"; "admin.users.set_password"].
Definition demo_accounts : adb := Adb
  (Table [(1, demo_user "root" 1); (2, demo_user "dana" 2)] 3) (Table [(1, "admin"); (2, "bidder")] 3)
  (Table (imap (λ k n, (Z.of_nat k + 1, n)) demo_names) 6) (map (λ k, (1, k)) [1; 2; 3; 4; 5]) ∅ tbl_empty ∅.
Definition demo_root : Identity := {| subject := "root"; role := "admin"; permissions := list_to_set demo_names |}.

Lemma demo_wf : wf demo_accounts.
Proof.
  assert (∀ i u, tbl_get (users demo_accounts) i = Some u → i = 1 ∧ u = demo_user "root" 1 ∨ i = 2 ∧ u = demo_user "dana" 2) as Hcases.
  { intros i u Hu. apply tbl_get_spec in Hu; [|split; repeat constructor].
    change ((i, u) ∈ [(1, demo_user "root" 1); (2, demo_user "dana" 2)]) in Hu.
    rewrite !elem_of_cons, elem_of_nil in Hu. naive_solver. }
  split; [split; repeat constructor|split; repeat constructor| | |done].
  - intros i u j v [[-> ->]|[-> ->]]%Hcases [[-> ->]|[-> ->]]%Hcases; done.
  - intros i u [[-> ->]|[-> ->]]%Hcases; (split; [by eexists|split; [done|by intros []]]).
Qed.

Section Demo.
#[local] Existing Instance ascii_text.
#[local] Existing Instance demo_hash.
#[local] Existing Instance demo_argon2.
#[local] Existing Instance demo_cursors.

Lemma session_identity_witness : ∃ i t name pw pre post u r,
  [(0, OLogin "t1" "dana" "pw"); (5, OLogin "t2" "root" "pw"); (9, OLogout (Some "t2"))] = pre ++ (t, OLogin "t1" name pw) :: post ∧
  signs_in t "t1" name pw (run None pre demo_accounts) ∧ username u = name ∧ is_active u = true ∧ tbl_get (roles demo_accounts) i = Some r.
Proof.
  pose (h := [(0, OLogin "t1" "dana" "pw"); (5, OLogin "t2" "root" "pw"); (9, OLogout (Some "t2"))]).
  assert (is_Some (resolve_session 10 "t1" (run None h demo_accounts))) as [id Hid] by (eexists; vm_compute; reflexivity).
  destruct (proj1 (session_identity None h demo_accounts 10 "t1" id demo_wf eq_refl) Hid)
    as (i & t & name & pw & pre & post & u & r & Hh & Hin & _ & _ & _ & Hn & Ha & Hr & _).
  exists (role_id u), t, name, pw, pre, post, u, r. exact (conj Hh (conj Hin (conj Hn (conj Ha Hr)))).
Defined.

Lemma disabled_shut_out_witness : ∃ r d', disable_user_route None demo_root 2 "left" demo_accounts = Ok (r, d') ∧ ur_username r = "dana" ∧
  (login 7 "t9" "dana" "pw" (run None [(5, OUpdate None 2 {| uu_display_name := None; uu_role_name := Some "admin" |} "2")] d')).1 =
    unauthenticated "invalid username or password".
Proof.
  pose (x := disable_user_route None demo_root 2 "left" demo_accounts).
  assert (match x with Ok (r, _) => String.eqb (ur_username r) "dana" | Err _ => false end = true) as Hv by (vm_compute; reflexivity).
  destruct x as [[r d']|] eqn:Hx; [|discriminate Hv]. subst x. apply String.eqb_eq in Hv.
  destruct (disabled_shut_out None [(5, OUpdate None 2 {| uu_display_name := None; uu_role_name := Some "admin" |} "2")]
    demo_accounts demo_root 2 "left" r d' demo_wf Hx) as (_ & _ & _ & Hl).
  exists r, d'. split; [exact Hx|]. split; [exact Hv|]. rewrite <-Hv. exact (proj1 (Hl 7 "t9" "pw")).
Defined.

Lemma password_reset_witness : ∃ d', set_password_route None demo_root "salt" 2 "new" demo_accounts = Ok ((), d') ∧
  (login 7 "t9" "dana" "new" d').1 = Ok {| lr_username := "dana"; lr_role := "bidder"; lr_cookie := "t9" |} ∧
  (login 7 "t9" "dana" "pw" d').1 = unauthenticated "invalid username or password".
Proof.
  pose (x := set_password_route None demo_root "salt" 2 "new" demo_accounts).
  assert (is_ok x = true) as Hv by (vm_compute; reflexivity).
  destruct x as [[[] d']|] eqn:Hx; [|discriminate Hv]. subst x. exists d'. split; [exact Hx|].
  destruct (password_reset None demo_root "salt" 2 "new" demo_accounts d' 7 "t9" (demo_user "dana" 2) "bidder" demo_wf Hx) as (Hok & _ & Hno);
    [reflexivity..|]. split; [exact Hok|]. exact (proj1 (Hno "pw" eq_refl)).
Defined.

Definition demo_guesses : list (Z * op) := map (λ t, (minutes t, OLogin "t" "dana" "guess")) [0; 1; 2; 3; 4; 5; 10; 19; 20].
Lemma guess_bound_witness : guesses None "dana" demo_guesses demo_accounts = 6 ∧ guesses None "dana" demo_guesses demo_accounts <= 5 + minutes 20 / minutes 15.
Proof.
  split; [vm_compute; reflexivity|]. refine (guess_bound None "dana" demo_guesses demo_accounts 0 (minutes 20) demo_wf _ _ _ _).
  - repeat constructor; vm_compute; discriminate.
  - repeat constructor; vm_compute; discriminate.
  - vm_compute. discriminate.
  - vm_compute. reflexivity.
Defined.

Definition demo_rename : UpdateUserRequest := {| uu_display_name := Some "Dana"; uu_role_name := None |}.
Definition demo_etag : string := String quote ("1" +:+ String quote EmptyString).
Lemma no_lost_update_witness : ∃ r d', update_user None demo_root 2 demo_rename demo_etag demo_accounts = Ok (r, d') ∧ ur_version r = 2 ∧
  ∃ v, update_user None demo_root 2 demo_rename demo_etag d' = Err (PreconditionFailed v).
Proof.
  pose (x := update_user None demo_root 2 demo_rename demo_etag demo_accounts).
  assert (match x with Ok (r, _) => ur_version r =? 2 | Err _ => false end = true) as Hv by (vm_compute; reflexivity).
  destruct x as [[r d']|] eqn:Hx; [|discriminate Hv]. subst x. apply Z.eqb_eq in Hv.
  destruct (no_lost_update None demo_root 2 demo_rename demo_etag demo_accounts r d' demo_wf Hx) as [_ Hno].
  destruct (Hno [] demo_root demo_rename) as (v & _ & Hr); [concrete_mem|].
  exists r, d'. split; [exact Hx|]. split; [exact Hv|]. exists v. exact Hr.
Defined.

Lemma list_users_pages_witness : ∃ ps, pages 3 demo_root None 1 demo_accounts = Some ps ∧ map ur_id (concat ps) = [1; 2].
Proof.
  destruct (list_users_pages demo_root 1 demo_accounts 3) as (ps & Hps & _ & _ & Hids);
    [concrete_mem|lia|exact demo_wf|repeat constructor|vm_compute; lia|].
  exists ps. split; [exact Hps|exact Hids].
Defined.
End Demo.
End AdminHistory.
