(* ===== verification/Seeds.v ===== *)
(** * The accounts of the pilot

    [scripts/seed_pilot_users.py] and [scripts/seed_smoke_test_users.py]: the
    roles with their permissions, and the accounts. The passwords and the salts,
    drawn at random, are the arguments [tokens] and [salts]. *)

From stdpp Require Import base gmap sets strings list.
From Stdlib Require Import ZArith Lia.
From S2P Require Import Prelude Json PyStr Api SchemaDrift Idempotency Accounts AdminApi AdminHistory.

Module Seeds.
Import Drift Accounts AdminApi AdminHistory.
#[local] Open Scope Z_scope.

Definition PILOT_ROLES : list (string * list string) := [
  ("worker", ["decision.bid_readiness.read"; "decision.recalc_flags.read"; "decision.execution_facts.read";
    "decision.execution_facts.create"; "tender.forecast_snapshot.read"; "platform.feedback.submit"]);
  ("tender", ["decision.bid_readiness.read"; "decision.recalc_flags.read"; "decision.decisions.create"; "decision.go_no_go.create";
    "tender.forecast_snapshot.read"; "tender.forecast_snapshot.write"; "platform.feedback.submit"]);
  ("procurement", ["decision.execution_facts.read"; "decision.execution_facts.create"; "decision.execution_facts.close_project";
    "decision.outcome.read"; "decision.outcome.write"; "platform.feedback.submit"]);
  ("technical_specialist", ["algorithm.policy.read"; "algorithm.policy.write"; "algorithm.policy.approve"; "algorithm.policy.activate";
    "algorithm.simulation.read"; "algorithm.simulation.write"; "admin.users.create"; "admin.users.read"; "admin.users.update";
    "admin.users.disable"; "admin.users.set_password"; "platform.feedback.submit"; "platform.feedback.triage"])].
Definition PILOT_HEADCOUNT : list (string * Z) := [("worker", 6); ("tender", 2); ("procurement", 2); ("technical_specialist", 2)].

(** [_upsert_role] and [_upsert_permission] *)
Definition upsert_name (name : string) (t : table string) : Z * table string :=
  match tbl_select (λ _ n, String.eqb n name) t with
  | (i, _) :: _ => (i, t)
  | [] => tbl_insert t name
  end.
Definition upsert_role (name : string) (d : adb) : Z * adb :=
  let ' (i, t) := upsert_name name (roles d) in
  (i, Adb (users d) t (permission_names d) (role_permissions d) (sessions d) (audit_log d) (idem_keys d)).
Definition upsert_permission (name : string) (d : adb) : Z * adb :=
  let ' (i, t) := upsert_name name (permission_names d) in
  (i, Adb (users d) (roles d) t (role_permissions d) (sessions d) (audit_log d) (idem_keys d)).
(** [ON CONFLICT (role_id, permission_id) DO NOTHING] *)
Definition ensure_role_permission (role permission : Z) (d : adb) : adb :=
  if bool_decide ((role, permission) ∈ role_permissions d) then d
  else Adb (users d) (roles d) (permission_names d) (role_permissions d ++ [(role, permission)]) (sessions d) (audit_log d) (idem_keys d).
Definition user_exists (name : string) (d : adb) : bool :=
  match tbl_select (λ _ u, String.eqb (username u) name) (users d) with [] => false | _ => true end.

Fixpoint grant_permissions (role : Z) (names : list string) (d : adb) : adb :=
  match names with
  | [] => d
  | n :: rest => let ' (p, d1) := upsert_permission n d in grant_permissions role rest (ensure_role_permission role p d1)
  end.
(** The roles with their permissions; the ids of the roles *)
Fixpoint seed_roles (rs : list (string * list string)) (d : adb) : list (string * Z) * adb :=
  match rs with
  | [] => ([], d)
  | (name, names) :: rest =>
      let ' (i, d1) := upsert_role name d in
      let ' (ids, d2) := seed_roles rest (grant_permissions i names d1) in
      ((name, i) :: ids, d2)
  end.

(** [for role_name, headcount in ...: for n in range(1, headcount + 1): ...] *)
Definition accounts (headcount : list (string * Z)) : list (string * Z) :=
  concat (map (λ rn, map (λ n, (rn.1, n)) (seqZ 1 rn.2)) headcount).
Definition account_name (a : string * Z) : string := "pilot_" +:+ a.1 +:+ "_" +:+ py_str_Z a.2.
Definition account_title (a : string * Z) : string :=
  "Pilot " +:+ a.1 +:+ " #" +:+ py_str_Z a.2 +:+ " (placeholder -- rename once assigned)".

Section Passwords.
Context `{Argon2}.
Variable tokens salts : nat → string.

Definition new_account (name title : string) (role : Z) (salt password : string) : user_row := {|
  username := name; display_name := title; role_id := role; user_status := "active"; user_version := 1;
  password_hash := Some (hash_password salt password); failed_login_count := 0; locked_until := None |}.
Definition create_account (name title : string) (role : Z) (salt password : string) (d : adb) : result exn adb :=
  raise_if user_exists name d with IntegrityError "users_username_key" ;;
  raise_if negb (bool_decide (is_Some (tbl_get (roles d) role))) with IntegrityError "users_role_id_fkey" ;;
  Ok (set_users (tbl_insert (users d) (new_account name title role salt password)).2 d).
(** The accounts made, with their passwords, and those left untouched; [k]
    passwords were drawn before. *)
Fixpoint seed_users (k : nat) (ids : list (string * Z)) (l : list (string * Z)) (d : adb)
    : result exn (list (string * string) * list string * adb) :=
  match l with
  | [] => Ok ([], [], d)
  | a :: rest =>
      if user_exists (account_name a) d then
        let! ' (created, skipped, d') := seed_users k ids rest d in Ok (created, account_name a :: skipped, d')
      else
        match assoc a.1 ids with
        | None => Err (KeyError a.1)
        | Some role =>
            let! d1 := create_account (account_name a) (account_title a) role (salts k) (tokens k) d in
            let! ' (created, skipped, d') := seed_users (S k) ids rest d1 in
            Ok ((account_name a, tokens k) :: created, skipped, d')
        end
  end.
(** [main] *)
Definition seed_pilot_users (d : adb) : result exn (list (string * string) * list string * adb) :=
  let ' (ids, d1) := seed_roles PILOT_ROLES d in seed_users 0 ids (accounts PILOT_HEADCOUNT) d1.
End Passwords.

(** *** The accounts of the smoke test: set up again at every run *)

Record smoke_user := { su_role : string; su_permission : string; su_username : string; su_display_name : string; su_password : string }.
Definition SMOKE_TEST_USERS : list smoke_user := [
  {| su_role := "smoke-test-admin-reader"; su_permission := "admin.users.read"; su_username := "smoke_test_admin_reader";
     su_display_name := "Smoke Test (admin reader)"; su_password := "smoke-test-only-admin-reader-9f3a" |};
  {| su_role := "smoke-test-algorithm-reader"; su_permission := "algorithm.policy.read"; su_username := "smoke_test_algorithm_reader";
     su_display_name := "Smoke Test (algorithm reader)"; su_password := "smoke-test-only-algorithm-reader-7c2e" |}].
Section Smoke.
Context `{Argon2}.
Variable salts : nat → string.

Definition refresh (title : string) (role : Z) (h : string) (u : user_row) : user_row := {|
  username := username u; display_name := title; role_id := role; user_status := "active"; user_version := user_version u + 1;
  password_hash := Some h; failed_login_count := 0; locked_until := None |}.
(** [INSERT ... ON CONFLICT (username) DO UPDATE] *)
Definition upsert_user (name title : string) (role : Z) (salt password : string) (d : adb) : adb :=
  if user_exists name d then
    set_users (tbl_update (λ _ u, String.eqb (username u) name) (refresh title role (hash_password salt password)) (users d)) d
  else set_users (tbl_insert (users d) (new_account name title role salt password)).2 d.
Fixpoint seed_smoke (k : nat) (l : list smoke_user) (d : adb) : adb :=
  match l with
  | [] => d
  | s :: rest =>
      let ' (r, d1) := upsert_role (su_role s) d in
      let ' (p, d2) := upsert_permission (su_permission s) d1 in
      seed_smoke (S k) rest (upsert_user (su_username s) (su_display_name s) r (salts k) (su_password s) (ensure_role_permission r p d2))
  end.
Definition seed_smoke_test_users (d : adb) : adb := seed_smoke 0 SMOKE_TEST_USERS d.
End Smoke.

(** ** Names and grants *)

Definition distinct (t : table string) : Prop := ∀ i j n, tbl_get t i = Some n → tbl_get t j = Some n → i = j.
Record grants_ok (d : adb) : Prop := {
  go_wf : wf d;
  go_perms : tbl_wf (permission_names d);
  go_roles_distinct : distinct (roles d);
  go_perms_distinct : distinct (permission_names d);
  go_refs r p : (r, p) ∈ role_permissions d → is_Some (tbl_get (roles d) r) ∧ is_Some (tbl_get (permission_names d) p) }.

Lemma elem_of_permissions_of p r d : p ∈ permissions_of r d ↔
  ∃ i j, (i, j) ∈ role_permissions d ∧ tbl_get (roles d) i = Some r ∧ tbl_get (permission_names d) j = Some p.
Proof.
  unfold permissions_of. rewrite elem_of_list_to_set, list_elem_of_omap. split.
  - intros ([i j] & Hin & Hp). simpl in Hp. case_bool_decide; [|done]. by exists i, j.
  - intros (i & j & Hin & Hi & Hj). exists (i, j). split; [done|]. simpl. by rewrite bool_decide_true.
Qed.
Lemma upsert_name_spec n t i t' : tbl_wf t → upsert_name n t = (i, t') →
  tbl_wf t' ∧ (∀ j x, tbl_get t' j = Some x ↔ tbl_get t j = Some x ∨ j = i ∧ x = n) ∧ (distinct t → distinct t') ∧
  (is_Some (tbl_get t i) → t' = t).
Proof.
  intros Hw. unfold upsert_name. destruct (tbl_select _ t) as [|[j x] l] eqn:Hs.
  - intros [= <- <-]. assert (∀ j, tbl_get t j ≠ Some n) as Hno.
    { intros j Hj. apply tbl_get_spec in Hj; [|done]. assert ((j, n) ∈ ([] : list (Z * string))) as Hx; [|by apply elem_of_nil in Hx].
      rewrite <-Hs. apply elem_of_tbl_select. by rewrite String.eqb_refl. }
    assert (∀ j x, tbl_get (tbl_insert t n).2 j = Some x ↔ tbl_get t j = Some x ∨ j = next_id t ∧ x = n) as Hget.
    { intros j x. destruct (decide (j = next_id t)) as [->|Hne].
      - rewrite tbl_get_insert_new, tbl_get_next by done. naive_solver.
      - rewrite tbl_get_insert_old by done. naive_solver. }
    split_and!; [by apply tbl_insert_wf|exact Hget| |].
    + intros Hd i j x. rewrite !Hget. intros [Hi|[-> ->]] [Hj|[-> ?]]; subst; [by eapply Hd|by destruct (Hno i)|by destruct (Hno j)|done].
    + intros [x Hx]. by rewrite tbl_get_next in Hx.
  - intros [= <- <-]. assert ((j, x) ∈ (j, x) :: l) as Hin by left. rewrite <-Hs in Hin.
    apply elem_of_tbl_select in Hin as [->%String.eqb_eq Hin]. apply tbl_get_spec in Hin; [|done].
    split_and!; [done| |done|done]. intros k y. split; [by left|]. by intros [?|[-> ->]].
Qed.
Lemma upsert_name_known n t i : tbl_wf t → distinct t → tbl_get t i = Some n → upsert_name n t = (i, t).
Proof.
  intros Hw Hd Hi. destruct (upsert_name n t) as [j t'] eqn:Hu. destruct (upsert_name_spec _ _ _ _ Hw Hu) as (Hw' & Hg & Hd' & Hsame).
  assert (j = i) as -> by (eapply (Hd' Hd); apply Hg; [by right|by left]). by rewrite Hsame by done.
Qed.

(** What a change of the roles and their permissions adds, all else kept *)
Record grants (add : string → gset string) (d d' : adb) : Prop := {
  gr_ok : grants_ok d';
  gr_users : users d' = users d;
  gr_sessions : sessions d' = sessions d;
  gr_roles i n : tbl_get (roles d) i = Some n → tbl_get (roles d') i = Some n;
  gr_names r : permissions_of r d' = permissions_of r d ∪ add r }.
Lemma grants_refl d : grants_ok d → grants (λ _, ∅) d d.
Proof. intros Hd. split; try done. set_solver. Qed.
Lemma grants_trans a1 a2 a d1 d2 d3 : grants a1 d1 d2 → grants a2 d2 d3 → (∀ r, a r = a1 r ∪ a2 r) → grants a d1 d3.
Proof.
  intros [O1 U1 S1 R1 N1] [O2 U2 S2 R2 N2] Ha. split; [done|congruence|congruence|auto|]. intros r. rewrite N2, N1, Ha. set_solver.
Qed.
Lemma wf_more_roles d t : wf d → tbl_wf t → (∀ i n, tbl_get (roles d) i = Some n → tbl_get t i = Some n) →
  wf (Adb (users d) t (permission_names d) (role_permissions d) (sessions d) (audit_log d) (idem_keys d)).
Proof.
  intros [Hu Hr Hq Ho Hk] Hw Hm. split; try done. intros i u Hi. simpl. destruct (Ho i u Hi) as ([n Hn] & ? & ?). split_and!; try done.
  exists n. by apply Hm.
Qed.
Lemma wf_frame d d' : wf d → users d' = users d → roles d' = roles d → idem_keys d' = idem_keys d → wf d'.
Proof. intros [Hu Hr Hq Ho Hk] Eu Er Ek. split; by rewrite ?Eu, ?Er, ?Ek. Qed.

Lemma upsert_role_grants n d i d' : grants_ok d → upsert_role n d = (i, d') → grants (λ _, ∅) d d' ∧ tbl_get (roles d') i = Some n.
Proof.
  intros [Hw Hp Hrd Hpd Hrefs]. unfold upsert_role. destruct (upsert_name n (roles d)) as [j t] eqn:Hu. intros [= <- <-].
  destruct (upsert_name_spec _ _ _ _ (wf_roles _ Hw) Hu) as (Hw' & Hg & Hd' & Hsame). simpl. split; [|apply Hg; by right].
  assert (∀ k x, tbl_get (roles d) k = Some x → tbl_get t k = Some x) as Hkeep by (intros k x Hk; apply Hg; by left).
  split; [|done|done|exact Hkeep|].
  - split; [by apply wf_more_roles|done|by apply Hd'|done|]. intros r p Hin. destruct (Hrefs r p Hin) as [[x Hx] ?]. split; [|done]. exists x. by apply Hkeep.
  - intros r. apply set_eq. intros p. rewrite elem_of_union, !elem_of_permissions_of. simpl. split.
    + intros (a & b & Hin & Ha & Hb). left. exists a, b. split_and!; try done. destruct (Hrefs a b Hin) as [[x Hx] _].
      specialize (Hkeep a x Hx). congruence.
    + intros [(a & b & Hin & Ha & Hb)|Hx]; [|set_solver]. exists a, b. split_and!; auto.
Qed.
Lemma upsert_permission_grants n d i d' : grants_ok d → upsert_permission n d = (i, d') →
  grants (λ _, ∅) d d' ∧ tbl_get (permission_names d') i = Some n ∧ roles d' = roles d.
Proof.
  intros [Hw Hp Hrd Hpd Hrefs]. unfold upsert_permission. destruct (upsert_name n (permission_names d)) as [j t] eqn:Hu. intros [= <- <-].
  destruct (upsert_name_spec _ _ _ _ Hp Hu) as (Hw' & Hg & Hd' & Hsame). simpl. split; [|split; [apply Hg; by right|done]].
  assert (∀ k x, tbl_get (permission_names d) k = Some x → tbl_get t k = Some x) as Hkeep by (intros k x Hk; apply Hg; by left).
  split; [|done|done|done|].
  - split; [by apply (wf_frame d)|done|done|by apply Hd'|]. intros r p Hin. destruct (Hrefs r p Hin) as [? [x Hx]]. split; [done|]. exists x. by apply Hkeep.
  - intros r. apply set_eq. intros p. rewrite elem_of_union, !elem_of_permissions_of. simpl. split.
    + intros (a & b & Hin & Ha & Hb). left. exists a, b. split_and!; try done. destruct (Hrefs a b Hin) as [_ [x Hx]].
      specialize (Hkeep b x Hx). congruence.
    + intros [(a & b & Hin & Ha & Hb)|Hx]; [|set_solver]. exists a, b. split_and!; auto.
Qed.
(** One permission more for one role *)
Definition one (n p r : string) : gset string := if decide (r = n) then {[p]} else ∅.
Lemma ensure_grants i j n p d : grants_ok d → tbl_get (roles d) i = Some n → tbl_get (permission_names d) j = Some p →
  grants (one n p) d (ensure_role_permission i j d).
Proof.
  intros Hd Hi Hj. pose proof Hd as [Hw Hp Hrd Hpd Hrefs]. unfold ensure_role_permission. case_bool_decide as Hin.
  - split; try done. intros r. apply set_eq. intros q. rewrite elem_of_union. unfold one. split; [by left|]. intros [?|Hq]; [done|].
    case_decide as Hr; [|set_solver]. subst. apply elem_of_singleton in Hq as ->. apply elem_of_permissions_of. by exists i, j.
  - split; [|done|done|done|].
    + split; [by apply (wf_frame d)|done|done|done|]. simpl. intros r q [Hx|Hx]%elem_of_app; [by apply Hrefs|].
      apply list_elem_of_singleton in Hx as [= -> ->]. by split; eexists.
    + intros r. apply set_eq. intros q. rewrite elem_of_union, !elem_of_permissions_of. simpl. unfold one. split.
      * intros (a & b & [Hx|Hx]%elem_of_app & Ha & Hb); [left; by exists a, b|]. apply list_elem_of_singleton in Hx as [= -> ->].
        right. assert (r = n) as -> by congruence. rewrite decide_True by done. set_solver.
      * intros [(a & b & Hx & Ha & Hb)|Hq]; [exists a, b; split_and!; [set_solver|done|done]|]. case_decide as Hr; [|set_solver].
        subst. apply elem_of_singleton in Hq as ->. exists i, j. split_and!; [set_solver|done|done].
Qed.
Definition many (n : string) (ps : list string) (r : string) : gset string := if decide (r = n) then list_to_set ps else ∅.
Lemma grant_permissions_grants i n ps d : grants_ok d → tbl_get (roles d) i = Some n → grants (many n ps) d (grant_permissions i ps d).
Proof.
  revert d. induction ps as [|p ps IH]; intros d Hd Hi; cbn [grant_permissions].
  - split; try done. intros r. unfold many. case_decide; set_solver.
  - destruct (upsert_permission p d) as [j d1] eqn:Hu. destruct (upsert_permission_grants _ _ _ _ Hd Hu) as (G1 & Hj & Hr).
    pose proof (ensure_grants i j n p d1 (gr_ok _ _ _ G1) (gr_roles _ _ _ G1 _ _ Hi) Hj) as G2.
    pose proof (IH _ (gr_ok _ _ _ G2) (gr_roles _ _ _ G2 _ _ (gr_roles _ _ _ G1 _ _ Hi))) as G3.
    eapply grants_trans; [exact G1|eapply grants_trans; [exact G2|exact G3|intros r; reflexivity]|].
    intros r. cbn beta. unfold many, one. case_decide; set_solver.
Qed.
(** The permissions a list of roles gives to a role *)
Definition matrix (rs : list (string * list string)) (r : string) : gset string :=
  foldr (λ np s, many np.1 np.2 r ∪ s) ∅ rs.
Lemma seed_roles_grants rs d ids d' : grants_ok d → seed_roles rs d = (ids, d') →
  grants (matrix rs) d d' ∧ ∀ n, n ∈ rs.*1 → ∃ i, assoc n ids = Some i ∧ tbl_get (roles d') i = Some n.
Proof.
  revert d ids d'. induction rs as [|[n ps] rs IH]; intros d ids d' Hd; cbn [seed_roles].
  - intros [= <- <-]. split; [by apply grants_refl|set_solver].
  - destruct (upsert_role n d) as [i d1] eqn:Hu. destruct (upsert_role_grants _ _ _ _ Hd Hu) as [G1 Hi].
    pose proof (grant_permissions_grants i n ps d1 (gr_ok _ _ _ G1) Hi) as G2.
    destruct (seed_roles rs (grant_permissions i ps d1)) as [ids' d2] eqn:Hs. intros [= <- <-].
    destruct (IH _ _ _ (gr_ok _ _ _ G2) Hs) as [G3 Hids]. split.
    + eapply grants_trans; [exact G1|eapply grants_trans; [exact G2|exact G3|intros r; reflexivity]|].
      intros r. cbn. set_solver.
    + intros m Hm. simpl. destruct (String.eqb_spec m n) as [->|Hne].
      * exists i. split; [done|]. apply (gr_roles _ _ _ G3), (gr_roles _ _ _ G2), Hi.
      * destruct (Hids m) as (k & Hk & ?); [set_solver|]. by exists k.
Qed.

(** Seeding again what is there changes nothing. *)
Lemma adb_eta d : Adb (users d) (roles d) (permission_names d) (role_permissions d) (sessions d) (audit_log d) (idem_keys d) = d.
Proof. by destruct d. Qed.
Lemma grant_permissions_again i n ps d : grants_ok d → tbl_get (roles d) i = Some n → (∀ p, p ∈ ps → p ∈ permissions_of n d) →
  grant_permissions i ps d = d.
Proof.
  intros [Hw Hp Hrd Hpd Hrefs] Hi. induction ps as [|p ps IH]; intros Hin; cbn [grant_permissions]; [done|].
  destruct (proj1 (elem_of_permissions_of p n d)) as (a & b & Hab & Ha & Hb); [apply Hin; by left|].
  assert (a = i) as -> by (by eapply Hrd). unfold upsert_permission. rewrite (upsert_name_known p _ b), adb_eta by done.
  unfold ensure_role_permission. rewrite bool_decide_true by done. apply IH. intros q Hq. apply Hin. by right.
Qed.
Lemma elem_of_matrix n ps p rs : (n, ps) ∈ rs → p ∈ ps → p ∈ matrix rs n.
Proof.
  intros Hin Hp. induction rs as [|x rs IH]; [by apply elem_of_nil in Hin|]. simpl. apply elem_of_union. apply elem_of_cons in Hin as [<-|Hin]; [left|right; auto].
  simpl. unfold many. rewrite decide_True by done. by apply elem_of_list_to_set.
Qed.
Lemma seed_roles_again rs d : grants_ok d → (∀ n, n ∈ rs.*1 → ∃ i, tbl_get (roles d) i = Some n) →
  (∀ n ps p, (n, ps) ∈ rs → p ∈ ps → p ∈ permissions_of n d) → (seed_roles rs d).2 = d.
Proof.
  intros Hd. induction rs as [|[n ps] rs IH]; intros Hr Hp; cbn [seed_roles]; [done|].
  destruct (Hr n) as [i Hi]; [by left|]. unfold upsert_role. rewrite (upsert_name_known n _ i), adb_eta by (try done; by apply Hd).
  rewrite (grant_permissions_again i n) by (try done; intros p Hin; by eapply Hp; [left|]).
  destruct (seed_roles rs d) as [ids d'] eqn:Hs. simpl in *. apply IH; [intros m Hm; apply Hr; by right|intros m qs p Hin Hq; eapply Hp; [by right|done]].
Qed.

(** ** Accounts *)

Lemma user_exists_spec n d : wf d → user_exists n d = true ↔ ∃ i u, tbl_get (users d) i = Some u ∧ username u = n.
Proof.
  intros Hw. unfold user_exists. destruct (tbl_select _ (users d)) as [|[j v] l] eqn:Hs.
  - split; [done|]. intros (i & u & Hu & Hn). apply tbl_get_spec in Hu; [|apply Hw].
    assert ((i, u) ∈ ([] : list (Z * user_row))) as Hx; [|by apply elem_of_nil in Hx]. rewrite <-Hs. apply elem_of_tbl_select. by rewrite Hn, String.eqb_refl.
  - split; [|done]. intros _. assert ((j, v) ∈ (j, v) :: l) as Hin by left. rewrite <-Hs in Hin.
    apply elem_of_tbl_select in Hin as [Hn%String.eqb_eq Hin]. exists j, v. split; [|done]. by apply tbl_get_spec; [apply Hw|].
Qed.
Section Users.
Context `{Argon2}.
Variable tokens salts : nat → string.

Lemma create_account_ok name title r salt pw d n : wf d → user_exists name d = false → tbl_get (roles d) r = Some n →
  create_account name title r salt pw d = Ok (set_users (tbl_insert (users d) (new_account name title r salt pw)).2 d) ∧
  wf (set_users (tbl_insert (users d) (new_account name title r salt pw)).2 d).
Proof.
  intros Hw He Hr. unfold create_account. rewrite He, bool_decide_true by (by eexists). split; [done|].
  pose proof Hw as [Hu Hro Hq Ho Hk].
  assert (∀ j v, tbl_get (tbl_insert (users d) (new_account name title r salt pw)).2 j = Some v →
    tbl_get (users d) j = Some v ∧ username v ≠ name ∨ j = next_id (users d) ∧ v = new_account name title r salt pw) as Hget.
  { intros j v Hj. destruct (decide (j = next_id (users d))) as [->|Hne].
    - rewrite tbl_get_insert_new in Hj by done. injection Hj as <-. by right.
    - rewrite tbl_get_insert_old in Hj by done. left. split; [done|]. intros Hn.
      assert (user_exists name d = true) by (apply user_exists_spec; [done|by exists j, v]). congruence. }
  split; simpl; [by apply tbl_insert_wf|done| | |done].
  - intros i u j v [[Hi Hn]|[-> ->]]%Hget [[Hj Hm]|[-> ->]]%Hget Heq; [by eapply Hq|done|by destruct Hm|done].
  - intros i u [[Hi _]|[-> ->]]%Hget; [by eapply Ho|]. split_and!; simpl; [by eexists|lia|unfold FAILED_LOGIN_LOCKOUT_THRESHOLD; lia].
Qed.
Lemma filter_agree {A} (f g : A → bool) b (l : list A) : (∀ x, x ∈ l → f x = g x) → filter (λ x, f x = b) l = filter (λ x, g x = b) l.
Proof.
  induction l as [|x l IH]; intros Hl; [done|]. rewrite !filter_cons, IH by (intros y Hy; apply Hl; by right). by rewrite (Hl x) by by left.
Qed.
(** What the accounts of a list add *)
Record accounts_made (ids : list (string * Z)) (l : list (string * Z)) (d : adb) (created : list (string * string)) (skipped : list string) (d' : adb) : Prop := {
  am_wf : wf d';
  am_rest : d' = set_users (users d') d;
  am_kept i u : tbl_get (users d) i = Some u → tbl_get (users d') i = Some u;
  am_there a : a ∈ l → user_exists (account_name a) d' = true;
  am_created : created.*1 = filter (λ n, user_exists n d = false) (map account_name l);
  am_skipped : skipped = filter (λ n, user_exists n d = true) (map account_name l);
  am_made n pw : (n, pw) ∈ created → ∃ a r salt i, a ∈ l ∧ n = account_name a ∧ assoc a.1 ids = Some r ∧
    tbl_get (users d') i = Some (new_account n (account_title a) r salt pw) }.
Lemma seed_users_made k ids l d : wf d → NoDup (map account_name l) →
  (∀ a, a ∈ l → ∃ r n, assoc a.1 ids = Some r ∧ tbl_get (roles d) r = Some n) →
  ∃ created skipped d', seed_users tokens salts k ids l d = Ok (created, skipped, d') ∧ accounts_made ids l d created skipped d'.
Proof.
  revert k d. induction l as [|a l IH]; intros k d Hw Hnd Hids; cbn [seed_users].
  - exists [], [], d. split; [done|]. split; try done; [by destruct d|set_solver..].
  - apply NoDup_cons in Hnd as [Hna Hnd]. destruct (user_exists (account_name a) d) eqn:He.
    + destruct (IH k d Hw Hnd) as (cr & sk & d' & -> & [W R K T C S M]); [intros b Hb; apply Hids; by right|].
      eexists _, _, d'. split; [done|]. split; try done.
      * intros b [->|Hb]%elem_of_cons; [|by apply T]. apply user_exists_spec in He as (i & u & Hi & Hn); [|done].
        apply user_exists_spec; [done|]. exists i, u. auto.
      * simpl. rewrite filter_cons_False by congruence. done.
      * simpl. rewrite filter_cons_True by done. by rewrite S.
      * intros n pw Hin. destruct (M n pw Hin) as (b & r & salt & i & Hb & ?). exists b, r, salt, i. split; [by right|done].
    + destruct (Hids a) as (r & n & Hr & Hn); [by left|]. rewrite Hr.
      destruct (create_account_ok (account_name a) (account_title a) r (salts k) (tokens k) d n Hw He Hn) as [-> Hw1]. cbn [rbind].
      set (d1 := set_users _ d) in *.
      destruct (IH (Datatypes.S k) d1 Hw1 Hnd) as (cr & sk & d' & -> & [W R K T C S M]); [intros b Hb; apply Hids; by right|].
      assert (tbl_get (users d1) (next_id (users d)) = Some (new_account (account_name a) (account_title a) r (salts k) (tokens k))) as Hnew
        by (apply tbl_get_insert_new, Hw).
      assert (∀ m, m ≠ account_name a → user_exists m d1 = user_exists m d) as Hsame.
      { intros m Hm. apply eq_true_iff_eq. rewrite !user_exists_spec by done. split; intros (i & u & Hi & Hu).
        - destruct (decide (i = next_id (users d))) as [->|Hne]; [rewrite Hnew in Hi; injection Hi as <-; done|].
          unfold d1 in Hi. cbn [users set_users] in Hi. rewrite tbl_get_insert_old in Hi by done. by exists i, u.
        - exists i, u. split; [|done]. unfold d1. cbn [users set_users]. rewrite tbl_get_insert_old; [done|]. intros ->. by rewrite tbl_get_next in Hi by apply Hw. }
      assert (∀ b, filter (λ m, user_exists m d1 = b) (map account_name l) = filter (λ m, user_exists m d = b) (map account_name l)) as Hfil.
      { intros b. apply filter_agree. intros m Hm. rewrite Hsame; [done|]. by intros ->. }
      eexists _, _, d'. split; [done|]. split; try done.
      * intros i u Hi. apply K. unfold d1. cbn [users set_users]. rewrite tbl_get_insert_old; [done|]. intros ->. by rewrite tbl_get_next in Hi by apply Hw.
      * intros b [->|Hb]%elem_of_cons; [|by apply T]. apply user_exists_spec; [done|]. eexists _, _. split; [by apply K|done].
      * rewrite (map_cons account_name), fmap_cons, filter_cons_True by done. by rewrite C, Hfil.
      * rewrite (map_cons account_name), filter_cons_False by congruence. by rewrite S, Hfil.
      * intros m pw [[= -> ->]|Hin]%elem_of_cons; [exists a, r, (salts k), (next_id (users d)); split_and!; [by left|done|done|by apply K]|].
        destruct (M m pw Hin) as (b & r' & salt & i & Hb & ?). exists b, r', salt, i. split; [by right|done].
Qed.
Lemma seed_users_again k ids l d : (∀ a, a ∈ l → user_exists (account_name a) d = true) →
  seed_users tokens salts k ids l d = Ok ([], map account_name l, d).
Proof.
  induction l as [|a l IH]; intros Hl; cbn [seed_users map]; [done|]. rewrite (Hl a) by by left. rewrite IH; [done|]. intros b Hb. apply Hl. by right.
Qed.
End Users.

(** ** The run of the script *)

Definition pilot_names : list string := map account_name (accounts PILOT_HEADCOUNT).
Section Run.
Context `{Argon2}.

(** On any database the script succeeds and leaves every account there was as
    it is; it makes exactly the missing ones of the twelve, each signed in by
    the password it prints and with the role of its name; it gives every role
    exactly the permissions of the matrix on top of those it had; and when it is
    run again it changes nothing. *)
Theorem pilots_seeded tokens salts d : grants_ok d → ∃ created skipped d',
  seed_pilot_users tokens salts d = Ok (created, skipped, d') ∧ grants_ok d' ∧ sessions d' = sessions d ∧
  (∀ i u, tbl_get (users d) i = Some u → tbl_get (users d') i = Some u) ∧
  (∀ r, permissions_of r d' = permissions_of r d ∪ matrix PILOT_ROLES r) ∧
  created.*1 = filter (λ n, user_exists n d = false) pilot_names ∧ skipped = filter (λ n, user_exists n d = true) pilot_names ∧
  (∀ n pw, (n, pw) ∈ created → ∃ a i u, a ∈ accounts PILOT_HEADCOUNT ∧ n = account_name a ∧
     find_user n d' = Some (i, u, a.1) ∧ verify_password pw (password_hash u) = true ∧
     resolve_identity n d' = Some {| subject := n; role := a.1; permissions := permissions_of a.1 d' |}) ∧
  ∀ tokens' salts', seed_pilot_users tokens' salts' d' = Ok ([], pilot_names, d').
Proof.
  intros Hd. unfold seed_pilot_users. destruct (seed_roles PILOT_ROLES d) as [ids d1] eqn:Hs.
  destruct (seed_roles_grants _ _ _ _ Hd Hs) as [[O1 U1 S1 R1 N1] Hids].
  assert (∀ a, a ∈ accounts PILOT_HEADCOUNT → ∃ r, assoc a.1 ids = Some r ∧ tbl_get (roles d1) r = Some a.1) as Hroles.
  { intros a Ha. apply Hids. revert a Ha. apply Forall_forall. apply (bool_decide_eq_true_1 _). vm_compute. reflexivity. }
  destruct (seed_users_made tokens salts 0 ids (accounts PILOT_HEADCOUNT) d1) as (cr & sk & d' & Hu & [W R K T C S M]).
  { apply O1. } { apply (bool_decide_eq_true_1 _). vm_compute. reflexivity. } { intros a Ha. destruct (Hroles a Ha) as (r & ? & ?). by exists r, a.1. }
  rewrite Hu. exists cr, sk, d'.
  assert (roles d' = roles d1 ∧ permission_names d' = permission_names d1 ∧ role_permissions d' = role_permissions d1 ∧ sessions d' = sessions d1) as (Er & Ep & Eg & Es)
    by (by rewrite R).
  assert (∀ r, permissions_of r d' = permissions_of r d1) as En by (intros r; unfold permissions_of; by rewrite Er, Ep, Eg).
  assert (∀ n, user_exists n d1 = user_exists n d) as Eu by (intros n; unfold user_exists; by rewrite U1).
  assert (grants_ok d') as O'.
  { destruct O1 as [? ? ? ? ?]. split; rewrite ?Er, ?Ep, ?Eg; done. }
  split_and!; [done|done|congruence|intros i u Hi; apply K; by rewrite U1|intros r; by rewrite En|..].
  - rewrite C. by apply filter_agree.
  - rewrite S. by apply filter_agree.
  - intros n pw Hin. destruct (M n pw Hin) as (a & r & salt & i & Ha & -> & Hr & Hg). destruct (Hroles a Ha) as (r' & Hr' & Hn).
    assert (r' = r) as -> by congruence. assert (find_user (account_name a) d' = Some (i, new_account (account_name a) (account_title a) r salt pw, a.1)) as Hf
      by (apply find_user_spec; [done|]; split_and!; [done|done|simpl; by rewrite Er]).
    eexists a, i, _. split_and!; [done|done|exact Hf|simpl; unfold hash_password; apply argon2_verify_hash|]. unfold resolve_identity. by rewrite Hf.
  - intros tokens' salts'. unfold seed_pilot_users. pose proof (seed_roles_again PILOT_ROLES d' O') as Hagain.
    destruct (seed_roles PILOT_ROLES d') as [ids' d2]. simpl in Hagain. rewrite Hagain.
    + by apply seed_users_again.
    + intros n Hn. destruct (Hids n Hn) as (i & _ & Hi). exists i. by rewrite Er.
    + intros n ps p Hin Hp. rewrite En, N1. apply elem_of_union. right. by eapply elem_of_matrix.
Qed.
End Run.

(** ** Examples *)

Section Demo.
#[local] Existing Instance demo_argon2.
Definition fresh_db : adb := Adb tbl_empty tbl_empty tbl_empty [] ∅ tbl_empty ∅.
Definition demo_tokens (k : nat) : string := "token " +:+ py_str_Z (Z.of_nat k).
Lemma fresh_ok : grants_ok fresh_db.
Proof. split; [split|..]; try apply tbl_empty_wf; try done; try (intros; set_solver). Qed.
(** On a fresh database only the technical specialists may change or approve a
    policy or an account, and only the bid managers may decide. *)
Lemma pilots_seeded_witness : ∃ created d', seed_pilot_users demo_tokens demo_tokens fresh_db = Ok (created, [], d') ∧ length created = 12%nat ∧
  (∀ r, "algorithm.policy.approve" ∈ permissions_of r d' → r = "technical_specialist") ∧
  (∀ r, "decision.decisions.create" ∈ permissions_of r d' → r = "tender") ∧
  seed_pilot_users demo_tokens demo_tokens d' = Ok ([], pilot_names, d').
Proof.
  destruct (pilots_seeded demo_tokens demo_tokens fresh_db fresh_ok) as (created & skipped & d' & Hs & _ & _ & _ & Hp & Hc & Hk & _ & Hagain).
  assert (skipped = []) as -> by (rewrite Hk; vm_compute; reflexivity).
  exists created, d'. split; [exact Hs|]. split.
  - rewrite <-(length_fmap fst), Hc. vm_compute. reflexivity.
  - assert (∀ r p, p ∈ permissions_of r d' → p ∈ matrix PILOT_ROLES r) as Hm
      by (intros r p Hin; rewrite Hp in Hin; apply elem_of_union in Hin as [Hin|Hin]; [|exact Hin]; vm_compute in Hin; inversion Hin).
    split_and!; [| |apply Hagain]; intros r Hin%Hm; cbn [matrix foldr fst snd PILOT_ROLES] in Hin; unfold many in Hin;
      repeat (case_decide; [subst; try reflexivity; exfalso; revert Hin; apply (bool_decide_eq_false_1 _); vm_compute; reflexivity|]);
      exfalso; revert Hin; apply (bool_decide_eq_false_1 _); vm_compute; reflexivity.
Defined.
(** The smoke script unlocks its accounts and resets their passwords. *)
Definition locked_out : adb :=
  set_users (tbl_update (λ _ _, true) (λ u, with_failures 7 (Some 9) u) (users (seed_smoke_test_users demo_tokens fresh_db))) (seed_smoke_test_users demo_tokens fresh_db).
Example smoke_unlocks : map (λ iu, (username iu.2, failed_login_count iu.2, locked_until iu.2, user_version iu.2,
    verify_password "smoke-test-only-admin-reader-9f3a" (password_hash iu.2))) (rows (users (seed_smoke_test_users demo_tokens locked_out))) =
  [("smoke_test_admin_reader", 0, None, 2, true); ("smoke_test_algorithm_reader", 0, None, 2, false)].
Proof. vm_compute. reflexivity. Qed.
End Demo.
End Seeds.
