(* ===== verification/Ocr.v ===== *)
(** * The OCR engine

    [packages/platform/ocr_engine.py], [ollama_ocr_engine.py] and
    [ocr_settings.py]: the interface that turns the bytes of an image into text,
    its adapter for an Ollama server and the configuration of both. The server
    and [Response.json] are parameters. Closing a client of one's own is not
    modelled. *)

From stdpp Require Import base gmap strings list.
From Stdlib Require Import ZArith NArith Ascii Lia.
From S2P Require Import Prelude Json PyStr.
#[local] Close Scope char_scope.

Module Ocr.
#[local] Open Scope Z_scope.

(** ** The interface *)

(** What a call raises: the engine's own error, or anything else *)
Inductive ocr_error := OcrEngineError (msg : string) | OcrRaised (e : exn).

(** [OcrEngine]: one operation on the bytes and the type of an image *)
Class OcrEngine (E : Type) := parse_document_of : E → string → string → result ocr_error string.
(** What its documentation promises: text that is not empty, or its own error *)
Class OcrContract (E : Type) `{OcrEngine E} (e : E) : Prop := {
  oc_text : ∀ bytes mime t, parse_document_of e bytes mime = Ok t → t ≠ "";
  oc_error : ∀ bytes mime x, parse_document_of e bytes mime = Err x → ∃ m, x = OcrEngineError m }.

(** ** [base64.b64encode] *)

Definition b64_alphabet : string := "ABCDEFGHIJKLMNOPQRSTUVWXYZabcdefghijklmnopqrstuvwxyz0123456789+/".
Definition b64_char (n : N) : ascii := match String.get (N.to_nat n) b64_alphabet with Some c => c | None => "="%char end.
Definition byte_of (c : ascii) : N := N_of_ascii c.
#[local] Open Scope N_scope.
(** Three bytes become four letters of six bits; the last group is padded. *)
Fixpoint b64encode (s : string) : string :=
  match s with
  | EmptyString => ""
  | String a EmptyString =>
      String (b64_char (byte_of a / 4)) (String (b64_char (byte_of a mod 4 * 16)) "==")
  | String a (String b EmptyString) =>
      String (b64_char (byte_of a / 4)) (String (b64_char (byte_of a mod 4 * 16 + byte_of b / 16))
        (String (b64_char (byte_of b mod 16 * 4)) "="))
  | String a (String b (String c t)) =>
      String (b64_char (byte_of a / 4)) (String (b64_char (byte_of a mod 4 * 16 + byte_of b / 16))
        (String (b64_char (byte_of b mod 16 * 4 + byte_of c / 64)) (String (b64_char (byte_of c mod 64)) (b64encode t))))
  end.

(** The reader of such a text: what a server does with it *)
Fixpoint b64_find (c : ascii) (n : N) (s : string) : option N :=
  match s with
  | EmptyString => None
  | String d t => if Ascii.eqb c d then Some n else b64_find c (n + 1) t
  end.
Definition b64_value (c : ascii) : option N := b64_find c 0 b64_alphabet.
Fixpoint b64decode (s : string) : option string :=
  match s with
  | EmptyString => Some ""
  | String w (String x (String y (String z t))) =>
      match b64_value w, b64_value x with
      | Some w', Some x' =>
          let first := ascii_of_N (w' * 4 + x' / 16) in
          match b64_value y, b64_value z with
          | Some y', Some z' =>
              String first ∘ String (ascii_of_N (x' mod 16 * 16 + y' / 4)) ∘ String (ascii_of_N (y' mod 4 * 64 + z')) <$> b64decode t
          | Some y', None =>
              if Ascii.eqb z "="%char && String.eqb t "" then Some (String first (String (ascii_of_N (x' mod 16 * 16 + y' / 4)) "")) else None
          | _, _ => if Ascii.eqb y "="%char && Ascii.eqb z "="%char && String.eqb t "" then Some (String first "") else None
          end
      | _, _ => None
      end
  | _ => None
  end.
#[local] Close Scope N_scope.

(** ** The adapter *)

Definition DEFAULT_PROMPT : string :=
  "Extract this document as clean Markdown or JSON, preserving every table, heading, and line item exactly as written. Do not summarize or omit any row.".
(** [s.rstrip(c)] *)
Fixpoint rstrip (c : ascii) (s : string) : string :=
  match s with
  | EmptyString => ""
  | String d t => match rstrip c t with
                  | EmptyString => if Ascii.eqb c d then "" else String d ""
                  | r => String d r
                  end
  end.

Record OllamaOcrEngine := { base_url : string; model_name : string; prompt : string }.
Definition make_ollama_engine (url model prompt_ : string) : result exn OllamaOcrEngine :=
  raise_if String.eqb model "" with ValueError
    "OllamaOcrEngine requires an explicit model_name -- no confirmed Ollama registry tag exists for this task's OCR backend yet, see this module's docstring; set OCR_MODEL_NAME once you've pulled real weights under a tag that resolves in your environment." ;;
  Ok {| base_url := rstrip "/"%char url; model_name := model; prompt := prompt_ |}.

(** An [httpx.HTTPError] with its text, or another exception *)
Inductive post_error := HTTPError (msg : string) | PostRaised (e : exn).
Record response := { status_code : Z; text : string }.

Section Adapter.
Context `{PyText}.
(** [client.post(url, json=body)], and [response.json()] with the text of its
    [ValueError] *)
Variable post : string → json → result post_error response.
Variable json_of : response → result string json.

Definition request_body (e : OllamaOcrEngine) (encoded : string) : json :=
  JObj [("model", JStr (model_name e)); ("prompt", JStr (prompt e)); ("images", JArr [JStr encoded]); ("stream", JBool false)].
Definition read_payload (payload : json) : result ocr_error string :=
  let! v := map_err OcrRaised (py_get payload "response") in
  match v with
  | JStr (String c t) => Ok (String c t)
  | _ => Err (OcrEngineError ("OCR engine response missing a non-empty 'response' field: " +:+ json_repr payload))
  end.
Definition parse_document (e : OllamaOcrEngine) (image_bytes mime_type : string) : result ocr_error string :=
  let encoded := b64encode image_bytes in
  let! r := map_err (λ x, match x with
                          | HTTPError m => OcrEngineError ("OCR engine unreachable at " +:+ base_url e +:+ ": " +:+ m)
                          | PostRaised x => OcrRaised x
                          end) (post (base_url e +:+ "/api/generate") (request_body e encoded)) in
  raise_if negb (status_code r =? 200) with OcrEngineError ("OCR engine returned status " +:+ py_str_Z (status_code r) +:+ ": " +:+ text r) ;;
  let! payload := map_err (λ m, OcrEngineError ("OCR engine returned non-JSON response: " +:+ m)) (json_of r) in
  read_payload payload.
#[export] Instance ollama_engine : OcrEngine OllamaOcrEngine := parse_document.
End Adapter.

(** ** The configuration *)

Record OcrSettings := { ollama_base_url : string; ocr_model_name : string }.
(** [os.environ.get(name, default)] for both *)
Definition get_ocr_settings (environ : gmap string string) : OcrSettings := {|
  ollama_base_url := default "http://localhost:11434" (environ !! "OLLAMA_BASE_URL");
  ocr_model_name := default "" (environ !! "OCR_MODEL_NAME") |}.
(** The engine of the capture route when none is injected; the inner result is
    the constructor's. *)
Definition configured_engine (environ : gmap string string) : option (result exn OllamaOcrEngine) :=
  let s := get_ocr_settings environ in
  if String.eqb (ocr_model_name s) "" then None else Some (make_ollama_engine (ollama_base_url s) (ocr_model_name s) DEFAULT_PROMPT).

(** ** What is sent can be read *)

Lemma b64_value_char n : (n < 64)%N → b64_value (b64_char n) = Some n.
Proof.
  intros Hn. assert (forallb (λ k, bool_decide (b64_value (b64_char (N.of_nat k)) = Some (N.of_nat k))) (seq 0 64) = true) as Hall by (vm_compute; reflexivity).
  rewrite forallb_forall in Hall. specialize (Hall (N.to_nat n)). rewrite N2Nat.id in Hall. apply (bool_decide_eq_true_1 _), Hall, in_seq. lia.
Qed.
Lemma b64_value_pad : b64_value "="%char = None.
Proof. vm_compute. reflexivity. Qed.
Lemma byte_bound c : (byte_of c < 256)%N.
Proof. apply N_ascii_bounded. Qed.

Section Sextets.
#[local] Open Scope N_scope.
Lemma first_byte a b : byte_of b < 256 → ascii_of_N (byte_of a / 4 * 4 + (byte_of a mod 4 * 16 + byte_of b / 16) / 16) = a.
Proof.
  intros Hb. rewrite <-(ascii_N_embedding a) at 3. f_equal. change (N_of_ascii a) with (byte_of a). generalize dependent (byte_of b). intros b' Hb.
  zify. Z.to_euclidean_division_equations. lia.
Qed.
Lemma first_byte_pad a : ascii_of_N (byte_of a / 4 * 4 + (byte_of a mod 4 * 16) / 16) = a.
Proof. rewrite <-(ascii_N_embedding a) at 3. f_equal. change (N_of_ascii a) with (byte_of a). zify. Z.to_euclidean_division_equations. lia. Qed.
Lemma second_byte a b c : byte_of a < 256 → byte_of b < 256 → byte_of c < 256 →
  ascii_of_N ((byte_of a mod 4 * 16 + byte_of b / 16) mod 16 * 16 + (byte_of b mod 16 * 4 + byte_of c / 64) / 4) = b.
Proof.
  intros Ha Hb Hc. rewrite <-(ascii_N_embedding b) at 3. f_equal. change (N_of_ascii b) with (byte_of b).
  zify. Z.to_euclidean_division_equations. lia.
Qed.
Lemma second_byte_pad a b : byte_of b < 256 → ascii_of_N ((byte_of a mod 4 * 16 + byte_of b / 16) mod 16 * 16 + (byte_of b mod 16 * 4) / 4) = b.
Proof.
  intros Hb. rewrite <-(ascii_N_embedding b) at 3. f_equal. change (N_of_ascii b) with (byte_of b).
  zify. Z.to_euclidean_division_equations. lia.
Qed.
Lemma third_byte b c : byte_of c < 256 → ascii_of_N ((byte_of b mod 16 * 4 + byte_of c / 64) mod 4 * 64 + byte_of c mod 64) = c.
Proof.
  intros Hc. rewrite <-(ascii_N_embedding c) at 3. f_equal. change (N_of_ascii c) with (byte_of c).
  zify. Z.to_euclidean_division_equations. lia.
Qed.
Lemma sextet_bound a b : byte_of a < 256 → byte_of b < 256 →
  byte_of a / 4 < 64 ∧ byte_of a mod 4 * 16 < 64 ∧ byte_of a mod 4 * 16 + byte_of b / 16 < 64 ∧ byte_of a mod 16 * 4 < 64 ∧
  byte_of a mod 16 * 4 + byte_of b / 64 < 64 ∧ byte_of a mod 64 < 64.
Proof. intros Ha Hb. zify. Z.to_euclidean_division_equations. lia. Qed.
End Sextets.

(** Induction three characters at a time *)
Lemma string_ind3 (P : string → Prop) : P "" → (∀ a, P (String a "")) → (∀ a b, P (String a (String b ""))) →
  (∀ a b c t, P t → P (String a (String b (String c t)))) → ∀ s, P s.
Proof.
  intros H0 H1 H2 H3. fix IH 1. intros [|a [|b [|c t]]]; [exact H0|exact (H1 a)|exact (H2 a b)|exact (H3 a b c t (IH t))].
Qed.
Lemma b64_roundtrip s : b64decode (b64encode s) = Some s.
Proof.
  induction s as [|a|a b|a b c t IH] using string_ind3; [done|..].
  - destruct (sextet_bound a a (byte_bound a) (byte_bound a)) as (H1 & H2 & _).
    cbn [b64encode b64decode]. rewrite !b64_value_char, b64_value_pad by done. simpl. by rewrite first_byte_pad.
  - destruct (sextet_bound a b (byte_bound a) (byte_bound b)) as (H1 & _ & H2 & _).
    destruct (sextet_bound b b (byte_bound b) (byte_bound b)) as (_ & _ & _ & H3 & _).
    cbn [b64encode b64decode]. rewrite !b64_value_char, b64_value_pad by done. simpl. by rewrite first_byte, second_byte_pad by apply byte_bound.
  - destruct (sextet_bound a b (byte_bound a) (byte_bound b)) as (H1 & _ & H2 & _).
    destruct (sextet_bound b c (byte_bound b) (byte_bound c)) as (_ & _ & _ & _ & H3 & _).
    destruct (sextet_bound c c (byte_bound c) (byte_bound c)) as (_ & _ & _ & _ & _ & H4).
    cbn [b64encode b64decode]. rewrite !b64_value_char by done. rewrite IH. simpl. by rewrite first_byte, second_byte, third_byte by apply byte_bound.
Qed.

Lemma rstrip_snoc c s d : rstrip c (s +:+ String d "") = if Ascii.eqb c d then rstrip c s else s +:+ String d "".
Proof.
  induction s as [|x s IH]; [done|]. change (String x s +:+ String d "") with (String x (s +:+ String d "")). cbn [rstrip]. rewrite IH.
  destruct (Ascii.eqb c d); [done|]. by destruct s.
Qed.
Lemma rstrip_idem c s : rstrip c (rstrip c s) = rstrip c s.
Proof.
  induction s as [|d s IH]; [done|]. cbn [rstrip]. destruct (rstrip c s) as [|e t] eqn:Hr.
  - destruct (Ascii.eqb c d) eqn:Hc; [done|]. cbn [rstrip]. by rewrite Hc.
  - cbn [rstrip]. cbn [rstrip] in IH. by rewrite IH.
Qed.

(** Decides an equivalence between the outcome of a branch and its causes. *)
Ltac cases := intros; split; intros Hx;
  repeat match goal with Hy : ∃ _, _ |- _ => destruct Hy | Hy : _ ∧ _ |- _ => destruct Hy | Hy : _ ∨ _ |- _ => destruct Hy end;
  simplify_eq/=; repeat match goal with H1 : ?a = Ok _, H2 : ?a = Ok _ |- _ => rewrite H1 in H2; simplify_eq/= end;
  first [done|congruence|left; congruence|eexists _, _; split_and!; done|right; eexists _, _; split_and!; done].

Section Spec.
Context `{PyText}.
Variable post : string → json → result post_error response.
Variable json_of : response → result string json.

(** C36: the engine returns a text exactly when the server answered the image it
    was sent (the base64 of exactly its bytes) with status 200 and a JSON object
    whose [response] is this text, which is never empty; every failure of the
    transport, of the status, of the JSON or of that field is the engine's own
    error, and anything else escapes exactly for an exception of the client that
    is no [HTTPError] and for JSON that is no object. *)
Theorem parse_document_spec e bytes mime :
  let sent := post (base_url e +:+ "/api/generate") (request_body e (b64encode bytes)) in
  b64decode (b64encode bytes) = Some bytes ∧
  (∀ t, parse_document post json_of e bytes mime = Ok t ↔
     ∃ r p, sent = Ok r ∧ status_code r = 200 ∧ json_of r = Ok (JObj p) ∧ dict_get "response" p = JStr t ∧ t ≠ "") ∧
  (∀ x, parse_document post json_of e bytes mime = Err (OcrRaised x) ↔
     sent = Err (PostRaised x) ∨
     ∃ r v, sent = Ok r ∧ status_code r = 200 ∧ json_of r = Ok v ∧ as_dict v = None ∧ x = no_attribute v "get").
Proof.
  cbv zeta. split; [apply b64_roundtrip|]. unfold parse_document. destruct (post _ _) as [r|[m|x]]; simpl; [|split; cases..].
  destruct (Z.eqb_spec (status_code r) 200) as [Hst|Hst]; simpl; [|split; cases].
  destruct (json_of r) as [v|m] eqn:Hj; simpl; [|split; cases].
  unfold read_payload. destruct v as [| | | | | |p]; cbn [py_get map_err rbind]; try (split; cases).
  destruct (dict_get "response" p) as [| | | |[|a w]| |] eqn:Hd; cbn [rbind]; split; cases.
Qed.
End Spec.

Section Contract.
Context `{PyText}.
Variable post : string → json → result post_error response.
Variable json_of : response → result string json.
(** The client raises its own errors only, and the server answers objects. *)
Hypothesis transport_errors : ∀ url body x, post url body ≠ Err (PostRaised x).
Hypothesis answers_objects : ∀ url body r v, post url body = Ok r → json_of r = Ok v → is_Some (as_dict v).

Lemma ollama_contract e : @OcrContract _ (ollama_engine post json_of) e.
Proof using transport_errors answers_objects.
  split; unfold parse_document_of, ollama_engine.
  - intros bytes mime t Ht. apply parse_document_spec in Ht. by destruct Ht as (r & p & _ & _ & _ & _ & Ht).
  - intros bytes mime [m|x] Hx; [by exists m|]. apply parse_document_spec in Hx as [Hx|(r & v & Hr & _ & Hv & Hn & _)].
    + by apply transport_errors in Hx.
    + apply answers_objects with (v := v) in Hr as [d Hd]; [by rewrite Hd in Hn|done].
Qed.
End Contract.

(** Without the second hypothesis it does not hold: a list as answer raises. *)
Lemma list_answer_escapes `{PyText} post json_of e bytes mime r l :
  post (base_url e +:+ "/api/generate") (request_body e (b64encode bytes)) = Ok r → status_code r = 200 → json_of r = Ok (JArr l) →
  parse_document post json_of e bytes mime = Err (OcrRaised (AttributeError "'list' object has no attribute 'get'")).
Proof. intros Hp Hs Hj. apply parse_document_spec. right. exists r, (JArr l). by split_and!. Qed.

(** An engine has a model and a URL without a slash at its end, so its requests
    go to [URL/api/generate]; the route has none exactly when no model is
    configured, and the constructor never raises there. *)
Lemma make_engine_spec url model pr e : make_ollama_engine url model pr = Ok e ↔
  model ≠ "" ∧ e = {| base_url := rstrip "/"%char url; model_name := model; prompt := pr |}.
Proof. unfold make_ollama_engine. destruct (String.eqb_spec model ""); simpl; naive_solver. Qed.
Lemma configured_engine_spec environ : match configured_engine environ with
  | None => environ !! "OCR_MODEL_NAME" = None ∨ environ !! "OCR_MODEL_NAME" = Some ""
  | Some r => ∃ model e, environ !! "OCR_MODEL_NAME" = Some model ∧ model ≠ "" ∧ r = Ok e ∧ model_name e = model ∧
      rstrip "/"%char (base_url e) = base_url e
  end.
Proof.
  unfold configured_engine, get_ocr_settings. simpl. destruct (environ !! "OCR_MODEL_NAME") as [model|]; simpl; [|by left].
  destruct (String.eqb_spec model "") as [->|Hm]; [by right|]. destruct (make_ollama_engine _ model _) as [e|x] eqn:He.
  - apply make_engine_spec in He as [_ ->]. eexists _, _. split_and!; [done..|]. simpl. apply rstrip_idem.
  - unfold make_ollama_engine in He. by destruct (String.eqb_spec model "").
Qed.

(** ** Examples *)

Example b64_examples : map b64encode [""; "f"; "fo"; "foo"; "foob"; "fooba"; "foobar"] = [""; "Zg=="; "Zm8="; "Zm9v"; "Zm9vYg=="; "Zm9vYmE="; "Zm9vYmFy"].
Proof. vm_compute. reflexivity. Qed.
Example rstrip_example : rstrip "/"%char "http://h:1//" = "http://h:1".
Proof. reflexivity. Qed.
End Ocr.
