(* ===== verification/ExecutionLedger.v ===== *)
(** * The execution ledger: facts, evidence, reading of captures

    [packages/decision/execution_fact_model.py], [execution_ledger_store.py],
    [execution_ledger_summary.py], [execution_napkin_evidence.py],
    [execution_fact_resolution.py], [execution_napkin_provider.py] and
    [reputation_feed.py]. The OCR engine and the reading of JSON text are
    parameters of [generate]; a time of a fact is the text the code keeps, and
    its row also has the instant stored. *)

From stdpp Require Import base gmap sets strings list sorting.
From Stdlib Require Import ZArith Lia.
From S2P Require Import Prelude Json PyStr Decimal Datetime Query BoqLine TenderDb Idempotency Decisions Ocr.

Module ExecutionLedger.
Import TenderDb Decisions.
#[local] Open Scope Z_scope.

Definition DEVIATION_CATEGORIES : list string := ["preliminaries"; "downtime"; "rework"; "last_mile"].
Definition CULPRIT_TYPES : list string := ["vendor"; "customer"; "internal"; "external"].

Record ExecutionFact := {
  ef_tender_id : Z;
  ef_line : option Z;
  planned_qty : option decimal;
  actual_qty : option decimal;
  deviation_reason : string;
  deviation_category : option string;
  culprit_type : string;
  culprit_vendor_name : option string;
  culprit_vendor_id : option Z;
  evidence_source : string;
  observed_at : string;
}.

Record evidence_row := {
  ne_tender_id : Z; capture_kind : string; mime_type : string; ne_checksum : string; raw_bytes : string; ne_correlation_id : string }.
Record contribution_row := { oc_tender_id : Z; oc_category : string; fact_count : Z; contributed_at : Z }.

(** The database of the API with the tables of the ledger *)
Record ldb := Ldb {
  core_db : ddb;
  evidence : table evidence_row;
  facts : table (ExecutionFact * Z);
  contributions : table contribution_row;
}.
Definition with_core x (s : ldb) := Ldb x (evidence s) (facts s) (contributions s).
Definition with_evidence x (s : ldb) := Ldb (core_db s) x (facts s) (contributions s).
Definition with_facts x (s : ldb) := Ldb (core_db s) (evidence s) x (contributions s).
Definition with_contributions x (s : ldb) := Ldb (core_db s) (evidence s) (facts s) x.

(** What the driver or the type of a column refuses of a fact, such as a quantity
    with more digits than [NUMERIC] has, or a text with a null character *)
Class Columns := { column_error : ExecutionFact → option exn }.

Section WithText.
Context `{PyText} `{Columns}.

(** [ExecutionFact.__post_init__] *)
Definition make_fact (f : ExecutionFact) : result exn ExecutionFact :=
  raise_if bool_decide (culprit_type f ∉ CULPRIT_TYPES)
    with ValueError ("unknown culprit_type: " +:+ py_repr (culprit_type f)) ;;
  raise_if match deviation_category f with Some c => bool_decide (c ∉ DEVIATION_CATEGORIES) | None => false end
    with ValueError ("unknown deviation_category: " +:+ py_repr (default "" (deviation_category f))) ;;
  if String.eqb (culprit_type f) "vendor" then
    raise_if match culprit_vendor_name f with Some n => String.eqb n "" | None => true end
      with ValueError "culprit_vendor_name is required when culprit_type is 'vendor'" ;;
    Ok f
  else
    raise_if match culprit_vendor_name f with Some _ => true | None => false end
      with ValueError "culprit_vendor_name must be None unless culprit_type is 'vendor'" ;;
    raise_if match culprit_vendor_id f with Some _ => true | None => false end
      with ValueError "culprit_vendor_id must be None unless culprit_type is 'vendor'" ;;
    Ok f.

(** ** The store *)

Definition store_execution_fact (f : ExecutionFact) (s : ldb) : result exn (Z * ldb) :=
  let! at_ := fromisoformat (observed_at f) in
  let! _ := match column_error f with Some e => Err e | None => Ok () end in
  raise_if negb (tender_exists (core_db s) (ef_tender_id f)) with IntegrityError "execution_facts_tender_id_fkey" ;;
  raise_if match deviation_category f with Some c => bool_decide (c ∉ DEVIATION_CATEGORIES) | None => false end
    with IntegrityError "execution_facts_deviation_category_check" ;;
  raise_if bool_decide (culprit_type f ∉ CULPRIT_TYPES) with IntegrityError "execution_facts_culprit_type_check" ;;
  let ' (i, t) := tbl_insert (facts s) (f, to_timestamptz at_) in Ok (i, with_facts t s).

Definition list_execution_facts_by_tender (tender_id : Z) (s : ldb) : list (Z * (ExecutionFact * Z)) :=
  tbl_select (λ _ r, ef_tender_id r.1 =? tender_id) (facts s).

Definition store_overhead_buffer_contribution (tender_id : Z) (category : string) (count : Z) (contributed_at : Z) (s : ldb)
    : result exn (Z * ldb) :=
  raise_if negb (tender_exists (core_db s) tender_id) with IntegrityError "overhead_buffer_contributions_tender_id_fkey" ;;
  raise_if bool_decide (category ∉ DEVIATION_CATEGORIES) with IntegrityError "overhead_buffer_contributions_deviation_category_check" ;;
  let ' (i, t) := tbl_insert (contributions s)
    {| oc_tender_id := tender_id; oc_category := category; fact_count := count; contributed_at := contributed_at |} in
  Ok (i, with_contributions t s).

(** [SELECT DISTINCT ON (tender_id) ... ORDER BY tender_id, id DESC]: the last
    version of a tender names the organization. *)
Definition organization_of (s : tdb) (tender_id : Z) : option string :=
  match last (tbl_select (λ _ v, tv_tender_id v =? tender_id) (versions s)) with
  | Some (_, v) => jsonb_text (dict_get "organization_voen" (normalized_fields v))
  | None => None
  end.
Definition is_of_organization (s : tdb) (voen : string) (tender_id : Z) : bool :=
  match organization_of s tender_id with Some o => String.eqb o voen | None => false end.
Definition list_execution_facts_by_organization_voen (voen : string) (s : ldb) : list (Z * (ExecutionFact * Z)) :=
  order_by (asc (λ ir, ef_tender_id ir.2.1))
    (tbl_select (λ _ r, String.eqb (culprit_type r.1) "customer" && is_of_organization (tender_db (core_db s)) voen (ef_tender_id r.1)) (facts s)).

(** ** The summary *)

Record PlanFactDelta := { pd_line : Z; pd_planned : decimal; pd_actual : decimal; pd_delta : decimal }.
Definition plan_fact_delta (f : ExecutionFact) : option (result exn PlanFactDelta) :=
  match ef_line f, planned_qty f, actual_qty f with
  | Some l, Some p, Some a =>
      Some (let! x := dec_sub a p in Ok {| pd_line := l; pd_planned := p; pd_actual := a; pd_delta := x |})
  | _, _, _ => None
  end.
Definition summarize_plan_fact_deltas (fs : list ExecutionFact) : result exn (list PlanFactDelta) :=
  let! ds := mapM id (omap plan_fact_delta fs) in Ok (order_by (asc pd_line) ds).

Definition count_category (acc : list (string * Z)) (f : ExecutionFact) : result exn (list (string * Z)) :=
  match deviation_category f with
  | None => Ok acc
  | Some c => raise_if bool_decide (c ∉ DEVIATION_CATEGORIES) with AssertionFailed "" ;; Ok (count_key c acc)
  end.
Definition summarize_deviation_category_counts (fs : list ExecutionFact) : result exn (list (string * Z)) :=
  foldM count_category [] fs.

(** ** Evidence *)

Section WithBytes.
Context `{Bytes}.
Definition save_execution_napkin_evidence (tender_id : Z) (kind bytes mime corr : string) (s : ldb) : result exn (Z * ldb) :=
  raise_if negb (tender_exists (core_db s) tender_id) with IntegrityError "execution_napkin_evidence_tender_id_fkey" ;;
  raise_if bool_decide (kind ∉ ["photo"; "voice"]) with IntegrityError "execution_napkin_evidence_capture_kind_check" ;;
  let ' (i, t) := tbl_insert (evidence s) {| ne_tender_id := tender_id; capture_kind := kind; mime_type := mime;
    ne_checksum := checksum_of bytes; raw_bytes := bytes; ne_correlation_id := corr |} in
  Ok (i, with_evidence t s).
End WithBytes.
Definition get_execution_napkin_evidence (i : Z) (s : ldb) : result exn (Z * evidence_row) :=
  match tbl_get (evidence s) i with Some r => Ok (i, r) | None => Err NoResultFound end.

(** ** What the words of a capture refer to *)

Definition resolve_boqline_reference (lines : list BoqLine) (text : option string) : option BoqLine :=
  match text with
  | None => None
  | Some d =>
      if String.eqb d "" then None else
      let needle := py_lower (py_strip d) in
      if String.eqb needle "" then None
      else head (filter (λ l, str_contains needle (py_lower (description l)) = true) lines)
  end.
Definition resolve_vendor_reference (locks : list (Z * LockInRequirement)) (name : option string) : option Z :=
  match name with
  | None => None
  | Some n =>
      if String.eqb n "" then None else
      let needle := py_lower (py_strip n) in
      if String.eqb needle "" then None
      else (λ ir, li_vendor_id ir.2) <$> head (filter (λ ir, String.eqb (py_lower (py_strip (li_vendor_name ir.2))) needle = true) locks)
  end.

Definition category_to_event_type : list (string * string) :=
  [("downtime", "missed_deadline"); ("last_mile", "missed_deadline"); ("rework", "quality_complaint")].
Definition map_to_reputation_event_type (category : option string) (culprit : string) : option string :=
  match category with
  | Some c => if String.eqb culprit "vendor" then assoc c category_to_event_type else None
  | None => None
  end.

(** ** Reading a capture *)

(** What [generate] raises: its own error, the engine's, or another. *)
Inductive napkin_error := NapkinParseError (msg : string) | OcrEngineError (msg : string) | NapkinUncaught (e : exn).
Definition parse_error {A} (msg : string) : result napkin_error A := Err (NapkinParseError msg).
Definition is_none (v : json) : bool := match v with JNull => true | _ => false end.
Definition text_or_none (v : json) : option string := match v with JStr s => Some s | _ => None end.
Definition in_texts (v : json) (l : list string) : bool :=
  match v with JStr s => bool_decide (s ∈ l) | _ => false end.

(** One observation. [dict_get] is [obs.get]. *)
Definition check_text (obs : list (string * json)) (key : string) : result napkin_error unit :=
  let v := dict_get key obs in
  match v with
  | JNull | JStr _ => Ok ()
  | _ => parse_error ("observation has a non-string " +:+ py_repr key +:+ ": " +:+ json_repr v)
  end.
Definition fact_of_observation (tender_id evidence_id : Z) (lines : list BoqLine) (locks : list (Z * LockInRequirement))
    (fallback : string) (o : json) : result napkin_error ExecutionFact :=
  match o with
  | JObj obs =>
      let! _ := check_text obs "line_description" in
      let! _ := check_text obs "culprit_vendor_name" in
      let why := dict_get "deviation_reason" obs in
      raise_if negb (py_truthy why)
        with NapkinParseError ("observation is missing a non-empty 'deviation_reason': " +:+ json_repr o) ;;
      let culprit := dict_get "culprit_type" obs in
      raise_if negb (in_texts culprit CULPRIT_TYPES)
        with NapkinParseError ("observation has unknown culprit_type: " +:+ json_repr culprit) ;;
      let category := dict_get "deviation_category" obs in
      raise_if negb (is_none category) && negb (in_texts category DEVIATION_CATEGORIES)
        with NapkinParseError ("observation has unknown deviation_category: " +:+ json_repr category) ;;
      let is_vendor := py_eq culprit (JStr "vendor") in
      let vendor := dict_get "culprit_vendor_name" obs in
      raise_if is_vendor && negb (py_truthy vendor)
        with NapkinParseError "observation has culprit_type 'vendor' but no culprit_vendor_name" ;;
      let vendor_name := if is_vendor then text_or_none vendor else None in
      let matched := resolve_boqline_reference lines (text_or_none (dict_get "line_description" obs)) in
      let vendor_id := if is_vendor then resolve_vendor_reference locks vendor_name else None in
      let at_ := py_or (dict_get "observed_at" obs) (JStr fallback) in
      raise_if match at_ with JStr t => negb (is_ok (fromisoformat t)) | _ => true end
        with NapkinParseError ("observation has a non-ISO-8601 'observed_at': " +:+ json_repr at_) ;;
      let raw := dict_get "actual_qty" obs in
      let! actual :=
        match raw with
        | JNull => Ok None
        | _ => match decimal_of_json raw with
               | Ok q => Ok (Some q)
               | Err _ => parse_error ("observation has a non-numeric 'actual_qty': " +:+ json_repr raw)
               end
        end in
      map_err NapkinUncaught (make_fact
        {| ef_tender_id := tender_id; ef_line := source_line_id <$> matched; planned_qty := qty <$> matched; actual_qty := actual;
           deviation_reason := json_str why; deviation_category := text_or_none category;
           culprit_type := default "" (text_or_none culprit); culprit_vendor_name := vendor_name; culprit_vendor_id := vendor_id;
           evidence_source := "napkin-ocr:" +:+ py_str_Z evidence_id; observed_at := default "" (text_or_none at_) |})
  | _ => parse_error ("observation is not an object: " +:+ json_repr o)
  end.

(** [ocr] is the engine on the captured image; [json_loads] is [json.loads],
    with the text of a [JSONDecodeError]. *)
Definition of_engine (e : Ocr.ocr_error) : napkin_error :=
  match e with Ocr.OcrEngineError m => OcrEngineError m | Ocr.OcrRaised x => NapkinUncaught x end.
Definition generate (ocr : result Ocr.ocr_error string) (json_loads : string → result string json) (tender_id evidence_id : Z)
    (lines : list BoqLine) (locks : list (Z * LockInRequirement)) (fallback : string) : result napkin_error (list ExecutionFact) :=
  let! raw_text := map_err of_engine ocr in
  let! payload := map_err (λ m, NapkinParseError ("OCR output is not valid JSON: " +:+ m)) (json_loads raw_text) in
  match payload with
  | JObj p =>
      match dict_get "observations" p with
      | JArr l => mapM (fact_of_observation tender_id evidence_id lines locks fallback) l
      | _ => parse_error ("OCR output is missing an 'observations' list: " +:+ py_repr raw_text)
      end
  | _ => parse_error ("OCR output is missing an 'observations' list: " +:+ py_repr raw_text)
  end.
End WithText.
End ExecutionLedger.
