(* ===== verification/ExecutionApi.v ===== *)
(** * The routes of the execution ledger

    [apps/api_tender/routers/execution_ledger.py]. The submission of a capture
    writes its evidence, and the record of an unreadable one, in transactions of
    their own, so a route is a function to its response and the database that is
    committed; it also gives the reputation facts it sent to the vendor service,
    which stay sent when the transaction rolls back. *)

From stdpp Require Import base gmap sets strings list sorting.
From Stdlib Require Import ZArith Lia.
From S2P Require Import Prelude Json PyStr Decimal Datetime Query Api ExceptionQueue BoqLine TenderDb Idempotency Decisions DecisionApi ExecutionLedger Ocr.

Module ExecutionApi.
Import TenderDb Decisions DecisionApi ExecutionLedger.
#[local] Open Scope Z_scope.

Record NapkinSubmissionRequest := {
  ns_capture_kind : string; ns_mime_type : string; image_base64 : string; reputation_ttl_days : option Z }.
Record NapkinSubmissionResponse := { evidence_id : Z; parsed : bool; response_facts : list ExecutionFact }.
Record ReportReputationFactRequest := {
  rr_vendor_id : Z; rr_event_type : string; rr_project_ref : string; rr_source_ref : string; rr_observed_at : string; rr_ttl_days : Z }.

Section Routes.
Context `{PyText} `{Bytes} `{Columns}.
(** The correlation id bound to the request *)
Variable corr : string.

Definition ledger_log (i : Identity) (action object_type object_id : string) (s : ldb) : ldb :=
  with_core (log (Some corr) (subject i) action object_type object_id None (core_db s)) s.

Definition opt_repr (s : option string) : string := match s with Some t => py_repr t | None => "None" end.
Definition require_active_bid_decision (tender_id : Z) (d : ddb) : http unit :=
  let ty := get_latest_decision_type tender_id d in
  raise_if negb (match ty with Some t => is_bid t | None => false end)
    with api_error 409 "tender_not_decided_bid"
      ("tender " +:+ py_str_Z tender_id +:+ " has no active bid/conditional_bid decision (latest: " +:+ opt_repr ty +:+ ")") ;;
  Ok ().

(** ** POST /tenders/{tender_id}/execution-facts/napkin *)

(** [enqueue_exception] for a human, with no evidence reference *)
Definition enqueue (now : Z) (ty why correlation : string) (s : ldb) : result exn ldb :=
  let d := core_db s in
  let t := tender_db d in
  match Exceptions.enqueue_exception (exists_in (snapshots t)) now "execution-ledger" ty "needs_human" why correlation None None (exceptions t) with
  | Ok (_, e) => Ok (with_core (Ddb (set_exceptions e t) (idem d) (audit d) (inputs d) (candidates d) (decisions d) (lock_ins d)) s)
  | Err (Exceptions.ConstraintViolated c) => Err (IntegrityError c)
  | Err _ => Err (IntegrityError "")
  end.

(** The vendor service's answer to a report: accepted, or the text of a
    [VendorApiError] *)
Variable report : ReportReputationFactRequest → result string unit.

(** What a fact means for the reputation of its vendor: nothing, a report, or a
    gap for a human *)
Definition feed_fact (now tender_id : Z) (ttl : option Z) (index : nat) (f : ExecutionFact) (s : ldb)
    : list ReportReputationFactRequest * result exn ldb :=
  match map_to_reputation_event_type (deviation_category f) (culprit_type f) with
  | None => ([], Ok s)
  | Some event =>
      let key := corr +:+ ":" +:+ py_str_Z (Z.of_nat index) in
      match culprit_vendor_id f, ttl with
      | None, _ =>
          ([], enqueue now "vendor_reputation_unresolved_vendor"
            ("vendor culprit " +:+ opt_repr (culprit_vendor_name f) +:+ " on tender " +:+ py_str_Z tender_id +:+
             " did not resolve to any lock-in requirement's vendor_id; reputation event (" +:+ event +:+ ") not reported") key s)
      | Some v, None =>
          ([], enqueue now "vendor_reputation_ttl_missing"
            ("vendor " +:+ py_str_Z v +:+ " reputation fact (" +:+ event +:+
             ") ready but reputation_ttl_days was not supplied (TBD-TIS-01)") key s)
      | Some v, Some days =>
          let r := {| rr_vendor_id := v; rr_event_type := event; rr_project_ref := py_str_Z tender_id;
                      rr_source_ref := evidence_source f; rr_observed_at := observed_at f; rr_ttl_days := days |} in
          ([r], match report r with
                | Ok _ => Ok s
                | Err e =>
                    enqueue now "vendor_reputation_feed_failed"
                      ("could not report reputation fact for vendor " +:+ py_str_Z v +:+ ": " +:+ e) key s
                end)
      end
  end.
(** The body of the loop and the loop: what was sent stays sent when a later
    statement fails. *)
Definition take_fact (now tender_id : Z) (ttl : option Z) (sent : list ReportReputationFactRequest) (s : ldb) (x : nat * ExecutionFact)
    : list ReportReputationFactRequest * result exn ldb :=
  match store_execution_fact x.2 s with
  | Err e => (sent, Err e)
  | Ok (_, s1) => let ' (more, r) := feed_fact now tender_id ttl x.1 x.2 s1 in (sent ++ more, r)
  end.
Fixpoint take_facts (now tender_id : Z) (ttl : option Z) (sent : list ReportReputationFactRequest) (s : ldb) (l : list (nat * ExecutionFact))
    : list ReportReputationFactRequest * result exn ldb :=
  match l with
  | [] => (sent, Ok s)
  | x :: l' =>
      match take_fact now tender_id ttl sent s x with
      | (sent', Ok s') => take_facts now tender_id ttl sent' s' l'
      | (sent', Err e) => (sent', Err e)
      end
  end.

(** [ocr]: the engine on an image, [None] when none is configured.
    [fallback]: the text of the present instant. *)
Definition napkin_lines (tender_id : Z) (s : ldb) : result exn (list BoqLine) :=
  let t := tender_db (core_db s) in
  let! event := get_event_id_for_tender t tender_id in
  Ok (match event with Some e => list_boq_lines_by_event "etender" e t | None => [] end).

(** The engine of the route: one injected by a test, or the one configured *)
Definition capture_engine (post : string → json → result Ocr.post_error Ocr.response) (json_of : Ocr.response → result string json)
    (ocr_engine_override : option (string → string → result Ocr.ocr_error string)) (environ : gmap string string)
    : option (string → string → result Ocr.ocr_error string) :=
  match ocr_engine_override with
  | Some engine => Some engine
  | None => match Ocr.configured_engine environ with
            | Some (Ok e) => Some (Ocr.parse_document post json_of e)
            | _ => None
            end
  end.

Section Submission.
Variable b64decode : string → result exn string.
Variable json_loads : string → result string json.
Variable ocr : option (string → string → result Ocr.ocr_error string).

Definition submit_napkin_capture (now : Z) (fallback : string) (i : Identity) (tender_id : Z) (b : NapkinSubmissionRequest) (s : ldb)
    : http NapkinSubmissionResponse * ldb * list ReportReputationFactRequest :=
  let fail {A} (e : http_error exn) (s' : ldb) : http A * ldb * list ReportReputationFactRequest := (Err e, s', []) in
  match require_permission "decision.execution_facts.create" i with Err e => fail e s | Ok _ =>
  match require_active_bid_decision tender_id (core_db s) with Err e => fail e s | Ok _ =>
  match b64decode (image_base64 b) with Err e => fail (Uncaught e) s | Ok bytes =>
  match save_execution_napkin_evidence tender_id (ns_capture_kind b) bytes (ns_mime_type b) corr s with Err e => fail (Uncaught e) s | Ok (ev, s1) =>
  (* the evidence is committed *)
  if String.eqb (ns_capture_kind b) "voice" then
    (Ok {| evidence_id := ev; parsed := false; response_facts := [] |},
     ledger_log i "execution_facts.create" "execution_napkin_evidence" (py_str_Z ev) s1, [])
  else
  match ocr with None => fail (api_error 503 "ocr_not_configured" "OCR_MODEL_NAME is not set") s1 | Some engine =>
  match napkin_lines tender_id s1 with Err e => fail (Uncaught e) s1 | Ok lines =>
  match generate (engine bytes (ns_mime_type b)) json_loads tender_id ev lines
          (list_lock_in_requirements_by_tender tender_id (core_db s1)) fallback with
  | Err (NapkinUncaught e) => fail (Uncaught e) s1
  | Err (NapkinParseError m) | Err (OcrEngineError m) =>
      match enqueue now "napkin_unrecognized" m corr s1 with
      | Err e => fail (Uncaught e) s1
      | Ok s2 => fail (api_error 422 "napkin_unrecognized" m) s2
      end
  | Ok drafts =>
      match take_facts now tender_id (reputation_ttl_days b) [] s1 (imap pair drafts) with
      | (sent, Err e) => (Err (Uncaught e), s1, sent)
      | (sent, Ok s2) =>
          (Ok {| evidence_id := ev; parsed := true; response_facts := drafts |},
           ledger_log i "execution_facts.create" "execution_napkin_evidence" (py_str_Z ev) s2, sent)
      end
  end end end end end end end.
End Submission.

(** ** The reads and POST /tenders/{tender_id}/close-project *)

Definition get_execution_facts (i : Identity) (tender_id : Z) (s : ldb) : http (list (Z * (ExecutionFact * Z)) * ldb) :=
  let! _ := require_permission "decision.execution_facts.read" i in
  Ok (list_execution_facts_by_tender tender_id s, s).

Record ExecutionSummaryResponse := { plan_fact_deltas : list PlanFactDelta; deviation_category_counts : list (string * Z) }.
Definition facts_of (tender_id : Z) (s : ldb) : list ExecutionFact := map (λ ir, ir.2.1) (list_execution_facts_by_tender tender_id s).
Definition build_summary (tender_id : Z) (s : ldb) : result exn ExecutionSummaryResponse :=
  let! deltas := summarize_plan_fact_deltas (facts_of tender_id s) in
  let! counts := summarize_deviation_category_counts (facts_of tender_id s) in
  Ok {| plan_fact_deltas := deltas; deviation_category_counts := counts |}.
Definition get_execution_summary (i : Identity) (tender_id : Z) (s : ldb) : http (ExecutionSummaryResponse * ldb) :=
  let! _ := require_permission "decision.execution_facts.read" i in
  let! r := uncaught (build_summary tender_id s) in
  Ok (r, s).

Definition contribute (now tender_id : Z) (s : ldb) (x : string * Z) : result exn ldb :=
  let! ' (_, s') := store_overhead_buffer_contribution tender_id x.1 x.2 now s in Ok s'.
Definition contributions_of (tender_id : Z) (s : ldb) : list (Z * contribution_row) :=
  tbl_select (λ _ r, oc_tender_id r =? tender_id) (contributions s).
Definition close_project (now : Z) (i : Identity) (tender_id : Z) (s : ldb) : http (ExecutionSummaryResponse * ldb) :=
  let! _ := require_permission "decision.execution_facts.close_project" i in
  let! _ := require_active_bid_decision tender_id (core_db s) in
  raise_if match contributions_of tender_id s with [] => false | _ => true end
    with api_error 409 "project_already_closed" ("tender " +:+ py_str_Z tender_id +:+ " has already been closed") ;;
  let! r := uncaught (build_summary tender_id s) in
  let! s1 := uncaught (foldM (contribute now tender_id) s (deviation_category_counts r)) in
  Ok (r, ledger_log i "execution_ledger.close_project" "tender" (py_str_Z tender_id) s1).

Definition get_organization_execution_history (i : Identity) (voen : string) (s : ldb) : http (list (Z * (ExecutionFact * Z)) * ldb) :=
  let! _ := require_permission "decision.execution_facts.read" i in
  Ok (list_execution_facts_by_organization_voen voen s, s).
End Routes.

(** ** What a capture is read as *)

Section Reading.
Context `{PyText}.

(** A fact that was read from a capture *)
Record read_ok (tender_id evidence_id : Z) (lines : list BoqLine) (locks : list (Z * LockInRequirement)) (f : ExecutionFact) : Prop := {
  ro_tender : ef_tender_id f = tender_id;
  ro_source : evidence_source f = "napkin-ocr:" +:+ py_str_Z evidence_id;
  ro_culprit : culprit_type f ∈ CULPRIT_TYPES;
  ro_category : ∀ c, deviation_category f = Some c → c ∈ DEVIATION_CATEGORIES;
  ro_vendor : culprit_type f = "vendor" ↔ is_Some (culprit_vendor_name f);
  ro_vendor_id : ∀ v, culprit_vendor_id f = Some v → ∃ n i l, culprit_vendor_name f = Some n ∧ (i, l) ∈ locks ∧
    li_vendor_id l = v ∧ py_lower (py_strip (li_vendor_name l)) = py_lower (py_strip n);
  ro_plan : (ef_line f = None ∧ planned_qty f = None) ∨
    ∃ l, l ∈ lines ∧ ef_line f = Some (source_line_id l) ∧ planned_qty f = Some (qty l);
  ro_time : ∃ t, fromisoformat (observed_at f) = Ok t }.

Lemma resolve_vendor_spec locks n v : resolve_vendor_reference locks (Some n) = Some v →
  ∃ i l, (i, l) ∈ locks ∧ li_vendor_id l = v ∧ py_lower (py_strip (li_vendor_name l)) = py_lower (py_strip n).
Proof.
  simpl. destruct (String.eqb n ""); [done|]. destruct (String.eqb (py_lower (py_strip n)) ""); [done|].
  destruct (filter _ locks) as [|[i l] k] eqn:Hf; [done|]. intros [= <-]. exists i, l.
  assert ((i, l) ∈ filter (λ ir, String.eqb (py_lower (py_strip (li_vendor_name ir.2))) (py_lower (py_strip n)) = true) locks) as Hin
    by (rewrite Hf; by left).
  apply list_elem_of_filter in Hin as [He Hin]. simpl in He. apply String.eqb_eq in He. done.
Qed.
Lemma resolve_line_spec lines text l : resolve_boqline_reference lines text = Some l → l ∈ lines.
Proof.
  destruct text as [d|]; [|done]. simpl. destruct (String.eqb d ""); [done|]. destruct (String.eqb _ ""); [done|].
  destruct (filter _ lines) as [|l' k] eqn:Hf; [done|]. intros [= ->].
  assert (l ∈ filter (λ l, str_contains (py_lower (py_strip d)) (py_lower (description l)) = true) lines) as Hin by (rewrite Hf; by left).
  by apply list_elem_of_filter in Hin as [_ Hin].
Qed.

Lemma make_fact_ok f g : make_fact f = Ok g → g = f ∧ culprit_type f ∈ CULPRIT_TYPES ∧
  (∀ c, deviation_category f = Some c → c ∈ DEVIATION_CATEGORIES) ∧ (culprit_type f = "vendor" ↔ is_Some (culprit_vendor_name f)) ∧
  (is_Some (culprit_vendor_id f) → culprit_type f = "vendor").
Proof.
  unfold make_fact. case_bool_decide as Hc; [done|]. destruct (deviation_category f) as [c|] eqn:Hcat.
  - case_bool_decide as Hd; [done|]. destruct (String.eqb_spec (culprit_type f) "vendor") as [Hv|Hv].
    + destruct (culprit_vendor_name f) as [n|]; [|done]. destruct (String.eqb n ""); [done|]. intros [= <-].
      split_and!; [done|done|by intros ? [= <-]|by split|done].
    + destruct (culprit_vendor_name f); [done|]. destruct (culprit_vendor_id f); [done|]. intros [= <-].
      split_and!; [done|done|by intros ? [= <-]|split; [done|by intros [? ?]]|by intros [? ?]].
  - destruct (String.eqb_spec (culprit_type f) "vendor") as [Hv|Hv].
    + destruct (culprit_vendor_name f) as [n|]; [|done]. destruct (String.eqb n ""); [done|]. intros [= <-]. by split_and!.
    + destruct (culprit_vendor_name f); [done|]. destruct (culprit_vendor_id f); [done|]. intros [= <-].
      split_and!; [done|done|done|split; [done|by intros [? ?]]|by intros [? ?]].
Qed.

Lemma fact_of_observation_ok tender_id ev lines locks fallback o f :
  fact_of_observation tender_id ev lines locks fallback o = Ok f → read_ok tender_id ev lines locks f.
Proof.
  unfold fact_of_observation. destruct o as [| | | | | |obs]; try done. cbv zeta.
  intros ([] & _ & Hr)%rbind_ok. apply rbind_ok in Hr as ([] & _ & Hr).
  destruct (negb (py_truthy _)); [done|]. destruct (negb (in_texts _ CULPRIT_TYPES)); [done|].
  destruct (negb (is_none _) && _); [done|]. destruct (_ && negb (py_truthy _)); [done|].
  destruct (match py_or _ _ with JStr t => negb (is_ok (fromisoformat t)) | _ => true end) eqn:Ht; [done|].
  apply rbind_ok in Hr as (actual & _ & Hr). apply map_err_ok, make_fact_ok in Hr as (-> & Hc & Hcat & Hv & Hid). simpl in *.
  split; simpl; [done|done|done|done|done| | |].
  - intros v Hvid. destruct (py_eq _ _); [|done]. destruct (text_or_none (dict_get "culprit_vendor_name" obs)) as [n|]; [|done].
    apply resolve_vendor_spec in Hvid as (i & l & Hl). by exists n, i, l.
  - destruct (resolve_boqline_reference _ _) as [l|] eqn:Hl; [right|by left]. exists l. split; [by eapply resolve_line_spec|done].
  - destruct (py_or _ _) as [| | | |t| |]; try done. simpl. destruct (fromisoformat t) as [x|]; [by exists x|done].
Qed.

(** A capture is read whole or not at all: every observation of the engine's
    answer gives one fact, in order, of known types, whose plan is the quantity
    of a BOQ line of the tender and never comes from the capture, whose vendor is
    named exactly for a vendor culprit and identified only by a lock-in of that
    name, and whose time reads as one. *)
Theorem capture_read ocr json_loads tender_id ev lines locks fallback fs :
  generate ocr json_loads tender_id ev lines locks fallback = Ok fs ↔
  ∃ raw p l, ocr = Ok raw ∧ json_loads raw = Ok (JObj p) ∧ dict_get "observations" p = JArr l ∧
    Forall2 (λ o f, fact_of_observation tender_id ev lines locks fallback o = Ok f ∧ read_ok tender_id ev lines locks f) l fs.
Proof.
  unfold generate. split.
  - intros (raw & Hraw & Hr)%rbind_ok. apply map_err_ok in Hraw. apply rbind_ok in Hr as (payload & Hp & Hr). apply map_err_ok in Hp.
    destruct payload as [| | | | | |p]; try done. destruct (dict_get "observations" p) as [| | | | |l|] eqn:Hobs; try done.
    exists raw, p, l. split_and!; [done..|]. apply mapM_Forall2 in Hr. eapply Forall2_impl; [exact Hr|].
    intros o f Hf. split; [exact Hf|]. exact (fact_of_observation_ok _ _ _ _ _ _ _ Hf).
  - intros (raw & p & l & -> & Hj & Hobs & Hl). simpl. rewrite Hj. simpl. rewrite Hobs. apply mapM_Forall2.
    eapply Forall2_impl; [exact Hl|]. by intros o f [Hf _].
Qed.
End Reading.

(** ** Recording a capture *)

(** An open item of the ledger for a correlation id *)
Definition open_for (key : string) (s : ldb) : Prop :=
  ∃ i x, (i, x) ∈ rows (exceptions (tender_db (core_db s))) ∧ Exceptions.source x = "execution-ledger" ∧
    Exceptions.correlation_id x = key ∧ Exceptions.is_open x = true.
(** Only the exception queue is different, and it lost nothing. *)
Record queued (s s' : ldb) : Prop := {
  qu_evidence : evidence s' = evidence s;
  qu_facts : facts s' = facts s;
  qu_contributions : contributions s' = contributions s;
  qu_tenders : tenders (tender_db (core_db s')) = tenders (tender_db (core_db s));
  qu_audit : audit (core_db s') = audit (core_db s);
  qu_exceptions : rows (exceptions (tender_db (core_db s))) `prefix_of` rows (exceptions (tender_db (core_db s'))) }.
#[export] Instance queued_preorder : PreOrder queued.
Proof.
  split; [by intros s; constructor|]. intros s1 s2 s3 [] []. constructor; [congruence..|by etrans].
Qed.
Lemma open_for_later key s s' : rows (exceptions (tender_db (core_db s))) `prefix_of` rows (exceptions (tender_db (core_db s'))) →
  open_for key s → open_for key s'.
Proof. intros [k Hk] (i & x & Hin & Hx). exists i, x. rewrite Hk. split; [apply elem_of_app; by left|done]. Qed.

Lemma enqueue_spec now ty why key s : ∃ s', enqueue now ty why key s = Ok s' ∧ queued s s' ∧ open_for key s'.
Proof.
  unfold enqueue, Exceptions.enqueue_exception, Exceptions.open_records, Exceptions.insert_exception. destruct (tbl_select _ (exceptions _)) as [|[i x] l] eqn:Hs.
  - rewrite (bool_decide_false ("needs_human" ∉ _)) by (intros Hn; apply Hn; concrete_mem). eexists. split; [done|].
    split; [by constructor; simpl; try apply prefix_app_r|]. eexists _, _. simpl. split; [apply elem_of_app; right; by left|]. done.
  - eexists. split; [done|]. split; [by constructor|]. exists i, x.
    assert ((i, x) ∈ tbl_select (λ _ r, Exceptions.same_key "execution-ledger" ty key r) (exceptions (tender_db (core_db s))))
      as [Hk Hin]%elem_of_tbl_select by (rewrite Hs; by left).
    unfold Exceptions.same_key in Hk. rewrite !andb_true_iff, !String.eqb_eq in Hk. simpl. naive_solver.
Qed.

Section Recording.
Context `{PyText} `{Bytes} `{Columns}.
Variable corr : string.
Variable report : ReportReputationFactRequest → result string unit.

Definition fact_key (k : nat) : string := corr +:+ ":" +:+ py_str_Z (Z.of_nat k).
(** A fact that counts against a vendor was reported, or is open for a human. *)
Definition accounted (sent : list ReportReputationFactRequest) (s : ldb) (k : nat) (f : ExecutionFact) : Prop :=
  ∀ event, map_to_reputation_event_type (deviation_category f) (culprit_type f) = Some event →
    (∃ r, r ∈ sent ∧ report r = Ok () ∧ culprit_vendor_id f = Some (rr_vendor_id r) ∧ rr_event_type r = event ∧
       rr_source_ref r = evidence_source f) ∨
    open_for (fact_key k) s.

Lemma accounted_later sent sent' s s' k f : (∀ r, r ∈ sent → r ∈ sent') →
  rows (exceptions (tender_db (core_db s))) `prefix_of` rows (exceptions (tender_db (core_db s'))) →
  accounted sent s k f → accounted sent' s' k f.
Proof.
  intros Hs Hp Ha event [(r & Hr & Hx)|Ho]%Ha; [left; exists r; by auto|right]. by eapply open_for_later.
Qed.

(** The report a fact gives rise to *)
Definition report_for (tender_id : Z) (ttl : option Z) (f : ExecutionFact) : option ReportReputationFactRequest :=
  match map_to_reputation_event_type (deviation_category f) (culprit_type f), culprit_vendor_id f, ttl with
  | Some event, Some v, Some days =>
      Some {| rr_vendor_id := v; rr_event_type := event; rr_project_ref := py_str_Z tender_id;
              rr_source_ref := evidence_source f; rr_observed_at := observed_at f; rr_ttl_days := days |}
  | _, _, _ => None
  end.
Lemma feed_fact_spec now tender_id ttl k f s : ∃ s',
  feed_fact corr report now tender_id ttl k f s = (option_list (report_for tender_id ttl f), Ok s') ∧
  queued s s' ∧ accounted (option_list (report_for tender_id ttl f)) s' k f.
Proof.
  unfold feed_fact, accounted, report_for. destruct (map_to_reputation_event_type _ _) as [event|]; [|by exists s].
  assert (∀ sent ty why, ∃ s', (sent, enqueue now ty why (fact_key k) s) = (sent : list ReportReputationFactRequest, Ok s') ∧
    queued s s' ∧ open_for (fact_key k) s') as Hgap.
  { intros sent ty why. destruct (enqueue_spec now ty why (fact_key k) s) as (s' & -> & Hq & Ho). by exists s'. }
  destruct (culprit_vendor_id f) as [v|]; [|match goal with |- context [enqueue _ ?ty ?why] => destruct (Hgap [] ty why) as (s' & Hr & Hq & Ho) end;
    exists s'; split; [exact Hr|]; by auto].
  destruct ttl as [days|]; [|match goal with |- context [enqueue _ ?ty ?why] => destruct (Hgap [] ty why) as (s' & Hr & Hq & Ho) end;
    exists s'; split; [exact Hr|]; by auto].
  destruct (report _) as [[]|e] eqn:Hrep.
  - exists s. split; [done|]. split; [done|]. intros ev [= <-]. left. eexists. split; [by left|]. by rewrite Hrep.
  - match goal with |- context [enqueue _ ?ty ?why] => destruct (enqueue_spec now ty why (fact_key k) s) as (s' & Hr & Hq & Ho) end.
    unfold fact_key in Hr. rewrite Hr. exists s'. split; [done|]. by auto.
Qed.

(** What the loop over the facts leaves *)
Record took (s : ldb) (dn : list (nat * ExecutionFact)) (a : list ReportReputationFactRequest * ldb) : Prop := {
  tk_evidence : evidence a.2 = evidence s;
  tk_contributions : contributions a.2 = contributions s;
  tk_tenders : tenders (tender_db (core_db a.2)) = tenders (tender_db (core_db s));
  tk_audit : audit (core_db a.2) = audit (core_db s);
  tk_exceptions : rows (exceptions (tender_db (core_db s))) `prefix_of` rows (exceptions (tender_db (core_db a.2)));
  tk_facts : map (λ ir, ir.2.1) (rows (facts a.2)) = map (λ ir, ir.2.1) (rows (facts s)) ++ map snd dn;
  tk_accounted : ∀ k f, (k, f) ∈ dn → accounted a.1 a.2 k f }.

Lemma take_fact_took now tender_id ev lines locks ttl s dn sent s0 k f : tender_exists (core_db s) tender_id = true →
  read_ok tender_id ev lines locks f → took s dn (sent, s0) →
  match column_error f with
  | Some e => take_fact corr report now tender_id ttl sent s0 (k, f) = (sent, Err e)
  | None => ∃ s', take_fact corr report now tender_id ttl sent s0 (k, f) = (sent ++ option_list (report_for tender_id ttl f), Ok s') ∧
      took s (dn ++ [(k, f)]) (sent ++ option_list (report_for tender_id ttl f), s')
  end.
Proof.
  intros Ht Hf [He Hc Hts Hau Hex Hfs Hacc]. simpl in *. unfold take_fact. simpl.
  unfold store_execution_fact. destruct (ro_time _ _ _ _ _ Hf) as [t ->]. simpl. destruct (column_error f); [done|]. simpl.
  replace (tender_exists (core_db s0) (ef_tender_id f)) with true
    by (rewrite (ro_tender _ _ _ _ _ Hf), <-Ht; unfold tender_exists; by rewrite Hts).
  simpl. replace (match deviation_category f with Some c => bool_decide (c ∉ DEVIATION_CATEGORIES) | None => false end) with false.
  2:{ destruct (deviation_category f) as [c|] eqn:Hcat; [|done]. symmetry. apply bool_decide_eq_false. intros Hn.
      by apply Hn, (ro_category _ _ _ _ _ Hf). }
  rewrite (bool_decide_false (culprit_type f ∉ _)) by (intros Hn; apply Hn, Hf).
  match goal with |- context [feed_fact _ _ _ _ _ _ _ ?x] => set (s1 := x) end.
  destruct (feed_fact_spec now tender_id ttl k f s1) as (s2 & Hr & [Q1 Q2 Q3 Q4 Q5 Q6] & Ha).
  rewrite Hr. exists s2. split; [done|]. subst s1. simpl in *. split; simpl.
  - congruence.
  - congruence.
  - congruence.
  - congruence.
  - by etrans.
  - rewrite Q2. simpl. rewrite !map_app, Hfs. simpl. by rewrite <-app_assoc.
  - intros k' f' [Hin|[= -> ->]%list_elem_of_singleton]%elem_of_app.
    + eapply accounted_later; [|exact Q6|by apply Hacc]. intros r Hr'. apply elem_of_app. by left.
    + eapply accounted_later; [|reflexivity|exact Ha]. intros r Hr'. apply elem_of_app. by right.
Qed.

Lemma took_nil s : took s [] ([], s).
Proof. split; simpl; try done; [by rewrite app_nil_r|]. intros k f Hin. by apply elem_of_nil in Hin. Qed.
(** The loop stores every fact, or stops at the first that a column refuses. *)
Lemma take_facts_took now tender_id ev lines locks ttl s rest dn s0 : tender_exists (core_db s) tender_id = true →
  Forall (read_ok tender_id ev lines locks) (map snd rest) → Forall (λ f, column_error f = None) (map snd dn) →
  took s dn (omap (report_for tender_id ttl) (map snd dn), s0) →
  match take_facts corr report now tender_id ttl (omap (report_for tender_id ttl) (map snd dn)) s0 rest with
  | (sent, Ok s') => sent = omap (report_for tender_id ttl) (map snd (dn ++ rest)) ∧ took s (dn ++ rest) (sent, s')
  | (sent, Err x) => ∃ before f after, map snd (dn ++ rest) = before ++ f :: after ∧ column_error f = Some x ∧
      Forall (λ g, column_error g = None) before ∧ sent = omap (report_for tender_id ttl) before
  end.
Proof.
  intros Ht. revert dn s0. induction rest as [|[k f] rest IH]; intros dn s0 Hall Hok Htook; [by rewrite app_nil_r|].
  simpl in Hall. inversion_clear Hall as [|? ? Hf Hrest]. pose proof (take_fact_took now tender_id ev lines locks ttl s dn _ s0 k f Ht Hf Htook) as Hstep.
  simpl. destruct (column_error f) as [e|] eqn:Hcol.
  - rewrite Hstep. exists (map snd dn), f, (map snd rest). rewrite map_app. by split_and!.
  - destruct Hstep as (s1 & -> & Htook1).
    assert (omap (report_for tender_id ttl) (map snd dn) ++ option_list (report_for tender_id ttl f) =
      omap (report_for tender_id ttl) (map snd (dn ++ [(k, f)]))) as Hsent
      by (rewrite map_app, omap_app; simpl; by destruct (report_for tender_id ttl f)).
    rewrite Hsent in Htook1 |- *. specialize (IH (dn ++ [(k, f)]) s1 Hrest). rewrite <-app_assoc in IH. apply IH; [|done].
    rewrite map_app. apply Forall_app. split; [done|]. by constructor.
Qed.

Lemma imap_pair_snd {A} (l : list A) : map snd (imap pair l) = l.
Proof. change (snd <$> imap pair l = l). rewrite fmap_imap. apply list_eq. intros i. rewrite list_lookup_imap. by destruct (l !! i). Qed.

(** C26: a submitted capture of a tender with an active bid is kept as evidence,
    byte for byte, whatever becomes of the rest. A success says that its facts
    were stored in order and logged, and that every fact that counts against a
    vendor was accepted by the vendor service or is open for a human under the
    fact's own key. A refusal stores no fact: with 422, for a capture that is
    refused as unreadable or an error of the engine, an item for the request is
    open; with 503 no engine is configured; an error no one expected, of the reading
    or of a fact that a column cannot hold, leaves no item, but the reports of the
    facts before that one have been sent. *)
Theorem capture_survives b64decode json_loads ocr now fallback i tender_id b s bytes r s' sent :
  "decision.execution_facts.create" ∈ permissions i → require_active_bid_decision tender_id (core_db s) = Ok () →
  b64decode (image_base64 b) = Ok bytes → ns_capture_kind b ∈ ["photo"; "voice"] → tender_exists (core_db s) tender_id = true →
  submit_napkin_capture corr report b64decode json_loads ocr now fallback i tender_id b s = (r, s', sent) →
  rows (evidence s') = rows (evidence s) ++ [(next_id (evidence s),
    {| ne_tender_id := tender_id; capture_kind := ns_capture_kind b; mime_type := ns_mime_type b; ne_checksum := sha256_hex bytes;
       raw_bytes := bytes; ne_correlation_id := corr |})] ∧
  contributions s' = contributions s ∧
  match r with
  | Ok resp =>
      evidence_id resp = next_id (evidence s) ∧ parsed resp = negb (String.eqb (ns_capture_kind b) "voice") ∧
      map (λ ir, ir.2.1) (rows (facts s')) = map (λ ir, ir.2.1) (rows (facts s)) ++ response_facts resp ∧
      (∀ k f, response_facts resp !! k = Some f → accounted sent s' k f) ∧
      sent = omap (report_for tender_id (reputation_ttl_days b)) (response_facts resp) ∧
      ∃ a, rows (audit (core_db s')) = rows (audit (core_db s)) ++ [a] ∧ Audit.au_action a.2 = "execution_facts.create" ∧
        Audit.au_object_id a.2 = py_str_Z (next_id (evidence s)) ∧ Audit.au_actor a.2 = subject i
  | Err e =>
      facts s' = facts s ∧ audit (core_db s') = audit (core_db s) ∧
      match e with
      | Api a => sent = [] ∧ (status_code a = 503 ∧ ocr = None ∨ status_code a = 422 ∧ open_for corr s')
      | Uncaught x => core_db s' = core_db s ∧
          (sent = [] ∧ napkin_lines tender_id s = Err x ∨
           ∃ lines engine, napkin_lines tender_id s = Ok lines ∧ ocr = Some engine ∧
             match generate (engine bytes (ns_mime_type b)) json_loads tender_id (next_id (evidence s)) lines
                     (list_lock_in_requirements_by_tender tender_id (core_db s)) fallback with
             | Err e => e = NapkinUncaught x ∧ sent = []
             | Ok drafts => ∃ before f after, drafts = before ++ f :: after ∧ column_error f = Some x ∧
                 Forall (λ g, column_error g = None) before ∧ sent = omap (report_for tender_id (reputation_ttl_days b)) before
             end)
      end
  end.
Proof.
  intros Hp Hbid Hb64 Hkind Ht. unfold submit_napkin_capture. cbv zeta. rewrite (proj2 (require_permission_ok _ i i)) by done.
  rewrite Hbid, Hb64. unfold save_execution_napkin_evidence. rewrite Ht. simpl negb. cbv iota.
  rewrite (bool_decide_false (ns_capture_kind b ∉ _)) by (intros Hn; by apply Hn).
  unfold tbl_insert at 1. cbv iota beta. match goal with |- context [with_evidence ?t s] => set (s1 := with_evidence t s) end.
  assert (rows (evidence s1) = rows (evidence s) ++ [(next_id (evidence s),
    {| ne_tender_id := tender_id; capture_kind := ns_capture_kind b; mime_type := ns_mime_type b; ne_checksum := sha256_hex bytes;
       raw_bytes := bytes; ne_correlation_id := corr |})]) as Hev by done.
  destruct (String.eqb (ns_capture_kind b) "voice") eqn:Hvoice.
  { intros [= <- <- <-]. simpl. split; [done|]. split; [done|]. split_and!; [done|done|by rewrite app_nil_r|done|done|].
    eexists. split; [done|]. done. }
  destruct ocr as [engine|]; [|intros [= <- <- <-]; split_and!; simpl; auto].
  change (napkin_lines tender_id s1) with (napkin_lines tender_id s).
  destruct (napkin_lines tender_id s) as [lines|x] eqn:Hlines; [|intros [= <- <- <-]; split_and!; simpl; auto].
  change (core_db s1) with (core_db s). destruct (generate _ _ _ _ _ _ _) as [drafts|e] eqn:Hg.
  - pose proof Hg as (raw & p & l & _ & _ & _ & Hl)%capture_read.
    assert (Forall (read_ok tender_id (next_id (evidence s)) lines (list_lock_in_requirements_by_tender tender_id (core_db s)))
      (map snd (imap pair drafts))) as Hread.
    { rewrite imap_pair_snd. eapply Forall2_Forall_r; [exact Hl|]. apply Forall_forall. by intros o _ f [_ Hf]. }
    pose proof (take_facts_took now tender_id _ lines _ (reputation_ttl_days b) s1 (imap pair drafts) [] s1 Ht Hread (Forall_nil_2 _)) as Htake.
    simpl in Htake. rewrite imap_pair_snd in Htake. destruct (take_facts _ _ _ _ _ _ _ _) as [sent2 [s2|x]].
    2:{ intros [= <- <- <-]. destruct Htake as (before & f & after & Hd & Hrest); [by apply took_nil|]. split_and!; try done.
        right. exists lines, engine. split_and!; try done. rewrite Hg. by exists before, f, after. }
    destruct Htake as [Hsent [T1 T2 T3 T4 T5 T6 T7]]; [by apply took_nil|]. intros [= <- <- <-]. simpl in *. rewrite T1, T2, T4. split; [done|]. split; [done|].
    split_and!; [done|done|by rewrite T6, imap_pair_snd| |done|eexists; split; [done|done]].
    intros k f Hk. apply (accounted_later sent2 sent2 s2); [done|done|]. apply T7. exact (elem_of_lookup_imap_2 pair drafts f k Hk).
  - assert (∀ m, (match enqueue now "napkin_unrecognized" m corr s1 with
                  | Err e => (Err (Uncaught e), s1, []) | Ok s2 => (Err (api_error 422 "napkin_unrecognized" m), s2, []) end) = (r, s', sent) →
        rows (evidence s') = rows (evidence s1) ∧ contributions s' = contributions s ∧
        ∃ a, r = Err (Api a) ∧ facts s' = facts s ∧ audit (core_db s') = audit (core_db s) ∧ sent = [] ∧ status_code a = 422 ∧ open_for corr s') as Hgap.
    { intros m. destruct (enqueue_spec now "napkin_unrecognized" m corr s1) as (s2 & -> & [] & Ho). intros [= <- <- <-].
      split; [congruence|]. split; [done|]. eexists. split; [done|]. by split_and!. }
    destruct e as [m|m|x]; [intros (He & Hc & a & -> & Hrest)%Hgap| intros (He & Hc & a & -> & Hrest)%Hgap|].
    1,2: rewrite He; split; [exact Hev|]; split; [exact Hc|]; naive_solver.
    intros [= <- <- <-]. split; [done|]. split; [done|]. split_and!; [done..|]. right. exists lines, engine. split_and!; try done. by rewrite Hg.
Qed.

(** When the engine raises anything but its own error, the image is kept but
    nothing is recorded for a human. *)
Lemma engine_escape_unrecorded b64decode json_loads engine now fallback i tender_id b s bytes lines x :
  "decision.execution_facts.create" ∈ permissions i → require_active_bid_decision tender_id (core_db s) = Ok () →
  b64decode (image_base64 b) = Ok bytes → ns_capture_kind b = "photo" → tender_exists (core_db s) tender_id = true →
  napkin_lines tender_id s = Ok lines → engine bytes (ns_mime_type b) = Err (Ocr.OcrRaised x) →
  ∃ s', submit_napkin_capture corr report b64decode json_loads (Some engine) now fallback i tender_id b s = (Err (Uncaught x), s', []) ∧
    core_db s' = core_db s ∧ facts s' = facts s.
Proof.
  intros Hp Hbid Hb64 Hkind Ht Hl He. unfold submit_napkin_capture. cbv zeta. rewrite (proj2 (require_permission_ok _ i i)) by done.
  rewrite Hbid, Hb64. unfold save_execution_napkin_evidence. rewrite Ht, Hkind. simpl negb. cbv iota.
  rewrite (bool_decide_false ("photo" ∉ _)) by (intros Hn; apply Hn; by left). unfold tbl_insert at 1. cbv iota beta.
  match goal with |- context [with_evidence ?t s] => set (s1 := with_evidence t s) end.
  change (napkin_lines tender_id s1) with (napkin_lines tender_id s). rewrite Hl. unfold generate. rewrite He. simpl. by exists s1.
Qed.
End Recording.

(** ** Closing a project *)

Section Closing.
Context `{PyText}.
Variable corr : string.

Lemma category_counts_ok fs cs : summarize_deviation_category_counts fs = Ok cs ↔
  cs = foldl (λ acc c, count_key c acc) [] (omap deviation_category fs) ∧ Forall (λ c, c ∈ DEVIATION_CATEGORIES) (omap deviation_category fs).
Proof.
  unfold summarize_deviation_category_counts. generalize (@nil (string * Z)) as acc.
  induction fs as [|f fs IH]; intros acc; simpl; [split; [by intros [= <-]|by intros [-> _]]|].
  unfold count_category at 1. destruct (deviation_category f) as [c|]; simpl; [|by rewrite IH].
  case_bool_decide as Hc; simpl.
  - split; [done|]. intros [_ Hall]. by inversion_clear Hall.
  - rewrite IH. split; intros [-> Hall]; (split; [done|]); [by constructor|by inversion_clear Hall].
Qed.

Definition contribution_of (now tender_id : Z) (x : string * Z) : contribution_row :=
  {| oc_tender_id := tender_id; oc_category := x.1; fact_count := x.2; contributed_at := now |}.
Lemma contribute_all now tender_id s cs s' : foldM (contribute now tender_id) s cs = Ok s' →
  map snd (rows (contributions s')) = map snd (rows (contributions s)) ++ map (contribution_of now tender_id) cs ∧
  core_db s' = core_db s ∧ facts s' = facts s ∧ evidence s' = evidence s.
Proof.
  intros Hr. refine (foldM_inv_prefix (λ dn s', map snd (rows (contributions s')) = map snd (rows (contributions s)) ++ map (contribution_of now tender_id) dn ∧
    core_db s' = core_db s ∧ facts s' = facts s ∧ evidence s' = evidence s) _ cs s s' _ _ Hr); clear.
  - intros dn a rest x y _ (Hc & Hd & Hf & He) Hs. unfold contribute, store_overhead_buffer_contribution in Hs.
    destruct (negb _); [done|]. destruct (bool_decide _); [done|]. injection Hs as <-. simpl.
    split_and!; [|done..]. rewrite !map_app, Hc, <-app_assoc. done.
  - by rewrite app_nil_r.
Qed.

Lemma contributions_of_nil tender_id s : contributions_of tender_id s = [] ↔ ∀ c, c ∈ map snd (rows (contributions s)) → oc_tender_id c ≠ tender_id.
Proof.
  unfold contributions_of, tbl_select. split.
  - intros Hn c ([i c'] & -> & Hin)%list_elem_of_fmap Ht. simpl in Ht.
    assert ((i, c') ∈ filter (λ ir, (oc_tender_id ir.2 =? tender_id) = true) (rows (contributions s))) as Hx
      by (apply list_elem_of_filter; split; [by apply Z.eqb_eq|done]). rewrite Hn in Hx. by apply elem_of_nil in Hx.
  - intros Hn. apply nil_no_elem. intros [i c] [Ht Hin]%list_elem_of_filter. apply Z.eqb_eq in Ht. simpl in Ht.
    eapply Hn; [|exact Ht]. apply list_elem_of_fmap. by exists (i, c).
Qed.

(** Closing a project that was not closed contributes, for each deviation
    category among its facts, one row with the exact number of its facts, in the
    order the categories first occur, and reports the same counts together with
    the differences of the facts that have a line, a plan and an actual quantity,
    sorted by line; the facts are untouched, and unless no fact has a category
    every later close of it is refused. *)
Theorem close_project_spec now i tender_id s r s' : close_project corr now i tender_id s = Ok (r, s') →
  contributions_of tender_id s = [] ∧
  map snd (rows (contributions s')) = map snd (rows (contributions s)) ++ map (contribution_of now tender_id) (deviation_category_counts r) ∧
  counts_of id (omap deviation_category (facts_of tender_id s)) (deviation_category_counts r) ∧
  (∃ ds, mapM id (omap plan_fact_delta (facts_of tender_id s)) = Ok ds ∧ plan_fact_deltas r ≡ₚ ds) ∧
  StronglySorted (λ x y, asc pd_line x y = true) (plan_fact_deltas r) ∧
  facts s' = facts s ∧ evidence s' = evidence s ∧
  (omap deviation_category (facts_of tender_id s) ≠ [] → ∀ now2 i2 s2, rows (contributions s') `prefix_of` rows (contributions s2) →
     "decision.execution_facts.close_project" ∈ permissions i2 → require_active_bid_decision tender_id (core_db s2) = Ok () →
     close_project corr now2 i2 tender_id s2 =
     Err (api_error 409 "project_already_closed" ("tender " +:+ py_str_Z tender_id +:+ " has already been closed"))).
Proof.
  intros Hr. unfold close_project in Hr. apply rbind_ok in Hr as (j & _ & Hr). apply rbind_ok in Hr as ([] & _ & Hr).
  destruct (contributions_of tender_id s) as [|c0 l0] eqn:Hnone; [|done]. apply rbind_ok in Hr as (x & Hsum & Hr).
  apply map_err_ok in Hsum. apply rbind_ok in Hr as (s1 & Hc & [= <- <-]). apply map_err_ok in Hc.
  apply contribute_all in Hc as (Hrows & Hcore & Hf & He). simpl.
  unfold build_summary in Hsum. apply rbind_ok in Hsum as (deltas & Hd & Hsum). apply rbind_ok in Hsum as (cs & Hcs & [= <-]). simpl in *.
  apply category_counts_ok in Hcs as [-> _]. unfold summarize_plan_fact_deltas in Hd. apply rbind_ok in Hd as (ds & Hds & [= <-]).
  pose proof (counts_spec id (omap deviation_category (facts_of tender_id s))) as Hcounts.
  split_and!; [done|done|exact Hcounts|by exists ds; rewrite order_by_perm| |done|done|].
  - apply order_by_sorted; [apply asc_total|apply asc_trans].
  - intros Hne now2 i2 s2 [k Hk] Hp Hbid. unfold close_project. rewrite (proj2 (require_permission_ok _ i2 i2)) by done. simpl.
    rewrite Hbid. simpl. destruct (contributions_of tender_id s2) as [|c l] eqn:Hs2; [exfalso|done].
    rewrite contributions_of_nil in Hs2. destruct (omap deviation_category (facts_of tender_id s)) as [|c fs]; [done|].
    destruct Hcounts as [_ Hcounts]. assert ((c, occurrences id c (c :: fs)) ∈ foldl (λ acc a, count_key (id a) acc) [] (c :: fs)) as Hin.
    { apply Hcounts. split; [done|]. apply occurrences_pos. exists c. split; [by left|done]. }
    eapply (Hs2 (contribution_of now tender_id (c, occurrences id c (c :: fs)))); [|done].
    rewrite Hk, map_app, Hrows. apply elem_of_app. left. apply elem_of_app. right. apply list_elem_of_fmap. by eexists.
Qed.

(** A project none of whose facts has a category leaves no row, so it closes
    again. *)
Lemma uncategorized_close_repeats now i tender_id s r s' now2 : close_project corr now i tender_id s = Ok (r, s') →
  omap deviation_category (facts_of tender_id s) = [] →
  ∃ r2 s2, close_project corr now2 i tender_id s' = Ok (r2, s2) ∧ length (rows (audit (core_db s2))) = S (length (rows (audit (core_db s')))).
Proof.
  intros Hr Hnil. unfold close_project in Hr |- *. apply rbind_ok in Hr as (j & -> & Hr). apply rbind_ok in Hr as ([] & Hbid & Hr). simpl.
  destruct (contributions_of tender_id s) as [|c0 l0] eqn:Hnone; [|done]. apply rbind_ok in Hr as (x & Hsum & Hr).
  pose proof Hsum as Hsum'. apply map_err_ok in Hsum. unfold build_summary in Hsum. apply rbind_ok in Hsum as (ds & Hds & Hsum).
  apply rbind_ok in Hsum as (cs & Hcs & [= <-]). pose proof Hcs as Hcs'. apply category_counts_ok in Hcs as [-> _].
  rewrite Hnil in Hr, Hcs'. simpl in Hr. injection Hr as <- <-. simpl.
  change (require_active_bid_decision tender_id (log _ _ _ _ _ _ (core_db s))) with (require_active_bid_decision tender_id (core_db s)).
  rewrite Hbid. simpl. change (contributions_of tender_id (ledger_log _ _ _ _ _ s)) with (contributions_of tender_id s). rewrite Hnone.
  change (build_summary tender_id (ledger_log _ _ _ _ _ s)) with (build_summary tender_id s). rewrite Hsum'. simpl. rewrite Hnil. simpl.
  eexists _, _. split; [done|]. simpl. rewrite !length_app. simpl. lia.
Qed.
End Closing.

(** ** Witnesses *)

Section Demo.
#[local] Existing Instance ascii_text.
Definition demo_sha : Bytes := {| sha256_hex := λ s, s; jsonb_of_bytes := λ s, Ok (JStr s) |}.
#[local] Existing Instance demo_sha.
(** NUMERIC has up to 131072 digits before the point. *)
Definition numeric_error (q : option decimal) : option exn :=
  match q with
  | Some (DFin _ c e) => if (131072 <? ndigits c + e) && negb (c =? 0) then Some (DataError "value overflows numeric format") else None
  | _ => None
  end.
Definition demo_columns : Columns := {| column_error := λ f,
  match numeric_error (planned_qty f) with Some e => Some e | None => numeric_error (actual_qty f) end |}.
#[local] Existing Instance demo_columns.

Definition demo_decision : Decision := {|
  d_tender_id := 1; decision_type := "bid"; conditions := []; deadline := None; justification := "margin"; actor := "dana";
  decided_at := utc 0; go_no_go_inputs_id := None; bid_readiness_candidate_id := None |}.
Definition demo_lock : LockInRequirement := {|
  li_tender_id := 1; li_decision_id := 1; li_line := 7; li_vendor_id := 9; li_vendor_name := "Acme"; li_status := "pending" |}.
Definition demo_ledger : ldb := Ldb
  (Ddb demo_tdb ∅ tbl_empty tbl_empty tbl_empty (Table [(1, demo_decision)] 2) (Table [(1, demo_lock)] 2)) tbl_empty tbl_empty tbl_empty.
Definition demo_foreman : Identity := {| subject := "dana"; role := "foreman";
  permissions := list_to_set ["decision.execution_facts.create"; "decision.execution_facts.close_project"] |}.
Definition demo_observation (vendor : string) (qty : json) : json := JObj [("deviation_reason", JStr "late"); ("deviation_category", JStr "downtime");
  ("culprit_type", JStr "vendor"); ("culprit_vendor_name", JStr vendor); ("actual_qty", qty)].
Definition demo_loads (t : string) : result string json :=
  if String.eqb t "two" then Ok (JObj [("observations", JArr [demo_observation " ACME " (JInt 3); demo_observation "Other" (JInt 3)])])
  else if String.eqb t "huge" then
    Ok (JObj [("observations", JArr [demo_observation " ACME " (JInt 3); demo_observation "Other" (JStr "1E+200000")])])
  else Err "no".
Definition demo_capture : NapkinSubmissionRequest :=
  {| ns_capture_kind := "photo"; ns_mime_type := "image/png"; image_base64 := "two"; reputation_ttl_days := Some 30 |}.
Definition demo_submit (b : NapkinSubmissionRequest) : http NapkinSubmissionResponse * ldb * list ReportReputationFactRequest :=
  submit_napkin_capture "c" (λ _, Ok ()) Ok demo_loads (Some (λ bytes _, Ok bytes)) 5 "2026-08-01T00:00:00+00:00" demo_foreman 1 b demo_ledger.

Lemma capture_survives_witness : ∃ resp s' sent, demo_submit demo_capture = (Ok resp, s', sent) ∧ length (response_facts resp) = 2%nat ∧
  map rr_vendor_id sent = [9] ∧ evidence_id resp = 1 ∧ ∀ f, response_facts resp !! 1%nat = Some f → accounted "c" (λ _, Ok ()) sent s' 1 f.
Proof.
  pose (x := demo_submit demo_capture).
  assert (match x with (Ok resp, _, sent) => (length (response_facts resp) =? 2)%nat && bool_decide (map rr_vendor_id sent = [9]) | _ => false end = true) as Hv
    by (vm_compute; reflexivity).
  destruct x as [[[resp|] s'] sent] eqn:Hx; [|discriminate Hv]. subst x.
  apply andb_prop in Hv as [Hlen%Nat.eqb_eq Hsent%bool_decide_eq_true_1].
  destruct (capture_survives "c" (λ _, Ok ()) Ok demo_loads (Some (λ bytes _, Ok bytes)) 5 "2026-08-01T00:00:00+00:00" demo_foreman 1 demo_capture
    demo_ledger "two" (Ok resp) s' sent) as (_ & _ & Hid & _ & _ & Hacc & _); [concrete_mem|reflexivity|reflexivity|concrete_mem|reflexivity|exact Hx|].
  exists resp, s', sent. split; [exact Hx|]. split; [exact Hlen|]. split; [exact Hsent|]. split; [exact Hid|]. intros f Hf. exact (Hacc 1%nat f Hf).
Defined.

(** A quantity no column holds, after a fact whose report is accepted: the vendor
    has a mark against it, and the fact that says why is gone. *)
Definition huge_capture : NapkinSubmissionRequest :=
  {| ns_capture_kind := "photo"; ns_mime_type := "image/png"; image_base64 := "huge"; reputation_ttl_days := Some 30 |}.
Lemma reported_without_fact : ∃ s' r, demo_submit huge_capture = (Err (Uncaught (DataError "value overflows numeric format")), s', [r]) ∧
  rr_vendor_id r = 9 ∧ rows (facts s') = [] ∧ core_db s' = core_db demo_ledger.
Proof. vm_compute. by eexists _, _. Qed.

Lemma close_project_spec_witness : ∃ r s s', close_project "c" 9 demo_foreman 1 s = Ok (r, s') ∧ deviation_category_counts r = [("downtime", 2)] ∧
  close_project "c" 10 demo_foreman 1 s' = Err (api_error 409 "project_already_closed" "tender 1 has already been closed").
Proof.
  pose (s := (demo_submit demo_capture).1.2). pose (x := close_project "c" 9 demo_foreman 1 s).
  assert (match x with Ok (r, s') => bool_decide (deviation_category_counts r = [("downtime", 2)]) &&
            is_ok (require_active_bid_decision 1 (core_db s')) && negb (bool_decide (omap deviation_category (facts_of 1 s) = [])) | _ => false end = true) as Hv
    by (vm_compute; reflexivity).
  destruct x as [[r s']|] eqn:Hx; [|discriminate Hv]. subst x. apply andb_prop in Hv as [Hv Hne%negb_true_iff].
  apply andb_prop in Hv as [Hc%bool_decide_eq_true_1 Hb]. apply bool_decide_eq_false_1 in Hne.
  destruct (close_project_spec "c" 9 demo_foreman 1 s r s' Hx) as (_ & _ & _ & _ & _ & _ & _ & Hno).
  exists r, s, s'. split; [exact Hx|]. split; [exact Hc|]. refine (Hno Hne 10 demo_foreman s' _ _ _); [reflexivity|concrete_mem|].
  destruct (require_active_bid_decision 1 (core_db s')) as [[]|]; [reflexivity|discriminate Hb].
Defined.
End Demo.
End ExecutionApi.
