(* ===== verification/Calibration.v ===== *)
(** * The calibration loop

    [packages/decision/calibration_model.py], [calibration_store.py],
    [calibration_summary.py], [packages/tender/forecast_snapshot_store.py] and
    [apps/api_tender/routers/calibration.py]. A stored time is an instant; the
    texts [isoformat] gives of instants denote them. How a NUMERIC column prints a
    number is not modelled. *)

From stdpp Require Import base gmap sets strings list sorting.
From Stdlib Require Import ZArith Lia.
From S2P Require Import Prelude Json Decimal Datetime Query Api BoqLine Matching Signals TenderDb Idempotency Decisions DecisionApi ExecutionLedger ExecutionApi.

Module Calibration.
Import TenderDb Decisions DecisionApi ExecutionLedger ExecutionApi.
#[local] Open Scope Z_scope.

Definition OUTCOME_TYPES : list string := ["won"; "lost"; "cancelled"].
Definition LOSS_REASONS : list string := ["competitor_cheap_access"; "dumping"; "drawn_tender"; "other"].

Record TenderOutcome := {
  to_tender_id : Z; outcome : string; our_submitted_amount : option string; winner_name : option string;
  winner_amount : option string; currency : option string; announced_at : option string; source_ref : string;
  to_entered_by : string; to_entered_at : datetime }.
Record LossReason := { loss_reason : string; note : string; lr_entered_by : string; lr_entered_at : datetime }.

(** The rows: the amounts and times as the columns hold them *)
Record outcome_row := {
  or_outcome : TenderOutcome; or_our_amount : option decimal; or_winner_amount : option decimal; or_announced_at : option Z }.
Record reason_row := { rw_outcome_id : Z; rw_reason : LossReason }.
Record card_row := { cd_card : Signals.ForecastCard; cd_computed_at : Z }.
Record link_row := { lk_snapshot_id : Z; lk_tender_id : Z; lk_note : string; confirmed_by : string; confirmed_at : Z }.

Record cdb := Cdb {
  ledger : ldb;
  outcomes : table outcome_row;
  loss_reasons : table reason_row;
  cards : table card_row;
  links : table link_row;
}.
Definition with_ledger x (s : cdb) := Cdb x (outcomes s) (loss_reasons s) (cards s) (links s).
Definition with_outcomes x (s : cdb) := Cdb (ledger s) x (loss_reasons s) (cards s) (links s).
Definition with_loss_reasons x (s : cdb) := Cdb (ledger s) (outcomes s) x (cards s) (links s).
Definition with_cards x (s : cdb) := Cdb (ledger s) (outcomes s) (loss_reasons s) x (links s).
Definition with_links x (s : cdb) := Cdb (ledger s) (outcomes s) (loss_reasons s) (cards s) x.
Definition tables_of (s : cdb) : tdb := tender_db (core_db (ledger s)).

Section WithText.
Context `{PyText}.

(** [__post_init__] of the two records *)
Definition make_outcome (o : TenderOutcome) : result exn TenderOutcome :=
  raise_if bool_decide (outcome o ∉ OUTCOME_TYPES) with ValueError ("unknown outcome: " +:+ py_repr (outcome o)) ;;
  raise_if is_blank (source_ref o) with ValueError "source_ref must be non-empty (INV-15)" ;;
  Ok o.
Definition make_loss_reason (r : LossReason) : result exn LossReason :=
  raise_if bool_decide (loss_reason r ∉ LOSS_REASONS) with ValueError ("unknown loss_reason: " +:+ py_repr (loss_reason r)) ;;
  raise_if String.eqb (loss_reason r) "other" && is_blank (note r)
    with ValueError "loss_reason 'other' requires a non-empty note" ;;
  Ok r.

(** ** The store *)

(** [_ts] *)
Definition ts (v : option string) : result exn (option Z) :=
  match v with None => Ok None | Some t => let! d := fromisoformat t in Ok (Some (to_timestamptz d)) end.
(** The driver's conversion of a text for a NUMERIC column *)
Definition numeric_param (v : option string) : result exn (option decimal) :=
  match v with
  | None => Ok None
  | Some t => match dec_of_string t with Ok x => Ok (Some x) | Err _ => Err (DataError t) end
  end.

Definition load_tender_outcome (tender_id : Z) (s : cdb) : option (Z * outcome_row) :=
  head (tbl_select (λ _ r, to_tender_id (or_outcome r) =? tender_id) (outcomes s)).

Definition store_tender_outcome (o : TenderOutcome) (s : cdb) : result exn (Z * cdb) :=
  let! announced := ts (announced_at o) in
  let! ours := numeric_param (our_submitted_amount o) in
  let! winners := numeric_param (winner_amount o) in
  raise_if negb (tender_exists (core_db (ledger s)) (to_tender_id o)) with IntegrityError "tender_outcomes_tender_id_fkey" ;;
  raise_if bool_decide (outcome o ∉ OUTCOME_TYPES) with IntegrityError "tender_outcomes_outcome_check" ;;
  raise_if match load_tender_outcome (to_tender_id o) s with Some _ => true | None => false end
    with IntegrityError "tender_outcomes_tender_uniq" ;;
  let ' (i, t) := tbl_insert (outcomes s)
    {| or_outcome := o; or_our_amount := ours; or_winner_amount := winners; or_announced_at := announced |} in
  Ok (i, with_outcomes t s).

Definition store_loss_reason (r : LossReason) (outcome_id : Z) (s : cdb) : result exn (Z * cdb) :=
  raise_if negb (exists_in (outcomes s) outcome_id) with IntegrityError "tender_loss_reasons_tender_outcome_id_fkey" ;;
  raise_if bool_decide (loss_reason r ∉ LOSS_REASONS) with IntegrityError "tender_loss_reasons_loss_reason_check" ;;
  let ' (i, t) := tbl_insert (loss_reasons s) {| rw_outcome_id := outcome_id; rw_reason := r |} in
  Ok (i, with_loss_reasons t s).
Definition list_loss_reasons_by_outcome (outcome_id : Z) (s : cdb) : list (Z * reason_row) :=
  tbl_select (λ _ r, rw_outcome_id r =? outcome_id) (loss_reasons s).

Definition list_outcomes_by_organization_voen (voen : string) (s : cdb) : list (Z * outcome_row) :=
  order_by (asc (λ ir, to_tender_id (or_outcome ir.2)))
    (tbl_select (λ _ r, is_of_organization (tables_of s) voen (to_tender_id (or_outcome r))) (outcomes s)).
Definition list_overhead_buffer_contributions (tender_id : Z) (s : cdb) : list (Z * contribution_row) :=
  contributions_of tender_id (ledger s).

(** ** The comparison *)

Record PriceComparison := {
  pc_winner_amount : option decimal; pc_our_submitted_amount : option decimal; our_scg_cost_basis : option decimal;
  winner_vs_our_submitted : option decimal; winner_vs_our_cost_basis : option decimal;
  coverage_line_count : Z; total_line_count : Z; is_partial_coverage : bool }.
(** [a - b] when both are there *)
Definition difference (a b : option decimal) : result exn (option decimal) :=
  match a, b with Some x, Some y => let! z := dec_sub x y in Ok (Some z) | _, _ => Ok None end.
Definition compare_winner_to_our_basis (winner ours basis : option decimal) (priced total : Z) : result exn PriceComparison :=
  let! vs_submitted := difference winner ours in
  let! vs_basis := difference winner basis in
  Ok {| pc_winner_amount := winner; pc_our_submitted_amount := ours; our_scg_cost_basis := basis;
        winner_vs_our_submitted := vs_submitted; winner_vs_our_cost_basis := vs_basis;
        coverage_line_count := priced; total_line_count := total; is_partial_coverage := priced <? total |}.
Definition summarize_loss_reasons (rows : list (Z * reason_row)) : list (string * Z) :=
  foldl (λ acc ir, count_key (loss_reason (rw_reason ir.2)) acc) [] rows.

(** The loop of the route: the cost so far and the lines it covers *)
Definition add_cost (offers : list Matching.VendorOfferDTO) (as_of : datetime) (a : decimal * Z) (l : BoqLine) : result exn (decimal * Z) :=
  let! m := Matching.match_boq_line l offers as_of in
  match Matching.ranked_executable m with
  | [] => Ok a
  | (_, tco) :: _ =>
      let! cost := dec_mul (Matching.base_price_with_vat tco) (qty l) in
      let! sum := dec_add a.1 cost in
      Ok (sum, a.2 + 1)
  end.
Definition matchable (l : BoqLine) : bool := String.eqb (line_type l) "normal".

(** ** Forecast cards *)

(** The earliest instant of the evidence *)
Definition earliest_observed_at (chain : list Signals.Evidence) : option Z :=
  match map Signals.ev_observed_at chain with [] => None | t :: l => Some (foldl Z.min t l) end.
Definition store_forecast_card_snapshot (c : Signals.ForecastCard) (computed_at : Z) (s : cdb) : Z * cdb :=
  let ' (i, t) := tbl_insert (cards s) {| cd_card := c; cd_computed_at := computed_at |} in (i, with_cards t s).
Definition load_forecast_card_snapshot (i : Z) (s : cdb) : option card_row := tbl_get (cards s) i.
Definition confirm_forecast_tender_link (snapshot_id tender_id : Z) (n by_ : string) (at_ : Z) (s : cdb) : result exn (Z * cdb) :=
  raise_if negb (exists_in (cards s) snapshot_id) with IntegrityError "forecast_card_tender_links_forecast_card_snapshot_id_fkey" ;;
  raise_if negb (tender_exists (core_db (ledger s)) tender_id) with IntegrityError "forecast_card_tender_links_tender_id_fkey" ;;
  raise_if match tbl_select (λ _ r, (lk_snapshot_id r =? snapshot_id) && (lk_tender_id r =? tender_id)) (links s) with [] => false | _ => true end
    with IntegrityError "forecast_card_tender_links_forecast_card_snapshot_id_tender_id_key" ;;
  let ' (i, t) := tbl_insert (links s)
    {| lk_snapshot_id := snapshot_id; lk_tender_id := tender_id; lk_note := n; confirmed_by := by_; confirmed_at := at_ |} in
  Ok (i, with_links t s).
Definition list_links_by_snapshot (snapshot_id : Z) (s : cdb) : list (Z * link_row) :=
  tbl_select (λ _ r, lk_snapshot_id r =? snapshot_id) (links s).

Definition day : Z := 24 * 3600 * 1000000.
(** [(created_at - first).days] *)
Definition observed_lag_days (snapshot_id tender_id : Z) (s : cdb) : result exn (option Z) :=
  match load_forecast_card_snapshot snapshot_id s with
  | None => Ok None
  | Some c =>
      match earliest_observed_at (Signals.evidence_chain (cd_card c)) with
      | None => Ok None
      | Some first =>
          match tbl_get (tenders (tables_of s)) tender_id with
          | None => Err NoResultFound
          | Some t => Ok (Some ((tn_created_at t - first) / day))
          end
      end
  end.

(** ** The routes *)

(** The correlation id bound to the request *)
Variable corr : string.
Definition cal_log (i : Identity) (action object_type object_id : string) (s : cdb) : cdb :=
  with_ledger (ledger_log corr i action object_type object_id (ledger s)) s.

Record OutcomeRequest := {
  oq_outcome : string; oq_our_submitted_amount : option string; oq_winner_name : option string; oq_winner_amount : option string;
  oq_currency : option string; oq_announced_at : option string; oq_source_ref : string }.
(** [_validated_outcome] *)
Definition validated_outcome (now : Z) (b : OutcomeRequest) (tender_id : Z) (actor : string) : http TenderOutcome :=
  map_err (λ e, match e with ValueError m => api_error 422 "invalid_outcome" m | _ => Uncaught e end)
    (make_outcome {| to_tender_id := tender_id; outcome := oq_outcome b; our_submitted_amount := oq_our_submitted_amount b;
       winner_name := oq_winner_name b; winner_amount := oq_winner_amount b; currency := oq_currency b;
       announced_at := oq_announced_at b; source_ref := oq_source_ref b; to_entered_by := actor; to_entered_at := utc now |}).
Definition no_outcome (tender_id : Z) : http_error exn :=
  api_error 404 "outcome_not_found" ("tender " +:+ py_str_Z tender_id +:+ " has no recorded outcome").

Definition post_outcome (now : Z) (i : Identity) (tender_id : Z) (b : OutcomeRequest) (s : cdb) : http (Z * outcome_row * cdb) :=
  let! _ := require_permission "decision.outcome.write" i in
  let! _ := require_active_bid_decision tender_id (core_db (ledger s)) in
  raise_if match load_tender_outcome tender_id s with Some _ => true | None => false end
    with api_error 409 "outcome_already_recorded" ("tender " +:+ py_str_Z tender_id +:+ " already has a recorded outcome") ;;
  let! o := validated_outcome now b tender_id (subject i) in
  let! ' (j, s1) := uncaught (store_tender_outcome o s) in
  let s2 := cal_log i "calibration.record_outcome" "tender_outcome" (py_str_Z j) s1 in
  match load_tender_outcome tender_id s2 with
  | None => Err (Uncaught (AssertionFailed ""))
  | Some r => Ok (r, s2)
  end.

Definition get_outcome (i : Identity) (tender_id : Z) (s : cdb) : http (Z * outcome_row) :=
  let! _ := require_permission "decision.outcome.read" i in
  match load_tender_outcome tender_id s with None => Err (no_outcome tender_id) | Some r => Ok r end.

Record LossReasonRequest := { lq_loss_reason : string; lq_note : string }.
Definition post_loss_reason (now : Z) (i : Identity) (tender_id : Z) (b : LossReasonRequest) (s : cdb) : http (Z * reason_row * cdb) :=
  let! _ := require_permission "decision.outcome.write" i in
  match load_tender_outcome tender_id s with
  | None => Err (no_outcome tender_id)
  | Some (oid, o) =>
      raise_if negb (String.eqb (outcome (or_outcome o)) "lost")
        with api_error 409 "outcome_not_a_loss"
          ("tender " +:+ py_str_Z tender_id +:+ "'s outcome is " +:+ py_repr (outcome (or_outcome o)) +:+ ", not 'lost'") ;;
      let! r := map_err (λ e, match e with ValueError m => api_error 422 "invalid_loss_reason" m | _ => Uncaught e end)
        (make_loss_reason {| loss_reason := lq_loss_reason b; note := lq_note b; lr_entered_by := subject i; lr_entered_at := utc now |}) in
      let! ' (j, s1) := uncaught (store_loss_reason r oid s) in
      let s2 := cal_log i "calibration.record_loss_reason" "tender_loss_reason" (py_str_Z j) s1 in
      match head (filter (λ ir, ir.1 = j) (list_loss_reasons_by_outcome oid s2)) with
      | None => Err (Uncaught StopIteration)
      | Some x => Ok (x, s2)
      end
  end.

Definition get_overhead_buffer (i : Identity) (tender_id : Z) (s : cdb) : http (list (Z * contribution_row)) :=
  let! _ := require_permission "decision.outcome.read" i in Ok (list_overhead_buffer_contributions tender_id s).

Record CalibrationResponse := {
  cr_outcome : Z * outcome_row; cr_loss_reasons : list (Z * reason_row); loss_reason_rollup : list (string * Z);
  price_comparison : PriceComparison; overhead_buffer : list (Z * contribution_row) }.
(** [fetch_offers] is [list_vendor_offers] at the instant. *)
Definition get_calibration (i : Identity) (tender_id : Z) (as_of : datetime)
    (fetch_offers : datetime → result string (list Matching.VendorOfferDTO)) (s : cdb) : http CalibrationResponse :=
  let! _ := require_permission "decision.outcome.read" i in
  raise_if match dt_offset as_of with None => true | Some _ => false end
    with api_error 422 "naive_datetime" "as_of must include a timezone offset" ;;
  match load_tender_outcome tender_id s with
  | None => Err (no_outcome tender_id)
  | Some (oid, o) =>
      let reasons := list_loss_reasons_by_outcome oid s in
      let! lines := uncaught (napkin_lines tender_id (ledger s)) in
      let! offers := map_err (api_error 502 "vendor_service_unavailable") (fetch_offers as_of) in
      let normal := filter (λ l, matchable l = true) lines in
      let! ' (cost, priced) := uncaught (foldM (add_cost offers as_of) (dec_of_Z 0, 0) normal) in
      let! c := uncaught (compare_winner_to_our_basis (or_winner_amount o) (or_our_amount o)
                            (if 0 <? priced then Some cost else None) priced (Z.of_nat (length normal))) in
      Ok {| cr_outcome := (oid, o); cr_loss_reasons := reasons; loss_reason_rollup := summarize_loss_reasons reasons;
            price_comparison := c; overhead_buffer := list_overhead_buffer_contributions tender_id s |}
  end.

Definition post_forecast_snapshot (now : Z) (i : Identity) (region : string) (s : cdb) : http (Z * card_row * cdb) :=
  let! _ := require_permission "tender.forecast_snapshot.write" i in
  match build_object_region_forecast_card region (tables_of s) with
  | None => Err (api_error 409 "no_forecast_card" ("object_region " +:+ py_repr region +:+ " has no composite signal intersection"))
  | Some c =>
      let ' (j, s1) := store_forecast_card_snapshot c now s in
      let s2 := cal_log i "calibration.record_forecast_snapshot" "forecast_card_snapshot" (py_str_Z j) s1 in
      match load_forecast_card_snapshot j s2 with
      | None => Err (Uncaught (AssertionFailed ""))
      | Some r => Ok (j, r, s2)
      end
  end.
Definition no_snapshot (i : Z) : http_error exn :=
  api_error 404 "forecast_snapshot_not_found" ("forecast snapshot " +:+ py_str_Z i +:+ " not found").

(** A link, the days it lags and the first instant observed *)
Record link_response := { ln_link : Z * link_row; ln_lag_days : option Z; first_observed_at : option Z }.
Definition get_forecast_snapshot (i : Identity) (snapshot_id : Z) (s : cdb) : http (card_row * list link_response) :=
  let! _ := require_permission "tender.forecast_snapshot.read" i in
  match load_forecast_card_snapshot snapshot_id s with
  | None => Err (no_snapshot snapshot_id)
  | Some c =>
      let first := earliest_observed_at (Signals.evidence_chain (cd_card c)) in
      let! ls := mapM (λ ir, let! lag := uncaught (observed_lag_days snapshot_id (lk_tender_id ir.2) s) in
                             Ok {| ln_link := ir; ln_lag_days := lag; first_observed_at := first |})
                   (list_links_by_snapshot snapshot_id s) in
      Ok (c, ls)
  end.

Record ForecastTenderLinkRequest := { lk_req_tender_id : Z; lk_req_note : string }.
Definition post_forecast_tender_link (now : Z) (i : Identity) (snapshot_id : Z) (b : ForecastTenderLinkRequest) (s : cdb)
    : http (link_response * cdb) :=
  let! _ := require_permission "tender.forecast_snapshot.write" i in
  match load_forecast_card_snapshot snapshot_id s with
  | None => Err (no_snapshot snapshot_id)
  | Some c =>
      raise_if existsb (λ ir, lk_tender_id ir.2 =? lk_req_tender_id b) (list_links_by_snapshot snapshot_id s)
        with api_error 409 "tender_link_already_confirmed"
          ("forecast snapshot " +:+ py_str_Z snapshot_id +:+ " is already linked to tender " +:+ py_str_Z (lk_req_tender_id b)) ;;
      let! ' (j, s1) := uncaught (confirm_forecast_tender_link snapshot_id (lk_req_tender_id b) (lk_req_note b) (subject i) now s) in
      let s2 := cal_log i "calibration.confirm_forecast_tender_link" "forecast_card_tender_link" (py_str_Z j) s1 in
      match head (filter (λ ir, ir.1 = j) (list_links_by_snapshot snapshot_id s2)) with
      | None => Err (Uncaught StopIteration)
      | Some x =>
          let! lag := uncaught (observed_lag_days snapshot_id (lk_tender_id x.2) s2) in
          Ok ({| ln_link := x; ln_lag_days := lag;
                 first_observed_at := earliest_observed_at (Signals.evidence_chain (cd_card c)) |}, s2)
      end
  end.

Definition get_organization_outcomes (i : Identity) (voen : string) (s : cdb) : http (list ((Z * outcome_row) * list (Z * reason_row))) :=
  let! _ := require_permission "decision.outcome.read" i in
  Ok (map (λ o, (o, list_loss_reasons_by_outcome o.1 s)) (list_outcomes_by_organization_voen voen s)).
End WithText.

(** ** What the tables record *)

Section Histories.
Context `{PyText}.

(** A committed mutating request, or anything the other components do to their
    own tables *)
Inductive cal_step : cdb → cdb → Prop :=
| CSOutcome corr now i t b r s s' : post_outcome corr now i t b s = Ok (r, s') → cal_step s s'
| CSReason corr now i t b r s s' : post_loss_reason corr now i t b s = Ok (r, s') → cal_step s s'
| CSCard corr now i region j r s s' : post_forecast_snapshot corr now i region s = Ok (j, r, s') → cal_step s s'
| CSLink corr now i c b r s s' : post_forecast_tender_link corr now i c b s = Ok (r, s') → cal_step s s'
| CSOther l s : cal_step s (with_ledger l s).

Definition outcome_ok (r : outcome_row) : Prop :=
  outcome (or_outcome r) ∈ OUTCOME_TYPES ∧ is_blank (source_ref (or_outcome r)) = false ∧
  numeric_param (our_submitted_amount (or_outcome r)) = Ok (or_our_amount r) ∧
  numeric_param (winner_amount (or_outcome r)) = Ok (or_winner_amount r) ∧ ts (announced_at (or_outcome r)) = Ok (or_announced_at r).
Definition reason_ok (os : table outcome_row) (x : reason_row) : Prop :=
  (∃ o, tbl_get os (rw_outcome_id x) = Some o ∧ outcome (or_outcome o) = "lost") ∧
  loss_reason (rw_reason x) ∈ LOSS_REASONS ∧ (loss_reason (rw_reason x) = "other" → is_blank (note (rw_reason x)) = false).
Definition card_ok (c : card_row) : Prop :=
  Signals.fc_composite (cd_card c) = true ∧ (2 <= size (Signals.fc_types (cd_card c)))%nat.
Record csound (s : cdb) : Prop := {
  cs_outcomes_wf : tbl_wf (outcomes s); cs_reasons_wf : tbl_wf (loss_reasons s); cs_cards_wf : tbl_wf (cards s); cs_links_wf : tbl_wf (links s);
  cs_outcome : ∀ i r, tbl_get (outcomes s) i = Some r → outcome_ok r;
  cs_once : ∀ i r j r', tbl_get (outcomes s) i = Some r → tbl_get (outcomes s) j = Some r' →
    to_tender_id (or_outcome r) = to_tender_id (or_outcome r') → i = j;
  cs_reason : ∀ i x, tbl_get (loss_reasons s) i = Some x → reason_ok (outcomes s) x;
  cs_card : ∀ i c, tbl_get (cards s) i = Some c → card_ok c;
  cs_link : ∀ i l, tbl_get (links s) i = Some l → is_Some (tbl_get (cards s) (lk_snapshot_id l));
  cs_link_once : ∀ i l j l', tbl_get (links s) i = Some l → tbl_get (links s) j = Some l' →
    lk_snapshot_id l = lk_snapshot_id l' → lk_tender_id l = lk_tender_id l' → i = j }.
Record cgrows (s s' : cdb) : Prop := {
  cg_outcomes : rows (outcomes s) `prefix_of` rows (outcomes s');
  cg_reasons : rows (loss_reasons s) `prefix_of` rows (loss_reasons s');
  cg_cards : rows (cards s) `prefix_of` rows (cards s');
  cg_links : rows (links s) `prefix_of` rows (links s') }.
#[export] Instance cgrows_preorder : PreOrder cgrows.
Proof. split; [by intros s; constructor|]. intros s1 s2 s3 [] []. constructor; by etrans. Qed.

Lemma load_outcome_Some t s i r : tbl_wf (outcomes s) → load_tender_outcome t s = Some (i, r) →
  tbl_get (outcomes s) i = Some r ∧ to_tender_id (or_outcome r) = t.
Proof.
  intros Hw. unfold load_tender_outcome. destruct (tbl_select _ (outcomes s)) as [|x l] eqn:Hs; [done|]. intros [= ->].
  assert ((i, r) ∈ tbl_select (λ _ r, to_tender_id (or_outcome r) =? t) (outcomes s)) as [Ht Hin]%elem_of_tbl_select by (rewrite Hs; by left).
  apply Z.eqb_eq in Ht. split; [by apply tbl_get_spec|done].
Qed.
Lemma load_outcome_None t s i r : tbl_wf (outcomes s) → load_tender_outcome t s = None → tbl_get (outcomes s) i = Some r →
  to_tender_id (or_outcome r) ≠ t.
Proof.
  intros Hw Hn Hg Ht. unfold load_tender_outcome in Hn. destruct (tbl_select _ (outcomes s)) eqn:Hs; [|done].
  apply tbl_get_spec in Hg; [|done]. assert ((i, r) ∈ tbl_select (λ _ r, to_tender_id (or_outcome r) =? t) (outcomes s)) as Hin
    by (apply elem_of_tbl_select; split; [by apply Z.eqb_eq|done]). rewrite Hs in Hin. by apply elem_of_nil in Hin.
Qed.

Lemma make_outcome_ok o o' : make_outcome o = Ok o' → o' = o ∧ outcome o ∈ OUTCOME_TYPES ∧ is_blank (source_ref o) = false.
Proof. unfold make_outcome. case_bool_decide; [done|]. destruct (is_blank _); [done|]. by intros [= <-]. Qed.

(** What an accepted outcome is, and what it leaves *)
Lemma post_outcome_ok corr now i t b s r s' : post_outcome corr now i t b s = Ok (r, s') →
  require_active_bid_decision t (core_db (ledger s)) = Ok () ∧ load_tender_outcome t s = None ∧
  ∃ row, s' = cal_log corr i "calibration.record_outcome" "tender_outcome" (py_str_Z (next_id (outcomes s))) (with_outcomes (tbl_insert (outcomes s) row).2 s) ∧
    outcome_ok row ∧ to_tender_id (or_outcome row) = t ∧ outcome (or_outcome row) = oq_outcome b ∧
    our_submitted_amount (or_outcome row) = oq_our_submitted_amount b ∧ winner_amount (or_outcome row) = oq_winner_amount b ∧
    to_entered_by (or_outcome row) = subject i.
Proof.
  intros Hr. unfold post_outcome in Hr. apply rbind_ok in Hr as (j & _ & Hr). apply rbind_ok in Hr as ([] & Hb & Hr).
  destruct (load_tender_outcome t s) eqn:Hl; [done|]. apply rbind_ok in Hr as (o & Ho & Hr). apply rbind_ok in Hr as ([k s1] & Hs & Hr).
  unfold validated_outcome in Ho. apply map_err_ok, make_outcome_ok in Ho as (-> & Hty & Hsrc). simpl in *. apply map_err_ok in Hs.
  unfold store_tender_outcome in Hs. apply rbind_ok in Hs as (a & Ha & Hs). apply rbind_ok in Hs as (x & Hx & Hs). apply rbind_ok in Hs as (y & Hy & Hs).
  do 3 (destruct (_ : bool) in Hs; [done|]). injection Hs as <- <-. destruct (load_tender_outcome t _) in Hr; [|done]. injection Hr as _ <-.
  split; [done|]. split; [done|]. eexists. split; [done|]. unfold outcome_ok. simpl. by split_and!.
Qed.

Lemma post_outcome_sound corr now i t b s r s' : csound s → post_outcome corr now i t b s = Ok (r, s') → csound s' ∧ cgrows s s'.
Proof.
  intros [] Hr. apply post_outcome_ok in Hr as (_ & Hnone & row & -> & Hok & Ht & _). split; [|constructor; simpl; try done; by eexists].
  split; try done.
  - by apply tbl_insert_wf.
  - by apply insert_get.
  - refine (insert_once _ _ (λ x y, to_tender_id (or_outcome x) = to_tender_id (or_outcome y)) _ _ _ _); [done|by intros ??|done|].
    intros k x Hx. rewrite Ht. by eapply load_outcome_None.
  - intros k x Hx. destruct (cs_reason0 k x Hx) as ((o & Ho & Hl) & Hrest). split; [|done]. exists o. split; [|done].
    refine (extends_get _ _ _ _ cs_outcomes_wf0 (tbl_insert_wf _ _ cs_outcomes_wf0) _ Ho). by eexists.
Qed.

Lemma post_loss_reason_sound corr now i t b s r s' : csound s → post_loss_reason corr now i t b s = Ok (r, s') → csound s' ∧ cgrows s s'.
Proof.
  intros [] Hr. unfold post_loss_reason in Hr. apply rbind_ok in Hr as (j & _ & Hr). destruct (load_tender_outcome t s) as [[oid o]|] eqn:Ho; [|done].
  apply load_outcome_Some in Ho as [Ho _]; [|done]. destruct (String.eqb_spec (outcome (or_outcome o)) "lost") as [Hlost|]; [simpl in Hr|done].
  apply rbind_ok in Hr as (reason & Hm & Hr). apply map_err_ok in Hm. unfold make_loss_reason in Hm. simpl in Hm.
  case_bool_decide as Hty; [done|]. destruct (String.eqb (lq_loss_reason b) "other" && is_blank (lq_note b)) eqn:Hother; [done|]. injection Hm as <-.
  apply rbind_ok in Hr as ([k s1] & Hs & Hr). apply map_err_ok in Hs. unfold store_loss_reason in Hs.
  do 2 (destruct (_ : bool) in Hs; [done|]). injection Hs as <- <-. destruct (head _); [|done]. injection Hr as _ <-.
  split; [|constructor; simpl; try done; by eexists]. split; try done.
  - by apply tbl_insert_wf.
  - apply insert_get; [done|done|]. unfold reason_ok. simpl. split_and!; [by exists o|done|]. intros Heq. by rewrite Heq in Hother.
Qed.

Lemma post_forecast_snapshot_sound corr now i region j r s s' : csound s → post_forecast_snapshot corr now i region s = Ok (j, r, s') → csound s' ∧ cgrows s s'.
Proof.
  intros [] Hr. unfold post_forecast_snapshot in Hr. apply rbind_ok in Hr as (k & _ & Hr).
  destruct (build_object_region_forecast_card region (tables_of s)) as [c|] eqn:Hc; [|done]. simpl in Hr.
  destruct (load_forecast_card_snapshot _ _); [|done]. injection Hr as _ _ <-. split; [|constructor; simpl; try done; by eexists].
  assert (card_ok {| cd_card := c; cd_computed_at := now |}) as Hok.
  { unfold build_object_region_forecast_card, Signals.build_forecast_card in Hc.
    destruct (Signals.oi_composite _) eqn:Hcomp; [|done]. injection Hc as <-. split; [done|]. simpl. by apply Nat.leb_le in Hcomp. }
  split; try done.
  - by apply tbl_insert_wf.
  - by apply insert_get.
  - intros k' l Hl. destruct (cs_link0 k' l Hl) as [c' Hc']. exists c'.
    refine (extends_get _ _ _ _ cs_cards_wf0 (tbl_insert_wf _ _ cs_cards_wf0) _ Hc'). by eexists.
Qed.

Lemma post_link_sound corr now i c b r s s' : csound s → post_forecast_tender_link corr now i c b s = Ok (r, s') → csound s' ∧ cgrows s s'.
Proof.
  intros [] Hr. unfold post_forecast_tender_link in Hr. apply rbind_ok in Hr as (k & _ & Hr).
  destruct (load_forecast_card_snapshot c s) as [card|] eqn:Hc; [|done]. destruct (existsb _ _); [done|].
  apply rbind_ok in Hr as ([j s1] & Hs & Hr). apply map_err_ok in Hs. unfold confirm_forecast_tender_link in Hs.
  destruct (negb (exists_in _ _)); [done|]. destruct (negb (tender_exists _ _)); [done|].
  destruct (tbl_select _ (links s)) as [|x l] eqn:Hnone; [|done]. injection Hs as <- <-. destruct (head _); [|done].
  apply rbind_ok in Hr as (lag & _ & [= _ <-]). split; [|constructor; simpl; try done; by eexists]. split; try done.
  - by apply tbl_insert_wf.
  - apply insert_get; [done|done|]. by exists card.
  - intros i1 l1 i2 l2 H1 H2 Hs Ht. refine (insert_once (links s) _ (λ x y, lk_snapshot_id x = lk_snapshot_id y ∧ lk_tender_id x = lk_tender_id y) _ _ _ _ i1 l1 i2 l2 H1 H2 _);
      [done|by intros ?? [??]|naive_solver| |done].
    intros k' y Hy [Hys Hyt]. simpl in *. apply tbl_get_spec in Hy; [|done].
    assert ((k', y) ∈ tbl_select (λ _ r, (lk_snapshot_id r =? c) && (lk_tender_id r =? lk_req_tender_id b)) (links s)) as Hin.
    { apply elem_of_tbl_select. by rewrite andb_true_iff, !Z.eqb_eq. }
    rewrite Hnone in Hin. by apply elem_of_nil in Hin.
Qed.

Lemma cal_step_sound s s' : csound s → cal_step s s' → csound s' ∧ cgrows s s'.
Proof.
  intros Hs Hst. revert Hs. destruct Hst as [corr now i t b r s s' Hr|corr now i t b r s s' Hr|corr now i region j r s s' Hr|corr now i c b r s s' Hr|l s]; intros Hs.
  - by eapply post_outcome_sound.
  - by eapply post_loss_reason_sound.
  - by eapply post_forecast_snapshot_sound.
  - by eapply post_link_sound.
  - destruct Hs. split; [by split|by constructor].
Qed.
Lemma cal_steps_sound s s' : csound s → rtc cal_step s s' → csound s' ∧ cgrows s s'.
Proof.
  intros Hs Hr. induction Hr as [s|s s1 s2 H1 _ IH]; [done|]. destruct (cal_step_sound s s1 Hs H1) as [Hs1 Hg1].
  destruct (IH Hs1) as [Hs2 Hg2]. split; [done|by etrans].
Qed.

Definition fresh_cdb (l : ldb) : cdb := Cdb l tbl_empty tbl_empty tbl_empty tbl_empty.
Lemma fresh_csound l : csound (fresh_cdb l).
Proof. split; try (by split; simpl; constructor); by intros. Qed.

(** C29: whatever requests were committed, a tender has at most one outcome, of a
    known kind, with a source that is not blank and the amounts and time its texts
    read as; a loss reason is of a known kind, annotated when it is another, and
    belongs to a lost outcome; a forecast card has two kinds of signals at least
    and is linked to a tender at most once; and no request removes or changes
    what an earlier one stored. *)
Theorem calibration_sound l s s' : rtc cal_step (fresh_cdb l) s → rtc cal_step s s' →
  (∀ i r, tbl_get (outcomes s) i = Some r → outcome_ok r) ∧
  (∀ i r j r', tbl_get (outcomes s) i = Some r → tbl_get (outcomes s) j = Some r' →
     to_tender_id (or_outcome r) = to_tender_id (or_outcome r') → i = j) ∧
  (∀ i x, tbl_get (loss_reasons s) i = Some x → reason_ok (outcomes s) x) ∧
  (∀ i c, tbl_get (cards s) i = Some c → card_ok c) ∧
  (∀ i l j l', tbl_get (links s) i = Some l → tbl_get (links s) j = Some l' →
     lk_snapshot_id l = lk_snapshot_id l' → lk_tender_id l = lk_tender_id l' → i = j) ∧
  cgrows s s'.
Proof.
  intros H1 H2. destruct (cal_steps_sound _ _ (fresh_csound l) H1) as [Hs _]. destruct (cal_steps_sound _ _ Hs H2) as [_ Hg].
  destruct Hs. by split_and!.
Qed.

(** An amount that is not a number passes the validation and fails in the driver. *)
Lemma bad_amount_uncaught corr now i t b s amount : "decision.outcome.write" ∈ permissions i →
  require_active_bid_decision t (core_db (ledger s)) = Ok () → load_tender_outcome t s = None →
  oq_outcome b ∈ OUTCOME_TYPES → is_blank (oq_source_ref b) = false → oq_announced_at b = None →
  oq_our_submitted_amount b = Some amount → is_ok (dec_of_string amount) = false →
  post_outcome corr now i t b s = Err (Uncaught (DataError amount)).
Proof.
  intros Hp Hb Hn Hty Hsrc Hann Ham Hbad. unfold post_outcome. rewrite (proj2 (require_permission_ok _ i i)) by done. simpl.
  rewrite Hb. simpl. rewrite Hn. unfold validated_outcome, make_outcome. simpl. rewrite bool_decide_false by (intros Hx; by apply Hx).
  rewrite Hsrc. simpl. unfold store_tender_outcome. simpl. rewrite Hann, Ham. simpl. by destruct (dec_of_string amount).
Qed.
(** So does a link to a tender that does not exist. *)
Lemma unknown_tender_uncaught snapshot_id t n by_ at_ s : exists_in (cards s) snapshot_id = true → tender_exists (core_db (ledger s)) t = false →
  confirm_forecast_tender_link snapshot_id t n by_ at_ s = Err (IntegrityError "forecast_card_tender_links_tender_id_fkey").
Proof. intros Hc Ht. unfold confirm_forecast_tender_link. by rewrite Hc, Ht. Qed.
End Histories.

(** ** The comparison of prices *)

Section Comparison.
Context `{PyText}.
Variable offers : list Matching.VendorOfferDTO.
Variable as_of : datetime.

(** The price of a line: that of its best executable candidate, times its
    quantity; [None] without one *)
Definition line_cost (l : BoqLine) : result exn (option decimal) :=
  let! m := Matching.match_boq_line l offers as_of in
  match Matching.ranked_executable m with
  | [] => Ok None
  | (_, tco) :: _ => let! c := dec_mul (Matching.base_price_with_vat tco) (qty l) in Ok (Some c)
  end.

(** The loop adds the costs of the lines that have one, in order, and counts
    them. *)
Lemma add_costs_spec ls a r : foldM (add_cost offers as_of) a ls = Ok r ↔
  ∃ cs, mapM line_cost ls = Ok cs ∧ foldM dec_add a.1 (omap id cs) = Ok r.1 ∧ r.2 = a.2 + Z.of_nat (length (omap id cs)).
Proof.
  revert a. induction ls as [|l ls IH]; intros [sum n]; simpl.
  - split; [intros [= <-]; exists []; simpl; split_and!; [done|done|lia]|].
    intros (cs & [= <-] & Hs & Hn). simpl in *. injection Hs as Hs. destruct r as [x y]. simpl in *. do 2 f_equal; [done|lia].
  - unfold add_cost at 1, line_cost at 1. destruct (Matching.match_boq_line l offers as_of) as [m|e]; simpl; [|split; [done|naive_solver]].
    destruct (Matching.ranked_executable m) as [|[c tco] k]; simpl.
    + rewrite IH. simpl. split.
      * intros (cs & -> & Hs & Hn). exists (None :: cs). done.
      * intros (cs & Hcs & Hs & Hn). apply rbind_ok in Hcs as (ds & Hds & [= <-]). by exists ds.
    + destruct (dec_mul _ (qty l)) as [x|e]; simpl; [|split; [done|naive_solver]]. destruct (dec_add sum x) as [y|e] eqn:Hy; simpl.
      * rewrite IH. simpl. split.
        -- intros (cs & -> & Hs & Hn). exists (Some x :: cs). csimpl. rewrite Hy. csimpl. split_and!; [done|done|lia].
        -- intros (cs & Hcs & Hs & Hn). apply rbind_ok in Hcs as (ds & Hds & [= <-]). csimpl in *. rewrite Hy in Hs. csimpl in *.
           exists ds. split_and!; [done|done|lia].
      * split; [done|]. intros (cs & Hcs & Hs & Hn). apply rbind_ok in Hcs as (ds & Hds & [= <-]). csimpl in *. by rewrite Hy in Hs.
Qed.

Lemma difference_spec a b d : difference a b = Ok d →
  (d = None ↔ a = None ∨ b = None) ∧ ∀ x y z, a = Some x → b = Some y → d = Some z → dec_sub x y = Ok z.
Proof.
  unfold difference. destruct a as [x|], b as [y|]; [|intros [= <-]; naive_solver..].
  intros (z & Hz & [= <-])%rbind_ok. split; [naive_solver|]. intros x' y' z' [= <-] [= <-] [= <-]. done.
Qed.
End Comparison.

(** The calibration view compares with the recorded outcome of the tender: a
    difference is there exactly when both of its amounts are, and is their
    difference; the cost basis is the sum, over the normal BOQ lines that have an
    executable offer, of the best price times the quantity, and is missing, not
    zero, when no line has one; the coverage counts those lines against all normal
    ones and is marked partial exactly when some have none; the loss reasons are
    counted by kind. *)
Theorem price_comparison_spec `{PyText} i t as_of fetch s r : get_calibration i t as_of fetch s = Ok r →
  ∃ oid o lines offers costs, load_tender_outcome t s = Some (oid, o) ∧ cr_outcome r = (oid, o) ∧
    napkin_lines t (ledger s) = Ok lines ∧ fetch as_of = Ok offers ∧
    let normal := filter (λ l, matchable l = true) lines in let c := price_comparison r in
    mapM (line_cost offers as_of) normal = Ok costs ∧
    pc_winner_amount c = or_winner_amount o ∧ pc_our_submitted_amount c = or_our_amount o ∧
    (winner_vs_our_submitted c = None ↔ or_winner_amount o = None ∨ or_our_amount o = None) ∧
    (∀ x y z, or_winner_amount o = Some x → or_our_amount o = Some y → winner_vs_our_submitted c = Some z → dec_sub x y = Ok z) ∧
    (winner_vs_our_cost_basis c = None ↔ or_winner_amount o = None ∨ our_scg_cost_basis c = None) ∧
    (∀ x y z, or_winner_amount o = Some x → our_scg_cost_basis c = Some y → winner_vs_our_cost_basis c = Some z → dec_sub x y = Ok z) ∧
    (our_scg_cost_basis c = None ↔ omap id costs = []) ∧
    (∀ y, our_scg_cost_basis c = Some y → foldM dec_add (dec_of_Z 0) (omap id costs) = Ok y) ∧
    coverage_line_count c = Z.of_nat (length (omap id costs)) ∧ total_line_count c = Z.of_nat (length costs) ∧
    is_partial_coverage c = bool_decide (None ∈ costs) ∧
    counts_of (λ ir, loss_reason (rw_reason ir.2)) (list_loss_reasons_by_outcome oid s) (loss_reason_rollup r).
Proof.
  intros Hr. unfold get_calibration in Hr. apply rbind_ok in Hr as (j & _ & Hr). destruct (match dt_offset as_of with None => true | _ => false end); [done|].
  destruct (load_tender_outcome t s) as [[oid o]|] eqn:Ho; [|done]. apply rbind_ok in Hr as (lines & Hl & Hr). apply map_err_ok in Hl.
  apply rbind_ok in Hr as (offers & Hof & Hr). apply map_err_ok in Hof. apply rbind_ok in Hr as ([cost priced] & Hc & Hr). apply map_err_ok in Hc.
  apply rbind_ok in Hr as (c & Hcmp & [= <-]). apply map_err_ok in Hcmp. simpl.
  apply add_costs_spec in Hc as (costs & Hcosts & Hsum & Hn). simpl in Hsum, Hn. unfold compare_winner_to_our_basis in Hcmp.
  apply rbind_ok in Hcmp as (d1 & Hd1 & Hcmp). apply rbind_ok in Hcmp as (d2 & Hd2 & [= <-]).
  apply difference_spec in Hd1 as [Hd1 Hd1']. apply difference_spec in Hd2 as [Hd2 Hd2'].
  assert (length costs = length (filter (λ l, matchable l = true) lines)) as Hlen.
  { apply mapM_Forall2 in Hcosts. symmetry. by eapply Forall2_length. }
  exists oid, o, lines, offers, costs. simpl. rewrite Hlen. split_and!; try done.
  - destruct (omap id costs) as [|x l] eqn:Hx; simpl in Hn; destruct (Z.ltb_spec 0 priced) as [Hp|Hp]; try lia; done.
  - intros y. destruct (0 <? priced); [|done]. by intros [= <-].
  - rewrite <-Hlen, Hn. clear. apply eq_bool_prop_intro. rewrite Is_true_true, Z.ltb_lt, bool_decide_spec.
    enough ((length (omap id costs) <= length costs)%nat ∧ (length (omap id costs) < length costs ↔ None ∈ costs)%nat) as [_ Hx] by (rewrite <-Hx; lia).
    induction costs as [|[x|] costs [IH1 IH2]]; csimpl.
    + split; [lia|]. split; [lia|]. by intros ?%elem_of_nil.
    + split; [lia|]. rewrite elem_of_cons, <-Nat.succ_lt_mono, IH2. naive_solver.
    + split; [lia|]. split; [|intros _; lia]. intros _. by left.
  - apply counts_spec.
Qed.

(** ** Witnesses *)

Section Demo.
#[local] Existing Instance ascii_text.
Definition demo_analyst : Identity := {| subject := "dana"; role := "analyst";
  permissions := list_to_set ["decision.outcome.write"; "decision.outcome.read"] |}.
Definition demo_outcome : OutcomeRequest := {|
  oq_outcome := "lost"; oq_our_submitted_amount := Some "120.50"; oq_winner_name := Some "Rival"; oq_winner_amount := Some "100";
  oq_currency := Some "AZN"; oq_announced_at := None; oq_source_ref := "portal" |}.
Definition demo_start : cdb := fresh_cdb demo_ledger.
Definition demo_recorded : http (Z * outcome_row * cdb) := post_outcome "c" 5 demo_analyst 1 demo_outcome demo_start.
Definition demo_reason : LossReasonRequest := {| lq_loss_reason := "dumping"; lq_note := "" |}.

Lemma calibration_sound_witness : ∃ s s', rtc cal_step s s' ∧ length (rows (outcomes s)) = 1%nat ∧ length (rows (loss_reasons s')) = 1%nat ∧ cgrows s s'.
Proof.
  pose (x := demo_recorded). pose (y := let! ' (_, s) := x in post_loss_reason "c" 6 demo_analyst 1 demo_reason s).
  assert (match x, y with Ok (_, s), Ok (_, s') => (length (rows (outcomes s)) =? 1)%nat && (length (rows (loss_reasons s')) =? 1)%nat | _, _ => false end = true) as Hv
    by (vm_compute; reflexivity).
  destruct x as [[rx s]|] eqn:Hx; [|discriminate Hv]. simpl rbind in y. destruct y as [[ry s']|] eqn:Hy; [|discriminate Hv]. subst x y.
  apply andb_prop in Hv as [H1%Nat.eqb_eq H2%Nat.eqb_eq].
  assert (rtc cal_step demo_start s) as Hs by (apply rtc_once; exact (CSOutcome "c" 5 demo_analyst 1 demo_outcome rx demo_start s Hx)).
  assert (rtc cal_step s s') as Hs' by (apply rtc_once; exact (CSReason "c" 6 demo_analyst 1 demo_reason ry s s' Hy)).
  destruct (calibration_sound demo_ledger s s' Hs Hs') as (_ & _ & _ & _ & _ & Hg).
  exists s, s'. split; [exact Hs'|]. split; [exact H1|]. split; [exact H2|exact Hg].
Defined.

Definition demo_view : http CalibrationResponse :=
  let! ' (_, s) := demo_recorded in get_calibration demo_analyst 1 (Matching.day 3) demo_offers s.
Lemma price_comparison_spec_witness : ∃ r, demo_view = Ok r ∧ coverage_line_count (price_comparison r) = 1 ∧
  is_partial_coverage (price_comparison r) = false ∧ winner_vs_our_submitted (price_comparison r) ≠ None.
Proof.
  pose (x := demo_recorded). pose (y := demo_view).
  assert (match x, y with Ok _, Ok r => (coverage_line_count (price_comparison r) =? 1) && negb (is_partial_coverage (price_comparison r)) &&
            bool_decide (pc_winner_amount (price_comparison r) = Some (DFin false 100 0)) &&
            bool_decide (pc_our_submitted_amount (price_comparison r) = Some (DFin false 12050 (-2))) | _, _ => false end = true) as Hv
    by (vm_compute; reflexivity).
  destruct x as [[rx s]|] eqn:Hx; [|discriminate Hv]. destruct y as [r|] eqn:Hy; [|discriminate Hv]. subst x y.
  apply andb_prop in Hv as [Hv Hours%bool_decide_eq_true_1]. apply andb_prop in Hv as [Hv Hwin%bool_decide_eq_true_1].
  apply andb_prop in Hv as [Hcov%Z.eqb_eq Hpart%negb_true_iff].
  exists r. split; [exact Hy|]. split; [exact Hcov|]. split; [exact Hpart|].
  unfold demo_view in Hy. rewrite Hx in Hy. simpl rbind in Hy.
  destruct (price_comparison_spec demo_analyst 1 (Matching.day 3) demo_offers s r Hy)
    as (oid & o & lines & offers & costs & _ & _ & _ & _ & _ & Hw & Ho & Hnone & _).
  intros Hx'. destruct (proj1 Hnone Hx') as [Hn|Hn].
  - rewrite <-Hw, Hwin in Hn. discriminate Hn.
  - rewrite <-Ho, Hours in Hn. discriminate Hn.
Defined.
End Demo.
End Calibration.
