(* ===== verification/Egress.v ===== *)
(** * The egress guard

    [packages/platform/egress/registry.py], [egress/validator.py] and
    [egress/fetch.py]: an outgoing request goes only to a registered host, at an
    address that was checked, and every redirect is checked again. The parts of
    a URL, the reading of an address text, the name service and the network are
    parameters; the latter two and the registry may answer differently at every
    hop. The classes of addresses are those of [ipaddress] in the current release of
    Python 3.12 (which has the documentation range 3fff::/20 since 3.12.8). *)

From stdpp Require Import base gmap sets strings list.
From Stdlib Require Import ZArith Ascii Lia.
From S2P Require Import Prelude Query.

Module Egress.
#[local] Open Scope Z_scope.

(** ** Addresses *)

Inductive ip_addr := IPv4 (n : Z) | IPv6 (n : Z).

(** A network: the number of its first address and the length of its prefix *)
Definition netmask (width prefix : Z) : Z := Z.shiftl (Z.ones prefix) (width - prefix).
(** [self in net]: [other._ip & self.netmask._ip == self.network_address._ip] *)
Definition in_net (width n : Z) (net : Z * Z) : bool := Z.land n (netmask width net.2) =? net.1.
Definition in_nets (width n : Z) (nets : list (Z * Z)) : bool := existsb (in_net width n) nets.

Definition quad (a b c d : Z) : Z := ((a * 256 + b) * 256 + c) * 256 + d.
(** An IPv6 address from its first, second and third groups of 16 bits and the
    number of the other five. *)
Definition groups (a b c rest : Z) : Z := a * 2 ^ 112 + b * 2 ^ 96 + c * 2 ^ 80 + rest.

Definition private_networks : list (Z * Z) :=
  [(quad 0 0 0 0, 8); (quad 10 0 0 0, 8); (quad 127 0 0 0, 8); (quad 169 254 0 0, 16); (quad 172 16 0 0, 12);
   (quad 192 0 0 0, 24); (quad 192 0 0 170, 31); (quad 192 0 2 0, 24); (quad 192 168 0 0, 16); (quad 198 18 0 0, 15);
   (quad 198 51 100 0, 24); (quad 203 0 113 0, 24); (quad 240 0 0 0, 4); (quad 255 255 255 255, 32)].
Definition private_exceptions : list (Z * Z) := [(quad 192 0 0 9, 32); (quad 192 0 0 10, 32)].
Definition private_networks6 : list (Z * Z) :=
  [(1, 128); (0, 128); (groups 0 0 0 (65535 * 2 ^ 32), 96); (groups 0x64 0xff9b 1 0, 48); (groups 0x100 0 0 0, 64);
   (groups 0x2001 0 0 0, 23); (groups 0x2001 0xdb8 0 0, 32); (groups 0x2002 0 0 0, 16); (groups 0xfc00 0 0 0, 7);
   (groups 0x3fff 0 0 0, 20); (groups 0xfe80 0 0 0, 10)].
Definition private_exceptions6 : list (Z * Z) :=
  [(groups 0x2001 1 0 1, 128); (groups 0x2001 1 0 2, 128); (groups 0x2001 3 0 0, 32); (groups 0x2001 4 0x112 0, 48);
   (groups 0x2001 0x20 0 0, 28); (groups 0x2001 0x30 0 0, 28)].
Definition reserved_networks6 : list (Z * Z) :=
  [(0, 8); (groups 0x100 0 0 0, 8); (groups 0x200 0 0 0, 7); (groups 0x400 0 0 0, 6); (groups 0x800 0 0 0, 5);
   (groups 0x1000 0 0 0, 4); (groups 0x4000 0 0 0, 3); (groups 0x6000 0 0 0, 3); (groups 0x8000 0 0 0, 3);
   (groups 0xa000 0 0 0, 3); (groups 0xc000 0 0 0, 3); (groups 0xe000 0 0 0, 4); (groups 0xf000 0 0 0, 5);
   (groups 0xf800 0 0 0, 6); (groups 0xfe00 0 0 0, 9)].

(** [IPv6Address.ipv4_mapped] *)
Definition ipv4_mapped (n : Z) : option Z :=
  if Z.shiftr n 32 =? 65535 then Some (Z.land n (2 ^ 32 - 1)) else None.
(** A property of an IPv6 address is that of the IPv4 address mapped in it. *)
Definition unwrapping (on4 on6 : Z → bool) (a : ip_addr) : bool :=
  match a with
  | IPv4 n => on4 n
  | IPv6 n => match ipv4_mapped n with Some m => on4 m | None => on6 n end
  end.
Definition is_loopback : ip_addr → bool := unwrapping (λ n, in_net 32 n (quad 127 0 0 0, 8)) (λ n, n =? 1).
Definition is_private : ip_addr → bool :=
  unwrapping (λ n, in_nets 32 n private_networks && negb (in_nets 32 n private_exceptions))
             (λ n, in_nets 128 n private_networks6 && negb (in_nets 128 n private_exceptions6)).
Definition is_link_local : ip_addr → bool :=
  unwrapping (λ n, in_net 32 n (quad 169 254 0 0, 16)) (λ n, in_net 128 n (groups 0xfe80 0 0 0, 10)).
Definition is_multicast : ip_addr → bool :=
  unwrapping (λ n, in_net 32 n (quad 224 0 0 0, 4)) (λ n, in_net 128 n (groups 0xff00 0 0 0, 8)).
Definition is_reserved : ip_addr → bool :=
  unwrapping (λ n, in_net 32 n (quad 240 0 0 0, 4)) (λ n, in_nets 128 n reserved_networks6).
Definition is_unspecified : ip_addr → bool := unwrapping (λ n, n =? 0) (λ n, n =? 0).

(** [_EXTRA_BLOCKED_NETWORKS]; an address is in no network of the other version. *)
Definition EXTRA_BLOCKED_NETWORKS : list (ip_addr * Z) := [(IPv4 (quad 100 64 0 0), 10); (IPv6 (groups 0x64 0xff9b 0 0), 96)].
Definition in_extra (a : ip_addr) : bool :=
  existsb (λ net, match a, net with
                  | IPv4 n, (IPv4 b, p) => in_net 32 n (b, p)
                  | IPv6 n, (IPv6 b, p) => in_net 128 n (b, p)
                  | _, _ => false
                  end) EXTRA_BLOCKED_NETWORKS.
Definition is_blocked_ip (a : ip_addr) : bool :=
  if is_loopback a || is_private a || is_link_local a || is_multicast a || is_reserved a || is_unspecified a then true
  else in_extra a.

(** ** The registry of trusted sources *)

Record TrustedSource := {
  host : string; allowed_schemes : list string; status : string; scanner_run_reference : option string;
  registered_by : string; promoted_at : option Z; revoked_at : option Z; revoked_reason : option string }.

(** [RETURNING ...] read with [.one()] *)
Definition one (l : list (Z * TrustedSource)) : result exn (Z * TrustedSource) :=
  match l with [x] => Ok x | [] => Err NoResultFound | _ => Err MultipleResultsFound end.
Definition of_host (h : string) (_ : Z) (r : TrustedSource) : bool := String.eqb (host r) h.

Definition register_source (h : string) (schemes : list string) (by_ : string) (t : table TrustedSource)
    : result exn (Z * TrustedSource * table TrustedSource) :=
  raise_if match tbl_select (of_host h) t with [] => false | _ => true end with IntegrityError "trusted_sources_host_key" ;;
  let r := {| host := h; allowed_schemes := schemes; status := "pending_scan"; scanner_run_reference := None;
              registered_by := by_; promoted_at := None; revoked_at := None; revoked_reason := None |} in
  let ' (i, t') := tbl_insert t r in Ok (i, r, t').

(** [UPDATE trusted_sources SET f WHERE host = h RETURNING ...] *)
Definition update_host (f : TrustedSource → TrustedSource) (h : string) (t : table TrustedSource)
    : result exn (Z * TrustedSource * table TrustedSource) :=
  let t' := tbl_update (of_host h) f t in
  let! x := one (map (λ ir, (ir.1, f ir.2)) (tbl_select (of_host h) t)) in Ok (x, t').
Definition promote_to_trusted (now : Z) (h reference : string) : table TrustedSource → result exn (Z * TrustedSource * table TrustedSource) :=
  update_host (λ r, {| host := host r; allowed_schemes := allowed_schemes r; status := "trusted"; scanner_run_reference := Some reference;
                       registered_by := registered_by r; promoted_at := Some now; revoked_at := revoked_at r;
                       revoked_reason := revoked_reason r |}) h.
Definition revoke_source (now : Z) (h reason : string) : table TrustedSource → result exn (Z * TrustedSource * table TrustedSource) :=
  update_host (λ r, {| host := host r; allowed_schemes := allowed_schemes r; status := "revoked";
                       scanner_run_reference := scanner_run_reference r; registered_by := registered_by r;
                       promoted_at := promoted_at r; revoked_at := Some now; revoked_reason := Some reason |}) h.
Definition get_trusted_source (t : table TrustedSource) (h : string) : option TrustedSource :=
  snd <$> head (tbl_select (λ _ r, String.eqb (host r) h && String.eqb (status r) "trusted") t).

(** ** The validator *)

Inductive egress_error :=
| EgressRejected (reason detail : string)
| TooManyRedirects (msg : string)
| EgressUncaught (e : exn).

(** What [urllib.parse] gives of a URL; [port] is a property that may raise. *)
Record SplitResult := {
  url_scheme : string; url_path : string; url_query : string; url_hostname : option string; url_port : result exn (option Z) }.
Class PyUrl := {
  urlsplit : string → result exn SplitResult;
  urljoin : string → string → result exn string;
  ip_address : string → result exn ip_addr;
}.

Definition ALLOWED_SCHEMES : list string := ["http"; "https"].
Record ValidatedTarget := {
  vt_host : string; vt_port : Z; vt_scheme : string; path_and_query : string; resolved_ip : string }.
Definition rejected {A} (reason detail : string) : result egress_error A := Err (EgressRejected reason detail).
Definition uncaught {A} (m : result exn A) : result egress_error A := map_err EgressUncaught m.

Section Validator.
Context `{PyText} `{PyUrl}.

(** [default_resolver]; [getaddrinfo] gives the address texts, or the text of a
    [gaierror]. *)
Definition add_new (seen : list string) (a : string) : list string := if bool_decide (a ∈ seen) then seen else seen ++ [a].
Definition default_resolver (getaddrinfo : string → result string (list string)) (h : string) : result egress_error (list string) :=
  match getaddrinfo h with
  | Err m => rejected "address_blocked" ("DNS resolution failed for " +:+ py_repr h +:+ ": " +:+ m)
  | Ok infos => Ok (foldl add_new [] infos)
  end.

Definition check_address (h : string) (_ : unit) (addr : string) : result egress_error unit :=
  let! a := uncaught (ip_address addr) in
  raise_if is_blocked_ip a with EgressRejected "address_blocked" (h +:+ " resolved to blocked address " +:+ addr) ;;
  Ok ().

Definition validate (resolver : string → result egress_error (list string)) (sources : table TrustedSource) (url : string)
    : result egress_error ValidatedTarget :=
  let! parts := uncaught (urlsplit url) in
  let scheme := py_lower (url_scheme parts) in
  raise_if bool_decide (scheme ∉ ALLOWED_SCHEMES)
    with EgressRejected "scheme_not_allowed" (py_repr scheme +:+ " is not http/https (" +:+ py_repr url +:+ ")") ;;
  match url_hostname parts with
  | None | Some "" => rejected "host_not_registered" ("URL has no host: " +:+ py_repr url)
  | Some h =>
      match get_trusted_source sources h with
      | None => rejected "host_not_registered" h
      | Some source =>
          raise_if bool_decide (scheme ∉ allowed_schemes source)
            with EgressRejected "scheme_not_allowed" (py_repr scheme +:+ " not in allowed_schemes for " +:+ h) ;;
          let! p := uncaught (url_port parts) in
          let port := match p with
                      | None | Some 0 => if String.eqb scheme "https" then 443 else 80
                      | Some n => n
                      end in
          let! addresses := resolver h in
          match addresses with
          | [] => rejected "address_blocked" (h +:+ " did not resolve to any address")
          | first :: _ =>
              let! _ := foldM (check_address h) () addresses in
              Ok {| vt_host := h; vt_port := port; vt_scheme := scheme;
                    path_and_query := (if String.eqb (url_path parts) "" then "/" else url_path parts) +:+
                                      (if String.eqb (url_query parts) "" then "" else "?" +:+ url_query parts);
                    resolved_ip := first |}
          end
      end
  end.

(** ** Fetching *)

Definition REDIRECT_STATUSES : list Z := [301; 302; 303; 307; 308].
Definition DEFAULT_MAX_REDIRECTS : nat := 5.

(** What [_fetch_pinned_sync] opens: a TCP connection to an address, the [Host]
    it names, and the name the certificate must have when it uses TLS. *)
Record connection := { tcp_address : string; tcp_port : Z; host_header : string; tls_name : option string; request_path : string }.
Definition fetch_response : Type := Z * string * gmap string string.
Definition connection_of (t : ValidatedTarget) : connection :=
  {| tcp_address := resolved_ip t; tcp_port := vt_port t; host_header := vt_host t;
     tls_name := if String.eqb (vt_scheme t) "https" then Some (vt_host t) else None; request_path := path_and_query t |}.
(** [network] answers a [GET] with status, body and headers. *)
Definition fetch_pinned (network : connection → result exn (Z * string * list (string * string))) (t : ValidatedTarget)
    : result exn fetch_response :=
  let! ' (st, body, headers) := network (connection_of t) in
  Ok (st, body, foldl (λ m kv, <[py_lower kv.1 := kv.2]> m) ∅ headers).

(** The answers of the world at each hop *)
Variable resolver : nat → string → result egress_error (list string).
Variable sources : nat → table TrustedSource.
Variable network : nat → connection → result exn (Z * string * list (string * string)).

(** The [for] loop from hop [k] on, with [left] hops left, and the connections it
    opened. *)
Fixpoint follow (left k : nat) (current_url : string) : result egress_error fetch_response * list connection :=
  match left with
  | 0%nat => (Err (TooManyRedirects ""), [])
  | S left' =>
      match validate (resolver k) (sources k) current_url with
      | Err e => (Err e, [])
      | Ok target =>
          let c := connection_of target in
          match fetch_pinned (network k) target with
          | Err e => (Err (EgressUncaught e), [c])
          | Ok (st, body, headers) =>
              if bool_decide (st ∉ REDIRECT_STATUSES) then (Ok (st, body, headers), [c]) else
              match headers !! "location" with
              | None | Some "" => (rejected "redirect_target_rejected"
                  (py_str_Z st +:+ " redirect with no Location header from " +:+ py_repr current_url), [c])
              | Some location =>
                  match urljoin current_url location with
                  | Err e => (Err (EgressUncaught e), [c])
                  | Ok next => let ' (r, cs) := follow left' (S k) next in (r, c :: cs)
                  end
              end
          end
      end
  end.
Definition fetch_via_validator (max_redirects : nat) (url : string) : result egress_error fetch_response * list connection :=
  match follow (S max_redirects) 0 url with
  | (Err (TooManyRedirects _), cs) =>
      (Err (TooManyRedirects ("exceeded " +:+ py_str_Z (Z.of_nat max_redirects) +:+ " redirects starting from " +:+ py_repr url)), cs)
  | r => r
  end.
End Validator.

(** ** The addresses that pass *)

Lemma land_netmask w p n : 0 <= p <= w → 0 <= n < 2 ^ w → Z.land n (netmask w p) = n - n mod 2 ^ (w - p).
Proof.
  intros Hp Hn. assert (n - n mod 2 ^ (w - p) = Z.shiftl (Z.shiftr n (w - p)) (w - p)) as ->.
  { rewrite Z.shiftl_mul_pow2, Z.shiftr_div_pow2 by lia. pose proof (Z.div_mod n (2 ^ (w - p))). lia. }
  apply Z.bits_inj'. intros i Hi. unfold netmask. rewrite Z.land_spec.
  destruct (Z.ltb_spec i (w - p)) as [Hlow|Hhigh].
  - rewrite !(Z.shiftl_spec_low _ (w - p) i) by done. by rewrite andb_false_r.
  - rewrite !(Z.shiftl_spec_high _ (w - p) i), Z.shiftr_spec by lia. replace (i - (w - p) + (w - p)) with i by lia.
    destruct (Z.ltb_spec (i - (w - p)) p).
    + by rewrite Z.ones_spec_low, andb_true_r by lia.
    + rewrite Z.ones_spec_high, andb_false_r by lia. symmetry. apply Z.testbit_false; [lia|].
      rewrite Z.div_small; [done|]. split; [lia|]. eapply Z.lt_le_trans; [apply Hn|]. apply Z.pow_le_mono_r; lia.
Qed.

Definition within (n : Z) (r : Z * Z) : bool := (r.1 <=? n) && (n <=? r.2).
Definition range_of (w : Z) (net : Z * Z) : Z * Z := (net.1, net.1 + 2 ^ (w - net.2) - 1).
(** The network starts at a multiple of its size. *)
Definition aligned (w : Z) (net : Z * Z) : bool :=
  (0 <=? net.2) && (net.2 <=? w) && (net.1 mod 2 ^ (w - net.2) =? 0).

Lemma in_net_range w n net : aligned w net = true → 0 <= n < 2 ^ w → in_net w n net = within n (range_of w net).
Proof.
  destruct net as [base p]. intros [[H1%Z.leb_le H2%Z.leb_le]%andb_prop H3%Z.eqb_eq]%andb_prop Hn. simpl in *.
  unfold in_net, within, range_of. simpl. rewrite land_netmask by lia. set (k := 2 ^ (w - p)) in *.
  assert (0 < k) by (apply Z.pow_pos_nonneg; lia). apply Z.mod_divide in H3 as [q ->]; [|lia].
  pose proof (Z.mod_pos_bound n k). pose proof (Z.div_mod n k). apply eq_bool_prop_intro. rewrite Is_true_true, Z.eqb_eq, Is_true_true, andb_true_iff, !Z.leb_le.
  split; [lia|]. intros. assert (n / k = q) as Hq by (symmetry; apply (Z.div_unique_pos n k q (n - q * k)); lia). lia.
Qed.
Lemma in_nets_ranges w n nets : forallb (aligned w) nets = true → 0 <= n < 2 ^ w →
  in_nets w n nets = existsb (within n) (map (range_of w) nets).
Proof.
  intros Ha Hn. unfold in_nets. induction nets as [|net nets IH]; [done|]. simpl in *. apply andb_prop in Ha as [Ha Hs].
  by rewrite in_net_range, IH.
Qed.

(** The addresses of IPv4 that are refused: this network, private, shared
    (CGNAT), loopback, link-local and metadata, protocol assignments other than
    two anycast addresses, documentation, benchmarks, multicast and reserved *)
Definition refused4 : list (Z * Z) :=
  [(quad 0 0 0 0, quad 0 255 255 255); (quad 10 0 0 0, quad 10 255 255 255); (quad 100 64 0 0, quad 100 127 255 255);
   (quad 127 0 0 0, quad 127 255 255 255); (quad 169 254 0 0, quad 169 254 255 255); (quad 172 16 0 0, quad 172 31 255 255);
   (quad 192 0 0 0, quad 192 0 0 8); (quad 192 0 0 11, quad 192 0 0 255); (quad 192 0 2 0, quad 192 0 2 255);
   (quad 192 168 0 0, quad 192 168 255 255); (quad 198 18 0 0, quad 198 19 255 255); (quad 198 51 100 0, quad 198 51 100 255);
   (quad 203 0 113 0, quad 203 0 113 255); (quad 224 0 0 0, quad 255 255 255 255)].
(** The shared addresses of carriers (CGNAT) *)
Definition shared4 : Z * Z := (quad 100 64 0 0, quad 100 127 255 255).
(** The last address under three first groups *)
Definition upto (a b c : Z) : Z := groups a b c (2 ^ 80 - 1).
(** The addresses of IPv6 that are let through: the global unicast ones but for
    special assignments, and the deprecated site-local ones *)
Definition accepted6 : list (Z * Z) :=
  [(groups 0x2000 0 0 0, upto 0x2000 0xffff 0xffff); (groups 0x2001 1 0 1, groups 0x2001 1 0 2);
   (groups 0x2001 3 0 0, upto 0x2001 3 0xffff); (groups 0x2001 4 0x112 0, upto 0x2001 4 0x112);
   (groups 0x2001 0x20 0 0, upto 0x2001 0x3f 0xffff); (groups 0x2001 0x200 0 0, upto 0x2001 0xdb7 0xffff);
   (groups 0x2001 0xdb9 0 0, upto 0x2001 0xffff 0xffff); (groups 0x2003 0 0 0, upto 0x3ffe 0xffff 0xffff);
   (groups 0x3fff 0x1000 0 0, upto 0x3fff 0xffff 0xffff);
   (groups 0xfec0 0 0 0, upto 0xfeff 0xffff 0xffff)].

(** Ranges of numbers are compared by [lia]. *)
Ltac ranges :=
  repeat match goal with
  | |- context [map (range_of ?w) ?l] => let r := eval vm_compute in (map (range_of w) l) in change (map (range_of w) l) with r
  | |- context [range_of ?w ?x] => let r := eval vm_compute in (range_of w x) in change (range_of w x) with r
  | |- context [existsb (within ?n) ?l] => is_const l; let r := eval vm_compute in l in change (existsb (within n) l) with (existsb (within n) r)
  | |- context [shared4] => let r := eval vm_compute in shared4 in change shared4 with r
  end; cbv [existsb within fst snd].

Lemma if_orb (a b : bool) : (if a then true else b) = a || b.
Proof. done. Qed.
Lemma refused_ipv4 n : 0 <= n < 2 ^ 32 → is_blocked_ip (IPv4 n) = existsb (within n) refused4.
Proof.
  intros Hn. unfold is_blocked_ip, is_loopback, is_private, is_link_local, is_multicast, is_reserved, is_unspecified, unwrapping, in_extra.
  cbn [existsb EXTRA_BLOCKED_NETWORKS]. rewrite if_orb. rewrite !in_nets_ranges, !in_net_range by (reflexivity || done). ranges. lia.
Qed.
Lemma refused_mapped n m : 0 <= n < 2 ^ 128 → ipv4_mapped n = Some m → is_blocked_ip (IPv6 n) =
  existsb (within m) refused4 && negb (within m shared4).
Proof.
  intros Hn Hm. unfold is_blocked_ip, is_loopback, is_private, is_link_local, is_multicast, is_reserved, is_unspecified, unwrapping, in_extra.
  rewrite Hm. unfold ipv4_mapped in Hm. destruct (Z.eqb_spec (Z.shiftr n 32) 65535) as [Hs|]; [|done]. injection Hm as <-.
  change (2 ^ 32 - 1) with (Z.ones 32). rewrite Z.land_ones by done. rewrite Z.shiftr_div_pow2 in Hs by done.
  pose proof (Z.div_mod n (2 ^ 32)) as Hdiv. pose proof (Z.mod_pos_bound n (2 ^ 32)) as Hb. rewrite Hs in Hdiv.
  assert (0 <= n mod 2 ^ 32 < 2 ^ 32) as Hr by lia. assert (n = 2 ^ 32 * 65535 + n mod 2 ^ 32) as Hnr by lia. clear Hdiv Hb Hs.
  cbn [existsb EXTRA_BLOCKED_NETWORKS]. rewrite if_orb. rewrite !in_nets_ranges, !in_net_range by (reflexivity || done). revert Hr Hnr. generalize (n mod 2 ^ 32) as m. intros m Hr Hnr. ranges. lia.
Qed.
Lemma accepted_ipv6 n : 0 <= n < 2 ^ 128 → is_blocked_ip (IPv6 n) =
  match ipv4_mapped n with
  | Some m => existsb (within m) refused4 && negb (within m shared4)
  | None => negb (existsb (within n) accepted6)
  end.
Proof.
  intros Hn. destruct (ipv4_mapped n) as [m|] eqn:Hm; [by apply refused_mapped|].
  unfold is_blocked_ip, is_loopback, is_private, is_link_local, is_multicast, is_reserved, is_unspecified, unwrapping, in_extra.
  rewrite Hm. cbn [existsb EXTRA_BLOCKED_NETWORKS]. rewrite if_orb. rewrite !in_nets_ranges, !in_net_range by (reflexivity || done). ranges. lia.
Qed.

(** C23: the guard refuses exactly the IPv4 addresses of [refused4]; an IPv6
    address that maps an IPv4 address is refused when that is, but for shared
    (CGNAT) addresses, which pass when mapped; of the other IPv6 addresses exactly
    those of [accepted6] pass. *)
Theorem blocked_addresses n :
  (0 <= n < 2 ^ 32 → is_blocked_ip (IPv4 n) = existsb (within n) refused4) ∧
  (0 <= n < 2 ^ 128 → is_blocked_ip (IPv6 n) =
     match ipv4_mapped n with
     | Some m => existsb (within m) refused4 && negb (within m shared4)
     | None => negb (existsb (within n) accepted6)
     end).
Proof. split; [apply refused_ipv4|apply accepted_ipv6]. Qed.

(** ** What a fetch connects to *)

Section Fetch.
Context `{PyText} `{PyUrl}.
Variable resolver : nat → string → result egress_error (list string).
Variable sources : nat → table TrustedSource.
Variable network : nat → connection → result exn (Z * string * list (string * string)).

Definition passes (addr : string) : Prop := ∃ a, ip_address addr = Ok a ∧ is_blocked_ip a = false.
(** A connection at hop [k] that the guard lets through *)
Record guarded (k : nat) (c : connection) : Prop := {
  gd_source : ∃ i src, (i, src) ∈ rows (sources k) ∧ host src = host_header c ∧ status src = "trusted" ∧
    ((tls_name c = None ∧ "http" ∈ allowed_schemes src) ∨ (tls_name c = Some (host_header c) ∧ "https" ∈ allowed_schemes src));
  gd_address : ∃ addrs, resolver k (host_header c) = Ok addrs ∧ head addrs = Some (tcp_address c) ∧ Forall passes addrs }.

Lemma check_addresses h addrs : foldM (check_address h) () addrs = Ok () → Forall passes addrs.
Proof.
  induction addrs as [|a addrs IH]; [constructor|]. simpl. intros (u & Ha & Hr)%rbind_ok. destruct u. constructor; [|by apply IH].
  unfold check_address in Ha. apply rbind_ok in Ha as (x & Hx & Ha). apply map_err_ok in Hx. exists x. split; [done|].
  by destruct (is_blocked_ip x).
Qed.
Lemma trusted_source_spec t h src : get_trusted_source t h = Some src → ∃ i, (i, src) ∈ rows t ∧ host src = h ∧ status src = "trusted".
Proof.
  unfold get_trusted_source, tbl_select. destruct (filter _ _) as [|[i r] l] eqn:Hf; [done|]. intros [= <-].
  assert ((i, r) ∈ (i, r) :: l) as Hin by left. rewrite <-Hf in Hin. apply list_elem_of_filter in Hin as [Hp Hin].
  apply andb_prop in Hp as [Hh Hs]. apply String.eqb_eq in Hh, Hs. by exists i.
Qed.
Lemma validate_guarded k url t : validate (resolver k) (sources k) url = Ok t → guarded k (connection_of t).
Proof.
  unfold validate. intros (parts & _ & Hr)%rbind_ok. cbv zeta in Hr. case_bool_decide as Hs; [done|].
  destruct (url_hostname parts) as [[|c h]|]; [done| |done]. set (hh := String c h) in *.
  destruct (get_trusted_source (sources k) hh) as [src|] eqn:Hsrc; [|done]. case_bool_decide as Hsch; [done|].
  apply rbind_ok in Hr as (p & _ & Hr). apply rbind_ok in Hr as (addrs & Ha & Hr). destruct addrs as [|first rest]; [done|].
  apply rbind_ok in Hr as ([] & Hc & [= <-]). apply trusted_source_spec in Hsrc as (i & Hin & Hh & Hst).
  split; simpl; [|exists (first :: rest); split_and!; [done..|]; by eapply check_addresses].
  exists i, src. split_and!; [done..|].
  unfold ALLOWED_SCHEMES in Hs. rewrite !elem_of_cons in Hs. destruct Hs as [Hs|[Hs|Hs]]; [| |by apply elem_of_nil in Hs];
    rewrite Hs in Hsch |- *; simpl; auto.
Qed.

Definition redirects (k : nat) (c : connection) : Prop :=
  ∃ st body headers, network k c = Ok (st, body, headers) ∧ st ∈ REDIRECT_STATUSES.
(** The log of connections, from hop [k] on *)
Record hops (left k : nat) (r : result egress_error fetch_response) (cs : list connection) : Prop := {
  hp_bound : (length cs <= left)%nat;
  hp_guarded : ∀ j c, cs !! j = Some c → guarded (k + j) c;
  hp_redirected : ∀ j c, cs !! j = Some c → (S j < length cs)%nat → redirects (k + j) c;
  hp_answer : ∀ st body hs, r = Ok (st, body, hs) → (st ∉ REDIRECT_STATUSES) ∧
    ∃ j c headers, length cs = S j ∧ cs !! j = Some c ∧ network (k + j) c = Ok (st, body, headers);
  hp_too_many : ∀ m, r = Err (TooManyRedirects m) → length cs = left ∧ ∀ j c, cs !! j = Some c → redirects (k + j) c }.

Lemma hops_one left k r c : guarded k c → (∀ m, r ≠ Err (TooManyRedirects m)) →
  (∀ st body hs, r = Ok (st, body, hs) → (st ∉ REDIRECT_STATUSES) ∧ ∃ headers, network k c = Ok (st, body, headers)) →
  hops (S left) k r [c].
Proof.
  intros Hg Hm Ha. assert (∀ j x, [c] !! j = Some x → j = 0%nat ∧ x = c) as Hone by (intros [|j] x; simpl; naive_solver).
  split; simpl.
  - lia.
  - intros j x [-> ->]%Hone. by rewrite Nat.add_0_r.
  - intros j x _ Hj. lia.
  - intros st body hs Hr. destruct (Ha _ _ _ Hr) as [Hst [headers Hn]]. split; [done|]. exists 0%nat, c, headers. by rewrite Nat.add_0_r.
  - intros m Hr. by destruct (Hm m).
Qed.
Lemma hops_cons left k r c cs : guarded k c → redirects k c → hops left (S k) r cs → hops (S left) k r (c :: cs).
Proof.
  intros Hg Hred [B G R A M]. split; simpl.
  - lia.
  - intros [|j] x; simpl; [intros [= <-]; by rewrite Nat.add_0_r|]. intros Hx. rewrite Nat.add_succ_r. by apply G.
  - intros [|j] x; simpl; [intros [= <-]; by rewrite Nat.add_0_r|]. intros Hx Hj. rewrite Nat.add_succ_r. apply R; [done|lia].
  - intros st body hs Hr. destruct (A _ _ _ Hr) as (Hst & j & x & headers & Hl & Hx & Hn). split; [done|].
    exists (S j), x, headers. rewrite Nat.add_succ_r. split_and!; [lia|done|done].
  - intros m Hr. destruct (M m Hr) as [Hl Hall]. split; [lia|].
    intros [|j] x; simpl; [intros [= <-]; by rewrite Nat.add_0_r|]. intros Hx. rewrite Nat.add_succ_r. by apply Hall.
Qed.
Lemma validate_no_redirect_error k url m : (∀ h x, resolver k h ≠ Err (TooManyRedirects x)) →
  validate (resolver k) (sources k) url ≠ Err (TooManyRedirects m).
Proof.
  intros Hres. unfold validate. assert (∀ A (x : result exn A), uncaught x ≠ Err (TooManyRedirects m)) as Hu by (by intros A []).
  destruct (uncaught (urlsplit url)) as [parts|] eqn:Hp; [|intros [= ->]; by apply Hu in Hp]. simpl. case_bool_decide; [done|].
  destruct (url_hostname parts) as [[|c h]|]; [done| |done]. destruct (get_trusted_source _ _); [|done]. case_bool_decide; [done|].
  destruct (uncaught (url_port parts)) eqn:Hq; [|intros [= ->]; by apply Hu in Hq]. simpl.
  destruct (resolver k (String c h)) as [addrs|e] eqn:Ha; simpl; [|intros [= ->]; by eapply Hres].
  destruct addrs as [|first rest]; [done|]. destruct (foldM _ _ _) as [|e] eqn:Hf; [done|]. simpl. intros [= ->].
  revert Hf. generalize (first :: rest). intros l. induction l as [|b l IH]; [done|]. simpl. unfold check_address at 1.
  destruct (uncaught (ip_address b)) as [x|] eqn:Hi; simpl; [|intros [= ->]; by apply Hu in Hi]. by destruct (is_blocked_ip _).
Qed.
Lemma follow_hops left k url r cs : (∀ j h x, resolver j h ≠ Err (TooManyRedirects x)) →
  follow resolver sources network left k url = (r, cs) → hops left k r cs.
Proof.
  intros Hres. revert k url r cs. induction left as [|left IH]; intros k url r cs; simpl; [intros [= <- <-]; by split|].
  destruct (validate _ _ _) as [t|e] eqn:Hv.
  2:{ intros [= <- <-]. split; simpl; [lia|done|done|done|]. intros m [= ->]. by apply validate_no_redirect_error in Hv. }
  apply validate_guarded in Hv. unfold fetch_pinned. destruct (network k (connection_of t)) as [[[st body] headers]|e] eqn:Hn; simpl;
    [|intros [= <- <-]; by apply hops_one].
  case_bool_decide as Hst; [intros [= <- <-]; apply hops_one; naive_solver|].
  destruct (_ !! "location") as [[|a l]|]; [intros [= <- <-]; by apply hops_one| |intros [= <- <-]; by apply hops_one].
  destruct (urljoin _ _) as [next|e]; [|intros [= <- <-]; by apply hops_one].
  destruct (follow _ _ _ left (S k) next) as [r' cs'] eqn:Hf. intros [= <- <-]. apply hops_cons; [done|by exists st, body, headers|].
  by eapply IH.
Qed.
End Fetch.

(** C7: whatever the name service, the registry and the servers answer at each
    hop, a fetch opens at most one connection more than the redirects it may
    follow; each goes to a host that is registered as trusted at that hop with
    the scheme used, at the first of the addresses the name service just gave
    for it, none of which is blocked, and with TLS under the name of the host; all
    but the last were answered by a redirect, a response is the answer of the
    last and no redirect, and too many redirects means that all of them were used. *)
Theorem fetch_guarded `{PyText} `{PyUrl} resolver sources network max_redirects url r cs :
  (∀ j h x, resolver j h ≠ Err (TooManyRedirects x)) →
  fetch_via_validator resolver sources network max_redirects url = (r, cs) →
  hops resolver sources network (S max_redirects) 0 r cs.
Proof.
  intros Hres Hf. unfold fetch_via_validator in Hf. destruct (follow _ _ _ _ _ _) as [r' cs'] eqn:Hw. apply follow_hops in Hw; [|done].
  destruct r' as [x|[a b|m|e]]; [by simplify_eq..| |by simplify_eq]. injection Hf as <- <-. destruct Hw as [B G R A M]. split; auto; [done|].
  intros m' _. by apply (M m).
Qed.

(** ** The registry as a map of hosts *)

Inductive registry_op :=
| Register (h : string) (schemes : list string) (by_ : string)
| Promote (now : Z) (h reference : string)
| Revoke (now : Z) (h reason : string).
(** A call that raises changes nothing. *)
Definition after (t : table TrustedSource) (r : result exn (Z * TrustedSource * table TrustedSource)) : table TrustedSource :=
  match r with Ok (_, _, t') => t' | Err _ => t end.
Definition apply_op (t : table TrustedSource) (o : registry_op) : table TrustedSource :=
  match o with
  | Register h schemes by_ => after t (register_source h schemes by_ t)
  | Promote now h reference => after t (promote_to_trusted now h reference t)
  | Revoke now h reason => after t (revoke_source now h reason t)
  end.

(** The specification: what is known of one host *)
Record standing := { sd_schemes : list string; sd_status : string; sd_scan : option string }.
Definition standing_step (h : string) (st : option standing) (o : registry_op) : option standing :=
  match o, st with
  | Register h' schemes _, None => if String.eqb h' h then Some {| sd_schemes := schemes; sd_status := "pending_scan"; sd_scan := None |} else None
  | Promote _ h' reference, Some s =>
      Some (if String.eqb h' h then {| sd_schemes := sd_schemes s; sd_status := "trusted"; sd_scan := Some reference |} else s)
  | Revoke _ h' _, Some s =>
      Some (if String.eqb h' h then {| sd_schemes := sd_schemes s; sd_status := "revoked"; sd_scan := sd_scan s |} else s)
  | _, _ => st
  end.
Definition standing_of (ops : list registry_op) (h : string) : option standing := foldl (standing_step h) None ops.
Definition view (r : TrustedSource) : standing :=
  {| sd_schemes := allowed_schemes r; sd_status := status r; sd_scan := scanner_run_reference r |}.

Lemma select_none_other (t : table TrustedSource) h h' f : h ≠ h' → (∀ r, host (f r) = host r) →
  tbl_select (of_host h') (tbl_update (of_host h) f t) = tbl_select (of_host h') t.
Proof.
  intros Hne Hf. rewrite tbl_select_update_map by (intros i r; unfold of_host; by rewrite Hf).
  rewrite <-(map_id (tbl_select (of_host h') t)) at 2. apply map_ext_in. intros [i r] Hin%list_elem_of_In. apply elem_of_tbl_select in Hin as [Hh _]. unfold of_host in *. simpl. apply String.eqb_eq in Hh.
  destruct (String.eqb_spec (host r) h); [congruence|done].
Qed.
Lemma select_same (t : table TrustedSource) h f : (∀ r, host (f r) = host r) →
  tbl_select (of_host h) (tbl_update (of_host h) f t) = map (λ ir, (ir.1, f ir.2)) (tbl_select (of_host h) t).
Proof.
  intros Hf. rewrite tbl_select_update_map by (intros i r; unfold of_host; by rewrite Hf). apply map_ext_in.
  intros [i r] Hin%list_elem_of_In. apply elem_of_tbl_select in Hin as [Hh _]. unfold of_host in *. simpl in *. by rewrite Hh.
Qed.

(** The rows of a host agree with its standing. *)
Definition agrees (t : table TrustedSource) (h : string) (st : option standing) : Prop :=
  map (λ ir, view ir.2) (tbl_select (of_host h) t) = match st with Some s => [s] | None => [] end.
Lemma update_agrees f g h t h' st : (∀ r, host (f r) = host r) → (∀ r, view (f r) = g (view r)) → agrees t h' st →
  (h ≠ h' → agrees (after t (update_host f h t)) h' st) ∧ (h = h' → agrees (after t (update_host f h t)) h' (g <$> st)).
Proof.
  intros Hf Hg Ha. unfold update_host. set (l := map _ _). split.
  - intros Hne. destruct (one l) as [[i r]|]; simpl; [|done]. unfold agrees. by rewrite select_none_other.
  - intros <-. unfold agrees in *. subst l. destruct (tbl_select (of_host h) t) as [|[i r] [|y l]] eqn:Hsel; simpl in *.
    + rewrite Hsel. by destruct st.
    + rewrite select_same, Hsel by done. simpl. rewrite Hg. destruct st as [s|]; [|done]. by injection Ha as ->.
    + by destruct st.
Qed.
Ltac by_update g h' h Ha :=
  unfold promote_to_trusted, revoke_source;
  match goal with |- context [update_host ?f _ _] =>
    destruct (update_agrees f g h' _ h _ (λ r, eq_refl) (λ r, eq_refl) Ha) end;
  destruct (String.eqb_spec h' h); match goal with Hq : ?P → _, Hp : ?P |- _ => specialize (Hq Hp) end;
  match goal with st : option standing |- _ => by destruct st end.
Lemma apply_op_agrees o t h st : agrees t h st → agrees (apply_op t o) h (standing_step h st o).
Proof.
  intros Ha. destruct o as [h' schemes by_|now h' reference|now h' reason]; simpl.
  - unfold register_source. destruct (tbl_select (of_host h') t) as [|x l] eqn:Hsel; simpl.
    + unfold agrees in *. destruct t as [l0 n0]; simpl in *. rewrite tbl_select_snoc, (tbl_select_next _ _ _ n0), map_app, Ha. unfold of_host. simpl.
      destruct (String.eqb_spec h' h) as [->|]; simpl; [|rewrite app_nil_r; by destruct st].
      rewrite Hsel in Ha. by destruct st.
    + destruct st as [s|]; [done|]. destruct (String.eqb_spec h' h) as [->|]; [|done]. unfold agrees in Ha. by rewrite Hsel in Ha.
  - by_update (λ s, {| sd_schemes := sd_schemes s; sd_status := "trusted"; sd_scan := Some reference |}) h' h Ha.
  - by_update (λ s, {| sd_schemes := sd_schemes s; sd_status := "revoked"; sd_scan := sd_scan s |}) h' h Ha.
Qed.

(** C30: after any sequence of calls the registry knows of each host exactly its
    standing: a host is trusted only after a registration and then a promotion
    naming a scanner run with no revocation since, with the schemes of its
    registration, and the look-up finds it in no other case. *)
Theorem registry_refines ops h :
  match standing_of ops h with
  | Some s => if String.eqb (sd_status s) "trusted"
              then ∃ r, get_trusted_source (foldl apply_op tbl_empty ops) h = Some r ∧ view r = s ∧ host r = h
              else get_trusted_source (foldl apply_op tbl_empty ops) h = None
  | None => get_trusted_source (foldl apply_op tbl_empty ops) h = None
  end.
Proof.
  assert (agrees (foldl apply_op tbl_empty ops) h (standing_of ops h)) as Ha.
  { induction ops as [|o ops IH] using rev_ind; [done|]. unfold standing_of. rewrite !foldl_app. by apply apply_op_agrees. }
  revert Ha. generalize (foldl apply_op tbl_empty ops) as t. intros t. unfold agrees, get_trusted_source. set (q := λ (_ : Z) r, _).
  assert (tbl_select q t = filter (λ ir, String.eqb (status ir.2) "trusted" = true) (tbl_select (of_host h) t)) as ->.
  { unfold tbl_select, q, of_host. rewrite list_filter_filter. apply list_filter_iff. intros [i r]. simpl. rewrite andb_true_iff. tauto. }
  destruct (standing_of ops h) as [s|].
  - destruct (tbl_select (of_host h) t) as [|[i r] [|]] eqn:Hsel; [done| |done]. simpl. intros [= <-].
    assert ((i, r) ∈ tbl_select (of_host h) t) as Hin by (rewrite Hsel; by left). apply elem_of_tbl_select in Hin as [Hh _].
    apply String.eqb_eq in Hh. rewrite filter_cons. simpl. destruct (String.eqb (status r) "trusted"); simpl; [by exists r|done].
  - intros Hn%map_nil. by rewrite Hn.
Qed.

(** ** Witnesses *)

Section Demo.
#[local] Existing Instance ascii_text.
Fixpoint until_slash (s : string) : string * string :=
  match s with
  | String c rest => if Ascii.eqb c "/"%char then ("", s) else let ' (a, b) := until_slash rest in (String c a, b)
  | EmptyString => ("", "")
  end.
(** Absolute URLs without port and query, and one address *)
Definition demo_url : PyUrl := {|
  urlsplit := λ u,
    let parts scheme rest := let ' (h, p) := until_slash rest in
      Ok {| url_scheme := scheme; url_path := p; url_query := ""; url_hostname := Some h; url_port := Ok None |} in
    if String.prefix "https://" u then parts "https" (String.substring 8 (String.length u) u)
    else if String.prefix "http://" u then parts "http" (String.substring 7 (String.length u) u) else Err (ValueError "");
  urljoin := λ _ l, Ok l;
  ip_address := λ a, if String.eqb a "93.184.216.34" then Ok (IPv4 (quad 93 184 216 34))
                     else if String.eqb a "169.254.169.254" then Ok (IPv4 (quad 169 254 169 254)) else Err (ValueError "") |}.
#[local] Existing Instance demo_url.
Definition demo_sources : table TrustedSource := foldl apply_op tbl_empty
  [Register "etender.gov.az" ["https"] "dana"; Promote 3 "etender.gov.az" "scan-1"; Register "evil.test" ["https"] "dana"; Promote 4 "evil.test" "scan-2"].
Definition demo_resolver (_ : nat) (h : string) : result egress_error (list string) :=
  if String.eqb h "evil.test" then Ok ["93.184.216.34"; "169.254.169.254"] else Ok ["93.184.216.34"].
Definition demo_network (k : nat) (c : connection) : result exn (Z * string * list (string * string)) :=
  match k with 0%nat => Ok (302, "", [("Location", "https://evil.test/latest")]) | _ => Ok (200, "secret", []) end.

(** The redirect to a host that also resolves to the metadata address is not
    followed. *)
Lemma fetch_guarded_witness : ∃ r c, fetch_via_validator demo_resolver (λ _, demo_sources) demo_network DEFAULT_MAX_REDIRECTS "https://etender.gov.az/x" = (r, [c]) ∧
  r = Err (EgressRejected "address_blocked" "evil.test resolved to blocked address 169.254.169.254") ∧
  redirects demo_network 0 c ∧ guarded demo_resolver (λ _, demo_sources) 0 c.
Proof.
  pose (x := fetch_via_validator demo_resolver (λ _, demo_sources) demo_network DEFAULT_MAX_REDIRECTS "https://etender.gov.az/x").
  assert (match x with (Err (EgressRejected a b), [c]) => String.eqb a "address_blocked" && String.eqb b "evil.test resolved to blocked address 169.254.169.254" | _ => false end = true) as Hv
    by (vm_compute; reflexivity).
  destruct x as [[|[a b| |]] [|c [|]]] eqn:Hx; try discriminate Hv. subst x. apply andb_prop in Hv as [Ha%String.eqb_eq Hb%String.eqb_eq].
  destruct (fetch_guarded demo_resolver (λ _, demo_sources) demo_network DEFAULT_MAX_REDIRECTS "https://etender.gov.az/x" _ _
    ltac:(intros j h x; unfold demo_resolver; destruct (String.eqb h "evil.test"); discriminate) Hx) as [_ Hg _ _ _].
  exists (Err (EgressRejected a b)), c. split; [exact Hx|]. split; [by rewrite Ha, Hb|]. split; [|exact (Hg 0%nat c eq_refl)].
  exists 302, "", [("Location", "https://evil.test/latest")]. split; [reflexivity|concrete_mem].
Defined.
End Demo.
End Egress.
