(* ===== verification/LiveFetch.v ===== *)
(** * The live fetches of the connectors

    The [fetch_*_live] functions of [packages/tender/etender_connector.py] and
    [worldbank_connector.py]: the URL of a page is built from the parameters,
    fetched through the egress guard ([Egress]), and the body of an answer with
    status 200 is read as JSON. [urlencode] is modelled on the bytes of the
    UTF-8 text, [json.loads] is a parameter. The fetches are then given to the
    jobs that take them as arguments. *)

From stdpp Require Import base gmap sets strings list pretty.
From Stdlib Require Import ZArith Ascii Lia.
From S2P Require Import Prelude Json Query Jobs Worker ExceptionQueue BoqImport PyStr Regex SchemaDrift BoqLine Signals TenderDb Ingestion BoqPages SignalPages TenderChanges Egress.
#[local] Close Scope char_scope.

Module LiveFetch.
Import Drift TenderDb Ingestion BoqPages SignalPages TenderChanges Egress.
#[local] Open Scope Z_scope.

(** ** [urllib.parse.urlencode] *)

Definition in_range (lo hi c : ascii) : bool := N.leb (N_of_ascii lo) (N_of_ascii c) && N.leb (N_of_ascii c) (N_of_ascii hi).
(** The bytes [quote] leaves as they are *)
Definition always_safe (c : ascii) : bool :=
  in_range "A"%char "Z"%char c || in_range "a"%char "z"%char c || in_range "0"%char "9"%char c ||
  existsb (Ascii.eqb c) ["_"%char; "."%char; "-"%char; "~"%char].
Definition hex_char (n : N) : ascii :=
  if N.ltb n 10 then ascii_of_N (48 + n) else ascii_of_N (55 + n).
Definition percent (c : ascii) : string :=
  String "%" (String (hex_char (N_of_ascii c / 16)) (String (hex_char (N_of_ascii c mod 16)) EmptyString)).
(** [quote_plus] goes byte by byte: the space is safe first and then replaced. *)
Definition quote_char (c : ascii) : string :=
  if Ascii.eqb c " "%char then "+" else if always_safe c then String c EmptyString else percent c.
Fixpoint quote_plus (s : string) : string :=
  match s with EmptyString => "" | String c t => quote_char c +:+ quote_plus t end.

Section Encode.
Context `{PyText}.
Definition param_text (kv : string * json) : string := quote_plus kv.1 +:+ "=" +:+ quote_plus (json_str kv.2).
(** [urlencode] of a dict *)
Definition urlencode (params : payload) : string := str_join "&" (map param_text params).
End Encode.

(** [{**d, k: v}]: a key that is there keeps its place. *)
Fixpoint dict_with (k : string) (v : json) (d : payload) : payload :=
  match d with
  | [] => [(k, v)]
  | (k', v') :: d' => if String.eqb k k' then (k', v) :: d' else (k', v') :: dict_with k v d'
  end.

(** ** Reading a query string: [parse_qsl] with [keep_blank_values] *)

Definition hex_value (c : ascii) : option N :=
  if in_range "0"%char "9"%char c then Some (N_of_ascii c - 48)%N
  else if in_range "A"%char "F"%char c then Some (N_of_ascii c - 55)%N
  else if in_range "a"%char "f"%char c then Some (N_of_ascii c - 87)%N
  else None.
Fixpoint unquote_plus (s : string) : string :=
  match s with
  | EmptyString => ""
  | String "+" t => String " " (unquote_plus t)
  | String "%" ((String a (String b t)) as rest) =>
      match hex_value a, hex_value b with
      | Some x, Some y => String (ascii_of_N (16 * x + y)) (unquote_plus t)
      | _, _ => String "%" (unquote_plus rest)
      end
  | String c t => String c (unquote_plus t)
  end.
Definition parse_pair (s : string) : string * string :=
  let ' (k, v) := around "="%char s in (unquote_plus k, match v with Some v => unquote_plus v | None => "" end).
Definition parse_qsl (qs : string) : list (string * string) :=
  map parse_pair (filter (λ s, s ≠ "") (split_on "&"%char qs)).

(** ** The operations *)

Inductive fetch_error :=
| FetchEgress (e : egress_error)
| UnexpectedResponseStatus (msg : string)
| FetchRaised (e : exn).

(** What the outside answers to one fetch, hop by hop *)
Record World := {
  w_resolver : nat → string → result egress_error (list string);
  w_sources : nat → table TrustedSource;
  w_network : nat → connection → result exn (Z * string * list (string * string)) }.
(** A fetch leaves the connections it opened. *)
Definition fetched : Type := result fetch_error (string * json) * list connection.

Section Fetch.
Context `{PyText} `{PyUrl}.
Variable json_loads : string → result exn json.

Definition read_response (what url : string) (r : result egress_error fetch_response) : result fetch_error (string * json) :=
  match r with
  | Err e => Err (FetchEgress e)
  | Ok (status, body, _) =>
      raise_if negb (status =? 200)
        with UnexpectedResponseStatus (what +:+ " returned HTTP " +:+ py_str_Z status +:+ " for " +:+ py_repr url) ;;
      let! p := map_err FetchRaised (json_loads body) in Ok (body, p)
  end.
Definition fetch_json (w : World) (what url : string) : fetched :=
  let ' (r, cs) := fetch_via_validator (w_resolver w) (w_sources w) (w_network w) DEFAULT_MAX_REDIRECTS url in
  (read_response what url r, cs).

Definition design_tender_url (query_params : payload) (page_number : Z) : string :=
  "https://etender.gov.az/api/events?" +:+ urlencode (dict_with "PageNumber" (JInt page_number) query_params).
Definition fetch_design_tender_page_live (w : World) (query_params : json) (page_number : Z) : fetched :=
  match mapping_of query_params with
  | Err e => (Err (FetchRaised e), [])
  | Ok params => fetch_json w "eTender events search" (design_tender_url params page_number)
  end.

Definition procurement_plan_url (year page_number : Z) (buyer_organization_name : string) : string :=
  "https://etender.gov.az/api/app?" +:+
  urlencode ([("PageSize", JInt 10); ("PageNumber", JInt page_number); ("Year", JInt year)] ++
             (if String.eqb buyer_organization_name "" then [] else [("BuyerOrganizationName", JStr buyer_organization_name)])).
Definition fetch_procurement_plan_page_live (w : World) (year page_number : Z) (buyer_organization_name : string) : fetched :=
  fetch_json w "eTender app-list search" (procurement_plan_url year page_number buyer_organization_name).

Definition event_details_url (event_id : Z) : string := "https://etender.gov.az/api/events/" +:+ py_str_Z event_id.
Definition fetch_event_details_live (w : World) (event_id : Z) : fetched :=
  fetch_json w "eTender event details" (event_details_url event_id).

Definition bom_lines_url (event_id page_number : Z) : string :=
  "https://etender.gov.az/api/events/" +:+ py_str_Z event_id +:+ "/bomLines?" +:+
  urlencode [("PageSize", JInt 100); ("PageNumber", JInt page_number)].
Definition fetch_bom_lines_page_live (w : World) (event_id page_number : Z) : fetched :=
  fetch_json w "eTender BOM lines page" (bom_lines_url event_id page_number).

(** The country is put into the URL as it is. *)
Definition donor_pipeline_url (countrycode_exact : json) (rows_ os_ : Z) : string :=
  "https://search.worldbank.org/api/v2/projects?format=json&countrycode_exact=" +:+ json_str countrycode_exact +:+
  "&rows=" +:+ py_str_Z rows_ +:+ "&os=" +:+ py_str_Z os_.
Definition fetch_donor_pipeline_page_live (w : World) (countrycode_exact : json) (rows_ os_ : Z) : fetched :=
  fetch_json w "World Bank Projects API" (donor_pipeline_url countrycode_exact rows_ os_).
End Fetch.

(** ** A query string can be read back *)

Lemma quote_char_lacks c : lacks "&"%char (quote_char c) && lacks "="%char (quote_char c) && lacks "/"%char (quote_char c) = true.
Proof. by destruct c as [[] [] [] [] [] [] [] []]. Qed.
Lemma quote_plus_lacks s : lacks "&"%char (quote_plus s) = true ∧ lacks "="%char (quote_plus s) = true.
Proof.
  induction s as [|c s [IH1 IH2]]; [done|]. cbn [quote_plus]. rewrite !lacks_app, IH1, IH2, !andb_true_r.
  pose proof (quote_char_lacks c) as [[-> ->]%andb_prop _]%andb_prop. done.
Qed.
Lemma unquote_char c t : unquote_plus (quote_char c +:+ t) = String c (unquote_plus t).
Proof. by destruct c as [[] [] [] [] [] [] [] []]. Qed.
Lemma unquote_quote s : unquote_plus (quote_plus s) = s.
Proof. induction s as [|c s IH]; [done|]. cbn [quote_plus]. by rewrite unquote_char, IH. Qed.

Section RoundTrip.
Context `{PyText}.

Lemma param_text_lacks kv : lacks "&"%char (param_text kv) = true.
Proof. unfold param_text. rewrite !lacks_app, !(proj1 (quote_plus_lacks _)). done. Qed.
Lemma param_text_nonempty kv : param_text kv ≠ "".
Proof. unfold param_text. by destruct (quote_plus kv.1). Qed.
Lemma parse_param kv : parse_pair (param_text kv) = (kv.1, json_str kv.2).
Proof.
  unfold parse_pair, param_text. change ("=" +:+ ?x) with (String "=" x). rewrite around_app by apply quote_plus_lacks.
  by rewrite !unquote_quote.
Qed.
Lemma parse_urlencode (params : payload) : parse_qsl (urlencode params) = map (λ kv, (kv.1, json_str kv.2)) params.
Proof.
  unfold parse_qsl, urlencode. destruct (decide (params = [])) as [->|Hne]; [done|]. change "&" with (String "&" "").
  rewrite split_join; [|by destruct params|].
  - clear. induction params as [|x params IH]; [done|]. cbn [map]. rewrite filter_cons_True by apply param_text_nonempty.
    cbn [map]. by rewrite parse_param, IH.
  - apply Forall_forall. intros s (x & -> & _)%list_elem_of_fmap. apply param_text_lacks.
Qed.
End RoundTrip.

(** ** Different pages have different URLs *)

Lemma lacks_pretty_N_go c x s : in_range "0"%char "9"%char c = false → lacks c s = true → lacks c (pretty_N_go x s) = true.
Proof.
  intros Hc. revert s. induction (N.lt_wf_0 x) as [x _ IH]. intros s Hs.
  assert (x = 0 ∨ 0 < x)%N as [->|Hx] by lia; [by rewrite pretty_N_go_0|].
  rewrite pretty_N_go_step by done. apply IH; [by apply N.div_lt|]. cbn [lacks]. rewrite Hs, andb_true_r.
  apply negb_true_iff, Ascii.eqb_neq. intros ->. revert Hc. unfold pretty_N_char. by repeat case_match.
Qed.
Lemma str_Z_lacks c n : in_range "0"%char "9"%char c = false → Ascii.eqb c "-"%char = false → lacks c (py_str_Z n) = true.
Proof.
  intros Hc Hd. assert (∀ m : N, lacks c (pretty m) = true) as Hn.
  { intros m. unfold pretty, pretty_N. case_decide; [|by apply lacks_pretty_N_go]. cbn [lacks]. rewrite andb_true_r.
    apply negb_true_iff, Ascii.eqb_neq. intros ->. by vm_compute in Hc. }
  unfold py_str_Z, pretty, pretty_Z. destruct n as [|m|m]; [| |change ("-" +:+ ?x) with (String "-" x); cbn [lacks]; rewrite Hd; simpl].
  - cbn [lacks]. rewrite andb_true_r. apply negb_true_iff, Ascii.eqb_neq. intros ->. by vm_compute in Hc.
  - apply (Hn (N.pos m)).
  - apply (Hn (N.pos m)).
Qed.

Section Urls.
Context `{PyText}.

Lemma urlencode_inj (a b : payload) : urlencode a = urlencode b →
  map (λ kv, (kv.1, json_str kv.2)) a = map (λ kv, (kv.1, json_str kv.2)) b.
Proof. intros Heq%(f_equal parse_qsl). by rewrite !parse_urlencode in Heq. Qed.
Lemma assoc_dict_with k v (d : payload) : assoc k (dict_with k v d) = Some v.
Proof.
  induction d as [|[k' v'] d IH]; simpl; [by rewrite String.eqb_refl|]. destruct (String.eqb k k') eqn:He; simpl; by rewrite He.
Qed.
Lemma assoc_texts k (d : payload) : assoc k (map (λ kv, (kv.1, json_str kv.2)) d) = json_str <$> assoc k d.
Proof. induction d as [|[k' v'] d IH]; simpl; [done|]. by destruct (String.eqb k k'). Qed.
Lemma str_Z_inj a b : py_str_Z a = py_str_Z b → a = b.
Proof. unfold py_str_Z. apply (inj pretty). Qed.

Lemma design_url_inj q q' n n' : design_tender_url q n = design_tender_url q' n' → n = n' ∧
  map (λ kv, (kv.1, json_str kv.2)) (dict_with "PageNumber" (JInt n) q) = map (λ kv, (kv.1, json_str kv.2)) (dict_with "PageNumber" (JInt n') q').
Proof.
  unfold design_tender_url. intros Heq%(inj _)%urlencode_inj. split; [|done]. apply (f_equal (assoc "PageNumber")) in Heq.
  rewrite !assoc_texts, !assoc_dict_with in Heq. simpl in Heq. apply str_Z_inj. congruence.
Qed.
Lemma plan_url_inj y y' n n' b b' : procurement_plan_url y n b = procurement_plan_url y' n' b' → y = y' ∧ n = n' ∧ b = b'.
Proof.
  unfold procurement_plan_url. intros Heq%(inj _)%urlencode_inj.
  destruct (String.eqb_spec b ""), (String.eqb_spec b' ""); simpl in Heq; try discriminate;
    injection Heq as Hn Hy; try (injection Hy as Hy Hb); apply str_Z_inj in Hn, Hy; split_and!; congruence.
Qed.
Lemma bom_url_inj e e' n n' : bom_lines_url e n = bom_lines_url e' n' → e = e' ∧ n = n'.
Proof.
  unfold bom_lines_url. intros Heq%(inj _). change ("/bomLines?" +:+ ?x) with (String "/" ("bomLines?" +:+ x)) in Heq.
  apply (f_equal (around "/"%char)) in Heq. rewrite !around_app in Heq by (by apply str_Z_lacks). injection Heq as He Hq.
  split; [by apply str_Z_inj|].
  apply (f_equal unquote_plus) in Hq. change ("" +:+ ?x) with x in Hq. rewrite !unquote_quote in Hq. by apply str_Z_inj.
Qed.
Lemma event_url_inj e e' : event_details_url e = event_details_url e' → e = e'.
Proof. unfold event_details_url. intros Heq%(inj _). by apply str_Z_inj. Qed.

(** A query string of eTender is read back to exactly its parameters, in
    order and whatever characters they hold, so requests for different pages,
    events, years or buyers go to different URLs, and two searches share a URL
    only when their parameters read alike. *)
Theorem url_roundtrip :
  (∀ params, parse_qsl (urlencode params) = map (λ kv, (kv.1, json_str kv.2)) params) ∧
  (∀ q q' n n', design_tender_url q n = design_tender_url q' n' ↔
     map (λ kv, (kv.1, json_str kv.2)) (dict_with "PageNumber" (JInt n) q) =
       map (λ kv, (kv.1, json_str kv.2)) (dict_with "PageNumber" (JInt n') q') ∧ n = n') ∧
  (∀ y y' n n' b b', procurement_plan_url y n b = procurement_plan_url y' n' b' ↔ y = y' ∧ n = n' ∧ b = b') ∧
  (∀ e e' n n', bom_lines_url e n = bom_lines_url e' n' ↔ e = e' ∧ n = n') ∧
  (∀ e e', event_details_url e = event_details_url e' ↔ e = e').
Proof.
  split_and!.
  - apply parse_urlencode.
  - intros q q' n n'. split; [by intros []%design_url_inj|]. intros [Hq ->]. unfold design_tender_url, urlencode. f_equal. f_equal.
    assert (∀ d : payload, map param_text d = map (λ kv, quote_plus kv.1 +:+ "=" +:+ quote_plus kv.2) (map (λ kv, (kv.1, json_str kv.2)) d)) as Hm
      by (intros d; by rewrite map_map). by rewrite !Hm, Hq.
  - intros y y' n n' b b'. split; [apply plan_url_inj|by intros (-> & -> & ->)].
  - intros e e' n n'. split; [apply bom_url_inj|by intros (-> & ->)].
  - intros e e'. split; [apply event_url_inj|by intros ->].
Qed.

(** The World Bank's URL does not quote the country: a [&] in it adds a
    parameter to the request. *)
Lemma country_unquoted :
  (around "?"%char (donor_pipeline_url (JStr "AZ&rows=500") 10 0)).2 = Some "format=json&countrycode_exact=AZ&rows=500&rows=10&os=0" ∧
  parse_qsl "format=json&countrycode_exact=AZ&rows=500&rows=10&os=0" =
    [("format", "json"); ("countrycode_exact", "AZ"); ("rows", "500"); ("rows", "10"); ("os", "0")].
Proof. split; vm_compute; reflexivity. Qed.
End Urls.

(** ** Where the evidence comes from *)

(** An action that adds to the stored evidence only bodies that satisfy [P],
    each with its digest and as the database reads it *)
Definition evidence_from `{Bytes} {A} (P : string → Prop) (m : act A) : Prop := ∀ s, ∃ new,
  rows (snapshots (m s).2) = rows (snapshots s) ++ new ∧
  Forall (λ ir, ∃ raw, P raw ∧ sn_checksum ir.2 = sha256_hex raw ∧ jsonb_of_bytes raw = Ok (sn_body ir.2)) new.

Section Evidence.
Context `{PyText} `{Bytes} `{PyRegex}.
Context {P : string → Prop}.
#[local] Abbreviation ev := (evidence_from P).

Lemma ev_quiet {A} (m : act A) : leaves snapshots m → ev m.
Proof. intros Hm s. exists []. by rewrite Hm, app_nil_r. Qed.
Lemma ev_bind {A B} (m : act A) (k : A → act B) : ev m → (∀ a, ev (k a)) → ev (bind m k).
Proof.
  intros Hm Hk s. unfold bind. destruct (Hm s) as (new & Hn & Hf). destruct (m s) as [[a|e] s1]; [|by exists new].
  destruct (Hk a s1) as (new' & Hn' & Hf'). exists (new ++ new'). simpl in Hn. rewrite Hn', Hn, <-app_assoc.
  split; [done|by apply Forall_app].
Qed.
(** What comes of a value is only needed when there is one. *)
Lemma ev_pure_bind {A B} (r : result exn A) (k : A → act B) : (∀ a, r = Ok a → ev (k a)) → ev (bind (pure r) k).
Proof. intros Hk. destruct r as [a|e]; [exact (Hk a eq_refl)|by apply ev_quiet]. Qed.
Lemma ev_catching {A} (m : act A) h : ev m → (∀ d n i, ev (h d n i)) → ev (catching_drift m h).
Proof.
  intros Hm Hh s. unfold catching_drift. destruct (Hm s) as (new & Hn & Hf). destruct (m s) as [[a|[d n i|e|e]] s1]; try by exists new.
  destruct (Hh d n i s1) as (new' & Hn' & Hf'). exists (new ++ new'). simpl in Hn. rewrite Hn', Hn, <-app_assoc.
  split; [done|by apply Forall_app].
Qed.
Lemma ev_save now src resource identity raw contract corr : P raw → ev (save_raw_snapshot now src resource identity raw contract corr).
Proof.
  intros Hp s. unfold save_raw_snapshot, bind, pure. destruct (jsonb_of_bytes raw) as [body|e] eqn:Hb; simpl; [|exists []; by rewrite app_nil_r].
  eexists [_]. split; [done|]. constructor; [|done]. by exists raw.
Qed.
Lemma ev_queue now src corr d n i : ev (queue_drift now src corr d n i).
Proof. apply ev_quiet. intros s. unfold queue_drift. by destruct (Exceptions.enqueue_exception _ _ _ _ _ _ _ _ _ _) as [[]|]. Qed.
Lemma ev_record_page event page lines total pages ck : ev (record_page event page lines total pages ck).
Proof. apply ev_quiet. intros s. unfold record_page. by destruct (BoqImport.record_page_fetched _ _ _ _ _ _ _ _). Qed.
Lemma ev_each {A} (f : A → act unit) l : (∀ a, ev (f a)) → ev (each f l).
Proof. intros Hf. induction l as [|a l IH]; simpl; [by apply ev_quiet|by apply ev_bind]. Qed.
End Evidence.

#[local] Create HintDb evidence.
#[local] Hint Resolve ev_save ev_queue ev_record_page : evidence.
(** Goes through an action step by step. *)
Ltac evidence :=
  repeat first
    [ lazymatch goal with
      | |- evidence_from _ (bind (pure _) _) =>
          let a := fresh "a" in apply ev_pure_bind; intros a ?;
          lazymatch type of a with (string * payload)%type => destruct a; cbn [fst snd] | _ => idtac end
      | |- evidence_from _ (bind _ _) => apply ev_bind; [|intros ?]
      | |- evidence_from _ (catching_drift _ _) => apply ev_catching; [|intros ? ? ?]
      | |- evidence_from _ (each _ _) => apply ev_each; intros ?
      | |- evidence_from _ (match ?x with _ => _ end) => destruct x
      end
    | solve [eauto with evidence]
    | by apply ev_quiet; intros ? ].

Section Ingestions.
Context `{PyText} `{Bytes} `{PyRegex}.
Context {P : string → Prop}.
#[local] Abbreviation ev := (evidence_from P).

Lemma ev_report now aggregate identity corr snap dn : ev (report_drift now aggregate identity corr snap dn).
Proof. unfold report_drift. evidence. Qed.
Lemma ev_get_or_create now src identity : ev (get_or_create_tender now src identity).
Proof. unfold get_or_create_tender. evidence. Qed.
Lemma ev_create_version tender snap parser fields : ev (create_normalized_version tender snap parser fields).
Proof. unfold create_normalized_version. evidence. Qed.
Lemma ev_store_signal g : ev (store_signal g).
Proof. unfold store_signal. evidence. Qed.
#[local] Hint Resolve ev_store_signal : evidence.
Lemma ev_store_signals build items : ev (store_signals build items).
Proof. induction items as [|item items IH]; cbn [store_signals]; evidence. Qed.
Lemma ev_store_lines src event version snap lines : ev (store_boq_lines src event version snap lines).
Proof. unfold store_boq_lines, store_boq_line. evidence. Qed.
#[local] Hint Resolve ev_report ev_get_or_create ev_create_version ev_store_signals ev_store_lines : evidence.

Lemma ev_ingest now c params raw p norm corr items : P raw → ev (ingest now c params raw p norm corr items).
Proof. intros Hp. unfold ingest. evidence. Qed.
#[local] Hint Resolve ev_ingest : evidence.
Lemma ev_bom_page now event raw p corr : P raw → ev (ingest_or_queue now event raw p corr).
Proof. intros Hp. unfold ingest_or_queue, ingest_bom_lines_page. evidence. Qed.
Lemma ev_design_page now raw p q corr observed : P raw → ev (ingest_design_tender_signals_page now raw p q corr observed).
Proof. intros Hp. unfold ingest_design_tender_signals_page, ingest_events_list_page. evidence. Qed.
Lemma ev_plan_page now raw p year page buyer corr observed : P raw → ev (ingest_procurement_plan_page now raw p year page buyer corr observed).
Proof. intros Hp. unfold ingest_procurement_plan_page, ingest_signal_page. evidence. Qed.
Lemma ev_donor_page now raw p os corr observed : P raw → ev (ingest_donor_pipeline_page now raw p os corr observed).
Proof. intros Hp. unfold ingest_donor_pipeline_page. evidence. Qed.
#[local] Hint Resolve ev_bom_page ev_design_page ev_plan_page ev_donor_page : evidence.

(** The jobs, when every page they get satisfies [P] *)
Lemma ev_bom_job now x fetch : (∀ e n raw p, fetch e n = Ok (raw, p) → P raw) → ev (process_bom_lines_page now x fetch).
Proof. intros Hp. unfold process_bom_lines_page, store_page. evidence. Qed.
Lemma ev_design_job now x fetch observed : (∀ q n raw p, fetch q n = Ok (raw, p) → P raw) → ev (process_design_tender_page now x fetch observed).
Proof. intros Hp. unfold process_design_tender_page, signals_or_queue. evidence. Qed.
Lemma ev_plan_job now x fetch observed : (∀ y n b raw p, fetch y n b = Ok (raw, p) → P raw) → ev (process_procurement_plan_page now x fetch observed).
Proof. intros Hp. unfold process_procurement_plan_page, signals_or_queue. evidence. Qed.
Lemma ev_donor_job now x fetch observed : (∀ c n o raw p, fetch c n o = Ok (raw, p) → P raw) → ev (process_worldbank_pipeline_page now x fetch observed).
Proof. intros Hp. unfold process_worldbank_pipeline_page, signals_or_queue. evidence. Qed.
Lemma ev_walk fetch heartbeat fuel now event page corr : (∀ e n raw p, fetch e n = Ok (raw, p) → P raw) →
  ev (walk_pages fetch heartbeat fuel now event page corr).
Proof. intros Hp. revert page. induction fuel as [|fuel IH]; intros page; cbn [walk_pages]; evidence. Qed.
#[local] Hint Resolve ev_walk : evidence.
Lemma ev_check details fetch heartbeat fuel now tender corr observed :
  (∀ e raw p, details e = Ok (raw, p) → P raw) → (∀ e n raw p, fetch e n = Ok (raw, p) → P raw) →
  ev (check_tender_for_changes details fetch heartbeat fuel now tender corr observed).
Proof.
  intros Hd Hp. unfold check_tender_for_changes, ingest_check, ingest_event_details, flag_changes, store_tender_change_event,
    store_flags, store_boq_line_recalc_flag, upsert_watch_state. evidence. Qed.
End Ingestions.

(** ** The jobs with live fetches *)

(** The guard's errors of a name service are those of [default_resolver]. *)
Definition resolves (w : World) : Prop := ∀ j h x, w_resolver w j h ≠ Err (TooManyRedirects x).

Section Live.
Context `{PyText} `{PyUrl}.
Variable json_loads : string → result exn json.

(** [body] was the answer, with status 200, of a trusted host over a connection
    the guard let through, and reads as [p]. *)
Definition served (w : World) (body : string) (p : json) : Prop := ∃ k c headers,
  guarded (w_resolver w) (w_sources w) k c ∧ w_network w k c = Ok (200, body, headers) ∧ json_loads body = Ok p.

Lemma fetch_via_hops w url r cs : resolves w →
  fetch_via_validator (w_resolver w) (w_sources w) (w_network w) DEFAULT_MAX_REDIRECTS url = (r, cs) →
  ∃ r', hops (w_resolver w) (w_sources w) (w_network w) (S DEFAULT_MAX_REDIRECTS) 0 r' cs ∧ (∀ x, r = Ok x → r' = Ok x).
Proof.
  intros Hw Hf. unfold fetch_via_validator in Hf. destruct (follow _ _ _ _ _ _) as [r' cs'] eqn:Hr.
  apply follow_hops in Hr; [|done]. exists r'. destruct r' as [x|[a b|m|e]]; simplify_eq; split; done.
Qed.
Lemma fetch_json_served w what url body p cs : resolves w → fetch_json json_loads w what url = (Ok (body, p), cs) → served w body p.
Proof.
  intros Hw Hf. unfold fetch_json in Hf. destruct (fetch_via_validator _ _ _ _ _) as [r cs'] eqn:Hr.
  apply fetch_via_hops in Hr as (r' & [_ G _ A _] & Hok); [|done]. injection Hf as Hf <-.
  destruct r as [[[st b] hs]|]; [|done]. specialize (Hok _ eq_refl). destruct (A _ _ _ Hok) as (_ & j & c & headers & _ & Hc & Hn).
  unfold read_response in Hf. destruct (Z.eqb_spec st 200) as [->|]; [|done]. simpl in Hf.
  apply rbind_ok in Hf as (v & Hv%map_err_ok & Hf). simplify_eq. exists j, c, headers. by apply G in Hc.
Qed.

(** A live fetch returns a body with its JSON exactly when the guarded fetch
    ended in status 200 and the body reads as JSON; any other status raises
    [UnexpectedResponseStatus] whatever the body says, and an error of the guard
    or of the reading comes through. Each connection it opened was let through
    by the guard, and there are at most six. *)
Theorem live_fetch_spec w what url : resolves w →
  let ' (r, cs) := fetch_json json_loads w what url in
  let f := fetch_via_validator (w_resolver w) (w_sources w) (w_network w) DEFAULT_MAX_REDIRECTS url in
  cs = f.2 ∧ (length cs <= 6)%nat ∧ (∀ j c, cs !! j = Some c → guarded (w_resolver w) (w_sources w) j c) ∧
  (∀ body p, r = Ok (body, p) ↔ (∃ hs, f.1 = Ok (200, body, hs)) ∧ json_loads body = Ok p) ∧
  (∀ e, r = Err (FetchEgress e) ↔ f.1 = Err e) ∧
  (∀ m, r = Err (UnexpectedResponseStatus m) ↔ ∃ st body hs, f.1 = Ok (st, body, hs) ∧ st ≠ 200 ∧
     m = what +:+ " returned HTTP " +:+ py_str_Z st +:+ " for " +:+ py_repr url) ∧
  (∀ e, r = Err (FetchRaised e) ↔ ∃ body hs, f.1 = Ok (200, body, hs) ∧ json_loads body = Err e).
Proof.
  intros Hw. unfold fetch_json. destruct (fetch_via_validator _ _ _ _ _) as [r cs] eqn:Hr.
  apply fetch_via_hops in Hr as (r' & [B G _ _ _] & _); [|done]. simpl fst. simpl snd.
  split; [done|]. split; [exact B|]. split; [exact G|].
  destruct r as [[[st body] hs]|e]; unfold read_response; [|naive_solver].
  destruct (Z.eqb_spec st 200) as [->|Hst]; simpl; [|naive_solver].
  destruct (json_loads body) eqn:Hj; simpl; split_and!; intros; split; intros Hx; destruct_and?; destruct_or?;
    repeat match goal with Hy : ∃ _, _ |- _ => destruct Hy | Hy : _ ∧ _ |- _ => destruct Hy end; simplify_eq; first [congruence|eauto 10].
Qed.

(** A fetch as the jobs use it: they index the value as a dict. A custom
    exception reaches the job as some [exn], of which it only shows the text. *)
Variable raised : fetch_error → exn.
Definition page_of (f : fetched) : result exn (string * payload) :=
  match f.1 with
  | Ok (body, v) => let! p := dict_of v in Ok (body, p)
  | Err e => Err (raised e)
  end.

(** What the outside answers to a request for a URL *)
Variable world : string → World.
Definition live_event_details (event_id : Z) : result exn (string * payload) :=
  page_of (fetch_event_details_live json_loads (world (event_details_url event_id)) event_id).
Definition live_bom_page (event_id page : Z) : result exn (string * payload) :=
  page_of (fetch_bom_lines_page_live json_loads (world (bom_lines_url event_id page)) event_id page).
Definition live_design_page (query : json) (page : Z) : result exn (string * payload) :=
  page_of (fetch_design_tender_page_live json_loads
    (world (match mapping_of query with Ok q => design_tender_url q page | Err _ => "" end)) query page).
Definition live_plan_page (year page : Z) (buyer : string) : result exn (string * payload) :=
  page_of (fetch_procurement_plan_page_live json_loads (world (procurement_plan_url year page buyer)) year page buyer).
Definition live_donor_page (country : json) (n os : Z) : result exn (string * payload) :=
  page_of (fetch_donor_pipeline_page_live json_loads (world (donor_pipeline_url country n os)) country n os).

Hypothesis world_resolves : ∀ url, resolves (world url).
Definition served_body (raw : string) : Prop := ∃ url p, served (world url) raw p.

Lemma page_of_served w what url raw p : resolves w → page_of (fetch_json json_loads w what url) = Ok (raw, p) →
  ∃ v, served w raw v.
Proof using Type.
  intros Hw. unfold page_of. destruct (fetch_json json_loads w what url) as [[[body v]|e] cs] eqn:Hf; [|done]. simpl.
  intros (q & _ & Hq)%rbind_ok. simplify_eq. exists v. by eapply fetch_json_served.
Qed.
Ltac by_served := intros **; match goal with Hf : _ = Ok (?raw, _) |- _ => apply page_of_served in Hf as [? ?]; [by eexists _, _|done] end.
Lemma design_served q n raw p : live_design_page q n = Ok (raw, p) → served_body raw.
Proof using world_resolves.
  unfold live_design_page, fetch_design_tender_page_live. destruct (mapping_of q); [by_served|done].
Qed.

Context `{Bytes} `{PyRegex}.
(** C8: with the live fetches, whatever the sources, the name service and the
    registry answer, every piece of evidence a job of the tender component
    stores (a BOQ page, a page of signals of any of the three sources, every
    page of a check) is the digest and the JSON of a body that a trusted host
    answered with status 200 over a connection the guard let through: no error
    page, redirect or body of another host ever becomes evidence. *)
Theorem evidence_is_served now x fuel tender heartbeat corr observed :
  evidence_from served_body (process_bom_lines_page now x live_bom_page) ∧
  evidence_from served_body (process_design_tender_page now x live_design_page observed) ∧
  evidence_from served_body (process_procurement_plan_page now x live_plan_page observed) ∧
  evidence_from served_body (process_worldbank_pipeline_page now x live_donor_page observed) ∧
  evidence_from served_body (check_tender_for_changes live_event_details live_bom_page heartbeat fuel now tender corr observed).
Proof using world_resolves.
  split_and!.
  - apply ev_bom_job. by_served.
  - apply ev_design_job. intros *. apply design_served.
  - apply ev_plan_job. by_served.
  - apply ev_donor_job. by_served.
  - apply ev_check; by_served.
Qed.
End Live.

(** ** Witnesses *)

Section Demo.
#[local] Existing Instance ascii_text.
#[local] Existing Instance demo_url.
#[local] Existing Instance demo_bytes.
#[local] Existing Instance ascii_regex.

(** A source that answers one page, or that it is busy, and the reading of both *)
Definition demo_reads (body : string) : result exn json := if String.eqb body "page" then Ok (JObj (bom_page 1 [bom_item 1])) else Err (ValueError body).
Definition demo_world (status : Z) : World := {|
  w_resolver := demo_resolver; w_sources := λ _, demo_sources;
  w_network := λ _ _, Ok (status, "page", []) |}.
Lemma demo_resolves status : resolves (demo_world status).
Proof. intros j h x. simpl. unfold demo_resolver. by destruct (String.eqb h "evil.test"). Qed.

Lemma live_fetch_spec_witness :
  (∃ cs, fetch_json demo_reads (demo_world 503) "eTender" "https://etender.gov.az/api" =
     (Err (UnexpectedResponseStatus "eTender returned HTTP 503 for 'https://etender.gov.az/api'"), cs)) ∧
  ∀ body p cs, fetch_json demo_reads (demo_world 503) "eTender" "https://etender.gov.az/api" ≠ (Ok (body, p), cs).
Proof.
  pose (x := fetch_json demo_reads (demo_world 503) "eTender" "https://etender.gov.az/api").
  assert (match x.1 with Err (UnexpectedResponseStatus m) => String.eqb m "eTender returned HTTP 503 for 'https://etender.gov.az/api'" | _ => false end = true) as Hv
    by (vm_compute; reflexivity).
  pose proof (live_fetch_spec demo_reads (demo_world 503) "eTender" "https://etender.gov.az/api" (demo_resolves 503)) as Hs.
  change (fetch_json _ _ _ _) with x. change (fetch_json _ _ _ _) with x in Hs.
  destruct x as [[|[e|m|e]] cs]; try discriminate Hv. apply String.eqb_eq in Hv as ->.
  split; [by exists cs|]. intros body p cs' [=].
Defined.

Lemma evidence_is_served_witness :
  let w := λ _, demo_world 200 in
  let job := bom_job [] in
  let s := (process_bom_lines_page 7 job (live_bom_page demo_reads (λ _, StopIteration) w) empty_tdb).2 in
  (sn_checksum <$> (rows (snapshots s)).*2) = ["page"] ∧
  ∃ raw, served_body demo_reads w raw ∧ "page" = raw.
Proof.
  intros w job s.
  assert ((sn_checksum <$> (rows (snapshots s)).*2) = ["page"]) as Hv by (vm_compute; reflexivity).
  split; [exact Hv|].
  destruct (evidence_is_served demo_reads (λ _, StopIteration) w (λ _, demo_resolves 200) 7 job 0 0 (λ _, Ok ()) "c" "")
    as [Hev _].
  destruct (Hev empty_tdb) as (new & Hn & Hf). fold s in Hn. change (rows (snapshots s) = new) in Hn. rewrite Hn in Hv. destruct Hf as [|[i r] l (raw & Hp & Hc & _)]; [discriminate Hv|].
  exists raw. split; [exact Hp|]. injection Hv as Hck _. simpl in Hc. by rewrite <-Hck, Hc.
Defined.
End Demo.
End LiveFetch.
