(* ===== verification/Vendor.v ===== *)
(** * The vendor sandbox

    [packages/vendor]: vendors and their offers, reputation facts with a time to
    live, the tiers of availability, and the two providers that read a price
    list, from CSV and from a photo. A text a provider only passes on may be
    missing, or another JSON value: it is a [json], and the store refuses what is
    no text. The OCR engine, the readers of JSON and CSV and the random API keys
    are parameters. The end of a fact must be in the range of TIMESTAMPTZ for a
    listing to succeed. A price keeps its exact binary value in the NUMERIC columns.
    The fixtures of [synthetic_provider.py] and [synthetic_reputation.py] are in
    [Fixtures]. *)

From stdpp Require Import base gmap sets strings list.
From Stdlib Require Import ZArith Ascii Lia SpecFloat.
From S2P Require Import Prelude Json PyStr Decimal PyFloat Datetime Query TenderDb Ocr.

Module Vendor.
Import TenderDb.
#[local] Open Scope Z_scope.

Record Vendor := { v_data_realm : string; v_watermark : string; v_name : json; provider_type : string; seed : option Z }.
Record Offer := {
  of_vendor_name : json; of_data_realm : string; of_watermark : string; of_material : json; of_price : spec_float;
  of_currency : json; of_vat_rate : spec_float; of_uom : json; of_uom_canonical_qty : spec_float; of_moq : spec_float;
  of_capacity : spec_float; of_inventory : spec_float; of_valid_from : json; of_valid_until : json;
  of_evidence_source : string; of_observed_at : string; of_adverse_case : option string; of_executable_status : string }.

(** ** Availability *)

Definition EXECUTABLE_STATUS_TIERS : list string := ["reserved"; "confirmed"; "reported"; "unknown"].
Section Text.
Context `{PyText}.
Definition is_valid_executable_status (status : string) : result exn bool :=
  if bool_decide (status ∈ EXECUTABLE_STATUS_TIERS) then Ok true
  else Err (ValueError ("unknown executable_status: " +:+ py_repr status)).
(** [tuple.index] *)
Fixpoint index_of (x : string) (l : list string) : option nat :=
  match l with
  | [] => None
  | y :: l' => if String.eqb x y then Some 0%nat else S <$> index_of x l'
  end.
Definition effective_executable_status (raw : string) (has_negative_reputation : bool) : result exn string :=
  let! _ := is_valid_executable_status raw in
  if negb has_negative_reputation then Ok raw
  else match index_of raw EXECUTABLE_STATUS_TIERS with
       | None => Err (ValueError "tuple.index(x): x not in tuple")
       | Some i =>
           match EXECUTABLE_STATUS_TIERS !! Nat.min (i + 1) (length EXECUTABLE_STATUS_TIERS - 1) with
           | Some s => Ok s
           | None => Err (IndexError "tuple index out of range")
           end
       end.

(** ** Reputation *)

Definition POSITIVE_EVENT_TYPES : list string := ["price_held_after_win"; "delivered_on_time"; "certification_verified"].
Definition NEGATIVE_EVENT_TYPES : list string :=
  ["price_broken_after_win"; "missed_deadline"; "quality_complaint"; "financial_discipline_breach"; "resold_reserved_stock_under_pressure"].
Definition REPUTATION_EVENT_TYPES : list string := POSITIVE_EVENT_TYPES ++ NEGATIVE_EVENT_TYPES.
Definition is_negative_event (event_type : string) : result exn bool :=
  if bool_decide (event_type ∈ NEGATIVE_EVENT_TYPES) then Ok true
  else if bool_decide (event_type ∈ POSITIVE_EVENT_TYPES) then Ok false
  else Err (ValueError ("unknown reputation event_type: " +:+ py_repr event_type)).
Record ReputationFact := {
  rf_data_realm : string; rf_watermark : string; rf_vendor_name : string; rf_event_type : string;
  project_ref : option string; source_ref : string; rf_observed_at : string; ttl_days : Z }.
(** [ReputationFact.__post_init__] *)
Definition make_reputation_fact (f : ReputationFact) : result exn ReputationFact :=
  let! _ := is_negative_event (rf_event_type f) in Ok f.
End Text.

(** ** The tables *)

Record vendor_row := { vr_vendor : Vendor; vr_name : string; api_key : string }.
(** The texts and instants of the columns beside the offer itself *)
Record offer_row := {
  ow_vendor_id : Z; ow_offer : Offer; ow_material : string; ow_currency : string; ow_uom : string;
  ow_from : Z; ow_until : Z; ow_observed : Z }.
Record reputation_row := { rp_vendor_id : Z; rp_fact : ReputationFact; rp_observed : Z }.
Record NapkinEvidence := { nk_kind : string; nk_mime : string; nk_checksum : string; nk_bytes : string; nk_correlation_id : string }.
Record vdb := Vdb {
  vendors : table vendor_row;
  offers : table offer_row;
  reputation : table reputation_row;
  captures : table NapkinEvidence;
}.
Definition with_vendors x (s : vdb) := Vdb x (offers s) (reputation s) (captures s).
Definition with_offers x (s : vdb) := Vdb (vendors s) x (reputation s) (captures s).
Definition with_reputation x (s : vdb) := Vdb (vendors s) (offers s) x (captures s).
Definition with_captures x (s : vdb) := Vdb (vendors s) (offers s) (reputation s) x.

Definition VALID_REALM_PAIRS : list (string * string) := [("vendor-sandbox", "SYNTHETIC"); ("vendor-production", "REAL")].
Definition realm_check {A} (table realm mark : string) (k : result exn A) : result exn A :=
  raise_if bool_decide ((realm, mark) ∉ VALID_REALM_PAIRS) with IntegrityError (table +:+ "_check") ;; k.
(** An INTEGER parameter *)
Definition int4 (n : Z) : bool := (- 2 ^ 31 <=? n) && (n <? 2 ^ 31).
(** A parameter of a TEXT NOT NULL column *)
Definition text_param (column : string) (v : json) : result exn string :=
  match v with
  | JStr s => Ok s
  | JNull => Err (IntegrityError ("null value in column " +:+ column))
  | _ => Err (DataError ("expected str, got " +:+ py_type_of v))
  end.

Section Store.
Context `{PyText} `{Bytes}.

(** [fromisoformat] of a value that should be text *)
Definition parse_time (v : json) : result exn Z :=
  match v with
  | JStr s => let! d := fromisoformat s in Ok (to_timestamptz d)
  | _ => Err (TypeError "fromisoformat: argument must be str")
  end.

Definition store_vendor (key : string) (v : Vendor) (s : vdb) : result exn (Z * string * vdb) :=
  let! name := text_param "name" (v_name v) in
  raise_if match seed v with Some n => negb (int4 n) | None => false end with DataError "value out of int32 range" ;;
  realm_check "vendors" (v_data_realm v) (v_watermark v) (
  raise_if match tbl_select (λ _ r, String.eqb (api_key r) key) (vendors s) with [] => false | _ => true end
    with IntegrityError "vendors_api_key_key" ;;
  let ' (i, t) := tbl_insert (vendors s) {| vr_vendor := v; vr_name := name; api_key := key |} in
  Ok (i, key, with_vendors t s)).

Definition store_offer (vendor_id : Z) (o : Offer) (s : vdb) : result exn (Z * vdb) :=
  let! from := parse_time (of_valid_from o) in
  let! until := parse_time (of_valid_until o) in
  let! observed := parse_time (JStr (of_observed_at o)) in
  let! material := text_param "material" (of_material o) in
  let! currency := text_param "currency" (of_currency o) in
  let! uom := text_param "uom" (of_uom o) in
  realm_check "vendor_offers" (of_data_realm o) (of_watermark o) (
  raise_if bool_decide (of_executable_status o ∉ EXECUTABLE_STATUS_TIERS) with IntegrityError "vendor_offers_executable_status_check" ;;
  raise_if negb (exists_in (vendors s) vendor_id) with IntegrityError "vendor_offers_vendor_id_fkey" ;;
  let ' (i, t) := tbl_insert (offers s)
    {| ow_vendor_id := vendor_id; ow_offer := o; ow_material := material; ow_currency := currency; ow_uom := uom;
       ow_from := from; ow_until := until; ow_observed := observed |} in
  Ok (i, with_offers t s)).

Definition in_realm (realm : string) (r : offer_row) : bool := String.eqb (of_data_realm (ow_offer r)) realm.
Definition list_offers_by_data_realm (realm : string) (s : vdb) : list (Z * offer_row) := tbl_select (λ _ r, in_realm realm r) (offers s).
Definition get_vendor_id_by_api_key (key : string) (s : vdb) : option Z :=
  fst <$> head (tbl_select (λ _ r, String.eqb (api_key r) key) (vendors s)).
Definition list_offers_by_vendor (vendor_id : Z) (s : vdb) : list (Z * offer_row) :=
  tbl_select (λ _ r, ow_vendor_id r =? vendor_id) (offers s).
(** The join with [vendors], and [LIMIT] *)
Definition named (s : vdb) (ir : Z * offer_row) : option (Z * offer_row * string) :=
  v ← tbl_get (vendors s) (ow_vendor_id ir.2); Some (ir, vr_name v).
Definition list_offers_with_vendor_name_by_data_realm (realm : string) (after limit : Z) (s : vdb)
    : result exn (list (Z * offer_row * string)) :=
  raise_if limit + 1 <? 0 with DataError "LIMIT must not be negative" ;;
  Ok (take (Z.to_nat (limit + 1)) (omap (named s) (tbl_select (λ i r, in_realm realm r && (after <? i)) (offers s)))).

Definition store_reputation_fact (vendor_id : Z) (f : ReputationFact) (s : vdb) : result exn (Z * vdb) :=
  let! observed := parse_time (JStr (rf_observed_at f)) in
  raise_if negb (int4 (ttl_days f)) with DataError "value out of int32 range" ;;
  realm_check "vendor_reputation_facts" (rf_data_realm f) (rf_watermark f) (
  raise_if negb (exists_in (vendors s) vendor_id) with IntegrityError "vendor_reputation_facts_vendor_id_fkey" ;;
  let ' (i, t) := tbl_insert (reputation s) {| rp_vendor_id := vendor_id; rp_fact := f; rp_observed := observed |} in
  Ok (i, with_reputation t s)).

Definition one_day : Z := hours 24.
(** The range of [TIMESTAMPTZ], in microseconds since 1970: from 4714 BC to before
    294277 AD. PostgreSQL counts from 2000. *)
Definition PG_EPOCH : Z := 946684800000000.
Definition in_timestamp_range (t : Z) : bool :=
  (-211813488000000000 <=? t - PG_EPOCH) && (t - PG_EPOCH <? 9223371331200000000).
(** [observed_at + ttl_days * interval '1 day'], and whether it is [> :as_of] *)
Definition fact_end (r : reputation_row) : Z := rp_observed r + ttl_days (rp_fact r) * one_day.
Definition is_active_fact (as_of : Z) (r : reputation_row) : bool := as_of <? fact_end r.
(** The sum is computed for every fact of the vendor, and out of range it is an
    error of the query. *)
Definition list_active_reputation_facts (vendor_id as_of : Z) (s : vdb) : result exn (list (Z * reputation_row)) :=
  let facts := tbl_select (λ _ r, rp_vendor_id r =? vendor_id) (reputation s) in
  raise_if existsb (λ ir, negb (in_timestamp_range (fact_end ir.2))) facts with DataError "timestamp out of range" ;;
  Ok (List.filter (λ ir, is_active_fact as_of ir.2) facts).

Definition save_napkin_evidence (kind bytes mime corr : string) (s : vdb) : result exn (Z * vdb) :=
  raise_if bool_decide (kind ∉ ["photo"; "voice"]) with IntegrityError "vendor_napkin_evidence_capture_kind_check" ;;
  let ' (i, t) := tbl_insert (captures s) {| nk_kind := kind; nk_mime := mime; nk_checksum := checksum_of bytes; nk_bytes := bytes; nk_correlation_id := corr |} in
  Ok (i, with_captures t s).
Definition get_napkin_evidence (i : Z) (s : vdb) : result exn (Z * NapkinEvidence) :=
  match tbl_get (captures s) i with Some r => Ok (i, r) | None => Err NoResultFound end.
End Store.

(** ** [float(v)] *)

Definition is_digit (c : ascii) : bool := match dec_digit c with Some _ => true | None => false end.
(** An underscore stands between two digits. *)
Fixpoint grouped (after_digit : bool) (l : list ascii) : bool :=
  match l with
  | [] => true
  | c :: l' =>
      if Ascii.eqb c "_" then after_digit && match l' with d :: _ => is_digit d | [] => false end && grouped false l'
      else grouped (is_digit c) l'
  end.
Section Reading.
Context `{PyText}.
Definition float_of_text (s : string) : result exn spec_float :=
  let l := String.list_ascii_of_string (py_strip s) in
  let bad := Err (ValueError ("could not convert string to float: " +:+ py_repr s)) in
  let ' (_, unsigned) := parse_sign l in
  if negb (grouped false l) || String.eqb (String.string_of_list_ascii (map ascii_lower unsigned)) "snan" then bad
  else match dec_of_chars (List.filter (λ c, negb (Ascii.eqb c "_")) l) with
       | Some d => Ok (float_of_decimal d)
       | None => bad
       end.
Definition py_float (v : json) : result exn spec_float :=
  match v with
  | JFloat f => Ok f
  | JBool b => Ok (float_of_ratio false (Z.b2z b) 1)
  | JInt n => match float_of_ratio (n <? 0) (Z.abs n) 1 with
              | S754_infinity _ => Err (OverflowError "int too large to convert to float")
              | f => Ok f
              end
  | JStr s => float_of_text s
  | _ => Err (TypeError ("float() argument must be a string or a real number, not '" +:+ py_type_of v +:+ "'"))
  end.

(** ** The photo of a price list *)

Inductive provider_error := NapkinParseError (msg : string) | CsvParseError (msg : string) | OcrError (msg : string) | ProviderUncaught (e : exn).
Definition REQUIRED_ITEM_FIELDS : list string :=
  ["material"; "price"; "currency"; "vat_rate"; "uom"; "uom_canonical_qty"; "moq"; "capacity"; "inventory"; "valid_from"; "valid_until"].
Record NapkinOcrProvider := { np_evidence_id : Z; np_data_realm : string; np_watermark : string }.
Definition make_napkin_provider (p : NapkinOcrProvider) : result exn NapkinOcrProvider :=
  raise_if bool_decide ((np_data_realm p, np_watermark p) ∉ VALID_REALM_PAIRS)
    with ValueError ("invalid data_realm/watermark pairing: (" +:+ py_repr (np_data_realm p) +:+ ", " +:+ py_repr (np_watermark p) +:+
      ") -- must be one of [('vendor-production', 'REAL'), ('vendor-sandbox', 'SYNTHETIC')]") ;;
  Ok p.

(** [except (TypeError, ValueError)] *)
Definition converting {A} (wrap : string → provider_error) (m : result exn A) : result provider_error A :=
  map_err (λ e, match e with TypeError t => wrap t | ValueError t => wrap t | _ => ProviderUncaught e end) m.
(** The prices of an item, in the order the constructor evaluates them *)
Definition read_offer (name : json) (realm mark source as_of : string) (text : string → json) (number : string → result exn spec_float)
    : result exn Offer :=
  let! price := number "price" in
  let! vat := number "vat_rate" in
  let! qty := number "uom_canonical_qty" in
  let! moq := number "moq" in
  let! capacity := number "capacity" in
  let! inventory := number "inventory" in
  Ok {| of_vendor_name := name; of_data_realm := realm; of_watermark := mark; of_material := text "material"; of_price := price;
        of_currency := text "currency"; of_vat_rate := vat; of_uom := text "uom"; of_uom_canonical_qty := qty; of_moq := moq;
        of_capacity := capacity; of_inventory := inventory; of_valid_from := text "valid_from"; of_valid_until := text "valid_until";
        of_evidence_source := source; of_observed_at := as_of; of_adverse_case := None; of_executable_status := "reported" |}.
Definition is_null (v : json) : bool := match v with JNull => true | _ => false end.
Definition napkin_item (p : NapkinOcrProvider) (as_of : string) (name v : json) : result provider_error Offer :=
  match v with
  | JObj item =>
      let missing := filter (λ f, is_null (dict_get f item) = true) REQUIRED_ITEM_FIELDS in
      raise_if match missing with [] => false | _ => true end
        with NapkinParseError ("OCR output item for vendor " +:+ json_repr name +:+ " is missing required field(s): " +:+ str_join ", " missing) ;;
      converting (λ m, NapkinParseError ("OCR output item for vendor " +:+ json_repr name +:+ " has an invalid value: " +:+ m))
        (read_offer name (np_data_realm p) (np_watermark p) ("napkin-ocr:" +:+ py_str_Z (np_evidence_id p)) as_of
           (λ f, JStr (json_str (dict_get f item))) (λ f, py_float (dict_get f item)))
  | _ => Err (NapkinParseError ("OCR output item for vendor " +:+ json_repr name +:+ " is not an object: " +:+ json_repr v))
  end.
(** An error of the engine comes through as it is. *)
Definition of_ocr (e : Ocr.ocr_error) : provider_error :=
  match e with Ocr.OcrEngineError m => OcrError m | Ocr.OcrRaised x => ProviderUncaught x end.
Definition napkin_generate (ocr : result Ocr.ocr_error string) (json_loads : string → result string json) (p : NapkinOcrProvider) (as_of : string)
    : result provider_error (list Vendor * list Offer) :=
  let! raw_text := map_err of_ocr ocr in
  let! payload := map_err (λ m, NapkinParseError ("OCR output is not valid JSON: " +:+ m)) (json_loads raw_text) in
  let no_name := NapkinParseError ("OCR output is missing a non-empty 'vendor_name': " +:+ py_repr raw_text) in
  match payload with
  | JObj d =>
      let name := dict_get "vendor_name" d in
      raise_if negb (py_truthy name) with no_name ;;
      match dict_get "items" d with
      | JArr items =>
          let! os := mapM (napkin_item p as_of name) items in
          Ok ([{| v_data_realm := np_data_realm p; v_watermark := np_watermark p; v_name := name; provider_type := "napkin-ocr"; seed := None |}], os)
      | _ => Err (NapkinParseError ("OCR output is missing an 'items' list: " +:+ py_repr raw_text))
      end
  | _ => Err no_name
  end.

(** ** The CSV price list *)

Definition REQUIRED_COLUMNS : list string := "vendor_name" :: REQUIRED_ITEM_FIELDS.
(** [except ValueError] *)
Definition converting_row {A} (wrap : string → provider_error) (m : result exn A) : result provider_error A :=
  map_err (λ e, match e with ValueError t => wrap t | _ => ProviderUncaught e end) m.
Definition csv_row (as_of : string) (row : list (string * json)) : result provider_error (Vendor * Offer) :=
  let name := dict_get "vendor_name" row in
  let! o := converting_row (λ m, CsvParseError ("CSV row for vendor " +:+ json_repr name +:+ " has an invalid value: " +:+ m))
    (read_offer name "vendor-sandbox" "SYNTHETIC" "csv-upload" as_of (λ f, dict_get f row) (λ f, py_float (dict_get f row))) in
  Ok ({| v_data_realm := "vendor-sandbox"; v_watermark := "SYNTHETIC"; v_name := name; provider_type := "csv"; seed := None |}, o).
(** [reader] is [csv.DictReader] on the content: the names of the first line,
    [None] for no content, and the rows, in which a cell the line does not have
    is [None]. *)
Definition csv_generate (reader : option (list string) * list (list (string * json))) (as_of : string)
    : result provider_error (list Vendor * list Offer) :=
  match reader.1 with
  | None => Ok ([], [])
  | Some names =>
      let missing := filter (λ c, c ∉ names) REQUIRED_COLUMNS in
      raise_if match missing with [] => false | _ => true end
        with CsvParseError ("CSV is missing required column(s): " +:+ str_join ", " missing) ;;
      let! vos := mapM (csv_row as_of) reader.2 in
      Ok (vos.*1, vos.*2)
  end.
End Reading.
End Vendor.
