(* ===== verification/VendorApi.v ===== *)
(** * The vendor service and its client

    [apps/api_vendor/routers/internal.py], [routers/offers.py] and [deps.py],
    and the client of the service in [packages/contracts/vendor_api.py]. An
    exchange over HTTP is a parameter of the client: it fails, or answers with a
    status, a text and what the text holds; [serve] is the exchange with the
    modelled service. An [as_of] that travels as text
    denotes its instant. *)

From stdpp Require Import base gmap sets strings list sorting.
From Stdlib Require Import ZArith Lia SpecFloat.
From S2P Require Import Prelude Json PyStr Decimal PyFloat Datetime Query Api TenderDb Matching AdminApi DecisionApi ExecutionLedger ExecutionApi Vendor.

Module VendorApi.
Import DecisionApi Vendor.
#[local] Open Scope Z_scope.

Section Service.
Context `{PyText} `{Bytes} `{AdminApi.CursorText}.

(** ** Identity *)

Definition get_current_vendor_id (x_vendor_api_key : option string) (s : vdb) : http Z :=
  match x_vendor_api_key with
  | None => Err (api_error 401 "unauthenticated" "X-Vendor-Api-Key header required")
  | Some key =>
      match get_vendor_id_by_api_key key s with
      | None => Err (api_error 401 "unauthenticated" "unknown api key")
      | Some i => Ok i
      end
  end.
Definition list_my_offers (x_vendor_api_key : option string) (s : vdb) : http (list (Z * offer_row)) :=
  let! vendor_id := get_current_vendor_id x_vendor_api_key s in Ok (list_offers_by_vendor vendor_id s).

(** ** GET /internal/offers *)

Record InternalOfferListResponse := { items : list Matching.VendorOfferDTO; next_cursor : option string }.
(** The row, the name of its vendor and what its reputation makes of it *)
Definition offer_dto (x : Z * offer_row * string) (effective : string) (positive negative : bool) : Matching.VendorOfferDTO :=
  let ' (i, r, name) := x in let o := ow_offer r in
  {| Matching.id := i; Matching.vendor_id := ow_vendor_id r; Matching.vendor_name := name; Matching.data_realm := of_data_realm o;
     Matching.watermark := of_watermark o; Matching.material := ow_material r; Matching.price := of_price o;
     Matching.currency := ow_currency r; Matching.vat_rate := of_vat_rate o; Matching.uom := ow_uom r;
     Matching.uom_canonical_qty := of_uom_canonical_qty o; Matching.moq := of_moq o; Matching.capacity := of_capacity o;
     Matching.inventory := of_inventory o; Matching.valid_from := utc (ow_from r); Matching.valid_until := utc (ow_until r);
     Matching.evidence_source := of_evidence_source o; Matching.observed_at := utc (ow_observed r);
     Matching.adverse_case := of_adverse_case o; Matching.executable_status := of_executable_status o;
     Matching.effective_executable_status := effective; Matching.has_positive_reputation := positive;
     Matching.has_negative_reputation := negative |}.
(** [any(t in TYPES for t in event_types)] over the active facts *)
Definition any_event (types : list string) (facts : list (Z * reputation_row)) : bool :=
  existsb (λ ir, bool_decide (rf_event_type (rp_fact ir.2) ∈ types)) facts.
(** The body of the loop: the cache of reputations and the items so far *)
Definition add_item (as_of : Z) (s : vdb) (a : gmap Z (bool * bool) * list Matching.VendorOfferDTO) (x : Z * offer_row * string)
    : result exn (gmap Z (bool * bool) * list Matching.VendorOfferDTO) :=
  let v := ow_vendor_id x.1.2 in
  let! cache :=
    match a.1 !! v with
    | Some _ => Ok a.1
    | None =>
        let! facts := list_active_reputation_facts v as_of s in
        Ok (<[v := (any_event POSITIVE_EVENT_TYPES facts, any_event NEGATIVE_EVENT_TYPES facts)]> a.1)
    end in
  match cache !! v with
  | None => Err (KeyError (py_str_Z v))
  | Some (positive, negative) =>
      let! effective := effective_executable_status (of_executable_status (ow_offer x.1.2)) negative in
      Ok (cache, a.2 ++ [offer_dto x effective positive negative])
  end.
Definition list_internal_offers (realm : string) (as_of : datetime) (cursor : option string) (limit : Z) (s : vdb)
    : http InternalOfferListResponse :=
  let! after := uncaught (AdminApi.after_id cursor) in
  let! rows := uncaught (list_offers_with_vendor_name_by_data_realm realm after limit s) in
  let page := AdminApi.py_prefix rows limit in
  let! next :=
    if limit <? Z.of_nat (length rows) then
      match last page with
      | None => Err (Uncaught (IndexError "list index out of range"))
      | Some x => Ok (Some (AdminApi.encode_cursor [JInt x.1.1]))
      end
    else Ok None in
  let! ' (_, dtos) := uncaught (foldM (add_item (to_timestamptz as_of) s) (∅, []) page) in
  Ok {| items := dtos; next_cursor := next |}.

(** The response is rendered as JSON by [json.dumps] with [allow_nan=False]: a
    number that is not finite raises there, and the answer is that of an error no
    one expected. *)
Definition finite (f : spec_float) : bool :=
  match f with S754_zero _ | S754_finite _ _ _ => true | S754_infinity _ | S754_nan => false end.
Definition numbers (d : Matching.VendorOfferDTO) : list spec_float :=
  [Matching.price d; Matching.vat_rate d; Matching.uom_canonical_qty d; Matching.moq d; Matching.capacity d; Matching.inventory d].
Definition compliant (l : list Matching.VendorOfferDTO) : bool := forallb (λ d, forallb finite (numbers d)) l.
Definition render (p : InternalOfferListResponse) : http InternalOfferListResponse :=
  raise_if negb (compliant (items p))
    with Uncaught (ValueError "Out of range float values are not JSON compliant") ;;
  Ok p.

(** ** POST /internal/reputation-facts *)

Definition report_reputation_fact (b : ExecutionApi.ReportReputationFactRequest) (s : vdb) : http (Z * vdb) :=
  raise_if bool_decide (ExecutionApi.rr_event_type b ∉ REPUTATION_EVENT_TYPES)
    with api_error 422 "unknown_event_type" ("unknown event_type: " +:+ py_repr (ExecutionApi.rr_event_type b)) ;;
  let! f := uncaught (make_reputation_fact
    {| rf_data_realm := "vendor-sandbox"; rf_watermark := "SYNTHETIC"; rf_vendor_name := ""; rf_event_type := ExecutionApi.rr_event_type b;
       project_ref := Some (ExecutionApi.rr_project_ref b); source_ref := ExecutionApi.rr_source_ref b;
       rf_observed_at := ExecutionApi.rr_observed_at b; ttl_days := ExecutionApi.rr_ttl_days b |}) in
  uncaught (store_reputation_fact (ExecutionApi.rr_vendor_id b) f s).
End Service.

(** ** The client *)

Inductive http_exchange (J : Type) :=
| HttpError (msg : string)
| HttpAnswer (status : Z) (text : string) (body : result string J).
Arguments HttpError {J} msg.
Arguments HttpAnswer {J} status text body.

Section Client.
Context {J : Type}.
(** [validate] is pydantic's reading of a payload. *)
Definition read_answer {A} (validate : J → result string A) (x : http_exchange J) : result string A :=
  match x with
  | HttpError e => Err ("vendor service unreachable: " +:+ e)
  | HttpAnswer st text body =>
      raise_if negb (st =? 200) with "vendor service returned status " +:+ py_str_Z st +:+ ": " +:+ text ;;
      let! payload := map_err (λ e, "vendor service returned non-JSON response: " +:+ e) body in
      map_err (λ e, "vendor service response does not match contract: " +:+ e) (validate payload)
  end.
Definition ping_vendor_service (validate : J → result string (string * string)) (exchange : http_exchange J) : result string (string * string) :=
  read_answer validate exchange.
Definition fetch_offers_page (validate : J → result string InternalOfferListResponse) (exchange : option string → http_exchange J)
    (cursor : option string) : result string InternalOfferListResponse := read_answer validate (exchange cursor).
(** The [while True] loop; [None] when the fuel ran out. *)
Fixpoint offers_loop (fuel : nat) (validate : J → result string InternalOfferListResponse) (exchange : option string → http_exchange J)
    (acc : list Matching.VendorOfferDTO) (cursor : option string) : option (result string (list Matching.VendorOfferDTO)) :=
  match fuel with
  | 0%nat => None
  | S fuel' =>
      match fetch_offers_page validate exchange cursor with
      | Err e => Some (Err e)
      | Ok page =>
          match next_cursor page with
          | None => Some (Ok (acc ++ items page))
          | Some c => offers_loop fuel' validate exchange (acc ++ items page) (Some c)
          end
      end
  end.
Definition list_vendor_offers (fuel : nat) (validate : J → result string InternalOfferListResponse) (exchange : option string → http_exchange J)
    : option (result string (list Matching.VendorOfferDTO)) := offers_loop fuel validate exchange [] None.
(** The report of a reputation fact accepts two statuses and no body. *)
Definition report_answer (x : http_exchange J) : result string () :=
  match x with
  | HttpError e => Err ("vendor service unreachable: " +:+ e)
  | HttpAnswer st text _ =>
      raise_if bool_decide (st ∉ [200; 201]) with "vendor service returned status " +:+ py_str_Z st +:+ ": " +:+ text ;; Ok ()
  end.
End Client.

(** ** The service behind the client *)

Section Wire.
Context `{PyText} `{Bytes} `{AdminApi.CursorText} {J : Type}.
(** The text of a response, as a JSON value: [jsonable_encoder] with [json.dumps] *)
Variable to_json : InternalOfferListResponse → J.
(** What [GET /internal/offers] answers on a state of the tables *)
Definition serve (s : vdb) (realm : string) (as_of : datetime) (cursor : option string) : http_exchange J :=
  match let! p := list_internal_offers realm as_of cursor 100 s in render p with
  | Ok p => HttpAnswer 200 "" (Ok (to_json p))
  | Err e => let ' (st, _, m, _) := envelope_response e in HttpAnswer st m (Err "")
  end.
End Wire.
End VendorApi.
