(* ===== verification/VendorRules.v ===== *)
(** * What the vendor service promises

    Invariants of its tables over every history of writes, the isolation of a
    vendor's own offers, the completeness of what a client that follows the
    cursors gets, and the effect a report of the execution ledger has on it. *)

From stdpp Require Import base gmap sets strings list sorting.
From Stdlib Require Import ZArith Lia SpecFloat.
From S2P Require Import Prelude Json PyStr Decimal PyFloat Datetime Query Api TenderDb Matching AdminApi AdminHistory DecisionApi ExecutionLedger ExecutionApi Vendor VendorApi.

Module VendorRules.
Import DecisionApi Vendor VendorApi.
#[local] Open Scope Z_scope.

Section Histories.
Context `{PyText} `{TenderDb.Bytes}.

Definition empty_vdb : vdb := Vdb tbl_empty tbl_empty tbl_empty tbl_empty.
(** A committed write *)
Inductive vstep : vdb → vdb → Prop :=
| VSVendor key v r s s' : store_vendor key v s = Ok (r, s') → vstep s s'
| VSOffer vendor_id o i s s' : store_offer vendor_id o s = Ok (i, s') → vstep s s'
| VSFact vendor_id f i s s' : make_reputation_fact f = Ok f → store_reputation_fact vendor_id f s = Ok (i, s') → vstep s s'
| VSCapture kind bytes mime corr i s s' : save_napkin_evidence kind bytes mime corr s = Ok (i, s') → vstep s s'.

Definition offer_ok (vs : table vendor_row) (r : offer_row) : Prop :=
  is_Some (tbl_get vs (ow_vendor_id r)) ∧ of_executable_status (ow_offer r) ∈ EXECUTABLE_STATUS_TIERS ∧
  (of_data_realm (ow_offer r), of_watermark (ow_offer r)) ∈ VALID_REALM_PAIRS.
Definition fact_ok (vs : table vendor_row) (r : reputation_row) : Prop :=
  is_Some (tbl_get vs (rp_vendor_id r)) ∧ rf_event_type (rp_fact r) ∈ REPUTATION_EVENT_TYPES.
Record vsound (s : vdb) : Prop := {
  vs_vendors : tbl_wf (vendors s); vs_offers : tbl_wf (offers s); vs_facts : tbl_wf (reputation s);
  vs_positive : 0 < next_id (offers s) ∧ ∀ i r, tbl_get (offers s) i = Some r → 0 < i;
  vs_keys : ∀ i r j r', tbl_get (vendors s) i = Some r → tbl_get (vendors s) j = Some r' → api_key r = api_key r' → i = j;
  vs_offer : ∀ i r, tbl_get (offers s) i = Some r → offer_ok (vendors s) r;
  vs_fact : ∀ i r, tbl_get (reputation s) i = Some r → fact_ok (vendors s) r }.

Lemma get_after_insert {R} (t : table R) r i : tbl_wf t → is_Some (tbl_get t i) → is_Some (tbl_get (tbl_insert t r).2 i).
Proof.
  intros Hw [x Hx]. exists x. rewrite tbl_get_insert_old; [done|]. intros ->. rewrite tbl_get_next in Hx by done. done.
Qed.
Lemma exists_in_Some {R} (t : table R) i : TenderDb.exists_in t i = true → is_Some (tbl_get t i).
Proof. unfold TenderDb.exists_in. by destruct (tbl_get t i). Qed.
Lemma event_known f : make_reputation_fact f = Ok f → rf_event_type f ∈ REPUTATION_EVENT_TYPES.
Proof.
  unfold make_reputation_fact, is_negative_event, REPUTATION_EVENT_TYPES. rewrite elem_of_app.
  repeat case_bool_decide; simpl; [by right|by left|done].
Qed.

Lemma store_vendor_sound key v r s s' : vsound s → store_vendor key v s = Ok (r, s') → vsound s'.
Proof.
  intros [] Hr. unfold store_vendor, realm_check in Hr. apply rbind_ok in Hr as (name & _ & Hr).
  destruct (match seed v with Some n => negb (int4 n) | None => false end); [done|]. case_bool_decide; [done|].
  destruct (tbl_select (λ _ x, String.eqb (api_key x) key) (vendors s)) as [|x l] eqn:Hk; [|done]. injection Hr as <- <-.
  assert (∀ i x, tbl_get (vendors s) i = Some x → api_key x ≠ key) as Hnew.
  { intros i x Hx Hkey. apply tbl_get_spec in Hx; [|done].
    assert ((i, x) ∈ tbl_select (λ _ x, String.eqb (api_key x) key) (vendors s)) as Hin by (apply elem_of_tbl_select; split; [by apply String.eqb_eq|done]).
    rewrite Hk in Hin. by apply elem_of_nil in Hin. }
  constructor; simpl; try done; [by apply tbl_insert_wf| | |].
  - refine (insert_once (vendors s) _ (λ x y, api_key x = api_key y) _ _ _ _); [done|by intros ??|done|done].
  - intros i x Hx. destruct (vs_offer0 i x Hx) as (Hv & Hrest). split; [by apply get_after_insert|done].
  - intros i x Hx. destruct (vs_fact0 i x Hx) as (Hv & Hrest). split; [by apply get_after_insert|done].
Qed.
Lemma store_offer_sound vendor_id o i s s' : vsound s → store_offer vendor_id o s = Ok (i, s') → vsound s'.
Proof.
  intros [] Hr. unfold store_offer, realm_check in Hr. do 6 apply rbind_ok in Hr as (? & _ & Hr). case_bool_decide as Hp; [done|].
  case_bool_decide as Ht; [done|]. destruct (TenderDb.exists_in (vendors s) vendor_id) eqn:Hv; [|done]. injection Hr as <- <-.
  apply exists_in_Some in Hv. destruct vs_positive0 as [Hn Hpos]. constructor; simpl; try done; [by apply tbl_insert_wf| |].
  - split; [lia|]. intros j r. destruct (decide (j = next_id (offers s))) as [->|Hj]; [done|].
    setoid_rewrite (tbl_get_insert_old (offers s) _ j Hj). apply Hpos.
  - refine (insert_get (offers s) _ _ _ _ _); [done|done|done].
Qed.
Lemma store_fact_sound vendor_id f i s s' : vsound s → make_reputation_fact f = Ok f → store_reputation_fact vendor_id f s = Ok (i, s') → vsound s'.
Proof.
  intros [] Hf Hr. unfold store_reputation_fact, realm_check in Hr. apply rbind_ok in Hr as (? & _ & Hr).
  destruct (negb (int4 (ttl_days f))); [done|]. case_bool_decide as Hp; [done|].
  destruct (TenderDb.exists_in (vendors s) vendor_id) eqn:Hv; [|done]. injection Hr as <- <-. apply exists_in_Some in Hv.
  constructor; simpl; try done; [by apply tbl_insert_wf|]. refine (insert_get (reputation s) _ _ _ _ _); [done|done|].
  split; [done|by apply event_known].
Qed.
Lemma vstep_sound s s' : vsound s → vstep s s' → vsound s'.
Proof.
  intros Hs Hstep. revert Hs. destruct Hstep as [? ? ? ? ? Hr|? ? ? ? ? Hr|? ? ? ? ? Hf Hr|? ? ? ? ? s ? Hr]; intros Hs.
  - by eapply store_vendor_sound.
  - by eapply store_offer_sound.
  - by eapply store_fact_sound.
  - unfold save_napkin_evidence in Hr. destruct (bool_decide _); [done|]. injection Hr as <- <-. by destruct Hs.
Qed.
Lemma reachable_vsound s : rtc vstep empty_vdb s → vsound s.
Proof.
  intros Hs. assert (vsound empty_vdb) as He.
  { assert (∀ R i (r : R), tbl_get tbl_empty i = Some r → False) as Hno by done.
    constructor; simpl; try (by split; constructor); try (by intros; exfalso; eauto). split; [done|]. intros. exfalso. eauto. }
  revert He. induction Hs; intros He; [done|]. eauto using vstep_sound.
Qed.
End Histories.

(** ** A vendor sees its own offers *)

Section Isolation.
Context `{PyText} `{TenderDb.Bytes}.

Lemma vendor_of_key s key i : vsound s → get_vendor_id_by_api_key key s = Some i ↔ ∃ v, tbl_get (vendors s) i = Some v ∧ api_key v = key.
Proof.
  intros Hs. unfold get_vendor_id_by_api_key. destruct (tbl_select _ (vendors s)) as [|[j w] l] eqn:Hsel; simpl.
  - split; [done|]. intros (v & Hv & Hk). apply tbl_get_spec in Hv; [|by apply vs_vendors].
    assert ((i, v) ∈ tbl_select (λ _ r, String.eqb (api_key r) key) (vendors s)) as Hin by (apply elem_of_tbl_select; split; [by apply String.eqb_eq|done]).
    rewrite Hsel in Hin. by apply elem_of_nil in Hin.
  - assert ((j, w) ∈ tbl_select (λ _ r, String.eqb (api_key r) key) (vendors s)) as [Hk Hin]%elem_of_tbl_select by (rewrite Hsel; by left).
    apply String.eqb_eq in Hk. apply tbl_get_spec in Hin; [|by apply vs_vendors]. split; [intros [= <-]; by exists w|].
    intros (v & Hv & Hkv). f_equal. eapply (vs_keys s Hs); [exact Hin|exact Hv|congruence].
Qed.

(** C19: over every history of the service, a request for one's own offers succeeds
    exactly with the key issued to a stored vendor, and then gives all the offers
    of that vendor and of no other; without a key or with an unknown one it is
    refused as unauthenticated; no two vendors share a key. *)
Theorem vendor_isolation s key r : rtc vstep empty_vdb s → list_my_offers key s = r →
  match r with
  | Ok l => ∃ k i v, key = Some k ∧ tbl_get (vendors s) i = Some v ∧ api_key v = k ∧
      (∀ j w, tbl_get (vendors s) j = Some w → api_key w = k → j = i) ∧
      ∀ j o, (j, o) ∈ l ↔ tbl_get (offers s) j = Some o ∧ ow_vendor_id o = i
  | Err e => (∃ m, e = api_error 401 "unauthenticated" m) ∧
      match key with Some k => ∀ i v, tbl_get (vendors s) i = Some v → api_key v ≠ k | None => True end
  end.
Proof.
  intros Hs%reachable_vsound <-. unfold list_my_offers, get_current_vendor_id. destruct key as [k|]; simpl; [|by split; [eexists|]].
  destruct (get_vendor_id_by_api_key k s) as [i|] eqn:Hk; simpl.
  - apply vendor_of_key in Hk as (v & Hv & Hkv); [|done]. exists k, i, v. split_and!; [done..| |].
    + intros j w Hw Hkw. eapply (vs_keys s Hs); [exact Hw|exact Hv|congruence].
    + intros j o. unfold list_offers_by_vendor. rewrite elem_of_tbl_select, Z.eqb_eq, tbl_get_spec by (by apply vs_offers). tauto.
  - split; [by eexists|]. intros i v Hv Hkv. assert (get_vendor_id_by_api_key k s = Some i) as Hx by (apply vendor_of_key; eauto). congruence.
Qed.
End Isolation.

(** ** What a client gets *)

(** One tier less, as far as there is one *)
Definition downgraded (tier : string) : string :=
  if String.eqb tier "reserved" then "confirmed" else if String.eqb tier "confirmed" then "reported" else "unknown".
(** A fact of one of the kinds about a vendor that has not run out *)
Definition active_fact (types : list string) (v as_of : Z) (s : vdb) : Prop :=
  ∃ i r, tbl_get (reputation s) i = Some r ∧ rp_vendor_id r = v ∧ rf_event_type (rp_fact r) ∈ types ∧
    as_of < fact_end r.
(** The ends of all facts about a vendor are instants the database has. *)
Definition dates_kept (s : vdb) (v : Z) : Prop :=
  ∀ i r, tbl_get (reputation s) i = Some r → rp_vendor_id r = v → in_timestamp_range (fact_end r) = true.
(** An offer that can be listed and sent *)
Definition offer_numbers (o : Offer) : list spec_float :=
  [of_price o; of_vat_rate o; of_uom_canonical_qty o; of_moq o; of_capacity o; of_inventory o].
Definition servable (s : vdb) (ir : Z * offer_row) : Prop :=
  dates_kept s (ow_vendor_id ir.2) ∧ Forall (λ f, finite f = true) (offer_numbers (ow_offer ir.2)).
(** An offer of the table as the client sees it *)
Definition described (s : vdb) (as_of : Z) (ir : Z * offer_row) (d : Matching.VendorOfferDTO) : Prop :=
  ∃ v positive negative, tbl_get (vendors s) (ow_vendor_id ir.2) = Some v ∧
    d = offer_dto (ir, vr_name v) (if negative : bool then downgraded (of_executable_status (ow_offer ir.2)) else of_executable_status (ow_offer ir.2))
          positive negative ∧
    (positive = true ↔ active_fact POSITIVE_EVENT_TYPES (ow_vendor_id ir.2) as_of s) ∧
    (negative = true ↔ active_fact NEGATIVE_EVENT_TYPES (ow_vendor_id ir.2) as_of s).

Section Completeness.
Context `{PyText} `{TenderDb.Bytes} `{AdminApi.CursorText}.

Lemma effective_spec tier negative : tier ∈ EXECUTABLE_STATUS_TIERS →
  effective_executable_status tier negative = Ok (if negative then downgraded tier else tier).
Proof.
  intros Ht. unfold effective_executable_status, is_valid_executable_status. rewrite bool_decide_true by done. simpl.
  destruct negative; [|done]. unfold EXECUTABLE_STATUS_TIERS in Ht. rewrite !elem_of_cons, elem_of_nil in Ht.
  by destruct Ht as [->|[->|[->|[->|[]]]]].
Qed.
(** The facts that count for a vendor, when the ends of all its facts are in range *)
Definition dated (s : vdb) (v : Z) : bool :=
  forallb (λ ir, in_timestamp_range (fact_end ir.2)) (tbl_select (λ _ r, rp_vendor_id r =? v) (reputation s)).
Definition counted (v as_of : Z) (s : vdb) : list (Z * reputation_row) :=
  List.filter (λ ir, is_active_fact as_of ir.2) (tbl_select (λ _ r, rp_vendor_id r =? v) (reputation s)).
Lemma listed_facts v as_of s : list_active_reputation_facts v as_of s =
  if dated s v then Ok (counted v as_of s) else Err (DataError "timestamp out of range").
Proof using Type.
  unfold list_active_reputation_facts, dated, counted. induction (tbl_select _ _) as [|ir l IH]; [done|]. simpl.
  destruct (in_timestamp_range (fact_end ir.2)); simpl; [|done]. destruct (existsb _ l), (forallb _ l); simpl in *; congruence.
Qed.
Lemma dated_spec s v : tbl_wf (reputation s) → dated s v = true ↔ dates_kept s v.
Proof using Type.
  intros Hw. unfold dated, dates_kept. rewrite forallb_forall. split.
  - intros Hall i r Hr Hv. apply (Hall (i, r)), list_elem_of_In, elem_of_tbl_select. split; [by apply Z.eqb_eq|by apply tbl_get_spec].
  - intros Hall [i r] [Hv%Z.eqb_eq Hin]%list_elem_of_In%elem_of_tbl_select. apply (Hall i r); [by apply tbl_get_spec|done].
Qed.
Lemma any_event_spec types v as_of s : tbl_wf (reputation s) →
  any_event types (counted v as_of s) = true ↔ active_fact types v as_of s.
Proof using Type.
  intros Hw. unfold any_event, counted. rewrite existsb_exists. unfold active_fact. split.
  - intros ([i r] & [Hin Ha%Z.ltb_lt]%filter_In & Ht%bool_decide_eq_true_1). apply list_elem_of_In, elem_of_tbl_select in Hin as [Hv%Z.eqb_eq Hin].
    exists i, r. split; [by apply tbl_get_spec|done].
  - intros (i & r & Hr & Hv & Ht & Ha). exists (i, r). split; [|by apply bool_decide_eq_true_2]. apply filter_In. split; [|by apply Z.ltb_lt].
    apply list_elem_of_In, elem_of_tbl_select. split; [by apply Z.eqb_eq|by apply tbl_get_spec].
Qed.

(** The flags of a vendor, and the item of an offer *)
Definition flags (s : vdb) (as_of v : Z) : bool * bool :=
  (any_event POSITIVE_EVENT_TYPES (counted v as_of s), any_event NEGATIVE_EVENT_TYPES (counted v as_of s)).
Definition rated (s : vdb) (as_of : Z) (x : Z * offer_row * string) : Matching.VendorOfferDTO :=
  let f := flags s as_of (ow_vendor_id x.1.2) in let raw := of_executable_status (ow_offer x.1.2) in
  offer_dto x (if f.2 then downgraded raw else raw) f.1 f.2.
Definition cache_ok (s : vdb) (as_of : Z) (cache : gmap Z (bool * bool)) : Prop :=
  ∀ v f, cache !! v = Some f → f = flags s as_of v ∧ dated s v = true.
(** The loop over a page: an item for every offer, or an error at the first offer
    of a vendor with a fact whose end is out of range *)
Lemma add_item_spec s as_of x cache acc : cache_ok s as_of cache → of_executable_status (ow_offer x.1.2) ∈ EXECUTABLE_STATUS_TIERS →
  if dated s (ow_vendor_id x.1.2) then ∃ cache', cache_ok s as_of cache' ∧ add_item as_of s (cache, acc) x = Ok (cache', acc ++ [rated s as_of x])
  else add_item as_of s (cache, acc) x = Err (DataError "timestamp out of range").
Proof.
  intros Hc Hx. unfold add_item. cbv zeta. set (v := ow_vendor_id x.1.2). rewrite listed_facts. simpl. destruct (cache !! v) as [f|] eqn:Hv.
  - destruct (Hc v f Hv) as [-> ->]. exists cache. split; [done|]. simpl. rewrite Hv. unfold flags at 1. by rewrite effective_spec.
  - destruct (dated s v) eqn:Hd; [|done]. simpl. rewrite lookup_insert_eq, effective_spec by done. eexists. split; [|done].
    intros w f. rewrite lookup_insert_Some. intros [[<- <-]|[_ Hf]]; [done|by apply Hc].
Qed.
Lemma add_items_spec s as_of xs cache acc : cache_ok s as_of cache →
  Forall (λ x : Z * offer_row * string, of_executable_status (ow_offer x.1.2) ∈ EXECUTABLE_STATUS_TIERS) xs →
  if forallb (λ x : Z * offer_row * string, dated s (ow_vendor_id x.1.2)) xs
  then ∃ cache', foldM (add_item as_of s) (cache, acc) xs = Ok (cache', acc ++ map (rated s as_of) xs)
  else foldM (add_item as_of s) (cache, acc) xs = Err (DataError "timestamp out of range").
Proof.
  revert cache acc. induction xs as [|x xs IH]; intros cache acc Hc Hall; simpl; [exists cache; by rewrite app_nil_r|].
  inversion_clear Hall as [|? ? Hx Hxs]. pose proof (add_item_spec s as_of x cache acc Hc Hx) as Ha.
  destruct (dated s (ow_vendor_id x.1.2)); [|by rewrite Ha]. destruct Ha as (cache' & Hc' & ->). simpl.
  specialize (IH cache' (acc ++ [rated s as_of x]) Hc' Hxs). destruct (forallb _ xs); [|done].
  destruct IH as [c2 Hc2]. exists c2. by rewrite Hc2, <-app_assoc.
Qed.
Lemma rated_described s as_of ir v : vsound s → tbl_get (vendors s) (ow_vendor_id ir.2) = Some v → described s as_of ir (rated s as_of (ir, vr_name v)).
Proof.
  intros Hs Hv. exists v, (flags s as_of (ow_vendor_id ir.2)).1, (flags s as_of (ow_vendor_id ir.2)).2.
  split; [done|]. split; [done|]. split; apply any_event_spec; by apply vs_facts.
Qed.

(** The listing of a realm after an id, each offer with the name of its vendor *)
Lemma named_listing s realm after : vsound s → ∃ nm : Z * offer_row → string,
  omap (named s) (tbl_select (λ i r, in_realm realm r && (after <? i)) (offers s)) =
    map (λ ir, (ir, nm ir)) (beyond fst after (list_offers_by_data_realm realm s)) ∧
  ∀ ir, ir ∈ list_offers_by_data_realm realm s → ∃ v, tbl_get (vendors s) (ow_vendor_id ir.2) = Some v ∧ nm ir = vr_name v.
Proof.
  intros Hs. set (nm := λ ir : Z * offer_row, default "" (vr_name <$> tbl_get (vendors s) (ow_vendor_id ir.2))). exists nm.
  assert (∀ ir, ir ∈ rows (offers s) → ∃ v, tbl_get (vendors s) (ow_vendor_id ir.2) = Some v ∧ nm ir = vr_name v) as Hnm.
  { intros [i r] Hin. apply tbl_get_spec in Hin; [|by apply vs_offers]. destruct (vs_offer s Hs i r Hin) as ([v Hv] & _). exists v.
    split; [done|]. unfold nm. simpl. by rewrite Hv. }
  split; [|intros [i r] [_ Hin]%elem_of_tbl_select; by apply (Hnm (i, r))].
  unfold beyond, list_offers_by_data_realm, tbl_select. rewrite list_filter_filter.
  rewrite (list_filter_iff _ (λ ir : Z * offer_row, after < ir.1 ∧ in_realm realm ir.2 = true))
    by (intros ir; rewrite andb_true_iff, Z.ltb_lt; tauto).
  revert Hnm. induction (rows (offers s)) as [|ir l IH]; intros Hnm; [done|]. rewrite !filter_cons.
  destruct (decide (after < ir.1 ∧ in_realm realm ir.2 = true)); [|apply IH; intros; apply Hnm; by right].
  simpl. destruct (Hnm ir) as (v & Hv & Hn); [by left|]. unfold named at 1. rewrite Hv. simpl. rewrite Hn. f_equal. apply IH.
  intros; apply Hnm; by right.
Qed.
Lemma listing_sorted s realm : tbl_wf (offers s) → key_sorted fst (list_offers_by_data_realm realm s).
Proof.
  intros [Hs _]. apply sorted_filter. induction (rows (offers s)) as [|[i r] l IH]; [constructor|]. simpl in Hs.
  inversion_clear Hs as [|? ? Hl Hi]. constructor; [by apply IH|]. apply Forall_forall. intros [j o] Hj. simpl.
  rewrite Forall_forall in Hi. apply Hi, list_elem_of_fmap. by exists (j, o).
Qed.

(** A page of the service: the items of its offers, and the cursor of what comes
    after it *)
Lemma page_items s realm as_of cursor limit a : vsound s → 1 <= limit → AdminApi.after_id cursor = Ok a →
  let B := beyond fst a (list_offers_by_data_realm realm s) in
  ∃ (nm : Z * offer_row → string) next,
    list_internal_offers realm as_of cursor limit s =
      (let! ' (_, dtos) := uncaught (foldM (add_item (to_timestamptz as_of) s) (∅, []) (map (λ ir, (ir, nm ir)) (take (Z.to_nat limit) B))) in
       Ok {| items := dtos; next_cursor := next |}) ∧
    (∀ ir, ir ∈ B → ∃ v, tbl_get (vendors s) (ow_vendor_id ir.2) = Some v ∧ nm ir = vr_name v) ∧
    match next with
    | None => drop (Z.to_nat limit) B = []
    | Some c => B ≠ [] ∧ ∃ k, AdminApi.after_id (Some c) = Ok k ∧ beyond fst k (list_offers_by_data_realm realm s) = drop (Z.to_nat limit) B
    end.
Proof.
  intros Hs Hl Ha B. unfold list_internal_offers. rewrite Ha. simpl. unfold list_offers_with_vendor_name_by_data_realm.
  destruct (Z.ltb_spec (limit + 1) 0); [lia|]. simpl. destruct (named_listing s realm a Hs) as (nm & -> & Hnm). fold B.
  set (pg := take (Z.to_nat limit) B). set (nx := λ ir : Z * offer_row, (ir, nm ir)). exists nm.
  assert (AdminApi.py_prefix (take (Z.to_nat (limit + 1)) (map nx B)) limit = map nx pg) as ->.
  { unfold AdminApi.py_prefix. rewrite (proj2 (Z.leb_le 0 limit)) by lia. rewrite take_take. unfold pg. rewrite firstn_map. do 2 f_equal. lia. }
  rewrite length_take, length_map. replace (Z.to_nat (limit + 1)) with (S (Z.to_nat limit)) by lia.
  assert (∀ ir, ir ∈ B → ∃ v, tbl_get (vendors s) (ow_vendor_id ir.2) = Some v ∧ nm ir = vr_name v) as HB
    by (intros ir [_ Hin]%list_elem_of_filter; by apply Hnm).
  destruct (Z.ltb_spec limit (Z.of_nat (S (Z.to_nat limit) `min` length B))) as [Hm|Hm].
  - assert (last (map nx pg) = nx <$> last pg) as -> by apply fmap_last. destruct (last pg) as [[k r]|] eqn:Hlast; simpl.
    + eexists. split; [done|]. split; [done|]. simpl. split; [intros HB0; unfold pg in Hlast; by rewrite HB0, take_nil in Hlast|].
      exists k. split; [apply AdminApi.after_id_encode|]. change k with (fst (k, r)). apply beyond_page; [|done]. by apply listing_sorted, vs_offers.
    + exfalso. apply last_None in Hlast. apply (f_equal length) in Hlast. unfold pg in Hlast. rewrite length_take in Hlast. simpl in Hlast. lia.
  - exists None. split; [done|]. split; [done|]. apply drop_ge. lia.
Qed.
Lemma items_numbers s as_of (nm : Z * offer_row → string) l :
  compliant (map (rated s as_of) (map (λ ir, (ir, nm ir)) l)) = true ↔
  Forall (λ ir, Forall (λ f, finite f = true) (offer_numbers (ow_offer ir.2))) l.
Proof using Type.
  unfold compliant. rewrite map_map, forallb_forall, Forall_forall.
  assert (∀ ir, numbers (rated s as_of (ir, nm ir)) = offer_numbers (ow_offer ir.2)) as Hn by (by intros []).
  split.
  - intros Hall ir Hin. specialize (Hall (rated s as_of (ir, nm ir))). rewrite Hn in Hall. apply Forall_forall. intros f Hf.
    eapply forallb_forall; [apply Hall; apply in_map_iff; exists ir; split; [done|by apply list_elem_of_In]|by apply list_elem_of_In].
  - intros Hall d (ir & <- & Hin)%in_map_iff. rewrite Hn. apply forallb_forall. intros f Hf%list_elem_of_In.
    apply list_elem_of_In in Hin. specialize (Hall ir Hin). rewrite Forall_forall in Hall. by apply Hall.
Qed.
(** The page is served exactly when each of its offers can be. *)
Lemma internal_page s realm as_of cursor limit a : vsound s → 1 <= limit → AdminApi.after_id cursor = Ok a →
  let L := list_offers_by_data_realm realm s in let pg := take (Z.to_nat limit) (beyond fst a L) in
  match let! p := list_internal_offers realm as_of cursor limit s in render p with
  | Ok p => Forall (servable s) pg ∧ Forall2 (described s (to_timestamptz as_of)) pg (items p) ∧
      compliant (items p) = true ∧
      match next_cursor p with
      | None => drop (Z.to_nat limit) (beyond fst a L) = []
      | Some c => beyond fst a L ≠ [] ∧ ∃ k, AdminApi.after_id (Some c) = Ok k ∧ beyond fst k L = drop (Z.to_nat limit) (beyond fst a L)
      end
  | Err e => (∃ x, e = Uncaught x) ∧ ¬ Forall (servable s) pg
  end.
Proof.
  intros Hs Hl Ha L pg. destruct (page_items s realm as_of cursor limit a Hs Hl Ha) as (nm & next & -> & Hnm & Hnext). fold L in Hnm, Hnext |- *.
  fold pg. assert (∀ ir, ir ∈ pg → ir ∈ beyond fst a L) as Hpg by (intros ir Hin; eapply elem_of_take in Hin as (? & ? & ?); by eapply list_elem_of_lookup_2).
  pose proof (add_items_spec s (to_timestamptz as_of) (map (λ ir, (ir, nm ir)) pg) ∅ []) as Hadd.
  assert (forallb (λ x : Z * offer_row * string, dated s (ow_vendor_id x.1.2)) (map (λ ir, (ir, nm ir)) pg) = true ↔
    Forall (λ ir, dates_kept s (ow_vendor_id ir.2)) pg) as Hdated.
  { rewrite forallb_forall, Forall_forall. split.
    - intros Hall ir Hin. apply dated_spec; [by apply vs_facts|]. apply (Hall (ir, nm ir)), in_map_iff. exists ir. split; [done|by apply list_elem_of_In].
    - intros Hall x (ir & <- & Hin%list_elem_of_In)%in_map_iff. apply dated_spec; [by apply vs_facts|by apply (Hall ir)]. }
  destruct (forallb _ (map _ pg)) eqn:Hd; rewrite ?Hd in Hadd.
  - destruct Hadd as [cache ->]; [intros v f Hf; by rewrite lookup_empty in Hf| |].
    { apply Forall_forall. intros x ([i r] & -> & Hin%Hpg)%list_elem_of_fmap. simpl. apply list_elem_of_filter in Hin as [_ Hin].
      apply elem_of_tbl_select in Hin as [_ Hin]. apply tbl_get_spec in Hin; [|by apply vs_offers]. by destruct (vs_offer s Hs i r Hin) as (_ & ? & _). }
    simpl. unfold render. cbn [items next_cursor]. destruct (compliant _) eqn:Hn; simpl negb; cbv iota beta.
    + split; [|split; [|done]].
      * apply items_numbers in Hn. apply proj1 in Hdated. specialize (Hdated eq_refl). rewrite Forall_forall in *. intros ir Hin. by split; [apply Hdated|apply Hn].
      * cbn [items]. clear -Hnm Hpg Hs. revert Hpg. generalize pg as l. induction l as [|ir l IH]; intros Hin; [constructor|]. simpl.
        constructor; [|apply IH; intros; apply Hin; by right]. destruct (Hnm ir) as (v & Hv & Hn); [apply Hin; by left|]. rewrite Hn. by apply rated_described.
    + split; [by eexists|]. intros Hall. assert (true = false) as Hx; [|done]. rewrite <-Hn. symmetry. apply items_numbers.
      eapply Forall_impl; [exact Hall|]. by intros ? [].
  - rewrite Hadd; [|intros v f Hf; by rewrite lookup_empty in Hf|].
    + simpl. split; [by eexists|]. intros Hall. assert (true = false) as Hx; [|done]. symmetry. apply Hdated. eapply Forall_impl; [exact Hall|]. by intros ? [].
    + apply Forall_forall. intros x ([i r] & -> & Hin%Hpg)%list_elem_of_fmap. simpl. apply list_elem_of_filter in Hin as [_ Hin].
      apply elem_of_tbl_select in Hin as [_ Hin]. apply tbl_get_spec in Hin; [|by apply vs_offers]. by destruct (vs_offer s Hs i r Hin) as (_ & ? & _).
Qed.

(** The wire: what the service writes, with finite numbers, the client reads back. *)
Context {J : Type}.
Variables (to_json : InternalOfferListResponse → J) (of_json : J → result string InternalOfferListResponse).
Definition faithful_wire : Prop :=
  ∀ p, compliant (items p) = true → of_json (to_json p) = Ok p.

Lemma complete_listing s realm as_of fuel : faithful_wire → rtc vstep empty_vdb s → (length (rows (offers s)) < fuel)%nat →
  ∃ r, list_vendor_offers fuel of_json (serve to_json s realm as_of) = Some r ∧
    match r with
    | Ok ds => Forall (servable s) (list_offers_by_data_realm realm s) ∧
        Forall2 (described s (to_timestamptz as_of)) (list_offers_by_data_realm realm s) ds
    | Err _ => ¬ Forall (servable s) (list_offers_by_data_realm realm s)
    end.
Proof.
  intros Hwire Hs%reachable_vsound Hf. set (L := list_offers_by_data_realm realm s).
  assert (∀ cursor a acc, AdminApi.after_id cursor = Ok a → (length (beyond fst a L) < fuel)%nat →
    ∃ r, offers_loop fuel of_json (serve to_json s realm as_of) acc cursor = Some r ∧
      match r with
      | Ok ds' => ∃ ds, ds' = acc ++ ds ∧ Forall (servable s) (beyond fst a L) ∧ Forall2 (described s (to_timestamptz as_of)) (beyond fst a L) ds
      | Err _ => ¬ Forall (servable s) (beyond fst a L)
      end) as Hgen.
  { clear Hf. induction fuel as [|fuel IH]; intros cursor a acc Ha Hlen; [lia|]. simpl. unfold fetch_offers_page, serve at 1.
    pose proof (internal_page s realm as_of cursor 100 a Hs ltac:(lia) Ha) as Hp. fold L in Hp. cbv zeta in Hp.
    set (B := beyond fst a L) in *. pose proof (take_drop (Z.to_nat 100) B) as HB.
    assert (Forall (servable s) B ↔ Forall (servable s) (take (Z.to_nat 100) B) ∧ Forall (servable s) (drop (Z.to_nat 100) B)) as Hall
      by (by rewrite <-Forall_app, HB).
    destruct (let! p := list_internal_offers realm as_of cursor 100 s in render p) as [p|e].
    - destruct Hp as (Hsv & Hi & Hn & Hnext). simpl. rewrite (Hwire p Hn). simpl. destruct (next_cursor p) as [c|].
      + destruct Hnext as (Hne & k & Hk & Hdrop). rewrite <-Hdrop in Hall. destruct (IH (Some c) k (acc ++ items p) Hk) as (r & Hr & Hcase).
        { rewrite Hdrop, length_drop. destruct B; [done|]. simpl in *. lia. }
        exists r. split; [exact Hr|]. destruct r as [ds'|]; [|tauto]. destruct Hcase as (ds & -> & ? & Hds). exists (items p ++ ds).
        rewrite <-app_assoc. split_and!; [done|tauto|]. rewrite <-HB. apply Forall2_app; [done|by rewrite <-Hdrop].
      + eexists. split; [done|]. simpl. exists (items p). rewrite Hnext in Hall, HB. rewrite app_nil_r in HB. rewrite HB in Hi. split_and!; try done. by apply Hall.
    - destruct Hp as [[x ->] Hno]. eexists. split; [done|]. simpl. tauto. }
  assert (beyond fst 0 L = L) as HL.
  { apply beyond_all. intros [i r] [_ Hin]%elem_of_tbl_select.
    apply tbl_get_spec in Hin; [|by apply vs_offers]. simpl. destruct (vs_positive s Hs) as [_ Hpos]. by eapply Hpos. }
  destruct (Hgen None 0 [] eq_refl) as (r & Hr & Hcase); [rewrite HL; eapply Nat.le_lt_trans; [apply length_filter|exact Hf]|].
  rewrite HL in Hcase. exists r. split; [exact Hr|]. destruct r; [|done]. by destruct Hcase as (ds & -> & ?).
Qed.

(** C22: a client that follows the cursors of the service ends after finitely many
    requests, with all offers of the realm, once each and in order, each with the
    name of its vendor, its declared tier, flags that say whether facts that have
    not run out speak for or against the vendor, and the tier lowered by one
    exactly when one speaks against; or else with an error, exactly when some
    offer of the realm cannot be served, because a number of it is not finite or
    a fact about its vendor runs out at an instant the database does not have. *)
Theorem offers_complete s realm as_of fuel : faithful_wire → rtc vstep empty_vdb s → (length (rows (offers s)) < fuel)%nat →
  ∃ r, list_vendor_offers fuel of_json (serve to_json s realm as_of) = Some r ∧
    match r with
    | Ok ds => Forall (servable s) (list_offers_by_data_realm realm s) ∧
        Forall2 (described s (to_timestamptz as_of)) (list_offers_by_data_realm realm s) ds
    | Err _ => ¬ Forall (servable s) (list_offers_by_data_realm realm s)
    end.
Proof. apply complete_listing. Qed.

(** The same, for the items of one vendor *)
Lemma active_fact_insert types u as_of s r : tbl_wf (reputation s) →
  active_fact types u as_of (with_reputation (tbl_insert (reputation s) r).2 s) ↔
  active_fact types u as_of s ∨
  (rp_vendor_id r = u ∧ rf_event_type (rp_fact r) ∈ types ∧ as_of < fact_end r).
Proof.
  intros Hw. unfold active_fact, with_reputation. cbn [reputation]. split.
  - intros (i & x & Hx & Hrest). destruct (decide (i = next_id (reputation s))) as [->|Hi].
    + rewrite tbl_get_insert_new in Hx by done. injection Hx as <-. by right.
    + rewrite tbl_get_insert_old in Hx by done. left. by exists i, x.
  - intros [(i & x & Hx & Hrest)|Hr].
    + exists i, x. rewrite tbl_get_insert_old; [done|]. intros ->. rewrite tbl_get_next in Hx by done. done.
    + exists (next_id (reputation s)), r. by rewrite tbl_get_insert_new.
Qed.
(** The events the ledger reports are events the service knows as negative. *)
Lemma ledger_events category culprit e : ExecutionLedger.map_to_reputation_event_type category culprit = Some e → e ∈ NEGATIVE_EVENT_TYPES.
Proof.
  unfold ExecutionLedger.map_to_reputation_event_type. destruct category as [c|]; [|done]. destruct (String.eqb culprit "vendor"); [|done].
  intros He%assoc_elem. unfold ExecutionLedger.category_to_event_type in He. rewrite !elem_of_cons, elem_of_nil in He.
  destruct He as [[= _ ->]|[[= _ ->]|[[= _ ->]|[]]]]; concrete_mem.
Qed.

(** What the execution ledger reports is accepted: for a vendor the service
    has, a time the ledger could store and a time to live that fits its column,
    the report is stored, and until that time has run out every listing shows all
    offers of the vendor with the negative flag and one tier lower; the facts that
    count for other vendors are the same as before. *)
Theorem report_lowers s f event v days tender_id t : faithful_wire → rtc vstep empty_vdb s →
  ExecutionLedger.map_to_reputation_event_type (ExecutionLedger.deviation_category f) (ExecutionLedger.culprit_type f) = Some event →
  is_Some (tbl_get (vendors s) v) → fromisoformat (ExecutionLedger.observed_at f) = Ok t → int4 days = true →
  ∃ i s', report_reputation_fact {| ExecutionApi.rr_vendor_id := v; ExecutionApi.rr_event_type := event; ExecutionApi.rr_project_ref := py_str_Z tender_id;
      ExecutionApi.rr_source_ref := ExecutionLedger.evidence_source f; ExecutionApi.rr_observed_at := ExecutionLedger.observed_at f;
      ExecutionApi.rr_ttl_days := days |} s = Ok (i, s') ∧ rtc vstep empty_vdb s' ∧
    (∀ realm as_of fuel ds d, to_timestamptz as_of < to_timestamptz t + days * one_day →
       (length (rows (offers s')) < fuel)%nat → list_vendor_offers fuel of_json (serve to_json s' realm as_of) = Some (Ok ds) →
       d ∈ ds → Matching.vendor_id d = v →
       Matching.has_negative_reputation d = true ∧ Matching.effective_executable_status d = downgraded (Matching.executable_status d)) ∧
    (∀ types u as_of, u ≠ v → active_fact types u as_of s' ↔ active_fact types u as_of s).
Proof.
  intros Hwire Hs Hev Hv Ht Hdays. apply ledger_events in Hev. unfold report_reputation_fact. simpl.
  assert (event ∈ REPUTATION_EVENT_TYPES) as Hknown by (apply elem_of_app; by right).
  rewrite bool_decide_false by (intros Hn; by apply Hn). set (fact := {| rf_data_realm := _ |}).
  assert (make_reputation_fact fact = Ok fact) as Hf.
  { unfold make_reputation_fact, is_negative_event. change (rf_event_type fact) with event. by rewrite bool_decide_true. }
  rewrite Hf. simpl. pose proof (reachable_vsound s Hs) as Hsound.
  set (row := {| rp_vendor_id := v; rp_fact := fact; rp_observed := to_timestamptz t |}).
  assert (store_reputation_fact v fact s = Ok (next_id (reputation s), with_reputation (tbl_insert (reputation s) row).2 s)) as Hst.
  { unfold store_reputation_fact, realm_check, parse_time. simpl. rewrite Ht. simpl. rewrite Hdays. simpl.
    unfold TenderDb.exists_in. by destruct Hv as [x ->]. }
  rewrite Hst. set (s' := with_reputation _ s) in *. simpl. exists (next_id (reputation s)), s'. split; [done|].
  assert (rtc vstep empty_vdb s') as Hs' by (eapply rtc_r; [done|]; by eapply VSFact). split; [done|].
  assert (∀ types u as_of, active_fact types u as_of s' ↔ active_fact types u as_of s ∨
     (v = u ∧ event ∈ types ∧ as_of < to_timestamptz t + days * one_day)) as Hact.
  { intros types u as_of. unfold s'. rewrite active_fact_insert by (by apply vs_facts). done. }
  split; [|intros types u as_of Hne; rewrite Hact; naive_solver].
  intros realm as_of fuel ds d Hlate Hfuel Hds Hd Hdv. destruct (complete_listing s' realm as_of fuel Hwire Hs' Hfuel) as (r & Hds' & Hall).
  rewrite Hds in Hds'. injection Hds' as <-. destruct Hall as [_ Hall]. apply list_elem_of_lookup in Hd as [k Hk].
  destruct (Forall2_lookup_r _ _ _ _ _ Hall Hk) as ([j o] & _ & x & pos & neg & _ & -> & _ & Hneg). simpl in *. subst v.
  destruct neg; [done|]. exfalso. assert (false = true) as Hfalse; [apply Hneg, Hact|done]. right. done.
Qed.
End Completeness.

(** ** What the providers leave uncaught *)

(** A CSV line with too few cells is not reported as an error of the file. *)
Lemma short_row_uncaught `{PyText} as_of row : dict_get "price" row = JNull →
  csv_row as_of row = Err (ProviderUncaught (TypeError "float() argument must be a string or a real number, not 'NoneType'")).
Proof. intros Hp. unfold csv_row, read_offer. by rewrite Hp. Qed.

(** ** Witnesses *)

Section Demo.
#[local] Existing Instance ascii_text.
#[local] Existing Instance ExecutionApi.demo_sha.
#[local] Existing Instance AdminHistory.demo_cursors.
Definition demo_offer (tier : string) : Offer := {|
  of_vendor_name := JStr "Acme"; of_data_realm := "vendor-sandbox"; of_watermark := "SYNTHETIC"; of_material := JStr "cement";
  of_price := Matching.fl 120 0; of_currency := JStr "AZN"; of_vat_rate := Matching.fl 18 0; of_uom := JStr "t";
  of_uom_canonical_qty := Matching.fl 1 0; of_moq := Matching.fl 1 0; of_capacity := Matching.fl 9 0; of_inventory := Matching.fl 5 0;
  of_valid_from := JStr "2026-08-01T00:00:00+00:00"; of_valid_until := JStr "2026-09-01T00:00:00+00:00"; of_evidence_source := "csv-upload";
  of_observed_at := "2026-08-01T00:00:00+00:00"; of_adverse_case := None; of_executable_status := tier |}.
Definition demo_vendor (name : string) : Vendor := {|
  v_data_realm := "vendor-sandbox"; v_watermark := "SYNTHETIC"; v_name := JStr name; provider_type := "csv"; seed := None |}.
Definition or_empty {A} (r : result exn (A * vdb)) : vdb := match r with Ok (_, s) => s | Err _ => empty_vdb end.
Definition demo_two : vdb := or_empty (store_vendor "k2" (demo_vendor "Other") (or_empty (store_vendor "k1" (demo_vendor "Acme") empty_vdb))).
Definition demo_vendors : vdb := or_empty (store_offer 2 (demo_offer "confirmed") (or_empty (store_offer 1 (demo_offer "reserved") demo_two))).
Lemma demo_vendors_reachable : rtc vstep empty_vdb demo_vendors.
Proof.
  eapply rtc_l; [eapply (VSVendor "k1" (demo_vendor "Acme")); vm_compute; reflexivity|].
  eapply rtc_l; [eapply (VSVendor "k2" (demo_vendor "Other")); vm_compute; reflexivity|].
  eapply rtc_l; [eapply (VSOffer 1 (demo_offer "reserved")); vm_compute; reflexivity|].
  eapply rtc_l; [eapply (VSOffer 2 (demo_offer "confirmed")); vm_compute; reflexivity|]. apply rtc_refl.
Qed.

Lemma vendor_isolation_witness : ∃ l, list_my_offers (Some "k2") demo_vendors = Ok l ∧ length l = 1%nat ∧ ∀ j o, (j, o) ∈ l → ow_vendor_id o = 2.
Proof.
  pose (x := list_my_offers (Some "k2") demo_vendors). destruct x as [l|e] eqn:Hx; [|exfalso; revert Hx; vm_compute; discriminate]. subst x.
  pose proof (vendor_isolation demo_vendors (Some "k2") (Ok l) demo_vendors_reachable Hx) as (k & i & v & Hk & Hv & Hkey & Huniq & Hall).
  exists l. split; [exact Hx|]. split; [revert Hx; vm_compute; intros [= <-]; reflexivity|].
  intros j o Hin. destruct (proj1 (Hall j o) Hin) as [_ Ho]. rewrite Ho. symmetry.
  injection Hk as <-. refine (Huniq 2 {| vr_vendor := demo_vendor "Other"; vr_name := "Other"; api_key := "k2" |} _ _); vm_compute; reflexivity.
Defined.

Definition read_back (p : InternalOfferListResponse) : result string InternalOfferListResponse := Ok p.
Lemma demo_wire : faithful_wire id read_back.
Proof. by intros p _. Qed.
Lemma offers_complete_witness : ∃ ds, list_vendor_offers 3 read_back (serve id demo_vendors "vendor-sandbox" (utc 0)) = Some (Ok ds) ∧ length ds = 2%nat.
Proof.
  destruct (offers_complete id read_back demo_vendors "vendor-sandbox" (utc 0) 3 demo_wire demo_vendors_reachable ltac:(vm_compute; lia)) as (r & Hr & Hall).
  pose (x := match list_vendor_offers 3 read_back (serve id demo_vendors "vendor-sandbox" (utc 0)) with Some (Ok _) => true | _ => false end).
  assert (x = true) as Hx by (vm_compute; reflexivity). subst x. rewrite Hr in Hx. destruct r as [ds|]; [|discriminate Hx].
  exists ds. split; [exact Hr|]. destruct Hall as [_ Hall]. apply Forall2_length in Hall. rewrite <-Hall. vm_compute. reflexivity.
Defined.
(** A report whose time to live ends beyond what the database can represent is
    accepted, and from then on the listing fails, for every vendor of the realm. *)
Definition far_report : ExecutionApi.ReportReputationFactRequest := {|
  ExecutionApi.rr_vendor_id := 1; ExecutionApi.rr_event_type := "missed_deadline"; ExecutionApi.rr_project_ref := "1"; ExecutionApi.rr_source_ref := "napkin-ocr:1";
  ExecutionApi.rr_observed_at := "2026-08-01T00:00:00+00:00"; ExecutionApi.rr_ttl_days := 2000000000 |}.
Lemma far_fact_breaks_listing : match report_reputation_fact far_report demo_vendors with
  | Ok (_, s') => ∃ m, list_vendor_offers 3 read_back (serve id s' "vendor-sandbox" (utc 0)) = Some (Err m)
  | Err _ => False
  end.
Proof. vm_compute. by eexists. Qed.

Definition demo_fact : ExecutionLedger.ExecutionFact := {|
  ExecutionLedger.ef_tender_id := 1; ExecutionLedger.ef_line := None; ExecutionLedger.planned_qty := None; ExecutionLedger.actual_qty := None;
  ExecutionLedger.deviation_reason := "late"; ExecutionLedger.deviation_category := Some "downtime"; ExecutionLedger.culprit_type := "vendor";
  ExecutionLedger.culprit_vendor_name := Some "Acme"; ExecutionLedger.culprit_vendor_id := Some 1; ExecutionLedger.evidence_source := "napkin-ocr:1";
  ExecutionLedger.observed_at := "2026-08-01T00:00:00+00:00" |}.
Lemma report_lowers_witness : ∃ s' ds d, rtc vstep empty_vdb s' ∧
  list_vendor_offers 3 read_back (serve id s' "vendor-sandbox" (utc 0)) = Some (Ok ds) ∧ ds !! 0%nat = Some d ∧
  Matching.executable_status d = "reserved" ∧ Matching.effective_executable_status d = "confirmed".
Proof.
  pose (p := fromisoformat "2026-08-01T00:00:00+00:00"). destruct p as [t|] eqn:Ht; [|exfalso; revert Ht; vm_compute; discriminate]. subst p.
  destruct (report_lowers id read_back demo_vendors demo_fact "missed_deadline" 1 30 1 t demo_wire demo_vendors_reachable
    ltac:(vm_compute; reflexivity) ltac:(eexists; vm_compute; reflexivity) Ht ltac:(vm_compute; reflexivity)) as (i & s' & Hr & Hs' & Hall & _).
  assert (to_timestamptz (utc 0) < to_timestamptz t + 30 * one_day) as Hlate by (revert Ht; vm_compute; intros [= <-]; reflexivity).
  assert (s' = or_empty (store_reputation_fact 1 {| rf_data_realm := "vendor-sandbox"; rf_watermark := "SYNTHETIC"; rf_vendor_name := ""; rf_event_type := "missed_deadline";
    project_ref := Some "1"; source_ref := "napkin-ocr:1"; rf_observed_at := "2026-08-01T00:00:00+00:00"; ttl_days := 30 |} demo_vendors)) as Hs.
  { revert Hr. vm_compute. intros [= _ <-]. reflexivity. }
  pose (x := list_vendor_offers 3 read_back (serve id s' "vendor-sandbox" (utc 0))).
  assert (match x with Some (Ok (d :: _)) => String.eqb (Matching.executable_status d) "reserved" && (Matching.vendor_id d =? 1) | _ => false end = true) as Hv
    by (subst x; rewrite Hs; vm_compute; reflexivity).
  destruct x as [[[|d ds]|]|] eqn:Hx; try discriminate Hv. subst x. apply andb_prop in Hv as [Hst%String.eqb_eq Hid%Z.eqb_eq].
  destruct (Hall "vendor-sandbox" (utc 0) 3%nat (d :: ds) d Hlate ltac:(rewrite Hs; vm_compute; lia) Hx ltac:(by left) Hid) as [_ Heff].
  exists s', (d :: ds), d. split; [exact Hs'|]. split; [exact Hx|]. split; [reflexivity|]. split; [exact Hst|]. rewrite Heff, Hst. reflexivity.
Defined.
End Demo.
End VendorRules.
