(* ===== verification/Fixtures.v ===== *)
(** * The synthetic fixtures of the vendor service

    [packages/vendor/synthetic_provider.py] and [synthetic_reputation.py]: eight
    vendors with one offer each, seven of them adverse in a named way, and a
    mix of reputations, drawn with [Random]. Every offer is accepted by the
    store, and its label says what is adverse about the stored row. *)

From stdpp Require Import base gmap sets strings list.
From Stdlib Require Import ZArith Ascii Lia SpecFloat.
From S2P Require Import Prelude Json PyStr Decimal PyFloat Datetime IsoFormat Query TenderDb Vendor Random.

Module Fixtures.
Import TenderDb IsoFormat Vendor Random.
#[local] Open Scope Z_scope.

(** [round(x, n)]: the decimal of [n] places that is closest to the float, an
    even one on a tie, read as a float *)
Definition nearest (num den : Z) : Z :=
  let q := num / den in
  let r := num mod den in
  if (den <? 2 * r) || ((2 * r =? den) && Z.odd q) then q + 1 else q.
Definition py_round (f : spec_float) (n : Z) : spec_float :=
  match f with
  | S754_finite s m e =>
      let c := if 0 <=? e then nearest (Zpos m * 2 ^ e * 10 ^ n) 1 else nearest (Zpos m * 10 ^ n) (2 ^ (- e)) in
      float_of_ratio s c (10 ^ n)
  | _ => f
  end.

(** A float literal *)
Definition lit (num den : Z) : spec_float := float_of_ratio false num den.

(** ** The offers *)

(** What the generator writes for one vendor: the bounds and the places of the
    price, the days of the validity counted from [as_of], and those of the
    observation, [None] for the text of [as_of] itself *)
Record fixture := {
  fx_vendor : string; fx_material : string; fx_low : spec_float; fx_high : spec_float; fx_places : Z; fx_currency : string; fx_vat : spec_float;
  fx_uom : string; fx_qty : spec_float; fx_moq : spec_float; fx_capacity : spec_float; fx_inventory : spec_float;
  fx_from : Z; fx_until : Z; fx_observed : option Z; fx_case : option string; fx_status : string }.
Definition normal_fixture : fixture := {|
  fx_vendor := "Synthetic Rebar Supplier"; fx_material := "rebar-12mm"; fx_low := lit 800 1; fx_high := lit 900 1; fx_places := 2;
  fx_currency := "AZN"; fx_vat := lit 18 1; fx_uom := "ton"; fx_qty := lit 1 1; fx_moq := lit 5 1; fx_capacity := lit 200 1; fx_inventory := lit 150 1;
  fx_from := 0; fx_until := 30; fx_observed := None; fx_case := None; fx_status := "confirmed" |}.
Definition stale_fixture : fixture := {|
  fx_vendor := "Synthetic Cement Supplier (stale)"; fx_material := "cement-42.5"; fx_low := lit 150 1; fx_high := lit 200 1; fx_places := 2;
  fx_currency := "AZN"; fx_vat := lit 18 1; fx_uom := "ton"; fx_qty := lit 1 1; fx_moq := lit 2 1; fx_capacity := lit 500 1; fx_inventory := lit 300 1;
  fx_from := -60; fx_until := -5; fx_observed := None; fx_case := Some "stale_offer"; fx_status := "reported" |}.
Definition conflict_fixture : fixture := {|
  fx_vendor := "Synthetic Aggregate Supplier (moq conflict)"; fx_material := "gravel-20mm"; fx_low := lit 30 1; fx_high := lit 50 1; fx_places := 2;
  fx_currency := "AZN"; fx_vat := lit 18 1; fx_uom := "m3"; fx_qty := lit 1 1; fx_moq := lit 500 1; fx_capacity := lit 100 1; fx_inventory := lit 40 1;
  fx_from := 0; fx_until := 30; fx_observed := None; fx_case := Some "moq_conflict"; fx_status := "reserved" |}.
Definition mixed_uom_fixture : fixture := {|
  fx_vendor := "Synthetic Rebar Supplier (mixed uom)"; fx_material := "rebar-12mm"; fx_low := lit 8 10; fx_high := lit 9 10; fx_places := 4;
  fx_currency := "AZN"; fx_vat := lit 18 1; fx_uom := "kg"; fx_qty := lit 1 1000; fx_moq := lit 5000 1; fx_capacity := lit 200000 1;
  fx_inventory := lit 150000 1;
  fx_from := 0; fx_until := 30; fx_observed := None; fx_case := Some "mixed_uom"; fx_status := "unknown" |}.
Definition currency_vat_fixture : fixture := {|
  fx_vendor := "Synthetic Import Cement Supplier (currency/VAT mismatch)"; fx_material := "cement-imported-52.5"; fx_low := lit 60 1; fx_high := lit 80 1;
  fx_places := 2; fx_currency := "USD"; fx_vat := lit 0 1; fx_uom := "ton"; fx_qty := lit 1 1; fx_moq := lit 10 1; fx_capacity := lit 1000 1;
  fx_inventory := lit 600 1;
  fx_from := 0; fx_until := 30; fx_observed := None; fx_case := Some "currency_vat_mismatch"; fx_status := "confirmed" |}.
Definition capacity_shortfall_fixture : fixture := {|
  fx_vendor := "Synthetic Steel Supplier (capacity shortfall)"; fx_material := "steel-beam-ipe200"; fx_low := lit 900 1; fx_high := lit 1000 1;
  fx_places := 2; fx_currency := "AZN"; fx_vat := lit 18 1; fx_uom := "ton"; fx_qty := lit 1 1; fx_moq := lit 10 1; fx_capacity := lit 50 1;
  fx_inventory := lit 120 1;
  fx_from := 0; fx_until := 30; fx_observed := None; fx_case := Some "capacity_shortfall"; fx_status := "reported" |}.
Definition expiring_evidence_fixture : fixture := {|
  fx_vendor := "Synthetic Timber Supplier (expiring evidence)"; fx_material := "timber-formwork-18mm"; fx_low := lit 15 1; fx_high := lit 25 1;
  fx_places := 2; fx_currency := "AZN"; fx_vat := lit 18 1; fx_uom := "m2"; fx_qty := lit 1 1; fx_moq := lit 50 1; fx_capacity := lit 2000 1;
  fx_inventory := lit 1200 1;
  fx_from := -45; fx_until := 10; fx_observed := Some (-25); fx_case := Some "expiring_evidence"; fx_status := "reserved" |}.
Definition partial_fixture : fixture := {|
  fx_vendor := "Synthetic Pipe Supplier (partial fulfillment)"; fx_material := "hdpe-pipe-110mm"; fx_low := lit 20 1; fx_high := lit 30 1;
  fx_places := 2; fx_currency := "AZN"; fx_vat := lit 18 1; fx_uom := "m"; fx_qty := lit 1 1; fx_moq := lit 100 1; fx_capacity := lit 300 1;
  fx_inventory := lit 80 1;
  fx_from := 0; fx_until := 30; fx_observed := None; fx_case := Some "partial_fulfillment"; fx_status := "unknown" |}.
Definition FIXTURES : list fixture :=
  [normal_fixture; stale_fixture; conflict_fixture; mixed_uom_fixture; currency_vat_fixture; capacity_shortfall_fixture;
   expiring_evidence_fixture; partial_fixture].

Section Generate.
Context `{PyText} {S : Type} `{Rng S}.

(** A date [k] days from [as_of], no sum for none *)
Definition day_text (d : datetime) (k : Z) : result exn string :=
  if k =? 0 then Ok (isoformat d) else let! d' := add_days k d in Ok (isoformat d').
Definition make_offer (as_of : string) (d : datetime) (f : fixture) (price : spec_float) : result exn Offer :=
  let! from := day_text d (fx_from f) in
  let! until := day_text d (fx_until f) in
  let! observed := match fx_observed f with None => Ok as_of | Some k => day_text d k end in
  Ok {| of_vendor_name := JStr (fx_vendor f); of_data_realm := "vendor-sandbox"; of_watermark := "SYNTHETIC"; of_material := JStr (fx_material f);
        of_price := price; of_currency := JStr (fx_currency f); of_vat_rate := fx_vat f; of_uom := JStr (fx_uom f);
        of_uom_canonical_qty := fx_qty f; of_moq := fx_moq f; of_capacity := fx_capacity f; of_inventory := fx_inventory f;
        of_valid_from := JStr from; of_valid_until := JStr until; of_evidence_source := "synthetic-generator"; of_observed_at := observed;
        of_adverse_case := fx_case f; of_executable_status := fx_status f |}.
Definition synthetic_vendor (seed_ : Z) (f : fixture) : Vendor :=
  {| v_data_realm := "vendor-sandbox"; v_watermark := "SYNTHETIC"; v_name := JStr (fx_vendor f); provider_type := "synthetic"; seed := Some seed_ |}.
Fixpoint generate_all (seed_ : Z) (as_of : string) (d : datetime) (l : list fixture) (rng : S) : result exn (list Vendor * list Offer) :=
  match l with
  | [] => Ok ([], [])
  | f :: rest =>
      let ' (x, rng') := uniform (fx_low f) (fx_high f) rng in
      let! o := make_offer as_of d f (py_round x (fx_places f)) in
      let! vos := generate_all seed_ as_of d rest rng' in
      Ok (synthetic_vendor seed_ f :: vos.1, o :: vos.2)
  end.
(** [SyntheticProvider(seed=...).generate(as_of=...)]; [random] is
    [random.Random]. *)
Definition synthetic_generate (random : Z → S) (seed_ : Z) (as_of : string) : result exn (list Vendor * list Offer) :=
  let! d := fromisoformat as_of in
  generate_all seed_ as_of d FIXTURES (random seed_).

(** ** Reputations *)

(** [None] is a draw that has not ended. The facts of one vendor *)
Fixpoint draw_facts (fuel count : nat) (name as_of : string) (reliable : bool) (rng : S) : option (result exn (list ReputationFact) * S) :=
  match count with
  | O => Some (Ok [], rng)
  | Datatypes.S n =>
      let pool := if reliable then POSITIVE_EVENT_TYPES else NEGATIVE_EVENT_TYPES in
      match choice fuel (hd "" pool) (tl pool) rng with
      | None => None
      | Some (event, rng1) =>
          match choice fuel 30 [90; 180] rng1 with
          | None => None
          | Some (ttl, rng2) =>
              match make_reputation_fact
                {| rf_data_realm := "vendor-sandbox"; rf_watermark := "SYNTHETIC"; rf_vendor_name := name; rf_event_type := event;
                   project_ref := None; source_ref := "synthetic-reputation-generator"; rf_observed_at := as_of; ttl_days := ttl |} with
              | Err e => Some (Err e, rng2)
              | Ok fact =>
                  match draw_facts fuel n name as_of reliable rng2 with
                  | Some (Ok facts, rng3) => Some (Ok (fact :: facts), rng3)
                  | x => x
                  end
              end
          end
      end
  end.
Fixpoint draw_vendors (fuel : nat) (index : Z) (names : list string) (as_of : string) (rng : S) : option (result exn (list ReputationFact)) :=
  match names with
  | [] => Some (Ok [])
  | name :: rest =>
      match randint fuel 1 3 rng with
      | None => None
      | Some (count, rng1) =>
          match draw_facts fuel (Z.to_nat count) name as_of (negb (index mod 3 =? 0)) rng1 with
          | Some (Ok facts, rng2) =>
              match draw_vendors fuel (index + 1) rest as_of rng2 with Some (Ok facts') => Some (Ok (facts ++ facts')) | x => x end
          | Some (Err e, _) => Some (Err e)
          | None => None
          end
      end
  end.
Definition generate_reputation_facts (fuel : nat) (random : Z → S) (names : list string) (seed_ : Z) (as_of : string)
    : option (result exn (list ReputationFact)) :=
  draw_vendors fuel 0 names as_of (random seed_).

(** ** The offers are stored, and adverse as labelled *)

(** What each label says of the stored row at the time [now] *)
Definition adverse (label : string) (now : Z) (r : offer_row) : Prop :=
  let o := ow_offer r in
  if String.eqb label "stale_offer" then ow_until r < now
  else if String.eqb label "moq_conflict" then SFltb (of_capacity o) (of_moq o) = true
  else if String.eqb label "mixed_uom" then of_uom_canonical_qty o ≠ lit 1 1
  else if String.eqb label "currency_vat_mismatch" then ow_currency r ≠ "AZN" ∧ of_vat_rate o ≠ lit 18 1
  else if String.eqb label "capacity_shortfall" then SFltb (of_capacity o) (of_inventory o) = true
  else if String.eqb label "expiring_evidence" then now < ow_until r ∧ ow_observed r + 20 * DAY < now
  else False.
Definition LABELS : list string :=
  ["stale_offer"; "moq_conflict"; "mixed_uom"; "currency_vat_mismatch"; "capacity_shortfall"; "expiring_evidence"].
(** Less than half of the capacity on hand *)
Definition partial (r : offer_row) : Prop :=
  SFltb (of_inventory (ow_offer r)) (SFmul 53 1024 (of_capacity (ow_offer r)) (lit 1 2)) = true.

Lemma day_text_spec d k : representable d → in_calendar (dt_wall d + k * DAY) = true →
  ∃ t d', day_text d k = Ok t ∧ fromisoformat t = Ok d' ∧ to_timestamptz d' = to_timestamptz d + k * DAY.
Proof using Type.
  intros Hd Hk. unfold day_text. destruct (Z.eqb_spec k 0) as [->|Hne].
  - exists (isoformat d), d. rewrite iso_round_trip by done. split_and!; [done..|lia].
  - unfold add_days. rewrite Hk. exists (isoformat (Datetime (dt_wall d + k * DAY) (dt_offset d))), (Datetime (dt_wall d + k * DAY) (dt_offset d)).
    split; [done|]. split; [apply iso_round_trip; split; [done|apply Hd]|]. unfold to_timestamptz, dt_utc. simpl. lia.
Qed.

Definition in_window (k : Z) : Prop := -60 <= k <= 30.
Definition windowed (f : fixture) : Prop :=
  in_window (fx_from f) ∧ in_window (fx_until f) ∧ in_window (default 0 (fx_observed f)) ∧ fx_status f ∈ EXECUTABLE_STATUS_TIERS.
Lemma FIXTURES_windowed : Forall windowed FIXTURES.
Proof using Type.
  clear. unfold windowed, in_window. repeat (constructor; [cbn; split_and!; try lia; set_solver|]). constructor.
Qed.

(** The row of a fixture whose price came out as [price] *)
Definition row_of (now vendor_id : Z) (f : fixture) (o : Offer) : offer_row :=
  {| ow_vendor_id := vendor_id; ow_offer := o; ow_material := fx_material f; ow_currency := fx_currency f; ow_uom := fx_uom f;
     ow_from := now + fx_from f * DAY; ow_until := now + fx_until f * DAY; ow_observed := now + default 0 (fx_observed f) * DAY |}.
Record offered (as_of : string) (now : Z) (f : fixture) (o : Offer) : Prop := {
  off_vendor : of_vendor_name o = JStr (fx_vendor f);
  off_realm : of_data_realm o = "vendor-sandbox" ∧ of_watermark o = "SYNTHETIC";
  off_case : of_adverse_case o = fx_case f;
  off_numbers : (of_vat_rate o, of_uom_canonical_qty o, of_moq o, of_capacity o, of_inventory o) =
    (fx_vat f, fx_qty f, fx_moq f, fx_capacity f, fx_inventory f);
  off_stored `{Bytes} vendor_id s : exists_in (vendors s) vendor_id = true →
    store_offer vendor_id o s = Ok (next_id (offers s), with_offers (tbl_insert (offers s) (row_of now vendor_id f o)).2 s) }.

Section At.
Variables (as_of : string) (d : datetime).
Hypothesis Hparse : fromisoformat as_of = Ok d.
Hypothesis Hwindow : in_calendar (dt_wall d - 60 * DAY) = true ∧ in_calendar (dt_wall d + 30 * DAY) = true.

Lemma window_in_calendar k : in_window k → in_calendar (dt_wall d + k * DAY) = true.
Proof using Hwindow. destruct Hwindow as [H1 H2]. unfold in_window, in_calendar, DAY in *. rewrite andb_true_iff, Z.leb_le, Z.ltb_lt in *. lia. Qed.
Lemma make_offer_spec f price : windowed f → ∃ o, make_offer as_of d f price = Ok o ∧ offered as_of (to_timestamptz d) f o.
Proof using Hparse Hwindow.
  intros (Hf & Hu & Ho & Hs). pose proof (fromisoformat_representable _ _ Hparse) as Hd. unfold make_offer.
  destruct (day_text_spec d (fx_from f) Hd (window_in_calendar _ Hf)) as (t1 & d1 & -> & P1 & E1).
  destruct (day_text_spec d (fx_until f) Hd (window_in_calendar _ Hu)) as (t2 & d2 & -> & P2 & E2).
  assert (∃ t3 d3, match fx_observed f with None => Ok as_of | Some k => day_text d k end = Ok t3 ∧ fromisoformat t3 = Ok d3 ∧
    to_timestamptz d3 = to_timestamptz d + default 0 (fx_observed f) * DAY) as (t3 & d3 & -> & P3 & E3).
  { destruct (fx_observed f) as [k|]; [by apply day_text_spec, window_in_calendar|]. exists as_of, d. split_and!; [done..|]. simpl. lia. }
  eexists. split; [reflexivity|]. split; try done. intros B vendor_id s Hv. unfold store_offer. simpl. rewrite P1, P2, P3. simpl.
  rewrite (bool_decide_false (fx_status f ∉ _)) by auto. rewrite Hv. simpl. unfold row_of. by rewrite <-E1, <-E2, <-E3.
Qed.
Lemma generate_all_spec seed_ l rng : Forall windowed l → ∃ os, generate_all seed_ as_of d l rng = Ok (map (synthetic_vendor seed_) l, os) ∧
  Forall2 (offered as_of (to_timestamptz d)) l os.
Proof using Hparse Hwindow.
  intros Hl. revert rng. induction Hl as [|f l Hf Hl IH]; intros rng; cbn [generate_all].
  - by exists [].
  - destruct (uniform _ _ rng) as [x rng']. destruct (make_offer_spec f (py_round x (fx_places f)) Hf) as (o & -> & Ho). simpl.
    destruct (IH rng') as (os & -> & Hos). simpl. exists (o :: os). split; [done|by constructor].
Qed.
End At.

(** The label in terms of the fixture, to be computed *)
Definition adverse_fixture (label : string) (f : fixture) : bool :=
  if String.eqb label "stale_offer" then fx_until f <? 0
  else if String.eqb label "moq_conflict" then SFltb (fx_capacity f) (fx_moq f)
  else if String.eqb label "mixed_uom" then bool_decide (fx_qty f ≠ lit 1 1)
  else if String.eqb label "currency_vat_mismatch" then bool_decide (fx_currency f ≠ "AZN") && bool_decide (fx_vat f ≠ lit 18 1)
  else if String.eqb label "capacity_shortfall" then SFltb (fx_capacity f) (fx_inventory f)
  else if String.eqb label "expiring_evidence" then (0 <? fx_until f) && (default 0 (fx_observed f) + 20 <? 0)
  else false.
Lemma adverse_computed label now vendor_id as_of f o : offered as_of now f o →
  adverse label now (row_of now vendor_id f o) ↔ adverse_fixture label f = true.
Proof using Type.
  intros [_ _ _ Hn _]. injection Hn as Hvat Hqty Hmoq Hcap Hinv. unfold adverse, adverse_fixture, row_of, DAY.
  cbn [ow_offer ow_until ow_currency ow_observed]. rewrite Hvat, Hqty, Hmoq, Hcap, Hinv.
  repeat (case_match; [rewrite ?andb_true_iff, ?bool_decide_eq_true, ?Z.ltb_lt; done || lia|]). done.
Qed.
Lemma labels_computed : Forall (λ f, Forall (λ label, bool_decide (fx_case f = Some label) = adverse_fixture label f) LABELS) FIXTURES.
Proof using Type. clear. repeat (constructor; [repeat (constructor; [vm_compute; reflexivity|]); constructor|]). constructor. Qed.
Lemma label_iff now vendor_id as_of f o label : f ∈ FIXTURES → offered as_of now f o → label ∈ LABELS →
  of_adverse_case o = Some label ↔ adverse label now (row_of now vendor_id f o).
Proof using Type.
  intros Hf Ho Hl. pose proof labels_computed as Hc. rewrite Forall_forall in Hc. specialize (Hc _ Hf). rewrite Forall_forall in Hc.
  by rewrite (adverse_computed _ _ _ _ _ _ Ho), <-(Hc _ Hl), bool_decide_eq_true, (off_case _ _ _ _ Ho).
Qed.
Lemma map_related {A B C} (P : A → B → Prop) (g : A → C) (h : B → C) l l' : (∀ a b, P a b → h b = g a) → Forall2 P l l' → map h l' = map g l.
Proof using Type. intros HP. induction 1 as [|a b l l' Hab _ IH]; [done|]. simpl. by rewrite IH, (HP _ _ Hab). Qed.
Lemma partial_labelled now vendor_id as_of f o : f ∈ FIXTURES → offered as_of now f o →
  of_adverse_case o = Some "partial_fulfillment" → partial (row_of now vendor_id f o).
Proof using Type.
  intros Hf [_ _ Hc Hn _]. injection Hn as _ _ _ Hcap Hinv. rewrite Hc. unfold partial, row_of. simpl. rewrite Hcap, Hinv. clear -Hf.
  unfold FIXTURES in Hf. repeat (apply elem_of_cons in Hf as [->|Hf]); try done. by apply elem_of_nil in Hf.
Qed.

(** C37: for any seed that fits an INTEGER column, and any time such that the dates
    sixty days before and thirty days after exist, the provider returns eight
    synthetic vendors with one offer each, all of the sandbox and exactly one
    without a label; the store accepts every vendor and every offer, and what
    it stores is stale, in conflict, of mixed units, of another currency and tax,
    short of capacity, or of expiring evidence exactly if the offer says so. *)
Theorem fixtures_stored `{Bytes} (random_ : Z → S) seed_ as_of d : fromisoformat as_of = Ok d →
  in_calendar (dt_wall d - 60 * DAY) = true ∧ in_calendar (dt_wall d + 30 * DAY) = true → int4 seed_ = true →
  ∃ os, synthetic_generate random_ seed_ as_of = Ok (map (synthetic_vendor seed_) FIXTURES, os) ∧
    map of_vendor_name os = map (λ f, JStr (fx_vendor f)) FIXTURES ∧ map of_adverse_case os = None :: map Some (LABELS ++ ["partial_fulfillment"]) ∧
    (∀ f key s, tbl_select (λ _ r, String.eqb (api_key r) key) (vendors s) = [] →
       ∃ row, store_vendor key (synthetic_vendor seed_ f) s = Ok (next_id (vendors s), key, with_vendors (tbl_insert (vendors s) row).2 s)) ∧
    ∀ o vendor_id s, o ∈ os → exists_in (vendors s) vendor_id = true →
      of_data_realm o = "vendor-sandbox" ∧ of_watermark o = "SYNTHETIC" ∧
      ∃ r, store_offer vendor_id o s = Ok (next_id (offers s), with_offers (tbl_insert (offers s) r).2 s) ∧ ow_vendor_id r = vendor_id ∧ ow_offer r = o ∧
        (∀ label, label ∈ LABELS → of_adverse_case o = Some label ↔ adverse label (to_timestamptz d) r) ∧
        (of_adverse_case o = Some "partial_fulfillment" → partial r).
Proof using Type.
  intros Hp Hw Hseed. destruct (generate_all_spec as_of d Hp Hw seed_ FIXTURES (random_ seed_) FIXTURES_windowed) as (os & Hg & Hos).
  exists os. split; [unfold synthetic_generate; by rewrite Hp|]. split; [|split; [|split]].
  - eapply map_related; [|exact Hos]. intros f o Ho. apply (off_vendor _ _ _ _ Ho).
  - transitivity (map fx_case FIXTURES); [|done]. eapply map_related; [|exact Hos]. intros f o Ho. apply (off_case _ _ _ _ Ho).
  - intros f key s Hkey. unfold store_vendor. simpl. rewrite Hseed. simpl. rewrite Hkey. by eexists.
  - intros o vendor_id s Hin Hv. apply list_elem_of_lookup in Hin as [i Hi]. destruct (Forall2_lookup_r _ _ _ _ _ Hos Hi) as (f & Hf & Ho).
    pose proof (list_elem_of_lookup_2 _ _ _ Hf) as Hfx. destruct (off_realm _ _ _ _ Ho) as [Hr Hm]. split_and!; [done..|].
    exists (row_of (to_timestamptz d) vendor_id f o). split; [by apply (off_stored _ _ _ _ Ho)|]. split_and!; [done..| |].
    + intros label Hl. by eapply label_iff.
    + by eapply partial_labelled.
Qed.

(** ** The mix of reputations *)

Definition synthetic_fact (name as_of : string) (reliable : bool) (f : ReputationFact) : Prop :=
  rf_data_realm f = "vendor-sandbox" ∧ rf_watermark f = "SYNTHETIC" ∧ rf_vendor_name f = name ∧ rf_observed_at f = as_of ∧
  rf_event_type f ∈ (if reliable then POSITIVE_EVENT_TYPES else NEGATIVE_EVENT_TYPES) ∧ ttl_days f ∈ [30; 90; 180].
(** One to three facts for each vendor, bad ones for every third *)
Fixpoint mixed (index : Z) (names : list string) (as_of : string) (facts : list ReputationFact) : Prop :=
  match names with
  | [] => facts = []
  | name :: rest => ∃ mine others, facts = mine ++ others ∧ 1 <= Z.of_nat (length mine) <= 3 ∧
      Forall (synthetic_fact name as_of (negb (index mod 3 =? 0))) mine ∧ mixed (index + 1) rest as_of others
  end.

Section Draws.
Context {ok : S → Prop} `{!RngLaws S ok}.
Lemma draw_facts_spec fuel count name as_of reliable rng r rng' : ok rng → draw_facts fuel count name as_of reliable rng = Some (r, rng') →
  ok rng' ∧ ∃ facts, r = Ok facts ∧ length facts = count ∧ Forall (synthetic_fact name as_of reliable) facts.
Proof using All.
  revert rng r rng'. induction count as [|count IH]; intros rng r rng' Hok; cbn [draw_facts].
  - intros [= <- <-]. split; [done|]. by exists [].
  - cbv zeta. set (pool := if reliable then _ else _). destruct (choice fuel (hd "" pool) (tl pool) rng) as [[event rng1]|] eqn:E1; [|done].
    apply (choice_bound (ok := ok)) in E1 as [Hev Hok1]; [|done].
    destruct (choice fuel 30 [90; 180] rng1) as [[ttl rng2]|] eqn:E2; [|done]. apply (choice_bound (ok := ok)) in E2 as [Httl Hok2]; [|done].
    assert (hd "" pool :: tl pool = pool) as Ep by (subst pool; by destruct reliable). rewrite Ep in Hev.
    assert (∃ b, is_negative_event event = Ok b) as [b Hb].
    { unfold is_negative_event. case_bool_decide; [by eexists|]. rewrite bool_decide_true; [by eexists|]. subst pool. by destruct reliable. }
    unfold make_reputation_fact. cbn [rf_event_type]. rewrite Hb. simpl.
    destruct (draw_facts fuel count name as_of reliable rng2) as [[r' rng3]|] eqn:E3; [|done].
    destruct (IH _ _ _ Hok2 E3) as (Hok3 & facts & -> & Hl & Hf). intros [= <- <-]. split; [done|]. eexists. split; [done|].
    split; [simpl; by rewrite Hl|]. constructor; [|done]. by split_and!.
Qed.
Lemma draw_vendors_spec fuel index names as_of rng r : ok rng → draw_vendors fuel index names as_of rng = Some r →
  ∃ facts, r = Ok facts ∧ mixed index names as_of facts.
Proof using All.
  revert index rng r. induction names as [|name names IH]; intros index rng r Hok; cbn [draw_vendors].
  - intros [= <-]. by exists [].
  - destruct (randint fuel 1 3 rng) as [[count rng1]|] eqn:E1; [|done]. apply (randint_bound (ok := ok)) in E1 as [Hc Hok1]; [|done].
    destruct (draw_facts _ _ _ _ _ rng1) as [[r' rng2]|] eqn:E2; [|done].
    destruct (draw_facts_spec _ _ _ _ _ _ _ _ Hok1 E2) as (Hok2 & mine & -> & Hl & Hm).
    destruct (draw_vendors fuel (index + 1) names as_of rng2) as [r''|] eqn:E3; [|done]. destruct (IH _ _ _ Hok2 E3) as (others & -> & Ho).
    intros [= <-]. eexists. split; [done|]. cbn [mixed]. exists mine, others. split_and!; [done|lia|lia|done|done].
Qed.
End Draws.
End Generate.

(** With the Mersenne Twister whatever is returned is a mix of reputations, and
    with the seed of the tests it is returned. *)
Theorem reputation_mix `{PyText} fuel names seed_ as_of r : generate_reputation_facts fuel Random_ names seed_ as_of = Some r →
  ∃ facts, r = Ok facts ∧ mixed 0 names as_of facts.
Proof. apply (draw_vendors_spec (ok := twister_ok)), Random_ok. Qed.
Example reputations_of_42 :
  match generate_reputation_facts (H := ascii_text) 20 Random_ ["Vendor A"; "Vendor B"] 42 "2026-08-06T00:00:00+00:00" with
  | Some (Ok facts) => map (λ f, (rf_event_type f, ttl_days f)) facts | _ => [] end =
    [("price_broken_after_win", 30); ("quality_complaint", 30); ("missed_deadline", 30);
     ("price_held_after_win", 180); ("certification_verified", 180); ("price_held_after_win", 180)].
Proof. vm_compute. reflexivity. Qed.
Example prices_of_42 :
  match synthetic_generate (H := ascii_text) Random_ 42 "2026-08-06T00:00:00+00:00" with
  | Ok (_, os) => map (λ o, decimal_of_float (of_price o)) os | Err _ => [] end =
    [DFin false 86394 (-2); DFin false 15125 (-2); DFin false 355 (-1); DFin false 8223 (-4); DFin false 7473 (-2); DFin false 96767 (-2);
     DFin false 2392 (-2); DFin false 2087 (-2)].
Proof. vm_compute. reflexivity. Qed.

(** The seed and the instant of the tests *)
Lemma fixtures_stored_witness : ∃ os, synthetic_generate (H := ascii_text) Random_ 42 "2026-08-06T00:00:00+00:00" =
    Ok (map (synthetic_vendor 42) FIXTURES, os) ∧ map of_adverse_case os = None :: map Some (LABELS ++ ["partial_fulfillment"]).
Proof.
  destruct (fixtures_stored (H := ascii_text) (H1 := {| sha256_hex := λ _, ""; jsonb_of_bytes := λ _, Ok JNull |}) Random_ 42 "2026-08-06T00:00:00+00:00"
    (Datetime 1785974400000000 (Some 0))) as (os & Hg & _ & Hl & _).
  - vm_compute. reflexivity.
  - split; vm_compute; reflexivity.
  - reflexivity.
  - exists os. split; [exact Hg|exact Hl].
Defined.
End Fixtures.
