(* ===== verification/Shadow.v ===== *)
(** * Shadow comparison

    [packages/tender/shadow_comparison.py]: an export of the previous version
    against the records of this one, each difference in one of four buckets or
    left open. A record has the shape its contract documents: a key that is
    missing is [None], the key details are a map of JSON values, and only
    [captured_at] may be of any type. *)

From stdpp Require Import base gmap sets strings list sorting.
From Stdlib Require Import ZArith Lia.
From S2P Require Import Prelude Json PyStr Datetime Query.

Module Shadow.

Definition BUCKETS : list string := ["v1_loss"; "v2_defect"; "source_drift"; "expected_semantic_difference"].
Record Discrepancy := {
  dc_source_record_id : string; kind : string; field : option string; v1_value : json; v2_value : json;
  bucket : option string; reason : string }.
Record boq_side := { present : bool; completeness_status : option string; line_count : option Z }.
Record shadow_record := {
  source_record_id : string; record_kind : option string; status : option string; key_details : gmap string json;
  captured_at : json; boq : option boq_side }.
Record ShadowComparisonReport := {
  v1_count : Z; v2_count : Z; matched_count : Z;
  duplicate_source_record_ids_v1 : list string; duplicate_source_record_ids_v2 : list string;
  discrepancies : list Discrepancy; bucket_counts : gmap string Z }.
Definition text_or_null (v : option string) : json := match v with Some s => JStr s | None => JNull end.

(** [index.get]-style access by a subscript *)
Definition at_key {A} (m : gmap string A) (k : string) : result exn A :=
  match m !! k with Some a => Ok a | None => Err (KeyError k) end.

Definition index_step (a : gmap string shadow_record * list string) (r : shadow_record) : gmap string shadow_record * list string :=
  let rid := source_record_id r in
  match a.1 !! rid with
  | Some _ => (a.1, a.2 ++ [rid])
  | None => (<[rid := r]> a.1, a.2)
  end.
Definition index_by_id (records : list shadow_record) : gmap string shadow_record * list string := foldl index_step (∅, []) records.

Section Comparison.
Context `{PyText}.

(** ** The verdicts *)

Definition parse_timestamp (v : json) : option datetime :=
  match v with JStr s => match fromisoformat s with Ok d => Some d | Err _ => None end | _ => None end.
Definition drift_plausible (v1_record v2_record : shadow_record) : result exn bool :=
  match parse_timestamp (captured_at v1_record), parse_timestamp (captured_at v2_record) with
  | Some t1, Some t2 => dt_lt t1 t2
  | _, _ => Ok false
  end.

Definition classify_scoped_absence (rid knd : string) (rkind : option string) (covers : option (gset string))
    (missing_side defect_bucket : string) (x1 x2 : json) : Discrepancy :=
  let ' (b, why) :=
    match covers, rkind with
    | Some c, Some k =>
        if bool_decide (k ∈ c) then
          (Some defect_bucket, "record_kind " +:+ py_repr k +:+ " is inside the supplied in-scope set for " +:+ missing_side +:+
             "'s own ingestion contract; its absence is not explained by scope")
        else (Some "expected_semantic_difference", "record_kind " +:+ py_repr k +:+ " is outside the supplied in-scope set for " +:+
             missing_side +:+ "; this side was never meant to carry it")
    | _, _ =>
        (None, "cannot determine whether this record's kind is in scope for " +:+ missing_side +:+
           "'s ingestion contract -- supply record_kind and " +:+
           (if String.eqb missing_side "v2" then "v2_covers_record_kinds" else "v1_covers_record_kinds") +:+ " to classify")
    end in
  {| dc_source_record_id := rid; kind := knd; field := None; v1_value := x1; v2_value := x2; bucket := b; reason := why |}.

Definition classify_field_mismatch (rid fld : string) (x1 x2 : json) (v1_record v2_record : shadow_record)
    (expected : option (gset string)) : result exn Discrepancy :=
  let! ' (b, why) :=
    if match expected with Some e => bool_decide (fld ∈ e) | None => false end then
      Ok (Some "expected_semantic_difference", "field " +:+ py_repr fld +:+
        " is in the supplied expected-field-differences set (known intentional representation difference)")
    else
      let! drift := drift_plausible v1_record v2_record in
      Ok (if drift then
            (Some "source_drift", "captured_at shows v2 observed this record after v1; the underlying source value plausibly changed in between")
          else (None, "field " +:+ py_repr fld +:+ " differs (" +:+ json_repr x1 +:+ " vs " +:+ json_repr x2 +:+
            ") but neither an expected-field-differences declaration nor a captured_at ordering explains whether this is a genuine source change or a defect")) in
  Ok {| dc_source_record_id := rid; kind := "field_mismatch"; field := Some fld; v1_value := x1; v2_value := x2; bucket := b; reason := why |}.

Definition classify_boq_completeness_mismatch (rid : string) (s1 s2 : option string) : Discrepancy :=
  let ' (b, why) :=
    match s1, s2 with
    | None, _ => (Some "expected_semantic_difference",
        "v1 side carries no BOQ completeness concept for this record (completeness_status is None); v2 introduces one by design")
    | _, None => (Some "expected_semantic_difference", "v2 side carries no BOQ completeness concept for this record (completeness_status is None)")
    | Some t1, Some t2 =>
        if String.eqb t1 "complete" && String.eqb t2 "incomplete" then
          (Some "v2_defect", "v1 reconciled this BOQ to complete; v2's own reconciliation ended incomplete for the same record")
        else if String.eqb t2 "complete" && negb (String.eqb t1 "complete") then
          (Some "v1_loss", "v2 reconciled this BOQ to complete; v1's own status never reached complete for the same record")
        else (None, "BOQ completeness status differs (" +:+ py_repr t1 +:+ " vs " +:+ py_repr t2 +:+
          ") but neither value is the unambiguous complete/incomplete pair that would identify which side is at fault")
    end in
  {| dc_source_record_id := rid; kind := "boq_completeness_mismatch"; field := Some "completeness_status";
     v1_value := text_or_null s1; v2_value := text_or_null s2; bucket := b; reason := why |}.

(** ** The comparison *)

Record evidence := {
  v1_covers_record_kinds : option (gset string); v2_covers_record_kinds : option (gset string);
  expected_field_differences : option (gset string) }.
Variable ev : evidence.

Definition has_boq (r : shadow_record) : bool := match boq r with Some b => present b | None => false end.
Definition completeness (r : shadow_record) : option string := b ← boq r; completeness_status b.
Definition missing_from_v2 (ix1 : gmap string shadow_record) (rid : string) : result exn (list Discrepancy) :=
  let! r := at_key ix1 rid in
  Ok [classify_scoped_absence rid "missing_from_v2" (record_kind r) (v2_covers_record_kinds ev) "v2" "v2_defect" (JBool true) (JBool false)].
Definition missing_from_v1 (ix2 : gmap string shadow_record) (rid : string) : result exn (list Discrepancy) :=
  let! r := at_key ix2 rid in
  Ok [classify_scoped_absence rid "missing_from_v1" (record_kind r) (v1_covers_record_kinds ev) "v1" "v1_loss" (JBool false) (JBool true)].

Definition status_mismatch (rid : string) (r1 r2 : shadow_record) : result exn (list Discrepancy) :=
  if bool_decide (status r1 ≠ status r2) then
    let! d := classify_field_mismatch rid "status" (text_or_null (status r1)) (text_or_null (status r2)) r1 r2 (expected_field_differences ev) in Ok [d]
  else Ok [].
Definition shared_detail (rid : string) (r1 r2 : shadow_record) (key : string) : result exn (list Discrepancy) :=
  let! x1 := at_key (key_details r1) key in
  let! x2 := at_key (key_details r2) key in
  if negb (py_eq x1 x2) then
    let! d := classify_field_mismatch rid key x1 x2 r1 r2 (expected_field_differences ev) in Ok [d]
  else Ok [].
Definition lone_detail (rid side : string) (v1 v2 : json) (key : string) : Discrepancy :=
  {| dc_source_record_id := rid; kind := "field_mismatch"; field := Some key; v1_value := v1; v2_value := v2;
     bucket := Some "expected_semantic_difference";
     reason := "key_details field " +:+ py_repr key +:+ " does not exist on the " +:+ side +:+
       " side at all -- a structural schema difference, not a value drift" |}.
Definition v1_only_detail (rid : string) (r1 : shadow_record) (key : string) : result exn (list Discrepancy) :=
  let! x := at_key (key_details r1) key in Ok [lone_detail rid "v2" x JNull key].
Definition v2_only_detail (rid : string) (r2 : shadow_record) (key : string) : result exn (list Discrepancy) :=
  let! x := at_key (key_details r2) key in Ok [lone_detail rid "v1" JNull x key].
Definition boq_mismatch (rid : string) (r1 r2 : shadow_record) : list Discrepancy :=
  if has_boq r1 && negb (has_boq r2) then
    [classify_scoped_absence rid "boq_presence_mismatch" (record_kind r1) (v2_covers_record_kinds ev) "v2" "v2_defect" (JBool true) (JBool false)]
  else if has_boq r2 && negb (has_boq r1) then
    [classify_scoped_absence rid "boq_presence_mismatch" (record_kind r2) (v1_covers_record_kinds ev) "v1" "v1_loss" (JBool false) (JBool true)]
  else if has_boq r1 && has_boq r2 then
    if bool_decide (completeness r1 ≠ completeness r2) then [classify_boq_completeness_mismatch rid (completeness r1) (completeness r2)] else []
  else [].

(** [for x in l: discrepancies.append(...)] *)
Definition appending {A} (f : A → result exn (list Discrepancy)) (l : list A) (acc : list Discrepancy) : result exn (list Discrepancy) :=
  foldM (λ s x, let! ds := f x in Ok (s ++ ds)) acc l.
Definition compare_record (ix1 ix2 : gmap string shadow_record) (rid : string) : result exn (list Discrepancy) :=
  let! r1 := at_key ix1 rid in
  let! r2 := at_key ix2 rid in
  let keys1 := dom (key_details r1) in
  let keys2 := dom (key_details r2) in
  let! ds := status_mismatch rid r1 r2 in
  let! ds := appending (shared_detail rid r1 r2) (sorted_set (keys1 ∩ keys2)) ds in
  let! ds := appending (v1_only_detail rid r1) (sorted_set (keys1 ∖ keys2)) ds in
  let! ds := appending (v2_only_detail rid r2) (sorted_set (keys2 ∖ keys1)) ds in
  Ok (ds ++ boq_mismatch rid r1 r2).

Definition count_bucket (counts : gmap string Z) (d : Discrepancy) : result exn (gmap string Z) :=
  let b := default "unresolved" (bucket d) in
  let! n := at_key counts b in Ok (<[b := (n + 1)%Z]> counts).
Definition no_counts : gmap string Z := <["unresolved" := 0%Z]> (foldr (λ b m, <[b := 0%Z]> m) ∅ BUCKETS).
Definition compare_snapshots (v1_snapshot v2_records : list shadow_record) : result exn ShadowComparisonReport :=
  let ' (v1_index, duplicate_v1) := index_by_id v1_snapshot in
  let ' (v2_index, duplicate_v2) := index_by_id v2_records in
  let v1_ids := dom v1_index in
  let v2_ids := dom v2_index in
  let! ds := appending (missing_from_v2 v1_index) (sorted_set (v1_ids ∖ v2_ids)) [] in
  let! ds := appending (missing_from_v1 v2_index) (sorted_set (v2_ids ∖ v1_ids)) ds in
  let! ds := appending (compare_record v1_index v2_index) (sorted_set (v1_ids ∩ v2_ids)) ds in
  let! counts := foldM count_bucket no_counts ds in
  Ok {| v1_count := Z.of_nat (length v1_snapshot); v2_count := Z.of_nat (length v2_records);
        matched_count := Z.of_nat (size (v1_ids ∩ v2_ids));
        duplicate_source_record_ids_v1 := duplicate_v1; duplicate_source_record_ids_v2 := duplicate_v2;
        discrepancies := ds; bucket_counts := counts |}.
End Comparison.

(** ** What a comparison is to report *)

(** The record that counts for an id: the first one that has it *)
Definition first_record (rid : string) (l : list shadow_record) : option shadow_record :=
  head (filter (λ r, source_record_id r = rid) l).

Lemma first_record_snoc rid l r : first_record rid (l ++ [r]) =
  match first_record rid l with Some x => Some x | None => if decide (source_record_id r = rid) then Some r else None end.
Proof.
  unfold first_record. rewrite filter_app, filter_cons, filter_nil.
  destruct (filter _ l); simpl; [by destruct (decide _)|done].
Qed.
Lemma first_record_elem rid l r : first_record rid l = Some r → r ∈ l.
Proof.
  unfold first_record. destruct (filter _ l) as [|x k] eqn:Hf; [done|]. intros [= ->].
  assert (r ∈ filter (λ r, source_record_id r = rid) l) as Hin by (rewrite Hf; by left). by apply list_elem_of_filter in Hin as [_ Hin].
Qed.
Lemma index_spec l rid : (index_by_id l).1 !! rid = first_record rid l.
Proof.
  unfold index_by_id. induction l as [|r l IH] using rev_ind; [done|]. rewrite foldl_app, first_record_snoc. simpl.
  unfold index_step at 1. destruct ((foldl index_step (∅, []) l).1 !! source_record_id r) as [x|] eqn:Hx; simpl.
  - rewrite IH. destruct (first_record rid l) as [y|] eqn:Hy; [done|]. destruct (decide _) as [<-|]; [|done]. congruence.
  - destruct (decide (source_record_id r = rid)) as [<-|Hne].
    + by rewrite lookup_insert_eq, <-IH, Hx.
    + rewrite lookup_insert_ne, IH by done. by destruct (first_record rid l).
Qed.
(** Every further record of an id is reported as a duplicate. *)
Lemma duplicates_spec l rid :
  (occurrences id rid (index_by_id l).2 + (if first_record rid l is Some _ then 1 else 0) = occurrences source_record_id rid l)%Z.
Proof.
  induction l as [|r l IH] using rev_ind; [done|]. rewrite occurrences_app, <-IH, first_record_snoc.
  unfold index_by_id. rewrite foldl_app. simpl. unfold index_step at 1. fold (index_by_id l). rewrite index_spec.
  destruct (first_record (source_record_id r) l) as [x|] eqn:Hx; simpl.
  - rewrite occurrences_app. simpl. unfold id. destruct (String.eqb_spec rid (source_record_id r)) as [->|Hne].
    + rewrite Hx. lia.
    + rewrite decide_False by congruence. destruct (first_record rid l); lia.
  - destruct (String.eqb_spec rid (source_record_id r)) as [->|Hne].
    + rewrite Hx, decide_True by done. lia.
    + rewrite decide_False by congruence. destruct (first_record rid l); lia.
Qed.

(** *** Loops that append *)

Lemma appending_elem {A} (f : A → result exn (list Discrepancy)) l acc ds d : appending f l acc = Ok ds →
  d ∈ ds ↔ d ∈ acc ∨ ∃ x bs, x ∈ l ∧ f x = Ok bs ∧ d ∈ bs.
Proof.
  unfold appending. rewrite foldM_append, rbind_ok. intros (bss & Hb%mapM_Forall2 & [= <-]). rewrite elem_of_app.
  apply or_iff_compat_l. rewrite list_elem_of_In, in_concat. setoid_rewrite <-list_elem_of_In. split.
  - intros (bs & Hbs & Hd). apply list_elem_of_lookup in Hbs as [i Hi].
    destruct (Forall2_lookup_r _ _ _ _ _ Hb Hi) as (x & Hx & Hf). exists x, bs. split; [by eapply list_elem_of_lookup_2|done].
  - intros (x & bs & Hx & Hf & Hd). apply list_elem_of_lookup in Hx as [i Hi].
    destruct (Forall2_lookup_l _ _ _ _ _ Hb Hi) as (bs' & Hbs & Hf'). rewrite Hf in Hf'. injection Hf' as <-.
    exists bs. split; [by eapply list_elem_of_lookup_2|done].
Qed.
(** All bodies of a loop that returns have returned. *)
Lemma appending_body {A} (f : A → result exn (list Discrepancy)) l acc ds x : appending f l acc = Ok ds → x ∈ l → ∃ bs, f x = Ok bs.
Proof.
  unfold appending. rewrite foldM_append, rbind_ok. intros (bss & Hb%mapM_Forall2 & _) [i Hi]%list_elem_of_lookup.
  destruct (Forall2_lookup_l _ _ _ _ _ Hb Hi) as (bs & _ & Hf). by exists bs.
Qed.
(** A loop raises what one of its bodies raises. *)
Lemma appending_err {A} (f : A → result exn (list Discrepancy)) l acc e : appending f l acc = Err e → ∃ x, x ∈ l ∧ f x = Err e.
Proof.
  unfold appending. rewrite foldM_append, rbind_err. intros [Hm|(bss & _ & [=])]. revert Hm.
  induction l as [|x l IH]; [done|]. simpl. rewrite rbind_err. intros [Hx|(bs & Hx & Hm)]; [exists x; by split; [left|]|].
  rewrite rbind_err in Hm. destruct Hm as [Hm|(? & _ & [=])]. destruct (IH Hm) as (y & Hy & Hf). exists y. by split; [right|].
Qed.
(** Keys that tell the bodies apart stay distinct. *)
Lemma appending_NoDup {A K} (key : Discrepancy → K) (f : A → result exn (list Discrepancy)) l acc ds :
  appending f l acc = Ok ds → NoDup l → NoDup (map key acc) →
  (∀ x bs, x ∈ l → f x = Ok bs → NoDup (map key bs)) →
  (∀ x y bs cs d e, x ∈ l → y ∈ l → f x = Ok bs → f y = Ok cs → d ∈ bs → e ∈ cs → key d = key e → x = y) →
  (∀ x bs d e, x ∈ l → f x = Ok bs → d ∈ acc → e ∈ bs → key d ≠ key e) →
  NoDup (map key ds).
Proof.
  unfold appending. revert acc. induction l as [|x l IH]; intros acc; simpl; [by intros [= ->]|].
  rewrite rbind_ok. intros (s1 & Hs & Hf). rewrite rbind_ok in Hs. destruct Hs as (bs & Hx & [= <-]).
  intros [Hxl Hl]%NoDup_cons Hacc Hbs Hinj Hdis. apply (IH _ Hf Hl).
  - rewrite map_app. apply NoDup_app. split; [done|]. split; [|by apply (Hbs x); [left|]].
    intros k (d & -> & Hd)%list_elem_of_fmap (e & Hke & He)%list_elem_of_fmap. eapply (Hdis x bs d e); [by left|done..].
  - intros y cs Hy. apply (Hbs y). by right.
  - intros y z cs cs' d e Hy Hz. apply Hinj; by right.
  - intros y cs d e Hy Hcs [Hd|Hd]%elem_of_app He Hk; [eapply (Hdis y cs d e); [by right|done..]|].
    assert (x = y) as -> by (eapply (Hinj x y bs cs d e); [by left|by right|done..]). done.
Qed.

(** *** The differences *)

Section Spec.
Context `{PyText}.
Variables (ev : evidence) (v1 v2 : list shadow_record).

(** What the scope of the side that lacks a record or a BOQ says *)
Definition scoped (covers : option (gset string)) (rkind : option string) (defect : string) : option string :=
  match covers, rkind with
  | Some c, Some k => Some (if bool_decide (k ∈ c) then defect else "expected_semantic_difference")
  | _, _ => None
  end.
Definition declared_field (fld : string) : Prop := ∃ e, expected_field_differences ev = Some e ∧ fld ∈ e.
(** The second record was captured after the first. *)
Definition stamps (r1 r2 : shadow_record) (t1 t2 : datetime) : Prop :=
  ∃ s1 s2, captured_at r1 = JStr s1 ∧ captured_at r2 = JStr s2 ∧ fromisoformat s1 = Ok t1 ∧ fromisoformat s2 = Ok t2.
Definition later (r1 r2 : shadow_record) : Prop := ∃ t1 t2, stamps r1 r2 t1 t2 ∧ dt_lt t1 t2 = Ok true.
Inductive explained (fld : string) (r1 r2 : shadow_record) : option string → Prop :=
| Declared : declared_field fld → explained fld r1 r2 (Some "expected_semantic_difference")
| Drifted : ¬ declared_field fld → later r1 r2 → explained fld r1 r2 (Some "source_drift")
| Unresolved : ¬ declared_field fld → ¬ later r1 r2 → explained fld r1 r2 None.
Definition completeness_verdict (s1 s2 : option string) : option string :=
  match s1, s2 with
  | None, _ | _, None => Some "expected_semantic_difference"
  | Some t1, Some t2 =>
      if decide (t2 = "complete") then Some "v1_loss"
      else if decide (t1 = "complete" ∧ t2 = "incomplete") then Some "v2_defect" else None
  end.

(** What is reported of one record: kind, field, both values, bucket *)
Definition entry : Type := string * option string * json * json * option string.
(** The ways two records of one id differ *)
Inductive record_difference (r1 r2 : shadow_record) : entry → Prop :=
| OtherStatus b : status r1 ≠ status r2 → explained "status" r1 r2 b →
    record_difference r1 r2 ("field_mismatch", Some "status", text_or_null (status r1), text_or_null (status r2), b)
| OtherDetail k x1 x2 b : key_details r1 !! k = Some x1 → key_details r2 !! k = Some x2 → py_eq x1 x2 = false → explained k r1 r2 b →
    record_difference r1 r2 ("field_mismatch", Some k, x1, x2, b)
| DetailV1 k x : key_details r1 !! k = Some x → key_details r2 !! k = None →
    record_difference r1 r2 ("field_mismatch", Some k, x, JNull, Some "expected_semantic_difference")
| DetailV2 k x : key_details r1 !! k = None → key_details r2 !! k = Some x →
    record_difference r1 r2 ("field_mismatch", Some k, JNull, x, Some "expected_semantic_difference")
| BoqV1 : has_boq r1 = true → has_boq r2 = false →
    record_difference r1 r2 ("boq_presence_mismatch", None, JBool true, JBool false, scoped (v2_covers_record_kinds ev) (record_kind r1) "v2_defect")
| BoqV2 : has_boq r1 = false → has_boq r2 = true →
    record_difference r1 r2 ("boq_presence_mismatch", None, JBool false, JBool true, scoped (v1_covers_record_kinds ev) (record_kind r2) "v1_loss")
| OtherCompleteness : has_boq r1 = true → has_boq r2 = true → completeness r1 ≠ completeness r2 →
    record_difference r1 r2 ("boq_completeness_mismatch", Some "completeness_status", text_or_null (completeness r1), text_or_null (completeness r2),
      completeness_verdict (completeness r1) (completeness r2)).
(** The ways two snapshots differ at an id *)
Inductive snapshot_difference (rid : string) : entry → Prop :=
| OnlyV1 r : first_record rid v1 = Some r → first_record rid v2 = None →
    snapshot_difference rid ("missing_from_v2", None, JBool true, JBool false, scoped (v2_covers_record_kinds ev) (record_kind r) "v2_defect")
| OnlyV2 r : first_record rid v1 = None → first_record rid v2 = Some r →
    snapshot_difference rid ("missing_from_v1", None, JBool false, JBool true, scoped (v1_covers_record_kinds ev) (record_kind r) "v1_loss")
| Within r1 r2 x : first_record rid v1 = Some r1 → first_record rid v2 = Some r2 → record_difference r1 r2 x → snapshot_difference rid x.

(** One record captured without an offset, the other with one *)
Definition mixed (r1 r2 : shadow_record) : Prop :=
  ∃ t1 t2, stamps r1 r2 t1 t2 ∧ (dt_offset t1 = None ↔ is_Some (dt_offset t2)).
Definition stamp_error : exn := TypeError "can't compare offset-naive and offset-aware datetimes".

Definition entry_of (d : Discrepancy) : entry := (kind d, field d, v1_value d, v2_value d, bucket d).
(** A list of discrepancies shows an entry of a record. *)
Definition shown (ds : list Discrepancy) (rid : string) (x : entry) : Prop :=
  ∃ d, d ∈ ds ∧ dc_source_record_id d = rid ∧ entry_of d = x.

Lemma shown_nil rid x : shown [] rid x ↔ False.
Proof. split; [by intros (d & Hd%elem_of_nil & _)|done]. Qed.
Lemma shown_one d rid x : shown [d] rid x ↔ dc_source_record_id d = rid ∧ entry_of d = x.
Proof. unfold shown. setoid_rewrite list_elem_of_singleton. naive_solver. Qed.
Lemma shown_app ds es rid x : shown (ds ++ es) rid x ↔ shown ds rid x ∨ shown es rid x.
Proof. unfold shown. setoid_rewrite elem_of_app. naive_solver. Qed.
Lemma appending_shown {A} (f : A → result exn (list Discrepancy)) l acc ds rid x : appending f l acc = Ok ds →
  shown ds rid x ↔ shown acc rid x ∨ ∃ y bs, y ∈ l ∧ f y = Ok bs ∧ shown bs rid x.
Proof.
  intros Ha. unfold shown. setoid_rewrite (appending_elem _ _ _ _ _ Ha). naive_solver.
Qed.

(** *** The verdicts are those of the specification *)

Lemma scoped_entry rid k rk cov side defect x1 x2 : let d := classify_scoped_absence rid k rk cov side defect x1 x2 in
  dc_source_record_id d = rid ∧ entry_of d = (k, None, x1, x2, scoped cov rk defect).
Proof. unfold classify_scoped_absence, scoped. destruct cov, rk; [case_bool_decide|..]; done. Qed.
Lemma completeness_entry rid s1 s2 : let d := classify_boq_completeness_mismatch rid s1 s2 in s1 ≠ s2 →
  dc_source_record_id d = rid ∧
  entry_of d = ("boq_completeness_mismatch", Some "completeness_status", text_or_null s1, text_or_null s2, completeness_verdict s1 s2).
Proof.
  unfold classify_boq_completeness_mismatch. destruct s1 as [t1|]; [|done]. destruct s2 as [t2|]; [|done]. simpl. intros Hne.
  destruct (String.eqb_spec t1 "complete"), (String.eqb_spec t2 "incomplete"), (String.eqb_spec t2 "complete"); subst;
    split; try done; unfold entry_of; simpl; repeat case_decide; naive_solver.
Qed.
Lemma explained_unique fld r1 r2 b b' : explained fld r1 r2 b → explained fld r1 r2 b' → b = b'.
Proof. by destruct 1; inversion 1. Qed.
Lemma drift_spec r1 r2 : match drift_plausible r1 r2 with
  | Ok b => b = true ↔ later r1 r2
  | Err e => e = stamp_error ∧ mixed r1 r2
  end.
Proof.
  unfold drift_plausible. assert (∀ v t, parse_timestamp v = Some t ↔ ∃ s, v = JStr s ∧ fromisoformat s = Ok t) as Hp.
  { intros v t. unfold parse_timestamp. destruct v as [| | | |s| |]; try (split; [done|by intros (s' & [=] & _)]).
    split; [|by intros (s' & [= <-] & ->)]. destruct (fromisoformat s) eqn:Hs; [|done]. intros [= <-]. by exists s. }
  assert (∀ t1 t2, stamps r1 r2 t1 t2 ↔ parse_timestamp (captured_at r1) = Some t1 ∧ parse_timestamp (captured_at r2) = Some t2) as Hst
    by (intros; unfold stamps; rewrite !Hp; naive_solver).
  assert (∀ b, (later r1 r2 → b = true) → (b = false ∨ later r1 r2) → b = true ↔ later r1 r2) as Hb by (intros [] ? []; naive_solver).
  destruct (parse_timestamp (captured_at r1)) as [t1|]; [|apply Hb; [|by left]; intros (? & ? & [[=] ?]%Hst & ?)].
  destruct (parse_timestamp (captured_at r2)) as [t2|]; [|apply Hb; [|by left]; intros (? & ? & [? [=]]%Hst & ?)].
  assert (stamps r1 r2 t1 t2) as Hs by (by apply Hst).
  destruct (dt_lt t1 t2) as [b|e] eqn:Hlt.
  - apply Hb; [intros (? & ? & [[= <-] [= <-]]%Hst & ?); congruence|]. destruct b; [right; by exists t1, t2|by left].
  - unfold dt_lt, dt_compare in Hlt. destruct (dt_offset t1) eqn:O1, (dt_offset t2) eqn:O2; try done; injection Hlt as <-;
      (split; [done|]; exists t1, t2; split; [done|]); rewrite O1, O2; by split; eauto.
Qed.
Lemma field_entry rid fld x1 x2 r1 r2 : match classify_field_mismatch rid fld x1 x2 r1 r2 (expected_field_differences ev) with
  | Ok d => ∃ b, explained fld r1 r2 b ∧ dc_source_record_id d = rid ∧ entry_of d = ("field_mismatch", Some fld, x1, x2, b)
  | Err e => e = stamp_error ∧ mixed r1 r2 ∧ ¬ declared_field fld
  end.
Proof.
  unfold classify_field_mismatch. destruct (match expected_field_differences ev with Some e => bool_decide (fld ∈ e) | None => false end) eqn:Hd; simpl.
  - destruct (expected_field_differences ev) as [e|] eqn:He; [|done]. apply bool_decide_eq_true_1 in Hd.
    eexists. split; [apply Declared; by exists e|done].
  - assert (¬ declared_field fld) as Hn by (intros (e & He & Hf); rewrite He in Hd; by apply bool_decide_eq_false_1 in Hd).
    pose proof (drift_spec r1 r2) as Hdrift. destruct (drift_plausible r1 r2) as [b|e]; [|by destruct Hdrift].
    simpl. destruct b; (eexists; split; [|done]); [apply Drifted|apply Unresolved]; naive_solver.
Qed.

(** *** The bodies of the loops *)

Lemma at_key_ok {A} (m : gmap string A) k a : at_key m k = Ok a ↔ m !! k = Some a.
Proof. unfold at_key. destruct (m !! k); naive_solver. Qed.
Lemma field_shown rid fld x1 x2 r1 r2 d s x : classify_field_mismatch rid fld x1 x2 r1 r2 (expected_field_differences ev) = Ok d →
  shown [d] s x ↔ rid = s ∧ ∃ b, explained fld r1 r2 b ∧ x = ("field_mismatch", Some fld, x1, x2, b).
Proof.
  intros Hd. pose proof (field_entry rid fld x1 x2 r1 r2) as Hf. rewrite Hd in Hf. destruct Hf as (b & Hb & Hr & He).
  rewrite shown_one, Hr, He. split; [naive_solver|]. intros (-> & b' & Hb' & ->). by rewrite (explained_unique _ _ _ _ _ Hb Hb').
Qed.
Lemma status_shown rid r1 r2 ds s x : status_mismatch ev rid r1 r2 = Ok ds →
  shown ds s x ↔ rid = s ∧ ∃ b, status r1 ≠ status r2 ∧ explained "status" r1 r2 b ∧
    x = ("field_mismatch", Some "status", text_or_null (status r1), text_or_null (status r2), b).
Proof.
  unfold status_mismatch. case_bool_decide as Hs.
  - rewrite rbind_ok. intros (d & Hd & [= <-]). rewrite (field_shown _ _ _ _ _ _ _ _ _ Hd). naive_solver.
  - intros [= <-]. rewrite shown_nil. naive_solver.
Qed.
Lemma shared_shown rid r1 r2 k ds s x : shared_detail ev rid r1 r2 k = Ok ds →
  shown ds s x ↔ rid = s ∧ ∃ x1 x2 b, key_details r1 !! k = Some x1 ∧ key_details r2 !! k = Some x2 ∧ py_eq x1 x2 = false ∧
    explained k r1 r2 b ∧ x = ("field_mismatch", Some k, x1, x2, b).
Proof.
  unfold shared_detail. rewrite rbind_ok. intros (x1 & H1%at_key_ok & H2). rewrite rbind_ok in H2. destruct H2 as (x2 & H2%at_key_ok & Hd).
  destruct (py_eq x1 x2) eqn:Heq; simpl in Hd.
  - injection Hd as <-. rewrite shown_nil. split; [done|]. intros (_ & y1 & y2 & b & E1 & E2 & E & _). congruence.
  - rewrite rbind_ok in Hd. destruct Hd as (d & Hd & [= <-]). rewrite (field_shown _ _ _ _ _ _ _ _ _ Hd). split; [naive_solver|].
    intros (-> & y1 & y2 & b & E1 & E2 & E & Hb & ->). simplify_eq. eauto.
Qed.
Lemma boq_shown rid r1 r2 s x : shown (boq_mismatch ev rid r1 r2) s x ↔ rid = s ∧
  ((has_boq r1 = true ∧ has_boq r2 = false ∧
      x = ("boq_presence_mismatch", None, JBool true, JBool false, scoped (v2_covers_record_kinds ev) (record_kind r1) "v2_defect")) ∨
   (has_boq r1 = false ∧ has_boq r2 = true ∧
      x = ("boq_presence_mismatch", None, JBool false, JBool true, scoped (v1_covers_record_kinds ev) (record_kind r2) "v1_loss")) ∨
   (has_boq r1 = true ∧ has_boq r2 = true ∧ completeness r1 ≠ completeness r2 ∧
      x = ("boq_completeness_mismatch", Some "completeness_status", text_or_null (completeness r1), text_or_null (completeness r2),
           completeness_verdict (completeness r1) (completeness r2)))).
Proof.
  unfold boq_mismatch. destruct (has_boq r1) eqn:B1, (has_boq r2) eqn:B2; simpl; [case_bool_decide as Hc| | |].
  all: rewrite ?shown_nil, ?shown_one.
  - pose proof (completeness_entry rid (completeness r1) (completeness r2) Hc) as [-> ->]. naive_solver.
  - naive_solver.
  - pose proof (scoped_entry rid "boq_presence_mismatch" (record_kind r1) (v2_covers_record_kinds ev) "v2" "v2_defect" (JBool true) (JBool false)) as [-> ->]. naive_solver.
  - pose proof (scoped_entry rid "boq_presence_mismatch" (record_kind r2) (v1_covers_record_kinds ev) "v1" "v1_loss" (JBool false) (JBool true)) as [-> ->]. naive_solver.
  - naive_solver.
Qed.
Lemma lone_shown rid side a b k s x : shown [lone_detail rid side a b k] s x ↔
  rid = s ∧ x = ("field_mismatch", Some k, a, b, Some "expected_semantic_difference").
Proof. rewrite shown_one. unfold lone_detail, entry_of. simpl. naive_solver. Qed.

Lemma record_shown ix1 ix2 rid r1 r2 ds s x : ix1 !! rid = Some r1 → ix2 !! rid = Some r2 → compare_record ev ix1 ix2 rid = Ok ds →
  shown ds s x ↔ rid = s ∧ record_difference r1 r2 x.
Proof.
  intros H1 H2. unfold compare_record, at_key at 1 2. rewrite H1, H2. simpl. rewrite rbind_ok. intros (d1 & Hd1 & Hc).
  rewrite rbind_ok in Hc. destruct Hc as (d2 & Hd2 & Hc). rewrite rbind_ok in Hc. destruct Hc as (d3 & Hd3 & Hc).
  rewrite rbind_ok in Hc. destruct Hc as (d4 & Hd4 & [= <-]).
  rewrite shown_app, (appending_shown _ _ _ _ _ _ Hd4), (appending_shown _ _ _ _ _ _ Hd3), (appending_shown _ _ _ _ _ _ Hd2),
    (status_shown _ _ _ _ _ _ Hd1), boq_shown. split.
  - intros [[[[Hx|Hx]|Hx]|Hx]|Hx].
    + destruct Hx as (<- & b & Hs & Hb & ->). split; [done|]. by constructor.
    + destruct Hx as (k & bs & Hk & Hbs & Hx). apply (shared_shown _ _ _ _ _ _ _ Hbs) in Hx as (<- & x1 & x2 & b & K1 & K2 & Heq & Hb & ->).
      split; [done|]. by econstructor.
    + destruct Hx as (k & bs & [K1 K2]%elem_of_sorted_set%elem_of_difference & Hbs & Hx). unfold v1_only_detail in Hbs.
      rewrite rbind_ok in Hbs. destruct Hbs as (v & Hv%at_key_ok & [= <-]). apply lone_shown in Hx as [<- ->].
      split; [done|]. constructor; [done|by apply not_elem_of_dom].
    + destruct Hx as (k & bs & [K2 K1]%elem_of_sorted_set%elem_of_difference & Hbs & Hx). unfold v2_only_detail in Hbs.
      rewrite rbind_ok in Hbs. destruct Hbs as (v & Hv%at_key_ok & [= <-]). apply lone_shown in Hx as [<- ->].
      split; [done|]. constructor; [by apply not_elem_of_dom|done].
    + destruct Hx as (<- & [(?&?&->)|[(?&?&->)|(?&?&?&->)]]); (split; [done|by constructor]).
  - intros [<- Hx]. destruct Hx as [b Hs Hb|k x1 x2 b K1 K2 Heq Hb|k v K1 K2|k v K1 K2| | |].
    + do 4 left. split; [done|]. by exists b.
    + do 3 left. right. assert (k ∈ sorted_set (dom (key_details r1) ∩ dom (key_details r2))) as Hk
        by (apply elem_of_sorted_set, elem_of_intersection; split; by eapply elem_of_dom_2).
      destruct (appending_body _ _ _ _ _ Hd2 Hk) as [bs Hbs]. exists k, bs. split_and!; [done..|].
      apply (shared_shown _ _ _ _ _ _ _ Hbs). split; [done|]. by exists x1, x2, b.
    + do 2 left. right. assert (k ∈ sorted_set (dom (key_details r1) ∖ dom (key_details r2))) as Hk
        by (apply elem_of_sorted_set, elem_of_difference; split; [by eapply elem_of_dom_2|by apply not_elem_of_dom]).
      exists k, [lone_detail rid "v2" v JNull k]. split; [done|]. split; [|by apply lone_shown].
      unfold v1_only_detail. by rewrite (proj2 (at_key_ok _ _ _) K1).
    + left. right. assert (k ∈ sorted_set (dom (key_details r2) ∖ dom (key_details r1))) as Hk
        by (apply elem_of_sorted_set, elem_of_difference; split; [by eapply elem_of_dom_2|by apply not_elem_of_dom]).
      exists k, [lone_detail rid "v1" JNull v k]. split; [done|]. split; [|by apply lone_shown].
      unfold v2_only_detail. by rewrite (proj2 (at_key_ok _ _ _) K2).
    + right. split; [done|]. by left.
    + right. split; [done|]. by right; left.
    + right. split; [done|]. by right; right.
Qed.

(** What a record raises is the comparison of two timestamps. *)
Lemma field_raises {rid fld x1 x2 r1 r2 e} : classify_field_mismatch rid fld x1 x2 r1 r2 (expected_field_differences ev) = Err e →
  e = stamp_error ∧ mixed r1 r2.
Proof. intros He. pose proof (field_entry rid fld x1 x2 r1 r2) as Hf. rewrite He in Hf. naive_solver. Qed.
Lemma record_raises ix1 ix2 rid r1 r2 e : ix1 !! rid = Some r1 → ix2 !! rid = Some r2 → compare_record ev ix1 ix2 rid = Err e →
  e = stamp_error ∧ mixed r1 r2.
Proof.
  intros H1 H2. unfold compare_record, at_key at 1 2. rewrite H1, H2. simpl. intros He.
  apply rbind_err in He as [He|(d1 & _ & He)].
  { unfold status_mismatch in He. case_bool_decide; [|done]. apply rbind_err in He as [He|(? & _ & [=])]. by eapply field_raises. }
  apply rbind_err in He as [He|(d2 & _ & He)].
  { apply appending_err in He as (k & [K1 K2]%elem_of_sorted_set%elem_of_intersection & He). unfold shared_detail, at_key in He.
    apply elem_of_dom in K1 as [x1 K1]. apply elem_of_dom in K2 as [x2 K2]. rewrite K1, K2 in He. simpl in He.
    destruct (py_eq x1 x2); [done|]. simpl in He. apply rbind_err in He as [He|(? & _ & [=])]. by eapply field_raises. }
  apply rbind_err in He as [He|(d3 & _ & He)].
  { apply appending_err in He as (k & [K1 _]%elem_of_sorted_set%elem_of_difference & He). unfold v1_only_detail, at_key in He.
    apply elem_of_dom in K1 as [x1 K1]. by rewrite K1 in He. }
  apply rbind_err in He as [He|(d4 & _ & [=])].
  apply appending_err in He as (k & [K2 _]%elem_of_sorted_set%elem_of_difference & He). unfold v2_only_detail, at_key in He.
  apply elem_of_dom in K2 as [x2 K2]. by rewrite K2 in He.
Qed.

(** *** The counts *)

Lemma counts_ok ds : (∀ d, d ∈ ds → default "unresolved" (bucket d) ∈ "unresolved" :: BUCKETS) → ∃ counts,
  foldM count_bucket no_counts ds = Ok counts ∧
  ∀ b n, counts !! b = Some n ↔ b ∈ "unresolved" :: BUCKETS ∧ n = occurrences (λ d, default "unresolved" (bucket d)) b ds.
Proof.
  intros Hin. apply (foldM_total (λ dn counts, ∀ b n, counts !! b = Some n ↔
    b ∈ "unresolved" :: BUCKETS ∧ n = occurrences (λ d, default "unresolved" (bucket d)) b dn)).
  - intros dn d rest counts -> Hc. assert (default "unresolved" (bucket d) ∈ "unresolved" :: BUCKETS) as Hd by (apply Hin; set_solver).
    unfold count_bucket. set (b := default "unresolved" (bucket d)) in *. set (n := occurrences (λ d, default "unresolved" (bucket d)) b dn).
    assert (counts !! b = Some n) as Hb by (by apply Hc). unfold at_key. rewrite Hb. simpl. eexists. split; [done|].
    intros b' n'. rewrite occurrences_app. simpl. fold b. destruct (String.eqb_spec b' b) as [->|Hne].
    + rewrite lookup_insert_eq. fold n. split; [intros [= <-]; split; [done|lia]|]. by intros [_ ->].
    + rewrite lookup_insert_ne by done. rewrite Hc. by rewrite Z.add_0_r.
  - intros b n. simpl. unfold no_counts. cbn [foldr BUCKETS]. rewrite !lookup_insert_Some, lookup_empty.
    unfold BUCKETS. rewrite !elem_of_cons, elem_of_nil. destruct (decide (b = "unresolved")), (decide (b = "v1_loss")), (decide (b = "v2_defect")),
      (decide (b = "source_drift")), (decide (b = "expected_semantic_difference")); naive_solver.
Qed.

(** *** Nothing twice *)

Definition key_of (d : Discrepancy) : string * string * option string := (dc_source_record_id d, kind d, field d).
Lemma in_shown d ds : d ∈ ds → shown ds (dc_source_record_id d) (entry_of d).
Proof. intros Hd. by exists d. Qed.
Lemma status_key rid r1 r2 ds d : status_mismatch ev rid r1 r2 = Ok ds → d ∈ ds → key_of d = (rid, "field_mismatch", Some "status").
Proof.
  intros Hs (Hr & b & _ & _ & [= Hk Hf _ _ _])%in_shown%(status_shown _ _ _ _ _ _ Hs). unfold key_of. by rewrite Hk, Hf, Hr.
Qed.
Lemma shared_key rid r1 r2 k ds d : shared_detail ev rid r1 r2 k = Ok ds → d ∈ ds → key_of d = (rid, "field_mismatch", Some k).
Proof.
  intros Hs (Hr & x1 & x2 & b & _ & _ & _ & _ & [= Hk Hf _ _ _])%in_shown%(shared_shown _ _ _ _ _ _ _ Hs). unfold key_of. by rewrite Hk, Hf, Hr.
Qed.
Lemma v1_only_key rid r k ds d : v1_only_detail rid r k = Ok ds → d ∈ ds → key_of d = (rid, "field_mismatch", Some k).
Proof. unfold v1_only_detail. rewrite rbind_ok. intros (x & _ & [= <-]) ->%list_elem_of_singleton. done. Qed.
Lemma v2_only_key rid r k ds d : v2_only_detail rid r k = Ok ds → d ∈ ds → key_of d = (rid, "field_mismatch", Some k).
Proof. unfold v2_only_detail. rewrite rbind_ok. intros (x & _ & [= <-]) ->%list_elem_of_singleton. done. Qed.
Lemma boq_key rid r1 r2 d : d ∈ boq_mismatch ev rid r1 r2 → (key_of d).1.1 = rid ∧ (key_of d).1.2 ≠ "field_mismatch".
Proof.
  intros (Hr & [(_&_&[= Hk _ _ _ _])|[(_&_&[= Hk _ _ _ _])|(_&_&_&[= Hk _ _ _ _])]])%in_shown%boq_shown; unfold key_of; simpl; by rewrite Hk, Hr.
Qed.
(** A loop over the keys of details adds keys of the fields it runs over. *)
Lemma details_NoDup rid f (l acc ds : list _) : appending f l acc = Ok ds → NoDup l → NoDup (map key_of acc) →
  (∀ k bs d, f k = Ok bs → d ∈ bs → key_of d = (rid, "field_mismatch", Some k)) →
  (∀ k bs, f k = Ok bs → (length bs <= 1)%nat) →
  (∀ k d, k ∈ l → d ∈ acc → key_of d ≠ (rid, "field_mismatch", Some k)) →
  NoDup (map key_of ds) ∧ ∀ d, d ∈ ds → d ∈ acc ∨ ∃ k, k ∈ l ∧ key_of d = (rid, "field_mismatch", Some k).
Proof.
  intros Hds Hl Hacc Hkey Hlen Hdis. split.
  - apply (appending_NoDup key_of _ _ _ _ Hds Hl Hacc).
    + intros k bs _ Hk. specialize (Hlen k bs Hk). destruct bs as [|d [|]]; simpl in *; [constructor|apply NoDup_singleton|lia].
    + intros k k' bs cs d e _ _ Hk Hk' Hd He Heq. rewrite (Hkey _ _ _ Hk Hd), (Hkey _ _ _ Hk' He) in Heq. by injection Heq.
    + intros k bs d e Hk Hf Hd He. rewrite (Hkey _ _ _ Hf He). by apply Hdis.
  - intros d Hd. apply (appending_elem _ _ _ _ d Hds) in Hd as [Hd|(k & bs & Hk & Hf & Hd)]; [by left|]. right.
    exists k. split; [done|]. by eapply Hkey.
Qed.
Lemma record_keys ix1 ix2 rid r1 r2 ds : ix1 !! rid = Some r1 → ix2 !! rid = Some r2 → compare_record ev ix1 ix2 rid = Ok ds →
  key_details r1 !! "status" = None → key_details r2 !! "status" = None → NoDup (map key_of ds).
Proof.
  intros H1 H2 Hc S1%not_elem_of_dom S2%not_elem_of_dom. unfold compare_record, at_key at 1 2 in Hc. rewrite H1, H2 in Hc. simpl in Hc.
  rewrite rbind_ok in Hc. destruct Hc as (d1 & Hd1 & Hc). rewrite rbind_ok in Hc. destruct Hc as (d2 & Hd2 & Hc).
  rewrite rbind_ok in Hc. destruct Hc as (d3 & Hd3 & Hc). rewrite rbind_ok in Hc. destruct Hc as (d4 & Hd4 & [= <-]).
  assert (∀ X, NoDup (sorted_set X)) as HX by apply NoDup_sorted_set.
  assert (NoDup (map key_of d1)) as N1.
  { unfold status_mismatch in Hd1. case_bool_decide; [|injection Hd1 as <-; constructor]. rewrite rbind_ok in Hd1.
    destruct Hd1 as (d & _ & [= <-]). apply NoDup_singleton. }
  assert (∀ d, d ∈ d1 → key_of d = (rid, "field_mismatch", Some "status")) as K1 by (intros d; by eapply status_key).
  apply (details_NoDup rid) in Hd2 as [N2 K2]; [|done..|by intros ???; eapply shared_key| |].
  2: { intros k bs. unfold shared_detail. rewrite rbind_ok. intros (x & _ & Hb). rewrite rbind_ok in Hb. destruct Hb as (y & _ & Hb).
       destruct (negb _); [rewrite rbind_ok in Hb; destruct Hb as (? & _ & [= <-])|injection Hb as <-]; simpl; lia. }
  2: { intros k d Hk%elem_of_sorted_set Hd. rewrite (K1 d Hd). intros [= <-]. set_solver. }
  apply (details_NoDup rid) in Hd3 as [N3 K3]; [|done..|by intros ???; eapply v1_only_key| |].
  2: { intros k bs. unfold v1_only_detail. rewrite rbind_ok. by intros (x & _ & [= <-]). }
  2: { intros k d Hk%elem_of_sorted_set [Hd%K1|(k' & Hk'%elem_of_sorted_set & Hd)]%K2; rewrite Hd; intros [= <-]; set_solver. }
  apply (details_NoDup rid) in Hd4 as [N4 K4]; [|done..|by intros ???; eapply v2_only_key| |].
  2: { intros k bs. unfold v2_only_detail. rewrite rbind_ok. by intros (x & _ & [= <-]). }
  2: { intros k d Hk%elem_of_sorted_set [[Hd%K1|(k' & Hk'%elem_of_sorted_set & Hd)]%K2|(k' & Hk'%elem_of_sorted_set & Hd)]%K3; rewrite Hd; intros [= <-]; set_solver. }
  rewrite map_app. apply NoDup_app. split; [done|]. split.
  - intros k (d & -> & Hd)%list_elem_of_fmap (e & Hde & [_ Hne]%boq_key)%list_elem_of_fmap. rewrite <-Hde in Hne.
    apply K4 in Hd as [[[Hd%K1|(k' & _ & Hd)]%K2|(k' & _ & Hd)]%K3|(k' & _ & Hd)]; by rewrite Hd in Hne.
  - unfold boq_mismatch. destruct (has_boq r1), (has_boq r2); simpl; [case_bool_decide| | |]; repeat constructor; by intros Hn%elem_of_nil.
Qed.
Definition summary_of (rep : ShadowComparisonReport) : Prop :=
  (∀ rid x, shown (discrepancies rep) rid x ↔ snapshot_difference rid x) ∧
  ((∀ r, r ∈ v1 ++ v2 → key_details r !! "status" = None) → NoDup (map key_of (discrepancies rep))) ∧
  (∀ b n, bucket_counts rep !! b = Some n ↔ b ∈ "unresolved" :: BUCKETS ∧ n = occurrences (λ d, default "unresolved" (bucket d)) b (discrepancies rep)) ∧
  (∀ rid, occurrences id rid (duplicate_source_record_ids_v1 rep) + (if first_record rid v1 is Some _ then 1 else 0) = occurrences source_record_id rid v1)%Z ∧
  (∀ rid, occurrences id rid (duplicate_source_record_ids_v2 rep) + (if first_record rid v2 is Some _ then 1 else 0) = occurrences source_record_id rid v2)%Z ∧
  (∃ X : gset string, matched_count rep = Z.of_nat (size X) ∧ ∀ rid, rid ∈ X ↔ is_Some (first_record rid v1) ∧ is_Some (first_record rid v2)).

Lemma difference_bucket rid k f x1 x2 b : snapshot_difference rid (k, f, x1, x2, b) → default "unresolved" b ∈ "unresolved" :: BUCKETS.
Proof.
  assert (∀ cov rk d, d ∈ BUCKETS → default "unresolved" (scoped cov rk d) ∈ "unresolved" :: BUCKETS) as Hs.
  { intros cov rk d Hd. unfold scoped. destruct cov, rk; simpl; [|by left..]. right. case_bool_decide; [done|concrete_mem]. }
  inversion_clear 1 as [r|r|r1 r2 x _ _ Hr]; try (apply Hs; concrete_mem).
  inversion_clear Hr as [? _ He|? ? ? ? _ _ _ He| | | | |]; try (apply Hs; concrete_mem); try (simpl; concrete_mem).
  - destruct He; concrete_mem.
  - destruct He; concrete_mem.
  - unfold completeness_verdict. destruct (completeness r1), (completeness r2); repeat case_decide; concrete_mem.
Qed.

(** The three loops of the comparison *)
Definition found (ix1 ix2 : gmap string shadow_record) : result exn (list Discrepancy) :=
  let! ds := appending (missing_from_v2 ev ix1) (sorted_set (dom ix1 ∖ dom ix2)) [] in
  let! ds := appending (missing_from_v1 ev ix2) (sorted_set (dom ix2 ∖ dom ix1)) ds in
  appending (compare_record ev ix1 ix2) (sorted_set (dom ix1 ∩ dom ix2)) ds.

Section Indexed.
Variables ix1 ix2 : gmap string shadow_record.
Hypothesis I1 : ∀ rid, ix1 !! rid = first_record rid v1.
Hypothesis I2 : ∀ rid, ix2 !! rid = first_record rid v2.

Lemma only_v1 rid : rid ∈ sorted_set (dom ix1 ∖ dom ix2) ↔ is_Some (first_record rid v1) ∧ first_record rid v2 = None.
Proof using I1 I2. by rewrite elem_of_sorted_set, elem_of_difference, elem_of_dom, not_elem_of_dom, I1, I2. Qed.
Lemma only_v2 rid : rid ∈ sorted_set (dom ix2 ∖ dom ix1) ↔ is_Some (first_record rid v2) ∧ first_record rid v1 = None.
Proof using I1 I2. by rewrite elem_of_sorted_set, elem_of_difference, elem_of_dom, not_elem_of_dom, I1, I2. Qed.
Lemma in_both rid : rid ∈ sorted_set (dom ix1 ∩ dom ix2) ↔ is_Some (first_record rid v1) ∧ is_Some (first_record rid v2).
Proof using I1 I2. by rewrite elem_of_sorted_set, elem_of_intersection, !elem_of_dom, I1, I2. Qed.
Lemma v2_missing rid r : first_record rid v1 = Some r → ∃ d, missing_from_v2 ev ix1 rid = Ok [d] ∧ dc_source_record_id d = rid ∧
  entry_of d = ("missing_from_v2", None, JBool true, JBool false, scoped (v2_covers_record_kinds ev) (record_kind r) "v2_defect").
Proof using I1. intros Hr. unfold missing_from_v2, at_key. rewrite I1, Hr. simpl. eexists. split; [done|]. apply scoped_entry. Qed.
Lemma v1_missing rid r : first_record rid v2 = Some r → ∃ d, missing_from_v1 ev ix2 rid = Ok [d] ∧ dc_source_record_id d = rid ∧
  entry_of d = ("missing_from_v1", None, JBool false, JBool true, scoped (v1_covers_record_kinds ev) (record_kind r) "v1_loss").
Proof using I2. intros Hr. unfold missing_from_v1, at_key. rewrite I2, Hr. simpl. eexists. split; [done|]. apply scoped_entry. Qed.

Lemma found_raises e : found ix1 ix2 = Err e →
  e = stamp_error ∧ ∃ rid r1 r2, first_record rid v1 = Some r1 ∧ first_record rid v2 = Some r2 ∧ mixed r1 r2.
Proof using I1 I2.
  unfold found. intros He. apply rbind_err in He as [He|(d1 & _ & He)].
  { apply appending_err in He as (rid & [[r Hr] _]%only_v1 & He). destruct (v2_missing rid r Hr) as (d & Hd & _). congruence. }
  apply rbind_err in He as [He|(d2 & _ & He)].
  { apply appending_err in He as (rid & [[r Hr] _]%only_v2 & He). destruct (v1_missing rid r Hr) as (d & Hd & _). congruence. }
  apply appending_err in He as (rid & [[r1 H1] [r2 H2]]%in_both & He).
  apply (record_raises _ _ _ r1 r2) in He as [-> Hm]; [|by rewrite I1|by rewrite I2]. split; [done|]. by exists rid, r1, r2.
Qed.
Lemma found_shown ds rid x : found ix1 ix2 = Ok ds → shown ds rid x ↔ snapshot_difference rid x.
Proof using I1 I2.
  unfold found. rewrite rbind_ok. intros (d1 & Hd1 & Hf). rewrite rbind_ok in Hf. destruct Hf as (d2 & Hd2 & Hd3).
  rewrite (appending_shown _ _ _ _ _ _ Hd3), (appending_shown _ _ _ _ _ _ Hd2), (appending_shown _ _ _ _ _ _ Hd1), shown_nil. split.
  - intros [[[[]|(y & bs & Hy & Hb & Hx)]|(y & bs & Hy & Hb & Hx)]|(y & bs & Hy & Hb & Hx)].
    + apply only_v1 in Hy as [[r Hr] Hn]. destruct (v2_missing y r Hr) as (d & Hd & <- & He). rewrite Hd in Hb. injection Hb as <-.
      apply shown_one in Hx as [<- <-]. rewrite He. by constructor.
    + apply only_v2 in Hy as [[r Hr] Hn]. destruct (v1_missing y r Hr) as (d & Hd & <- & He). rewrite Hd in Hb. injection Hb as <-.
      apply shown_one in Hx as [<- <-]. rewrite He. by constructor.
    + apply in_both in Hy as [[r1 H1] [r2 H2]]. apply (record_shown ix1 ix2 y r1 r2 bs rid x) in Hx as [<- Hx]; [|by rewrite I1|by rewrite I2|done].
      by eapply Within.
  - intros Hx. destruct Hx as [r Hr Hn|r Hn Hr|r1 r2 x H1 H2 Hx].
    + do 2 left. right. destruct (v2_missing rid r Hr) as (d & Hd & Hid & He). exists rid, [d]. split; [apply only_v1; by rewrite Hr|].
      split; [done|]. by apply shown_one.
    + left. right. destruct (v1_missing rid r Hr) as (d & Hd & Hid & He). exists rid, [d]. split; [apply only_v2; by rewrite Hr|].
      split; [done|]. by apply shown_one.
    + right. assert (rid ∈ sorted_set (dom ix1 ∩ dom ix2)) as Hin by (apply in_both; by rewrite H1, H2).
      destruct (appending_body _ _ _ _ _ Hd3 Hin) as [bs Hb]. exists rid, bs. split_and!; [done..|].
      apply (record_shown ix1 ix2 rid r1 r2); [by rewrite I1|by rewrite I2|done|done].
Qed.
(** Each loop reports on the ids it runs over. *)
Lemma v2_missing_id rid bs d : missing_from_v2 ev ix1 rid = Ok bs → d ∈ bs → dc_source_record_id d = rid ∧ length bs = 1%nat.
Proof. unfold missing_from_v2. rewrite rbind_ok. intros (r & _ & [= <-]) ->%list_elem_of_singleton. split; [apply scoped_entry|done]. Qed.
Lemma v1_missing_id rid bs d : missing_from_v1 ev ix2 rid = Ok bs → d ∈ bs → dc_source_record_id d = rid ∧ length bs = 1%nat.
Proof. unfold missing_from_v1. rewrite rbind_ok. intros (r & _ & [= <-]) ->%list_elem_of_singleton. split; [apply scoped_entry|done]. Qed.
Lemma record_id rid bs d : compare_record ev ix1 ix2 rid = Ok bs → d ∈ bs → dc_source_record_id d = rid.
Proof.
  intros Hb Hd. pose proof Hb as Hc. unfold compare_record, at_key at 1 2 in Hc. destruct (ix1 !! rid) as [r1|] eqn:H1; [|done].
  destruct (ix2 !! rid) as [r2|] eqn:H2; [|done]. apply in_shown in Hd. by destruct (proj1 (record_shown _ _ _ _ _ _ _ _ H1 H2 Hb) Hd) as [-> _].
Qed.
Lemma single_NoDup (bs : list Discrepancy) : (∀ d, d ∈ bs → length bs = 1%nat) → NoDup (map key_of bs).
Proof. destruct bs as [|d [|e bs]]; intros Hl; [constructor|apply NoDup_singleton|]. by specialize (Hl d ltac:(by left)). Qed.
Lemma loop_NoDup (f : string → result exn (list Discrepancy)) l acc ds (done : string → Prop) : appending f l acc = Ok ds → NoDup l →
  NoDup (map key_of acc) → (∀ d, d ∈ acc → done (dc_source_record_id d)) → (∀ rid, rid ∈ l → ¬ done rid) →
  (∀ rid bs, rid ∈ l → f rid = Ok bs → NoDup (map key_of bs)) → (∀ rid bs d, f rid = Ok bs → d ∈ bs → dc_source_record_id d = rid) →
  NoDup (map key_of ds) ∧ ∀ d, d ∈ ds → done (dc_source_record_id d) ∨ dc_source_record_id d ∈ l.
Proof.
  intros Hds Hl Hacc Hdone Hnew Hbs Hid. split.
  - apply (appending_NoDup key_of _ _ _ _ Hds Hl Hacc Hbs).
    + intros x y bs cs d e _ _ Hx Hy Hd He [= Heq _ _]. by rewrite (Hid _ _ _ Hx Hd), (Hid _ _ _ Hy He) in Heq.
    + intros x bs d e Hx Hb Hd He [= Heq _ _]. apply (Hnew x Hx). rewrite <-(Hid _ _ _ Hb He), <-Heq. by apply Hdone.
  - intros d Hd. apply (appending_elem _ _ _ _ d Hds) in Hd as [Hd|(x & bs & Hx & Hb & Hd)]; [left; by apply Hdone|]. right. by rewrite (Hid _ _ _ Hb Hd).
Qed.
Lemma found_once ds : found ix1 ix2 = Ok ds → (∀ r, r ∈ v1 ++ v2 → key_details r !! "status" = None) → NoDup (map key_of ds).
Proof using I1 I2.
  unfold found. rewrite rbind_ok. intros (d1 & Hd1 & Hf) Hst. rewrite rbind_ok in Hf. destruct Hf as (d2 & Hd2 & Hd3).
  apply (loop_NoDup _ _ _ _ (λ _, False)) in Hd1 as [N1 K1]; [|apply NoDup_sorted_set|constructor|by intros d Hd%elem_of_nil|tauto| |].
  2: { intros rid bs _ Hb. apply single_NoDup. intros d Hd. by eapply v2_missing_id. }
  2: { intros rid bs d Hb Hd. by eapply v2_missing_id. }
  apply (loop_NoDup _ _ _ _ (λ rid, first_record rid v2 = None)) in Hd2 as [N2 K2]; [|apply NoDup_sorted_set|done| | | |].
  2: { intros d [[]|[_ Hn]%only_v1]%K1. done. }
  2: { intros rid [[r Hr] _]%only_v2. by rewrite Hr. }
  2: { intros rid bs _ Hb. apply single_NoDup. intros d Hd. by eapply v1_missing_id. }
  2: { intros rid bs d Hb Hd. by eapply v1_missing_id. }
  apply (loop_NoDup _ _ _ _ (λ rid, first_record rid v1 = None ∨ first_record rid v2 = None)) in Hd3 as [N3 _]; [done|apply NoDup_sorted_set|done| | | |].
  - intros d [Hn|[_ Hn]%only_v2]%K2; [by right|by left].
  - intros rid [[r1 H1] [r2 H2]]%in_both [Hn|Hn]; congruence.
  - intros rid bs [[r1 H1] [r2 H2]]%in_both Hb. apply (record_keys ix1 ix2 rid r1 r2); [by rewrite I1|by rewrite I2|done|..]; apply Hst, elem_of_app.
    + left. by eapply first_record_elem.
    + right. by eapply first_record_elem.
  - intros rid bs d. by eapply record_id.
Qed.
Lemma differences_found : match found ix1 ix2 with
  | Ok ds => (∀ rid x, shown ds rid x ↔ snapshot_difference rid x) ∧ ((∀ r, r ∈ v1 ++ v2 → key_details r !! "status" = None) → NoDup (map key_of ds))
  | Err e => e = stamp_error ∧ ∃ rid r1 r2, first_record rid v1 = Some r1 ∧ first_record rid v2 = Some r2 ∧ mixed r1 r2
  end.
Proof using I1 I2.
  destruct (found ix1 ix2) as [ds|e] eqn:Hf; [|by apply found_raises]. split; [intros rid x; by apply found_shown|by apply found_once].
Qed.
End Indexed.

Lemma comparison_holds : match compare_snapshots ev v1 v2 with
  | Ok rep => summary_of rep
  | Err e => e = stamp_error ∧ ∃ rid r1 r2, first_record rid v1 = Some r1 ∧ first_record rid v2 = Some r2 ∧ mixed r1 r2
  end.
Proof.
  unfold compare_snapshots. pose proof (index_spec v1) as I1. pose proof (index_spec v2) as I2.
  pose proof (duplicates_spec v1) as D1. pose proof (duplicates_spec v2) as D2.
  destruct (index_by_id v1) as [ix1 du1], (index_by_id v2) as [ix2 du2]. simpl in *.
  pose proof (differences_found ix1 ix2 I1 I2) as Hd. unfold found in Hd. destruct (appending _ _ []) as [d1|e]; simpl in *; [|done].
  destruct (appending _ _ d1) as [d2|e]; simpl in *; [|done]. destruct (appending _ _ d2) as [ds|e]; simpl in *; [|done].
  destruct Hd as [Hs Hnd]. destruct (counts_ok ds) as (counts & -> & Hc).
  { intros d Hd. apply (difference_bucket (dc_source_record_id d) (kind d) (field d) (v1_value d) (v2_value d)). apply Hs. by apply in_shown. }
  simpl. split_and!; [done..|]. exists (dom ix1 ∩ dom ix2). split; [done|]. intros rid. by rewrite elem_of_intersection, !elem_of_dom, I1, I2.
Qed.
(** A comparison returns unless two records that differ carry a time without an
    offset and one with an offset, which raises. What it returns lists exactly
    the differences of the first records of each id, each with its bucket by the
    evidence given: an absence by the declared_field scope, another value by a
    declaration or a later capture, BOQ completeness by its table. Nothing is
    listed twice (unless a key detail is itself called status), each bucket's
    count is the number of its entries, and all further records of an id are
    reported as duplicates. *)
Theorem comparison_spec : match compare_snapshots ev v1 v2 with
  | Ok rep => summary_of rep
  | Err e => e = stamp_error ∧ ∃ rid r1 r2, first_record rid v1 = Some r1 ∧ first_record rid v2 = Some r2 ∧ mixed r1 r2
  end.
Proof. exact comparison_holds. Qed.
End Spec.

(** ** A faithful copy *)

Lemma first_record_spec rid l r : NoDup (map source_record_id l) → first_record rid l = Some r ↔ r ∈ l ∧ source_record_id r = rid.
Proof.
  intros Hnd. unfold first_record. split.
  - destruct (filter _ l) as [|x k] eqn:Hf; [done|]. intros [= ->].
    assert (r ∈ filter (λ r, source_record_id r = rid) l) as Hin by (rewrite Hf; by left). by apply list_elem_of_filter in Hin as [? ?].
  - intros [Hr <-]. induction l as [|x l IH]; [by apply elem_of_nil in Hr|]. simpl in Hnd. apply NoDup_cons in Hnd as [Hx Hl].
    rewrite filter_cons. apply elem_of_cons in Hr as [->|Hr]; [by rewrite decide_True|]. rewrite decide_False; [by apply IH|].
    intros Heq. apply Hx. apply list_elem_of_fmap. by exists r.
Qed.

(** An export compared with the same records in any order, under whatever
    evidence, gives no discrepancy: every record is matched and every count is
    zero. *)
Theorem copy_compares_clean `{PyText} ev v1 v2 : v1 ≡ₚ v2 → NoDup (map source_record_id v1) →
  (∀ r k x, r ∈ v1 → key_details r !! k = Some x → json_wf x) →
  ∃ rep, compare_snapshots ev v1 v2 = Ok rep ∧ discrepancies rep = [] ∧ matched_count rep = Z.of_nat (length v1) ∧
    ∀ b n, bucket_counts rep !! b = Some n → n = 0%Z.
Proof.
  intros Hp Hnd Hwf. assert (NoDup (map source_record_id v2)) as Hnd2 by (by rewrite <-Hp).
  assert (∀ rid r1 r2, first_record rid v1 = Some r1 → first_record rid v2 = Some r2 → r1 = r2 ∧ r1 ∈ v1) as Hsame.
  { intros rid r1 r2 H1 H2%first_record_spec; [|done]. rewrite <-Hp in H2. apply (first_record_spec rid v1) in H2; [|done].
    split; [congruence|]. by apply first_record_elem in H1. }
  assert (∀ rid, is_Some (first_record rid v1) ↔ is_Some (first_record rid v2)) as Hboth.
  { intros rid. split; intros [r Hr%first_record_spec]; try done; exists r; (apply first_record_spec; [done|]); [by rewrite <-Hp|by rewrite Hp]. }
  pose proof (comparison_holds ev v1 v2) as Hc. destruct (compare_snapshots ev v1 v2) as [rep|e].
  - destruct Hc as (Hs & _ & Hcnt & _ & _ & X & HX & HXin). exists rep. split; [done|].
    assert (discrepancies rep = []) as Hnil.
    { apply nil_no_elem. intros d Hd%in_shown. apply Hs in Hd. set (x := entry_of d) in Hd. clearbody x.
      destruct Hd as [r H1 H2|r H1 H2|r1 r2 x H1 H2 Hd].
      + pose proof (proj1 (Hboth _) (mk_is_Some _ _ H1)) as [? ?]. congruence.
      + pose proof (proj2 (Hboth _) (mk_is_Some _ _ H2)) as [? ?]. congruence.
      + destruct (Hsame _ _ _ H1 H2) as [<- Hin]. destruct Hd as [|k x1 x2 b K1 K2 Heq _| | | | |]; try congruence.
        assert (x1 = x2) as <- by congruence. rewrite py_eq_refl in Heq; [done|by eapply Hwf]. }
    split; [done|]. split.
    + rewrite HX. f_equal. rewrite <-(length_map source_record_id v1), <-(size_list_to_set (C := gset string)) by done. f_equal.
      apply set_eq. intros rid. rewrite HXin, <-Hboth, elem_of_list_to_set, list_elem_of_fmap. split.
      * intros [[r Hr%first_record_spec] _]; [|done]. exists r. naive_solver.
      * intros (r & -> & Hr). assert (is_Some (first_record (source_record_id r) v1)) by (exists r; by apply first_record_spec). done.
    + intros b n Hn. apply Hcnt in Hn as [_ ->]. by rewrite Hnil.
  - exfalso. destruct Hc as (_ & rid & r1 & r2 & H1 & H2 & t1 & t2 & (s1 & s2 & S1 & S2 & T1 & T2) & Ho).
    destruct (Hsame _ _ _ H1 H2) as [<- _].
    assert (t1 = t2) as <- by congruence. destruct (dt_offset t1) as [z|]; destruct Ho as [Ho1 Ho2].
    + by specialize (Ho2 (mk_is_Some _ _ eq_refl)).
    + by destruct (Ho1 eq_refl).
Qed.

(** ** Examples *)

Section Demo.
#[local] Existing Instance ascii_text.
Definition no_evidence : evidence := {| v1_covers_record_kinds := None; v2_covers_record_kinds := None; expected_field_differences := None |}.
Definition demo_record (i st at_ : string) : shadow_record := {|
  source_record_id := i; record_kind := Some "design_tender"; status := Some st; key_details := {[ "event_name" := JStr "road" ]};
  captured_at := JStr at_; boq := Some {| present := true; completeness_status := Some "complete"; line_count := Some 3%Z |} |}.
Lemma copy_compares_clean_witness : ∃ rep,
  compare_snapshots no_evidence [demo_record "1" "open" "2026-07-15T00:00:00"; demo_record "2" "open" "2026-07-15T00:00:00"]
    [demo_record "2" "open" "2026-07-15T00:00:00"; demo_record "1" "open" "2026-07-15T00:00:00"] = Ok rep ∧ discrepancies rep = [].
Proof.
  destruct (copy_compares_clean no_evidence [demo_record "1" "open" "2026-07-15T00:00:00"; demo_record "2" "open" "2026-07-15T00:00:00"]
    [demo_record "2" "open" "2026-07-15T00:00:00"; demo_record "1" "open" "2026-07-15T00:00:00"]) as (rep & Hr & Hd & _).
  - apply perm_swap.
  - apply (bool_decide_eq_true_1 _). vm_compute. reflexivity.
  - intros r k x Hr Hk. assert (key_details r = {[ "event_name" := JStr "road" ]}) as Hkd
      by (rewrite !elem_of_cons, elem_of_nil in Hr; destruct Hr as [->|[->|[]]]; reflexivity).
    rewrite Hkd in Hk. apply lookup_singleton_Some in Hk as [_ <-]. exact I.
  - exists rep. split; [exact Hr|exact Hd].
Defined.
(** An export as its contract documents it, with times that have no offset,
    against a record read back from the database, whose times have one *)
Lemma export_stamps_uncaught : compare_snapshots no_evidence [demo_record "1" "open" "2026-07-15T00:00:00"]
  [demo_record "1" "closed" "2026-08-01T00:00:00+00:00"] = Err stamp_error.
Proof. vm_compute. reflexivity. Qed.
End Demo.
End Shadow.
