(* ===== verification/Migrations.v ===== *)
(** * The migration runner

    [packages/platform/migrations_runner.py] on the ledger of
    [migrations/0000_ledger.sql]. The directory is a list of file names and
    texts; what a script does to the schema is the parameter [execute], a
    preflight or postflight hook a check that reads the schema and may raise. A
    run gives its result next to the state it leaves, because each script is
    committed on its own. *)

From stdpp Require Import base gmap strings list sorting.
From Stdlib Require Import ZArith Ascii Lia.
From S2P Require Import Prelude PyStr TenderDb AdminApi.

Module Migrations.
Import TenderDb AdminApi.
#[local] Open Scope Z_scope.

Record Migration := { version : Z; description : string; path : string; checksum : string; sql : string }.
Record AppliedMigration := { am_version : Z; am_description : string }.
(** A row of [schema_migrations], keyed by its version *)
Record ledger_row := {
  lr_description : string; lr_checksum : string; applied_at : Z; applied_by : string;
  preflight_status : string; postflight_status : string }.
Inductive migration_error :=
| MigrationChecksumMismatch (v : Z)
| PreflightFailed (v : Z)
| PostflightFailed (v : Z)
| SchemaVersionMismatch (expected actual : option Z)
| MigrationUncaught (e : exn).

(** [glob("*.sql")], [stem] and [partition("_")] *)
Definition has_suffix (suffix s : string) : bool :=
  (String.length suffix <=? String.length s)%nat && String.eqb (String.substring (String.length s - String.length suffix) (String.length suffix) s) suffix.
Definition stem (name : string) : string :=
  if String.eqb name ".sql" then name else String.substring 0 (String.length name - 4) name.
Fixpoint partition (s : string) : string * string :=
  match s with
  | EmptyString => ("", "")
  | String "_" t => ("", t)
  | String c t => let ' (a, b) := partition t in (String c a, b)
  end.

Section Runner.
Context `{PyText} `{Bytes}.
Context {DB : Type} (execute : string → DB → result exn DB).
Definition hook : Type := Migration → DB → result exn bool.
Record mdb := Mdb { ledger : gmap Z ledger_row; schema : DB }.

Definition read_migration (file : string * string) : result exn Migration :=
  let ' (version_str, descr) := partition (stem file.1) in
  match int_of_text version_str with
  | None => Err (ValueError ("invalid literal for int() with base 10: " +:+ py_repr version_str))
  | Some v => Ok {| version := v; description := descr; path := file.1; checksum := checksum_of file.2; sql := file.2 |}
  end.
Definition by_name (a b : string * string) : Prop := String.le a.1 b.1.
#[local] Instance by_name_dec a b : Decision (by_name a b).
Proof. unfold by_name. apply _. Defined.
Definition discover (dir : list (string * string)) : result exn (list Migration) :=
  mapM read_migration (merge_sort by_name (filter (λ f, has_suffix ".sql" f.1 = true) dir)).

(** [0000_ledger.sql] *)
Definition bootstrap_row (now : Z) : ledger_row := {|
  lr_description := "ledger bootstrap"; lr_checksum := "n/a"; applied_at := now; applied_by := "bootstrap";
  preflight_status := "skipped"; postflight_status := "skipped" |}.
Definition ensure_ledger (now : Z) (s : mdb) : mdb :=
  match ledger s !! 0 with Some _ => s | None => Mdb (<[0 := bootstrap_row now]> (ledger s)) (schema s) end.

(** [SELECT max(version)] over the rows that count *)
Definition counts (row : ledger_row) : bool :=
  negb (String.eqb (preflight_status row) "failed") && negb (String.eqb (postflight_status row) "failed").
Definition sql_max (l : list Z) : option Z := foldr (λ v acc, Some match acc with Some w => Z.max v w | None => v end) None l.
Definition current_version (now : Z) (s : mdb) : option Z * mdb :=
  let s' := ensure_ledger now s in
  (sql_max (filter (λ vr, counts vr.2 = true) (map_to_list (ledger s'))).*1, s').

(** The checksum of a version that counts as applied *)
Definition applied (s : mdb) (v : Z) : option string :=
  row ← ledger s !! v; if String.eqb (preflight_status row) "failed" then None else Some (lr_checksum row).
Definition pending_step (s : mdb) (acc : list Migration) (m : Migration) : result migration_error (list Migration) :=
  match applied s (version m) with
  | Some c => raise_if negb (String.eqb c (checksum m)) with MigrationChecksumMismatch (version m) ;; Ok acc
  | None => Ok (acc ++ [m])
  end.
Definition pending (now : Z) (dir : list (string * string)) (s : mdb) : result migration_error (list Migration) * mdb :=
  match discover dir with
  | Err e => (Err (MigrationUncaught e), s)
  | Ok ms =>
      let s' := ensure_ledger now s in
      (foldM (pending_step s') [] (filter (λ m, version m ≠ 0) ms), s')
  end.

(** [INSERT ... ON CONFLICT (version) DO UPDATE]; [version] is an INTEGER. *)
Definition record_version (now : Z) (by_ : string) (m : Migration) (pre post : string) (s : mdb) : result exn mdb :=
  raise_if negb ((- 2 ^ 31 <=? version m) && (version m <? 2 ^ 31)) with DataError "value out of int32 range" ;;
  Ok (Mdb (<[version m := {| lr_description := description m; lr_checksum := checksum m; applied_at := now; applied_by := by_;
                              preflight_status := pre; postflight_status := post |}]> (ledger s)) (schema s)).
Definition run_hook (h : option hook) (m : Migration) (d : DB) : result exn bool := match h with Some f => f m d | None => Ok true end.
(** The transaction of the script, its check and its row *)
Definition run_script (now : Z) (by_ : string) (postflight : option hook) (m : Migration) (s : mdb) : result exn (bool * mdb) :=
  let! d := execute (sql m) (schema s) in
  let! ok := run_hook postflight m d in
  let! s' := record_version now by_ m "passed" (if ok then "passed" else "failed") (Mdb (ledger s) d) in
  Ok (ok, s').
Definition apply_one (now : Z) (by_ : string) (preflight postflight : option hook) (m : Migration) (s : mdb)
    : result migration_error AppliedMigration * mdb :=
  match run_hook preflight m (schema s) with
  | Err e => (Err (MigrationUncaught e), s)
  | Ok false =>
      match record_version now by_ m "failed" "skipped" s with
      | Err e => (Err (MigrationUncaught e), s)
      | Ok s' => (Err (PreflightFailed (version m)), s')
      end
  | Ok true =>
      match run_script now by_ postflight m s with
      | Err e => (Err (MigrationUncaught e), s)
      | Ok (true, s') => (Ok {| am_version := version m; am_description := description m |}, s')
      | Ok (false, s') => (Err (PostflightFailed (version m)), s')
      end
  end.
(** The loop; the transaction of the [k]-th script begins at [now k]. *)
Fixpoint apply_list (now : nat → Z) (by_ : string) (preflight postflight : option hook) (k : nat) (ms : list Migration) (s : mdb)
    : result migration_error (list AppliedMigration) * mdb :=
  match ms with
  | [] => (Ok [], s)
  | m :: ms' =>
      match apply_one (now k) by_ preflight postflight m s with
      | (Err e, s') => (Err e, s')
      | (Ok a, s') =>
          match apply_list now by_ preflight postflight (S k) ms' s' with
          | (Ok l, s'') => (Ok (a :: l), s'')
          | (Err e, s'') => (Err e, s'')
          end
      end
  end.
Definition apply_all (now : nat → Z) (dir : list (string * string)) (by_ : string) (preflight postflight : option hook) (s : mdb)
    : result migration_error (list AppliedMigration) * mdb :=
  match pending (now 0%nat) dir s with
  | (Err e, s') => (Err e, s')
  | (Ok ms, s') => apply_list now by_ preflight postflight 1 ms s'
  end.
(** [scripts/migrate.py]: the lines it prints; [{version:04d}] of a version that
    is not negative *)
Definition four_wide (n : Z) : string := let s := py_str_Z n in String.concat "" (repeat "0" (4 - String.length s)) +:+ s.
Definition applied_lines (applied : list AppliedMigration) : list string :=
  match applied with
  | [] => ["no pending migrations"]
  | _ => map (λ a, "applied " +:+ four_wide (am_version a) +:+ "_" +:+ am_description a) applied
  end.
Definition migrate (now : nat → Z) (dir : list (string * string)) (s : mdb) : result migration_error (list string) * mdb :=
  let ' (r, s') := apply_all now dir "docker-compose-migrate" None None s in
  (let! applied := r in Ok (applied_lines applied), s').
Definition assert_schema_up_to_date (now expected : Z) (s : mdb) : result migration_error Z * mdb :=
  let ' (actual, s') := current_version now s in
  match actual with
  | Some v => if v =? expected then (Ok v, s') else (Err (SchemaVersionMismatch (Some expected) actual), s')
  | None => (Err (SchemaVersionMismatch (Some expected) None), s')
  end.

(** ** What a run does *)

Lemma pending_spec now dir s : match pending now dir s with
  | (Ok ms, s1) => s1 = ensure_ledger now s ∧ ∃ all, discover dir = Ok all ∧
      ms = filter (λ m, version m ≠ 0 ∧ applied s1 (version m) = None) all ∧
      ∀ m c, m ∈ all → version m ≠ 0 → applied s1 (version m) = Some c → c = checksum m
  | (Err (MigrationChecksumMismatch v), s1) => s1 = ensure_ledger now s ∧ ∃ all m c, discover dir = Ok all ∧ m ∈ all ∧ version m = v ∧
      v ≠ 0 ∧ applied s1 v = Some c ∧ c ≠ checksum m
  | (Err e, s1) => s1 = s ∧ ∃ x, e = MigrationUncaught x ∧ discover dir = Err x
  end.
Proof.
  clear execute.
  unfold pending. destruct (discover dir) as [all|x]; [|by split; [|eexists]]. set (s1 := ensure_ledger now s).
  assert (∀ l acc, match foldM (pending_step s1) acc (filter (λ m, version m ≠ 0) l) with
    | Ok ms => ms = acc ++ filter (λ m, version m ≠ 0 ∧ applied s1 (version m) = None) l ∧
        ∀ m c, m ∈ l → version m ≠ 0 → applied s1 (version m) = Some c → c = checksum m
    | Err e => ∃ m c, e = MigrationChecksumMismatch (version m) ∧ m ∈ l ∧ version m ≠ 0 ∧ applied s1 (version m) = Some c ∧ c ≠ checksum m
    end) as Hgen.
  { induction l as [|m l IH]; intros acc; [simpl; split; [by rewrite app_nil_r|by intros ? ? []%elem_of_nil]|].
    rewrite !filter_cons. destruct (decide (version m ≠ 0)) as [Hv|Hv].
    - simpl. unfold pending_step at 1. destruct (applied s1 (version m)) as [c|] eqn:Ha.
      + destruct (String.eqb_spec c (checksum m)) as [->|Hne]; simpl.
        * rewrite decide_False by naive_solver. specialize (IH acc). destruct (foldM _ acc _) as [ms|e].
          -- destruct IH as [-> IH]. split; [done|]. intros m' c [->|Hin]%elem_of_cons; [congruence|by apply IH].
          -- destruct IH as (m' & c & Hm & Hin & Hrest). exists m', c. split; [done|]. split; [by right|done].
        * exists m, c. split; [done|]. split; [by left|done].
      + simpl. rewrite decide_True by done. specialize (IH (acc ++ [m])). destruct (foldM _ _ _) as [ms|e].
        * destruct IH as [-> IH]. split; [by rewrite <-app_assoc|]. intros m' c [->|Hin]%elem_of_cons; [congruence|by apply IH].
        * destruct IH as (m' & c & Hm & Hin & Hrest). exists m', c. split; [done|]. split; [by right|done].
    - rewrite decide_False by tauto. specialize (IH acc). destruct (foldM _ acc _) as [ms|e].
      + destruct IH as [-> IH]. split; [done|]. intros m' c [->|Hin]%elem_of_cons; [done|by apply IH].
      + destruct IH as (m' & c & Hm & Hin & Hrest). exists m', c. split; [done|]. split; [by right|done]. }
  specialize (Hgen all []). destruct (foldM _ [] _) as [ms|e].
  - destruct Hgen as [-> Hc]. split; [done|]. by exists all.
  - destruct Hgen as (m & c & -> & Hrest). split; [done|]. exists all, m, c. naive_solver.
Qed.

Definition executes (d : DB) (l : list Migration) : result exn DB := foldM (λ d m, execute (sql m) d) d l.
Definition row_of (row : ledger_row) (m : Migration) (pre post : string) : Prop :=
  lr_checksum row = checksum m ∧ preflight_status row = pre ∧ postflight_status row = post.
Definition announced (m : Migration) : AppliedMigration := {| am_version := version m; am_description := description m |}.

(** How a run over a list of scripts ends: [ran] are executed, [rest] are not. *)
Inductive outcome (s' : mdb) (ran rest : list Migration) : result migration_error (list AppliedMigration) → Prop :=
| AllRan : rest = [] → (∀ m, m ∈ ran → ∃ row, ledger s' !! version m = Some row ∧ row_of row m "passed" "passed") →
    outcome s' ran rest (Ok (map announced ran))
| Quarantined m rest' row : rest = m :: rest' → ledger s' !! version m = Some row → row_of row m "failed" "skipped" →
    outcome s' ran rest (Err (PreflightFailed (version m)))
| CheckFailed m ran' row : ran = ran' ++ [m] → ledger s' !! version m = Some row → row_of row m "passed" "failed" →
    outcome s' ran rest (Err (PostflightFailed (version m)))
| Raised m rest' e : rest = m :: rest' → outcome s' ran rest (Err (MigrationUncaught e)).
(** The versions a run writes rows for: those it ran, and one it put aside *)
Definition written (r : result migration_error (list AppliedMigration)) (ran : list Migration) : list Z :=
  map version ran ++ match r with Err (PreflightFailed v) => [v] | _ => [] end.
Record run_effect (s s' : mdb) (ms ran rest : list Migration) (r : result migration_error (list AppliedMigration)) : Prop := {
  re_split : ms = ran ++ rest;
  re_schema : executes (schema s) ran = Ok (schema s');
  re_outcome : outcome s' ran rest r;
  re_rows : ∀ m, m ∈ ran → ∃ row post, ledger s' !! version m = Some row ∧ row_of row m "passed" post ∧ post ∈ ["passed"; "failed"];
  re_frame : ∀ v, v ∉ written r ran → ledger s' !! v = ledger s !! v;
}.

Lemma record_ok now by_ m pre post s s' : record_version now by_ m pre post s = Ok s' → schema s' = schema s ∧
  (∃ row, ledger s' !! version m = Some row ∧ row_of row m pre post) ∧ ∀ v, v ≠ version m → ledger s' !! v = ledger s !! v.
Proof using Type execute.
  unfold record_version. destruct (negb _); [done|]. intros [= <-]. simpl. split; [done|]. split.
  - eexists. by rewrite lookup_insert_eq.
  - intros v Hv. by rewrite lookup_insert_ne.
Qed.
Lemma apply_one_spec now by_ pre post m s r s' : apply_one now by_ pre post m s = (r, s') →
  match r with
  | Ok a => a = announced m ∧ execute (sql m) (schema s) = Ok (schema s') ∧
      (∃ row, ledger s' !! version m = Some row ∧ row_of row m "passed" "passed") ∧ ∀ v, v ≠ version m → ledger s' !! v = ledger s !! v
  | Err (PostflightFailed w) => w = version m ∧ execute (sql m) (schema s) = Ok (schema s') ∧
      (∃ row, ledger s' !! version m = Some row ∧ row_of row m "passed" "failed") ∧ ∀ v, v ≠ version m → ledger s' !! v = ledger s !! v
  | Err (PreflightFailed w) => w = version m ∧ schema s' = schema s ∧
      (∃ row, ledger s' !! version m = Some row ∧ row_of row m "failed" "skipped") ∧ ∀ v, v ≠ version m → ledger s' !! v = ledger s !! v
  | Err e => s' = s ∧ ∃ x, e = MigrationUncaught x
  end.
Proof using Type execute.
  unfold apply_one. destruct (run_hook pre m (schema s)) as [[]|e]; [|destruct (record_version _ _ _ _ _ _) as [s1|e] eqn:Hr|].
  - destruct (run_script now by_ post m s) as [[ok s1]|e] eqn:Hr; [|by intros [= <- <-]; eauto].
    unfold run_script in Hr. rewrite rbind_ok in Hr. destruct Hr as (d & Hd & Hr). rewrite rbind_ok in Hr. destruct Hr as (b & _ & Hr).
    rewrite rbind_ok in Hr. destruct Hr as (s2 & Hrec & [= <- <-]). apply record_ok in Hrec as (Hs & Hrow & Hf). simpl in *.
    destruct b; intros [= <- <-]; (split; [done|]); (split; [by rewrite Hs|done]).
  - intros [= <- <-]. by apply record_ok in Hr.
  - intros [= <- <-]. eauto.
  - intros [= <- <-]. eauto.
Qed.
Lemma written_sub s s' ms ran rest r v : run_effect s s' ms ran rest r → v ∈ written r ran → v ∈ map version ms.
Proof using Type execute.
  intros [-> _ Ho _ _]. unfold written. rewrite map_app, !elem_of_app. intros [Hv|Hv]; [by left|]. right.
  destruct Ho as [|m rest' row -> _ _| |]; try by apply elem_of_nil in Hv. apply list_elem_of_singleton in Hv as ->. by left.
Qed.
(** A script that succeeds goes in front of the run of the others. *)
Lemma run_effect_cons s s1 s' m ms ran rest r : execute (sql m) (schema s) = Ok (schema s1) →
  (∃ row, ledger s1 !! version m = Some row ∧ row_of row m "passed" "passed") → (∀ v, v ≠ version m → ledger s1 !! v = ledger s !! v) →
  version m ∉ map version ms → run_effect s1 s' ms ran rest r →
  run_effect s s' (m :: ms) (m :: ran) rest match r with Ok l => Ok (announced m :: l) | Err e => Err e end.
Proof using Type execute.
  intros Hx (row & Hrow & Hro) Hfr Hm He. assert (version m ∉ written r ran) as Hmw by (intros Hw; by eapply Hm, written_sub).
  assert (ledger s' !! version m = Some row) as Hrow' by (by rewrite (re_frame _ _ _ _ _ _ He)). destruct He as [-> Hs Ho Hr Hf]. split; [done| | | |].
  - unfold executes in *. simpl. by rewrite Hx.
  - destruct Ho as [-> Ha|m' rest' row' -> Hl Hq|m' ran' row' -> Hl Hq|m' rest' e ->].
    + apply (AllRan s' (m :: ran) []); [done|]. intros m' [->|Hin]%elem_of_cons; [by exists row|by apply Ha].
    + by eapply Quarantined.
    + by apply (CheckFailed s' (m :: ran' ++ [m']) rest m' (m :: ran') row').
    + by eapply Raised.
  - intros m' [->|Hin]%elem_of_cons; [|by apply Hr]. exists row, "passed". split_and!; [done..|by left].
  - intros v Hv. rewrite Hf.
    + apply Hfr. intros ->. apply Hv. by left.
    + intros Hw. apply Hv. unfold written in *. right. by destruct r as [|[]].
Qed.
Lemma apply_list_spec now by_ pre post ms : ∀ k s r s', NoDup (map version ms) → apply_list now by_ pre post k ms s = (r, s') →
  ∃ ran rest, run_effect s s' ms ran rest r.
Proof using Type execute.
  induction ms as [|m ms IH]; intros k s r s' Hnd; simpl.
  { intros [= <- <-]. exists [], []. split; [done|done| |by intros ? []%elem_of_nil|done]. apply (AllRan s [] []); [done|by intros ? []%elem_of_nil]. }
  apply NoDup_cons in Hnd as [Hm Hnd]. destruct (apply_one (now k) by_ pre post m s) as [[a|e] s1] eqn:H1; apply apply_one_spec in H1.
  - destruct H1 as (-> & Hx & Hrow & Hf). destruct (apply_list now by_ pre post (S k) ms s1) as [r2 s2] eqn:H2.
    destruct (IH _ _ _ _ Hnd H2) as (ran & rest & He). pose proof (run_effect_cons s s1 s2 m ms ran rest r2 Hx Hrow Hf Hm He) as Hall.
    intros Hr. exists (m :: ran), rest. by destruct r2; injection Hr as <- <-.
  - intros [= <- <-]. assert (∀ x, s1 = s ∧ (∃ y, x = MigrationUncaught y) → ∃ ran rest, run_effect s s1 (m :: ms) ran rest (Err x)) as Hun.
    { intros x [-> [y ->]]. exists [], (m :: ms). split; [done|done|by eapply Raised|by intros ? []%elem_of_nil|done]. }
    destruct e; try (by apply Hun).
    + destruct H1 as (-> & Hs & (row & Hrow & Hro) & Hf). exists [], (m :: ms). split; [done|by rewrite Hs|by eapply Quarantined|by intros ? []%elem_of_nil|].
      intros w Hw. apply Hf. intros ->. apply Hw. by left.
    + destruct H1 as (-> & Hx & (row & Hrow & Hro) & Hf). exists [m], ms. split; [done| | | |].
      * unfold executes. simpl. by rewrite Hx.
      * by apply (CheckFailed s1 [m] ms m [] row).
      * intros m' ->%list_elem_of_singleton. exists row, "failed". split_and!; [done..|]. right. by left.
      * intros w Hw. apply Hf. intros ->. apply Hw. by left.
Qed.

Definition distinct_versions (dir : list (string * string)) : Prop := ∀ ms, discover dir = Ok ms → NoDup (map version ms).
Lemma ensure_schema now s : schema (ensure_ledger now s) = schema s.
Proof. unfold ensure_ledger. by destruct (ledger s !! 0). Qed.
Lemma ensure_other now s v : v ≠ 0 → ledger (ensure_ledger now s) !! v = ledger s !! v.
Proof. intros Hv. unfold ensure_ledger. destruct (ledger s !! 0); [done|]. simpl. by rewrite lookup_insert_ne. Qed.
Lemma ensure_has now s : is_Some (ledger (ensure_ledger now s) !! 0).
Proof. unfold ensure_ledger. destruct (ledger s !! 0) eqn:Hz; [by rewrite Hz|]. simpl. by rewrite lookup_insert_eq. Qed.
Lemma ensure_id now s : is_Some (ledger s !! 0) → ensure_ledger now s = s.
Proof. intros [row Hrow]. unfold ensure_ledger. by rewrite Hrow. Qed.
Lemma applied_row (s : mdb) v row : ledger s !! v = Some row → preflight_status row = "passed" → applied s v = Some (lr_checksum row).
Proof. intros Hl Hp. unfold applied. rewrite Hl. simpl. by rewrite Hp. Qed.
Lemma applied_same (s s' : mdb) v : ledger s' !! v = ledger s !! v → applied s' v = applied s v.
Proof. unfold applied. by intros ->. Qed.

(** A run that returned leaves nothing to do. *)
Lemma rerun_nothing now dir s s' all ran rest l : discover dir = Ok all → NoDup (map version all) → is_Some (ledger s !! 0) →
  (∀ m c, m ∈ all → version m ≠ 0 → applied s (version m) = Some c → c = checksum m) →
  run_effect s s' (filter (λ m, version m ≠ 0 ∧ applied s (version m) = None) all) ran rest (Ok l) → pending now dir s' = (Ok [], s').
Proof using Type execute.
  intros Hall Hnd Hz Hsame He. pose proof (written_sub _ _ _ _ _ _ 0 He) as Hw0. destruct He as [Hsplit _ Ho _ Hf].
  remember (Ok l) as r eqn:Hr. destruct Ho as [-> Hrows| | |]; try done. rewrite app_nil_r in Hsplit.
  assert (∀ m, m ∈ all → version m ≠ 0 → applied s' (version m) = Some (checksum m)) as Happ.
  { intros m Hm Hv. destruct (applied s (version m)) as [c|] eqn:Ha.
    - rewrite (applied_same s s'), Ha by (apply Hf; intros Hw; unfold written in Hw; rewrite app_nil_r, <-Hsplit in Hw;
        apply list_elem_of_fmap in Hw as (m' & Heq & [[_ Hn] _]%list_elem_of_filter); congruence). f_equal. by apply Hsame.
    - destruct (Hrows m) as (row & Hrow & Hc & Hp & _); [rewrite <-Hsplit; by apply list_elem_of_filter|]. by rewrite (applied_row _ _ _ Hrow Hp), Hc. }
  assert (is_Some (ledger s' !! 0)) as Hz'.
  { rewrite Hf; [done|]. intros Hw. apply Hw0 in Hw. by apply list_elem_of_fmap in Hw as (m' & Heq & [[Hn _] _]%list_elem_of_filter). }
  pose proof (pending_spec now dir s') as Hp. rewrite (ensure_id now s' Hz') in Hp. destruct (pending now dir s') as [[ms|e] s2].
  - destruct Hp as (-> & all' & Hd & -> & _). rewrite Hall in Hd. injection Hd as <-. f_equal. f_equal. apply nil_no_elem.
    intros m [[Hv Hn] Hm]%list_elem_of_filter. by rewrite Happ in Hn.
  - exfalso. destruct e as [v| | | |]; try (destruct Hp as (-> & x & Hx & Hd); congruence).
    destruct Hp as (-> & all' & m & c & Hd & Hm & <- & Hv & Ha & Hc). rewrite Hall in Hd. injection Hd as <-. rewrite Happ in Ha by done. congruence.
Qed.

Lemma run_spec now dir by_ pre post s r s' : distinct_versions dir → apply_all now dir by_ pre post s = (r, s') →
  match pending (now 0%nat) dir s with
  | (Err e, s1) => r = Err e ∧ s' = s1 ∧ schema s' = schema s
  | (Ok ms, s1) => s1 = ensure_ledger (now 0%nat) s ∧ NoDup (map version ms) ∧ (∀ m, m ∈ ms → version m ≠ 0 ∧ applied s1 (version m) = None) ∧
      ∃ ran rest, run_effect s1 s' ms ran rest r ∧
        (is_ok r = true → ∀ now' by_' pre' post', apply_all now' dir by_' pre' post' s' = (Ok [], s'))
  end.
Proof using Type execute.
  intros Hd. unfold apply_all at 1. pose proof (pending_spec (now 0%nat) dir s) as Hp. destruct (pending (now 0%nat) dir s) as [[ms|e] s1].
  - destruct Hp as (Hs1 & all & Hall & -> & Hsame). intros Hrun. pose proof (Hd all Hall) as Hnd.
    assert (NoDup (map version (filter (λ m, version m ≠ 0 ∧ applied s1 (version m) = None) all))) as Hnd'
      by (eapply sublist_NoDup; [exact Hnd|apply fmap_sublist, sublist_filter]).
    split; [done|]. split; [done|]. split; [by intros m [? _]%list_elem_of_filter|].
    destruct (apply_list_spec _ _ _ _ _ _ _ _ _ Hnd' Hrun) as (ran & rest & He). exists ran, rest. split; [done|].
    destruct r as [l|]; [|done]. intros _ now' by_' pre' post'. unfold apply_all.
    by rewrite (rerun_nothing (now' 0%nat) dir s1 s' all ran rest l Hall Hnd ltac:(subst s1; apply ensure_has) Hsame He).
  - intros [= <- <-]. split; [done|]. split; [done|]. destruct e; destruct Hp as [-> _]; by rewrite ?ensure_schema.
Qed.

(** ** Every history of runs *)

Inductive mstep : mdb → mdb → Prop :=
| MApply now dir by_ pre post r s s' : distinct_versions dir → apply_all now dir by_ pre post s = (r, s') → mstep s s'
| MLook now s : mstep s (current_version now s).2.
Record ledger_ok (d0 : DB) (s : mdb) (L : list Migration) : Prop := {
  lo_once : NoDup (map version L);
  lo_schema : executes d0 L = Ok (schema s);
  lo_ran : ∀ m, m ∈ L → version m ≠ 0 ∧ ∃ row post, ledger s !! version m = Some row ∧ row_of row m "passed" post ∧ post ∈ ["passed"; "failed"];
  lo_rows : ∀ v row, ledger s !! v = Some row → v ∉ map version L →
    (v = 0 ∧ preflight_status row = "skipped" ∧ postflight_status row = "skipped") ∨
    (v ≠ 0 ∧ preflight_status row = "failed" ∧ postflight_status row = "skipped");
}.
Lemma ledger_ok_ensure d0 now s L : ledger_ok d0 s L → ledger_ok d0 (ensure_ledger now s) L.
Proof using Type execute.
  intros [H1 H2 H3 H4]. split; [done|by rewrite ensure_schema| |].
  - intros m Hm. destruct (H3 m Hm) as (Hv & Hrow). by rewrite ensure_other.
  - intros v row Hv HL. destruct (decide (v = 0)) as [->|Hne]; [|rewrite ensure_other in Hv by done; by apply H4].
    unfold ensure_ledger in Hv. destruct (ledger s !! 0) as [row0|] eqn:Hz; [exact (H4 0 row Hv HL)|].
    simpl in Hv. rewrite lookup_insert_eq in Hv. injection Hv as <-. by left.
Qed.
Lemma ledger_ok_run d0 s s' L ms ran rest r : ledger_ok d0 s L → NoDup (map version ms) →
  (∀ m, m ∈ ms → version m ≠ 0 ∧ applied s (version m) = None) → run_effect s s' ms ran rest r → ledger_ok d0 s' (L ++ ran).
Proof using Type execute.
  intros [H1 H2 H3 H4] Hnd Hnew He. pose proof (λ v, written_sub _ _ _ _ _ _ v He) as Hsub. destruct He as [-> Hs Ho Hr Hf].
  assert (∀ v, v ∈ map version (ran ++ rest) → v ≠ 0 ∧ applied s v = None) as Hnew' by (intros v (m & -> & Hm)%list_elem_of_fmap; by apply Hnew).
  assert (∀ m, m ∈ L → version m ∉ written r ran) as Hold.
  { intros m Hm Hw. destruct (H3 m Hm) as (_ & row & post & Hrow & (_ & Hp & _) & _). apply Hsub, Hnew' in Hw as [_ Hn].
    by rewrite (applied_row _ _ _ Hrow Hp) in Hn. }
  split.
  - rewrite map_app in *. apply NoDup_app in Hnd as (Hnd & _ & _). apply NoDup_app. split; [done|]. split; [|done].
    intros v (m & -> & Hm)%list_elem_of_fmap Hv. apply (Hold m Hm). unfold written. apply elem_of_app. by left.
  - unfold executes in *. rewrite foldM_app, H2. exact Hs.
  - intros m [Hm|Hm]%elem_of_app.
    + rewrite Hf by (by apply Hold). by apply H3.
    + split; [|by apply Hr]. apply Hnew'. rewrite map_app. apply elem_of_app. left. by apply list_elem_of_fmap_2.
  - intros v row Hv HL. rewrite map_app in HL. apply not_elem_of_app in HL as [HL Hran].
    destruct (decide (v ∈ written r ran)) as [Hw|Hw]; [|rewrite Hf in Hv by done; by apply H4].
    right. destruct (Hnew' v (Hsub v Hw)) as [Hv0 _]. split; [done|]. unfold written in Hw. apply elem_of_app in Hw as [Hw|Hw]; [done|].
    destruct Ho as [|m rest' row' -> Hl (_ & Hq1 & Hq2)| |]; try by apply elem_of_nil in Hw. apply list_elem_of_singleton in Hw as ->.
    rewrite Hl in Hv. by injection Hv as <-.
Qed.
Lemma reachable_ledger d0 s : rtc mstep (Mdb ∅ d0) s → ∃ L, ledger_ok d0 s L.
Proof using Type execute.
  intros Hs. remember (Mdb ∅ d0) as s0 eqn:Hs0. assert (∃ L, ledger_ok d0 s0 L) as HL.
  { subst. exists []. split; [constructor|done|by intros ? []%elem_of_nil|]. intros v row Hv. simpl in Hv. by rewrite lookup_empty in Hv. }
  clear Hs0. induction Hs as [s|s s1 s2 Hstep _ IH]; [done|]. apply IH. destruct HL as [L HL].
  destruct Hstep as [now dir by_ pre post r s s' Hd Hrun|now s]; [|exists L; by apply ledger_ok_ensure].
  pose proof (run_spec _ _ _ _ _ _ _ _ Hd Hrun) as Hr. pose proof (pending_spec (now 0%nat) dir s) as Hp.
  destruct (pending (now 0%nat) dir s) as [[ms|e] s1].
  - destruct Hr as (-> & Hnd & Hnew & ran & rest & He & _). exists (L ++ ran). eapply ledger_ok_run; [by apply ledger_ok_ensure|done..].
  - destruct Hr as (_ & -> & _). exists L. destruct e; destruct Hp as [-> _]; [by apply ledger_ok_ensure|done..].
Qed.

Lemma sql_max_some l : l ≠ [] → ∃ m, sql_max l = Some m ∧ m ∈ l ∧ ∀ w, w ∈ l → w <= m.
Proof.
  clear execute. induction l as [|x l IH]; [done|]. intros _. simpl. destruct l as [|y l].
  - exists x. split; [done|]. split; [by left|]. by intros w ->%list_elem_of_singleton.
  - destruct IH as (m & -> & Hm & Hle); [done|]. eexists. split; [done|]. split.
    + destruct (Z.max_spec x m) as [[_ ->]|[_ ->]]; [by right|by left].
    + intros w [->|Hw]%elem_of_cons; [lia|]. specialize (Hle w Hw). lia.
Qed.
Lemma sql_max_spec l v : sql_max l = Some v ↔ v ∈ l ∧ ∀ w, w ∈ l → w <= v.
Proof.
  clear execute. split.
  - intros Hm. destruct (sql_max_some l) as (m & Hm' & Hin & Hle); [by intros ->|]. rewrite Hm in Hm'. by injection Hm' as ->.
  - intros [Hv Hall]. destruct (sql_max_some l) as (m & -> & Hin & Hle); [by intros ->; apply elem_of_nil in Hv|].
    f_equal. specialize (Hall m Hin). specialize (Hle v Hv). lia.
Qed.

(** The versions that make up the current one: those of the scripts that passed
    both checks, and the ledger's own *)
Definition passed_version (s : mdb) (L : list Migration) (v : Z) : Prop :=
  v = 0 ∨ ∃ m row, m ∈ L ∧ version m = v ∧ ledger s !! v = Some row ∧ postflight_status row = "passed".
Lemma current_spec d0 s L now v : ledger_ok d0 s L →
  (current_version now s).1 = Some v ↔ passed_version s L v ∧ ∀ w, passed_version s L w → w <= v.
Proof using Type execute.
  intros HL. pose proof (ledger_ok_ensure d0 now s L HL) as HL'. unfold current_version. simpl. rewrite sql_max_spec.
  assert (∀ w, w ∈ (filter (λ vr, counts vr.2 = true) (map_to_list (ledger (ensure_ledger now s)))).*1 ↔ passed_version s L w) as Hw; [|by setoid_rewrite Hw].
  intros w. rewrite list_elem_of_fmap. split.
  - intros ([w' row] & -> & [Hc Hin]%list_elem_of_filter). simpl in *. apply elem_of_map_to_list in Hin.
    unfold counts in Hc. apply andb_prop in Hc as [Hp%negb_true_iff%String.eqb_neq Hq%negb_true_iff%String.eqb_neq].
    destruct (decide (w' ∈ map version L)) as [Hm|Hm].
    + apply list_elem_of_fmap in Hm as (m & -> & Hm). destruct (lo_ran _ _ _ HL' m Hm) as (Hv & row' & post & Hrow & (_ & _ & Hpost) & Hin').
      rewrite Hin in Hrow. injection Hrow as <-. right. exists m, row. rewrite <-(ensure_other now s) by done. split_and!; [done..|].
      rewrite Hpost in *. rewrite !elem_of_cons, elem_of_nil in Hin'. by destruct Hin' as [->|[->|[]]].
    + destruct (lo_rows _ _ _ HL' w' row Hin Hm) as [(-> & _)|(_ & Hf & _)]; [by left|done].
  - intros [->|(m & row & Hm & <- & Hrow & Hq)].
    + destruct (ensure_has now s) as [row Hrow]. exists (0, row). split; [done|]. apply list_elem_of_filter. split; [|by apply elem_of_map_to_list].
      assert (0 ∉ map version L) as H0L by (intros (m & Heq & Hm)%list_elem_of_fmap; destruct (lo_ran _ _ _ HL m Hm) as [Hv _]; congruence).
      destruct (lo_rows _ _ _ HL' 0 row Hrow H0L) as [(_ & Hp & Hq)|[]]; [|done]. unfold counts. simpl. by rewrite Hp, Hq.
    + destruct (lo_ran _ _ _ HL m Hm) as (Hv & row' & post & Hrow' & (_ & Hp & _) & _). rewrite Hrow in Hrow'. injection Hrow' as <-.
      exists (version m, row). split; [done|]. apply list_elem_of_filter. split; [unfold counts; simpl; by rewrite Hp, Hq|].
      apply elem_of_map_to_list. by rewrite ensure_other.
Qed.

(** C14: over every history of runs, with directories and checks that may change from
    run to run but never hold two files of one version, there is a list of scripts
    the schema is the result of, in that order and from the first schema: each
    version is in it once, exactly the versions the ledger counts as applied are
    (those whose check after them failed included), each with the checksum it had
    then. The current version is the largest of
    those whose check after it passed, or zero; and the start-up check passes for
    that version alone. *)
Theorem scripts_run_once d0 s : rtc mstep (Mdb ∅ d0) s → ∃ L,
  NoDup (map version L) ∧ executes d0 L = Ok (schema s) ∧
  (∀ v, v ≠ 0 → v ∈ map version L ↔ is_Some (applied s v)) ∧
  (∀ m, m ∈ L → version m ≠ 0 ∧ applied s (version m) = Some (checksum m)) ∧
  (∀ now v, (current_version now s).1 = Some v ↔ passed_version s L v ∧ ∀ w, passed_version s L w → w <= v) ∧
  ∀ now expected, is_ok (assert_schema_up_to_date now expected s).1 = true ↔ (current_version now s).1 = Some expected.
Proof using Type execute.
  intros (L & HL)%reachable_ledger. exists L.
  assert (∀ m, m ∈ L → version m ≠ 0 ∧ applied s (version m) = Some (checksum m)) as Happ.
  { intros m Hm. destruct (lo_ran _ _ _ HL m Hm) as (Hv & row & post & Hrow & (Hc & Hp & _) & _). split; [done|].
    by rewrite (applied_row _ _ _ Hrow Hp), Hc. }
  split_and!; [apply HL|apply HL| |done| |].
  - intros v Hv. split; [intros (m & -> & Hm)%list_elem_of_fmap; apply Happ in Hm as [_ ->]; eauto|]. intros [c Hc].
    destruct (decide (v ∈ map version L)) as [|Hn]; [done|]. unfold applied in Hc. destruct (ledger s !! v) as [row|] eqn:Hrow; [|done]. simpl in Hc.
    destruct (lo_rows _ _ _ HL v row Hrow Hn) as [(-> & _)|(_ & Hp & _)]; [done|]. by rewrite Hp in Hc.
  - intros now v. by eapply current_spec.
  - intros now expected. unfold assert_schema_up_to_date. destruct (current_version now s) as [[v|] s1]; simpl; [|done].
    destruct (Z.eqb_spec v expected) as [->|Hne]; simpl; split; congruence.
Qed.

(** A run refuses to start, with the schema as it was, when a file that was
    applied has another checksum or a name is not a version; otherwise it executes
    a prefix of the pending scripts, in their order, and the error it ends with
    says where: a failed check before a script leaves it out and puts
    its version aside, a failed check after it leaves it in, and what raises
    leaves no trace; no later script is touched and no other row changes. A run
    that returned leaves nothing for any later run with these files. *)
Theorem run_outcome now dir by_ pre post s r s' : distinct_versions dir → apply_all now dir by_ pre post s = (r, s') →
  match pending (now 0%nat) dir s with
  | (Err e, s1) => r = Err e ∧ s' = s1 ∧ schema s' = schema s
  | (Ok ms, s1) => s1 = ensure_ledger (now 0%nat) s ∧ NoDup (map version ms) ∧ (∀ m, m ∈ ms → version m ≠ 0 ∧ applied s1 (version m) = None) ∧
      ∃ ran rest, run_effect s1 s' ms ran rest r ∧
        (is_ok r = true → ∀ now' by_' pre' post', apply_all now' dir by_' pre' post' s' = (Ok [], s'))
  end.
Proof using Type execute. apply run_spec. Qed.
End Runner.

(** ** Examples *)

Section Demo.
#[local] Existing Instance ascii_text.
Definition demo_bytes : Bytes := {| sha256_hex := λ s, s; jsonb_of_bytes := λ _, Ok Json.JNull |}.
#[local] Existing Instance demo_bytes.
(** A schema that is the list of scripts that made it *)
Definition logging (script : string) (d : list string) : result exn (list string) := Ok (d ++ [script]).
Definition demo_dir : list (string * string) := [("0002_b.sql", "B"); ("0000_ledger.sql", "L"); ("README.md", ""); ("0001_a.sql", "A")].
Definition fresh_db : mdb := Mdb ∅ ([] : list string).
Definition first_run := apply_all logging (λ _, 7) demo_dir "ops" None None fresh_db.
Lemma demo_distinct : distinct_versions demo_dir.
Proof. intros ms Hms. assert (map version ms = [0; 1; 2]) as -> by (revert Hms; vm_compute; intros [= <-]; reflexivity). apply (bool_decide_eq_true_1 _). reflexivity. Qed.
Lemma scripts_run_once_witness : rtc (mstep logging) fresh_db first_run.2 ∧ ∃ L, NoDup (map version L) ∧ 1 ∈ map version L ∧ executes logging [] L = Ok ["A"; "B"].
Proof.
  assert (rtc (mstep logging) fresh_db first_run.2) as Hs.
  { apply rtc_once. destruct first_run as [r s'] eqn:Hr. eapply MApply; [apply demo_distinct|exact Hr]. }
  split; [exact Hs|]. destruct (scripts_run_once logging [] first_run.2 Hs) as (L & Hnd & Hx & Hin & _).
  exists L. split; [exact Hnd|]. split; [|exact Hx]. apply Hin; [discriminate|]. eexists. vm_compute. reflexivity.
Defined.
Lemma run_outcome_witness : first_run.1 = Ok [{| am_version := 1; am_description := "a" |}; {| am_version := 2; am_description := "b" |}] ∧
  apply_all logging (λ _, 9) demo_dir "ops" None None first_run.2 = (Ok [], first_run.2).
Proof.
  assert (first_run.1 = Ok [{| am_version := 1; am_description := "a" |}; {| am_version := 2; am_description := "b" |}]) as Hok by (vm_compute; reflexivity).
  split; [exact Hok|]. destruct first_run as [r s'] eqn:Hr. simpl in Hok.
  pose proof (run_outcome logging (λ _, 7) demo_dir "ops" None None fresh_db r s' demo_distinct Hr) as Ho.
  destruct (pending ((λ _, 7) 0%nat) demo_dir fresh_db) as [[ms|e] s1] eqn:Hp; [|exfalso; revert Hp; vm_compute; discriminate].
  destruct Ho as (_ & _ & _ & ran & rest & _ & Hagain). apply Hagain. rewrite Hok. reflexivity.
Defined.

(** A failed check after a script does not halt the migrations for longer than
    the run: the next run goes on with the next script, the failed version stays
    as it is, and the start-up check is content with the later one. *)
Definition first_fails : hook (DB := list string) := λ m _, Ok (negb (version m =? 1)).
Lemma failed_check_forgotten :
  let run := apply_all logging (λ _, 7) demo_dir "ops" None (Some first_fails) fresh_db in
  let again := apply_all logging (λ _, 8) demo_dir "ops" None (Some first_fails) run.2 in
  run.1 = Err (PostflightFailed 1) ∧ again.1 = Ok [{| am_version := 2; am_description := "b" |}] ∧
  (assert_schema_up_to_date 9 2 again.2).1 = Ok 2 ∧ postflight_status <$> ledger again.2 !! 1 = Some "failed".
Proof. vm_compute. split_and!; reflexivity. Qed.
(** Two files of one version are both executed, and every later run is refused. *)
Lemma same_version_twice :
  let dir := [("0001_a.sql", "A"); ("0001_b.sql", "B")] in
  let run := apply_all logging (λ _, 7) dir "ops" None None fresh_db in
  schema run.2 = ["A"; "B"] ∧ is_ok run.1 = true ∧ (apply_all logging (λ _, 8) dir "ops" None None run.2).1 = Err (MigrationChecksumMismatch 1).
Proof. vm_compute. split_and!; reflexivity. Qed.
End Demo.
End Migrations.
