(* ===== verification/Operations.v ===== *)
(** * Operating the system

    [packages/platform/deployment_authorization.py] with
    [scripts/authorize_deployment.py], [restore_drill.py] with
    [scripts/run_restore_drill.py], [invariant_checks.py] and [alerts.py] with
    their gates. What GitHub says of a pull request, the manifest file, the
    programs that back up and restore and the text of a database URL without its
    credentials are parameters; the checks read the tables of the other
    components. *)

From stdpp Require Import base gmap sets strings list sorting relations.
From Stdlib Require Import ZArith Lia.
From S2P Require Import Prelude Json PyStr Query Lifecycle PolicyStore Jobs ExceptionQueue TenderDb Accounts Migrations.

Module Operations.
Import TenderDb Migrations.
#[local] Open Scope Z_scope.

(** ** Deployment authorization *)

Definition verify_distinct_approver (initiator approver : string) : bool := negb (String.eqb initiator approver).
Definition verify_digest_match (manifest : json) (commit_sha : string) : result exn bool :=
  let! sha := py_get manifest "commit_sha" in Ok (py_eq sha (JStr commit_sha)).
Record authorization_row := {
  aw_commit_sha : string; aw_image_digests : json; initiator : string; approver : string;
  db_schema_version_at_authorization : Z; authorized_at : Z; notes : option string }.
Definition record_authorization (now : Z) (commit_sha : string) (images : json) (by_ ok_by : string) (v : Z) (note : option string)
    (t : table authorization_row) : result exn (Z * table authorization_row) :=
  raise_if negb ((- 2 ^ 31 <=? v) && (v <? 2 ^ 31)) with DataError "value out of int32 range" ;;
  Ok (tbl_insert t {| aw_commit_sha := commit_sha; aw_image_digests := images; initiator := by_; approver := ok_by;
                      db_schema_version_at_authorization := v; authorized_at := now; notes := note |}).
Definition get_authorization (i : Z) (t : table authorization_row) : option (Z * authorization_row) := (λ r, (i, r)) <$> tbl_get t i.
(** [ORDER BY at DESC, id DESC] *)
Definition newest {R} (at_ : R → Z) (x y : Z * R) : bool :=
  (at_ y.2 <? at_ x.2) || ((at_ x.2 =? at_ y.2) && (y.1 <=? x.1)).
Definition latest_authorization_for_commit (commit_sha : string) (t : table authorization_row) : option (Z * authorization_row) :=
  head (order_by (newest authorized_at) (tbl_select (λ _ r, String.eqb (aw_commit_sha r) commit_sha) t)).

Inductive authorize_error := AuthorizationRefused (msg : string) | AuthorizeUncaught (e : exn).
Definition authorize_uncaught {A} (m : result exn A) : result authorize_error A := map_err AuthorizeUncaught m.
(** [dict.get(key, default)] of a value that should be an object *)
Definition py_get_default (v : json) (k : string) (d : json) : result exn json :=
  match v with JObj l => Ok (default d (assoc k l)) | _ => Err (no_attribute v "get") end.

Section Authorize.
Context `{PyText} {DB : Type}.
(** [manifest] is [None] when the file does not exist, else what reading it
    gives; [pr_info] is what [gh api] says. *)
Definition load_manifest (path : string) (manifest : option (result exn json)) : result authorize_error json :=
  match manifest with
  | None => Err (AuthorizationRefused ("release manifest not found: " +:+ path))
  | Some m => authorize_uncaught m
  end.
Definition authorize (now pr_number : Z) (ok_by : string) (pr_info : result exn (string * string)) (path : string)
    (manifest : option (result exn json)) (note : option string) (expected : Z) (s : mdb (DB := DB) * table authorization_row)
    : result authorize_error Z * (mdb (DB := DB) * table authorization_row) :=
  let before : result authorize_error (string * string * json) :=
    let! ' (by_, commit_sha) := authorize_uncaught pr_info in
    raise_if negb (verify_distinct_approver by_ ok_by)
      with AuthorizationRefused ("approver (" +:+ py_repr ok_by +:+ ") must be distinct from the initiator (" +:+ py_repr by_ +:+ ") -- FR-AUT-06/INV-14") ;;
    let! m := load_manifest path manifest in
    let! ok := authorize_uncaught (verify_digest_match m commit_sha) in
    let! sha := authorize_uncaught (py_get m "commit_sha") in
    raise_if negb ok
      with AuthorizationRefused ("release manifest's commit_sha (" +:+ json_repr sha +:+ ") does not match PR #" +:+ py_str_Z pr_number +:+
        "'s commit (" +:+ py_repr commit_sha +:+ ")") ;;
    Ok (by_, commit_sha, m) in
  match before with
  | Err e => (Err e, s)
  | Ok (by_, commit_sha, m) =>
      let ' (current, ms) := current_version now s.1 in
      if bool_decide (current = Some expected) then
        match (let! images := authorize_uncaught (py_get_default m "images" (JObj [])) in
               authorize_uncaught (record_authorization now commit_sha images by_ ok_by expected note s.2)) with
        | Err e => (Err e, (ms, s.2))
        | Ok (i, t) => (Ok i, (ms, t))
        end
      else (Err (AuthorizationRefused ("DB schema version mismatch: target DB is at " +:+
              match current with Some v => py_str_Z v | None => "None" end +:+ ", this codebase expects " +:+ py_str_Z expected)), (ms, s.2))
  end.
End Authorize.

(** ** Restore drills *)

Record drill_row := { backup_filename : string; target_database : string; dl_passed : bool; dl_detail : string; drilled_at : Z }.
Definition record_restore_drill (now : Z) (file target : string) (passed : bool) (why : string) (t : table drill_row) : Z * table drill_row :=
  tbl_insert t {| backup_filename := file; target_database := target; dl_passed := passed; dl_detail := why; drilled_at := now |}.
Definition latest_passing_drill (t : table drill_row) : option (Z * drill_row) :=
  head (order_by (newest drilled_at) (tbl_select (λ _ r, dl_passed r) t)).
(** [backup] and [restore] give the name of the file and nothing, or the text of a
    [BackupError] and of a [RestoreError]; [target] is the drill database without
    its credentials. The result is the exit code. *)
Definition run_drill (now : Z) (target : string) (backup : result string string) (restore : string → result string unit)
    (t : table drill_row) : Z * table drill_row :=
  let ' (file, passed, why) :=
    match backup with
    | Err e => ("(backup failed)", false, e)
    | Ok name =>
        match restore name with
        | Err e => (name, false, e)
        | Ok _ => (name, true, "restored " +:+ name +:+ " into drill target successfully")
        end
    end in
  let ' (_, t') := record_restore_drill now file target passed why t in
  (if passed then 0 else 1, t').

(** ** Invariant checks *)

Record InvariantResult := { iv_name : string; passed : bool; iv_detail : string }.
(** The tables the checks read. No migration creates [notifications]; a row of it
    is the user it names. *)
Record live := {
  policies : Store.db; accounts : Accounts.adb; notifications : option (table (option Z));
  live_jobs : table Jobs.job_row; live_exceptions : table ExceptionQueue.Exceptions.exception_row }.
Definition sample (l : list string) : string := str_join ", " (take 10 l) +:+ (if (10 <? length l)%nat then ", ..." else "").
Definition count_text {A} (l : list A) : string := py_str_Z (Z.of_nat (length l)).

Definition orphaned_notifications (s : live) (t : table (option Z)) : list (Z * option Z) :=
  tbl_select (λ _ r, match r with Some u => negb (exists_in (Accounts.users (accounts s)) u) | None => true end) t.
Definition no_orphaned_notifications (s : live) : InvariantResult :=
  let name := "no_orphaned_notifications" in
  match notifications s with
  | None => {| iv_name := name; passed := true;
               iv_detail := "notifications table does not exist in this schema (no migration creates it yet) -- vacuously satisfied, not checked" |}
  | Some t =>
      match orphaned_notifications s t with
      | [] => {| iv_name := name; passed := true; iv_detail := "no orphaned notifications.user_id rows found" |}
      | orphans => {| iv_name := name; passed := false;
          iv_detail := count_text orphans +:+ " notifications row(s) reference a non-existent users.id (notification id(s): " +:+
            sample (map (λ ir, py_str_Z ir.1) orphans) +:+ ")" |}
      end
  end.

(** The graphs with several active versions, in order, each with their number *)
Definition active_violations (d : Store.db) : list (Z * Z) :=
  let graphs := merge_sort Z.le (elements (list_to_set (map (λ ir, Store.vr_graph ir.2)
    (tbl_select (λ _ r, String.eqb (Store.vr_status r) "active") (Store.policy_versions d))) : gset Z)) in
  filter (λ gn, 1 < gn.2) (map (λ g, (g, Z.of_nat (length (Store.active_of g d)))) graphs).
Definition policy_versions_one_active_per_graph (s : live) : InvariantResult :=
  let name := "policy_versions_one_active_per_graph" in
  match active_violations (policies s) with
  | [] => {| iv_name := name; passed := true; iv_detail := "every policy_graph_id has at most one active policy_versions row" |}
  | violations => {| iv_name := name; passed := false;
      iv_detail := count_text violations +:+ " policy_graph_id(s) have more than one active version: " +:+
        str_join ", " (map (λ gn, "policy_graph_id=" +:+ py_str_Z gn.1 +:+ " (" +:+ py_str_Z gn.2 +:+ " active)") violations) |}
  end.

Definition orphaned_users (d : Accounts.adb) : list (Z * Accounts.user_row) :=
  tbl_select (λ _ u, negb (exists_in (Accounts.roles d) (Accounts.role_id u))) (Accounts.users d).
Definition no_orphaned_user_roles (s : live) : InvariantResult :=
  let name := "no_orphaned_user_roles" in
  match orphaned_users (accounts s) with
  | [] => {| iv_name := name; passed := true; iv_detail := "no orphaned users.role_id rows found" |}
  | orphans => {| iv_name := name; passed := false;
      iv_detail := count_text orphans +:+ " users row(s) reference a non-existent roles.id (id:username: " +:+
        sample (map (λ ir, py_str_Z ir.1 +:+ ":" +:+ Accounts.username ir.2) orphans) +:+ ")" |}
  end.
Definition ALL_CHECKS : list (live → InvariantResult) :=
  [no_orphaned_notifications; policy_versions_one_active_per_graph; no_orphaned_user_roles].
(** [scripts/check_invariants.py]: the exit code *)
Definition check_invariants (s : live) : Z := if forallb (λ c, passed (c s)) ALL_CHECKS then 0 else 1.

(** ** Alerts *)

Definition alert (name : string) (b : bool) (why : string) : AlertResult := {| al_name := name; firing := b; detail := why |}.
Definition dead_lettered_jobs_present (s : live) : AlertResult :=
  match Jobs.list_dead_lettered (live_jobs s) with
  | [] => alert "dead_lettered_jobs_present" false "no dead-lettered jobs"
  | dead => alert "dead_lettered_jobs_present" true
      (count_text dead +:+ " dead-lettered job(s): " +:+ str_join ", " (map (λ ir, py_str_Z ir.1) dead))
  end.
Definition exception_queue_has_open_items (s : live) : AlertResult :=
  match ExceptionQueue.Exceptions.list_open None (live_exceptions s) with
  | [] => alert "exception_queue_has_open_items" false "exception queue is empty"
  | open => alert "exception_queue_has_open_items" true (count_text open +:+ " open exception_queue row(s)")
  end.
Definition invariant_violation_detected (s : live) : AlertResult :=
  match filter (λ r, passed r = false) (map (λ c, c s) ALL_CHECKS) with
  | [] => alert "invariant_violation_detected" false "all DB invariants pass"
  | failing => alert "invariant_violation_detected" true ("failing invariant(s): " +:+ str_join ", " (map iv_name failing))
  end.
Definition ALL_ALERTS : list (live → AlertResult) :=
  [dead_lettered_jobs_present; exception_queue_has_open_items; invariant_violation_detected].
(** [scripts/check_alerts.py], with the alert of the tender side *)
Definition check_alerts (s : live) (snapshots : table snapshot_row) : Z :=
  if forallb (λ c, negb (firing (c s))) ALL_ALERTS && negb (firing (source_never_succeeded snapshots)) then 0 else 1.

(** ** Readiness

    [readiness] of [app_factory.py]. [unreachable] is the text of the error that
    reading the ledger raised. *)

Definition not_ready (msg : string) (more : option (list json)) : Api.http_error exn :=
  Api.Api {| Api.status_code := 503; Api.error_code := "not_ready"; Api.error_message := msg; Api.details := more |}.
Definition readiness {DB} (now expected : Z) (unreachable : option string) (s : mdb (DB := DB)) : result (Api.http_error exn) Z * mdb (DB := DB) :=
  match unreachable with
  | Some why => (Err (not_ready ("database unreachable: " +:+ why) None), s)
  | None =>
      let ' (current, s') := current_version now s in
      let mismatch := not_ready "schema version mismatch"
        (Some [JObj [("expected", JInt expected); ("actual", match current with Some v => JInt v | None => JNull end)]]) in
      match current with
      | Some v => (if v =? expected then Ok v else Err mismatch, s')
      | None => (Err mismatch, s')
      end
  end.
End Operations.
