(* ===== verification/OperationsRules.v ===== *)
(** * What deployment authorizations and live checks come to

    Authorizations over every history of runs of migrations and of the command,
    the newest row a look-up gives, and the invariant alert: it fires exactly on a
    broken invariant, and never on what the modelled operations lead to. *)

From stdpp Require Import base gmap sets strings list sorting relations.
From Stdlib Require Import ZArith Lia.
From S2P Require Import Prelude Json PyStr Query Lifecycle PolicyStore PolicyRules Idempotency TenderDb Accounts AdminHistory Migrations Operations.

Module OperationsRules.
Import TenderDb Migrations Operations.
#[local] Open Scope Z_scope.

(** ** The newest row *)

Lemma newest_total {R} (at_ : R → Z) x y : newest at_ x y = true ∨ newest at_ y x = true.
Proof. unfold newest. rewrite !orb_true_iff, !andb_true_iff, !Z.ltb_lt, !Z.eqb_eq, !Z.leb_le. lia. Qed.
Lemma newest_trans {R} (at_ : R → Z) x y z : newest at_ x y = true → newest at_ y z = true → newest at_ x z = true.
Proof. unfold newest. rewrite !orb_true_iff, !andb_true_iff, !Z.ltb_lt, !Z.eqb_eq, !Z.leb_le. lia. Qed.
(** The row with the latest time, and among these with the largest id *)
Definition latest_in {R} (at_ : R → Z) (p : R → bool) (t : table R) (x : Z * R) : Prop :=
  tbl_get t x.1 = Some x.2 ∧ p x.2 = true ∧
  ∀ i r, tbl_get t i = Some r → p r = true → at_ r < at_ x.2 ∨ (at_ r = at_ x.2 ∧ i <= x.1).
Lemma newest_head {R} (at_ : R → Z) (p : R → bool) (t : table R) : tbl_wf t →
  match head (order_by (newest at_) (tbl_select (λ _ r, p r) t)) with
  | Some x => latest_in at_ p t x
  | None => ∀ i r, tbl_get t i = Some r → p r = false
  end.
Proof.
  intros Hw. destruct (order_by _ _) as [|x l] eqn:Ho; simpl.
  - apply order_by_nil in Ho. intros i r Hr%tbl_get_spec; [|done]. destruct (p r) eqn:Hp; [|done]. exfalso.
    assert ((i, r) ∈ tbl_select (λ _ r, p r) t) as Hin by (by apply elem_of_tbl_select). rewrite Ho in Hin. by apply elem_of_nil in Hin.
  - destruct (order_by_head _ (newest_total at_) (newest_trans at_) _ _ _ Ho) as [Hx Hmin]. destruct x as [i r].
    apply elem_of_tbl_select in Hx as [Hp Hin]. split; [by apply tbl_get_spec|]. split; [done|]. intros j s Hs%tbl_get_spec Hps; [|done].
    destruct (Hmin (j, s)) as [Hn|[= -> ->]]; [by apply elem_of_tbl_select| |simpl; lia].
    unfold newest in Hn. simpl in *. rewrite orb_true_iff, andb_true_iff, Z.ltb_lt, Z.eqb_eq, Z.leb_le in Hn. lia.
Qed.

(** ** Authorizations *)

Section Authorizations.
Context `{PyText} `{Bytes} {DB : Type} (execute : string → DB → result exn DB).
Abbreviation state := (mdb (DB := DB) * table authorization_row)%type.
(** The world outside: what [gh api] says of a pull request, and what reading
    the file at a path gives, at an instant. It is fixed; the command has no say
    in it. *)
Variable github : Z → Z → result exn (string * string).
Variable manifest_at : Z → string → option (result exn json).

(** What a run of the command found before it wrote the row *)
Definition backed (ok_by : string) (pr_info : result exn (string * string)) (manifest : option (result exn json)) (expected : Z)
    (r : authorization_row) : Prop :=
  ∃ l, pr_info = Ok (initiator r, aw_commit_sha r) ∧ approver r = ok_by ∧ initiator r ≠ ok_by ∧ manifest = Some (Ok (JObj l)) ∧
    dict_get "commit_sha" l = JStr (aw_commit_sha r) ∧ aw_image_digests r = default (JObj []) (assoc "images" l) ∧
    db_schema_version_at_authorization r = expected.
Lemma py_eq_str v s : py_eq v (JStr s) = true → v = JStr s.
Proof. destruct v; try done. simpl. by intros ->%String.eqb_eq. Qed.
Lemma authorize_spec now n ok_by pr_info path manifest note expected (s : state) r s' :
  authorize now n ok_by pr_info path manifest note expected s = (r, s') →
  (s'.1 = s.1 ∨ s'.1 = (current_version now s.1).2) ∧
  match r with
  | Ok i => ∃ row, i = next_id s.2 ∧ s'.2 = (tbl_insert s.2 row).2 ∧ backed ok_by pr_info manifest expected row ∧
      authorized_at row = now ∧ notes row = note ∧ (current_version now s.1).1 = Some expected
  | Err _ => s'.2 = s.2
  end.
Proof.
  unfold authorize. destruct pr_info as [[by_ sha]|e]; simpl; [|intros [= <- <-]; by split; [left|]].
  unfold verify_distinct_approver. destruct (String.eqb_spec by_ ok_by) as [->|Hne]; simpl; [intros [= <- <-]; by split; [left|]|].
  destruct manifest as [[m|e]|]; simpl; [|intros [= <- <-]; by split; [left|]..].
  unfold verify_digest_match, py_get. destruct m as [| | | | | |l]; simpl; try (intros [= <- <-]; by split; [left|]).
  destruct (py_eq (dict_get "commit_sha" l) (JStr sha)) eqn:Heq; simpl; [|intros [= <- <-]; by split; [left|]]. apply py_eq_str in Heq.
  destruct (current_version now s.1) as [cur ms]. case_bool_decide as Hcur; [|intros [= <- <-]; by split; [right|]].
  unfold record_authorization. destruct (negb _); simpl; [intros [= <- <-]; by split; [right|]|]. intros [= <- <-]. split; [by right|].
  eexists. split; [done|]. split; [done|]. split; [|by split_and!]. exists l. by split_and!.
Qed.

(** The command on a pull request, by an operator who gives the name of the
    approver, the path of the manifest and the notes *)
Definition authorize_run (now n : Z) (ok_by path : string) (note : option string) (expected : Z) : state → result authorize_error Z * state :=
  authorize now n ok_by (github now n) path (manifest_at now path) note expected.
Inductive astep : state → state → Prop :=
| Authorize now n ok_by path note expected r s s' : authorize_run now n ok_by path note expected s = (r, s') → astep s s'
| Migrate ms ms' t : mstep execute ms ms' → astep (ms, t) (ms', t).
(** The row was written by a run of the command at a moment of the history: for
    the author and the commit GitHub gave then for its pull request, the manifest
    the file held then, and the schema as the database was. *)
Definition earned (s s2 : state) (i : Z) (r : authorization_row) : Prop :=
  ∃ n path expected s1 s1', rtc astep s s1 ∧
    authorize_run (authorized_at r) n (approver r) path (notes r) expected s1 = (Ok i, s1') ∧ tbl_get s1'.2 i = Some r ∧ rtc astep s1' s2 ∧
    (∃ l, github (authorized_at r) n = Ok (initiator r, aw_commit_sha r) ∧ manifest_at (authorized_at r) path = Some (Ok (JObj l)) ∧
       dict_get "commit_sha" l = JStr (aw_commit_sha r) ∧ aw_image_digests r = default (JObj []) (assoc "images" l)) ∧
    (current_version (authorized_at r) s1.1).1 = Some (db_schema_version_at_authorization r) ∧ db_schema_version_at_authorization r = expected.

Lemma earned_later s s1 s2 i r : earned s s1 i r → astep s1 s2 → earned s s2 i r.
Proof using Type.
  intros (n & path & ex & t & t' & H1 & H2 & H3 & H4 & H5) Hs. exists n, path, ex, t, t'. split_and!; [done..|by eapply rtc_r|apply H5|apply H5|apply H5].
Qed.
Lemma astep_keeps s s' : tbl_wf s.2 → astep s s' → tbl_wf s'.2 ∧ ∀ i r, tbl_get s.2 i = Some r → tbl_get s'.2 i = Some r.
Proof using Type.
  intros Hw Hstep. inversion Hstep as [now n ok_by path note ex r ? ? Ha|]; subst; [|done].
  apply authorize_spec in Ha as [_ Ha]. destruct r as [j|e]; [|by rewrite Ha]. destruct Ha as (row & _ & -> & _).
  split; [by apply tbl_insert_wf|]. intros i x Hx. rewrite tbl_get_insert_old; [done|]. intros ->. by rewrite tbl_get_next in Hx.
Qed.
Lemma astep_new s0 s s' i r : rtc astep s0 s → tbl_wf s.2 → astep s s' → tbl_get s'.2 i = Some r →
  tbl_get s.2 i = Some r ∨ (initiator r ≠ approver r ∧ earned s0 s' i r).
Proof using Type.
  intros Hpre Hw Hstep Hr. inversion Hstep as [now n ok_by path note ex res ? ? Ha|]; subst; [|by left].
  pose proof Ha as Hcall. apply authorize_spec in Ha as [_ Ha]. destruct res as [j|e]; [|left; by rewrite Ha in Hr].
  destruct Ha as (row & -> & Hs' & Hb & Hat & Hnote & Hcur). destruct (decide (i = next_id s.2)) as [->|Hne].
  - right. rewrite Hs', tbl_get_insert_new in Hr by done. injection Hr as ->.
    destruct Hb as (l & Hpr & Hby & Hne & Hman & Hsha & Himg & Hver). subst ok_by now note. split; [congruence|].
    exists n, path, ex, s, s'. split_and!; [done|done|by rewrite Hs', tbl_get_insert_new|done|by exists l|by rewrite Hver|done].
  - left. by rewrite Hs', tbl_get_insert_old in Hr by done.
Qed.
Lemma history s s' : rtc astep s s' → tbl_wf s.2 → tbl_wf s'.2 ∧
  (∀ i r, tbl_get s.2 i = Some r → tbl_get s'.2 i = Some r) ∧
  ∀ i r, tbl_get s'.2 i = Some r → tbl_get s.2 i = Some r ∨ (initiator r ≠ approver r ∧ earned s s' i r).
Proof using Type.
  intros Hs Hw. revert s' Hs. apply (rtc_ind_r _ s); [by auto|]. intros s1 s2 Hpre Hstep (Hw1 & Hk & He).
  destruct (astep_keeps s1 s2 Hw1 Hstep) as [Hw2 Hk2]. split; [done|]. split; [by auto|]. intros i r Hr.
  destruct (astep_new s s1 s2 i r Hpre Hw1 Hstep Hr) as [Hr1|Hnew]; [|by right].
  destruct (He i r Hr1) as [|[Hne Hx]]; [by left|right]. split; [done|by eapply earned_later].
Qed.

(** C16: over every history of authorizations and migrations, from an empty table
    and whatever GitHub and the files say: a row is there only because a run of
    the command wrote it, for an approver other than the author GitHub named for
    the pull request, for the commit GitHub named, which the manifest of that run
    names too, with the manifest's images, at a moment the schema was at the
    version expected. A refusal writes nothing, no row is changed or lost, and the
    authorization found for a commit is its newest; none is found only if there is
    none. *)
Theorem authorization_gate ms0 s : rtc astep (ms0, tbl_empty) s →
  (∀ i r, tbl_get s.2 i = Some r → initiator r ≠ approver r ∧ earned (ms0, tbl_empty) s i r) ∧
  (∀ now n ok_by path note expected e s', authorize_run now n ok_by path note expected s = (Err e, s') → s'.2 = s.2) ∧
  (∀ s' i r, rtc astep s s' → tbl_get s.2 i = Some r → tbl_get s'.2 i = Some r) ∧
  (∀ commit_sha, match latest_authorization_for_commit commit_sha s.2 with
     | Some x => latest_in authorized_at (λ r, String.eqb (aw_commit_sha r) commit_sha) s.2 x
     | None => ∀ i r, tbl_get s.2 i = Some r → aw_commit_sha r ≠ commit_sha
     end).
Proof using Type.
  intros Hs. destruct (history _ _ Hs tbl_empty_wf) as (Hw & _ & He). split; [|split; [|split]].
  - intros i r Hr. by destruct (He i r Hr) as [Hx|Hx].
  - intros now n ok_by path note ex e s' Hr. by apply authorize_spec in Hr as [_ Hr].
  - intros s' i r Hs' Hr. by apply (history _ _ Hs' Hw).
  - intros c. unfold latest_authorization_for_commit. pose proof (newest_head authorized_at (λ r, String.eqb (aw_commit_sha r) c) s.2 Hw) as Hn.
    destruct (head _) as [x|]; [done|]. intros i r Hr. by apply String.eqb_neq, (Hn i).
Qed.
End Authorizations.

(** ** The invariant alert *)

Definition invariants_hold (s : live) : Prop :=
  (∀ t, notifications s = Some t → ∀ i u, (i, u) ∈ rows t → ∃ v, u = Some v ∧ is_Some (tbl_get (Accounts.users (accounts s)) v)) ∧
  (∀ g, (length (Store.active_of g (policies s)) <= 1)%nat) ∧
  (∀ i u, tbl_get (Accounts.users (accounts s)) i = Some u → is_Some (tbl_get (Accounts.roles (accounts s)) (Accounts.role_id u))).

Lemma select_nil {R} (p : Z → R → bool) (t : table R) : tbl_select p t = [] ↔ ∀ i r, (i, r) ∈ rows t → p i r = false.
Proof.
  rewrite nil_no_elem. split.
  - intros Hn i r Hr. destruct (p i r) eqn:Hp; [|done]. destruct (Hn (i, r)). by apply elem_of_tbl_select.
  - intros Hp [i r] [Ht Hr]%elem_of_tbl_select. by rewrite Hp in Ht.
Qed.
Lemma passed_nil {A} (l : list A) x y : passed x = true → (∀ a k, passed (y a k) = false) →
  passed match l with [] => x | a :: k => y a k end = true ↔ l = [].
Proof. intros Hx Hy. destruct l as [|a k]; [done|]. by rewrite Hy. Qed.
Lemma notifications_check s : passed (no_orphaned_notifications s) = true ↔
  ∀ t, notifications s = Some t → ∀ i u, (i, u) ∈ rows t → ∃ v, u = Some v ∧ is_Some (tbl_get (Accounts.users (accounts s)) v).
Proof.
  unfold no_orphaned_notifications. destruct (notifications s) as [t|]; [|by split].
  etrans; [by apply passed_nil|].
  unfold orphaned_notifications. rewrite select_nil. split.
  - intros Hall t' [= <-] i u Hu. specialize (Hall i u Hu). destruct u as [v|]; [|done]. exists v. split; [done|].
    by apply exists_in_spec, negb_false_iff.
  - intros Hall i u Hu. destruct (Hall t eq_refl i u Hu) as (v & -> & Hv). by apply negb_false_iff, exists_in_spec.
Qed.
Lemma active_check s : passed (policy_versions_one_active_per_graph s) = true ↔ ∀ g, (length (Store.active_of g (policies s)) <= 1)%nat.
Proof.
  unfold policy_versions_one_active_per_graph.
  etrans; [by apply passed_nil|].
  unfold active_violations. rewrite nil_no_elem. split.
  - intros Hn g. destruct (decide (length (Store.active_of g (policies s)) <= 1)%nat) as [|Hlt]; [done|]. exfalso.
    apply (Hn (g, Z.of_nat (length (Store.active_of g (policies s))))). apply list_elem_of_filter. split; [simpl; lia|].
    apply list_elem_of_fmap. exists g. split; [done|]. rewrite merge_sort_Permutation, elem_of_elements, elem_of_list_to_set.
    destruct (Store.active_of g (policies s)) as [|i l] eqn:Ha; [simpl in Hlt; lia|].
    assert (i ∈ Store.active_of g (policies s)) as Hi by (rewrite Ha; by left). unfold Store.active_of in Hi.
    apply list_elem_of_fmap in Hi as ([j r] & -> & [[Hg Hst]%bool_decide_eq_true_1 Hr]%elem_of_tbl_select). apply list_elem_of_fmap.
    exists (j, r). split; [done|]. apply elem_of_tbl_select. split; [by apply String.eqb_eq|done].
  - intros Hle [g n] [Hn (g' & [= -> ->] & _)%list_elem_of_fmap]%list_elem_of_filter. simpl in Hn. specialize (Hle g'). lia.
Qed.
Lemma roles_check s : tbl_wf (Accounts.users (accounts s)) → passed (no_orphaned_user_roles s) = true ↔
  ∀ i u, tbl_get (Accounts.users (accounts s)) i = Some u → is_Some (tbl_get (Accounts.roles (accounts s)) (Accounts.role_id u)).
Proof.
  intros Hw. unfold no_orphaned_user_roles.
  etrans; [by apply passed_nil|].
  unfold orphaned_users. rewrite select_nil. setoid_rewrite negb_false_iff. setoid_rewrite exists_in_spec.
  split; intros Hall i u Hu; apply (Hall i u); by apply tbl_get_spec.
Qed.
Lemma all_pass s : tbl_wf (Accounts.users (accounts s)) → Forall (λ c, passed (c s) = true) ALL_CHECKS ↔ invariants_hold s.
Proof.
  intros Hw. unfold invariants_hold, ALL_CHECKS. rewrite !Forall_cons, Forall_nil, notifications_check, active_check, roles_check by done. tauto.
Qed.
Lemma silent_nil {A} (l : list A) x y : firing x = false → (∀ a k, firing (y a k) = true) →
  firing match l with [] => x | a :: k => y a k end = false ↔ l = [].
Proof. intros Hx Hy. destruct l as [|a k]; [done|]. by rewrite Hy. Qed.
Lemma alert_spec s : firing (invariant_violation_detected s) = false ↔ Forall (λ c, passed (c s) = true) ALL_CHECKS.
Proof.
  unfold invariant_violation_detected.
  etrans; [by apply silent_nil|].
  rewrite nil_no_elem, Forall_forall. split.
  - intros Hn c Hc. destruct (passed (c s)) eqn:Hp; [done|]. destruct (Hn (c s)). apply list_elem_of_filter. split; [done|]. apply list_elem_of_fmap. by exists c.
  - intros Hall r [Hp Hr]%list_elem_of_filter. apply list_elem_of_fmap in Hr as (c & -> & Hc). by rewrite Hall in Hp.
Qed.
Lemma gate_spec s : check_invariants s = 0 ↔ Forall (λ c, passed (c s) = true) ALL_CHECKS.
Proof.
  unfold check_invariants. assert (forallb (λ c, passed (c s)) ALL_CHECKS = true ↔ Forall (λ c, passed (c s) = true) ALL_CHECKS) as <-
    by (rewrite forallb_forall, Forall_forall; by setoid_rewrite list_elem_of_In). by destruct (forallb _ _).
Qed.

(** Whatever the tables hold, the invariant alert fires and the gate fails exactly
    if one of the invariants is broken: a notification without its user, a graph
    with two active versions or a user without a role. On the policies and
    accounts that any history of the store's calls and of the accounts' requests
    leads to, in the schema as it is, it never fires. *)
Theorem alert_decides_invariants `{PyText} `{Idempotency.Fingerprints} `{Accounts.Argon2} context s :
  tbl_wf (Accounts.users (accounts s)) →
  (firing (invariant_violation_detected s) = true ↔ ¬ invariants_hold s) ∧
  (check_invariants s = 0 ↔ invariants_hold s) ∧
  ∀ h d, AdminHistory.wf d → accounts s = AdminHistory.run context h d → reachable (policies s) → notifications s = None →
    firing (invariant_violation_detected s) = false ∧ check_invariants s = 0.
Proof.
  intros Hw. assert (firing (invariant_violation_detected s) = false ↔ invariants_hold s) as Hal by (by rewrite alert_spec, all_pass).
  assert (check_invariants s = 0 ↔ invariants_hold s) as Hg by (by rewrite gate_spec, all_pass). split; [|split; [done|]].
  - rewrite <-Hal. by destruct (firing _).
  - intros h d Hd Ha Hp Hn. rewrite Hal, Hg. assert (invariants_hold s); [|done].
    pose proof (AdminHistory.run_users_wf context h d Hd) as Hwf. rewrite <-Ha in Hwf. split; [by rewrite Hn|]. split; [apply (reachable_ok _ Hp)|].
    intros i u Hu. apply (AdminHistory.wf_user _ Hwf i u Hu).
Qed.

(** ** Examples *)

(** The probe of readiness and the check at start-up agree. *)
Lemma readiness_agrees {DB} now expected (s : mdb (DB := DB)) :
  (readiness now expected None s).1 = Ok expected ↔ (assert_schema_up_to_date now expected s).1 = Ok expected.
Proof.
  unfold readiness, assert_schema_up_to_date. destruct (current_version now s) as [[v|] s']; simpl; [|done].
  destruct (v =? expected); split; try done; by intros [= ->].
Qed.
(** Both write: on a database without a ledger they make it, with its first row. *)
Lemma probe_writes {DB} now expected (x : DB) :
  ledger (readiness now expected None (Mdb ∅ x)).2 = {[0 := bootstrap_row now]} ∧
  ledger (assert_schema_up_to_date now expected (Mdb ∅ x)).2 = {[0 := bootstrap_row now]}.
Proof.
  unfold readiness, assert_schema_up_to_date. destruct (current_version now (Mdb ∅ x)) as [c s'] eqn:Hc.
  assert (ledger s' = {[0 := bootstrap_row now]}) as Hl by (injection Hc as _ <-; reflexivity).
  destruct c as [v|]; [destruct (v =? expected)|]; by split.
Qed.

Section Demo.
#[local] Existing Instance ascii_text.
#[local] Existing Instance demo_bytes.
#[local] Existing Instance AdminHistory.demo_hash.
#[local] Existing Instance AdminHistory.demo_argon2.
Definition demo_manifest : json := JObj [("commit_sha", JStr "c0ffee"); ("images", JObj [("api", JStr "sha256:1")])].
(** Start: the schema as two migrations left it, and no authorization *)
Definition deployed : mdb (DB := list string) * table authorization_row := (first_run.2, tbl_empty).
(** Pull request 12 is of [alice]; the manifest of its commit is in the file. *)
Definition demo_github (_ n : Z) : result exn (string * string) := if n =? 12 then Ok ("alice", "c0ffee") else Err (ValueError "404").
Definition demo_files (_ : Z) (path : string) : option (result exn json) :=
  if String.eqb path "release-manifest.json" then Some (Ok demo_manifest) else None.
Definition approved := authorize_run demo_github demo_files 9 12 "bob" "release-manifest.json" None 2 deployed.
Lemma authorization_gate_witness : rtc (astep logging demo_github demo_files) deployed approved.2 ∧
  ∃ r, tbl_get approved.2.2 1 = Some r ∧ initiator r = "alice" ∧ approver r = "bob" ∧ initiator r ≠ approver r.
Proof.
  assert (rtc (astep logging demo_github demo_files) deployed approved.2) as Hs.
  { apply rtc_once. destruct approved as [r s'] eqn:Ha. eapply Authorize. exact Ha. }
  split; [exact Hs|]. destruct (authorization_gate logging demo_github demo_files first_run.2 approved.2 Hs) as [Hall _].
  pose (x := tbl_get approved.2.2 1). destruct x as [r|] eqn:Hx; [|exfalso; revert Hx; vm_compute; discriminate]. subst x.
  exists r. split; [exact Hx|]. destruct (Hall 1 r Hx) as [Hne _].
  split; [revert Hx; vm_compute; intros [= <-]; reflexivity|]. split; [revert Hx; vm_compute; intros [= <-]; reflexivity|exact Hne].
Defined.
(** The name of the approver is what the operator types, and logins are compared
    as they are: the initiator passes under another spelling of the login. *)
Lemma own_approval : (authorize 9 12 "Alice" (Ok ("alice", "c0ffee")) "release-manifest.json" (Some (Ok demo_manifest)) None 2 deployed).1 = Ok 1.
Proof. vm_compute. reflexivity. Qed.
Definition demo_live : live := {|
  policies := active_db; accounts := AdminHistory.demo_accounts; notifications := None; live_jobs := tbl_empty; live_exceptions := tbl_empty |}.
Lemma alert_decides_invariants_witness : check_invariants demo_live = 0 ∧ firing (invariant_violation_detected demo_live) = false.
Proof.
  assert (tbl_wf (Accounts.users (accounts demo_live))) as Hw by (split; repeat constructor).
  destruct (alert_decides_invariants None demo_live Hw) as (_ & _ & Hgood).
  destruct (Hgood [] AdminHistory.demo_accounts AdminHistory.demo_wf eq_refl) as [Hf Hc]; [|reflexivity|split; [exact Hc|exact Hf]].
  apply script_db_reachable. vm_compute. reflexivity.
Defined.
(** A user whose role is gone makes it fire. *)
Lemma orphan_found : firing (invariant_violation_detected {| policies := active_db;
  accounts := Accounts.Adb (Table [(7, AdminHistory.demo_user "eve" 9)] 8) (Table [(1, "admin")] 2) tbl_empty [] ∅ tbl_empty ∅;
  notifications := None; live_jobs := tbl_empty; live_exceptions := tbl_empty |}) = true.
Proof. vm_compute. reflexivity. Qed.
End Demo.
End OperationsRules.
