(* ===== verification/Feedback.v ===== *)
(** * Pilot feedback

    [packages/platform/pilot_feedback.py] and its routes in
    [routers/pilot_feedback.py]: any pilot user submits, under an idempotency
    key, and a triager lists and resolves. The text of a time in a response is the
    parameter [iso]. *)

From stdpp Require Import base gmap sets strings list sorting relations.
From Stdlib Require Import ZArith Lia.
From S2P Require Import Prelude Json PyStr Query Api SchemaDrift Idempotency DecisionApi AdminHistory Operations OperationsRules.

Module Feedback.
Import Drift DecisionApi AdminHistory Operations OperationsRules.
#[local] Open Scope Z_scope.

Record feedback_row := {
  submitted_by : string; category : string; message : string; fb_status : string; resolution_note : option string;
  resolved_by : option string; fb_correlation_id : string; submitted_at : Z; resolved_at : option Z }.
Abbreviation PilotFeedback := (Z * feedback_row)%type.
Record fdb := Fdb { feedback : table feedback_row; feedback_keys : Idempotency.idem_table }.
Definition with_feedback x (d : fdb) := Fdb x (feedback_keys d).
Definition with_keys x (d : fdb) := Fdb (feedback d) x.

Definition CATEGORIES : list string := ["bug"; "question"; "feature_request"; "other"].
Definition submit_feedback (now : Z) (by_ cat msg corr : string) (d : fdb) : result exn (PilotFeedback * fdb) :=
  raise_if bool_decide (cat ∉ CATEGORIES) with IntegrityError "pilot_feedback_category_check" ;;
  let r := {| submitted_by := by_; category := cat; message := msg; fb_status := "open"; resolution_note := None; resolved_by := None;
              fb_correlation_id := corr; submitted_at := now; resolved_at := None |} in
  let ' (i, t) := tbl_insert (feedback d) r in Ok ((i, r), with_feedback t d).
Definition list_feedback (status : option string) (d : fdb) : list PilotFeedback :=
  order_by (newest submitted_at)
    (tbl_select (λ _ r, match status with Some s => String.eqb (fb_status r) s | None => true end) (feedback d)).
Inductive feedback_error := FeedbackNotFound (msg : string).
Definition resolve (now : Z) (by_ note : string) (r : feedback_row) : feedback_row := {|
  submitted_by := submitted_by r; category := category r; message := message r; fb_status := "resolved"; resolution_note := Some note;
  resolved_by := Some by_; fb_correlation_id := fb_correlation_id r; submitted_at := submitted_at r; resolved_at := Some now |}.
Definition resolve_feedback (now i : Z) (by_ note : string) (d : fdb) : result feedback_error (PilotFeedback * fdb) :=
  match tbl_get (feedback d) i with
  | None => Err (FeedbackNotFound ("pilot_feedback " +:+ py_str_Z i +:+ " not found"))
  | Some r => Ok ((i, resolve now by_ note r), with_feedback (tbl_set i (resolve now by_ note) (feedback d)) d)
  end.

Section Routes.
Context `{PyText} `{Idempotency.Fingerprints}.
Variable iso : Z → string.
(** The correlation id bound to the request *)
Variable corr : string.

Definition text_of (v : option string) : json := match v with Some s => JStr s | None => JNull end.
Definition to_response (f : PilotFeedback) : json :=
  let ' (i, r) := f in
  JObj [("id", JInt i); ("submitted_by", JStr (submitted_by r)); ("category", JStr (category r)); ("message", JStr (message r));
        ("status", JStr (fb_status r)); ("resolution_note", text_of (resolution_note r)); ("resolved_by", text_of (resolved_by r));
        ("submitted_at", JStr (iso (submitted_at r))); ("resolved_at", text_of (iso <$> resolved_at r))].
Record SubmitFeedbackRequest := { sq_category : string; sq_message : string }.
Definition dump_submission (b : SubmitFeedbackRequest) : payload := [("category", JStr (sq_category b)); ("message", JStr (sq_message b))].
Definition FEEDBACK_ROUTE : string := "POST /pilot-feedback".
Definition submit_work (now : Z) (i : Identity) (b : SubmitFeedbackRequest) (d : fdb) : http (json * fdb) :=
  let! ' (f, d') := uncaught (submit_feedback now (subject i) (sq_category b) (sq_message b) corr d) in Ok (to_response f, d').
Definition submit_feedback_route (now : Z) (i : Identity) (b : SubmitFeedbackRequest) (key : string) (d : fdb) : http (json * fdb) :=
  let! _ := require_permission "platform.feedback.submit" i in
  raise_if bool_decide (sq_category b ∉ CATEGORIES)
    with api_error 422 "invalid_category" ("category must be one of " +:+ py_repr_tuple CATEGORIES) ;;
  Idempotency.guarded feedback_keys with_keys Idempotency.key_reused key FEEDBACK_ROUTE (Idempotency.fingerprint (dump_submission b)) 201
    (submit_work now i b) d.
Definition list_feedback_route (i : Identity) (status : option string) (d : fdb) : http (list json) :=
  let! _ := require_permission "platform.feedback.triage" i in Ok (map to_response (list_feedback status d)).
Definition resolve_feedback_route (now : Z) (i : Identity) (feedback_id : Z) (note : string) (d : fdb) : http (json * fdb) :=
  let! _ := require_permission "platform.feedback.triage" i in
  match resolve_feedback now feedback_id (subject i) note d with
  | Err (FeedbackNotFound m) => Err (api_error 404 "not_found" m)
  | Ok (f, d') => Ok (to_response f, d')
  end.

(** ** Every history of requests *)

Inductive fstep : fdb → fdb → Prop :=
| FSubmit now i b key body d d' : submit_feedback_route now i b key d = Ok (body, d') → fstep d d'
| FResolve now i n note body d d' : resolve_feedback_route now i n note d = Ok (body, d') → fstep d d'.
Definition no_feedback : fdb := Fdb tbl_empty ∅.
Definition row_ok (r : feedback_row) : Prop :=
  category r ∈ CATEGORIES ∧
  ((fb_status r = "open" ∧ resolution_note r = None ∧ resolved_by r = None ∧ resolved_at r = None) ∨
   (fb_status r = "resolved" ∧ is_Some (resolution_note r) ∧ is_Some (resolved_by r) ∧ is_Some (resolved_at r))).
Record fsound (d : fdb) : Prop := {
  fs_wf : tbl_wf (feedback d);
  fs_rows : ∀ i r, tbl_get (feedback d) i = Some r → row_ok r;
  fs_keys : Idempotency.all_stored (feedback_keys d) }.
(** The submission is the same, and a resolved one stays resolved. *)
Definition kept (r r' : feedback_row) : Prop :=
  submitted_by r' = submitted_by r ∧ category r' = category r ∧ message r' = message r ∧ submitted_at r' = submitted_at r ∧
  fb_correlation_id r' = fb_correlation_id r ∧ (fb_status r = "resolved" → fb_status r' = "resolved").
Lemma kept_refl r : kept r r.
Proof. unfold kept. by split_and!; [..|intros]. Qed.
#[local] Existing Instance Idempotency.remembers_preorder.
Record grows (d d' : fdb) : Prop := {
  gr_rows : ∀ i r, tbl_get (feedback d) i = Some r → ∃ r', tbl_get (feedback d') i = Some r' ∧ kept r r';
  gr_keys : Idempotency.remembers (feedback_keys d) (feedback_keys d') }.
#[local] Instance grows_preorder : PreOrder grows.
Proof.
  split; [intros d; split; [intros i r Hr; exists r; split; [done|apply kept_refl]|reflexivity]|]. intros d1 d2 d3 [R1 K1] [R2 K2]. split; [|by etrans].
  intros i r Hr. destruct (R1 i r Hr) as (r1 & Hr1 & ? & ? & ? & ? & ? & ?). destruct (R2 i r1 Hr1) as (r2 & Hr2 & ? & ? & ? & ? & ? & ?).
  exists r2. split; [done|]. split_and!; [congruence..|auto].
Qed.
Lemma with_keys_id d : with_keys (feedback_keys d) d = d.
Proof. by destruct d. Qed.

Lemma submit_sound now i b key body d d' : fsound d → submit_feedback_route now i b key d = Ok (body, d') →
  fsound d' ∧ grows d d' ∧
  Idempotency.answered key FEEDBACK_ROUTE (Idempotency.fingerprint (dump_submission b)) body (feedback_keys d') ∧ sq_category b ∈ CATEGORIES.
Proof.
  intros [Hw Hr Hk]. unfold submit_feedback_route. intros (_ & _ & Hg)%rbind_ok. case_bool_decide as Hcat; [done|].
  destruct (Idempotency.guarded_cases _ _ _ (λ _ _, eq_refl) with_keys_id _ _ _ _ _ _ _ _ Hk Hg) as [[-> Ha]|(t & d1 & _ & Hwork & -> & Hnew)]; [by split; [|split]|].
  unfold submit_work, submit_feedback in Hwork. rewrite bool_decide_false in Hwork by (intros Hn; by apply Hn).
  change (feedback (with_keys t d)) with (feedback d) in Hwork. set (r0 := {| submitted_by := _ |}) in Hwork.
  assert (row_ok r0) as Hr0 by (split; [done|by left]).
  destruct (tbl_insert (feedback d) r0) as [n tb] eqn:Hins. simpl in Hwork. injection Hwork as Hbody <-.
  assert (tb = (tbl_insert (feedback d) r0).2) as Htb by (by rewrite Hins). clear Hins. clearbody r0. subst tb.
  destruct (Hnew eq_refl) as (Hst & Hrem & Hans). split; [|split; [|by split]].
  - split; [by apply tbl_insert_wf|by apply insert_get|done].
  - split; [|done]. intros j r Hj. exists r. split; [|apply kept_refl]. cbn [feedback with_keys with_feedback].
    rewrite tbl_get_insert_old; [done|]. intros ->. by rewrite tbl_get_next in Hj.
Qed.
Lemma resolve_sound now i n note body d d' : fsound d → resolve_feedback_route now i n note d = Ok (body, d') → fsound d' ∧ grows d d'.
Proof.
  intros [Hw Hr Hk]. unfold resolve_feedback_route. intros (_ & _ & Hg)%rbind_ok. unfold resolve_feedback in Hg.
  destruct (tbl_get (feedback d) n) as [r|] eqn:Hn; [|done]. injection Hg as _ <-. split; split; simpl.
  - by apply tbl_update_wf.
  - intros j x. destruct (decide (j = n)) as [->|Hne]; [rewrite tbl_get_set_eq, Hn; intros [= <-]|rewrite tbl_get_set_ne by done; apply Hr].
    destruct (Hr n r Hn) as [Hcat _]. split; [done|]. right. simpl. eauto.
  - done.
  - intros j x Hx. destruct (decide (j = n)) as [->|Hne].
    + rewrite tbl_get_set_eq, Hx. eexists. split; [done|]. by split_and!.
    + rewrite tbl_get_set_ne by done. exists x. split; [done|apply kept_refl].
  - done.
Qed.
Lemma fsteps_sound d d' : fsound d → rtc fstep d d' → fsound d' ∧ grows d d'.
Proof.
  intros Hd Hs. induction Hs as [d|d d1 d2 Hstep _ IH]; [done|].
  assert (fsound d1 ∧ grows d d1) as [Hs1 G1] by (destruct Hstep as [? ? ? ? ? ? ? Hr|? ? ? ? ? ? ? Hr];
    [apply submit_sound in Hr as (? & ? & _)|apply resolve_sound in Hr]; done).
  destruct (IH Hs1) as [Hs2 G2]. split; [done|]. by etrans.
Qed.
Lemma no_feedback_sound : fsound no_feedback.
Proof. split; [apply tbl_empty_wf|by intros i r Hr|done]. Qed.

(** Over every history of requests each submission stays, with its text, its
    author and its time; a resolved one stays resolved and names who resolved it,
    when and why, and an open one names nobody; a listing gives exactly the
    submissions of the status asked for, newest first; and the submission of an
    answered key gives the same answer again and adds nothing. *)
Theorem feedback_kept d d' : rtc fstep no_feedback d → rtc fstep d d' →
  (∀ i r, tbl_get (feedback d) i = Some r → row_ok r ∧ ∃ r', tbl_get (feedback d') i = Some r' ∧ kept r r') ∧
  (∀ status i r, (i, r) ∈ list_feedback status d ↔ tbl_get (feedback d) i = Some r ∧ (∀ s, status = Some s → fb_status r = s)) ∧
  (∀ status, Sorted.StronglySorted (λ x y, newest submitted_at x y = true) (list_feedback status d)) ∧
  ∀ now i b key body d0 now' i', rtc fstep no_feedback d0 → submit_feedback_route now i b key d0 = Ok (body, d) →
    "platform.feedback.submit" ∈ permissions i' → submit_feedback_route now' i' b key d' = Ok (body, d').
Proof.
  intros Hd Hs. destruct (fsteps_sound _ _ no_feedback_sound Hd) as [Hsd _]. destruct (fsteps_sound _ _ Hsd Hs) as [_ [Hrows Hkeys]].
  split_and!.
  - intros i r Hr. split; [by apply (fs_rows d Hsd i)|by apply Hrows].
  - intros status i r. unfold list_feedback. rewrite elem_of_order_by, elem_of_tbl_select, tbl_get_spec by apply Hsd.
    destruct status as [s|]; [rewrite String.eqb_eq|]; naive_solver.
  - intros status. apply order_by_sorted; [apply newest_total|apply newest_trans].
  - intros now i b key body d0 now' i' Hd0 Hsub Hp. destruct (fsteps_sound _ _ no_feedback_sound Hd0) as [Hs0 _].
    destruct (submit_sound _ _ _ _ _ _ _ Hs0 Hsub) as (_ & _ & Hans & Hcat). unfold submit_feedback_route.
    rewrite (proj2 (require_permission_ok _ _ i') (conj eq_refl Hp)). simpl. rewrite bool_decide_false by (intros Hn; by apply Hn).
    rewrite (Idempotency.guarded_answered _ _ _ with_keys_id _ _ _ _ _ _ _ _ (Idempotency.answered_remembers _ _ _ _ _ _ Hkeys Hans)).
    by rewrite bool_decide_true.
Qed.
End Routes.

(** ** Examples *)

Section Demo.
#[local] Existing Instance ascii_text.
#[local] Existing Instance AdminHistory.demo_hash.
Definition demo_pilot : Identity := {| subject := "ann"; role := "pilot"; permissions := {["platform.feedback.submit"]} |}.
Definition demo_triager (name : string) : Identity := {| subject := name; role := "technical_specialist"; permissions := {["platform.feedback.triage"]} |}.
Definition demo_bug : SubmitFeedbackRequest := {| sq_category := "bug"; sq_message := "no total" |}.
Definition submitted := submit_feedback_route (λ _, "t") "c1" 5 demo_pilot demo_bug "k" no_feedback.
Definition or_none (r : http (json * fdb)) : fdb := match r with Ok (_, d) => d | Err _ => no_feedback end.
Definition resolved (who : string) (d : fdb) : fdb := or_none (resolve_feedback_route (λ _, "t") 9 (demo_triager who) 1 (who +:+ " did it") d).
Lemma feedback_kept_witness : ∃ body r, submitted = Ok (body, or_none submitted) ∧
  submit_feedback_route (λ _, "t") "c1" 11 demo_pilot demo_bug "k" (resolved "bob" (or_none submitted)) = Ok (body, resolved "bob" (or_none submitted)) ∧
  tbl_get (feedback (resolved "bob" (or_none submitted))) 1 = Some r ∧ submitted_by r = "ann" ∧ message r = "no total".
Proof.
  pose (x := submitted). destruct x as [[body d]|e] eqn:Hx; [|exfalso; revert Hx; vm_compute; discriminate]. subst x.
  assert (or_none submitted = d) as Hor by (rewrite Hx; reflexivity). rewrite Hor.
  assert (rtc (fstep (λ _, "t") "c1") no_feedback d) as Hd by (apply rtc_once; apply (FSubmit (λ _, "t") "c1" 5 demo_pilot demo_bug "k" body); exact Hx).
  pose (y := resolve_feedback_route (λ _, "t") 9 (demo_triager "bob") 1 ("bob" +:+ " did it") d).
  destruct y as [[b2 d2]|e] eqn:Hy; [|exfalso; subst y; rewrite <-Hor in Hy; revert Hy; vm_compute; discriminate]. subst y.
  assert (resolved "bob" d = d2) as Hr2 by (unfold resolved; rewrite Hy; reflexivity). rewrite Hr2.
  assert (rtc (fstep (λ _, "t") "c1") d d2) as Hs by (apply rtc_once; apply (FResolve (λ _, "t") "c1" 9 (demo_triager "bob") 1 ("bob" +:+ " did it") b2); exact Hy).
  destruct (feedback_kept (λ _, "t") "c1" d d2 Hd Hs) as (Hrows & _ & _ & Hreplay).
  pose (z := tbl_get (feedback d) 1). destruct z as [r|] eqn:Hz; [|exfalso; subst z; rewrite <-Hor in Hz; revert Hz; vm_compute; discriminate]. subst z.
  destruct (Hrows 1 r Hz) as (_ & r' & Hr' & Hby & _ & Hmsg & _). exists body, r'. split; [exact Hx|]. split.
  - apply (Hreplay 5 demo_pilot demo_bug "k" body no_feedback 11 demo_pilot); [apply rtc_refl|exact Hx|apply (bool_decide_eq_true_1 _); vm_compute; reflexivity].
  - split; [exact Hr'|]. rewrite Hby, Hmsg. rewrite <-Hor in Hz. revert Hz. vm_compute. intros [= <-]. split; reflexivity.
Defined.
(** A second resolution replaces who resolved a submission, and why. *)
Lemma resolution_replaced : resolved_by <$> tbl_get (feedback (resolved "bob" (or_none submitted))) 1 = Some (Some "bob") ∧
  resolved_by <$> tbl_get (feedback (resolved "cyd" (resolved "bob" (or_none submitted)))) 1 = Some (Some "cyd").
Proof. vm_compute. split; reflexivity. Qed.
End Demo.
End Feedback.
