(* ===== verification/Backups.v ===== *)
(** * Backups and their age

    [scripts/backup.py], [scripts/restore.py] and
    [packages/platform/backup_signals.py]: the name of a backup holds the time it
    was made, and the age of the newest one is read back from the names of a
    directory. [pg_dump], [pg_restore] and the joining of paths are parameters. *)

From stdpp Require Import base sets strings list.
From Stdlib Require Import ZArith Ascii Lia.
From S2P Require Import Prelude Datetime DecimalText IsoFormat PyStr.

Module Backups.
Import IsoFormat DecimalText(chars, text_app).
#[local] Close Scope char_scope.
#[local] Open Scope Z_scope.

(** ** The time in a name *)

(** A time of UTC, to the second *)
Record stamp := Stamp { year : Z; month : Z; day : Z; hour : Z; minute : Z; second : Z }.
#[global] Instance stamp_eq_dec : EqDecision stamp.
Proof. solve_decision. Defined.
(** What [datetime(...)] accepts *)
Definition valid (s : stamp) : bool :=
  (1 <=? year s) && (year s <=? 9999) && (1 <=? month s) && (month s <=? 12) && (1 <=? day s) && (day s <=? month_days (year s) (month s)) &&
  (0 <=? hour s) && (hour s <=? 23) && (0 <=? minute s) && (minute s <=? 59) && (0 <=? second s) && (second s <=? 59).
Definition stamp_at (s : stamp) : Z :=
  ((days_of_civil (year s) (month s) (day s) * 24 + hour s) * 60 + minute s) * 60 + second s.

(** [strftime("%Y%m%dT%H%M%SZ")] of a year of four digits *)
Definition strftime (s : stamp) : list ascii :=
  four (year s) ++ two (month s) ++ two (day s) ++ "T"%char :: two (hour s) ++ two (minute s) ++ two (second s) ++ ["Z"%char].
Definition build_backup_filename (now : stamp) : string :=
  "backup_" +:+ String.string_of_list_ascii (strftime now) +:+ ".dump".

(** *** [strptime]

    The format becomes a regular expression, so each directive is the list of
    the ways it matches, the preferred one first: a number of two digits in its
    range, or of one. Digits are those of ASCII. *)
Definition ways (A : Type) : Type := list ascii → list (A * list ascii).
Definition one_of (ok : Z → bool) : ways Z := λ l,
  match l with c :: r => match digit c with Some d => if ok d then [(d, r)] else [] | None => [] end | [] => [] end.
Definition two_of (ok : Z → bool) : ways Z := λ l,
  match l with
  | c :: c' :: r => match digit c, digit c' with
                    | Some d, Some d' => if ok (10 * d + d') then [(10 * d + d', r)] else []
                    | _, _ => []
                    end
  | _ => []
  end.
Definition either {A} (p q : ways A) : ways A := λ l, p l ++ q l.
Definition within (lo hi : Z) (n : Z) : bool := (lo <=? n) && (n <=? hi).
(** A space and a digit, the last way of [%d] *)
Definition spaced : ways Z := λ l, match l with c :: r => if Ascii.eqb c " "%char then one_of (within 1 9) r else [] | [] => [] end.
Definition directive_Y : ways Z := λ l, match take_digits 4 0 l with Some (y, r) => [(y, r)] | None => [] end.
Definition directive_m : ways Z := either (two_of (within 1 12)) (one_of (within 1 9)).
Definition directive_d : ways Z := either (two_of (within 1 31)) (either (one_of (within 1 9)) spaced).
Definition directive_H : ways Z := either (two_of (within 0 23)) (one_of (within 0 9)).
Definition directive_M : ways Z := either (two_of (within 0 59)) (one_of (within 0 9)).
Definition directive_S : ways Z := either (two_of (within 0 61)) (one_of (within 0 9)).
(** A letter of the format, in either case *)
Definition letter (upper lower : ascii) : ways unit := λ l,
  match l with c :: r => if Ascii.eqb c upper || Ascii.eqb c lower then [((), r)] else [] | [] => [] end.
Definition seq {A B} (p : ways A) (k : A → ways B) : ways B := λ l, concat (map (λ ar, k ar.1 ar.2) (p l)).
Definition done_ {A} (a : A) : ways A := λ l, [(a, l)].
Definition format : ways stamp :=
  seq directive_Y (λ y, seq directive_m (λ mo, seq directive_d (λ d, seq (letter "T"%char "t"%char) (λ _,
  seq directive_H (λ h, seq directive_M (λ mi, seq directive_S (λ s, seq (letter "Z"%char "z"%char) (λ _, done_ (Stamp y mo d h mi s))))))))).
(** [None] is the [ValueError]: no match, more text behind the match, or a date
    that does not exist *)
Definition strptime (l : list ascii) : option stamp :=
  match format l with (s, []) :: _ => if valid s then Some s else None | _ => None end.

Definition starts_with (p l : list ascii) : bool := bool_decide (take (length p) l = p).
Definition ends_with (p l : list ascii) : bool := starts_with (reverse p) (reverse l).
(** The time of a file, [None] for a name of another shape *)
Definition backup_time (name : string) : option stamp :=
  let l := chars name in
  if starts_with (chars "backup_") l && ends_with (chars ".dump") l
  then strptime (take (length l - 12) (drop 7 l)) else None.
Definition newer (newest : option stamp) (name : string) : option stamp :=
  match backup_time name with
  | None => newest
  | Some t => match newest with None => Some t | Some n => if stamp_at n <? stamp_at t then Some t else newest end
  end.
(** The names in the directory, [None] if there is none *)
Definition latest_backup_at (dir : option (list string)) : option stamp :=
  match dir with None => None | Some names => fold_left newer names None end.

(** ** The commands *)

Section Commands.
Context `{PyText}.
Variable join : string → string → string.

(** [database_url.replace("postgresql+asyncpg://", "postgresql://", 1)] *)
Fixpoint replace_first (old new : list ascii) (l : list ascii) : list ascii :=
  if starts_with old l then new ++ drop (length old) l
  else match l with [] => [] | c :: r => c :: replace_first old new r end.
Definition to_libpq_dsn (url : string) : string :=
  String.string_of_list_ascii (replace_first (chars "postgresql+asyncpg://") (chars "postgresql://") (chars url)).

(** The path of a tool if it is installed, and the exit code and the messages of
    its run *)
Definition command : Type := list string → Z * string.
Definition create_backup (pg_dump : option string) (run : command) (url dir : string) (filename : option string) (now : stamp)
    : result string string :=
  match pg_dump with
  | None => Err "pg_dump not found on PATH -- install the PostgreSQL client tools (postgresql-client)"
  | Some tool =>
      let dest := join dir (match filename with Some f => if String.eqb f "" then build_backup_filename now else f | None => build_backup_filename now end) in
      let ' (code, err) := run [tool; "-Fc"; "-f"; dest; to_libpq_dsn url] in
      raise_if negb (code =? 0) with ("pg_dump failed (exit " +:+ py_str_Z code +:+ "): " +:+ py_strip err) ;;
      Ok dest
  end.
Definition restore_backup (is_file : string → bool) (pg_restore : option string) (run : command) (path url : string) : result string unit :=
  raise_if negb (is_file path) with ("backup file not found: " +:+ path) ;;
  match pg_restore with
  | None => Err "pg_restore not found on PATH -- install the PostgreSQL client tools (postgresql-client)"
  | Some tool =>
      let ' (code, err) := run [tool; "--no-owner"; "--no-privileges"; "-d"; to_libpq_dsn url; path] in
      raise_if negb (code =? 0) with ("pg_restore failed (exit " +:+ py_str_Z code +:+ "): " +:+ py_strip err) ;;
      Ok ()
  end.
End Commands.

Example lenient : backup_time "backup_2026111T000000Z.dump" = Some (Stamp 2026 11 1 0 0 0) ∧
  backup_time "backup_20261301T000000Z.dump" = None ∧ backup_time "backup_20260230T000000Z.dump" = None.
Proof. vm_compute. done. Qed.

(** ** A name is read back *)

Lemma two_of_two ok n r : 0 <= n < 100 → ok n = true → two_of ok (two n ++ r) = [(n, r)].
Proof.
  intros Hn Hok. destruct (two_digits n Hn) as [H1 H2]. unfold two, two_of. simpl. rewrite H1, H2.
  by rewrite <-(Z.div_mod n 10), Hok by done.
Qed.
Lemma year_of_four y r : 0 <= y < 10000 → directive_Y (four y ++ r) = [(y, r)].
Proof.
  intros Hy. assert (0 <= y / 100 < 100) as Hh by (split; [apply Z.div_pos; lia|apply Z.div_lt_upper_bound; lia]).
  assert (0 <= y mod 100 < 100) as Hl by (by apply Z.mod_pos_bound).
  destruct (two_digits _ Hh) as [H1 H2], (two_digits _ Hl) as [H3 H4]. unfold directive_Y, four, two. simpl. rewrite H1, H2, H3, H4.
  do 2 f_equal. pose proof (Z.div_mod (y / 100) 10). pose proof (Z.div_mod (y mod 100) 10). pose proof (Z.div_mod y 100). lia.
Qed.
(** The preferred way of a match *)
Definition first {A} (p : ways A) (l : list ascii) (x : A * list ascii) : Prop := ∃ xs, p l = x :: xs.
Lemma first_seq {A B} (p : ways A) (k : A → ways B) l a r x : first p l (a, r) → first (k a) r x → first (seq p k) l x.
Proof. intros [xs Hp] [ys Hk]. unfold first, seq. rewrite Hp. simpl. rewrite Hk. by eexists. Qed.
Lemma first_either {A} (p q : ways A) l x : first p l x → first (either p q) l x.
Proof. intros [xs Hp]. unfold first, either. rewrite Hp. by eexists. Qed.
Lemma within_spec lo hi n : within lo hi n = true ↔ lo <= n <= hi.
Proof. unfold within. rewrite andb_true_iff, !Z.leb_le. done. Qed.
Lemma valid_spec s : valid s = true ↔ 1 <= year s <= 9999 ∧ 1 <= month s <= 12 ∧ 1 <= day s <= month_days (year s) (month s) ∧
  0 <= hour s <= 23 ∧ 0 <= minute s <= 59 ∧ 0 <= second s <= 59.
Proof. unfold valid. rewrite !andb_true_iff, !Z.leb_le. lia. Qed.
Lemma first_two (q : ways Z) lo hi n r : lo <= n <= hi → 0 <= n < 100 → first (either (two_of (within lo hi)) q) (two n ++ r) (n, r).
Proof. intros Hw Hn. apply first_either. exists []. by apply two_of_two, within_spec. Qed.
Lemma month_days_bound y m : month_days y m <= 31.
Proof. unfold month_days. repeat case_match; lia. Qed.

Lemma strptime_strftime s : valid s = true → strptime (strftime s) = Some s.
Proof.
  intros Hv. pose proof Hv as (Hy & Hm & Hd & Hh & Hmi & Hs)%valid_spec. pose proof (month_days_bound (year s) (month s)).
  assert (first format (strftime s) (s, [])) as [zs Hf]; [|unfold strptime; by rewrite Hf, Hv].
  unfold format, strftime. eapply first_seq; [eexists; apply year_of_four; lia|]. do 2 (eapply first_seq; [apply first_two; lia|]).
  eapply first_seq; [by eexists|]. do 3 (eapply first_seq; [apply first_two; lia|]). eapply first_seq; [by eexists|].
  exists []. by destruct s.
Qed.

Lemma starts_with_app p l : starts_with p (p ++ l) = true.
Proof.
  unfold starts_with.
  by rewrite take_app_length, bool_decide_true.
Qed.
Lemma filename_read s : valid s = true → backup_time (build_backup_filename s) = Some s.
Proof.
  intros Hv. unfold backup_time, build_backup_filename. rewrite !text_app. unfold chars at 2 5 8 11.
  rewrite String.list_ascii_of_string_of_list_ascii. rewrite starts_with_app. unfold ends_with. rewrite !reverse_app, <-app_assoc, starts_with_app.
  change (drop 7 (chars "backup_" ++ strftime s ++ chars ".dump")) with (strftime s ++ chars ".dump").
  rewrite (take_app_length' (strftime s)) by reflexivity. by apply strptime_strftime.
Qed.

Lemma newest_spec names n0 : let r := fold_left newer names n0 in
  (r = None ↔ n0 = None ∧ ∀ name, name ∈ names → backup_time name = None) ∧
  ∀ t, r = Some t → (n0 = Some t ∨ ∃ name, name ∈ names ∧ backup_time name = Some t) ∧
    (∀ n, n0 = Some n → stamp_at n <= stamp_at t) ∧ ∀ name u, name ∈ names → backup_time name = Some u → stamp_at u <= stamp_at t.
Proof.
  revert n0. induction names as [|name names IH]; intros n0; cbn [fold_left].
  - split; [split; [intros ->; split; [done|set_solver]|by intros [-> _]]|]. intros t ->. split_and!; [by left|by intros n [= ->]|set_solver].
  - destruct (IH (newer n0 name)) as [Hn Ht]. split.
    + rewrite Hn. unfold newer. destruct (backup_time name) as [u|] eqn:Hu.
      * split; [|intros [_ Hall]; by rewrite Hall in Hu by by left]. intros [Hx _]. by destruct n0; repeat case_match.
      * split; [intros [-> Hall]; split; [done|]; intros m [->|Hm]%elem_of_cons; auto|]. intros [-> Hall]. split; [done|]. intros m Hm. apply Hall. by right.
    + intros t Hr. destruct (Ht t Hr) as (Hor & Hle & Hall). unfold newer in Hor, Hle. destruct (backup_time name) as [u|] eqn:Hu.
      * assert (stamp_at u <= stamp_at t ∧ ∀ n, n0 = Some n → stamp_at n <= stamp_at t) as [Hut Hnt].
        { destruct n0 as [n|]; [|split; [by apply Hle|done]]. destruct (Z.ltb_spec (stamp_at n) (stamp_at u));
            (split; [|intros ? [= <-]]); specialize (Hle _ eq_refl); lia. }
        split_and!; [|done|intros m v [->|Hm]%elem_of_cons Hv; [by simplify_eq|by eapply Hall]].
        destruct Hor as [Hor|(m & Hm & Hv)]; [|right; exists m; split; [by right|done]]. destruct n0 as [n|].
        -- destruct (stamp_at n <? stamp_at u); simplify_eq; [right; exists name; split; [by left|done]|by left].
        -- simplify_eq. right. exists name. split; [by left|done].
      * split_and!; [|done|intros m v [->|Hm]%elem_of_cons Hv; [by simplify_eq|by eapply Hall]].
        destruct Hor as [->|(m & Hm & Hv)]; [by left|right; exists m; split; [by right|done]].
Qed.
Lemma backup_time_valid name t : backup_time name = Some t → valid t = true.
Proof. unfold backup_time, strptime. intros Ht. repeat case_match; simplify_eq; done. Qed.

Section Theorems.
Context `{PyText}.
Variable join : string → string → string.

(** The name of a backup gives back the time it was made; the age of backups
    is unknown exactly if no name in the directory is that of a backup, and else
    is that of a real name and at least as new as every backup made there; a
    backup is reported exactly if the tool is there and succeeds, and then under
    the name that holds its time. *)
Theorem newest_backup names :
  (∀ s, valid s = true → backup_time (build_backup_filename s) = Some s) ∧
  (latest_backup_at (Some names) = None ↔ ∀ name, name ∈ names → backup_time name = None) ∧
  (∀ t, latest_backup_at (Some names) = Some t → valid t = true ∧ (∃ name, name ∈ names ∧ backup_time name = Some t) ∧
     ∀ s, valid s = true → build_backup_filename s ∈ names → stamp_at s <= stamp_at t) ∧
  (∀ pg_dump run url dir now dest, create_backup join pg_dump run url dir None now = Ok dest ↔
     dest = join dir (build_backup_filename now) ∧ ∃ tool err, pg_dump = Some tool ∧ run [tool; "-Fc"; "-f"; dest; to_libpq_dsn url] = (0, err)).
Proof.
  destruct (newest_spec names None) as [Hn Ht]. split_and!.
  - apply filename_read.
  - unfold latest_backup_at. rewrite Hn. naive_solver.
  - intros t Hl. destruct (Ht t Hl) as ([?|(name & Hin & Hb)] & _ & Hall); [done|]. split_and!; [by eapply backup_time_valid|by exists name|].
    intros s Hs Hm. eapply Hall; [done|by apply filename_read].
  - intros pg_dump run url dir now dest. unfold create_backup. destruct pg_dump as [tool|]; [|naive_solver].
    destruct (run _) as [code err] eqn:Hrun. destruct (Z.eqb_spec code 0) as [->|Hne]; simpl.
    + split; [intros [= <-]; split; [done|]; by exists tool, err|]. by intros [-> _].
    + split; [done|]. intros [-> (tool' & err' & [= <-] & Hr)]. rewrite Hr in Hrun. by injection Hrun.
Qed.
End Theorems.

(** A directory with two backups, another file and one of the same shape *)
Definition demo_dir : list string :=
  ["backup_20260101T000000Z.dump"; "notes.txt"; build_backup_filename (Stamp 2026 8 17 23 5 9); "backup_latest.dump"].
Lemma newest_backup_witness : latest_backup_at (Some demo_dir) = Some (Stamp 2026 8 17 23 5 9) ∧
  (latest_backup_at (Some ["notes.txt"]) = None ↔ ∀ name, name ∈ ["notes.txt"] → backup_time name = None) ∧
  backup_time (build_backup_filename (Stamp 2026 8 17 23 5 9)) = Some (Stamp 2026 8 17 23 5 9).
Proof.
  split; [vm_compute; reflexivity|]. destruct (newest_backup (H := ascii_text) (λ a b, a +:+ "/" +:+ b) ["notes.txt"]) as (Hread & Hnone & _).
  split; [exact Hnone|]. apply Hread. vm_compute. reflexivity.
Defined.
(** A name that no backup has is read as one: the numbers may have one digit. *)
Lemma other_name_read : backup_time "backup_2026111T000000Z.dump" = Some (Stamp 2026 11 1 0 0 0) ∧
  (∀ s, valid s = true → build_backup_filename s ≠ "backup_2026111T000000Z.dump").
Proof.
  split; [vm_compute; reflexivity|]. intros s Hs Heq. pose proof (filename_read s Hs) as Hr. rewrite Heq in Hr.
  vm_compute in Hr. injection Hr as <-. vm_compute in Heq. discriminate Heq.
Qed.
End Backups.
