(* ===== verification/V1Guard.v ===== *)
(** * The guard of the first version

    [tools/check_v1_untouched.py]: the check of continuous integration that no
    file of the repository outside its documentation names a path of the first
    version of the program, and that the files of the first version, where they
    are present, are those of the recorded baseline. A file system is a tree;
    symbolic links are not modelled. The digest, the decoding of text and
    the path of the home directory are parameters; the baseline file is the
    dictionary its JSON holds. *)

From stdpp Require Import base gmap sets strings list sorting.
From Stdlib Require Import ZArith Ascii Lia.
From S2P Require Import Prelude Query.
#[local] Close Scope char_scope.

Module V1Guard.
#[local] Open Scope Z_scope.

(** ** Trees of files *)

(** A file whose content cannot be read has none. *)
#[warnings="-register-all"] Inductive fs_entry :=
| File (content : option string)
| Dir (children : list (string * fs_entry)).
Definition SKIP_DIRS : list string := [".git"; "node_modules"; "__pycache__"; ".venv"; "venv"].

(** [os.walk] with the skipped directories taken out: the files below a
    directory with their relative paths, those of the directory first. *)
Fixpoint os_walk (prefix : list string) (e : fs_entry) : list (list string * option string) :=
  match e with
  | File _ => []
  | Dir children =>
      omap (λ ne, match ne.2 with File c => Some (prefix ++ [ne.1], c) | Dir _ => None end) children ++
      (fix go (l : list (string * fs_entry)) : list (list string * option string) :=
         match l with
         | [] => []
         | (n, d) :: l' => (if bool_decide (n ∈ SKIP_DIRS) then [] else os_walk (prefix ++ [n]) d) ++ go l'
         end) children
  end.
Definition rel_str (path : list string) : string := str_join "/" path.

(** ** The scan for literals *)

Definition FORBIDDEN_LITERALS : list string := ["Tendet Watcher"; "Documents\UNIWatch\"; "Documents/UNIWatch/"].
Definition ALLOWLIST_PATHS : list string :=
  ["AGENTS.md"; "CLAUDE.md"; "README.md"; "tools/check_v1_untouched.py"; "tools/v1-baseline.json"].
Definition ALLOWLIST_DIRS : list string := ["docs"; "_supervisor"; ".git"].
(** [s.replace("\\", "/")] *)
Definition slashes (s : string) : string := str_map (λ c, if Ascii.eqb c "\"%char then "/"%char else c) s.
Definition is_allowlisted (path : list string) : bool :=
  let rel := slashes (rel_str path) in
  bool_decide (rel ∈ ALLOWLIST_PATHS) || existsb (λ d, String.eqb rel d || String.prefix (d +:+ "/") rel) ALLOWLIST_DIRS.

(** The digests of the files below a path, and the baseline of each path *)
Abbreviation Snapshot := (gmap string string).
Abbreviation Baseline := (gmap string Snapshot).

Section Guard.
Context `{PyText}.
(** [read_text(errors="ignore")] of the bytes, and [hashlib.sha256] *)
Variable decode : string → string.
Variable sha256_hex : string → string.

Definition literal_violations (file : list string * option string) : list string :=
  if is_allowlisted file.1 then [] else
  match file.2 with
  | None => []
  | Some bytes =>
      map (λ literal, rel_str file.1 +:+ ": contains forbidden v1 path literal '" +:+ literal +:+ "'")
        (filter (λ literal, str_contains literal (decode bytes) = true) FORBIDDEN_LITERALS)
  end.
Definition scan_for_literals (repo : fs_entry) : list string := flat_map literal_violations (os_walk [] repo).

(** ** The baseline *)

Inductive guard_error := OSError (path : string).
Definition hash_file (path : list string) (content : option string) : result guard_error string :=
  match content with Some bytes => Ok (sha256_hex bytes) | None => Err (OSError (rel_str path)) end.
Definition snapshot (v1 : fs_entry) : result guard_error Snapshot :=
  foldM (λ snap f, let! h := hash_file f.1 f.2 in Ok (<[rel_str f.1 := h]> snap)) ∅ (os_walk [] v1).

Definition load_baseline (file : option Baseline) : Baseline := default ∅ file.

(** [f"{path}: {what} since baseline: {sorted(names)}"] unless there is none *)
Definition drift_line (path what : string) (names : gset string) : list string :=
  if bool_decide (names = ∅) then [] else [path +:+ ": file(s) " +:+ what +:+ " since baseline: " +:+ py_repr_list (sorted_set names)].
Definition added_line (path : string) (names : gset string) : list string :=
  if bool_decide (names = ∅) then [] else [path +:+ ": new file(s) since baseline: " +:+ py_repr_list (sorted_set names)].
Definition compare_to_baseline (key : string) (current recorded : Snapshot) : list string :=
  let added := dom current ∖ dom recorded in
  let removed := dom recorded ∖ dom current in
  let modified := filter (λ f, current !! f ≠ recorded !! f) (dom current ∩ dom recorded) in
  added_line key added ++ drift_line key "removed" removed ++ drift_line key "modified" modified.

Record progress := { pr_problems : list string; pr_baseline : Baseline; pr_changed : bool }.
(** One protected path with the tree there, if it is present on the machine *)
Definition check_path (init : bool) (p : progress) (v : string * option fs_entry) : result guard_error progress :=
  match v.2 with
  | None => Ok p
  | Some tree =>
      let! current := snapshot tree in
      match init, pr_baseline p !! v.1 with
      | false, Some recorded =>
          Ok {| pr_problems := pr_problems p ++ compare_to_baseline v.1 current recorded; pr_baseline := pr_baseline p;
                pr_changed := pr_changed p |}
      | _, _ => Ok {| pr_problems := pr_problems p; pr_baseline := <[v.1 := current]> (pr_baseline p); pr_changed := true |}
      end
  end.
(** The problems, and the baseline file afterwards *)
Definition check_baseline (init : bool) (v1_paths : list (string * option fs_entry)) (file : option Baseline)
    : result guard_error (list string * option Baseline) :=
  let! p := foldM (check_path init) {| pr_problems := []; pr_baseline := load_baseline file; pr_changed := false |} v1_paths in
  Ok (pr_problems p, if pr_changed p then Some (pr_baseline p) else file).

(** The exit code, and the baseline file afterwards *)
Definition main (argv : list string) (repo : fs_entry) (v1_paths : list (string * option fs_entry)) (file : option Baseline)
    : result guard_error (Z * option Baseline) :=
  let init := bool_decide ("--init" ∈ argv) in
  let violations := scan_for_literals repo in
  let! ' (problems, file') := check_baseline init v1_paths file in
  Ok (match violations, problems with [], [] => 0 | _, _ => 1 end, file').
End Guard.
(** The protected paths below a home directory *)
Definition V1_PATHS (home : string) : list string := [home +:+ "/Documents/Tendet Watcher"; home +:+ "/Documents/UNIWatch"].

(** ** When the guard passes *)

Section Spec.
Context `{PyText}.
Variable decode : string → string.
Variable sha256_hex : string → string.

Lemma compare_to_baseline_nil key current recorded : compare_to_baseline key current recorded = [] ↔ current = recorded.
Proof using Type.
  clear decode sha256_hex.
  assert (∀ X : gset string, added_line key X = [] ↔ X = ∅) as La by (intros X; unfold added_line; case_bool_decide; naive_solver).
  assert (∀ w (X : gset string), drift_line key w X = [] ↔ X = ∅) as Ld by (intros w X; unfold drift_line; case_bool_decide; naive_solver).
  unfold compare_to_baseline. rewrite !app_nil, La, !Ld. split; [|intros ->].
  - intros (Hx & Hy & Hz). apply map_eq. intros f.
    destruct (decide (f ∈ dom current)) as [Hc|Hc]; destruct (decide (f ∈ dom recorded)) as [Hd|Hd].
    + destruct (decide (current !! f = recorded !! f)) as [|Hne]; [done|]. exfalso.
      assert (f ∈ filter (λ f, current !! f ≠ recorded !! f) (dom current ∩ dom recorded)) as Hin by (apply elem_of_filter; split; [done|by apply elem_of_intersection]).
      rewrite Hz in Hin. by apply elem_of_empty in Hin.
    + assert (f ∈ dom current ∖ dom recorded) as Hin by (by apply elem_of_difference). rewrite Hx in Hin. by apply elem_of_empty in Hin.
    + assert (f ∈ dom recorded ∖ dom current) as Hin by (by apply elem_of_difference). rewrite Hy in Hin. by apply elem_of_empty in Hin.
    + apply not_elem_of_dom in Hc, Hd. congruence.
  - rewrite difference_diag_L. split_and!; [done..|]. apply elem_of_equiv_empty_L. intros f [Hne _]%elem_of_filter. done.
Qed.

(** What one run does with the protected paths *)
Record checked (init : bool) (vs : list (string * option fs_entry)) (p p' : progress) : Prop := {
  ck_problems : pr_problems p' = [] ↔ pr_problems p = [] ∧
    ∀ key tree recorded, (key, Some tree) ∈ vs → init = false → pr_baseline p !! key = Some recorded → snapshot sha256_hex tree = Ok recorded;
  ck_recorded : ∀ key tree, (key, Some tree) ∈ vs → init = true ∨ pr_baseline p !! key = None →
    ∃ snap, snapshot sha256_hex tree = Ok snap ∧ pr_baseline p' !! key = Some snap;
  ck_kept : ∀ key, init = false ∧ is_Some (pr_baseline p !! key) ∨ (∀ tree, (key, Some tree) ∉ vs) → pr_baseline p' !! key = pr_baseline p !! key;
  ck_unchanged : pr_changed p' = false → pr_baseline p' = pr_baseline p ∧ pr_changed p = false }.

Lemma check_paths init vs p p' : NoDup vs.*1 → foldM (check_path sha256_hex init) p vs = Ok p' → checked init vs p p'.
Proof using Type.
  clear decode.
  revert p. induction vs as [|[k t] vs IH]; intros p Hnd; cbn [foldM].
  { intros [= ->]. split; [|by intros * ?%elem_of_nil|done|done]. split; [intros ->; split; [done|by intros * ?%elem_of_nil]|by intros []]. }
  apply NoDup_cons in Hnd as [Hk Hnd]. intros (p1 & Hp1 & Hr)%rbind_ok. apply IH in Hr as [P R K U]; [|done].
  assert (∀ t', (k, t') ∉ vs) as Hkv by (intros t' Hin; apply Hk, list_elem_of_fmap; by exists (k, t')).
  unfold check_path in Hp1. simpl in Hp1. destruct t as [tree|].
  2:{ injection Hp1 as <-. split.
      - rewrite P. setoid_rewrite elem_of_cons. naive_solver.
      - intros key tree [|Hin]%elem_of_cons; [simplify_eq|by apply R].
      - intros key [Hx|Hx]; apply K; [by left|right]. intros tree Hin. apply (Hx tree). by right.
      - exact U. }
  apply rbind_ok in Hp1 as (current & Hs & Hp1).
  assert (∀ p2, pr_baseline p1 = <[k:=current]> (pr_baseline p) → pr_problems p1 = pr_problems p → pr_changed p1 = true →
    init = true ∨ pr_baseline p !! k = None → p2 = p' → checked init ((k, Some tree) :: vs) p p2) as Hnew.
  { intros p2 Hb Hpr Hc Hor ->. rewrite Hb, Hpr in *. split.
    - rewrite P. split; intros [Hn Hall]; (split; [done|]).
      + intros key tr rec [|Hin]%elem_of_cons Hi Hrec; [destruct Hor; simplify_eq; congruence|].
        apply (Hall key tr rec Hin Hi). rewrite lookup_insert_ne; [done|]. intros ->. by eapply Hkv.
      + intros key tr rec Hin Hi Hrec. apply (Hall key tr rec); [by right|done|]. rewrite lookup_insert_ne in Hrec; [done|]. intros ->. by eapply Hkv.
    - intros key tr [Heq|Hin]%elem_of_cons Ho; [simplify_eq|].
      + exists current. split; [done|]. rewrite K by (right; intros tr; apply Hkv). by rewrite lookup_insert_eq.
      + apply (R key tr Hin). rewrite lookup_insert_ne; [done|]. intros ->. by eapply Hkv.
    - intros key Ho. assert (k ≠ key) as Hne.
      { intros <-. destruct Ho as [[Hi [x Hx]]|Ho]; [destruct Hor; congruence|]. apply (Ho tree). by left. }
      rewrite K; [by rewrite lookup_insert_ne|]. rewrite lookup_insert_ne by done. destruct Ho as [Ho|Ho]; [by left|right]. intros tr Hin. apply (Ho tr). by right.
    - intros Hc'. destruct (U Hc') as [_ Hx]. congruence. }
  destruct init; [by injection Hp1 as <-; apply Hnew; auto|].
  destruct (pr_baseline p !! k) as [recorded|] eqn:Hrec; [|by injection Hp1 as <-; apply Hnew; auto].
  injection Hp1 as <-. cbn [pr_problems pr_baseline pr_changed] in *. split; cbn [pr_problems pr_baseline pr_changed].
  - rewrite P. split.
    + intros [[Hn Hc%compare_to_baseline_nil]%app_nil Hall]. split; [done|].
      intros key tr rec [Heq|Hin]%elem_of_cons Hi Hr; [simplify_eq; by rewrite Hs|by apply (Hall key tr rec)].
    + intros [-> Hall]. simpl. rewrite compare_to_baseline_nil. split.
      * specialize (Hall k tree recorded ltac:(by left) eq_refl Hrec). congruence.
      * intros key tr rec Hin. apply Hall. by right.
  - intros key tr [Heq|Hin]%elem_of_cons Ho; [destruct Ho; simplify_eq; congruence|by apply (R key tr)].
  - intros key [Ho|Ho]; apply K; [by left|]. right. intros tr Hin. apply (Ho tr). by right.
  - exact U.
Qed.

Lemma scan_nil repo : scan_for_literals decode repo = [] ↔
  ∀ f bytes l, (f, Some bytes) ∈ os_walk [] repo → is_allowlisted f = false → l ∈ FORBIDDEN_LITERALS → str_contains l (decode bytes) = false.
Proof using Type.
  clear sha256_hex. unfold scan_for_literals. induction (os_walk [] repo) as [|[f c] files IH]; simpl; [split; [by intros _ * ?%elem_of_nil|done]|].
  rewrite app_nil, IH. assert (literal_violations decode (f, c) = [] ↔ ∀ bytes l, c = Some bytes → is_allowlisted f = false →
    l ∈ FORBIDDEN_LITERALS → str_contains l (decode bytes) = false) as ->.
  { unfold literal_violations. cbn [fst snd]. destruct (is_allowlisted f); [naive_solver|]. destruct c as [bytes|]; [|naive_solver]. split.
    - intros Hn%map_nil b l [= <-] _ Hl. destruct (str_contains l (decode bytes)) eqn:Hc; [|done]. exfalso.
      assert (l ∈ filter (λ l, str_contains l (decode bytes) = true) FORBIDDEN_LITERALS) as Hin by (by apply list_elem_of_filter).
      rewrite Hn in Hin. by apply elem_of_nil in Hin.
    - intros Hall. apply map_nil. apply nil_no_elem. intros l [Hc Hl]%list_elem_of_filter. rewrite (Hall bytes l) in Hc by done. done. }
  setoid_rewrite elem_of_cons. naive_solver.
Qed.

(** The guard exits with 0 exactly when no readable file outside the
    allowlist holds one of the literals and, unless it records anew, every
    protected path that is present and has a baseline is file by file what the
    baseline says; the baseline of a path changes only when it is recorded anew
    or for the first time, and then is what is there now. *)
Theorem guard_passes argv repo v1_paths file code file' :
  NoDup v1_paths.*1 → main decode sha256_hex argv repo v1_paths file = Ok (code, file') →
  (code = 0 ↔
     (∀ f bytes l, (f, Some bytes) ∈ os_walk [] repo → is_allowlisted f = false → l ∈ FORBIDDEN_LITERALS → str_contains l (decode bytes) = false) ∧
     (∀ key tree recorded, (key, Some tree) ∈ v1_paths → "--init" ∉ argv → load_baseline file !! key = Some recorded →
        snapshot sha256_hex tree = Ok recorded)) ∧
  (∀ key tree, (key, Some tree) ∈ v1_paths → "--init" ∈ argv ∨ load_baseline file !! key = None →
     ∃ snap, snapshot sha256_hex tree = Ok snap ∧ load_baseline file' !! key = Some snap) ∧
  (∀ key, (("--init" ∉ argv) ∧ is_Some (load_baseline file !! key)) ∨ (∀ tree, (key, Some tree) ∉ v1_paths) →
     load_baseline file' !! key = load_baseline file !! key).
Proof.
  intros Hnd Hm. unfold main in Hm. apply rbind_ok in Hm as ([problems f'] & Hc & [= <- <-]). unfold check_baseline in Hc.
  apply rbind_ok in Hc as (p & Hp & [= <- <-]). apply check_paths in Hp as [P R K U]; [|done]. cbn [pr_problems pr_baseline pr_changed] in *.
  assert (load_baseline (if pr_changed p then Some (pr_baseline p) else file) = pr_baseline p) as ->.
  { destruct (pr_changed p); [done|]. by destruct U. }
  assert (bool_decide ("--init" ∈ argv) = false ↔ "--init" ∉ argv) as Hf by apply bool_decide_eq_false.
  assert (bool_decide ("--init" ∈ argv) = true ↔ "--init" ∈ argv) as Ht by apply bool_decide_eq_true.
  split_and!.
  - transitivity (scan_for_literals decode repo = [] ∧ pr_problems p = []); [by destruct (scan_for_literals decode repo), (pr_problems p); naive_solver|].
    rewrite scan_nil, P. setoid_rewrite Hf. naive_solver.
  - intros key tree Hin Ho. apply (R key tree Hin). rewrite Ht. exact Ho.
  - intros key Ho. apply K. rewrite Hf. exact Ho.
Qed.
End Spec.

(** Without a baseline a run records what it finds, changed or not, and passes,
    also without [--init]. *)
Lemma unrecorded_passes `{PyText} decode sha256_hex repo key tree snap :
  scan_for_literals decode repo = [] → snapshot sha256_hex tree = Ok snap →
  main decode sha256_hex [] repo [(key, Some tree)] None = Ok (0, Some {[ key := snap ]}).
Proof. intros Hs Ht. unfold main, check_baseline. cbn [foldM check_path fst snd]. unfold check_path. simpl. rewrite Ht. simpl. by rewrite Hs. Qed.

(** ** Examples *)

Section Demo.
#[local] Existing Instance ascii_text.
Definition demo_file (path content : string) : fs_entry := Dir [(path, File (Some content))].
(** A path of the first version at the end of a text is not found. *)
Lemma unslashed_path_missed : scan_for_literals id (demo_file "settings.py" "ROOT = 'C:/Users/x/Documents/UNIWatch'") = [].
Proof. vm_compute. reflexivity. Qed.

Definition demo_repo : fs_entry := Dir [("README.md", File (Some "Tendet Watcher")); ("src", demo_file "a.py" "x = 1");
  ("docs", demo_file "plan.md" "Documents/UNIWatch/"); (".venv", demo_file "x.py" "Tendet Watcher")].
Definition demo_v1 (content : string) : list (string * option fs_entry) :=
  [("/v1", Some (Dir [("a.py", File (Some content)); ("lib", demo_file "b.py" "b")])); ("/v1b", None)].
Definition demo_baseline : option Baseline := Some {[ "/v1" := {[ "a.py" := "a"; "lib/b.py" := "b" ]} ]}.

Definition demo_code (content : string) : option Z :=
  match main id id [] demo_repo (demo_v1 content) demo_baseline with Ok (code, _) => Some code | Err _ => None end.

(** The guard passes on the recorded files, which are as the baseline says, and
    not on a changed one. *)
Lemma guard_passes_witness :
  demo_code "a" = Some 0 ∧ demo_code "changed" = Some 1 ∧
  snapshot id (Dir [("a.py", File (Some "a")); ("lib", demo_file "b.py" "b")]) = Ok {[ "a.py" := "a"; "lib/b.py" := "b" ]}.
Proof.
  assert (demo_code "a" = Some 0) as Hm by (vm_compute; reflexivity).
  split; [exact Hm|]. split; [vm_compute; reflexivity|].
  assert (NoDup (demo_v1 "a").*1) as Hnd by (refine (bool_decide_eq_true_1 _ _); vm_compute; reflexivity).
  unfold demo_code in Hm. destruct (main id id [] demo_repo (demo_v1 "a") demo_baseline) as [[code file']|] eqn:Hx; [|discriminate Hm].
  destruct (guard_passes id id [] demo_repo (demo_v1 "a") demo_baseline code file' Hnd Hx) as [[Hc _] _].
  injection Hm as Hm. destruct (Hc Hm) as [_ Hb]. apply (Hb "/v1"); [by left|by intros ?%elem_of_nil|reflexivity].
Defined.
End Demo.
End V1Guard.
