(* ===== verification/SmokeTest.v ===== *)
(** * The smoke test of a deployment

    [scripts/smoke_test.py]: the check of a running API by role, over a server
    that is a parameter. [Deployment] runs it against the modelled routes. *)

From stdpp Require Import base gmap sets strings list.
From Stdlib Require Import ZArith Ascii Lia.
From S2P Require Import Prelude Json PyStr.
#[local] Close Scope char_scope.

Module SmokeTest.
#[local] Open Scope Z_scope.

Record RoleCheck := {
  rc_label : string; rc_username : string; rc_password : string; allowed_method : string; allowed_path : string;
  denied_method : string; denied_path : string }.
Definition DEFAULT_ROLE_CHECKS : list RoleCheck := [
  {| rc_label := "admin-reader (admin.users.read)"; rc_username := "smoke_test_admin_reader";
     rc_password := "smoke-test-only-admin-reader-9f3a"; allowed_method := "GET"; allowed_path := "/admin/users";
     denied_method := "GET"; denied_path := "/policy-graphs/999999999/versions" |};
  {| rc_label := "algorithm-reader (algorithm.policy.read)"; rc_username := "smoke_test_algorithm_reader";
     rc_password := "smoke-test-only-algorithm-reader-7c2e"; allowed_method := "GET"; allowed_path := "/policy-graphs/999999999/versions";
     denied_method := "GET"; denied_path := "/admin/users" |}].

Record SmokeResult := { cr_name : string; passed : bool; cr_detail : string }.
Definition record (name : string) (ok : bool) (detail : string) : SmokeResult := {| cr_name := name; passed := ok; cr_detail := detail |}.

(** The accounts given on the command line, or the default ones *)
Definition with_account (username password : option string) (c : RoleCheck) : RoleCheck :=
  {| rc_label := rc_label c; rc_username := default (rc_username c) username; rc_password := default (rc_password c) password;
     allowed_method := allowed_method c; allowed_path := allowed_path c; denied_method := denied_method c; denied_path := denied_path c |}.

(** A deployed server as a client sees it. [request] is a call with the cookies
    the client holds; it answers status and text, or fails with the text of an
    [httpx.HTTPError]. [fresh_client] drops the cookies. *)
Record Server (S : Type) := {
  fresh_client : S → S;
  request : S → string → string → option json → result string (Z * string) * S }.
Arguments fresh_client {S} _ _.
Arguments request {S} _ _ _ _ _.

Section Smoke.
Context `{PyText} {S : Type}.
Variable server : Server S.
(** [response.json()] of a text *)
Variable json_of : string → result exn json.

Definition got (expected : Z) (r : Z * string) : string :=
  "expected " +:+ py_str_Z expected +:+ ", got " +:+ py_str_Z r.1 +:+ ": " +:+ r.2.
Definition check_health_ready (s : S) : result exn SmokeResult * S :=
  let name := "health: GET /health/ready" in
  let ' (response, s') := request server (fresh_client server s) "GET" "/health/ready" None in
  (match response with
   | Err e => Ok (record name false ("request failed: " +:+ e))
   | Ok r =>
       if negb (r.1 =? 200) then Ok (record name false (got 200 r)) else
       let! body := json_of r.2 in
       let! schema_version := py_get body "schema_version" in
       let! expected := py_get body "expected_schema_version" in
       Ok (if negb (py_eq schema_version expected)
           then record name false ("schema_version (" +:+ json_repr schema_version +:+ ") != expected_schema_version (" +:+
                  json_repr expected +:+ ")")
           else record name true ("schema_version=" +:+ json_str schema_version))
   end, s').

(** One request whose status is recorded *)
Definition expect (s : S) (name method path why : string) (status : Z) : SmokeResult * S :=
  let ' (response, s') := request server s method path None in
  (match response with
   | Err e => record name false ("request failed: " +:+ e)
   | Ok r => record (name +:+ " (" +:+ method +:+ " " +:+ path +:+ ")") (r.1 =? status)
               (if r.1 =? status then py_str_Z status +:+ " as expected" +:+ why else got status r)
   end, s').
Definition login_body (check : RoleCheck) : json :=
  JObj [("username", JStr (rc_username check)); ("password", JStr (rc_password check))].
Definition check_role (check : RoleCheck) (s : S) : list SmokeResult * S :=
  let prefix := "role[" +:+ rc_label check +:+ "]" in
  let ' (login, s1) := request server (fresh_client server s) "POST" "/auth/login" (Some (login_body check)) in
  match login with
  | Err e => ([record (prefix +:+ ": login") false ("request failed: " +:+ e)], s1)
  | Ok l =>
      if negb (l.1 =? 200) then ([record (prefix +:+ ": login") false (got 200 l)], s1) else
      let logged_in := record (prefix +:+ ": login") true ("logged in as " +:+ rc_username check) in
      let ' (allowed, s2) := expect s1 (prefix +:+ ": allowed route") (allowed_method check) (allowed_path check) "" 200 in
      let ' (denied, s3) := expect s2 (prefix +:+ ": denied route") (denied_method check) (denied_path check) " (deny-by-default RBAC)" 403 in
      let ' (out, s4) := request server s3 "POST" "/auth/logout" None in
      match out with
      | Err e => ([logged_in; allowed; denied; record (prefix +:+ ": logout") false ("request failed: " +:+ e)], s4)
      | Ok o =>
          let logout := record (prefix +:+ ": logout") (o.1 =? 204) (if o.1 =? 204 then "204 as expected" else got 204 o) in
          let ' (after_logout, s5) := expect s4 (prefix +:+ ": allowed route after logout") (allowed_method check) (allowed_path check)
                                        " (logout revokes session)" 401 in
          ([logged_in; allowed; denied; logout; after_logout], s5)
      end
  end.
Fixpoint check_roles (checks : list RoleCheck) (s : S) : list SmokeResult * S :=
  match checks with
  | [] => ([], s)
  | c :: rest => let ' (rs, s1) := check_role c s in let ' (rs', s2) := check_roles rest s1 in (rs ++ rs', s2)
  end.
Definition run_smoke (role_checks : list RoleCheck) (s : S) : result exn (list SmokeResult) * S :=
  let ' (health, s1) := check_health_ready s in
  match health with
  | Err e => (Err e, s1)
  | Ok h => let ' (rs, s2) := check_roles role_checks s1 in (Ok (h :: rs), s2)
  end.
(** [print_summary], and the exit code *)
Definition print_summary (results : list SmokeResult) : bool := forallb passed results.
Definition smoke_main (role_checks : list RoleCheck) (s : S) : result exn Z * S :=
  let ' (results, s') := run_smoke role_checks s in
  (let! rs := results in Ok (if print_summary rs then 0 else 1), s').

(** ** What the exit code says *)

Definition answers (s : S) (method path : string) (body : option json) (status : Z) : Prop :=
  ∃ t, (request server s method path body).1 = Ok (status, t).
Definition after (s : S) (method path : string) (body : option json) : S := (request server s method path body).2.
(** A session of a role on the server: signed in, let in, refused, signed out,
    shut out *)
Definition session_ok (c : RoleCheck) (s : S) : Prop :=
  let s0 := fresh_client server s in
  let s1 := after s0 "POST" "/auth/login" (Some (login_body c)) in
  let s2 := after s1 (allowed_method c) (allowed_path c) None in
  let s3 := after s2 (denied_method c) (denied_path c) None in
  let s4 := after s3 "POST" "/auth/logout" None in
  answers s0 "POST" "/auth/login" (Some (login_body c)) 200 ∧ answers s1 (allowed_method c) (allowed_path c) None 200 ∧
  answers s2 (denied_method c) (denied_path c) None 403 ∧ answers s3 "POST" "/auth/logout" None 204 ∧
  answers s4 (allowed_method c) (allowed_path c) None 401.
Fixpoint sessions_ok (checks : list RoleCheck) (s : S) : Prop :=
  match checks with
  | [] => True
  | c :: rest => session_ok c s ∧ sessions_ok rest (check_role c s).2
  end.
Definition healthy (s : S) : Prop := ∃ t body v w,
  (request server (fresh_client server s) "GET" "/health/ready" None).1 = Ok (200, t) ∧ json_of t = Ok body ∧
  py_get body "schema_version" = Ok v ∧ py_get body "expected_schema_version" = Ok w ∧ py_eq v w = true.

Lemma expect_passed s name method path why status :
  (expect s name method path why status).2 = after s method path None ∧
  (passed (expect s name method path why status).1 = true ↔ answers s method path None status).
Proof using Type.
  clear json_of. unfold expect, after, answers. destruct (request server s method path None) as [[[st t]|e] s1]; simpl; (split; [done|]).
  - rewrite Z.eqb_eq. split; [intros ->; by exists t|naive_solver].
  - naive_solver.
Qed.
Lemma check_role_passed c s : forallb passed (check_role c s).1 = true ↔ session_ok c s.
Proof using Type.
  clear json_of. unfold check_role, session_ok. cbv zeta. set (s0 := fresh_client server s). set (s1 := after s0 _ _ (Some _)).
  assert (answers s0 "POST" "/auth/login" (Some (login_body c)) 200 ↔ ∃ t, (request server s0 "POST" "/auth/login" (Some (login_body c))).1 = Ok (200, t)) as -> by done.
  rewrite (surjective_pairing (request server s0 _ _ _)). change (request server s0 "POST" "/auth/login" _).2 with s1.
  destruct (request server s0 _ _ _).1 as [[st t]|e]; [|split; [done|naive_solver]]. cbn [fst snd].
  destruct (Z.eqb_spec st 200) as [->|Hst]; simpl negb; cbv iota; [|split; [done|naive_solver]].
  repeat match goal with |- context [let ' (_, _) := expect ?s ?n ?m ?p ?w ?st in _] =>
    let E := fresh "E" in let P := fresh "P" in
    destruct (expect_passed s n m p w st) as [E P]; destruct (expect s n m p w st) as [?res ?]; cbn [fst snd] in E, P; subst end.
  set (s2 := after s1 _ _ None) in *. set (s3 := after s2 _ _ None) in *. set (s4 := after s3 _ _ None).
  assert (answers s3 "POST" "/auth/logout" None 204 ↔ ∃ t, (request server s3 "POST" "/auth/logout" None).1 = Ok (204, t)) as -> by done.
  rewrite (surjective_pairing (request server s3 _ _ _)). change (request server s3 "POST" "/auth/logout" None).2 with s4.
  destruct (request server s3 _ _ _).1 as [[so to_]|e]; cbn [fst snd].
  - match goal with |- context [let ' (_, _) := expect ?s ?n ?m ?p ?w ?st in _] =>
      destruct (expect_passed s n m p w st) as [E5 P5]; destruct (expect s n m p w st) as [r5 s5]; cbn [fst snd] in E5, P5; subst s5 end.
    cbn [fst forallb passed record andb]. rewrite !andb_true_iff, P, P0, P5, Z.eqb_eq. naive_solver.
  - cbn [fst forallb passed record andb]. rewrite !andb_true_iff. naive_solver.
Qed.

(** A client whose sign-in and sign-out succeed makes five requests. *)
Lemma check_role_state c s : session_ok c s → (check_role c s).2 =
  after (after (after (after (after (fresh_client server s) "POST" "/auth/login" (Some (login_body c))) (allowed_method c) (allowed_path c) None)
    (denied_method c) (denied_path c) None) "POST" "/auth/logout" None) (allowed_method c) (allowed_path c) None.
Proof using Type.
  clear json_of. unfold session_ok. cbv zeta. set (s0 := fresh_client server s). set (s1 := after s0 _ _ (Some _)). unfold check_role. fold s0.
  intros ([t Hl] & _ & _ & Ho & _). rewrite (surjective_pairing (request server s0 _ _ _)).
  change (request server s0 "POST" "/auth/login" _).2 with s1. rewrite Hl. simpl negb. cbv iota.
  repeat match goal with |- context [let ' (_, _) := expect ?s ?n ?m ?p ?w ?st in _] =>
    let E := fresh "E" in destruct (expect_passed s n m p w st) as [E _]; destruct (expect s n m p w st) as [?res ?]; cbn [fst snd] in E; subst end.
  set (s2 := after s1 _ _ None) in *. set (s3 := after s2 _ _ None) in *. set (s4 := after s3 _ _ None) in *.
  destruct Ho as [t' Ho]. rewrite (surjective_pairing (request server s3 _ _ _)). change (request server s3 "POST" "/auth/logout" None).2 with s4.
  rewrite Ho. match goal with |- context [let ' (_, _) := expect ?s ?n ?m ?p ?w ?st in _] =>
    destruct (expect_passed s n m p w st) as [E _]; destruct (expect s n m p w st) as [?res ?]; cbn [fst snd] in E; subst end.
  done.
Qed.

(** The smoke test exits with 0 exactly when the deployment says it is ready
    with the schema it expects and every role in turn could sign in, was let in
    where its permission allows, was refused with 403 where it does not, could
    sign out, and was shut out with 401 afterwards. *)
Theorem exit_code_spec checks s :
  (smoke_main checks s).1 = Ok 0 ↔ healthy s ∧ sessions_ok checks (check_health_ready s).2.
Proof.
  assert (∀ cs s, forallb passed (check_roles cs s).1 = true ↔ sessions_ok cs s) as Hall.
  { clear. induction cs as [|c cs IH]; intros s; [done|]. cbn [check_roles sessions_ok].
    rewrite <-check_role_passed, <-IH. destruct (check_role c s) as [rs s1]. cbn [fst snd]. destruct (check_roles cs s1) as [rs' s2].
    cbn [fst]. by rewrite forallb_app, andb_true_iff. }
  assert (∀ r, (check_health_ready s).1 = Ok r → passed r = true ↔ healthy s) as Hh.
  { unfold check_health_ready, healthy. destruct (request server _ _ _ _) as [[[st t]|e] s1]; cbn [fst snd]; [|naive_solver].
    destruct (Z.eqb_spec st 200) as [->|Hst]; simpl negb; cbv iota; [|naive_solver].
    intros r (body & Hb & (v & Hv & (w & Hw & [= <-])%rbind_ok)%rbind_ok)%rbind_ok. destruct (py_eq v w) eqn:Heq; simpl.
    - split; [|done]. intros _. by exists t, body, v, w.
    - split; [done|]. intros (? & ? & ? & ? & [= <-] & Hb' & Hv' & Hw' & He). congruence. }
  assert (healthy s → ∃ r, (check_health_ready s).1 = Ok r) as Hex.
  { unfold check_health_ready, healthy. destruct (request server _ _ _ _) as [[[st t]|e] s1]; cbn [fst snd]; [|naive_solver].
    intros (? & body & v & w & [= -> <-] & -> & Hv & Hw & _). simpl. rewrite Hv. simpl. rewrite Hw. simpl. by eexists. }
  unfold smoke_main, run_smoke, print_summary. destruct (check_health_ready s) as [[h|e] s1]; cbn [fst snd] in *.
  - specialize (Hall checks s1). destruct (check_roles checks s1) as [rs s2]. cbn [fst snd] in *. cbn [rbind fst forallb].
    rewrite <-Hall, <-(Hh h eq_refl). destruct (passed h), (forallb passed rs); simpl; naive_solver.
  - split; [done|]. intros [[r Hr]%Hex _]. done.
Qed.
End Smoke.
End SmokeTest.
