(* ===== verification/Deployment.v ===== *)
(** * The smoke test against the modelled routes

    A deployment of the tender API as the client of [SmokeTest] sees it: the
    routes of [AdminApi] and [PolicyApi] it calls, with one cookie, and the
    readiness probe of [Operations]. After the accounts of [Seeds] were set up the
    smoke test passes exactly when the schema is at the expected version; it also
    passes when the sign-out revokes nothing. *)

From stdpp Require Import base gmap sets strings list.
From Stdlib Require Import ZArith Ascii Lia.
From S2P Require Import Prelude Json PyStr Query Api SchemaDrift Idempotency Accounts AdminApi AdminHistory Seeds Lifecycle PolicyStore SimulationStore PolicyApi Migrations Operations SmokeTest.
#[local] Close Scope char_scope.

Module Deployment.
Import Routes Accounts AdminApi AdminHistory Seeds SmokeTest.
#[local] Open Scope Z_scope.

(** The database of the server (of the schema only the ledger of its migrations
    matters here), the cookie of the client and the number of requests so far *)
Record deployment := {
  dp_accounts : adb; dp_policies : api_db; dp_ledger : Migrations.mdb (DB := unit); dp_cookie : option string; dp_count : nat }.

Definition http_status {X A} (ok : Z) (r : result (http_error X) A) : Z :=
  match r with Ok _ => ok | Err e => (envelope_response e).1.1.1 end.

Section Server.
Context `{PyText} `{Idempotency.Fingerprints} `{Argon2} `{CursorText}.
(** The time and the random token of each request, the schema version in the
    settings, the text of a JSON response, and whether a sign-out revokes the
    session *)
Variable clock : nat → Z.
Variable tokens : nat → string.
Variable expected : Z.
Variable encode : json → string.
Variable revokes : bool.

Definition default_limit : Z := 20.
(** [ReadinessResponse] *)
Definition ready_response (current : Z) : json :=
  JObj [("status", JStr "ok"); ("schema_version", JInt current); ("expected_schema_version", JInt expected)].
(** The routes that take part, and the cookie: a sign-in sets it, the answer to
    a sign-out deletes it. Of the answers only that of the readiness probe has its
    text. Other paths have no answer here. *)
Definition serve_routes (s : deployment) (method path : string) (body : option json) : result string (Z * string) * deployment :=
  let now := clock (dp_count s) in
  let next d c := {| dp_accounts := d; dp_policies := dp_policies s; dp_ledger := dp_ledger s; dp_cookie := c; dp_count := S (dp_count s) |} in
  let same := next (dp_accounts s) (dp_cookie s) in
  let identity := get_current_identity now (dp_cookie s) (dp_accounts s) in
  if String.eqb method "POST" && String.eqb path "/auth/login" then
    match body with
    | Some (JObj p) =>
        match dict_get "username" p, dict_get "password" p with
        | JStr name, JStr password =>
            let ' (r, d) := login now (tokens (dp_count s)) name password (dp_accounts s) in
            (Ok (http_status 200 r, ""), next d (match r with Ok l => Some (lr_cookie l) | Err _ => dp_cookie s end))
        | _, _ => (Ok (422, ""), same)
        end
    | _ => (Ok (422, ""), same)
    end
  else if String.eqb method "POST" && String.eqb path "/auth/logout" then
    (* the response also deletes the cookie of the client *)
    (Ok (204, ""), next (if revokes then commit (dp_accounts s) (logout now (dp_cookie s) (dp_accounts s)) else dp_accounts s) None)
  else if String.eqb method "GET" && String.eqb path "/admin/users" then
    (Ok (http_status 200 (let! i := identity in list_users i None default_limit (dp_accounts s)), ""), same)
  else if String.eqb method "GET" && String.eqb path "/policy-graphs/999999999/versions" then
    (Ok (match identity with
         | Err e => http_status 200 (Err (A := unit) e)
         | Ok i => http_status 200 (get_versions i 999999999 (dp_policies s))
         end, ""), same)
  else if String.eqb method "GET" && String.eqb path "/health/ready" then
    let ' (r, m) := Operations.readiness now expected None (dp_ledger s) in
    (Ok (http_status 200 r, match r with Ok v => encode (ready_response v) | Err _ => "" end),
     {| dp_accounts := dp_accounts s; dp_policies := dp_policies s; dp_ledger := m; dp_cookie := dp_cookie s; dp_count := S (dp_count s) |})
  else (Ok (404, ""), same).
Definition api_tender : Server deployment := {|
  fresh_client := λ s, {| dp_accounts := dp_accounts s; dp_policies := dp_policies s; dp_ledger := dp_ledger s; dp_cookie := None; dp_count := dp_count s |};
  request := serve_routes |}.

(** ** Accounts that are ready *)

(** The account of a check: active, not locked, with its password, and with a
    role of exactly one permission *)
Definition ready (d : adb) (c : RoleCheck) (perm : string) : Prop := ∃ i u r,
  tbl_get (users d) i = Some u ∧ username u = rc_username c ∧ tbl_get (roles d) (role_id u) = Some r ∧ is_active u = true ∧
  locked_until u = None ∧ verify_password (rc_password c) (password_hash u) = true ∧ permissions_of r d = {[perm]}.

Lemma login_ready now tok c perm d : wf d → ready d c perm → sessions d !! tok = None → ∃ i u r d1,
  login now tok (rc_username c) (rc_password c) d = (Ok {| lr_username := rc_username c; lr_role := r; lr_cookie := tok |}, d1) ∧ wf d1 ∧
  d1 = set_sessions (<[tok := {| s_user_id := i; expires_at := now + SESSION_LIFETIME; revoked_at := None |}]> (sessions d))
         (reset_login_failures i d) ∧
  tbl_get (users d) i = Some u ∧ username u = rc_username c ∧ tbl_get (roles d) (role_id u) = Some r ∧ is_active u = true ∧ permissions_of r d = {[perm]}.
Proof using H H0.
  clear clock tokens revokes expected encode H2. intros Hw (i & u & r & Hu & Hn & Hr & Hact & Hl & Hv & Hp) Hs.
  pose proof (run_op_wf None now (OLogin tok (rc_username c) (rc_password c)) d Hw) as Hw1. simpl in Hw1.
  unfold login, authenticate_user, login_row in *. rewrite (proj2 (find_user_spec d _ i u r Hw)) in * by done.
  unfold locked_at in *. rewrite Hact, Hl, Hv in *. simpl in *. unfold create_session in *. simpl in *. rewrite Hs in *. simpl in *.
  eexists i, u, r, _. rewrite Hn. split_and!; try done.
Qed.

(** ** The routes of the test *)

Definition gated (path perm : string) : Prop :=
  path = "/admin/users" ∧ perm = "admin.users.read" ∨ path = "/policy-graphs/999999999/versions" ∧ perm = "algorithm.policy.read".
Definition bump (s : deployment) : deployment :=
  {| dp_accounts := dp_accounts s; dp_policies := dp_policies s; dp_ledger := dp_ledger s; dp_cookie := dp_cookie s; dp_count := S (dp_count s) |}.

Lemma gated_identified s path perm i : gated path perm → tbl_wf (users (dp_accounts s)) →
  get_current_identity (clock (dp_count s)) (dp_cookie s) (dp_accounts s) = Ok i →
  serve_routes s "GET" path None = (Ok (if decide (perm ∈ permissions i) then 200 else 403, ""), bump s).
Proof.
  intros [[-> ->]|[-> ->]] Hw Hi; unfold serve_routes; simpl; rewrite Hi; simpl; f_equal; f_equal; f_equal.
  - case_decide as Hp.
    + destruct (list_users_page i None default_limit 0 (dp_accounts s) Hp) as (p & -> & _); [by vm_compute|done|done|done].
 
    + unfold list_users, require_permission, has_permission. by rewrite bool_decide_false.
  - unfold get_versions, require_permission, has_permission, READ. case_decide as Hp; [by rewrite bool_decide_true|by rewrite bool_decide_false].
Qed.
Lemma gated_anonymous s path perm : gated path perm → dp_cookie s = None → serve_routes s "GET" path None = (Ok (401, ""), bump s).
Proof. intros [[-> ->]|[-> ->]] Hc; unfold serve_routes, bump; simpl; by rewrite Hc. Qed.

Hypothesis short : ∀ j k, clock j < clock k + SESSION_LIFETIME.
Hypothesis tokens_differ : ∀ j k, tokens j = tokens k → j = k.
Definition tokens_free (s : deployment) : Prop := ∀ k, (dp_count s <= k)%nat → sessions (dp_accounts s) !! tokens k = None.

(** A role whose account is ready goes through its session, which leaves the
    other accounts as ready as they were. *)
Lemma role_session s c perm perm' :
  allowed_method c = "GET" → denied_method c = "GET" → gated (allowed_path c) perm → gated (denied_path c) perm' → perm' ≠ perm →
  wf (dp_accounts s) → ready (dp_accounts s) c perm → tokens_free s →
  session_ok api_tender c s ∧
  let s' := (check_role api_tender c s).2 in
  wf (dp_accounts s') ∧ tokens_free s' ∧
  ∀ c' p, rc_username c' ≠ rc_username c → ready (dp_accounts s) c' p → ready (dp_accounts s') c' p.
Proof using H H0 short tokens_differ.
  intros Ha Hd Hga Hgd Hne Hw Hr Hfree. pose (now := clock (dp_count s)). pose (tok := tokens (dp_count s)).
  destruct (login_ready now tok c perm (dp_accounts s) Hw Hr) as (i & u & r & d1 & Hlogin & Hw1 & Hd1 & Hu & Hn & Hrole & Hact & Hperm); [by apply Hfree|].
  pose (s0 := fresh_client api_tender s).
  pose (s1 := {| dp_accounts := d1; dp_policies := dp_policies s; dp_ledger := dp_ledger s; dp_cookie := Some tok; dp_count := S (dp_count s) |}).
  assert (request api_tender s0 "POST" "/auth/login" (Some (login_body c)) = (Ok (200, ""), s1)) as E1.
  { simpl. unfold serve_routes. simpl. fold now tok. by rewrite Hlogin. }
  assert (∀ k, get_current_identity (clock k) (Some tok) d1 = Ok {| subject := rc_username c; role := r; permissions := {[perm]} |}) as Hid.
  { intros k. unfold get_current_identity, resolve_session. rewrite Hd1. simpl. rewrite lookup_insert_eq. unfold is_live.
    cbn [revoked_at expires_at s_user_id]. unfold now. rewrite (proj2 (Z.ltb_lt _ _) (short k (dp_count s))), tbl_get_set_eq, Hu. simpl. rewrite Hrole. simpl.
    unfold is_active in *. simpl. rewrite Hact. unfold identity_of. simpl. rewrite Hn.
    change (permissions_of r _) with (permissions_of r (dp_accounts s)). by rewrite Hperm. }
  assert (request api_tender s1 (allowed_method c) (allowed_path c) None = (Ok (200, ""), bump s1)) as E2.
  { rewrite Ha. simpl. rewrite (gated_identified s1 _ perm _ Hga (wf_users _ Hw1) (Hid _)). simpl. rewrite decide_True; [done|set_solver]. }
  assert (request api_tender (bump s1) (denied_method c) (denied_path c) None = (Ok (403, ""), bump (bump s1))) as E3.
  { rewrite Hd. simpl. rewrite (gated_identified (bump s1) _ perm' _ Hgd (wf_users _ Hw1) (Hid _)). simpl. rewrite decide_False; [done|set_solver]. }
  pose (d2 := if revokes then revoke_session (clock (S (S (S (dp_count s))))) tok d1 else d1).
  pose (s4 := {| dp_accounts := d2; dp_policies := dp_policies s; dp_ledger := dp_ledger s; dp_cookie := None; dp_count := S (S (S (S (dp_count s)))) |}).
  assert (request api_tender (bump (bump s1)) "POST" "/auth/logout" None = (Ok (204, ""), s4)) as E4 by done.
  assert (request api_tender s4 (allowed_method c) (allowed_path c) None = (Ok (401, ""), bump s4)) as E5.
  { rewrite Ha. simpl. by rewrite (gated_anonymous s4 _ perm Hga). }
  assert (session_ok api_tender c s) as Hok.
  { unfold session_ok, answers, after. cbv zeta. fold s0. rewrite E1. cbn [fst snd]. rewrite E2. cbn [fst snd]. rewrite E3. cbn [fst snd].
    rewrite E4. cbn [fst snd]. rewrite E5. cbn [fst snd]. split_and!; by eexists. }
  split; [exact Hok|]. cbv zeta. rewrite check_role_state by done. unfold after. fold s0. rewrite E1. cbn [snd]. rewrite E2. cbn [snd].
  rewrite E3. cbn [snd]. rewrite E4. cbn [snd]. rewrite E5. cbn [snd]. unfold s4, bump. cbn [dp_accounts dp_count].
  assert (users d2 = users d1 ∧ roles d2 = roles d1 ∧ idem_keys d2 = idem_keys d1 ∧ ∀ x, permissions_of x d2 = permissions_of x d1) as (F1 & F2 & F3 & F4)
    by (subst d2; by destruct revokes).
  assert (∀ t, t ≠ tok → sessions d2 !! t = sessions (dp_accounts s) !! t) as Hses.
  { intros t Ht. subst d2. destruct revokes; simpl; [rewrite lookup_alter_ne by done|]; rewrite Hd1; simpl; by rewrite lookup_insert_ne. }
  split_and!.
  - destruct Hw1 as [? ? ? ? ?]. split; rewrite ?F1, ?F2, ?F3; done.
  - intros k Hk. cbn [dp_count dp_accounts] in *. rewrite Hses; [apply Hfree; lia|]. intros ?%tokens_differ. lia.
  - intros c' p Hc (j & v & x & Hv & Hvn & Hvr & Hrest). exists j, v, x. rewrite F1, F2, F4. rewrite Hd1. simpl.
    split; [rewrite tbl_get_set_ne; [exact Hv|intros ->; congruence]|]. exact (conj Hvn (conj Hvr Hrest)).
Qed.

Lemma two_sessions s c1 c2 p1 p2 :
  allowed_method c1 = "GET" → denied_method c1 = "GET" → allowed_method c2 = "GET" → denied_method c2 = "GET" →
  gated (allowed_path c1) p1 → gated (denied_path c1) p2 → denied_path c2 = allowed_path c1 → allowed_path c2 = denied_path c1 →
  p1 ≠ p2 → rc_username c2 ≠ rc_username c1 → wf (dp_accounts s) → ready (dp_accounts s) c1 p1 → ready (dp_accounts s) c2 p2 →
  (∀ k, sessions (dp_accounts s) !! tokens k = None) → sessions_ok api_tender [c1; c2] s.
Proof using H H0 short tokens_differ.
  intros M1 D1 M2 D2 G1 G2 E1 E2 Hne Hu Hw R1 R2 Hfree.
  destruct (role_session s c1 p1 p2 M1 D1 G1 G2 (not_eq_sym Hne) Hw R1 (λ k _, Hfree k)) as (Hs1 & W1 & F1 & K1).
  split; [exact Hs1|]. split; [|done]. refine (proj1 (role_session _ c2 p2 p1 M2 D2 _ _ Hne W1 (K1 c2 p2 Hu R2) F1)); by rewrite ?E1, ?E2.
Qed.

(** ** Any database after the accounts were set up *)

Variable salts : nat → string.

Lemma upsert_user_ready name title r n salt pw d : wf d → tbl_get (roles d) r = Some n →
  let d' := upsert_user name title r salt pw d in
  wf d' ∧ (∃ i u, tbl_get (users d') i = Some u ∧ username u = name ∧ role_id u = r ∧ is_active u = true ∧ locked_until u = None ∧
             verify_password pw (password_hash u) = true) ∧
  (∀ i u, tbl_get (users d) i = Some u → username u ≠ name → tbl_get (users d') i = Some u) ∧
  roles d' = roles d ∧ permission_names d' = permission_names d ∧ role_permissions d' = role_permissions d ∧ sessions d' = sessions d.
Proof using Type.
  clear clock tokens expected encode revokes short tokens_differ salts H H0 H2.
  intros Hw Hr. cbv zeta. unfold upsert_user. destruct (user_exists name d) eqn:He.
  - apply user_exists_spec in He as (i & u & Hu & Hn); [|done]. pose proof Hw as [W R Q O K].
    assert (∀ j v, tbl_get (tbl_update (λ _ u, String.eqb (username u) name) (refresh title r (hash_password salt pw)) (users d)) j = Some v →
      ∃ w, tbl_get (users d) j = Some w ∧ username v = username w ∧ (v = w ∨ v = refresh title r (hash_password salt pw) w)) as Hget.
    { intros j v. rewrite tbl_get_update by done. destruct (tbl_get (users d) j) as [w|]; simpl; [|done]. intros [= <-]. exists w. destruct (String.eqb _ _); auto. }
    split; [|split; [|split; [|done]]].
    + split; [by apply tbl_update_wf|done| | |done].
      * intros j v k x (v' & Hv & -> & _)%Hget (x' & Hx & -> & _)%Hget. by eapply Q.
      * intros j v (w & Hj & _ & [->| ->])%Hget; [by eapply O|]. split_and!; simpl; [by eexists|lia|unfold FAILED_LOGIN_LOCKOUT_THRESHOLD; lia].
    + exists i, (refresh title r (hash_password salt pw) u). simpl. rewrite tbl_get_update, Hu by apply Hw. simpl. rewrite Hn, String.eqb_refl.
      split_and!; try done. apply argon2_verify_hash.
    + intros j v Hj Hne. simpl. rewrite tbl_get_update, Hj by apply Hw. simpl. by rewrite (proj2 (String.eqb_neq _ _) Hne).
  - destruct (create_account_ok name title r salt pw d n Hw He Hr) as [_ Hw']. simpl in Hw'. split; [exact Hw'|]. split; [|split; [|done]].
    + exists (next_id (users d)), (new_account name title r salt pw). split; [exact (tbl_get_insert_new _ _ (wf_users _ Hw))|].
      split_and!; try done. apply argon2_verify_hash.
    + intros j v Hj _. transitivity (tbl_get (users d) j); [|done]. apply tbl_get_insert_old. intros ->. apply tbl_get_lt in Hj; [lia|apply Hw].
Qed.

(** One account of the script: the steps of [seed_smoke] *)
Definition seed_account (k : nat) (x : smoke_user) (d : adb) : adb :=
  let ' (r, d1) := upsert_role (su_role x) d in
  let ' (p, d2) := upsert_permission (su_permission x) d1 in
  upsert_user (su_username x) (su_display_name x) r (salts k) (su_password x) (ensure_role_permission r p d2).
Record seeded (x : smoke_user) (d d' : adb) : Prop := {
  sd_ok : grants_ok d';
  sd_sessions : sessions d' = sessions d;
  sd_names r : permissions_of r d' = permissions_of r d ∪ one (su_role x) (su_permission x) r;
  sd_account : ∃ i u, tbl_get (users d') i = Some u ∧ username u = su_username x ∧ tbl_get (roles d') (role_id u) = Some (su_role x) ∧
    is_active u = true ∧ locked_until u = None ∧ verify_password (su_password x) (password_hash u) = true;
  sd_others i u : tbl_get (users d) i = Some u → username u ≠ su_username x → tbl_get (users d') i = Some u;
  sd_roles i n : tbl_get (roles d) i = Some n → tbl_get (roles d') i = Some n }.
Lemma seed_account_spec k x d : grants_ok d → seeded x d (seed_account k x d).
Proof using Type.
  clear clock tokens expected encode revokes short tokens_differ H H0 H2.
  intros Hd. unfold seed_account. destruct (upsert_role (su_role x) d) as [r d1] eqn:Hr.
  destruct (upsert_role_grants _ _ _ _ Hd Hr) as [[O1 U1 S1 R1 N1] Hrole].
  destruct (upsert_permission (su_permission x) d1) as [p d2] eqn:Hp.
  destruct (upsert_permission_grants _ _ _ _ O1 Hp) as ([O2 U2 S2 R2 N2] & Hperm & Er).
  destruct (ensure_grants r p (su_role x) (su_permission x) d2 O2 (R2 _ _ Hrole) Hperm) as [O3 U3 S3 R3 N3].
  set (d3 := ensure_role_permission r p d2) in *. pose proof (R3 _ _ (R2 _ _ Hrole)) as Hrole3.
  destruct (upsert_user_ready (su_username x) (su_display_name x) r (su_role x) (salts k) (su_password x) d3 (go_wf _ O3) Hrole3)
    as (Hw & (i & u & Hu & Hn & Hi & Hact & Hl & Hv) & Hother & Er4 & Ep4 & Eg4 & Es4).
  set (d4 := upsert_user _ _ _ _ _ d3) in *. split.
  - destruct O3 as [? ? ? ? ?]. split; rewrite ?Er4, ?Ep4, ?Eg4; done.
  - congruence.
  - intros q. unfold permissions_of. rewrite Er4, Ep4, Eg4. change (permissions_of q d3 = permissions_of q d ∪ one (su_role x) (su_permission x) q).
    rewrite N3, N2, N1. set_solver.
  - exists i, u. rewrite Hi, Er4. by split_and!.
  - intros j v Hj Hne. apply Hother; [|done]. by rewrite U3, U2, U1.
  - intros j n Hj. rewrite Er4. by apply R3, R2, R1.
Qed.

Lemma seed_smoke_cons k x l d : seed_smoke salts k (x :: l) d = seed_smoke salts (S k) l (seed_account k x d).
Proof using Type.
  cbn [seed_smoke]. unfold seed_account. destruct (upsert_role (su_role x) d) as [r d1]. by destruct (upsert_permission (su_permission x) d1).
Qed.

Lemma smoke_accounts_ready d : grants_ok d →
  (∀ x, x ∈ SMOKE_TEST_USERS → permissions_of (su_role x) d ⊆ {[su_permission x]}) →
  let d' := seed_smoke_test_users salts d in
  wf d' ∧ sessions d' = sessions d ∧ Forall2 (λ c x, ready d' c (su_permission x)) DEFAULT_ROLE_CHECKS SMOKE_TEST_USERS.
Proof using Type.
  clear clock tokens expected encode revokes short tokens_differ H H0 H2.
  intros Hd Hp. cbv zeta. unfold seed_smoke_test_users, SMOKE_TEST_USERS in *.
  rewrite !seed_smoke_cons. cbn [seed_smoke]. set (a := Build_smoke_user "smoke-test-admin-reader" _ _ _ _) in *.
  set (b := Build_smoke_user "smoke-test-algorithm-reader" _ _ _ _) in *.
  destruct (seed_account_spec 0 a d Hd) as [O1 S1 N1 A1 K1 R1]. set (d1 := seed_account 0 a d) in *.
  destruct (seed_account_spec 1 b d1 O1) as [O2 S2 N2 A2 K2 R2]. set (d2 := seed_account 1 b d1) in *.
  split; [apply O2|]. split; [congruence|].
  assert (permissions_of (su_role a) d ⊆ {[su_permission a]}) as Ha by (apply Hp; by left).
  assert (permissions_of (su_role b) d ⊆ {[su_permission b]}) as Hb by (apply Hp; right; by left).
  assert (su_role a ≠ su_role b ∧ su_username a ≠ su_username b) as [Hab Hab2] by (subst a b; done).
  constructor; [|constructor; [|constructor]].
  - destruct A1 as (i & u & Hu & Hun & Hr & Hrest). exists i, u, (su_role a). split; [by apply K2; [|rewrite Hun]|]. split; [done|].
    split; [by apply R2|]. destruct Hrest as (? & ? & ?). split_and!; [done..|].
    rewrite N2, N1. unfold one. rewrite decide_True, decide_False by done. apply set_eq. set_solver.
  - destruct A2 as (i & u & Hu & Hn & Hr & Hact & Hl & Hv). exists i, u, (su_role b). split_and!; [done..|].
    rewrite N2, N1. unfold one. rewrite decide_False, decide_True by done. apply set_eq. set_solver.
Qed.

(** C39: on any database, once the seeding script has set up its two accounts
    under roles that have no permission but the one the script gives them, the
    smoke test against the routes of this API, as long as it takes less than the
    life of a session and the tokens are new, exits with 0 when the last version of
    the migration ledger is the expected one, and with 1 otherwise; and it does so
    too against an API whose sign-out revokes nothing. *)
Theorem smoke_test_passes json_of d policies_ m : json_of (encode (ready_response expected)) = Ok (ready_response expected) → grants_ok d →
  (∀ x, x ∈ SMOKE_TEST_USERS → permissions_of (su_role x) d ⊆ {[su_permission x]}) → (∀ k, sessions d !! tokens k = None) →
  (smoke_main api_tender json_of DEFAULT_ROLE_CHECKS
     {| dp_accounts := seed_smoke_test_users salts d; dp_policies := policies_; dp_ledger := m; dp_cookie := None; dp_count := 0 |}).1 =
  Ok (if decide ((Migrations.current_version (clock 0) m).1 = Some expected) then 0 else 1).
Proof using H H0 short tokens_differ.
  intros Hj Hd Hp Ht. destruct (smoke_accounts_ready d Hd Hp) as (W & Es & Hr). set (d' := seed_smoke_test_users salts d) in *.
  set (s := {| dp_accounts := d' |}). destruct (Migrations.current_version (clock 0) m) as [current m'] eqn:Hc.
  pose (s1 := {| dp_accounts := d'; dp_policies := policies_; dp_ledger := m'; dp_cookie := None; dp_count := 1 |}).
  assert (request api_tender (fresh_client api_tender s) "GET" "/health/ready" None =
    (Ok (if decide (current = Some expected) then (200, encode (ready_response expected)) else (503, "")), s1)) as Hh.
  { subst s. unfold request, fresh_client, api_tender, serve_routes. cbv iota beta. cbn [String.eqb Ascii.eqb Bool.eqb andb dp_ledger dp_count dp_cookie].
    unfold Operations.readiness. rewrite Hc. destruct current as [v|]; [|by rewrite decide_False].
    destruct (Z.eqb_spec v expected) as [->|Hne]; [by rewrite decide_True|]. rewrite decide_False by congruence. done. }
  cbn [fst]. case_decide as Hcur.
  - apply exit_code_spec. split.
    + exists (encode (ready_response expected)), (ready_response expected), (JInt expected), (JInt expected). rewrite Hh. split_and!; try done. by apply Z.eqb_eq.
    + unfold check_health_ready. rewrite Hh. unfold SMOKE_TEST_USERS in Hr. cbn [snd].
      apply Forall2_cons in Hr as [R1 Hr]. apply Forall2_cons in Hr as [R2 _]. cbn [su_permission] in R1, R2.
      unfold DEFAULT_ROLE_CHECKS in *. eapply two_sessions; try done; try (by left); try (by right).
      * done.
      * intros k. cbn [dp_accounts s1]. by rewrite Es.
  - unfold smoke_main, run_smoke, check_health_ready. rewrite Hh. cbn -[check_roles DEFAULT_ROLE_CHECKS]. by destruct (check_roles api_tender DEFAULT_ROLE_CHECKS s1).
Qed.
End Server.

Section Demo.
#[local] Existing Instance demo_argon2.
#[local] Existing Instance demo_hash.
#[local] Existing Instance demo_cursors.
#[local] Existing Instance Prelude.ascii_text.
Definition seconds (k : nat) : Z := Z.of_nat (min k 11) * 1000000.
Definition fresh_token (k : nat) : string := String.concat "" (repeat "x" k).
(** A ledger whose last version is 24 *)
Definition demo_row : Migrations.ledger_row := {|
  Migrations.lr_description := "official_sources"; Migrations.lr_checksum := "c"; Migrations.applied_at := 0; Migrations.applied_by := "ops";
  Migrations.preflight_status := "passed"; Migrations.postflight_status := "passed" |}.
Definition demo_schema : Migrations.mdb (DB := unit) := Migrations.Mdb {[24 := demo_row]} ().

Lemma fresh_token_length k : String.length (fresh_token k) = k.
Proof. unfold fresh_token. induction k as [|[|k] IH]; [done..|]. simpl in *. by rewrite <-IH. Qed.
Lemma demo_seconds j k : seconds j < seconds k + SESSION_LIFETIME.
Proof. unfold seconds, SESSION_LIFETIME, minutes. lia. Qed.
Lemma fresh_tokens_differ j k : fresh_token j = fresh_token k → j = k.
Proof. intros E. by rewrite <-(fresh_token_length j), <-(fresh_token_length k), E. Qed.
Lemma demo_roles x : x ∈ SMOKE_TEST_USERS → permissions_of (su_role x) fresh_db ⊆ {[su_permission x]}.
Proof. intros _. assert (permissions_of (su_role x) fresh_db = ∅) as -> by done. set_solver. Qed.
(** A fresh database with a schema at version 24, a request every second, and a
    sign-out that does nothing: the test passes when 24 is expected, and fails when
    25 is. *)
Definition demo_run (expected : Z) : result exn Z :=
  (smoke_main (api_tender seconds fresh_token expected (λ _, "ready") false) (λ _, Ok (ready_response expected expected)) DEFAULT_ROLE_CHECKS
    {| dp_accounts := seed_smoke_test_users demo_tokens fresh_db; dp_policies := ApiDb (PolicyRules.empty_db ∅) tbl_empty;
       dp_ledger := demo_schema; dp_cookie := None; dp_count := 0 |}).1.
Lemma smoke_test_passes_witness : demo_run 24 = Ok 0 ∧ demo_run 25 = Ok 1.
Proof.
  split; refine (smoke_test_passes seconds fresh_token _ (λ _, "ready") false demo_seconds fresh_tokens_differ demo_tokens _ fresh_db
    (ApiDb (PolicyRules.empty_db ∅) tbl_empty) demo_schema eq_refl fresh_ok demo_roles _); done.
Defined.
End Demo.
End Deployment.
