(* ===== verification/CollectSignals.v ===== *)
(** * The observability signals

    [scripts/collect_signals.py] and [packages/platform/db_signals.py]: one JSON
    object of what the tables say, with the categories that have no source marked
    as such. The numbers of the catalog of PostgreSQL are an argument. One
    database state stands for what the statements of the transaction read. *)

From stdpp Require Import base gmap sets strings list.
From Stdlib Require Import ZArith Ascii Lia SpecFloat.
From S2P Require Import Prelude Json PyStr Decimal PyFloat Datetime IsoFormat Query Jobs ExceptionQueue BoqImport TenderDb Decisions Lifecycle PolicyStore Operations Backups.

Module CollectSignals.
Import Model IsoFormat.
#[local] Open Scope Z_scope.

(** A Python value of the payload; [VOther] is one of another type. *)
#[warnings="-register-all"] Inductive pyval :=
| VJson (j : json)
| VTime (d : datetime)
| VDecimal (d : decimal)
| VDict (l : list (string * pyval))
| VList (l : list pyval)
| VOther (type_ : string).

Fixpoint jsonable (v : pyval) : result exn json :=
  match v with
  | VTime d => Ok (JStr (isoformat d))
  | VDecimal d => Ok (JFloat (float_of_decimal d))
  | VDict l =>
      let! o := (fix go l := match l with
                 | [] => Ok []
                 | (k, x) :: r => let! y := jsonable x in let! ys := go r in Ok ((k, y) :: ys)
                 end) l in
      Ok (JObj o)
  | VList l =>
      let! a := (fix go l := match l with
                 | [] => Ok []
                 | x :: r => let! y := jsonable x in let! ys := go r in Ok (y :: ys)
                 end) l in
      Ok (JArr a)
  | VJson j => Ok j
  | VOther t => Err (TypeError ("cannot make <class '" +:+ t +:+ "'> JSON-safe"))
  end.

Definition UNAVAILABLE : list (string * string) := [
  ("notification_delivery", "no notifications table is created by any real migration (see packages/platform/invariant_checks.py::no_orphaned_notifications)");
  ("model_drift_confidence_abstention", "no ML/model code exists in this repo; ml/hybrid policy nodes are schema-valid but rejected at construction");
  ("reconciliation_mismatches", "packages/tender/shadow_comparison.py classifications are pure and unpersisted; no run-history table exists");
  ("request_latency_by_route",
   "no request-latency middleware exists in apps/api_tender/apps/api_vendor -- see docs/operations/slo.md's Interactive p95 latency row");
  ("decision_override_agreement",
   "decision-cycle-time signal (packages/decision/decision_store.py::list_decision_cycle_seconds) deliberately does not attempt override/agreement classification -- see docs/decisions/OPEN-QUESTIONS.md's 2026-08-17 entry, assumption #5")].

(** The numbers of [pg_stat_activity], [pg_locks] and [pg_database_size] *)
Record catalog := { active_connections : Z; waiting_locks : Z; database_size_bytes : Z }.
Definition connection_and_storage_signals (c : catalog) : pyval :=
  VDict [("active_connections", VJson (JInt (active_connections c))); ("waiting_locks", VJson (JInt (waiting_locks c)));
         ("database_size_bytes", VJson (JInt (database_size_bytes c)))].

(** What the signals are read from *)
Record observed := {
  ob_jobs : table Jobs.job_row; ob_exceptions : table Exceptions.exception_row; ob_snapshots : table TenderDb.snapshot_row;
  ob_imports : table BoqImport.BoqImportStatus; ob_decisions : Decisions.ddb; ob_policies : Store.db; ob_drills : table Operations.drill_row;
  ob_catalog : catalog; ob_backups : option (list string) }.

(** A [TIMESTAMPTZ] is read in UTC. *)
Definition utc (t : Z) : datetime := Datetime t (Some 0).
Definition time (t : Z) : pyval := VTime (utc t).
Definition int (n : Z) : pyval := VJson (JInt n).
Definition str (s : string) : pyval := VJson (JStr s).
Definition counts (l : list (string * Z)) : pyval := VDict (map (λ kn, (kn.1, int kn.2)) l).
Definition times (m : gmap string Z) : pyval := VDict (map (λ kt, (kt.1, time kt.2)) (map_to_list m)).
(** [EXTRACT(EPOCH FROM ...)] has six decimals. *)
Definition epoch (us : Z) : decimal := DFin (us <? 0) (Z.abs us) (-6).
Definition cycle_value (x : Z * Z * string * datetime * Z) : pyval :=
  let ' (i, tender, ty, at_, us) := x in
  VDict [("decision_id", int i); ("tender_id", int tender); ("decision_type", str ty); ("decided_at", time (to_timestamptz at_));
         ("computed_at", time (to_timestamptz at_ - us)); ("cycle_seconds", VDecimal (epoch us))].
Definition active_value (x : string * (Z * Store.version_row)) : pyval :=
  let ' (name, (i, r)) := x in
  VDict [("id", int i); ("policy_graph_id", int (Store.vr_graph r)); ("graph_name", str name); ("version_number", int (Store.vr_number r));
         ("status", str (Store.vr_status r)); ("created_by", str (pv_created_by (Store.vr_version r))); ("created_at", time (Store.vr_created_at r))].
Definition drill_value (x : option (Z * Operations.drill_row)) : pyval :=
  match x with
  | None => VJson JNull
  | Some (i, r) => VDict [("id", int i); ("backup_filename", str (Operations.backup_filename r)); ("target_database", str (Operations.target_database r));
      ("passed", VJson (JBool (Operations.dl_passed r))); ("detail", str (Operations.dl_detail r)); ("drilled_at", time (Operations.drilled_at r))]
  end.
Definition backup_value (x : option Backups.stamp) : pyval :=
  match x with None => VJson JNull | Some s => time (Backups.stamp_at s * 1000000) end.

Definition signal_payload (o : observed) : list (string * pyval) := [
  ("job_queue", VDict [("by_status", counts (Jobs.count_by_status (ob_jobs o)));
                       ("dead_lettered_count", int (Z.of_nat (length (Jobs.list_dead_lettered (ob_jobs o)))))]);
  ("exception_queue", VDict [("open_count", int (Z.of_nat (length (Exceptions.list_open None (ob_exceptions o)))));
                             ("last_seen_by_source", times (Exceptions.last_seen_by_source None (ob_exceptions o)))]);
  ("source_freshness", VDict [("last_fetched_at_by_source", times (TenderDb.last_fetched_at_by_source (ob_snapshots o)))]);
  ("boq_completeness", VDict [("by_status", counts (BoqImport.count_by_status (ob_imports o)))]);
  ("decision_cycle", VDict [("cycles", VList (map cycle_value (Decisions.list_decision_cycle_seconds (ob_decisions o))))]);
  ("policy_version_usage", VDict [("active_versions", VList (map active_value (Store.list_all_active_versions (ob_policies o))))]);
  ("database", connection_and_storage_signals (ob_catalog o));
  ("restore_drill", VDict [("latest_passing", drill_value (Operations.latest_passing_drill (ob_drills o)))])].
Definition not_applicable (kr : string * string) : string * pyval :=
  (kr.1, VDict [("status", str "not_applicable"); ("reason", str kr.2)]).
Definition collect_signals (o : observed) : result exn json :=
  jsonable (VDict (signal_payload o ++ ("backup", VDict [("latest_backup_at", backup_value (Backups.latest_backup_at (ob_backups o)))]) ::
                   map not_applicable UNAVAILABLE)).

(** ** What the object says *)

Definition good (v : pyval) : Prop := is_ok (jsonable v) = true.
Definition json_of (v : pyval) : json := match jsonable v with Ok j => j | Err _ => JNull end.
Lemma good_ok v : good v → jsonable v = Ok (json_of v).
Proof. unfold good, json_of. by destruct (jsonable v). Qed.
Lemma jsonable_dict l : Forall (λ kv, good kv.2) l → jsonable (VDict l) = Ok (JObj (map (λ kv, (kv.1, json_of kv.2)) l)).
Proof.
  intros Hl. cbn [jsonable]. match goal with |- rbind ?m _ = _ => assert (m = Ok (map (λ kv, (kv.1, json_of kv.2)) l)) as ->; [|done] end.
  induction Hl as [|[k v] l Hv Hl IH]; [done|]. rewrite (good_ok v Hv). simpl. rewrite IH. done.
Qed.
Lemma jsonable_list l : Forall good l → jsonable (VList l) = Ok (JArr (map json_of l)).
Proof.
  intros Hl. cbn [jsonable]. match goal with |- rbind ?m _ = _ => assert (m = Ok (map json_of l)) as ->; [|done] end.
  induction Hl as [|v l Hv Hl IH]; [done|]. rewrite (good_ok _ Hv). simpl. rewrite IH. done.
Qed.
Lemma good_dict l : Forall (λ kv, good kv.2) l → good (VDict l).
Proof. intros Hl. unfold good. by rewrite jsonable_dict. Qed.
Lemma good_list l : Forall good l → good (VList l).
Proof. intros Hl. unfold good. by rewrite jsonable_list. Qed.
Lemma Forall_mapped {A B} (P : B → Prop) (f : A → B) l : (∀ a, P (f a)) → Forall P (map f l).
Proof. intros Hf. apply Forall_fmap. by apply Forall_true. Qed.
Lemma counts_good l : good (counts l).
Proof. by apply good_dict, Forall_mapped. Qed.
Lemma times_good m : good (times m).
Proof. by apply good_dict, Forall_mapped. Qed.
Lemma signal_payload_good o : Forall (λ kv, good kv.2) (signal_payload o ++ ("backup", VDict [("latest_backup_at", backup_value (Backups.latest_backup_at (ob_backups o)))]) ::
                   map not_applicable UNAVAILABLE).
Proof.
  apply Forall_app_2; [unfold signal_payload|].
  - repeat (apply Forall_cons_2; [cbn [snd]|]); try apply Forall_nil_2;
      try (apply good_dict; repeat (apply Forall_cons_2; [cbn [snd]|]); try apply Forall_nil_2; try apply counts_good; try apply times_good; try done).
    + apply good_list, Forall_mapped. intros [[[[i t] ty] at_] us]. apply good_dict. by repeat constructor.
    + apply good_list, Forall_mapped. intros [name [i r]]. apply good_dict. by repeat constructor.
    + unfold drill_value. destruct (Operations.latest_passing_drill _) as [[i r]|]; [|done]. apply good_dict. by repeat constructor.
  - apply Forall_cons_2; [apply good_dict; apply Forall_cons_2; [|apply Forall_nil_2]; cbn [snd]; unfold backup_value; by destruct (Backups.latest_backup_at _)|].
    apply Forall_mapped. intros [k why]. apply good_dict. by repeat constructor.
Qed.

Fixpoint at_path (ks : list string) (j : json) : option json :=
  match ks with
  | [] => Some j
  | k :: r => match j with JObj l => match assoc k l with Some x => at_path r x | None => None end | _ => None end
  end.
Lemma assoc_map {A B} (f : A → B) k (l : list (string * A)) : assoc k (map (λ kv, (kv.1, f kv.2)) l) = f <$> assoc k l.
Proof. induction l as [|[k' v] l IH]; [done|]. simpl. by destruct (String.eqb k k'). Qed.
Lemma at_dict k ks l : Forall (λ kv, good kv.2) l →
  at_path (k :: ks) (json_of (VDict l)) = match assoc k l with Some v => at_path ks (json_of v) | None => None end.
Proof. intros Hl. unfold json_of at 1. rewrite jsonable_dict by done. cbn [at_path]. rewrite assoc_map. by destruct (assoc k l). Qed.
Lemma at_counts k l : at_path [k] (json_of (counts l)) = JInt <$> assoc k l.
Proof.
  unfold counts. rewrite at_dict by (by apply Forall_mapped). rewrite (assoc_map int). by destruct (assoc k l).
Qed.
Lemma at_times k m : at_path [k] (json_of (times m)) = (λ t, JStr (isoformat (utc t))) <$> m !! k.
Proof.
  unfold times. rewrite at_dict by (by apply Forall_mapped). rewrite (assoc_map time).
  assert (assoc k (map_to_list m) = m !! k) as ->; [|by destruct (m !! k)].
  destruct (m !! k) as [t|] eqn:E.
  - apply assoc_NoDup; [apply NoDup_fst_map_to_list|]. by apply elem_of_map_to_list.
  - apply assoc_None. intros ([k' t] & -> & Ht%elem_of_map_to_list)%list_elem_of_fmap. simpl in E. congruence.
Qed.

(** How many rows have the key *)
Definition number {R} (key : R → string) (k : string) (t : table R) : Z := occurrences (λ ir, key ir.2) k (rows t).
Lemma assoc_group_count {R} (key : R → string) k (t : table R) :
  assoc k (group_count key t) = if 0 <? number key k t then Some (number key k t) else None.
Proof.
  destruct (counts_spec (λ ir : Z * R, key ir.2) (rows t)) as [Hnd Hc]. fold (group_count key t) in Hnd, Hc.
  destruct (Z.ltb_spec 0 (number key k t)) as [Hp|Hz].
  - apply assoc_NoDup; [done|]. by apply Hc.
  - apply assoc_None. intros ([k' n] & -> & [-> Hn]%Hc)%list_elem_of_fmap. simpl in *. unfold number in Hz. lia.
Qed.
Lemma length_select {R} (key : R → string) k (t : table R) : Z.of_nat (length (tbl_select (λ _ r, String.eqb (key r) k) t)) = number key k t.
Proof.
  unfold tbl_select, number. induction (rows t) as [|[i r] l IH]; [done|]. rewrite filter_cons. cbn [occurrences snd].
  rewrite (String.eqb_sym k). case_decide as Hd; simpl in Hd.
  - rewrite Hd. cbn [length]. lia.
  - apply not_true_is_false in Hd. rewrite Hd. lia.
Qed.

(** The latest of the times of a source *)
Definition latest_time {R} (source : R → string) (at_ : R → Z) (t : table R) (src : string) (x : Z) : Prop :=
  (∃ i r, (i, r) ∈ rows t ∧ source r = src ∧ at_ r = x) ∧ ∀ i r, (i, r) ∈ rows t → source r = src → at_ r <= x.
Definition max_by {R} (source : R → string) (at_ : R → Z) (l : list (Z * R)) : gmap string Z :=
  foldl (λ m ir, <[source ir.2 := match m !! source ir.2 with Some x => Z.max x (at_ ir.2) | None => at_ ir.2 end]> m) ∅ l.
Lemma max_by_spec {R} (source : R → string) (at_ : R → Z) l src :
  match max_by source at_ l !! src with
  | Some x => (∃ i r, (i, r) ∈ l ∧ source r = src ∧ at_ r = x) ∧ ∀ i r, (i, r) ∈ l → source r = src → at_ r <= x
  | None => ∀ i r, (i, r) ∈ l → source r ≠ src
  end.
Proof.
  induction l as [|[j s] l IH] using rev_ind; [unfold max_by; cbn [foldl]; rewrite lookup_empty; intros i r Hin; by apply elem_of_nil in Hin|]. unfold max_by in *. rewrite foldl_snoc. cbn [snd].
  set (m := foldl _ ∅ l) in *. destruct (decide (source s = src)) as [Hs|Hs].
  - rewrite Hs, lookup_insert_eq. destruct (m !! src) as [x|].
    + destruct IH as [(i & r & Hin & Hr & <-) Hall]. split.
      * destruct (Z.max_spec (at_ r) (at_ s)) as [[_ ->]|[_ ->]]; [exists j, s|exists i, r]; (split; [apply elem_of_app|done]); [right; by left|by left].
      * intros i' r' [Hin'|Hin']%elem_of_app Hr'; [specialize (Hall _ _ Hin' Hr'); lia|]. apply list_elem_of_singleton in Hin' as [= -> ->]. lia.
    + split; [exists j, s; split; [apply elem_of_app; right; by left|done]|].
      intros i r [Hin|Hin]%elem_of_app Hr; [by destruct (IH _ _ Hin)|]. apply list_elem_of_singleton in Hin as [= -> ->]. lia.
  - rewrite lookup_insert_ne by done. destruct (m !! src) as [x|].
    + destruct IH as [(i & r & Hin & Hr & Hx) Hall]. split; [exists i, r; split; [apply elem_of_app; by left|done]|].
      intros i' r' [Hin'|Hin']%elem_of_app Hr'; [by eapply Hall|]. by apply list_elem_of_singleton in Hin' as [= -> ->].
    + intros i r [Hin|Hin]%elem_of_app; [by eapply IH|]. by apply list_elem_of_singleton in Hin as [= -> ->].
Qed.

Definition SECTIONS : list string :=
  ["job_queue"; "exception_queue"; "source_freshness"; "boq_completeness"; "decision_cycle"; "policy_version_usage"; "database"; "restore_drill"; "backup"].
Definition counted (j : json) (path : list string) (n : string → Z) : Prop :=
  ∀ k, at_path (path ++ [k]) j = if 0 <? n k then Some (JInt (n k)) else None.
(** The text of a time reads back as it. *)
Definition shows_time (v : option json) (t : Z) : Prop := ∃ s, v = Some (JStr s) ∧ (in_calendar t = true → ∀ T : PyText, fromisoformat (H := T) s = Ok (utc t)).
Definition dated {R} (j : json) (path : list string) (source : R → string) (at_ : R → Z) (t : table R) : Prop :=
  ∀ k, (at_path (path ++ [k]) j = None ∧ ∀ i r, (i, r) ∈ rows t → source r ≠ k) ∨ ∃ x, shows_time (at_path (path ++ [k]) j) x ∧ latest_time source at_ t k x.

Lemma shows_utc t : shows_time (Some (JStr (isoformat (utc t)))) t.
Proof. exists (isoformat (utc t)). split; [done|]. intros Ht T. apply iso_round_trip. split; [done|]. by intros o [= <-]. Qed.
Lemma dated_max {R} (source : R → string) (at_ : R → Z) (t : table R) j path :
  (∀ k, at_path (path ++ [k]) j = (λ x, JStr (isoformat (utc x))) <$> max_by source at_ (rows t) !! k) → dated j path source at_ t.
Proof.
  intros Hj k. rewrite Hj. pose proof (max_by_spec source at_ (rows t) k) as Hm. destruct (max_by source at_ (rows t) !! k) as [x|].
  - right. exists x. split; [apply shows_utc|exact Hm].
  - by left.
Qed.
Lemma counted_group {R} (key : R → string) (t : table R) j path :
  (∀ k, at_path (path ++ [k]) j = JInt <$> assoc k (group_count key t)) → counted j path (λ k, number key k t).
Proof. intros Hj k. rewrite Hj, assoc_group_count. by destruct (0 <? _). Qed.

Lemma select_all {R} (t : table R) : tbl_select (λ _ _, true) t = rows t.
Proof. unfold tbl_select. induction (rows t) as [|x l IH]; [done|]. rewrite filter_cons, decide_True by done. by rewrite IH. Qed.
Lemma stamp_in_calendar x : Backups.valid x = true → in_calendar (Backups.stamp_at x * 1000000) = true.
Proof.
  intros (Hy & Hm & Hd & Hh & Hmi & Hs)%Backups.valid_spec. destruct (month_within (Backups.year x) (Backups.month x) Hm) as [H1 H2].
  pose proof (new_year_mono 1 (Backups.year x)). pose proof (new_year_mono (Backups.year x + 1) 10000).
  unfold in_calendar, Backups.stamp_at, DAY. rewrite (civil_day (Backups.year x)), andb_true_iff, Z.leb_le, Z.ltb_lt. lia.
Qed.

Lemma newest_valid dir x : Backups.latest_backup_at dir = Some x → Backups.valid x = true.
Proof.
  unfold Backups.latest_backup_at. destruct dir as [names|]; [|done]. intros Hx. destruct (Backups.newest_spec names None) as [_ Ht].
  destruct (Ht _ Hx) as [[Hn|(name & _ & Hn)] _]; [done|]. by eapply Backups.backup_time_valid.
Qed.

(** C34: the collector never fails; its object has exactly the nine sections and
    the five categories without a source, each marked not applicable; the counts
    by status, of dead letters and of open exceptions are those of the tables;
    and the times by source are texts that read back as the latest time in the
    table, absent exactly for a source without a row, as is the time of the
    newest backup. *)
Theorem signals_collected o : ∃ p, collect_signals o = Ok (JObj p) ∧ p.*1 = SECTIONS ++ UNAVAILABLE.*1 ∧
  (∀ k why, (k, why) ∈ UNAVAILABLE → at_path [k; "status"] (JObj p) = Some (JStr "not_applicable") ∧ at_path [k; "reason"] (JObj p) = Some (JStr why)) ∧
  counted (JObj p) ["job_queue"; "by_status"] (λ st, number Jobs.status st (ob_jobs o)) ∧
  counted (JObj p) ["boq_completeness"; "by_status"] (λ st, number BoqImport.status st (ob_imports o)) ∧
  at_path ["job_queue"; "dead_lettered_count"] (JObj p) = Some (JInt (number Jobs.status "failed" (ob_jobs o))) ∧
  at_path ["exception_queue"; "open_count"] (JObj p) = Some (JInt (number Exceptions.status "open" (ob_exceptions o))) ∧
  dated (JObj p) ["source_freshness"; "last_fetched_at_by_source"] TenderDb.sn_source TenderDb.sn_fetched_at (ob_snapshots o) ∧
  dated (JObj p) ["exception_queue"; "last_seen_by_source"] Exceptions.source Exceptions.first_seen_at (ob_exceptions o) ∧
  match Backups.latest_backup_at (ob_backups o) with
  | None => at_path ["backup"; "latest_backup_at"] (JObj p) = Some JNull
  | Some x => ∃ s, at_path ["backup"; "latest_backup_at"] (JObj p) = Some (JStr s) ∧
      ∀ T : PyText, fromisoformat (H := T) s = Ok (utc (Backups.stamp_at x * 1000000))
  end.
Proof.
  pose proof (signal_payload_good o) as Hg. unfold collect_signals. rewrite (jsonable_dict _ Hg). eexists. split; [done|].
  assert (∀ k ks v, assoc k (signal_payload o ++ ("backup", VDict [("latest_backup_at", backup_value (Backups.latest_backup_at (ob_backups o)))]) ::
      map not_applicable UNAVAILABLE) = Some v →
    at_path (k :: ks) (JObj (map (λ kv, (kv.1, json_of kv.2)) (signal_payload o ++ ("backup", VDict [("latest_backup_at", backup_value (Backups.latest_backup_at (ob_backups o)))]) ::
      map not_applicable UNAVAILABLE))) = at_path ks (json_of v)) as Hj.
  { intros k ks v Hv. cbn [at_path]. by rewrite assoc_map, Hv. }
  set (j := JObj _) in *.
  split_and!.
  - done.
  - intros k why Hk. unfold UNAVAILABLE in Hk. repeat (apply elem_of_cons in Hk as [[= -> ->]|Hk]; [by split|]). by apply elem_of_nil in Hk.
  - apply counted_group. intros k. cbn [app]. rewrite (Hj "job_queue" _ _ eq_refl), at_dict by (repeat constructor; apply counts_good). apply at_counts.
  - apply counted_group. intros k. cbn [app]. rewrite (Hj "boq_completeness" _ _ eq_refl), at_dict by (repeat constructor; apply counts_good). apply at_counts.
  - rewrite (Hj "job_queue" _ _ eq_refl), at_dict by (repeat constructor; apply counts_good). cbn. do 2 f_equal.
    unfold Jobs.list_dead_lettered. rewrite order_by_perm. apply length_select.
  - rewrite (Hj "exception_queue" _ _ eq_refl), at_dict by (repeat constructor; apply times_good). cbn. do 2 f_equal.
    unfold Exceptions.list_open. rewrite order_by_perm, <-length_select. unfold tbl_select. do 2 f_equal. apply list_filter_iff. intros ir.
    by rewrite andb_true_r.
  - apply dated_max. intros k. cbn [app]. rewrite (Hj "source_freshness" _ _ eq_refl), at_dict by (repeat constructor; apply times_good). apply at_times.
  - apply dated_max. intros k. cbn [app]. rewrite (Hj "exception_queue" _ _ eq_refl), at_dict by (repeat constructor; apply times_good).
    cbn [assoc String.eqb Ascii.eqb Bool.eqb]. rewrite at_times. unfold Exceptions.last_seen_by_source. by rewrite select_all.
  - rewrite (Hj "backup" _ _ eq_refl). unfold backup_value. destruct (Backups.latest_backup_at (ob_backups o)) as [x|] eqn:Hx; [|done].
    destruct (shows_utc (Backups.stamp_at x * 1000000)) as (s & Hs & Hr). exists s. split; [exact Hs|]. apply Hr, stamp_in_calendar, (newest_valid _ _ Hx).
Qed.
End CollectSignals.
