(* ===== verification/Responses.v ===== *)
(** * The bodies the API answers

    The response models of [apps/api_tender/routers/algoritm.py],
    [calibration.py] and [execution_ledger.py] and the functions that fill them
    from rows: times as the texts of [isoformat], amounts as texts. What such a
    body says of a row is the row. *)

From stdpp Require Import base gmap sets strings list.
From Stdlib Require Import ZArith Ascii Lia.
From S2P Require Import Prelude Json PyStr Decimal DecimalText Datetime IsoFormat Query Lifecycle PolicyGraph PolicyStore SimulationStore TenderDb ExecutionLedger Calibration.

Module Responses.
Import Model Graph SimStore ExecutionLedger IsoFormat DecimalText.
#[local] Open Scope Z_scope.

Definition opt {A} (f : A → json) (x : option A) : json := match x with Some a => f a | None => JNull end.
Definition strs (l : list string) : json := JArr (map JStr l).
Definition str_map (m : gmap string string) : json := JObj (map (λ kv, (kv.1, JStr kv.2)) (map_to_list m)).
(** [row["..."].isoformat()] of a [TIMESTAMPTZ], which is read in UTC *)
Definition utc_text (t : Z) : json := JStr (isoformat (Datetime t (Some 0))).

(** ** Policies *)

Definition graph_body (x : Z * PolicyGraph) : json :=
  JObj [("id", JInt x.1); ("name", JStr (pg_name x.2)); ("owner", JStr (pg_owner x.2)); ("description", opt JStr (pg_description x.2))].
Definition version_body (x : Z * Store.version_row) : json :=
  let v := Store.vr_version x.2 in
  JObj [("id", JInt x.1); ("policy_graph_id", JInt (pv_policy_graph_id v)); ("version_number", JInt (pv_version_number v)); ("status", JStr (pv_status v));
        ("research_dossier_id", opt JInt (pv_research_dossier_id v)); ("created_by", JStr (pv_created_by v)); ("created_at", utc_text (Store.vr_created_at x.2))].
Definition versions_body (l : list (Z * Store.version_row)) : json := JObj [("items", JArr (map version_body l))].
(** [_row_for_response]: a row of a node or an edge without [id] and [created_at] *)
Definition node_body (n : PolicyNode) : json :=
  JObj [("policy_version_id", JInt (policy_version_id n)); ("node_key", JStr (node_key n)); ("node_type", JStr (node_type n)); ("title", JStr (title n));
        ("purpose", JStr (purpose n)); ("owner", JStr (owner n)); ("execution_mode", JStr (execution_mode n));
        ("input_contract", str_map (input_contract n)); ("output_contract", str_map (output_contract n)); ("preconditions", strs (preconditions n));
        ("evidence_requirements", strs (evidence_requirements n)); ("timeout_seconds", opt JInt (timeout_seconds n));
        ("retry_policy", opt id (retry_policy n)); ("fallback_node_key", opt JStr (fallback_node_key n)); ("reason_codes", strs (reason_codes n));
        ("required_role", opt JStr (required_role n)); ("financial_impact", JBool (financial_impact n)); ("legal_impact", JBool (legal_impact n));
        ("model_or_policy_dependency", opt JStr (model_or_policy_dependency n)); ("test_cases", JArr (test_cases n)); ("monitoring_metrics", strs (monitoring_metrics n))].
Definition edge_body (e : PolicyEdge) : json :=
  JObj [("policy_version_id", JInt (edge_version_id e)); ("from_node_key", JStr (from_node_key e)); ("to_node_key", JStr (to_node_key e));
        ("condition_label", opt JStr (condition_label e))].
Definition content_body (version : Z * Store.version_row) (nodes : list PolicyNode) (edges : list PolicyEdge) : json :=
  JObj [("version", version_body version); ("nodes", JArr (map node_body nodes)); ("edges", JArr (map edge_body edges))].
Definition issues_body (l : list ValidationIssue) : json :=
  JObj [("issues", JArr (map (λ i, JObj [("code", JStr (code i)); ("message", JStr (message i)); ("node_key", opt JStr (issue_node i))]) l))].
Definition transition_body (x : Z * Store.transition_row) : json :=
  let t := Store.tw_transition x.2 in
  JObj [("id", JInt x.1); ("policy_version_id", JInt (tr_version_id t)); ("from_status", JStr (tr_from_status t)); ("to_status", JStr (tr_to_status t));
        ("changed_by", JStr (tr_changed_by t)); ("changed_at", utc_text (Store.tw_changed_at x.2)); ("reason", opt JStr (tr_reason t))].
Definition transitions_body (l : list (Z * Store.transition_row)) : json := JObj [("items", JArr (map transition_body l))].
(** The breakdown by subgroup and the traces of the row are not answered here. *)
Definition run_body (x : Z * run_row) : json :=
  let r := x.2 in
  JObj [("id", JInt x.1); ("policy_version_id", JInt (rr_policy_version_id r)); ("compared_against_version_id", opt JInt (rr_compared_against r));
        ("case_set_label", JStr (rr_case_set_label r)); ("case_source", JStr (rr_case_source r)); ("case_count", JInt (rr_case_count r));
        ("completed_count", JInt (rr_completed r)); ("awaiting_human_count", JInt (rr_awaiting r)); ("undetermined_count", JInt (rr_undetermined r));
        ("terminal_distribution", rr_terminal_distribution r); ("reason_code_distribution", rr_reason_code_distribution r);
        ("monetary_range", opt id (rr_monetary_range r)); ("monetary_amount_uncurrencied_count", JInt (rr_uncurrencied r)); ("run_by", JStr (rr_run_by r));
        ("run_at", utc_text (rr_run_at r)); ("notes", opt JStr (rr_notes r))].
Definition traces_body (l : list json) : json := JObj [("items", JArr l)].
Definition dossier_body (i : Z) (d : Store.ResearchDossier) : json :=
  JObj [("id", JInt i); ("decision_statement", JStr (Store.decision_statement d)); ("approved_at", opt JStr (Store.approved_at d))].

(** ** Outcomes and facts *)

Section Amounts.
(** What a NUMERIC column gives back for a number *)
Variable column : decimal → decimal.
Definition amount (x : option decimal) : json := opt (λ d, JStr (dec_str (column d))) x.
Definition outcome_body (x : Z * Calibration.outcome_row) : json :=
  let o := Calibration.or_outcome x.2 in
  JObj [("id", JInt x.1); ("tender_id", JInt (Calibration.to_tender_id o)); ("outcome", JStr (Calibration.outcome o));
        ("our_submitted_amount", amount (Calibration.or_our_amount x.2)); ("winner_name", opt JStr (Calibration.winner_name o));
        ("winner_amount", amount (Calibration.or_winner_amount x.2)); ("currency", opt JStr (Calibration.currency o));
        ("announced_at", opt utc_text (Calibration.or_announced_at x.2)); ("source_ref", JStr (Calibration.source_ref o));
        ("entered_by", JStr (Calibration.to_entered_by o)); ("entered_at", utc_text (to_timestamptz (Calibration.to_entered_at o)))].
Definition reason_body (x : Z * Calibration.reason_row) : json :=
  let r := Calibration.rw_reason x.2 in
  JObj [("id", JInt x.1); ("tender_outcome_id", JInt (Calibration.rw_outcome_id x.2)); ("loss_reason", JStr (Calibration.loss_reason r));
        ("note", JStr (Calibration.note r)); ("entered_by", JStr (Calibration.lr_entered_by r)); ("entered_at", utc_text (to_timestamptz (Calibration.lr_entered_at r)))].
Definition contribution_body (x : Z * contribution_row) : json :=
  JObj [("id", JInt x.1); ("tender_id", JInt (oc_tender_id x.2)); ("deviation_category", JStr (oc_category x.2)); ("fact_count", JInt (fact_count x.2));
        ("contributed_at", utc_text (contributed_at x.2))].
Definition contributions_body (l : list (Z * contribution_row)) : json := JObj [("items", JArr (map contribution_body l))].
(** The amounts of a comparison are computed, not columns. *)
Definition comparison_body (c : Calibration.PriceComparison) : json :=
  let text := opt (λ d, JStr (dec_str d)) in
  JObj [("winner_amount", text (Calibration.pc_winner_amount c)); ("our_submitted_amount", text (Calibration.pc_our_submitted_amount c));
        ("our_scg_cost_basis", text (Calibration.our_scg_cost_basis c)); ("winner_vs_our_submitted", text (Calibration.winner_vs_our_submitted c));
        ("winner_vs_our_cost_basis", text (Calibration.winner_vs_our_cost_basis c)); ("coverage_line_count", JInt (Calibration.coverage_line_count c));
        ("total_line_count", JInt (Calibration.total_line_count c)); ("is_partial_coverage", JBool (Calibration.is_partial_coverage c))].
Definition calibration_body (r : Calibration.CalibrationResponse) : json :=
  JObj [("outcome", outcome_body (Calibration.cr_outcome r)); ("loss_reasons", JArr (map reason_body (Calibration.cr_loss_reasons r)));
        ("loss_reason_rollup", JObj (map (λ kn, (kn.1, JInt kn.2)) (Calibration.loss_reason_rollup r)));
        ("price_comparison", comparison_body (Calibration.price_comparison r)); ("overhead_buffer", JArr (map contribution_body (Calibration.overhead_buffer r)))].
Definition link_body (row : Z * Calibration.link_row) (lag_days : option Z) (first_observed_at : option string) : json :=
  let ' (i, l) := row in
  JObj [("id", JInt i); ("forecast_card_snapshot_id", JInt (Calibration.lk_snapshot_id l)); ("tender_id", JInt (Calibration.lk_tender_id l));
        ("note", JStr (Calibration.lk_note l)); ("confirmed_by", JStr (Calibration.confirmed_by l)); ("confirmed_at", utc_text (Calibration.confirmed_at l));
        ("observed_lag_days", opt JInt lag_days); ("first_observed_at", opt JStr first_observed_at)].
Definition organization_outcomes_body (l : list ((Z * Calibration.outcome_row) * list (Z * Calibration.reason_row))) : json :=
  JObj [("items", JArr (map (λ x, JObj [("outcome", outcome_body x.1); ("loss_reasons", JArr (map reason_body x.2))]) l))].
Definition fact_body (x : Z * (ExecutionFact * Z)) : json :=
  let f := x.2.1 in
  JObj [("id", JInt x.1); ("tender_id", JInt (ef_tender_id f)); ("boqline_source_line_id", opt JInt (ef_line f)); ("planned_qty", amount (planned_qty f));
        ("actual_qty", amount (actual_qty f)); ("deviation_reason", JStr (deviation_reason f)); ("deviation_category", opt JStr (deviation_category f));
        ("culprit_type", JStr (culprit_type f)); ("culprit_vendor_name", opt JStr (culprit_vendor_name f)); ("culprit_vendor_id", opt JInt (culprit_vendor_id f));
        ("evidence_source", JStr (evidence_source f)); ("observed_at", utc_text x.2.2)].
Definition facts_body (l : list (Z * (ExecutionFact * Z))) : json := JObj [("items", JArr (map fact_body l))].
End Amounts.

(** ** Nothing is lost *)

Lemma iso_inj t u : in_calendar t = true → in_calendar u = true → isoformat (Datetime t (Some 0)) = isoformat (Datetime u (Some 0)) → t = u.
Proof.
  intros Ht Hu E. assert (∀ x, in_calendar x = true → representable (Datetime x (Some 0))) as Hr by (intros x Hx; split; [done|by intros o [= <-]]).
  pose proof (iso_read _ (Hr t Ht)) as Et. pose proof (iso_read _ (Hr u Hu)) as Eu. unfold isoformat in E.
  apply (f_equal String.list_ascii_of_string) in E. rewrite !String.list_ascii_of_string_of_list_ascii in E. rewrite E, Eu in Et. by injection Et.
Qed.
Lemma opt_inj {A} (P : A → Prop) (f : A → json) x y : (∀ a, f a ≠ JNull) → (∀ a b, P a → P b → f a = f b → a = b) →
  from_option P True x → from_option P True y → opt f x = opt f y → x = y.
Proof. intros Hn Hf. destruct x as [a|], y as [b|]; simpl; try done; [intros Ha Hb E; f_equal; by apply Hf|intros _ _ E; by destruct (Hn a)|intros _ _ E; by destruct (Hn b)]. Qed.
Lemma opt_str_inj x y : opt JStr x = opt JStr y → x = y.
Proof. destruct x, y; simpl; congruence. Qed.
Lemma opt_int_inj x y : opt JInt x = opt JInt y → x = y.
Proof. destruct x, y; simpl; congruence. Qed.
Lemma opt_time_inj x y : from_option (λ t, in_calendar t = true) True x → from_option (λ t, in_calendar t = true) True y → opt utc_text x = opt utc_text y → x = y.
Proof. apply opt_inj; [done|]. intros a b Ha Hb [= E]. by apply iso_inj. Qed.
Lemma map_inj_to {A B C} (P : A → Prop) (f : A → B) (g : A → C) l k : (∀ a b, P a → P b → f a = f b → g a = g b) →
  Forall P l → Forall P k → map f l = map f k → map g l = map g k.
Proof.
  intros Hf Hl. revert k. induction Hl as [|a l Ha Hl IH]; intros [|b k] Hk; simpl; try done. inversion Hk; subst.
  intros E. assert (f a = f b ∧ map f l = map f k) as [E1 E2] by (split; [exact (f_equal (hd (f a)) E)|exact (f_equal tail E)]). f_equal; auto.
Qed.
Lemma map_inj_on {A B} (P : A → Prop) (f : A → B) l k : (∀ a b, P a → P b → f a = f b → a = b) → Forall P l → Forall P k → map f l = map f k → l = k.
Proof. intros Hf Hl Hk E. rewrite <-(map_id l), <-(map_id k). by eapply (map_inj_to P f (λ x, x)). Qed.
Lemma map_inj {A B} (f : A → B) l k : (∀ a b, f a = f b → a = b) → map f l = map f k → l = k.
Proof. intros Hf. revert k. induction l as [|a l IH]; intros [|b k]; simpl; try done. intros [= E1 E2]. f_equal; auto. Qed.
Lemma JStr_inj a b : JStr a = JStr b → a = b.
Proof. by intros [= ->]. Qed.
Lemma strs_inj l k : map JStr l = map JStr k → l = k.
Proof. apply map_inj, JStr_inj. Qed.
Lemma str_map_inj (m n : gmap string string) :
  map (λ kv, (kv.1, JStr kv.2)) (map_to_list m) = map (λ kv, (kv.1, JStr kv.2)) (map_to_list n) → m = n.
Proof.
  intros E. apply map_inj in E; [|by intros [a b] [c d] [= -> ->]].
  apply (f_equal (list_to_map (M := gmap string string))) in E. by rewrite !list_to_map_to_list in E.
Qed.
Lemma opt_json_inj (x y : option json) : x ≠ Some JNull → y ≠ Some JNull → opt id x = opt id y → x = y.
Proof. destruct x, y; simpl; unfold id; congruence. Qed.
(** An amount a NUMERIC column can hold: it comes back as it went in. *)
Definition settled (column : decimal → decimal) (d : decimal) : Prop := column d = d ∧ dec_wf d.
Lemma amount_inj column x y : from_option (settled column) True x → from_option (settled column) True y → amount column x = amount column y → x = y.
Proof. apply opt_inj; [done|]. intros a b [Ea Ha] [Eb Hb] [= E]. rewrite Ea, Eb in E. by apply dec_str_inj. Qed.

(** Takes the fields of equal bodies apart and reads each back. *)
#[local] Ltac unread :=
  repeat match goal with
    | H : map JStr _ = map JStr _ |- _ => apply strs_inj in H
    | H : map _ (map_to_list _) = map _ (map_to_list _) |- _ => apply str_map_inj in H
    | H : opt JStr _ = opt JStr _ |- _ => apply opt_str_inj in H
    | H : opt JInt _ = opt JInt _ |- _ => apply opt_int_inj in H
    | H : opt id _ = opt id _ |- _ => apply opt_json_inj in H; [|done..]
    | H : isoformat _ = isoformat _ |- _ => apply iso_inj in H; [|done..]
    | H : opt utc_text _ = opt utc_text _ |- _ => apply opt_time_inj in H; [|done..]
    | H : amount _ _ = amount _ _ |- _ => apply amount_inj in H; [|done..]
    end.
#[local] Ltac fields E := injection E; clear E; intros; unread; subst; try done.

(** ** Each body determines its row *)

Definition in_time (t : Z) : Prop := in_calendar t = true.
Lemma version_body_inj x y : in_time (Store.vr_created_at x.2) → in_time (Store.vr_created_at y.2) → version_body x = version_body y → x = y.
Proof. destruct x as [i [[g n s c d] t]], y as [j [[g' n' s' c' d'] t']]. cbn. intros Ht Ht' E. fields E. Qed.
Lemma transition_body_inj x y : in_time (Store.tw_changed_at x.2) → in_time (Store.tw_changed_at y.2) → transition_body x = transition_body y → x = y.
Proof. destruct x as [i [[v f to_ b r] t]], y as [j [[v' f' to' b' r'] t']]. cbn. intros Ht Ht' E. fields E. Qed.
Lemma node_body_inj n m : retry_policy n ≠ Some JNull → retry_policy m ≠ Some JNull → node_body n = node_body m → n = m.
Proof. destruct n, m. cbn. intros Hn Hm E. fields E. Qed.
Lemma edge_body_inj e f : edge_body e = edge_body f → e = f.
Proof. destruct e, f. cbn. intros E. fields E. Qed.
Lemma contribution_body_inj x y : in_time (contributed_at x.2) → in_time (contributed_at y.2) → contribution_body x = contribution_body y → x = y.
Proof. destruct x as [i []], y as [j []]. cbn. intros Ht Ht' E. fields E. Qed.
Section Columns.
Context (column : decimal → decimal).
Definition settled_opt (x : option decimal) : Prop := from_option (settled column) True x.
Definition fact_ok (x : Z * (ExecutionFact * Z)) : Prop := settled_opt (planned_qty x.2.1) ∧ settled_opt (actual_qty x.2.1) ∧ in_time x.2.2.
(** The text of the moment a fact was sent with is read once; the row has the moment. *)
Definition fact_row (f : ExecutionFact) : ExecutionFact :=
  {| ef_tender_id := ef_tender_id f; ef_line := ef_line f; planned_qty := planned_qty f; actual_qty := actual_qty f; deviation_reason := deviation_reason f;
     deviation_category := deviation_category f; culprit_type := culprit_type f; culprit_vendor_name := culprit_vendor_name f;
     culprit_vendor_id := culprit_vendor_id f; evidence_source := evidence_source f; observed_at := "" |}.
Definition fact_fields (x : Z * (ExecutionFact * Z)) := (x.1, fact_row x.2.1, x.2.2).
Lemma fact_body_inj x y : fact_ok x → fact_ok y → fact_body column x = fact_body column y → fact_fields x = fact_fields y.
Proof. destruct x as [i [[] t]], y as [j [[] t']]. unfold fact_ok, settled_opt. cbn. intros (?&?&?) (?&?&?) E. fields E. Qed.
End Columns.

Definition version_ok (x : Z * Store.version_row) : Prop := in_time (Store.vr_created_at x.2).
(** A JSON column holds SQL NULL for [None], never the JSON null. *)
Definition node_ok (n : PolicyNode) : Prop := retry_policy n ≠ Some JNull.
Definition transition_ok (x : Z * Store.transition_row) : Prop := in_time (Store.tw_changed_at x.2).
Lemma content_inj {v w : json} {ns ms es fs} :
  JObj [("version", v); ("nodes", JArr ns); ("edges", JArr es)] = JObj [("version", w); ("nodes", JArr ms); ("edges", JArr fs)] → v = w ∧ ns = ms ∧ es = fs.
Proof. by intros [= -> -> ->]. Qed.
Lemma facts_body_inj column l k : Forall (fact_ok column) l → Forall (fact_ok column) k → facts_body column l = facts_body column k →
  map fact_fields l = map fact_fields k.
Proof. intros Hl Hk [= E]. eapply (map_inj_to (fact_ok column)); [|done..|exact E]. apply fact_body_inj. Qed.

(** C35: what the API answers of the stored content determines it. Two contents
    of versions (the version's row with its time, the nodes with all their
    contracts, the edges) with equal bodies are equal; so are two lists of
    transitions; and two lists of execution facts whose amounts are amounts of
    their column agree in every column: the times as ISO texts and the amounts
    as decimal texts lose nothing, and no two rows share a body. *)
Theorem responses_lossless (column : decimal → decimal) :
  (∀ v ns es w ms fs, version_ok v → version_ok w → Forall node_ok ns → Forall node_ok ms → content_body v ns es = content_body w ms fs →
    v = w ∧ ns = ms ∧ es = fs) ∧
  (∀ l k, Forall transition_ok l → Forall transition_ok k → transitions_body l = transitions_body k → l = k) ∧
  (∀ l k, Forall (fact_ok column) l → Forall (fact_ok column) k → facts_body column l = facts_body column k → map fact_fields l = map fact_fields k).
Proof.
  split_and!.
  - intros v ns es w ms fs Hv Hw Hn Hm E. assert (version_body v = version_body w ∧ map node_body ns = map node_body ms ∧ map edge_body es = map edge_body fs)
      as (Ev & En & Ee) by exact (content_inj E).
    split_and!; [by apply version_body_inj|by eapply (map_inj_on node_ok); [apply node_body_inj|..]|by eapply map_inj; [apply edge_body_inj|]].
  - intros l k Hl Hk [= E]. eapply (map_inj_on transition_ok); [|done..|exact E]. apply transition_body_inj.
  - apply facts_body_inj.
Qed.
(** A fact of 12.50 planned and 10 done, on a column of two places *)
Definition cents (d : decimal) : decimal := match d with DFin n c (-2) => DFin n c (-2) | DFin n c e => DFin n (c * 10 ^ (e + 2)) (-2) | d => d end.
Definition sample_fact : Z * (ExecutionFact * Z) :=
  (1, ({| ef_tender_id := 7; ef_line := Some 3; planned_qty := Some (DFin false 1250 (-2)); actual_qty := Some (DFin false 1000 (-2));
          deviation_reason := "late delivery"; deviation_category := None; culprit_type := "vendor"; culprit_vendor_name := None; culprit_vendor_id := Some 2;
          evidence_source := "site photo"; observed_at := "2026-03-01T00:00:00+04:00" |}, 1772308800000000)).
Lemma responses_lossless_witness : Forall (fact_ok cents) [sample_fact] ∧
  ∀ k, Forall (fact_ok cents) k → facts_body cents [sample_fact] = facts_body cents k → [fact_fields sample_fact] = map fact_fields k.
Proof.
  assert (Forall (fact_ok cents) [sample_fact]) as H.
  { constructor; [|constructor]. split_and!; [split; [reflexivity|vm_compute; discriminate]|split; [reflexivity|vm_compute; discriminate]|vm_compute; reflexivity]. }
  split; [exact H|]. intros k Hk E. exact (proj2 (proj2 (responses_lossless cents)) [sample_fact] k H Hk E).
Defined.
End Responses.
